(* ===== verification/_CoqProject ===== *)
-Q . S2P
Prelude.v
Algebra.v
AlgebraUtils.v
BigInt.v
IOUtils.v
Network.v
Echo.v
Sigma.v
HashCom.v
Maurer.v
Hagrid.v
FiatShamir.v
RandFischlin.v
Fischlin.v
ZKCompiler.v
SigAnd.v
SigOr.v
SigBytes.v
Session.v
SessionSetup.v
Poly.v
Combinations.v
BitSet.v
Matrix.v
Solver.v
Interp.v
MSP.v
Access.v
Threshold.v
Unanimity.v
CNF.v
Mus.v
BoolExpr.v
Additive.v
Przs.v
KW.v
Feldman.v
Shard.v
Hjky.v
PedCom.v
PedersenVSS.v
Fiat.v
K256Fp.v
K256Fq.v
P256Fp.v
P256Fq.v
PastaFp.v
PastaFq.v
Ed25519Fq.v
Bls12381Fq.v
Bls12381Fp.v
FieldImpl.v
Fields.v
