(* ===== verification/Prelude.v ===== *)
(** * A formal model of bron-crypto

    bron-crypto is a Go library of threshold cryptography.  This development
    translates its core - linear secret sharing and its verifiable forms, the
    commitments and zero-knowledge proofs the protocols use, and the layer that
    carries protocols between parties - into executable definitions, and proves
    the theorems that make them correct.

    ** How code becomes definitions

    A function that returns [(T, error)] becomes one that returns [result T]:
    [Ok], [Err] with the sentinel of the error, or [Panic].  A method that
    changes its receiver is a state transformer ([stateM] below): the changes
    made before an early return remain.  Objects are immutable values; the
    places where the code shares a mutable object between values and a claim
    depends on it carry it in the state.  A nil pointer is [None].  Hash maps
    and sets are [gmap] and [gset]; where the order of their iteration can
    matter it is an argument or the result is shown independent of it.
    [uint64] identifiers are [N]; arithmetic that can wrap is written with its
    modulus.  Interfaces (groups, rings, prime fields, sigma protocols,
    transcripts, readers, transports, access structures) are type classes whose
    members are the methods and the laws their contract promises, so the
    theorems of a client hold for every implementation.  Code that is not in
    the repository is a parameter: the extendable-output and hash functions
    (cSHAKE, SHA3, BLAKE2b), the CBOR codec (with a round-trip law where it is
    used), the random sources and the network transport.

    ** The files

    Base layer:
    - [Prelude]: results, state transformers, loops, sums over loops, lists,
      identifiers, automation; [Algebra], [AlgebraUtils] (base/algebra,
      utils/algebrautils): the algebraic interfaces, a concrete prime field,
      sampling, scalar and multi-scalar multiplication; [BigInt], [IOUtils]
      (utils/ioutils, pkg/hashing): big-endian numbers, framing, readers.
    - [Poly], [Interp] (base/polynomials): polynomials, Lagrange and Vandermonde
      interpolation; [Matrix], [Solver] (base/mat): matrices and Gauss-Jordan
      elimination; [Combinations] (utils/sliceutils), [BitSet]
      (datastructures/bitset).
    Secret sharing (pkg/mpc/sharing):
    - [MSP] (scheme/kw/msp): monotone span programmes; [Access], [Threshold],
      [Unanimity], [CNF], [Mus], [BoolExpr] (accessstructures): access
      structures and the programmes they induce.
    - [Additive], [KW] (scheme): additive and Karchmer-Wigderson sharing;
      [Feldman], [PedersenVSS] (vss) and [PedCom] (commitments/pedersen):
      verifiable sharing; [Shard] (mpc/base.go): key shards.
    Proofs (pkg/proofs) and transcripts:
    - [Sigma] (sigma): the interface of sigma protocols and the interactive
      prover and verifier; [Maurer] (internal/meta/maurer09, dlog/schnorr);
      [SigAnd], [SigOr], [SigBytes] (sigma/compose).
    - [Hagrid] (transcripts/hagrid), [HashCom] (commitments/hashcom);
      [FiatShamir], [RandFischlin], [Fischlin], [ZKCompiler] (sigma/compiler).
    Protocol layer (pkg/network, pkg/mpc):
    - [Network], [Echo]: message routing and echo broadcast; [Session],
      [SessionSetup] (mpc/session): contexts and their set-up; [Przs]
      (mpc/zero/przs).

    The programme of an access structure ([InducedMSP]) feeds KW sharing, whose
    random column is published in the exponent by Feldman and committed to by
    Pedersen sharing.  Sigma protocols are composed by [SigAnd] and [SigOr] and
    made non-interactive over a Hagrid transcript, which a session context
    carries; the protocols of the MPC layer draw on all of them.

    ** The theorems

    - Sharing: a programme accepts exactly the qualified coalitions of its
      structure; accepted shares reconstruct and rejected coalitions learn
      nothing (a bijection of the dealing columns); Feldman and Pedersen
      verification bind the dealer to one column; a shard carries only a share
      that verifies.
    - Linear algebra: the solver decides solvability with a certificate;
      multi-scalar multiplication agrees with its definition.
    - Proofs: completeness, special soundness and simulation of Maurer
      protocols and their preservation by AND and OR composition; the
      interactive participants as state machines: no second response, no
      acceptance without verification; the transcript determines its history;
      the compilers accept what they prove, reject what the sigma protocol
      rejects, and terminate.
    - Protocols: agreement and delivery of the echo broadcast, demultiplexing
      of the router, agreement of session contexts and separation of their
      streams, zero sharing.

    Each theorem with a hypothesis has a witness that applies it to concrete
    data, most often over the field of 101 elements.  Where a search or a loop
    over external input has no structural bound, the definition takes fuel and
    a theorem gives an amount that is enough ([Fischlin_terminates],
    [Router_demultiplexes]); everything else is total.

    ** Not modelled

    Curve and field arithmetic and the big-integer layer (they enter through
    the algebraic interfaces); encryption, signatures and the protocols over
    oblivious transfer; HashCode, String, Clone and accessor methods; runners
    that connect rounds to the router; CBOR encodings beyond their round-trip
    law; timing.  Probabilistic statements are replaced by bijections of the
    randomness. *)

From Stdlib Require Import ZArith Lia.
From stdpp Require Export base tactics numbers list option gmap sorting.

(** [sharing.ID] is a [uint64]. *)
Abbreviation ID := N.

(** ** Errors and the result monad

    A Go function returning [(T, error)] is modelled by a value of
    [result T]: [Ok v] for [(v, nil)], [Err e] for a non-nil error of kind
    [e] (the sentinel the error wraps; the message text is not modelled) and
    [Panic] for a call that panics. *)

Inductive error : Type :=
  | ErrIsNil
  | ErrValue
  | ErrMembership
  | ErrFailed
  | ErrArgument
  | ErrVerification
  | ErrType
  | ErrUnauthorized
  | ErrIsZero
  | ErrIsIdentity
  | ErrOverflow
  | ErrDimension
  | ErrValidation
  | ErrLengthMismatch
  | ErrDivisionByZero
  | ErrOperationNotSupported
  | ErrRandomSample
  | ErrRound
  | ErrInvalidArgument
  | ErrInvalidLength
  | ErrVerificationFailed
  | ErrValidationFails
  | ErrNotAtLeastOneOutOfN
  | ErrNil
  | ErrInvalid
  | ErrLength
  | ErrUnsupportedType
  | ErrMissing
  | ErrReceiveBufferFull
  | ErrDuplicateMessage
  | ErrAbort
  | ErrValidationFailed.

#[export] Instance error_eq_dec : EqDecision error.
Proof. solve_decision. Defined.

Inductive result (A : Type) : Type :=
  | Ok (a : A)
  | Err (e : error)
  | Panic.
Arguments Ok {A} a.
Arguments Err {A} e.
Arguments Panic {A}.

#[export] Instance result_ret : MRet result := @Ok.
#[export] Instance result_bind : MBind result := λ A B f m,
  match m with Ok a => f a | Err e => Err e | Panic => Panic end.
#[export] Instance result_fmap : FMap result := λ A B f m,
  match m with Ok a => Ok (f a) | Err e => Err e | Panic => Panic end.

#[export] Instance result_eq_dec `{EqDecision A} : EqDecision (result A).
Proof. solve_decision. Defined.

(** [is_ok m] is Go's [err == nil]. *)
Definition is_ok {A} (m : result A) : bool :=
  match m with Ok _ => true | _ => false end.

(** An option whose [None] is an error of kind [e]. *)
Definition or_err {A} (o : option A) (e : error) : result A :=
  match o with Some a => Ok a | None => Err e end.

(** A loop whose body may return early with an error. *)
Fixpoint foldM {A B} (f : A → B → result A) (a : A) (l : list B) : result A :=
  match l with
  | [] => Ok a
  | x :: l => a' ← f a x; foldM f a' l
  end.

Lemma and_iff_compat_l' (P Q R : Prop) : (P → Q ↔ R) → P ∧ Q ↔ P ∧ R.
Proof. tauto. Qed.

Lemma foldM_app {A B} (f : A → B → result A) a l k :
  foldM f a (l ++ k) = (a' ← foldM f a l; foldM f a' k).
Proof.
  revert a. induction l as [|x l IH]; intros a; cbn; [done|].
  destruct (f a x); [apply IH|done..].
Qed.

Lemma bind_ok {A B} (m : result A) (f : A → result B) b :
  (m ≫= f) = Ok b ↔ ∃ a, m = Ok a ∧ f a = Ok b.
Proof.
  split.
  - destruct m as [a| |]; cbn; [eauto|done..].
  - by intros (a & -> & H).
Qed.

Lemma or_err_ok {A} (o : option A) e a : or_err o e = Ok a ↔ o = Some a.
Proof. destruct o; cbn; split; congruence. Qed.

Lemma is_ok_true {A} (m : result A) : is_ok m = true ↔ ∃ a, m = Ok a.
Proof.
  destruct m as [a| |]; cbn; split; try done; eauto; by intros [? ?].
Qed.

Lemma if_err_ok {A} (b : bool) e (m : result A) a :
  (if b then Err e else m) = Ok a ↔ b = false ∧ m = Ok a.
Proof. destruct b; split; [done|by intros [? _]|by split|by intros [_ ?]]. Qed.

(** [simplify_res] inverts every [... = Ok _] hypothesis. *)
Ltac simplify_res :=
  repeat match goal with
  | H : _ ≫= _ = Ok _ |- _ => apply bind_ok in H; destruct H as (? & ? & ?)
  | H : mbind _ _ = Ok _ |- _ => apply bind_ok in H; destruct H as (? & ? & ?)
  | H : or_err _ _ = Ok _ |- _ => apply or_err_ok in H
  | H : (if _ then Err _ else _) = Ok _ |- _ => apply if_err_ok in H; destruct H as [? H]
  | H : Ok _ = Ok _ |- _ => injection H as H
  | H : mret _ = Ok _ |- _ => injection H as H
  | H : Err _ = Ok _ |- _ => discriminate H
  | H : Panic = Ok _ |- _ => discriminate H
  end; simplify_eq.

(** [mapM] in the result monad: the pointwise view used everywhere. *)
Lemma mapM_ok {A B} (f : A → result B) (l : list A) (k : list B) :
  mapM f l = Ok k ↔ Forall2 (λ x y, f x = Ok y) l k.
Proof.
  revert k. induction l as [|x l IH]; intros k; cbn.
  - split; [intros [= <-]; constructor|by inversion 1].
  - split.
    + intros H. simplify_res. constructor; [done|by apply IH].
    + inversion 1 as [|? y ? k' Hx Hk]; subst. apply IH in Hk.
      by rewrite Hx; cbn; rewrite Hk.
Qed.

Lemma mapM_ok_map {A B} (f : A → B) (l : list A) :
  mapM (λ x, Ok (f x)) l = Ok (f <$> l).
Proof. apply mapM_ok. induction l; cbn; by constructor. Qed.

(** A loop whose iterations can only fail with [e] fails with [e] as soon as
    one of them does. *)
Lemma mapM_err {A B} (f : A → result B) (l : list A) e x :
  (∀ y, y ∈ l → f y = Err e ∨ is_ok (f y) = true) → x ∈ l → f x = Err e →
  mapM f l = Err e.
Proof.
  intros Hl Hx He. induction l as [|y l IH]; [by apply not_elem_of_nil in Hx|].
  cbn. destruct (Hl y) as [->|[b Hb]%is_ok_true]; [by constructor|done|].
  rewrite Hb. cbn. rewrite IH; [done|intros z Hz; apply Hl; by constructor|].
  apply elem_of_cons in Hx as [->|]; [|done]. congruence.
Qed.

(** The first failing iteration gives the error of the loop. *)
Lemma mapM_first_err {A B} (f : A → result B) (l : list A) x l' e :
  (∀ y, y ∈ l → ∃ z, f y = Ok z) → f x = Err e → mapM f (l ++ x :: l') = Err e.
Proof.
  intros Hl He. induction l as [|y l IH]; cbn.
  - by rewrite He.
  - destruct (Hl y) as [z ->]; [constructor|]. cbn. rewrite IH; [done|].
    intros y' Hy'. apply Hl. by constructor.
Qed.

Lemma mapM_ok_elem {A B} (f : A → result B) (l : list A) k x :
  mapM f l = Ok k → x ∈ l → ∃ y, f x = Ok y.
Proof.
  intros Hk Hx. apply mapM_ok in Hk. apply list_elem_of_lookup_1 in Hx as [i Hi].
  destruct (Forall2_lookup_l _ _ _ _ _ Hk Hi) as (y & _ & Hy). by exists y.
Qed.

Lemma mapM_all_ok {A B} (f : A → result B) (l : list A) y :
  (∀ x, x ∈ l → f x = Ok y) → mapM f l = Ok (replicate (length l) y).
Proof.
  intros Hl. apply mapM_ok. induction l as [|x l IH]; cbn; constructor.
  - apply Hl. constructor.
  - apply IH. intros x' Hx'. apply Hl. by constructor.
Qed.

(** Loops that check every element, and loops that fill a map. *)
Lemma foldM_ext {A B} (f g : A → B → result A) a l :
  (∀ a x, f a x = g a x) → foldM f a l = foldM g a l.
Proof.
  intros Hfg. revert a. induction l as [|x l IH]; intros a; cbn; [done|].
  rewrite Hfg. destruct (g a x); [apply IH|done..].
Qed.
Lemma foldM_unit_ok {A} (f : A → result unit) l :
  foldM (λ _ x, f x) tt l = Ok tt ↔ ∀ x, x ∈ l → f x = Ok tt.
Proof.
  induction l as [|x l IH]; cbn; [split; [by intros _ ? ?%not_elem_of_nil|done]|].
  destruct (f x) as [[]| |] eqn:E; cbn.
  - rewrite IH. split; [intros Ha y [->|Hy]%elem_of_cons; auto|intros Ha y Hy; apply Ha; by right].
  - split; [done|]. intros Ha. rewrite Ha in E; [done|by left].
  - split; [done|]. intros Ha. rewrite Ha in E; [done|by left].
Qed.
Lemma foldM_insert_ok {A V} (f : A → result V) (key : A → ID) `{!Inj (=) (=) key} l (acc r : gmap ID V) :
  foldM (λ r x, v ← f x; Ok (<[key x := v]> r)) acc l = Ok r → NoDup l →
  (∀ x, x ∈ l → ∃ v, f x = Ok v ∧ r !! key x = Some v) ∧
  (∀ id, id ∉ key <$> l → r !! id = acc !! id).
Proof.
  revert acc. induction l as [|x l IH]; intros acc; cbn.
  { intros [= <-] _. split; [by intros ? ?%not_elem_of_nil|done]. }
  destruct (f x) as [v| |] eqn:E; [|done..]. cbn. intros Hr [Hx Hnd]%NoDup_cons.
  destruct (IH _ Hr Hnd) as [H1 H2]. split.
  - intros y [->|Hy]%elem_of_cons; [|by apply H1]. exists v. split; [done|].
    rewrite H2, lookup_insert_eq; [done|]. by intros (z & ->%(inj key) & Hz)%list_elem_of_fmap.
  - intros id [Hne Hid]%not_elem_of_cons. rewrite H2 by done. by rewrite lookup_insert_ne.
Qed.
(** A loop that skips some elements. *)
Lemma foldM_skip {A B} (b : B → bool) (g : A → B → result A) a l :
  foldM (λ a x, if b x then Ok a else g a x) a l = foldM g a (filter (λ x, b x = false) l).
Proof.
  revert a. induction l as [|x l IH]; intros a; [done|]. cbn [foldM]. rewrite filter_cons.
  destruct (b x) eqn:E; case_decide; try done; [apply IH|].
  cbn [foldM mbind result_bind]. destruct (g a x); [apply IH|done..].
Qed.
Lemma foldM_insert_total {A V} (f : A → result V) (key : A → ID) l (acc : gmap ID V) :
  (∀ x, x ∈ l → is_ok (f x) = true) →
  ∃ r, foldM (λ r x, v ← f x; Ok (<[key x := v]> r)) acc l = Ok r.
Proof.
  revert acc. induction l as [|x l IH]; intros acc Hall; cbn; [by eauto|].
  destruct (proj1 (is_ok_true _) (Hall x ltac:(by left))) as [v ->]. cbn. apply IH.
  intros y Hy. apply Hall. by right.
Qed.
(** ** Calls on a state

    A method that changes its receiver and may fail: the changes made before
    an early return remain. *)
Definition stateM (T A : Type) : Type := T → T * result A.
#[export] Instance state_ret T : MRet (stateM T) := λ A a t, (t, Ok a).
#[export] Instance state_bind T : MBind (stateM T) := λ A B f m t,
  match m t with
  | (t, Ok a) => f a t
  | (t, Err e) => (t, Err e)
  | (t, Panic) => (t, Panic)
  end.
Definition lift {T A} (r : result A) : stateM T A := λ t, (t, r).
Definition fail {T A} (e : error) : stateM T A := λ t, (t, Err e).
Definition gets {T A} (f : T → A) : stateM T A := λ t, (t, Ok (f t)).
Definition modify {T} (f : T → T) : stateM T unit := λ t, (f t, Ok tt).
(** [if !b { return err }]. *)
Definition ensure {T} (b : bool) (e : error) : stateM T unit := if b then mret tt else fail e.
(** A call that updates one field; a failed call leaves it as it was. *)
Definition zoom {T S A} (get : T → S) (put : S → T → T) (f : S → result (A * S)) : stateM T A :=
  λ t, match f (get t) with
       | Ok (a, s) => (put s t, Ok a)
       | Err e => (t, Err e)
       | Panic => (t, Panic)
       end.
(** Loops over the elements of a slice, with an accumulator or without. *)
Fixpoint foldS {T A B} (f : B → A → stateM T B) (b : B) (l : list A) : stateM T B :=
  match l with
  | [] => mret b
  | x :: l => b ← f b x; foldS f b l
  end.
Fixpoint forM {T A} (f : A → stateM T unit) (l : list A) : stateM T unit :=
  match l with
  | [] => mret tt
  | x :: l => _ ← f x; forM f l
  end.

Lemma state_bind_ok {T A B} (m : stateM T A) (f : A → stateM T B) t t' b :
  (m ≫= f) t = (t', Ok b) ↔ ∃ a t1, m t = (t1, Ok a) ∧ f a t1 = (t', Ok b).
Proof.
  unfold mbind, state_bind. split.
  - destruct (m t) as [t1 [a|e|]]; [eauto|done..].
  - by intros (a & t1 & -> & E).
Qed.
Lemma lift_ok {T A} (r : result A) (t t' : T) a : lift r t = (t', Ok a) ↔ r = Ok a ∧ t' = t.
Proof. unfold lift. split; [by intros [= <- ->]|by intros [-> ->]]. Qed.
(** Invariants of loops: of the elements done so far and the state. *)
Lemma foldS_inv {T A B} (I : list A → B → T → Prop) (f : B → A → stateM T B) b l t t' b' :
  I [] b t →
  (∀ pre x post b t b' t', l = pre ++ x :: post → I pre b t → f b x t = (t', Ok b') → I (pre ++ [x]) b' t') →
  foldS f b l t = (t', Ok b') → I l b' t'.
Proof.
  intros H0 Hstep. assert (∀ pre post b t, l = pre ++ post → I pre b t →
    foldS f b post t = (t', Ok b') → I l b' t') as Hgo; [|by apply (Hgo [])].
  intros pre post. revert pre. induction post as [|x post IH]; intros pre c s El HI; cbn [foldS].
  { intros [= -> ->]. by rewrite El, app_nil_r. }
  intros (c1 & s1 & E1 & E2)%state_bind_ok. apply (IH (pre ++ [x]) c1 s1); [by rewrite <-app_assoc| |done].
  by eapply Hstep.
Qed.
Lemma forM_inv {T A} (I : list A → T → Prop) (f : A → stateM T unit) l t t' u :
  I [] t →
  (∀ pre x post t t', l = pre ++ x :: post → I pre t → f x t = (t', Ok tt) → I (pre ++ [x]) t') →
  forM f l t = (t', Ok u) → I l t'.
Proof.
  intros H0 Hstep. assert (∀ pre post t, l = pre ++ post → I pre t →
    forM f post t = (t', Ok u) → I l t') as Hgo; [|by apply (Hgo [])].
  intros pre post. revert pre. induction post as [|x post IH]; intros pre s El HI; cbn [forM].
  { intros [= ->]. by rewrite El, app_nil_r. }
  intros ([] & s1 & E1 & E2)%state_bind_ok. apply (IH (pre ++ [x]) s1); [by rewrite <-app_assoc| |done].
  by eapply Hstep.
Qed.
Lemma gets_ok {T A} (f : T → A) t t' a : gets f t = (t', Ok a) ↔ a = f t ∧ t' = t.
Proof. unfold gets. split; [by intros [= <- <-]|by intros [-> ->]]. Qed.
Lemma modify_ok {T} (f : T → T) t t' u : modify f t = (t', Ok u) ↔ t' = f t.
Proof. destruct u. unfold modify. split; [by intros [= <-]|by intros ->]. Qed.
Lemma ensure_ok {T} b e (t t' : T) u : ensure b e t = (t', Ok u) ↔ b = true ∧ t' = t.
Proof. destruct b, u; cbn; split; try done; [by intros [= <-]|by intros [_ ->]|by intros [[=] _]]. Qed.
Lemma zoom_ok {T S A} (get : T → S) (put : S → T → T) (f : S → result (A * S)) t t' a :
  zoom get put f t = (t', Ok a) ↔ ∃ s, f (get t) = Ok (a, s) ∧ t' = put s t.
Proof. unfold zoom. destruct (f (get t)) as [[b s]| |]; split; naive_solver. Qed.
Lemma ret_ok {T A} (a a' : A) (t t' : T) : mret (M := stateM T) a t = (t', Ok a') ↔ a' = a ∧ t' = t.
Proof. split; [by intros [= <- <-]|by intros [-> ->]]. Qed.
(** [step_state H] inverts the calls of a successful method one by one. *)
Ltac step_state H :=
  repeat match type of H with
  | mbind _ _ _ = (_, Ok _) =>
      let a := fresh "a" in let t := fresh "t" in let H1 := fresh H in
      apply state_bind_ok in H as (a & t & H1 & H); step_state H1
  | lift _ _ = (_, Ok _) => apply lift_ok in H as [H ->]
  | gets _ _ = (_, Ok _) => apply gets_ok in H as [H ->]; simplify_eq
  | modify _ _ = (_, Ok _) => apply modify_ok in H as ->
  | ensure _ _ _ = (_, Ok _) => apply ensure_ok in H as [H ->]
  | zoom _ _ _ _ = (_, Ok _) =>
      let s := fresh "s" in apply zoom_ok in H as (s & H & ->)
  | mret _ _ = (_, Ok _) => apply ret_ok in H as [H ->]; simplify_eq
  end.

(** ** Iterated operations

    [big op e n f] is the Go loop
    [acc := e; for i := range n { acc = op(acc, f(i)) }], and [lbig] the
    same loop over the elements of a slice. *)

Fixpoint big {M} (op : M → M → M) (e : M) (n : nat) (f : nat → M) : M :=
  match n with
  | 0 => e
  | S n => op (big op e n f) (f n)
  end.

Definition lbig {M A} (op : M → M → M) (e : M) (f : A → M) (l : list A) : M :=
  foldl (λ acc x, op acc (f x)) e l.

Section big.
Context {M : Type} (op : M → M → M) (e : M).
Implicit Types (f g : nat → M).

Lemma big_ext n f g :
  (∀ i, i < n → f i = g i) → big op e n f = big op e n g.
Proof.
  induction n as [|n IH]; intros H; cbn; [done|].
  rewrite IH, H; [done|lia|]. intros; apply H; lia.
Qed.

Context (op_id_l : ∀ x, op e x = x) (op_id_r : ∀ x, op x e = x)
  (op_assoc : ∀ x y z, op x (op y z) = op (op x y) z).

Lemma big_id n : big op e n (λ _, e) = e.
Proof. induction n as [|n IH]; cbn; [done|]. by rewrite IH. Qed.

Lemma big_id_ext n f : (∀ i, i < n → f i = e) → big op e n f = e.
Proof. intros H. rewrite (big_ext n f (λ _, e)) by done. apply big_id. Qed.

Lemma big_split n k f :
  big op e (n + k) f = op (big op e n f) (big op e k (λ i, f (n + i))).
Proof.
  induction k as [|k IH]; cbn.
  - by rewrite Nat.add_0_r, op_id_r.
  - rewrite Nat.add_succ_r; cbn. by rewrite IH, op_assoc.
Qed.

Lemma big_head n f :
  big op e (S n) f = op (f 0) (big op e n (λ i, f (S i))).
Proof.
  change (S n) with (1 + n). rewrite big_split. cbn. by rewrite op_id_l.
Qed.

Lemma big_single n k f :
  k < n → (∀ i, i < n → i ≠ k → f i = e) → big op e n f = f k.
Proof.
  induction n as [|n IH]; intros Hk H; [lia|]. cbn.
  destruct (decide (k = n)) as [->|Hne].
  - rewrite big_id_ext; [apply op_id_l|]. intros; apply H; lia.
  - rewrite IH by (lia || intros; apply H; lia).
    rewrite (H n) by lia. apply op_id_r.
Qed.

Context (op_comm : ∀ x y, op x y = op y x).

Lemma big_op n f g :
  big op e n (λ i, op (f i) (g i)) = op (big op e n f) (big op e n g).
Proof.
  induction n as [|n IH]; cbn; [by rewrite op_id_r|].
  rewrite IH, !op_assoc. f_equal. rewrite <-!op_assoc. f_equal. apply op_comm.
Qed.

Lemma big_swap n k (f : nat → nat → M) :
  big op e n (λ i, big op e k (f i)) = big op e k (λ j, big op e n (λ i, f i j)).
Proof.
  induction n as [|n IH]; cbn; [by rewrite big_id|].
  by rewrite IH, <-big_op.
Qed.

Lemma lbig_big {A} `{!Inhabited A} (h : A → M) (l : list A) :
  lbig op e h l = big op e (length l) (λ i, h (l !!! i)).
Proof.
  unfold lbig.
  assert (∀ acc, foldl (λ acc x, op acc (h x)) acc l
    = op acc (big op e (length l) (λ i, h (l !!! i)))) as H.
  { induction l as [|x l IH]; intros acc; cbn [foldl length].
    - cbn. by rewrite op_id_r.
    - rewrite IH, big_head, op_assoc. done. }
  by rewrite H, op_id_l.
Qed.

Lemma lbig_cons {A} (h : A → M) x (l : list A) :
  lbig op e h (x :: l) = op (h x) (lbig op e h l).
Proof.
  unfold lbig; cbn.
  assert (∀ acc, foldl (λ acc x, op acc (h x)) acc l
    = op acc (foldl (λ acc x, op acc (h x)) e l)) as H.
  { induction l as [|y l IH]; intros acc; cbn; [by rewrite op_id_r|].
    rewrite (IH (op acc _)), (IH (op e _)), op_id_l. by rewrite op_assoc. }
  rewrite H. by rewrite op_id_l.
Qed.

Lemma lbig_perm {A} (h : A → M) (l k : list A) :
  l ≡ₚ k → lbig op e h l = lbig op e h k.
Proof.
  induction 1 as [|x l k _ IH|x y l|l k m _ IH1 _ IH2].
  - done.
  - by rewrite !lbig_cons, IH.
  - rewrite !lbig_cons, !op_assoc. f_equal. apply op_comm.
  - by rewrite IH1.
Qed.
End big.

(** ** Lists *)

(** [tabulate n f] is [f 0 .. f (n-1)]: a slice filled by a loop. *)
Definition tabulate {A} (n : nat) (f : nat → A) : list A := f <$> seq 0 n.

Lemma length_tabulate {A} n (f : nat → A) : length (tabulate n f) = n.
Proof. unfold tabulate. by rewrite length_fmap, length_seq. Qed.

Lemma lookup_tabulate {A} n (f : nat → A) i :
  i < n → tabulate n f !! i = Some (f i).
Proof.
  intros H. unfold tabulate.
  by rewrite list_lookup_fmap, lookup_seq_lt.
Qed.

Lemma tabulate_lookup_total {A} `{!Inhabited A} n (f : nat → A) i :
  i < n → tabulate n f !!! i = f i.
Proof. intros H. by apply list_lookup_total_correct, lookup_tabulate. Qed.

Lemma tabulate_ext {A} n (f g : nat → A) :
  (∀ i, i < n → f i = g i) → tabulate n f = tabulate n g.
Proof.
  intros H. apply list_eq_same_length with n; rewrite ?length_tabulate; [done..|].
  intros i x y Hi. rewrite !lookup_tabulate by done. intros [= <-] [= <-]; auto.
Qed.

(** Two slices of the same length with the same entries are equal. *)
Lemma list_eq_total {A} `{!Inhabited A} (l k : list A) :
  length l = length k → (∀ i, i < length l → l !!! i = k !!! i) → l = k.
Proof.
  intros Hlen H. apply list_eq_same_length with (length k); [done..|].
  intros i x y Hi Hx Hy. rewrite <-(list_lookup_total_correct l i x Hx).
  rewrite <-(list_lookup_total_correct k i y Hy). apply H. lia.
Qed.

Lemma tabulate_total {A} `{!Inhabited A} (l : list A) :
  tabulate (length l) (λ i, l !!! i) = l.
Proof.
  apply list_eq_total; rewrite length_tabulate; [done|].
  intros i Hi. by rewrite tabulate_lookup_total by done.
Qed.

Lemma not_NoDup_lookup {A} `{!Inhabited A, !EqDecision A} (l : list A) :
  ¬ NoDup l → ∃ i j, i < length l ∧ j < length l ∧ i ≠ j ∧ l !!! i = l !!! j.
Proof.
  induction l as [|x l IH]; intros Hnd; [destruct Hnd; constructor|].
  destruct (decide (x ∈ l)) as [[j [Hj Hx]]%list_elem_of_lookup_total_1|Hx].
  - exists 0, (S j). cbn. split_and!; [lia|lia|done|done].
  - destruct IH as (i & j & Hi & Hj & Hij & E); [intros Hl; destruct Hnd; by constructor|].
    exists (S i), (S j). cbn. split_and!; [lia|lia|congruence|done].
Qed.

Lemma elem_of_list_delete {A} (l : list A) i x :
  x ∈ delete i l → ∃ j, j ≠ i ∧ l !! j = Some x.
Proof.
  intros [j Hj]%list_elem_of_lookup_1. destruct (decide (j < i)).
  - exists j. rewrite list_lookup_delete_lt in Hj by done. split; [lia|done].
  - exists (S j). rewrite list_lookup_delete_ge in Hj by lia. split; [lia|done].
Qed.

Lemma list_bind_ext_elem {A B} (f g : A → list B) (l : list A) :
  (∀ x, x ∈ l → f x = g x) → l ≫= f = l ≫= g.
Proof.
  induction l as [|x l IH]; intros Hfg; [done|]. cbn. rewrite (Hfg x) by (by left). f_equal.
  apply IH. intros y Hy. apply Hfg. by right.
Qed.
Lemma foldl_bind {A B C} (f : C → B → C) (g : A → list B) (l : list A) (c : C) :
  foldl f c (x ← l; g x) = foldl (λ c x, foldl f c (g x)) c l.
Proof.
  revert c. induction l as [|x l IH]; intros c; [done|].
  cbn. rewrite foldl_app. apply IH.
Qed.

(** A loop that writes the same value at the indices [g i]. *)
Lemma foldl_insert_const {A} `{!Inhabited A} (g : nat → nat) (x : A) (l : list nat) (v : list A) :
  (∀ i, i ∈ l → g i < length v) →
  let v' := foldl (λ v i, <[g i := x]> v) v l in
  length v' = length v ∧
  ∀ k, v' !!! k = if decide (k ∈ g <$> l) then x else v !!! k.
Proof.
  induction l as [|i l IH] using rev_ind; intros Hl; cbn zeta.
  { split; [done|]. intros k. rewrite decide_False; [done|]. apply not_elem_of_nil. }
  destruct IH as [IHl IH]; [intros j Hj; apply Hl; apply elem_of_app; by left|].
  rewrite foldl_app. cbn [foldl]. split; [by rewrite length_insert|]. intros k.
  rewrite fmap_app. destruct (decide (k = g i)) as [->|Hne].
  - rewrite list_lookup_total_insert_eq.
    + rewrite decide_True; [done|]. apply elem_of_app. right. by apply list_elem_of_singleton.
    + rewrite IHl. apply Hl, elem_of_app. right. by apply list_elem_of_singleton.
  - rewrite list_lookup_total_insert_ne, IH by done. apply decide_ext.
    rewrite elem_of_app. cbn. rewrite list_elem_of_singleton. naive_solver.
Qed.

(** ** Identifiers

    [slices.Sort] on IDs; a Go set is iterated in an order the code does not
    fix, and where the order matters the code sorts the elements first. *)
Definition sort_ids (l : list ID) : list ID := merge_sort N.le l.

Lemma sorted_elements_elem (s : gset ID) id : id ∈ sort_ids (elements s) ↔ id ∈ s.
Proof. unfold sort_ids. by rewrite merge_sort_Permutation, elem_of_elements. Qed.

Lemma sorted_elements_NoDup (s : gset ID) : NoDup (sort_ids (elements s)).
Proof. unfold sort_ids. rewrite merge_sort_Permutation. apply NoDup_elements. Qed.

Lemma sorted_elements_length (s : gset ID) : length (sort_ids (elements s)) = size s.
Proof. unfold sort_ids. by rewrite merge_sort_Permutation. Qed.

Lemma sorted_elements_set (s : gset ID) : list_to_set (sort_ids (elements s)) = s.
Proof.
  apply set_eq. intros id. by rewrite elem_of_list_to_set, sorted_elements_elem.
Qed.

Create HintDb bron.
Create Rewrite HintDb bron_len.
#[export] Hint Rewrite @length_tabulate @length_fmap @length_seq @length_app
  @length_replicate @length_insert : bron_len.
#[export] Hint Rewrite @tabulate_lookup_total using lia : bron_len.

(** The same, through results that are pairs. *)
Ltac step_states H :=
  repeat (progress step_state H ||
    match type of H with
    | (let '(_, _) := ?a in _) _ = _ => let x := fresh "a" in let y := fresh "b" in destruct a as [x y]
    end).

(** Two listings of the same keys, each with its values, list the same
    values. *)
Lemma Forall2_functional {A B} (R : A → B → Prop) l k k' :
  (∀ x y y', R x y → R x y' → y = y') → Forall2 R l k → Forall2 R l k' → k = k'.
Proof.
  intros HR Hk. revert k'. induction Hk as [|x y l k Hxy _ IH]; intros k' Hk'; inversion Hk'; subst; [done|].
  f_equal; [by eapply HR|by apply IH].
Qed.
Lemma Forall2_functional_perm {A B} (R : A → B → Prop) l l' k k' :
  (∀ x y y', R x y → R x y' → y = y') → Forall2 R l k → Forall2 R l' k' → l ≡ₚ l' → k ≡ₚ k'.
Proof.
  intros HR Hk Hk' Hl. destruct (Permutation_Forall2 Hl Hk) as (k2 & Hp & Hk2).
  rewrite Hp. by rewrite (Forall2_functional R l' k2 k').
Qed.
Lemma Forall2_impl_in {A B} (R R' : A → B → Prop) l k :
  Forall2 R l k → (∀ x y, x ∈ l → R x y → R' x y) → Forall2 R' l k.
Proof.
  induction 1 as [|x y l k Hxy _ IH]; intros HR; constructor; [by apply HR; [left|]|].
  apply IH. intros x' y' Hx'. apply HR. by right.
Qed.
Lemma Forall2_both {A B} (R R' : A → B → Prop) l k x :
  Forall2 R l k → Forall2 R' l k → x ∈ l → ∃ y, R x y ∧ R' x y.
Proof.
  intros HR HR' [i Hi]%list_elem_of_lookup. destruct (Forall2_lookup_l _ _ _ _ _ HR Hi) as (y & Hy & HRy).
  destruct (Forall2_lookup_l _ _ _ _ _ HR' Hi) as (y' & Hy' & HRy'). exists y. split; [done|]. congruence.
Qed.
