(* ===== verification/Algebra.v ===== *)
(** * Algebraic interfaces (pkg/base/algebra, pkg/base/algebra/crtp)

    The generic code of the repository is written against the interfaces
    [algebra.GroupElement], [algebra.RingElement], [algebra.FieldElement],
    [algebra.PrimeField] and [algebra.ModuleElement].  Each interface is a
    type class: its methods are the fields and the laws its implementations
    promise are class members, so client theorems are proved once for every
    implementation.  [Zp] is the concrete prime field used to evaluate the
    models. *)

From Stdlib Require Import ZArith Lia Ring Field Zmod.
From S2P Require Import Prelude.

Declare Scope alg_scope.
Delimit Scope alg_scope with alg.

(** [algebra.GroupElement]: [Op], [OpInv], [OpIdentity], [Equal].  Every
    group of the repository that secrets live in is commutative. *)
Class GroupElement (E : Type) := {
  gid : E;
  gop : E → E → E;
  ginv : E → E;
  group_eq_dec :: EqDecision E;
  gop_assoc : ∀ x y z, gop x (gop y z) = gop (gop x y) z;
  gop_comm : ∀ x y, gop x y = gop y x;
  gop_id_l : ∀ x, gop gid x = x;
  gop_inv_l : ∀ x, gop (ginv x) x = gid;
}.

(** [algebra.RingElement]: [Add], [Sub], [Neg], [Mul], [Zero], [One],
    [Equal]; commutative rings with decidable equality. *)
Class RingElement (R : Type) := {
  rzero : R;
  rone : R;
  radd : R → R → R;
  rmul : R → R → R;
  rsub : R → R → R;
  rneg : R → R;
  ring_eq_dec :: EqDecision R;
  ring_laws : ring_theory rzero rone radd rmul rsub rneg (@eq R);
}.

(** [IsZero] and [IsOne]. *)
Definition is_zero `{RingElement R} (x : R) : bool := bool_decide (x = rzero).
Definition is_one `{RingElement R} (x : R) : bool := bool_decide (x = rone).

(** [algebra.FieldElement]: a ring whose [TryInv] succeeds exactly on the
    non-zero elements. *)
Class FieldElement (F : Type) := {
  field_ring :: RingElement F;
  try_inv : F → result F;
  one_ne_zero : rone ≠ (rzero : F);
  try_inv_zero : try_inv rzero = Err ErrFailed;
  try_inv_ok : ∀ x : F, x ≠ rzero → ∃ y, try_inv x = Ok y ∧ rmul y x = rone;
}.

(** [TryDiv]: multiplication by the inverse, an error on a zero divisor. *)
Definition try_div `{FieldElement F} (x y : F) : result F :=
  i ← try_inv y; Ok (rmul x i).

(** [algebra.PrimeField]: [FromUint64] is the reduction of the integers and
    [Order] the (prime) number of elements. *)
Class PrimeField (F : Type) := {
  prime_field :: FieldElement F;
  order : Z;
  from_uint64 : Z → F;
  from_uint64_0 : from_uint64 0 = rzero;
  from_uint64_1 : from_uint64 1 = rone;
  from_uint64_add : ∀ a b, from_uint64 (a + b) = radd (from_uint64 a) (from_uint64 b);
  from_uint64_mul : ∀ a b, from_uint64 (a * b) = rmul (from_uint64 a) (from_uint64 b);
  from_uint64_eq_0 : ∀ a, from_uint64 a = rzero ↔ (order | a)%Z;
  order_pos : (0 < order)%Z;
}.

(** [algebra.ModuleElement[E, S]]: the scalar action [ScalarOp]. *)
Class ModuleElement (R E : Type) `{RingElement R} := {
  module_group :: GroupElement E;
  scalar_op : E → R → E;
  scalar_op_add_l : ∀ x y r, scalar_op (gop x y) r = gop (scalar_op x r) (scalar_op y r);
  scalar_op_add_r : ∀ x r s, scalar_op x (radd r s) = gop (scalar_op x r) (scalar_op x s);
  scalar_op_mul : ∀ x r s, scalar_op x (rmul r s) = scalar_op (scalar_op x r) s;
  scalar_op_1 : ∀ x, scalar_op x rone = x;
}.

(** [algebra.PrimeGroup]: a group of prime order [Order] written as a vector
    space of dimension one over its scalar field; [Generator] generates it. *)
Class PrimeGroup (F E : Type) `{PrimeField F} := {
  prime_group_module :: ModuleElement F E;
  generator : E;
  generator_cyclic : ∀ x : E, ∃ a : F, x = scalar_op generator a;
  generator_free : ∀ a : F, scalar_op generator a = gid → a = rzero;
}.

Infix "+" := radd : alg_scope.
Infix "*" := rmul : alg_scope.
Infix "-" := rsub : alg_scope.
Notation "- x" := (rneg x) : alg_scope.
Notation "0" := rzero : alg_scope.
Notation "1" := rone : alg_scope.
Infix "•" := scalar_op (at level 40, left associativity) : alg_scope.
Infix "⊕" := gop (at level 50, left associativity) : alg_scope.

(** Sums: the accumulation loops [sum = sum.Add(f(i))] and
    [acc = acc.Op(f(i))]. *)
Abbreviation rsum := (big radd rzero).
Abbreviation gsum := (big gop gid).
Abbreviation rprod := (big rmul rone).

#[export] Instance group_inhabited `{GroupElement E} : Inhabited E := populate gid.

Section ring.
Context `{RingElement R}.
Add Ring R_ring : (ring_laws (R:=R)).
Local Open Scope alg_scope.
Implicit Types (x y z : R) (f g : nat → R).

Lemma radd_0_l x : 0 + x = x. Proof. ring. Qed.
Lemma radd_0_r x : x + 0 = x. Proof. ring. Qed.
Lemma radd_assoc x y z : x + (y + z) = (x + y) + z. Proof. ring. Qed.
Lemma radd_comm x y : x + y = y + x. Proof. ring. Qed.
Lemma rmul_1_l x : 1 * x = x. Proof. ring. Qed.
Lemma rmul_1_r x : x * 1 = x. Proof. ring. Qed.
Lemma rmul_0_l x : 0 * x = 0. Proof. ring. Qed.
Lemma rmul_0_r x : x * 0 = 0. Proof. ring. Qed.
Lemma rmul_assoc x y z : x * (y * z) = (x * y) * z. Proof. ring. Qed.
Lemma rmul_comm x y : x * y = y * x. Proof. ring. Qed.
Lemma rsub_0 x y : x - y = 0 → x = y.
Proof. intros E. replace x with ((x - y) + y) by ring. rewrite E. ring. Qed.

Lemma rsub_0_eq x y : x = y → x - y = 0.
Proof. intros ->. ring. Qed.

Lemma is_zero_true x : is_zero x = true ↔ x = 0.
Proof. apply bool_decide_eq_true. Qed.
Lemma is_zero_false x : is_zero x = false ↔ x ≠ 0.
Proof. apply bool_decide_eq_false. Qed.

Lemma rsum_ext n f g : (∀ i, (i < n)%nat → f i = g i) → rsum n f = rsum n g.
Proof. apply big_ext. Qed.
Lemma rsum_0_ext n f : (∀ i, (i < n)%nat → f i = 0) → rsum n f = 0.
Proof. apply big_id_ext; intros; ring. Qed.
Lemma rsum_add n f g : rsum n (λ i, f i + g i) = rsum n f + rsum n g.
Proof. apply big_op; intros; ring. Qed.
Lemma rsum_mul_l n x f : x * rsum n f = rsum n (λ i, x * f i).
Proof. induction n as [|n IH]; cbn; [ring|]. rewrite <-IH. ring. Qed.
Lemma rsum_mul_r n x f : rsum n f * x = rsum n (λ i, f i * x).
Proof. induction n as [|n IH]; cbn; [ring|]. rewrite <-IH. ring. Qed.
Lemma rsum_neg n f : - rsum n f = rsum n (λ i, - f i).
Proof. induction n as [|n IH]; cbn; [ring|]. rewrite <-IH. ring. Qed.
Lemma rsum_sub n f g : rsum n (λ i, f i - g i) = rsum n f - rsum n g.
Proof. induction n as [|n IH]; cbn; [ring|]. rewrite IH. ring. Qed.
Lemma rsum_swap n m (f : nat → nat → R) :
  rsum n (λ i, rsum m (f i)) = rsum m (λ j, rsum n (λ i, f i j)).
Proof. apply big_swap; intros; ring. Qed.
Lemma rsum_single n k f :
  (k < n)%nat → (∀ i, (i < n)%nat → i ≠ k → f i = 0) → rsum n f = f k.
Proof. apply big_single; intros; ring. Qed.
Lemma rsum_split n m f :
  rsum (n + m)%nat f = rsum n f + rsum m (λ i, f (n + i)%nat).
Proof. apply big_split; intros; ring. Qed.
Lemma rsum_head n f : rsum (S n) f = f 0%nat + rsum n (λ i, f (S i)).
Proof. apply big_head; intros; ring. Qed.
(** Summing by the fibres of [g]. *)
Lemma rsum_fibres n k (g : nat → nat) f :
  (∀ i, (i < n)%nat → (g i < k)%nat) →
  rsum k (λ b, rsum n (λ i, if decide (g i = b) then f i else 0)) = rsum n f.
Proof.
  intros Hg. rewrite rsum_swap. apply rsum_ext. intros i Hi.
  rewrite (rsum_single k (g i)); [by rewrite decide_True|auto|].
  intros b _ Hne. by rewrite decide_False.
Qed.

Lemma rsum_delta n k f :
  (k < n)%nat → rsum n (λ i, (if decide (i = k) then 1 else 0) * f i) = f k.
Proof.
  intros Hk. rewrite (rsum_single n k) by
    (done || intros; rewrite decide_False by done; ring).
  rewrite decide_True by done. ring.
Qed.
Lemma rprod_ext n f g : (∀ i, (i < n)%nat → f i = g i) → rprod n f = rprod n g.
Proof. apply big_ext. Qed.
Lemma rprod_0 n f k : (k < n)%nat → f k = 0 → rprod n f = 0.
Proof.
  induction n as [|n IH]; intros Hk E; [lia|]. cbn.
  destruct (decide (k = n)) as [->|]; [rewrite E; ring|].
  rewrite IH by (done || lia). ring.
Qed.
Lemma rprod_mul n f g : rprod n (λ i, f i * g i) = rprod n f * rprod n g.
Proof. apply big_op; intros; ring. Qed.

(** The additive group of a ring ([Op] is [Add]) and the ring as a module
    over itself ([ScalarOp] is [Mul]). *)
#[refine] Global Instance ring_group : GroupElement R :=
  {| gid := 0; gop := radd; ginv := rneg |}.
Proof. all: intros; ring. Defined.
#[refine] Global Instance ring_module : ModuleElement R R :=
  {| module_group := ring_group; scalar_op := rmul |}.
Proof. all: cbn; intros; ring. Defined.
End ring.

Create Rewrite HintDb bron_alg.
#[export] Hint Rewrite @radd_0_l @radd_0_r @rmul_1_l @rmul_1_r @rmul_0_l @rmul_0_r
  : bron_alg.

Section field.
Context `{FieldElement F}.
Local Open Scope alg_scope.
Add Ring F_ring : (ring_laws (R:=F)).
Implicit Types (x y z : F).

(** A total inverse, for the [field] tactic: [0] where [TryInv] errs. *)
Definition inv0 (x : F) : F := match try_inv x with Ok y => y | _ => 0 end.
Definition div0 (x y : F) : F := x * inv0 y.

Lemma inv0_l x : x ≠ 0 → inv0 x * x = 1.
Proof. intros (y & E & Hy)%try_inv_ok. unfold inv0. by rewrite E. Qed.
Lemma try_inv_inv0 x : x ≠ 0 → try_inv x = Ok (inv0 x).
Proof. intros (y & E & Hy)%try_inv_ok. unfold inv0. by rewrite E. Qed.

Lemma field_laws :
  field_theory 0 1 radd rmul rsub rneg div0 inv0 (@eq F).
Proof.
  split; [apply ring_laws|apply one_ne_zero|done|apply inv0_l].
Qed.
Add Field F_field : field_laws.

Lemma rmul_eq_0 x y : x * y = 0 → x = 0 ∨ y = 0.
Proof.
  intros E. destruct (decide (x = 0)) as [|Hx]; [by left|right].
  replace y with (inv0 x * (x * y)) by (field; done). rewrite E. ring.
Qed.
Lemma rmul_ne_0 x y : x ≠ 0 → y ≠ 0 → x * y ≠ 0.
Proof. intros ?? [|]%rmul_eq_0; done. Qed.
Lemma inv0_ne_0 x : x ≠ 0 → inv0 x ≠ 0.
Proof.
  intros Hx E. apply one_ne_zero. rewrite <-(inv0_l x Hx), E. ring.
Qed.
Lemma rprod_ne_0 n f : (∀ i, (i < n)%nat → f i ≠ 0) → rprod n f ≠ (0 : F).
Proof.
  induction n as [|n IH]; intros Hf; cbn; [apply one_ne_zero|].
  apply rmul_ne_0; [apply IH; auto|apply Hf; lia].
Qed.
Lemma try_inv_err x e : try_inv x = Err e → x = 0.
Proof.
  intros E. destruct (decide (x = 0)) as [|Hx]; [done|].
  destruct (try_inv_ok x Hx) as (y & E' & _). congruence.
Qed.
Lemma try_inv_Ok x y : try_inv x = Ok y → x ≠ 0 ∧ y = inv0 x.
Proof.
  intros E. split; [|by unfold inv0; rewrite E].
  intros ->. by rewrite try_inv_zero in E.
Qed.
Lemma try_div_ok x y : y ≠ 0 → try_div x y = Ok (div0 x y).
Proof. intros Hy. unfold try_div. by rewrite try_inv_inv0. Qed.
Lemma try_div_zero x : try_div x 0 = Err ErrFailed.
Proof. unfold try_div. by rewrite try_inv_zero. Qed.
Lemma try_div_Ok x y z : try_div x y = Ok z → y ≠ 0 ∧ z = div0 x y.
Proof.
  unfold try_div. intros E. simplify_res.
  match goal with E : try_inv _ = Ok _ |- _ => apply try_inv_Ok in E as [? ->] end.
  done.
Qed.
End field.

Section prime_field.
Context `{PrimeField F}.
Local Open Scope alg_scope.
Add Ring PF_ring : (ring_laws (R:=F)).

Lemma from_uint64_sub a b : from_uint64 (a - b) = from_uint64 a - (from_uint64 b : F).
Proof.
  assert (from_uint64 (a - b) + from_uint64 b = (from_uint64 a : F)) as E.
  { rewrite <-from_uint64_add. f_equal. lia. }
  rewrite <-E. ring.
Qed.

(** [FromUint64] identifies integers modulo the field order. *)
Lemma from_uint64_inj a b :
  from_uint64 a = (from_uint64 b : F) ↔ (order | a - b)%Z.
Proof.
  rewrite <-from_uint64_eq_0, from_uint64_sub. split.
  - intros ->. ring.
  - apply rsub_0.
Qed.

Lemma from_uint64_inj_small a b :
  (0 ≤ a < order)%Z → (0 ≤ b < order)%Z →
  from_uint64 a = (from_uint64 b : F) → a = b.
Proof.
  intros Ha Hb [k E]%from_uint64_inj. assert (k = 0)%Z by nia. nia.
Qed.

(** The order is prime: it is coprime to every integer it does not divide. *)
Lemma order_coprime d : ¬ (order | d)%Z → Z.gcd order d = 1%Z.
Proof.
  intros Hd. pose proof order_pos as Hpos.
  pose proof (Z.gcd_nonneg order d) as Hg0.
  destruct (Z.gcd_divide_l order d) as [k Hk]. destruct (Z.gcd_divide_r order d) as [m Hm].
  assert (from_uint64 k * from_uint64 (Z.gcd order d) = (0 : F)) as E.
  { rewrite <-from_uint64_mul, <-Hk. apply from_uint64_eq_0, Z.divide_refl. }
  apply rmul_eq_0 in E as [[j Hj]%from_uint64_eq_0|[j Hj]%from_uint64_eq_0].
  - assert (order * (j * Z.gcd order d - 1) = 0)%Z as E by nia.
    apply Z.mul_eq_0 in E as [E|E]; [lia|].
    assert (j * Z.gcd order d = 1)%Z as Hu by lia. apply Z.eq_mul_1 in Hu. lia.
  - destruct Hd. exists (m * j)%Z. rewrite Hm at 1. rewrite Hj. ring.
Qed.
End prime_field.

Section module.
Context `{ModuleElement R E}.
Local Open Scope alg_scope.
Add Ring M_ring : (ring_laws (R:=R)).
Implicit Types (x y : E) (r s : R).

Lemma gop_id_r x : x ⊕ gid = x.
Proof. rewrite gop_comm. apply gop_id_l. Qed.
Lemma gop_cancel_l x y z : x ⊕ y = x ⊕ z → y = z.
Proof.
  intros E'. rewrite <-(gop_id_l y), <-(gop_id_l z), <-(gop_inv_l x).
  rewrite <-!gop_assoc. by rewrite E'.
Qed.
Lemma scalar_op_0 x : x • (0 : R) = gid.
Proof.
  apply (gop_cancel_l (x • (0 : R))). rewrite <-scalar_op_add_r, gop_id_r.
  f_equal. ring.
Qed.
Lemma scalar_op_id r : gid • r = (gid : E).
Proof.
  apply (gop_cancel_l ((gid : E) • r)). by rewrite <-scalar_op_add_l, !gop_id_r.
Qed.
Lemma gsum_scalar n x (f : nat → R) : x • rsum n f = gsum n (λ i, x • f i).
Proof.
  induction n as [|n IH]; cbn; [apply scalar_op_0|]. by rewrite scalar_op_add_r, IH.
Qed.
Lemma gsum_scalar_l n r (f : nat → E) : gsum n f • r = gsum n (λ i, f i • r).
Proof.
  induction n as [|n IH]; cbn; [apply scalar_op_id|]. by rewrite scalar_op_add_l, IH.
Qed.
Lemma gsum_swap n m (f : nat → nat → E) :
  gsum n (λ i, gsum m (f i)) = gsum m (λ j, gsum n (λ i, f i j)).
Proof. apply big_swap; auto using gop_id_l, gop_id_r, gop_assoc, gop_comm. Qed.
Lemma gsum_op n (f g : nat → E) :
  gsum n (λ i, f i ⊕ g i) = gsum n f ⊕ gsum n g.
Proof. apply big_op; auto using gop_id_l, gop_id_r, gop_assoc, gop_comm. Qed.
End module.

Section prime_group.
Context `{PrimeGroup F E}.
Local Open Scope alg_scope.
Add Ring PG_ring : (ring_laws (R:=F)).

(** Exponents of the generator are unique. *)
Lemma generator_inj (a b : F) : generator • a = generator • b → a = b.
Proof.
  intros E1. apply rsub_0, generator_free. replace (a - b) with (a + (- b)) by ring.
  rewrite scalar_op_add_r, E1, <-scalar_op_add_r. replace (b + - b) with (0 : F) by ring.
  apply scalar_op_0.
Qed.
End prime_group.

(** ** The prime field of integers modulo [p]

    The concrete instance the witnesses evaluate on: [FromUint64] is reduction
    modulo [p], [TryInv] errs exactly on zero. *)

Section Zp.
Context (p : Z) (Hp : Z.prime p).

#[refine] Definition zp_ring : RingElement (Zmod p) :=
  {| rzero := Zmod.zero; rone := Zmod.one; radd := Zmod.add; rmul := Zmod.mul;
     rsub := Zmod.sub; rneg := Zmod.opp |}.
Proof.
  - intros x y. destruct (Zmod.eqb x y) eqn:E.
    + left. by apply Zmod.eqb_eq.
    + right. intros ->. by rewrite Zmod.eqb_refl in E.
  - apply Zmod.ring_theory.
Defined.

#[refine] Definition zp_field : FieldElement (Zmod p) :=
  {| field_ring := zp_ring;
     try_inv := λ x, if Zmod.eqb x Zmod.zero then Err ErrFailed else Ok (Zmod.inv x) |}.
Proof.
  - apply Zmod.one_neq_zero. pose proof (Z.prime_ge_2 p Hp). lia.
  - cbn. by rewrite Zmod.eqb_refl.
  - cbn. intros x Hx. destruct (Zmod.eqb x Zmod.zero) eqn:E.
    { by apply Zmod.eqb_eq in E. }
    eexists. split; [done|]. by apply Zmod.mul_inv_same_l_prime.
Defined.

#[refine] Definition zp_prime_field : PrimeField (Zmod p) :=
  {| prime_field := zp_field; order := p; from_uint64 := Zmod.of_Z p |}.
Proof.
  - done.
  - done.
  - apply Zmod.of_Z_add.
  - apply Zmod.of_Z_mul.
  - intros a. cbn. change Zmod.zero with (Zmod.of_Z p 0).
    rewrite <-Zmod.unsigned_inj_iff, !Zmod.unsigned_of_Z.
    rewrite Z.mod_0_l by (pose proof (Z.prime_ge_2 p Hp); lia).
    apply Z.mod_divide. pose proof (Z.prime_ge_2 p Hp); lia.
  - pose proof (Z.prime_ge_2 p Hp). lia.
Defined.
End Zp.

(** Primality of a small modulus by trial division. *)
Definition prime_check (p : Z) : bool :=
  (1 <? p)%Z && forallb (λ n, negb (p mod Z.of_nat n =? 0)%Z) (seq 2 (Z.to_nat p - 2)).

Lemma prime_check_prime p : prime_check p = true → Z.prime p.
Proof.
  unfold prime_check. rewrite andb_true_iff, forallb_forall, Z.ltb_lt.
  intros [Hp H]. split; [done|]. intros n Hn Hd.
  specialize (H (Z.to_nat n)). rewrite in_seq, Z2Nat.id in H by lia.
  rewrite negb_true_iff, Z.eqb_neq in H. apply H; [lia|].
  by apply Z.mod_divide; [lia|].
Qed.

Lemma prime_101 : Z.prime 101.
Proof. by apply prime_check_prime. Qed.

#[export] Instance F101 : PrimeField (Zmod 101) := zp_prime_field 101 prime_101.
Abbreviation fp101 := (Zmod 101).

(** A field with more elements than there are bytes. *)
Lemma prime_257 : Z.prime 257.
Proof. by apply prime_check_prime. Qed.
#[export] Instance F257 : PrimeField (Zmod 257) := zp_prime_field 257 prime_257.
Abbreviation fp257 := (Zmod 257).

(** The additive group of the field, generated by one. *)
#[export] Instance F101_group : PrimeGroup fp101 fp101.
Proof.
  refine {| prime_group_module := ring_module; generator := rone |}.
  - intros x. exists x. symmetry. apply rmul_1_l.
  - intros a Ha. etransitivity; [|exact Ha]. symmetry. apply rmul_1_l.
Defined.

Example F101_inv : try_inv (from_uint64 3 : fp101) = Ok (from_uint64 34).
Proof. vm_compute. reflexivity. Qed.
