(* ===== verification/AlgebraUtils.v ===== *)
(** * Generic group algorithms (pkg/base/utils/algebrautils)

    Scalar multiplication in three forms - square-and-multiply over a machine
    word ([scalarMulNative]), the fixed 4-bit window method over big-endian
    bytes ([scalarMul]) and the Pippenger bucket method
    ([MultiScalarMul]) - each shown to compute iterated addition; folds; and
    rejection sampling. *)

From Stdlib Require Import ZArith NArith Lia.
From AAC_tactics Require Import AAC.
From S2P Require Import Prelude Algebra.

(** ** Iterated addition: the specification *)

Definition gmul `{GroupElement E} (k : nat) (x : E) : E := gsum k (λ _, x).

(** The group operation for the tactics modulo associativity and
    commutativity. *)
#[export] Instance gop_aac_assoc `{GroupElement E} : AAC_tactics.AAC.Associative eq (gop (E:=E)).
Proof. exact gop_assoc. Qed.
#[export] Instance gop_aac_comm `{GroupElement E} : AAC_tactics.AAC.Commutative eq (gop (E:=E)).
Proof. exact gop_comm. Qed.
#[export] Instance gop_aac_unit `{GroupElement E} : AAC_tactics.AAC.Unit eq (gop (E:=E)) gid.
Proof. split; intros; [apply gop_id_l|rewrite gop_comm; apply gop_id_l]. Qed.

#[export] Instance eq_aac_lift {X} : AAC_lift (X:=X) eq eq.
Proof. split; [apply _|]. by intros ? ? -> ? ? ->. Qed.
#[export] Instance gop_aac_proper `{GroupElement E} : Proper (eq ==> eq ==> eq) (gop (E:=E)).
Proof. by intros ? ? -> ? ? ->. Qed.

Section gmul.
Context `{GroupElement E}.
Implicit Types (x y : E).

Lemma gop_gid_r x : gop x gid = x.
Proof. rewrite gop_comm. apply gop_id_l. Qed.

Lemma gmul_0 x : gmul 0 x = gid.
Proof. done. Qed.
Lemma gmul_1 x : gmul 1 x = x.
Proof. apply gop_id_l. Qed.
Lemma gmul_S k x : gmul (S k) x = gop (gmul k x) x.
Proof. done. Qed.
Lemma gmul_add j k x : gmul (j + k) x = gop (gmul j x) (gmul k x).
Proof. unfold gmul. apply big_split; auto using gop_gid_r, gop_assoc. Qed.
Lemma gmul_mul j k x : gmul (j * k) x = gmul j (gmul k x).
Proof.
  induction j as [|j IH]; [done|]. cbn [Nat.mul].
  by rewrite gmul_add, IH, gop_comm.
Qed.
Lemma gmul_double k x : gmul k (gop x x) = gmul (2 * k) x.
Proof. by rewrite Nat.mul_comm, gmul_mul, (gmul_add 1 1), !gmul_1. Qed.
Lemma gmul_gid k : gmul k gid = (gid : E).
Proof. induction k as [|k IH]; [done|]. by rewrite gmul_S, IH, gop_id_l. Qed.
Lemma gmul_gop k x y : gmul k (gop x y) = gop (gmul k x) (gmul k y).
Proof. unfold gmul. apply big_op; auto using gop_gid_r, gop_assoc, gop_comm. Qed.
Lemma gsum_gop n (f g : nat → E) :
  gsum n (λ i, gop (f i) (g i)) = gop (gsum n f) (gsum n g).
Proof. apply big_op; auto using gop_gid_r, gop_assoc, gop_comm. Qed.
Lemma gmul_gsum k n (f : nat → E) : gmul k (gsum n f) = gsum n (λ i, gmul k (f i)).
Proof.
  induction n as [|n IH]; [apply gmul_gid|]. cbn [big]. by rewrite gmul_gop, IH.
Qed.
End gmul.

(** In a prime field an integer multiple is a product. *)
Lemma gmul_from_uint64 `{PrimeField F} k (x : F) :
  gmul k x = rmul x (from_uint64 (Z.of_nat k)).
Proof.
  assert (∀ a b c : F, radd (rmul a b) (rmul a c) = rmul a (radd b c)) as Hd.
  { intros a b c. rewrite (rmul_comm a b), (rmul_comm a c), (rmul_comm a (radd b c)).
    symmetry. apply (Rdistr_l ring_laws). }
  induction k as [|k IH].
  - rewrite from_uint64_0. symmetry. apply rmul_0_r.
  - rewrite gmul_S, IH. rewrite Nat2Z.inj_succ, <-Z.add_1_r, from_uint64_add, from_uint64_1.
    rewrite <-Hd. cbn. by rewrite rmul_1_r.
Qed.

(** In a module an integer multiple is a scalar operation. *)
Lemma gmul_scalar `{PrimeField F, !ModuleElement F E} k (x : E) :
  gmul k x = scalar_op x (from_uint64 (Z.of_nat k)).
Proof.
  induction k as [|k IH].
  - rewrite from_uint64_0. symmetry. apply scalar_op_0.
  - rewrite gmul_S, IH, Nat2Z.inj_succ, <-Z.add_1_r, from_uint64_add, from_uint64_1.
    by rewrite scalar_op_add_r, scalar_op_1.
Qed.

(** ** Integer multiples of either sign *)

Definition zmul `{GroupElement E} (z : Z) (x : E) : E :=
  if (z <? 0)%Z then gmul (Z.to_nat (- z)) (ginv x) else gmul (Z.to_nat z) x.

Section zmul.
Context `{GroupElement E}.
Implicit Types (x y : E).

Lemma gop_inv_r x : gop x (ginv x) = gid.
Proof. rewrite gop_comm. apply gop_inv_l. Qed.
Lemma gop_cancel x y z : gop x y = gop x z → y = z.
Proof.
  intros E1. rewrite <-(gop_id_l y), <-(gop_id_l z), <-(gop_inv_l x), <-!gop_assoc.
  by rewrite E1.
Qed.
Lemma ginv_unique x y : gop x y = gid → y = ginv x.
Proof. intros E1. apply (gop_cancel x). by rewrite E1, gop_inv_r. Qed.
Lemma ginv_ginv x : ginv (ginv x) = x.
Proof. symmetry. apply ginv_unique, gop_inv_l. Qed.
Lemma ginv_gid : ginv gid = (gid : E).
Proof. symmetry. apply ginv_unique, gop_id_l. Qed.
Lemma ginv_gop x y : ginv (gop x y) = gop (ginv x) (ginv y).
Proof.
  symmetry. apply ginv_unique.
  transitivity (gop (gop x (ginv x)) (gop y (ginv y))); [aac_reflexivity|].
  by rewrite !gop_inv_r, gop_id_l.
Qed.
Lemma gmul_ginv k x : gmul k (ginv x) = ginv (gmul k x).
Proof. apply ginv_unique. by rewrite <-gmul_gop, gop_inv_r, gmul_gid. Qed.

Lemma zmul_nat k x : zmul (Z.of_nat k) x = gmul k x.
Proof.
  unfold zmul. rewrite (proj2 (Z.ltb_ge _ _)) by lia. by rewrite Nat2Z.id.
Qed.
Lemma zmul_opp z x : zmul (- z) x = ginv (zmul z x).
Proof.
  unfold zmul. destruct (Z.ltb_spec z 0), (Z.ltb_spec (- z) 0); try lia.
  - by rewrite gmul_ginv, ginv_ginv.
  - by rewrite Z.opp_involutive, gmul_ginv.
  - assert (z = 0%Z) as -> by lia. symmetry. apply ginv_gid.
Qed.
Lemma zmul_sub_nat j k x : zmul (Z.of_nat j - Z.of_nat k) x = gop (gmul j x) (ginv (gmul k x)).
Proof.
  destruct (decide (k ≤ j)).
  - rewrite <-Nat2Z.inj_sub by done. rewrite zmul_nat.
    replace j with (j - k + k) at 2 by lia. rewrite gmul_add, <-gop_assoc, gop_inv_r.
    by rewrite gop_gid_r.
  - replace (Z.of_nat j - Z.of_nat k)%Z with (- Z.of_nat (k - j))%Z by lia.
    rewrite zmul_opp, zmul_nat. replace k with (j + (k - j)) at 2 by lia.
    rewrite gmul_add, ginv_gop, gop_assoc, gop_inv_r. by rewrite gop_id_l.
Qed.
Lemma zmul_add a b x : zmul (a + b) x = gop (zmul a x) (zmul b x).
Proof.
  assert (∀ z, z = (Z.of_nat (Z.to_nat z) - Z.of_nat (Z.to_nat (- z)))%Z) as Hz by lia.
  rewrite (Hz a), (Hz b), !zmul_sub_nat.
  replace (_ + _)%Z with (Z.of_nat (Z.to_nat a + Z.to_nat b)
    - Z.of_nat (Z.to_nat (- a) + Z.to_nat (- b)))%Z by lia.
  rewrite zmul_sub_nat, !gmul_add, ginv_gop. aac_reflexivity.
Qed.
Lemma zmul_gop z x y : zmul z (gop x y) = gop (zmul z x) (zmul z y).
Proof. unfold zmul. case_match; by rewrite ?ginv_gop, gmul_gop. Qed.
Lemma zmul_ginv z x : zmul z (ginv x) = zmul (- z) x.
Proof.
  rewrite zmul_opp. unfold zmul. case_match; by rewrite !gmul_ginv.
Qed.
Lemma zmul_mul a b x : zmul (a * b) x = zmul a (zmul b x).
Proof.
  assert (∀ j b x, zmul (Z.of_nat j * b) x = gmul j (zmul b x)) as Hn.
  { intros j c y. induction j as [|j IH].
    { cbn [Z.of_nat]. rewrite Z.mul_0_l. done. }
    rewrite Nat2Z.inj_succ, Z.mul_succ_l, zmul_add, IH. done. }
  destruct (Z.le_gt_cases 0 a).
  - replace a with (Z.of_nat (Z.to_nat a)) by lia. by rewrite Hn, zmul_nat.
  - replace a with (- Z.of_nat (Z.to_nat (- a)))%Z by lia.
    by rewrite Z.mul_opp_l, !zmul_opp, Hn, zmul_nat.
Qed.
Lemma zmul_1 x : zmul 1 x = x.
Proof. etransitivity; [apply (zmul_nat 1)|apply gmul_1]. Qed.
End zmul.

(** A homomorphism commutes with integer multiples. *)
Section hom.
Context {E I : Type} `{GroupElement E, GroupElement I} (f : E → I)
  (f_op : ∀ x y, f (gop x y) = gop (f x) (f y)).

Lemma hom_gid : f gid = gid.
Proof. apply (gop_cancel (f gid)). by rewrite <-f_op, gop_id_l, gop_gid_r. Qed.
Lemma hom_ginv x : f (ginv x) = ginv (f x).
Proof. apply ginv_unique. by rewrite <-f_op, gop_inv_r, hom_gid. Qed.
Lemma hom_gmul k x : f (gmul k x) = gmul k (f x).
Proof. induction k as [|k IH]; [apply hom_gid|]. by rewrite !gmul_S, f_op, IH. Qed.
Lemma hom_zmul z x : f (zmul z x) = zmul z (f x).
Proof. unfold zmul. case_match; by rewrite hom_gmul, ?hom_ginv. Qed.
End hom.

(** The order of a prime group annihilates it. *)
Lemma zmul_order `{PrimeField F, !ModuleElement F E} (x : E) : zmul order x = gid.
Proof.
  unfold zmul. pose proof (order_pos (F:=F)). rewrite (proj2 (Z.ltb_ge _ _)) by lia.
  rewrite gmul_scalar, Z2Nat.id by lia.
  rewrite (proj2 (from_uint64_eq_0 order)) by apply Z.divide_refl. apply scalar_op_0.
Qed.

Section algebrautils.
Context `{GroupElement E}.
Implicit Types (x y base : E).

(** ** [scalarMulNative]

    The loop [for s > 1 { if s&1 != 0 { y = y.Op(x) }; x = x.Op(x); s >>= 1 }]
    on a 64-bit [s]; [fuel] bounds the number of shifts. *)
Fixpoint scalarMulNative_loop (fuel : nat) (x y : E) (s : N) : E * E :=
  match fuel with
  | 0 => (x, y)
  | S fuel =>
      if (1 <? s)%N then
        let y := if N.odd s then gop y x else y in
        scalarMulNative_loop fuel (gop x x) y (N.shiftr s 1)
      else (x, y)
  end.

Definition scalarMulNative (e : E) (s : N) : E :=
  if (s =? 0)%N then gid
  else let '(x, y) := scalarMulNative_loop 64 e gid s in gop x y.

Definition ScalarMulNative (base : E) (exponent : N) : E := scalarMulNative base exponent.

(** ** [scalarMul]

    [precomputed[i]] is filled for [i = 2, 4, .., 14] by doubling
    [precomputed[i/2]] and adding the base. *)
Definition scalarMul_table (base : E) : list E :=
  foldl (λ t i,
      let t := <[i := gop (t !!! (i / 2)) (t !!! (i / 2))]> t in
      <[i + 1 := gop (t !!! i) base]> t)
    (<[1 := base]> (<[0 := gid]> (replicate 16 gid)))
    [2; 4; 6; 8; 10; 12; 14].

Definition double4 (x : E) : E :=
  let x := gop x x in let x := gop x x in let x := gop x x in gop x x.

(** One byte [si] of the exponent: its high then its low nibble. *)
Definition scalarMul_byte (t : list E) (res : E) (si : N) : E :=
  let res := gop (double4 res) (t !!! N.to_nat (N.land (N.shiftr si 4) 15)) in
  gop (double4 res) (t !!! N.to_nat (N.land si 15)).

Definition scalarMul (base : E) (exponentBytesBE : list N) : E :=
  foldl (scalarMul_byte (scalarMul_table base)) gid exponentBytesBE.

(** ** [Fold] (and [Sum], its additive name) *)

Definition Fold (first : E) (rest : list E) : E := foldl gop first rest.

(** ** [Random]: rejection sampling

    [sampler] is the structure's [Random] method: it reads the generator
    state and returns an element with the next state.  The loop has no bound
    in the code; [fuel] bounds the number of draws of the model. *)
Fixpoint Random {P} (fuel : nat) (sampler : P → result (E * P))
    (predicates : list (E → bool)) (prng : P) : option (result (E * P)) :=
  match fuel with
  | 0 => None
  | S fuel =>
      match sampler prng with
      | Ok (out, prng) =>
          if forallb (λ p, p out) predicates then Some (Ok (out, prng))
          else Random fuel sampler predicates prng
      | Err e => Some (Err e)
      | Panic => Some Panic
      end
  end.

Definition RandomNonIdentity {P} (fuel : nat) (sampler : P → result (E * P)) (prng : P) :
    option (result (E * P)) :=
  Random fuel sampler [λ e, negb (bool_decide (e = gid))] prng.

(** [RandomTorsionFreeNonIdentity], with [IsTorsionFree] as a predicate. *)
Definition RandomTorsionFreeNonIdentity {P} (fuel : nat) (is_torsion_free : E → bool)
    (sampler : P → result (E * P)) (prng : P) : option (result (E * P)) :=
  Random fuel sampler [λ e, negb (bool_decide (e = gid)) || is_torsion_free e] prng.

(** ** [MultiScalarMul] *)

(** [getWindow(b, start)]: the [w] bits of the big-endian [b] from bit
    [start] up; the loop breaks at the first bit beyond the last byte. *)
Definition getWindow_bit (b : list N) (bitIndex : nat) : option N :=
  let byteIndexFromLSB := bitIndex / 8 in
  if length b <=? byteIndexFromLSB then None
  else Some (N.land (N.shiftr (b !!! (length b - 1 - byteIndexFromLSB))
                              (N.of_nat (bitIndex mod 8))) 1).

Fixpoint getWindow_loop (b : list N) (start : nat) (ks : list nat) (acc : N) : N :=
  match ks with
  | [] => acc
  | k :: ks =>
      match getWindow_bit b (start + k) with
      | None => acc
      | Some bit => getWindow_loop b start ks (N.lor acc (N.shiftl bit (N.of_nat k)))
      end
  end.

Definition getWindow (w : nat) (b : list N) (start : nat) : N :=
  if length b =? 0 then 0%N else getWindow_loop b start (seq 0 w) 0%N.

(** The bucket accumulation and the running sum of one window. *)
Definition msm_buckets (w : nat) (scalarBytes : list (list N)) (points : list E)
    (startBit : nat) : list E :=
  foldl (λ buckets i,
      let win := getWindow w (scalarBytes !!! i) startBit in
      if (win =? 0)%N then buckets
      else <[N.to_nat win := gop (buckets !!! N.to_nat win) (points !!! i)]> buckets)
    (replicate (2 ^ w) gid) (seq 0 (length points)).

Definition msm_running (buckets : list E) (acc : E) (ks : list nat) : E * E :=
  foldl (λ '(running, acc) k,
      let running := if bool_decide (buckets !!! k = gid) then running
                     else gop running (buckets !!! k) in
      (running, gop acc running))
    (gid, acc) ks.

Definition msm_window (w : nat) (scalarBytes : list (list N)) (points : list E)
    (acc : E) (wIdx : nat) : E :=
  let acc := Nat.iter w (λ a, gop a a) acc in
  let buckets := msm_buckets w scalarBytes points (wIdx * w) in
  snd (msm_running buckets acc (rev (seq 1 (2 ^ w - 1)))).

(** [bits.Len(uint(n))], clamped to [2, 16]. *)
Definition msm_w (n : nat) : nat :=
  let w := N.to_nat (N.size (N.of_nat n)) in
  let w := if w <? 2 then 2 else w in
  if 16 <? w then 16 else w.

(** Scalars are given by their big-endian bytes ([BytesBE]). *)
Definition MultiScalarMul (scalars : list (list N)) (points : list E) : result E :=
  let n := length points in
  if n =? 0 then Panic
  else if negb (n =? length scalars) then Panic
  else if n <=? 7 then
    Ok (foldl (λ acc i, gop acc (scalarMul (points !!! i) (scalars !!! i))) gid (seq 0 n))
  else
    let maxBits := foldl (λ mb b, if mb <? length b * 8 then length b * 8 else mb) 0 scalars in
    if maxBits =? 0 then Ok gid
    else
      let w := msm_w n in
      let numWindows := (maxBits + w - 1) / w in
      Ok (foldl (msm_window w scalars points) gid (rev (seq 0 numWindows))).
End algebrautils.

(** ** Correctness of [scalarMulNative] *)

Section scalar_mul_native.
Context `{GroupElement E}.
Implicit Types (x y base : E).

Lemma gmul_div2 (s : N) x :
  gmul (N.to_nat s) x
  = gop (gmul (N.to_nat (N.shiftr s 1)) (gop x x)) (if N.odd s then x else gid).
Proof.
  rewrite <-N.div2_spec, gmul_double, N2Nat.inj_div2.
  assert (Nat.odd (N.to_nat s) = N.odd s) as <-.
  { rewrite <-Nat.negb_even, <-N.negb_even. f_equal. apply eq_true_iff_eq.
    rewrite Nat.even_spec, N.even_spec. split; intros [k Hk].
    - exists (N.of_nat k). lia.
    - exists (N.to_nat k). lia. }
  pose proof (Nat.div2_odd (N.to_nat s)) as Hs.
  rewrite Hs at 1. rewrite gmul_add. f_equal.
  destruct (Nat.odd _); cbn [Nat.b2n]; [apply gmul_1|done].
Qed.

Lemma scalarMulNative_loop_spec fuel x y (s : N) :
  (1 ≤ s < 2 ^ N.of_nat (S fuel))%N →
  (let '(x', y') := scalarMulNative_loop fuel x y s in gop x' y')
  = gop (gmul (N.to_nat s) x) y.
Proof.
  revert x y s. induction fuel as [|fuel IH]; intros x y s Hs.
  { assert (s = 1)%N as -> by (cbn in Hs; lia). cbn. by rewrite gmul_1. }
  cbn [scalarMulNative_loop]. destruct (N.ltb_spec 1 s) as [Hlt|Hge].
  - rewrite IH.
    + rewrite (gmul_div2 s x). destruct (N.odd s).
      * rewrite <-!gop_assoc. f_equal. apply gop_comm.
      * by rewrite gop_gid_r.
    + rewrite N.shiftr_div_pow2. change (2 ^ 1)%N with 2%N. split.
      * apply N.div_le_lower_bound; lia.
      * apply N.Div0.div_lt_upper_bound.
        rewrite (Nat2N.inj_succ (S fuel)), N.pow_succ_r' in Hs. lia.
  - assert (s = 1)%N as -> by lia. by rewrite gmul_1.
Qed.

Lemma scalarMulNative_gmul x (s : N) :
  (s < 2 ^ 64)%N → scalarMulNative x s = gmul (N.to_nat s) x.
Proof.
  intros Hs. unfold scalarMulNative. destruct (N.eqb_spec s 0) as [->|Hne]; [done|].
  pose proof (scalarMulNative_loop_spec 64 x gid s) as Hl.
  destruct (scalarMulNative_loop _ _ _ _) as [x' y']. rewrite Hl, gop_gid_r; [done|].
  split; [lia|]. etransitivity; [apply Hs|]. done.
Qed.
End scalar_mul_native.

(** ** Correctness of [scalarMul] *)

(** The integer a big-endian byte string denotes. *)
Definition bytesBE_val (b : list N) : N := foldl (λ acc x, acc * 256 + x)%N 0%N b.

Definition bytes_ok (b : list N) : Prop := Forall (λ x, (x < 256)%N) b.

Section scalar_mul.
Context `{GroupElement E}.
Implicit Types (x y base : E).

Lemma table_step base (t : list E) i :
  length t = 16 → 2 ≤ i → i + 1 < 16 → Nat.Even i →
  (∀ j, j < i → t !!! j = gmul j base) →
  let t1 := <[i := gop (t !!! (i / 2)) (t !!! (i / 2))]> t in
  let t2 := <[i + 1 := gop (t1 !!! i) base]> t1 in
  length t2 = 16 ∧ ∀ j, j < i + 2 → t2 !!! j = gmul j base.
Proof.
  intros Hlen Hi Hi' [h ->] Ht t1 t2.
  assert (Hd : (2 * h / 2) = h) by (rewrite Nat.mul_comm; by apply Nat.div_mul).
  assert (H1 : t1 !!! (2 * h) = gmul (2 * h) base).
  { unfold t1. rewrite list_lookup_total_insert_eq by lia. rewrite Hd, Ht by lia.
    rewrite <-gmul_add. f_equal. lia. }
  split; [unfold t2, t1; by rewrite !length_insert|].
  intros j Hj. unfold t2. destruct (decide (j = 2 * h + 1)) as [->|Hne].
  - rewrite list_lookup_total_insert_eq by (unfold t1; rewrite length_insert; lia).
    rewrite H1. by rewrite Nat.add_1_r, gmul_S.
  - rewrite list_lookup_total_insert_ne by done.
    destruct (decide (j = 2 * h)) as [->|Hne']; [done|].
    unfold t1. rewrite list_lookup_total_insert_ne by done. apply Ht. lia.
Qed.

Lemma scalarMul_table_spec base i : i < 16 → scalarMul_table base !!! i = gmul i base.
Proof.
  intros Hi. unfold scalarMul_table.
  set (t0 := <[1 := base]> _).
  assert (Hgen : ∀ l t k, length t = 16 → (∀ j, j < k → t !!! j = gmul j base) →
    (∀ n i, l !! n = Some i → i = k + 2 * n) → 2 ≤ k → Nat.Even k → k + 2 * length l ≤ 16 →
    ∀ j, j < k + 2 * length l →
      foldl (λ t i, let t := <[i := gop (t !!! (i / 2)) (t !!! (i / 2))]> t in
                    <[i + 1 := gop (t !!! i) base]> t) t l !!! j = gmul j base).
  { induction l as [|a l IH]; intros t k Hlen Ht Hl Hk He Hle j Hj; cbn in *.
    - apply Ht. lia.
    - pose proof (Hl 0 a eq_refl) as Ha. assert (a = k) as -> by lia.
      destruct (table_step base t k) as [Hlen' Ht']; try done; [lia|].
      apply (IH _ (k + 2)); try done; try lia.
      + intros n i' Hn. pose proof (Hl (S n) i' Hn). lia.
      + destruct He as [h ->]. exists (h + 1). lia. }
  apply (Hgen _ t0 2); try done; try (cbn; lia).
  - intros j Hj. destruct j as [|[|j]]; [done| |lia]. by rewrite gmul_1.
  - intros n a Hn. do 7 (destruct n as [|n]; [by injection Hn as <-|]). done.
  - by exists 1.
Qed.

Lemma double4_gmul x : double4 x = gmul 16 x.
Proof.
  unfold double4. rewrite <-(gmul_1 x) at 1 2 3 4 5 6 7 8 9 10 11 12 13 14 15 16.
  by rewrite <-!gmul_add.
Qed.

Lemma scalarMul_byte_spec base (k : N) si :
  (si < 256)%N →
  scalarMul_byte (scalarMul_table base) (gmul (N.to_nat k) base) si
  = gmul (N.to_nat (k * 256 + si)) base.
Proof.
  intros Hsi. unfold scalarMul_byte.
  change 15%N with (N.ones 4). rewrite !N.land_ones, N.shiftr_div_pow2.
  change (2 ^ 4)%N with 16%N.
  assert (si / 16 < 16)%N by (apply N.Div0.div_lt_upper_bound; lia).
  pose proof (N.mod_lt si 16 ltac:(lia)).
  rewrite (N.mod_small (si / 16)) by done.
  rewrite !scalarMul_table_spec by lia. rewrite !double4_gmul.
  rewrite <-(gmul_mul 16 (N.to_nat k)), <-gmul_add, <-gmul_mul, <-gmul_add.
  f_equal. pose proof (N.div_mod si 16 ltac:(lia)). lia.
Qed.

Lemma scalarMul_gmul base (b : list N) :
  bytes_ok b → scalarMul base b = gmul (N.to_nat (bytesBE_val b)) base.
Proof.
  intros Hb. unfold scalarMul, bytesBE_val.
  assert (∀ k, foldl (scalarMul_byte (scalarMul_table base)) (gmul (N.to_nat k) base) b
    = gmul (N.to_nat (foldl (λ acc d, acc * 256 + d)%N k b)) base) as Hgen.
  { induction Hb as [|d b Hd Hb IH]; intros k; [done|]. cbn [foldl].
    by rewrite scalarMul_byte_spec, IH. }
  apply (Hgen 0%N).
Qed.
End scalar_mul.

(** ** Correctness of [MultiScalarMul] *)

(** [getWindow] reads a window of the denoted integer. *)
Section window.
Implicit Types (b : list N) (i j k w : nat).

Lemma bytesBE_val_snoc b x : bytesBE_val (b ++ [x]) = (bytesBE_val b * 256 + x)%N.
Proof. unfold bytesBE_val. by rewrite foldl_app. Qed.

Lemma bytesBE_val_bound b :
  bytes_ok b → (bytesBE_val b < 2 ^ N.of_nat (length b * 8))%N.
Proof.
  induction b as [|x b IH] using rev_ind; intros Hb; [done|].
  apply Forall_app in Hb as [Hb [Hx _]%Forall_cons].
  rewrite bytesBE_val_snoc, length_app. cbn [length].
  replace (N.of_nat ((length b + 1) * 8)) with (N.of_nat (length b * 8) + 8)%N by lia.
  rewrite N.pow_add_r. change (2 ^ 8)%N with 256%N. specialize (IH Hb). nia.
Qed.

(** Bit [i] of the integer is bit [i mod 8] of byte [len-1-i/8]. *)
Lemma bytesBE_val_testbit b i :
  bytes_ok b → i < length b * 8 →
  N.testbit (bytesBE_val b) (N.of_nat i)
  = N.testbit (b !!! (length b - 1 - i / 8)) (N.of_nat (i mod 8)).
Proof.
  revert i. induction b as [|x b IH] using rev_ind; intros i Hb Hi; [cbn in Hi; lia|].
  apply Forall_app in Hb as [Hb [Hx _]%Forall_cons].
  rewrite bytesBE_val_snoc. rewrite length_app in *. cbn [length] in *.
  assert (x = (bytesBE_val b * 256 + x) mod 2 ^ 8)%N as Hlow.
  { change (2 ^ 8)%N with 256%N. rewrite N.add_comm, N.Div0.mod_add.
    symmetry. by apply N.mod_small. }
  assert (bytesBE_val b = (bytesBE_val b * 256 + x) / 2 ^ 8)%N as Hhigh.
  { change (2 ^ 8)%N with 256%N. rewrite N.div_add_l by lia.
    rewrite (N.div_small x) by done. lia. }
  destruct (decide (i < 8)) as [Hlt|Hge].
  - rewrite Nat.div_small, Nat.mod_small by done.
    replace (length b + 1 - 1 - 0) with (length b) by lia.
    rewrite lookup_total_app_r, Nat.sub_diag by done. cbn.
    rewrite Hlow at 2. rewrite N.mod_pow2_bits_low by lia. done.
  - replace i with (i - 8 + 1 * 8) by lia.
    rewrite Nat.div_add, Nat.Div0.mod_add by lia.
    assert ((i - 8) / 8 < length b) by (apply Nat.Div0.div_lt_upper_bound; lia).
    rewrite lookup_total_app_l by lia.
    replace (length b + 1 - 1 - ((i - 8) / 8 + 1)) with (length b - 1 - (i - 8) / 8) by lia.
    rewrite <-IH by (done || lia). rewrite Hhigh at 2.
    rewrite N.div_pow2_bits. f_equal. lia.
Qed.

Lemma bytesBE_val_testbit_high b i :
  bytes_ok b → length b * 8 ≤ i → N.testbit (bytesBE_val b) (N.of_nat i) = false.
Proof.
  intros Hb Hi. pose proof (bytesBE_val_bound b Hb).
  rewrite <-(N.mod_small (bytesBE_val b) (2 ^ N.of_nat (length b * 8))) by done.
  apply N.mod_pow2_bits_high. lia.
Qed.

Lemma getWindow_bit_spec b i :
  bytes_ok b →
  getWindow_bit b i = if decide (i < length b * 8)
    then Some (N.b2n (N.testbit (bytesBE_val b) (N.of_nat i))) else None.
Proof.
  intros Hb. unfold getWindow_bit.
  pose proof (Nat.div_mod_eq i 8). pose proof (Nat.mod_upper_bound i 8).
  destruct (Nat.leb_spec (length b) (i / 8)); case_decide; try lia; [done|].
  f_equal. rewrite bytesBE_val_testbit by done.
  change 1%N with (N.ones 1). rewrite N.land_ones, N.shiftr_div_pow2.
  by rewrite N.testbit_spec'.
Qed.

Lemma getWindow_loop_testbit b start k m acc j :
  bytes_ok b → (∀ i, k ≤ i → N.testbit acc (N.of_nat i) = false) →
  N.testbit (getWindow_loop b start (seq k m) acc) (N.of_nat j)
  = if decide (j < k) then N.testbit acc (N.of_nat j)
    else if decide (j < k + m) then N.testbit (bytesBE_val b) (N.of_nat (start + j))
    else false.
Proof.
  intros Hb. revert k acc. induction m as [|m IH]; intros k acc Hacc; cbn [seq getWindow_loop].
  { repeat case_decide; try lia; [done|]. apply Hacc. lia. }
  rewrite getWindow_bit_spec by done. case_decide as Hin.
  - rewrite IH.
    + destruct (decide (j < k)), (decide (j < S k)); try lia.
      * rewrite N.lor_spec, N.shiftl_spec_low by lia. by rewrite orb_false_r.
      * assert (j = k) as -> by lia. rewrite decide_True by lia.
        rewrite N.lor_spec, Hacc, N.shiftl_spec_high, N.sub_diag by lia.
        cbn. apply N.b2n_bit0.
      * repeat case_decide; try lia; done.
    + intros i Hi. rewrite N.lor_spec, Hacc by lia. cbn.
      rewrite N.shiftl_spec_high by lia.
      destruct (N.testbit (bytesBE_val b) (N.of_nat (start + k))); cbn [N.b2n];
        [|apply N.bits_0].
      destruct (N.of_nat i - N.of_nat k)%N as [|[p|p|]] eqn:E; try done. lia.
  - case_decide; [done|]. rewrite Hacc by lia. case_decide; [|done].
    symmetry. apply bytesBE_val_testbit_high; [done|lia].
Qed.

Lemma getWindow_spec w b start :
  bytes_ok b →
  getWindow w b start = ((bytesBE_val b / 2 ^ N.of_nat start) mod 2 ^ N.of_nat w)%N.
Proof.
  intros Hb. unfold getWindow. destruct (Nat.eqb_spec (length b) 0) as [E|E].
  { destruct b; [|done]. cbn. by rewrite N.Div0.div_0_l, N.Div0.mod_0_l. }
  apply N.bits_inj. intros a. rewrite <-(N2Nat.id a). set (j := N.to_nat a).
  rewrite getWindow_loop_testbit; [|done|intros; apply N.bits_0].
  rewrite decide_False by lia. cbn [Nat.add]. case_decide.
  - rewrite N.mod_pow2_bits_low by lia. rewrite N.div_pow2_bits. f_equal. lia.
  - rewrite N.mod_pow2_bits_high by lia. done.
Qed.
End window.

Section msm.
Context `{GroupElement E}.
Implicit Types (x y acc : E) (buckets points : list E) (i k w : nat).

(** The weighted bucket sum a window contributes. *)
Definition bucket_total (k : nat) buckets : E :=
  gsum k (λ j, gmul j (buckets !!! j)).

Lemma bucket_total_insert k buckets j x :
  j < k → j < length buckets →
  bucket_total k (<[j := gop (buckets !!! j) x]> buckets)
  = gop (bucket_total k buckets) (gmul j x).
Proof.
  unfold bucket_total. induction k as [|k IH]; intros Hj Hlen; [lia|]. cbn.
  destruct (decide (j = k)) as [->|Hne].
  - rewrite list_lookup_total_insert_eq by done. rewrite gmul_gop.
    rewrite (big_ext gop gid k _ (λ j, gmul j (buckets !!! j))).
    + apply gop_assoc.
    + intros i Hi. by rewrite list_lookup_total_insert_ne by lia.
  - rewrite IH by lia. rewrite list_lookup_total_insert_ne by lia.
    rewrite <-!gop_assoc. f_equal. apply gop_comm.
Qed.

Lemma msm_buckets_total w scalarBytes points startBit :
  (∀ i, i < length points → bytes_ok (scalarBytes !!! i)) →
  length (msm_buckets w scalarBytes points startBit) = 2 ^ w ∧
  bucket_total (2 ^ w) (msm_buckets w scalarBytes points startBit)
  = gsum (length points) (λ i,
      gmul (N.to_nat (getWindow w (scalarBytes !!! i) startBit)) (points !!! i)).
Proof.
  intros Hok. unfold msm_buckets.
  set (step := λ buckets i, _).
  assert (∀ n, n ≤ length points →
    length (foldl step (replicate (2 ^ w) gid) (seq 0 n)) = 2 ^ w ∧
    bucket_total (2 ^ w) (foldl step (replicate (2 ^ w) gid) (seq 0 n))
    = gsum n (λ i, gmul (N.to_nat (getWindow w (scalarBytes !!! i) startBit)) (points !!! i)))
    as Hgen; [|by apply Hgen].
  induction n as [|n IH]; intros Hn.
  { cbn [seq foldl]. split; [apply length_replicate|]. cbn [big].
    apply big_id_ext; [intros; apply gop_id_l|].
    intros j Hj. by rewrite lookup_total_replicate_2, gmul_gid by done. }
  destruct IH as [IHl IHt]; [lia|]. rewrite seq_S, foldl_app. cbn [foldl Nat.add big].
  set (bs := foldl step _ (seq 0 n)) in *. unfold step at 1 2.
  destruct (N.eqb_spec (getWindow w (scalarBytes !!! n) startBit) 0) as [->|Hne].
  { split; [done|]. by rewrite IHt, gmul_0, gop_gid_r. }
  assert (N.to_nat (getWindow w (scalarBytes !!! n) startBit) < 2 ^ w).
  { rewrite getWindow_spec by (apply Hok; lia).
    assert (2 ^ N.of_nat w = N.of_nat (2 ^ w))%N as Hpow by (by rewrite Nat2N.inj_pow).
    pose proof (N.mod_lt (bytesBE_val (scalarBytes !!! n) / 2 ^ N.of_nat startBit)
      (2 ^ N.of_nat w) ltac:(apply N.pow_nonzero; lia)) as Hlt.
    rewrite Hpow in Hlt at 2. lia. }
  split; [by rewrite length_insert|].
  rewrite bucket_total_insert by lia. by rewrite IHt.
Qed.

(** The running sum from the highest bucket down adds every bucket as many
    times as its index. *)
Lemma msm_running_spec buckets acc r k :
  snd (foldl (λ '(running, acc) k,
         let running := if bool_decide (buckets !!! k = gid) then running
                        else gop running (buckets !!! k) in
         (running, gop acc running)) (r, acc) (rev (seq 1 k)))
  = gop (gop acc (gmul k r)) (bucket_total (S k) buckets).
Proof.
  revert acc r. induction k as [|k IH]; intros acc r.
  { cbn. by rewrite !gop_gid_r. }
  rewrite seq_S, rev_app_distr. cbn [rev app foldl]. rewrite IH.
  assert ((if bool_decide (buckets !!! (1 + k) = gid) then r
           else gop r (buckets !!! (1 + k))) = gop r (buckets !!! S k)) as ->.
  { case_bool_decide as Hb; [|done]. cbn in Hb. by rewrite Hb, gop_gid_r. }
  set (b := buckets !!! S k). set (T := bucket_total (S k) buckets).
  change (bucket_total (S (S k)) buckets) with (gop T (gmul (S k) b)).
  rewrite gmul_gop, !gmul_S. aac_reflexivity.
Qed.

Lemma iter_double_gmul w acc : Nat.iter w (λ a, gop a a) acc = gmul (2 ^ w) acc.
Proof.
  induction w as [|w IH]; [by rewrite gmul_1|].
  rewrite Nat.iter_succ, IH, <-gmul_add. f_equal. cbn. lia.
Qed.

Lemma msm_window_spec w scalarBytes points acc wIdx :
  (∀ i, i < length points → bytes_ok (scalarBytes !!! i)) →
  msm_window w scalarBytes points acc wIdx
  = gop (gmul (2 ^ w) acc) (gsum (length points) (λ i,
      gmul (N.to_nat (getWindow w (scalarBytes !!! i) (wIdx * w))) (points !!! i))).
Proof.
  intros Hok. unfold msm_window, msm_running.
  rewrite (msm_running_spec _ (Nat.iter w (λ a, gop a a) acc) gid (2 ^ w - 1)).
  pose proof (Nat.pow_nonzero 2 w). replace (S (2 ^ w - 1)) with (2 ^ w) by lia.
  destruct (msm_buckets_total w scalarBytes points (wIdx * w) Hok) as [_ ->].
  by rewrite iter_double_gmul, gmul_gid, gop_gid_r.
Qed.

(** The partial result once windows [j, j+1, ..] are processed. *)
Definition msm_partial (w : nat) (scalarBytes : list (list N)) points (j : nat) : E :=
  gsum (length points) (λ i,
    gmul (N.to_nat (bytesBE_val (scalarBytes !!! i) / 2 ^ N.of_nat (j * w))) (points !!! i)).

Lemma msm_partial_step w scalarBytes points j :
  (∀ i, i < length points → bytes_ok (scalarBytes !!! i)) →
  msm_window w scalarBytes points (msm_partial w scalarBytes points (S j)) j
  = msm_partial w scalarBytes points j.
Proof.
  intros Hok. rewrite msm_window_spec by done. unfold msm_partial.
  rewrite gmul_gsum, <-gsum_gop. apply big_ext. intros i Hi.
  rewrite <-gmul_mul, <-gmul_add. f_equal. rewrite getWindow_spec by auto.
  set (V := bytesBE_val _).
  assert (2 ^ N.of_nat w = N.of_nat (2 ^ w))%N as Hpow by (by rewrite Nat2N.inj_pow).
  replace (2 ^ N.of_nat (S j * w))%N with (2 ^ N.of_nat (j * w) * 2 ^ N.of_nat w)%N
    by (rewrite <-N.pow_add_r; f_equal; lia).
  rewrite <-N.Div0.div_div.
  pose proof (N.div_mod (V / 2 ^ N.of_nat (j * w)) (2 ^ N.of_nat w)
    ltac:(apply N.pow_nonzero; lia)) as Hdm.
  rewrite Hpow in Hdm |- *. lia.
Qed.

Lemma msm_windows_partial w scalarBytes points k :
  (∀ i, i < length points → bytes_ok (scalarBytes !!! i)) →
  foldl (msm_window w scalarBytes points) (msm_partial w scalarBytes points k)
    (rev (seq 0 k))
  = msm_partial w scalarBytes points 0.
Proof.
  intros Hok. induction k as [|k IH]; [done|].
  rewrite seq_S, rev_app_distr. cbn [rev app foldl Nat.add].
  by rewrite msm_partial_step.
Qed.

Lemma msm_maxBits_ge (scalars : list (list N)) b0 b :
  let f := λ mb b, if mb <? length b * 8 then length b * 8 else mb in
  b0 ≤ foldl f b0 scalars ∧
  (b ∈ scalars → length (b : list N) * 8 ≤ foldl f b0 scalars).
Proof.
  intros f. revert b0. induction scalars as [|c scalars IH]; intros b0; cbn [foldl].
  { split; [done|]. by intros ?%not_elem_of_nil. }
  destruct (IH (f b0 c)) as [Hge Hin].
  assert (b0 ≤ f b0 c ∧ length c * 8 ≤ f b0 c) as [? ?].
  { unfold f. destruct (Nat.ltb_spec b0 (length c * 8)); lia. }
  split; [lia|]. intros [->|?]%elem_of_cons; [lia|auto].
Qed.

(** The functional specification of [MultiScalarMul]. *)
Definition msm_spec (scalars : list (list N)) points : E :=
  gsum (length points) (λ i, gmul (N.to_nat (bytesBE_val (scalars !!! i))) (points !!! i)).

Lemma foldl_seq_gsum n (f : nat → E) : foldl (λ acc i, gop acc (f i)) gid (seq 0 n) = gsum n f.
Proof.
  induction n as [|n IH]; [done|]. by rewrite seq_S, foldl_app, IH.
Qed.

Lemma msm_partial_high w (scalars : list (list N)) points k :
  (∀ i, i < length points → bytes_ok (scalars !!! i)) →
  (∀ i, i < length points → length (scalars !!! i) * 8 ≤ k * w) →
  msm_partial w scalars points k = gid.
Proof.
  intros Hok Hlen. unfold msm_partial. apply big_id_ext; [intros; apply gop_id_l|].
  intros i Hi. rewrite N.div_small; [done|].
  eapply N.lt_le_trans; [by apply bytesBE_val_bound, Hok|].
  specialize (Hlen i Hi). apply N.pow_le_mono_r; lia.
Qed.

Lemma MultiScalarMul_ok scalars points :
  points ≠ [] → length points = length scalars → Forall bytes_ok scalars →
  MultiScalarMul scalars points = Ok (msm_spec scalars points).
Proof.
  intros Hne Hlen Hok.
  assert (∀ i, i < length points → (scalars !!! i) ∈ scalars) as Hin.
  { intros i Hi. apply list_elem_of_lookup_total_2. lia. }
  assert (∀ i, i < length points → bytes_ok (scalars !!! i)) as Hok'.
  { intros i Hi. rewrite Forall_forall in Hok. auto. }
  unfold MultiScalarMul. destruct (Nat.eqb_spec (length points) 0) as [E'|_].
  { by destruct points. }
  rewrite (proj2 (Nat.eqb_eq _ _) Hlen). cbn [negb].
  destruct (length points <=? 7).
  { rewrite foldl_seq_gsum. unfold msm_spec. f_equal. apply big_ext.
    intros i Hi. apply scalarMul_gmul. auto. }
  set (mb := foldl _ 0 scalars).
  assert (∀ i, i < length points → length (scalars !!! i) * 8 ≤ mb) as Hmb.
  { intros i Hi. eapply msm_maxBits_ge. auto. }
  assert (msm_spec scalars points = msm_partial (msm_w (length points)) scalars points 0) as Hs.
  { unfold msm_spec, msm_partial. apply big_ext. intros i Hi. by rewrite N.div_1_r. }
  destruct (Nat.eqb_spec mb 0) as [E0|E0].
  - f_equal. rewrite Hs. symmetry. apply msm_partial_high; [done|].
    intros i Hi. specialize (Hmb i Hi). lia.
  - cbv zeta. f_equal. set (w := msm_w _) in *. set (k := (mb + w - 1) / w).
    rewrite Hs, <-(msm_windows_partial w scalars points k) by done. f_equal.
    symmetry. apply msm_partial_high; [done|]. intros i Hi. specialize (Hmb i Hi).
    assert (2 ≤ w) by (unfold w, msm_w; cbv zeta; repeat case_match; rewrite ?Nat.ltb_ge in *; lia).
    pose proof (Nat.div_mod_eq (mb + w - 1) w). pose proof (Nat.mod_upper_bound (mb + w - 1) w).
    unfold k. lia.
Qed.
End msm.

(** ** Rejection sampling *)

Section random.
Context {E P : Type} `{GroupElement E}.
Implicit Types (sampler : P → result (E * P)) (x : E).

(** [draws sampler k prng x prng']: the [k]-th draw (from 0) succeeds and
    returns [x], and so did the draws before it. *)
Inductive draws sampler : nat → P → list E → P → Prop :=
  | draws_nil prng : draws sampler 0 prng [] prng
  | draws_cons k prng x prng' xs prng'' :
      sampler prng = Ok (x, prng') →
      draws sampler k prng' xs prng'' →
      draws sampler (S k) prng (x :: xs) prng''.

Lemma Random_rejects fuel k sampler predicates prng xs prng' :
  draws sampler k prng xs prng' →
  Forall (λ x, forallb (λ p, p x) predicates = false) xs →
  Random (k + fuel) sampler predicates prng = Random fuel sampler predicates prng'.
Proof.
  induction 1 as [|k prng x prng1 xs prng2 Hx _ IH]; intros Hrej; [done|].
  apply Forall_cons in Hrej as [Hr Hrej]. cbn. rewrite Hx, Hr. auto.
Qed.

Lemma Random_ok fuel sampler predicates prng x prng' :
  Random fuel sampler predicates prng = Some (Ok (x, prng')) →
  ∃ k xs, draws sampler (S k) prng (xs ++ [x]) prng' ∧ S k ≤ fuel ∧
    Forall (λ x, forallb (λ p, p x) predicates = false) xs ∧
    forallb (λ p, p x) predicates = true.
Proof.
  revert prng. induction fuel as [|fuel IH]; intros prng; cbn; [done|].
  destruct (sampler prng) as [[y prng1]| |] eqn:Es; [|done..].
  destruct (forallb (λ p, p y) predicates) eqn:Hp.
  - intros [= -> ->]. exists 0, []. repeat split; [|lia|constructor|done].
    by econstructor; [|constructor].
  - intros (k & xs & Hd & ? & Hr & Ha)%IH.
    exists (S k), (y :: xs). repeat split; [|lia|by constructor|done].
    by econstructor.
Qed.
End random.

(** ** Properties *)

Section properties.
Context `{GroupElement E}.
Implicit Types (x y : E) (points : list E).

(** C22. [MultiScalarMul] (the bucket method for eight or more points, the
    fixed-window method below) computes the sum of the [points[i]] added
    [scalars[i]] times, for scalars given by big-endian bytes of any (and
    different) lengths; it panics exactly on no points or on slices of
    different lengths. *)
Theorem MultiScalarMul_correct (scalars : list (list N)) points :
  Forall bytes_ok scalars →
  MultiScalarMul scalars points
  = if decide (points ≠ [] ∧ length points = length scalars)
    then Ok (gsum (length points) (λ i,
           gmul (N.to_nat (bytesBE_val (scalars !!! i))) (points !!! i)))
    else Panic.
Proof.
  intros Hok. case_decide as Hd.
  { destruct Hd. by apply MultiScalarMul_ok. }
  unfold MultiScalarMul. destruct (Nat.eqb_spec (length points) 0) as [|Hn]; [done|].
  destruct (Nat.eqb_spec (length points) (length scalars)); cbn [negb]; [|done].
  destruct Hd. split; [|done]. by intros ->.
Qed.

(** [ScalarMulNative] on a machine word and [scalarMul] on any
    big-endian bytes denoting the same integer both compute iterated
    addition; in particular they agree. *)
Theorem ScalarMulNative_scalarMul x (s : N) (b : list N) :
  (s < 2 ^ 64)%N → bytes_ok b → bytesBE_val b = s →
  ScalarMulNative x s = gmul (N.to_nat s) x ∧ scalarMul x b = ScalarMulNative x s.
Proof.
  intros Hs Hb <-. unfold ScalarMulNative. rewrite scalarMulNative_gmul by done.
  split; [done|]. by apply scalarMul_gmul.
Qed.

(** [Random] returns the first draw that satisfies every predicate: a
    result is a draw, satisfies them, and every earlier draw was rejected;
    and whenever such a draw exists it is returned within one more iteration
    than there are draws before it. *)
Theorem Random_first_accepted {P} (sampler : P → result (E * P)) predicates prng x prng' :
  (∃ fuel, Random fuel sampler predicates prng = Some (Ok (x, prng'))) ↔
  ∃ k xs, draws sampler (S k) prng (xs ++ [x]) prng' ∧
    Forall (λ x, forallb (λ p, p x) predicates = false) xs ∧
    forallb (λ p, p x) predicates = true ∧
    ∀ fuel, S k ≤ fuel → Random fuel sampler predicates prng = Some (Ok (x, prng')).
Proof.
  split; [|by intros (k & xs & _ & _ & _ & Hf); exists (S k); apply Hf].
  intros (fuel & (k & xs & Hd & _ & Hr & Ha)%Random_ok).
  exists k, xs. repeat split; try done. intros fuel' Hle.
  clear -Hd Hr Ha Hle. revert fuel' k prng Hd Hle.
  induction Hr as [|y xs Hy _ IH]; intros fuel' k prng Hd Hle;
    inversion Hd as [|? ? ? prng1 ? ? Hs Hd']; subst; (destruct fuel'; [lia|]); cbn; rewrite Hs.
  - inversion Hd'; subst. by rewrite Ha.
  - rewrite Hy. inversion Hd'; subst; [by destruct xs|]. eapply IH; [done|lia].
Qed.

(** [RandomTorsionFreeNonIdentity] accepts a torsion-free identity, so its
    name and documentation promise more than the predicate checks. *)
Lemma RandomTorsionFreeNonIdentity_identity {P} fuel (itf : E → bool)
    (sampler : P → result (E * P)) prng prng' :
  sampler prng = Ok (gid, prng') → itf gid = true →
  RandomTorsionFreeNonIdentity (S fuel) itf sampler prng = Some (Ok (gid, prng')).
Proof.
  intros Hs Hi. unfold RandomTorsionFreeNonIdentity. cbn.
  by rewrite Hs, Hi, orb_true_r.
Qed.
End properties.

Definition f101 (a : Z) : fp101 := from_uint64 a.

Lemma MultiScalarMul_correct_witness :
  let scalars := [[2%N]; [3%N]; [1%N; 0%N]; [5%N]; [7%N]; [255%N]; [0%N]; [9%N]; [4%N; 1%N]] in
  MultiScalarMul scalars (f101 <$> [1; 2; 3; 4; 5; 6; 7; 8; 9]%Z) = Ok (f101 11658).
Proof.
  cbv zeta. rewrite MultiScalarMul_correct.
  - rewrite decide_True by done. vm_compute. reflexivity.
  - repeat constructor.
Defined.

Lemma ScalarMulNative_scalarMul_witness :
  scalarMul (f101 1) [1%N; 1%N] = ScalarMulNative (f101 1) 257.
Proof. apply (ScalarMulNative_scalarMul (f101 1) 257 [1%N; 1%N]); repeat constructor. Defined.
