(* ===== verification/BigInt.v ===== *)
(** * Integers of the standard library (math/big)

    What the protocols use of [big.Int]: [SetBytes] and [Bytes], the unsigned
    big-endian encodings, and [GCD], the extended Euclidean algorithm.  [fuel]
    bounds the divisions of [GCD] by twice the bit length of the second
    operand; [egcd_enough] shows that the bound suffices. *)

From Stdlib Require Import ZArith NArith Znumtheory Lia.
From S2P Require Import Prelude Algebra AlgebraUtils.

(** ** Encodings *)

(** [SetBytes]: the value of a big-endian slice. *)
Definition SetBytes (b : list N) : Z := Z.of_N (bytesBE_val b).

(** [Bytes]: the shortest big-endian encoding of the absolute value. *)
Fixpoint bytes_loop (fuel : nat) (n : N) (acc : list N) : list N :=
  match fuel with
  | 0 => acc
  | S fuel => if (n =? 0)%N then acc else bytes_loop fuel (n / 256) ((n mod 256)%N :: acc)
  end.
Definition Bytes (z : Z) : list N :=
  let n := Z.abs_N z in bytes_loop (N.to_nat (N.size n)) n [].

(** ** The extended Euclidean algorithm

    [egcd fuel a b] is [(g, x, y)] with [g = gcd(a, b) = x * a + y * b], for
    non-negative operands. *)
Fixpoint egcd (fuel : nat) (a b : Z) : Z * Z * Z :=
  match fuel with
  | 0 => (a, 1, 0)%Z
  | S fuel =>
      if (b =? 0)%Z then (a, 1, 0)%Z
      else
        let '(g, x, y) := egcd fuel b (a mod b)%Z in
        (g, y, x - a / b * y)%Z
  end.

(** [GCD(&x, &y, a, b)] for operands of any sign. *)
Definition GCD (a b : Z) : Z * Z * Z :=
  let '(g, x, y) := egcd (2 * N.to_nat (N.size (Z.abs_N b)) + 2) (Z.abs a) (Z.abs b) in
  (g, Z.sgn a * x, Z.sgn b * y)%Z.

Lemma egcd_bezout fuel a b g x y :
  egcd fuel a b = (g, x, y) → (x * a + y * b = g)%Z.
Proof.
  revert a b g x y. induction fuel as [|fuel IH]; intros a b g x y; cbn [egcd].
  { intros [= <- <- <-]. lia. }
  destruct (Z.eqb_spec b 0) as [->|Hb]; [intros [= <- <- <-]; lia|].
  destruct (egcd fuel b (a mod b)) as [[g' x'] y'] eqn:E. intros [= <- <- <-].
  apply IH in E. rewrite <-E. rewrite (Z.mod_eq a b) by done. ring.
Qed.

(** Two divisions halve the second operand. *)
Lemma egcd_enough fuel k a b :
  2 * k + 1 ≤ fuel → (0 ≤ a)%Z → (0 ≤ b < 2 ^ Z.of_nat k)%Z →
  (egcd fuel a b).1.1 = Z.gcd a b.
Proof.
  assert (∀ fuel a b, (0 ≤ a)%Z → (0 < b)%Z →
    (egcd fuel b (a mod b)).1.1 = Z.gcd b (a mod b) →
    (egcd (S fuel) a b).1.1 = Z.gcd a b) as Hstep.
  { intros f a' b' Ha Hb IH. cbn [egcd]. rewrite (proj2 (Z.eqb_neq b' 0)) by lia.
    destruct (egcd f b' (a' mod b')) as [[g x] y]. cbn in *. rewrite IH.
    rewrite Z.gcd_comm, Z.gcd_mod by lia. apply Z.gcd_comm. }
  assert (∀ fuel a, (0 ≤ a)%Z → (egcd fuel a 0).1.1 = Z.gcd a 0) as H0.
  { intros [|f] a' Ha; cbn; rewrite Z.gcd_0_r; lia. }
  revert fuel a b. induction k as [|k IH]; intros fuel a b Hf Ha Hb.
  { assert (b = 0%Z) as -> by lia. by apply H0. }
  rewrite Nat2Z.inj_succ, Z.pow_succ_r in Hb by lia.
  destruct fuel as [|[|fuel]]; [lia..|].
  destruct (decide (b = 0%Z)) as [->|Hb0]; [by apply H0|].
  apply Hstep; [lia..|].
  pose proof (Z.mod_pos_bound a b ltac:(lia)).
  destruct (decide (a mod b = 0)%Z) as [->|Hr]; [apply H0; lia|].
  apply Hstep; [lia..|]. apply IH; [lia..|].
  pose proof (Z.mod_pos_bound b (a mod b) ltac:(lia)).
  pose proof (Z.div_mod b (a mod b) ltac:(lia)).
  assert (1 ≤ b / (a mod b))%Z by (apply Z.div_le_lower_bound; lia).
  nia.
Qed.

(** The contract of [GCD]. *)
Lemma GCD_spec a b g x y :
  GCD a b = (g, x, y) → g = Z.gcd a b ∧ (x * a + y * b = g)%Z.
Proof.
  unfold GCD.
  destruct (egcd _ (Z.abs a) (Z.abs b)) as [[g' x'] y'] eqn:E. intros [= <- <- <-].
  split.
  - change g' with (g', x', y').1.1. rewrite <-E.
    rewrite (egcd_enough _ (N.to_nat (N.size (Z.abs_N b)))).
    + rewrite Z.gcd_abs_l. apply Z.gcd_abs_r.
    + lia.
    + lia.
    + pose proof (N.size_gt (Z.abs_N b)) as Hb. rewrite N_nat_Z.
      change 2%Z with (Z.of_N 2). rewrite <-N2Z.inj_pow. lia.
  - apply egcd_bezout in E. rewrite <-E. destruct a, b; cbn [Z.sgn Z.abs]; lia.
Qed.

Lemma bytesBE_val_cons x acc :
  bytesBE_val (x :: acc) = (x * 256 ^ N.of_nat (length acc) + bytesBE_val acc)%N.
Proof.
  induction acc as [|y acc IH] using rev_ind; [cbn; lia|].
  rewrite app_comm_cons, !bytesBE_val_snoc, IH, length_app. cbn [length].
  rewrite Nat2N.inj_add, N.pow_add_r. cbn [N.of_nat]. lia.
Qed.

Lemma bytes_loop_spec fuel n acc :
  (n < 256 ^ N.of_nat fuel)%N → bytes_ok acc →
  bytesBE_val (bytes_loop fuel n acc) =
    (n * 256 ^ N.of_nat (length acc) + bytesBE_val acc)%N
  ∧ bytes_ok (bytes_loop fuel n acc).
Proof.
  revert n acc. induction fuel as [|fuel IH]; intros n acc Hn Hacc; cbn [bytes_loop].
  { cbn in Hn. assert (n = 0%N) as -> by lia. split; [lia|done]. }
  destruct (N.eqb_spec n 0) as [->|Hn0]; [split; [lia|done]|].
  rewrite Nat2N.inj_succ, N.pow_succ_r' in Hn.
  destruct (IH (n / 256)%N ((n mod 256)%N :: acc)) as [-> Hok].
  - apply N.Div0.div_lt_upper_bound. lia.
  - constructor; [apply N.mod_lt; lia|done].
  - split; [|done]. rewrite bytesBE_val_cons. cbn [length].
    rewrite Nat2N.inj_succ, N.pow_succ_r'.
    pose proof (N.div_mod n 256 ltac:(done)) as E. rewrite E at 3. lia.
Qed.

(** Encodings of one length are injective. *)
Lemma bytesBE_val_inj b c :
  length b = length c → bytes_ok b → bytes_ok c → bytesBE_val b = bytesBE_val c → b = c.
Proof.
  revert c. induction b as [|x b IH] using rev_ind; intros c Hl Hb Hc E.
  { symmetry in Hl. by apply nil_length_inv in Hl as ->. }
  destruct c as [|y c _] using rev_ind; [rewrite length_app in Hl; cbn in Hl; lia|].
  rewrite !length_app in Hl. cbn in Hl. rewrite !bytesBE_val_snoc in E.
  unfold bytes_ok in *. rewrite !Forall_app, !Forall_singleton in *.
  destruct Hb as [Hb Hx], Hc as [Hc Hy].
  f_equal; [apply IH; [lia|done..|lia]|]. f_equal. lia.
Qed.

(** [SetBytes] inverts [Bytes] on non-negative integers. *)
Lemma SetBytes_Bytes z : SetBytes (Bytes z) = Z.abs z.
Proof.
  unfold SetBytes, Bytes.
  destruct (bytes_loop_spec (N.to_nat (N.size (Z.abs_N z))) (Z.abs_N z) []) as [-> _].
  - rewrite N2Nat.id. eapply N.lt_le_trans; [apply N.size_gt|].
    apply N.pow_le_mono_l. lia.
  - constructor.
  - cbn [length bytesBE_val]. rewrite N.pow_0_r. cbn. lia.
Qed.

Lemma Bytes_ok z : bytes_ok (Bytes z).
Proof.
  unfold Bytes. apply bytes_loop_spec; [|constructor].
  rewrite N2Nat.id. eapply N.lt_le_trans; [apply N.size_gt|]. apply N.pow_le_mono_l. lia.
Qed.

Example GCD_ex : GCD 101 (-17) = (1, -1, -6)%Z.
Proof. reflexivity. Qed.
