(* ===== verification/IOUtils.v ===== *)
(** * Framing of byte strings (base/utils/ioutils, base/utils/sliceutils, hashing)

    The writers that put 64-bit lengths before byte strings, the appenders
    built on them, and the hash functions that digest framed inputs.  A
    [Writer] may fail; the in-memory writers (hash states and buffers) never
    do and are modelled by the bytes written so far.  The theorems show which
    framings determine the byte strings they frame. *)

From Stdlib Require Import ZArith NArith Lia.
From stdpp Require Import strings.
From S2P Require Import Prelude Algebra AlgebraUtils.

(** ** Fixed-width integers (encoding/binary) *)

Fixpoint LittleEndian (k : nat) (n : N) : list N :=
  match k with
  | 0 => []
  | S k => (n mod 256)%N :: LittleEndian k (n / 256)
  end.
Definition uint64ToBytesLE (i : N) : list N := LittleEndian 8 i.
Definition uint64ToBytesBE (i : N) : list N := reverse (LittleEndian 8 i).

Lemma length_LittleEndian k n : length (LittleEndian k n) = k.
Proof. revert n. induction k as [|k IH]; intros n; cbn; [done|by rewrite IH]. Qed.
Lemma LittleEndian_ok k n : bytes_ok (LittleEndian k n).
Proof.
  revert n. induction k as [|k IH]; intros n; cbn; constructor; [|apply IH].
  by apply N.mod_lt.
Qed.
Lemma LittleEndian_inj k n n' :
  (n < 256 ^ N.of_nat k)%N → (n' < 256 ^ N.of_nat k)%N →
  LittleEndian k n = LittleEndian k n' → n = n'.
Proof.
  revert n n'. induction k as [|k IH]; intros n n' Hn Hn'; cbn [LittleEndian].
  { cbn in Hn, Hn'. lia. }
  rewrite Nat2N.inj_succ, N.pow_succ_r' in Hn, Hn'. intros [= Hm Hd].
  apply IH in Hd; [|by apply N.Div0.div_lt_upper_bound..].
  rewrite (N.div_mod n 256), (N.div_mod n' 256) by done. by rewrite Hm, Hd.
Qed.

(** Lengths a machine word can hold, as every length of the program is. *)
Definition sized (b : list N) : Prop := (N.of_nat (length b) < 2 ^ 64)%N.
Definition lenLE (b : list N) : list N := uint64ToBytesLE (N.of_nat (length b)).
Definition lenBE (b : list N) : list N := uint64ToBytesBE (N.of_nat (length b)).

Lemma uint64LE_inj i j :
  (i < 2 ^ 64)%N → (j < 2 ^ 64)%N → uint64ToBytesLE i = uint64ToBytesLE j → i = j.
Proof. intros Hi Hj. by apply (LittleEndian_inj 8). Qed.
Lemma uint64BE_inj i j :
  (i < 2 ^ 64)%N → (j < 2 ^ 64)%N → uint64ToBytesBE i = uint64ToBytesBE j → i = j.
Proof. intros Hi Hj E. apply (inj reverse) in E. by apply uint64LE_inj. Qed.
Lemma length_uint64LE i : length (uint64ToBytesLE i) = 8.
Proof. apply length_LittleEndian. Qed.
Lemma length_uint64BE i : length (uint64ToBytesBE i) = 8.
Proof. unfold uint64ToBytesBE. by rewrite length_reverse, length_LittleEndian. Qed.

(** ** Encodings: [serde.MarshalCBOR] and [serde.UnmarshalCBOR] *)

Record Codec (D : Type) := mkCodec {
  MarshalCBOR : D → result (list N); UnmarshalCBOR : list N → result D }.
Arguments mkCodec {D}. Arguments MarshalCBOR {D}. Arguments UnmarshalCBOR {D}.
Class RoundTrip {D} (c : Codec D) : Prop :=
  round_trip d b : MarshalCBOR c d = Ok b → UnmarshalCBOR c b = Ok d ∧ b ≠ [].

(** ** Writers

    [Write] returns the number of bytes written and a possible error. *)
Class Writer (W : Type) := { Write : list N → W → W * nat * option error }.

(** One [Write] of a sequence: skipped after an error; [n] counts the bytes of
    the writes that succeeded. *)
Definition write_next {W} `{Writer W} (d : list N) (r : W * nat * option error) :
    W * nat * option error :=
  match r with
  | (w, n, None) =>
      match Write d w with
      | (w, l, None) => (w, n + l, None)
      | (w, _, Some e) => (w, n, Some e)
      end
  | _ => r
  end.

Definition WriteConcat {W} `{Writer W} (writer : W) (data : list (list N)) :
    W * nat * option error :=
  foldl (λ r d, write_next d r) (writer, 0, None) data.

Definition WriteIndexLengthPrefixed {W} `{Writer W} (writer : W) (data : list (list N)) :
    W * nat * option error :=
  foldl (λ r '(i, d),
      write_next d (write_next (lenLE d) (write_next (uint64ToBytesLE (N.of_nat i)) r)))
    (writer, 0, None) (imap pair data).

Definition WriteLengthPrefixed {W} `{Writer W} (writer : W) (data : list (list N)) :
    W * nat * option error :=
  foldl (λ r d, write_next d (write_next (lenLE d) r)) (writer, 0, None) data.

(** Hash states and [bytes.Buffer]. *)
#[export] Instance Buffer : Writer (list N) := {| Write d w := (w ++ d, length d, None) |}.

(** [Must1] around the buffer writer cannot fail. *)
Definition AppendLengthPrefixed (out i : list N) : list N :=
  out ++ (WriteLengthPrefixed [] [i]).1.1.
Definition AppendLengthPrefixedSlices (out : list N) (ins : list (list N)) : list N :=
  (out ++ uint64ToBytesLE (N.of_nat (length ins))) ++ (WriteLengthPrefixed [] ins).1.1.

(** ** Hashing

    [h.Sum(nil)] of a fresh hash state is a parameter of the functions,
    [sum], with the size [size] of its digests. *)
Definition Hash (sum : list N → list N) (xs : list (list N)) : result (list N) :=
  match WriteConcat [] xs with
  | (h, _, None) => Ok (sum h)
  | (_, _, Some e) => Err e
  end.
Definition HashIndexLengthPrefixed (sum : list N → list N) (xs : list (list N)) : result (list N) :=
  match WriteIndexLengthPrefixed [] xs with
  | (h, _, None) => Ok (sum h)
  | (_, _, Some e) => Err e
  end.
Definition HashChain (size : nat) (sum : list N → list N) (xs : list (list N)) : result (list N) :=
  foldM (λ out x, Hash sum [out; x]) (replicate size 0%N) xs.

(** ** What the writers write *)

Definition frame (b : list N) : list N := lenLE b ++ b.
Definition frames (data : list (list N)) : list N := data ≫= frame.
Definition indexed_frame (p : nat * list N) : list N :=
  uint64ToBytesLE (N.of_nat p.1) ++ frame p.2.

Lemma buffer_writes {A} (f : A → list N) (step : list N * nat * option error → A →
    list N * nat * option error) (l : list A) w n :
  (∀ a w n, step (w, n, None) a = (w ++ f a, n + length (f a), None)) →
  foldl step (w, n, None) l = (w ++ (l ≫= f), n + length (l ≫= f), None).
Proof.
  intros Hs. revert w n. induction l as [|a l IH]; intros w n.
  { cbn. by rewrite app_nil_r, Nat.add_0_r. }
  cbn [foldl mbind list_bind]. rewrite Hs, IH, length_app, <-(assoc_L (++)), Nat.add_assoc. done.
Qed.

Lemma WriteConcat_buffer data w :
  WriteConcat w data = (w ++ concat data, length (concat data), None).
Proof.
  unfold WriteConcat. rewrite (buffer_writes (λ d, d)) by done. cbn [plus].
  replace (data ≫= λ d, d) with (concat data); [done|].
  by induction data as [|d data IH]; cbn; [|rewrite IH].
Qed.
Lemma WriteLengthPrefixed_buffer data w :
  WriteLengthPrefixed w data = (w ++ frames data, length (frames data), None).
Proof.
  unfold WriteLengthPrefixed. apply (buffer_writes frame). intros d w' n. cbn [write_next Write Buffer].
  unfold frame. by rewrite (assoc_L (++)), length_app, Nat.add_assoc.
Qed.
Lemma WriteIndexLengthPrefixed_buffer data w :
  WriteIndexLengthPrefixed w data =
    (w ++ (imap pair data ≫= indexed_frame), length (imap pair data ≫= indexed_frame), None).
Proof.
  unfold WriteIndexLengthPrefixed. apply (buffer_writes indexed_frame). intros [i d] w' n.
  cbn [write_next Write Buffer]. unfold indexed_frame, frame. cbn [fst snd]. by rewrite !length_app, !(assoc_L (++)), !Nat.add_assoc.
Qed.

Lemma AppendLengthPrefixed_eq out b : AppendLengthPrefixed out b = out ++ frame b.
Proof.
  unfold AppendLengthPrefixed. rewrite WriteLengthPrefixed_buffer. cbn. by rewrite app_nil_r.
Qed.
Lemma AppendLengthPrefixedSlices_eq out data :
  AppendLengthPrefixedSlices out data
    = out ++ uint64ToBytesLE (N.of_nat (length data)) ++ frames data.
Proof.
  unfold AppendLengthPrefixedSlices. rewrite WriteLengthPrefixed_buffer. cbn [fst app].
  by rewrite (assoc_L (++)).
Qed.
Lemma Hash_eq sum xs : Hash sum xs = Ok (sum (concat xs)).
Proof. unfold Hash. by rewrite WriteConcat_buffer. Qed.
Lemma HashIndexLengthPrefixed_eq sum xs :
  HashIndexLengthPrefixed sum xs = Ok (sum (imap pair xs ≫= indexed_frame)).
Proof. unfold HashIndexLengthPrefixed. by rewrite WriteIndexLengthPrefixed_buffer. Qed.

(** ** Framings are injective *)

Lemma app_split {A} (x x' r r' : list A) :
  length x = length x' → x ++ r = x' ++ r' → x = x' ∧ r = r'.
Proof. intros Hl. by apply app_inj_1. Qed.

(** A frame ends where its length says: whatever follows it, it can be read
    off the front. *)
Lemma frame_inj b b' r r' :
  sized b → sized b' → frame b ++ r = frame b' ++ r' → b = b' ∧ r = r'.
Proof.
  intros Hb Hb'. unfold frame, lenLE. rewrite <-!(assoc_L (++)). intros E.
  apply app_split in E as [E1 E]; [|by rewrite !length_uint64LE].
  apply uint64LE_inj in E1; [|done..]. apply app_split in E as [-> ->]; [done|lia].
Qed.

Lemma frame_nonempty b r : frame b ++ r ≠ [].
Proof.
  intros E%(f_equal length). rewrite length_app in E. unfold frame, lenLE in E.
  rewrite length_app, length_uint64LE in E. cbn in E. lia.
Qed.

(** The shape shared by all the framings: items that can be read off the
    front one at a time. *)
Lemma flat_inj {A} (wf : A → Prop) (f : A → list N) (l l' : list A) :
  (∀ a a' r r', wf a → wf a' → f a ++ r = f a' ++ r' → a = a' ∧ r = r') →
  (∀ a, f a ≠ []) → Forall wf l → Forall wf l' →
  l ≫= f = l' ≫= f → l = l'.
Proof.
  intros Hinj Hne. revert l'. induction l as [|a l IH]; intros [|a' l'] Hw Hw' E; [done| | |].
  - symmetry in E. cbn in E. apply app_nil in E as [E _]. by destruct (Hne a').
  - cbn in E. apply app_nil in E as [E _]. by destruct (Hne a).
  - apply Forall_cons in Hw as [H1 H2], Hw' as [H1' H2'].
    destruct (Hinj _ _ _ _ H1 H1' E) as [-> E']. by rewrite (IH l').
Qed.

(** With their number in front, frames end by themselves. *)
Lemma frames_inj_n data data' r r' :
  length data = length data' → Forall sized data → Forall sized data' →
  frames data ++ r = frames data' ++ r' → data = data' ∧ r = r'.
Proof.
  revert data'. induction data as [|b data IH]; intros [|b' data'] Hl Hs Hs' E; try done.
  apply Forall_cons in Hs as [H1 H2], Hs' as [H1' H2']. unfold frames in E. cbn in E.
  rewrite <-!(assoc_L (++)) in E. apply frame_inj in E as [-> E]; [|done..].
  apply IH in E as [-> ->]; [done|by injection Hl|done..].
Qed.

Definition sized_list (data : list (list N)) : Prop :=
  (N.of_nat (length data) < 2 ^ 64)%N ∧ Forall sized data.

Lemma slices_inj data data' r r' :
  sized_list data → sized_list data' →
  AppendLengthPrefixedSlices [] data ++ r = AppendLengthPrefixedSlices [] data' ++ r' →
  data = data' ∧ r = r'.
Proof.
  intros [Hn Hs] [Hn' Hs']. rewrite !AppendLengthPrefixedSlices_eq, !app_nil_l.
  rewrite <-!(assoc_L (++)). intros E.
  apply app_split in E as [E1 E]; [|by rewrite !length_uint64LE].
  apply uint64LE_inj in E1; [|done..]. apply frames_inj_n in E; [done|lia|done..].
Qed.

Lemma indexed_frame_inj p p' r r' :
  (N.of_nat p.1 < 2 ^ 64)%N ∧ sized p.2 → (N.of_nat p'.1 < 2 ^ 64)%N ∧ sized p'.2 →
  indexed_frame p ++ r = indexed_frame p' ++ r' → p = p' ∧ r = r'.
Proof.
  destruct p as [i b], p' as [i' b']. cbn [fst snd]. intros [Hi Hb] [Hi' Hb'].
  unfold indexed_frame. cbn [fst snd]. rewrite <-!(assoc_L (++)). intros E.
  apply app_split in E as [E1 E]; [|by rewrite !length_uint64LE].
  apply uint64LE_inj in E1; [|done..]. apply frame_inj in E as [-> ->]; [|done..].
  split; [f_equal; lia|done].
Qed.

Lemma indexed_inj data data' :
  sized_list data → sized_list data' →
  imap pair data ≫= indexed_frame = imap pair data' ≫= indexed_frame → data = data'.
Proof.
  assert (∀ data, sized_list data →
    Forall (λ p : nat * list N, (N.of_nat p.1 < 2 ^ 64)%N ∧ sized p.2) (imap pair data)) as Hwf.
  { intros d [Hn Hs]. apply Forall_lookup. intros k [i b].
    rewrite list_lookup_imap. destruct (d !! k) as [c|] eqn:Hk; [|done]. cbn. intros [= <- <-].
    pose proof (lookup_lt_Some _ _ _ Hk). split; [lia|].
    exact (proj1 (Forall_lookup _ _) Hs k c Hk). }
  intros H H' E. apply (flat_inj (λ p : nat * list N, (N.of_nat p.1 < 2 ^ 64)%N ∧ sized p.2)) in E.
  - apply (f_equal (fmap snd)) in E. rewrite !fmap_imap in E.
    assert (∀ d : list (list N), imap (λ n, snd ∘ pair n) d = d) as Hid.
    { intros d. induction d as [|b d IH]; [done|]. cbn. f_equal. exact IH. }
    by rewrite !Hid in E.
  - apply indexed_frame_inj.
  - intros [i b] F%(f_equal length). unfold indexed_frame in F.
    rewrite length_app, length_uint64LE in F. cbn in F. lia.
  - by apply Hwf.
  - by apply Hwf.
Qed.

(** The framings are unambiguous for lists and strings of machine-word
    lengths: the bytes that [WriteLengthPrefixed] and
    [WriteIndexLengthPrefixed] write determine the list of byte strings
    written, and [AppendLengthPrefixed] and [AppendLengthPrefixedSlices] can
    moreover be read off the front of whatever follows; so two calls of
    [HashIndexLengthPrefixed] with one digest and different inputs exhibit
    two different preimages of the digest.  [WriteConcat] and [Hash] are not
    injective: they write the bare concatenation. *)
Theorem Framing_injective (data data' : list (list N)) (b b' r r' : list N) sum :
  sized_list data → sized_list data' → sized b → sized b' →
  ((WriteLengthPrefixed [] data).1.1 = (WriteLengthPrefixed [] data').1.1 → data = data') ∧
  ((WriteIndexLengthPrefixed [] data).1.1 = (WriteIndexLengthPrefixed [] data').1.1 → data = data') ∧
  (AppendLengthPrefixed [] b ++ r = AppendLengthPrefixed [] b' ++ r' → b = b' ∧ r = r') ∧
  (AppendLengthPrefixedSlices [] data ++ r = AppendLengthPrefixedSlices [] data' ++ r' →
     data = data' ∧ r = r') ∧
  (data ≠ data' → HashIndexLengthPrefixed sum data = HashIndexLengthPrefixed sum data' →
     ∃ m m', m ≠ m' ∧ sum m = sum m' ∧ HashIndexLengthPrefixed sum data = Ok (sum m)) ∧
  Hash sum data = Ok (sum (concat data)).
Proof.
  intros H H' Hb Hb'. split_and!.
  - rewrite !WriteLengthPrefixed_buffer. cbn. intros E.
    apply (flat_inj sized frame) in E; [done|by intros; apply frame_inj|..].
    + intros a F. apply (frame_nonempty a []). by rewrite app_nil_r.
    + apply H.
    + apply H'.
  - rewrite !WriteIndexLengthPrefixed_buffer. cbn. by apply indexed_inj.
  - rewrite !AppendLengthPrefixed_eq. cbn. by apply frame_inj.
  - by apply slices_inj.
  - intros Hne. rewrite !HashIndexLengthPrefixed_eq. intros [= E].
    eexists _, _. split_and!; [|exact E|done]. intros F. by apply Hne, indexed_inj.
  - apply Hash_eq.
Qed.

Lemma Framing_injective_witness :
  (WriteLengthPrefixed [] [[1%N]; [2%N]]).1.1 ≠ (WriteLengthPrefixed [] [[1%N; 2%N]]).1.1.
Proof.
  intros E. destruct (Framing_injective [[1%N]; [2%N]] [[1%N; 2%N]] [] [] [] [] (λ x, x)) as (H & _).
  - split; [done|]. repeat constructor.
  - split; [done|]. repeat constructor.
  - done.
  - done.
  - by apply H in E.
Defined.
