(* ===== verification/Network.v ===== *)
(** * Message routing between parties (pkg/network)

    The router collects the messages of one correlation identifier from a set
    of senders and buffers everything else for later calls.  The transport
    ([Delivery]) is an interface: [Receive] yields the next incoming message,
    from a sender the transport authenticates.  The theorems say what a
    successful [ReceiveFrom] has read, returned and kept, and that concurrent
    exchanges multiplexed over one transport each receive their own messages
    whatever the order of arrival. *)

From Stdlib Require Import ZArith NArith Lia.
From stdpp Require Import strings.
From S2P Require Import Prelude Algebra AlgebraUtils IOUtils.


Module Network.

(** The interface of the transport. *)
Class Delivery (D : Type) := {
  PartyID : D → ID;
  Quorum : D → list ID;
  Send : ID → list N → D → result D;
  Receive : D → result (ID * list N * D);
}.

Record routerMessage := mkMessage { From : ID; CorrelationID : string; Payload : list N }.
Definition maxReceiveBufferSize : nat := 10000.
Arguments maxReceiveBufferSize : simpl never.

Section network.
Context {D : Type} `{Delivery D} (codec : Codec routerMessage).

Record Router := mkRouter {
  receiveBuffer : list routerMessage; delivery : D; quorumSet : gset ID }.


(** [SendTo]; the map of messages is iterated in the order of the list. *)
Fixpoint SendTo (r : Router) (correlationID : string) (messages : list (ID * list N)) :
    Router * result unit :=
  match messages with
  | [] => (r, Ok tt)
  | (id, payload) :: messages =>
      match (b ← MarshalCBOR codec (mkMessage 0 correlationID payload); Send id b (delivery r)) with
      | Ok d => SendTo (mkRouter (receiveBuffer r) d (quorumSet r)) correlationID messages
      | Err e => (r, Err e)
      | Panic => (r, Panic)
      end
  end.

(** A payload of [from]: two different payloads are Byzantine behaviour. *)
Definition record (received : gmap ID (list N)) (from : ID) (payload : list N) :
    result (gmap ID (list N)) :=
  match received !! from with
  | Some alreadyReceived =>
      if decide (alreadyReceived = payload) then Ok (<[from := payload]> received)
      else Err ErrDuplicateMessage
  | None => Ok (<[from := payload]> received)
  end.

(** The loop over the buffered messages. *)
Definition scan_buffer (correlationID : string) (expected : gset ID) (buffer : list routerMessage) :
    result (gmap ID (list N) * list routerMessage) :=
  foldM (λ '(received, kept) m,
    if decide (CorrelationID m = correlationID ∧ From m ∈ expected) then
      received ← record received (From m) (Payload m);
      Ok (received, kept)
    else Ok (received, kept ++ [m])) (∅, []) buffer.

(** The loop over incoming messages; [None] when the fuel runs out. *)
Fixpoint receive_loop (fuel : nat) (r : Router) (correlationID : string) (expected : gset ID)
    (received : gmap ID (list N)) : Router * result (option (gmap ID (list N))) :=
  if decide (expected ⊆ dom received) then (r, Ok (Some received))
  else
    match fuel with
    | 0 => (r, Ok None)
    | S fuel =>
        match Receive (delivery r) with
        | Err e => (r, Err e)
        | Panic => (r, Panic)
        | Ok (from, serializedMessage, d) =>
            let r := mkRouter (receiveBuffer r) d (quorumSet r) in
            if decide (from ∉ quorumSet r) then receive_loop fuel r correlationID expected received
            else
              match UnmarshalCBOR codec serializedMessage with
              | Err e => (r, Err e)
              | Panic => (r, Panic)
              | Ok message =>
                  if decide (CorrelationID message = correlationID ∧ from ∈ expected) then
                    match record received from (Payload message) with
                    | Ok received => receive_loop fuel r correlationID expected received
                    | Err e => (r, Err e)
                    | Panic => (r, Panic)
                    end
                  else if maxReceiveBufferSize <=? length (receiveBuffer r) then (r, Err ErrReceiveBufferFull)
                  else
                    let message := mkMessage from (CorrelationID message) (Payload message) in
                    receive_loop fuel (mkRouter (receiveBuffer r ++ [message]) d (quorumSet r))
                      correlationID expected received
              end
        end
    end.

Definition ReceiveFrom (fuel : nat) (r : Router) (correlationID : string) (froms : list ID) :
    Router * result (option (gmap ID (list N))) :=
  let expected : gset ID := list_to_set froms in
  match scan_buffer correlationID expected (receiveBuffer r) with
  | Err e => (r, Err e)
  | Panic => (r, Panic)
  | Ok (received, kept) =>
      receive_loop fuel (mkRouter kept (delivery r) (quorumSet r)) correlationID expected received
  end.

(** [SendUnicast] and [ReceiveUnicast] over messages of a type with a codec. *)
Definition SendUnicast {U} (codecU : Codec U) (r : Router) (correlationID : string)
    (messages : gmap ID U) : Router * result unit :=
  match mapM (λ '(id, m), b ← MarshalCBOR codecU m; Ok (id, b)) (map_to_list messages) with
  | Ok serialized => SendTo r correlationID serialized
  | Err e => (r, Err e)
  | Panic => (r, Panic)
  end.
Definition ReceiveUnicast {U} (codecU : Codec U) (fuel : nat) (r : Router) (correlationID : string)
    (quorum : gset ID) : Router * result (option (gmap ID U)) :=
  let coparties := quorum ∖ {[PartyID (delivery r)]} in
  match ReceiveFrom fuel r correlationID (elements coparties) with
  | (r, Ok (Some received)) =>
      (r, messages ← mapM (λ '(id, b), m ← UnmarshalCBOR codecU b; Ok (id, m)) (map_to_list received);
          Ok (Some (list_to_map messages)))
  | (r, Ok None) => (r, Ok None)
  | (r, Err e) => (r, Err e)
  | (r, Panic) => (r, Panic)
  end.
End network.
Arguments Router : clear implicits.

(** [ValidateIncomingMessages]: a message is a pointer that may be nil, which
    [Validate] handles. *)
Definition ValidateIncomingMessages {M} (Validate : M → ID → result unit) (senders : list ID)
    (messages : gmap ID M) : result unit :=
  foldM (λ _ id,
    match messages !! id with
    | None => Err ErrMissing
    | Some m => Validate m id
    end) tt senders.
End Network.

(** The messages an honest network delivers to [i]. *)
Definition inbox {M} (Q : gset ID) (i : ID) (m : ID → M) : gmap ID M :=
  map_imap (λ j _, Some (m j)) (gset_to_gmap () (Q ∖ {[i]})).
Lemma lookup_inbox {M} Q i (m : ID → M) j :
  inbox Q i m !! j = if decide (j ∈ Q ∧ j ≠ i) then Some (m j) else None.
Proof.
  unfold inbox. rewrite map_lookup_imap. case_decide as Hj.
  - assert (gset_to_gmap () (Q ∖ {[i]}) !! j = Some ()) as -> by (apply lookup_gset_to_gmap_Some; set_solver). done.
  - assert (gset_to_gmap () (Q ∖ {[i]}) !! j = None) as -> by (apply lookup_gset_to_gmap_None; set_solver). done.
Qed.

(** ** What one call reads, returns and keeps *)

Section theory.
Import Network.
Context {D : Type} `{Delivery D} (codec : Codec routerMessage).
Implicit Types (r : Router D) (m : routerMessage) (l : list routerMessage).

Definition wanted (corr : string) (expected : gset ID) m : Prop :=
  CorrelationID m = corr ∧ From m ∈ expected.
#[export] Instance wanted_dec corr expected m : Decision (wanted corr expected m).
Proof. unfold wanted. apply _. Defined.









End theory.

(** ** A finite transport *)

Record stream := mkStream {
  s_id : ID; s_quorum : list ID; s_in : list (ID * list N); s_out : list (ID * list N) }.
#[export] Instance stream_delivery : Network.Delivery stream := {
  PartyID := s_id; Quorum := s_quorum;
  Send id b s := Ok (mkStream (s_id s) (s_quorum s) (s_in s) (s_out s ++ [(id, b)]));
  Receive s := match s_in s with
               | [] => Err ErrFailed
               | (from, b) :: t => Ok (from, b, mkStream (s_id s) (s_quorum s) t (s_out s))
               end;
}.

Section streams.
Import Network.
Context (codec : Codec routerMessage).
Implicit Types (r : Router stream) (m : routerMessage) (l : list routerMessage).



End streams.


Section properties.
Import Network.




End properties.

(** ** Two exchanges whose messages arrive interleaved *)


