(* ===== verification/Echo.v ===== *)
(** * Echo broadcast (pkg/network/echo, base/ct)

    Every party sends its message to the others, echoes what it received, and
    accepts a message only when all echoes of it agree.  Messages travel as
    byte strings; a message of a round is a pointer that may be nil ([None]).
    The theorems: two honest parties that finish agree on the messages of
    every other party, an honest party's message is delivered unchanged, and
    the protocol finishes when all parties are honest. *)

From Stdlib Require Import ZArith NArith Lia.
From stdpp Require Import strings.
From S2P Require Import Prelude Algebra AlgebraUtils IOUtils Network.

(** [ct.CompareBytes]: the three-way comparison, padded to a common length. *)
Definition compare_step (px py : list N) (s : bool * bool * bool) (i : nat) : bool * bool * bool :=
  let '(lt, gt, fin) := s in
  let bx := px !!! i in
  let by' := py !!! i in
  let less := (bx <? by')%N in
  let greater := (by' <? bx)%N in
  let mask := negb fin in
  (lt || (less && mask), gt || (greater && mask), fin || (less || greater)).
Definition CompareBytes (x y : list N) : bool * bool * bool :=
  let maxLen := max (length x) (length y) in
  let px := x ++ replicate (maxLen - length x) 0%N in
  let py := y ++ replicate (maxLen - length y) 0%N in
  let '(lt, gt, fin) := foldl (compare_step px py) (false, false, false) (seq 0 maxLen) in
  let allEqual := negb fin in
  (lt || ((length x <? length y) && allEqual), (length x =? length y) && allEqual,
   gt || ((length y <? length x) && allEqual)).

Module Echo.
Section echo.
Context {B : Type} (codec : Codec B).

Record Participant := mkParticipant {
  sharingID : ID; quorum : gset ID; messages : gmap ID (list N) }.

Definition NewParticipant (id : ID) (quorum : option (gset ID)) : result Participant :=
  match quorum with
  | None => Err ErrInvalidArgument
  | Some quorum =>
      if decide (id ∉ quorum) then Err ErrInvalidArgument
      else Ok (mkParticipant id quorum ∅)
  end.

(** The payload of the first round and the echoes of the second. *)
Abbreviation Round1P2P := (option (list N)) (only parsing).
Abbreviation Round2P2P := (option (gmap ID (list N))) (only parsing).
Definition Validate {M} (m : option M) : result unit :=
  match m with None => Err ErrInvalidArgument | Some _ => Ok tt end.

Definition others (p : Participant) : list ID := elements (quorum p ∖ {[sharingID p]}).

Definition Round1 (p : Participant) (message : B) : Participant * result (gmap ID Round1P2P) :=
  match MarshalCBOR codec message with
  | Ok serializedMessage =>
      (mkParticipant (sharingID p) (quorum p) (<[sharingID p := serializedMessage]> (messages p)),
       Ok (gset_to_gmap (Some serializedMessage) (quorum p ∖ {[sharingID p]})))
  | Err e => (p, Err e)
  | Panic => (p, Panic)
  end.

(** The messages are stored one by one; a failure leaves those already read. *)
Fixpoint store_messages (ids : list ID) (r1 : gmap ID Round1P2P) (st received : gmap ID (list N)) :
    gmap ID (list N) * result (gmap ID (list N)) :=
  match ids with
  | [] => (st, Ok received)
  | id :: ids =>
      match r1 !! id with
      | None => (st, Err ErrFailed)
      | Some None => (st, Err ErrInvalidArgument)
      | Some (Some payload) => store_messages ids r1 (<[id := payload]> st) (<[id := payload]> received)
      end
  end.
Definition Round2 (p : Participant) (r1 : gmap ID Round1P2P) : Participant * result (gmap ID Round2P2P) :=
  match store_messages (others p) r1 (messages p) ∅ with
  | (st, Ok receivedMessages) =>
      (mkParticipant (sharingID p) (quorum p) st,
       Ok (gset_to_gmap (Some receivedMessages) (quorum p ∖ {[sharingID p]})))
  | (st, Err e) => (mkParticipant (sharingID p) (quorum p) st, Err e)
  | (st, Panic) => (mkParticipant (sharingID p) (quorum p) st, Panic)
  end.

(** The echoes of the message of [id]. *)
Definition check_echoes (p : Participant) (r2 : gmap ID Round2P2P) (id : ID) : result unit :=
  let message := default [] (messages p !! id) in
  foldM (λ _ echoID,
    if decide (echoID = id) then Ok tt
    else
      match r2 !! echoID with
      | None => Err ErrFailed
      | Some echo =>
          _ ← Validate echo;
          let echoMessage := default [] (default ∅ echo !! id) in
          let '(_, isEq, _) := CompareBytes message echoMessage in
          if negb isEq then Err ErrFailed else Ok tt
      end) tt (others p).

Definition Round3 (p : Participant) (r2 : gmap ID Round2P2P) : result (gmap ID B) :=
  received ← foldM (λ (received : gmap ID (list N)) id,
    _ ← check_echoes p r2 id;
    Ok (<[id := default [] (messages p !! id)]> received)) ∅ (others p);
  foldM (λ r3 id,
    message ← UnmarshalCBOR codec (default [] (received !! id));
    Ok (<[id := message]> r3)) ∅ (others p).
End echo.
End Echo.

(** ** Comparison *)

Section compare.
Implicit Types x y : list N.

Lemma compare_loop px py n :
  let '(lt, gt, fin) := foldl (compare_step px py) (false, false, false) (seq 0 n) in
  (fin = false ↔ ∀ i, i < n → px !!! i = py !!! i) ∧
  (lt = true ↔ ∃ k, k < n ∧ (px !!! k < py !!! k)%N ∧ ∀ i, i < k → px !!! i = py !!! i) ∧
  (gt = true ↔ ∃ k, k < n ∧ (py !!! k < px !!! k)%N ∧ ∀ i, i < k → px !!! i = py !!! i) ∧
  (fin = lt || gt).
Proof.
  induction n as [|n IH]; [cbn; split_and!; [split; [intros _ i; lia|done]|split; [done|intros (k & ? & _); lia]..|done]|].
  rewrite seq_S, foldl_app. cbn [plus foldl].
  destruct (foldl _ _ (seq 0 n)) as [[lt gt] fin]. destruct IH as (Hf & Hlt & Hgt & Efin).
  unfold compare_step.
  assert (∀ P : nat → Prop, (∃ k, k < S n ∧ P k) ↔ (∃ k, k < n ∧ P k) ∨ P n) as Hex.
  { intros P. split.
    - intros (k & Hk & HP). destruct (decide (k = n)) as [->|]; [by right|left; exists k; split; [lia|done]].
    - intros [(k & Hk & HP)|HP]; [exists k; split; [lia|done]|exists n; split; [lia|done]]. }
  rewrite !Hex, <-Hlt, <-Hgt.
  assert ((∀ i, i < S n → px !!! i = py !!! i) ↔ fin = false ∧ px !!! n = py !!! n) as ->.
  { rewrite Hf. split; [intros Ha; split; [intros i Hi; apply Ha; lia|apply Ha; lia]|].
    intros [Ha Hn] i Hi. destruct (decide (i = n)) as [->|]; [done|apply Ha; lia]. }
  rewrite <-Hf.
  destruct (N.ltb_spec (px !!! n) (py !!! n)), (N.ltb_spec (py !!! n) (px !!! n)); subst fin; destruct lt, gt; cbn;
    split_and!; try done; split; try naive_solver lia.
Qed.

Lemma CompareBytes_eq x y : (CompareBytes x y).1.2 = true ↔ x = y.
Proof.
  unfold CompareBytes. set (n := max (length x) (length y)).
  pose proof (compare_loop (x ++ replicate (n - length x) 0%N) (y ++ replicate (n - length y) 0%N) n) as Hl.
  destruct (foldl _ _ (seq 0 n)) as [[lt gt] fin]. destruct Hl as (Hf & _). cbn [fst snd].
  rewrite andb_true_iff, Nat.eqb_eq, negb_true_iff, Hf. split.
  - intros [El Ha]. assert (n = length x) as En by (subst n; lia).
    rewrite <-El, En, Nat.sub_diag in Ha. cbn in Ha. rewrite !app_nil_r in Ha.
    apply list_eq_total; [done|]. intros i Hi. by apply Ha.
  - intros ->. done.
Qed.
End compare.

(** ** The rounds *)

Section theory.
Import Echo.
Context {B : Type} (codec : Codec B).
Implicit Types (p : Participant).

Lemma others_elem p id : id ∈ others p ↔ id ∈ quorum p ∧ id ≠ sharingID p.
Proof. unfold others. set_solver. Qed.

(** Exactly one payload per sender is stored. *)
Lemma store_messages_ok ids r1 st received st' received' :
  store_messages ids r1 st received = (st', Ok received') →
  ∀ id, if decide (id ∈ ids)
    then ∃ m, r1 !! id = Some (Some m) ∧ st' !! id = Some m ∧ received' !! id = Some m
    else st' !! id = st !! id ∧ received' !! id = received !! id.
Proof.
  revert st received. induction ids as [|i ids IH]; intros st received; cbn [store_messages].
  { intros [= <- <-] id. rewrite decide_False by apply not_elem_of_nil. done. }
  destruct (r1 !! i) as [[m|]|] eqn:Ei; [|done..]. intros E id. specialize (IH _ _ E id).
  destruct (decide (id ∈ ids)) as [Hin|Hin]; [rewrite decide_True by (by right); done|].
  destruct (decide (id = i)) as [->|Hne].
  - rewrite decide_True by (by left). rewrite !lookup_insert_eq in IH. eauto.
  - rewrite decide_False by (rewrite not_elem_of_cons; done). by rewrite !lookup_insert_ne in IH.
Qed.
Lemma store_messages_total ids r1 st received :
  (∀ id, id ∈ ids → ∃ m, r1 !! id = Some (Some m)) →
  ∃ st' received', store_messages ids r1 st received = (st', Ok received').
Proof.
  revert st received. induction ids as [|i ids IH]; intros st received Hall; cbn [store_messages]; [by eauto|].
  destruct (Hall i) as [m ->]; [by left|]. apply IH. intros id Hid. apply Hall. by right.
Qed.


Lemma Echo_Round1_ok p m p1 sent :
  Round1 codec p m = (p1, Ok sent) → ∃ b, MarshalCBOR codec m = Ok b ∧
    quorum p1 = quorum p ∧ sharingID p1 = sharingID p ∧
    messages p1 = <[sharingID p := b]> (messages p) ∧
    sent = gset_to_gmap (Some b) (quorum p ∖ {[sharingID p]}).
Proof. unfold Round1. destruct (MarshalCBOR codec m) as [b| |]; [|done..]. intros [= <- <-]. eauto 10. Qed.

Lemma Echo_Round2_ok p r1 p2 sent :
  Round2 p r1 = (p2, Ok sent) →
  quorum p2 = quorum p ∧ sharingID p2 = sharingID p ∧
  ∃ received, sent = gset_to_gmap (Some received) (quorum p ∖ {[sharingID p]}) ∧
  ∀ id, id ∈ quorum p → id ≠ sharingID p →
    ∃ m, r1 !! id = Some (Some m) ∧ messages p2 !! id = Some m ∧ received !! id = Some m.
Proof.
  unfold Round2. destruct (store_messages _ _ _ _) as [st [received| |]] eqn:E; [|done..].
  intros [= <- <-]. split_and!; [done..|]. exists received. split; [done|]. intros id Hid Hne.
  pose proof (store_messages_ok _ _ _ _ _ _ E id) as Hs.
  by rewrite decide_True in Hs by (by apply others_elem).
Qed.

Lemma Round3_loops p r2 :
  Round3 codec p r2 =
    (received ← foldM (λ (received : gmap ID (list N)) id,
       v ← (_ ← check_echoes p r2 id; Ok (default [] (messages p !! id)));
       Ok (<[id := v]> received)) ∅ (others p);
     foldM (λ r3 id,
       message ← UnmarshalCBOR codec (default [] (received !! id));
       Ok (<[id := message]> r3)) ∅ (others p)).
Proof.
  unfold Round3. f_equal. apply foldM_ext. intros acc i. by destruct (check_echoes _ _ _).
Qed.

(** What a finished third round has checked. *)
Lemma Echo_Round3_ok p r2 out :
  Round3 codec p r2 = Ok out →
  (∀ id echoID, id ∈ others p → echoID ∈ others p → echoID ≠ id →
    ∃ echo, r2 !! echoID = Some (Some echo) ∧ default [] (messages p !! id) = default [] (echo !! id)) ∧
  ∀ id, if decide (id ∈ others p)
    then ∃ m, UnmarshalCBOR codec (default [] (messages p !! id)) = Ok m ∧ out !! id = Some m
    else out !! id = None.
Proof.
  rewrite Round3_loops. intros (received & Hr & Ho)%bind_ok.
  assert (NoDup (others p)) as Hnd by (unfold others; apply NoDup_elements).
  apply (foldM_insert_ok _ id) in Hr as [Hr _]; [|done].
  apply (foldM_insert_ok _ id) in Ho as [Ho1 Ho2]; [|done]. split.
  - intros i echoID Hi He Hne. apply Hr in Hi as (v & Hv & _).
    apply bind_ok in Hv as ([] & Hc & _). unfold check_echoes in Hc.
    rewrite foldM_unit_ok in Hc. specialize (Hc echoID He). rewrite decide_False in Hc by done.
    destruct (r2 !! echoID) as [[echo|]|]; [|done..]. exists echo. split; [done|].
    apply CompareBytes_eq. cbn in Hc.
    destruct (CompareBytes _ _) as [[lt eq] gt]. cbn in *. by destruct eq.
  - intros i. case_decide as Hi.
    + destruct (Hr i Hi) as (v & Hv & Hrv). apply bind_ok in Hv as ([] & _ & [= <-]).
      destruct (Ho1 i Hi) as (m & Hm & Hout). unfold id in *. rewrite Hrv in Hm. eauto.
    + rewrite Ho2; [done|]. by rewrite list_fmap_id.
Qed.
End theory.

(** ** Properties *)

(** One party's part of a broadcast: what it is given in each round, what it
    sends and what it outputs. *)
Section run.
Import Echo.
Context {B : Type} (codec : Codec B).
Record execution := mkExecution {
  x_id : ID; x_message : B;
  x_r1 : gmap ID (option (list N)); x_r2 : gmap ID (option (gmap ID (list N)));
  x_sent1 : gmap ID (option (list N)); x_sent2 : gmap ID (option (gmap ID (list N)));
  x_out : gmap ID B }.
Definition executes (Q : gset ID) (x : execution) : Prop :=
  ∃ p p1 p2, NewParticipant (x_id x) (Some Q) = Ok p ∧
    Round1 codec p (x_message x) = (p1, Ok (x_sent1 x)) ∧
    Round2 p1 (x_r1 x) = (p2, Ok (x_sent2 x)) ∧ Round3 codec p2 (x_r2 x) = Ok (x_out x).
End run.
Arguments execution : clear implicits.

Section properties.
Import Echo.
Context {B : Type} (codec : Codec B) `{!RoundTrip codec}.
Implicit Types (x y : execution B).

Lemma Echo_executes_ok Q x :
  executes codec Q x → x_id x ∈ Q ∧
  (∃ b, MarshalCBOR codec (x_message x) = Ok b ∧
     x_sent1 x = gset_to_gmap (Some b) (Q ∖ {[x_id x]})) ∧
  ∃ received, x_sent2 x = gset_to_gmap (Some received) (Q ∖ {[x_id x]}) ∧
    (∀ s, s ∈ Q → s ≠ x_id x → ∃ m v, x_r1 x !! s = Some (Some m) ∧ received !! s = Some m ∧
      UnmarshalCBOR codec m = Ok v ∧ x_out x !! s = Some v ∧
      ∀ t, t ∈ Q → t ≠ x_id x → t ≠ s →
        ∃ echo, x_r2 x !! t = Some (Some echo) ∧ m = default [] (echo !! s)) ∧
    ∀ s, s ∉ Q ∨ s = x_id x → x_out x !! s = None.
Proof.
  intros (p & p1 & p2 & Hn & (b & Hb & Hq1 & Hs1 & _ & Hsent)%Echo_Round1_ok &
    (Hq2 & Hs2 & received & Hsent2 & Hrec)%Echo_Round2_ok & [He Ho]%Echo_Round3_ok).
  unfold NewParticipant in Hn. case_decide as Hid; [done|]. injection Hn as <-. cbn in *.
  rewrite Hq1, Hs1 in *. split; [by destruct (decide (x_id x ∈ Q))|]. split; [by eauto|].
  exists received. split; [done|].
  assert (∀ s, s ∈ others p2 ↔ s ∈ Q ∧ s ≠ x_id x) as Hoth.
  { intros s. by rewrite others_elem, Hq2, Hs2. }
  split.
  - intros s Hs Hne. destruct (Hrec s Hs Hne) as (m & H1 & H2 & H3).
    specialize (Ho s). rewrite decide_True in Ho by (by apply Hoth). destruct Ho as (v & Hv & Hout).
    rewrite H2 in Hv. exists m, v. split_and!; [done..|].
    intros t Ht Htx Hts. destruct (He s t) as (echo & Hecho & E); [by apply Hoth..|done|].
    rewrite H2 in E. eauto.
  - intros s Hs. specialize (Ho s). rewrite decide_False in Ho; [done|].
    rewrite Hoth. naive_solver.
Qed.

(** C33. Agreement and validity of the echo broadcast.  When two parties of a
    quorum finish, the first having received what the second sent it in both
    rounds - whatever the other parties sent to either - then they output the
    same message for every other sender, the first outputs the second's own
    message for the second, and it outputs messages for exactly the others. *)
Theorem Echo_agreement Q x y :
  executes codec Q x → executes codec Q y → x_id x ≠ x_id y →
  x_r1 x !! x_id y = x_sent1 y !! x_id x → x_r2 x !! x_id y = x_sent2 y !! x_id x →
  (∀ s, s ≠ x_id x → s ≠ x_id y → x_out x !! s = x_out y !! s) ∧
  x_out x !! x_id y = Some (x_message y) ∧ dom (x_out x) = Q ∖ {[x_id x]}.
Proof.
  intros (Hx & _ & recx & _ & Hox & Hnx)%Echo_executes_ok
    (Hy & (b & Hb & Hs1) & recy & Hs2 & Hoy & Hny)%Echo_executes_ok Hne E1 E2. split_and!.
  - intros s Hsx Hsy. destruct (decide (s ∈ Q)) as [Hs|Hs]; [|rewrite Hnx, Hny by (by left); done].
    destruct (Hox s Hs Hsx) as (m & v & Hm & _ & Hv & Ho & Hecho).
    destruct (Hoy s Hs Hsy) as (m' & v' & Hm' & Hr' & Hv' & Ho' & _).
    destruct (Hecho (x_id y)) as (echo & He & Em); [done..|].
    rewrite E2, Hs2, lookup_gset_to_gmap_Some in He. destruct He as [_ [= ->]].
    rewrite Hr' in Em. cbn in Em. subst m'. congruence.
  - destruct (Hox (x_id y)) as (m & v & Hm & _ & Hv & Ho & _); [done..|].
    rewrite E1, Hs1, lookup_gset_to_gmap_Some in Hm. destruct Hm as [_ [= ->]].
    destruct (round_trip _ _ Hb) as [Hd _]. rewrite Ho. congruence.
  - apply set_eq. intros s. rewrite elem_of_dom, elem_of_difference, elem_of_singleton. split.
    + intros [v Hv]. split; [destruct (decide (s ∈ Q)); [done|]|intros ->]; rewrite Hnx in Hv; auto; done.
    + intros [Hs Hsx]. destruct (Hox s Hs Hsx) as (m & v & _ & _ & _ & Ho & _). by eexists.
Qed.

(** C38. Termination of the echo broadcast: when all parties of the quorum are
    honest and every message arrives, all of them finish and output the
    messages of all the others. *)
Theorem Echo_delivers Q (message : ID → B) (b : ID → list N) :
  (∀ i, i ∈ Q → MarshalCBOR codec (message i) = Ok (b i)) →
  ∀ i, i ∈ Q → ∃ out,
    executes codec Q (mkExecution i (message i) (inbox Q i (λ j, Some (b j)))
      (inbox Q i (λ j, Some (inbox Q j b)))
      (gset_to_gmap (Some (b i)) (Q ∖ {[i]})) (gset_to_gmap (Some (inbox Q i b)) (Q ∖ {[i]})) out) ∧
    ∀ j, out !! j = if decide (j ∈ Q ∧ j ≠ i) then Some (message j) else None.
Proof.
  intros Hb i Hi. set (p1 := mkParticipant i Q {[i := b i]}).
  assert (∀ p, sharingID p = i → quorum p = Q → ∀ j, j ∈ others p ↔ j ∈ Q ∧ j ≠ i) as Hoth.
  { intros p Hp HQ j. by rewrite others_elem, Hp, HQ. }
  destruct (store_messages_total (others p1) (inbox Q i (λ j, Some (b j))) (messages p1) ∅)
    as (st & received & Hst).
  { intros j Hj%Hoth; [|done..]. exists (b j). by rewrite lookup_inbox, decide_True. }
  pose proof (store_messages_ok _ _ _ _ _ _ Hst) as Hlook.
  assert (received = inbox Q i b) as ->.
  { apply map_eq. intros j. specialize (Hlook j). rewrite lookup_inbox.
    destruct (decide (j ∈ Q ∧ j ≠ i)) as [Hj|Hj].
    - rewrite decide_True in Hlook by (by apply Hoth).
      destruct Hlook as (m & Hm & _ & ->). rewrite lookup_inbox, decide_True in Hm by done. congruence.
    - rewrite decide_False in Hlook by (by rewrite Hoth). by destruct Hlook as [_ ->]. }
  set (p2 := mkParticipant i Q st).
  assert (∀ j, j ∈ others p2 → st !! j = Some (b j)) as Hstj.
  { intros j Hj%Hoth; [|done..]. specialize (Hlook j). rewrite decide_True in Hlook by (by apply Hoth).
    destruct Hlook as (m & Hm & -> & _). rewrite lookup_inbox, decide_True in Hm by done. congruence. }
  assert (∀ j, j ∈ others p2 → check_echoes p2 (inbox Q i (λ j, Some (inbox Q j b))) j = Ok tt) as Hcheck.
  { intros j Hj. unfold check_echoes. apply foldM_unit_ok. intros t Ht. case_decide as Htj; [done|].
    apply Hoth in Ht; [|done..]. rewrite lookup_inbox, decide_True by done. cbn [Validate mbind result_bind default].
    change (messages p2 !! j) with (st !! j). rewrite (Hstj j) by done. apply Hoth in Hj; [|done..].
    cbn [from_option]. unfold id. rewrite lookup_inbox, decide_True by naive_solver. cbn.
    pose proof (proj2 (CompareBytes_eq (b j) (b j)) eq_refl) as Hc.
    destruct (CompareBytes _ _) as [[lt eq] gt]. cbn in Hc. by subst eq. }
  assert (∃ out, Round3 codec p2 (inbox Q i (λ j, Some (inbox Q j b))) = Ok out) as [out Hout].
  { rewrite Round3_loops.
    destruct (foldM_insert_total (λ j, _ ← check_echoes p2 (inbox Q i (λ j, Some (inbox Q j b))) j;
      Ok (default [] (messages p2 !! j))) (λ j, j) (others p2) ∅) as [rec Hrec].
    { intros j Hj. by rewrite Hcheck. }
    rewrite Hrec. cbn [mbind result_bind].
    apply foldM_insert_ok in Hrec as [Hr _]; [|by intros ??|unfold others; apply NoDup_elements].
    apply (foldM_insert_total _ (λ j, j)). intros j Hj. destruct (Hr j Hj) as (v & Hv & ->).
    rewrite Hcheck in Hv by done. cbn in Hv. injection Hv as <-. change (messages p2 !! j) with (st !! j). rewrite (Hstj j) by done. cbn.
    apply Hoth in Hj as [HjQ _]; [|done..]. by destruct (round_trip _ _ (Hb j HjQ)) as [-> _]. }
  exists out. split.
  - exists (mkParticipant i Q ∅), p1, p2. cbn. unfold NewParticipant. rewrite decide_False by tauto.
    split_and!; [done| | |done].
    + unfold Round1. cbn. by rewrite Hb.
    + unfold Round2. rewrite Hst. done.
  - intros j. apply Echo_Round3_ok in Hout as [_ Ho]. specialize (Ho j).
    destruct (decide (j ∈ Q ∧ j ≠ i)) as [Hj|Hj].
    + rewrite decide_True in Ho by (by apply Hoth). destruct Ho as (m & Hm & ->).
      cbn in Hm. rewrite Hstj in Hm by (by apply Hoth). cbn in Hm.
      destruct (round_trip _ _ (Hb j (proj1 Hj))) as [Hd _]. congruence.
    + rewrite decide_False in Ho; [done|]. by rewrite Hoth.
Qed.
End properties.

(** ** Three parties, the third Byzantine *)

Definition ex_echo_codec : Codec N := mkCodec (λ n, Ok [n])
  (λ b, match b with [n] => Ok n | _ => Err ErrFailed end).
#[export] Instance ex_echo_round_trip : RoundTrip ex_echo_codec.
Proof. intros n b. cbn. by intros [= <-]. Qed.
Definition ex_quorum : gset ID := {[1; 2; 3]}%N.

(** The third party sends 7 to both and echoes what they sent; it claims to
    have received nothing from itself. *)
Definition ex_x : execution N := mkExecution 1%N 10%N
  {[2%N := Some [20%N]; 3%N := Some [7%N]]}
  {[2%N := Some {[1%N := [10%N]; 3%N := [7%N]]}; 3%N := Some {[1%N := [9%N]; 2%N := [20%N]]}]}
  {[2%N := Some [10%N]; 3%N := Some [10%N]]}
  {[2%N := Some {[2%N := [20%N]; 3%N := [7%N]]}; 3%N := Some {[2%N := [20%N]; 3%N := [7%N]]}]}
  {[2%N := 20%N; 3%N := 7%N]}.
Definition ex_y : execution N := mkExecution 2%N 20%N
  {[1%N := Some [10%N]; 3%N := Some [7%N]]}
  {[1%N := Some {[2%N := [20%N]; 3%N := [7%N]]}; 3%N := Some {[1%N := [10%N]]}]}
  {[1%N := Some [20%N]; 3%N := Some [20%N]]}
  {[1%N := Some {[1%N := [10%N]; 3%N := [7%N]]}; 3%N := Some {[1%N := [10%N]; 3%N := [7%N]]}]}
  {[1%N := 10%N; 3%N := 7%N]}.

Lemma Echo_agreement_witness :
  (∀ s, s ≠ 1%N → s ≠ 2%N → x_out ex_x !! s = x_out ex_y !! s) ∧
  x_out ex_x !! 2%N = Some 20%N ∧ dom (x_out ex_x) = ex_quorum ∖ {[1%N]}.
Proof.
  apply (Echo_agreement ex_echo_codec ex_quorum ex_x ex_y).
  - eexists _, _, _. split_and!; vm_compute; reflexivity.
  - eexists _, _, _. split_and!; vm_compute; reflexivity.
  - done.
  - reflexivity.
  - reflexivity.
Defined.

Lemma Echo_delivers_witness :
  ∃ out, executes ex_echo_codec ex_quorum (mkExecution 1%N 1%N
      (inbox ex_quorum 1%N (λ j, Some [j])) (inbox ex_quorum 1%N (λ j, Some (inbox ex_quorum j (λ j, [j]))))
      (gset_to_gmap (Some [1%N]) (ex_quorum ∖ {[1%N]}))
      (gset_to_gmap (Some (inbox ex_quorum 1%N (λ j, [j]))) (ex_quorum ∖ {[1%N]})) out) ∧
    ∀ j, out !! j = if decide (j ∈ ex_quorum ∧ j ≠ 1%N) then Some j else None.
Proof.
  apply (Echo_delivers ex_echo_codec ex_quorum (λ j, j) (λ j, [j])).
  - done.
  - set_solver.
Defined.
