(* ===== verification/Sigma.v ===== *)
(** * Sigma protocols (pkg/proofs/sigma)

    [Protocol] is the interface [sigma.Protocol]; [Complete], [Simulatable] and
    [Extractable] are the laws an implementation promises to its clients.
    [Prover] and [Verifier] are the two interactive participants of
    prover.go and verifier.go: their methods guard on the round counter,
    append to the transcript of the session and drive the protocol.  A session
    is a sequence of calls in any order with any arguments. *)

From Stdlib Require Import ZArith NArith Lia.
From stdpp Require Import strings.
From S2P Require Import Prelude Algebra AlgebraUtils.

(** [io.Reader] read through [io.ReadFull]: [n] bytes and the next state, or
    the error of the reader. *)
Class Reader (P : Type) := {
  read_full : nat → P → result (list N * P);
  read_full_ok : ∀ n p b p', read_full n p = Ok (b, p') → length b = n ∧ bytes_ok b;
}.

(** [transcripts.Transcript]; [ExtractBytes] also updates the transcript. *)
Class Transcript (T : Type) := {
  AppendDomainSeparator : string → T → T;
  AppendBytes : string → list (list N) → T → T;
  ExtractBytes : string → nat → T → result (list N * T);
}.

(** The parts of [session.Context] the proofs use. *)
Record Context (T : Type) := mkContext { SessionID : list N; tape : T }.
Arguments mkContext {T}. Arguments SessionID {T}. Arguments tape {T}.

Definition on_tape {T} (f : T → T) (ctx : Context T) : Context T :=
  mkContext (SessionID ctx) (f (tape ctx)).

(** [hex.EncodeToString]. *)
Definition hex_digit (n : N) : Ascii.ascii :=
  Ascii.ascii_of_N (if (n <? 10)%N then 48 + n else 87 + n)%N.
Fixpoint EncodeToString (b : list N) : string :=
  match b with
  | [] => EmptyString
  | x :: b => String (hex_digit (x / 16)) (String (hex_digit (x mod 16)) (EncodeToString b))
  end.

(** The challenge slices [b[:n]]: a panic beyond the length (slices are
    modelled with their length as capacity). *)
Definition slice_to (b : option (list N)) (n : nat) : result (option (list N)) :=
  if length (default [] b) <? n then Panic else Ok (take n <$> b).

Module Sigma.

(** Byte strings [sigma.ChallengeBytes]: [None] is the nil slice. *)
Abbreviation ChallengeBytes := (option (list N)).

(** [sigma.Protocol]; the source of randomness a protocol was built with is
    threaded as its state [P]. *)
Record Protocol (X W A S Z P : Type) := mkProtocol {
  Name : string;
  ComputeProverCommitment : X → W → P → result (A * S * P);
  ComputeProverResponse : X → W → A → S → ChallengeBytes → result Z;
  Verify : X → A → ChallengeBytes → Z → result unit;
  RunSimulator : X → ChallengeBytes → P → result (A * Z * P);
  SpecialSoundness : N;
  SoundnessError : N;
  GetChallengeBytesLength : nat;
  ValidateStatement : X → W → result unit;
}.
Arguments mkProtocol {X W A S Z P}.
Arguments Name {X W A S Z P}.
Arguments ComputeProverCommitment {X W A S Z P}.
Arguments ComputeProverResponse {X W A S Z P}.
Arguments Verify {X W A S Z P}.
Arguments RunSimulator {X W A S Z P}.
Arguments SpecialSoundness {X W A S Z P}.
Arguments SoundnessError {X W A S Z P}.
Arguments GetChallengeBytesLength {X W A S Z P}.
Arguments ValidateStatement {X W A S Z P}.

(** A challenge of the length the protocol announces. *)
Definition is_challenge (n : nat) (e : list N) : Prop := length e = n ∧ bytes_ok e.

(** What every implementation promises on its [good] statements: an honest
    prover convinces the verifier for every challenge, and so does the
    simulator, whether the statement is true or not. *)
Class Complete {X W A S Z P} (proto : Protocol X W A S Z P) (good : X → Prop) : Prop :=
  complete x w a s p p' e :
    good x → ValidateStatement proto x w = Ok tt →
    ComputeProverCommitment proto x w p = Ok (a, s, p') →
    is_challenge (GetChallengeBytesLength proto) e →
    ∃ z, ComputeProverResponse proto x w a s (Some e) = Ok z ∧
         Verify proto x a (Some e) z = Ok tt.
Class Simulatable {X W A S Z P} (proto : Protocol X W A S Z P) (good : X → Prop) : Prop :=
  simulates x a z p p' e :
    good x → is_challenge (GetChallengeBytesLength proto) e →
    RunSimulator proto x (Some e) p = Ok (a, z, p') →
    Verify proto x a (Some e) z = Ok tt.

(** Special soundness: [extract] finds a witness in two accepted transcripts
    with one commitment, distinct challenges and well-formed responses. *)
Definition Extractable {X W A S Z P} (proto : Protocol X W A S Z P) (wf : Z → Prop)
    (extract : X → A → list N → Z → list N → Z → result W) : Prop :=
  ∀ x a e1 z1 e2 z2,
    is_challenge (GetChallengeBytesLength proto) e1 →
    is_challenge (GetChallengeBytesLength proto) e2 → e1 ≠ e2 → wf z1 → wf z2 →
    Verify proto x a (Some e1) z1 = Ok tt →
    Verify proto x a (Some e2) z2 = Ok tt →
    ∃ w, extract x a e1 z1 e2 z2 = Ok w ∧ ValidateStatement proto x w = Ok tt.

(** ** The interactive participants *)

Definition transcriptLabel : string := "BRON_CRYPTO_SIGMA_POK-".
Definition statementLabel : string := "statementLabel-".
Definition commitmentLabel : string := "commitmentLabel-".
Definition challengeLabel : string := "challengeLabel-".
Definition responseLabel : string := "responseLabel-".

(** [base.StatisticalSecurityBits]. *)
Definition StatisticalSecurityBits : N := 80.

Section participants.
Context {X W A S Z P T : Type} `{Reader P, Transcript T}.
Context (bytesX : X → list N) (bytesA : A → list N) (bytesZ : Z → list N).

(** [None] stands for a field that was not assigned yet. *)
Record Prover := mkProver {
  p_ctx : Context T; p_proto : Protocol X W A S Z P; p_statement : X; p_witness : W;
  p_commitment : option A; p_state : option S; p_challenge : ChallengeBytes;
  p_response : option Z; p_round : nat }.

Record Verifier := mkVerifier {
  v_ctx : Context T; v_proto : Protocol X W A S Z P; v_statement : X;
  v_commitment : option A; v_challenge : ChallengeBytes; v_round : nat; v_prng : P }.

(** The transcript prefix both constructors append. *)
Definition begin_transcript (label : string) (name : string) (st : list N)
    (ctx : Context T) : Context T :=
  let dst := (EncodeToString (SessionID ctx) +:+ "-" +:+ label +:+ "-" +:+ name)%string in
  on_tape (AppendBytes statementLabel [st]) (on_tape (AppendDomainSeparator dst) ctx).

Definition NewProver (ctx : option (Context T)) (sigmaProtocol : option (Protocol X W A S Z P))
    (statement : X) (witness : W) : result Prover :=
  match ctx, sigmaProtocol with
  | None, _ => Err ErrInvalidArgument
  | _, None => Err ErrInvalidArgument
  | Some ctx, Some proto =>
      if (SoundnessError proto <? StatisticalSecurityBits)%N then Err ErrInvalidArgument
      else Ok (mkProver (begin_transcript transcriptLabel (Name proto) (bytesX statement) ctx)
                 proto statement witness None None None None 1)
  end.

Definition NewVerifier (ctx : option (Context T)) (sigmaProtocol : option (Protocol X W A S Z P))
    (statement : X) (prng : option P) : result Verifier :=
  match ctx, prng, sigmaProtocol with
  | None, _, _ => Err ErrInvalidArgument
  | _, None, _ => Err ErrInvalidArgument
  | _, _, None => Err ErrInvalidArgument
  | Some ctx, Some prng, Some proto =>
      if (SoundnessError proto <? StatisticalSecurityBits)%N then Err ErrInvalidArgument
      else Ok (mkVerifier (begin_transcript transcriptLabel (Name proto) (bytesX statement) ctx)
                 proto statement None None 2 prng)
  end.

(** [Prover.Round1]: the new state of the receiver and what the call
    returns; the protocol's randomness [prng] is part of the session. *)
Definition Round1 (p : Prover) (prng : P) : Prover * result (A * P) :=
  if negb (p_round p =? 1) then (p, Err ErrRound)
  else
    match ComputeProverCommitment (p_proto p) (p_statement p) (p_witness p) prng with
    | Ok (commitment, state, prng) =>
        (mkProver (on_tape (AppendBytes commitmentLabel [bytesA commitment]) (p_ctx p))
           (p_proto p) (p_statement p) (p_witness p) (Some commitment) (Some state)
           (p_challenge p) (p_response p) (p_round p + 2), Ok (commitment, prng))
    | Err e => (p, Err e)
    | Panic => (p, Panic)
    end.

(** [Prover.Round3]: the challenge is appended before the response is
    computed, so it stays in the transcript when that fails. *)
Definition Round3 (p : Prover) (challengeBytes : ChallengeBytes) : Prover * result Z :=
  if negb (p_round p =? 3) then (p, Err ErrRound)
  else
    let ctx := on_tape (AppendBytes challengeLabel [default [] challengeBytes]) (p_ctx p) in
    let p' := mkProver ctx (p_proto p) (p_statement p) (p_witness p) (p_commitment p)
                (p_state p) (p_challenge p) (p_response p) (p_round p) in
    match p_commitment p, p_state p with
    | Some commitment, Some state =>
        match ComputeProverResponse (p_proto p) (p_statement p) (p_witness p) commitment state
                challengeBytes with
        | Ok response =>
            (mkProver (on_tape (AppendBytes responseLabel [bytesZ response]) ctx) (p_proto p)
               (p_statement p) (p_witness p) (p_commitment p) (p_state p) challengeBytes
               (Some response) (p_round p + 2), Ok response)
        | Err e => (p', Err e)
        | Panic => (p', Panic)
        end
    | _, _ => (p', Panic)
    end.

(** [Verifier.Round2]. *)
Definition Round2 (v : Verifier) (commitment : A) : Verifier * result (list N) :=
  if negb (v_round v =? 2) then (v, Err ErrRound)
  else
    let ctx := on_tape (AppendBytes commitmentLabel [bytesA commitment]) (v_ctx v) in
    match read_full (GetChallengeBytesLength (v_proto v)) (v_prng v) with
    | Ok (challengeBytes, prng) =>
        (mkVerifier (on_tape (AppendBytes challengeLabel [challengeBytes]) ctx) (v_proto v)
           (v_statement v) (Some commitment) (Some challengeBytes) (v_round v + 2) prng,
         Ok challengeBytes)
    | Err e => (mkVerifier ctx (v_proto v) (v_statement v) (v_commitment v) (v_challenge v)
                  (v_round v) (v_prng v), Err e)
    | Panic => (v, Panic)
    end.

(** [Verifier.Verify]. *)
Definition VerifyRound (v : Verifier) (response : Z) : Verifier * result unit :=
  if negb (v_round v =? 4) then (v, Err ErrRound)
  else
    let ctx := on_tape (AppendBytes responseLabel [bytesZ response]) (v_ctx v) in
    let at_round r := mkVerifier ctx (v_proto v) (v_statement v) (v_commitment v)
                        (v_challenge v) r (v_prng v) in
    match v_commitment v with
    | None => (at_round (v_round v), Panic)
    | Some commitment =>
        match Verify (v_proto v) (v_statement v) commitment (v_challenge v) response with
        | Ok _ => (at_round (v_round v + 2), Ok tt)
        | Err e => (at_round (v_round v), Err e)
        | Panic => (at_round (v_round v), Panic)
        end
    end.

(** ** Sessions

    The calls a participant receives, in any order and with any arguments. *)
Inductive prover_call := CallRound1 | CallRound3 (e : ChallengeBytes).
Inductive verifier_call := CallRound2 (a : A) | CallVerify (z : Z).

(** The commitments and the answered challenges that left the prover. *)
Inductive prover_output := Committed (a : A) | Answered (e : ChallengeBytes) (z : Z).

Definition prover_step (st : Prover * P * list prover_output) (c : prover_call) :
    Prover * P * list prover_output :=
  let '(p, prng, out) := st in
  match c with
  | CallRound1 =>
      match Round1 p prng with
      | (p, Ok (a, prng)) => (p, prng, out ++ [Committed a])
      | (p, _) => (p, prng, out)
      end
  | CallRound3 e =>
      match Round3 p e with
      | (p, Ok z) => (p, prng, out ++ [Answered e z])
      | (p, _) => (p, prng, out)
      end
  end.

Definition run_prover (p : Prover) (prng : P) (calls : list prover_call) :=
  foldl prover_step (p, prng, []) calls.

Definition verifier_step (v : Verifier) (c : verifier_call) : Verifier :=
  match c with
  | CallRound2 a => (Round2 v a).1
  | CallVerify z => (VerifyRound v z).1
  end.

Definition run_verifier (v : Verifier) (calls : list verifier_call) : Verifier :=
  foldl verifier_step v calls.

End participants.
Arguments Prover : clear implicits.
Arguments Verifier : clear implicits.
Arguments prover_call : clear implicits.
Arguments verifier_call : clear implicits.
Arguments prover_output : clear implicits.
End Sigma.

(** ** Theory *)

Section participants.
Import Sigma.
Context {X W A S Z P T : Type} `{Reader P, Transcript T}.
Context (bytesX : X → list N) (bytesA : A → list N) (bytesZ : Z → list N).
Context (proto : Protocol X W A S Z P) (x : X).
Implicit Types (p : Prover X W A S Z P T) (v : Verifier X W A S Z P T).

Lemma NewProver_ok octx pr w p :
  NewProver bytesX octx pr x w = Ok p →
  ∃ c r, octx = Some c ∧ pr = Some r ∧
    p = mkProver (begin_transcript transcriptLabel (Name r) (bytesX x) c) r x w None None None None 1.
Proof.
  unfold NewProver. destruct octx as [c|], pr as [r|]; try done.
  case_match; [done|]. intros [= <-]. eauto.
Qed.

Lemma NewVerifier_ok octx pr prng v :
  NewVerifier bytesX octx pr x prng = Ok v →
  ∃ c r g, octx = Some c ∧ pr = Some r ∧ prng = Some g ∧
    v = mkVerifier (begin_transcript transcriptLabel (Name r) (bytesX x) c) r x None None 2 g.
Proof.
  unfold NewVerifier. destruct octx as [c|], prng as [g|], pr as [r|]; try done.
  case_match; [done|]. intros [= <-]. eauto 10.
Qed.

(** The states a prover for [x] and [w] goes through, with what it has sent. *)
Inductive prover_inv (w : W) p : list (prover_output A Z) → Prop :=
  | pinv_start :
      p_round p = 1 → prover_inv w p []
  | pinv_committed a s g g' :
      p_round p = 3 → p_commitment p = Some a → p_state p = Some s →
      ComputeProverCommitment proto x w g = Ok (a, s, g') →
      prover_inv w p [Committed a]
  | pinv_answered a s g g' e z :
      p_round p = 5 →
      ComputeProverCommitment proto x w g = Ok (a, s, g') →
      ComputeProverResponse proto x w a s e = Ok z →
      prover_inv w p [Committed a; Answered e z].

Definition prover_fixed (w : W) p : Prop :=
  p_proto p = proto ∧ p_statement p = x ∧ p_witness p = w.

Lemma prover_step_inv w p g out c p' g' out' :
  prover_fixed w p → prover_inv w p out →
  prover_step bytesA bytesZ (p, g, out) c = (p', g', out') →
  prover_fixed w p' ∧ prover_inv w p' out'.
Proof.
  intros (Hr & Hx & Hw) Hinv. destruct c as [|e]; cbn [prover_step].
  - unfold Round1. destruct (Nat.eqb_spec (p_round p) 1) as [E1|E1]; cbn [negb].
    2: { intros [= <- <- <-]. done. }
    rewrite Hr, Hx, Hw.
    destruct (ComputeProverCommitment proto x w g) as [[[a s] g1]| |] eqn:E;
      intros [= <- <- <-]; [|done..].
    split; [done|]. inversion Hinv; [|congruence..].
    eapply pinv_committed; cbn; [lia|done..].
  - unfold Round3. destruct (Nat.eqb_spec (p_round p) 3) as [E3|E3]; cbn [negb].
    2: { intros [= <- <- <-]. done. }
    inversion Hinv as [E1|a s g0 g0' _ Ha Hs Hc Eout|]; [congruence| |congruence].
    rewrite Ha, Hs, Hr, Hx, Hw.
    destruct (ComputeProverResponse proto x w a s e) as [z| |] eqn:E;
      intros [= <- <- <-]; cbn.
    + split; [done|]. eapply pinv_answered; cbn; [lia|done..].
    + split; [done|]. by eapply pinv_committed.
    + split; [done|]. by eapply pinv_committed.
Qed.

Lemma run_prover_inv w p g calls p' g' out :
  prover_fixed w p → p_round p = 1 →
  run_prover bytesA bytesZ p g calls = (p', g', out) →
  prover_fixed w p' ∧ prover_inv w p' out.
Proof.
  intros Hf H1. revert p' g' out. induction calls as [|c calls IH] using rev_ind; intros p' g' out.
  { intros [= <- <- <-]. split; [done|by constructor]. }
  unfold run_prover. rewrite foldl_app. cbn [foldl].
  destruct (foldl _ _ calls) as [[p1 g1] out1] eqn:E. intros Hs.
  destruct (IH _ _ _ E). by eapply prover_step_inv.
Qed.

(** What a verifier has appended to its transcript: the commitments, of
    which only the last found a challenge; the challenge; the responses. *)
Definition record_commitments (c : Context T) (failed : list A) : Context T :=
  foldl (λ c a, on_tape (AppendBytes commitmentLabel [bytesA a]) c) c failed.
Definition record_challenge (c : Context T) (e : list N) : Context T :=
  on_tape (AppendBytes challengeLabel [e]) c.
Definition record_responses (c : Context T) (zs : list Z) : Context T :=
  foldl (λ c z, on_tape (AppendBytes responseLabel [bytesZ z]) c) c zs.

(** The states of a verifier for [x] that started with the context [base] and
    the source of randomness [g]: once it has challenged, it has read its
    challenge from that source, and nothing else. *)
Inductive verifier_inv base (g : P) v : Prop :=
  | vinv_start failed :
      v_round v = 2 → v_prng v = g → v_ctx v = record_commitments base failed →
      verifier_inv base g v
  | vinv_challenged failed a e rejected :
      v_round v = 4 → v_commitment v = Some a → v_challenge v = Some e →
      read_full (GetChallengeBytesLength proto) g = Ok (e, v_prng v) →
      Forall (λ z, Verify proto x a (Some e) z ≠ Ok tt) rejected →
      v_ctx v = record_responses (record_challenge (record_commitments base (failed ++ [a])) e) rejected →
      verifier_inv base g v
  | vinv_accepted failed a e rejected z :
      v_round v = 6 → v_commitment v = Some a → v_challenge v = Some e →
      read_full (GetChallengeBytesLength proto) g = Ok (e, v_prng v) →
      Forall (λ z, Verify proto x a (Some e) z ≠ Ok tt) rejected →
      Verify proto x a (Some e) z = Ok tt →
      v_ctx v = record_responses (record_challenge (record_commitments base (failed ++ [a])) e) (rejected ++ [z]) →
      verifier_inv base g v.

Definition verifier_fixed v : Prop := v_proto v = proto ∧ v_statement v = x.

Lemma record_responses_snoc c zs z :
  record_responses c (zs ++ [z]) =
    on_tape (AppendBytes responseLabel [bytesZ z]) (record_responses c zs).
Proof. unfold record_responses. by rewrite foldl_app. Qed.
Lemma record_commitments_snoc c failed a :
  record_commitments c (failed ++ [a]) =
    on_tape (AppendBytes commitmentLabel [bytesA a]) (record_commitments c failed).
Proof. unfold record_commitments. by rewrite foldl_app. Qed.

Lemma verifier_step_inv base g v c :
  verifier_fixed v → verifier_inv base g v →
  verifier_fixed (verifier_step bytesA bytesZ v c)
  ∧ verifier_inv base g (verifier_step bytesA bytesZ v c).
Proof.
  intros (Hr & Hx) Hinv. destruct c as [a|z]; cbn [verifier_step].
  - unfold Round2. destruct (Nat.eqb_spec (v_round v) 2) as [E2|E2]; cbn [negb]; [|done].
    inversion Hinv as [failed _ Hg Hc| |]; [|congruence..].
    rewrite Hr, Hc. destruct (read_full _ (v_prng v)) as [[e g']| |] eqn:E; cbn [fst].
    + split; [done|]. eapply (vinv_challenged _ _ _ failed a e []); cbn; try done; [lia| |].
      * by rewrite <-Hg.
      * by rewrite record_commitments_snoc.
    + split; [done|]. apply (vinv_start _ _ _ (failed ++ [a])); [done..|].
      by rewrite record_commitments_snoc.
    + done.
  - unfold VerifyRound. destruct (Nat.eqb_spec (v_round v) 4) as [E4|E4]; cbn [negb]; [|done].
    inversion Hinv as [|failed a e rej _ Ha He Hc Hf Hctx|]; [congruence| |congruence].
    rewrite Ha, He, Hr, Hx.
    assert (on_tape (AppendBytes responseLabel [bytesZ z]) (v_ctx v) =
      record_responses (record_challenge (record_commitments base (failed ++ [a])) e)
        (rej ++ [z])) as Hsnoc by (by rewrite Hctx, record_responses_snoc).
    assert (Verify proto x a (Some e) z ≠ Ok tt →
      Forall (λ z, Verify proto x a (Some e) z ≠ Ok tt) (rej ++ [z])) as Hrej.
    { intros Hz. apply Forall_app. split; [done|]. by constructor. }
    destruct (Verify proto x a (Some e) z) as [[]| |] eqn:E; cbn [fst]; (split; [done|]).
    + eapply (vinv_accepted _ _ _ failed a e rej z); cbn; try done; [lia].
    + eapply (vinv_challenged _ _ _ failed a e (rej ++ [z])); cbn; auto.
    + eapply (vinv_challenged _ _ _ failed a e (rej ++ [z])); cbn; auto.
Qed.

Lemma run_verifier_inv v calls :
  verifier_fixed v → v_round v = 2 →
  verifier_fixed (run_verifier bytesA bytesZ v calls)
  ∧ verifier_inv (v_ctx v) (v_prng v) (run_verifier bytesA bytesZ v calls).
Proof.
  intros Hf H2. induction calls as [|c calls IH] using rev_ind.
  { split; [done|]. by apply (vinv_start _ _ _ []). }
  unfold run_verifier. rewrite foldl_app. cbn [foldl]. destruct IH. by apply verifier_step_inv.
Qed.
End participants.

(** ** Properties *)

Section properties.
Import Sigma.
Context {X W A S Z P T : Type} `{Reader P, Transcript T}.
Context (bytesX : X → list N) (bytesA : A → list N) (bytesZ : Z → list N).
Implicit Types (proto : Protocol X W A S Z P) (p : Prover X W A S Z P T) (v : Verifier X W A S Z P T).

(** C12. Whatever calls a prover receives, in any order and with any
    challenges, it issues at most one commitment and then answers at most one
    challenge, with the state of that commitment: a session never yields the
    two answers to one commitment from which a witness can be extracted. *)
Theorem Prover_answers_once proto ctx x w p g calls p' g' out :
  NewProver bytesX (Some ctx) (Some proto) x w = Ok p →
  run_prover bytesA bytesZ p g calls = (p', g', out) →
  (out = [] ∧ p_round p' = 1)
  ∨ ∃ a s g0 g1, ComputeProverCommitment proto x w g0 = Ok (a, s, g1) ∧
      ((out = [Committed a] ∧ p_round p' = 3)
       ∨ ∃ e z, out = [Committed a; Answered e z] ∧ p_round p' = 5 ∧
           ComputeProverResponse proto x w a s e = Ok z).
Proof.
  intros (c & r & [= <-] & [= <-] & ->)%NewProver_ok Hrun.
  apply (run_prover_inv _ _ proto x w) in Hrun as [_ Hinv]; [|done..].
  inversion Hinv as [|a s g0 g1 ??? Hc|a s g0 g1 e z ? Hc ?]; [by left|right..];
    exists a, s, g0, g1; (split; [done|]); [by left|right; eauto].
Qed.

(** C13. Whatever calls a verifier receives, once it has accepted there is one
    commitment it received before it drew its one challenge, and a response
    that the protocol verifies on that commitment and challenge.  The challenge
    is what one read of the announced length takes from the source of
    randomness the verifier was built with, and the only thing the verifier
    ever takes from it; the transcript records exactly that conversation and
    the responses rejected before. *)
Theorem Verifier_accepts_verified proto ctx x g v calls v' :
  NewVerifier bytesX (Some ctx) (Some proto) x (Some g) = Ok v →
  run_verifier bytesA bytesZ v calls = v' → v_round v' = 6 →
  ∃ failed a e rejected z,
    read_full (GetChallengeBytesLength proto) g = Ok (e, v_prng v') ∧
    is_challenge (GetChallengeBytesLength proto) e ∧
    v_commitment v' = Some a ∧ v_challenge v' = Some e ∧
    Verify proto x a (Some e) z = Ok tt ∧
    Forall (λ z, Verify proto x a (Some e) z ≠ Ok tt) rejected ∧
    v_ctx v' = record_responses bytesZ (record_challenge
      (record_commitments bytesA (begin_transcript transcriptLabel (Name proto) (bytesX x) ctx)
        (failed ++ [a])) e) (rejected ++ [z]).
Proof.
  intros (c & r & g' & [= <-] & [= <-] & [= <-] & ->)%NewVerifier_ok <- H6.
  destruct (run_verifier_inv bytesA bytesZ proto x
    (mkVerifier (begin_transcript transcriptLabel (Name proto) (bytesX x) ctx) proto x None None 2 g)
    calls) as [_ Hinv]; [done..|].
  inversion Hinv as [| |failed a e rej z _ Ha He Hr Hf Hv Hc]; [congruence..|].
  exists failed, a, e, rej, z. split_and!; try done; by apply read_full_ok in Hr.
Qed.

(** C14. The honest run of the four rounds of a protocol with the promised
    laws ends: once the prover could sample its commitment and the verifier
    its challenge, the response is produced, the verifier accepts it, and the
    two parties hold the same transcript. *)
Theorem Interactive_complete proto good `{!Complete proto good} ctx x w g g' p v p1 v1 a e gv :
  good x → ValidateStatement proto x w = Ok tt →
  NewProver bytesX (Some ctx) (Some proto) x w = Ok p →
  NewVerifier bytesX (Some ctx) (Some proto) x (Some gv) = Ok v →
  Round1 bytesA p g = (p1, Ok (a, g')) →
  Round2 bytesA v a = (v1, Ok e) →
  ∃ p2 z v2,
    Round3 bytesZ p1 (Some e) = (p2, Ok z) ∧
    VerifyRound bytesZ v1 z = (v2, Ok tt) ∧
    p_round p2 = 5 ∧ v_round v2 = 6 ∧ tape (p_ctx p2) = tape (v_ctx v2).
Proof.
  intros Hgood Hval (c & r & [= <-] & [= <-] & ->)%NewProver_ok
    (c' & r' & g0 & [= <-] & [= <-] & [= <-] & ->)%NewVerifier_ok.
  unfold Round1. cbn [p_round p_proto p_statement p_witness Nat.eqb negb].
  destruct (ComputeProverCommitment proto x w g) as [[[a' s] g1]| |] eqn:Ec; [|done..].
  intros [= <- <- <-]. unfold Round2. cbn [v_round v_proto v_prng Nat.eqb negb].
  destruct (read_full _ gv) as [[e' g2]| |] eqn:Er; [|done..]. intros [= <- <-].
  apply read_full_ok in Er.
  destruct (complete x w a' s g g1 e' Hgood Hval Ec Er) as (z & Hz & Hv).
  unfold Round3. cbn. rewrite Hz. eexists _, z, _. split; [done|].
  unfold VerifyRound. cbn. rewrite Hv. split_and!; reflexivity.
Qed.
End properties.

(** ** Concrete sources of randomness and transcripts *)

(** A generator that replays a list of numbers as bytes. *)
#[export] Instance list_reader : Reader (list N).
Proof.
  refine {| read_full n g :=
    if length g <? n then Err ErrFailed else Ok ((λ x, x mod 256)%N <$> take n g, drop n g) |}.
  intros n g b g'. destruct (Nat.ltb_spec (length g) n); [done|]. intros [= <- _].
  split; [rewrite length_fmap, length_take; lia|].
  apply Forall_fmap, Forall_true. intros y. apply N.mod_lt. done.
Defined.

(** A transcript that keeps its entries and extracts their number. *)
#[export] Instance log_transcript : Transcript (list (string * list (list N))) :=
  {| AppendDomainSeparator s t := t ++ [(s, [])];
     AppendBytes l bs t := t ++ [(l, bs)];
     ExtractBytes l n t := Ok (replicate n (N.of_nat (length t)), t ++ [(l, [])]) |}.
