(* ===== verification/HashCom.v ===== *)
(** * Hash commitments (pkg/commitments/hashcom)

    A commitment to a message is the keyed hash of the message and a random
    nonce of fixed size.  The keyed hash (BLAKE2b-256 with the key as its MAC
    key) is the parameter [mac]; a message is a slice that may be nil. *)

From Stdlib Require Import ZArith NArith Lia.
From stdpp Require Import strings.
From S2P Require Import Prelude Algebra AlgebraUtils IOUtils Sigma.

Module HashCom.

Definition KeySize : nat := 32.
Definition DigestSize : nat := 32.

(** Keys, witnesses and commitments are arrays of bytes. *)
Abbreviation Key := (list N) (only parsing).
Abbreviation Commitment := (list N) (only parsing).
Abbreviation Message := (option (list N)) (only parsing).
Abbreviation Witness := (list N) (only parsing).
Definition is_array (n : nat) (b : list N) : Prop := length b = n.

Section hashcom.
Context {P T : Type} `{Reader P, Transcript T} (mac : list N → list N → list N).

Definition CommitmentEqual (c other : Commitment) : bool := bool_decide (c = other).

Definition SampleWitness (prng : option P) : result (Witness * P) :=
  match prng with
  | None => Err ErrIsNil
  | Some prng => read_full DigestSize prng
  end.
Definition SampleCommitmentKey (prng : option P) : result (Key * P) :=
  match prng with
  | None => Err ErrIsNil
  | Some prng => read_full KeySize prng
  end.

(** [copy] into a fresh array of [KeySize] bytes. *)
Definition ExtractCommitmentKey (transcript : option T) (label : string) : result (Key * T) :=
  match transcript with
  | None => Err ErrIsNil
  | Some transcript =>
      if (label =? "")%string then Err ErrIsNil
      else
        '(bs, transcript) ← ExtractBytes label KeySize transcript;
        Ok (take KeySize (bs ++ replicate KeySize 0%N), transcript)
  end.

Definition CommitWithWitness (k : option Key) (message : Message) (witness : Witness) :
    result Commitment :=
  match k with
  | None => Err ErrIsNil
  | Some k => Ok (mac k (default [] message ++ witness))
  end.

(** [internal.GenericOpen]. *)
Definition Open (k : option Key) (commitment : Commitment) (message : Message) (witness : Witness) :
    result unit :=
  match k, message with
  | Some k, Some message =>
      recomputed ← CommitWithWitness (Some k) (Some message) witness;
      if negb (CommitmentEqual recomputed commitment) then Err ErrVerificationFailed else Ok tt
  | _, _ => Err ErrIsNil
  end.

Definition KeyEqual (k other : option Key) : bool := bool_decide (k = other).

(** [commitments.Commit]. *)
Definition Commit (key : option Key) (message : Message) (prng : option P) :
    result (Commitment * Witness * P) :=
  match key, message, prng with
  | Some key, Some message, Some prng =>
      '(witness, prng) ← SampleWitness (Some prng);
      commitment ← CommitWithWitness (Some key) (Some message) witness;
      Ok (commitment, witness, prng)
  | _, _, _ => Err ErrIsNil
  end.

Lemma Open_ok k c m w : Open k c m w = Ok tt ↔
  ∃ k' m', k = Some k' ∧ m = Some m' ∧ c = mac k' (m' ++ w).
Proof.
  split.
  - destruct k as [k|], m as [m|]; try done. cbn. unfold CommitmentEqual.
    case_bool_decide as E; [|done]. intros _. eauto.
  - intros (k' & m' & -> & -> & ->). cbn. unfold CommitmentEqual. by rewrite bool_decide_true.
Qed.

Lemma Commit_ok k m p c w p' :
  Commit k m p = Ok (c, w, p') → is_array DigestSize w ∧ Open k c m w = Ok tt.
Proof.
  destruct k as [k|], m as [m|], p as [p|]; try done. cbn.
  destruct (read_full DigestSize p) as [[w' q]| |] eqn:E; [|done..]. cbn [mbind result_bind].
  intros [= <- <- <-]. apply read_full_ok in E as [El _]. split; [done|].
  unfold CommitmentEqual. by rewrite bool_decide_true.
Qed.

(** Two openings of one commitment to different messages collide. *)
Lemma Open_binding k c m w m' w' :
  is_array DigestSize w → is_array DigestSize w' →
  Open k c m w = Ok tt → Open k c m' w' = Ok tt → m ≠ m' →
  ∃ k' d d', k = Some k' ∧ d ≠ d' ∧ mac k' d = c ∧ mac k' d' = c.
Proof.
  intros Hw Hw' (k1 & m1 & -> & -> & ->)%Open_ok (k2 & m2 & [= <-] & -> & E)%Open_ok Hne.
  exists k1, (m1 ++ w), (m2 ++ w'). split_and!; [done| |done|done].
  intros F. apply Hne. apply app_inj_2 in F as [-> _]; [done|].
  unfold is_array in Hw, Hw'. congruence.
Qed.
End hashcom.
End HashCom.

Section properties.
Import HashCom.
Context {P : Type} `{Reader P} (mac : list N → list N → list N).

(** C30. Hash commitments: what [Commit] returns opens to its message; a
    commitment that opens to two different messages yields two different
    inputs on which the keyed hash agrees, since the nonce has a fixed size;
    and [Open] reports nil keys and messages and mismatches with their errors. *)
Theorem HashCom_binding k c m w m' w' p p' :
  (Commit mac k m p = Ok (c, w, p') → Open mac k c m w = Ok tt) ∧
  (is_array DigestSize w → is_array DigestSize w' →
     Open mac k c m w = Ok tt → Open mac k c m' w' = Ok tt → m ≠ m' →
     ∃ k' d d', k = Some k' ∧ d ≠ d' ∧ mac k' d = c ∧ mac k' d' = c) ∧
  (Open mac k c m w = Err ErrIsNil ↔ k = None ∨ m = None) ∧
  (∀ key b, Open mac (Some key) c (Some b) w
     = if decide (c = mac key (b ++ w)) then Ok tt else Err ErrVerificationFailed).
Proof.
  split_and!.
  - by intros [_ ?]%Commit_ok.
  - apply Open_binding.
  - destruct k as [k|], m as [m|]; cbn; [|naive_solver..]. unfold CommitmentEqual.
    case_bool_decide; cbn; naive_solver.
  - intros key b. cbn. unfold CommitmentEqual.
    case_bool_decide; cbn; case_decide; congruence.
Qed.
End properties.

(** A keyed checksum is not binding. *)
Definition ex_mac (k m : list N) : list N := [(foldl N.add 0 (k ++ m))%N].
Lemma HashCom_binding_witness :
  ∃ k' d d', Some [7%N] = Some k' ∧ d ≠ d' ∧ ex_mac k' d = [10%N] ∧ ex_mac k' d' = [10%N].
Proof.
  apply (HashCom_binding (P := list N) ex_mac (Some [7%N]) [10%N] (Some [1%N; 2%N])
    (replicate 32 0%N) (Some [3%N]) (replicate 32 0%N) None []).
  - reflexivity.
  - reflexivity.
  - reflexivity.
  - reflexivity.
  - discriminate.
Defined.
