(* ===== verification/Maurer.v ===== *)
(** * Maurer's sigma protocol (pkg/proofs/internal/meta/maurer09)

    The generic proof of knowledge of a preimage under a group homomorphism,
    and Schnorr's protocol (pkg/proofs/dlog/schnorr), its instance for the
    exponentiation of a generator.  Pointers to the message structures are
    options ([None] is nil); the group elements they hold are not nil. *)

From Stdlib Require Import ZArith NArith Lia.
From stdpp Require Import strings.
From AAC_tactics Require Import AAC.
From S2P Require Import Prelude Algebra AlgebraUtils BigInt Sigma.

Module Maurer.
Import Sigma.

Record Statement (I : Type) := mkStatement { sX : I }.
Record Witness (G : Type) := mkWitness { wW : G }.
Record State (G : Type) := mkState { stS : G }.
Record Commitment (I : Type) := mkCommitment { cA : I }.
Record Response (G : Type) := mkResponse { rZ : G }.
Arguments mkStatement {I}. Arguments sX {I}. Arguments mkWitness {G}. Arguments wW {G}.
Arguments mkState {G}. Arguments stS {G}. Arguments mkCommitment {I}. Arguments cA {I}.
Arguments mkResponse {G}. Arguments rZ {G}.

(** [defaultScalarMul]: the window method on the bytes of the exponent. *)
Definition defaultScalarMul `{GroupElement E} (base : E) (eBytes : ChallengeBytes) : result E :=
  match eBytes with
  | None => Err ErrIsNil
  | Some b => Ok (scalarMul base b)
  end.

Section maurer.
Context {I G P : Type} `{GroupElement I} `{GroupElement G}.

(** [Protocol]: the groups enter through their operations and the sampler of
    the preimage group, the anchor through [L] and [PreImage]. *)
Record Protocol := mkMaurer {
  preImageRandom : P → result (G * P);
  challengeByteLen : nat;
  soundnessError : N;
  name : string;
  oneWayHomomorphism : G → result I;
  anchorL : Z;
  anchorPreImage : I → G;
  imageScalarMul : I → ChallengeBytes → result I;
  preImageScalarMul : G → ChallengeBytes → result G;
}.

Definition NewProtocol (challengeByteLen : Z) (soundnessError : N) (name : string)
    (imageGroup : option unit) (preImageGroup : option (P → result (G * P)))
    (oneWayHomomorphism : option (G → result I)) (anchor : option (Z * (I → G)))
    (prng : option unit) (options : list (Protocol → Protocol)) : result Protocol :=
  if bool_decide (challengeByteLen ≤ 0)%Z || (soundnessError <? 1)%N then Err ErrInvalidArgument
  else
    match imageGroup, preImageGroup, oneWayHomomorphism, anchor, prng with
    | Some _, Some random, Some phi, Some (l, preImage), Some _ =>
        Ok (foldl (λ p option, option p)
              (mkMaurer random (Z.to_nat challengeByteLen) soundnessError name phi l preImage
                 defaultScalarMul defaultScalarMul) options)
    | _, _, _, _, _ => Err ErrInvalidArgument
    end.

(** [WithImageScalarMul] and [WithPreImageScalarMul]. *)
Definition WithImageScalarMul (f : I → ChallengeBytes → result I) (p : Protocol) : Protocol :=
  mkMaurer (preImageRandom p) (challengeByteLen p) (soundnessError p) (name p)
    (oneWayHomomorphism p) (anchorL p) (anchorPreImage p) f (preImageScalarMul p).
Definition WithPreImageScalarMul (f : G → ChallengeBytes → result G) (p : Protocol) : Protocol :=
  mkMaurer (preImageRandom p) (challengeByteLen p) (soundnessError p) (name p)
    (oneWayHomomorphism p) (anchorL p) (anchorPreImage p) (imageScalarMul p) f.

Definition ComputeProverCommitment (m : Protocol) (statement : option (Statement I))
    (witness : option (Witness G)) (prng : P) :
    result (option (Commitment I) * option (State G) * P) :=
  '(s, prng) ← preImageRandom m prng;
  a ← oneWayHomomorphism m s;
  Ok (Some (mkCommitment a), Some (mkState s), prng).

Definition ComputeProverResponse (m : Protocol) (statement : option (Statement I))
    (witness : option (Witness G)) (commitment : option (Commitment I))
    (state : option (State G)) (challengeBytes : ChallengeBytes) : result (option (Response G)) :=
  match witness, state with
  | Some witness, Some state =>
      cw ← preImageScalarMul m (wW witness) challengeBytes;
      Ok (Some (mkResponse (gop (stS state) cw)))
  | _, _ => Err ErrInvalidArgument
  end.

Definition Verify (m : Protocol) (statement : option (Statement I))
    (commitment : option (Commitment I)) (challengeBytes : ChallengeBytes)
    (response : option (Response G)) : result unit :=
  match statement, commitment, challengeBytes, response with
  | Some statement, Some commitment, Some _, Some response =>
      cx ← imageScalarMul m (sX statement) challengeBytes;
      phiZ ← oneWayHomomorphism m (rZ response);
      if negb (bool_decide (phiZ = gop (cA commitment) cx)) then Err ErrVerificationFailed
      else Ok tt
  | _, _, _, _ => Err ErrInvalidArgument
  end.

Definition RunSimulator (m : Protocol) (statement : option (Statement I))
    (challengeBytes : ChallengeBytes) (prng : P) :
    result (option (Commitment I) * option (Response G) * P) :=
  match statement, challengeBytes with
  | Some statement, Some _ =>
      '(z, prng) ← preImageRandom m prng;
      cXInv ← imageScalarMul m (ginv (sX statement)) challengeBytes;
      a ← oneWayHomomorphism m z;
      Ok (Some (mkCommitment (gop a cXInv)), Some (mkResponse z), prng)
  | _, _ => Err ErrInvalidArgument
  end.

Definition ValidateStatement (m : Protocol) (statement : option (Statement I))
    (witness : option (Witness G)) : result unit :=
  match statement, witness with
  | Some statement, Some witness =>
      phiW ← oneWayHomomorphism m (wW witness);
      if negb (bool_decide (phiW = sX statement)) then Err ErrValidationFails else Ok tt
  | _, _ => Err ErrInvalidArgument
  end.

(** [preImageScalarMulI]: a signed exponent. *)
Definition preImageScalarMulI (m : Protocol) (base : G) (e : Z) : result G :=
  let absE := Bytes e in
  if (e <? 0)%Z then preImageScalarMul m (ginv base) (Some absE)
  else preImageScalarMul m base (Some absE).

Definition specialSoundness : nat := 2.

Definition Extract (m : Protocol) (x : option (Statement I)) (a : option (Commitment I))
    (ei : option (list ChallengeBytes)) (zi : option (list (option (Response G)))) :
    result (Witness G) :=
  match x, a, ei, zi with
  | Some x', Some a', Some ei, Some zi =>
      if negb (length ei =? specialSoundness) || negb (length zi =? specialSoundness)
      then Err ErrInvalidArgument
      else
        let e0 := ei !!! 0 in let e1 := ei !!! 1 in
        _ ← Verify m x a e0 (default None (zi !! 0));
        _ ← Verify m x a e1 (default None (zi !! 1));
        let u := anchorPreImage m (sX x') in
        let eDiff := (SetBytes (default [] e0) - SetBytes (default [] e1))%Z in
        let '(g, alpha, beta) := GCD (anchorL m) eDiff in
        if negb (g =? 1)%Z then Err ErrFailed
        else
          match default None (zi !! 0), default None (zi !! 1) with
          | Some z0, Some z1 =>
              uAlpha ← preImageScalarMulI m u alpha;
              v ← preImageScalarMulI m (gop (ginv (rZ z1)) (rZ z0)) beta;
              Ok (mkWitness (gop uAlpha v))
          | _, _ => Panic
          end
  | _, _, _, _ => Err ErrInvalidArgument
  end.

(** The protocol as an implementation of [sigma.Protocol]. *)
Definition protocol (m : Protocol) : Sigma.Protocol (option (Statement I)) (option (Witness G))
    (option (Commitment I)) (option (State G)) (option (Response G)) P :=
  {| Sigma.Name := name m;
     Sigma.ComputeProverCommitment := ComputeProverCommitment m;
     Sigma.ComputeProverResponse := ComputeProverResponse m;
     Sigma.Verify := Verify m;
     Sigma.RunSimulator := RunSimulator m;
     Sigma.SpecialSoundness := 2;
     Sigma.SoundnessError := soundnessError m;
     Sigma.GetChallengeBytesLength := challengeByteLen m;
     Sigma.ValidateStatement := ValidateStatement m |}.

(** What the clients of [NewProtocol] supply: a total homomorphism [f],
    scalar multiplications that compute it, and an anchor. *)
Class Laws (m : Protocol) (f : G → I) : Prop := {
  phi_ok s : oneWayHomomorphism m s = Ok (f s);
  phi_op s t : f (gop s t) = gop (f s) (f t);
  image_mul x b : bytes_ok b →
    imageScalarMul m x (Some b) = Ok (gmul (N.to_nat (bytesBE_val b)) x);
  preimage_mul s b : bytes_ok b →
    preImageScalarMul m s (Some b) = Ok (gmul (N.to_nat (bytesBE_val b)) s);
  anchor_ok x : f (anchorPreImage m x) = zmul (anchorL m) x;
}.
End maurer.
Arguments Protocol : clear implicits.

(** The reading of [defaultScalarMul]. *)
Lemma defaultScalarMul_ok `{GroupElement E} (x : E) b :
  bytes_ok b → defaultScalarMul x (Some b) = Ok (gmul (N.to_nat (bytesBE_val b)) x).
Proof. intros Hb. cbn. by rewrite scalarMul_gmul. Qed.
End Maurer.

(** ** Theory *)

Section theory.
Import Sigma.
Context {I G P : Type} `{GroupElement I} `{GroupElement G}.
Implicit Types (m : Maurer.Protocol I G P) (x : I) (w s z : G) (b : list N).

(** The exponent of a challenge. *)
Definition exponent b : nat := N.to_nat (bytesBE_val b).

Lemma SetBytes_exponent b : SetBytes b = Z.of_nat (exponent b).
Proof. unfold SetBytes, exponent. lia. Qed.

Section laws.
Context (m : Maurer.Protocol I G P) (f : G → I) `{!Maurer.Laws m f}.

Lemma f_op s t : f (gop s t) = gop (f s) (f t).
Proof. apply (Maurer.phi_op (m:=m)). Qed.
Lemma f_gmul k s : f (gmul k s) = gmul k (f s).
Proof. apply hom_gmul, f_op. Qed.
Lemma f_zmul k s : f (zmul k s) = zmul k (f s).
Proof. apply hom_zmul, f_op. Qed.
Lemma f_ginv s : f (ginv s) = ginv (f s).
Proof. apply hom_ginv, f_op. Qed.

(** The verification equation. *)
Lemma Maurer_Verify_eq x a b z :
  bytes_ok b →
  Maurer.Verify m (Some (Maurer.mkStatement x)) (Some (Maurer.mkCommitment a)) (Some b)
    (Some (Maurer.mkResponse z)) =
  if decide (f z = gop a (gmul (exponent b) x)) then Ok tt else Err ErrVerificationFailed.
Proof.
  intros Hb. cbn. rewrite Maurer.image_mul by done. cbn. rewrite Maurer.phi_ok. cbn.
  fold (exponent b). by case_decide; case_bool_decide.
Qed.

Lemma Maurer_Verify_Ok ox oa b oz :
  bytes_ok b → Maurer.Verify m ox oa (Some b) oz = Ok tt →
  ∃ x a z, ox = Some (Maurer.mkStatement x) ∧ oa = Some (Maurer.mkCommitment a)
    ∧ oz = Some (Maurer.mkResponse z) ∧ f z = gop a (gmul (exponent b) x).
Proof.
  intros Hb. destruct ox as [[x]|]; [|done]. destruct oa as [[a]|]; [|done].
  destruct oz as [[z]|]; [|done]. rewrite Maurer_Verify_eq by done.
  case_decide; [|done]. eauto 10.
Qed.

Lemma Maurer_Validate_Ok ox ow :
  Maurer.ValidateStatement m ox ow = Ok tt ↔
  ∃ w, ow = Some (Maurer.mkWitness w) ∧ ox = Some (Maurer.mkStatement (f w)).
Proof.
  split.
  - destruct ox as [[x]|], ow as [[w]|]; try done. cbn. rewrite Maurer.phi_ok. cbn.
    case_bool_decide as E; [|done]. intros _. eexists. by rewrite E.
  - intros (w & -> & ->). cbn. rewrite Maurer.phi_ok. cbn. by rewrite bool_decide_true.
Qed.

Lemma Maurer_respond w s b ox oa :
  bytes_ok b →
  Maurer.ComputeProverResponse m ox (Some (Maurer.mkWitness w)) oa (Some (Maurer.mkState s)) (Some b)
  = Ok (Some (Maurer.mkResponse (gop s (gmul (exponent b) w)))).
Proof. intros Hb. cbn. by rewrite Maurer.preimage_mul. Qed.

Lemma Maurer_simulate x b p z p' :
  bytes_ok b → Maurer.preImageRandom m p = Ok (z, p') →
  Maurer.RunSimulator m (Some (Maurer.mkStatement x)) (Some b) p
  = Ok (Some (Maurer.mkCommitment (gop (f z) (ginv (gmul (exponent b) x)))),
        Some (Maurer.mkResponse z), p').
Proof.
  intros Hb Hz. cbn. rewrite Hz. cbn. rewrite Maurer.image_mul by done. cbn.
  rewrite Maurer.phi_ok. cbn. by rewrite gmul_ginv.
Qed.

Lemma gop_ginv_cancel (x y : I) : gop (gop x (ginv y)) y = x.
Proof. by rewrite <-gop_assoc, gop_inv_l, gop_gid_r. Qed.

#[export] Instance maurer_complete : Complete (Maurer.protocol m) is_Some.
Proof.
  intros ox ow oa os p p' e _ (w & -> & ->)%Maurer_Validate_Ok Hc [_ He]. cbn in Hc.
  unfold Maurer.ComputeProverCommitment in Hc. simplify_res.
  match goal with E : (let (_, _) := ?q in _) = _ |- _ => destruct q as [s q'] end.
  rewrite Maurer.phi_ok in *. simplify_res.
  eexists. split; [by apply Maurer_respond|].
  etransitivity; [by apply Maurer_Verify_eq|]. rewrite decide_True; [done|].
  by rewrite f_op, f_gmul.
Qed.

#[export] Instance maurer_simulatable : Simulatable (Maurer.protocol m) is_Some.
Proof.
  intros ox oa oz p p' e [[x] ->] [_ He]. cbn.
  destruct (Maurer.preImageRandom m p) as [[z q]| |] eqn:Ez; [|done..].
  pose proof (Maurer_simulate x e p z q He Ez) as Hs. cbn in Hs. rewrite Ez in Hs.
  rewrite Hs. intros [= <- <- <-].
  etransitivity; [by apply Maurer_Verify_eq|]. rewrite decide_True; [done|].
  by rewrite gop_ginv_cancel.
Qed.

(** The signed exponentiation of the extractor. *)
Lemma Maurer_scalarMulI s k :
  Maurer.preImageScalarMulI m s k = Ok (zmul k s).
Proof.
  assert (∀ k, exponent (Bytes k) = Z.to_nat (Z.abs k)) as Hexp.
  { intros j. pose proof (SetBytes_Bytes j) as E. rewrite SetBytes_exponent in E. lia. }
  unfold Maurer.preImageScalarMulI, zmul. case_match; rewrite Maurer.preimage_mul by apply Bytes_ok;
    fold (exponent (Bytes k)); rewrite Hexp; do 2 f_equal; lia.
Qed.

(** Two accepted responses to one commitment. *)
Lemma Maurer_two_responses x a b0 b1 z0 z1 :
  f z0 = gop a (gmul (exponent b0) x) → f z1 = gop a (gmul (exponent b1) x) →
  f (gop (ginv z1) z0) = zmul (SetBytes b0 - SetBytes b1) x.
Proof.
  intros E0 E1. rewrite f_op, f_ginv, E0, E1, ginv_gop.
  rewrite !SetBytes_exponent, zmul_sub_nat.
  transitivity (gop (gop (ginv a) a) (gop (gmul (exponent b0) x) (ginv (gmul (exponent b1) x))));
    [aac_reflexivity|]. by rewrite gop_inv_l, gop_id_l.
Qed.

Lemma Maurer_Extract_eq (ox : Maurer.Statement I) (oa : Maurer.Commitment I) b0 b1
    (oz0 oz1 : Maurer.Response G) :
  bytes_ok b0 → bytes_ok b1 →
  Maurer.Verify m (Some ox) (Some oa) (Some b0) (Some oz0) = Ok tt →
  Maurer.Verify m (Some ox) (Some oa) (Some b1) (Some oz1) = Ok tt →
  if decide (Z.gcd (Maurer.anchorL m) (SetBytes b0 - SetBytes b1) = 1%Z)
  then ∃ w, Maurer.Extract m (Some ox) (Some oa) (Some [Some b0; Some b1]) (Some [Some oz0; Some oz1])
              = Ok (Maurer.mkWitness w) ∧ f w = Maurer.sX ox
  else Maurer.Extract m (Some ox) (Some oa) (Some [Some b0; Some b1]) (Some [Some oz0; Some oz1])
    = Err ErrFailed.
Proof.
  intros Hb0 Hb1 V0 V1. destruct ox as [x], oa as [a], oz0 as [z0], oz1 as [z1].
  unfold Maurer.Extract. cbn [length Nat.eqb negb orb Maurer.specialSoundness].
  cbn [lookup_total list_lookup_total lookup list_lookup default from_option id].
  rewrite V0, V1. cbn [mbind result_bind].
  destruct (GCD _ _) as [[g al] be] eqn:Eg. apply GCD_spec in Eg as [Hg Hbez].
  cbn [default] in Hg, Hbez. rewrite <-Hg. cbn [Maurer.rZ Maurer.sX].
  case_decide as E; [|by rewrite (proj2 (Z.eqb_neq _ _))].
  rewrite (proj2 (Z.eqb_eq _ _)) by done. cbn [negb].
  rewrite !Maurer_scalarMulI. cbn. eexists. split; [done|].
  rewrite Maurer_Verify_eq in V0, V1 by done. do 2 case_decide; try done.
  rewrite f_op, !f_zmul, (Maurer.anchor_ok (m:=m)).
  rewrite (Maurer_two_responses x a b0 b1) by done.
  rewrite <-!zmul_mul, <-zmul_add, Hbez, E. apply zmul_1.
Qed.

(** It rejects transcripts that are not accepted, and malformed arguments. *)
Lemma Maurer_Extract_rejected (ox : Maurer.Statement I) (oa : Maurer.Commitment I) b0 b1
    (oz0 oz1 : Maurer.Response G) :
  bytes_ok b0 → bytes_ok b1 →
  ¬ (Maurer.Verify m (Some ox) (Some oa) (Some b0) (Some oz0) = Ok tt ∧
     Maurer.Verify m (Some ox) (Some oa) (Some b1) (Some oz1) = Ok tt) →
  Maurer.Extract m (Some ox) (Some oa) (Some [Some b0; Some b1]) (Some [Some oz0; Some oz1])
  = Err ErrVerificationFailed.
Proof.
  intros Hb0 Hb1 Hna. destruct ox as [x], oa as [a], oz0 as [z0], oz1 as [z1].
  unfold Maurer.Extract. cbn [length Nat.eqb negb orb Maurer.specialSoundness].
  cbn [lookup_total list_lookup_total lookup list_lookup default from_option id].
  rewrite !Maurer_Verify_eq in * by done. case_decide; [|done]. case_decide; [|done].
  by destruct Hna.
Qed.

Lemma Maurer_Extract_arguments (m0 : Maurer.Protocol I G P) ox oa es zs :
  (ox = None ∨ oa = None ∨ es = None ∨ zs = None ∨
    ∃ es' zs', es = Some es' ∧ zs = Some zs' ∧ (length es' ≠ 2%nat ∨ length zs' ≠ 2%nat)) →
  Maurer.Extract m0 ox oa es zs = Err ErrInvalidArgument.
Proof.
  unfold Maurer.Extract, Maurer.specialSoundness.
  intros [->|[->|[->|[->|(es' & zs' & -> & -> & Hl)]]]]; repeat case_match; try done.
  all: destruct (Nat.eqb_spec (length es') 2), (Nat.eqb_spec (length zs') 2); try done.
  all: by destruct Hl.
Qed.

(** The extractor on two transcripts, with its pointers. *)
Definition maurer_extract (m0 : Maurer.Protocol I G P) (x : option (Maurer.Statement I))
    (a : option (Maurer.Commitment I)) (e : list N) (oz : option (Maurer.Response G))
    (e' : list N) (oz' : option (Maurer.Response G)) : result (option (Maurer.Witness G)) :=
  w ← Maurer.Extract m0 x a (Some [Some e; Some e']) (Some [oz; oz']); Ok (Some w).

(** Distinct challenges suffice when their differences are coprime to the
    anchor. *)
Lemma Maurer_extractable :
  (∀ e e', is_challenge (Maurer.challengeByteLen m) e → is_challenge (Maurer.challengeByteLen m) e' →
    e ≠ e' → Z.gcd (Maurer.anchorL m) (SetBytes e - SetBytes e') = 1%Z) →
  Extractable (Maurer.protocol m) (λ _, True) (maurer_extract m).
Proof.
  intros Hgcd ox oa e oz e' oz' He He' Hne _ _ V V'.
  pose proof (proj2 He) as Hok. pose proof (proj2 He') as Hok'.
  pose proof V as V0. pose proof V' as V1.
  change (Verify (Maurer.protocol m)) with (Maurer.Verify m) in V0, V1.
  apply Maurer_Verify_Ok in V0 as (x & a & z & -> & -> & -> & _); [|done].
  apply Maurer_Verify_Ok in V1 as (x1 & a1 & z1 & _ & _ & -> & _); [|done].
  pose proof (Maurer_Extract_eq (Maurer.mkStatement x) (Maurer.mkCommitment a) e e' _ _ Hok Hok' V V') as Hx.
  rewrite decide_True in Hx by by apply Hgcd.
  destruct Hx as (w & Hw & Hf). exists (Some (Maurer.mkWitness w)). unfold maurer_extract.
  rewrite Hw. split; [done|]. apply Maurer_Validate_Ok. exists w. cbn in Hf. by rewrite Hf.
Qed.
End laws.
End theory.

(** ** Schnorr's protocol (pkg/proofs/dlog/schnorr) *)

Module Schnorr.
(** [base.ComputationalSecurityBytesCeil]. *)
Definition ComputationalSecurityBytesCeil : Z := 16.
Definition Name : string := "SCHNORR-dlog_pok-".

Section schnorr.
Context `{PrimeField F, !ModuleElement F E} {P : Type}.

(** [NewProtocol]: [random] is the [Random] method of the scalar field. *)
Definition NewProtocol (generator : E) (random : P → result (F * P)) (prng : option unit) :
    result (Maurer.Protocol E F P) :=
  let homomorphism s := Ok (scalar_op generator s) in
  Maurer.NewProtocol ComputationalSecurityBytesCeil 128 Name (Some tt) (Some random)
    (Some homomorphism) (Some (order, λ _, rzero)) prng [].

Lemma NewProtocol_ok g random prng m :
  NewProtocol g random prng = Ok m →
  Maurer.Laws m (scalar_op g) ∧ Maurer.challengeByteLen m = 16
  ∧ Maurer.anchorL m = order ∧ Maurer.soundnessError m = 128%N
  ∧ Maurer.preImageRandom m = random.
Proof.
  unfold NewProtocol, Maurer.NewProtocol. cbn. destruct prng; [|done]. intros [= <-].
  split_and!; [|done..]. split; cbn.
  - done.
  - intros s t. apply scalar_op_add_r.
  - intros x b Hb. by apply Maurer.defaultScalarMul_ok.
  - intros s b Hb. by apply Maurer.defaultScalarMul_ok.
  - intros x. by rewrite zmul_order, scalar_op_0.
Qed.
End schnorr.
End Schnorr.

(** ** Properties *)

Section properties.
Context {I G P : Type} `{GroupElement I} `{GroupElement G}.

(** C9. Special soundness of Maurer's protocol: from two accepted transcripts
    with one commitment the extractor returns a preimage of the statement when
    the difference of the challenges is coprime to the anchor [L], and
    [ErrFailed] when it is not; it returns [ErrVerificationFailed] when one of
    the two is not accepted, and [ErrInvalidArgument] on any other number of
    challenges or responses and on a missing argument. *)
Theorem Maurer_special_soundness (m : Maurer.Protocol I G P) f `{!Maurer.Laws m f}
    (x : Maurer.Statement I) (a : Maurer.Commitment I) b0 b1 (z0 z1 : Maurer.Response G) :
  bytes_ok b0 → bytes_ok b1 →
  let extract := Maurer.Extract m (Some x) (Some a) (Some [Some b0; Some b1])
                   (Some [Some z0; Some z1]) in
  let accepted := Maurer.Verify m (Some x) (Some a) (Some b0) (Some z0) = Ok tt ∧
                  Maurer.Verify m (Some x) (Some a) (Some b1) (Some z1) = Ok tt in
  let coprime := Z.gcd (Maurer.anchorL m) (SetBytes b0 - SetBytes b1) = 1%Z in
  (∀ w, extract = Ok w →
    f (Maurer.wW w) = Maurer.sX x ∧ Maurer.ValidateStatement m (Some x) (Some w) = Ok tt) ∧
  (is_ok extract = true ↔ accepted ∧ coprime) ∧
  (accepted → ¬ coprime → extract = Err ErrFailed) ∧
  (¬ accepted → extract = Err ErrVerificationFailed) ∧
  (∀ ox oa es zs, (ox = None ∨ oa = None ∨ es = None ∨ zs = None ∨
       ∃ es' zs', es = Some es' ∧ zs = Some zs' ∧ (length es' ≠ 2%nat ∨ length zs' ≠ 2%nat)) →
     Maurer.Extract m ox oa es zs = Err ErrInvalidArgument).
Proof.
  intros Hb0 Hb1 extract accepted coprime.
  pose proof (Maurer_Extract_eq m f x a b0 b1 z0 z1 Hb0 Hb1) as He. fold extract in He.
  assert (¬ accepted → extract = Err ErrVerificationFailed) as Hrej
    by (by apply (Maurer_Extract_rejected m f)).
  assert (accepted ∨ ¬ accepted) as Hdec.
  { unfold accepted. clear. destruct (Maurer.Verify m _ _ (Some b0) _) as [[]| |],
      (Maurer.Verify m _ _ (Some b1) _) as [[]| |]; naive_solver. }
  split_and!; [| | |done|by apply Maurer_Extract_arguments].
  - intros w Hw. destruct Hdec as [[V0 V1]|Ha]; [|by rewrite Hrej in Hw].
    specialize (He V0 V1). case_decide; [|congruence]. destruct He as (w' & He & Hf).
    rewrite Hw in He. injection He as ->. split; [done|].
    apply (Maurer_Validate_Ok m f). exists w'. destruct x. cbn in *. by rewrite Hf.
  - split.
    + intros [w Hw]%is_ok_true. destruct Hdec as [[V0 V1]|Ha]; [|by rewrite Hrej in Hw].
      specialize (He V0 V1). case_decide; [done|congruence].
    + intros [[V0 V1] Hg]. specialize (He V0 V1). rewrite decide_True in He by done.
      destruct He as (w & -> & _). done.
  - intros [V0 V1] Hg. specialize (He V0 V1). by rewrite decide_False in He.
Qed.

(** C10. Honest-verifier zero-knowledge of Maurer's protocol: for a statement
    with a witness and a challenge, a bijection of the preimage group carries
    the randomness of the prover to that of the simulator such that both
    produce the same commitment and response, and the verifier accepts them. *)
Theorem Maurer_zero_knowledge (m : Maurer.Protocol I G P) f `{!Maurer.Laws m f} w e :
  bytes_ok e →
  let x := Some (Maurer.mkStatement (f w)) in
  ∃ shift unshift : G → G, (∀ s, unshift (shift s) = s) ∧ (∀ z, shift (unshift z) = z) ∧
  ∀ s p p' q q',
    Maurer.preImageRandom m p = Ok (s, p') → Maurer.preImageRandom m q = Ok (shift s, q') →
    ∃ a st z,
      Maurer.ComputeProverCommitment m x (Some (Maurer.mkWitness w)) p = Ok (a, st, p') ∧
      Maurer.ComputeProverResponse m x (Some (Maurer.mkWitness w)) a st (Some e) = Ok z ∧
      Maurer.RunSimulator m x (Some e) q = Ok (a, z, q') ∧
      Maurer.Verify m x a (Some e) z = Ok tt.
Proof.
  intros He x. exists (λ s, gop s (gmul (exponent e) w)), (λ z, gop z (ginv (gmul (exponent e) w))).
  split_and!.
  - intros s. by rewrite <-gop_assoc, gop_inv_r, gop_gid_r.
  - intros z. by rewrite <-gop_assoc, gop_inv_l, gop_gid_r.
  - intros s p p' q q' Hp Hq.
    exists (Some (Maurer.mkCommitment (f s))), (Some (Maurer.mkState s)),
      (Some (Maurer.mkResponse (gop s (gmul (exponent e) w)))). split_and!.
    + unfold Maurer.ComputeProverCommitment. rewrite Hp. cbn. by rewrite (Maurer.phi_ok (m:=m)).
    + by apply (Maurer_respond m f).
    + etransitivity; [by eapply (Maurer_simulate m f)|]. do 3 f_equal. f_equal.
      rewrite (f_op m f), (f_gmul m f), <-gop_assoc, gop_inv_r.
      by rewrite gop_gid_r.
    + etransitivity; [by apply (Maurer_Verify_eq m f)|]. rewrite decide_True; [done|].
      by rewrite (f_op m f), (f_gmul m f).
Qed.
End properties.

Section schnorr_properties.
Context `{PrimeField F, !ModuleElement F E} {P : Type}.

(** Schnorr's protocol is a proof of knowledge of a discrete logarithm:
    from two accepted transcripts with one commitment, whose challenges differ
    modulo the group order, the extractor returns the exponent of the
    statement, and it fails when they agree; in a group of more than 2^128
    elements distinct challenges never agree. *)
Theorem Schnorr_knowledge g random prng (m : Maurer.Protocol E F P) x a e0 e1 z0 z1 :
  Schnorr.NewProtocol g random prng = Ok m →
  Sigma.is_challenge 16 e0 → Sigma.is_challenge 16 e1 →
  Maurer.Verify m (Some x) (Some a) (Some e0) (Some z0) = Ok tt →
  Maurer.Verify m (Some x) (Some a) (Some e1) (Some z1) = Ok tt →
  let extract := Maurer.Extract m (Some x) (Some a) (Some [Some e0; Some e1])
                   (Some [Some z0; Some z1]) in
  ((order | SetBytes e0 - SetBytes e1)%Z → extract = Err ErrFailed) ∧
  (¬ (order | SetBytes e0 - SetBytes e1)%Z →
    ∃ w, extract = Ok w ∧ Maurer.sX x = scalar_op g (Maurer.wW w)) ∧
  ((2 ^ 128 ≤ order)%Z → e0 ≠ e1 → ¬ (order | SetBytes e0 - SetBytes e1)%Z).
Proof.
  intros (Hm & _ & HL & _)%Schnorr.NewProtocol_ok [Hl0 Hb0] [Hl1 Hb1] V0 V1 extract.
  pose proof (Maurer_Extract_eq m (scalar_op g) x a e0 e1 z0 z1 Hb0 Hb1 V0 V1) as He.
  rewrite HL in He. fold extract in He. split_and!.
  - intros Hd. rewrite decide_False in He; [done|]. intros Hg.
    apply Z.divide_gcd_iff in Hd; [|pose proof order_pos; lia].
    rewrite Hd in Hg. assert (rone = (rzero : F)) as E1; [|by apply one_ne_zero in E1].
    rewrite <-from_uint64_1. apply from_uint64_eq_0. by rewrite Hg.
  - intros Hd. rewrite decide_True in He by by apply order_coprime.
    destruct He as (w & He & Hw). eauto.
  - intros Ho Hne [k Hk]. apply Hne.
    assert (∀ e, length e = 16 → bytes_ok e → (0 ≤ SetBytes e < 2 ^ 128)%Z) as Hb.
    { intros e Hl Hb. pose proof (bytesBE_val_bound e Hb) as Hv. rewrite Hl in Hv.
      unfold SetBytes. lia. }
    pose proof (Hb e0 Hl0 Hb0). pose proof (Hb e1 Hl1 Hb1).
    assert (k = 0)%Z by nia. subst k.
    apply bytesBE_val_inj; [congruence|done..|]. unfold SetBytes in Hk. lia.
Qed.
End schnorr_properties.

(** ** Witnesses: Schnorr's protocol over the field of 101 elements *)

Definition ex_random (g : list N) : result (fp101 * list N) :=
  match g with [] => Err ErrFailed | x :: g => Ok (from_uint64 (Z.of_N x), g) end.
Definition ex_schnorr : Maurer.Protocol fp101 fp101 (list N) :=
  Maurer.mkMaurer ex_random 16 128 Schnorr.Name (λ s, Ok (scalar_op (rone : fp101) s)) (order (F:=fp101))
    (λ _, rzero) Maurer.defaultScalarMul Maurer.defaultScalarMul.
Definition ex_el (z : Z) : fp101 := from_uint64 z.
Definition ex_challenge (k : N) : list N := replicate 15 0%N ++ [k].

Lemma ex_schnorr_new : Schnorr.NewProtocol (rone : fp101) ex_random (Some tt) = Ok ex_schnorr.
Proof. reflexivity. Qed.
#[export] Instance ex_schnorr_laws : Maurer.Laws ex_schnorr (scalar_op (rone : fp101)).
Proof. apply (Schnorr.NewProtocol_ok _ _ _ _ ex_schnorr_new). Qed.
Lemma ex_challenge_ok k : (k < 256)%N → Sigma.is_challenge 16 (ex_challenge k).
Proof. intros Hk. split; [done|]. repeat constructor; done. Qed.

Lemma Maurer_special_soundness_witness :
  is_ok (Maurer.Extract ex_schnorr (Some (Maurer.mkStatement (ex_el 7)))
    (Some (Maurer.mkCommitment (ex_el 5))) (Some [Some (ex_challenge 3); Some (ex_challenge 2)])
    (Some [Some (Maurer.mkResponse (ex_el 26)); Some (Maurer.mkResponse (ex_el 19))])) = true.
Proof.
  apply (Maurer_special_soundness ex_schnorr (scalar_op (rone : fp101))).
  - apply ex_challenge_ok. done.
  - apply ex_challenge_ok. done.
  - split; [split|]; vm_compute; reflexivity.
Defined.

Lemma Maurer_zero_knowledge_witness :
  ∃ shift unshift : fp101 → fp101,
    (∀ s, unshift (shift s) = s) ∧ (∀ z, shift (unshift z) = z) ∧
    ∀ s p p' q q', ex_random p = Ok (s, p') → ex_random q = Ok (shift s, q') →
      ∃ a z, Maurer.RunSimulator ex_schnorr (Some (Maurer.mkStatement (ex_el 7)))
               (Some (ex_challenge 3)) q = Ok (a, z, q').
Proof.
  destruct (Maurer_zero_knowledge ex_schnorr (scalar_op (rone : fp101)) (ex_el 7) (ex_challenge 3))
    as (shift & unshift & H1 & H2 & H3); [apply ex_challenge_ok; done|].
  exists shift, unshift. split_and!; [done..|]. intros s p p' q q' Hp Hq.
  destruct (H3 s p p' q q' Hp Hq) as (a & st & z & _ & _ & Hs & _). exists a, z. exact Hs.
Defined.

Lemma Schnorr_knowledge_witness :
  ∃ w : Maurer.Witness fp101, ex_el 7 = scalar_op (rone : fp101) (Maurer.wW w).
Proof.
  destruct (Schnorr_knowledge (rone : fp101) ex_random (Some tt) ex_schnorr
    (Maurer.mkStatement (ex_el 7)) (Maurer.mkCommitment (ex_el 5)) (ex_challenge 3) (ex_challenge 2)
    (Maurer.mkResponse (ex_el 26)) (Maurer.mkResponse (ex_el 19))) as (_ & H2 & _).
  - reflexivity.
  - apply ex_challenge_ok. done.
  - apply ex_challenge_ok. done.
  - vm_compute. reflexivity.
  - vm_compute. reflexivity.
  - destruct H2 as (w & _ & Hw); [|by exists w].
    intros Hd. assert (101 | 1)%Z as [k Hk] by exact Hd. lia.
Defined.

(** A session of Schnorr's protocol. *)
Definition ex_bX (x : option (Maurer.Statement fp101)) : list N := [].
Definition ex_bA (a : option (Maurer.Commitment fp101)) : list N := [].
Definition ex_bZ (z : option (Maurer.Response fp101)) : list N := [].
Definition ex_ctx : Context (list (string * list (list N))) := mkContext [1%N; 2%N] [].
Definition ex_x := Some (Maurer.mkStatement (ex_el 7)).
Definition ex_w := Some (Maurer.mkWitness (ex_el 7)).
Definition ex_proto := Maurer.protocol ex_schnorr.
Definition ex_a := Some (Maurer.mkCommitment (ex_el 5)).
Definition ex_prover := Sigma.mkProver
  (Sigma.begin_transcript Sigma.transcriptLabel (Sigma.Name ex_proto) (ex_bX ex_x) ex_ctx)
  ex_proto ex_x ex_w None None None None 1.
Definition ex_verifier := Sigma.mkVerifier
  (Sigma.begin_transcript Sigma.transcriptLabel (Sigma.Name ex_proto) (ex_bX ex_x) ex_ctx)
  ex_proto ex_x None None 2 (replicate 16 3%N).

Lemma ex_prover_new :
  Sigma.NewProver ex_bX (Some ex_ctx) (Some ex_proto) ex_x ex_w = Ok ex_prover.
Proof. reflexivity. Qed.
Lemma ex_verifier_new :
  Sigma.NewVerifier ex_bX (Some ex_ctx) (Some ex_proto) ex_x (Some (replicate 16 3%N)) = Ok ex_verifier.
Proof. reflexivity. Qed.

Lemma Prover_answers_once_witness :
  ∃ p g a s g0 g1 e z, Sigma.run_prover ex_bA ex_bZ ex_prover [5%N]
    [Sigma.CallRound3 None; Sigma.CallRound1; Sigma.CallRound3 (Some (ex_challenge 3));
     Sigma.CallRound3 (Some (ex_challenge 2))]
    = (p, g, [Sigma.Committed a; Sigma.Answered e z]) ∧
    Sigma.ComputeProverCommitment ex_proto ex_x ex_w g0 = Ok (a, s, g1).
Proof.
  pose proof (λ p g out, Prover_answers_once ex_bX ex_bA ex_bZ ex_proto ex_ctx ex_x ex_w ex_prover
    [5%N] [Sigma.CallRound3 None; Sigma.CallRound1; Sigma.CallRound3 (Some (ex_challenge 3));
     Sigma.CallRound3 (Some (ex_challenge 2))] p g out ex_prover_new) as H.
  destruct (Sigma.run_prover _ _ _ _ _) as [[p g] out] eqn:E.
  assert (length out = 2) as Hl.
  { change out with (p, g, out).2. rewrite <-E. vm_compute. reflexivity. }
  specialize (H p g out eq_refl).
  destruct H as [[-> _]|(a & s & g0 & g1 & Hc & [[-> _]|(e & z & -> & _)])]; [done..|].
  exists p, g, a, s, g0, g1, e, z. done.
Defined.

Definition ex_verifier_calls : list (Sigma.verifier_call _ _) :=
  [Sigma.CallRound2 ex_a; Sigma.CallVerify (Some (Maurer.mkResponse (ex_el 4)));
   Sigma.CallVerify (Some (Maurer.mkResponse
     (radd (ex_el 5) (rmul (ex_el (SetBytes (replicate 16 3%N))) (ex_el 7)))))].

Lemma Verifier_accepts_verified_witness :
  ∃ a e z g, read_full 16 (replicate 16 3%N) = Ok (e, g) ∧ Sigma.is_challenge 16 e ∧
    Sigma.Verify ex_proto ex_x a (Some e) z = Ok tt.
Proof.
  destruct (Verifier_accepts_verified ex_bX ex_bA ex_bZ ex_proto ex_ctx ex_x (replicate 16 3%N)
    ex_verifier ex_verifier_calls (Sigma.run_verifier ex_bA ex_bZ ex_verifier ex_verifier_calls)
    ex_verifier_new eq_refl) as (f & a & e & r & z & Hr & He & _ & _ & Hv & _).
  - vm_compute. reflexivity.
  - eexists a, e, z, _. split; [exact Hr|]. split; [exact He|exact Hv].
Defined.

Lemma Interactive_complete_witness :
  ∃ z v, Sigma.VerifyRound ex_bZ (Sigma.Round2 ex_bA ex_verifier ex_a).1 z = (v, Ok tt)
    ∧ Sigma.v_round v = 6.
Proof.
  destruct (Interactive_complete ex_bX ex_bA ex_bZ ex_proto is_Some ex_ctx ex_x ex_w [5%N] []
    ex_prover ex_verifier (Sigma.Round1 ex_bA ex_prover [5%N]).1
    (Sigma.Round2 ex_bA ex_verifier ex_a).1 ex_a (replicate 16 3%N) (replicate 16 3%N))
    as (p2 & z & v2 & _ & Hv & _ & H6 & _).
  - by eexists.
  - vm_compute. reflexivity.
  - exact ex_prover_new.
  - exact ex_verifier_new.
  - reflexivity.
  - reflexivity.
  - exists z, v2. split; [exact Hv|exact H6].
Defined.

(** ** A protocol with distinct challenges: one byte over 257 elements *)

Definition ex_random257 (g : list N) : result (fp257 * list N) :=
  match g with [] => Err ErrFailed | x :: g => Ok (from_uint64 (Z.of_N x), g) end.
Definition ex_maurer : Maurer.Protocol fp257 fp257 (list N) :=
  Maurer.mkMaurer ex_random257 1 8 "byte" (λ s, Ok s) 257 (λ _, rzero)
    Maurer.defaultScalarMul Maurer.defaultScalarMul.
#[export] Instance ex_maurer_laws : Maurer.Laws ex_maurer (λ s : fp257, s).
Proof.
  split; cbn [Maurer.oneWayHomomorphism Maurer.imageScalarMul Maurer.preImageScalarMul
    Maurer.anchorPreImage Maurer.anchorL ex_maurer].
  - done.
  - done.
  - intros x b Hb. by apply Maurer.defaultScalarMul_ok.
  - intros s b Hb. by apply Maurer.defaultScalarMul_ok.
  - intros x. symmetry. exact (zmul_order (F:=fp257) (E:=fp257) x).
Qed.
Lemma ex_maurer_extractable :
  Sigma.Extractable (Maurer.protocol ex_maurer) (λ _, True) (maurer_extract ex_maurer).
Proof.
  apply (Maurer_extractable ex_maurer (λ s, s)).
  intros e e' [Hl Hok] [Hl' Hok'] Hne. refine (order_coprime (F:=fp257) _ _).
  intros [k Hk]. apply Hne. change (order (F:=fp257)) with 257%Z in Hk.
  pose proof (bytesBE_val_bound e Hok) as He. pose proof (bytesBE_val_bound e' Hok') as He'.
  rewrite Hl in He. rewrite Hl' in He'. cbn in He, He'. unfold SetBytes in Hk.
  apply bytesBE_val_inj; [congruence|done..|]. lia.
Qed.
