(* ===== verification/Hagrid.v ===== *)
(** * Hagrid transcripts (pkg/transcripts/hagrid)

    A transcript is a cSHAKE256 state: its customisation string and the bytes
    written so far.  [shake c m n] are the first [n] bytes squeezed out of the
    state with customisation [c] and input [m]; it is a parameter, since SHAKE
    is code of the standard library.  The operations frame everything they
    write, so that the input of every squeeze determines the whole history of
    the transcript: a protocol that extracts a challenge has bound all it
    appended before. *)

From Stdlib Require Import ZArith NArith Lia.
From stdpp Require Import strings.
From S2P Require Import Prelude Algebra AlgebraUtils IOUtils Sigma.

(** The bytes of a Go string. *)
Definition string_bytes (s : string) : list N := Ascii.N_of_ascii <$> String.list_ascii_of_string s.

Lemma string_bytes_inj : Inj (=) (=) string_bytes.
Proof.
  intros s s' E. unfold string_bytes in E.
  assert (Inj (=) (=) Ascii.N_of_ascii) as Hinj.
  { intros a b Hab%(f_equal Ascii.ascii_of_N). by rewrite !Ascii.ascii_N_embedding in Hab. }
  apply (inj (fmap Ascii.N_of_ascii)) in E.
  rewrite <-(String.string_of_list_ascii_of_string s), E. apply String.string_of_list_ascii_of_string.
Qed.

Module Hagrid.

Definition customizedShakeName : string := "BRON_CRYPTO_HAGRID_TRANSCRIPT-".
(** [iota + 0xa0], counted from the constant before them. *)
Definition domainTag : N := 0xa1.
Definition appendTag : N := 0xa2.
Definition extractTag : N := 0xa3.
Definition extractedTag : N := 0xa4.
Definition continuedTag : N := 0xa5.

Record transcript := mkTranscript { custom : string; absorbed : list N }.

(** [h.Write], which does not fail. *)
Definition write (d : list N) (t : transcript) : transcript :=
  mkTranscript (custom t) (absorbed t ++ d).

Definition NewTranscript (name : string) : transcript :=
  mkTranscript (customizedShakeName +:+ name) [].

Definition AppendDomainSeparator (domainSeparatorTag : string) (t : transcript) : transcript :=
  let t := write [domainTag] t in
  let t := write (lenBE (string_bytes domainSeparatorTag)) t in
  write (string_bytes domainSeparatorTag) t.

Definition AppendBytes (label : string) (messages : list (list N)) (t : transcript) : transcript :=
  let t := write [appendTag] t in
  let t := write (lenBE (string_bytes label)) t in
  let t := write (string_bytes label) t in
  let t := write (uint64ToBytesBE (N.of_nat (length messages))) t in
  foldl (λ t message, write message (write (lenBE message) t)) t messages.

Section hagrid.
Context (shake : string → list N → nat → list N).

Definition ExtractBytes (label : string) (outLen : nat) (t : transcript) :
    result (list N * transcript) :=
  if outLen =? 0 then Err ErrLength
  else
    let t := write [extractTag] t in
    let t := write (lenBE (string_bytes label)) t in
    let t := write (string_bytes label) t in
    let t := write (uint64ToBytesBE (N.of_nat outLen)) t in
    let hClone := t in
    let t := write [continuedTag] t in
    let hClone := write [extractedTag] hClone in
    Ok (shake (custom hClone) (absorbed hClone) outLen, t).

(** [transcripts.Append] on a possibly nil tape. *)
Definition Append {X} (bytes : X → list N) (tape : option transcript) (label : string)
    (xs : list X) : option transcript :=
  match tape with
  | None => None
  | Some tape => Some (foldl (λ t x, AppendBytes label [bytes x] t) tape xs)
  end.

#[export] Instance hagrid : Transcript transcript :=
  {| Sigma.AppendDomainSeparator := AppendDomainSeparator;
     Sigma.AppendBytes := AppendBytes;
     Sigma.ExtractBytes := ExtractBytes |}.
End hagrid.
End Hagrid.
Import Hagrid.

(** ** Histories

    The calls made on a transcript, and the bytes each of them adds. *)
Inductive call :=
  | Separate (tag : string)
  | Absorb (label : string) (messages : list (list N))
  | Squeeze (label : string) (outLen : nat).

Definition frameBE (b : list N) : list N := lenBE b ++ b.
Definition header (label : string) (outLen : nat) : list N :=
  extractTag :: frameBE (string_bytes label) ++ uint64ToBytesBE (N.of_nat outLen).
Definition encode (c : call) : list N :=
  match c with
  | Separate tag => domainTag :: frameBE (string_bytes tag)
  | Absorb label messages =>
      appendTag :: frameBE (string_bytes label)
        ++ uint64ToBytesBE (N.of_nat (length messages)) ++ (messages ≫= frameBE)
  | Squeeze label outLen => header label outLen ++ [continuedTag]
  end.

(** Calls with arguments of machine-word sizes that do not fail. *)
Definition wf_call (c : call) : Prop :=
  match c with
  | Separate tag => sized (string_bytes tag)
  | Absorb label messages => sized (string_bytes label) ∧ sized_list messages
  | Squeeze label outLen =>
      sized (string_bytes label) ∧ outLen ≠ 0 ∧ (N.of_nat outLen < 2 ^ 64)%N
  end.

Section histories.
Context (shake : string → list N → nat → list N).

(** The state after a call. *)
Definition apply_call (t : transcript) (c : call) : transcript :=
  match c with
  | Separate tag => AppendDomainSeparator tag t
  | Absorb label messages => AppendBytes label messages t
  | Squeeze label outLen =>
      match ExtractBytes shake label outLen t with Ok (_, t) => t | _ => t end
  end.
Definition history (name : string) (cs : list call) : transcript :=
  foldl apply_call (NewTranscript name) cs.

Lemma apply_call_encode t c :
  wf_call c → apply_call t c = mkTranscript (custom t) (absorbed t ++ encode c).
Proof.
  destruct c as [tag|label ms|label n]; cbn [apply_call encode wf_call].
  - intros _. unfold AppendDomainSeparator, write, frameBE. cbn [custom absorbed]. f_equal.
    by rewrite <-!(assoc_L (++)).
  - intros _. unfold AppendBytes.
    assert (∀ ms t, foldl (λ t message, write message (write (lenBE message) t)) t ms
      = mkTranscript (custom t) (absorbed t ++ (ms ≫= frameBE))) as Hf.
    { clear. induction ms as [|b ms IH]; intros t; cbn [foldl mbind list_bind].
      { by rewrite app_nil_r; destruct t. }
      rewrite IH. unfold write, frameBE. cbn [custom absorbed]. f_equal.
      by rewrite <-!(assoc_L (++)). }
    rewrite Hf. unfold write, frameBE at 1. cbn [custom absorbed]. f_equal.
    by rewrite <-!(assoc_L (++)).
  - intros (_ & Hn & _). unfold ExtractBytes. rewrite (proj2 (Nat.eqb_neq _ _) Hn).
    unfold write, header, frameBE. cbn [custom absorbed]. f_equal.
    by repeat (rewrite <-!(assoc_L (++)); cbn [app]).
Qed.

Lemma history_eq name cs :
  Forall wf_call cs →
  history name cs = mkTranscript (customizedShakeName +:+ name) (cs ≫= encode).
Proof.
  intros Hw. unfold history, NewTranscript.
  assert (∀ t, foldl apply_call t cs = mkTranscript (custom t) (absorbed t ++ (cs ≫= encode))) as H.
  { induction Hw as [|c cs Hc Hw IH]; intros t; cbn [foldl mbind list_bind].
    { by rewrite app_nil_r; destruct t. }
    rewrite IH, apply_call_encode by done. cbn [custom absorbed].
    by rewrite <-(assoc_L (++)). }
  by rewrite H.
Qed.

(** The input on which the oracle is squeezed. *)
Definition query (t : transcript) (label : string) (outLen : nat) : list N :=
  absorbed t ++ header label outLen ++ [extractedTag].

Lemma ExtractBytes_query t label n :
  n ≠ 0 →
  ExtractBytes shake label n t
    = Ok (shake (custom t) (query t label n) n, apply_call t (Squeeze label n)).
Proof.
  intros Hn. unfold apply_call, ExtractBytes. rewrite (proj2 (Nat.eqb_neq _ _) Hn).
  unfold query, header, write, frameBE. cbn [custom absorbed].
  by repeat (rewrite <-!(assoc_L (++)); cbn [app]).
Qed.

(** ** Encodings can be read off the front *)

Lemma uint64BE_split i j r r' :
  (i < 2 ^ 64)%N → (j < 2 ^ 64)%N →
  uint64ToBytesBE i ++ r = uint64ToBytesBE j ++ r' → i = j ∧ r = r'.
Proof.
  intros Hi Hj E. apply app_split in E as [E ->]; [|by rewrite !length_uint64BE].
  by apply uint64BE_inj in E.
Qed.
Lemma frameBE_inj b b' r r' :
  sized b → sized b' → frameBE b ++ r = frameBE b' ++ r' → b = b' ∧ r = r'.
Proof.
  intros Hb Hb'. unfold frameBE, lenBE. rewrite <-!(assoc_L (++)). intros E.
  apply uint64BE_split in E as [E1 E]; [|done..]. apply app_split in E as [-> ->]; [done|lia].
Qed.
Lemma framesBE_inj data data' r r' :
  length data = length data' → Forall sized data → Forall sized data' →
  (data ≫= frameBE) ++ r = (data' ≫= frameBE) ++ r' → data = data' ∧ r = r'.
Proof.
  revert data'. induction data as [|b data IH]; intros [|b' data'] Hl Hs Hs' E; try done.
  apply Forall_cons in Hs as [H1 H2], Hs' as [H1' H2']. cbn [mbind list_bind] in E.
  rewrite <-!(assoc_L (++)) in E. apply frameBE_inj in E as [-> E]; [|done..].
  apply IH in E as [-> ->]; [done|by injection Hl|done..].
Qed.
Lemma header_inj l n l' n' r r' :
  wf_call (Squeeze l n) → wf_call (Squeeze l' n') →
  header l n ++ r = header l' n' ++ r' → l = l' ∧ n = n' ∧ r = r'.
Proof.
  intros (Hl & _ & Hn) (Hl' & _ & Hn') E. apply (f_equal tail) in E.
  unfold header in E. cbn [app tail] in E. rewrite <-!(assoc_L (++)) in E.
  apply frameBE_inj in E as [E1 E]; [|done..]. apply uint64BE_split in E as [E2 ->]; [|done..].
  apply string_bytes_inj in E1 as ->. split_and!; [done|lia|done].
Qed.

Lemma encode_inj c c' r r' :
  wf_call c → wf_call c' → encode c ++ r = encode c' ++ r' → c = c' ∧ r = r'.
Proof.
  destruct c as [tag|label ms|label n], c' as [tag'|label' ms'|label' n']; cbn [encode];
    intros Hw Hw' E; try (unfold header in E; cbn [app] in E; discriminate E).
  - apply (f_equal tail) in E. cbn [app tail] in E. apply frameBE_inj in E as [E ->]; [|done..].
    by apply string_bytes_inj in E as ->.
  - destruct Hw as (Hl & Hm & Hs), Hw' as (Hl' & Hm' & Hs').
    apply (f_equal tail) in E. cbn [app tail] in E. rewrite <-!(assoc_L (++)) in E. apply frameBE_inj in E as [E1 E]; [|done..].
    apply uint64BE_split in E as [E2 E]; [|done..].
    apply framesBE_inj in E as [-> ->]; [|lia|done..]. by apply string_bytes_inj in E1 as ->.
  - rewrite <-!(assoc_L (++)) in E. apply header_inj in E as (-> & -> & [= ->]); done.
Qed.

Lemma encode_nonempty c r : encode c ++ r ≠ [].
Proof. by destruct c. Qed.

(** The history, followed by the header of a squeeze. *)
Lemma query_inj cs cs' l n l' n' :
  Forall wf_call cs → Forall wf_call cs' → wf_call (Squeeze l n) → wf_call (Squeeze l' n') →
  (cs ≫= encode) ++ header l n ++ [extractedTag]
    = (cs' ≫= encode) ++ header l' n' ++ [extractedTag] →
  cs = cs' ∧ l = l' ∧ n = n'.
Proof.
  intros Hw. revert cs'. induction Hw as [|c cs Hc Hw IH]; intros cs' Hw' Hs Hs' E.
  - destruct cs' as [|c' cs']; [by apply header_inj in E as (-> & -> & _)|].
    apply Forall_cons in Hw' as [Hc' _]. cbn [mbind list_bind app] in E.
    destruct c' as [tag|label ms|label k]; cbn [encode] in E; try (unfold header in E; discriminate E).
    rewrite <-!(assoc_L (++)) in E. by apply header_inj in E as (_ & _ & [= ?]).
  - destruct cs' as [|c' cs']; cbn [mbind list_bind app] in E.
    + destruct c as [tag|label ms|label k]; cbn [encode] in E; try (unfold header in E; discriminate E).
      rewrite <-!(assoc_L (++)) in E. by apply header_inj in E as (_ & _ & [= ?]).
    + apply Forall_cons in Hw' as [Hc' Hw']. rewrite <-!(assoc_L (++)) in E.
      apply encode_inj in E as [-> E]; [|done..]. by apply IH in E as (-> & -> & ->).
Qed.

Lemma histories_inj cs cs' :
  Forall wf_call cs → Forall wf_call cs' → cs ≫= encode = cs' ≫= encode → cs = cs'.
Proof.
  apply (flat_inj wf_call encode).
  - intros. by apply encode_inj.
  - intros c E. apply (encode_nonempty c []). by rewrite app_nil_r.
Qed.

Lemma custom_inj name name' :
  customizedShakeName +:+ name = customizedShakeName +:+ name' → name = name'.
Proof. intros E. by injection E. Qed.

Lemma history_query_inj name name' cs cs' l l' n n' :
  Forall wf_call cs → Forall wf_call cs' → wf_call (Squeeze l n) → wf_call (Squeeze l' n') →
  let t := history name cs in let t' := history name' cs' in
  (custom t, query t l n) = (custom t', query t' l' n') →
  name = name' ∧ cs = cs' ∧ l = l' ∧ n = n'.
Proof.
  intros Hw Hw' Hs Hs' t t' E. subst t t'. rewrite !history_eq in E by done.
  pose proof (f_equal fst E) as E1. pose proof (f_equal snd E) as E2.
  cbn [fst snd custom] in E1, E2. apply custom_inj in E1.
  by apply query_inj in E2 as (? & ? & ?).
Qed.

(** C25. A transcript binds its whole history.  Two sequences of calls with
    machine-word sizes lead to the same state only if they are the same calls
    on transcripts of the same name; extraction squeezes the oracle on an
    input that determines the name, the history, the label and the length,
    and continues from the state that records the extraction; and an
    extraction of no bytes is an error. *)
Theorem Hagrid_binding name name' cs cs' l l' n n' :
  Forall wf_call cs → Forall wf_call cs' → wf_call (Squeeze l n) → wf_call (Squeeze l' n') →
  let t := history name cs in let t' := history name' cs' in
  (t = t' → name = name' ∧ cs = cs') ∧
  ExtractBytes shake l n t
    = Ok (shake (custom t) (query t l n) n, history name (cs ++ [Squeeze l n])) ∧
  ((custom t, query t l n) = (custom t', query t' l' n') →
     name = name' ∧ cs = cs' ∧ l = l' ∧ n = n') ∧
  ExtractBytes shake l 0 t = Err ErrLength.
Proof.
  intros Hw Hw' Hs Hs' t t'. split_and!.
  - subst t t'. rewrite !history_eq by done. intros E.
    pose proof (f_equal custom E) as E1. pose proof (f_equal absorbed E) as E2.
    cbn [custom absorbed] in E1, E2. split; [by apply custom_inj|by apply histories_inj].
  - rewrite ExtractBytes_query by apply Hs. unfold t, history. by rewrite foldl_app.
  - by apply history_query_inj.
  - done.
Qed.
End histories.

Definition ex_calls : list call :=
  [Separate "session"; Absorb "statement" [[1%N]; [2%N; 3%N]]; Squeeze "challenge" 16].

Definition ex_shake (c : string) (m : list N) (n : nat) : list N :=
  replicate n (N.of_nat (length m) mod 256)%N.

Lemma Hagrid_binding_witness :
  history ex_shake "a" ex_calls ≠ history ex_shake "a" (ex_calls ++ [Absorb "statement" [[1%N; 2%N; 3%N]]]).
Proof.
  destruct (Hagrid_binding ex_shake "a" "a" ex_calls
    (ex_calls ++ [Absorb "statement" [[1%N; 2%N; 3%N]]]) "e" "e" 16 16) as (H & _).
  - repeat (constructor; [repeat constructor; done|]). constructor.
  - repeat (constructor; [repeat constructor; done|]). constructor.
  - repeat constructor; done.
  - repeat constructor; done.
  - intros E. apply H in E as [_ E]. discriminate E.
Defined.
