(* ===== verification/FiatShamir.v ===== *)
(** * Non-interactive proofs: the Fiat-Shamir compiler (sigma/compiler/fiatshamir)

    A non-interactive prover or verifier runs in one call that reads and
    writes the transcript of its session; [tapeM] is the monad of such calls,
    which keep their changes to the transcript also when they fail.  The CBOR
    encoding of a proof is a parameter with a round trip. *)

From Stdlib Require Import ZArith NArith Lia Zmod.
From stdpp Require Import strings.
From S2P Require Import Prelude Algebra AlgebraUtils IOUtils Sigma Maurer Hagrid.

(** ** Calls on a transcript *)

Abbreviation tapeM := stateM.
Definition append {T} `{Transcript T} (label : string) (messages : list (list N)) : tapeM T unit :=
  λ t, (AppendBytes label messages t, Ok tt).
Definition separate {T} `{Transcript T} (tag : string) : tapeM T unit :=
  λ t, (AppendDomainSeparator tag t, Ok tt).
Definition extract {T} `{Transcript T} (label : string) (n : nat) : tapeM T (list N) :=
  λ t, match ExtractBytes label n t with
       | Ok (b, t) => (t, Ok b)
       | Err e => (t, Err e)
       | Panic => (t, Panic)
       end.

Lemma extract_ok {T} `{Transcript T} l n t t' b :
  extract l n t = (t', Ok b) ↔ ExtractBytes l n t = Ok (b, t').
Proof.
  unfold extract. destruct (ExtractBytes l n t) as [[c t1]|e|]; split; naive_solver.
Qed.

(** What a transcript promises of its extractions. *)
Class TranscriptLaws (T : Type) `{Transcript T} : Prop :=
  extract_challenge l n t e t' : ExtractBytes l n t = Ok (e, t') → Sigma.is_challenge n e.

(** [base.ComputationalSecurityBits]. *)
Definition ComputationalSecurityBits : N := 128.

Module FiatShamir.
Import Sigma.

Definition Name : string := "FiatShamir".
Definition transcriptLabel : string := "BRON_CRYPTO_NIZKP_FIATSHAMIR-".
Definition statementLabel : string := "statementLabel-".
Definition commitmentLabel : string := "commitmentLabel-".
Definition challengeLabel : string := "challengeLabel-".

Section fiatshamir.
Context {X W A S Z P T : Type} `{Reader P, Transcript T}.
Context (bytesX : X → list N) (bytesA : A → list N).
(** The codec of [proofDTO], and [utils.IsNil]. *)
Context (codec : Codec (A * Z)) (nilA : A → bool) (nilZ : Z → bool).

Record Proof := mkProof { pA : A; pZ : Z }.

Definition Marshal (p : Proof) : result (list N) := MarshalCBOR codec (pA p, pZ p).
Definition Unmarshal (data : list N) : result Proof :=
  '(a, z) ← UnmarshalCBOR codec data;
  if nilA a then Err ErrNil else if nilZ z then Err ErrNil else Ok (mkProof a z).

Record fs := mkFs { sigmaProtocol : Protocol X W A S Z P }.
Record prover := mkProver { p_ctx : Context T; p_proto : Protocol X W A S Z P }.
Record verifier := mkVerifier { v_ctx : Context T; v_proto : Protocol X W A S Z P }.

Definition NewCompiler (proto : option (Protocol X W A S Z P)) : result fs :=
  match proto with
  | None => Err ErrNil
  | Some proto =>
      if (SoundnessError proto <? ComputationalSecurityBits)%N then Err ErrInvalid
      else Ok (mkFs proto)
  end.

Definition begin (c : fs) (ctx : Context T) : Context T :=
  let dst := (EncodeToString (SessionID ctx) +:+ "-" +:+ transcriptLabel +:+ "-"
              +:+ Sigma.Name (sigmaProtocol c))%string in
  on_tape (AppendDomainSeparator dst) ctx.
Definition NewProver (c : fs) (ctx : option (Context T)) : result prover :=
  match ctx with
  | None => Err ErrNil
  | Some ctx => Ok (mkProver (begin c ctx) (sigmaProtocol c))
  end.
Definition NewVerifier (c : fs) (ctx : option (Context T)) : result verifier :=
  match ctx with
  | None => Err ErrNil
  | Some ctx => Ok (mkVerifier (begin c ctx) (sigmaProtocol c))
  end.

(** [Prove] and [Verify]: calls on the transcript of the session. *)
Definition Prove (proto : Protocol X W A S Z P) (statement : X) (witness : W) (prng : P) :
    tapeM T (list N * P) :=
  _ ← append statementLabel [bytesX statement];
  '(a, s, prng) ← lift (ComputeProverCommitment proto statement witness prng);
  _ ← append commitmentLabel [bytesA a];
  e ← extract challengeLabel (GetChallengeBytesLength proto);
  z ← lift (ComputeProverResponse proto statement witness a s (Some e));
  proofBytes ← lift (Marshal (mkProof a z));
  mret (proofBytes, prng).

Definition Verify (proto : Protocol X W A S Z P) (statement : X) (proofBytes : list N) : tapeM T unit :=
  if length proofBytes =? 0 then fail ErrNil
  else
    fsProof ← lift (Unmarshal proofBytes);
    _ ← append statementLabel [bytesX statement];
    let a := pA fsProof in
    _ ← append commitmentLabel [bytesA a];
    e ← extract challengeLabel (GetChallengeBytesLength proto);
    lift (Sigma.Verify proto statement a (Some e) (pZ fsProof)).

(** The state whose extraction is the challenge. *)
Definition challenge_state (statement : X) (a : A) (t : T) : T :=
  AppendBytes commitmentLabel [bytesA a] (AppendBytes statementLabel [bytesX statement] t).

Lemma Verify_ok proto x b t t' :
  Verify proto x b t = (t', Ok tt) ↔
  b ≠ [] ∧ ∃ a z e, Unmarshal b = Ok (mkProof a z) ∧
    ExtractBytes challengeLabel (GetChallengeBytesLength proto) (challenge_state x a t) = Ok (e, t') ∧
    Sigma.Verify proto x a (Some e) z = Ok tt.
Proof.
  unfold Verify. destruct b as [|y b].
  { split; [done|]. by intros [? _]. }
  cbn [length Nat.eqb]. rewrite state_bind_ok. split.
  - intros ([a z] & t1 & (Hu & ->)%lift_ok & E). split; [done|]. exists a, z.
    apply state_bind_ok in E as (? & ? & [= <- <-] & E). apply state_bind_ok in E as (? & ? & [= <- <-] & E).
    apply state_bind_ok in E as (e & t2 & Ex%extract_ok & (Hv & ->)%lift_ok). eauto.
  - intros (_ & a & z & e & Hu & Ex & Hv). exists (mkProof a z), t. rewrite lift_ok.
    split; [done|]. apply state_bind_ok. eexists _, _. split; [done|].
    apply state_bind_ok. eexists _, _. split; [done|]. apply state_bind_ok. exists e, t'.
    by rewrite extract_ok, lift_ok.
Qed.
End fiatshamir.
End FiatShamir.

(** ** Properties *)

Section properties.
Import Sigma FiatShamir.
Context {X W A S Z P T : Type} `{Reader P, Transcript T, !TranscriptLaws T}.
Context (bytesX : X → list N) (bytesA : A → list N).
Context (codec : Codec (A * Z)) (nilA : A → bool) (nilZ : Z → bool) `{!RoundTrip codec}.
Context (proto : Protocol X W A S Z P).

(** Completeness of Fiat-Shamir proofs: with a valid witness the prover
    computes the response whenever it could sample its commitment and extract
    a challenge, and its proof, once encoded, is accepted by a verifier that
    starts from the same transcript and ends with the same transcript. *)
Theorem FiatShamir_complete good `{!Complete proto good} x w a s g g' e t t' :
  good x → ValidateStatement proto x w = Ok tt →
  (∀ x a e z, Sigma.Verify proto x a e z = Ok tt → nilA a = false ∧ nilZ z = false) →
  ComputeProverCommitment proto x w g = Ok (a, s, g') →
  ExtractBytes challengeLabel (GetChallengeBytesLength proto) (challenge_state bytesX bytesA x a t)
    = Ok (e, t') →
  ∃ z, Sigma.Verify proto x a (Some e) z = Ok tt ∧
       Prove bytesX bytesA codec proto x w g t
         = (t', b ← MarshalCBOR codec (a, z); Ok (b, g')) ∧
       ∀ b, MarshalCBOR codec (a, z) = Ok b →
         Verify bytesX bytesA codec nilA nilZ proto x b t = (t', Ok tt).
Proof.
  intros Hg Hw Hnil Hc He. pose proof (extract_challenge _ _ _ _ _ He) as Hch.
  destruct (complete x w a s g g' e Hg Hw Hc Hch) as (z & Hz & Hv). exists z. split_and!; [done|..].
  - unfold Prove, mbind at 1, state_bind at 1, append at 1. rewrite Hc.
    unfold mbind at 1, state_bind at 1, lift at 1. unfold mbind at 1, state_bind at 1, append at 1.
    unfold mbind at 1, state_bind at 1, extract at 1.
    change (AppendBytes commitmentLabel [bytesA a] _) with (challenge_state bytesX bytesA x a t).
    rewrite He, Hz. unfold mbind, state_bind, lift, result_bind, Marshal. cbn [pA pZ].
    by destruct (MarshalCBOR codec (a, z)).
  - intros b Hb. destruct (round_trip _ _ Hb) as [Hu Hne]. apply Verify_ok. split; [done|].
    exists a, z, e. split_and!; [|done..]. unfold Unmarshal. rewrite Hu. cbn.
    by destruct (Hnil _ _ _ _ Hv) as [-> ->].
Qed.
End properties.

Section hagrid.
Import Sigma FiatShamir.
Context {X W A S Z P : Type} `{Reader P}.
Context (bytesX : X → list N) (bytesA : A → list N).
Context (codec : Codec (A * Z)) (nilA : A → bool) (nilZ : Z → bool).
Context (proto : Protocol X W A S Z P) (shake : string → list N → nat → list N).
#[local] Instance hagrid_tape : Transcript Hagrid.transcript := Hagrid.hagrid shake.

(** The input the challenge of a commitment is squeezed on, and the challenge. *)
Definition challenge_query (t : Hagrid.transcript) (x : X) (a : A) : list N :=
  query (challenge_state bytesX bytesA x a t) challengeLabel (GetChallengeBytesLength proto).
Definition challenge (t : Hagrid.transcript) (x : X) (a : A) : list N :=
  shake (Hagrid.custom t) (challenge_query t x a) (GetChallengeBytesLength proto).

Lemma Verify_hagrid x b t :
  GetChallengeBytesLength proto ≠ 0 →
  (Verify bytesX bytesA codec nilA nilZ proto x b t).2 = Ok tt ↔
  b ≠ [] ∧ ∃ a z, Unmarshal codec nilA nilZ b = Ok (mkProof a z) ∧
    Sigma.Verify proto x a (Some (challenge t x a)) z = Ok tt.
Proof.
  intros Hn. transitivity (∃ t', Verify bytesX bytesA codec nilA nilZ proto x b t = (t', Ok tt)).
  { split; [|by intros [t' ->]]. destruct (Verify _ _ _ _ _ _ _ _ _) as [t' r]. cbn. intros ->. eauto. }
  setoid_rewrite Verify_ok.
  assert (∀ a, ExtractBytes challengeLabel (GetChallengeBytesLength proto)
    (challenge_state bytesX bytesA x a t) = Ok (challenge t x a,
      apply_call shake (challenge_state bytesX bytesA x a t)
        (Squeeze challengeLabel (GetChallengeBytesLength proto)))) as HE.
  { intros a. exact (ExtractBytes_query shake _ challengeLabel _ Hn). }
  split.
  - intros (t' & Hne & a & z & e & Hu & He & Hv). rewrite HE in He. injection He as <- <-.
    split; [done|]. by exists a, z.
  - intros (Hne & a & z & Hu & Hv). eexists. split; [done|]. exists a, z, (challenge t x a). by rewrite HE.
Qed.

(** C26. Soundness of Fiat-Shamir proofs on Hagrid transcripts.  The verifier
    accepts exactly the encodings of accepted conversations whose challenge is
    squeezed on an input that determines the session's history, the statement
    and the commitment as encoded; and two accepted proofs of one statement
    with one commitment and different challenges give its witness. *)
Theorem FiatShamir_sound wf ext x x' b b' cs cs' name name' :
  Extractable proto wf ext → (∀ z, wf z) →
  (∀ c m n, is_challenge n (shake c m n)) → GetChallengeBytesLength proto ≠ 0 →
  (N.of_nat (GetChallengeBytesLength proto) < 2 ^ 64)%N →
  (∀ x, sized (bytesX x)) → (∀ a, sized (bytesA a)) →
  Forall wf_call cs → Forall wf_call cs' →
  let t := history shake name cs in let t' := history shake name' cs' in
  let V t x b := (Verify bytesX bytesA codec nilA nilZ proto x b t).2 in
  (V t x b = Ok tt ↔
     b ≠ [] ∧ ∃ a z, Unmarshal codec nilA nilZ b = Ok (mkProof a z) ∧
       Sigma.Verify proto x a (Some (challenge t x a)) z = Ok tt) ∧
  (∀ a a', (Hagrid.custom t, challenge_query t x a) = (Hagrid.custom t', challenge_query t' x' a') →
     name = name' ∧ cs = cs' ∧ bytesX x = bytesX x' ∧ bytesA a = bytesA a') ∧
  (∀ a z z', V t x b = Ok tt → V t' x b' = Ok tt →
     Unmarshal codec nilA nilZ b = Ok (mkProof a z) →
     Unmarshal codec nilA nilZ b' = Ok (mkProof a z') → challenge t x a ≠ challenge t' x a →
     ∃ w, ext x a (challenge t x a) z (challenge t' x a) z' = Ok w ∧
          ValidateStatement proto x w = Ok tt).
Proof.
  intros Ex Hwf Hsh Hn Hn64 HX HA Hw Hw' t t' V. split_and!; [by apply Verify_hagrid| |].
  - intros a a' E.
    destruct (history_query_inj shake name name' (cs ++ [Absorb statementLabel [bytesX x];
        Absorb commitmentLabel [bytesA a]]) (cs' ++ [Absorb statementLabel [bytesX x'];
        Absorb commitmentLabel [bytesA a']]) challengeLabel challengeLabel
        (GetChallengeBytesLength proto) (GetChallengeBytesLength proto)) as (-> & Ecs & _).
    1-2: apply Forall_app; split; [done|]; repeat constructor; done || apply HX || apply HA.
    1-2: by repeat constructor.
    1: { unfold history. rewrite !foldl_app. exact E. }
    apply app_inj_2 in Ecs as [-> Ecs]; [|done]. by injection Ecs as -> ->.
  - intros a z z' Hv Hv' Hu Hu' Hne. unfold V in Hv, Hv'. rewrite Verify_hagrid in Hv, Hv' by done.
    destruct Hv as (_ & a1 & z1 & E & Hv), Hv' as (_ & a2 & z2 & E' & Hv').
    rewrite Hu in E. rewrite Hu' in E'. injection E as <- <-. injection E' as <- <-.
    apply Ex; auto; apply Hsh.
Qed.
End hagrid.

(** ** The identity homomorphism over the field of 257 elements *)

Definition ex_num (x : fp257) : N := Z.to_N (Zmod.unsigned x).
Definition ex_of_num (n : N) : fp257 := Zmod.of_Z 257 (Z.of_N n).
Lemma ex_of_num_num x : ex_of_num (ex_num x) = x.
Proof.
  unfold ex_of_num, ex_num. rewrite Z2N.id by (apply Zmod.unsigned_pos_bound; lia).
  apply Zmod.of_Z_to_Z.
Qed.
Definition ex_bytesX (x : option (Maurer.Statement fp257)) : list N :=
  match x with Some x => [ex_num (Maurer.sX x)] | None => [] end.
Definition ex_bytesA (a : option (Maurer.Commitment fp257)) : list N :=
  match a with Some a => [ex_num (Maurer.cA a)] | None => [] end.
Definition ex_codec : Codec (option (Maurer.Commitment fp257) * option (Maurer.Response fp257)) :=
  mkCodec (λ d, match d with
           | (Some a, Some z) => Ok [ex_num (Maurer.cA a); ex_num (Maurer.rZ z)]
           | _ => Err ErrFailed
           end)
    (λ b, match b with
          | [a; z] => Ok (Some (Maurer.mkCommitment (ex_of_num a)), Some (Maurer.mkResponse (ex_of_num z)))
          | _ => Err ErrFailed
          end).
#[export] Instance ex_round_trip : RoundTrip ex_codec.
Proof.
  intros [[[a]|] [[z]|]] b; [|done..]. cbn. intros [= <-]. by rewrite !ex_of_num_num.
Qed.
Definition ex_nil {U} (o : option U) : bool := match o with None => true | Some _ => false end.

Definition ex_sigma := Maurer.protocol ex_maurer.
Definition ex_statement := Some (Maurer.mkStatement (ex_of_num 42)).
Definition ex_tape := history ex_shake "test" ex_calls.
#[local] Instance ex_transcript : Transcript Hagrid.transcript := Hagrid.hagrid ex_shake.
Lemma ex_shake_challenge c m n : Sigma.is_challenge n (ex_shake c m n).
Proof.
  unfold ex_shake. split; [apply length_replicate|]. apply Forall_replicate, N.mod_lt. done.
Qed.
#[local] Instance ex_transcript_laws : TranscriptLaws Hagrid.transcript.
Proof.
  intros l n t e t'. cbn. unfold Hagrid.ExtractBytes. destruct (Nat.eqb_spec n 0); [done|].
  intros [= <- _]. apply ex_shake_challenge.
Qed.

Lemma FiatShamir_complete_witness :
  ∃ b t', FiatShamir.Prove ex_bytesX ex_bytesA ex_codec ex_sigma ex_statement
            (Some (Maurer.mkWitness (ex_of_num 42))) [7%N] ex_tape = (t', Ok (b, [])) ∧
          FiatShamir.Verify ex_bytesX ex_bytesA ex_codec ex_nil ex_nil ex_sigma ex_statement b ex_tape
            = (t', Ok tt).
Proof.
  edestruct (FiatShamir_complete ex_bytesX ex_bytesA ex_codec ex_nil ex_nil ex_sigma is_Some
    (Complete0 := maurer_complete ex_maurer (λ s, s)) ex_statement
    (Some (Maurer.mkWitness (ex_of_num 42))) (Some (Maurer.mkCommitment (ex_of_num 7)))
    (Some (Maurer.mkState (ex_of_num 7))) [7%N] []) as (z & Hz & Hp & Hv).
  - done.
  - reflexivity.
  - intros [x|] [a|] e [z|]; try done; by destruct e.
  - reflexivity.
  - reflexivity.
  - destruct z as [[z]|]; [|discriminate Hz].
    eexists _, _. split; [exact Hp|]. apply Hv. reflexivity.
Defined.

Lemma FiatShamir_sound_witness :
  challenge_query ex_bytesX ex_bytesA ex_sigma ex_shake ex_tape ex_statement
      (Some (Maurer.mkCommitment (ex_of_num 7)))
  ≠ challenge_query ex_bytesX ex_bytesA ex_sigma ex_shake ex_tape ex_statement
      (Some (Maurer.mkCommitment (ex_of_num 8))).
Proof.
  intros E. destruct (FiatShamir_sound ex_bytesX ex_bytesA ex_codec ex_nil ex_nil ex_sigma ex_shake
    (λ _, True) (maurer_extract ex_maurer) ex_statement ex_statement [] [] ex_calls ex_calls
    "test" "test") as (_ & H & _).
  - apply ex_maurer_extractable.
  - done.
  - apply ex_shake_challenge.
  - done.
  - done.
  - by intros [x|].
  - by intros [a|].
  - repeat (constructor; [repeat constructor; done|]). constructor.
  - repeat (constructor; [repeat constructor; done|]). constructor.
  - destruct (H (Some (Maurer.mkCommitment (ex_of_num 7))) (Some (Maurer.mkCommitment (ex_of_num 8))))
      as (_ & _ & _ & F).
    + unfold ex_tape in E. by rewrite E.
    + discriminate F.
Defined.
