(* ===== verification/RandFischlin.v ===== *)
(** * Non-interactive proofs: the randomised Fischlin compiler (sigma/compiler/randfischlin)

    The prover runs [R] repetitions of the protocol and searches in each of
    them for a challenge whose conversation hashes to zero.  The two unbounded
    loops, the search and the sampling of a challenge not tried before, carry
    fuel; [Ok None] is a search that ran out of it.  The random oracle
    ([sha3.New256]) is the parameter [sum]; the randomness of the compiler and
    of the protocol is one stream [P]. *)

From Stdlib Require Import ZArith NArith Lia Zmod.
From stdpp Require Import strings.
From S2P Require Import Prelude Algebra AlgebraUtils IOUtils Sigma Maurer Hagrid FiatShamir.

Module RandFischlin.
Import Sigma.

Definition Name : string := "RandomisedFischlin".
Definition transcriptLabel : string := "BRON_CRYPTO_NIZK_RANDOMISED_FISCHLIN-".
Definition crsLabel : string := "crsLabel-".
Definition statementLabel : string := "statementLabel-".
Definition commitmentLabel : string := "commitmentLabel-".
Definition challengeLabel : string := "challengeLabel-".

Definition Lambda : nat := 128.
Definition LambdaLog2 : nat := 7.
Definition L : nat := 8.
Definition R : nat := Lambda / L.
Definition T : nat := LambdaLog2 * L.
Definition LBytes : nat := L / 8.
Definition TBytes : nat := T / 8.

Definition isAllZeros (data : list N) : bool := (foldl N.lor 0%N data =? 0)%N.

(** [result[:LBytes]] of the digest. *)
Definition hash (sum : list N → list N) (data : list (list N)) : result (list N) :=
  result ← HashIndexLengthPrefixed sum data;
  digest ← slice_to (Some result) LBytes;
  Ok (default [] digest).

(** [sample]: seven random bytes, the rest of the challenge stays zero. *)
Fixpoint sample {P} `{Reader P} (fuel : nat) (existing : list (list N)) (len : nat) (prng : P) :
    result (option (list N * P)) :=
  match fuel with
  | 0 => Ok None
  | S fuel =>
      if len <? TBytes then Panic
      else
        '(b, prng) ← read_full TBytes prng;
        let ei := b ++ replicate (len - TBytes) 0%N in
        if existsb (λ e, bool_decide (e = ei)) existing then sample fuel existing len prng
        else Ok (Some (ei, prng))
  end.

Section rand_fischlin.
Context {X W A St Z P Tp : Type} `{Reader P, Transcript Tp}.
Context (bytesX : X → list N) (bytesA : A → list N) (bytesZ : Z → list N).
Context (codec : Codec (list A * list (list N) * list Z)) (sum : list N → list N).

Record Proof := mkProof { pA : list A; pE : list (list N); pZ : list Z }.

Record rf := mkRf { sigmaProtocol : Protocol X W A St Z P }.
Record prover := mkProver { p_ctx : Context Tp; p_proto : Protocol X W A St Z P; p_prng : P }.
Record verifier := mkVerifier { v_ctx : Context Tp; v_proto : Protocol X W A St Z P }.

Definition NewCompiler (proto : option (Protocol X W A St Z P)) (prng : option P) : result (rf * P) :=
  match proto, prng with
  | Some proto, Some prng =>
      if (SoundnessError proto <? ComputationalSecurityBits)%N then Err ErrInvalid
      else Ok (mkRf proto, prng)
  | _, _ => Err ErrNil
  end.

Definition begin (c : rf) (ctx : Context Tp) : Context Tp :=
  let dst := (transcriptLabel +:+ "-" +:+ Sigma.Name (sigmaProtocol c) +:+ "-"
              +:+ EncodeToString (SessionID ctx))%string in
  on_tape (AppendDomainSeparator dst) ctx.
Definition NewProver (c : rf) (prng : P) (ctx : option (Context Tp)) : result prover :=
  match ctx with
  | None => Err ErrNil
  | Some ctx => Ok (mkProver (begin c ctx) (sigmaProtocol c) prng)
  end.
Definition NewVerifier (c : rf) (ctx : option (Context Tp)) : result verifier :=
  match ctx with
  | None => Err ErrNil
  | Some ctx => Ok (mkVerifier (begin c ctx) (sigmaProtocol c))
  end.

(** The digest of repetition [i]. *)
Definition digest (crs a : list N) (i : nat) (e : list N) (z : Z) : result (list N) :=
  hash sum [crs; a; uint64ToBytesLE (N.of_nat i); e; bytesZ z].

(** Step 3: the loop of one repetition, with the challenges tried so far. *)
Fixpoint search (fuel sampleFuel : nat) (proto : Protocol X W A St Z P) (statement : X) (witness : W)
    (crs a : list N) (i : nat) (aI : A) (stateI : St) (eSet : list (list N)) (prng : P) :
    result (option (list N * Z * P)) :=
  match fuel with
  | 0 => Ok None
  | S fuel =>
      r ← sample sampleFuel eSet (GetChallengeBytesLength proto) prng;
      match r with
      | None => Ok None
      | Some (e, prng) =>
          z ← ComputeProverResponse proto statement witness aI stateI (Some e);
          d ← digest crs a i e z;
          if isAllZeros d then Ok (Some (e, z, prng))
          else search fuel sampleFuel proto statement witness crs a i aI stateI (eSet ++ [e]) prng
      end
  end.

(** The repetitions from [i] on. *)
Fixpoint search_all (fuel : nat) (proto : Protocol X W A St Z P) (statement : X) (witness : W)
    (crs a : list N) (i : nat) (l : list (A * St)) (prng : P) :
    result (option (list (list N) * list Z * P)) :=
  match l with
  | [] => Ok (Some ([], [], prng))
  | (aI, stateI) :: l =>
      r ← search fuel fuel proto statement witness crs a i aI stateI [] prng;
      match r with
      | None => Ok None
      | Some (e, z, prng) =>
          r ← search_all fuel proto statement witness crs a (i + 1) l prng;
          match r with
          | None => Ok None
          | Some (eI, zI, prng) => Ok (Some (e :: eI, z :: zI, prng))
          end
      end
  end.

(** Step 1: the commitments. *)
Definition commit_all (proto : Protocol X W A St Z P) (statement : X) (witness : W) (prng : P) :
    result (list (A * St) * P) :=
  foldM (λ '(l, prng) _,
      '(a, s, prng) ← ComputeProverCommitment proto statement witness prng;
      Ok (l ++ [(a, s)], prng)) ([], prng) (seq 0 R).

Definition separator (sessionID : list N) : string :=
  (transcriptLabel +:+ "-" +:+ EncodeToString sessionID)%string.

Definition Prove (fuel : nat) (sessionID : list N) (proto : Protocol X W A St Z P) (statement : X)
    (witness : W) (prng : P) : tapeM Tp (option (list N * P)) :=
  _ ← separate (separator sessionID);
  crs ← extract crsLabel 32;
  _ ← append statementLabel [bytesX statement];
  '(l, prng) ← lift (commit_all proto statement witness prng);
  let a := concat (bytesA <$> l.*1) in
  r ← lift (search_all fuel proto statement witness crs a 0 l prng);
  match r with
  | None => mret None
  | Some (eI, zI, prng) =>
      _ ← append commitmentLabel [a];
      _ ← append challengeLabel eI;
      proofBytes ← lift (MarshalCBOR codec (l.*1, eI, zI));
      mret (Some (proofBytes, prng))
  end.

(** Step 2 of the verifier, for the repetitions from [i] on. *)
Fixpoint verify_all (proto : Protocol X W A St Z P) (statement : X) (crs a : list N) (i : nat)
    (l : list (A * list N * Z)) : result unit :=
  match l with
  | [] => Ok tt
  | (aI, e, z) :: l =>
      d ← digest crs a i e z;
      if negb (isAllZeros d) then Err ErrVerification
      else
        _ ← Sigma.Verify proto statement aI (Some e) z;
        verify_all proto statement crs a (i + 1) l
  end.

Definition Verify (sessionID : list N) (proto : Protocol X W A St Z P) (statement : X)
    (proofBytes : option (list N)) : tapeM Tp unit :=
  match proofBytes with
  | None => fail ErrNil
  | Some proofBytes =>
      '(As, Es, Zs) ← lift (UnmarshalCBOR codec proofBytes);
      if negb (length As =? R) || negb (length Es =? R) || negb (length Zs =? R) then fail ErrInvalid
      else
        _ ← separate (separator sessionID);
        crs ← extract crsLabel 32;
        _ ← append statementLabel [bytesX statement];
        let a := concat (bytesA <$> As) in
        _ ← append commitmentLabel [a];
        _ ← append challengeLabel Es;
        lift (verify_all proto statement crs a 0 (zip (zip As Es) Zs))
  end.
End rand_fischlin.
End RandFischlin.

(** ** The loops

    The commitment loop of this compiler and of the Fischlin compiler. *)
Lemma foldM_commit {X W A St Z P} (proto : Sigma.Protocol X W A St Z P) x w (idx : list nat) p l p' :
  foldM (λ '(l, prng) (_ : nat),
      '(a, s, prng) ← Sigma.ComputeProverCommitment proto x w prng; Ok (l ++ [(a, s)], prng))
    ([], p) idx = Ok (l, p') →
  length l = length idx ∧
  ∀ aI s, (aI, s) ∈ l → ∃ g g', Sigma.ComputeProverCommitment proto x w g = Ok (aI, s, g').
Proof.
  assert (∀ idx l0 q,
    foldM (λ '(l, prng) (_ : nat),
      '(a, s, prng) ← Sigma.ComputeProverCommitment proto x w prng; Ok (l ++ [(a, s)], prng))
      (l0, q) idx = Ok (l, p') →
    length l = length l0 + length idx ∧
    ∀ aI s, (aI, s) ∈ l → (aI, s) ∈ l0 ∨
      ∃ g g', Sigma.ComputeProverCommitment proto x w g = Ok (aI, s, g')) as Hf.
  { clear. induction idx as [|j idx IH]; intros l0 q; cbn [foldM].
    { intros [= -> ->]. split; [cbn; lia|]. by left. }
    destruct (Sigma.ComputeProverCommitment proto x w q) as [[[a1 s1] q1]| |] eqn:Ec; [|done..].
    cbn [mbind result_bind]. intros [Hl Hin]%IH. split.
    { rewrite Hl, length_app. cbn. lia. }
    intros aI s [Hi|Hi]%Hin; [|by right]. apply elem_of_app in Hi as [Hi|Hi%list_elem_of_singleton];
      [by left|]. injection Hi as -> ->. right. eauto. }
  intros [Hl Hin]%Hf. split; [done|].
  intros aI s [Hi|Hi]%Hin; [by apply not_elem_of_nil in Hi|done].
Qed.

Section theory.
Import Sigma RandFischlin.
Context {X W A St Z P : Type} `{Reader P}.
Context (bytesZ : Z → list N) (sum : list N → list N).
Implicit Types (proto : Protocol X W A St Z P) (crs a e : list N).

(** A conversation of repetition [i] that hashes to zero. *)
Definition hit crs a i e z : Prop :=
  ∃ d, digest bytesZ sum crs a i e z = Ok d ∧ isAllZeros d = true.

Lemma tried (l : list (list N)) e : existsb (λ e', bool_decide (e' = e)) l = bool_decide (e ∈ l).
Proof.
  apply eq_true_iff_eq. rewrite existsb_exists, bool_decide_eq_true. split.
  - intros (y & Hy & ->%bool_decide_eq_true). by apply list_elem_of_In.
  - intros He. exists e. split; [by apply list_elem_of_In|]. by rewrite bool_decide_true.
Qed.

Lemma sample_ok fuel existing len (p p' : P) e :
  sample fuel existing len p = Ok (Some (e, p')) → is_challenge len e.
Proof.
  revert p. induction fuel as [|fuel IH]; intros p; [done|]. cbn [sample].
  destruct (Nat.ltb_spec len TBytes) as [|Hl]; [done|].
  destruct (read_full TBytes p) as [[b q]| |] eqn:Er; [|done..]. cbn [mbind result_bind].
  destruct (existsb _ _); [apply IH|]. intros [= <- <-]. apply read_full_ok in Er as [Eb Hb].
  split; [rewrite length_app, length_replicate; lia|].
  apply Forall_app. split; [done|]. by apply Forall_replicate.
Qed.

Lemma search_ok fuel sfuel proto x w crs a i aI s eSet p e z p' :
  search bytesZ sum fuel sfuel proto x w crs a i aI s eSet p = Ok (Some (e, z, p')) →
  is_challenge (GetChallengeBytesLength proto) e ∧
  ComputeProverResponse proto x w aI s (Some e) = Ok z ∧ hit crs a i e z.
Proof.
  revert eSet p. induction fuel as [|fuel IH]; intros eSet p; [done|]. cbn [search].
  destruct (sample _ _ _ p) as [[[e1 q]|]| |] eqn:Es; [|done..]. cbn [mbind result_bind].
  destruct (ComputeProverResponse _ _ _ _ _ (Some e1)) as [z1| |] eqn:Ez; [|done..]. cbn [mbind result_bind].
  destruct (digest _ _ _ _ _ _ _) as [d| |] eqn:Ed; [|done..]. cbn [mbind result_bind].
  destruct (isAllZeros d) eqn:Hd; [|apply IH]. intros [= <- <- <-].
  split; [by eapply sample_ok|]. split; [done|]. by exists d.
Qed.

Lemma rf_search_all_ok fuel proto x w crs a i l p es zs p' :
  search_all bytesZ sum fuel proto x w crs a i l p = Ok (Some (es, zs, p')) →
  length es = length l ∧ length zs = length l ∧
  ∀ k aI s e z, l !! k = Some (aI, s) → es !! k = Some e → zs !! k = Some z →
    is_challenge (GetChallengeBytesLength proto) e ∧
    ComputeProverResponse proto x w aI s (Some e) = Ok z ∧ hit crs a (i + k) e z.
Proof.
  revert i p es zs. induction l as [|[aI s] l IH]; intros i p es zs; cbn [search_all].
  { intros [= <- <- <-]. done. }
  destruct (search _ _ _ _ _ _ _ _ _ _ _ _ _ _) as [[[[e q] z]|]| |] eqn:Es; [|done..].
  cbn [mbind result_bind]. destruct (search_all _ _ _ _ _ _ _ _ _ _ _) as [[[[es1 zs1] r]|]| |] eqn:Ea;
    [|done..].
  cbn [mbind result_bind]. intros [= <- <- <-].
  apply IH in Ea as (He & Hz & HE). split_and!; [cbn; congruence..|].
  intros [|k] aI' s' e' z'; cbn.
  - intros [= -> ->] [= <-] [= <-]. rewrite Nat.add_0_r. by eapply search_ok.
  - intros H1 H2 H3. rewrite Nat.add_succ_r. change (S (i + k)) with (S i + k).
    rewrite <-Nat.add_1_r. eapply HE; [exact H1|done..].
Qed.

Lemma rf_commit_all_ok proto x w p l p' :
  commit_all proto x w p = Ok (l, p') →
  length l = R ∧
  ∀ aI s, (aI, s) ∈ l → ∃ g g', ComputeProverCommitment proto x w g = Ok (aI, s, g').
Proof. intros Hc. unfold commit_all in Hc. by apply foldM_commit in Hc. Qed.

Lemma verify_all_ok proto x crs a i l :
  (∀ k aI e z, l !! k = Some (aI, e, z) →
     hit crs a (i + k) e z ∧ Sigma.Verify proto x aI (Some e) z = Ok tt) →
  verify_all bytesZ sum proto x crs a i l = Ok tt.
Proof.
  revert i. induction l as [|[[aI e] z] l IH]; intros i Hl; [done|]. cbn [verify_all].
  destruct (Hl 0 aI e z eq_refl) as [(d & Hd & Hz) Hv]. rewrite Nat.add_0_r in Hd.
  rewrite Hd. cbn [mbind result_bind]. rewrite Hz, Hv. cbn [negb mbind result_bind].
  apply IH. intros k aI' e' z' Hk. rewrite <-Nat.add_assoc. by apply (Hl (S k)).
Qed.

(** ** The search ends

    The [k]-th challenge that the stream [p] offers. *)
Fixpoint draw (len k : nat) (p : P) : option (list N * P) :=
  match read_full TBytes p with
  | Ok (b, p') =>
      match k with
      | 0 => Some (b ++ replicate (len - TBytes) 0%N, p')
      | S k => draw len k p'
      end
  | _ => None
  end.

(** Sampling skips the challenges tried before: it returns the first offer
    that is not among them, after at most as many steps as it has offers. *)
Lemma sample_draw fuel existing len k (p : P) e p' :
  TBytes ≤ len → draw len k p = Some (e, p') → e ∉ existing → k < fuel →
  ∃ j e1 p1, j ≤ k ∧ sample fuel existing len p = Ok (Some (e1, p1)) ∧
    draw len j p = Some (e1, p1) ∧ e1 ∉ existing ∧
    (j = k ∨ draw len (k - S j) p1 = Some (e, p')).
Proof.
  intros Hl. revert fuel p. induction k as [|k IH]; intros [|fuel] p Hd Hne Hf; [lia| |lia|];
    cbn [sample]; rewrite (proj2 (Nat.ltb_ge _ _) Hl); cbn [draw] in Hd |- *;
    destruct (read_full TBytes p) as [[b q]| |] eqn:Er; try done; cbn [mbind result_bind].
  - injection Hd as <- <-. rewrite tried, bool_decide_false by done.
    exists 0, (b ++ replicate (len - TBytes) 0%N), q. cbn [draw]. rewrite Er.
    split_and!; [done..|by left].
  - rewrite tried. case_bool_decide as Ex.
    + destruct (IH fuel q Hd Hne) as (j & e1 & p1 & Hj & Hs & Hdr & Hn & Hor); [lia|].
      exists (S j), e1, p1. cbn [draw]. rewrite Er. split_and!; [lia|done..|].
      destruct Hor as [->|Hor]; [by left|by right].
    + exists 0, (b ++ replicate (len - TBytes) 0%N), q. cbn [draw]. rewrite Er.
      split_and!; [lia|done..|]. right. by rewrite Nat.sub_succ, Nat.sub_0_r.
Qed.

Lemma draw_add len j k p e p' e1 p1 :
  draw len j p = Some (e1, p1) → draw len k p1 = Some (e, p') → draw len (S j + k) p = Some (e, p').
Proof.
  revert p. induction j as [|j IH]; intros p; cbn [draw plus];
    destruct (read_full TBytes p) as [[b q]| |]; try done.
  - by intros [= _ <-].
  - intros Hd Hk. by apply (IH q).
Qed.

(** Before the first hit every challenge tried is a miss. *)
Lemma search_draw proto x w crs a i aI s k p e z p' fuel sfuel eSet :
  let n := GetChallengeBytesLength proto in
  TBytes ≤ n → draw n k p = Some (e, p') →
  (∀ j e' q, j ≤ k → draw n j p = Some (e', q) →
     ∃ z' d, ComputeProverResponse proto x w aI s (Some e') = Ok z' ∧
       digest bytesZ sum crs a i e' z' = Ok d ∧ (isAllZeros d = true ↔ j = k)) →
  (∀ e', e' ∈ eSet → ∀ z', ComputeProverResponse proto x w aI s (Some e') = Ok z' → ¬ hit crs a i e' z') →
  ComputeProverResponse proto x w aI s (Some e) = Ok z →
  k < fuel → k < sfuel →
  search bytesZ sum fuel sfuel proto x w crs a i aI s eSet p = Ok (Some (e, z, p')).
Proof.
  intros n Hn. revert p fuel eSet. induction k as [k IH] using lt_wf_ind; intros p fuel eSet Hd Hm Hset Hz Hf Hsf.
  destruct fuel as [|fuel]; [lia|]. cbn [search].
  destruct (Hm k e p' (le_n k) Hd) as (z0 & d0 & Hz0 & Hd0 & Hk0).
  assert (e ∉ eSet) as Hne.
  { intros Hin. apply (Hset e Hin z0 Hz0). exists d0. split; [done|]. by apply Hk0. }
  destruct (sample_draw sfuel eSet n k p e p') as (j & e1 & p1 & Hj & Hs & Hdr & Hn1 & Hor); [done..|].
  change (GetChallengeBytesLength proto) with n. rewrite Hs. cbn [mbind result_bind].
  destruct (Hm j e1 p1 Hj Hdr) as (z1 & d1 & Hz1 & Hd1 & Hk1).
  rewrite Hz1. cbn [mbind result_bind]. rewrite Hd1. cbn [mbind result_bind].
  destruct (decide (j = k)) as [->|Hjk].
  - rewrite (proj2 Hk1) by done. rewrite Hd in Hdr. injection Hdr as -> ->. congruence.
  - destruct Hor as [->|Hor]; [done|].
    assert (isAllZeros d1 = false) as -> by (apply not_true_iff_false; by rewrite Hk1).
    apply (IH (k - S j)); [lia|done| | |done|lia|lia].
    + intros j' e' q Hj' Hq. pose proof (draw_add n j j' p e' q e1 p1 Hdr Hq) as Ha.
      destruct (Hm (S j + j') e' q ltac:(lia) Ha) as (z' & d' & H1 & H2 & H3). exists z', d'.
      split_and!; [done..|]. rewrite H3. lia.
    + intros e' Hin z' Hz' [d' [Hd' Hall]].
      apply elem_of_app in Hin as [Hin|Hin%list_elem_of_singleton].
      * apply (Hset e' Hin z' Hz'). by exists d'.
      * subst e'. rewrite Hz1 in Hz'. injection Hz' as <-. rewrite Hd1 in Hd'. injection Hd' as <-.
        by apply Hjk, Hk1.
Qed.
End theory.

(** ** Properties *)

Section properties.
Import Sigma RandFischlin.
Context {X W A St Z P Tp : Type} `{Reader P, Transcript Tp}.
Context (bytesX : X → list N) (bytesA : A → list N) (bytesZ : Z → list N).
Context (codec : Codec (list A * list (list N) * list Z)) (sum : list N → list N) `{!RoundTrip codec}.
Implicit Types (proto : Protocol X W A St Z P).

Lemma Verify_accepts sid proto x As Es Zs b t crs t1 :
  UnmarshalCBOR codec b = Ok (As, Es, Zs) → length As = R → length Es = R → length Zs = R →
  ExtractBytes crsLabel 32 (AppendDomainSeparator (separator sid) t) = Ok (crs, t1) →
  verify_all bytesZ sum proto x crs (concat (bytesA <$> As)) 0 (zip (zip As Es) Zs) = Ok tt →
  Verify bytesX bytesA bytesZ codec sum sid proto x (Some b) t =
    (AppendBytes challengeLabel Es (AppendBytes commitmentLabel [concat (bytesA <$> As)]
       (AppendBytes statementLabel [bytesX x] t1)), Ok tt).
Proof.
  intros Hu HA HE HZ Hcrs Hv. unfold Verify, mbind at 1, state_bind at 1, lift at 1. rewrite Hu.
  rewrite HA, HE, HZ. cbn [negb orb Nat.eqb R]. rewrite Nat.eqb_refl. cbn [negb orb].
  unfold mbind, state_bind, separate, extract, append, lift. by rewrite Hcrs, Hv.
Qed.

(** Completeness of randomised Fischlin proofs: what the prover returns
    with a valid witness, and whatever fuel, is accepted by a verifier that
    starts from the same transcript, and both end with the same transcript. *)
Theorem RandFischlin_complete proto good `{!Complete proto good} fuel sid x w g g' t t' b :
  good x → ValidateStatement proto x w = Ok tt →
  Prove bytesX bytesA bytesZ codec sum fuel sid proto x w g t = (t', Ok (Some (b, g'))) →
  Verify bytesX bytesA bytesZ codec sum sid proto x (Some b) t = (t', Ok tt).
Proof.
  intros Hg Hw Hp. unfold Prove in Hp.
  apply state_bind_ok in Hp as (? & t0 & [= <- <-] & Hp).
  apply state_bind_ok in Hp as (crs & t1 & Hcrs%extract_ok & Hp).
  apply state_bind_ok in Hp as (? & t2 & [= <- <-] & Hp).
  apply state_bind_ok in Hp as ([l g1] & t3 & (Hc & ->)%lift_ok & Hp).
  apply state_bind_ok in Hp as ([[[es zs] g2]|] & t4 & (Hs & ->)%lift_ok & Hp); [|done].
  apply state_bind_ok in Hp as (? & t5 & [= <- <-] & Hp).
  apply state_bind_ok in Hp as (? & t6 & [= <- <-] & Hp).
  apply state_bind_ok in Hp as (b' & t7 & (Hm & ->)%lift_ok & [= <- <- <-]).
  apply rf_commit_all_ok in Hc as [Hl Hc]. apply rf_search_all_ok in Hs as (HE & HZ & Hs).
  destruct (round_trip _ _ Hm) as [Hu _].
  eapply Verify_accepts; [exact Hu|by rewrite length_fmap|lia|lia|exact Hcrs|].
  apply verify_all_ok. intros k aI e z Hk.
  apply lookup_zip_with_Some in Hk as ([a1 e1] & z1 & [= <- <- <-] & Hk & Hz).
  apply lookup_zip_with_Some in Hk as (a2 & e2 & [= <- <-] & Ha & He).
  rewrite list_lookup_fmap in Ha. destruct (l !! k) as [[a3 s]|] eqn:Hlk; [|done].
  injection Ha as <-. destruct (Hs k a3 s e z Hlk He Hz) as (Hch & Hr & Hh). split; [done|].
  destruct (Hc a3 s) as (p0 & p1 & Hc'); [by eapply list_elem_of_lookup_2|].
  destruct (complete x w a3 s p0 p1 e Hg Hw Hc' Hch) as (z' & Hz' & Hv). congruence.
Qed.

(** The search of one repetition ends: when the randomness offers its
    first zero digest at its [k]-th challenge, and responses and digests of the
    challenges up to it are computed, [k + 1] units of fuel suffice and the
    search returns that challenge, whatever repeated challenges were skipped. *)
Theorem RandFischlin_search_ends proto x w crs a i aI s k p e z p' fuel :
  let n := GetChallengeBytesLength proto in
  TBytes ≤ n → draw n k p = Some (e, p') →
  (∀ j e' q, j ≤ k → draw n j p = Some (e', q) →
     ∃ z' d, ComputeProverResponse proto x w aI s (Some e') = Ok z' ∧
       digest bytesZ sum crs a i e' z' = Ok d ∧ (isAllZeros d = true ↔ j = k)) →
  ComputeProverResponse proto x w aI s (Some e) = Ok z →
  k < fuel →
  search bytesZ sum fuel fuel proto x w crs a i aI s [] p = Ok (Some (e, z, p')).
Proof.
  intros n Hn Hd Hm Hz Hf. eapply search_draw; try done.
  intros e' Hin. by apply not_elem_of_nil in Hin.
Qed.
End properties.

(** ** Challenges of any length

    The verifier never compares the length of a challenge with the length of
    the protocol's challenges, and a Maurer verifier reads a challenge as a
    big-endian number: leading zeros change the digest but not the number. *)

Definition pad (k : nat) (e : list N) : list N := replicate k 0%N ++ e.

Lemma bytesBE_val_pad k e : bytesBE_val (pad k e) = bytesBE_val e.
Proof.
  unfold bytesBE_val, pad. rewrite foldl_app. f_equal. by induction k as [|k IH]; [|cbn].
Qed.

Section padding.
Import Sigma RandFischlin.
Context {G I P Tp : Type} `{GroupElement G, GroupElement I, Reader P, Transcript Tp}.
Context (m : Maurer.Protocol I G P) (f : G → I) `{!Maurer.Laws m f}.
Local Abbreviation proto := (Maurer.protocol m).

Lemma Maurer_Verify_pad ox oa e oz k :
  bytes_ok e → Sigma.Verify proto ox oa (Some e) oz = Ok tt →
  Sigma.Verify proto ox oa (Some (pad k e)) oz = Ok tt.
Proof.
  intros He Hv. apply (Maurer_Verify_Ok m f) in Hv as (x & a & z & -> & -> & -> & E); [|done].
  change (Sigma.Verify proto) with (Maurer.Verify m). rewrite (Maurer_Verify_eq m f).
  - unfold exponent in *. rewrite bytesBE_val_pad. by rewrite decide_True.
  - apply Forall_app. split; [by apply Forall_replicate|done].
Qed.

Context (bytesX : option (Maurer.Statement I) → list N) (bytesA : option (Maurer.Commitment I) → list N).
Context (bytesZ : option (Maurer.Response G) → list N) (sum : list N → list N).
Context (codec : Codec (list (option (Maurer.Commitment I)) * list (list N)
  * list (option (Maurer.Response G)))) `{!RoundTrip codec}.

(** Randomised Fischlin proofs for Maurer protocols are not sound.
    Simulated conversations, for challenges fixed in advance and without a
    witness (the statement may even be false), become an accepted proof once
    each challenge is prefixed with some number of zero bytes for which the
    conversation hashes to zero; these numbers are found independently of each
    other. *)
Theorem RandFischlin_padding_accepted sid x As Es Zs pads crs t t1 b :
  length As = R → length Es = R → length Zs = R → length pads = R →
  (∀ i a e z, As !! i = Some a → Es !! i = Some e → Zs !! i = Some z →
     is_challenge (GetChallengeBytesLength proto) e ∧
     ∃ g g', RunSimulator proto (Some x) (Some e) g = Ok (a, z, g')) →
  ExtractBytes crsLabel 32 (AppendDomainSeparator (separator sid) t) = Ok (crs, t1) →
  (∀ i e z k, Es !! i = Some e → Zs !! i = Some z → pads !! i = Some k →
     hit bytesZ sum crs (concat (bytesA <$> As)) i (pad k e) z) →
  MarshalCBOR codec (As, zip_with pad pads Es, Zs) = Ok b →
  (RandFischlin.Verify bytesX bytesA bytesZ codec sum sid proto (Some x) (Some b) t).2 = Ok tt.
Proof.
  intros HA HE HZ HP Hsim Hcrs Hhit Hm. destruct (round_trip _ _ Hm) as [Hu _].
  erewrite Verify_accepts; [done|exact Hu|done|rewrite length_zip_with; lia|done|exact Hcrs|].
  apply verify_all_ok. intros i a e z Hi.
  apply lookup_zip_with_Some in Hi as ([a1 e1] & z1 & [= <- <- <-] & Hi & Hz).
  apply lookup_zip_with_Some in Hi as (a2 & e2 & [= <- <-] & Ha & He).
  apply lookup_zip_with_Some in He as (k & e0 & -> & Hk & He).
  destruct (Hsim i a e0 z Ha He Hz) as (Hch & g & g' & Hs). split; [by apply Hhit|].
  apply Maurer_Verify_pad; [apply Hch|].
  by eapply (simulates (proto := proto) (Some x)).
Qed.
End padding.

(** ** Concrete proofs

    Proofs are encoded through the countability of their parts. *)

Definition ex_proof_nums (d : list (option (Maurer.Commitment fp257)) * list (list N)
    * list (option (Maurer.Response fp257))) : list (option N) * list (list N) * list (option N) :=
  (option_map (ex_num ∘ Maurer.cA) <$> d.1.1, d.1.2, option_map (ex_num ∘ Maurer.rZ) <$> d.2).
Definition ex_rf_codec : Codec (list (option (Maurer.Commitment fp257)) * list (list N)
    * list (option (Maurer.Response fp257))) :=
  mkCodec (λ d, Ok [N.pos (countable.encode (ex_proof_nums d))])
    (λ b, match b with
          | [N.pos p] =>
              match countable.decode p with
              | Some (As, Es, Zs) =>
                  Ok (option_map (Maurer.mkCommitment ∘ ex_of_num) <$> As, Es,
                      option_map (Maurer.mkResponse ∘ ex_of_num) <$> Zs)
              | None => Err ErrFailed
              end
          | _ => Err ErrFailed
          end).
#[export] Instance ex_rf_round_trip : RoundTrip ex_rf_codec.
Proof.
  intros [[As Es] Zs] b. cbn [MarshalCBOR UnmarshalCBOR ex_rf_codec]. intros [= <-].
  rewrite decode_encode. unfold ex_proof_nums. cbn [fst snd]. split; [|done].
  rewrite <-!list_fmap_compose. do 2 f_equal; [f_equal|].
  - rewrite <-(list_fmap_id As) at 2. apply list_fmap_ext. intros _ [[a]|] _; cbn; [|done].
    by rewrite ex_of_num_num.
  - rewrite <-(list_fmap_id Zs) at 2. apply list_fmap_ext. intros _ [[z]|] _; cbn; [|done].
    by rewrite ex_of_num_num.
Qed.
Definition ex_bytesZ (z : option (Maurer.Response fp257)) : list N :=
  match z with Some z => [ex_num (Maurer.rZ z)] | None => [] end.

(** The identity and the constant homomorphism with eight-byte challenges. *)
Definition ex_maurer8 : Maurer.Protocol fp257 fp257 (list N) :=
  Maurer.mkMaurer ex_random257 8 128 "bytes" (λ s, Ok s) 257 (λ _, rzero)
    Maurer.defaultScalarMul Maurer.defaultScalarMul.
#[export] Instance ex_maurer8_laws : Maurer.Laws ex_maurer8 (λ s : fp257, s).
Proof. split; apply ex_maurer_laws. Qed.
Definition ex_constant : Maurer.Protocol fp257 fp257 (list N) :=
  Maurer.mkMaurer ex_random257 8 128 "constant" (λ _, Ok rzero) 257 (λ _, rzero)
    Maurer.defaultScalarMul Maurer.defaultScalarMul.
#[export] Instance ex_constant_laws : Maurer.Laws ex_constant (λ _ : fp257, (rzero : fp257)).
Proof.
  pose proof ex_maurer_laws as L. split; try apply L.
  - done.
  - intros s t. symmetry. exact (gop_id_l (rzero : fp257)).
Qed.

Definition ex_zero_sum (m : list N) : list N := replicate 32 0%N.
Definition ex_rf_prng : list N := flat_map (λ i, [N.of_nat i]) (seq 1 200).
#[local] Instance ex_rf_transcript : Transcript Hagrid.transcript := Hagrid.hagrid ex_shake.

Definition ex_rf_prove :=
  RandFischlin.Prove ex_bytesX ex_bytesA ex_bytesZ ex_rf_codec ex_zero_sum 1 [] (Maurer.protocol ex_maurer8)
    ex_statement (Some (Maurer.mkWitness (ex_of_num 42))) ex_rf_prng ex_tape.
Lemma RandFischlin_complete_witness :
  match ex_rf_prove with
  | (t', Ok (Some (b, _))) =>
      RandFischlin.Verify ex_bytesX ex_bytesA ex_bytesZ ex_rf_codec ex_zero_sum []
        (Maurer.protocol ex_maurer8) ex_statement (Some b) ex_tape = (t', Ok tt)
  | _ => False
  end.
Proof.
  assert (match ex_rf_prove.2 with Ok (Some _) => True | _ => False end) as Hok.
  { vm_compute. exact I. }
  destruct ex_rf_prove as [t' [[[b g']|]|e|]] eqn:E; [|destruct Hok..].
  eapply (RandFischlin_complete ex_bytesX ex_bytesA ex_bytesZ ex_rf_codec ex_zero_sum (Maurer.protocol ex_maurer8) is_Some
    (Complete0 := maurer_complete ex_maurer8 (λ s, s)) 1 [] ex_statement
    (Some (Maurer.mkWitness (ex_of_num 42))) ex_rf_prng g').
  - done.
  - reflexivity.
  - exact E.
Defined.

(** Digests of even responses are zero. *)
Definition ex_parity_sum (m : list N) : list N := (List.last m 0 mod 2)%N :: replicate 31 0%N.
Lemma RandFischlin_search_ends_witness :
  RandFischlin.search ex_bytesZ ex_parity_sum 2 2 (Maurer.protocol ex_maurer8)
    (Some (Maurer.mkStatement (ex_of_num 1))) (Some (Maurer.mkWitness (ex_of_num 1))) [] [] 0
    None (Some (Maurer.mkState (ex_of_num 0))) [] [0; 0; 0; 0; 0; 0; 2; 0; 0; 0; 0; 0; 0; 1; 9]%N
  = Ok (Some ([0; 0; 0; 0; 0; 0; 1; 0]%N, Some (Maurer.mkResponse (ex_of_num 256)), [9%N])).
Proof.
  apply (RandFischlin_search_ends ex_bytesZ ex_parity_sum (Maurer.protocol ex_maurer8)) with (k := 1).
  - cbn. lia.
  - reflexivity.
  - intros [|[|j]] e' q Hj Hd; [| |lia].
    + injection Hd as <- <-. eexists _, _. split_and!; [reflexivity|reflexivity|by vm_compute].
    + injection Hd as <- <-. eexists _, _. split_and!; [reflexivity|reflexivity|by vm_compute].
  - vm_compute. reflexivity.
  - lia.
Defined.

(** A false statement with an accepted proof: the digest is a checksum. *)
Definition ex_checksum (m : list N) : list N := (foldl N.add 0 m mod 256)%N :: replicate 31 0%N.
Definition ex_false := Maurer.mkStatement (ex_of_num 1).
Definition ex_forged_a := Some (Maurer.mkCommitment (ex_of_num 254)).
Definition ex_forged_z := Some (Maurer.mkResponse (ex_of_num 7)).
Definition ex_forged_e : list N := [0; 0; 0; 0; 0; 0; 0; 3]%N.
Definition ex_forged_crs : list N :=
  match ExtractBytes RandFischlin.crsLabel 32
    (AppendDomainSeparator (RandFischlin.separator []) ex_tape) with
  | Ok (crs, _) => crs | _ => []
  end.
Definition ex_hits (i k : nat) : bool :=
  match RandFischlin.digest ex_bytesZ ex_checksum ex_forged_crs
    (concat (ex_bytesA <$> replicate 16 ex_forged_a)) i (pad k ex_forged_e) ex_forged_z with
  | Ok d => RandFischlin.isAllZeros d | _ => false
  end.
Definition ex_pads : list nat :=
  (λ i, match list_find (ex_hits i) (seq 0 600) with Some (k, _) => k | None => 0 end) <$> seq 0 16.
Definition ex_forged_proof : list N :=
  match MarshalCBOR ex_rf_codec (replicate 16 ex_forged_a, zip_with pad ex_pads (replicate 16 ex_forged_e),
    replicate 16 ex_forged_z) with Ok b => b | _ => [] end.

Lemma RandFischlin_padding_accepted_witness :
  (∀ w, Sigma.ValidateStatement (Maurer.protocol ex_constant) (Some ex_false) w ≠ Ok tt) ∧
  (RandFischlin.Verify ex_bytesX ex_bytesA ex_bytesZ ex_rf_codec ex_checksum []
     (Maurer.protocol ex_constant) (Some ex_false) (Some ex_forged_proof) ex_tape).2 = Ok tt.
Proof.
  split.
  { intros w Hw. change (Maurer.ValidateStatement ex_constant (Some ex_false) w = Ok tt) in Hw.
    apply (Maurer_Validate_Ok ex_constant (λ _, rzero)) in Hw as (w' & _ & E). discriminate E. }
  apply (RandFischlin_padding_accepted ex_constant (λ _, rzero)) with
    (As := replicate 16 ex_forged_a) (Es := replicate 16 ex_forged_e)
    (Zs := replicate 16 ex_forged_z) (pads := ex_pads) (crs := ex_forged_crs)
    (t1 := apply_call ex_shake (AppendDomainSeparator (RandFischlin.separator []) ex_tape)
             (Squeeze RandFischlin.crsLabel 32)).
  - apply ex_rf_round_trip.
  - reflexivity.
  - reflexivity.
  - reflexivity.
  - reflexivity.
  - intros i a e z [-> _]%lookup_replicate [-> _]%lookup_replicate [-> _]%lookup_replicate.
    split; [split; [done|repeat constructor]|]. exists [7%N], []. reflexivity.
  - reflexivity.
  - intros i e z k [-> Hi]%lookup_replicate [-> _]%lookup_replicate Hk.
    assert (forallb (λ i, match ex_pads !! i with Some k => ex_hits i k | None => true end) (seq 0 16)
      = true) as Hall by (vm_compute; reflexivity).
    rewrite forallb_forall in Hall. specialize (Hall i). rewrite in_seq, Hk in Hall.
    specialize (Hall ltac:(lia)). unfold ex_hits in Hall.
    destruct (RandFischlin.digest _ _ _ _ _ _ _) as [d| |] eqn:Ed; [|done..]. by exists d.
  - reflexivity.
Defined.
