(* ===== verification/Fischlin.v ===== *)
(** * Non-interactive proofs: the Fischlin compiler (sigma/compiler/fischlin)

    The prover runs [rho] repetitions and searches, in each, the challenges
    below [2^t] in order for one whose conversation hashes to [b] zero bits;
    when a repetition has none it starts again with fresh commitments.  The
    search is bounded; the restarts carry fuel, and [Ok None] is a proof that
    ran out of it.  The random oracle ([sha3.New256]) is the parameter [sum]. *)

From Stdlib Require Import ZArith NArith Lia Zmod.
From stdpp Require Import strings.
From S2P Require Import Prelude Algebra AlgebraUtils IOUtils Sigma Maurer Hagrid FiatShamir RandFischlin.

Module Fischlin.
Import Sigma.

Definition Name : string := "Fischlin".
Definition transcriptLabel : string := "BRON_CRYPTO_NIZK_FISCHLIN-".
Definition commonHLabel : string := "commonHLabel-".
Definition rhoLabel : string := "rhoLabel-".
Definition statementLabel : string := "statementLabel-".
Definition commitmentLabel : string := "commitmentLabel-".
Definition challengeLabel : string := "challengeLabel-".
Definition responseLabel : string := "responseLabel-".

(** [getRho]: the repetitions for the name of a protocol. *)
Definition defaultRho : N := 16.
Definition getRho (name : string) : N :=
  if (name =? Schnorr.Name)%string then 16
  else if (name =? "PAILLIER_NTH_ROOTS")%string then 32
  else if (name =? "PaillierRange")%string then 16
  else defaultRho.

(** [mathutils.CeilLog2]: 64 minus the leading zeros of [x - 1]. *)
Definition wrap64 (x : Z) : Z := (x mod 2 ^ 64)%Z.
Definition CeilLog2 (x : Z) : N := N.size (Z.to_N (wrap64 (wrap64 x - 1))).

Definition isAllZeros (data : list N) : bool := (foldl N.lor 0%N data =? 0)%N.

(** [hash]: the first [b] bits of the digest. *)
Definition hash (sum : list N → list N) (b : N) (commonH : list N) (i : N)
    (challenge serializedResponse : list N) : result (list N) :=
  let bBytes := N.to_nat (b / 8) + 1 in
  let bMask := ((N.shiftl 1 (b mod 8) - 1) mod 256)%N in
  h ← Hash sum [commonH; replicate 8 0%N ++ uint64ToBytesLE i; challenge; serializedResponse];
  match h !! (bBytes - 1) with
  | None => Panic
  | Some x => Ok (take bBytes (<[bBytes - 1 := N.land x bMask]> h))
  end.

Section fischlin.
Context {X W A St Z P Tp : Type} `{Reader P, Transcript Tp}.
Context (bytesX : X → list N) (bytesA : A → list N) (bytesZ : Z → list N).
Context (codec : Codec (list A * list (list N) * list Z)) (sum : list N → list N).

(** [simplifiedFischlin] and, with a context, its prover and verifier. *)
Record params := mkParams { rho : N; b : N; t : N; sigmaProtocol : Protocol X W A St Z P }.

Definition NewCompiler (proto : option (Protocol X W A St Z P)) (prng : option unit) : result params :=
  match proto, prng with
  | Some proto, Some _ =>
      let rho := getRho (Sigma.Name proto) in
      let b1 := ((ComputationalSecurityBits + rho - 1) / rho)%N in
      let b2 := CeilLog2 (Z.of_N (SpecialSoundness proto) - 1) in
      let b := (b1 + b2)%N in
      let t := if (64 <? rho)%N then (b + 6)%N else (b + 5)%N in
      if ((rho <? 2) || (b <? 2) || (64 <=? t))%N then Err ErrInvalid
      else Ok (mkParams rho b t proto)
  | _, _ => Err ErrNil
  end.

Record participant := mkParticipant { p_ctx : Context Tp; p_params : params }.
(** [NewProver] and [NewVerifier] do the same. *)
Definition begin (c : params) (ctx : option (Context Tp)) : result participant :=
  match ctx with
  | None => Err ErrNil
  | Some ctx =>
      let dst := (transcriptLabel +:+ "-" +:+ Sigma.Name (sigmaProtocol c) +:+ "-"
                  +:+ EncodeToString (SessionID ctx))%string in
      Ok (mkParticipant (on_tape (AppendDomainSeparator dst) ctx) c)
  end.

(** [challengeBytesAndResponse]: the shortened challenge and the response. *)
Definition eByteLen (c : params) : nat := N.to_nat ((t c + 7) / 8).
Definition challengeBytesAndResponse (c : params) (j : N) (statement : X) (witness : W)
    (commitment : A) (state : St) : result (list N * Z) :=
  let n := GetChallengeBytesLength (sigmaProtocol c) in
  if n <? 8 then Panic
  else
    let eBytes := replicate (n - 8) 0%N ++ uint64ToBytesBE j in
    z ← ComputeProverResponse (sigmaProtocol c) statement witness commitment state (Some eBytes);
    Ok (drop (n - eByteLen c) eBytes, z).

(** The loop of one repetition over the challenges from [j] on. *)
Fixpoint search (c : params) (statement : X) (witness : W) (commonH : list N) (i : N) (aI : A)
    (stateI : St) (k : nat) (j : N) : result (option (list N * Z)) :=
  match k with
  | 0 => Ok None
  | S k =>
      '(e, z) ← challengeBytesAndResponse c j statement witness aI stateI;
      hI ← hash sum (b c) commonH i e (bytesZ z);
      if isAllZeros hI then Ok (Some (e, z))
      else search c statement witness commonH i aI stateI k (j + 1)
  end.

(** Step 4: the repetitions from [i] on; [None] is [continue redo]. *)
Fixpoint search_all (c : params) (statement : X) (witness : W) (commonH : list N) (i : N)
    (l : list (A * St)) : result (option (list (list N) * list Z)) :=
  match l with
  | [] => Ok (Some ([], []))
  | (aI, stateI) :: l =>
      r ← search c statement witness commonH i aI stateI (N.to_nat (2 ^ t c)) 0;
      match r with
      | None => Ok None
      | Some (e, z) =>
          r ← search_all c statement witness commonH (i + 1) l;
          Ok (match r with None => None | Some (eI, zI) => Some (e :: eI, z :: zI) end)
      end
  end.

(** Step 1. *)
Definition commit_all (c : params) (statement : X) (witness : W) (prng : P) :
    result (list (A * St) * P) :=
  foldM (λ '(l, prng) _,
      '(a, s, prng) ← ComputeProverCommitment (sigmaProtocol c) statement witness prng;
      Ok (l ++ [(a, s)], prng)) ([], prng) (seq 0 (N.to_nat (rho c))).

(** The body of the outer loop, with the randomness left. *)
Definition attempt (sid : list N) (c : params) (statement : X) (witness : W)
    (commonHKey : list N) (prng : P) : result (option (list A * list (list N) * list Z) * P) :=
  '(l, prng) ← commit_all c statement witness prng;
  let a := concat (bytesA <$> l.*1) in
  commonH ← Hash sum [commonHKey; bytesX statement; a; sid];
  r ← search_all c statement witness commonH 0 l;
  Ok (match r with None => None | Some (eI, zI) => Some (l.*1, eI, zI) end, prng).

Fixpoint redo (fuel : nat) (sid : list N) (c : params) (statement : X) (witness : W)
    (commonHKey : list N) (prng : P) : result (option (list A * list (list N) * list Z * P)) :=
  match fuel with
  | 0 => Ok None
  | S fuel =>
      '(r, prng) ← attempt sid c statement witness commonHKey prng;
      match r with
      | Some proof => Ok (Some (proof, prng))
      | None => redo fuel sid c statement witness commonHKey prng
      end
  end.

Definition Prove (fuel : nat) (sid : list N) (c : params) (statement : X) (witness : W) (prng : P) :
    tapeM Tp (option (list N * P)) :=
  _ ← append rhoLabel [uint64ToBytesLE (rho c)];
  _ ← append statementLabel [bytesX statement];
  commonHKey ← extract commonHLabel 32;
  r ← lift (redo fuel sid c statement witness commonHKey prng);
  match r with
  | None => mret None
  | Some (aI, eI, zI, prng) =>
      _ ← append commitmentLabel (bytesA <$> aI);
      _ ← append challengeLabel eI;
      _ ← append responseLabel (bytesZ <$> zI);
      proofBytes ← lift (MarshalCBOR codec (aI, eI, zI));
      mret (Some (proofBytes, prng))
  end.

(** Step 4 of the verifier, for the repetitions from [i] on. *)
Fixpoint verify_all (c : params) (statement : X) (commonH : list N) (i : N)
    (l : list (A * list N * Z)) : result unit :=
  match l with
  | [] => Ok tt
  | (aI, e, z) :: l =>
      let n := GetChallengeBytesLength (sigmaProtocol c) in
      if negb (length e =? eByteLen c) then Err ErrVerification
      else
        digest ← hash sum (b c) commonH i e (bytesZ z);
        if negb (isAllZeros digest) then Err ErrVerification
        else if n <? length e then Err ErrVerification
        else
          let eBytes := replicate (n - length e) 0%N ++ e in
          _ ← Sigma.Verify (sigmaProtocol c) statement aI (Some eBytes) z;
          verify_all c statement commonH (i + 1) l
  end.

(** The encodings of decoded commitments and responses are total here: the
    code calls [Bytes] on whatever the decoder returned, and a decoder that
    returns a nil pointer makes that call panic. *)
Definition Verify (sid : list N) (c : params) (statement : X) (proofBytes : option (list N)) :
    tapeM Tp unit :=
  match proofBytes with
  | None => fail ErrNil
  | Some proofBytes =>
      '(As, Es, Zs) ← lift (UnmarshalCBOR codec proofBytes);
      if negb (N.of_nat (length As) =? rho c)%N || negb (N.of_nat (length Es) =? rho c)%N
         || negb (N.of_nat (length Zs) =? rho c)%N then fail ErrInvalid
      else
        _ ← append rhoLabel [uint64ToBytesLE (rho c)];
        _ ← append statementLabel [bytesX statement];
        commonHKey ← extract commonHLabel 32;
        _ ← append commitmentLabel (bytesA <$> As);
        _ ← append challengeLabel Es;
        let a := concat (bytesA <$> As) in
        commonH ← lift (Hash sum [commonHKey; bytesX statement; a; sid]);
        _ ← lift (verify_all c statement commonH 0 (zip (zip As Es) Zs));
        append responseLabel (bytesZ <$> Zs)
  end.
End fischlin.
Arguments params : clear implicits.
End Fischlin.

(** ** Parameters *)

Lemma N_size_le n k : (N.size n ≤ k ↔ n < 2 ^ k)%N.
Proof.
  split; intros Hk.
  - pose proof (N.size_gt n). pose proof (N.pow_le_mono_r 2 _ _ ltac:(lia) Hk). lia.
  - destruct (decide (n = 0%N)) as [->|Hn]; [cbn; lia|].
    rewrite N.size_log2 by done. apply N.le_succ_l, N.log2_lt_pow2; lia.
Qed.
Lemma CeilLog2_spec (x : Z) (k : N) : (1 ≤ x < 2 ^ 64)%Z →
  (Fischlin.CeilLog2 x ≤ k)%N ↔ (x ≤ 2 ^ Z.of_N k)%Z.
Proof.
  intros Hx. unfold Fischlin.CeilLog2, Fischlin.wrap64.
  rewrite N_size_le, (Z.mod_small x), Z.mod_small by lia.
  pose proof (N2Z.inj_pow 2 k) as Hp. change (Z.of_N 2) with 2%Z in Hp. lia.
Qed.

(** ** Short challenges *)

Lemma LittleEndian_app k m n :
  LittleEndian (k + m) n = LittleEndian k n ++ LittleEndian m (n / 256 ^ N.of_nat k).
Proof.
  revert n. induction k as [|k IH]; intros n; cbn [plus LittleEndian app].
  { by rewrite N.div_1_r. }
  rewrite IH. f_equal. f_equal. f_equal.
  rewrite Nat2N.inj_succ, N.pow_succ_r', N.Div0.div_div. done.
Qed.
Lemma LittleEndian_0 k : LittleEndian k 0 = replicate k 0%N.
Proof. induction k as [|k IH]; [done|]. cbn [LittleEndian].
  change (0 mod 256)%N with 0%N. change (0 / 256)%N with 0%N. by rewrite IH.
Qed.

Lemma uint64BE_small k j :
  k ≤ 8 → (j < 256 ^ N.of_nat k)%N →
  ∃ r, length r = k ∧ bytes_ok r ∧ uint64ToBytesBE j = replicate (8 - k) 0%N ++ r.
Proof.
  intros Hk Hj. exists (reverse (LittleEndian k j)). split_and!.
  - by rewrite length_reverse, length_LittleEndian.
  - apply Forall_reverse, LittleEndian_ok.
  - unfold uint64ToBytesBE. replace 8 with (k + (8 - k)) at 1 by lia.
    rewrite LittleEndian_app, N.div_small, LittleEndian_0, reverse_app, reverse_replicate by done. done.
Qed.

Section theory.
Import Sigma Fischlin.
Context {X W A St Z P : Type}.
Context (bytesX : X → list N) (bytesA : A → list N) (bytesZ : Z → list N) (sum : list N → list N).
Implicit Types (c : params X W A St Z P) (e : list N).

(** A challenge as the verifier restores it. *)
Definition restore c e : list N :=
  replicate (GetChallengeBytesLength (sigmaProtocol c) - length e) 0%N ++ e.

Definition hit c commonH (i : N) e z : Prop :=
  ∃ d, hash sum (b c) commonH i e (bytesZ z) = Ok d ∧ isAllZeros d = true.
Definition miss c commonH (i : N) e z : Prop :=
  ∃ d, hash sum (b c) commonH i e (bytesZ z) = Ok d ∧ isAllZeros d = false.

Lemma eByteLen_le c : (t c < 64)%N → eByteLen c ≤ 8 ∧ (2 ^ t c ≤ 256 ^ N.of_nat (eByteLen c))%N.
Proof.
  intros Ht. unfold eByteLen. rewrite N2Nat.id. generalize dependent (t c). clear c. intros k Hk.
  pose proof (N.div_mod (k + 7) 8 ltac:(done)) as Hd. pose proof (N.mod_lt (k + 7) 8 ltac:(done)).
  set (q := ((k + 7) / 8)%N) in *. set (r := ((k + 7) mod 8)%N) in *. clearbody q r.
  split; [lia|]. change 256%N with (2 ^ 8)%N. rewrite <-N.pow_mul_r. apply N.pow_le_mono_r; [done|lia].
Qed.

(** The shortened challenge has [eByteLen] bytes and the verifier restores
    the challenge the response was computed for. *)
Lemma challenge_restore c j x w aI s e z :
  (t c < 64)%N → (j < 2 ^ t c)%N →
  challengeBytesAndResponse c j x w aI s = Ok (e, z) →
  length e = eByteLen c ∧ length e ≤ GetChallengeBytesLength (sigmaProtocol c) ∧
  is_challenge (GetChallengeBytesLength (sigmaProtocol c)) (restore c e) ∧
  ComputeProverResponse (sigmaProtocol c) x w aI s (Some (restore c e)) = Ok z.
Proof.
  intros Ht Hj. unfold challengeBytesAndResponse.
  set (n := GetChallengeBytesLength (sigmaProtocol c)). destruct (Nat.ltb_spec n 8) as [|Hn]; [done|].
  destruct (eByteLen_le c Ht) as [Hk Hp].
  destruct (uint64BE_small (eByteLen c) j) as (r & Hl & Hb & ->); [done|lia|].
  rewrite (assoc_L (++)), <-replicate_add. replace (n - 8 + (8 - eByteLen c)) with (n - eByteLen c) by lia.
  destruct (ComputeProverResponse _ _ _ _ _ _) as [z1| |] eqn:Ez; [|done..]. cbn [mbind result_bind].
  rewrite drop_app_length' by (by rewrite length_replicate). intros [= <- <-].
  unfold restore. fold n. rewrite Hl. split_and!; [done|lia| |done].
  split; [rewrite length_app, length_replicate; lia|].
  apply Forall_app. split; [by apply Forall_replicate|done].
Qed.

Lemma restore_inj c e e' : length e = length e' → restore c e = restore c e' → e = e'.
Proof. intros Hl. unfold restore. rewrite Hl. by intros ?%app_inv_head. Qed.

(** ** The loops *)

(** The search returns the first challenge that hits. *)
Lemma search_spec c x w commonH i aI s k j r :
  search bytesZ sum c x w commonH i aI s k j = Ok r →
  match r with
  | Some (e, z) => ∃ j', (j ≤ j' < j + N.of_nat k)%N ∧
      challengeBytesAndResponse c j' x w aI s = Ok (e, z) ∧ hit c commonH i e z ∧
      ∀ j0, (j ≤ j0 < j')%N → ∃ e0 z0,
        challengeBytesAndResponse c j0 x w aI s = Ok (e0, z0) ∧ miss c commonH i e0 z0
  | None => ∀ j0, (j ≤ j0 < j + N.of_nat k)%N → ∃ e0 z0,
      challengeBytesAndResponse c j0 x w aI s = Ok (e0, z0) ∧ miss c commonH i e0 z0
  end.
Proof.
  revert j. induction k as [|k IH]; intros j; cbn [search].
  { intros [= <-] j0 Hj0. lia. }
  destruct (challengeBytesAndResponse c j x w aI s) as [[e z]| |] eqn:Ec; [|done..].
  cbn [mbind result_bind].
  destruct (hash sum (b c) commonH i e (bytesZ z)) as [d| |] eqn:Ed; [|done..].
  cbn [mbind result_bind]. destruct (isAllZeros d) eqn:Hz.
  - intros [= <-]. exists j. split_and!; [lia|lia|done|by exists d|]. intros j0 Hj0. lia.
  - assert (∃ e0 z0, challengeBytesAndResponse c j x w aI s = Ok (e0, z0) ∧ miss c commonH i e0 z0) as Hj.
    { exists e, z. split; [done|]. by exists d. }
    intros Hr%IH. destruct r as [[e1 z1]|].
    + destruct Hr as (j' & Hj' & Hc & Hh & Hm). exists j'. split_and!; [lia|lia|done|done|].
      intros j0 Hj0. destruct (decide (j0 = j)) as [->|Hne]; [done|]. apply Hm. lia.
    + intros j0 Hj0. destruct (decide (j0 = j)) as [->|Hne]; [done|]. apply Hr. lia.
Qed.

Lemma search_all_ok c x w commonH i l es zs :
  (t c < 64)%N → search_all bytesZ sum c x w commonH i l = Ok (Some (es, zs)) →
  length es = length l ∧ length zs = length l ∧
  ∀ k aI s e z, l !! k = Some (aI, s) → es !! k = Some e → zs !! k = Some z →
    hit c commonH (i + N.of_nat k) e z ∧ length e = eByteLen c ∧
    length e ≤ GetChallengeBytesLength (sigmaProtocol c) ∧
    is_challenge (GetChallengeBytesLength (sigmaProtocol c)) (restore c e) ∧
    ComputeProverResponse (sigmaProtocol c) x w aI s (Some (restore c e)) = Ok z.
Proof.
  intros Ht. revert i es zs. induction l as [|[aI s] l IH]; intros i es zs; cbn [search_all].
  { intros [= <- <-]. done. }
  destruct (search _ _ _ _ _ _ _ _ _ _ _) as [[[e z]|]| |] eqn:Es; [|done..].
  cbn [mbind result_bind].
  destruct (search_all _ _ _ _ _ _ _ _) as [[[es1 zs1]|]| |] eqn:Ea; [|done..].
  cbn [mbind result_bind]. intros [= <- <-]. apply IH in Ea as (He & Hz & HE).
  split_and!; [cbn; congruence..|]. intros [|k] aI' s' e' z'; cbn [lookup list_lookup].
  - intros [= -> ->] [= <-] [= <-]. apply search_spec in Es as (j & Hj & Hc & Hh & _).
    rewrite N.add_0_r. split; [done|]. apply (challenge_restore c j x w); [done|lia|done].
  - intros H1 H2 H3. rewrite Nat2N.inj_succ, <-N.add_1_l, N.add_assoc. by eapply HE.
Qed.

Lemma verify_all_Ok c x commonH i l :
  verify_all bytesZ sum c x commonH i l = Ok tt ↔
  ∀ k aI e z, l !! k = Some (aI, e, z) →
    length e = eByteLen c ∧ hit c commonH (i + N.of_nat k) e z ∧
    length e ≤ GetChallengeBytesLength (sigmaProtocol c) ∧
    Sigma.Verify (sigmaProtocol c) x aI (Some (restore c e)) z = Ok tt.
Proof.
  revert i. induction l as [|[[aI e] z] l IH]; intros i; cbn [verify_all].
  { split; [intros _ k; by rewrite lookup_nil|done]. }
  split.
  - destruct (Nat.eqb_spec (length e) (eByteLen c)) as [Hl|]; [cbn [negb]|done].
    destruct (hash _ _ _ _ _ _) as [d| |] eqn:Ed; [|done..]. cbn [mbind result_bind].
    destruct (isAllZeros d) eqn:Hz; [cbn [negb]|done].
    destruct (Nat.ltb_spec (GetChallengeBytesLength (sigmaProtocol c)) (length e)); [done|].
    destruct (Sigma.Verify _ _ _ _ _) as [[]| |] eqn:Hv; [|done..]. cbn [mbind result_bind].
    intros Hr [|k] aI' e' z'; cbn [lookup list_lookup].
    + intros [= <- <- <-]. rewrite N.add_0_r. split_and!; [done|by exists d|done|done].
    + intros Hk. rewrite Nat2N.inj_succ, <-N.add_1_l, N.add_assoc. by apply (proj1 (IH _) Hr).
  - intros Hall. destruct (Hall 0 aI e z eq_refl) as (Hl & (d & Hd & Hz) & Hle & Hv).
    rewrite N.add_0_r in Hd. rewrite (proj2 (Nat.eqb_eq _ _) Hl). cbn [negb].
    rewrite Hd. cbn [mbind result_bind]. rewrite Hz. cbn [negb].
    rewrite (proj2 (Nat.ltb_ge _ _) Hle). unfold restore in Hv. rewrite Hv. cbn [mbind result_bind].
    apply IH. intros k aI' e' z' Hk. specialize (Hall (S k) aI' e' z' Hk).
    by rewrite Nat2N.inj_succ, <-N.add_1_l, N.add_assoc in Hall.
Qed.
End theory.

(** ** Properties *)

Section properties.
Import Sigma Fischlin.
Context {X W A St Z P Tp : Type} `{Reader P, Transcript Tp}.
Context (bytesX : X → list N) (bytesA : A → list N) (bytesZ : Z → list N).
Context (codec : Codec (list A * list (list N) * list Z)) (sum : list N → list N).
Implicit Types (c : params X W A St Z P).

Definition key_state c (x : X) (t0 : Tp) : Tp :=
  AppendBytes statementLabel [bytesX x] (AppendBytes rhoLabel [uint64ToBytesLE (rho c)] t0).
Definition common sid (x : X) (As : list A) (key : list N) : list N :=
  sum (key ++ bytesX x ++ concat (bytesA <$> As) ++ sid).
Definition sized_proof c (As : list A) (Es : list (list N)) (Zs : list Z) : Prop :=
  N.of_nat (length As) = rho c ∧ N.of_nat (length Es) = rho c ∧ N.of_nat (length Zs) = rho c.
Definition final_state (As : list A) (Es : list (list N)) (Zs : list Z) (t1 : Tp) : Tp :=
  AppendBytes responseLabel (bytesZ <$> Zs) (AppendBytes challengeLabel Es
    (AppendBytes commitmentLabel (bytesA <$> As) t1)).

(** What the verifier checks of every repetition. *)
Definition repetitions c x commonH (As : list A) (Es : list (list N)) (Zs : list Z) : Prop :=
  ∀ i a e z, As !! i = Some a → Es !! i = Some e → Zs !! i = Some z →
    length e = eByteLen c ∧ hit bytesZ sum c commonH (N.of_nat i) e z ∧
    length e ≤ GetChallengeBytesLength (sigmaProtocol c) ∧
    Sigma.Verify (sigmaProtocol c) x a (Some (restore c e)) z = Ok tt.

Lemma Hash_common sid x As key :
  Hash sum [key; bytesX x; concat (bytesA <$> As); sid] = Ok (common sid x As key).
Proof. rewrite Hash_eq. unfold common. cbn [concat]. by rewrite app_nil_r. Qed.

Lemma verify_all_repetitions c x commonH As Es Zs :
  verify_all bytesZ sum c x commonH 0 (zip (zip As Es) Zs) = Ok tt ↔
  repetitions c x commonH As Es Zs.
Proof.
  rewrite verify_all_Ok. unfold repetitions. split.
  - intros Hall i a e z Ha He Hz. apply (Hall i a e z).
    by rewrite lookup_zip_with, lookup_zip_with, Ha, He, Hz.
  - intros Hall k a e z Hk.
    apply lookup_zip_with_Some in Hk as ([a1 e1] & z1 & [= <- <- <-] & Hk & Hz).
    apply lookup_zip_with_Some in Hk as (a2 & e2 & [= <- <-] & Ha & He). by apply Hall.
Qed.

Lemma Verify_iff sid c x pf t0 t' :
  Verify bytesX bytesA bytesZ codec sum sid c x (Some pf) t0 = (t', Ok tt) ↔
  ∃ As Es Zs key t1, UnmarshalCBOR codec pf = Ok (As, Es, Zs) ∧ sized_proof c As Es Zs ∧
    ExtractBytes commonHLabel 32 (key_state c x t0) = Ok (key, t1) ∧
    repetitions c x (common sid x As key) As Es Zs ∧ t' = final_state As Es Zs t1.
Proof.
  unfold Verify, sized_proof. split.
  - intros ([[As Es] Zs] & t2 & (Hu & ->)%lift_ok & E)%state_bind_ok.
    destruct (N.eqb_spec (N.of_nat (length As)) (rho c)) as [HA|]; [|done].
    destruct (N.eqb_spec (N.of_nat (length Es)) (rho c)) as [HE|]; [|done].
    destruct (N.eqb_spec (N.of_nat (length Zs)) (rho c)) as [HZ|]; [|done]. cbn [negb orb] in E.
    apply state_bind_ok in E as (? & ? & [= <- <-] & E). apply state_bind_ok in E as (? & ? & [= <- <-] & E).
    apply state_bind_ok in E as (key & t1 & Hk%extract_ok & E).
    apply state_bind_ok in E as (? & ? & [= <- <-] & E). apply state_bind_ok in E as (? & ? & [= <- <-] & E).
    apply state_bind_ok in E as (h & t3 & (Hh & ->)%lift_ok & E). rewrite Hash_common in Hh.
    injection Hh as <-. apply state_bind_ok in E as ([] & t4 & (Hv & ->)%lift_ok & [= <-]).
    apply verify_all_repetitions in Hv. by exists As, Es, Zs, key, t1.
  - intros (As & Es & Zs & key & t1 & Hu & (HA & HE & HZ) & Hk & Hv & ->).
    apply state_bind_ok. exists (As, Es, Zs), t0. rewrite lift_ok. split; [done|].
    rewrite HA, HE, HZ, N.eqb_refl. cbn [negb orb]. unfold key_state in Hk.
    do 2 (apply state_bind_ok; eexists _, _; split; [done|]).
    apply state_bind_ok. exists key, t1. rewrite extract_ok. split; [done|].
    do 2 (apply state_bind_ok; eexists _, _; split; [done|]).
    apply state_bind_ok. eexists _, _. rewrite lift_ok, Hash_common. split; [done|].
    apply state_bind_ok. exists tt. eexists. rewrite lift_ok, verify_all_repetitions. done.
Qed.

Lemma commit_all_ok c x w p l p' :
  commit_all c x w p = Ok (l, p') →
  N.of_nat (length l) = rho c ∧
  ∀ aI s, (aI, s) ∈ l → ∃ g g', ComputeProverCommitment (sigmaProtocol c) x w g = Ok (aI, s, g').
Proof.
  intros Hc. unfold commit_all in Hc.
  apply foldM_commit in Hc as [Hl Hin]. rewrite Hl, length_seq. split; [lia|done].
Qed.

Lemma redo_ok fuel sid c x w key p r p' :
  redo bytesX bytesA bytesZ sum fuel sid c x w key p = Ok (Some (r, p')) →
  ∃ p0, attempt bytesX bytesA bytesZ sum sid c x w key p0 = Ok (Some r, p').
Proof.
  revert p. induction fuel as [|fuel IH]; intros p; [done|]. cbn [redo].
  destruct (attempt _ _ _ _ _ _ _ _ _ p) as [[[r1|] q]| |] eqn:Ea; [| |done..];
    cbn [mbind result_bind]; [|apply IH].
  intros [= <- <-]. eauto.
Qed.

(** Completeness of Fischlin proofs: what the prover returns with a valid
    witness, after any number of restarts, is accepted by a verifier that
    starts from the same transcript, and both end with the same transcript:
    the verifier restores the challenges, of which the proof holds only the
    last bytes. *)
Theorem Fischlin_complete c good `{!Complete (sigmaProtocol c) good, !RoundTrip codec}
    fuel sid x w g g' t0 t' pf :
  (t c < 64)%N → good x → ValidateStatement (sigmaProtocol c) x w = Ok tt →
  Prove bytesX bytesA bytesZ codec sum fuel sid c x w g t0 = (t', Ok (Some (pf, g'))) →
  Verify bytesX bytesA bytesZ codec sum sid c x (Some pf) t0 = (t', Ok tt).
Proof.
  intros Ht Hg Hw Hp. unfold Prove in Hp.
  apply state_bind_ok in Hp as (? & ? & [= <- <-] & Hp). apply state_bind_ok in Hp as (? & ? & [= <- <-] & Hp).
  apply state_bind_ok in Hp as (key & t1 & Hk%extract_ok & Hp).
  apply state_bind_ok in Hp as ([[[[As Es] Zs] g1]|] & ? & (Hr & ->)%lift_ok & Hp); [|done].
  do 3 apply state_bind_ok in Hp as (? & ? & [= <- <-] & Hp).
  apply state_bind_ok in Hp as (pf' & ? & (Hm & ->)%lift_ok & [= <- <- <-]).
  apply redo_ok in Hr as [p0 Ha]. unfold attempt in Ha.
  destruct (commit_all c x w p0) as [[l q]| |] eqn:Hc; [|done..]. cbn [mbind result_bind] in Ha.
  rewrite Hash_common in Ha. cbn [mbind result_bind] in Ha.
  destruct (search_all _ _ _ _ _ _ _ _) as [[[es zs]|]| |] eqn:Hs; [|done..].
  cbn [mbind result_bind] in Ha. injection Ha as <- <- <- <-.
  apply search_all_ok in Hs as (HE & HZ & Hs); [|done]. apply commit_all_ok in Hc as [Hl Hc].
  apply round_trip in Hm as [Hu _]. apply Verify_iff. exists l.*1, es, zs, key, t1.
  split_and!; [done|unfold sized_proof; rewrite length_fmap; lia|done| |done].
  intros i a e z Ha He Hz. rewrite list_lookup_fmap in Ha. destruct (l !! i) as [[a1 s]|] eqn:Hi; [|done].
  injection Ha as <-. destruct (Hs i a1 s e z Hi He Hz) as (Hh & Hle & Hn & Hch & Hrs).
  rewrite N.add_0_l in Hh. split_and!; [done..|].
  destruct (Hc a1 s) as (g0 & g1' & Hc'); [by eapply list_elem_of_lookup_2|].
  destruct (complete x w a1 s g0 g1' (restore c e) Hg Hw Hc' Hch) as (z' & Hz' & Hv). congruence.
Qed.

(** C27. Soundness of Fischlin proofs: the verifier accepts exactly the
    encodings of [rho] conversations whose challenges have the fixed length,
    hash to zero and are accepted by the protocol; and two accepted proofs with
    the same commitment in a repetition but different challenges give the
    witness: with the length fixed, different encodings are different
    challenges. *)
Theorem Fischlin_sound c wf ext sid x pf pf' t0 t0' As Es Zs As' Es' Zs' :
  Extractable (sigmaProtocol c) wf ext →
  UnmarshalCBOR codec pf = Ok (As, Es, Zs) → UnmarshalCBOR codec pf' = Ok (As', Es', Zs') →
  let V pf t0 := (Verify bytesX bytesA bytesZ codec sum sid c x (Some pf) t0).2 = Ok tt in
  (V pf t0 ↔ sized_proof c As Es Zs ∧ ∃ key t1,
     ExtractBytes commonHLabel 32 (key_state c x t0) = Ok (key, t1) ∧
     repetitions c x (common sid x As key) As Es Zs) ∧
  (∀ i a e z e' z', V pf t0 → V pf' t0' →
     As !! i = Some a → Es !! i = Some e → Zs !! i = Some z →
     As' !! i = Some a → Es' !! i = Some e' → Zs' !! i = Some z' →
     bytes_ok e → bytes_ok e' → wf z → wf z' → e ≠ e' →
     ∃ w, ext x a (restore c e) z (restore c e') z' = Ok w ∧
          ValidateStatement (sigmaProtocol c) x w = Ok tt).
Proof.
  intros Ex Hu Hu' V.
  assert (∀ pf t0 As Es Zs, UnmarshalCBOR codec pf = Ok (As, Es, Zs) → V pf t0 ↔
     sized_proof c As Es Zs ∧ ∃ key t1,
     ExtractBytes commonHLabel 32 (key_state c x t0) = Ok (key, t1) ∧
     repetitions c x (common sid x As key) As Es Zs) as HV.
  { clear -ext. intros pf t0 As Es Zs Hu.
    transitivity (∃ t', Verify bytesX bytesA bytesZ codec sum sid c x (Some pf) t0 = (t', Ok tt)).
    { unfold V. split; [|by intros [t' ->]]. destruct (Verify _ _ _ _ _ _ _ _ _ _) as [t' r].
      cbn. intros ->. eauto. }
    setoid_rewrite Verify_iff. rewrite Hu. split.
    - intros (t' & As' & Es' & Zs' & key & t1 & [= <- <- <-] & Hs & Hk & Hr & _). eauto 10.
    - intros (Hs & key & t1 & Hk & Hr). eexists _, As, Es, Zs, key, t1. done. }
  split; [by apply HV|]. intros i a e z e' z' (Hs & key & t1 & Hk & Hr)%(HV _ _ _ _ _ Hu)
    (Hs' & key' & t1' & Hk' & Hr')%(HV _ _ _ _ _ Hu') Ha He Hz Ha' He' Hz' B B' Wz Wz' Hne.
  destruct (Hr i a e z Ha He Hz) as (L & _ & Hle & Hv), (Hr' i a e' z' Ha' He' Hz') as (L' & _ & Hle' & Hv').
  assert (∀ e, length e ≤ GetChallengeBytesLength (sigmaProtocol c) → bytes_ok e →
    is_challenge (GetChallengeBytesLength (sigmaProtocol c)) (restore c e)) as Hch.
  { intros e0 Hl0 Hb. unfold restore. split; [rewrite length_app, length_replicate; lia|].
    apply Forall_app. split; [by apply Forall_replicate|done]. }
  apply Ex; auto. intros E. apply Hne. eapply restore_inj; [|exact E]. congruence.
Qed.

(** C28. The prover's loops end: a repetition finds the first challenge below
    [2^t] that hits and asks for a restart only when there is none, and the
    restarts stop at the first attempt that succeeds, whatever fuel exceeds
    their number. *)
Theorem Fischlin_terminates sid c x w key (ps : nat → P) k proof p' fuel :
  (∀ j, j < k → attempt bytesX bytesA bytesZ sum sid c x w key (ps j) = Ok (None, ps (S j))) →
  attempt bytesX bytesA bytesZ sum sid c x w key (ps k) = Ok (Some proof, p') →
  k < fuel →
  redo bytesX bytesA bytesZ sum fuel sid c x w key (ps 0) = Ok (Some (proof, p')) ∧
  ∀ commonH i aI s r,
    search bytesZ sum c x w commonH i aI s (N.to_nat (2 ^ t c)) 0 = Ok r →
    match r with
    | Some (e, z) => ∃ j, (j < 2 ^ t c)%N ∧ challengeBytesAndResponse c j x w aI s = Ok (e, z) ∧
        hit bytesZ sum c commonH i e z ∧
        ∀ j0, (j0 < j)%N → ∃ e0 z0, challengeBytesAndResponse c j0 x w aI s = Ok (e0, z0) ∧
          miss bytesZ sum c commonH i e0 z0
    | None => ∀ j0, (j0 < 2 ^ t c)%N → ∃ e0 z0,
        challengeBytesAndResponse c j0 x w aI s = Ok (e0, z0) ∧ miss bytesZ sum c commonH i e0 z0
    end.
Proof.
  intros Hf Hs Hk. split.
  - revert ps fuel Hf Hs Hk. induction k as [|k IH]; intros ps fuel Hf Hs Hk;
      (destruct fuel as [|fuel]; [lia|]); cbn [redo].
    + by rewrite Hs.
    + rewrite (Hf 0) by lia. cbn [mbind result_bind]. apply (IH (λ j, ps (S j))); [|done|lia].
      intros j Hj. apply Hf. lia.
  - intros commonH i aI s r Hr%search_spec. rewrite N2Nat.id in Hr. destruct r as [[e z]|].
    + destruct Hr as (j & Hj & Hc & Hh & Hm). exists j. split_and!; [lia|done|done|].
      intros j0 Hj0. apply Hm. lia.
    + intros j0 Hj0. apply Hr. lia.
Qed.

(** C29. The parameters of the compiler: it accepts exactly the protocols
    whose special soundness n has 2 <= n <= 2^(58 - b1) + 1, where the b1 bits
    per repetition make [rho * b1] at least the computational security level;
    b2 is the least number of bits with [n - 1 <= 2^b2]; the challenge space
    has 2^t elements with t = b1 + b2 + 5, so that the loop bound [1 << t] and
    the challenges fit 64 bits. *)
Theorem Fischlin_parameters (proto : Protocol X W A St Z P) :
  let n := SpecialSoundness proto in
  let b1 := ((128 + getRho (Sigma.Name proto) - 1) / getRho (Sigma.Name proto))%N in
  (n < 2 ^ 63)%N →
  (getRho (Sigma.Name proto) * b1 >= ComputationalSecurityBits)%N ∧
  if decide (2 <= n ∧ n - 1 <= 2 ^ (58 - b1))%N
  then ∃ c, NewCompiler (Some proto) (Some tt) = Ok c ∧ sigmaProtocol c = proto ∧
    rho c = getRho (Sigma.Name proto) ∧
    (∀ k, b c - b1 <= k ↔ n - 1 <= 2 ^ k)%N ∧ (b1 <= b c)%N ∧
    (t c = b c + 5)%N ∧ (2 ^ t c <= 2 ^ 63)%N ∧ eByteLen c ≤ 8
  else NewCompiler (Some proto) (Some tt) = Err ErrInvalid.
Proof.
  cbv zeta. intros Hn. unfold NewCompiler. set (n := SpecialSoundness proto) in *.
  assert (∃ r b1, getRho (Sigma.Name proto) = r ∧ (ComputationalSecurityBits + r - 1) / r = b1 ∧
    (r = 16 ∧ b1 = 8 ∨ r = 32 ∧ b1 = 4))%N as (r & b1 & -> & Hb1 & Hr).
  { unfold getRho, defaultRho. do 3 (case_match; [by eexists _, _; auto|]). by eexists _, _; auto. }
  unfold ComputationalSecurityBits in *. rewrite Hb1. split; [lia|].
  assert (∀ k, 2 <= n → CeilLog2 (Z.of_N n - 1) <= k ↔ n - 1 <= 2 ^ k)%N as Hc.
  { intros k Hn2. rewrite CeilLog2_spec by lia.
    pose proof (N2Z.inj_pow 2 k) as Hp. change (Z.of_N 2) with 2%Z in Hp. lia. }
  assert (n < 2 → CeilLog2 (Z.of_N n - 1) = 64)%N as Hc'.
  { intros Hn2. assert (n = 0 ∨ n = 1)%N as [-> | ->] by lia; reflexivity. }
  set (b2 := CeilLog2 (Z.of_N n - 1)) in *.
  assert ((64 <? r)%N = false) as -> by (apply N.ltb_ge; lia).
  assert ((r <? 2)%N = false) as -> by (apply N.ltb_ge; lia).
  assert ((b1 + b2 <? 2)%N = false) as -> by (apply N.ltb_ge; lia). cbn [orb].
  case_decide as Hd.
  - destruct Hd as [Hd1 Hd2]. apply (Hc (58 - b1)%N) in Hd2; [|lia].
    assert ((64 <=? b1 + b2 + 5)%N = false) as -> by (apply N.leb_gt; lia).
    eexists. split; [done|]. cbn. split_and!; try done; try lia.
    + intros k. rewrite <-Hc by lia. lia.
    + apply N.pow_le_mono_r; lia.
    + unfold eByteLen. cbn. pose proof (N.Div0.div_lt_upper_bound (b1 + b2 + 5 + 7) 8 9). lia.
  - assert ((64 <=? b1 + b2 + 5)%N = true) as ->; [apply N.leb_le|done].
    destruct (N.lt_ge_cases n 2) as [Hl|Hg]; [rewrite Hc' by done; lia|].
    destruct (N.le_gt_cases b2 (58 - b1)) as [Hle|Hgt]; [|lia].
    apply Hc in Hle; [|lia]. lia.
Qed.
End properties.

(** ** Concrete proofs *)

#[local] Instance ex_fischlin_transcript : Transcript Hagrid.transcript := Hagrid.hagrid ex_shake.

(** The parameters the compiler chooses for an unknown protocol. *)
Definition ex_fischlin := Fischlin.mkParams 16 8 13 (Maurer.protocol ex_maurer8).
Example ex_fischlin_compiled :
  Fischlin.NewCompiler (Some (Maurer.protocol ex_maurer8)) (Some tt) = Ok ex_fischlin.
Proof. reflexivity. Qed.

Definition ex_fischlin_prove :=
  Fischlin.Prove ex_bytesX ex_bytesA ex_bytesZ ex_rf_codec ex_zero_sum 1 [] ex_fischlin
    ex_statement (Some (Maurer.mkWitness (ex_of_num 42))) ex_rf_prng ex_tape.
Lemma Fischlin_complete_witness :
  match ex_fischlin_prove with
  | (t', Ok (Some (pf, _))) =>
      Fischlin.Verify ex_bytesX ex_bytesA ex_bytesZ ex_rf_codec ex_zero_sum [] ex_fischlin
        ex_statement (Some pf) ex_tape = (t', Ok tt)
  | _ => False
  end.
Proof.
  assert (match ex_fischlin_prove.2 with Ok (Some _) => True | _ => False end) as Hok.
  { vm_compute. exact I. }
  destruct ex_fischlin_prove as [t' [[[pf g']|]|e|]] eqn:E; [|destruct Hok..].
  eapply (Fischlin_complete ex_bytesX ex_bytesA ex_bytesZ ex_rf_codec ex_zero_sum ex_fischlin is_Some
    (Complete0 := maurer_complete ex_maurer8 (λ s, s)) 1 [] ex_statement
    (Some (Maurer.mkWitness (ex_of_num 42))) ex_rf_prng g').
  - done.
  - done.
  - reflexivity.
  - exact E.
Defined.

(** Two repetitions with one-byte challenges. *)
Definition ex_short := Fischlin.mkParams 2 8 8 ex_sigma.
Definition ex_two_proof (e z : N) : list N :=
  match MarshalCBOR ex_rf_codec (replicate 2 (Some (Maurer.mkCommitment (ex_of_num 5))),
    replicate 2 [e], replicate 2 (Some (Maurer.mkResponse (ex_of_num z)))) with Ok b => b | _ => [] end.
Lemma Fischlin_sound_witness :
  ∃ w, maurer_extract ex_maurer (Some (Maurer.mkStatement (ex_of_num 7)))
         (Some (Maurer.mkCommitment (ex_of_num 5))) [3%N] (Some (Maurer.mkResponse (ex_of_num 26)))
         [2%N] (Some (Maurer.mkResponse (ex_of_num 19))) = Ok w ∧
       Sigma.ValidateStatement ex_sigma (Some (Maurer.mkStatement (ex_of_num 7))) w = Ok tt.
Proof.
  destruct (Fischlin_sound ex_bytesX ex_bytesA ex_bytesZ ex_rf_codec ex_zero_sum ex_short
    (λ _, True) (maurer_extract ex_maurer) [] (Some (Maurer.mkStatement (ex_of_num 7)))
    (ex_two_proof 3 26) (ex_two_proof 2 19) ex_tape ex_tape
    (replicate 2 (Some (Maurer.mkCommitment (ex_of_num 5)))) (replicate 2 [3%N])
    (replicate 2 (Some (Maurer.mkResponse (ex_of_num 26))))
    (replicate 2 (Some (Maurer.mkCommitment (ex_of_num 5)))) (replicate 2 [2%N])
    (replicate 2 (Some (Maurer.mkResponse (ex_of_num 19))))) as [_ H].
  - apply ex_maurer_extractable.
  - reflexivity.
  - reflexivity.
  - apply (H 0 (Some (Maurer.mkCommitment (ex_of_num 5))) [3%N] (Some (Maurer.mkResponse (ex_of_num 26)))
      [2%N] (Some (Maurer.mkResponse (ex_of_num 19)))); try done.
    + repeat constructor.
    + repeat constructor.
Defined.

(** One repetition with two challenges, whose first attempt fails. *)
Definition ex_restart := Fischlin.mkParams 1 8 1 (Maurer.protocol ex_maurer8).
Lemma Fischlin_terminates_witness :
  is_ok (Fischlin.redo ex_bytesX ex_bytesA ex_bytesZ ex_parity_sum 2 [] ex_restart
    (Some (Maurer.mkStatement (ex_of_num 2))) (Some (Maurer.mkWitness (ex_of_num 2))) [] [1; 2]%N) = true.
Proof.
  destruct (Fischlin_terminates ex_bytesX ex_bytesA ex_bytesZ ex_parity_sum [] ex_restart
    (Some (Maurer.mkStatement (ex_of_num 2))) (Some (Maurer.mkWitness (ex_of_num 2))) []
    (λ j, drop j [1; 2]%N) 1 ([Some (Maurer.mkCommitment (ex_of_num 2))], [[0%N]],
      [Some (Maurer.mkResponse (ex_of_num 2))]) [] 2) as [H _].
  - intros [|j] Hj; [vm_compute; reflexivity|lia].
  - vm_compute. reflexivity.
  - lia.
  - change (drop 0 [1; 2]%N) with [1; 2]%N in H. by rewrite H.
Defined.

Lemma Fischlin_parameters_witness :
  ∃ c, Fischlin.NewCompiler (Some (Maurer.protocol ex_maurer8)) (Some tt) = Ok c ∧
       Fischlin.rho c = 16%N ∧ Fischlin.eByteLen c ≤ 8.
Proof.
  destruct (Fischlin_parameters (Maurer.protocol ex_maurer8)) as [_ H]; [reflexivity|].
  destruct (decide _) as [_|Hd]; [|destruct Hd; vm_compute; by split].
  destruct H as (c & Hc & _ & Hr & _ & _ & _ & _ & He). by exists c.
Defined.
