(* ===== verification/ZKCompiler.v ===== *)
(** * The zero-knowledge compiler (sigma/compiler/zk)

    A five-round protocol in which the verifier commits to its challenge
    before it sees the prover's commitment.  As in Sigma.v the participants
    are records whose methods guard on the round counter, and a session is any
    sequence of calls. *)

From Stdlib Require Import ZArith NArith Lia Zmod.
From stdpp Require Import strings.
From S2P Require Import Prelude Algebra AlgebraUtils BigInt IOUtils Sigma HashCom Maurer Hagrid FiatShamir RandFischlin.

Module ZK.
Import Sigma HashCom.

Definition transcriptLabel : string := "zkCompiler".
Definition statementLabel : string := "zkCompilerStatement".
Definition challengeCommitmentLabel : string := "zkCompilerChallengeCommitment".
Definition commitmentLabel : string := "zkCompilerCommitment".
Definition challengeLabel : string := "zkCompilerChallenge".
Definition responseLabel : string := "zkCompilerResponse".
Definition ckLabel : string := "zkCompilerCommitmentKey".
(** [k256Impl.FqBytes]. *)
Definition FqBytes : nat := 32.

Section zk.
Context {X W A S Z P T : Type} `{Reader P, Transcript T} (mac : list N → list N → list N).
Context (bytesX : X → list N) (bytesA : A → list N) (bytesZ : Z → list N) (nilW : W → bool).

(** The fields of [participant] that the two roles share; [None] is a field
    not assigned yet. *)
Record participant := mkParticipant {
  ctx : Context T; protocol : Protocol X W A S Z P; statement : X; commitment : option A;
  response : option Z; ck : Key; round : nat }.
Record Prover := mkProver {
  p_part : participant; p_challengeCommitment : list N; p_witness : W; p_state : option S }.
Record Verifier := mkVerifier {
  v_part : participant; v_challengeBytes : ChallengeBytes; v_eWitness : list N; v_prng : P }.

Definition newParticipant (octx : option (Context T)) (proto : option (Protocol X W A S Z P)) (x : X) :
    result participant :=
  match octx, proto with
  | None, _ => Err ErrInvalid
  | _, None => Err ErrNil
  | Some c, Some proto =>
      if (SoundnessError proto <? StatisticalSecurityBits)%N then Err ErrInvalid
      else if FqBytes <? GetChallengeBytesLength proto then Err ErrFailed
      else
        let dst := (transcriptLabel +:+ "-" +:+ Name proto +:+ "-"
                    +:+ EncodeToString (SessionID c))%string in
        let c := on_tape (AppendDomainSeparator dst) c in
        let c := on_tape (AppendBytes statementLabel [bytesX x]) c in
        '(ck, tp) ← ExtractCommitmentKey (Some (tape c)) ckLabel;
        Ok (mkParticipant (mkContext (SessionID c) tp) proto x None None ck 1)
  end.

(** Updates of the shared fields. *)
Definition on_ctx (f : T → T) (p : participant) : participant :=
  mkParticipant (on_tape f (ctx p)) (protocol p) (statement p) (commitment p) (response p) (ck p) (round p).
Definition next_round (p : participant) : participant :=
  mkParticipant (ctx p) (protocol p) (statement p) (commitment p) (response p) (ck p) (round p + 2).
Definition set_commitment (a : A) (p : participant) : participant :=
  mkParticipant (ctx p) (protocol p) (statement p) (Some a) (response p) (ck p) (round p).
Definition set_response (z : Z) (p : participant) : participant :=
  mkParticipant (ctx p) (protocol p) (statement p) (commitment p) (Some z) (ck p) (round p).

Definition NewProver (octx : option (Context T)) (proto : option (Protocol X W A S Z P)) (x : X) (w : W) :
    result Prover :=
  if nilW w then Err ErrNil
  else
    p ← newParticipant octx proto x;
    Ok (mkProver (mkParticipant (ctx p) (protocol p) (statement p) (commitment p) (response p) (ck p) 2)
          (replicate DigestSize 0%N) w None).
Definition NewVerifier (octx : option (Context T)) (proto : option (Protocol X W A S Z P)) (x : X)
    (prng : option P) : result Verifier :=
  match prng with
  | None => Err ErrNil
  | Some prng =>
      p ← newParticipant octx proto x;
      Ok (mkVerifier p None (replicate DigestSize 0%N) prng)
  end.

(** [Verifier.Round1]; a sampling error leaves only bytes that the next call
    overwrites in [challengeBytes]. *)
Definition Round1 (v : Verifier) : Verifier * result (list N) :=
  let p := v_part v in
  if negb (round p =? 1) then (v, Err ErrRound)
  else
    match read_full (GetChallengeBytesLength (protocol p)) (v_prng v) with
    | Ok (challengeBytes, prng) =>
        match Commit mac (Some (ck p)) (Some challengeBytes) (Some prng) with
        | Ok (eCommitment, eWitness, prng) =>
            (mkVerifier (next_round (on_ctx (AppendBytes challengeCommitmentLabel [eCommitment]) p))
               (Some challengeBytes) eWitness prng, Ok eCommitment)
        | Err e => (mkVerifier p (Some challengeBytes) (v_eWitness v) prng, Err e)
        | Panic => (mkVerifier p (Some challengeBytes) (v_eWitness v) prng, Panic)
        end
    | Err e => (v, Err e)
    | Panic => (v, Panic)
    end.

Definition Round2 (p : Prover) (eCommitment : list N) (prng : P) : Prover * result (A * P) :=
  if negb (round (p_part p) =? 2) then (p, Err ErrRound)
  else
    let part := on_ctx (AppendBytes challengeCommitmentLabel [eCommitment]) (p_part p) in
    let p := mkProver part eCommitment (p_witness p) (p_state p) in
    match ComputeProverCommitment (protocol part) (statement part) (p_witness p) prng with
    | Ok (a, state, prng) =>
        let part := on_ctx (AppendBytes commitmentLabel [bytesA a]) part in
        (mkProver (next_round (set_commitment a part)) eCommitment (p_witness p) (Some state), Ok (a, prng))
    | Err e => (p, Err e)
    | Panic => (p, Panic)
    end.

Definition Round3 (v : Verifier) (a : A) : Verifier * result (ChallengeBytes * list N) :=
  let p := v_part v in
  if negb (round p =? 3) then (v, Err ErrRound)
  else
    let p := on_ctx (AppendBytes commitmentLabel [bytesA a]) p in
    let p := on_ctx (AppendBytes challengeLabel [default [] (v_challengeBytes v)]) p in
    (mkVerifier (next_round (set_commitment a p)) (v_challengeBytes v) (v_eWitness v) (v_prng v),
     Ok (v_challengeBytes v, v_eWitness v)).

(** [Prover.Round4] records the challenge before it looks at the round. *)
Definition Round4 (p : Prover) (challenge : ChallengeBytes) (witness : list N) : Prover * result Z :=
  let part := on_ctx (AppendBytes challengeLabel [default [] challenge]) (p_part p) in
  let p := mkProver part (p_challengeCommitment p) (p_witness p) (p_state p) in
  if negb (round part =? 4) then (p, Err ErrRound)
  else
    match Open mac (Some (ck part)) (p_challengeCommitment p) challenge witness with
    | Ok _ =>
        match commitment part, p_state p with
        | Some a, Some state =>
            match ComputeProverResponse (protocol part) (statement part) (p_witness p) a state challenge with
            | Ok z =>
                let part := on_ctx (AppendBytes responseLabel [bytesZ z]) part in
                (mkProver (next_round (set_response z part)) (p_challengeCommitment p) (p_witness p)
                   (p_state p), Ok z)
            | Err e => (p, Err e)
            | Panic => (p, Panic)
            end
        | _, _ => (p, Panic)
        end
    | Err e => (p, Err e)
    | Panic => (p, Panic)
    end.

(** [Verifier.Verify], which leaves the round as it is. *)
Definition VerifyRound (v : Verifier) (z : Z) : Verifier * result unit :=
  let p := v_part v in
  if negb (round p =? 5) then (v, Err ErrRound)
  else
    let p := on_ctx (AppendBytes responseLabel [bytesZ z]) p in
    let v := mkVerifier p (v_challengeBytes v) (v_eWitness v) (v_prng v) in
    match commitment p with
    | None => (v, Panic)
    | Some a =>
        match Verify (protocol p) (statement p) a (v_challengeBytes v) z with
        | Ok _ => (v, Ok tt)
        | Err e => (v, Err e)
        | Panic => (v, Panic)
        end
    end.

(** ** Sessions *)

Inductive prover_call :=
  | CallRound2 (eCommitment : list N)
  | CallRound4 (challenge : ChallengeBytes) (witness : list N).
Inductive prover_output :=
  | Committed (eCommitment : list N) (a : A)
  | Answered (challenge : ChallengeBytes) (witness : list N) (z : Z).
Definition prover_step (st : Prover * P * list prover_output) (c : prover_call) :
    Prover * P * list prover_output :=
  let '(p, prng, out) := st in
  match c with
  | CallRound2 ec =>
      match Round2 p ec prng with
      | (p, Ok (a, prng)) => (p, prng, out ++ [Committed ec a])
      | (p, _) => (p, prng, out)
      end
  | CallRound4 e w =>
      match Round4 p e w with
      | (p, Ok z) => (p, prng, out ++ [Answered e w z])
      | (p, _) => (p, prng, out)
      end
  end.
Definition run_prover (p : Prover) (prng : P) (calls : list prover_call) :=
  foldl prover_step (p, prng, []) calls.

Inductive verifier_call := CallRound1 | CallRound3 (a : A) | CallVerify (z : Z).
Inductive verifier_output :=
  | ChallengeCommitted (eCommitment : list N)
  | ChallengeOpened (a : A) (challenge : ChallengeBytes) (witness : list N)
  | Accepted (z : Z).
Definition verifier_step (st : Verifier * list verifier_output) (c : verifier_call) :
    Verifier * list verifier_output :=
  let '(v, out) := st in
  match c with
  | CallRound1 =>
      match Round1 v with
      | (v, Ok ec) => (v, out ++ [ChallengeCommitted ec])
      | (v, _) => (v, out)
      end
  | CallRound3 a =>
      match Round3 v a with
      | (v, Ok (e, w)) => (v, out ++ [ChallengeOpened a e w])
      | (v, _) => (v, out)
      end
  | CallVerify z =>
      match VerifyRound v z with
      | (v, Ok _) => (v, out ++ [Accepted z])
      | (v, _) => (v, out)
      end
  end.
Definition run_verifier (v : Verifier) (calls : list verifier_call) :=
  foldl verifier_step (v, []) calls.
End zk.
Arguments participant : clear implicits.
Arguments Prover : clear implicits.
Arguments Verifier : clear implicits.
Arguments prover_call : clear implicits.
Arguments prover_output : clear implicits.
Arguments verifier_call : clear implicits.
Arguments verifier_output : clear implicits.
End ZK.

(** ** Invariants of the sessions *)

Section theory.
Import Sigma HashCom ZK.
Context {X W A S Z P T : Type} `{Reader P, Transcript T} (mac : list N → list N → list N).
Context (bytesX : X → list N) (bytesA : A → list N) (bytesZ : Z → list N) (nilW : W → bool).
Context (proto : Protocol X W A S Z P) (x : X) (key : list N).
Implicit Types (p : Prover X W A S Z P T) (v : Verifier X W A S Z P T).

Definition fixed (q : participant X W A S Z P T) : Prop :=
  protocol q = proto ∧ statement q = x ∧ ck q = key.

(** The states of a prover with witness [w] and what it has sent. *)
Inductive prover_inv (w : W) p : list (prover_output A Z) → Prop :=
  | pinv_start : round (p_part p) = 2 → prover_inv w p []
  | pinv_committed ec a s g g' :
      round (p_part p) = 4 → p_challengeCommitment p = ec → commitment (p_part p) = Some a →
      p_state p = Some s → ComputeProverCommitment proto x w g = Ok (a, s, g') →
      prover_inv w p [Committed ec a]
  | pinv_answered ec a s g g' e we z :
      round (p_part p) = 6 → ComputeProverCommitment proto x w g = Ok (a, s, g') →
      Open mac (Some key) ec e we = Ok tt → ComputeProverResponse proto x w a s e = Ok z →
      prover_inv w p [Committed ec a; Answered e we z].

Lemma zk_prover_step_inv w p g out c p' g' out' :
  fixed (p_part p) → p_witness p = w → prover_inv w p out →
  prover_step mac bytesA bytesZ (p, g, out) c = (p', g', out') →
  fixed (p_part p') ∧ p_witness p' = w ∧ prover_inv w p' out'.
Proof.
  intros (Hr & Hx & Hk) Hw Hinv. destruct c as [ec|e we]; cbn [prover_step].
  - unfold Round2. destruct (Nat.eqb_spec (round (p_part p)) 2) as [E2|E2]; cbn [negb].
    2: { intros [= <- <- <-]. done. }
    cbv zeta. cbn [on_ctx protocol statement p_witness]. rewrite Hr, Hx, Hw.
    destruct (ComputeProverCommitment proto x w g) as [[[a s] g1]| |] eqn:E;
      intros [= <- <- <-]; (split; [by split_and!|]); (split; [done|]);
      (inversion Hinv; [|congruence..]).
    + eapply pinv_committed; cbn; [lia|done..].
    + by constructor.
    + by constructor.
  - unfold Round4. cbn [on_ctx round p_part].
    destruct (Nat.eqb_spec (round (p_part p)) 4) as [E4|E4]; cbn [negb].
    2: { intros [= <- <- <-]. split; [by split_and!|]. split; [done|].
         inversion Hinv; [by constructor|congruence|by eapply pinv_answered]. }
    inversion Hinv as [E1|ec a s g0 g0' _ Hec Ha Hs Hc Eout|]; [congruence| |congruence].
    cbv zeta. cbn [on_ctx ck commitment protocol statement p_challengeCommitment p_state p_witness p_part].
    rewrite Hk, Hec, Ha, Hs, Hr, Hx, Hw.
    destruct (Open mac (Some key) ec e we) as [[]| |] eqn:Eo;
      [destruct (ComputeProverResponse proto x w a s e) as [z| |] eqn:E|..];
      intros [= <- <- <-]; (split; [by split_and!|]); (split; [done|]);
      try (by eapply pinv_committed).
    eapply pinv_answered; cbn; [lia|done..].
Qed.

Lemma zk_run_prover_inv w p g calls p' g' out :
  fixed (p_part p) → p_witness p = w → round (p_part p) = 2 →
  run_prover mac bytesA bytesZ p g calls = (p', g', out) →
  prover_inv w p' out.
Proof.
  intros Hf Hw H2 Hrun.
  assert (fixed (p_part p') ∧ p_witness p' = w ∧ prover_inv w p' out) as (_ & _ & ?); [|done].
  revert p' g' out Hrun. induction calls as [|c calls IH] using rev_ind; intros p' g' out.
  { intros [= <- <- <-]. split_and!; [done|done|by constructor]. }
  unfold run_prover. rewrite foldl_app. cbn [foldl].
  destruct (foldl _ _ calls) as [[p1 g1] out1] eqn:E. intros Hs.
  destruct (IH _ _ _ E) as (? & ? & ?). by eapply zk_prover_step_inv.
Qed.

(** The states of a verifier and what it has sent and accepted. *)
Inductive verifier_inv v : list (verifier_output A Z) → Prop :=
  | vinv_start : round (v_part v) = 1 → verifier_inv v []
  | vinv_committed ec e we :
      round (v_part v) = 3 → v_challengeBytes v = Some e → v_eWitness v = we →
      is_challenge (GetChallengeBytesLength proto) e → is_array DigestSize we →
      Open mac (Some key) ec (Some e) we = Ok tt →
      verifier_inv v [ChallengeCommitted ec]
  | vinv_opened ec e we a zs :
      round (v_part v) = 5 → v_challengeBytes v = Some e → commitment (v_part v) = Some a →
      is_challenge (GetChallengeBytesLength proto) e → is_array DigestSize we →
      Open mac (Some key) ec (Some e) we = Ok tt →
      Forall (λ z, Verify proto x a (Some e) z = Ok tt) zs →
      verifier_inv v ([ChallengeCommitted ec; ChallengeOpened a (Some e) we] ++ (Accepted <$> zs)).

Lemma zk_verifier_step_inv v out c v' out' :
  fixed (v_part v) → verifier_inv v out →
  verifier_step mac bytesA bytesZ (v, out) c = (v', out') →
  fixed (v_part v') ∧ verifier_inv v' out'.
Proof.
  intros (Hr & Hx & Hk) Hinv. destruct c as [|a|z]; cbn [verifier_step].
  - unfold Round1. destruct (Nat.eqb_spec (round (v_part v)) 1) as [E1|E1]; cbn [negb].
    2: { intros [= <- <-]. done. }
    inversion Hinv; [|congruence..]. rewrite Hr, Hk.
    destruct (read_full _ (v_prng v)) as [[e g]| |] eqn:Er.
    2-3: intros [= <- <-]; split; [done|by constructor].
    destruct (Commit mac (Some key) (Some e) (Some g)) as [[[ec we] g']| |] eqn:Ec;
      intros [= <- <-]; (split; [by split_and!|]); [|by constructor..].
    apply Commit_ok in Ec as [Ha Ho]. apply read_full_ok in Er.
    eapply vinv_committed; cbn; [lia|done..].
  - unfold Round3. destruct (Nat.eqb_spec (round (v_part v)) 3) as [E3|E3]; cbn [negb].
    2: { intros [= <- <-]. done. }
    inversion Hinv as [|ec e we _ He Hwe Hc Ha Ho Eo|]; [congruence| |congruence].
    rewrite He, Hwe. intros [= <- <-]. split; [by split_and!|].
    by apply (vinv_opened _ ec e we a []); cbn; auto with lia.
  - unfold VerifyRound. destruct (Nat.eqb_spec (round (v_part v)) 5) as [E5|E5]; cbn [negb].
    2: { intros [= <- <-]. done. }
    inversion Hinv as [| |ec e we a zs _ He Hcm Hc Ha Ho Hz Eo]; [congruence..|].
    cbv zeta. cbn [on_ctx commitment protocol statement v_challengeBytes]. rewrite Hcm, He, Hr, Hx.
    destruct (Verify proto x a (Some e) z) as [[]| |] eqn:Ev;
      intros [= <- <-]; (split; [by split_and!|]).
    + assert ((Accepted (A:=A) <$> zs) ++ [Accepted z] = Accepted <$> (zs ++ [z])) as Es.
      { by rewrite fmap_app. }
      cbn [app]. rewrite Es. eapply vinv_opened; cbn; try done.
      apply Forall_app. split; [done|by constructor].
    + by eapply vinv_opened.
    + by eapply vinv_opened.
Qed.

Lemma zk_run_verifier_inv v calls v' out :
  fixed (v_part v) → round (v_part v) = 1 →
  run_verifier mac bytesA bytesZ v calls = (v', out) → verifier_inv v' out.
Proof.
  intros Hf H1 Hrun.
  assert (fixed (v_part v') ∧ verifier_inv v' out) as [_ ?]; [|done].
  revert v' out Hrun. induction calls as [|c calls IH] using rev_ind; intros v' out.
  { intros [= <- <-]. split; [done|by constructor]. }
  unfold run_verifier. rewrite foldl_app. cbn [foldl].
  destruct (foldl _ _ calls) as [v1 out1] eqn:E. intros Hs.
  destruct (IH _ _ E). by eapply zk_verifier_step_inv.
Qed.

Lemma newParticipant_ok octx pr (q : participant X W A S Z P T) :
  newParticipant bytesX octx pr x = Ok q →
  ∃ c tp, octx = Some c ∧ pr = Some (protocol q) ∧
    q = mkParticipant (mkContext (SessionID c) tp) (protocol q) x None None (ck q) 1.
Proof.
  unfold newParticipant. destruct octx as [c|], pr as [r|]; try done.
  do 2 (case_match; [done|]). destruct (ExtractCommitmentKey _ _) as [[k tp]| |]; [|done..].
  cbn. intros [= <-]. eauto.
Qed.
End theory.

(** ** Properties *)

Section properties.
Import Sigma HashCom ZK.
Context {X W A S Z P T : Type} `{Reader P, Transcript T} (mac : list N → list N → list N).
Context (bytesX : X → list N) (bytesA : A → list N) (bytesZ : Z → list N) (nilW : W → bool).

(** C31. The zero-knowledge side: whatever calls a prover receives, it commits
    once and answers at most one challenge, which opens the challenge commitment
    received before its own commitment was made; so two sessions of one prover
    state (a verifier that rewinds it) that answer different challenges under
    one challenge commitment exhibit two inputs on which the keyed hash of the
    session collides. *)
Theorem ZK_prover_bound_challenge (proto : Protocol X W A S Z P) c x w (p : Prover X W A S Z P T) g calls p' g' out :
  NewProver bytesX nilW (Some c) (Some proto) x w = Ok p →
  run_prover mac bytesA bytesZ p g calls = (p', g', out) →
  (out = [] ∨ ∃ ec a s g0 g1, ComputeProverCommitment proto x w g0 = Ok (a, s, g1) ∧
     (out = [Committed ec a] ∨ ∃ e we z, out = [Committed ec a; Answered e we z] ∧
        Open mac (Some (ck (p_part p))) ec e we = Ok tt ∧
        ComputeProverResponse proto x w a s e = Ok z)) ∧
  ∀ h calls2 p2 g2 ec a a2 e e2 we we2 z z2,
    run_prover mac bytesA bytesZ p h calls2 = (p2, g2, [Committed ec a2; Answered e2 we2 z2]) →
    out = [Committed ec a; Answered e we z] → e ≠ e2 →
    is_array DigestSize we → is_array DigestSize we2 →
    ∃ d d', d ≠ d' ∧ mac (ck (p_part p)) d = ec ∧ mac (ck (p_part p)) d' = ec.
Proof.
  unfold NewProver. destruct (nilW w); [done|].
  destruct (newParticipant bytesX (Some c) (Some proto) x) as [q| |] eqn:Eq; [|done..].
  cbn [mbind result_bind]. intros [= <-] Hrun. cbn [p_part ck].
  apply newParticipant_ok in Eq as (c' & tp & _ & [= Ep] & Eq).
  assert (∀ h calls2 p2 g2 out2,
    run_prover mac bytesA bytesZ (mkProver (mkParticipant (ctx q) (protocol q) (statement q)
      (commitment q) (response q) (ck q) 2) (replicate DigestSize 0%N) w None) h calls2 = (p2, g2, out2) →
    prover_inv mac proto x (ck q) w p2 out2) as Hinv.
  { intros h calls2 p2 g2 out2 Hr.
    apply (zk_run_prover_inv mac bytesA bytesZ proto x (ck q) w) in Hr; [done| |done|done].
    split_and!; [by rewrite Ep|cbn; by rewrite Eq|done]. }
  split.
  - apply Hinv in Hrun.
    inversion Hrun as [|ec a s g0 g1 _ _ _ _ Hc Eo|ec a s g0 g1 e we z _ Hc Ho Hz Eo]; [by left|right..];
      exists ec, a, s, g0, g1; (split; [done|]); [by left|right; by exists e, we, z].
  - intros h calls2 p2 g2 ec a a2 e e2 we we2 z z2 Hr2 -> Hne Hw Hw2.
    apply Hinv in Hrun, Hr2. inversion Hrun; subst. inversion Hr2; subst.
    destruct (Open_binding mac (Some (ck q)) ec e we e2 we2) as (k & d & d' & [= <-] & ? & ? & ?); eauto.
Qed.

(** The soundness side: what a verifier accepts, whatever calls it
    receives, are responses that the protocol verifies for one commitment and
    one challenge; the challenge has the length the protocol announces, was
    committed before the commitment arrived and is what the prover was given
    to open. *)
Theorem ZK_verifier_accepts (proto : Protocol X W A S Z P) c x g (v : Verifier X W A S Z P T) calls v' out z :
  NewVerifier bytesX (Some c) (Some proto) x (Some g) = Ok v →
  run_verifier mac bytesA bytesZ v calls = (v', out) → Accepted z ∈ out →
  ∃ ec e we a zs,
    out = [ChallengeCommitted ec; ChallengeOpened a (Some e) we] ++ (Accepted <$> zs) ∧
    is_challenge (GetChallengeBytesLength proto) e ∧
    Open mac (Some (ck (v_part v))) ec (Some e) we = Ok tt ∧
    ∀ z, z ∈ zs → Verify proto x a (Some e) z = Ok tt.
Proof.
  unfold NewVerifier.
  destruct (newParticipant bytesX (Some c) (Some proto) x) as [q| |] eqn:Eq; [|done..].
  cbn [mbind result_bind]. intros [= <-] Hrun Hin. cbn [v_part].
  apply newParticipant_ok in Eq as (c' & tp & _ & [= Ep] & Eq).
  apply (zk_run_verifier_inv mac bytesA bytesZ proto x (ck q)) in Hrun.
  - inversion Hrun as [E1 Eo|ec e we _ _ _ _ _ _ Eo|ec e we a zs _ _ _ Hc Ha Ho Hz Eo]; subst out.
    + by apply not_elem_of_nil in Hin.
    + by apply list_elem_of_singleton in Hin.
    + exists ec, e, we, a, zs. split_and!; [done..|]. by apply Forall_forall.
  - split_and!; [done| |done]. cbn. by rewrite Eq.
  - cbn. by rewrite Eq.
Qed.

(** C32. The honest run: when the verifier could sample and commit to its
    challenge and the prover could sample its commitment, the challenge is
    opened, the prover answers it, the verifier accepts the answer, and the two
    parties hold the same transcript. *)
Theorem ZK_complete (proto : Protocol X W A S Z P) good `{!Complete proto good} c x w p v g gv g' v1 p1 ec a :
  good x → ValidateStatement proto x w = Ok tt →
  NewProver bytesX nilW (Some c) (Some proto) x w = Ok p →
  NewVerifier bytesX (Some c) (Some proto) x (Some gv) = Ok v →
  Round1 mac v = (v1, Ok ec) → Round2 bytesA p ec g = (p1, Ok (a, g')) →
  ∃ v2 e we p2 z v3,
    Round3 bytesA v1 a = (v2, Ok (e, we)) ∧ Round4 mac bytesZ p1 e we = (p2, Ok z) ∧
    VerifyRound bytesZ v2 z = (v3, Ok tt) ∧
    tape (ctx (p_part p2)) = tape (ctx (v_part v3)).
Proof.
  intros Hg Hw. unfold NewProver, NewVerifier. destruct (nilW w); [done|].
  destruct (newParticipant bytesX (Some c) (Some proto) x) as [q| |] eqn:Eq; [|done..].
  cbn [mbind result_bind]. intros [= <-] [= <-].
  apply newParticipant_ok in Eq as (c' & tp & _ & [= Ep] & Eq). rewrite Eq, <-Ep. clear Eq Ep.
  unfold Round1. cbn [v_part round negb Nat.eqb protocol v_prng ck].
  destruct (read_full _ gv) as [[e g1]| |] eqn:Er; [|done..].
  destruct (Commit mac (Some (ck q)) (Some e) (Some g1)) as [[[ec' we] g2]| |] eqn:Ec; [|done..].
  intros [= <- <-]. apply Commit_ok in Ec as [_ Ho]. apply read_full_ok in Er as He.
  unfold Round2. cbn [p_part round negb Nat.eqb on_ctx protocol statement p_witness].
  destruct (ComputeProverCommitment proto x w g) as [[[a' s] g3]| |] eqn:Ea; [|done..].
  intros [= <- <- <-].
  destruct (complete x w a' s g g3 e Hg Hw Ea He) as (z & Hz & Hv).
  unfold Round3. cbn. eexists _, (Some e), we, _, z, _. split; [done|].
  unfold Round4. cbn [p_part on_ctx next_round set_commitment round negb Nat.eqb plus ck
    p_challengeCommitment commitment p_state protocol statement p_witness]. cbn in Ho |- *. rewrite Ho. cbn. rewrite Hz. split; [done|].
  unfold VerifyRound. cbn. rewrite Hv. split; reflexivity.
Qed.
End properties.

(** A call of [Round4] outside its round fails, but has already recorded its
    argument on the prover's transcript. *)
Lemma Round4_records_rejected {X W A S Z P T} `{Reader P, Transcript T} mac (bytesZ : Z → list N)
    (p : ZK.Prover X W A S Z P T) e we :
  ZK.round (ZK.p_part p) ≠ 4 →
  ZK.Round4 mac bytesZ p (Some e) we =
    (ZK.mkProver (ZK.on_ctx (AppendBytes ZK.challengeLabel [e]) (ZK.p_part p))
       (ZK.p_challengeCommitment p) (ZK.p_witness p) (ZK.p_state p), Err ErrRound).
Proof. intros Hr. unfold ZK.Round4. cbn. by destruct (Nat.eqb_spec (ZK.round (ZK.p_part p)) 4). Qed.

(** ** A session over the eight-byte protocol *)

#[local] Instance ex_zk_transcript : Transcript Hagrid.transcript := Hagrid.hagrid ex_shake.
Definition ex_zk_mac (k m : list N) : list N := replicate 32 (foldl N.add 0 (k ++ m))%N.
Definition ex_zk_ctx : Context Hagrid.transcript := mkContext [1%N; 2%N] ex_tape.
Definition ex_zk_proto := Maurer.protocol ex_maurer8.
Definition ex_zk_w := Some (Maurer.mkWitness (ex_of_num 42)).
Definition ex_zk_part (r : nat) : ZK.participant _ _ _ _ _ (list N) Hagrid.transcript :=
  match ZK.newParticipant ex_bytesX (Some ex_zk_ctx) (Some ex_zk_proto) ex_statement with
  | Ok q => ZK.mkParticipant (ZK.ctx q) (ZK.protocol q) (ZK.statement q) None None (ZK.ck q) r
  | _ => ZK.mkParticipant ex_zk_ctx ex_zk_proto ex_statement None None [] r
  end.
Definition ex_zk_prover := ZK.mkProver (ex_zk_part 2) (replicate 32 0%N) ex_zk_w None.
Definition ex_zk_prng : list N := replicate 40 5%N.
Definition ex_zk_verifier := ZK.mkVerifier (ex_zk_part 1) None (replicate 32 0%N) ex_zk_prng.
Definition ex_zk_commitment : list N :=
  ex_zk_mac (ZK.ck (ex_zk_part 1)) (replicate 40 5%N).
Definition ex_zk_a := Some (Maurer.mkCommitment (ex_of_num 7)).
Definition ex_zk_z := Some (Maurer.mkResponse
  (radd (ex_of_num 7) (rmul (ex_of_num (Z.to_N (SetBytes (replicate 8 5%N) mod 257))) (ex_of_num 42)))).

Lemma ex_zk_prover_new :
  ZK.NewProver ex_bytesX ex_nil (Some ex_zk_ctx) (Some ex_zk_proto) ex_statement ex_zk_w = Ok ex_zk_prover.
Proof. reflexivity. Qed.
Lemma ex_zk_verifier_new :
  ZK.NewVerifier ex_bytesX (Some ex_zk_ctx) (Some ex_zk_proto) ex_statement (Some ex_zk_prng)
  = Ok ex_zk_verifier.
Proof. reflexivity. Qed.

Definition ex_zk_calls : list (ZK.prover_call) :=
  [ZK.CallRound4 None []; ZK.CallRound2 ex_zk_commitment;
   ZK.CallRound4 (Some (replicate 8 6%N)) (replicate 32 5%N);
   ZK.CallRound4 (Some (replicate 8 5%N)) (replicate 32 5%N)].

Lemma ZK_prover_bound_challenge_witness :
  ∃ p g a s g0 g1 e we z,
    ZK.run_prover ex_zk_mac ex_bytesA ex_bytesZ ex_zk_prover [7%N] ex_zk_calls
      = (p, g, [ZK.Committed ex_zk_commitment a; ZK.Answered e we z]) ∧
    Sigma.ComputeProverResponse ex_zk_proto ex_statement ex_zk_w a s e = Ok z ∧
    Sigma.ComputeProverCommitment ex_zk_proto ex_statement ex_zk_w g0 = Ok (a, s, g1).
Proof.
  pose proof (λ p g out, ZK_prover_bound_challenge ex_zk_mac ex_bytesX ex_bytesA ex_bytesZ ex_nil
    ex_zk_proto ex_zk_ctx ex_statement ex_zk_w ex_zk_prover [7%N] ex_zk_calls p g out ex_zk_prover_new) as H.
  destruct (ZK.run_prover _ _ _ _ _ _) as [[p g] out] eqn:E.
  assert (length out = 2 ∧ head out = Some (ZK.Committed ex_zk_commitment ex_zk_a)) as [Hl Hin].
  { change out with (p, g, out).2. rewrite <-E. vm_compute. split; reflexivity. }
  destruct (H p g out eq_refl) as [[->|(ec & a & s & g0 & g1 & Hc & [->|(e & we & z & -> & _ & Hz)])] _];
    [discriminate Hl..|].
  assert (ec = ex_zk_commitment) as ->.
  { cbn [head] in Hin. congruence. }
  exists p, g, a, s, g0, g1, e, we, z. split; [reflexivity|split; [exact Hz|exact Hc]].
Defined.

Definition ex_zk_verifier_calls : list (ZK.verifier_call _ _) :=
  [ZK.CallVerify ex_zk_z; ZK.CallRound1; ZK.CallRound3 ex_zk_a; ZK.CallVerify ex_zk_z; ZK.CallVerify None].
Abbreviation ex_zk_session :=
  (ZK.run_verifier ex_zk_mac ex_bytesA ex_bytesZ ex_zk_verifier ex_zk_verifier_calls).
Lemma ex_zk_session_output : ex_zk_session.2 =
  [ZK.ChallengeCommitted ex_zk_commitment;
   ZK.ChallengeOpened ex_zk_a (Some (replicate 8 5%N)) (replicate 32 5%N); ZK.Accepted ex_zk_z].
Proof. vm_compute. reflexivity. Qed.

Lemma ZK_verifier_accepts_witness :
  ∃ ec e we a zs,
    ex_zk_session.2 = [ZK.ChallengeCommitted ec; ZK.ChallengeOpened a (Some e) we] ++ (ZK.Accepted <$> zs) ∧
    Sigma.is_challenge (Sigma.GetChallengeBytesLength ex_zk_proto) e ∧
    HashCom.Open ex_zk_mac (Some (ZK.ck (ZK.v_part ex_zk_verifier))) ec (Some e) we = Ok tt ∧
    ∀ z, z ∈ zs → Sigma.Verify ex_zk_proto ex_statement a (Some e) z = Ok tt.
Proof.
  pose proof ex_zk_session_output as Ho. destruct ex_zk_session as [v' out] eqn:E. cbn [snd] in Ho |- *.
  apply (ZK_verifier_accepts ex_zk_mac ex_bytesX ex_bytesA ex_bytesZ ex_zk_proto ex_zk_ctx
    ex_statement ex_zk_prng ex_zk_verifier ex_zk_verifier_calls v' out ex_zk_z ex_zk_verifier_new E).
  rewrite Ho. right. right. left.
Defined.

Lemma ZK_complete_witness :
  ∃ v2 e we p2 z v3,
    ZK.Round3 ex_bytesA (ZK.Round1 ex_zk_mac ex_zk_verifier).1 ex_zk_a = (v2, Ok (e, we)) ∧
    ZK.Round4 ex_zk_mac ex_bytesZ (ZK.Round2 ex_bytesA ex_zk_prover ex_zk_commitment [7%N]).1 e we = (p2, Ok z) ∧
    ZK.VerifyRound ex_bytesZ v2 z = (v3, Ok tt) ∧
    tape (ZK.ctx (ZK.p_part p2)) = tape (ZK.ctx (ZK.v_part v3)).
Proof.
  apply (ZK_complete ex_zk_mac ex_bytesX ex_bytesA ex_bytesZ ex_nil ex_zk_proto is_Some
    (Complete0 := maurer_complete ex_maurer8 (λ s, s)) ex_zk_ctx ex_statement ex_zk_w ex_zk_prover
    ex_zk_verifier [7%N] ex_zk_prng [] _ _ ex_zk_commitment ex_zk_a).
  - done.
  - reflexivity.
  - exact ex_zk_prover_new.
  - exact ex_zk_verifier_new.
  - apply injective_projections; [reflexivity|vm_compute; reflexivity].
  - apply injective_projections; [reflexivity|vm_compute; reflexivity].
Defined.
