(* ===== verification/SigAnd.v ===== *)
(** * AND composition of sigma protocols (pkg/proofs/sigma/compose/sigand)

    [Cartesian] is the binary composition of two protocols (cartesian.go),
    which run on prefixes of one challenge; [Power] is the n-fold composition
    of one protocol (and.go), whose branches run as goroutines.  A goroutine
    group is modelled by the order in which its members run: [order] lists the
    indices, each member runs as a whole, and results land in the slot of
    their index; the theorems hold for every order. *)

From Stdlib Require Import ZArith NArith Lia.
From stdpp Require Import strings.
From S2P Require Import Prelude Algebra AlgebraUtils Sigma Maurer.

(** [errgroup.Group] over [range n]: member [i] computes slot [i] from the
    shared source of randomness. *)
Definition run_group {R P} (order : list nat) (f : nat → P → result (R * P)) (prng : P) :
    result (list (nat * R) * P) :=
  foldM (λ '(out, prng) i, '(r, prng) ← f i prng; Ok (out ++ [(i, r)], prng)) ([], prng) order.

(** The slice filled by a group: slot [i] holds the result of member [i]. *)
Definition slots {R} (n : nat) (out : list (nat * R)) : list R :=
  omap (λ i, (list_to_map out : gmap nat R) !! i) (seq 0 n).

(** A group whose members do not read the shared source. *)
Definition run_pure {R} (n : nat) (order : list nat) (f : nat → result R) : result (list R) :=
  '(out, _) ← run_group order (λ i (u : unit), r ← f i; Ok (r, u)) tt; Ok (slots n out).

Section groups.
Context {R P : Type}.
Implicit Types (order : list nat) (f : nat → P → result (R * P)).

Lemma run_group_ok order f prng out prng' :
  run_group order f prng = Ok (out, prng') →
  out.*1 = order ∧ Forall (λ p, ∃ q q', f p.1 q = Ok (p.2, q')) out.
Proof.
  revert out prng'. induction order as [|i order IH] using rev_ind; intros out prng'.
  { intros [= <- <-]. done. }
  unfold run_group. rewrite foldM_app. cbn [foldM]. intros E. simplify_res.
  match goal with E : foldM _ _ order = Ok ?q |- _ => destruct q as [out' q'] end.
  simplify_res. match goal with E : f i _ = Ok ?q |- _ => destruct q as [r q''] end.
  simplify_res. destruct (IH _ _ ltac:(eassumption)) as [E1 E2]. split.
  - by rewrite fmap_app, E1.
  - apply Forall_app. split; [done|]. repeat constructor. cbn. eauto.
Qed.

Lemma slots_of n (out : list (nat * R)) :
  out.*1 ≡ₚ seq 0 n →
  length (slots n out) = n ∧
  ∀ i, i < n → ∃ r, slots n out !! i = Some r ∧ (i, r) ∈ out.
Proof.
  intros Hp.
  assert (NoDup out.*1) as Hnd by (rewrite Hp; apply NoDup_seq).
  set (m := list_to_map out : gmap nat R).
  assert (∀ i, i < n → ∃ r, m !! i = Some r ∧ (i, r) ∈ out) as Hm.
  { intros i Hi. assert (i ∈ out.*1) as ([j r] & -> & Hr)%list_elem_of_fmap.
    { rewrite Hp. apply elem_of_seq. lia. }
    exists r. split; [|done]. by apply elem_of_list_to_map. }
  assert (∀ k, k ≤ n → length (omap (λ i, m !! i) (seq 0 k)) = k ∧
    ∀ i, i < k → ∃ r, omap (λ i, m !! i) (seq 0 k) !! i = Some r ∧ (i, r) ∈ out) as Hk.
  { induction k as [|k IH]; intros Hk; [split; [done|lia]|].
    destruct IH as [IHl IH]; [lia|]. rewrite seq_S, omap_app. cbn.
    destruct (Hm k) as (r & -> & Hr); [lia|]. rewrite length_app, IHl. cbn.
    split; [lia|]. intros i Hi. destruct (decide (i = k)) as [->|].
    - exists r. rewrite lookup_app_r by lia. rewrite IHl, Nat.sub_diag. done.
    - destruct (IH i) as (r' & Hr' & ?); [lia|]. exists r'. split; [|done].
      by apply lookup_app_l_Some. }
  by apply Hk.
Qed.

Lemma run_group_slots n order f prng out prng' :
  order ≡ₚ seq 0 n → run_group order f prng = Ok (out, prng') →
  length (slots n out) = n ∧
  ∀ i, i < n → ∃ r q q', slots n out !! i = Some r ∧ f i q = Ok (r, q').
Proof.
  intros Hp [E1 E2]%run_group_ok. destruct (slots_of n out) as [Hl Hs]; [by rewrite E1|].
  split; [done|]. intros i Hi. destruct (Hs i Hi) as (r & Hr & Hin).
  rewrite Forall_forall in E2. destruct (E2 _ Hin) as (q & q' & ?). eauto.
Qed.
End groups.

Lemma run_pure_ok {R} n order (f : nat → result R) rs :
  order ≡ₚ seq 0 n → run_pure n order f = Ok rs →
  length rs = n ∧ ∀ i, i < n → ∃ r, rs !! i = Some r ∧ f i = Ok r.
Proof.
  intros Hp E. unfold run_pure in E. simplify_res.
  match goal with E : run_group _ _ _ = Ok ?q |- _ => destruct q as [out u]; pose proof E as E' end.
  simplify_res. destruct (run_group_slots n _ _ _ _ _ Hp E') as [Hl Hs].
  split; [done|]. intros i Hi. destruct (Hs i Hi) as (r & q & q' & Hr & Hf). simplify_res. eauto.
Qed.

(** A group succeeds as soon as every member does. *)
Lemma run_pure_total {R} n order (f : nat → result R) :
  order ≡ₚ seq 0 n → (∀ i, i < n → ∃ r, f i = Ok r) → ∃ rs, run_pure n order f = Ok rs.
Proof.
  intros Hp Hf.
  assert (∀ i, i ∈ order → ∃ r, f i = Ok r) as Hf'.
  { intros i Hi. apply Hf. rewrite Hp, elem_of_seq in Hi. lia. }
  clear Hp Hf. unfold run_pure, run_group.
  assert (∀ acc, ∃ out, foldM (λ '(out, prng) i, '(r, prng) ← (r ← f i; Ok (r, prng));
    Ok (out ++ [(i, r)], prng)) (acc, tt) order = Ok (out, tt)) as H.
  { induction order as [|i order IH]; intros acc; cbn; [by eexists|].
    destruct (Hf' i) as [r ->]; [by constructor|]. cbn. apply IH.
    intros j Hj. apply Hf'. by constructor. }
  destruct (H []) as [out ->]. cbn. eauto.
Qed.

(** ** Binary composition (cartesian.go) *)

Module Cartesian.
Import Sigma.

Record StatementCartesian (X0 X1 : Type) := mkStatement { X0_ : X0; X1_ : X1 }.
Record WitnessCartesian (W0 W1 : Type) := mkWitness { W0_ : W0; W1_ : W1 }.
Record CommitmentCartesian (A0 A1 : Type) := mkCommitment { A0_ : A0; A1_ : A1 }.
Record StateCartesian (S0 S1 : Type) := mkState { S0_ : S0; S1_ : S1 }.
Record ResponseCartesian (Z0 Z1 : Type) := mkResponse { Z0_ : Z0; Z1_ : Z1 }.
Arguments mkStatement {X0 X1}. Arguments X0_ {X0 X1}. Arguments X1_ {X0 X1}.
Arguments mkWitness {W0 W1}. Arguments W0_ {W0 W1}. Arguments W1_ {W0 W1}.
Arguments mkCommitment {A0 A1}. Arguments A0_ {A0 A1}. Arguments A1_ {A0 A1}.
Arguments mkState {S0 S1}. Arguments S0_ {S0 S1}. Arguments S1_ {S0 S1}.
Arguments mkResponse {Z0 Z1}. Arguments Z0_ {Z0 Z1}. Arguments Z1_ {Z0 Z1}.

Definition CartesianComposeStatements {X0 X1} (statement0 : option X0) (statement1 : option X1) :
    result (StatementCartesian X0 X1) :=
  match statement0, statement1 with
  | Some x0, Some x1 => Ok (mkStatement x0 x1)
  | _, _ => Err ErrInvalidArgument
  end.
Definition CartesianComposeWitnesses {W0 W1} (witness0 : option W0) (witness1 : option W1) :
    result (WitnessCartesian W0 W1) :=
  match witness0, witness1 with
  | Some w0, Some w1 => Ok (mkWitness w0 w1)
  | _, _ => Err ErrInvalidArgument
  end.

Section cartesian.
Context {X0 X1 W0 W1 A0 A1 S0 S1 Z0 Z1 P : Type}.

Record ProtocolCartesian := mkProtocol {
  name : string;
  sigma0 : Protocol X0 W0 A0 S0 Z0 P;
  sigma1 : Protocol X1 W1 A1 S1 Z1 P;
  challengeBytesLength : nat }.

Definition CartesianComposeNamed (name : string) (sigma0 : option (Protocol X0 W0 A0 S0 Z0 P))
    (sigma1 : option (Protocol X1 W1 A1 S1 Z1 P)) : result ProtocolCartesian :=
  match sigma0, sigma1 with
  | Some sigma0, Some sigma1 =>
      Ok (mkProtocol name sigma0 sigma1
            (max (GetChallengeBytesLength sigma0) (GetChallengeBytesLength sigma1)))
  | _, _ => Err ErrIsNil
  end.

Definition CartesianCompose (sigma0 : option (Protocol X0 W0 A0 S0 Z0 P))
    (sigma1 : option (Protocol X1 W1 A1 S1 Z1 P)) : result ProtocolCartesian :=
  match sigma0, sigma1 with
  | Some s0, Some s1 =>
      CartesianComposeNamed ("(" +:+ Name s0 +:+ ")_AND_(" +:+ Name s1 +:+ ")")%string sigma0 sigma1
  | _, _ => Err ErrIsNil
  end.

(** The methods dereference their pointers without a test: nil panics. *)
Definition ComputeProverCommitment (p : ProtocolCartesian)
    (statement : option (StatementCartesian X0 X1)) (witness : option (WitnessCartesian W0 W1))
    (prng : P) : result (option (CommitmentCartesian A0 A1) * option (StateCartesian S0 S1) * P) :=
  match statement, witness with
  | Some x, Some w =>
      '(a0, s0, prng) ← Sigma.ComputeProverCommitment (sigma0 p) (X0_ x) (W0_ w) prng;
      '(a1, s1, prng) ← Sigma.ComputeProverCommitment (sigma1 p) (X1_ x) (W1_ w) prng;
      Ok (Some (mkCommitment a0 a1), Some (mkState s0 s1), prng)
  | _, _ => Panic
  end.

Definition ComputeProverResponse (p : ProtocolCartesian)
    (statement : option (StatementCartesian X0 X1)) (witness : option (WitnessCartesian W0 W1))
    (commitment : option (CommitmentCartesian A0 A1)) (state : option (StateCartesian S0 S1))
    (challengeBytes : ChallengeBytes) : result (option (ResponseCartesian Z0 Z1)) :=
  match statement, witness, commitment, state with
  | Some x, Some w, Some a, Some s =>
      e0 ← slice_to challengeBytes (GetChallengeBytesLength (sigma0 p));
      z0 ← Sigma.ComputeProverResponse (sigma0 p) (X0_ x) (W0_ w) (A0_ a) (S0_ s) e0;
      e1 ← slice_to challengeBytes (GetChallengeBytesLength (sigma1 p));
      z1 ← Sigma.ComputeProverResponse (sigma1 p) (X1_ x) (W1_ w) (A1_ a) (S1_ s) e1;
      Ok (Some (mkResponse z0 z1))
  | _, _, _, _ => Panic
  end.

Definition Verify (p : ProtocolCartesian) (statement : option (StatementCartesian X0 X1))
    (commitment : option (CommitmentCartesian A0 A1)) (challengeBytes : ChallengeBytes)
    (response : option (ResponseCartesian Z0 Z1)) : result unit :=
  match statement, commitment, response with
  | Some x, Some a, Some z =>
      e0 ← slice_to challengeBytes (GetChallengeBytesLength (sigma0 p));
      _ ← Sigma.Verify (sigma0 p) (X0_ x) (A0_ a) e0 (Z0_ z);
      e1 ← slice_to challengeBytes (GetChallengeBytesLength (sigma1 p));
      Sigma.Verify (sigma1 p) (X1_ x) (A1_ a) e1 (Z1_ z)
  | _, _, _ => Panic
  end.

Definition RunSimulator (p : ProtocolCartesian) (statement : option (StatementCartesian X0 X1))
    (challengeBytes : ChallengeBytes) (prng : P) :
    result (option (CommitmentCartesian A0 A1) * option (ResponseCartesian Z0 Z1) * P) :=
  match statement with
  | Some x =>
      e0 ← slice_to challengeBytes (GetChallengeBytesLength (sigma0 p));
      '(a0, z0, prng) ← Sigma.RunSimulator (sigma0 p) (X0_ x) e0 prng;
      e1 ← slice_to challengeBytes (GetChallengeBytesLength (sigma1 p));
      '(a1, z1, prng) ← Sigma.RunSimulator (sigma1 p) (X1_ x) e1 prng;
      Ok (Some (mkCommitment a0 a1), Some (mkResponse z0 z1), prng)
  | None => Panic
  end.

Definition ValidateStatement (p : ProtocolCartesian) (statement : option (StatementCartesian X0 X1))
    (witness : option (WitnessCartesian W0 W1)) : result unit :=
  match statement, witness with
  | Some x, Some w =>
      _ ← Sigma.ValidateStatement (sigma0 p) (X0_ x) (W0_ w);
      Sigma.ValidateStatement (sigma1 p) (X1_ x) (W1_ w)
  | _, _ => Panic
  end.

Definition protocol (p : ProtocolCartesian) :
    Protocol (option (StatementCartesian X0 X1)) (option (WitnessCartesian W0 W1))
      (option (CommitmentCartesian A0 A1)) (option (StateCartesian S0 S1))
      (option (ResponseCartesian Z0 Z1)) P :=
  {| Sigma.Name := name p;
     Sigma.ComputeProverCommitment := ComputeProverCommitment p;
     Sigma.ComputeProverResponse := ComputeProverResponse p;
     Sigma.Verify := Verify p;
     Sigma.RunSimulator := RunSimulator p;
     Sigma.SpecialSoundness := N.max (SpecialSoundness (sigma0 p)) (SpecialSoundness (sigma1 p));
     Sigma.SoundnessError := N.min (SoundnessError (sigma0 p)) (SoundnessError (sigma1 p));
     Sigma.GetChallengeBytesLength := challengeBytesLength p;
     Sigma.ValidateStatement := ValidateStatement p |}.
End cartesian.
Arguments ProtocolCartesian : clear implicits.
End Cartesian.

(** ** n-fold composition (and.go) *)

Module Power.
Import Sigma.

Definition ComposeStatements {X} (statements : list (option X)) : result (list X) :=
  match mapM id statements with Some xs => Ok xs | None => Err ErrInvalidArgument end.
Definition ComposeWitnesses {W} (witnesses : list (option W)) : result (list W) :=
  match mapM id witnesses with Some ws => Ok ws | None => Err ErrInvalidArgument end.

Section power.
Context {X W A S Z P : Type}.

(** The order in which the goroutines of each method run. *)
Record Schedule := mkSchedule {
  on_commit : list nat; on_respond : list nat; on_verify : list nat; on_simulate : list nat }.
Definition fair (n : nat) (sch : Schedule) : Prop :=
  on_commit sch ≡ₚ seq 0 n ∧ on_respond sch ≡ₚ seq 0 n ∧
  on_verify sch ≡ₚ seq 0 n ∧ on_simulate sch ≡ₚ seq 0 n.

Record ProtocolPower := mkProtocol {
  base : Protocol X W A S Z P; count : nat; name : string }.

Definition ComposeNamed (name : string) (p : option (Protocol X W A S Z P)) (count : N) :
    result ProtocolPower :=
  match p with
  | None => Err ErrIsNil
  | Some p => if (count =? 0)%N then Err ErrInvalidArgument else Ok (mkProtocol p (N.to_nat count) name)
  end.

(** [strconv]'s decimal numerals are a parameter of the derived name. *)
Definition Compose (decimal : N → string) (p : option (Protocol X W A S Z P)) (count : N) :
    result ProtocolPower :=
  match p with
  | None => Err ErrIsNil
  | Some q =>
      if (count =? 0)%N then Err ErrInvalidArgument
      else ComposeNamed ("(" +:+ Name q +:+ ")^" +:+ decimal count)%string p count
  end.

Definition has_count {V} (p : ProtocolPower) (l : list V) : bool := length l =? count p.

Definition ComputeProverCommitment (sch : Schedule) (p : ProtocolPower) (statement : list X)
    (witness : list W) (prng : P) : result (list A * list S * P) :=
  if negb (has_count p statement) then Err ErrInvalidLength
  else if negb (has_count p witness) then Err ErrInvalidLength
  else
    '(out, prng) ← run_group (on_commit sch) (λ i prng,
       match statement !! i, witness !! i with
       | Some x, Some w =>
           '(a, s, prng) ← Sigma.ComputeProverCommitment (base p) x w prng; Ok ((a, s), prng)
       | _, _ => Panic
       end) prng;
    Ok ((slots (count p) out).*1, (slots (count p) out).*2, prng).

Definition ComputeProverResponse (sch : Schedule) (p : ProtocolPower) (statement : list X)
    (witness : list W) (commitment : list A) (state : list S) (challengeBytes : ChallengeBytes) :
    result (list Z) :=
  if negb (has_count p statement) then Err ErrInvalidLength
  else if negb (has_count p witness) then Err ErrInvalidLength
  else if negb (has_count p commitment) then Err ErrInvalidLength
  else if negb (has_count p state) then Err ErrInvalidLength
  else
    run_pure (count p) (on_respond sch) (λ i,
      match statement !! i, witness !! i, commitment !! i, state !! i with
      | Some x, Some w, Some a, Some s =>
          Sigma.ComputeProverResponse (base p) x w a s challengeBytes
      | _, _, _, _ => Panic
      end).

Definition Verify (sch : Schedule) (p : ProtocolPower) (statement : list X) (commitment : list A)
    (challengeBytes : ChallengeBytes) (response : list Z) : result unit :=
  if negb (has_count p statement) then Err ErrInvalidLength
  else if negb (has_count p commitment) then Err ErrInvalidLength
  else if negb (has_count p response) then Err ErrInvalidLength
  else
    _ ← run_pure (count p) (on_verify sch) (λ i,
      match statement !! i, commitment !! i, response !! i with
      | Some x, Some a, Some z => Sigma.Verify (base p) x a challengeBytes z
      | _, _, _ => Panic
      end);
    Ok tt.

Definition RunSimulator (sch : Schedule) (p : ProtocolPower) (statement : list X)
    (challengeBytes : ChallengeBytes) (prng : P) : result (list A * list Z * P) :=
  if negb (has_count p statement) then Err ErrInvalidLength
  else
    '(out, prng) ← run_group (on_simulate sch) (λ i prng,
       match statement !! i with
       | Some x => '(a, z, prng) ← Sigma.RunSimulator (base p) x challengeBytes prng; Ok ((a, z), prng)
       | None => Panic
       end) prng;
    Ok ((slots (count p) out).*1, (slots (count p) out).*2, prng).

Definition ValidateStatement (p : ProtocolPower) (statement : list X) (witness : list W) : result unit :=
  if negb (has_count p statement) then Err ErrInvalidLength
  else if negb (has_count p witness) then Err ErrInvalidLength
  else
    foldM (λ _ i,
      match statement !! i, witness !! i with
      | Some x, Some w => Sigma.ValidateStatement (base p) x w
      | _, _ => Panic
      end) tt (seq 0 (count p)).

Definition protocol (sch : Schedule) (p : ProtocolPower) :
    Protocol (list X) (list W) (list A) (list S) (list Z) P :=
  {| Sigma.Name := name p;
     Sigma.ComputeProverCommitment := ComputeProverCommitment sch p;
     Sigma.ComputeProverResponse := ComputeProverResponse sch p;
     Sigma.Verify := Verify sch p;
     Sigma.RunSimulator := RunSimulator sch p;
     Sigma.SpecialSoundness := SpecialSoundness (base p);
     Sigma.SoundnessError := SoundnessError (base p);
     Sigma.GetChallengeBytesLength := GetChallengeBytesLength (base p);
     Sigma.ValidateStatement := ValidateStatement p |}.
End power.
Arguments ProtocolPower : clear implicits.
End Power.

(** ** Theory *)

Lemma is_challenge_prefix n k e :
  k ≤ n → Sigma.is_challenge n e →
  slice_to (Some e) k = Ok (Some (take k e)) ∧ Sigma.is_challenge k (take k e).
Proof.
  intros Hk [Hl Hok]. unfold slice_to. cbn [default fmap option_fmap option_map id]. split.
  - destruct (Nat.ltb_spec (length e) k); [lia|done].
  - split; [rewrite length_take; lia|]. by apply Forall_take.
Qed.

Section cartesian.
Import Sigma Cartesian.
Context {X0 X1 W0 W1 A0 A1 S0 S1 Z0 Z1 P : Type}.
Context (p : ProtocolCartesian X0 X1 W0 W1 A0 A1 S0 S1 Z0 Z1 P).
Context (Hlen : challengeBytesLength p =
  max (GetChallengeBytesLength (sigma0 p)) (GetChallengeBytesLength (sigma1 p))).

Lemma Cartesian_prefixes e :
  is_challenge (challengeBytesLength p) e →
  ∃ e0 e1, slice_to (Some e) (GetChallengeBytesLength (sigma0 p)) = Ok (Some e0)
    ∧ slice_to (Some e) (GetChallengeBytesLength (sigma1 p)) = Ok (Some e1)
    ∧ is_challenge (GetChallengeBytesLength (sigma0 p)) e0
    ∧ is_challenge (GetChallengeBytesLength (sigma1 p)) e1
    ∧ e0 = take (GetChallengeBytesLength (sigma0 p)) e
    ∧ e1 = take (GetChallengeBytesLength (sigma1 p)) e.
Proof.
  intros He.
  destruct (is_challenge_prefix (challengeBytesLength p) (GetChallengeBytesLength (sigma0 p)) e ltac:(lia) He).
  destruct (is_challenge_prefix (challengeBytesLength p) (GetChallengeBytesLength (sigma1 p)) e ltac:(lia) He).
  eauto 10.
Qed.

(** Verification of the composition is verification of both branches. *)
Lemma Cartesian_Verify_Ok x a e z :
  is_challenge (challengeBytesLength p) e →
  Cartesian.Verify p x a (Some e) z = Ok tt ↔
  ∃ x0 x1 a0 a1 z0 z1, x = Some (mkStatement x0 x1) ∧ a = Some (mkCommitment a0 a1)
    ∧ z = Some (mkResponse z0 z1)
    ∧ Sigma.Verify (sigma0 p) x0 a0 (Some (take (GetChallengeBytesLength (sigma0 p)) e)) z0 = Ok tt
    ∧ Sigma.Verify (sigma1 p) x1 a1 (Some (take (GetChallengeBytesLength (sigma1 p)) e)) z1 = Ok tt.
Proof.
  intros He. destruct (Cartesian_prefixes e He) as (e0 & e1 & E0 & E1 & _ & _ & -> & ->).
  split.
  - destruct x as [[x0 x1]|], a as [[a0 a1]|], z as [[z0 z1]|]; try done.
    cbn [Cartesian.Verify X0_ X1_ A0_ A1_ Z0_ Z1_]. rewrite E0, E1. cbn.
    destruct (Sigma.Verify (sigma0 p) _ _ _ _) as [[]| |] eqn:V0; [|done..].
    intros V1. repeat eexists; eassumption.
  - intros (x0 & x1 & a0 & a1 & z0 & z1 & -> & -> & -> & V0 & V1).
    cbn [Cartesian.Verify X0_ X1_ A0_ A1_ Z0_ Z1_]. rewrite E0, E1. cbn. by rewrite V0.
Qed.

(** Well-formed responses of the composition. *)
Definition wf_both {U V} (P0 : U → Prop) (P1 : V → Prop) (z : option (ResponseCartesian U V)) : Prop :=
  ∀ r, z = Some r → P0 (Z0_ r) ∧ P1 (Z1_ r).

Definition both {U V} (P0 : U → Prop) (P1 : V → Prop) (x : option (StatementCartesian U V)) : Prop :=
  ∃ x0 x1, x = Some (mkStatement x0 x1) ∧ P0 x0 ∧ P1 x1.

Lemma Cartesian_Validate_Ok x w :
  Cartesian.ValidateStatement p x w = Ok tt ↔
  ∃ x0 x1 w0 w1, x = Some (mkStatement x0 x1) ∧ w = Some (mkWitness w0 w1)
    ∧ Sigma.ValidateStatement (sigma0 p) x0 w0 = Ok tt
    ∧ Sigma.ValidateStatement (sigma1 p) x1 w1 = Ok tt.
Proof.
  split.
  - destruct x as [[x0 x1]|], w as [[w0 w1]|]; try done. cbn.
    destruct (Sigma.ValidateStatement (sigma0 p) x0 w0) as [[]| |] eqn:E; cbn; try done. eauto 10.
  - intros (x0 & x1 & w0 & w1 & -> & -> & V0 & V1). cbn. by rewrite V0.
Qed.

#[export] Instance cartesian_complete good0 good1
  `{!Complete (sigma0 p) good0, !Complete (sigma1 p) good1} :
  Complete (Cartesian.protocol p) (both good0 good1).
Proof.
  intros x w a s q q' e Hg (x0 & x1 & w0 & w1 & -> & -> & V0 & V1)%Cartesian_Validate_Ok Hc He.
  destruct Hg as (x0' & x1' & [= <- <-] & G0 & G1).
  cbn in Hc. simplify_res.
  repeat match goal with
  | E : (let '(_, _) := ?q in _) = Ok _ |- _ => destruct q; simplify_res
  end. simplify_res.
  destruct (Cartesian_prefixes e He) as (e0 & e1 & E0 & E1 & HC0 & HC1 & -> & ->).
  destruct (complete (good:=good0) x0 w0 _ _ _ _ _ G0 V0 ltac:(eassumption) HC0) as (z0 & R0 & K0).
  destruct (complete (good:=good1) x1 w1 _ _ _ _ _ G1 V1 ltac:(eassumption) HC1) as (z1 & R1 & K1).
  exists (Some (mkResponse z0 z1)). split.
  - cbn [Sigma.ComputeProverResponse protocol ComputeProverResponse X0_ X1_ W0_ W1_ A0_ A1_ S0_ S1_].
    rewrite E0. cbn. rewrite R0. cbn. rewrite E1. cbn. by rewrite R1.
  - apply (Cartesian_Verify_Ok _ _ _ _ He). eauto 12.
Qed.

#[export] Instance cartesian_simulatable good0 good1
  `{!Simulatable (sigma0 p) good0, !Simulatable (sigma1 p) good1} :
  Simulatable (Cartesian.protocol p) (both good0 good1).
Proof.
  intros x a z q q' e (x0 & x1 & -> & G0 & G1) He Hs.
  destruct (Cartesian_prefixes e He) as (e0 & e1 & E0 & E1 & HC0 & HC1 & -> & ->).
  cbn [Sigma.RunSimulator protocol RunSimulator X0_ X1_] in Hs. rewrite E0, E1 in Hs.
  cbn in Hs. simplify_res.
  repeat match goal with
  | E : (let '(_, _) := ?q in _) = Ok _ |- _ => destruct q; simplify_res
  end. simplify_res.
  apply (Cartesian_Verify_Ok _ _ _ _ He).
  do 6 eexists. split_and!; [done..| |]; eapply simulates; eauto.
Qed.
End cartesian.

(** The extractor of the composition runs those of the branches on the
    prefixes of the two challenges. *)
Definition cartesian_extract {X0 X1 W0 W1 A0 A1 Z0 Z1} (n0 n1 : nat)
    (ext0 : X0 → A0 → list N → Z0 → list N → Z0 → result W0)
    (ext1 : X1 → A1 → list N → Z1 → list N → Z1 → result W1)
    (x : option (Cartesian.StatementCartesian X0 X1)) (a : option (Cartesian.CommitmentCartesian A0 A1))
    (e : list N) (z : option (Cartesian.ResponseCartesian Z0 Z1))
    (e' : list N) (z' : option (Cartesian.ResponseCartesian Z0 Z1)) :
    result (option (Cartesian.WitnessCartesian W0 W1)) :=
  match x, a, z, z' with
  | Some x, Some a, Some z, Some z' =>
      w0 ← ext0 (Cartesian.X0_ x) (Cartesian.A0_ a) (take n0 e) (Cartesian.Z0_ z) (take n0 e')
             (Cartesian.Z0_ z');
      w1 ← ext1 (Cartesian.X1_ x) (Cartesian.A1_ a) (take n1 e) (Cartesian.Z1_ z) (take n1 e')
             (Cartesian.Z1_ z');
      Ok (Some (Cartesian.mkWitness w0 w1))
  | _, _, _, _ => Panic
  end.

Section power.
Import Sigma Power.
Context {X W A S Z P : Type} (p : ProtocolPower X W A S Z P) (sch : Schedule)
  (Hfair : fair (count p) sch).

Lemma has_count_true {V} (l : list V) : has_count p l = true ↔ length l = count p.
Proof. apply Nat.eqb_eq. Qed.
Lemma has_count_ok {V} (l : list V) : length l = count p → has_count p l = true.
Proof. apply has_count_true. Qed.

Lemma Power_Validate_Ok xs ws :
  Power.ValidateStatement p xs ws = Ok tt ↔
  length xs = count p ∧ length ws = count p ∧
  ∀ i x w, xs !! i = Some x → ws !! i = Some w → Sigma.ValidateStatement (base p) x w = Ok tt.
Proof.
  unfold ValidateStatement.
  destruct (has_count p xs) eqn:Ex; cbn [negb].
  2: { split; [done|]. intros [E _]. apply has_count_ok in E. congruence. }
  destruct (has_count p ws) eqn:Ew; cbn [negb].
  2: { split; [done|]. intros (_ & E & _). apply has_count_ok in E. congruence. }
  apply has_count_true in Ex. apply has_count_true in Ew.
  rewrite (foldM_unit_ok _ (seq 0 (count p))). split.
  - intros Hall. split_and!; [done..|]. intros i x w Hx Hw.
    specialize (Hall i). rewrite Hx, Hw in Hall. apply Hall, elem_of_seq.
    apply lookup_lt_Some in Hx. lia.
  - intros (_ & _ & Hall) i [_ Hi]%elem_of_seq.
    destruct (lookup_lt_is_Some_2 xs i) as [x Hx]; [lia|].
    destruct (lookup_lt_is_Some_2 ws i) as [w Hw]; [lia|].
    rewrite Hx, Hw. by eapply Hall.
Qed.

Lemma Power_Verify_Ok xs al e zs :
  Power.Verify sch p xs al e zs = Ok tt ↔
  length xs = count p ∧ length al = count p ∧ length zs = count p ∧
  ∀ i x a z, xs !! i = Some x → al !! i = Some a → zs !! i = Some z →
    Sigma.Verify (base p) x a e z = Ok tt.
Proof.
  unfold Verify.
  destruct (has_count p xs) eqn:Ex; cbn [negb].
  2: { split; [done|]. intros [E _]. apply has_count_ok in E. congruence. }
  destruct (has_count p al) eqn:Ea; cbn [negb].
  2: { split; [done|]. intros (_ & E & _). apply has_count_ok in E. congruence. }
  destruct (has_count p zs) eqn:Ez; cbn [negb].
  2: { split; [done|]. intros (_ & _ & E & _). apply has_count_ok in E. congruence. }
  apply has_count_true in Ex, Ea, Ez.
  destruct Hfair as (_ & _ & Hv & _). split.
  - intros E. simplify_res.
    match goal with E : run_pure _ _ _ = Ok ?rs |- _ => pose proof (run_pure_ok _ _ _ _ Hv E) as [_ Hall] end.
    split_and!; [done..|]. intros i xi ai zi Hx Ha Hz.
    destruct (Hall i) as ([] & _ & Hr); [apply lookup_lt_Some in Hx; lia|].
    by rewrite Hx, Ha, Hz in Hr.
  - intros (_ & _ & _ & Hall).
    destruct (run_pure_total (count p) (on_verify sch) (λ i,
      match xs !! i, al !! i, zs !! i with
      | Some x, Some a, Some z => Sigma.Verify (base p) x a e z
      | _, _, _ => Panic
      end) Hv) as [rs ->]; [|done].
    intros i Hi.
    destruct (lookup_lt_is_Some_2 xs i) as [x Hx]; [lia|].
    destruct (lookup_lt_is_Some_2 al i) as [a Ha]; [lia|].
    destruct (lookup_lt_is_Some_2 zs i) as [z Hz]; [lia|].
    rewrite Hx, Ha, Hz. eauto.
Qed.

Definition all_good (good : X → Prop) (xs : list X) : Prop := length xs = count p ∧ Forall good xs.

#[export] Instance power_complete good `{!Complete (base p) good} :
  Complete (Power.protocol sch p) (all_good good).
Proof.
  destruct Hfair as (Fc & Fr & Fv & Fs).
  - intros xs ws al ss q q' e [_ Hg] (Hx & Hw & Hall)%Power_Validate_Ok Hc He.
    cbn [Sigma.ComputeProverCommitment Power.protocol] in Hc.
    unfold Power.ComputeProverCommitment in Hc. rewrite !has_count_ok in Hc by done.
    cbn [negb] in Hc. simplify_res.
    match goal with E : run_group _ _ _ = Ok ?r |- _ => destruct r as [out q1]; rename E into Er end.
    simplify_res. destruct (run_group_slots _ _ _ _ _ _ Fc Er) as [Hl Hs].
    set (sl := slots (count p) out) in *.
    assert (∀ i x w, xs !! i = Some x → ws !! i = Some w → ∃ a s z,
      sl.*1 !! i = Some a ∧ sl.*2 !! i = Some s ∧
      Sigma.ComputeProverResponse (base p) x w a s (Some e) = Ok z ∧
      Sigma.Verify (base p) x a (Some e) z = Ok tt) as Hi.
    { intros i x w Hxi Hwi.
      destruct (Hs i) as ([a s] & r & r' & Ha & Hf); [apply lookup_lt_Some in Hxi; lia|].
      rewrite Hxi, Hwi in Hf. simplify_res.
      match goal with E : (let '(_, _) := ?q in _) = Ok _ |- _ => destruct q as [[a' s'] r1] end.
      simplify_res.
      destruct (complete (good:=good) x w a s r r' e) as (z & Hz & Hv); [by eapply Forall_lookup_1|by eapply Hall|done|done|].
      exists a, s, z. rewrite !list_lookup_fmap, Ha. done. }
    destruct (run_pure_total (count p) (on_respond sch) (λ i,
      match xs !! i, ws !! i, sl.*1 !! i, sl.*2 !! i with
      | Some x, Some w, Some a, Some s =>
          Sigma.ComputeProverResponse (base p) x w a s (Some e)
      | _, _, _, _ => Panic
      end) Fr) as [zs Hzs].
    { intros i Hi'. destruct (lookup_lt_is_Some_2 xs i) as [x Hxi]; [lia|].
      destruct (lookup_lt_is_Some_2 ws i) as [w Hwi]; [lia|].
      destruct (Hi i x w Hxi Hwi) as (a & s & z & -> & -> & Hz & _). rewrite Hxi, Hwi. eauto. }
    exists zs. split.
    + cbn [Sigma.ComputeProverResponse Power.protocol]. unfold Power.ComputeProverResponse.
      rewrite !has_count_ok by (rewrite ?length_fmap; done). done.
    + apply (run_pure_ok _ _ _ _ Fr) in Hzs as [Hzl Hzs].
      apply Power_Verify_Ok. rewrite !length_fmap. split_and!; [done..|].
      intros i x a z Hxi Hai Hzi.
      destruct (lookup_lt_is_Some_2 ws i) as [w Hwi]; [apply lookup_lt_Some in Hxi; lia|].
      destruct (Hi i x w Hxi Hwi) as (a' & s & z' & Ha' & Hs' & Hz' & Hv).
      destruct (Hzs i) as (z'' & Hz'' & Hr); [apply lookup_lt_Some in Hxi; lia|].
      rewrite Hxi, Hwi, Ha', Hs' in Hr. congruence.
Qed.

#[export] Instance power_simulatable good `{!Simulatable (base p) good} :
  Simulatable (Power.protocol sch p) (all_good good).
Proof.
  destruct Hfair as (Fc & Fr & Fv & Fs).
  - intros xs al zs q q' e [Hx Hg] He Hs.
    cbn [Sigma.RunSimulator Power.protocol] in Hs. unfold Power.RunSimulator in Hs.
    rewrite !has_count_ok in Hs by done. cbn [negb] in Hs. simplify_res.
    match goal with E : run_group _ _ _ = Ok ?r |- _ => destruct r as [out q1]; rename E into Er end.
    simplify_res. destruct (run_group_slots _ _ _ _ _ _ Fs Er) as [Hl Hsl].
    apply Power_Verify_Ok. rewrite !length_fmap. split_and!; [done..|].
    intros i x a z Hxi Hai Hzi.
    destruct (Hsl i) as ([a' z'] & r & r' & Hr & Hf); [apply lookup_lt_Some in Hxi; lia|].
    rewrite list_lookup_fmap, Hr in Hai. rewrite list_lookup_fmap, Hr in Hzi. rewrite Hxi in Hf. simplify_eq/=. simplify_res.
    match goal with E : (let '(_, _) := ?q in _) = Ok _ |- _ => destruct q as [[a1 z1] r1] end.
    simplify_res. eapply (simulates (good:=good)); [|done|done].
    by eapply Forall_lookup_1.
Qed.
End power.

(** The extractor of the n-fold composition runs the extractor on every
    branch. *)
Definition power_extract {X W A Z} (n : nat)
    (ext : X → A → list N → Z → list N → Z → result W) (xs : list X) (al : list A)
    (e : list N) (zs : list Z) (e' : list N) (zs' : list Z) : result (list W) :=
  mapM (λ i,
    match xs !! i, al !! i, zs !! i, zs' !! i with
    | Some x, Some a, Some z, Some z' => ext x a e z e' z'
    | _, _, _, _ => Panic
    end) (seq 0 n).

(** ** Properties *)

(** The AND composition of two complete and simulatable protocols is
    complete and simulatable for the conjunction of the statements; from two
    accepted transcripts with one commitment, whose challenges differ within
    the shorter challenge length, the extractors of the branches yield both
    witnesses, and with challenges of one length any two distinct challenges
    do. *)
Theorem Cartesian_And_composes {X0 X1 W0 W1 A0 A1 S0 S1 Z0 Z1 P}
    (sigma0 : Sigma.Protocol X0 W0 A0 S0 Z0 P) (sigma1 : Sigma.Protocol X1 W1 A1 S1 Z1 P)
    p good0 good1 wf0 wf1 ext0 ext1 :
  Cartesian.CartesianCompose (Some sigma0) (Some sigma1) = Ok p →
  Sigma.Complete sigma0 good0 → Sigma.Complete sigma1 good1 →
  Sigma.Simulatable sigma0 good0 → Sigma.Simulatable sigma1 good1 →
  Sigma.Extractable sigma0 wf0 ext0 → Sigma.Extractable sigma1 wf1 ext1 →
  let n0 := Sigma.GetChallengeBytesLength sigma0 in
  let n1 := Sigma.GetChallengeBytesLength sigma1 in
  Sigma.Complete (Cartesian.protocol p) (both good0 good1) ∧
  Sigma.Simulatable (Cartesian.protocol p) (both good0 good1) ∧
  (∀ x a e z e' z',
    Sigma.is_challenge (max n0 n1) e → Sigma.is_challenge (max n0 n1) e' →
    take (min n0 n1) e ≠ take (min n0 n1) e' →
    wf_both wf0 wf1 z → wf_both wf0 wf1 z' →
    Cartesian.Verify p x a (Some e) z = Ok tt → Cartesian.Verify p x a (Some e') z' = Ok tt →
    ∃ w, cartesian_extract n0 n1 ext0 ext1 x a e z e' z' = Ok w ∧
         Cartesian.ValidateStatement p x w = Ok tt) ∧
  (n0 = n1 → Sigma.Extractable (Cartesian.protocol p) (wf_both wf0 wf1) (cartesian_extract n0 n1 ext0 ext1)).
Proof.
  intros [= <-] C0 C1 S0' S1' E0 E1 n0 n1.
  split; [by apply cartesian_complete|]. split; [by apply cartesian_simulatable|].
  set (p := Cartesian.mkProtocol _ sigma0 sigma1 _).
  assert (∀ x a e z e' z',
    Sigma.is_challenge (max n0 n1) e → Sigma.is_challenge (max n0 n1) e' →
    take (min n0 n1) e ≠ take (min n0 n1) e' →
    wf_both wf0 wf1 z → wf_both wf0 wf1 z' →
    Cartesian.Verify p x a (Some e) z = Ok tt → Cartesian.Verify p x a (Some e') z' = Ok tt →
    ∃ w, cartesian_extract n0 n1 ext0 ext1 x a e z e' z' = Ok w ∧
         Cartesian.ValidateStatement p x w = Ok tt) as Hext.
  { intros x a e z e' z' He He' Hne F F' V V'.
    apply (Cartesian_Verify_Ok p eq_refl) in V as (x0 & x1 & a0 & a1 & z0 & z1 & -> & -> & -> & V0 & V1); [|done].
    apply (Cartesian_Verify_Ok p eq_refl) in V' as (x0' & x1' & a0' & a1' & z0' & z1' & [= <- <-] & [= <- <-] & -> & V0' & V1'); [|done].
    destruct (F _ eq_refl) as [F0 F1], (F' _ eq_refl) as [F0' F1']. cbn in F0, F1, F0', F1'.
    assert (∀ k, min n0 n1 ≤ k → take k e ≠ take k e') as Hk.
    { intros k Hk E. apply Hne. rewrite <-(firstn_skipn k e), <-(firstn_skipn k e'), E.
      rewrite !take_app_le; [done|..]; rewrite length_take; destruct He, He'; lia. }
    destruct (E0 x0 a0 (take n0 e) z0 (take n0 e') z0') as (w0 & Hw0 & K0); try done.
    { by apply (is_challenge_prefix (max n0 n1)); [lia|]. }
    { by apply (is_challenge_prefix (max n0 n1)); [lia|]. }
    { apply Hk; lia. }
    destruct (E1 x1 a1 (take n1 e) z1 (take n1 e') z1') as (w1 & Hw1 & K1); try done.
    { by apply (is_challenge_prefix (max n0 n1)); [lia|]. }
    { by apply (is_challenge_prefix (max n0 n1)); [lia|]. }
    { apply Hk; lia. }
    exists (Some (Cartesian.mkWitness w0 w1)). cbn. rewrite Hw0. cbn. rewrite Hw1. cbn.
    split; [done|]. by rewrite K0. }
  split; [done|]. intros Hn x a e z e' z' He He' Hne F F' V V'.
  cbn in He, He'. fold n0 n1 in He, He'. apply Hext; try done.
  rewrite <-Hn, Nat.min_id in *. rewrite Nat.max_id in He, He'. destruct He, He'.
  by rewrite !take_ge by lia.
Qed.

(** C15. The n-fold AND composition is complete, simulatable and special sound
    for the conjunction of the statements, in whatever order the goroutines of
    its methods run. *)
Theorem Power_And_composes {X W A S Z P} (sigma : Sigma.Protocol X W A S Z P) name count p sch good wf ext :
  Power.ComposeNamed name (Some sigma) count = Ok p →
  Power.fair (Power.count p) sch →
  Sigma.Complete sigma good → Sigma.Simulatable sigma good → Sigma.Extractable sigma wf ext →
  Power.count p = N.to_nat count ∧ (0 < count)%N ∧
  Sigma.Complete (Power.protocol sch p) (all_good p good) ∧
  Sigma.Simulatable (Power.protocol sch p) (all_good p good) ∧
  Sigma.Extractable (Power.protocol sch p) (Forall wf) (power_extract (N.to_nat count) ext).
Proof.
  intros Hp Hfair C Sm E. unfold Power.ComposeNamed in Hp.
  destruct (N.eqb_spec count 0); [done|]. injection Hp as <-. cbn in Hfair.
  set (p := Power.mkProtocol _ _ _). split_and!; [done|lia|by apply (power_complete p)|by apply (power_simulatable p)|].
  intros xs al e zs e' zs' He He' Hne F F' V V'.
  apply (Power_Verify_Ok p) in V as (Lx & La & Lz & V); [|done].
  apply (Power_Verify_Ok p) in V' as (_ & _ & Lz' & V'); [|done].
  assert (∀ i, i < N.to_nat count → ∃ w,
    match xs !! i, al !! i, zs !! i, zs' !! i with
    | Some x, Some a, Some z, Some z' => ext x a e z e' z'
    | _, _, _, _ => Panic
    end = Ok w ∧ ∀ x, xs !! i = Some x → Sigma.ValidateStatement sigma x w = Ok tt) as Hi.
  { intros i Hi. cbn in Lx, La, Lz, Lz'.
    destruct (lookup_lt_is_Some_2 xs i) as [x Hx]; [lia|].
    destruct (lookup_lt_is_Some_2 al i) as [a Ha]; [lia|].
    destruct (lookup_lt_is_Some_2 zs i) as [z Hz]; [lia|].
    destruct (lookup_lt_is_Some_2 zs' i) as [z' Hz']; [lia|].
    rewrite Hx, Ha, Hz, Hz'.
    destruct (E x a e z e' z') as (w & Hw & K); [done..|eapply (Forall_lookup_1 _ zs); eassumption|eapply (Forall_lookup_1 _ zs'); eassumption|by eapply V|by eapply V'|].
    exists w. split; [done|]. by intros ? [= <-]. }
  assert (∃ ws, power_extract (N.to_nat count) ext xs al e zs e' zs' = Ok ws) as [ws Hws].
  { unfold power_extract.
    assert (∀ i, i ∈ seq 0 (N.to_nat count) → i < N.to_nat count) as Hin
      by (intros i ?%elem_of_seq; lia).
    induction (seq 0 (N.to_nat count)) as [|i l IH]; [by eexists|]. cbn.
    destruct (Hi i) as (w & -> & _); [apply Hin; by constructor|].
    destruct IH as [ws ->]; [intros j ?; apply Hin; by constructor|]. cbn. eauto. }
  exists ws. split; [done|].
  apply mapM_ok in Hws. pose proof (Forall2_length _ _ _ Hws) as Hl. rewrite length_seq in Hl.
  apply (Power_Validate_Ok p). split_and!; [done|cbn; lia|].
  intros i x w Hx Hw.
  assert (seq 0 (N.to_nat count) !! i = Some i) as Hsi.
  { apply lookup_seq. apply lookup_lt_Some in Hw. lia. }
  pose proof (Forall2_lookup_lr _ _ _ _ _ _ Hws Hsi Hw) as Hr. cbn beta in Hr.
  destruct (Hi i) as (w' & Hw' & K); [apply lookup_lt_Some in Hw; lia|].
  rewrite Hr in Hw'. injection Hw' as <-. by apply K.
Qed.

(** ** Witnesses *)

Definition ex_and := Cartesian.mkProtocol "(byte)_AND_(byte)" (Maurer.protocol ex_maurer)
  (Maurer.protocol ex_maurer) 1.

Lemma Cartesian_And_composes_witness :
  Sigma.Extractable (Cartesian.protocol ex_and) (wf_both (λ _, True) (λ _, True))
    (cartesian_extract 1 1 (maurer_extract ex_maurer) (maurer_extract ex_maurer)).
Proof.
  apply (Cartesian_And_composes (Maurer.protocol ex_maurer) (Maurer.protocol ex_maurer) ex_and
    is_Some is_Some (λ _, True) (λ _, True) (maurer_extract ex_maurer) (maurer_extract ex_maurer)).
  - reflexivity.
  - apply (maurer_complete ex_maurer (λ s, s)).
  - apply (maurer_complete ex_maurer (λ s, s)).
  - apply (maurer_simulatable ex_maurer (λ s, s)).
  - apply (maurer_simulatable ex_maurer (λ s, s)).
  - apply ex_maurer_extractable.
  - apply ex_maurer_extractable.
  - reflexivity.
Defined.

Definition ex_power := Power.mkProtocol (Maurer.protocol ex_maurer) 3 "byte^3".
Definition ex_schedule := Power.mkSchedule [2; 0; 1] [1; 0; 2] [0; 1; 2] [2; 1; 0].

Lemma ex_schedule_fair : Power.fair 3 ex_schedule.
Proof. unfold Power.fair. cbn. split_and!; by apply (bool_decide_unpack _). Qed.

Lemma Power_And_composes_witness :
  Sigma.Extractable (Power.protocol ex_schedule ex_power) (Forall (λ _, True))
    (power_extract 3 (maurer_extract ex_maurer)).
Proof.
  destruct (Power_And_composes (Maurer.protocol ex_maurer) "byte^3" 3 ex_power ex_schedule is_Some
    (λ _, True) (maurer_extract ex_maurer)) as (_ & _ & _ & _ & H).
  - reflexivity.
  - apply ex_schedule_fair.
  - apply (maurer_complete ex_maurer (λ s, s)).
  - apply (maurer_simulatable ex_maurer (λ s, s)).
  - apply ex_maurer_extractable.
  - exact H.
Defined.
