(* ===== verification/SigOr.v ===== *)
(** * OR composition of sigma protocols (pkg/proofs/sigma/compose/sigor)

    [CartesianOr] is the binary composition (cartesian.go), [PowerOr] the
    n-fold one (or.go).  A prover with a witness for one branch simulates the
    others on challenges it draws itself; the challenges of all branches must
    add up, under exclusive or, to the challenge of the verifier.  The zero
    values of the type parameters, which fill the fields that a branch does
    not use, are arguments. *)

From Stdlib Require Import ZArith NArith Lia.
From stdpp Require Import strings.
From S2P Require Import Prelude Algebra AlgebraUtils Sigma Maurer SigAnd.

(** [subtle.XORBytes(dst, x, y)]: the first [min(len(x), len(y))] bytes. *)
Definition XORBytes (dst x y : list N) : result (list N) :=
  let n := min (length x) (length y) in
  if length dst <? n then Panic else Ok (zip_with N.lxor x y ++ drop n dst).

(** [ct.SliceEqual]. *)
Definition SliceEqual (x y : list N) : bool :=
  if negb (length x =? length y) then false
  else (foldl (λ v '(a, b), N.lor v (N.lxor a b)) 0%N (zip x y) =? 0)%N.

(** [make([]byte, n)]. *)
Definition make_bytes (n : nat) : list N := replicate n 0%N.

Lemma SliceEqual_true x y : SliceEqual x y = true ↔ x = y.
Proof.
  unfold SliceEqual. destruct (Nat.eqb_spec (length x) (length y)) as [Hl|Hl]; cbn [negb].
  2: { split; [done|]. intros ->. done. }
  rewrite N.eqb_eq.
  assert (∀ v, foldl (λ v '(a, b), N.lor v (N.lxor a b)) v (zip x y) = 0%N ↔ v = 0%N ∧ x = y) as H.
  { revert y Hl. induction x as [|a x IH]; intros [|b y] Hl v; try done; cbn.
    { naive_solver. }
    rewrite IH by (cbn in Hl; lia). rewrite N.lor_eq_0_iff, N.lxor_eq_0_iff. naive_solver. }
  rewrite H. naive_solver.
Qed.

(** ** Binary composition (cartesian.go) *)

Module CartesianOr.
Import Sigma.

Record StatementCartesian (X0 X1 : Type) := mkStatement { X0_ : X0; X1_ : X1 }.
Record WitnessCartesian (W0 W1 : Type) := mkWitness { W0_ : W0; W1_ : W1 }.
Record CommitmentCartesian (A0 A1 : Type) := mkCommitment { A0_ : A0; A1_ : A1 }.
Record StateCartesian (S0 S1 Z0 Z1 : Type) := mkState {
  st_B : N; st_S0 : S0; st_S1 : S1; st_E : list N; st_Z0 : Z0; st_Z1 : Z1 }.
Record ResponseCartesian (Z0 Z1 : Type) := mkResponse {
  r_E0 : list N; r_E1 : list N; r_Z0 : Z0; r_Z1 : Z1 }.
Arguments mkStatement {X0 X1}. Arguments X0_ {X0 X1}. Arguments X1_ {X0 X1}.
Arguments mkWitness {W0 W1}. Arguments W0_ {W0 W1}. Arguments W1_ {W0 W1}.
Arguments mkCommitment {A0 A1}. Arguments A0_ {A0 A1}. Arguments A1_ {A0 A1}.
Arguments mkState {S0 S1 Z0 Z1}. Arguments st_B {S0 S1 Z0 Z1}. Arguments st_S0 {S0 S1 Z0 Z1}.
Arguments st_S1 {S0 S1 Z0 Z1}. Arguments st_E {S0 S1 Z0 Z1}. Arguments st_Z0 {S0 S1 Z0 Z1}.
Arguments st_Z1 {S0 S1 Z0 Z1}.
Arguments mkResponse {Z0 Z1}. Arguments r_E0 {Z0 Z1}. Arguments r_E1 {Z0 Z1}.
Arguments r_Z0 {Z0 Z1}. Arguments r_Z1 {Z0 Z1}.

Definition CartesianComposeStatements {X0 X1} (statement0 : option X0) (statement1 : option X1) :
    result (StatementCartesian X0 X1) :=
  match statement0, statement1 with
  | Some x0, Some x1 => Ok (mkStatement x0 x1)
  | _, _ => Err ErrInvalidArgument
  end.
Definition CartesianComposeWitnesses {W0 W1} (witness0 : option W0) (witness1 : option W1) :
    result (WitnessCartesian W0 W1) :=
  match witness0, witness1 with
  | Some w0, Some w1 => Ok (mkWitness w0 w1)
  | _, _ => Err ErrInvalidArgument
  end.

Section cartesian.
Context {X0 X1 W0 W1 A0 A1 S0 S1 Z0 Z1 P : Type} `{Reader P}.
Context (nilS0 : S0) (nilS1 : S1) (nilZ0 : Z0) (nilZ1 : Z1).

Record ProtocolCartesian := mkProtocol {
  name : string;
  sigma0 : Protocol X0 W0 A0 S0 Z0 P;
  sigma1 : Protocol X1 W1 A1 S1 Z1 P;
  challengeBytesLength : nat }.

Definition CartesianComposeNamed (name : string) (sigma0 : option (Protocol X0 W0 A0 S0 Z0 P))
    (sigma1 : option (Protocol X1 W1 A1 S1 Z1 P)) : result ProtocolCartesian :=
  match sigma0, sigma1 with
  | Some sigma0, Some sigma1 =>
      Ok (mkProtocol name sigma0 sigma1
            (max (GetChallengeBytesLength sigma0) (GetChallengeBytesLength sigma1)))
  | _, _ => Err ErrIsNil
  end.

Definition CartesianCompose (sigma0 : option (Protocol X0 W0 A0 S0 Z0 P))
    (sigma1 : option (Protocol X1 W1 A1 S1 Z1 P)) : result ProtocolCartesian :=
  match sigma0, sigma1 with
  | Some s0, Some s1 =>
      CartesianComposeNamed ("(" +:+ Name s0 +:+ ")_OR_(" +:+ Name s1 +:+ ")")%string sigma0 sigma1
  | _, _ => Err ErrIsNil
  end.

Definition ComputeProverCommitment (p : ProtocolCartesian)
    (statement : option (StatementCartesian X0 X1)) (witness : option (WitnessCartesian W0 W1))
    (prng : P) :
    result (option (CommitmentCartesian A0 A1) * option (StateCartesian S0 S1 Z0 Z1) * P) :=
  match statement, witness with
  | Some x, Some w =>
      '(e, prng) ← read_full (challengeBytesLength p) prng;
      match ValidateStatement (sigma0 p) (X0_ x) (W0_ w) with
      | Ok _ =>
          '(a0, s0, prng) ← Sigma.ComputeProverCommitment (sigma0 p) (X0_ x) (W0_ w) prng;
          e1 ← slice_to (Some e) (GetChallengeBytesLength (sigma1 p));
          '(a1, z1, prng) ← Sigma.RunSimulator (sigma1 p) (X1_ x) e1 prng;
          Ok (Some (mkCommitment a0 a1), Some (mkState 0 s0 nilS1 e nilZ0 z1), prng)
      | Err _ =>
          '(a1, s1, prng) ← Sigma.ComputeProverCommitment (sigma1 p) (X1_ x) (W1_ w) prng;
          e0 ← slice_to (Some e) (GetChallengeBytesLength (sigma0 p));
          '(a0, z0, prng) ← Sigma.RunSimulator (sigma0 p) (X0_ x) e0 prng;
          Ok (Some (mkCommitment a0 a1), Some (mkState 1 nilS0 s1 e z0 nilZ1), prng)
      | Panic => Panic
      end
  | _, _ => Err ErrIsNil
  end.

Definition ComputeProverResponse (p : ProtocolCartesian)
    (statement : option (StatementCartesian X0 X1)) (witness : option (WitnessCartesian W0 W1))
    (commitment : option (CommitmentCartesian A0 A1))
    (state : option (StateCartesian S0 S1 Z0 Z1)) (challengeBytes : ChallengeBytes) :
    result (option (ResponseCartesian Z0 Z1)) :=
  match statement, witness, commitment, state with
  | Some x, Some w, Some a, Some s =>
      if negb (length (default [] challengeBytes) =? challengeBytesLength p)
      then Err ErrInvalidLength
      else
        let e := default [] challengeBytes in
        if (st_B s =? 0)%N then
          e0 ← XORBytes (make_bytes (challengeBytesLength p)) (st_E s) e;
          c0 ← slice_to (Some e0) (GetChallengeBytesLength (sigma0 p));
          z0 ← Sigma.ComputeProverResponse (sigma0 p) (X0_ x) (W0_ w) (A0_ a) (st_S0 s) c0;
          Ok (Some (mkResponse e0 (st_E s) z0 (st_Z1 s)))
        else if (st_B s =? 1)%N then
          e1 ← XORBytes (make_bytes (challengeBytesLength p)) (st_E s) e;
          c1 ← slice_to (Some e1) (GetChallengeBytesLength (sigma1 p));
          z1 ← Sigma.ComputeProverResponse (sigma1 p) (X1_ x) (W1_ w) (A1_ a) (st_S1 s) c1;
          Ok (Some (mkResponse (st_E s) e1 (st_Z0 s) z1))
        else Err ErrInvalidArgument
  | _, _, _, _ => Err ErrIsNil
  end.

Definition Verify (p : ProtocolCartesian) (statement : option (StatementCartesian X0 X1))
    (commitment : option (CommitmentCartesian A0 A1)) (challengeBytes : ChallengeBytes)
    (response : option (ResponseCartesian Z0 Z1)) : result unit :=
  match statement, commitment, response with
  | Some x, Some a, Some z =>
      if negb (length (default [] challengeBytes) =? challengeBytesLength p)
      then Err ErrInvalidLength
      else
        e0XorE1 ← XORBytes (make_bytes (challengeBytesLength p)) (r_E0 z) (r_E1 z);
        if negb (SliceEqual (default [] challengeBytes) e0XorE1) then Err ErrVerification
        else
          c0 ← slice_to (Some (r_E0 z)) (GetChallengeBytesLength (sigma0 p));
          _ ← Sigma.Verify (sigma0 p) (X0_ x) (A0_ a) c0 (r_Z0 z);
          c1 ← slice_to (Some (r_E1 z)) (GetChallengeBytesLength (sigma1 p));
          Sigma.Verify (sigma1 p) (X1_ x) (A1_ a) c1 (r_Z1 z)
  | _, _, _ => Err ErrIsNil
  end.

(** The sub-simulators run on the whole of [E0] and [E1]. *)
Definition RunSimulator (p : ProtocolCartesian) (statement : option (StatementCartesian X0 X1))
    (challengeBytes : ChallengeBytes) (prng : P) :
    result (option (CommitmentCartesian A0 A1) * option (ResponseCartesian Z0 Z1) * P) :=
  match statement with
  | None => Err ErrIsNil
  | Some x =>
      if negb (length (default [] challengeBytes) =? challengeBytesLength p)
      then Err ErrInvalidLength
      else
        '(e0, prng) ← read_full (challengeBytesLength p) prng;
        e1 ← XORBytes (make_bytes (challengeBytesLength p)) (default [] challengeBytes) e0;
        '(a0, z0, prng) ← Sigma.RunSimulator (sigma0 p) (X0_ x) (Some e0) prng;
        '(a1, z1, prng) ← Sigma.RunSimulator (sigma1 p) (X1_ x) (Some e1) prng;
        Ok (Some (mkCommitment a0 a1), Some (mkResponse e0 e1 z0 z1), prng)
  end.

Definition ValidateStatement (p : ProtocolCartesian) (statement : option (StatementCartesian X0 X1))
    (witness : option (WitnessCartesian W0 W1)) : result unit :=
  match statement, witness with
  | Some x, Some w =>
      match Sigma.ValidateStatement (sigma0 p) (X0_ x) (W0_ w),
            Sigma.ValidateStatement (sigma1 p) (X1_ x) (W1_ w) with
      | Panic, _ | _, Panic => Panic
      | Err _, Err _ => Err ErrNotAtLeastOneOutOfN
      | _, _ => Ok tt
      end
  | _, _ => Panic
  end.

Definition protocol (p : ProtocolCartesian) :
    Protocol (option (StatementCartesian X0 X1)) (option (WitnessCartesian W0 W1))
      (option (CommitmentCartesian A0 A1)) (option (StateCartesian S0 S1 Z0 Z1))
      (option (ResponseCartesian Z0 Z1)) P :=
  {| Sigma.Name := name p;
     Sigma.ComputeProverCommitment := ComputeProverCommitment p;
     Sigma.ComputeProverResponse := ComputeProverResponse p;
     Sigma.Verify := Verify p;
     Sigma.RunSimulator := RunSimulator p;
     Sigma.SpecialSoundness := N.max (SpecialSoundness (sigma0 p)) (SpecialSoundness (sigma1 p));
     Sigma.SoundnessError := N.min (SoundnessError (sigma0 p)) (SoundnessError (sigma1 p));
     Sigma.GetChallengeBytesLength := challengeBytesLength p;
     Sigma.ValidateStatement := ValidateStatement p |}.
End cartesian.
Arguments ProtocolCartesian : clear implicits.
End CartesianOr.

(** ** Exclusive or of byte strings *)

Abbreviation xor := (zip_with N.lxor).

Lemma XORBytes_eq n x y :
  length x = n → length y = n → XORBytes (make_bytes n) x y = Ok (xor x y).
Proof.
  intros Hx Hy. unfold XORBytes, make_bytes. rewrite length_replicate.
  destruct (Nat.ltb_spec n (min (length x) (length y))); [lia|].
  rewrite drop_ge by (rewrite length_replicate; lia). by rewrite app_nil_r.
Qed.

Lemma XORBytes_prefix n x y e k :
  XORBytes (make_bytes n) x y = Ok e → k ≤ length x → k ≤ length y →
  take k e = xor (take k x) (take k y).
Proof.
  unfold XORBytes. case_match; [done|]. intros [= <-] Hx Hy.
  rewrite take_app_le by (rewrite length_zip_with; lia). apply zip_with_take.
Qed.

Lemma xor_comm x y : xor x y = xor y x.
Proof. revert y. induction x as [|a x IH]; intros [|b y]; cbn; [done..|]. by rewrite N.lxor_comm, IH. Qed.

Lemma xor_cancel x y : length x = length y → xor x (xor x y) = y.
Proof.
  revert y. induction x as [|a x IH]; intros [|b y] Hl; try done. cbn.
  rewrite IH by (cbn in Hl; lia). by rewrite <-N.lxor_assoc, N.lxor_nilpotent, N.lxor_0_l.
Qed.

Lemma lxor_byte a b : (a < 256 → b < 256 → N.lxor a b < 256)%N.
Proof.
  change 256%N with (2 ^ 8)%N.
  assert (∀ c, (c < 2 ^ 8)%N ↔ c = 0%N ∨ (N.log2 c < 8)%N) as Hb.
  { intros c. destruct (N.eq_dec c 0%N) as [->|Hc]; [split; [by left|done]|].
    rewrite <-N.log2_lt_pow2 by lia. split; [by right|by intros [|]]. }
  rewrite !Hb. intros Ha Hb'.
  assert (N.log2 a < 8 ∧ N.log2 b < 8)%N as [La Lb].
  { split; [destruct Ha as [->|]|destruct Hb' as [->|]]; done. }
  right. eapply N.le_lt_trans; [apply N.log2_lxor|]. lia.
Qed.

Lemma xor_is_challenge n x y :
  Sigma.is_challenge n x → Sigma.is_challenge n y → Sigma.is_challenge n (xor x y).
Proof.
  intros [Lx Hx] [Ly Hy]. split; [rewrite length_zip_with; lia|]. clear Lx Ly.
  revert y Hy. induction Hx as [|a x Ha Hx IH]; intros y Hy; [constructor|].
  destruct Hy as [|b y Hb Hy]; [constructor|]. constructor; [by apply lxor_byte|by apply IH].
Qed.

(** ** Theory of the binary composition *)

Section cartesian.
Import Sigma CartesianOr.
Context {X0 X1 W0 W1 A0 A1 S0 S1 Z0 Z1 P : Type} `{Reader P}.
Context (nilS0 : S0) (nilS1 : S1) (nilZ0 : Z0) (nilZ1 : Z1).
Context (p : ProtocolCartesian X0 X1 W0 W1 A0 A1 S0 S1 Z0 Z1 P).
Local Abbreviation n0 := (GetChallengeBytesLength (sigma0 p)).
Local Abbreviation n1 := (GetChallengeBytesLength (sigma1 p)).
Context (Hlen : challengeBytesLength p = max n0 n1).

Lemma Or_Verify_Ok x a e z :
  length e = challengeBytesLength p →
  CartesianOr.Verify p x a (Some e) z = Ok tt ↔
  ∃ x0 x1 a0 a1 e0 e1 z0 z1, x = Some (mkStatement x0 x1) ∧ a = Some (mkCommitment a0 a1)
    ∧ z = Some (mkResponse e0 e1 z0 z1)
    ∧ XORBytes (make_bytes (challengeBytesLength p)) e0 e1 = Ok e
    ∧ n0 ≤ length e0 ∧ n1 ≤ length e1
    ∧ Sigma.Verify (sigma0 p) x0 a0 (Some (take n0 e0)) z0 = Ok tt
    ∧ Sigma.Verify (sigma1 p) x1 a1 (Some (take n1 e1)) z1 = Ok tt.
Proof.
  intros Hl. split.
  - destruct x as [[x0 x1]|], a as [[a0 a1]|], z as [[e0 e1 z0 z1]|]; try done.
    unfold CartesianOr.Verify. cbn [default from_option id X0_ X1_ A0_ A1_ r_E0 r_E1 r_Z0 r_Z1].
    rewrite Hl, Nat.eqb_refl. cbn [negb].
    destruct (XORBytes _ e0 e1) as [r| |] eqn:Ex; cbn [mbind result_bind]; [|done..].
    destruct (SliceEqual e r) eqn:Es; cbn [negb]; [|done]. apply SliceEqual_true in Es as <-.
    unfold slice_to. cbn [default from_option id fmap option_fmap option_map].
    destruct (Nat.ltb_spec (length e0) n0); cbn [mbind result_bind]; [done|].
    destruct (Sigma.Verify (sigma0 p) _ _ _ _) as [[]| |] eqn:V0; cbn [mbind result_bind]; [|done..].
    destruct (Nat.ltb_spec (length e1) n1); cbn [mbind result_bind]; [done|].
    intros V1. repeat eexists; eassumption.
  - intros (x0 & x1 & a0 & a1 & e0 & e1 & z0 & z1 & -> & -> & -> & Ex & L0 & L1 & V0 & V1).
    unfold CartesianOr.Verify. cbn [default from_option id X0_ X1_ A0_ A1_ r_E0 r_E1 r_Z0 r_Z1].
    rewrite Hl, Nat.eqb_refl, Ex. cbn [negb mbind result_bind].
    rewrite (proj2 (SliceEqual_true e e)) by done. cbn [negb].
    unfold slice_to. cbn [default from_option id fmap option_fmap option_map].
    rewrite (proj2 (Nat.ltb_ge _ _) L0), (proj2 (Nat.ltb_ge _ _) L1). cbn [mbind result_bind].
    by rewrite V0.
Qed.

Definition good_both (good0 : X0 → Prop) (good1 : X1 → Prop)
    (x : option (StatementCartesian X0 X1)) : Prop :=
  ∃ x0 x1, x = Some (mkStatement x0 x1) ∧ good0 x0 ∧ good1 x1.

Lemma Or_Validate_cases x0 x1 w0 w1 :
  CartesianOr.ValidateStatement p (Some (mkStatement x0 x1)) (Some (mkWitness w0 w1)) = Ok tt →
  Sigma.ValidateStatement (sigma0 p) x0 w0 = Ok tt
  ∨ (∃ e, Sigma.ValidateStatement (sigma0 p) x0 w0 = Err e)
    ∧ Sigma.ValidateStatement (sigma1 p) x1 w1 = Ok tt.
Proof.
  cbn. destruct (Sigma.ValidateStatement (sigma0 p) x0 w0) as [[]| |]; [by left| |done].
  destruct (Sigma.ValidateStatement (sigma1 p) x1 w1) as [[]| |]; [|done..].
  intros _. right. eauto.
Qed.

(** The challenge for the real branch: the drawn one and the verifier's. *)
Lemma Or_challenges e' e :
  is_challenge (challengeBytesLength p) e' → is_challenge (challengeBytesLength p) e →
  XORBytes (make_bytes (challengeBytesLength p)) e' e = Ok (xor e' e)
  ∧ XORBytes (make_bytes (challengeBytesLength p)) (xor e' e) e' = Ok e
  ∧ XORBytes (make_bytes (challengeBytesLength p)) e' (xor e' e) = Ok e
  ∧ ∀ k, k ≤ challengeBytesLength p →
      slice_to (Some e') k = Ok (Some (take k e')) ∧ is_challenge k (take k e')
      ∧ slice_to (Some (xor e' e)) k = Ok (Some (take k (xor e' e)))
      ∧ is_challenge k (take k (xor e' e)).
Proof.
  intros He' He. pose proof (xor_is_challenge _ _ _ He' He) as Hx.
  pose proof (proj1 He') as L'. pose proof (proj1 He) as L. pose proof (proj1 Hx) as Lx.
  split_and!.
  - by apply XORBytes_eq.
  - rewrite XORBytes_eq by done. by rewrite xor_comm, xor_cancel by congruence.
  - rewrite XORBytes_eq by done. by rewrite xor_cancel by congruence.
  - intros k Hk. destruct (is_challenge_prefix _ k _ Hk He'), (is_challenge_prefix _ k _ Hk Hx).
    done.
Qed.

#[export] Instance or_complete good0 good1
  `{!Complete (sigma0 p) good0, !Complete (sigma1 p) good1,
    !Simulatable (sigma0 p) good0, !Simulatable (sigma1 p) good1} :
  Complete (CartesianOr.protocol nilS0 nilS1 nilZ0 nilZ1 p) (good_both good0 good1).
Proof.
  intros x w a s q q' e (x0 & x1 & -> & G0 & G1) Hval Hc He.
  destruct w as [[w0 w1]|]; [|done].
  cbn [Sigma.ComputeProverCommitment CartesianOr.protocol] in Hc.
  unfold CartesianOr.ComputeProverCommitment in Hc.
  destruct (read_full _ q) as [[e' q1]| |] eqn:Er; cbn [mbind result_bind] in Hc; [|done..].
  apply read_full_ok in Er. cbn [X0_ X1_ W0_ W1_] in Hc.
  destruct (Or_challenges e' e Er He) as (EX & EX0 & EX1 & Hk).
  destruct (Hk n0 ltac:(lia)) as (S0' & C0 & T0 & D0).
  destruct (Hk n1 ltac:(lia)) as (S1' & C1 & T1 & D1).
  apply Or_Validate_cases in Hval as [V|[[er V] V1]]; rewrite V in Hc.
  - destruct (Sigma.ComputeProverCommitment (sigma0 p) _ _ _) as [[[a0 s0] q2]| |] eqn:Ec;
      cbn [mbind result_bind] in Hc; [|done..].
    rewrite S1' in Hc. cbn [mbind result_bind] in Hc.
    destruct (Sigma.RunSimulator (sigma1 p) _ _ _) as [[[a1 z1] q3]| |] eqn:Es;
      cbn [mbind result_bind] in Hc; [|done..]. injection Hc as <- <- <-.
    destruct (complete (good:=good0) x0 w0 a0 s0 _ _ _ G0 V Ec D0) as (z0 & R0 & K0).
    exists (Some (mkResponse (xor e' e) e' z0 z1)). split.
    + cbn [Sigma.ComputeProverResponse CartesianOr.protocol]. unfold CartesianOr.ComputeProverResponse.
      cbn [default from_option id st_B st_E st_S0 st_Z1 X0_ W0_ A0_ N.eqb].
      rewrite (proj1 He), Nat.eqb_refl, EX. cbn [negb mbind result_bind]. rewrite T0.
      cbn [mbind result_bind]. by rewrite R0.
    + apply Or_Verify_Ok; [apply He|]. do 8 eexists. split_and!; [done..| | | |].
      * rewrite (proj1 (xor_is_challenge _ _ _ Er He)). lia.
      * rewrite (proj1 Er). lia.
      * done.
      * eapply simulates; eauto.
  - destruct (Sigma.ComputeProverCommitment (sigma1 p) _ _ _) as [[[a1 s1] q2]| |] eqn:Ec;
      cbn [mbind result_bind] in Hc; [|done..].
    rewrite S0' in Hc. cbn [mbind result_bind] in Hc.
    destruct (Sigma.RunSimulator (sigma0 p) _ _ _) as [[[a0 z0] q3]| |] eqn:Es;
      cbn [mbind result_bind] in Hc; [|done..]. injection Hc as <- <- <-.
    destruct (complete (good:=good1) x1 w1 a1 s1 _ _ _ G1 V1 Ec D1) as (z1 & R1 & K1).
    exists (Some (mkResponse e' (xor e' e) z0 z1)). split.
    + cbn [Sigma.ComputeProverResponse CartesianOr.protocol]. unfold CartesianOr.ComputeProverResponse.
      cbn [default from_option id st_B st_E st_S1 st_Z0 X1_ W1_ A1_ N.eqb Pos.eqb].
      rewrite (proj1 He), Nat.eqb_refl, EX. cbn [negb mbind result_bind]. rewrite T1.
      cbn [mbind result_bind]. by rewrite R1.
    + apply Or_Verify_Ok; [apply He|]. do 8 eexists. split_and!; [done..| | | |].
      * rewrite (proj1 Er). lia.
      * rewrite (proj1 (xor_is_challenge _ _ _ Er He)). lia.
      * eapply simulates; eauto.
      * done.
Qed.

(** With challenges of one length the simulator convinces the verifier. *)
#[export] Instance or_simulatable good0 good1 (Heq : n0 = n1)
  `{!Simulatable (sigma0 p) good0, !Simulatable (sigma1 p) good1} :
  Simulatable (CartesianOr.protocol nilS0 nilS1 nilZ0 nilZ1 p) (good_both good0 good1).
Proof.
  intros x a z q q' e (x0 & x1 & -> & G0 & G1) He Hs.
  cbn [Sigma.RunSimulator CartesianOr.protocol] in Hs. unfold CartesianOr.RunSimulator in Hs.
  cbn [default from_option id X0_ X1_] in Hs. cbn in He. pose proof (proj1 He) as Hl.
  rewrite Hl, Nat.eqb_refl in Hs. cbn [negb] in Hs.
  destruct (read_full _ q) as [[e' q1]| |] eqn:Er; cbn [mbind result_bind] in Hs; [|done..].
  apply read_full_ok in Er.
  destruct (Or_challenges e' e Er He) as (EX & _ & EX1 & _).
  rewrite XORBytes_eq in Hs by (apply He || apply Er). rewrite xor_comm in Hs.
  cbn [mbind result_bind] in Hs.
  destruct (Sigma.RunSimulator (sigma0 p) _ _ _) as [[[a0 z0] q2]| |] eqn:Es0;
    cbn [mbind result_bind] in Hs; [|done..].
  destruct (Sigma.RunSimulator (sigma1 p) _ _ _) as [[[a1 z1] q3]| |] eqn:Es1;
    cbn [mbind result_bind] in Hs; [|done..]. injection Hs as <- <- <-.
  assert (is_challenge n0 e' ∧ is_challenge n1 (xor e' e)) as [C0 C1].
  { pose proof (xor_is_challenge _ _ _ Er He). rewrite Hlen in *.
    replace (max n0 n1) with n0 in * by lia. rewrite <-Heq. done. }
  apply Or_Verify_Ok; [done|]. do 8 eexists. split_and!; [done..| | | |].
  - rewrite (proj1 C0). lia.
  - rewrite (proj1 C1). lia.
  - rewrite take_ge by (rewrite (proj1 C0); lia). eapply simulates; eauto.
  - rewrite take_ge by (rewrite (proj1 C1); lia). eapply simulates; eauto.
Qed.
End cartesian.

(** The extractor of the composition: two accepted transcripts differ in the
    challenge of a branch, whose extractor runs; the other witness is nil. *)
Definition or_extract {X0 X1 W0 W1 A0 A1 Z0 Z1} (nilW0 : W0) (nilW1 : W1) (n0 n1 : nat)
    (ext0 : X0 → A0 → list N → Z0 → list N → Z0 → result W0)
    (ext1 : X1 → A1 → list N → Z1 → list N → Z1 → result W1)
    (x : option (CartesianOr.StatementCartesian X0 X1))
    (a : option (CartesianOr.CommitmentCartesian A0 A1))
    (e : list N) (z : option (CartesianOr.ResponseCartesian Z0 Z1))
    (e' : list N) (z' : option (CartesianOr.ResponseCartesian Z0 Z1)) :
    result (option (CartesianOr.WitnessCartesian W0 W1)) :=
  match x, a, z, z' with
  | Some x, Some a, Some z, Some z' =>
      if bool_decide (take n0 (CartesianOr.r_E0 z) = take n0 (CartesianOr.r_E0 z')) then
        w1 ← ext1 (CartesianOr.X1_ x) (CartesianOr.A1_ a)
               (take n1 (CartesianOr.r_E1 z)) (CartesianOr.r_Z1 z)
               (take n1 (CartesianOr.r_E1 z')) (CartesianOr.r_Z1 z');
        Ok (Some (CartesianOr.mkWitness nilW0 w1))
      else
        w0 ← ext0 (CartesianOr.X0_ x) (CartesianOr.A0_ a)
               (take n0 (CartesianOr.r_E0 z)) (CartesianOr.r_Z0 z)
               (take n0 (CartesianOr.r_E0 z')) (CartesianOr.r_Z0 z');
        Ok (Some (CartesianOr.mkWitness w0 nilW1))
  | _, _, _, _ => Panic
  end.

Definition wf_or {Z0 Z1} (wf0 : Z0 → Prop) (wf1 : Z1 → Prop)
    (z : option (CartesianOr.ResponseCartesian Z0 Z1)) : Prop :=
  ∀ r, z = Some r → bytes_ok (CartesianOr.r_E0 r) ∧ bytes_ok (CartesianOr.r_E1 r)
    ∧ wf0 (CartesianOr.r_Z0 r) ∧ wf1 (CartesianOr.r_Z1 r).

(** The OR composition of two complete and simulatable protocols is
    complete for statements of which one has a witness; two accepted
    transcripts with one commitment, whose challenges differ within the
    shorter challenge length, yield a witness for one of the branches; and when
    both protocols have challenges of one length the composition is
    simulatable. *)
Theorem Cartesian_Or_composes {X0 X1 W0 W1 A0 A1 S0 S1 Z0 Z1 P} `{Reader P}
    (sigma0 : Sigma.Protocol X0 W0 A0 S0 Z0 P) (sigma1 : Sigma.Protocol X1 W1 A1 S1 Z1 P)
    nilS0 nilS1 nilZ0 nilZ1 nilW0 nilW1 p good0 good1 wf0 wf1 ext0 ext1 :
  CartesianOr.CartesianCompose (Some sigma0) (Some sigma1) = Ok p →
  Sigma.Complete sigma0 good0 → Sigma.Complete sigma1 good1 →
  Sigma.Simulatable sigma0 good0 → Sigma.Simulatable sigma1 good1 →
  Sigma.Extractable sigma0 wf0 ext0 → Sigma.Extractable sigma1 wf1 ext1 →
  (∀ x w, Sigma.ValidateStatement sigma0 x w ≠ Panic) →
  (∀ x w, Sigma.ValidateStatement sigma1 x w ≠ Panic) →
  let n0 := Sigma.GetChallengeBytesLength sigma0 in
  let n1 := Sigma.GetChallengeBytesLength sigma1 in
  let proto := CartesianOr.protocol nilS0 nilS1 nilZ0 nilZ1 p in
  Sigma.Complete proto (good_both good0 good1) ∧
  (∀ x a e z e' z',
    Sigma.is_challenge (max n0 n1) e → Sigma.is_challenge (max n0 n1) e' →
    take (min n0 n1) e ≠ take (min n0 n1) e' →
    wf_or wf0 wf1 z → wf_or wf0 wf1 z' →
    Sigma.Verify proto x a (Some e) z = Ok tt → Sigma.Verify proto x a (Some e') z' = Ok tt →
    ∃ w, or_extract nilW0 nilW1 n0 n1 ext0 ext1 x a e z e' z' = Ok w ∧
         Sigma.ValidateStatement proto x w = Ok tt) ∧
  (n0 = n1 → Sigma.Simulatable proto (good_both good0 good1)).
Proof.
  intros [= <-] C0 C1 Sm0 Sm1 E0 E1 NP0 NP1 n0 n1 proto.
  split_and!; [by apply or_complete| |intros; by apply or_simulatable].
  intros x a e z e' z' He He' Hne F F' V V'.
  change (Sigma.Verify proto) with (CartesianOr.Verify (CartesianOr.mkProtocol
    ("(" +:+ Sigma.Name sigma0 +:+ ")_OR_(" +:+ Sigma.Name sigma1 +:+ ")")%string sigma0 sigma1
    (max n0 n1))) in V, V'.
  apply Or_Verify_Ok in V as (x0 & x1 & a0 & a1 & c0 & c1 & z0 & z1 & -> & -> & -> & EX & L0 & L1 & V0 & V1);
    [|apply He].
  apply Or_Verify_Ok in V' as (x0' & x1' & a0' & a1' & c0' & c1' & z0' & z1' & [= <- <-] & [= <- <-] & -> & EX' & L0' & L1' & V0' & V1');
    [|apply He'].
  cbn [CartesianOr.sigma0 CartesianOr.sigma1] in *. fold n0 n1 in L0, L1, L0', L1', V0, V1, V0', V1'.
  destruct (F _ eq_refl) as (B0 & B1 & Wf0 & Wf1), (F' _ eq_refl) as (B0' & B1' & Wf0' & Wf1').
  cbn [CartesianOr.r_E0 CartesianOr.r_E1 CartesianOr.r_Z0 CartesianOr.r_Z1] in *.
  assert (∀ k c, k ≤ length c → bytes_ok c → Sigma.is_challenge k (take k c)) as Hch.
  { intros k c Hk Hc. split; [rewrite length_take; lia|by apply Forall_take]. }
  unfold or_extract. cbn [CartesianOr.X0_ CartesianOr.X1_ CartesianOr.A0_ CartesianOr.A1_
    CartesianOr.r_E0 CartesianOr.r_E1 CartesianOr.r_Z0 CartesianOr.r_Z1].
  case_bool_decide as Heq.
  - destruct (E1 x1 a1 (take n1 c1) z1 (take n1 c1') z1') as (w & -> & K); auto.
    { intros Heq1. apply Hne.
      rewrite (XORBytes_prefix _ _ _ _ (min n0 n1) EX), (XORBytes_prefix _ _ _ _ (min n0 n1) EX') by lia.
      assert (∀ k (c c' : list N), min n0 n1 ≤ k → take k c = take k c' →
        take (min n0 n1) c = take (min n0 n1) c') as Hp.
      { intros k c c' Hk E. pose proof (f_equal (take (min n0 n1)) E) as E2.
        rewrite !take_take in E2. by rewrite !Nat.min_l in E2 by lia. }
      f_equal; [apply (Hp n0)|apply (Hp n1)]; done || lia. }
    eexists. split; [done|]. cbn. pose proof (NP0 x0 nilW0). rewrite K.
    by destruct (Sigma.ValidateStatement sigma0 x0 nilW0).
  - destruct (E0 x0 a0 (take n0 c0) z0 (take n0 c0') z0') as (w & -> & K); auto.
    eexists. split; [done|]. cbn. pose proof (NP1 x1 nilW1). rewrite K.
    by destruct (Sigma.ValidateStatement sigma1 x1 nilW1).
Qed.

(** With challenges of different lengths the simulator fails: the branches
    are simulated on challenges the verifier truncates. *)
Definition ex_or_lengths := CartesianOr.mkProtocol "or" (Maurer.protocol ex_schnorr) (Maurer.protocol
  (Maurer.mkMaurer ex_random 1 8 "byte" (λ s, Ok s) (order (F:=fp101)) (λ _, (rzero : fp101))
    Maurer.defaultScalarMul Maurer.defaultScalarMul)) 16.
Definition ex_or_statement := Some (CartesianOr.mkStatement
  (Some (Maurer.mkStatement (ex_el 7))) (Some (Maurer.mkStatement (ex_el 9)))).

Lemma Or_RunSimulator_rejected :
  match CartesianOr.RunSimulator ex_or_lengths ex_or_statement (Some (ex_challenge 3))
          (replicate 16 5%N ++ [11; 12]%N) with
  | Ok (a, z, _) => CartesianOr.Verify ex_or_lengths ex_or_statement a (Some (ex_challenge 3)) z
  | _ => Ok tt
  end = Err ErrVerificationFailed.
Proof. vm_compute. reflexivity. Qed.

(** Verification as a decision over its input. *)
Lemma Or_Verify_cases {X0 X1 W0 W1 A0 A1 S0 S1 Z0 Z1 P}
    (p : CartesianOr.ProtocolCartesian X0 X1 W0 W1 A0 A1 S0 S1 Z0 Z1 P) x a e E0 E1 z0 z1 :
  let n := CartesianOr.challengeBytesLength p in
  let k := min (length E0) (length E1) in
  let n0 := Sigma.GetChallengeBytesLength (CartesianOr.sigma0 p) in
  let n1 := Sigma.GetChallengeBytesLength (CartesianOr.sigma1 p) in
  CartesianOr.Verify p (Some x) (Some a) e (Some (CartesianOr.mkResponse E0 E1 z0 z1)) =
  if decide (length (default [] e) = n) then
    if decide (k ≤ n) then if decide (default [] e = xor E0 E1 ++ make_bytes (n - k)) then
      if decide (n0 ≤ length E0) then
        Sigma.Verify (CartesianOr.sigma0 p) (CartesianOr.X0_ x) (CartesianOr.A0_ a)
          (Some (take n0 E0)) z0 ≫= λ _,
        if decide (n1 ≤ length E1) then
          Sigma.Verify (CartesianOr.sigma1 p) (CartesianOr.X1_ x) (CartesianOr.A1_ a)
            (Some (take n1 E1)) z1
        else Panic
      else Panic else Err ErrVerification else Panic else Err ErrInvalidLength.
Proof.
  intros n k n0 n1. unfold CartesianOr.Verify, XORBytes, slice_to. fold n.
  cbn [CartesianOr.r_E0 CartesianOr.r_E1 CartesianOr.r_Z0 CartesianOr.r_Z1].
  case_decide as Hl; [rewrite Hl, Nat.eqb_refl; cbn [negb]|by rewrite (proj2 (Nat.eqb_neq _ _) Hl)].
  unfold make_bytes at 1. rewrite length_replicate. fold k.
  case_decide as Hk; [|by rewrite (proj2 (Nat.ltb_lt n k)) by lia].
  rewrite (proj2 (Nat.ltb_ge n k)) by done. cbn [mbind result_bind].
  unfold make_bytes at 1. rewrite drop_replicate. fold (make_bytes (n - k)).
  case_decide as Hx.
  2:{ destruct (SliceEqual _ _) eqn:Es; [|done]. by apply SliceEqual_true in Es. }
  rewrite (proj2 (SliceEqual_true _ _) Hx). cbn [negb default from_option id]. fold n0 n1.
  case_decide; [rewrite (proj2 (Nat.ltb_ge (length E0) n0)) by done
    |by rewrite (proj2 (Nat.ltb_lt (length E0) n0)) by lia].
  cbn [mbind result_bind fmap option_fmap option_map].
  destruct (Sigma.Verify (CartesianOr.sigma0 p) _ _ _ _) as [[]| |]; [|done..]. cbn [mbind result_bind].
  case_decide; [by rewrite (proj2 (Nat.ltb_ge (length E1) n1)) by done
    |by rewrite (proj2 (Nat.ltb_lt (length E1) n1)) by lia].
Qed.

(** C16. The outcome of verification on every input: nil arguments and
    challenges of the wrong length are rejected with their errors, and so are
    branch challenges that do not add up to the challenge, a missing tail of
    the sum counting as zeros; branch challenges that are both longer than the
    challenge, or one that is shorter than its branch wants, are not rejected
    but make it panic; otherwise the first branch that its protocol does not
    accept, on the prefix of its branch challenge, gives its error.  It accepts
    exactly when the sum is the challenge and both branches accept. *)
Theorem Cartesian_Or_Verify_errors {X0 X1 W0 W1 A0 A1 S0 S1 Z0 Z1 P}
    (p : CartesianOr.ProtocolCartesian X0 X1 W0 W1 A0 A1 S0 S1 Z0 Z1 P)
    (x : CartesianOr.StatementCartesian X0 X1) (a : CartesianOr.CommitmentCartesian A0 A1)
    (z : CartesianOr.ResponseCartesian Z0 Z1) ox oa e oz :
  let n := CartesianOr.challengeBytesLength p in
  let '(CartesianOr.mkResponse E0 E1 z0 z1) := z in
  let k := min (length E0) (length E1) in
  let n0 := Sigma.GetChallengeBytesLength (CartesianOr.sigma0 p) in
  let n1 := Sigma.GetChallengeBytesLength (CartesianOr.sigma1 p) in
  let verify0 := Sigma.Verify (CartesianOr.sigma0 p) (CartesianOr.X0_ x) (CartesianOr.A0_ a)
                   (Some (take n0 E0)) z0 in
  let verify1 := Sigma.Verify (CartesianOr.sigma1 p) (CartesianOr.X1_ x) (CartesianOr.A1_ a)
                   (Some (take n1 E1)) z1 in
  let verify := CartesianOr.Verify p (Some x) (Some a) e (Some z) in
  let adds_up := length (default [] e) = n ∧ k ≤ n ∧ default [] e = xor E0 E1 ++ make_bytes (n - k) in
  (ox = None ∨ oa = None ∨ oz = None → CartesianOr.Verify p ox oa e oz = Err ErrIsNil) ∧
  (length (default [] e) ≠ n → verify = Err ErrInvalidLength) ∧
  (length (default [] e) = n → n < k → verify = Panic) ∧
  (length (default [] e) = n → k ≤ n → default [] e ≠ xor E0 E1 ++ make_bytes (n - k) →
    verify = Err ErrVerification) ∧
  (adds_up → length E0 < n0 → verify = Panic) ∧
  (adds_up → n0 ≤ length E0 → verify0 ≠ Ok tt → verify = verify0) ∧
  (adds_up → n0 ≤ length E0 → verify0 = Ok tt → length E1 < n1 → verify = Panic) ∧
  (adds_up → n0 ≤ length E0 → verify0 = Ok tt → n1 ≤ length E1 → verify1 ≠ Ok tt →
    verify = verify1) ∧
  (verify = Ok tt ↔ adds_up ∧ n0 ≤ length E0 ∧ n1 ≤ length E1 ∧ verify0 = Ok tt ∧ verify1 = Ok tt).
Proof.
  destruct z as [E0 E1 z0 z1]. intros n k n0 n1 verify0 verify1 verify adds_up.
  assert (ox = None ∨ oa = None ∨ oz = None → CartesianOr.Verify p ox oa e oz = Err ErrIsNil) as Hnil.
  { unfold CartesianOr.Verify. destruct ox, oa, oz; naive_solver. }
  assert (verify = if decide (length (default [] e) = n) then
    if decide (k ≤ n) then if decide (default [] e = xor E0 E1 ++ make_bytes (n - k)) then
      if decide (n0 ≤ length E0) then
        verify0 ≫= λ _, if decide (n1 ≤ length E1) then verify1 else Panic
      else Panic else Err ErrVerification else Panic else Err ErrInvalidLength) as ->.
  { exact (Or_Verify_cases p x a e E0 E1 z0 z1). }
  split_and!; [exact Hnil| | | | | | | |].
  all: unfold adds_up; repeat case_decide; try naive_solver lia.
  all: destruct verify0 as [[]| |]; try naive_solver lia.
  all: repeat case_decide; naive_solver lia.
Qed.

(** ** n-fold composition (or.go) *)

Module PowerOr.
Import Sigma.

(** [E[i]] of the real branch is unused: [None] is the nil slice. *)
Record State (S Z : Type) := mkState {
  st_B : nat; st_S : list S; st_E : list (option (list N)); st_Z : list Z }.
Record Response (Z : Type) := mkResponse { r_E : list (list N); r_Z : list Z }.
Arguments mkState {S Z}. Arguments st_B {S Z}. Arguments st_S {S Z}. Arguments st_E {S Z}.
Arguments st_Z {S Z}. Arguments mkResponse {Z}. Arguments r_E {Z}. Arguments r_Z {Z}.

Definition ComposeStatements {X} (statements : list (option X)) : result (list X) :=
  match mapM id statements with Some xs => Ok xs | None => Err ErrInvalidArgument end.

Section power.
Context {X W A S Z P : Type} `{Reader P}.
Context (nilS : S) (nilZ : Z).

(** The order in which the goroutines of each method run; the simulator has
    two groups. *)
Record Schedule := mkSchedule {
  on_commit : list nat; on_verify : list nat; on_sample : list nat; on_simulate : list nat }.

Record ProtocolOr := mkProtocol {
  name : string; sigma : Protocol X W A S Z P; count : nat }.

Definition ComposeNamed (name : string) (p : option (Protocol X W A S Z P)) (count : N)
    (prng : option unit) : result ProtocolOr :=
  match p, prng with
  | Some p, Some _ =>
      if (count <? 2)%N then Err ErrInvalidArgument else Ok (mkProtocol name p (N.to_nat count))
  | _, _ => Err ErrIsNil
  end.

Definition Compose (decimal : N → string) (p : option (Protocol X W A S Z P)) (count : N)
    (prng : option unit) : result ProtocolOr :=
  match p with
  | None => Err ErrIsNil
  | Some q =>
      if (count <? 2)%N then Err ErrInvalidArgument
      else ComposeNamed ("SigmaOR(" +:+ Name q +:+ ")^" +:+ decimal count)%string p count prng
  end.

Definition clen (p : ProtocolOr) : nat := GetChallengeBytesLength (sigma p).

(** [getB]: the first branch the witness is valid for. *)
Fixpoint getB_loop (p : ProtocolOr) (statement : list X) (witness : W) (idx : list nat) : result nat :=
  match idx with
  | [] => Err ErrNotAtLeastOneOutOfN
  | i :: idx =>
      match statement !! i with
      | None => Panic
      | Some x =>
          match ValidateStatement (sigma p) x witness with
          | Ok _ => Ok i
          | Err _ => getB_loop p statement witness idx
          | Panic => Panic
          end
      end
  end.
Definition getB (p : ProtocolOr) (statement : list X) (witness : W) : result nat :=
  getB_loop p statement witness (seq 0 (count p)).

(** Goroutine [i] of the commitment: the real branch [B] or a simulation. *)
Definition commit_branch (p : ProtocolOr) (statement : list X) (witness : W) (B i : nat) (prng : P) :
    result ((A * S * option (list N) * Z) * P) :=
  match statement !! i with
  | None => Panic
  | Some x =>
      if i =? B then
        '(a, s, prng) ← Sigma.ComputeProverCommitment (sigma p) x witness prng;
        Ok (a, s, None, nilZ, prng)
      else
        '(e, prng) ← read_full (clen p) prng;
        '(a, z, prng) ← Sigma.RunSimulator (sigma p) x (Some e) prng;
        Ok (a, nilS, Some e, z, prng)
  end.

Definition ComputeProverCommitment (sch : Schedule) (p : ProtocolOr) (statement : list X)
    (witness : W) (prng : P) : result (list A * option (State S Z) * P) :=
  if negb (length statement =? count p) then Err ErrInvalidLength
  else
    B ← getB p statement witness;
    '(out, prng) ← run_group (on_commit sch) (commit_branch p statement witness B) prng;
    let sl := slots (count p) out in
    Ok ((λ r, r.1.1.1) <$> sl,
        Some (mkState B ((λ r, r.1.1.2) <$> sl) ((λ r, r.1.2) <$> sl) (snd <$> sl)), prng).

(** The loop that completes [E[B]]: the challenge and the other challenges. *)
Definition add_challenge (state : State S Z) (eB : list N) (i : nat) : result (list N) :=
  if i =? st_B state then Ok eB
  else
    match st_E state !! i with
    | None => Panic
    | Some e => XORBytes eB eB (default [] e)
    end.

Definition ComputeProverResponse (p : ProtocolOr) (statement : list X) (witness : W)
    (commitment : list A) (state : option (State S Z)) (challenge : ChallengeBytes) :
    result (option (Response Z)) :=
  if negb (length statement =? count p) then Err ErrInvalidLength
  else if negb (length commitment =? count p) then Err ErrInvalidLength
  else
    match state with
    | None => Panic
    | Some state =>
        if negb (length (st_S state) =? count p) || negb (length (st_Z state) =? count p)
           || negb (length (st_E state) =? count p) then Err ErrInvalidLength
        else if negb (length (default [] challenge) =? clen p) then Err ErrInvalidLength
        else if count p <=? st_B state then Panic
        else
          eB ← foldM (add_challenge state) (default [] challenge) (seq 0 (count p));
          match statement !! st_B state, commitment !! st_B state, st_S state !! st_B state with
          | Some x, Some a, Some s =>
              zB ← Sigma.ComputeProverResponse (sigma p) x witness a s (Some eB);
              Ok (Some (mkResponse (<[st_B state := eB]> (default [] <$> st_E state))
                          (<[st_B state := zB]> (st_Z state))))
          | _, _, _ => Panic
          end
    end.

Definition Verify (sch : Schedule) (p : ProtocolOr) (statement : list X) (commitment : list A)
    (challenge : ChallengeBytes) (response : option (Response Z)) : result unit :=
  if negb (length statement =? count p) then Err ErrInvalidLength
  else if negb (length commitment =? count p) then Err ErrInvalidLength
  else
    match response with
    | None => Panic
    | Some response =>
        if negb (length (r_Z response) =? count p) then Err ErrInvalidLength
        else if negb (length (r_E response) =? count p) then Err ErrInvalidLength
        else if negb (length (default [] challenge) =? clen p) then Err ErrInvalidLength
        else if negb (forallb (λ e, length e =? clen p) (r_E response)) then Err ErrInvalidLength
        else
          match r_E response with
          | e0 :: e1 :: es =>
              x0 ← XORBytes (make_bytes (clen p)) e0 e1;
              xored ← foldM (λ acc e, XORBytes acc acc e) x0 es;
              if negb (SliceEqual (default [] challenge) xored) then Err ErrVerification
              else
                _ ← run_pure (count p) (on_verify sch) (λ i,
                  match statement !! i, commitment !! i, r_E response !! i, r_Z response !! i with
                  | Some x, Some a, Some e, Some z => Sigma.Verify (sigma p) x a (Some e) z
                  | _, _, _, _ => Panic
                  end);
                Ok tt
          | _ => Panic
          end
    end.

Definition RunSimulator (sch : Schedule) (p : ProtocolOr) (statement : list X)
    (challenge : ChallengeBytes) (prng : P) : result (list A * option (Response Z) * P) :=
  if negb (length statement =? count p) then Err ErrInvalidLength
  else if negb (length (default [] challenge) =? clen p) then Err ErrInvalidLength
  else
    '(out, prng) ← run_group (on_sample sch) (λ _ prng, read_full (clen p) prng) prng;
    match slots (count p - 1) out with
    | e0 :: es =>
        x0 ← XORBytes (make_bytes (clen p)) (default [] challenge) e0;
        last ← foldM (λ acc e, XORBytes acc acc e) x0 es;
        let E := (e0 :: es) ++ [last] in
        '(out, prng) ← run_group (on_simulate sch) (λ i prng,
           match statement !! i, E !! i with
           | Some x, Some e =>
               '(a, z, prng) ← Sigma.RunSimulator (sigma p) x (Some e) prng; Ok ((a, z), prng)
           | _, _ => Panic
           end) prng;
        Ok ((slots (count p) out).*1, Some (mkResponse E (slots (count p) out).*2), prng)
    | [] => Panic
    end.

Definition ValidateStatement (p : ProtocolOr) (statement : list X) (witness : W) : result unit :=
  if negb (length statement =? count p) then Err ErrInvalidLength
  else _ ← getB p statement witness; Ok tt.

Definition protocol (sch : Schedule) (p : ProtocolOr) :
    Protocol (list X) W (list A) (option (State S Z)) (option (Response Z)) P :=
  {| Sigma.Name := name p;
     Sigma.ComputeProverCommitment := ComputeProverCommitment sch p;
     Sigma.ComputeProverResponse := ComputeProverResponse p;
     Sigma.Verify := Verify sch p;
     Sigma.RunSimulator := RunSimulator sch p;
     Sigma.SpecialSoundness := SpecialSoundness (sigma p);
     Sigma.SoundnessError := SoundnessError (sigma p);
     Sigma.GetChallengeBytesLength := clen p;
     Sigma.ValidateStatement := ValidateStatement p |}.
End power.
Arguments ProtocolOr : clear implicits.
Definition fair (n : nat) (sch : Schedule) : Prop :=
  on_commit sch ≡ₚ seq 0 n ∧ on_verify sch ≡ₚ seq 0 n ∧
  on_sample sch ≡ₚ seq 0 (n - 1) ∧ on_simulate sch ≡ₚ seq 0 n.
End PowerOr.

(** ** Sums of challenges *)

Definition xor_all (n : nat) (l : list (list N)) : list N := foldl xor (make_bytes n) l.

Section xor_all.
Context (n : nat).
Implicit Types (l k : list (list N)) (x y : list N).
Local Abbreviation sized := (Forall (λ e : list N, length e = n)).

Lemma foldM_XORBytes x l :
  length x = n → sized l → foldM (λ acc e, XORBytes acc acc e) x l = Ok (foldl xor x l).
Proof.
  intros Hx Hl. revert x Hx. induction Hl as [|e l He Hl IH]; intros x Hx; [done|].
  cbn [foldM foldl].
  assert (XORBytes x x e = Ok (xor x e)) as ->.
  { unfold XORBytes. rewrite He, Hx, Nat.min_id, Nat.ltb_irrefl, drop_ge by lia.
    by rewrite app_nil_r. }
  cbn [mbind result_bind]. apply IH. rewrite length_zip_with. lia.
Qed.

Lemma length_foldl_xor x l : length x = n → sized l → length (foldl xor x l) = n.
Proof.
  intros Hx Hl. revert x Hx. induction Hl as [|e l He Hl IH]; intros x Hx; [done|].
  cbn. apply IH. rewrite length_zip_with. lia.
Qed.
Lemma length_xor_all l : sized l → length (xor_all n l) = n.
Proof. apply length_foldl_xor, length_replicate. Qed.

Lemma xor_lookup x y j :
  length x = n → length y = n → j < n → xor x y !!! j = N.lxor (x !!! j) (y !!! j).
Proof.
  intros Hx Hy Hj. apply list_lookup_total_correct. rewrite lookup_zip_with.
  rewrite (list_lookup_lookup_total_lt x j), (list_lookup_lookup_total_lt y j) by lia. done.
Qed.

Lemma foldl_xor_lookup x l j :
  length x = n → sized l → j < n →
  foldl xor x l !!! j = N.lxor (x !!! j) (lbig N.lxor 0%N (λ e : list N, e !!! j) l).
Proof.
  intros Hx Hl Hj. revert x Hx. induction Hl as [|e l He Hl IH]; intros x Hx.
  { cbn. by rewrite N.lxor_0_r. }
  cbn [foldl]. rewrite IH by (rewrite length_zip_with; lia). rewrite xor_lookup by done.
  rewrite lbig_cons by auto using N.lxor_0_l, N.lxor_0_r, N.lxor_assoc.
  apply N.lxor_assoc.
Qed.

Lemma foldl_xor_all x l : length x = n → sized l → foldl xor x l = xor x (xor_all n l).
Proof.
  intros Hx Hl. pose proof (length_xor_all l Hl) as Hr.
  apply list_eq_total; [rewrite length_foldl_xor, length_zip_with by done; lia|].
  rewrite length_foldl_xor by done. intros j Hj.
  rewrite foldl_xor_lookup, xor_lookup by done. f_equal. unfold xor_all.
  rewrite foldl_xor_lookup by (done || apply length_replicate).
  unfold make_bytes. rewrite lookup_total_replicate_2 by done. by rewrite N.lxor_0_l.
Qed.

Lemma xor_zero_l x : length x = n → xor (make_bytes n) x = x.
Proof.
  intros Hx. apply list_eq_total; rewrite length_zip_with; unfold make_bytes; rewrite length_replicate; [lia|].
  intros j Hj. rewrite xor_lookup by (rewrite ?length_replicate; lia).
  rewrite lookup_total_replicate_2 by lia. apply N.lxor_0_l.
Qed.

Lemma xor_all_cons x l : length x = n → sized l → xor_all n (x :: l) = xor x (xor_all n l).
Proof.
  intros Hx Hl. rewrite <-foldl_xor_all by done. unfold xor_all. cbn [foldl].
  by rewrite xor_zero_l.
Qed.

Lemma xor_all_perm l k : sized l → l ≡ₚ k → xor_all n l = xor_all n k.
Proof.
  intros Hl Hp. assert (sized k) as Hk by by rewrite <-Hp.
  apply list_eq_total; [by rewrite !length_xor_all|]. rewrite length_xor_all by done.
  intros j Hj. unfold xor_all. rewrite !foldl_xor_lookup by (done || apply length_replicate).
  f_equal. apply lbig_perm; auto using N.lxor_0_l, N.lxor_0_r, N.lxor_assoc, N.lxor_comm.
Qed.

Lemma xor_all_bytes l : Forall bytes_ok l → bytes_ok (xor_all n l).
Proof.
  assert (∀ x y, bytes_ok x → bytes_ok y → bytes_ok (xor x y)) as Hxor.
  { intros x y Hx. revert y. induction Hx as [|a x Ha Hx IH]; intros y Hy; [constructor|].
    destruct Hy; constructor; [by apply lxor_byte|by apply IH]. }
  unfold xor_all. assert (bytes_ok (make_bytes n)) as Hm by by apply Forall_replicate.
  revert Hm. generalize (make_bytes n). intros x Hm Hl. revert x Hm.
  induction Hl as [|e l He Hl IH]; intros x Hx; [done|]. cbn. apply IH. auto.
Qed.

Lemma insert_delete_perm (l : list (list N)) B x : B < length l → <[B := x]> l ≡ₚ x :: delete B l.
Proof.
  intros HB. rewrite (delete_Permutation (<[B := x]> l) B x) by by apply list_lookup_insert_eq.
  f_equiv. by rewrite !delete_take_drop, take_insert_ge, drop_insert_lt by lia.
Qed.

(** The sum of the challenges when that of branch [B] completes the others. *)
Lemma xor_all_complete (l : list (list N)) B x :
  B < length l → length x = n → sized (delete B l) →
  xor_all n (<[B := xor x (xor_all n (delete B l))]> l) = x.
Proof.
  intros HB Hx Hl. set (eB := xor x _). pose proof (length_xor_all _ Hl) as HR.
  assert (length eB = n) as HeB by (unfold eB; rewrite length_zip_with; lia).
  pose proof (insert_delete_perm l B eB HB) as Hp.
  symmetry in Hp. rewrite <-(xor_all_perm (eB :: delete B l) _) by (done || by constructor).
  rewrite xor_all_cons by done. unfold eB. rewrite (xor_comm x), (xor_comm _ (xor_all n _)).
  apply xor_cancel. lia.
Qed.
End xor_all.

(** ** Theory of the n-fold composition *)

Section power.
Import Sigma PowerOr.
Context {X W A S Z P : Type} `{Reader P} (nilS : S) (nilZ : Z).
Context (p : ProtocolOr X W A S Z P) (sch : Schedule).
Local Abbreviation cnt := (count p).
Local Abbreviation n := (clen p).
Context (Hcnt : 2 ≤ cnt) (Hfair : fair cnt sch).
Local Abbreviation base := (PowerOr.sigma p).
Context (Hnp : ∀ x w, Sigma.ValidateStatement base x w ≠ Panic).

Definition or_all_good (good : X → Prop) (xs : list X) : Prop := length xs = cnt ∧ Forall good xs.

Lemma getB_loop_ok xs w idx B :
  getB_loop p xs w idx = Ok B →
  B ∈ idx ∧ ∃ x, xs !! B = Some x ∧ Sigma.ValidateStatement base x w = Ok tt.
Proof.
  induction idx as [|i idx IH]; [done|]. cbn. destruct (xs !! i) as [x|] eqn:Hx; [|done].
  destruct (Sigma.ValidateStatement base x w) as [[]|e|] eqn:Hv; [| |done].
  - intros [= <-]. split; [by constructor|]. eauto.
  - intros (HB & ?)%IH. split; [by constructor|done].
Qed.

Lemma getB_loop_total xs w idx i x :
  (∀ j, j ∈ idx → j < length xs) → i ∈ idx → xs !! i = Some x →
  Sigma.ValidateStatement base x w = Ok tt → ∃ B, getB_loop p xs w idx = Ok B.
Proof.
  intros Hidx Hi Hx Hv. induction idx as [|j idx IH]; [by apply not_elem_of_nil in Hi|]. cbn.
  destruct (lookup_lt_is_Some_2 xs j) as [y Hy]; [apply Hidx; by constructor|].
  rewrite Hy. destruct (Sigma.ValidateStatement base y w) as [[]|e|] eqn:Ev; [eauto| |].
  - apply elem_of_cons in Hi as [->|Hi]; [congruence|].
    apply IH; [|done]. intros k Hk. apply Hidx. by constructor.
  - by apply Hnp in Ev.
Qed.

Lemma PowerOr_Validate_Ok xs w :
  PowerOr.ValidateStatement p xs w = Ok tt ↔
  length xs = cnt ∧ ∃ i x, xs !! i = Some x ∧ Sigma.ValidateStatement base x w = Ok tt.
Proof.
  unfold PowerOr.ValidateStatement. destruct (Nat.eqb_spec (length xs) cnt) as [Hl|Hl]; cbn [negb].
  2: { split; [done|]. by intros [? _]. }
  split.
  - intros E. simplify_res. match goal with E : getB _ _ _ = Ok _ |- _ => apply getB_loop_ok in E as (_ & ? & ? & ?) end.
    split; [done|]. eauto.
  - intros (_ & i & x & Hx & Hv).
    destruct (getB_loop_total xs w (seq 0 cnt) i x) as [B HB]; try done.
    + intros j [_ Hj]%elem_of_seq. lia.
    + apply elem_of_seq. apply lookup_lt_Some in Hx. lia.
    + unfold getB. by rewrite HB.
Qed.

(** Verification: as many challenges as branches, of the right length, that
    add up to the challenge, and accepted branches. *)
Lemma PowerOr_Verify_Ok xs al e oz :
  length e = n →
  PowerOr.Verify sch p xs al (Some e) oz = Ok tt ↔
  ∃ es zs, oz = Some (mkResponse es zs) ∧ length xs = cnt ∧ length al = cnt ∧ length es = cnt
    ∧ length zs = cnt ∧ Forall (λ c : list N, length c = n) es ∧ xor_all n es = e
    ∧ ∀ i x a c z, xs !! i = Some x → al !! i = Some a → es !! i = Some c → zs !! i = Some z →
        Sigma.Verify base x a (Some c) z = Ok tt.
Proof.
  intros He. destruct Hfair as (_ & Fv & _ & _).
  assert (∀ es, length es = cnt → Forall (λ c : list N, length c = n) es →
    ∃ e0 e1 es', es = e0 :: e1 :: es' ∧
    (x0 ← XORBytes (make_bytes n) e0 e1; foldM (λ acc e, XORBytes acc acc e) x0 es')
      = Ok (xor_all n es)) as Hx.
  { intros [|e0 [|e1 es']] Hl Hs; [cbn in Hl; lia..|]. exists e0, e1, es'. split; [done|].
    pose proof (Forall_inv Hs) as H0. pose proof (Forall_inv (Forall_inv_tail Hs)) as H1.
    pose proof (Forall_inv_tail (Forall_inv_tail Hs)) as H2. cbn in H0, H1.
    rewrite XORBytes_eq by done. cbn [mbind result_bind].
    rewrite (foldM_XORBytes n) by (rewrite ?length_zip_with; done || lia).
    unfold xor_all. cbn [foldl]. by rewrite xor_zero_l. }
  unfold PowerOr.Verify. cbn [default from_option id]. split.
  - destruct (Nat.eqb_spec (length xs) cnt) as [Lx|]; [cbn [negb]|done].
    destruct (Nat.eqb_spec (length al) cnt) as [La|]; [cbn [negb]|done].
    destruct oz as [[es zs]|]; [|done]. cbn [r_E r_Z].
    destruct (Nat.eqb_spec (length zs) cnt) as [Lz|]; [cbn [negb]|done].
    destruct (Nat.eqb_spec (length es) cnt) as [Le|]; [cbn [negb]|done].
    rewrite He, Nat.eqb_refl. cbn [negb].
    destruct (forallb _ es) eqn:Hs; [cbn [negb]|done].
    assert (Forall (λ c : list N, length c = n) es) as Hsz.
    { apply Forall_forall. intros c Hc. apply list_elem_of_In in Hc.
      rewrite forallb_forall in Hs. by apply Nat.eqb_eq, Hs. }
    destruct (Hx es Le Hsz) as (e0 & e1 & es' & -> & Hxor). intros E.
    apply bind_ok in E as (x0 & E0 & E). apply bind_ok in E as (xd & E1 & E).
    rewrite E0 in Hxor. cbn [mbind result_bind] in Hxor. rewrite E1 in Hxor. injection Hxor as ->.
    destruct (SliceEqual e _) eqn:Hse; [cbn [negb] in E|done]. apply SliceEqual_true in Hse.
    simplify_res. match goal with E : run_pure _ _ _ = Ok _ |- _ => apply run_pure_ok in E as [_ Hall]; [|done] end.
    exists (e0 :: e1 :: es'), zs. split_and!; try done.
    intros i xi a c z Hxi Ha Hc Hz. destruct (Hall i) as ([] & _ & Hr); [apply lookup_lt_Some in Hxi; lia|].
    by rewrite Hxi, Ha, Hc, Hz in Hr.
  - intros (es & zs & -> & Lx & La & Le & Lz & Hs & Hxe & Hall). cbn [r_E r_Z].
    rewrite Lx, La, Le, Lz, He, !Nat.eqb_refl. cbn [negb].
    assert (forallb (λ c : list N, length c =? n) es = true) as ->.
    { apply forallb_forall. intros c Hc%list_elem_of_In. apply Nat.eqb_eq.
      by eapply Forall_forall in Hs. }
    cbn [negb]. destruct (Hx es Le Hs) as (e0 & e1 & es' & -> & Hxor).
    apply bind_ok in Hxor as (x0 & E0 & E1). rewrite E0. cbn [mbind result_bind].
    rewrite E1. cbn [mbind result_bind]. rewrite Hxe, (proj2 (SliceEqual_true e e)) by done.
    cbn [negb]. match goal with |- (_ ← run_pure cnt _ ?f; _) = _ =>
      destruct (run_pure_total cnt (on_verify sch) f Fv) as [rs ->]; [|done] end.
    intros i Hi.
    destruct (lookup_lt_is_Some_2 xs i) as [x Hxi]; [lia|].
    destruct (lookup_lt_is_Some_2 al i) as [a Ha]; [lia|].
    destruct (lookup_lt_is_Some_2 (e0 :: e1 :: es') i) as [c Hc]; [lia|].
    destruct (lookup_lt_is_Some_2 zs i) as [z Hz]; [lia|].
    rewrite Hxi, Ha, Hc, Hz. exists tt. by eapply Hall.
Qed.

(** The loop that completes the challenge of branch [B]. *)
Lemma add_challenges (st : State S Z) c :
  length (st_E st) = cnt → st_B st < cnt → length c = n →
  let l := default [] <$> st_E st in
  Forall (λ e : list N, length e = n) (delete (st_B st) l) →
  foldM (add_challenge st) c (seq 0 cnt) = Ok (xor c (xor_all n (delete (st_B st) l))).
Proof.
  intros Hl HB Hc l Hs. rewrite <-foldl_xor_all by done.
  assert (length l = cnt) as Ll by (unfold l; by rewrite length_fmap).
  assert (∀ i e, l !! i = Some e → i ≠ st_B st → length e = n) as Hsz.
  { intros i e Hi Hne. rewrite Forall_forall in Hs. apply Hs.
    rewrite delete_take_drop. apply elem_of_app.
    destruct (decide (i < st_B st)).
    - left. apply (list_elem_of_lookup_2 _ i). by rewrite lookup_take_lt.
    - right. apply (list_elem_of_lookup_2 _ (i - Datatypes.S (st_B st))).
      rewrite lookup_drop, <-Hi. f_equal. lia. }
  assert (∀ k, k ≤ cnt → foldM (add_challenge st) c (seq 0 k)
    = Ok (foldl xor c (take (min k (st_B st)) l ++ drop (Datatypes.S (st_B st)) (take k l)))) as H'.
  2: { rewrite H' by lia. rewrite delete_take_drop, Nat.min_r by lia. by rewrite (take_ge l cnt) by lia. }
  induction k as [|k IH]; intros Hk; [done|].
  rewrite seq_S, foldM_app, IH by lia. cbn [mbind result_bind foldM Nat.add].
  destruct (lookup_lt_is_Some_2 l k) as [e He]; [lia|].
  assert (∃ oe, st_E st !! k = Some oe ∧ default [] oe = e) as (oe & Hoe & <-).
  { unfold l in He. rewrite list_lookup_fmap in He. destruct (st_E st !! k) as [oe|]; [|done].
    cbn in He. exists oe. split; [done|]. by injection He. }
  unfold add_challenge at 1. rewrite Hoe.
  destruct (Nat.eqb_spec k (st_B st)) as [->|Hne]; cbn [mbind result_bind foldM].
  - rewrite !Nat.min_r by lia. rewrite !drop_ge by (rewrite length_take; lia). done.
  - assert (∀ v, length v = n → XORBytes v v (default [] oe) = Ok (xor v (default [] oe))) as HX.
    { intros v Hv. unfold XORBytes. pose proof (Hsz k _ He Hne) as Hel.
      rewrite Hv, Hel, Nat.min_id, Nat.ltb_irrefl, drop_ge by lia. by rewrite app_nil_r. }
    rewrite HX. 2: { apply length_foldl_xor; [done|]. apply Forall_lookup. intros i v Hv.
      destruct (decide (k < st_B st)).
      - rewrite (drop_ge (take k l)), app_nil_r, Nat.min_l in Hv by (rewrite ?length_take; lia).
        apply lookup_take_Some in Hv as [Hv Hi]. eapply Hsz; [done|lia].
      - rewrite Nat.min_r in Hv by lia. apply lookup_app_Some in Hv as [Hv|[_ Hv]].
        + apply lookup_take_Some in Hv as [Hv Hi]. eapply Hsz; [done|lia].
        + rewrite lookup_drop in Hv. apply lookup_take_Some in Hv as [Hv Hi].
          eapply Hsz; [done|]. lia. }
    cbn [mbind result_bind foldM]. f_equal. rewrite (take_S_r l k (default [] oe)) by done.
    destruct (decide (k < st_B st)).
    + rewrite !Nat.min_l by lia. rewrite !(drop_ge (_ ++ _)), drop_ge, !app_nil_r
        by (rewrite ?length_app, length_take; cbn; lia).
      rewrite (take_S_r l k (default [] oe)) by done. by rewrite foldl_app.
    + rewrite !Nat.min_r by lia. rewrite drop_app_le by (rewrite length_take; lia).
      rewrite app_assoc. by rewrite (foldl_app _ (take _ _ ++ _)).
Qed.

(** What the goroutines of the commitment leave in the slots. *)
Lemma commit_slots xs w B out q q' :
  length xs = cnt →
  run_group (on_commit sch) (commit_branch nilS nilZ p xs w B) q = Ok (out, q') →
  length (slots cnt out) = cnt ∧
  ∀ i x, xs !! i = Some x → ∃ a s oe z, slots cnt out !! i = Some (a, s, oe, z) ∧
    (i = B → ∃ g g', Sigma.ComputeProverCommitment base x w g = Ok (a, s, g') ∧ oe = None) ∧
    (i ≠ B → ∃ e g g', oe = Some e ∧ is_challenge n e
      ∧ Sigma.RunSimulator base x (Some e) g = Ok (a, z, g')).
Proof.
  intros Lx E. destruct Hfair as (Fc & _).
  destruct (run_group_slots _ _ _ _ _ _ Fc E) as [Ls Hs]. split; [done|].
  intros i x Hx. destruct (Hs i) as ([[[a s] oe] z] & g & g' & Hr & Hb); [apply lookup_lt_Some in Hx; lia|].
  exists a, s, oe, z. split; [done|]. unfold commit_branch in Hb. rewrite Hx in Hb.
  destruct (Nat.eqb_spec i B) as [->|Hne]; split; try done; intros _.
  - destruct (Sigma.ComputeProverCommitment base x w g) as [[[a' s'] g1]| |] eqn:Ec; [|done..].
    cbn in Hb. injection Hb as -> -> <- -> ->. eauto.
  - destruct (read_full n g) as [[e g1]| |] eqn:Er; [|done..]. cbn in Hb. apply read_full_ok in Er.
    destruct (Sigma.RunSimulator base x (Some e) g1) as [[[a' z'] g2]| |] eqn:Es; [|done..].
    cbn in Hb. injection Hb as -> -> <- -> ->. eauto 10.
Qed.

#[export] Instance power_or_complete good `{!Complete base good, !Simulatable base good} :
  Complete (PowerOr.protocol nilS nilZ sch p) (or_all_good good).
Proof.
  intros xs w al ost q q' e [Lx Hg] Hval Hc He. cbn [Sigma.GetChallengeBytesLength PowerOr.protocol] in He.
  cbn [Sigma.ComputeProverCommitment PowerOr.protocol] in Hc.
  unfold PowerOr.ComputeProverCommitment in Hc. rewrite Lx, Nat.eqb_refl in Hc. cbn [negb] in Hc.
  apply bind_ok in Hc as (B & HB & Hc). apply bind_ok in Hc as ([out q1] & Hrun & Hc).
  cbn zeta in Hc. injection Hc as <- <- <-.
  apply getB_loop_ok in HB as (HB & xB & HxB & HvB). apply elem_of_seq in HB as [_ HB].
  destruct (commit_slots xs w B out q q1 Lx Hrun) as [Ls Hs]. set (sl := slots cnt out) in *.
  set (st := mkState B ((λ r, r.1.1.2) <$> sl) ((λ r, r.1.2) <$> sl) (snd <$> sl)).
  set (E := default [] <$> st_E st).
  destruct (Hs B xB HxB) as (aB & sB & oeB & zB0 & HslB & HB1 & _).
  destruct (HB1 eq_refl) as (g & g' & Ec & ->). clear HB1.
  assert (length E = cnt) as LE by (unfold E, st; cbn; by rewrite !length_fmap).
  assert (∀ i x, xs !! i = Some x → i ≠ B → ∃ a z c, sl.*1.*1.*1 !! i = Some a ∧
    (snd <$> sl) !! i = Some z ∧ E !! i = Some c ∧ is_challenge n c ∧
    Sigma.Verify base x a (Some c) z = Ok tt) as Hother.
  { intros i x Hx Hne. destruct (Hs i x Hx) as (a & s & oe & z & Hsl & _ & Hsim).
    destruct (Hsim Hne) as (c & g1 & g2 & -> & Hch & Er). exists a, z, c.
    unfold E, st. cbn. rewrite !list_lookup_fmap, Hsl. split_and!; try done.
    eapply (simulates (good:=good)); [by eapply Forall_lookup_1|done|done]. }
  assert (Forall (is_challenge n) (delete B E)) as Hch.
  { apply Forall_forall. intros c (i & Hne & Hi)%elem_of_list_delete.
    destruct (lookup_lt_is_Some_2 xs i) as [x Hx]; [apply lookup_lt_Some in Hi; lia|].
    destruct (Hother i x Hx Hne) as (_ & _ & c' & _ & _ & Hc' & ? & _). congruence. }
  assert (Forall (λ c : list N, length c = n) (delete B E)) as Hsz
    by (eapply Forall_impl; [exact Hch|by intros c [? _]]).
  set (eB := xor e (xor_all n (delete B E))).
  assert (is_challenge n eB) as HeB.
  { apply xor_is_challenge; [done|]. split; [by apply length_xor_all|].
    apply xor_all_bytes. eapply Forall_impl; [exact Hch|by intros c [_ ?]]. }
  destruct (complete (good:=good) xB w aB sB g g' eB) as (zB & Hz & Hv); try done.
  { by eapply Forall_lookup_1. }
  exists (Some (mkResponse (<[B := eB]> E) (<[B := zB]> (snd <$> sl)))). split.
  - cbn [Sigma.ComputeProverResponse PowerOr.protocol]. unfold PowerOr.ComputeProverResponse.
    assert (length (st_S st) = cnt ∧ length (st_Z st) = cnt ∧ length (st_E st) = cnt) as (L1 & L2 & L3).
    { unfold st. cbn. by rewrite !length_fmap. }
    cbn [default from_option id].
    rewrite !length_fmap, Lx, Ls, L1, L2, L3, (proj1 He), !Nat.eqb_refl. cbn [negb orb].
    rewrite (add_challenges st e) by (done || by apply He).
    rewrite (proj2 (Nat.leb_gt cnt (st_B st))) by done.
    cbn [mbind result_bind]. change (st_B st) with B. fold E. fold eB.
    change (st_S st) with ((λ r, r.1.1.2) <$> sl).
    rewrite HxB, !list_lookup_fmap, HslB. cbn. by rewrite Hz.
  - apply PowerOr_Verify_Ok; [apply He|]. eexists _, _. split; [done|].
    rewrite !length_insert, !length_fmap. split_and!; try done.
    + rewrite insert_delete_perm by lia. constructor; [apply HeB|done].
    + unfold eB. by apply xor_all_complete; [lia|apply He|].
    + intros i x a c z Hx Ha Hc' Hz'. destruct (decide (i = B)) as [->|Hne].
      * rewrite list_lookup_insert_eq in Hc' by lia.
        rewrite list_lookup_insert_eq in Hz' by (rewrite length_fmap; lia).
        rewrite list_lookup_fmap, HslB in Ha. simplify_eq/=. done.
      * rewrite list_lookup_insert_ne in Hc' by done. rewrite list_lookup_insert_ne in Hz' by done.
        destruct (Hother i x Hx Hne) as (a' & z' & c' & Ha' & Hz'' & Hc'' & _ & V).
        assert (((λ r, r.1.1.1) <$> sl) !! i = sl.*1.*1.*1 !! i) as Ea
          by by rewrite !list_lookup_fmap; destruct (sl !! i).
        rewrite Ea in Ha. congruence.
Qed.

#[export] Instance power_or_simulatable good `{!Simulatable base good} :
  Simulatable (PowerOr.protocol nilS nilZ sch p) (or_all_good good).
Proof.
  intros xs al oz q q' e [Lx Hg] He Hs. cbn [Sigma.GetChallengeBytesLength PowerOr.protocol] in He.
  destruct Hfair as (_ & _ & Fsa & Fsi).
  cbn [Sigma.RunSimulator PowerOr.protocol] in Hs. unfold PowerOr.RunSimulator in Hs.
  cbn [default from_option id] in Hs. rewrite Lx, (proj1 He), !Nat.eqb_refl in Hs. cbn [negb] in Hs.
  apply bind_ok in Hs as ([out q1] & Hrun & Hs).
  destruct (run_group_slots _ _ _ _ _ _ Fsa Hrun) as [Ls Hsl].
  set (sl := slots (cnt - 1) out) in *.
  assert (Forall (is_challenge n) sl) as Hch.
  { apply Forall_lookup. intros i c Hi. destruct (Hsl i) as (r & g & g' & Hr & Hg').
    { apply lookup_lt_Some in Hi. lia. }
    apply read_full_ok in Hg'. unfold is_challenge. congruence. }
  assert (Forall (λ c : list N, length c = n) sl) as Hsz
    by (eapply Forall_impl; [exact Hch|by intros c [? _]]).
  destruct sl as [|e0 es] eqn:Esl; [done|].
  rewrite XORBytes_eq in Hs by (apply He || by inversion Hsz). cbn [mbind result_bind] in Hs.
  rewrite (foldM_XORBytes n) in Hs
    by (rewrite ?length_zip_with, ?(proj1 He); inversion Hsz; done || lia).
  cbn [mbind result_bind] in Hs.
  change (foldl xor (xor e e0) es) with (foldl xor e (e0 :: es)) in Hs.
  rewrite foldl_xor_all with (n:=n) in Hs by (apply He || done).
  set (last := xor e (xor_all n (e0 :: es))) in *.
  apply bind_ok in Hs as ([out2 q2] & Hrun2 & Hs).
  destruct (run_group_slots _ _ _ _ _ _ Fsi Hrun2) as [Ls2 Hsl2]. injection Hs as <- <- <-.
  assert (is_challenge n last) as Hlast.
  { apply xor_is_challenge; [done|]. split; [by apply length_xor_all|].
    apply xor_all_bytes. eapply Forall_impl; [exact Hch|by intros c [_ ?]]. }
  assert (Forall (is_challenge n) ((e0 :: es) ++ [last])) as HchE
    by (apply Forall_app; split; [done|by constructor]).
  apply PowerOr_Verify_Ok; [apply He|]. eexists _, _. split; [done|].
  change (e0 :: es ++ [last]) with ((e0 :: es) ++ [last]).
  rewrite !length_fmap, length_app, Ls. cbn [length]. split_and!; try done; [lia|..].
  - eapply Forall_impl; [exact HchE|by intros c [? _]].
  - rewrite (xor_all_perm n _ (last :: e0 :: es)).
    + rewrite xor_all_cons by (apply Hlast || done). unfold last.
      rewrite (xor_comm e), (xor_comm _ (xor_all n _)). apply xor_cancel.
      rewrite length_xor_all by done. symmetry. apply He.
    + eapply Forall_impl; [exact HchE|by intros c [? _]].
    + symmetry. apply Permutation_cons_append.
  - intros i x a c z Hx Ha Hc Hz.
    destruct (Hsl2 i) as ([a' z'] & r & r' & Hr & Hf); [apply lookup_lt_Some in Hx; lia|].
    rewrite list_lookup_fmap, Hr in Ha. rewrite list_lookup_fmap, Hr in Hz.
    rewrite Hx, Hc in Hf. simplify_eq/=.
    apply bind_ok in Hf as ([[a1 z1] r1] & Hsim & Hf). injection Hf as -> -> ->.
    eapply (simulates (good:=good)); [by eapply Forall_lookup_1|by eapply Forall_lookup_1|done].
Qed.
End power.

(** The extractor of the composition runs on the first branch whose two
    challenges differ. *)
Definition differ (es es' : list (list N)) : option nat :=
  fst <$> list_find (λ q : list N * list N, q.1 ≠ q.2) (zip es es').
Definition or_power_extract {X W A Z} (ext : X → A → list N → Z → list N → Z → result W)
    (xs : list X) (al : list A) (e : list N) (z : option (PowerOr.Response Z)) (e' : list N)
    (z' : option (PowerOr.Response Z)) : result W :=
  match z, z' with
  | Some z, Some z' =>
      match differ (PowerOr.r_E z) (PowerOr.r_E z') with
      | None => Panic
      | Some i =>
          match xs !! i, al !! i, PowerOr.r_E z !! i, PowerOr.r_Z z !! i,
                PowerOr.r_E z' !! i, PowerOr.r_Z z' !! i with
          | Some x, Some a, Some c, Some r, Some c', Some r' => ext x a c r c' r'
          | _, _, _, _, _, _ => Panic
          end
      end
  | _, _ => Panic
  end.

Definition wf_or_power {Z} (wf : Z → Prop) (z : option (PowerOr.Response Z)) : Prop :=
  ∀ r, z = Some r → Forall bytes_ok (PowerOr.r_E r) ∧ Forall wf (PowerOr.r_Z r).

(** C11. The n-fold OR composition of a complete, simulatable and special sound
    protocol is complete, simulatable and special sound for statements of
    which at least one has a witness, in whatever order the goroutines of its
    methods run; fewer than two branches are rejected. *)
Theorem Power_Or_composes {X W A S Z P} `{Reader P} (sigma : Sigma.Protocol X W A S Z P)
    nilS nilZ name count p sch good wf ext :
  PowerOr.ComposeNamed name (Some sigma) count (Some tt) = Ok p →
  PowerOr.fair (PowerOr.count p) sch →
  Sigma.Complete sigma good → Sigma.Simulatable sigma good → Sigma.Extractable sigma wf ext →
  (∀ x w, Sigma.ValidateStatement sigma x w ≠ Panic) →
  PowerOr.count p = N.to_nat count ∧ (2 ≤ count)%N ∧
  Sigma.Complete (PowerOr.protocol nilS nilZ sch p) (or_all_good p good) ∧
  Sigma.Simulatable (PowerOr.protocol nilS nilZ sch p) (or_all_good p good) ∧
  Sigma.Extractable (PowerOr.protocol nilS nilZ sch p) (wf_or_power wf) (or_power_extract ext).
Proof.
  intros Hp Hfair C Sm Ex Hnp. unfold PowerOr.ComposeNamed in Hp.
  destruct (N.ltb_spec count 2) as [|Hc]; [done|]. injection Hp as <-. cbn in Hfair.
  set (p := PowerOr.mkProtocol _ _ _). assert (2 ≤ PowerOr.count p) as H2 by (cbn; lia).
  split_and!; [done|done|by apply (power_or_complete nilS nilZ p sch)
    |by apply (power_or_simulatable nilS nilZ p sch)|].
  intros xs al e oz e' oz' He He' Hne F F' V V'.
  apply (PowerOr_Verify_Ok p sch H2 Hfair) in V as (es & zs & -> & Lx & La & Le & Lz & Sz & EX & V);
    [|apply He].
  apply (PowerOr_Verify_Ok p sch H2 Hfair) in V' as (es' & zs' & -> & _ & _ & Le' & Lz' & Sz' & EX' & V');
    [|apply He'].
  destruct (F _ eq_refl) as [B W1], (F' _ eq_refl) as [B' W1']. cbn in B, W1, B', W1'.
  unfold or_power_extract. cbn [PowerOr.r_E PowerOr.r_Z]. unfold differ.
  destruct (list_find _ _) as [[i [c c']]|] eqn:Ef; cbn [fmap option_fmap option_map fst].
  - apply list_find_Some in Ef as (Hi & Hd & _). cbn in Hd.
    rewrite lookup_zip_with in Hi.
    destruct (es !! i) as [c1|] eqn:Hc1; [|done]. destruct (es' !! i) as [c2|] eqn:Hc2; [|done].
    cbn in Hi. injection Hi as -> ->. pose proof (lookup_lt_Some _ _ _ Hc1) as Hlt.
    destruct (lookup_lt_is_Some_2 xs i) as [x Hx]; [lia|].
    destruct (lookup_lt_is_Some_2 al i) as [a Ha]; [lia|].
    destruct (lookup_lt_is_Some_2 zs i) as [z Hz]; [lia|].
    destruct (lookup_lt_is_Some_2 zs' i) as [z' Hz']; [lia|].
    rewrite Hx, Ha, Hz, Hz'.
    destruct (Ex x a c z c' z') as (w & Hw & K).
    { pose proof (proj1 (Forall_lookup _ _) Sz i c Hc1) as S1.
      pose proof (proj1 (Forall_lookup _ _) B i c Hc1) as B1. by split. }
    { pose proof (proj1 (Forall_lookup _ _) Sz' i c' Hc2) as S2.
      pose proof (proj1 (Forall_lookup _ _) B' i c' Hc2) as B2. by split. }
    { done. } { by eapply (Forall_lookup_1 _ zs). } { by eapply (Forall_lookup_1 _ zs'). }
    { by eapply V. } { by eapply V'. }
    exists w. split; [done|]. apply (PowerOr_Validate_Ok p H2 Hnp). eauto.
  - apply list_find_None in Ef. destruct Hne. rewrite <-EX, <-EX'. f_equal.
    apply list_eq_total; [congruence|]. intros i Hi.
    destruct (lookup_lt_is_Some_2 es i Hi) as [c Hc1].
    destruct (lookup_lt_is_Some_2 es' i) as [c' Hc2]; [lia|].
    rewrite (list_lookup_total_correct _ _ _ Hc1), (list_lookup_total_correct _ _ _ Hc2).
    eapply (Forall_lookup_1 _ _ i (c, c')) in Ef; [|by rewrite lookup_zip_with, Hc1; cbn; rewrite Hc2].
    by apply dec_stable.
Qed.

(** ** A concrete protocol: the identity over the field of 257 elements *)

Definition ex_base := Maurer.protocol ex_maurer.
Lemma ex_validate_np x w : Sigma.ValidateStatement ex_base x w ≠ Panic.
Proof. by destruct x as [[?]|], w as [[?]|]; cbn; try case_match. Qed.

Definition ex_or := CartesianOr.mkProtocol "(byte)_OR_(byte)" ex_base ex_base 1.

Lemma Cartesian_Or_composes_witness :
  CartesianOr.CartesianCompose (Some ex_base) (Some ex_base)
    = Ok (CartesianOr.mkProtocol (CartesianOr.name ex_or) ex_base ex_base 1) ∧
  Sigma.Complete (CartesianOr.protocol None None None None ex_or) (good_both is_Some is_Some).
Proof.
  assert (CartesianOr.CartesianCompose (Some ex_base) (Some ex_base)
    = Ok (CartesianOr.mkProtocol (CartesianOr.name ex_or) ex_base ex_base 1)) as Hp.
  { reflexivity. }
  split; [exact Hp|].
  apply (Cartesian_Or_composes ex_base ex_base None None None None None None ex_or
    is_Some is_Some (λ _, True) (λ _, True) (maurer_extract ex_maurer) (maurer_extract ex_maurer)).
  - exact Hp.
  - apply (maurer_complete ex_maurer (λ s, s)).
  - apply (maurer_complete ex_maurer (λ s, s)).
  - apply (maurer_simulatable ex_maurer (λ s, s)).
  - apply (maurer_simulatable ex_maurer (λ s, s)).
  - apply ex_maurer_extractable.
  - apply ex_maurer_extractable.
  - apply ex_validate_np.
  - apply ex_validate_np.
Defined.

Definition ex_power_or := PowerOr.mkProtocol "byte^3" ex_base 3.
Definition ex_or_schedule := PowerOr.mkSchedule [2; 0; 1] [0; 2; 1] [1; 0] [2; 1; 0].
Lemma ex_or_schedule_fair : PowerOr.fair 3 ex_or_schedule.
Proof. unfold PowerOr.fair. cbn. split_and!; by apply (bool_decide_unpack _). Qed.

Lemma Power_Or_composes_witness :
  Sigma.Extractable (PowerOr.protocol None None ex_or_schedule ex_power_or) (wf_or_power (λ _, True))
    (or_power_extract (maurer_extract ex_maurer)).
Proof.
  destruct (Power_Or_composes ex_base None None "byte^3" 3 ex_power_or ex_or_schedule is_Some
    (λ _, True) (maurer_extract ex_maurer)) as (_ & _ & _ & _ & H).
  - reflexivity.
  - apply ex_or_schedule_fair.
  - apply (maurer_complete ex_maurer (λ s, s)).
  - apply (maurer_simulatable ex_maurer (λ s, s)).
  - apply ex_maurer_extractable.
  - apply ex_validate_np.
  - exact H.
Defined.
