(* ===== verification/SigBytes.v ===== *)
(** * Encodings of composed sigma protocols (sigand, sigor)

    The [Bytes] methods of the composed statements, witnesses, commitments and
    responses: the encodings of the parts, framed by their lengths.  The
    encodings of the parts are parameters; the theorem carries their
    injectivity over to the compositions, so that a transcript that absorbs a
    composed value determines each of its parts. *)

From Stdlib Require Import ZArith NArith Lia.
From stdpp Require Import strings.
From S2P Require Import Prelude Algebra AlgebraUtils IOUtils Sigma SigAnd SigOr.

(** The two framings of [AppendLengthPrefixed] in a row. *)
Definition append_two (b0 b1 : list N) : list N :=
  AppendLengthPrefixed (AppendLengthPrefixed [] b0) b1.

Module AndBytes.
Import Cartesian.
Section cartesian.
Context {U V : Type} (bytesU : U → list N) (bytesV : V → list N).

Definition Statement_Bytes (x : option (StatementCartesian U V)) : list N :=
  match x with None => [] | Some x => append_two (bytesU (X0_ x)) (bytesV (X1_ x)) end.
Definition Witness_Bytes (w : option (WitnessCartesian U V)) : list N :=
  match w with None => [] | Some w => append_two (bytesU (W0_ w)) (bytesV (W1_ w)) end.
Definition Commitment_Bytes (a : option (CommitmentCartesian U V)) : list N :=
  match a with None => [] | Some a => append_two (bytesU (A0_ a)) (bytesV (A1_ a)) end.
Definition Response_Bytes (z : option (ResponseCartesian U V)) : list N :=
  match z with None => [] | Some z => append_two (bytesU (Z0_ z)) (bytesV (Z1_ z)) end.
End cartesian.

(** The n-fold statements, witnesses, commitments and responses are slices. *)
Definition Slice_Bytes {U} (bytesU : U → list N) (x : list U) : list N :=
  AppendLengthPrefixedSlices [] (bytesU <$> x).
End AndBytes.

Module OrBytes.
Import CartesianOr.
Section cartesian.
Context {U V : Type} (bytesU : U → list N) (bytesV : V → list N).

Definition Statement_Bytes (x : option (StatementCartesian U V)) : list N :=
  match x with None => [] | Some x => append_two (bytesU (X0_ x)) (bytesV (X1_ x)) end.
Definition Witness_Bytes (w : option (WitnessCartesian U V)) : list N :=
  match w with None => [] | Some w => append_two (bytesU (W0_ w)) (bytesV (W1_ w)) end.
Definition Commitment_Bytes (a : option (CommitmentCartesian U V)) : list N :=
  match a with None => [] | Some a => append_two (bytesU (A0_ a)) (bytesV (A1_ a)) end.
Definition Response_Bytes (z : option (ResponseCartesian U V)) : list N :=
  match z with
  | None => []
  | Some z =>
      let out := AppendLengthPrefixed [] (r_E0 z) in
      let out := AppendLengthPrefixed out (r_E1 z) in
      let out := AppendLengthPrefixed out (bytesU (r_Z0 z)) in
      AppendLengthPrefixed out (bytesV (r_Z1 z))
  end.
End cartesian.

Definition Slice_Bytes {U} (bytesU : U → list N) (x : list U) : list N :=
  AppendLengthPrefixedSlices [] (bytesU <$> x).
Definition PowerResponse_Bytes {Z} (bytesZ : Z → list N) (z : PowerOr.Response Z) : list N :=
  let out := AppendLengthPrefixedSlices [] (PowerOr.r_E z) in
  AppendLengthPrefixedSlices out (bytesZ <$> PowerOr.r_Z z).
End OrBytes.

(** ** Injectivity *)

(** An encoding that determines the value, within machine-word lengths. *)
Class Encoding {U} (bytes : U → list N) : Prop := {
  encoding_inj :: Inj (=) (=) bytes;
  encoding_sized u : sized (bytes u);
}.

Lemma append_two_inj b0 b1 b0' b1' :
  sized b0 → sized b1 → sized b0' → sized b1' →
  append_two b0 b1 = append_two b0' b1' → b0 = b0' ∧ b1 = b1'.
Proof.
  intros. unfold append_two in *. rewrite !AppendLengthPrefixed_eq, !app_nil_l in *.
  destruct (frame_inj b0 b0' (frame b1) (frame b1')) as [-> E]; [done..|]. split; [done|].
  by apply (frame_inj b1 b1' [] []); rewrite ?app_nil_r.
Qed.
Lemma append_two_nonempty b0 b1 : append_two b0 b1 ≠ [].
Proof. unfold append_two. rewrite !AppendLengthPrefixed_eq. apply frame_nonempty. Qed.

(** Optional pairs are determined by the encodings of their two parts. *)
Lemma pair_inj {T U V} (p0 : T → U) (p1 : T → V) (bU : U → list N) (bV : V → list N)
    `{!Encoding bU, !Encoding bV} (x y : option T) :
  (∀ a b, p0 a = p0 b → p1 a = p1 b → a = b) →
  match x with None => [] | Some x => append_two (bU (p0 x)) (bV (p1 x)) end =
  match y with None => [] | Some y => append_two (bU (p0 y)) (bV (p1 y)) end → x = y.
Proof.
  intros Hext. destruct x as [x|], y as [y|]; [| | |done].
  - intros E. apply append_two_inj in E as [E0 E1]; [|apply encoding_sized..].
    f_equal. apply Hext; [by apply (inj bU)|by apply (inj bV)].
  - intros E. by apply append_two_nonempty in E.
  - intros E. symmetry in E. by apply append_two_nonempty in E.
Qed.

Lemma slice_sized {U} (bU : U → list N) `{!Encoding bU} (x : list U) :
  (N.of_nat (length x) < 2 ^ 64)%N → sized_list (bU <$> x).
Proof.
  intros Hl. split; [by rewrite length_fmap|]. apply Forall_fmap, Forall_true.
  apply encoding_sized.
Qed.

Lemma slice_inj {U} (bU : U → list N) `{!Encoding bU} (x y : list U) r r' :
  (N.of_nat (length x) < 2 ^ 64)%N → (N.of_nat (length y) < 2 ^ 64)%N →
  AppendLengthPrefixedSlices [] (bU <$> x) ++ r = AppendLengthPrefixedSlices [] (bU <$> y) ++ r' →
  x = y ∧ r = r'.
Proof.
  intros Hx Hy E. apply slices_inj in E as [E ->]; [|by apply slice_sized..].
  split; [|done]. by eapply (inj (fmap bU)).
Qed.

Section injective.
Context {U V : Type} (bU : U → list N) (bV : V → list N) `{!Encoding bU, !Encoding bV}.

(** The encodings of composed values are injective when those of their
    parts are: a pair, nil or not, a slice of fewer than 2^64 parts and the
    responses with their branch challenges are determined by their bytes. *)
Theorem Composed_Bytes_injective :
  Inj (=) (=) (AndBytes.Statement_Bytes bU bV) ∧ Inj (=) (=) (AndBytes.Commitment_Bytes bU bV) ∧
  Inj (=) (=) (AndBytes.Witness_Bytes bU bV) ∧ Inj (=) (=) (AndBytes.Response_Bytes bU bV) ∧
  Inj (=) (=) (OrBytes.Statement_Bytes bU bV) ∧ Inj (=) (=) (OrBytes.Commitment_Bytes bU bV) ∧
  Inj (=) (=) (OrBytes.Witness_Bytes bU bV) ∧
  (∀ z y : CartesianOr.ResponseCartesian U V,
     sized (CartesianOr.r_E0 z) → sized (CartesianOr.r_E1 z) →
     sized (CartesianOr.r_E0 y) → sized (CartesianOr.r_E1 y) →
     OrBytes.Response_Bytes bU bV (Some z) = OrBytes.Response_Bytes bU bV (Some y) → z = y) ∧
  (∀ x y : list U, (N.of_nat (length x) < 2 ^ 64)%N → (N.of_nat (length y) < 2 ^ 64)%N →
     AndBytes.Slice_Bytes bU x = AndBytes.Slice_Bytes bU y ∨
     OrBytes.Slice_Bytes bU x = OrBytes.Slice_Bytes bU y → x = y) ∧
  (∀ z y : PowerOr.Response U,
     sized_list (PowerOr.r_E z) → (N.of_nat (length (PowerOr.r_Z z)) < 2 ^ 64)%N →
     sized_list (PowerOr.r_E y) → (N.of_nat (length (PowerOr.r_Z y)) < 2 ^ 64)%N →
     OrBytes.PowerResponse_Bytes bU z = OrBytes.PowerResponse_Bytes bU y → z = y).
Proof.
  split_and!.
  1-7: intros x y; apply pair_inj; [done..|]; intros [] [] ? ?; cbn in *; congruence.
  - intros [e0 e1 z0 z1] [f0 f1 y0 y1].
    cbn [CartesianOr.r_E0 CartesianOr.r_E1]. intros H0 H1 H0' H1'. unfold OrBytes.Response_Bytes.
    cbn [CartesianOr.r_E0 CartesianOr.r_E1 CartesianOr.r_Z0 CartesianOr.r_Z1].
    rewrite !AppendLengthPrefixed_eq, !app_nil_l, <-!(assoc_L (++)). intros E.
    apply frame_inj in E as [-> E]; [|done..]. apply frame_inj in E as [-> E]; [|done..].
    apply frame_inj in E as [E0 E]; [|apply encoding_sized..].
    destruct (frame_inj (bV z1) (bV y1) [] []) as [E1 _]; [apply encoding_sized..| |].
    { by rewrite !app_nil_r. }
    apply (inj bU) in E0 as ->. by apply (inj bV) in E1 as ->.
  - intros x y Hx Hy [E|E]; eapply (slice_inj bU x y [] []); rewrite ?app_nil_r; done.
  - intros [es zs] [es' zs']. cbn [PowerOr.r_E PowerOr.r_Z]. intros He Hz He' Hz'.
    unfold OrBytes.PowerResponse_Bytes. cbn [PowerOr.r_E PowerOr.r_Z].
    rewrite (AppendLengthPrefixedSlices_eq (AppendLengthPrefixedSlices [] es)).
    rewrite (AppendLengthPrefixedSlices_eq (AppendLengthPrefixedSlices [] es')). intros E.
    apply slices_inj in E as [-> E]; [|done..].
    destruct (slice_inj bU zs zs' [] []) as [-> _]; [done..| |done].
    by rewrite !app_nil_r, !AppendLengthPrefixedSlices_eq, !app_nil_l.
Qed.
End injective.

(** A part that is a short list of bytes. *)
Definition ex_encode (b : bool) : list N := if b then [1%N] else [].
#[export] Instance ex_encoding : Encoding ex_encode.
Proof. split; [by intros [] []|by intros []]. Qed.

Lemma Composed_Bytes_injective_witness :
  AndBytes.Slice_Bytes ex_encode [true; false] ≠ AndBytes.Slice_Bytes ex_encode [false; true].
Proof.
  destruct (Composed_Bytes_injective ex_encode ex_encode) as (_ & _ & _ & _ & _ & _ & _ & _ & H & _).
  intros E. by specialize (H [true; false] [false; true] eq_refl eq_refl (or_introl E)).
Defined.
