(* ===== verification/Session.v ===== *)
(** * Session contexts (pkg/mpc/session)

    A context holds what the parties of a quorum share before a protocol: the
    session identifier, the transcript, and with every other party a pairwise
    seed (a SHAKE stream).  [xof custom absorbed i] is the [i]-th byte of the
    output stream of cSHAKE256 and [sum512] is SHA3-512.  The theorems: honest
    parties end the set-up with agreeing contexts, sub-contexts of agreeing
    contexts agree, and the seeds of different pairs, quorums and seeds come
    from different inputs of the sponge. *)

From Stdlib Require Import ZArith NArith Lia.
From stdpp Require Import strings.
From S2P Require Import Prelude Algebra AlgebraUtils IOUtils Network Sigma HashCom Hagrid.

Module Session.

Definition transcriptName : string := "BRON_CRYPTO_SETUP_TRANSCRIPT-".
Definition transcriptInitLabel : string := "BRON_CRYPTO_SETUP_TRANSCRIPT_INIT-".
Definition seedDomainSeparatorLabel : string := "BRON_CRYPTO_SETUP_SEED_DOMAIN_SEPARATOR-".
Definition subQuorumLabel : string := "BRON_CRYPTO_SETUP_SUBQUORUM-".
Definition subContextDomainSeparatorLabel : string := "BRON_CRYPTO_SETUP_SUBCONTEXT-".
(** [base.CollisionResistanceBytesCeil]. *)
Definition CollisionResistanceBytesCeil : nat := 32.

(** [sha3.SHAKE]: a sponge, written before the first read. *)
Record SHAKE := mkShake { s_custom : string; s_absorbed : list N; s_pos : nat }.
Definition NewCSHAKE256 (custom : string) : SHAKE := mkShake custom [] 0.
Definition shake_write (d : list N) (s : SHAKE) : result SHAKE :=
  if s_pos s =? 0 then Ok (mkShake (s_custom s) (s_absorbed s ++ d) 0) else Panic.

Section context.
Context (xof : string → list N → nat → N) (sum512 : list N → list N).

Definition shake_read (n : nat) (s : SHAKE) : list N * SHAKE :=
  (tabulate n (λ i, xof (s_custom s) (s_absorbed s) (s_pos s + i) mod 256)%N,
   mkShake (s_custom s) (s_absorbed s) (s_pos s + n)).

Record Context := mkContext {
  sid : list N; holderID : ID; sortedQuorum : list ID; ctape : Hagrid.transcript;
  seeds : gmap ID SHAKE }.

Definition invalid_seed (pairwiseSeeds : gmap ID (list N)) (i : ID) : bool :=
  match pairwiseSeeds !! i with
  | None => true
  | Some s => length s <? CollisionResistanceBytesCeil
  end.

(** The stream of one pair. *)
Definition make_seed (id i : ID) (s : list N) : result SHAKE :=
  let seed := NewCSHAKE256 seedDomainSeparatorLabel in
  seed ← shake_write (uint64ToBytesLE (N.min id i)) seed;
  seed ← shake_write (uint64ToBytesLE (N.max id i)) seed;
  seed ← shake_write s seed;
  Ok (shake_read 32 seed).2.

Definition NewContext (id : ID) (quorum : option (gset ID)) (commonSeed : list N)
    (pairwiseSeeds : option (gmap ID (list N))) : result Context :=
  match quorum, pairwiseSeeds with
  | Some quorum, Some pairwiseSeeds =>
      if (id <? 1)%N || (size quorum <? 2) || bool_decide (id ∉ quorum) then Err ErrInvalidArgument
      else if length commonSeed <? CollisionResistanceBytesCeil then Err ErrInvalidArgument
      else if existsb (λ i, negb (i =? id)%N && invalid_seed pairwiseSeeds i) (elements quorum)
      then Err ErrInvalidArgument
      else
        let commonImage := sum512 commonSeed in
        let sid := take 32 commonImage in
        let tape := Hagrid.NewTranscript transcriptName in
        let tape := Hagrid.AppendBytes transcriptInitLabel [drop 32 commonImage] tape in
        let sortedQuorum := sort_ids (elements quorum) in
        seeds ← foldM (λ (seeds : gmap ID SHAKE) i,
          if (i =? id)%N then Ok seeds
          else
            seed ← make_seed id i (default [] (pairwiseSeeds !! i));
            Ok (<[i := seed]> seeds)) ∅ sortedQuorum;
        Ok (mkContext sid id sortedQuorum tape seeds)
  | _, _ => Err ErrInvalidArgument
  end.

Definition OtherPartiesOrdered (ctx : Context) : list ID :=
  filter (λ id, id ≠ holderID ctx) (sortedQuorum ctx).
Definition Quorum (ctx : Context) : gset ID := list_to_set (sortedQuorum ctx).

Definition quorum_data (subQuorum : gset ID) : list N :=
  uint64ToBytesLE (N.of_nat (size subQuorum)) ++
    (sort_ids (elements subQuorum) ≫= uint64ToBytesLE).

(** The stream of one pair of a sub-quorum; a missing seed is a nil
    pointer. *)
Definition sub_seed (subQuorumData : list N) (seed : option SHAKE) : result SHAKE :=
  match seed with
  | None => Panic
  | Some seed =>
      let '(seed, _) := shake_read CollisionResistanceBytesCeil seed in
      let newSeed := NewCSHAKE256 subContextDomainSeparatorLabel in
      newSeed ← shake_write seed newSeed;
      newSeed ← shake_write subQuorumData newSeed;
      Ok (shake_read 32 newSeed).2
  end.

Definition SubContext (ctx : Context) (subQuorum : option (gset ID)) : result Context :=
  match subQuorum with
  | None => Err ErrInvalidArgument
  | Some subQuorum =>
      if size subQuorum <? 2 then Err ErrInvalidArgument
      else if negb (bool_decide (subQuorum ⊆ Quorum ctx)) || negb (bool_decide (holderID ctx ∈ subQuorum))
      then Err ErrInvalidArgument
      else
        let subQuorumSorted := sort_ids (elements subQuorum) in
        let subQuorumData := quorum_data subQuorum in
        let subTranscript := Hagrid.AppendBytes subQuorumLabel [subQuorumData] (ctape ctx) in
        subPairwiseSeeds ← foldM (λ (sub : gmap ID SHAKE) id,
          if (id =? holderID ctx)%N then Ok sub
          else
            newSeed ← sub_seed subQuorumData (seeds ctx !! id);
            Ok (<[id := newSeed]> sub)) ∅ subQuorumSorted;
        Ok (mkContext (sid ctx) (holderID ctx) subQuorumSorted subTranscript subPairwiseSeeds)
  end.

(** [Seeds] hands out copies of the streams. *)
Definition Seeds (ctx : Context) : gmap ID SHAKE := seeds ctx.

(** The part of a context that the proof systems use. *)
Definition proof_context (ctx : Context) : Sigma.Context Hagrid.transcript :=
  Sigma.mkContext (sid ctx) (ctape ctx).
End context.

(** A SHAKE stream as an [io.Reader]. *)
#[export, refine] Instance shake_reader (xof : string → list N → nat → N) : Reader SHAKE := {|
  read_full n s := Ok (shake_read xof n s);
|}.
Proof.
  intros n s b s' [= <- <-]. split; [apply length_tabulate|].
  unfold tabulate. apply Forall_fmap, Forall_forall. intros i _. cbn. by apply N.mod_lt.
Qed.
End Session.

(** ** Contexts *)

Section theory.
Import Session.
Context (xof : string → list N → nat → N) (sum512 : list N → list N).
Implicit Types (ctx : Session.Context) (Q : gset ID).

(** The stream of the pair [id], [i] with pairwise seed [s]. *)
Definition pair_stream (id i : ID) (s : list N) : SHAKE :=
  mkShake seedDomainSeparatorLabel
    (uint64ToBytesLE (N.min id i) ++ uint64ToBytesLE (N.max id i) ++ s) 32.
Lemma make_seed_eq id i s : make_seed xof id i s = Ok (pair_stream id i s).
Proof.
  unfold make_seed, pair_stream, shake_write, NewCSHAKE256, shake_read.
  cbn [s_pos s_custom s_absorbed Nat.eqb mbind result_bind snd Nat.add app]. by rewrite <-app_assoc.
Qed.
Lemma pair_stream_sym id i s : pair_stream id i s = pair_stream i id s.
Proof. unfold pair_stream. by rewrite N.min_comm, N.max_comm. Qed.

(** The stream of a sub-quorum derived from a stream. *)
Definition sub_stream Q (s : SHAKE) : SHAKE :=
  mkShake subContextDomainSeparatorLabel ((shake_read xof 32 s).1 ++ quorum_data Q) 32.
Lemma sub_seed_eq Q s : sub_seed xof (quorum_data Q) (Some s) = Ok (sub_stream Q s).
Proof. done. Qed.

(** The context of [id] in the quorum [Q], with the given streams. *)
Record context_of Q (id : ID) (sd : list N) (tp : Hagrid.transcript) (stream : ID → SHAKE) ctx : Prop := {
  co_in : id ∈ Q;
  co_size : 2 ≤ size Q;
  co_sid : sid ctx = sd;
  co_tape : ctape ctx = tp;
  co_id : holderID ctx = id;
  co_quorum : sortedQuorum ctx = sort_ids (elements Q);
  co_seeds : ∀ j, seeds ctx !! j = if decide (j ∈ Q ∧ j ≠ id) then Some (stream j) else None;
}.

Lemma seeds_loop Q (id : ID) (f : ID → result SHAKE) (stream : ID → SHAKE) r :
  (∀ j, j ∈ Q → j ≠ id → f j = Ok (stream j)) →
  foldM (λ (m : gmap ID SHAKE) i, if (i =? id)%N then Ok m else v ← f i; Ok (<[i := v]> m))
    ∅ (sort_ids (elements Q)) = Ok r ↔
  ∀ j, r !! j = if decide (j ∈ Q ∧ j ≠ id) then Some (stream j) else None.
Proof.
  intros Hf. rewrite foldM_skip.
  set (l := filter (λ x : ID, (x =? id)%N = false) (sort_ids (elements Q))).
  assert (∀ j, j ∈ l ↔ j ∈ Q ∧ j ≠ id) as Hl.
  { intros j. unfold l. rewrite list_elem_of_filter, N.eqb_neq, sorted_elements_elem. tauto. }
  assert (NoDup l) as Hnd by (apply NoDup_filter, sorted_elements_NoDup).
  assert (∀ r, foldM (λ (m : gmap ID SHAKE) i, v ← f i; Ok (<[i := v]> m)) ∅ l = Ok r →
    ∀ j, r !! j = if decide (j ∈ Q ∧ j ≠ id) then Some (stream j) else None) as Hok.
  { intros r' E j. apply (foldM_insert_ok f (λ i, i)) in E as [E1 E2]; [|done].
    case_decide as Hj.
    - apply Hl in Hj. destruct (E1 j Hj) as (v & Hv & ->). rewrite Hf in Hv by (by apply Hl). congruence.
    - rewrite E2; [done|]. by rewrite list_fmap_id, Hl. }
  split; [apply Hok|]. intros Hr.
  destruct (foldM_insert_total f (λ i, i) l ∅) as [r' E].
  { intros j Hj%Hl. by rewrite Hf by apply Hj. }
  rewrite E. f_equal. apply map_eq. intros j. rewrite Hr. by apply Hok.
Qed.

Lemma NewContext_ok id Q commonSeed ps ctx :
  NewContext xof sum512 id (Some Q) commonSeed (Some ps) = Ok ctx ↔
  (1 ≤ id)%N ∧ 32 ≤ length commonSeed ∧
  (∀ j, j ∈ Q → j ≠ id → ∃ s, ps !! j = Some s ∧ 32 ≤ length s) ∧
  context_of Q id (take 32 (sum512 commonSeed))
    (Hagrid.AppendBytes transcriptInitLabel [drop 32 (sum512 commonSeed)] (Hagrid.NewTranscript transcriptName))
    (λ j, pair_stream id j (default [] (ps !! j))) ctx.
Proof.
  cbn [NewContext]. rewrite if_err_ok, if_err_ok, if_err_ok.
  rewrite !orb_false_iff, N.ltb_ge, !Nat.ltb_ge, bool_decide_eq_false.
  assert (existsb (λ i, negb (i =? id)%N && invalid_seed ps i) (elements Q) = false ↔
    ∀ j, j ∈ Q → j ≠ id → ∃ s, ps !! j = Some s ∧ 32 ≤ length s) as ->.
  { rewrite <-not_true_iff_false, existsb_exists. split.
    - intros Hn j Hj Hne. destruct (invalid_seed ps j) eqn:E.
      + destruct Hn. exists j. split; [by apply list_elem_of_In, elem_of_elements|].
        by rewrite E, (proj2 (N.eqb_neq _ _) Hne).
      + unfold invalid_seed, CollisionResistanceBytesCeil in E. destruct (ps !! j) as [s|]; [|done].
        exists s. split; [done|]. by apply Nat.ltb_ge.
    - intros Hall (j & Hj%list_elem_of_In%elem_of_elements & [Hne Hi]%andb_true_iff).
      apply negb_true_iff, N.eqb_neq in Hne. destruct (Hall j Hj Hne) as (s & Es & Hs).
      unfold invalid_seed, CollisionResistanceBytesCeil in Hi. rewrite Es in Hi.
      apply Nat.ltb_lt in Hi. lia. }
  unfold CollisionResistanceBytesCeil.
  pose proof (λ r, seeds_loop Q id (λ j, make_seed xof id j (default [] (ps !! j)))
    (λ j, pair_stream id j (default [] (ps !! j))) r (λ j _ _, make_seed_eq _ _ _)) as Hloop.
  rewrite bind_ok.
  split.
  - intros ([[??] ?] & ? & ? & r & Hr & [= <-]). pose proof (proj1 (Hloop r) Hr) as Hs. split_and!; [done..|]. split; try done.
    by destruct (decide (id ∈ Q)).
  - intros (? & ? & ? & [? ? ? ? ? ? Hs]). split_and!; [done|done|tauto|done|done|].
    exists (seeds ctx). split; [exact (proj2 (Hloop _) Hs)|]. destruct ctx; cbn in *. by subst.
Qed.

Lemma context_quorum Q id sd tp stream ctx : context_of Q id sd tp stream ctx → Quorum ctx = Q.
Proof. intros [_ _ _ _ _ Hq _]. unfold Quorum. rewrite Hq. apply sorted_elements_set. Qed.

Lemma SubContext_ok Q id sd tp stream ctx Q' ctx' :
  context_of Q id sd tp stream ctx →
  SubContext xof ctx (Some Q') = Ok ctx' ↔
  Q' ⊆ Q ∧ context_of Q' id sd (Hagrid.AppendBytes subQuorumLabel [quorum_data Q'] tp)
    (λ j, sub_stream Q' (stream j)) ctx'.
Proof.
  intros Hctx. pose proof (context_quorum _ _ _ _ _ _ Hctx) as HQ. destruct Hctx as [Hin _ Hsid Htp Hid _ Hsd].
  cbn [SubContext]. rewrite if_err_ok, if_err_ok, orb_false_iff, !negb_false_iff, !bool_decide_eq_true, Nat.ltb_ge.
  rewrite HQ, Hid, Hsid, Htp.
  pose proof (λ Hsub r, seeds_loop Q' id (λ j, sub_seed xof (quorum_data Q') (seeds ctx !! j))
    (λ j, sub_stream Q' (stream j)) r Hsub) as Hloop.
  assert (Q' ⊆ Q → ∀ j, j ∈ Q' → j ≠ id →
    sub_seed xof (quorum_data Q') (seeds ctx !! j) = Ok (sub_stream Q' (stream j))) as Hsub.
  { intros HQ' j Hj Hne. rewrite Hsd, decide_True by set_solver. done. }
  rewrite bind_ok. split.
  - intros (? & [??] & r & Hr & [= <-]). pose proof (proj1 (Hloop (Hsub ltac:(done)) r) Hr) as Hs.
    split; [done|]. by split.
  - intros (HQ' & [? ? ? ? ? ? Hs]). split_and!; [done..|]. exists (seeds ctx').
    split; [exact (proj2 (Hloop (Hsub HQ') _) Hs)|]. destruct ctx'; cbn in *. by subst.
Qed.

Lemma SubContext_total Q id sd tp stream ctx Q' :
  context_of Q id sd tp stream ctx → Q' ⊆ Q → id ∈ Q' → 2 ≤ size Q' →
  ∃ ctx', SubContext xof ctx (Some Q') = Ok ctx'.
Proof.
  intros Hctx HQ' Hid Hs. exists (mkContext sd id (sort_ids (elements Q'))
    (Hagrid.AppendBytes subQuorumLabel [quorum_data Q'] tp)
    (map_imap (λ j _, Some (sub_stream Q' (stream j))) (gset_to_gmap () (Q' ∖ {[id]})))).
  apply (SubContext_ok _ _ _ _ _ _ _ _ Hctx). split; [done|]. split; try done. intros j. cbn.
  rewrite map_lookup_imap. case_decide as Hj.
  - assert (gset_to_gmap () (Q' ∖ {[id]}) !! j = Some ()) as -> by (apply lookup_gset_to_gmap_Some; set_solver). done.
  - assert (gset_to_gmap () (Q' ∖ {[id]}) !! j = None) as -> by (apply lookup_gset_to_gmap_None; set_solver). done.
Qed.

(** What two parties of one session share. *)
Definition agree ctx ctx' : Prop :=
  sid ctx = sid ctx' ∧ ctape ctx = ctape ctx' ∧ sortedQuorum ctx = sortedQuorum ctx' ∧
  holderID ctx ≠ holderID ctx' ∧
  ∃ s, seeds ctx !! holderID ctx' = Some s ∧ seeds ctx' !! holderID ctx = Some s.

Lemma context_agree Q i j sd tp stream stream' ctx ctx' :
  context_of Q i sd tp stream ctx → context_of Q j sd tp stream' ctx' → i ≠ j → stream j = stream' i →
  agree ctx ctx'.
Proof.
  intros [? ? ? ? Hi ? Hs] [? ? ? ? Hj ? Hs'] Hne E. unfold agree.
  rewrite Hi, Hj, Hs, Hs', !decide_True by done. rewrite E. split_and!; [congruence..|done|eauto].
Qed.
Lemma agree_sym ctx ctx' : agree ctx ctx' → agree ctx' ctx.
Proof. unfold agree. naive_solver. Qed.

(** ** Separation *)

Lemma bind_LE_inj (l k : list ID) :
  Forall (λ i, i < 2 ^ 64)%N l → Forall (λ i, i < 2 ^ 64)%N k →
  l ≫= uint64ToBytesLE = k ≫= uint64ToBytesLE → l = k.
Proof.
  intros Hl. revert k. induction Hl as [|x l Hx Hl IH]; intros [|y k] Hk E; [done|..].
  1-2: apply (f_equal length) in E; cbn [mbind list_bind] in E; rewrite length_app, length_uint64LE in E; cbn in E; lia.
  apply Forall_cons in Hk as [Hy Hk]. cbn [mbind list_bind] in E.
  apply app_inj_1 in E as [E1 E2]; [|by rewrite !length_uint64LE].
  apply uint64LE_inj in E1; [|done..]. subst y. f_equal. by apply IH.
Qed.

Definition ids_ok Q : Prop := ∀ i, i ∈ Q → (i < 2 ^ 64)%N.
Lemma quorum_data_inj Q Q' : ids_ok Q → ids_ok Q' → quorum_data Q = quorum_data Q' → Q = Q'.
Proof.
  intros HQ HQ' E. unfold quorum_data in E. apply app_inj_1 in E as [_ E]; [|by rewrite !length_uint64LE].
  apply bind_LE_inj in E.
  - by rewrite <-(sorted_elements_set Q), <-(sorted_elements_set Q'), E.
  - apply Forall_forall. intros i Hi%sorted_elements_elem. by apply HQ.
  - apply Forall_forall. intros i Hi%sorted_elements_elem. by apply HQ'.
Qed.
End theory.

(** ** Properties of contexts *)

Section properties.
Import Session.
Context (xof : string → list N → nat → N) (sum512 : list N → list N).

(** Nested sub-contexts. *)
Fixpoint sub_contexts (ctx : Session.Context) (path : list (gset ID)) : result Session.Context :=
  match path with
  | [] => Ok ctx
  | Q :: path => sub ← SubContext xof ctx (Some Q); sub_contexts sub path
  end.
Inductive nested (X : gset ID) : gset ID → list (gset ID) → Prop :=
  | nested_nil Q : nested X Q []
  | nested_cons Q Q' path : X ⊆ Q' → Q' ⊆ Q → 2 ≤ size Q' → nested X Q' path → nested X Q (Q' :: path).

Lemma sub_contexts_agree Q i j sd tp stream stream' ctx ctx' path :
  context_of Q i sd tp stream ctx → context_of Q j sd tp stream' ctx' → i ≠ j → stream j = stream' i →
  nested {[i; j]} Q path →
  ∃ sub sub', sub_contexts ctx path = Ok sub ∧ sub_contexts ctx' path = Ok sub' ∧ agree sub sub'.
Proof.
  intros Hc Hc' Hij E Hn. revert tp stream stream' ctx ctx' Hc Hc' E.
  induction Hn as [Q|Q Q' path HX HQ Hs Hn IH]; intros tp stream stream' ctx ctx' Hc Hc' E.
  { exists ctx, ctx'. split_and!; [done..|]. by eapply context_agree. }
  destruct (SubContext_total xof sum512 _ _ _ _ _ _ Q' Hc) as [sub E1]; [done|set_solver|done|].
  destruct (SubContext_total xof sum512 _ _ _ _ _ _ Q' Hc') as [sub' E2]; [done|set_solver|done|].
  cbn [sub_contexts]. rewrite E1, E2. cbn [mbind result_bind].
  apply (SubContext_ok xof sum512 _ _ _ _ _ _ _ _ Hc) in E1 as [_ H1].
  apply (SubContext_ok xof sum512 _ _ _ _ _ _ _ _ Hc') in E2 as [_ H2].
  eapply IH; [exact H1|exact H2|]. cbn. by rewrite E.
Qed.

(** Two parties that build their contexts from the same quorum, the same
    common seed and the same seed for their pair agree: same session
    identifier, transcript and quorum, and each holds for the other the same
    stream; and so do all the sub-contexts they derive, each from the previous
    one, for nested quorums that contain both. *)
Theorem Session_contexts_agree i j Q commonSeed ps ps' ctx ctx' path :
  NewContext xof sum512 i (Some Q) commonSeed (Some ps) = Ok ctx →
  NewContext xof sum512 j (Some Q) commonSeed (Some ps') = Ok ctx' →
  i ≠ j → ps !! j = ps' !! i → nested {[i; j]} Q path →
  agree ctx ctx' ∧
  ∃ sub sub', sub_contexts ctx path = Ok sub ∧ sub_contexts ctx' path = Ok sub' ∧ agree sub sub'.
Proof.
  intros (_ & _ & _ & Hc)%NewContext_ok (_ & _ & _ & Hc')%NewContext_ok Hij E Hn.
  assert (pair_stream i j (default [] (ps !! j)) = pair_stream j i (default [] (ps' !! i))) as Es
    by (by rewrite E, pair_stream_sym).
  split; [by eapply context_agree|]. by eapply sub_contexts_agree.
Qed.

(** The stream that a path of sub-quorums derives from a stream. *)
Definition stream_at (path : list (gset ID)) (s : SHAKE) : SHAKE :=
  foldl (λ s Q, sub_stream xof Q s) s path.
(** What a stream has absorbed, under which customisation. *)
Definition input (s : SHAKE) : string * list N := (s_custom s, s_absorbed s).

Lemma sub_contexts_streams Q i sd tp stream ctx path sub :
  context_of Q i sd tp stream ctx → sub_contexts ctx path = Ok sub →
  ∃ Q' tp', Q' ⊆ Q ∧ Forall (λ K, K ⊆ Q) path ∧
    context_of Q' i sd tp' (λ j, stream_at path (stream j)) sub.
Proof.
  revert Q tp stream ctx. induction path as [|K path IH]; intros Q tp stream ctx Hc.
  { intros [= <-]. by exists Q, tp. }
  intros (c & Ec & Hs)%bind_ok. apply (SubContext_ok xof sum512 _ _ _ _ _ _ _ _ Hc) in Ec as [HK Hc1].
  destruct (IH _ _ _ _ Hc1 Hs) as (Q' & tp' & HQ' & Hp & Hc'). exists Q', tp'.
  split; [by etransitivity|]. split; [|exact Hc'].
  constructor; [done|]. eapply Forall_impl; [exact Hp|]. cbn. set_solver.
Qed.

Lemma sub_contexts_stream Q i sd tp stream ctx path c j s :
  context_of Q i sd tp stream ctx → sub_contexts ctx path = Ok c → seeds c !! j = Some s →
  j ∈ Q ∧ j ≠ i ∧ Forall (λ K, K ⊆ Q) path ∧ s = stream_at path (stream j).
Proof.
  intros Hc Hp Hs. destruct (sub_contexts_streams _ _ _ _ _ _ _ _ Hc Hp) as (R & tp' & HR & HK & Hn).
  rewrite (co_seeds _ _ _ _ _ _ Hn) in Hs. case_decide as Hj; [|done]. injection Hs as <-.
  destruct Hj. split_and!; [by apply HR|done..].
Qed.

(** The contexts on the way hold a stream for every party of the last. *)
Lemma sub_contexts_prefix Q i sd tp stream ctx p r c j s :
  context_of Q i sd tp stream ctx → sub_contexts ctx (p ++ r) = Ok c → seeds c !! j = Some s →
  ∃ a, sub_contexts ctx p = Ok a ∧ seeds a !! j = Some (stream_at p (stream j)).
Proof.
  intros Hc Hp Hs. assert (∃ a, sub_contexts ctx p = Ok a ∧ sub_contexts a r = Ok c) as (a & Ha & Hr).
  { clear Hc Hs. revert ctx Hp. induction p as [|K p IH]; intros ctx; cbn; [by eauto|].
    intros (b & -> & Hb)%bind_ok. by apply IH. }
  exists a. split; [done|].
  destruct (sub_contexts_streams _ _ _ _ _ _ _ _ Hc Ha) as (R & tp' & HR & HK & Hn).
  destruct (sub_contexts_stream _ _ _ _ _ _ _ _ _ _ Hn Hr Hs) as (Hj & Hne & _).
  by rewrite (co_seeds _ _ _ _ _ _ Hn), decide_True.
Qed.

Lemma stream_at_snoc path K s : stream_at (path ++ [K]) s = sub_stream xof K (stream_at path s).
Proof. unfold stream_at. by rewrite foldl_app. Qed.

(** Streams of one input come from the same derivation, or two different
    streams on the way yield the same 32 bytes. *)
Lemma stream_at_input path path' s s' :
  s_custom s = seedDomainSeparatorLabel → s_custom s' = seedDomainSeparatorLabel →
  Forall ids_ok path → Forall ids_ok path' →
  input (stream_at path s) = input (stream_at path' s') →
  (path = path' ∧ input s = input s') ∨
  ∃ p p' K r, path = p ++ K :: r ∧ path' = p' ++ K :: r ∧
    input (stream_at p s) ≠ input (stream_at p' s') ∧
    (shake_read xof 32 (stream_at p s)).1 = (shake_read xof 32 (stream_at p' s')).1.
Proof.
  intros Hs Hs'. revert path'.
  induction path as [|K path IH] using rev_ind; intros path' Hp Hp' E;
    destruct path' as [|K' path' _] using rev_ind.
  - by left.
  - rewrite stream_at_snoc in E. injection E as E _. by rewrite Hs in E.
  - rewrite stream_at_snoc in E. injection E as E _. by rewrite Hs' in E.
  - rewrite !stream_at_snoc in E. apply (f_equal snd) in E. unfold sub_stream, input in E.
    cbn [snd s_absorbed] in E.
    apply Forall_app in Hp as [Hp HK], Hp' as [Hp' HK'].
    apply app_inj_1 in E as [Er EK]; [|unfold shake_read; cbn [fst]; by rewrite !length_tabulate].
    apply quorum_data_inj in EK; [|by eapply Forall_singleton..]. subst K'.
    destruct (decide (input (stream_at path s) = input (stream_at path' s'))) as [Ei|Ei].
    + destruct (IH path' Hp Hp' Ei) as [[-> Eb]|(p & p' & K1 & r & -> & -> & Hne & Hr)]; [by left|].
      right. exists p, p', K1, (r ++ [K]). by rewrite <-!app_assoc.
    + right. by exists path, path', K, [].
Qed.

Lemma pair_stream_input i j s i' j' s' :
  (i < 2 ^ 64)%N → (j < 2 ^ 64)%N → (i' < 2 ^ 64)%N → (j' < 2 ^ 64)%N →
  input (pair_stream i j s) = input (pair_stream i' j' s') →
  (i = i' ∧ j = j' ∨ i = j' ∧ j = i') ∧ s = s'.
Proof.
  intros Hi Hj Hi' Hj' [_ E]%pair_equal_spec. unfold pair_stream in E. cbn [s_absorbed] in E.
  apply app_inj_1 in E as [E1 E]; [|by rewrite !length_uint64LE].
  apply app_inj_1 in E as [E2 ->]; [|by rewrite !length_uint64LE].
  apply uint64LE_inj in E1, E2; [|lia..]. split; [lia|done].
Qed.

(** C35. The streams of sessions are separated, at every depth of nesting.
    Take a stream of any context or nested sub-context and a stream of any
    other.  If the two absorb the same input under the same customisation,
    then their paths of sub-quorums are the same, they belong to the same pair
    of parties and the same pairwise seed -- or the derivation of one of them
    contains a stream and that of the other a stream of a different input that
    yield the same 32 bytes, from which both were derived by the same further
    sub-quorums.  Conversely the path, the pair and its seed determine the
    stream: the common seed and the quorum of the outermost context are not
    part of it. *)
Theorem Session_streams_separate i Q cs ps ctx path c j s i' Q' cs' ps' ctx' path' c' j' s' :
  NewContext xof sum512 i (Some Q) cs (Some ps) = Ok ctx →
  sub_contexts ctx path = Ok c → seeds c !! j = Some s →
  NewContext xof sum512 i' (Some Q') cs' (Some ps') = Ok ctx' →
  sub_contexts ctx' path' = Ok c' → seeds c' !! j' = Some s' →
  ids_ok Q → ids_ok Q' →
  let same := path = path' ∧ (i = i' ∧ j = j' ∨ i = j' ∧ j = i') ∧ ps !! j = ps' !! j' in
  (input s = input s' → same ∨
     ∃ p p' K r a a' t t',
       path = p ++ K :: r ∧ path' = p' ++ K :: r ∧
       sub_contexts ctx p = Ok a ∧ seeds a !! j = Some t ∧
       sub_contexts ctx' p' = Ok a' ∧ seeds a' !! j' = Some t' ∧
       input t ≠ input t' ∧ (shake_read xof 32 t).1 = (shake_read xof 32 t').1) ∧
  (same → s = s').
Proof.
  intros (_ & _ & Hps & Hc)%NewContext_ok Hp Hs (_ & _ & Hps' & Hc')%NewContext_ok Hp' Hs' HQ HQ' same.
  destruct (sub_contexts_stream _ _ _ _ _ _ _ _ _ _ Hc Hp Hs) as (Hj & Hne & HK & ->).
  destruct (sub_contexts_stream _ _ _ _ _ _ _ _ _ _ Hc' Hp' Hs') as (Hj' & Hne' & HK' & ->).
  destruct (Hps j Hj Hne) as (t & Et & _), (Hps' j' Hj' Hne') as (t' & Et' & _).
  pose proof (co_in _ _ _ _ _ _ Hc) as Hi. pose proof (co_in _ _ _ _ _ _ Hc') as Hi'. split.
  - intros [[-> E]|(p & p' & K & r & -> & -> & Hd & Hr)]%stream_at_input; [left|right|done|done|..].
    + apply pair_stream_input in E as [E1 E2]; [|by auto..]. rewrite Et, Et' in E2. cbn in E2. unfold id in E2.
      split_and!; [done|done|]. by rewrite Et, Et', E2.
    + destruct (sub_contexts_prefix _ _ _ _ _ _ _ _ _ _ _ Hc Hp Hs) as (a & Ha & Hat).
      destruct (sub_contexts_prefix _ _ _ _ _ _ _ _ _ _ _ Hc' Hp' Hs') as (a' & Ha' & Hat').
      exists p, p', K, r, a, a'. eauto 10.
    + eapply Forall_impl; [exact HK|]. intros K HKQ x Hx. by apply HQ, HKQ.
    + eapply Forall_impl; [exact HK'|]. intros K HKQ x Hx. by apply HQ', HKQ.
  - intros (-> & Hpair & Eps). rewrite Eps. f_equal.
    destruct Hpair as [[-> ->]|[-> ->]]; [done|apply pair_stream_sym].
Qed.
End properties.

(** ** Two contexts *)

Definition ex_xof0 (c : string) (m : list N) (i : nat) : N := foldl N.add (N.of_nat i) m.
Definition ex_sum0 (m : list N) : list N := replicate 64 (N.of_nat (length m)).
Definition ex_pair : gset ID := {[1; 2]}%N.
Definition ex_seeds (j : ID) : gmap ID (list N) := {[j := replicate 32 9%N]}.
Definition ex_context (i j : ID) : Session.Context :=
  Session.mkContext (take 32 (ex_sum0 (replicate 32 4%N))) i [1; 2]%N
    (Hagrid.AppendBytes Session.transcriptInitLabel [drop 32 (ex_sum0 (replicate 32 4%N))]
      (Hagrid.NewTranscript Session.transcriptName)) {[j := pair_stream i j (replicate 32 9%N)]}.

Definition ex_sub (ctx : Session.Context) : Session.Context :=
  default ctx (match sub_contexts ex_xof0 ctx [ex_pair] with Ok c => Some c | _ => None end).

Lemma Session_streams_separate_witness :
  ∃ s s', Session.seeds (ex_sub (ex_context 1 2)) !! 2%N = Some s ∧
    Session.seeds (ex_sub (ex_context 2 1)) !! 1%N = Some s' ∧ s = s'.
Proof.
  eexists _, _. split; [vm_compute; reflexivity|]. split; [vm_compute; reflexivity|].
  refine (proj2 (Session_streams_separate ex_xof0 ex_sum0 1%N ex_pair (replicate 32 4%N) (ex_seeds 2%N)
    (ex_context 1 2) [ex_pair] (ex_sub (ex_context 1 2)) 2%N _ 2%N ex_pair (replicate 32 4%N) (ex_seeds 1%N)
    (ex_context 2 1) [ex_pair] (ex_sub (ex_context 2 1)) 1%N _ _ _ _ _ _ _ _ _) _).
  - vm_compute; reflexivity.
  - vm_compute; reflexivity.
  - vm_compute; reflexivity.
  - vm_compute; reflexivity.
  - vm_compute; reflexivity.
  - vm_compute; reflexivity.
  - intros k Hk. assert (k = 1%N ∨ k = 2%N) as [-> | ->] by set_solver; lia.
  - intros k Hk. assert (k = 1%N ∨ k = 2%N) as [-> | ->] by set_solver; lia.
  - split; [done|]. split; [by right|vm_compute; reflexivity].
Defined.

Lemma Session_contexts_agree_witness : agree (ex_context 1 2) (ex_context 2 1).
Proof.
  destruct (Session_contexts_agree ex_xof0 ex_sum0 1%N 2%N ex_pair (replicate 32 4%N) (ex_seeds 2%N) (ex_seeds 1%N)
    (ex_context 1 2) (ex_context 2 1) []) as [H _].
  - vm_compute; reflexivity.
  - vm_compute; reflexivity.
  - done.
  - vm_compute; reflexivity.
  - constructor.
  - exact H.
Defined.
