(* ===== verification/SessionSetup.v ===== *)
(** * The session set-up protocol (pkg/mpc/session/participant.go, messages.go)

    Four rounds in which every party contributes to the common seed, by
    commitment and opening, and every two parties to their pairwise seed.  A
    participant is a record of its maps; its methods change it and may fail.
    The theorem: two honest parties that finish, having received each other's
    messages and the same broadcasts from the others, hold agreeing contexts. *)

From Stdlib Require Import ZArith NArith Lia.
From stdpp Require Import strings.
From S2P Require Import Prelude Algebra AlgebraUtils IOUtils Network Sigma HashCom Hagrid Session.

Module Setup.
Import Session.

Definition sessionDomainSeparator : string := "BRON_CRYPTO_SESSION-SESSION".
Definition seedDomainSeparator : string := "BRON_CRYPTO_SESSION-SEED".
Definition commonCommitmentKey : list N := string_bytes "BRON_CRYPTO_NOTHING_UP_MY_SLEEVE".

(** Messages are pointers ([None] is nil) to structs of arrays. *)
Record Round1Broadcast := mkRound1 { CommonCommitment : list N; Ck : option (list N) }.
Record Round2Broadcast := mkRound2 { CommonContribution : list N; CommonContributionWitness : list N }.
Record Round2P2P := mkRound2P2P { PairwiseContributionCommitment : list N }.
Record Round3P2P := mkRound3P2P { PairwiseContribution : list N; PairwiseContributionWitness : list N }.

Definition is_zero_array (n : nat) (b : list N) : bool := bool_decide (b = replicate n 0%N).
Definition ValidateRound1Broadcast (m : option Round1Broadcast) (_ : ID) : result unit :=
  match m with
  | None => Err ErrValidation
  | Some m =>
      if is_zero_array HashCom.DigestSize (CommonCommitment m) then Err ErrValidation
      else
        match Ck m with
        | None => Err ErrValidation
        | Some ck => if is_zero_array HashCom.KeySize ck then Err ErrValidation else Ok tt
        end
  end.
Definition ValidateRound2Broadcast (m : option Round2Broadcast) (_ : ID) : result unit :=
  match m with
  | None => Err ErrValidation
  | Some m =>
      if is_zero_array CollisionResistanceBytesCeil (CommonContribution m) then Err ErrValidation
      else if is_zero_array HashCom.DigestSize (CommonContributionWitness m) then Err ErrValidation else Ok tt
  end.
Definition ValidateRound2P2P (m : option Round2P2P) (_ : ID) : result unit :=
  match m with
  | None => Err ErrValidation
  | Some m =>
      if is_zero_array HashCom.DigestSize (PairwiseContributionCommitment m) then Err ErrValidation else Ok tt
  end.
Definition ValidateRound3P2P (m : option Round3P2P) (_ : ID) : result unit :=
  match m with
  | None => Err ErrValidation
  | Some m =>
      if is_zero_array CollisionResistanceBytesCeil (PairwiseContribution m) then Err ErrValidation
      else if is_zero_array HashCom.DigestSize (PairwiseContributionWitness m) then Err ErrValidation else Ok tt
  end.

Section setup.
Context {P : Type} `{Reader P} (mac : list N → list N → list N).
Context (xof : string → list N → nat → N) (sum512 : list N → list N).

Record Participant := mkParticipant {
  id : ID; sortedQuorum : list ID; prng : P; round : nat;
  commonContributionCommitments : gmap ID (list N);
  commonContributions : gmap ID (list N);
  commonContributionWitnesses : gmap ID (list N);
  commitmentKeys : gmap ID (list N);
  pairwiseContributionCommitments : gmap ID (list N);
  pairwiseContributions : gmap ID (list N);
  pairwiseContributionWitnesses : gmap ID (list N) }.

Definition NewParticipant (id : ID) (quorum : option (gset ID)) (prng : option P) : result Participant :=
  match quorum with
  | None => Err ErrInvalidArgument
  | Some quorum =>
      if size quorum <? 2 then Err ErrInvalidArgument
      else if (id <? 1)%N then Err ErrInvalidArgument
      else if bool_decide (id ∉ quorum) then Err ErrInvalidArgument
      else
        match prng with
        | None => Err ErrInvalidArgument
        | Some prng => Ok (mkParticipant id (sort_ids (elements quorum)) prng 1 ∅ ∅ ∅ ∅ ∅ ∅ ∅)
        end
  end.

Definition otherParticipantsOrdered (p : Participant) : list ID :=
  filter (λ i, i ≠ id p) (sortedQuorum p).

(** Updates of the fields. *)
Definition put_common (i : ID) (c m w : option (list N)) (p : Participant) : Participant :=
  let upd (o : option (list N)) (f : gmap ID (list N)) := match o with Some v => <[i := v]> f | None => f end in
  mkParticipant (id p) (sortedQuorum p) (prng p) (round p)
    (upd c (commonContributionCommitments p)) (upd m (commonContributions p))
    (upd w (commonContributionWitnesses p)) (commitmentKeys p) (pairwiseContributionCommitments p)
    (pairwiseContributions p) (pairwiseContributionWitnesses p).
Definition put_pairwise (i : ID) (c m w : option (list N)) (p : Participant) : Participant :=
  let upd (o : option (list N)) (f : gmap ID (list N)) := match o with Some v => <[i := v]> f | None => f end in
  mkParticipant (id p) (sortedQuorum p) (prng p) (round p)
    (commonContributionCommitments p) (commonContributions p) (commonContributionWitnesses p)
    (commitmentKeys p) (upd c (pairwiseContributionCommitments p))
    (upd m (pairwiseContributions p)) (upd w (pairwiseContributionWitnesses p)).
Definition put_key (i : ID) (ck : list N) (p : Participant) : Participant :=
  mkParticipant (id p) (sortedQuorum p) (prng p) (round p)
    (commonContributionCommitments p) (commonContributions p) (commonContributionWitnesses p)
    (<[i := ck]> (commitmentKeys p)) (pairwiseContributionCommitments p)
    (pairwiseContributions p) (pairwiseContributionWitnesses p).
Definition set_prng (g : P) (p : Participant) : Participant :=
  mkParticipant (id p) (sortedQuorum p) g (round p)
    (commonContributionCommitments p) (commonContributions p) (commonContributionWitnesses p)
    (commitmentKeys p) (pairwiseContributionCommitments p)
    (pairwiseContributions p) (pairwiseContributionWitnesses p).
Definition next_round (p : Participant) : Participant :=
  mkParticipant (id p) (sortedQuorum p) (prng p) (S (round p))
    (commonContributionCommitments p) (commonContributions p) (commonContributionWitnesses p)
    (commitmentKeys p) (pairwiseContributionCommitments p)
    (pairwiseContributions p) (pairwiseContributionWitnesses p).

(** A read of the participant's source of randomness. *)
Definition sampling {A} (f : P → result (A * P)) : stateM Participant A :=
  λ p, match f (prng p) with
       | Ok (a, g) => (set_prng g p, Ok a)
       | Err e => (p, Err e)
       | Panic => (p, Panic)
       end.
Definition get_at {A} (f : Participant → gmap ID A) (i : ID) : stateM Participant A :=
  λ p, (p, or_err (f p !! i) ErrInvalidArgument).

Definition Round1 : stateM Participant Round1Broadcast :=
  r ← gets round;
  _ ← ensure (r =? 1) ErrRound;
  ck ← sampling (λ g, HashCom.SampleCommitmentKey (Some g));
  commonContribution ← sampling (read_full CollisionResistanceBytesCeil);
  '(commitment, witness) ← sampling (λ g,
    '(c, w, g) ← HashCom.Commit mac (Some commonCommitmentKey) (Some commonContribution) (Some g);
    Ok (c, w, g));
  self ← gets id;
  _ ← modify (put_key self ck);
  _ ← modify (put_common self (Some commitment) (Some commonContribution) (Some witness));
  _ ← modify next_round;
  mret (mkRound1 commitment (Some ck)).

(** The bodies of the loops of the second round. *)
Definition store_round1 (inB : gmap ID (option Round1Broadcast)) (i : ID) : stateM Participant unit :=
  b ← lift (or_err (inB !! i) ErrInvalidArgument);
  match b with
  | Some (mkRound1 c (Some ck)) =>
      _ ← modify (put_key i ck);
      modify (put_common i (Some c) None None)
  | _ => lift Panic
  end.
Definition commit_pairwise (uOut : gmap ID (option Round2P2P)) (i : ID) :
    stateM Participant (gmap ID (option Round2P2P)) :=
  ck ← get_at commitmentKeys i;
  contribution ← sampling (read_full CollisionResistanceBytesCeil);
  _ ← modify (put_pairwise i None (Some contribution) None);
  '(commitment, witness) ← sampling (λ g,
    '(c, w, g) ← HashCom.Commit mac (Some ck) (Some contribution) (Some g);
    Ok (c, w, g));
  _ ← modify (put_pairwise i None None (Some witness));
  mret (<[i := Some (mkRound2P2P commitment)]> uOut).

Definition Round2 (inB : gmap ID (option Round1Broadcast)) :
    stateM Participant (Round2Broadcast * gmap ID (option Round2P2P)) :=
  r ← gets round;
  _ ← ensure (r =? 2) ErrRound;
  others ← gets otherParticipantsOrdered;
  _ ← lift (Network.ValidateIncomingMessages ValidateRound1Broadcast others inB);
  _ ← forM (store_round1 inB) others;
  self ← gets id;
  cc ← gets (λ p, default (replicate 32 0%N) (commonContributions p !! self));
  cw ← gets (λ p, default (replicate 32 0%N) (commonContributionWitnesses p !! self));
  uOut ← foldS commit_pairwise ∅ others;
  _ ← modify next_round;
  mret (mkRound2 cc cw, uOut).

(** The bodies of the loops of the third round. *)
Definition check_round2 (inB : gmap ID (option Round2Broadcast)) (inU : gmap ID (option Round2P2P))
    (i : ID) : stateM Participant unit :=
  b ← lift (or_err (inB !! i) ErrInvalidArgument);
  u ← lift (or_err (inU !! i) ErrInvalidArgument);
  match b, u with
  | Some (mkRound2 m w), Some (mkRound2P2P c) =>
      commitment ← gets (λ p, default (replicate 32 0%N) (commonContributionCommitments p !! i));
      _ ← lift (HashCom.Open mac (Some commonCommitmentKey) commitment (Some m) w);
      _ ← modify (put_common i None (Some m) (Some w));
      modify (put_pairwise i (Some c) None None)
  | _, _ => lift Panic
  end.
Definition open_pairwise (uOut : gmap ID (option Round3P2P)) (i : ID) :
    stateM Participant (gmap ID (option Round3P2P)) :=
  pairwiseContribution ← get_at pairwiseContributions i;
  pairwiseWitness ← get_at pairwiseContributionWitnesses i;
  mret (<[i := Some (mkRound3P2P pairwiseContribution pairwiseWitness)]> uOut).

Definition Round3 (inB : gmap ID (option Round2Broadcast)) (inU : gmap ID (option Round2P2P)) :
    stateM Participant (gmap ID (option Round3P2P)) :=
  r ← gets round;
  _ ← ensure (r =? 3) ErrRound;
  others ← gets otherParticipantsOrdered;
  _ ← lift (Network.ValidateIncomingMessages ValidateRound2Broadcast others inB);
  _ ← lift (Network.ValidateIncomingMessages ValidateRound2P2P others inU);
  _ ← forM (check_round2 inB inU) others;
  uOut ← foldS open_pairwise ∅ others;
  _ ← modify next_round;
  mret uOut.

(** The common seed of the fourth round, and the seed of one pair. *)
Definition seed_entry (commonSeed : list N) (i : ID) : stateM Participant (list N) :=
  ckid ← get_at commitmentKeys i;
  c ← get_at commonContributionCommitments i;
  m ← get_at commonContributions i;
  w ← get_at commonContributionWitnesses i;
  mret (commonSeed ++ uint64ToBytesLE i ++ ckid ++ c ++ m ++ w).
Definition pairwise_seed (self : ID) (ck commonSeed : list N) (uIn : gmap ID (option Round3P2P))
    (pairwiseSeeds : gmap ID (list N)) (i : ID) : stateM Participant (gmap ID (list N)) :=
  u ← lift (or_err (uIn !! i) ErrInvalidArgument);
  pairwiseCommitment ← get_at pairwiseContributionCommitments i;
  match u with
  | Some (mkRound3P2P theirs w) =>
      _ ← lift (HashCom.Open mac (Some ck) pairwiseCommitment (Some theirs) w);
      mine ← get_at pairwiseContributions i;
      mret (<[i := string_bytes seedDomainSeparator ++ commonSeed ++
               (if (self <? i)%N then mine ++ theirs else theirs ++ mine)]> pairwiseSeeds)
  | None => lift Panic
  end.

Definition Round4 (uIn : gmap ID (option Round3P2P)) : stateM Participant Session.Context :=
  r ← gets round;
  _ ← ensure (r =? 4) ErrRound;
  others ← gets otherParticipantsOrdered;
  _ ← lift (Network.ValidateIncomingMessages ValidateRound3P2P others uIn);
  self ← gets id;
  ck ← get_at commitmentKeys self;
  quorum ← gets sortedQuorum;
  commonSeed ← foldS seed_entry
    (string_bytes sessionDomainSeparator ++ uint64ToBytesLE (N.of_nat (length quorum))) quorum;
  pairwiseSeeds ← foldS (pairwise_seed self ck commonSeed uIn) ∅ others;
  ctx ← lift (NewContext xof sum512 self (Some (list_to_set quorum)) commonSeed (Some pairwiseSeeds));
  _ ← modify next_round;
  mret ctx.
End setup.
Arguments Participant : clear implicits.
End Setup.

(** ** What each round leaves in the state *)

Section theory.
Import Session Setup.
Context {P : Type} `{Reader P} (mac : list N → list N → list N).
Context (xof : string → list N → nat → N) (sum512 : list N → list N).
Implicit Types (p q : Participant P).

Lemma sampling_ok {A} (f : P → result (A * P)) p p' a :
  sampling f p = (p', Ok a) ↔ ∃ g, f (prng p) = Ok (a, g) ∧ p' = set_prng g p.
Proof. unfold sampling. destruct (f (prng p)) as [[b g]| |]; split; naive_solver. Qed.
Lemma get_at_ok {A} (f : Participant P → gmap ID A) i p p' a :
  get_at f i p = (p', Ok a) ↔ f p !! i = Some a ∧ p' = p.
Proof. unfold get_at. destruct (f p !! i); cbn; split; naive_solver. Qed.

Ltac step_setup E :=
  repeat (step_state E;
    repeat match goal with
    | H : sampling _ _ = (_, Ok _) |- _ => apply sampling_ok in H as (? & ? & ->)
    | H : get_at _ _ _ = (_, Ok _) |- _ => apply get_at_ok in H as [? ->]
    end;
    try match type of E with (let '(_, _) := ?x in _) _ = _ => destruct x end).

(** What the parties' own first round leaves. *)
Definition after1 (self : ID) (b : Round1Broadcast) p : Prop :=
  id p = self ∧ ∃ ck m w, Ck b = Some ck ∧ commitmentKeys p !! self = Some ck ∧
    commonContributionCommitments p !! self = Some (CommonCommitment b) ∧
    commonContributions p !! self = Some m ∧ commonContributionWitnesses p !! self = Some w.

Lemma Round1_ok p p' b :
  Round1 mac p = (p', Ok b) → after1 (id p) b p' ∧ sortedQuorum p' = sortedQuorum p.
Proof.
  unfold Round1. intros E. step_setup E.
  cbn. split; [|done]. split; [done|]. eexists _, _, _. cbn. rewrite !lookup_insert_eq. done.
Qed.

Lemma others_iff p k : k ∈ otherParticipantsOrdered p ↔ k ∈ sortedQuorum p ∧ k ≠ id p.
Proof. unfold otherParticipantsOrdered. rewrite list_elem_of_filter. tauto. Qed.

(** Maps a loop has filled at the keys done so far. *)
Definition filled {A} (done : list ID) (m m' : gmap ID A) (v : ID → A → Prop) : Prop :=
  ∀ k, if decide (k ∈ done) then ∃ a, m' !! k = Some a ∧ v k a else m' !! k = m !! k.
Lemma filled_nil {A} (m : gmap ID A) v : filled [] m m v.
Proof. intros k. by rewrite decide_False by apply not_elem_of_nil. Qed.
Lemma filled_snoc {A} l (m m' : gmap ID A) v k a :
  filled l m m' v → v k a → filled (l ++ [k]) m (<[k := a]> m') v.
Proof.
  intros Hf Hv j. specialize (Hf j). destruct (decide (j = k)) as [->|Hne].
  - rewrite decide_True by (apply elem_of_app; right; by left). rewrite lookup_insert_eq. eauto.
  - rewrite lookup_insert_ne by done. destruct (decide (j ∈ l)) as [Hj|Hj].
    + by rewrite decide_True by (apply elem_of_app; by left).
    + rewrite decide_False; [done|]. rewrite elem_of_app, list_elem_of_singleton. tauto.
Qed.
Lemma filled_in {A} l (m m' : gmap ID A) v k :
  filled l m m' v → k ∈ l → ∃ a, m' !! k = Some a ∧ v k a.
Proof. intros Hf Hk. specialize (Hf k). by rewrite decide_True in Hf. Qed.
Lemma filled_out {A} l (m m' : gmap ID A) v k :
  filled l m m' v → k ∉ l → m' !! k = m !! k.
Proof. intros Hf Hk. specialize (Hf k). by rewrite decide_False in Hf. Qed.

Lemma store_round1_loop inB l p p' u :
  forM (store_round1 inB) l p = (p', Ok u) →
  id p' = id p ∧ sortedQuorum p' = sortedQuorum p ∧
  commonContributions p' = commonContributions p ∧
  commonContributionWitnesses p' = commonContributionWitnesses p ∧
  filled l (commitmentKeys p) (commitmentKeys p') (λ k ck, ∃ b, inB !! k = Some (Some b) ∧ Ck b = Some ck) ∧
  filled l (commonContributionCommitments p) (commonContributionCommitments p')
    (λ k c, ∃ b, inB !! k = Some (Some b) ∧ CommonCommitment b = c).
Proof.
  apply (forM_inv (λ done q, id q = id p ∧ sortedQuorum q = sortedQuorum p ∧
    commonContributions q = commonContributions p ∧
    commonContributionWitnesses q = commonContributionWitnesses p ∧
    filled done (commitmentKeys p) (commitmentKeys q) (λ k ck, ∃ b, inB !! k = Some (Some b) ∧ Ck b = Some ck) ∧
    filled done (commonContributionCommitments p) (commonContributionCommitments q)
      (λ k c, ∃ b, inB !! k = Some (Some b) ∧ CommonCommitment b = c))).
  - split_and!; try done; apply filled_nil.
  - intros pre x post t t' _ (? & ? & ? & ? & ? & ?) E. unfold store_round1 in E. step_setup E.
    apply or_err_ok in E0. destruct a as [[c [ck|]]|]; [|done..]. step_setup E. cbn.
    split_and!; try done; (apply filled_snoc; [done|]; eexists; split; [done|]; done).
Qed.

Lemma commit_pairwise_loop l u p p' u' :
  foldS (commit_pairwise mac) u l p = (p', Ok u') →
  id p' = id p ∧ sortedQuorum p' = sortedQuorum p ∧
  commonContributionCommitments p' = commonContributionCommitments p ∧
  commonContributions p' = commonContributions p ∧
  commonContributionWitnesses p' = commonContributionWitnesses p ∧
  commitmentKeys p' = commitmentKeys p.
Proof.
  apply (foldS_inv (λ _ _ q, id q = id p ∧ sortedQuorum q = sortedQuorum p ∧
    commonContributionCommitments q = commonContributionCommitments p ∧
    commonContributions q = commonContributions p ∧
    commonContributionWitnesses q = commonContributionWitnesses p ∧
    commitmentKeys q = commitmentKeys p)); [done|].
  intros pre x post b t b' t' _ HI E. unfold commit_pairwise in E. step_setup E. exact HI.
Qed.

Lemma check_round2_loop inB inU l p p' u :
  forM (check_round2 mac inB inU) l p = (p', Ok u) →
  id p' = id p ∧ sortedQuorum p' = sortedQuorum p ∧
  commitmentKeys p' = commitmentKeys p ∧
  commonContributionCommitments p' = commonContributionCommitments p ∧
  pairwiseContributions p' = pairwiseContributions p ∧
  filled l (commonContributions p) (commonContributions p')
    (λ k m, ∃ b, inB !! k = Some (Some b) ∧ CommonContribution b = m) ∧
  filled l (commonContributionWitnesses p) (commonContributionWitnesses p')
    (λ k w, ∃ b, inB !! k = Some (Some b) ∧ CommonContributionWitness b = w).
Proof.
  apply (forM_inv (λ done q, id q = id p ∧ sortedQuorum q = sortedQuorum p ∧
    commitmentKeys q = commitmentKeys p ∧
    commonContributionCommitments q = commonContributionCommitments p ∧
    pairwiseContributions q = pairwiseContributions p ∧
    filled done (commonContributions p) (commonContributions q)
      (λ k m, ∃ b, inB !! k = Some (Some b) ∧ CommonContribution b = m) ∧
    filled done (commonContributionWitnesses p) (commonContributionWitnesses q)
      (λ k w, ∃ b, inB !! k = Some (Some b) ∧ CommonContributionWitness b = w))).
  - split_and!; try done; apply filled_nil.
  - intros pre x post t t' _ (? & ? & ? & ? & ? & ? & ?) E. unfold check_round2 in E. step_setup E.
    apply or_err_ok in E0, E1. destruct a as [[m w]|], a0 as [[c]|]; [|done..]. step_setup E. cbn.
    split_and!; try done; (apply filled_snoc; [done|]; eexists; split; [done|]; done).
Qed.

Lemma open_pairwise_loop l p p' u :
  foldS open_pairwise ∅ l p = (p', Ok u) → p' = p ∧
  ∀ k, k ∈ l → ∃ m w, u !! k = Some (Some (mkRound3P2P m w)) ∧ pairwiseContributions p !! k = Some m.
Proof.
  intros E. assert (p' = p ∧ filled l ∅ u (λ k o, ∃ m w, o = Some (mkRound3P2P m w) ∧
    pairwiseContributions p !! k = Some m)) as [-> Hf].
  { revert E. apply (foldS_inv (λ done u q, q = p ∧ filled done ∅ u (λ k o, ∃ m w, o = Some (mkRound3P2P m w) ∧
      pairwiseContributions p !! k = Some m))).
    - split; [done|apply filled_nil].
    - intros pre x post b t b' t' _ [-> Hb] E. unfold open_pairwise in E. step_setup E.
      split; [done|]. apply filled_snoc; [done|]. eauto. }
  split; [done|]. intros k Hk. destruct (filled_in _ _ _ _ _ Hf Hk) as (a & Ha & m & w & -> & Hm). eauto.
Qed.

(** What one party contributes to the common seed. *)
Definition entry p (k : ID) : list N :=
  uint64ToBytesLE k ++ default [] (commitmentKeys p !! k) ++
    default [] (commonContributionCommitments p !! k) ++ default [] (commonContributions p !! k) ++
    default [] (commonContributionWitnesses p !! k).
Lemma seed_entry_loop l s p p' r :
  foldS seed_entry s l p = (p', Ok r) → p' = p ∧ r = s ++ (l ≫= entry p).
Proof.
  apply (foldS_inv (λ done r q, q = p ∧ r = s ++ (done ≫= entry p))).
  - by rewrite app_nil_r.
  - intros pre x post b t b' t' _ [-> ->] E. unfold seed_entry in E. step_setup E. split; [done|].
    rewrite bind_app, <-app_assoc. cbn. rewrite app_nil_r. f_equal. f_equal. unfold entry.
    repeat match goal with H : _ !! x = Some _ |- _ => rewrite H; clear H end. done.
Qed.

Lemma pairwise_seed_loop self ck cs uIn l p p' r :
  foldS (pairwise_seed mac self ck cs uIn) ∅ l p = (p', Ok r) → p' = p ∧
  ∀ k, k ∈ l → ∃ theirs w mine, uIn !! k = Some (Some (mkRound3P2P theirs w)) ∧
    pairwiseContributions p !! k = Some mine ∧
    r !! k = Some (string_bytes seedDomainSeparator ++ cs ++
      (if (self <? k)%N then mine ++ theirs else theirs ++ mine)).
Proof.
  intros E. assert (p' = p ∧ filled l ∅ r (λ k s, ∃ theirs w mine, uIn !! k = Some (Some (mkRound3P2P theirs w)) ∧
    pairwiseContributions p !! k = Some mine ∧ s = string_bytes seedDomainSeparator ++ cs ++
      (if (self <? k)%N then mine ++ theirs else theirs ++ mine))) as [-> Hf].
  { revert E. apply (foldS_inv (λ done r q, q = p ∧ filled done ∅ r (λ k s, ∃ theirs w mine,
      uIn !! k = Some (Some (mkRound3P2P theirs w)) ∧
      pairwiseContributions p !! k = Some mine ∧ s = string_bytes seedDomainSeparator ++ cs ++
        (if (self <? k)%N then mine ++ theirs else theirs ++ mine)))).
    - split; [done|apply filled_nil].
    - intros pre x post b t b' t' _ [-> Hb] E. unfold pairwise_seed in E. step_setup E.
      apply or_err_ok in E0. destruct a as [[theirs w]|]; [|done]. step_setup E.
      split; [done|]. apply filled_snoc; [done|]. eexists _, _, _. done. }
  split; [done|]. intros k Hk. destruct (filled_in _ _ _ _ _ Hf Hk) as (a & Ha & th & w & mi & ? & ? & ->). eauto 10.
Qed.

Lemma Round2_ok inB p p' b u :
  Round2 mac inB p = (p', Ok (b, u)) →
  id p' = id p ∧ sortedQuorum p' = sortedQuorum p ∧
  commonContributions p' = commonContributions p ∧
  commonContributionWitnesses p' = commonContributionWitnesses p ∧
  filled (otherParticipantsOrdered p) (commitmentKeys p) (commitmentKeys p')
    (λ k ck, ∃ b, inB !! k = Some (Some b) ∧ Ck b = Some ck) ∧
  filled (otherParticipantsOrdered p) (commonContributionCommitments p) (commonContributionCommitments p')
    (λ k c, ∃ b, inB !! k = Some (Some b) ∧ CommonCommitment b = c) ∧
  b = mkRound2 (default (replicate 32 0%N) (commonContributions p !! id p))
        (default (replicate 32 0%N) (commonContributionWitnesses p !! id p)).
Proof.
  unfold Round2. intros E. step_setup E.
  match goal with H : forM _ _ _ = _ |- _ => apply store_round1_loop in H as (Hi & Hq & Hc & Hw & Hk & Hcm) end.
  match goal with H : foldS _ _ _ _ = _ |- _ => apply commit_pairwise_loop in H as (Hi' & Hq' & Hcm' & Hc' & Hw' & Hk') end.
  cbn. rewrite Hi', Hq', Hcm', Hc', Hw', Hk', Hi, Hq, Hc, Hw. done.
Qed.

Lemma Round3_ok inB inU p p' u :
  Round3 mac inB inU p = (p', Ok u) →
  id p' = id p ∧ sortedQuorum p' = sortedQuorum p ∧
  commitmentKeys p' = commitmentKeys p ∧
  commonContributionCommitments p' = commonContributionCommitments p ∧
  filled (otherParticipantsOrdered p) (commonContributions p) (commonContributions p')
    (λ k m, ∃ b, inB !! k = Some (Some b) ∧ CommonContribution b = m) ∧
  filled (otherParticipantsOrdered p) (commonContributionWitnesses p) (commonContributionWitnesses p')
    (λ k w, ∃ b, inB !! k = Some (Some b) ∧ CommonContributionWitness b = w) ∧
  ∀ k, k ∈ otherParticipantsOrdered p → ∃ m w, u !! k = Some (Some (mkRound3P2P m w)) ∧
    pairwiseContributions p' !! k = Some m.
Proof.
  unfold Round3. intros E. step_setup E.
  match goal with H : forM _ _ _ = _ |- _ => apply check_round2_loop in H as (Hi & Hq & Hk & Hcm & _ & Hc & Hw) end.
  match goal with H : foldS _ _ _ _ = _ |- _ => apply open_pairwise_loop in H as [-> Hu] end. done.
Qed.

Lemma Round4_ok uIn p p' ctx :
  Round4 mac xof sum512 uIn p = (p', Ok ctx) →
  let cs := string_bytes sessionDomainSeparator ++ uint64ToBytesLE (N.of_nat (length (sortedQuorum p))) ++
    (sortedQuorum p ≫= entry p) in
  ∃ pws, NewContext xof sum512 (id p) (Some (list_to_set (sortedQuorum p))) cs (Some pws) = Ok ctx ∧
  ∀ k, k ∈ otherParticipantsOrdered p → ∃ theirs w mine, uIn !! k = Some (Some (mkRound3P2P theirs w)) ∧
    pairwiseContributions p !! k = Some mine ∧
    pws !! k = Some (string_bytes seedDomainSeparator ++ cs ++
      (if (id p <? k)%N then mine ++ theirs else theirs ++ mine)).
Proof.
  unfold Round4. intros E. step_setup E.
  match goal with H : foldS seed_entry _ _ _ = _ |- _ => apply seed_entry_loop in H as [-> ->] end.
  match goal with H : foldS (pairwise_seed _ _ _ _ _) _ _ _ = _ |- _ => apply pairwise_seed_loop in H as [-> Hs] end.
  rewrite <-app_assoc in *. eauto.
Qed.

(** One party's part of the set-up: what it is given, what it sends and the
    context it ends with. *)
Record execution := mkExecution {
  x_id : ID; x_prng : P;
  x_in1 : gmap ID (option Round1Broadcast); x_in2 : gmap ID (option Round2Broadcast);
  x_in2u : gmap ID (option Round2P2P); x_in3 : gmap ID (option Round3P2P);
  x_b1 : Round1Broadcast; x_b2 : Round2Broadcast;
  x_u2 : gmap ID (option Round2P2P); x_u3 : gmap ID (option Round3P2P); x_ctx : Session.Context }.
Definition executes (Q : gset ID) (x : execution) : Prop :=
  ∃ p0 p1 p2 p3 p4, NewParticipant (x_id x) (Some Q) (Some (x_prng x)) = Ok p0 ∧
    Round1 mac p0 = (p1, Ok (x_b1 x)) ∧ Round2 mac (x_in1 x) p1 = (p2, Ok (x_b2 x, x_u2 x)) ∧
    Round3 mac (x_in2 x) (x_in2u x) p2 = (p3, Ok (x_u3 x)) ∧
    Round4 mac xof sum512 (x_in3 x) p3 = (p4, Ok (x_ctx x)).

(** All broadcasts of the first two rounds as a party sees them. *)
Definition view1 x k : option (option Round1Broadcast) :=
  if decide (k = x_id x) then Some (Some (x_b1 x)) else x_in1 x !! k.
Definition view2 x k : option (option Round2Broadcast) :=
  if decide (k = x_id x) then Some (Some (x_b2 x)) else x_in2 x !! k.

(** The common seed of the values seen. *)
Definition common_seed (Q : gset ID) (v1 : ID → option (option Round1Broadcast))
    (v2 : ID → option (option Round2Broadcast)) : list N :=
  string_bytes sessionDomainSeparator ++ uint64ToBytesLE (N.of_nat (size Q)) ++
  (sort_ids (elements Q) ≫= λ k, uint64ToBytesLE k ++
    match v1 k, v2 k with
    | Some (Some b1), Some (Some b2) =>
        default [] (Ck b1) ++ CommonCommitment b1 ++ CommonContribution b2 ++ CommonContributionWitness b2
    | _, _ => []
    end).

Lemma executes_ok Q x :
  executes Q x → x_id x ∈ Q ∧
  ∃ pws, NewContext xof sum512 (x_id x) (Some Q) (common_seed Q (view1 x) (view2 x)) (Some pws) = Ok (x_ctx x) ∧
  ∀ k, k ∈ Q → k ≠ x_id x → ∃ mine w theirs w', x_u3 x !! k = Some (Some (mkRound3P2P mine w)) ∧
    x_in3 x !! k = Some (Some (mkRound3P2P theirs w')) ∧
    pws !! k = Some (string_bytes seedDomainSeparator ++ common_seed Q (view1 x) (view2 x) ++
      (if (x_id x <? k)%N then mine ++ theirs else theirs ++ mine)).
Proof.
  intros (p0 & p1 & p2 & p3 & p4 & E0 & E1 & E2 & E3 & E4).
  unfold NewParticipant in E0. rewrite !if_err_ok in E0. destruct E0 as (_ & _ & Hin & [= <-]).
  apply bool_decide_eq_false in Hin. apply Round1_ok in E1 as [[Hid1 (ck & m & w & H1a & H1b & H1c & H1d & H1e)] Hq1].
  apply Round2_ok in E2 as (Hid2 & Hq2 & Hc2 & Hw2 & Hk2 & Hcm2 & Hb2).
  apply Round3_ok in E3 as (Hid3 & Hq3 & Hk3 & Hcm3 & Hc3 & Hw3 & Hu3).
  apply Round4_ok in E4 as (pws & Hctx & Hpw). cbn in Hid1, Hq1, H1b, H1c, H1d, H1e.
  assert (∀ k p, id p = x_id x → sortedQuorum p = sort_ids (elements Q) →
    k ∈ otherParticipantsOrdered p ↔ k ∈ Q ∧ k ≠ x_id x) as Hoth.
  { intros k p Hi Hq. by rewrite others_iff, Hi, Hq, sorted_elements_elem. }
  rewrite Hq3, Hq2, Hq1, Hid3, Hid2, Hid1, sorted_elements_set, sorted_elements_length in Hctx.
  assert (sort_ids (elements Q) ≫= entry p3 = sort_ids (elements Q) ≫= (λ k, uint64ToBytesLE k ++
    match view1 x k, view2 x k with
    | Some (Some b1), Some (Some b2) =>
        default [] (Ck b1) ++ CommonCommitment b1 ++ CommonContribution b2 ++ CommonContributionWitness b2
    | _, _ => []
    end)) as Hent.
  { apply list_bind_ext_elem. intros k Hk%sorted_elements_elem. unfold entry, view1, view2. f_equal.
    rewrite Hk3, Hcm3. rewrite Hid1, H1d, H1e in Hb2. cbn in Hb2.
    destruct (decide (k = x_id x)) as [->|Hne].
    - rewrite (filled_out _ _ _ _ _ Hk2), (filled_out _ _ _ _ _ Hcm2), (filled_out _ _ _ _ _ Hc3),
        (filled_out _ _ _ _ _ Hw3), Hc2, Hw2, H1a, H1b, H1c, H1d, H1e, Hb2; [done|..];
        rewrite Hoth by congruence; tauto.
    - destruct (filled_in _ _ _ _ k Hk2) as (? & -> & b & Eb & Ek); [by apply Hoth|].
      destruct (filled_in _ _ _ _ k Hcm2) as (? & -> & b' & Eb' & <-); [by apply Hoth|].
      destruct (filled_in _ _ _ _ k Hc3) as (? & -> & d & Ed & <-); [by apply Hoth; [congruence..|]|].
      destruct (filled_in _ _ _ _ k Hw3) as (? & -> & d' & Ed' & <-); [by apply Hoth; [congruence..|]|].
      rewrite Eb in Eb'. injection Eb' as <-. rewrite Ed in Ed'. injection Ed' as <-.
      by rewrite Eb, Ed, Ek. }
  split; [by destruct (decide (x_id x ∈ Q))|]. exists pws.
  rewrite Hq3, Hq2, Hq1, Hid3, Hid2, Hid1, sorted_elements_length in Hpw.
  rewrite Hent in *. split; [exact Hctx|]. intros k Hk Hne.
  destruct (Hpw k) as (theirs & w' & mine & Hin3 & Hmine & Hs); [by apply Hoth; [congruence..|]|].
  destruct (Hu3 k) as (mine' & w'' & Hu & Hm); [by apply Hoth; [congruence..|]|].
  rewrite Hmine in Hm. injection Hm as <-. eauto 10.
Qed.
End theory.

(** ** Properties *)

Section properties.
Import Session Setup.
Context {P : Type} `{Reader P} (mac : list N → list N → list N).
Context (xof : string → list N → nat → N) (sum512 : list N → list N).

Lemma common_seed_ext Q v1 v1' v2 v2' :
  (∀ k, k ∈ Q → v1 k = v1' k ∧ v2 k = v2' k) → common_seed Q v1 v2 = common_seed Q v1' v2'.
Proof.
  intros Hv. unfold common_seed. do 2 f_equal. apply list_bind_ext_elem.
  intros k Hk%sorted_elements_elem. by destruct (Hv k Hk) as [-> ->].
Qed.

(** C34. The set-up protocol.  When two parties of a quorum finish, having
    received each other's messages and the same broadcasts from the other
    parties - whatever else those sent - they end with agreeing contexts: the
    same session identifier, transcript and quorum, and the same stream for
    their pair; and the contexts they derive for nested quorums agree too. *)
Theorem Session_setup_agreement Q (x y : execution (P:=P)) path :
  executes mac xof sum512 Q x → executes mac xof sum512 Q y → x_id x ≠ x_id y →
  (∀ k, k ∈ Q → view1 x k = view1 y k ∧ view2 x k = view2 y k) →
  x_in3 x !! x_id y = x_u3 y !! x_id x → x_in3 y !! x_id x = x_u3 x !! x_id y →
  nested {[x_id x; x_id y]} Q path →
  agree (x_ctx x) (x_ctx y) ∧
  ∃ sub sub', sub_contexts xof (x_ctx x) path = Ok sub ∧ sub_contexts xof (x_ctx y) path = Ok sub' ∧
    agree sub sub'.
Proof.
  intros (Hx & ps & Hcx & Hsx)%executes_ok (Hy & ps' & Hcy & Hsy)%executes_ok Hne Hv E1 E2 Hn.
  rewrite <-(common_seed_ext Q _ _ _ _ Hv) in Hcy, Hsy.
  destruct (Hsx (x_id y)) as (m & w & th & w' & Hu & Hi & Hp); [done..|].
  destruct (Hsy (x_id x)) as (m' & v & th' & v' & Hu' & Hi' & Hp'); [done..|].
  rewrite E1, Hu' in Hi. injection Hi as <- <-. rewrite E2, Hu in Hi'. injection Hi' as <- <-.
  assert (ps !! x_id y = ps' !! x_id x) as Es.
  { rewrite Hp, Hp'. do 3 f_equal.
    destruct (N.ltb_spec (x_id x) (x_id y)), (N.ltb_spec (x_id y) (x_id x)); try done; lia. }
  apply NewContext_ok in Hcx as (_ & _ & _ & Hcx). apply NewContext_ok in Hcy as (_ & _ & _ & Hcy).
  assert (pair_stream (x_id x) (x_id y) (default [] (ps !! x_id y))
    = pair_stream (x_id y) (x_id x) (default [] (ps' !! x_id x))) as Est by (by rewrite Es, pair_stream_sym).
  split; [by eapply context_agree|]. by eapply sub_contexts_agree.
Qed.
End properties.

(** ** Two parties *)

Definition ex_sum512 (m : list N) : list N := replicate 64 (N.of_nat (length m) mod 256)%N.
Definition ex_xof (c : string) (m : list N) (i : nat) : N := foldl N.add (N.of_nat i) m.
Definition ex_mac32 (k m : list N) : list N := replicate 32 (foldl N.add 1 (k ++ m) mod 256)%N.
Definition ex_two : gset ID := {[1; 2]}%N.

(** The messages of both parties, computed round by round. *)
Definition ex_get {A} (d : A) (r : result A) : A := match r with Ok a => a | _ => d end.
Definition ex_p0 (i : ID) : Setup.Participant (list N) :=
  Setup.mkParticipant (P:=list N) i [1; 2]%N (replicate 400 (i + 1)%N) 1 ∅ ∅ ∅ ∅ ∅ ∅ ∅.
Definition ex_r1 i := Setup.Round1 ex_mac32 (ex_p0 i).
Definition ex_b1 i := ex_get (Setup.mkRound1 [] None) (ex_r1 i).2.
Definition ex_in1 (i : ID) : gmap ID (option Setup.Round1Broadcast) := {[(3 - i)%N := Some (ex_b1 (3 - i)%N)]}.
Definition ex_r2 i := Setup.Round2 ex_mac32 (ex_in1 i) (ex_r1 i).1.
Definition ex_b2 i := (ex_get (Setup.mkRound2 [] [], ∅) (ex_r2 i).2).1.
Definition ex_u2 i := (ex_get (Setup.mkRound2 [] [], ∅) (ex_r2 i).2).2.
Definition ex_in2 (i : ID) : gmap ID (option Setup.Round2Broadcast) := {[(3 - i)%N := Some (ex_b2 (3 - i)%N)]}.
Definition ex_in2u (i : ID) : gmap ID (option Setup.Round2P2P) :=
  match ex_u2 (3 - i)%N !! i with Some m => {[(3 - i)%N := m]} | None => ∅ end.
Definition ex_r3 i := Setup.Round3 ex_mac32 (ex_in2 i) (ex_in2u i) (ex_r2 i).1.
Definition ex_u3 i := ex_get ∅ (ex_r3 i).2.
Definition ex_in3 (i : ID) : gmap ID (option Setup.Round3P2P) :=
  match ex_u3 (3 - i)%N !! i with Some m => {[(3 - i)%N := m]} | None => ∅ end.
Definition ex_r4 i := Setup.Round4 ex_mac32 ex_xof ex_sum512 (ex_in3 i) (ex_r3 i).1.
Definition ex_session_ctx i :=
  ex_get (Session.mkContext [] 0 [] (Hagrid.mkTranscript "" []) ∅) (ex_r4 i).2.
Definition ex_party (i : ID) : execution (P:=list N) :=
  mkExecution i (replicate 400 (i + 1)%N) (ex_in1 i) (ex_in2 i) (ex_in2u i) (ex_in3 i)
    (ex_b1 i) (ex_b2 i) (ex_u2 i) (ex_u3 i) (ex_session_ctx i).

Lemma Session_setup_agreement_witness :
  agree (x_ctx (ex_party 1)) (x_ctx (ex_party 2)) ∧
  ∃ sub sub', sub_contexts ex_xof (x_ctx (ex_party 1)) [ex_two] = Ok sub ∧
    sub_contexts ex_xof (x_ctx (ex_party 2)) [ex_two] = Ok sub' ∧ agree sub sub'.
Proof.
  apply (Session_setup_agreement ex_mac32 ex_xof ex_sum512 ex_two (ex_party 1) (ex_party 2) [ex_two]).
  - eexists (ex_p0 1), _, _, _, _. split_and!; [reflexivity|vm_compute; reflexivity..].
  - eexists (ex_p0 2), _, _, _, _. split_and!; [reflexivity|vm_compute; reflexivity..].
  - done.
  - intros k Hk. assert (k = 1%N ∨ k = 2%N) as [-> | ->] by set_solver; split; vm_compute; reflexivity.
  - vm_compute; reflexivity.
  - vm_compute; reflexivity.
  - constructor; [set_solver|set_solver|vm_compute; lia|constructor].
Defined.
