(* ===== verification/Poly.v ===== *)
(** * Polynomials (pkg/base/polynomials/polynomial.go, polynomial_module.go)

    A [Polynomial] is its coefficient slice in ascending degree order; a
    [ModuleValuedPolynomial] has its coefficients in a module.  Trailing zero
    coefficients are kept by the operations and ignored by [Equal], so the
    development works up to the equivalence [≡] of polynomials, which every
    operation respects ([Proper] instances).  [Module Polynomial] and
    [Module ModuleValued] hold the operations; the theory shows that they are
    the operations of the polynomial ring: evaluation is a ring homomorphism,
    multiplication is convolution, [EuclideanDiv] terminates with the unique
    quotient and remainder, and a non-zero polynomial has no more roots than
    its degree. *)

From Stdlib Require Import ZArith Lia Ring Field Zmod.
From AAC_tactics Require Import AAC.
From S2P Require Import Prelude Algebra AlgebraUtils.

(** [x^n], the specification of powers. *)
Definition rpow `{RingElement R} (x : R) (n : nat) : R := rprod n (λ _, x).

(** The three loops of [Add]/[Op]: combined up to the shorter length, then a
    copy of the longer operand. *)
Definition zip_ext {A} `{!Inhabited A} (op : A → A → A) (p e : list A) : list A :=
  tabulate (max (length p) (length e)) (λ i,
    if i <? min (length p) (length e) then op (p !!! i) (e !!! i)
    else if length p <=? i then e !!! i
    else p !!! i).

(** The downward search [for i := n-1; i >= 0; i--] for a coefficient that is
    not zero; -1 when there is none. *)
Fixpoint degree_from {A} `{!Inhabited A} (isZero : A → bool) (p : list A) (n : nat) : Z :=
  match n with
  | 0 => (-1)%Z
  | S i => if negb (isZero (p !!! i)) then Z.of_nat i else degree_from isZero p i
  end.

(** The comparison loops of [Equal]. *)
Definition coeffs_equal {A} `{!Inhabited A, !EqDecision A} (isZero : A → bool)
    (p rhs : list A) : bool :=
  let lo := min (length p) (length rhs) in
  let hi := max (length p) (length rhs) in
  forallb (λ i, bool_decide (p !!! i = rhs !!! i)) (seq 0 lo) &&
  forallb (λ i, isZero (rhs !!! i)) (seq (length p) (hi - length p)) &&
  forallb (λ i, isZero (p !!! i)) (seq (length rhs) (hi - length rhs)).

(** The sampling loop [for i := 1; i < degree; i++] of the random
    constructors, threading the generator state. *)
Fixpoint random_coeffs {A P} (sampler : P → result (A * P)) (n : nat) (prng : P) :
    result (list A * P) :=
  match n with
  | 0 => Ok ([], prng)
  | S n =>
      '(c, prng) ← sampler prng;
      '(cs, prng) ← random_coeffs sampler n prng;
      Ok (c :: cs, prng)
  end.

(** The decoding loop of [FromBytes]: [numCoeffs] chunks of [coeffSize]. *)
Definition decode_coeffs {A} (from_bytes : list N → result A) (coeffSize numCoeffs : nat)
    (inBytes : list N) : result (list A) :=
  mapM (λ i, from_bytes (take coeffSize (drop (i * coeffSize) inBytes))) (seq 0 numCoeffs).

(** The part of [FromBytes] both structures share.  [ElementSize] is an [int],
    negative for structures of variable length: a size that is not positive
    makes the division or the allocation panic. *)
Definition parse_coeffs {A} (from_bytes : list N → result A) (coeffSize : Z)
    (inBytes : list N) : result (list A) :=
  let len := Z.of_nat (length inBytes) in
  if (coeffSize =? 0)%Z then Panic
  else if negb (Z.rem len coeffSize =? 0)%Z then Err ErrValidation
  else
    let numCoeffs := Z.quot len coeffSize in
    if (numCoeffs <? 0)%Z then Panic
    else decode_coeffs from_bytes (Z.to_nat coeffSize) (Z.to_nat numCoeffs) inBytes.

Module Polynomial.
Section polynomial.
Context `{RingElement R}.
Implicit Types (p e q rhs coeffs : list R) (pt s constantTerm : R).

(** [PolynomialRing.New]: [None] is a nil coefficient. *)
Definition New (coeffs : list (option R)) : result (list R) :=
  match coeffs with
  | [] => Ok [rzero]
  | _ => mapM (λ c, or_err c ErrValidation) coeffs
  end.

Definition Zero : list R := [rzero].
Definition One : list R := [rone].

(** [RandomPolynomialWithConstantTerm]; [None] is an exhausted fuel of the
    rejection sampling of the leading coefficient. *)
Definition RandomPolynomialWithConstantTerm {P} (fuel : nat) (sampler : P → result (R * P))
    (degree : Z) constantTerm (prng : P) : option (result (list R * P)) :=
  if (degree <? 0)%Z then Some (Err ErrValidation)
  else if (degree =? 0)%Z then Some (Ok ([constantTerm], prng))
  else
    match random_coeffs sampler (Z.to_nat degree - 1) prng with
    | Ok (cs, prng) =>
        match RandomNonIdentity fuel sampler prng with
        | Some (Ok (lead, prng)) => Some (Ok (constantTerm :: cs ++ [lead], prng))
        | Some (Err e) => Some (Err e)
        | Some Panic => Some Panic
        | None => None
        end
    | Err e => Some (Err e)
    | Panic => Some Panic
    end.

Definition RandomPolynomial {P} (fuel : nat) (sampler : P → result (R * P))
    (degree : Z) (prng : P) : option (result (list R * P)) :=
  match sampler prng with
  | Ok (constantTerm, prng) =>
      RandomPolynomialWithConstantTerm fuel sampler degree constantTerm prng
  | Err e => Some (Err e)
  | Panic => Some Panic
  end.

Definition FromBytes (from_bytes : list N → result R) (coeffSize : Z) (inBytes : list N) :
    result (list R) :=
  if length inBytes =? 0 then Err ErrValidation
  else
    coeffs ← parse_coeffs from_bytes coeffSize inBytes;
    New (Some <$> coeffs).

Definition Bytes (to_bytes : R → list N) p : list N := flat_map to_bytes p.

(** [Eval]: Horner's rule from the highest coefficient down. *)
Definition Eval p pt : R :=
  if length p =? 0 then rzero
  else foldl (λ out i, out * pt + p !!! i)%alg (p !!! (length p - 1))
         (rev (seq 0 (length p - 1))).

Definition Equal p rhs : bool := coeffs_equal is_zero p rhs.
Definition Add p e : list R := zip_ext radd p e.
Definition Op p e : list R := Add p e.
Definition Double p : list R := Add p p.
Definition Neg p : list R := rneg <$> p.
Definition Sub p e : list R := Add p (Neg e).

(** The schoolbook loops [coeffs[l+r] += p[l] * e[r]]. *)
Definition mul_coeffs p e : list R :=
  foldl (λ coeffs '(l, r), <[l + r := (coeffs !!! (l + r)%nat + p !!! l * e !!! r)%alg]> coeffs)
    (replicate (length p + length e - 1) rzero)
    (l ← seq 0 (length p); r ← seq 0 (length e); [(l, r)]).

(** [Mul] reads [p.coeffs[0]] for the coefficient ring. *)
Definition Mul p e : result (list R) :=
  if length p =? 0 then Panic else Ok (mul_coeffs p e).
Definition OtherOp p e : result (list R) := Mul p e.
Definition Square p : result (list R) := Mul p p.

Definition IsZero p : bool := forallb is_zero p.
Definition IsOpIdentity p : bool := IsZero p.
Definition IsOne p : bool :=
  match p with
  | [] => false
  | c :: p => forallb is_zero p && is_one c
  end.
Definition Degree p : Z := degree_from is_zero p (length p).
Definition IsConstant p : bool := (Degree p =? 0)%Z.
Definition IsMonic p : bool :=
  (0 <=? Degree p)%Z && is_one (p !!! Z.to_nat (Degree p)).
Definition LeadingCoefficient p : result R :=
  if (Degree p <? 0)%Z then (if length p =? 0 then Panic else Ok rzero)
  else Ok (p !!! Z.to_nat (Degree p)).
Definition ConstantTerm p : result R :=
  match p with [] => Panic | c :: _ => Ok c end.
Definition ScalarMul p s : list R := (λ c, c * s)%alg <$> p.
Definition ScalarOp p s : list R := ScalarMul p s.

Definition Derivative p : result (list R) :=
  if length p =? 0 then Panic
  else if (Degree p <=? 0)%Z then Ok [rzero]
  else Ok (tabulate (Z.to_nat (Degree p)) (λ i,
         ScalarMulNative (p !!! S i) (N.of_nat (S i)))).
End polynomial.

(** ** [EuclideanDiv] *)
Section division.
Context `{FieldElement F}.
Implicit Types (p q rem quot : list F).

(** [for i := 0; i <= degQ; i++ { rem[i+shift] -= q[i] * factor }] *)
Definition div_sub rem q (degQ shift : nat) (factor : F) : list F :=
  foldl (λ rem i, <[i + shift := (rem !!! (i + shift)%nat - q !!! i * factor)%alg]> rem)
    rem (seq 0 (S degQ)).

(** The outer loop [for degR >= degQ]; [None] when the fuel is exhausted. *)
Fixpoint div_loop (fuel : nat) q (degQ : Z) rem (degR : Z) quot :
    option (result (list F * list F * Z)) :=
  match fuel with
  | 0 => None
  | S fuel =>
      if (degR <? degQ)%Z then Some (Ok (quot, rem, degR))
      else
        match try_div (rem !!! Z.to_nat degR) (q !!! Z.to_nat degQ) with
        | Ok factor =>
            let shift := Z.to_nat (degR - degQ) in
            let rem := div_sub rem q (Z.to_nat degQ) shift factor in
            div_loop fuel q degQ rem (degree_from is_zero rem (Z.to_nat (degR + 1)))
              (<[shift := factor]> quot)
        | Err e => Some (Err e)
        | Panic => Some Panic
        end
  end.

(** [for len(quot) > 1 && quot[len-1].IsZero()]: drop trailing zeros. *)
Fixpoint trim_from quot (n : nat) : list F :=
  match n with
  | S (S k as n) => if is_zero (quot !!! n) then trim_from quot n else take (S n) quot
  | _ => take n quot
  end.

Definition EuclideanDiv p q : option (result (list F * list F)) :=
  if length p =? 0 then Some Panic
  else if IsZero q then Some (Err ErrDivisionByZero)
  else if IsZero p then Some (Ok ([rzero], [rzero]))
  else
    let degQ := Degree q in
    let degR := Degree p in
    if (degR <? degQ)%Z then Some (Ok ([rzero], p))
    else
      match div_loop (S (length p)) q degQ p degR
              (replicate (Z.to_nat (degR - degQ + 1)) rzero) with
      | Some (Ok (quot, rem, degR)) =>
          let rem := if (degR <? 0)%Z then [rzero] else take (Z.to_nat (degR + 1)) rem in
          Some (Ok (trim_from quot (length quot), rem))
      | Some (Err e) => Some (Err e)
      | Some Panic => Some Panic
      | None => None
      end.
End division.
End Polynomial.

Module ModuleValued.
Section module_valued.
Context `{ModuleElement R E}.
Implicit Types (p e rhs : list E) (poly : list R).

Definition isOpIdentity (x : E) : bool := bool_decide (x = gid).

(** [LiftPolynomial]: the coefficients as scalars of a base element. *)
Definition LiftPolynomial poly (baseElem : E) : result (list E) :=
  Ok ((λ c, baseElem • c)%alg <$> poly).

Definition OpIdentity : list E := [gid].
Definition New (coeffs : list (option E)) : result (list E) :=
  match coeffs with
  | [] => Ok OpIdentity
  | _ => mapM (λ c, or_err c ErrValidation) coeffs
  end.

Definition FromBytes (from_bytes : list N → result E) (coeffSize : Z) (bytes : list N) :
    result (list E) :=
  if length bytes =? 0 then Ok OpIdentity
  else
    coeffs ← parse_coeffs from_bytes coeffSize bytes;
    New (Some <$> coeffs).

Definition Bytes (to_bytes : E → list N) p : list N := flat_map to_bytes p.

Definition Eval p (pt : R) : result E :=
  if length p =? 0 then Panic
  else Ok (foldl (λ out i, out • pt ⊕ p !!! i)%alg (p !!! (length p - 1))
             (rev (seq 0 (length p - 1)))).

Definition Equal p rhs : bool := coeffs_equal isOpIdentity p rhs.
Definition Op p e : list E := zip_ext gop p e.
Definition OpInv p : list E := ginv <$> p.
Definition OpElement p (e : E) : result (list E) :=
  match p with [] => Panic | c :: p => Ok (gop c e :: p) end.
Definition IsOpIdentity p : bool := forallb isOpIdentity p.
Definition ScalarOp p (actor : R) : list E := (λ c, c • actor)%alg <$> p.
Definition Degree p : Z := degree_from isOpIdentity p (length p).
Definition IsConstant p : bool := (Degree p <=? 0)%Z.
Definition LeadingCoefficient p : result E :=
  if (Degree p <? 0)%Z then (if length p =? 0 then Panic else Ok gid)
  else Ok (p !!! Z.to_nat (Degree p)).

(** [PolynomialOp]: the product with a polynomial of scalars. *)
Definition PolynomialOp p poly : list E :=
  if (length p =? 0) || (length poly =? 0) then p
  else foldl (λ coeffs '(i, j), <[i + j := (coeffs !!! (i + j)%nat ⊕ (p !!! i) • (poly !!! j))%alg]> coeffs)
    (replicate (length p + length poly - 1) gid)
    (i ← seq 0 (length p); j ← seq 0 (length poly); [(i, j)]).

Definition Derivative p : result (list E) :=
  if length p =? 0 then Panic
  else if length p <=? 1 then Ok [gid]
  else Ok (tabulate (length p - 1) (λ i, ScalarMulNative (p !!! S i) (N.of_nat (S i)))).
End module_valued.
End ModuleValued.

(** ** Coefficients

    [p !!! i] is the coefficient of degree [i]: zero beyond the slice. *)

Section coefficients.
Context `{GroupElement A}.
Implicit Types (p q e : list A) (i k : nat).

(** Equality up to trailing zeros. *)
Definition peq p q : Prop := ∀ i, p !!! i = q !!! i.
#[export] Instance peq_equivalence : Equivalence peq.
Proof.
  split; [by intros p i|by intros p q Hpq i|]. intros p q r Hpq Hqr i. by rewrite Hpq.
Qed.

Lemma coef_ge p i : length p ≤ i → p !!! i = gid.
Proof. intros Hi. rewrite !list_lookup_total_alt. by rewrite lookup_ge_None_2. Qed.

Lemma coef_ne_gid p i : p !!! i ≠ gid → i < length p.
Proof. intros Hne. destruct (decide (i < length p)); [done|]. by rewrite coef_ge in Hne by lia. Qed.

Lemma coef_fmap {B} `{GroupElement B} (f : A → B) p i :
  f gid = gid → (f <$> p) !!! i = f (p !!! i).
Proof.
  intros Hf. rewrite !list_lookup_total_alt. rewrite list_lookup_fmap.
  by destruct (p !! i).
Qed.

Lemma coef_replicate k i : replicate k gid !!! i = (gid : A).
Proof.
  destruct (decide (i < k)); [by rewrite lookup_total_replicate_2|].
  apply coef_ge. rewrite length_replicate. lia.
Qed.

Lemma coef_take p k i : take k p !!! i = if decide (i < k) then p !!! i else gid.
Proof.
  rewrite !list_lookup_total_alt. case_decide.
  - by rewrite lookup_take_lt.
  - by rewrite lookup_take_ge by lia.
Qed.

Lemma zip_ext_coef p e i : zip_ext gop p e !!! i = gop (p !!! i) (e !!! i).
Proof.
  unfold zip_ext. destruct (decide (i < max (length p) (length e))).
  - rewrite tabulate_lookup_total by done.
    destruct (Nat.ltb_spec i (min (length p) (length e))); [done|].
    destruct (Nat.leb_spec (length p) i).
    + by rewrite (coef_ge p i), gop_id_l by lia.
    + by rewrite (coef_ge e i), gop_gid_r by lia.
  - rewrite coef_ge by (rewrite length_tabulate; lia).
    by rewrite (coef_ge p i), (coef_ge e i), gop_id_l by lia.
Qed.

#[export] Instance zip_ext_proper : Proper (peq ==> peq ==> peq) (zip_ext gop).
Proof. intros p p' Hp e e' He i. by rewrite !zip_ext_coef, Hp, He. Qed.

Context (isZero : A → bool) (isZero_spec : ∀ x, isZero x = true ↔ x = gid).

Lemma degree_from_spec p k :
  (degree_from isZero p k = (-1)%Z ∧ ∀ i, i < k → p !!! i = gid) ∨
  (∃ d, degree_from isZero p k = Z.of_nat d ∧ d < k ∧ p !!! d ≠ gid ∧
        ∀ i, d < i → i < k → p !!! i = gid).
Proof.
  induction k as [|k IH]; cbn [degree_from]; [left; split; [done|lia]|].
  destruct (isZero (p !!! k)) eqn:E; cbn [negb].
  - apply isZero_spec in E. destruct IH as [[-> Hz]|(d & -> & Hd & Hne & Hz)].
    + left. split; [done|]. intros i Hi. destruct (decide (i = k)) as [->|]; [done|].
      apply Hz. lia.
    + right. exists d. repeat split; [lia|done|]. intros i ? ?.
      destruct (decide (i = k)) as [->|]; [done|]. apply Hz; lia.
  - right. exists k. repeat split; [lia| |lia]. intros E'.
    apply isZero_spec in E'. congruence.
Qed.

Lemma degree_from_ge p k : (-1 ≤ degree_from isZero p k < Z.of_nat k)%Z ∨ k = 0.
Proof. destruct (degree_from_spec p k) as [[-> _]|(d & -> & ? & _)]; lia. Qed.

Lemma degree_from_unique p k d :
  d < k → p !!! d ≠ gid → (∀ i, d < i → i < k → p !!! i = gid) →
  degree_from isZero p k = Z.of_nat d.
Proof.
  intros Hd Hne Hz. destruct (degree_from_spec p k) as [[_ Ha]|(d' & -> & Hd' & Hne' & Hz')].
  - by rewrite Ha in Hne.
  - destruct (decide (d < d')); [by rewrite Hz in Hne'|].
    destruct (decide (d' < d)); [by rewrite Hz' in Hne|]. lia.
Qed.

Lemma degree_from_zero p k :
  (∀ i, i < k → p !!! i = gid) ↔ degree_from isZero p k = (-1)%Z.
Proof.
  destruct (degree_from_spec p k) as [[-> Ha]|(d & -> & Hd & Hne & _)]; split; try done.
  - intros Hz. by rewrite Hz in Hne.
  - lia.
Qed.

Lemma degree_from_proper p q :
  peq p q → degree_from isZero p (length p) = degree_from isZero q (length q).
Proof.
  intros Hpq. destruct (degree_from_spec q (length q)) as [[-> Ha]|(d & -> & Hd & Hne & Hz)].
  - apply degree_from_zero. intros i Hi. rewrite Hpq.
    destruct (decide (i < length q)); [auto|apply coef_ge; lia].
  - rewrite <-Hpq in Hne. apply degree_from_unique; [by apply coef_ne_gid|done|].
    intros i ? ?. rewrite Hpq. destruct (decide (i < length q)); [auto|apply coef_ge; lia].
Qed.

Lemma coeffs_equal_spec p q : coeffs_equal isZero p q = true ↔ peq p q.
Proof.
  unfold coeffs_equal. rewrite !andb_true_iff, !forallb_forall.
  split.
  - intros [[Hlo Hp] Hq] i.
    destruct (decide (i < min (length p) (length q))) as [Hi|Hi].
    { specialize (Hlo i). rewrite in_seq in Hlo.
      by apply bool_decide_eq_true in Hlo; [|lia]. }
    destruct (decide (i < max (length p) (length q))) as [Hi'|Hi'].
    + destruct (decide (length p ≤ i)).
      * rewrite (coef_ge p) by done. symmetry. apply isZero_spec, Hp, in_seq. lia.
      * rewrite (coef_ge q) by lia. apply isZero_spec, Hq, in_seq. lia.
    + rewrite !coef_ge by lia. done.
  - intros Hpq. repeat split.
    + intros i Hi. apply bool_decide_eq_true, Hpq.
    + intros i Hi%in_seq. apply isZero_spec. rewrite <-Hpq. apply coef_ge. lia.
    + intros i Hi%in_seq. apply isZero_spec. rewrite Hpq. apply coef_ge. lia.
Qed.
End coefficients.

Infix "≐" := peq (at level 70) : alg_scope.

(** ** Powers *)

Section rpow.
Context `{RingElement R}.
Local Open Scope alg_scope.
Add Ring rpow_ring : (ring_laws (R:=R)).
Implicit Types (x y : R) (i j n : nat).

Lemma rpow_0 x : rpow x 0%nat = 1.
Proof. done. Qed.
Lemma rpow_S x n : rpow x (S n) = rpow x n * x.
Proof. done. Qed.
Lemma rpow_add x i j : rpow x (i + j)%nat = rpow x i * rpow x j.
Proof.
  induction j as [|j IH].
  - rewrite Nat.add_0_r, rpow_0. ring.
  - rewrite Nat.add_succ_r, !rpow_S, IH. ring.
Qed.
Lemma rpow_of_0 n : n ≠ 0%nat → rpow 0 n = (0 : R).
Proof. destruct n; [done|]. intros _. rewrite rpow_S. ring. Qed.
Lemma rpow_of_1 n : rpow 1 n = (1 : R).
Proof. induction n as [|n IH]; [done|]. rewrite rpow_S, IH. ring. Qed.
End rpow.

(** ** Evaluation *)

Section evaluation.
Context `{ModuleElement R E}.
Local Open Scope alg_scope.
Add Ring evaluation_ring : (ring_laws (R:=R)).
Implicit Types (p q e : list E) (poly : list R) (x : R) (i j k : nat).

(** The value of a polynomial: the sum of its monomials. *)
Definition poly_val p x : E := gsum (length p) (λ i, (p !!! i) • rpow x i).

Lemma poly_val_long p x k :
  (length p ≤ k)%nat → gsum k (λ i, (p !!! i) • rpow x i) = poly_val p x.
Proof.
  intros Hk. unfold poly_val. replace k with (length p + (k - length p))%nat by lia.
  rewrite (big_split gop) by auto using gop_id_r, gop_assoc.
  rewrite (big_id_ext gop gid) with (n := (k - length p)%nat); [apply gop_id_r|apply gop_id_l|].
  intros i Hi. rewrite coef_ge by lia. apply scalar_op_id.
Qed.

#[export] Instance poly_val_proper : Proper (peq ==> eq ==> eq) poly_val.
Proof.
  intros p q Hpq x ? <-.
  rewrite <-(poly_val_long p x (max (length p) (length q))) by lia.
  rewrite <-(poly_val_long q x (max (length p) (length q))) by lia.
  apply big_ext. intros i _. by rewrite Hpq.
Qed.

Lemma horner_spec p x (acc : E) k :
  foldl (λ out i, out • x ⊕ p !!! i) acc (rev (seq 0 k))
  = acc • rpow x k ⊕ gsum k (λ i, (p !!! i) • rpow x i).
Proof.
  revert acc. induction k as [|k IH]; intros acc.
  { cbn. by rewrite scalar_op_1, gop_id_r. }
  rewrite seq_S, rev_app_distr. cbn [rev app foldl Nat.add]. rewrite IH. cbn [big].
  rewrite scalar_op_add_l, <-scalar_op_mul, rpow_S, (rmul_comm x).
  aac_reflexivity.
Qed.

Lemma horner_val p x :
  p ≠ [] →
  foldl (λ out i, out • x ⊕ p !!! i) (p !!! (length p - 1)%nat) (rev (seq 0 (length p - 1)))
  = poly_val p x.
Proof.
  destruct p as [|c p]; [done|]. intros _. unfold poly_val. cbn [length].
  rewrite Nat.sub_succ, Nat.sub_0_r. by rewrite horner_spec, gop_comm.
Qed.

Lemma poly_val_zip_ext p q x :
  poly_val (zip_ext gop p q) x = poly_val p x ⊕ poly_val q x.
Proof.
  rewrite <-(poly_val_long p x (max (length p) (length q))) by lia.
  rewrite <-(poly_val_long q x (max (length p) (length q))) by lia.
  rewrite <-gsum_op. unfold poly_val. unfold zip_ext at 1. rewrite length_tabulate.
  apply big_ext. intros i _. rewrite zip_ext_coef. apply scalar_op_add_l.
Qed.

Lemma poly_val_scalar p x (s : R) : poly_val ((λ c, c • s) <$> p) x = poly_val p x • s.
Proof.
  unfold poly_val. rewrite length_fmap, gsum_scalar_l. apply big_ext. intros i _.
  rewrite (coef_fmap (λ c, c • s)) by apply scalar_op_id.
  rewrite <-!scalar_op_mul. f_equal. apply rmul_comm.
Qed.

Lemma poly_val_0 p : poly_val p 0 = p !!! 0%nat.
Proof.
  destruct p as [|c p]; [done|]. unfold poly_val.
  rewrite (big_single gop gid) with (k := 0%nat); try apply gop_id_l; try apply gop_id_r.
  - cbn. apply scalar_op_1.
  - cbn. lia.
  - intros i _ Hi. rewrite rpow_of_0 by done. apply scalar_op_0.
Qed.

(** *** The schoolbook product loops *)

Definition conv p poly k : E :=
  gsum (length p) (λ i, gsum (length poly) (λ j,
    if decide ((i + j)%nat = k) then (p !!! i) • (poly !!! j) else gid)).

Lemma conv_inner c (f : nat → E) i n :
  (i + n ≤ length c)%nat →
  let c' := foldl (λ c j, <[(i + j)%nat := c !!! (i + j)%nat ⊕ f j]> c) c (seq 0 n) in
  length c' = length c ∧
  ∀ k, c' !!! k = c !!! k ⊕ gsum n (λ j, if decide ((i + j)%nat = k) then f j else gid).
Proof.
  induction n as [|n IH]; intros Hle; cbn zeta.
  { split; [done|]. intros k. cbn. by rewrite gop_id_r. }
  destruct IH as [IHl IH]; [lia|]. rewrite seq_S, foldl_app. cbn [foldl Nat.add].
  set (c' := foldl _ c (seq 0 n)) in *. split; [by rewrite length_insert|].
  intros k. cbn [big]. destruct (decide ((i + n)%nat = k)) as [<-|Hne].
  - rewrite list_lookup_total_insert_eq by lia. rewrite IH. by rewrite gop_assoc.
  - rewrite list_lookup_total_insert_ne by done. rewrite IH. by rewrite gop_id_r.
Qed.

Lemma conv_outer c p poly n :
  (n + length poly ≤ S (length c))%nat →
  let c' := foldl (λ c i, foldl (λ c j,
      <[(i + j)%nat := c !!! (i + j)%nat ⊕ (p !!! i) • (poly !!! j)]> c) c
      (seq 0 (length poly))) c (seq 0 n) in
  length c' = length c ∧
  ∀ k, c' !!! k = c !!! k ⊕ gsum n (λ i, gsum (length poly) (λ j,
    if decide ((i + j)%nat = k) then (p !!! i) • (poly !!! j) else gid)).
Proof.
  induction n as [|n IH]; intros Hle; cbn zeta.
  { split; [done|]. intros k. cbn. by rewrite gop_id_r. }
  destruct IH as [IHl IH]; [lia|]. rewrite seq_S, foldl_app. cbn [foldl Nat.add].
  set (c' := foldl _ c (seq 0 n)) in *.
  destruct (conv_inner c' (λ j, (p !!! n) • (poly !!! j)) n (length poly)) as [Hl Hc]; [lia|].
  split; [by rewrite Hl|]. intros k. cbn [big]. by rewrite Hc, IH, gop_assoc.
Qed.

(** The product loop computes the convolution of the coefficients. *)
Definition product_loop p poly : list E :=
  foldl (λ coeffs '(i, j),
      <[(i + j)%nat := coeffs !!! (i + j)%nat ⊕ (p !!! i) • (poly !!! j)]> coeffs)
    (replicate (length p + length poly - 1) gid)
    (i ← seq 0 (length p); j ← seq 0 (length poly); [(i, j)]).

Lemma product_loop_spec p poly :
  p ≠ [] →
  length (product_loop p poly) = (length p + length poly - 1)%nat ∧
  ∀ k, product_loop p poly !!! k = conv p poly k.
Proof.
  intros Hp. unfold product_loop. rewrite foldl_bind.
  set (c0 := replicate _ gid).
  destruct (conv_outer c0 p poly (length p)) as [Hl Hc].
  { unfold c0. rewrite length_replicate. destruct p; [done|]. cbn. lia. }
  match goal with |- length ?l = _ ∧ _ => replace l with
    (foldl (λ c i, foldl (λ c j,
      <[(i + j)%nat := c !!! (i + j)%nat ⊕ (p !!! i) • (poly !!! j)]> c) c
      (seq 0 (length poly))) c0 (seq 0 (length p))) end.
  - split; [rewrite Hl; unfold c0; apply length_replicate|].
    intros k. rewrite Hc. unfold c0. by rewrite coef_replicate, gop_id_l.
  - clear. generalize c0. induction (seq 0 (length p)) as [|i l IH]; intros c; [done|].
    cbn [foldl]. rewrite IH. f_equal. generalize (seq 0 (length poly)).
    clear. intros l. revert c. induction l as [|j l IH]; intros c; [done|].
    cbn [mbind list_bind foldl app]. apply IH.
Qed.

Lemma product_loop_val p poly x :
  p ≠ [] → poly_val (product_loop p poly) x
  = poly_val p x • rsum (length poly) (λ j, (poly !!! j) * rpow x j).
Proof.
  intros Hp. destruct (product_loop_spec p poly Hp) as [Hl Hc].
  unfold poly_val. rewrite Hl.
  transitivity (gsum (length p) (λ i, gsum (length poly) (λ j,
    ((p !!! i) • (poly !!! j)) • rpow x (i + j)%nat))).
  - transitivity (gsum (length p + length poly - 1) (λ k,
      gsum (length p) (λ i, gsum (length poly) (λ j,
        (if decide ((i + j)%nat = k) then (p !!! i) • (poly !!! j) else gid) • rpow x k)))).
    { apply big_ext. intros k _. rewrite Hc. unfold conv. rewrite gsum_scalar_l.
      apply big_ext. intros i _. apply gsum_scalar_l. }
    rewrite gsum_swap. apply big_ext. intros i Hi.
    rewrite gsum_swap. apply big_ext. intros j Hj.
    rewrite (big_single gop gid) with (k := (i + j)%nat); try apply gop_id_l; try apply gop_id_r.
    + by rewrite decide_True.
    + lia.
    + intros k _ Hk. rewrite decide_False by done. apply scalar_op_id.
  - rewrite gsum_scalar_l. apply big_ext. intros i _. rewrite gsum_scalar.
    apply big_ext. intros j _. rewrite <-!scalar_op_mul. f_equal.
    rewrite rpow_add. ring.
Qed.
End evaluation.

(** ** The operations of [Polynomial] *)

Section polynomial_theory.
Context `{RingElement R}.
Local Open Scope alg_scope.
Add Ring polynomial_theory_ring : (ring_laws (R:=R)).
Implicit Types (p q e : list R) (x s : R) (i j k : nat).
Import Polynomial.

Lemma Eval_val p x : Eval p x = poly_val p x.
Proof.
  unfold Eval. destruct (Nat.eqb_spec (length p) 0) as [|Hp]; [by destruct p|].
  exact (horner_val p x ltac:(by intros ->)).
Qed.

Lemma Eval_rsum p x : Eval p x = rsum (length p) (λ i, p !!! i * rpow x i).
Proof. exact (Eval_val p x). Qed.

#[export] Instance Eval_proper : Proper (peq ==> eq ==> eq) Eval.
Proof. intros p q Hpq x y <-. rewrite !Eval_val. by apply poly_val_proper. Qed.

Lemma is_zero_gid x : is_zero x = true ↔ x = gid.
Proof. exact (is_zero_true x). Qed.
Lemma coef_ge_0 p i : (length p ≤ i)%nat → p !!! i = 0.
Proof. exact (coef_ge (A:=R) p i). Qed.
Lemma coef_ne_0 p i : p !!! i ≠ 0 → (i < length p)%nat.
Proof. exact (coef_ne_gid (A:=R) p i). Qed.
Lemma coef_take_0 p k i : take k p !!! i = if decide (i < k)%nat then p !!! i else 0.
Proof. exact (coef_take (A:=R) p k i). Qed.
Lemma coef_replicate_0 k i : replicate k 0 !!! i = (0 : R).
Proof. exact (coef_replicate (A:=R) k i). Qed.
Lemma Add_coef p q i : Add p q !!! i = p !!! i + q !!! i.
Proof. exact (zip_ext_coef (A:=R) p q i). Qed.
Lemma Neg_coef p i : Neg p !!! i = - (p !!! i).
Proof. unfold Neg. apply (coef_fmap rneg). cbn. ring. Qed.
Lemma Sub_coef p q i : Sub p q !!! i = p !!! i - q !!! i.
Proof. unfold Sub. rewrite Add_coef, Neg_coef. ring. Qed.
Lemma ScalarMul_coef p s i : ScalarMul p s !!! i = p !!! i * s.
Proof. unfold ScalarMul. apply (coef_fmap (λ c, c * s)). cbn. ring. Qed.

#[export] Instance Add_proper : Proper (peq ==> peq ==> peq) Add.
Proof. exact (zip_ext_proper (A:=R)). Qed.
#[export] Instance Neg_proper : Proper (peq ==> peq) Neg.
Proof. intros p q Hpq i. by rewrite !Neg_coef, Hpq. Qed.
#[export] Instance Sub_proper : Proper (peq ==> peq ==> peq) Sub.
Proof. intros p p' Hp q q' Hq i. by rewrite !Sub_coef, Hp, Hq. Qed.
#[export] Instance ScalarMul_proper : Proper (peq ==> eq ==> peq) ScalarMul.
Proof. intros p q Hpq s ? <- i. by rewrite !ScalarMul_coef, Hpq. Qed.

Lemma Eval_Add p q x : Eval (Add p q) x = Eval p x + Eval q x.
Proof. rewrite !Eval_val. exact (poly_val_zip_ext p q x). Qed.
Lemma Eval_ScalarMul p s x : Eval (ScalarMul p s) x = Eval p x * s.
Proof. rewrite !Eval_val. exact (poly_val_scalar p x s). Qed.
Lemma Eval_Neg p x : Eval (Neg p) x = - Eval p x.
Proof.
  assert (Neg p ≐ ScalarMul p (-(1))) as ->.
  { intros i. rewrite Neg_coef, ScalarMul_coef. ring. }
  rewrite Eval_ScalarMul. ring.
Qed.
Lemma Eval_Sub p q x : Eval (Sub p q) x = Eval p x - Eval q x.
Proof. unfold Sub. rewrite Eval_Add, Eval_Neg. ring. Qed.

Lemma Eval_cons c p x : Eval (c :: p) x = c + Eval p x * x.
Proof.
  rewrite !Eval_val. unfold poly_val. cbn [length].
  rewrite (big_head gop) by auto using gop_id_l, gop_id_r, gop_assoc.
  change (c * 1 + rsum (length p) (λ i, p !!! i * (rpow x i * x))
    = c + rsum (length p) (λ i, p !!! i * rpow x i) * x).
  rewrite rsum_mul_r, rmul_1_r. f_equal. apply rsum_ext. intros i _. ring.
Qed.

Lemma Eval_const c x : Eval [c] x = c.
Proof. done. Qed.

Lemma Eval_0 p : Eval p 0 = p !!! 0%nat.
Proof. rewrite Eval_val. exact (poly_val_0 p). Qed.

Lemma mul_coeffs_spec p q :
  p ≠ [] →
  length (mul_coeffs p q) = (length p + length q - 1)%nat ∧
  ∀ k, mul_coeffs p q !!! k = conv p q k.
Proof. exact (product_loop_spec p q). Qed.

Lemma Eval_mul_coeffs p q x :
  p ≠ [] → Eval (mul_coeffs p q) x = Eval p x * Eval q x.
Proof. intros Hp. rewrite !Eval_val. exact (product_loop_val p q x Hp). Qed.

Lemma Equal_peq p q : Equal p q = true ↔ p ≐ q.
Proof. exact (coeffs_equal_spec (A:=R) is_zero is_zero_gid p q). Qed.

Lemma IsZero_spec p : IsZero p = true ↔ ∀ i, p !!! i = 0.
Proof.
  unfold IsZero. rewrite forallb_forall. split.
  - intros Hz i. destruct (decide (i < length p)%nat).
    + apply is_zero_true, Hz, list_elem_of_In, list_elem_of_lookup_total_2. done.
    + apply coef_ge_0. lia.
  - intros Hz c [i [_ <-]]%list_elem_of_In%list_elem_of_lookup_total_1.
    apply is_zero_true, Hz.
Qed.

Lemma Degree_spec p :
  (Degree p = (-1)%Z ∧ IsZero p = true) ∨
  (∃ d, Degree p = Z.of_nat d ∧ (d < length p)%nat ∧ p !!! d ≠ 0 ∧ IsZero p = false ∧
        ∀ i, (d < i)%nat → p !!! i = 0).
Proof.
  destruct (degree_from_spec (A:=R) is_zero is_zero_gid p (length p))
    as [[Hd Hz]|(d & Hd & Hlt & Hne & Hz)].
  - left. split; [done|]. apply IsZero_spec. intros i.
    destruct (decide (i < length p)%nat); [by apply Hz|by apply coef_ge_0; lia].
  - right. exists d. repeat split; try done.
    + destruct (IsZero p) eqn:E; [|done]. by rewrite IsZero_spec in E; rewrite E in Hne.
    + intros i Hi. destruct (decide (i < length p)%nat); [by apply Hz|by apply coef_ge_0; lia].
Qed.

Lemma Degree_zero_iff p : Degree p = (-1)%Z ↔ IsZero p = true.
Proof. destruct (Degree_spec p) as [[-> ->]|(d & -> & _ & _ & -> & _)]; [done|]. split; [lia|done]. Qed.

Lemma Degree_eq p d :
  p !!! d ≠ 0 → (∀ i, (d < i)%nat → p !!! i = 0) → Degree p = Z.of_nat d.
Proof.
  intros Hne Hz. apply (degree_from_unique (A:=R) is_zero is_zero_gid p (length p)); [|done|auto].
  by apply coef_ne_0.
Qed.

#[export] Instance Degree_proper : Proper (peq ==> eq) Degree.
Proof. intros p q. exact (degree_from_proper (A:=R) is_zero is_zero_gid p q). Qed.

(** A slice is its evaluation truncated to its degree. *)
Lemma take_degree p : take (Z.to_nat (Degree p + 1)) p ≐ p.
Proof.
  intros i. rewrite coef_take_0. case_decide; [done|].
  destruct (Degree_spec p) as [[Hd Hz]|(d & Hd & _ & _ & _ & Hz)].
  - symmetry. by apply IsZero_spec.
  - symmetry. apply Hz. lia.
Qed.
End polynomial_theory.

(** ** Roots

    Synthetic division by [X - a]; a polynomial with as many distinct roots
    as coefficients is zero. *)

Section roots.
Context `{FieldElement F}.
Local Open Scope alg_scope.
Add Ring roots_ring : (ring_laws (R:=F)).
Implicit Types (p q : list F) (x a : F) (i k : nat) (xs : list F).
Import Polynomial.

Fixpoint synth p a : list F :=
  match p with
  | [] => []
  | _ :: p => match p with [] => [] | _ => Eval p a :: synth p a end
  end.

Lemma synth_length p a : length (synth p a) = (length p - 1)%nat.
Proof.
  induction p as [|c p IH]; [done|]. destruct p as [|d p]; [done|].
  change (synth (c :: d :: p) a) with (Eval (d :: p) a :: synth (d :: p) a).
  cbn [length] in *. rewrite IH. lia.
Qed.

Lemma synth_eval p a x : Eval p x = (x - a) * Eval (synth p a) x + Eval p a.
Proof.
  induction p as [|c p IH]; [cbn; ring|]. destruct p as [|d p].
  { rewrite !Eval_const. cbn. ring. }
  change (synth (c :: d :: p) a) with (Eval (d :: p) a :: synth (d :: p) a).
  rewrite !(Eval_cons c), (Eval_cons (Eval (d :: p) a)), IH. ring.
Qed.

Lemma synth_zero p a :
  (∀ i, synth p a !!! i = 0) → Eval p a = 0 → ∀ i, p !!! i = 0.
Proof.
  induction p as [|c p IH]; intros Hs Hv i.
  { apply coef_ge_0. cbn. lia. }
  assert (∀ j, p !!! j = 0) as Hp.
  { destruct p as [|d p]; [intros j; apply coef_ge_0; cbn; lia|].
    change (synth (c :: d :: p) a) with (Eval (d :: p) a :: synth (d :: p) a) in Hs.
    apply IH; [|apply (Hs 0%nat)]. intros j. apply (Hs (S j)). }
  destruct i as [|i]; [|apply Hp]. rewrite Eval_cons in Hv.
  assert (Eval p a = 0) as E.
  { rewrite Eval_val. unfold poly_val. apply rsum_0_ext. intros j _. cbn.
    rewrite Hp. ring. }
  rewrite E in Hv. cbn. etransitivity; [|exact Hv]. ring.
Qed.

Lemma roots_zero xs p :
  NoDup xs → (∀ x, x ∈ xs → Eval p x = 0) → (length p ≤ length xs)%nat →
  ∀ i, p !!! i = 0.
Proof.
  revert p. induction xs as [|a xs IH]; intros p Hnd Hr Hlen i.
  { destruct p; [|cbn in Hlen; lia]. apply coef_ge_0. cbn. lia. }
  apply NoDup_cons in Hnd as [Ha Hnd]. cbn [length] in Hlen.
  apply (synth_zero p a); [|apply Hr; by constructor].
  apply IH; [done| |rewrite synth_length; lia].
  intros x Hx. specialize (Hr x ltac:(by constructor)) as Hx0.
  rewrite (synth_eval p a), (Hr a) in Hx0 by constructor.
  assert ((x - a) * Eval (synth p a) x = 0) as Hm.
  { etransitivity; [|exact Hx0]. ring. }
  apply rmul_eq_0 in Hm as [Hm|]; [|done].
  apply rsub_0 in Hm as ->. done.
Qed.

(** Two polynomials that agree on more points than they have coefficients are
    equal. *)
Lemma agree_peq xs p q :
  NoDup xs → (∀ x, x ∈ xs → Eval p x = Eval q x) →
  (length p ≤ length xs)%nat → (length q ≤ length xs)%nat → p ≐ q.
Proof.
  intros Hnd Hag Hp Hq i. apply rsub_0. rewrite <-Sub_coef. revert i.
  apply (roots_zero xs); [done| |].
  - intros x Hx. rewrite Eval_Sub, Hag by done. ring.
  - unfold Sub, Add, zip_ext, Neg. rewrite length_tabulate, length_fmap. lia.
Qed.
End roots.

(** ** Euclidean division *)

Section division_theory.
Context `{FieldElement F}.
Local Open Scope alg_scope.
Add Ring division_theory_ring : (ring_laws (R:=F)).
Add Field division_theory_field : (field_laws (F:=F)).
Implicit Types (p q rem quot : list F) (f : F) (i j k shift : nat).
Import Polynomial.

(** Convolution over any bounds that cover both operands. *)
Definition rconv p q (a b k : nat) : F :=
  rsum a (λ i, rsum b (λ j, if decide ((i + j)%nat = k) then p !!! i * q !!! j else 0)).

Lemma rconv_conv p q k : conv p q k = rconv p q (length p) (length q) k.
Proof. done. Qed.

Lemma rsum_long (g : nat → F) a b :
  (a ≤ b)%nat → (∀ i, (a ≤ i)%nat → g i = 0) → rsum b g = rsum a g.
Proof.
  intros Hab Hg. replace b with (a + (b - a))%nat by lia. rewrite rsum_split.
  rewrite (rsum_0_ext (b - a)) by (intros; apply Hg; lia). ring.
Qed.

Lemma rconv_long p q a b k :
  (length p ≤ a)%nat → (length q ≤ b)%nat → rconv p q a b k = conv p q k.
Proof.
  intros Ha Hb. rewrite rconv_conv. unfold rconv. rewrite (rsum_long _ (length p) a Ha).
  - apply rsum_ext. intros i _. apply rsum_long; [done|]. intros j Hj.
    rewrite (coef_ge_0 q j) by done. case_decide; ring.
  - intros i Hi. apply rsum_0_ext. intros j _. rewrite (coef_ge_0 p i) by done.
    case_decide; ring.
Qed.

#[export] Instance conv_proper : Proper (peq ==> peq ==> eq ==> eq) (conv (R:=F) (E:=F)).
Proof.
  intros p p' Hp q q' Hq k ? <-.
  rewrite <-(rconv_long p q (max (length p) (length p')) (max (length q) (length q'))) by lia.
  rewrite <-(rconv_long p' q' (max (length p) (length p')) (max (length q) (length q'))) by lia.
  apply rsum_ext. intros i _. apply rsum_ext. intros j _.
  by rewrite (Hp i), (Hq j).
Qed.

Lemma conv_single p q a b k :
  (∀ i j, (i + j)%nat = k → (i ≠ a ∨ j ≠ b) → p !!! i * q !!! j = 0) →
  (a + b)%nat = k → conv p q k = p !!! a * q !!! b.
Proof.
  intros Hz Hab.
  rewrite <-(rconv_long p q (length p + S a)%nat (length q + S b)%nat) by lia. unfold rconv.
  rewrite (rsum_single _ a); [rewrite (rsum_single _ b)| |].
  - by rewrite decide_True.
  - lia.
  - intros j _ Hj. case_decide; [|done]. apply Hz; [done|by right].
  - lia.
  - intros i _ Hi. apply rsum_0_ext. intros j _. case_decide; [|done].
    apply Hz; [done|by left].
Qed.

Lemma conv_Sub p q quot k : conv q (Sub p quot) k = conv q p k - conv q quot k.
Proof.
  set (b := (length p + length quot + length (Sub p quot))%nat).
  rewrite <-(rconv_long q (Sub p quot) (length q) b) by lia.
  rewrite <-(rconv_long q p (length q) b), <-(rconv_long q quot (length q) b) by lia.
  unfold rconv. rewrite <-rsum_sub. apply rsum_ext. intros i _. rewrite <-rsum_sub.
  apply rsum_ext. intros j _. rewrite Sub_coef. case_decide; ring.
Qed.

(** The monomial [f * X^shift]. *)
Definition mono shift f : list F := replicate shift 0 ++ [f].

Lemma mono_coef shift f j : mono shift f !!! j = if decide (j = shift) then f else 0.
Proof.
  unfold mono. destruct (decide (j < shift)%nat).
  - rewrite lookup_total_app_l by (by rewrite length_replicate).
    rewrite decide_False by lia. by apply lookup_total_replicate_2.
  - destruct (decide (j = shift)) as [->|].
    + rewrite lookup_total_app_r by (by rewrite length_replicate).
      by rewrite length_replicate, Nat.sub_diag.
    + apply coef_ge_0. rewrite length_app, length_replicate. cbn. lia.
Qed.

Lemma conv_mono q shift f k :
  conv q (mono shift f) k = if decide (shift ≤ k)%nat then q !!! (k - shift)%nat * f else 0.
Proof.
  case_decide as Hk.
  - rewrite (conv_single q _ (k - shift) shift k); [|intros i j Hij Hne|lia].
    + by rewrite mono_coef, decide_True.
    + rewrite mono_coef, decide_False by lia. ring.
  - rewrite rconv_conv. apply rsum_0_ext. intros i _. apply rsum_0_ext. intros j _.
    case_decide; [|done]. rewrite mono_coef, decide_False by lia. ring.
Qed.

Lemma conv_insert q quot shift f k :
  (shift < length quot)%nat → quot !!! shift = 0 →
  conv q (<[shift := f]> quot) k
  = conv q quot k + (if decide (shift ≤ k)%nat then q !!! (k - shift)%nat * f else 0).
Proof.
  intros Hs Hz.
  assert (<[shift := f]> quot ≐ Sub quot (mono shift (- f))) as ->.
  { intros j. rewrite Sub_coef, mono_coef. case_decide as Hj.
    - subst j. rewrite list_lookup_total_insert_eq, Hz by done. ring.
    - rewrite list_lookup_total_insert_ne by done. ring. }
  rewrite conv_Sub, conv_mono. case_decide; ring.
Qed.

Lemma div_sub_spec rem q degQ shift f :
  (degQ + shift < length rem)%nat → (∀ i, (degQ < i)%nat → q !!! i = 0) →
  length (div_sub rem q degQ shift f) = length rem ∧
  ∀ k, div_sub rem q degQ shift f !!! k
       = rem !!! k - (if decide (shift ≤ k)%nat then q !!! (k - shift)%nat * f else 0).
Proof.
  intros Hlen Hq. unfold div_sub.
  assert (∀ n, (n ≤ S degQ)%nat →
    let r := foldl (λ rem i, <[(i + shift)%nat := rem !!! (i + shift)%nat - q !!! i * f]> rem)
               rem (seq 0 n) in
    length r = length rem ∧ ∀ k, r !!! k = rem !!! k
      - (if decide (shift ≤ k < shift + n)%nat then q !!! (k - shift)%nat * f else 0)) as Hgen.
  { induction n as [|n IH]; intros Hn; cbn zeta.
    { split; [done|]. intros k. cbn [seq foldl]. rewrite decide_False by lia. ring. }
    destruct IH as [IHl IH]; [lia|]. rewrite seq_S, foldl_app. cbn [foldl Nat.add].
    set (r := foldl _ rem (seq 0 n)) in *. split; [by rewrite length_insert|].
    intros k. destruct (decide (k = (n + shift)%nat)) as [->|Hne].
    - rewrite list_lookup_total_insert_eq by lia. rewrite IH.
      rewrite decide_False, decide_True by lia. rewrite Nat.add_sub. ring.
    - rewrite list_lookup_total_insert_ne by done. rewrite IH.
      destruct (decide (shift ≤ k < shift + n)%nat), (decide (shift ≤ k < shift + S n)%nat);
        (done || lia). }
  destruct (Hgen (S degQ) ltac:(lia)) as [Hl Hc]. split; [done|].
  intros k. rewrite Hc. destruct (decide (shift ≤ k)%nat) as [Hk|Hk].
  - case_decide; [done|]. rewrite Hq by lia. ring.
  - by rewrite decide_False by lia.
Qed.

Lemma div_loop_spec fuel p q dQ rem degR quot :
  q !!! dQ ≠ 0 → (∀ i, (dQ < i)%nat → q !!! i = 0) →
  (-1 ≤ degR < Z.of_nat (length rem))%Z → (degR + 1 < Z.of_nat fuel)%Z →
  (degR - Z.of_nat dQ < Z.of_nat (length quot))%Z →
  (∀ k, (degR < Z.of_nat k)%Z → rem !!! k = 0) →
  (∀ j, (Z.of_nat j ≤ degR - Z.of_nat dQ)%Z → quot !!! j = 0) →
  (∀ k, p !!! k = conv q quot k + rem !!! k) →
  ∃ quot' rem' degR',
    div_loop fuel q (Z.of_nat dQ) rem degR quot = Some (Ok (quot', rem', degR')) ∧
    length quot' = length quot ∧ length rem' = length rem ∧
    (-1 ≤ degR' < Z.of_nat dQ)%Z ∧
    (∀ k, (degR' < Z.of_nat k)%Z → rem' !!! k = 0) ∧
    (∀ k, p !!! k = conv q quot' k + rem' !!! k).
Proof.
  intros Hlc Hq. revert rem degR quot.
  induction fuel as [|fuel IH]; intros rem degR quot HdR Hfuel Hlen Hrem Hquot Hinv; [lia|].
  cbn [div_loop]. destruct (Z.ltb_spec degR (Z.of_nat dQ)) as [Hlt|Hge].
  { exists quot, rem, degR. repeat split; auto; lia. }
  rewrite Nat2Z.id, try_div_ok by done. cbn zeta.
  set (f := div0 _ _). set (shift := Z.to_nat (degR - Z.of_nat dQ)).
  destruct (div_sub_spec rem q dQ shift f) as [Hl Hc]; [unfold shift; lia|done|].
  set (rem1 := div_sub rem q dQ shift f) in *.
  assert (Htop : rem1 !!! Z.to_nat degR = 0).
  { rewrite Hc, decide_True by (unfold shift; lia).
    replace (Z.to_nat degR - shift)%nat with dQ by (unfold shift; lia).
    unfold f. change (div0 ?a ?b) with (a * inv0 b). field. done. }
  assert (Hhigh : ∀ k, (degR ≤ Z.of_nat k)%Z → rem1 !!! k = 0).
  { intros k Hk. destruct (decide (k = Z.to_nat degR)) as [->|]; [done|].
    rewrite Hc, Hrem by lia. case_decide; [|ring].
    rewrite Hq by (unfold shift in *; lia). ring. }
  set (degR1 := degree_from is_zero rem1 (Z.to_nat (degR + 1))).
  assert (Hd1 : (-1 ≤ degR1 < degR)%Z ∧ ∀ k, (degR1 < Z.of_nat k)%Z → rem1 !!! k = 0).
  { unfold degR1. destruct (degree_from_spec (A:=F) is_zero is_zero_gid rem1 (Z.to_nat (degR + 1)))
      as [[-> Hz]|(d & -> & Hd & Hne & Hz)].
    - split; [lia|]. intros k _. destruct (decide (degR ≤ Z.of_nat k)%Z); [auto|].
      apply Hz. lia.
    - assert (Z.of_nat d ≠ degR) by (intros <-; by rewrite Nat2Z.id in Htop).
      split; [lia|]. intros k Hk. destruct (decide (degR ≤ Z.of_nat k)%Z); [auto|].
      apply Hz; lia. }
  destruct Hd1 as [Hd1 Hz1].
  destruct (IH rem1 degR1 (<[shift := f]> quot)) as (quot' & rem' & degR' & -> & Hl1 & Hl2 & Hr).
  - lia.
  - lia.
  - rewrite length_insert. lia.
  - done.
  - intros j Hj. rewrite list_lookup_total_insert_ne by (unfold shift; lia).
    apply Hquot. lia.
  - intros k. rewrite conv_insert; [|unfold shift; lia|apply Hquot; unfold shift; lia].
    rewrite Hinv, Hc. ring.
  - exists quot', rem', degR'. rewrite length_insert in Hl1. repeat split; try done; try apply Hr.
    by rewrite Hl2.
Qed.

Lemma trim_from_spec quot k :
  (k ≤ length quot)%nat → trim_from quot k ≐ take k quot ∧ (k ≠ 0%nat → trim_from quot k ≠ []).
Proof.
  induction k as [|k IH]; intros Hk; [done|]. destruct k as [|k].
  { cbn [trim_from]. split; [done|]. destruct quot; [cbn in Hk; lia|done]. }
  cbn [trim_from]. destruct (is_zero (quot !!! S k)) eqn:E.
  - apply is_zero_true in E. destruct IH as [IHe IHn]; [lia|]. split; [|intros _; by apply IHn].
    rewrite IHe. intros i. rewrite !coef_take_0.
    destruct (decide (i < S k)%nat), (decide (i < S (S k))%nat); try done; [lia|].
    by replace i with (S k) by lia.
  - split; [done|]. destruct quot; [cbn in Hk; lia|done].
Qed.
End division_theory.

Section division_correct.
Context `{FieldElement F}.
Local Open Scope alg_scope.
Add Ring division_correct_ring : (ring_laws (R:=F)).
Implicit Types (p q rem quot : list F) (k : nat).
Import Polynomial.

Lemma Mul_spec p q :
  p ≠ [] → ∃ r, Mul p q = Ok r ∧ length r = (length p + length q - 1)%nat ∧
    ∀ k, r !!! k = conv p q k.
Proof.
  intros Hp. exists (mul_coeffs p q). unfold Mul.
  destruct (Nat.eqb_spec (length p) 0); [by destruct p|].
  split; [done|]. by apply mul_coeffs_spec.
Qed.

(** The product of the leading coefficients sits at the sum of the degrees. *)
Lemma conv_top p q a b :
  (∀ i, (a < i)%nat → p !!! i = 0) → (∀ j, (b < j)%nat → q !!! j = 0) →
  conv p q (a + b) = p !!! a * q !!! b.
Proof.
  intros Hp Hq. apply conv_single; [|done]. intros i j Hij Hne.
  destruct (decide (a < i)%nat); [rewrite Hp by done; ring|].
  destruct (decide (b < j)%nat); [rewrite Hq by done; ring|]. lia.
Qed.

Lemma EuclideanDiv_ok p q :
  p ≠ [] → IsZero q = false →
  ∃ quot rem, EuclideanDiv p q = Some (Ok (quot, rem)) ∧ quot ≠ [] ∧ rem ≠ [] ∧
    (∀ k, p !!! k = conv q quot k + rem !!! k) ∧ (Degree rem < Degree q)%Z.
Proof.
  intros Hp Hq. unfold EuclideanDiv. destruct (Nat.eqb_spec (length p) 0); [by destruct p|].
  rewrite Hq. destruct (Degree_spec q) as [[_ Hq']|(dQ & HdQ & HdQl & Hlc & _ & Hzq)];
    [congruence|].
  assert (Hc0 : ∀ k, conv q [0] k = 0).
  { intros k. rewrite rconv_conv. apply rsum_0_ext. intros i _. cbn.
    case_decide; ring. }
  assert (Hz0 : Degree [(0 : F)] = (-1)%Z).
  { apply Degree_zero_iff. apply IsZero_spec. intros [|i]; [done|]. by apply coef_ge_0; cbn; lia. }
  destruct (IsZero p) eqn:Hpz.
  { exists [0], [0]. rewrite Hz0, HdQ. repeat split; try done; [|lia].
    intros k. rewrite Hc0. rewrite IsZero_spec in Hpz. rewrite Hpz.
    destruct k as [|k]; [cbn; ring|]. rewrite (coef_ge_0 [0]) by (cbn; lia). ring. }
  destruct (Z.ltb_spec (Degree p) (Degree q)) as [Hlt|Hge].
  { exists [0], p. repeat split; try done. intros k. rewrite Hc0. ring. }
  destruct (Degree_spec p) as [[_ Hp']|(dP & HdP & HdPl & Hlp & _ & Hzp)]; [congruence|].
  rewrite HdQ, HdP in *.
  destruct (div_loop_spec (S (length p)) p q dQ p (Z.of_nat dP)
    (replicate (Z.to_nat (Z.of_nat dP - Z.of_nat dQ + 1)) 0))
    as (quot & rem & degR & -> & Hlq & Hlr & HdR & Hzr & Hinv); try done; try lia.
  - rewrite length_replicate. lia.
  - intros k Hk. apply Hzp. lia.
  - intros j _. apply coef_replicate_0.
  - intros k. rewrite rconv_conv. unfold rconv.
    rewrite (rsum_0_ext (length q)); [ring|]. intros i _. apply rsum_0_ext. intros j _.
    rewrite coef_replicate_0. case_decide; ring.
  - rewrite length_replicate in Hlq.
    destruct (trim_from_spec quot (length quot)) as [Ht Htn]; [done|].
    rewrite take_ge in Ht by done.
    eexists _, _. split; [done|]. split; [apply Htn; lia|].
    destruct (Z.ltb_spec degR 0) as [Hneg|Hpos].
    + split; [done|]. rewrite Hz0. split; [|lia]. intros k. rewrite Ht, Hinv, Hzr by lia.
      destruct k as [|k]; [done|]. by rewrite (coef_ge_0 [0]) by (cbn; lia).
    + assert (take (Z.to_nat (degR + 1)) rem ≐ rem) as Hte.
      { intros k. rewrite coef_take_0. case_decide; [done|]. rewrite Hzr by lia. done. }
      split; [destruct rem; [cbn in *; lia|destruct (Z.to_nat (degR + 1)) eqn:E; [lia|done]]|].
      split; [intros k; by rewrite Ht, Hte|]. rewrite Hte.
      destruct (Degree_spec rem) as [[-> _]|(d & -> & _ & Hd & _)]; [lia|].
      destruct (decide (degR < Z.of_nat d)%Z); [by rewrite Hzr in Hd|lia].
Qed.

Lemma division_unique q quot rem quot' rem' :
  (Degree rem < Degree q)%Z → (Degree rem' < Degree q)%Z →
  (∀ k, conv q quot k + rem !!! k = conv q quot' k + rem' !!! k) →
  quot ≐ quot' ∧ rem ≐ rem'.
Proof.
  intros Hr Hr' Heq.
  destruct (Degree_spec q) as [[HdQ _]|(dQ & HdQ & _ & Hlc & _ & Hzq)].
  { destruct (Degree_spec rem) as [[? _]|(? & ? & _)]; lia. }
  assert (Hz : ∀ r k, (Degree r < Degree q)%Z → (dQ ≤ k)%nat → r !!! k = 0).
  { intros r k Hd Hk. destruct (Degree_spec r) as [[_ Hz]|(d & Hd' & _ & _ & _ & Hz)].
    - by apply IsZero_spec.
    - apply Hz. lia. }
  assert (Hqq : quot ≐ quot').
  { intros i. apply rsub_0. rewrite <-Sub_coef. revert i. apply IsZero_spec.
    destruct (Degree_spec (Sub quot quot')) as [[_ ?]|(d & _ & _ & Hne & _ & Hzd)]; [done|].
    destruct (rmul_ne_0 _ _ Hlc Hne). rewrite <-conv_top by done. rewrite conv_Sub.
    assert (conv q quot (dQ + d)%nat = conv q quot' (dQ + d)%nat) as ->; [|ring].
    specialize (Heq (dQ + d)%nat). rewrite !Hz in Heq by (done || lia).
    apply rsub_0. etransitivity; [|apply rsub_0_eq; exact Heq]. ring. }
  split; [done|]. intros k. specialize (Heq k). rewrite (conv_proper q q (reflexivity _) _ _ Hqq k k eq_refl) in Heq.
  apply rsub_0. apply (f_equal (λ x, x - (conv q quot' k + rem' !!! k))) in Heq.
  etransitivity; [|etransitivity; [exact Heq|]]; ring.
Qed.
End division_correct.

(** ** Byte encodings *)

Section bytes.
Context {A : Type} (to_bytes : A → list N) (from_bytes : list N → result A) (coeffSize : nat).
Context (size_pos : coeffSize ≠ 0) (to_bytes_size : ∀ c, length (to_bytes c) = coeffSize)
  (from_to_bytes : ∀ c, from_bytes (to_bytes c) = Ok c).

Lemma flat_map_size (cs : list A) : length (flat_map to_bytes cs) = length cs * coeffSize.
Proof.
  induction cs as [|c cs IH]; [done|]. cbn. by rewrite length_app, IH, to_bytes_size.
Qed.

Lemma parse_coeffs_nat bytes :
  parse_coeffs from_bytes (Z.of_nat coeffSize) bytes =
  if length bytes mod coeffSize =? 0
  then decode_coeffs from_bytes coeffSize (length bytes / coeffSize) bytes
  else Err ErrValidation.
Proof.
  unfold parse_coeffs. rewrite (proj2 (Z.eqb_neq (Z.of_nat coeffSize) 0)) by lia.
  rewrite Z.rem_mod_nonneg, Z.quot_div_nonneg by lia.
  rewrite <-Nat2Z.inj_mod, <-Nat2Z.inj_div, (proj2 (Z.ltb_ge _ _)), !Nat2Z.id by lia.
  destruct (Nat.eqb_spec (length bytes mod coeffSize) 0) as [->|]; [done|].
  by rewrite (proj2 (Z.eqb_neq _ _)) by lia.
Qed.

(** A decoder that only accepts its own encodings reads back the input. *)
Lemma decode_coeffs_ok n bytes cs :
  decode_coeffs from_bytes coeffSize n bytes = Ok cs →
  length cs = n ∧
  ((∀ b c, from_bytes b = Ok c → to_bytes c = b) →
   flat_map to_bytes cs = take (n * coeffSize) bytes).
Proof.
  clear size_pos to_bytes_size from_to_bytes. unfold decode_coeffs. intros Hcs%mapM_ok. split.
  { apply Forall2_length in Hcs. by rewrite length_seq in Hcs. }
  intros Hc. revert cs Hcs. induction n as [|n IH]; intros cs Hcs.
  { by inversion Hcs. }
  rewrite seq_S in Hcs. apply Forall2_app_inv_l in Hcs as (cs' & l & Hcs & Hl & ->).
  inversion Hl as [|? c ? l' E Hl']; subst. inversion Hl'; subst.
  rewrite flat_map_app, (IH cs') by done. cbn. rewrite app_nil_r, (Hc _ _ E).
  rewrite take_take_drop. f_equal. lia.
Qed.

Lemma decode_encode (cs : list A) :
  decode_coeffs from_bytes coeffSize (length cs) (flat_map to_bytes cs) = Ok cs.
Proof.
  unfold decode_coeffs. apply mapM_ok, Forall2_same_length_lookup_2.
  { by rewrite length_seq. }
  intros i k c Hk Hc. apply lookup_seq in Hk as [-> Hi]. cbn [Nat.add].
  assert (take coeffSize (drop (i * coeffSize) (flat_map to_bytes cs)) = to_bytes c) as ->;
    [|by rewrite from_to_bytes].
  clear Hi. revert i Hc. induction cs as [|d cs IH]; intros i Hc; [done|].
  destruct i as [|i]; cbn in Hc |- *.
  - injection Hc as ->. rewrite drop_0. apply take_app_length'. by rewrite to_bytes_size.
  - rewrite drop_app_ge by (rewrite to_bytes_size; lia). rewrite to_bytes_size.
    replace (coeffSize + i * coeffSize - coeffSize) with (i * coeffSize) by lia. auto.
Qed.
End bytes.

(** ** Properties *)

Section properties.
Context `{FieldElement F}.
Local Open Scope alg_scope.
Implicit Types (p q rem quot : list F) (x s : F) (xs : list F).
Import Polynomial.

(** Evaluation (Horner's rule) is a homomorphism for every operation of
    the polynomial ring, and [Mul] of non-empty coefficient slices succeeds
    with the convolution of the coefficients, whose degree is the sum of the
    degrees of non-zero factors. *)
Theorem Polynomial_ring_operations p q x s :
  p ≠ [] → q ≠ [] →
  Eval (Add p q) x = Eval p x + Eval q x ∧
  Eval (Neg p) x = - Eval p x ∧
  Eval (Sub p q) x = Eval p x - Eval q x ∧
  Eval (ScalarMul p s) x = Eval p x * s ∧
  ∃ r, Mul p q = Ok r ∧ length r = (length p + length q - 1)%nat ∧
    (∀ k, r !!! k = rsum (length p) (λ i, rsum (length q) (λ j,
       if decide ((i + j)%nat = k) then p !!! i * q !!! j else 0))) ∧
    Eval r x = Eval p x * Eval q x ∧
    (IsZero p = false → IsZero q = false → Degree r = (Degree p + Degree q)%Z).
Proof.
  intros Hp Hq. rewrite Eval_Add, Eval_Neg, Eval_Sub, Eval_ScalarMul.
  do 4 (split; [done|]). destruct (Mul_spec p q Hp) as (r & Hr & Hl & Hk).
  exists r. do 3 (split; [done|]). split.
  - unfold Mul in Hr. destruct (length p =? 0)%nat; [done|]. injection Hr as <-.
    by apply Eval_mul_coeffs.
  - intros Hzp Hzq.
    destruct (Degree_spec p) as [[_ ?]|(a & -> & _ & Ha & _ & Hpa)]; [congruence|].
    destruct (Degree_spec q) as [[_ ?]|(b & -> & _ & Hb & _ & Hqb)]; [congruence|].
    rewrite <-Nat2Z.inj_add. apply Degree_eq.
    + rewrite Hk, conv_top by done. by apply rmul_ne_0.
    + intros k Hab. rewrite Hk. apply rsum_0_ext. intros i _. apply rsum_0_ext. intros j _.
      case_decide; [|done]. destruct (decide (a < i)%nat).
      * rewrite Hpa by done. apply rmul_0_l.
      * rewrite Hqb by lia. apply rmul_0_r.
Qed.

(** [EuclideanDiv] terminates and returns the quotient and remainder:
    [p = q * quot + rem] with [rem] of smaller degree than [q], and no other
    pair satisfies this; dividing by the zero polynomial is
    [ErrDivisionByZero] and an empty dividend panics. *)
Theorem EuclideanDiv_correct p q :
  if (length p =? 0)%nat then EuclideanDiv p q = Some Panic
  else if IsZero q then EuclideanDiv p q = Some (Err ErrDivisionByZero)
  else ∃ quot rem r, EuclideanDiv p q = Some (Ok (quot, rem)) ∧
    Mul q quot = Ok r ∧ Equal p (Add r rem) = true ∧ (Degree rem < Degree q)%Z ∧
    ∀ quot' rem' r', Mul q quot' = Ok r' → Equal p (Add r' rem') = true →
      (Degree rem' < Degree q)%Z → Equal quot quot' = true ∧ Equal rem rem' = true.
Proof.
  destruct (Nat.eqb_spec (length p) 0) as [E|Hp].
  { unfold EuclideanDiv. by rewrite E. }
  destruct (IsZero q) eqn:Hq.
  { unfold EuclideanDiv. rewrite Hq. by destruct (Nat.eqb_spec (length p) 0). }
  assert (q ≠ []) as Hqn by (by intros ->).
  destruct (EuclideanDiv_ok p q) as (quot & rem & Hdiv & _ & _ & Hinv & Hdeg);
    [by intros ->|done|].
  destruct (Mul_spec q quot Hqn) as (r & Hr & _ & Hk).
  exists quot, rem, r. do 2 (split; [done|]). split; [|split; [done|]].
  - apply Equal_peq. intros k. by rewrite Add_coef, Hk.
  - intros quot' rem' r' Hr2 Heq%Equal_peq Hd2.
    destruct (Mul_spec q quot' Hqn) as (r2 & Hr2' & _ & Hk2).
    rewrite Hr2 in Hr2'. injection Hr2' as <-.
    rewrite !Equal_peq. apply (division_unique q quot rem quot' rem'); [done..|].
    intros k. rewrite <-Hinv, <-Hk2, <-Add_coef. apply Heq.
Qed.

(** A polynomial with more distinct roots than its degree is the zero
    polynomial; so polynomials of degree below [t] that agree on [t] distinct
    points are equal. *)
Theorem Polynomial_agree_equal p q xs :
  NoDup xs →
  (Degree p < Z.of_nat (length xs))%Z → (Degree q < Z.of_nat (length xs))%Z →
  (∀ x, x ∈ xs → Eval p x = Eval q x) →
  Equal p q = true.
Proof.
  intros Hnd Hp Hq Hag. apply Equal_peq.
  rewrite <-(take_degree p), <-(take_degree q).
  apply (agree_peq xs); [done| | |].
  - intros x Hx. rewrite (take_degree p), (take_degree q). auto.
  - rewrite length_take. lia.
  - rewrite length_take. lia.
Qed.
End properties.

Section more_properties.
Context `{ModuleElement R E}.
Local Open Scope alg_scope.
Implicit Types (poly : list R) (p q : list E) (x s : R) (g : E).

Lemma Eval_module p x : p ≠ [] → ModuleValued.Eval p x = Ok (poly_val p x).
Proof.
  intros Hp. unfold ModuleValued.Eval. destruct (Nat.eqb_spec (length p) 0); [by destruct p|].
  by rewrite horner_val.
Qed.

Lemma poly_val_lift poly g x :
  poly_val ((λ c, g • c) <$> poly) x = g • Polynomial.Eval poly x.
Proof.
  rewrite Eval_rsum. unfold poly_val. rewrite length_fmap, gsum_scalar.
  apply big_ext. intros i Hi.
  assert (∀ (l : list R), (i < length l)%nat → ((λ c, g • c) <$> l) !!! i = g • (l !!! i)) as Hl.
  { intros l Hil. apply list_lookup_total_correct. rewrite list_lookup_fmap.
    by rewrite (list_lookup_lookup_total_lt l i Hil). }
  rewrite Hl by done. symmetry. apply scalar_op_mul.
Qed.

(** Lifting a polynomial to the exponent commutes with evaluation, and
    evaluation of module-valued polynomials is compatible with [Op],
    [ScalarOp] and the product [PolynomialOp] by a polynomial of scalars. *)
Theorem LiftPolynomial_Eval poly p q g x s :
  poly ≠ [] → p ≠ [] → q ≠ [] →
  ∃ lifted vp vq,
    ModuleValued.LiftPolynomial poly g = Ok lifted ∧
    ModuleValued.Eval lifted x = Ok (g • Polynomial.Eval poly x) ∧
    ModuleValued.Eval p x = Ok vp ∧ ModuleValued.Eval q x = Ok vq ∧
    ModuleValued.Eval (ModuleValued.Op p q) x = Ok (vp ⊕ vq) ∧
    ModuleValued.Eval (ModuleValued.ScalarOp p s) x = Ok (vp • s) ∧
    ModuleValued.Eval (ModuleValued.PolynomialOp p poly) x
      = Ok (vp • Polynomial.Eval poly x).
Proof.
  intros Hpoly Hp Hq. exists ((λ c, g • c) <$> poly), (poly_val p x), (poly_val q x).
  split; [done|]. rewrite !Eval_module; try done.
  - rewrite poly_val_lift. unfold ModuleValued.Op, ModuleValued.ScalarOp.
    rewrite poly_val_zip_ext, poly_val_scalar. do 5 (split; [done|]). f_equal.
    unfold ModuleValued.PolynomialOp.
    destruct (Nat.eqb_spec (length p) 0); [by destruct p|].
    destruct (Nat.eqb_spec (length poly) 0); [by destruct poly|].
    rewrite Eval_val. exact (product_loop_val p poly x Hp).
  - unfold ModuleValued.PolynomialOp.
    destruct (Nat.eqb_spec (length p) 0); [by destruct p|].
    destruct (Nat.eqb_spec (length poly) 0); [by destruct poly|].
    change (product_loop p poly ≠ []). intros E'.
    destruct (product_loop_spec p poly Hp) as [Hl _]. rewrite E' in Hl.
    destruct p, poly; cbn in Hl; try done; lia.
  - unfold ModuleValued.ScalarOp. by destruct p.
  - unfold ModuleValued.Op, zip_ext, tabulate. intros E'%fmap_nil_inv.
    destruct p; [done|]. cbn in E'. by destruct (length q).
  - by destruct poly.
Qed.

Lemma New_Some (cs : list R) : cs ≠ [] → Polynomial.New (Some <$> cs) = Ok cs.
Proof.
  destruct cs as [|c cs]; [done|]. intros _. unfold Polynomial.New.
  change (Some <$> c :: cs) with (Some c :: (Some <$> cs)). cbv iota.
  apply mapM_ok. change (Some c :: (Some <$> cs)) with (Some <$> c :: cs).
  apply Forall2_fmap_l, Forall_Forall2_diag, Forall_true. done.
Qed.

(** C24. [FromBytes] inverts [Bytes] on every non-empty polynomial, for any
    fixed-size encoding of the coefficients that round-trips.  An empty input
    and one whose length is not a multiple of the element size are
    [ErrValidation]; from any other input it reads exactly one coefficient per
    element, and is inverted by [Bytes] when the coefficient decoder only
    accepts encodings; over a structure of variable length, whose element size
    is -1, it panics on every non-empty input. *)
Theorem Polynomial_bytes_roundtrip (to_bytes : R → list N) from_bytes coeffSize poly :
  coeffSize ≠ 0%nat → (∀ c, length (to_bytes c) = coeffSize) →
  (∀ c, from_bytes (to_bytes c) = Ok c) → poly ≠ [] →
  let size := Z.of_nat coeffSize in
  Polynomial.FromBytes from_bytes size (Polynomial.Bytes to_bytes poly) = Ok poly ∧
  (∀ bytes, bytes = [] ∨ (length bytes mod coeffSize ≠ 0)%nat →
    Polynomial.FromBytes from_bytes size bytes = Err ErrValidation) ∧
  (∀ bytes (q : list R), Polynomial.FromBytes from_bytes size bytes = Ok q →
    q ≠ [] ∧ length bytes = (length q * coeffSize)%nat ∧
    ((∀ b c, from_bytes b = Ok c → to_bytes c = b) → Polynomial.Bytes to_bytes q = bytes)) ∧
  (∀ bytes, bytes ≠ [] → Polynomial.FromBytes from_bytes (-1) bytes = Panic).
Proof.
  intros Hs Hl Hft Hne size. unfold Polynomial.FromBytes, Polynomial.Bytes. split_and!.
  - rewrite (flat_map_size to_bytes coeffSize Hl).
    destruct (Nat.eqb_spec (length poly * coeffSize) 0) as [E'|_].
    { destruct poly; [done|]. cbn in E'. lia. }
    unfold size. rewrite parse_coeffs_nat, (flat_map_size to_bytes coeffSize Hl) by done.
    rewrite Nat.Div0.mod_mul, Nat.div_mul by done. cbn [Nat.eqb].
    rewrite decode_encode by done. apply New_Some, Hne.
  - intros bytes [->|Hm]; [done|]. destruct (Nat.eqb_spec (length bytes) 0); [done|].
    unfold size. by rewrite parse_coeffs_nat, (proj2 (Nat.eqb_neq _ _) Hm) by done.
  - intros bytes q. destruct (Nat.eqb_spec (length bytes) 0) as [|H0b]; [done|].
    unfold size. rewrite parse_coeffs_nat by done.
    destruct (Nat.eqb_spec (length bytes mod coeffSize) 0) as [Hm|]; [|done].
    intros (cs & Hcs & Hq)%bind_ok. apply (decode_coeffs_ok to_bytes) in Hcs as [Hlc Hb].
    pose proof (Nat.div_mod_eq (length bytes) coeffSize) as Hd. rewrite Hm, <-Hlc in Hd.
    assert (cs ≠ []) as Hcs by (intros ->; cbn in Hd; lia).
    rewrite New_Some in Hq by done. injection Hq as <-. split_and!; [done|lia|].
    intros Hc. rewrite Hb by done. apply take_ge. rewrite <-Hlc. lia.
  - intros bytes Hb. destruct (Nat.eqb_spec (length bytes) 0); [by destruct bytes|].
    unfold parse_coeffs. change (-1)%Z with (- (1))%Z.
    rewrite Z.rem_opp_r, Z.rem_1_r, Z.quot_opp_r, Z.quot_1_r by done.
    cbn [Z.eqb Z.opp negb]. by rewrite (proj2 (Z.ltb_lt _ _)) by lia.
Qed.
End more_properties.

Section random_properties.
Context `{RingElement R} {P : Type} (sampler : P → result (R * P)).
Implicit Types (poly : list R) (prng : P).
Import Polynomial.

Lemma random_coeffs_length n prng cs prng' :
  random_coeffs sampler n prng = Ok (cs, prng') → length cs = n.
Proof.
  revert prng cs. induction n as [|n IH]; intros prng cs Hr; cbn in Hr.
  { by injection Hr as <- <-. }
  apply bind_ok in Hr as ([c prng1] & _ & Hr). apply bind_ok in Hr as ([cs' prng2] & Hr & E).
  injection E as <- <-. cbn. by rewrite (IH _ _ Hr).
Qed.

(** A sampled polynomial has exactly the requested degree and the given
    constant term (the leading coefficient is rejection-sampled to be
    non-zero); only a constant polynomial may be zero.  A negative degree is
    [ErrValidation]. *)
Theorem RandomPolynomialWithConstantTerm_shape fuel degree constantTerm prng poly prng' :
  RandomPolynomialWithConstantTerm fuel sampler degree constantTerm prng
    = Some (Ok (poly, prng')) →
  (0 ≤ degree)%Z ∧ Z.of_nat (length poly) = (degree + 1)%Z ∧
  poly !! 0 = Some constantTerm ∧ Eval poly rzero = constantTerm ∧
  ((0 < degree)%Z → Degree poly = degree).
Proof.
  unfold RandomPolynomialWithConstantTerm.
  destruct (Z.ltb_spec degree 0) as [|Hd]; [done|].
  destruct (Z.eqb_spec degree 0) as [->|Hne].
  { intros [= <- <-]. repeat split; try done. }
  destruct (random_coeffs _ _ _) as [[cs prng1]| |] eqn:Hcs; [|done..].
  apply random_coeffs_length in Hcs.
  destruct (RandomNonIdentity _ _ _) as [[[lead prng2]| |]|] eqn:Hlead; [|done..].
  intros [= <- <-]. unfold RandomNonIdentity in Hlead.
  apply Random_ok in Hlead as (_ & _ & _ & _ & _ & Hlead).
  cbn in Hlead. rewrite andb_true_r, negb_true_iff, bool_decide_eq_false in Hlead.
  split; [done|]. split; [|split; [done|split; [by rewrite Eval_0|intros _]]].
  - cbn [length]. rewrite length_app. cbn [length]. lia.
  - assert (∀ i, (constantTerm :: cs ++ [lead]) !!! S i = (cs ++ [lead]) !!! i) as HS by done.
    assert (Z.to_nat degree = S (length cs)) as Hdeg by lia.
    rewrite (Degree_eq _ (Z.to_nat degree)); [lia| |].
    + rewrite Hdeg, HS, lookup_total_app_r by done. by rewrite Nat.sub_diag.
    + intros i Hi. apply coef_ge_0. cbn [length]. rewrite length_app. cbn [length]. lia.
Qed.
End random_properties.

(** ** The properties on concrete inputs *)

Section witnesses.
Import Polynomial.
Let poly3 := f101 <$> [42; 7; 3]%Z.
Let poly2 := f101 <$> [1; 2]%Z.

Lemma Polynomial_ring_operations_witness :
  (f101 <$> [42; 7; 3]%Z ≠ []) ∧ Eval (Add poly3 poly2) (f101 5) = f101 163.
Proof.
  assert (poly3 ≠ [] ∧ poly2 ≠ []) as [H3 H2] by done. split; [done|].
  destruct (Polynomial_ring_operations poly3 poly2 (f101 5) (f101 2) H3 H2) as [-> _].
  vm_compute. reflexivity.
Defined.

Lemma Polynomial_agree_equal_witness : Equal poly2 (poly2 ++ [f101 0]) = true.
Proof.
  apply (Polynomial_agree_equal _ _ (f101 <$> [1; 2; 3]%Z)).
  - refine (bool_decide_unpack _ _). vm_compute. exact I.
  - vm_compute. reflexivity.
  - vm_compute. reflexivity.
  - intros x Hx. rewrite list_elem_of_In in Hx. cbn in Hx.
    destruct Hx as [<-|[<-|[<-|[]]]]; vm_compute; reflexivity.
Defined.

Lemma LiftPolynomial_Eval_witness :
  ∃ lifted, ModuleValued.LiftPolynomial poly3 (f101 2) = Ok lifted ∧
    ModuleValued.Eval lifted (f101 1) = Ok (f101 104).
Proof.
  destruct (LiftPolynomial_Eval poly3 poly2 poly2 (f101 2) (f101 1) (f101 1))
    as (l & _ & _ & Hl & He & _); [done..|].
  exists l. split; [exact Hl|]. rewrite He. vm_compute. reflexivity.
Defined.

Lemma Polynomial_bytes_roundtrip_witness :
  let to_bytes (c : fp101) := [Z.to_N (Zmod.unsigned c)] in
  let from_bytes (b : list N) := Ok (f101 (Z.of_N (b !!! 0))) in
  FromBytes from_bytes 1 (Bytes to_bytes poly3) = Ok poly3.
Proof.
  cbv zeta. apply (Polynomial_bytes_roundtrip _ _ 1 poly3); [done|done| |done].
  intros c. cbn. rewrite Z2N.id by (apply Zmod.unsigned_pos_bound; lia).
  unfold f101. cbn. f_equal. apply Zmod.of_Z_unsigned.
Defined.

Lemma RandomPolynomialWithConstantTerm_shape_witness :
  let sampler (s : Z) := Ok (f101 s, (s + 1)%Z) in
  ∃ poly s', RandomPolynomialWithConstantTerm 5 sampler 2 (f101 9) 100%Z = Some (Ok (poly, s')) ∧
    Degree poly = 2%Z.
Proof.
  cbv zeta. eexists _, _. split; [vm_compute; reflexivity|].
  eapply (RandomPolynomialWithConstantTerm_shape (λ s, Ok (f101 s, (s + 1)%Z)) 5 2 (f101 9) 100%Z);
    [vm_compute; reflexivity|done].
Defined.
End witnesses.
