(* ===== verification/Combinations.v ===== *)
(** * Combinations (pkg/base/utils/sliceutils/combinations.go, Binomial of
      pkg/base/utils/common.go)

    [Combinations(s, k)] streams the [k]-element combinations of a slice by
    stepping an index vector [Binomial(n, k) - 1] times with
    [nextCombination].  It is shown to produce each [k]-subset exactly once, in
    lexicographic order, and [Binomial] to be the binomial coefficient as long
    as no intermediate product overflows a 64-bit [int]. *)

From Stdlib Require Import ZArith Lia.
From S2P Require Import Prelude.

(** ** The code *)

(** Wrap-around of a 64-bit [int]. *)
Definition wrap64 (z : Z) : Z := (z + 2 ^ 63) mod 2 ^ 64 - 2 ^ 63.

Definition Binomial (n k : Z) : Z :=
  if (k <? 0)%Z || (n <? k)%Z then 0%Z
  else
    let k := if (n ÷ 2 <? k)%Z then (n - k)%Z else k in
    foldl (λ b i, (wrap64 (wrap64 (wrap64 (n - k + Z.of_nat i) * b)) ÷ Z.of_nat i)%Z)
      1%Z (seq 1 (Z.to_nat k)).

(** [nextCombination]: [j] counts the positions still to be examined from the
    right. *)
Fixpoint nextCombination (s : list nat) (n k j : nat) : list nat :=
  match j with
  | 0 => s
  | S j =>
      if (s !!! j + k =? n + j) then nextCombination s n k j
      else
        let s := <[j := S (s !!! j)]> s in
        foldl (λ s l, <[l := s !!! j + l - j]> s) s (seq (S j) (k - S j))
  end.

Definition mapElements {T} `{!Inhabited T} (input : list T) (indices : list nat) : list T :=
  (λ index, input !!! index) <$> indices.

(** The index vectors visited: the initial one and [count] successors. *)
Fixpoint index_vectors (n k : nat) (data : list nat) (count : nat) : list (list nat) :=
  data :: match count with
          | 0 => []
          | S count => index_vectors n k (nextCombination data n k k) count
          end.

Definition Combinations {T} `{!Inhabited T} (s : list T) (k : nat) : list (list T) :=
  if length s <? k then []
  else
    let n := length s in
    let combinations := Binomial (Z.of_nat n) (Z.of_nat k) in
    mapElements s <$> index_vectors n k (seq 0 k) (Z.to_nat (combinations - 1)).

(** [KCoveringCombinations]: the combinations of every size from [k] up. *)
Definition KCoveringCombinations {T} `{!Inhabited T} (s : list T) (k : nat) : list (list T) :=
  i ← seq k (S (length s) - k); Combinations s i.

(** ** Binomial coefficients *)

Fixpoint binom (n k : nat) : nat :=
  match n, k with
  | _, 0 => 1
  | 0, S _ => 0
  | S n, S k => binom n k + binom n (S k)
  end.

Lemma binom_0_r n : binom n 0 = 1.
Proof. by destruct n. Qed.

Lemma binom_gt n k : n < k → binom n k = 0.
Proof.
  revert k. induction n as [|n IH]; intros [|k] Hk; try lia; [done|].
  cbn. rewrite !IH by lia. done.
Qed.

Lemma binom_diag n : binom n n = 1.
Proof. induction n as [|n IH]; [done|]. cbn. rewrite IH, binom_gt by lia. done. Qed.

Lemma binom_pos n k : k ≤ n → 0 < binom n k.
Proof.
  revert k. induction n as [|n IH]; intros [|k] Hk; cbn; try lia.
  specialize (IH k ltac:(lia)). lia.
Qed.

Lemma binom_sym n k : k ≤ n → binom n (n - k) = binom n k.
Proof.
  revert k. induction n as [|n IH]; intros k Hk; [by replace k with 0 by lia|].
  destruct k as [|k]; [by rewrite Nat.sub_0_r, binom_diag|].
  rewrite Nat.sub_succ. destruct (decide (k = n)) as [->|Hne].
  { by rewrite Nat.sub_diag, binom_diag. }
  pose proof (IH (S k) ltac:(lia)) as H1. pose proof (IH k ltac:(lia)) as H2.
  replace (n - k) with (S (n - S k)) in * by lia. cbn [binom]. lia.
Qed.

(** Absorption: the step of the multiplicative loop. *)
Lemma binom_absorb n k : S n * binom n k = S k * binom (S n) (S k).
Proof.
  revert k. induction n as [|n IH]; intros k.
  { destruct k as [|k]; [done|]. cbn. lia. }
  destruct k as [|k].
  { specialize (IH 0). rewrite binom_0_r in *. cbn [binom] in *. rewrite binom_0_r in *. lia. }
  pose proof (IH k) as H1. pose proof (IH (S k)) as H2.
  change (binom (S n) (S k)) with (binom n k + binom n (S k)) in *.
  change (binom (S (S n)) (S (S k)))
    with (binom (S n) (S k) + binom (S n) (S (S k))).
  change (binom (S n) (S k)) with (binom n k + binom n (S k)). nia.
Qed.

Lemma binom_mono n k : binom n k ≤ binom (S n) k.
Proof. destruct k as [|k]; [by rewrite !binom_0_r|]. cbn. lia. Qed.

Lemma wrap64_id z : (- 2 ^ 63 ≤ z < 2 ^ 63)%Z → wrap64 z = z.
Proof. intros Hz. unfold wrap64. rewrite Z.mod_small by lia. lia. Qed.

Lemma Binomial_loop (d k : nat) :
  (Z.of_nat (k * binom (d + k) k) < 2 ^ 63)%Z → (Z.of_nat (d + k) < 2 ^ 63)%Z →
  foldl (λ b i, (wrap64 (wrap64 (wrap64 (Z.of_nat d + Z.of_nat i) * b)) ÷ Z.of_nat i)%Z)
    1%Z (seq 1 k) = Z.of_nat (binom (d + k) k).
Proof.
  induction k as [|k IH]; intros Hb Hd; [by rewrite binom_0_r|].
  rewrite Nat.add_succ_r in *.
  pose proof (binom_absorb (d + k) k) as Habs. pose proof (binom_mono (d + k) k).
  pose proof (binom_pos (d + k) k ltac:(lia)) as Hpos.
  assert (k * binom (d + k) k ≤ S k * binom (S (d + k)) (S k)) by (rewrite <-Habs; nia).
  rewrite seq_S, foldl_app. cbn [foldl]. rewrite IH by lia.
  rewrite (wrap64_id (_ + _)) by lia.
  replace ((Z.of_nat d + Z.of_nat (1 + k)) * Z.of_nat (binom (d + k) k))%Z
    with (Z.of_nat (S k * binom (S (d + k)) (S k))) by lia.
  rewrite (wrap64_id (Z.of_nat _)), wrap64_id by lia. rewrite Nat2Z.inj_mul, Z.mul_comm. apply Z.quot_mul. lia.
Qed.

Lemma Binomial_spec (n k : nat) :
  (Z.of_nat n < 2 ^ 63)%Z → (Z.of_nat (n * binom n k) < 2 ^ 63)%Z →
  Binomial (Z.of_nat n) (Z.of_nat k) = Z.of_nat (binom n k).
Proof.
  intros Hn Hb. unfold Binomial. destruct (Z.ltb_spec (Z.of_nat k) 0); [lia|]. cbn [orb].
  destruct (Z.ltb_spec (Z.of_nat n) (Z.of_nat k)); [by rewrite binom_gt by lia|].
  assert (∀ j, j ≤ n → binom n j = binom n k →
    foldl (λ b i, (wrap64 (wrap64 (wrap64 (Z.of_nat n - Z.of_nat j + Z.of_nat i) * b))
      ÷ Z.of_nat i)%Z) 1%Z (seq 1 (Z.to_nat (Z.of_nat j))) = Z.of_nat (binom n k)) as Hj.
  { intros j Hj Ej. rewrite Nat2Z.id.
    pose proof (Binomial_loop (n - j) j) as Hl.
    replace (n - j + j) with n in Hl by lia. rewrite Ej in Hl.
    rewrite <-Hl; [|nia|lia]. f_equal. rewrite Nat2Z.inj_sub by lia. done. }
  destruct (Z.ltb_spec (Z.of_nat n ÷ 2) (Z.of_nat k)).
  - rewrite <-Nat2Z.inj_sub by lia. apply Hj; [lia|]. apply binom_sym. lia.
  - apply Hj; [lia|done].
Qed.

(** ** The successor on index vectors *)

(** The lexicographic successor, by recursion on the vector; [None] on the
    last one. *)
Fixpoint next_rec (n : nat) (c : list nat) : option (list nat) :=
  match c with
  | [] => None
  | x :: c' =>
      match next_rec n c' with
      | Some c'' => Some (x :: c'')
      | None => if x + length c =? n then None else Some (seq (S x) (length c))
      end
  end.

Lemma foldl_fill (s : list nat) j k :
  j < length s → length s = k →
  foldl (λ s l, <[l := s !!! j + l - j]> s) s (seq (S j) (k - S j))
  = take (S j) s ++ seq (S (s !!! j)) (k - S j).
Proof.
  intros Hj Hk. remember (k - S j) as c eqn:Hc.
  assert (∀ c, S j + c ≤ k →
    let s' := foldl (λ s l, <[l := s !!! j + l - j]> s) s (seq (S j) c) in
    s' = take (S j) s ++ seq (S (s !!! j)) c ++ drop (S j + c) s) as Hgen.
  { clear c Hc. induction c as [|c IH]; intros Hc; cbn zeta.
    { cbn [seq foldl app]. rewrite Nat.add_0_r. by rewrite take_drop. }
    rewrite seq_S, foldl_app. rewrite IH by lia. cbn [foldl].
    assert (∀ u, (take (S j) s ++ u) !!! j = s !!! j) as Htj.
    { intros u. rewrite lookup_total_app_l by (rewrite length_take; lia).
      by rewrite lookup_total_take_lt by lia. }
    rewrite Htj. assert (length (take (S j) s) = S j) as Hlt by (rewrite length_take; lia).
    replace (S j + c) with (length (take (S j) s) + c) at 1 by lia.
    rewrite insert_app_r.
    replace c with (length (seq (S (s !!! j)) c) + 0) at 1 by (rewrite length_seq; lia).
    rewrite insert_app_r. rewrite seq_S, <-!app_assoc. do 2 f_equal. cbn [app].
    assert (is_Some (s !! (S j + c))) as [y Hy] by (apply lookup_lt_is_Some; lia).
    rewrite (drop_S _ _ _ Hy). cbn [insert list_insert]. f_equal; [lia|]. f_equal. lia. }
  rewrite Hgen by lia. rewrite (drop_ge s) by lia. by rewrite app_nil_r.
Qed.

Lemma nextCombination_cons x (c : list nat) n k j :
  length c = k → j ≤ k →
  (∀ i, i < j → c !!! i + k = n + i) →
  nextCombination (x :: c) n (S k) (S j)
  = if x + S k =? n then x :: c else seq (S x) (S k).
Proof.
  intros Hk. induction j as [|j IH]; intros Hj Hall.
  - cbn [nextCombination lookup_total list_lookup_total].
    rewrite Nat.add_0_r. destruct (Nat.eqb_spec (x + S k) n); [done|].
    cbn zeta. rewrite foldl_fill by (cbn; lia).
    cbn [insert list_insert take app lookup_total list_lookup_total].
    rewrite Nat.sub_succ, Nat.sub_0_r. cbn [seq]. by destruct c.
  - rewrite <-IH by (lia || intros; apply Hall; lia).
    change (nextCombination (x :: c) n (S k) (S (S j))) with
      (if ((x :: c) !!! S j + S k =? n + S j) then nextCombination (x :: c) n (S k) (S j)
       else let s := <[S j := S ((x :: c) !!! S j)]> (x :: c) in
            foldl (λ s l, <[l := s !!! S j + l - S j]> s) s (seq (S (S j)) (S k - S (S j)))).
    change ((x :: c) !!! S j) with (c !!! j).
    rewrite (proj2 (Nat.eqb_eq (c !!! j + S k) (n + S j))); [done|].
    specialize (Hall j ltac:(lia)). lia.
Qed.

Lemma nextCombination_tail x (c : list nat) n k j i :
  length c = k → j ≤ k → i < j → c !!! i + k ≠ n + i →
  nextCombination (x :: c) n (S k) (S j) = x :: nextCombination c n k j.
Proof.
  intros Hk. induction j as [|j IH]; intros Hj Hi Hne; [lia|].
  change (nextCombination (x :: c) n (S k) (S (S j))) with
    (if ((x :: c) !!! S j + S k =? n + S j) then nextCombination (x :: c) n (S k) (S j)
     else let s := <[S j := S ((x :: c) !!! S j)]> (x :: c) in
          foldl (λ s l, <[l := s !!! S j + l - S j]> s) s (seq (S (S j)) (S k - S (S j)))).
  change ((x :: c) !!! S j) with (c !!! j). cbn [nextCombination].
  destruct (Nat.eqb_spec (c !!! j + S k) (n + S j)), (Nat.eqb_spec (c !!! j + k) (n + j)); try lia.
  - apply IH; [lia| |done]. destruct (decide (i = j)) as [->|]; [done|lia].
  - cbn zeta. rewrite !foldl_fill by (rewrite ?length_insert; cbn [length]; lia). done.
Qed.

(** A vector all of whose entries are at their maximum is the last one. *)
Lemma next_rec_None n (c : list nat) :
  next_rec n c = None ↔ ∀ i, i < length c → c !!! i + length c = n + i.
Proof.
  induction c as [|x c IH]; [split; [cbn; lia|done]|]. cbn [next_rec].
  destruct (next_rec n c) as [c'|] eqn:E.
  - split; [done|]. intros Hall. exfalso. assert (Some c' = None) as [=].
    apply IH. intros i Hi. specialize (Hall (S i) ltac:(cbn [length]; lia)).
    change (c !!! i + S (length c) = n + S i) in Hall. lia.
  - destruct IH as [IH _]. specialize (IH eq_refl).
    destruct (Nat.eqb_spec (x + length (x :: c)) n) as [Hx|Hx].
    + split; [|done]. intros _ [|i] Hi; cbn [length] in *; [change (x + S (length c) = n + 0); lia|].
      specialize (IH i ltac:(lia)). change (c !!! i + S (length c) = n + S i). lia.
    + split; [done|]. intros Hall. specialize (Hall 0 ltac:(cbn; lia)).
      change (x + length (x :: c) = n + 0) in Hall. lia.
Qed.

Lemma nextCombination_rec n (c c' : list nat) :
  next_rec n c = Some c' → nextCombination c n (length c) (length c) = c'.
Proof.
  revert c'. induction c as [|x c IH]; intros c' E; [done|]. cbn [next_rec] in E.
  destruct (next_rec n c) as [c''|] eqn:E'.
  - injection E as <-. cbn [length].
    assert (¬ ∀ i, i < length c → c !!! i + length c = n + i) as Hno.
    { rewrite <-next_rec_None, E'. done. }
    destruct (list_find (λ i, c !!! i + length c ≠ n + i) (seq 0 (length c))) as [[p i]|] eqn:Ef.
    + apply list_find_Some in Ef as (Hp & Hi & _). apply lookup_seq in Hp as [-> Hp].
      rewrite (nextCombination_tail x c n (length c) (length c) (0 + p)) by done.
      by rewrite (IH c'').
    + destruct Hno. intros i Hi. apply list_find_None in Ef. rewrite Forall_forall in Ef.
      apply dec_stable, Ef, elem_of_seq. lia.
  - cbn [length]. rewrite nextCombination_cons by (done || lia || by apply next_rec_None).
    cbn [length] in E. destruct (x + S (length c) =? n); [done|by injection E].
Qed.

(** ** The index vectors in lexicographic order *)

(** The increasing vectors of length [k] over [a, a + m). *)
Fixpoint combs (a m k : nat) : list (list nat) :=
  match k, m with
  | 0, _ => [[]]
  | S _, 0 => []
  | S k', S m => (cons a <$> combs (S a) m k') ++ combs (S a) m k
  end.

(** [L] starts somewhere and follows the successor to the last vector. *)
Fixpoint follows (n : nat) (L : list (list nat)) : Prop :=
  match L with
  | [] => True
  | c :: L' =>
      match L' with
      | [] => next_rec n c = None
      | c' :: _ => next_rec n c = Some c' ∧ follows n L'
      end
  end.

Lemma combs_length a m k : length (combs a m k) = binom m k.
Proof.
  revert a k. induction m as [|m IH]; intros a [|k]; try done.
  cbn [combs binom]. by rewrite length_app, length_fmap, !IH.
Qed.

Lemma combs_elem_length a m k c : c ∈ combs a m k → length c = k.
Proof.
  revert a k c. induction m as [|m IH]; intros a [|k] c; cbn [combs].
  - by intros ->%list_elem_of_singleton.
  - by intros ?%not_elem_of_nil.
  - by intros ->%list_elem_of_singleton.
  - intros [(c' & -> & Hc)%list_elem_of_fmap|Hc]%elem_of_app; [cbn; f_equal|]; eauto.
Qed.

Lemma combs_head a m k : k ≤ m → ∃ L, combs a m k = seq a k :: L.
Proof.
  revert a k. induction m as [|m IH]; intros a [|k] Hk; try lia; [by exists []..|].
  cbn [combs]. destruct (IH (S a) k) as [L ->]; [lia|]. cbn [fmap list_fmap app seq]. by eexists.
Qed.

Lemma combs_nil a m k : m < k → combs a m k = [].
Proof.
  revert a k. induction m as [|m IH]; intros a [|k] Hk; try lia; [done|].
  cbn [combs]. rewrite !IH by lia. done.
Qed.

Lemma follows_app n a k (L1 L2 : list (list nat)) :
  L1 ≠ [] → follows n L1 → (∀ c, c ∈ L1 → length c = k) → follows n L2 →
  (L2 = [] ∧ a + S k = n ∨ a + S k ≠ n ∧ ∃ L, L2 = seq (S a) (S k) :: L) →
  follows n ((cons a <$> L1) ++ L2).
Proof.
  intros Hne H1 Hlen H2 Hjoin. induction L1 as [|c L1 IH]; [done|].
  assert (length c = k) as Hc by (apply Hlen; constructor).
  destruct L1 as [|c' L1].
  - cbn [fmap list_fmap app follows] in *.
    destruct Hjoin as [[-> Ha]|[Ha [L ->]]]; cbn [next_rec]; rewrite H1; cbn [length]; rewrite Hc.
    + by rewrite (proj2 (Nat.eqb_eq _ _) Ha).
    + by rewrite (proj2 (Nat.eqb_neq _ _) Ha).
  - destruct H1 as [Hn H1]. cbn [fmap list_fmap app]. split.
    + cbn [next_rec]. by rewrite Hn.
    + apply IH; [done|done|]. intros d Hd. apply Hlen. by constructor.
Qed.

Lemma combs_follows a m k : follows (a + m) (combs a m k).
Proof.
  revert a k. induction m as [|m IH]; intros a [|k]; try done.
  cbn [combs]. destruct (decide (m < k)) as [Hlt|Hge].
  { by rewrite !combs_nil by lia. }
  replace (a + S m) with (S a + m) by lia.
  apply (follows_app _ a k); [| |by apply combs_elem_length| |]; try apply IH.
  - destruct (combs_head (S a) m k) as [L ->]; [lia|done].
  - destruct (decide (m = k)) as [->|Hne].
    + left. split; [apply combs_nil; lia|lia].
    + right. split; [lia|]. apply combs_head. lia.
Qed.

Lemma index_vectors_follows n k c (L : list (list nat)) :
  follows n (c :: L) → (∀ d, d ∈ c :: L → length d = k) →
  index_vectors n k c (length L) = c :: L.
Proof.
  revert c. induction L as [|c' L IH]; intros c Hf Hlen; [done|].
  destruct Hf as [Hn Hf]. cbn [length index_vectors].
  assert (length c = k) as Hc by (apply Hlen; constructor).
  rewrite <-Hc, (nextCombination_rec n c c' Hn), Hc. f_equal. apply IH; [done|].
  intros d Hd. apply Hlen. by constructor.
Qed.

(** The code's loop visits the vectors in this order. *)
Lemma index_vectors_combs n k :
  k ≤ n → index_vectors n k (seq 0 k) (binom n k - 1) = combs 0 n k.
Proof.
  intros Hk. destruct (combs_head 0 n k Hk) as [L HL].
  pose proof (combs_length 0 n k) as Hlen. rewrite HL in Hlen |- *. cbn [length] in Hlen.
  replace (binom n k - 1) with (length L) by lia. apply index_vectors_follows.
  - rewrite <-HL. apply (combs_follows 0).
  - intros d Hd. rewrite <-HL in Hd. by apply combs_elem_length in Hd.
Qed.

(** ** The combinations of a slice *)

Fixpoint sublists {T} (s : list T) (k : nat) : list (list T) :=
  match k, s with
  | 0, _ => [[]]
  | S _, [] => []
  | S k', x :: s => (cons x <$> sublists s k') ++ sublists s k
  end.

Section slices.
Context {T : Type} `{!Inhabited T, !EqDecision T}.
Implicit Types (s : list T).

Lemma combs_sublists s a k :
  a ≤ length s → mapElements s <$> combs a (length s - a) k = sublists (drop a s) k.
Proof.
  intros Ha. remember (length s - a) as m eqn:Hm. revert a k Ha Hm.
  induction m as [|m IH]; intros a [|k] Ha Hm; try (by destruct (drop a s)).
  - rewrite drop_ge by lia. done.
  - destruct (lookup_lt_is_Some_2 s a) as [x Hx]; [lia|].
    rewrite (drop_S _ _ _ Hx). cbn [combs sublists]. rewrite fmap_app.
    rewrite <-!IH by lia. f_equal. rewrite <-!list_fmap_compose. apply list_fmap_ext.
    intros i c _. cbn. by rewrite (list_lookup_total_correct s a x Hx).
Qed.

Lemma Combinations_sublists s k :
  (Z.of_nat (length s) < 2 ^ 63)%Z →
  (Z.of_nat (length s * binom (length s) k) < 2 ^ 63)%Z →
  Combinations s k = if length s <? k then [] else sublists s k.
Proof.
  intros Hs Hb. unfold Combinations. destruct (Nat.ltb_spec (length s) k); [done|].
  rewrite Binomial_spec by done.
  replace (Z.to_nat (Z.of_nat (binom (length s) k) - 1)) with (binom (length s) k - 1) by lia.
  rewrite index_vectors_combs by done.
  pose proof (combs_sublists s 0 k ltac:(lia)) as Hc. by rewrite Nat.sub_0_r in Hc.
Qed.

Lemma sublists_spec s k c : c ∈ sublists s k ↔ sublist c s ∧ length c = k.
Proof.
  revert k c. induction s as [|x s IH]; intros [|k] c; cbn [sublists].
  - rewrite list_elem_of_singleton. split; [by intros ->|]. intros [_ ?]. by destruct c.
  - split; [by intros ?%not_elem_of_nil|]. intros [Hs Hl]. inversion Hs; subst. done.
  - rewrite list_elem_of_singleton. split; [|intros [_ ?]; by destruct c].
    intros ->. split; [apply sublist_nil_l|done].
  - rewrite elem_of_app, IH. split.
    + intros [(c' & -> & [Hs Hl]%IH)%list_elem_of_fmap|[Hs Hl]].
      * split; [by constructor|cbn; lia].
      * split; [by constructor|done].
    + intros [Hs Hl]. inversion Hs; subst; [|by right]. left.
      apply list_elem_of_fmap. eexists. split; [done|]. apply IH. split; [done|]. cbn in Hl. lia.
Qed.

Lemma sublists_length s k : length (sublists s k) = binom (length s) k.
Proof.
  revert k. induction s as [|x s IH]; intros [|k]; try done.
  cbn [sublists binom length]. by rewrite length_app, length_fmap, !IH.
Qed.

Lemma sublists_NoDup s k : NoDup s → NoDup (sublists s k).
Proof.
  intros Hs. revert k. induction Hs as [|x s Hx Hs IH]; intros [|k]; cbn [sublists];
    try (apply NoDup_singleton || apply NoDup_nil_2).
  apply NoDup_app. split_and!; [|intros c (c' & -> & _)%list_elem_of_fmap [Hc _]%sublists_spec|apply IH].
  - apply NoDup_fmap; [|apply IH]. by intros c c' [= ->].
  - apply Hx. by apply (elem_of_sublist _ _ _ (list_elem_of_here x c') Hc).
Qed.
End slices.

(** ** Properties *)

Section properties.
Context {T : Type} `{!Inhabited T, !EqDecision T}.
Implicit Types (s c : list T).

(** [Combinations(s, k)] terminates having streamed every [k]-element
    combination of a duplicate-free slice exactly once, [binom (len s) k] in
    all, and nothing when [k] exceeds the length; [Binomial] agrees with the
    binomial coefficient, wrap-around included, as long as
    [len(s) * binom] fits in an [int]. *)
Theorem Combinations_complete s k :
  NoDup s → (Z.of_nat (length s) < 2 ^ 63)%Z →
  (Z.of_nat (length s * binom (length s) k) < 2 ^ 63)%Z →
  Binomial (Z.of_nat (length s)) (Z.of_nat k) = Z.of_nat (binom (length s) k) ∧
  (∀ c, c ∈ Combinations s k ↔ sublist c s ∧ length c = k) ∧
  NoDup (Combinations s k) ∧ length (Combinations s k) = binom (length s) k.
Proof.
  intros Hs Hn Hb. split; [by apply Binomial_spec|].
  assert (Combinations s k = sublists s k) as ->.
  { rewrite Combinations_sublists by done. destruct (Nat.ltb_spec (length s) k); [|done].
    symmetry. apply nil_length_inv. rewrite sublists_length. by apply binom_gt. }
  split_and!; [apply sublists_spec|by apply sublists_NoDup|apply sublists_length].
Qed.
End properties.

Lemma Combinations_complete_witness :
  [2; 4; 5] ∈ Combinations [1; 2; 3; 4; 5] 3 ∧ length (Combinations [1; 2; 3; 4; 5] 3) = 10.
Proof.
  destruct (Combinations_complete [1; 2; 3; 4; 5] 3) as (_ & Hc & _ & ->).
  - refine (bool_decide_unpack _ _). vm_compute. exact I.
  - done.
  - done.
  - split; [|reflexivity]. apply Hc. split; [|reflexivity]. repeat constructor.
Defined.
