(* ===== verification/Matrix.v ===== *)
(** * Matrices (pkg/base/mat)

    [Matrix S] is the row-major representation shared by [Matrix],
    [SquareMatrix] and [ModuleValuedMatrix]: dimensions [m], [n] and the slice
    [v] of length [m * n] ([wf]).  Methods come in the code's two forms: the
    [...Assign] methods, which update the receiver in place, are functions
    from the old receiver to the new one, and the copying methods are built
    from them.  Indices checked by the code against negative values are [Z];
    a call the code panics on is [Panic]. *)

From Stdlib Require Import ZArith Lia Ring.
From S2P Require Import Prelude Algebra.

Record Matrix (S : Type) := mkMatrix { m : nat; n : nat; v : list S }.
Arguments mkMatrix {S} m n v.
Arguments m {S} _.
Arguments n {S} _.
Arguments v {S} _.

#[export] Instance matrix_inhabited {S} : Inhabited (Matrix S) := populate (mkMatrix 0 0 []).

(** The representation invariant: [init] allocates [rows * cols] cells. *)
Definition wf {S} (M : Matrix S) : Prop := length (v M) = m M * n M.

Section group_valued.
Context `{GroupElement E}.
Implicit Types (M N : Matrix E).

(** [idx] and an element access [v[idx(i, j)]]. *)
Definition idx (M : Matrix E) (row col : nat) : nat := row * n M + col.
Definition at_ M (i j : nat) : E := v M !!! idx M i j.

(** A matrix allocated by [init] and filled by the loops
    [for i := range rows { for j := range cols { ... } }]. *)
Definition mk (rows cols : nat) (f : nat → nat → E) : Matrix E :=
  mkMatrix rows cols (tabulate (rows * cols) (λ k, f (k / cols) (k mod cols))).

(** [scalarGroup]/[scalarRing] read the structure off [m.v[0]]: a panic on a
    matrix without cells. *)
Definition scalar_structure M : result unit :=
  match v M with [] => Panic | _ :: _ => Ok tt end.

Definition in_range (i : Z) (bound : nat) : bool := (0 <=? i)%Z && (i <? Z.of_nat bound)%Z.

(** ** Modules: constructors *)

Definition OpIdentity (rows cols : nat) : Matrix E := mk rows cols (λ _ _, gid).

Definition New (rows cols : nat) (rs : list (list E)) : result (Matrix E) :=
  if negb (length rs =? rows) then Err ErrDimension
  else if forallb (λ r, length r =? cols) rs
       then Ok (mkMatrix rows cols (concat rs))
       else Err ErrDimension.

Definition NewRowMajor (rows cols : nat) (elements : list E) : result (Matrix E) :=
  if negb (length elements =? rows * cols) then Err ErrDimension
  else Ok (mkMatrix rows cols elements).

(** [NewMatrixModule] rejects empty dimensions. *)
Definition NewMatrixModule (rows cols : nat) : result (nat * nat) :=
  if (rows =? 0) || (cols =? 0) then Err ErrDimension else Ok (rows, cols).

(** ** Element access *)

Definition Get M (row col : Z) : result E :=
  if negb (in_range row (m M) && in_range col (n M)) then Err ErrDimension
  else Ok (at_ M (Z.to_nat row) (Z.to_nat col)).

Definition GetRow M (i : Z) : result (Matrix E) :=
  if negb (in_range i (m M)) then Err ErrDimension
  else Ok (mkMatrix 1 (n M) (take (n M) (drop (Z.to_nat i * n M) (v M)))).

Definition GetColumn M (j : Z) : result (Matrix E) :=
  if negb (in_range j (n M)) then Err ErrDimension
  else Ok (mk (m M) 1 (λ i _, at_ M i (Z.to_nat j))).

Definition SetAssign M (r c : Z) (data : E) : result (Matrix E) :=
  if negb (in_range r (m M)) then Err ErrDimension
  else if negb (in_range c (n M)) then Err ErrDimension
  else Ok (mkMatrix (m M) (n M) (<[idx M (Z.to_nat r) (Z.to_nat c) := data]> (v M))).

Definition SetColumnAssign M (c : Z) (data : list E) : result (Matrix E) :=
  if negb (in_range c (n M)) then Err ErrDimension
  else if negb (length data =? m M) then Err ErrDimension
  else Ok (mk (m M) (n M) (λ i j, if j =? Z.to_nat c then data !!! i else at_ M i j)).

Definition SetRowAssign M (r : Z) (data : list E) : result (Matrix E) :=
  if negb (in_range r (m M)) then Err ErrDimension
  else if negb (length data =? n M) then Err ErrDimension
  else Ok (mk (m M) (n M) (λ i j, if i =? Z.to_nat r then data !!! j else at_ M i j)).

(** ** Group arithmetic *)

Definition OpAssign M N : result (Matrix E) :=
  if negb ((m M =? m N) && (n M =? n N)) then Panic
  else Ok (mkMatrix (m M) (n M) (zip_with gop (v M) (v N))).

Definition OpInvAssign M : Matrix E := mkMatrix (m M) (n M) (ginv <$> v M).

Definition IsOpIdentity M : bool := forallb (λ x, bool_decide (x = gid)) (v M).

Definition IsDiagonal M : bool :=
  forallb (λ i, forallb (λ j, (i =? j) || bool_decide (at_ M i j = gid))
    (seq 0 (n M))) (seq 0 (m M)).

(** ** Blocks *)

Definition Augment M N : result (Matrix E) :=
  if negb (m M =? m N) then Err ErrDimension
  else Ok (mk (m M) (n M + n N)
    (λ i j, if j <? n M then at_ M i j else at_ N i (j - n M))).

Definition Stack M N : result (Matrix E) :=
  if negb (n M =? n N) then Err ErrDimension
  else Ok (mkMatrix (m M + m N) (n M) (v M ++ v N)).

Definition SubMatrixGivenRows M (indices : list Z) : result (Matrix E) :=
  if length indices =? 0 then Err ErrDimension
  else if forallb (λ i, in_range i (m M)) indices
       then Ok (mk (length indices) (n M) (λ j c, at_ M (Z.to_nat (indices !!! j)) c))
       else Err ErrDimension.

Definition SubMatrixGivenColumns M (indices : list Z) : result (Matrix E) :=
  if length indices =? 0 then Err ErrDimension
  else if forallb (λ j, in_range j (n M)) indices
       then Ok (mk (m M) (length indices) (λ i j, at_ M i (Z.to_nat (indices !!! j))))
       else Err ErrDimension.

Definition RowSlice M (start end_ : Z) : result (Matrix E) :=
  if (start <? 0)%Z || (Z.of_nat (m M) <? end_)%Z || (end_ <=? start)%Z
  then Err ErrDimension
  else Ok (mkMatrix (Z.to_nat (end_ - start)) (n M)
    (take (Z.to_nat (end_ - start) * n M) (drop (Z.to_nat start * n M) (v M)))).

Definition ColumnSlice M (start end_ : Z) : result (Matrix E) :=
  if (start <? 0)%Z || (Z.of_nat (n M) <? end_)%Z || (end_ <=? start)%Z
  then Err ErrDimension
  else Ok (mk (m M) (Z.to_nat (end_ - start)) (λ i j, at_ M i (Z.to_nat start + j))).

(** ** Row and column exchange, transposition, minors *)

Definition swap_index (i j k : nat) : nat :=
  if k =? i then j else if k =? j then i else k.

Definition SwapRowAssign M (i j : Z) : result (Matrix E) :=
  if negb (in_range i (m M) && in_range j (m M)) then Panic
  else Ok (mk (m M) (n M) (λ r c, at_ M (swap_index (Z.to_nat i) (Z.to_nat j) r) c)).

Definition SwapRow M (i j : Z) : result (Matrix E) :=
  if negb (in_range i (m M) && in_range j (m M)) then Err ErrDimension
  else SwapRowAssign M i j.

Definition SwapColumnAssign M (i j : Z) : result (Matrix E) :=
  if negb (in_range i (n M) && in_range j (n M)) then Panic
  else Ok (mk (m M) (n M) (λ r c, at_ M r (swap_index (Z.to_nat i) (Z.to_nat j) c))).

Definition SwapColumn M (i j : Z) : result (Matrix E) :=
  if negb (in_range i (n M) && in_range j (n M)) then Err ErrDimension
  else SwapColumnAssign M i j.

Definition Transpose M : Matrix E := mk (n M) (m M) (λ i j, at_ M j i).

Definition Minor M (row col : Z) : result (Matrix E) :=
  if negb (in_range row (m M) && in_range col (n M)) then Err ErrDimension
  else if (m M <=? 1) || (n M <=? 1) then Err ErrDimension
  else Ok (mk (m M - 1) (n M - 1) (λ i j,
         at_ M (if Z.to_nat row <=? i then i + 1 else i)
               (if Z.to_nat col <=? j then j + 1 else j))).

Definition Equal M N : bool :=
  (m M =? m N) && (n M =? n N)
  && forallb (λ i, bool_decide (v M !!! i = v N !!! i)) (seq 0 (length (v M))).

Definition IsColumnVector M : bool := n M =? 1.
Definition IsRowVector M : bool := m M =? 1.

(** [vectorLength]: [-1] for a matrix that is not a vector. *)
Definition vectorLength M : Z :=
  if IsRowVector M then Z.of_nat (n M)
  else if IsColumnVector M then Z.of_nat (m M) else (-1)%Z.
End group_valued.

Section ring_valued.
Context `{RingElement R}.
Implicit Types (M N : Matrix R).

(** [NewStandardUnit(i)]: the [1 x cols] row with a one in column [i]. *)
Definition NewStandardUnit (cols : nat) (i : Z) : result (Matrix R) :=
  if negb (in_range i cols) then Err ErrDimension
  else Ok (mkMatrix 1 cols
    (<[Z.to_nat i := rone]> (replicate cols (rzero : R)))).

Definition SubAssign M N : result (Matrix R) :=
  if negb ((m M =? m N) && (n M =? n N)) then Panic
  else Ok (mkMatrix (m M) (n M) (zip_with rsub (v M) (v N))).

Definition TrySub M N : result (Matrix R) :=
  if negb ((m M =? m N) && (n M =? n N)) then Err ErrDimension else SubAssign M N.

Definition DoubleAssign M : result (Matrix R) := OpAssign M M.

Definition IsZero M : bool := forallb is_zero (v M).

Definition ColumnAddAssign M (i j : Z) (scalar : R) : result (Matrix R) :=
  if negb (in_range i (n M) && in_range j (n M)) then Err ErrDimension
  else Ok (mk (m M) (n M) (λ r c,
    if c =? Z.to_nat j then radd (at_ M r c) (rmul (at_ M r (Z.to_nat i)) scalar)
    else at_ M r c)).

Definition RowAddAssign M (i j : Z) (scalar : R) : result (Matrix R) :=
  if negb (in_range i (m M) && in_range j (m M)) then Err ErrDimension
  else Ok (mk (m M) (n M) (λ r c,
    if r =? Z.to_nat j then radd (at_ M r c) (rmul (at_ M (Z.to_nat i) c) scalar)
    else at_ M r c)).

Definition ColumnScalarMulAssign M (i : Z) (scalar : R) : result (Matrix R) :=
  if negb (in_range i (n M)) then Err ErrDimension
  else Ok (mk (m M) (n M) (λ r c,
    if c =? Z.to_nat i then rmul (at_ M r c) scalar else at_ M r c)).

Definition RowScalarMulAssign M (i : Z) (scalar : R) : result (Matrix R) :=
  if negb (in_range i (m M)) then Err ErrDimension
  else Ok (mk (m M) (n M) (λ r c,
    if r =? Z.to_nat i then rmul (at_ M r c) scalar else at_ M r c)).

(** [TryMul]: the triple loop with the accumulator [sum]. *)
Definition TryMul M N : result (Matrix R) :=
  if negb (n M =? m N) then Err ErrDimension
  else
    _ ← scalar_structure M;
    Ok (mk (m M) (n N) (λ i j,
      rsum (n M) (λ k, rmul (at_ M i k) (at_ N k j)))).

Definition HadamardProductAssign M N : result (Matrix R) :=
  if negb ((m M =? m N) && (n M =? n N)) then Err ErrDimension
  else Ok (mkMatrix (m M) (n M) (zip_with rmul (v M) (v N))).

Definition ScalarMulAssign M (scalar : R) : Matrix R :=
  mkMatrix (m M) (n M) ((λ x, rmul x scalar) <$> v M).

(** [DotProduct] of two vectors, each a row or a column. *)
Definition DotProduct M N : result R :=
  _ ← scalar_structure M;
  if (vectorLength M <? 0)%Z || (vectorLength N <? 0)%Z then Err ErrDimension
  else if negb (vectorLength M =? vectorLength N)%Z then Err ErrDimension
  else Ok (rsum (Z.to_nat (vectorLength M)) (λ i, rmul (v M !!! i) (v N !!! i))).

(** ** Square matrices ([MatrixAlgebra], [SquareMatrix]) *)

Definition AsSquare M : result (Matrix R) :=
  if negb (m M =? n M) then Err ErrDimension else Ok M.

Definition Identity (k : nat) : Matrix R :=
  mk k k (λ i j, if i =? j then rone else rzero).

Definition MulAssign M N : result (Matrix R) :=
  if negb (n M =? n N) then Panic
  else
    _ ← scalar_structure M;
    Ok (mk (n M) (n M) (λ i j,
      rsum (n M) (λ k, rmul (at_ M i k) (at_ N k j)))).

Definition Mul M N : result (Matrix R) :=
  match TryMul M N with Ok P => Ok P | _ => Panic end.

Definition IsIdentity M : bool :=
  forallb (λ i, forallb (λ j,
    bool_decide (at_ M i j = if i =? j then rone else rzero))
    (seq 0 (n M))) (seq 0 (n M)).

Definition Trace M : R := rsum (n M) (λ i, at_ M i i).

(** [findPivotRow(col, startRow)]: [None] is the code's [-1]. *)
Definition findPivotRow M (col startRow : nat) : option nat :=
  head (filter (λ r, is_zero (at_ M r col) = false) (seq startRow (m M - startRow))).
End ring_valued.

(** ** Module-valued matrices ([Lift], [LeftAction], [RightAction]) *)

Section module_valued.
Context `{ModuleElement R E}.

Definition Lift (M : Matrix R) (basePoint : E) : result (Matrix E) :=
  _ ← NewMatrixModule (m M) (n M);
  NewRowMajor (m M) (n M) ((λ c, scalar_op basePoint c) <$> v M).

Definition LeftAction (actor : Matrix R) (x : Matrix E) : result (Matrix E) :=
  if negb (n actor =? m x) then Err ErrDimension
  else
    _ ← scalar_structure x;
    _ ← NewMatrixModule (m actor) (n x);
    Ok (mk (m actor) (n x) (λ i j,
      gsum (n actor) (λ k, scalar_op (at_ x k j) (at_ actor i k)))).

Definition RightAction (x : Matrix E) (actor : Matrix R) : result (Matrix E) :=
  if negb (n x =? m actor) then Err ErrDimension
  else
    _ ← scalar_structure x;
    _ ← NewMatrixModule (m x) (n actor);
    Ok (mk (m x) (n actor) (λ i j,
      gsum (n x) (λ k, scalar_op (at_ x i k) (at_ actor k j)))).

Definition ScalarOpAssign (x : Matrix E) (scalar : R) : Matrix E :=
  mkMatrix (m x) (n x) ((λ e, scalar_op e scalar) <$> v x).
End module_valued.

Create Rewrite HintDb bron_mat.

(** ** Basic theory *)

Section theory.
Context `{GroupElement E}.
Implicit Types (M N : Matrix E).

Lemma wf_mk rows cols (f : nat → nat → E) : wf (mk rows cols f).
Proof. unfold wf; cbn. by rewrite length_tabulate. Qed.

Lemma at_mk rows cols (f : nat → nat → E) i j :
  i < rows → j < cols → at_ (mk rows cols f) i j = f i j.
Proof.
  intros Hi Hj. unfold at_, idx; cbn.
  rewrite tabulate_lookup_total by nia. f_equal.
  - rewrite Nat.div_add_l by lia. rewrite Nat.div_small by lia. lia.
  - rewrite Nat.add_comm, Nat.Div0.mod_add. by apply Nat.mod_small.
Qed.

(** Cells are addressed once: every index of the slice is [idx i j]. *)
Lemma idx_cover M k :
  wf M → k < length (v M) →
  ∃ i j, i < m M ∧ j < n M ∧ k = idx M i j.
Proof.
  unfold wf, idx. intros Hwf Hk. rewrite Hwf in Hk.
  assert (n M ≠ 0) by nia.
  exists (k / n M), (k mod n M). split_and!.
  - apply Nat.Div0.div_lt_upper_bound; lia.
  - by apply Nat.mod_upper_bound.
  - pose proof (Nat.div_mod_eq k (n M)). lia.
Qed.

Lemma idx_bound M i j : wf M → i < m M → j < n M → idx M i j < length (v M).
Proof. unfold wf, idx. intros ->. nia. Qed.

Lemma mat_eq M N :
  wf M → wf N → m M = m N → n M = n N →
  (∀ i j, i < m M → j < n M → at_ M i j = at_ N i j) → M = N.
Proof.
  intros HM HN Em En Hat. destruct M as [m1 n1 v1], N as [m2 n2 v2]; cbn in *.
  subst m2 n2. f_equal. apply list_eq_total.
  - unfold wf in *; cbn in *. congruence.
  - intros k Hk.
    destruct (idx_cover (mkMatrix m1 n1 v1) k HM Hk) as (i & j & Hi & Hj & ->).
    apply (Hat i j Hi Hj).
Qed.

Lemma mk_at M : wf M → mk (m M) (n M) (at_ M) = M.
Proof.
  intros HM. apply mat_eq; [apply wf_mk|done..|]. cbn. intros i j Hi Hj.
  by apply at_mk.
Qed.

Lemma mk_ext rows cols (f g : nat → nat → E) :
  (∀ i j, i < rows → j < cols → f i j = g i j) → mk rows cols f = mk rows cols g.
Proof.
  intros Hfg. apply mat_eq; [apply wf_mk..|done|done|]. cbn. intros i j Hi Hj.
  rewrite !at_mk by done. auto.
Qed.

Lemma in_range_nat (i k : nat) : in_range (Z.of_nat i) k = true ↔ i < k.
Proof. unfold in_range. rewrite andb_true_iff, Z.leb_le, Z.ltb_lt. lia. Qed.
Lemma in_range_true i k : in_range i k = true ↔ (0 ≤ i < Z.of_nat k)%Z.
Proof. unfold in_range. by rewrite andb_true_iff, Z.leb_le, Z.ltb_lt. Qed.
Lemma in_range_false i k : in_range i k = false ↔ ¬ (0 ≤ i < Z.of_nat k)%Z.
Proof. rewrite <-in_range_true. by destruct (in_range i k). Qed.

Lemma scalar_structure_ok M : wf M → 0 < m M → 0 < n M → scalar_structure M = Ok tt.
Proof.
  unfold wf, scalar_structure. intros Hwf Hm Hn. destruct (v M); cbn in *; [nia|done].
Qed.

Lemma NewMatrixModule_ok r c : r ≠ 0 → c ≠ 0 → NewMatrixModule r c = Ok (r, c).
Proof.
  intros Hr Hc. unfold NewMatrixModule.
  by rewrite (proj2 (Nat.eqb_neq _ _) Hr), (proj2 (Nat.eqb_neq _ _) Hc).
Qed.

Lemma NewRowMajor_ok r c (l : list E) :
  length l = r * c → NewRowMajor r c l = Ok (mkMatrix r c l).
Proof. intros Hl. unfold NewRowMajor. by rewrite (proj2 (Nat.eqb_eq _ _) Hl). Qed.

Lemma Equal_spec M N : wf M → wf N → Equal M N = true ↔ M = N.
Proof.
  intros HM HN. unfold Equal. rewrite !andb_true_iff, !Nat.eqb_eq, forallb_forall.
  split; [|intros ->; split_and!; [done..|intros; by apply bool_decide_eq_true]].
  intros [[Em En] Hv]. apply mat_eq; try done. intros i j Hi Hj.
  specialize (Hv (idx M i j)). rewrite bool_decide_eq_true in Hv.
  unfold at_. rewrite Hv; [by unfold idx; rewrite En|].
  apply in_seq. pose proof (idx_bound M i j HM Hi Hj). lia.
Qed.
End theory.

#[export] Hint Resolve wf_mk : bron.
#[export] Hint Rewrite @at_mk using lia : bron_mat.
