(* ===== verification/Solver.v ===== *)
(** * Linear systems (pkg/base/mat/solver.go)

    [solveAugmented] is Gauss-Jordan elimination on an augmented matrix,
    [SolveRight] and [SolveLeft] are its two entry points.  The elimination is
    shown to preserve the row space, so that the solver is correct and
    complete: it returns a solution exactly when one exists, and when it errs
    there is a certificate, a combination of the rows that annihilates the
    coefficients but not the augmented column. *)

From Stdlib Require Import ZArith Lia Ring Field.
From S2P Require Import Prelude Algebra Matrix.

Section solver.
Context `{FieldElement F}.
Local Open Scope alg_scope.
Add Ring SF_ring : (ring_laws (R:=F)).
Add Field SF_field : (field_laws (F:=F)).
Implicit Types (d A : Matrix F).

(** ** The code *)

(** The pivot search [for r := pivotRow; r < rows; r++]. *)
Definition find_pivot d (pc pivotRow : nat) : option nat :=
  head (filter (λ r, is_zero (at_ d r pc) = false) (seq pivotRow (m d - pivotRow))).

(** [d[pi], d[ri] = d[ri], d[pi]] for every column. *)
Definition swap_rows d (i j : nat) : Matrix F :=
  mk (m d) (n d) (λ r c, at_ d (swap_index i j r) c).

Definition scale_row d (p : nat) (inv : F) : Matrix F :=
  mk (m d) (n d) (λ r c, if (r =? p)%nat then at_ d r c * inv else at_ d r c).

(** [d[ii] = d[ii].Sub(factor.Mul(d[pi]))] for every row but the pivot's. *)
Definition eliminate d (p pc : nat) : Matrix F :=
  mk (m d) (n d) (λ r c,
    if (r =? p)%nat then at_ d r c
    else if is_zero (at_ d r pc) then at_ d r c
    else at_ d r c - at_ d r pc * at_ d p c).

Record gj_state := mkGJ { gj_d : Matrix F; gj_row : nat; gj_cols : list nat }.

(** One iteration of the loop over [pc]; once [pivotRow = rows] the loop
    condition fails and the remaining columns are not visited. *)
Definition gj_step (st : gj_state) (pc : nat) : result gj_state :=
  let d := gj_d st in
  let pivotRow := gj_row st in
  if (m d <=? pivotRow)%nat then Ok st
  else match find_pivot d pc pivotRow with
  | None => Ok st
  | Some pr =>
      let d := if (pr =? pivotRow)%nat then d else swap_rows d pivotRow pr in
      match try_inv (at_ d pivotRow pc) with
      | Ok invPivot =>
          let d := scale_row d pivotRow invPivot in
          let d := eliminate d pivotRow pc in
          Ok (mkGJ d (S pivotRow) (gj_cols st ++ [pc]))
      | _ => Err ErrFailed
      end
  end.

(** [sol[pc] = d[idx(i, numVars)]] for the pivot columns, zero elsewhere. *)
Definition extract_solution d (pivotCols : list nat) (numVars : nat) : list F :=
  foldl (λ sol ic, <[snd ic := at_ d (fst ic) numVars]> sol)
    (replicate numVars 0) (imap pair pivotCols).

Definition solveAugmented (aug : Matrix F) : result (list F) :=
  let numVars := (n aug - 1)%nat in
  st ← foldM gj_step (mkGJ aug 0 []) (seq 0 numVars);
  if forallb (λ i, is_zero (at_ (gj_d st) i numVars))
       (seq (gj_row st) (m aug - gj_row st))
  then Ok (extract_solution (gj_d st) (gj_cols st) numVars)
  else Err ErrFailed.

Definition SolveRight (M column : Matrix F) : result (Matrix F) :=
  if negb (n column =? 1)%nat then Err ErrDimension
  else if negb (m column =? m M)%nat then Err ErrDimension
  else
    aug ← Augment M column;
    _ ← scalar_structure M;
    sol ← solveAugmented aug;
    _ ← NewMatrixModule (n M) 1;
    NewRowMajor (n M) 1 sol.

Definition SolveLeft (M row : Matrix F) : result (Matrix F) :=
  if negb (m row =? 1)%nat then Err ErrDimension
  else if negb (n row =? n M)%nat then Err ErrDimension
  else
    let aug := mk (n M) (m M + 1) (λ i j,
      if (j <? m M)%nat then at_ M j i else v row !!! i) in
    _ ← scalar_structure M;
    sol ← solveAugmented aug;
    _ ← NewMatrixModule (m M) 1;
    NewRowMajor (m M) 1 sol.

(** ** Row spaces *)

(** Every row of [d'] is a combination of the rows of [d]. *)
Definition row_combs (rows cols : nat) (d' d : Matrix F) : Prop :=
  ∃ L : nat → nat → F, ∀ r c, (r < rows)%nat → (c < cols)%nat →
    at_ d' r c = rsum rows (λ k, L r k * at_ d k c).

Lemma row_combs_refl rows cols d : row_combs rows cols d d.
Proof.
  exists (λ r k, if decide (k = r) then 1 else 0). intros r c Hr _.
  by rewrite rsum_delta.
Qed.

Lemma row_combs_trans rows cols d1 d2 d3 :
  row_combs rows cols d1 d2 → row_combs rows cols d2 d3 → row_combs rows cols d1 d3.
Proof.
  intros [L1 H1] [L2 H2].
  exists (λ r k, rsum rows (λ j, L1 r j * L2 j k)). intros r c Hr Hc.
  rewrite H1 by done.
  rewrite (rsum_ext _ _ (λ j, rsum rows (λ k, L1 r j * (L2 j k * at_ d3 k c)))).
  2: { intros j Hj. by rewrite (H2 j c), rsum_mul_l. }
  rewrite rsum_swap. apply rsum_ext. intros k Hk. rewrite rsum_mul_r.
  apply rsum_ext. intros; ring.
Qed.

(** The shape of every row operation: a multiple of one old row plus a
    multiple of row [p]. *)
Lemma row_combs_op rows cols d' d (a b : nat → F) (s : nat → nat) p :
  (p < rows)%nat → (∀ r, (r < rows)%nat → (s r < rows)%nat) →
  (∀ r c, (r < rows)%nat → (c < cols)%nat →
    at_ d' r c = a r * at_ d (s r) c + b r * at_ d p c) →
  row_combs rows cols d' d.
Proof.
  intros Hp Hs Hd.
  exists (λ r k, a r * (if decide (k = s r) then 1 else 0)
                 + b r * (if decide (k = p) then 1 else 0)).
  intros r c Hr Hc. rewrite Hd by done.
  rewrite (rsum_ext _ _ (λ k,
    a r * ((if decide (k = s r) then 1 else 0) * at_ d k c)
    + b r * ((if decide (k = p) then 1 else 0) * at_ d k c))).
  2: { intros; ring. }
  rewrite rsum_add, <-!rsum_mul_l, !rsum_delta; auto.
Qed.

(** A combination of rows transports solutions and annihilators. *)
Lemma row_combs_solution rows cols d' d (x : nat → F) (b : nat) :
  row_combs rows cols d' d → (b < cols)%nat →
  (∀ r, (r < rows)%nat → rsum b (λ c, at_ d r c * x c) = at_ d r b) →
  ∀ r, (r < rows)%nat → rsum b (λ c, at_ d' r c * x c) = at_ d' r b.
Proof.
  intros [L HL] Hb Hx r Hr. rewrite HL by done.
  rewrite (rsum_ext b _ (λ c, rsum rows (λ k, L r k * (at_ d k c * x c)))).
  2: { intros c Hc. rewrite HL by lia. rewrite rsum_mul_r. apply rsum_ext. intros; ring. }
  rewrite rsum_swap. apply rsum_ext. intros k Hk.
  by rewrite <-rsum_mul_l, Hx.
Qed.

Lemma swap_index_lt i j k rows :
  (i < rows)%nat → (j < rows)%nat → (k < rows)%nat → (swap_index i j k < rows)%nat.
Proof. unfold swap_index. repeat case_match; lia. Qed.

Lemma swap_index_invol i j k : swap_index i j (swap_index i j k) = k.
Proof.
  unfold swap_index. repeat case_match; rewrite ?Nat.eqb_eq, ?Nat.eqb_neq in *; lia.
Qed.

(** ** Each row operation preserves the row space, both ways *)

Definition row_equiv (d' d : Matrix F) : Prop :=
  m d' = m d ∧ n d' = n d ∧
  row_combs (m d) (n d) d' d ∧ row_combs (m d) (n d) d d'.

Lemma row_equiv_refl d : row_equiv d d.
Proof. split_and!; auto using row_combs_refl. Qed.

Lemma row_equiv_trans d1 d2 d3 : row_equiv d1 d2 → row_equiv d2 d3 → row_equiv d1 d3.
Proof.
  intros (Em & En & H1 & H2) (Em' & En' & H3 & H4). unfold row_equiv.
  rewrite Em, En in *. rewrite Em', En' in *.
  split_and!; eauto using row_combs_trans.
Qed.

Lemma swap_rows_equiv d i j :
  (i < m d)%nat → (j < m d)%nat → row_equiv (swap_rows d i j) d.
Proof.
  intros Hi Hj. split_and!; [done|done|..].
  - apply (row_combs_op _ _ _ _ (λ _, 1) (λ _, 0) (swap_index i j) i);
      [done|auto using swap_index_lt|].
    intros r c Hr Hc. unfold swap_rows. rewrite at_mk by done. ring.
  - apply (row_combs_op _ _ _ _ (λ _, 1) (λ _, 0) (swap_index i j) i);
      [done|auto using swap_index_lt|].
    intros r c Hr Hc. unfold swap_rows. rewrite !at_mk by auto using swap_index_lt.
    rewrite swap_index_invol. ring.
Qed.

Lemma scale_row_equiv d p inv :
  (p < m d)%nat → inv ≠ 0 → row_equiv (scale_row d p inv) d.
Proof.
  intros Hp Hinv. split_and!; [done|done|..].
  - apply (row_combs_op _ _ _ _ (λ r, if (r =? p)%nat then inv else 1) (λ _, 0) id p);
      [done..|].
    intros r c Hr Hc. unfold scale_row, id. rewrite at_mk by done.
    case_match; ring.
  - apply (row_combs_op _ _ _ _ (λ r, if (r =? p)%nat then inv0 inv else 1) (λ _, 0) id p);
      [done..|].
    intros r c Hr Hc. unfold scale_row, id. rewrite !at_mk by done.
    case_match; [field; done|ring].
Qed.

Lemma eliminate_at d p pc r c :
  (r < m d)%nat → (c < n d)%nat →
  at_ (eliminate d p pc) r c
  = if (r =? p)%nat then at_ d r c else at_ d r c - at_ d r pc * at_ d p c.
Proof.
  intros Hr Hc. unfold eliminate. rewrite at_mk by done.
  case_match; [done|]. case_match eqn:E; [|done].
  apply is_zero_true in E. rewrite E. ring.
Qed.

Lemma eliminate_equiv d p pc : (p < m d)%nat → row_equiv (eliminate d p pc) d.
Proof.
  intros Hp. split_and!; [done|done|..].
  - apply (row_combs_op _ _ _ _ (λ _, 1)
      (λ r, if (r =? p)%nat then 0 else - at_ d r pc) id p); [done..|].
    intros r c Hr Hc. rewrite eliminate_at by done. unfold id. case_match; ring.
  - apply (row_combs_op _ _ _ _ (λ _, 1)
      (λ r, if (r =? p)%nat then 0 else at_ d r pc) id p); [done..|].
    intros r c Hr Hc. rewrite !eliminate_at by done. unfold id.
    rewrite Nat.eqb_refl. case_match; ring.
Qed.

(** ** The elimination invariant *)

Lemma find_pivot_Some d pc p pr :
  find_pivot d pc p = Some pr → (p ≤ pr < m d)%nat ∧ at_ d pr pc ≠ 0.
Proof.
  unfold find_pivot. intros E.
  assert (pr ∈ filter (λ r, is_zero (at_ d r pc) = false) (seq p (m d - p))) as Hin.
  { destruct (filter _ _); [done|]. injection E as ->. left. }
  apply list_elem_of_filter in Hin as [Hz Hin%elem_of_seq].
  split; [lia|]. by apply is_zero_false.
Qed.

Lemma find_pivot_None d pc p :
  find_pivot d pc p = None → ∀ r, (p ≤ r < m d)%nat → at_ d r pc = 0.
Proof.
  unfold find_pivot. intros E r Hr.
  destruct (is_zero (at_ d r pc)) eqn:Ez; [by apply is_zero_true|].
  assert (r ∈ filter (λ r, is_zero (at_ d r pc) = false) (seq p (m d - p))) as Hin.
  { apply list_elem_of_filter. split; [done|]. apply elem_of_seq. lia. }
  destruct (filter _ _); [by apply elem_of_nil in Hin|done].
Qed.

(** After the columns [0 .. pc-1]: the matrix is row equivalent to the
    original one, pivot column [i] is the [i]-th unit column, and the rows
    below the last pivot vanish on the visited columns. *)
Record gj_inv (A : Matrix F) (st : gj_state) (pc : nat) : Prop := {
  gji_equiv : row_equiv (gj_d st) A;
  gji_row : gj_row st = length (gj_cols st);
  gji_le : (gj_row st ≤ m A)%nat;
  gji_unit : ∀ i c, gj_cols st !! i = Some c →
    (c < pc)%nat ∧ ∀ k, (k < m A)%nat → at_ (gj_d st) k c = if decide (k = i) then 1 else 0;
  gji_zero : ∀ r c, (gj_row st ≤ r < m A)%nat → (c < pc)%nat → at_ (gj_d st) r c = 0;
}.

Lemma gj_inv_init A : gj_inv A (mkGJ A 0 []) 0.
Proof. split; cbn; [apply row_equiv_refl|done|lia|done|lia]. Qed.

(** The swap, scaling and elimination of one pivot, entry by entry. *)
Definition pivot_rows d (p pr pc : nat) : Matrix F :=
  let d := if (pr =? p)%nat then d else swap_rows d p pr in
  eliminate (scale_row d p (inv0 (at_ d p pc))) p pc.

Lemma swapped_at d p pr r c :
  (r < m d)%nat → (c < n d)%nat →
  at_ (if (pr =? p)%nat then d else swap_rows d p pr) r c = at_ d (swap_index p pr r) c.
Proof.
  intros Hr Hc. case_match eqn:E.
  - apply Nat.eqb_eq in E as ->. f_equal. unfold swap_index.
    repeat case_match; rewrite ?Nat.eqb_eq in *; congruence.
  - unfold swap_rows. by rewrite at_mk.
Qed.

Lemma swapped_dims d p pr :
  m (if (pr =? p)%nat then d else swap_rows d p pr) = m d ∧
  n (if (pr =? p)%nat then d else swap_rows d p pr) = n d.
Proof. by case_match. Qed.

Lemma pivot_rows_at d p pr pc r c :
  (p < m d)%nat → (pc < n d)%nat → (r < m d)%nat → (c < n d)%nat →
  at_ d pr pc ≠ 0 →
  at_ (pivot_rows d p pr pc) r c
  = if (r =? p)%nat then at_ d pr c * inv0 (at_ d pr pc)
    else at_ d (swap_index p pr r) c
         - at_ d (swap_index p pr r) pc * (at_ d pr c * inv0 (at_ d pr pc)).
Proof.
  intros Hp Hpc Hr Hc Hnz. unfold pivot_rows.
  pose proof (swapped_at d p pr) as Hsw. pose proof (swapped_dims d p pr) as [Em En].
  set (d' := if (pr =? p)%nat then d else swap_rows d p pr) in *.
  assert (Hpp : ∀ c, (c < n d)%nat → at_ d' p c = at_ d pr c).
  { intros c' Hc'. rewrite Hsw by done. unfold swap_index. by rewrite Nat.eqb_refl. }
  clearbody d'.
  rewrite eliminate_at by (cbn; lia). unfold scale_row. cbn.
  rewrite !at_mk by (cbn; lia). rewrite Nat.eqb_refl, !Hpp by done.
  destruct (Nat.eqb_spec r p) as [->|_]; [by rewrite Hpp|]. rewrite !Hsw by done. ring.
Qed.

Lemma pivot_rows_equiv d p pr pc :
  (p ≤ pr < m d)%nat → (pc < n d)%nat → at_ d pr pc ≠ 0 →
  row_equiv (pivot_rows d p pr pc) d.
Proof.
  intros Hp Hpc Hnz. unfold pivot_rows.
  assert (at_ (if (pr =? p)%nat then d else swap_rows d p pr) p pc = at_ d pr pc) as Hpp.
  { rewrite swapped_at by lia. unfold swap_index. by rewrite Nat.eqb_refl. }
  pose proof (swapped_dims d p pr) as [Em En].
  eapply row_equiv_trans; [apply eliminate_equiv; cbn; lia|].
  eapply row_equiv_trans; [apply scale_row_equiv; [lia|]|].
  { rewrite Hpp. by apply inv0_ne_0. }
  case_match; [apply row_equiv_refl|]. apply swap_rows_equiv; lia.
Qed.

Lemma gj_step_pivot st pc pr :
  (gj_row st < m (gj_d st))%nat → find_pivot (gj_d st) pc (gj_row st) = Some pr →
  (pc < n (gj_d st))%nat →
  gj_step st pc = Ok (mkGJ (pivot_rows (gj_d st) (gj_row st) pr pc)
                       (S (gj_row st)) (gj_cols st ++ [pc])).
Proof.
  intros Hrow Hpr Hpc. unfold gj_step.
  destruct (m (gj_d st) <=? gj_row st)%nat eqn:E; [apply Nat.leb_le in E; lia|].
  rewrite Hpr. apply find_pivot_Some in Hpr as [Hr Hnz].
  assert (at_ (if (pr =? gj_row st)%nat then gj_d st else
    swap_rows (gj_d st) (gj_row st) pr) (gj_row st) pc = at_ (gj_d st) pr pc) as Hpp.
  { rewrite swapped_at by lia. unfold swap_index. by rewrite Nat.eqb_refl. }
  rewrite Hpp, try_inv_inv0 by done. unfold pivot_rows. by rewrite Hpp.
Qed.

Lemma gj_inv_pivot A st pc pr :
  gj_inv A st pc → (pc < n A)%nat → find_pivot (gj_d st) pc (gj_row st) = Some pr →
  gj_inv A (mkGJ (pivot_rows (gj_d st) (gj_row st) pr pc)
               (S (gj_row st)) (gj_cols st ++ [pc])) (S pc).
Proof.
  intros [Heq Hrow Hle Hunit Hzero] Hpc [Hr Hnz]%find_pivot_Some.
  pose proof Heq as (Em & En & _). set (d := gj_d st) in *. set (p := gj_row st) in *.
  assert (Hat : ∀ r c, (r < m A)%nat → (c < n A)%nat →
    at_ (pivot_rows d p pr pc) r c
    = if (r =? p)%nat then at_ d pr c * inv0 (at_ d pr pc)
      else at_ d (swap_index p pr r) c
           - at_ d (swap_index p pr r) pc * (at_ d pr c * inv0 (at_ d pr pc))).
  { intros r c ??. apply pivot_rows_at; lia || done. }
  assert (Hswge : ∀ r, (p < r < m A)%nat → (p ≤ swap_index p pr r < m A)%nat).
  { intros r Hr'. unfold swap_index. repeat case_match; lia. }
  split; cbn.
  - eapply row_equiv_trans; [apply pivot_rows_equiv; lia || done|done].
  - rewrite length_app; cbn. lia.
  - lia.
  - intros i c [Hi|[Hi ->]]%lookup_snoc_Some.
    + destruct Hi as [Hi Hc]. destruct (Hunit i c Hc) as [Hcpc Hcol].
      split; [lia|]. intros k Hk. rewrite Hat by lia.
      assert (at_ d pr c = 0) as -> by (rewrite Hcol by lia; case_decide; [lia|done]).
      destruct (k =? p)%nat eqn:Ek.
      { apply Nat.eqb_eq in Ek. case_decide; [lia|ring]. }
      apply Nat.eqb_neq in Ek.
      assert (swap_index p pr k < m A)%nat by (apply swap_index_lt; lia).
      rewrite Hcol by done. unfold swap_index in *.
      repeat case_match; repeat case_decide; rewrite ?Nat.eqb_eq, ?Nat.eqb_neq in *;
        try lia; ring.
    + split; [lia|]. intros k Hk. rewrite Hat by lia.
      destruct (k =? p)%nat eqn:Ek.
      * apply Nat.eqb_eq in Ek. rewrite decide_True by lia. field. done.
      * apply Nat.eqb_neq in Ek. rewrite decide_False by lia. field. done.
  - intros r c Hr' Hc. rewrite Hat by lia.
    destruct (r =? p)%nat eqn:Ek; [apply Nat.eqb_eq in Ek; lia|].
    destruct (decide (c = pc)) as [->|Hne].
    + field. done.
    + rewrite (Hzero pr c) by lia. rewrite (Hzero (swap_index p pr r) c); [ring| |lia].
      apply Hswge. lia.
Qed.

Lemma gj_step_inv A st pc :
  gj_inv A st pc → (pc < n A)%nat →
  ∃ st', gj_step st pc = Ok st' ∧ gj_inv A st' (S pc).
Proof.
  intros Hinv Hpc. pose proof Hinv as [(Em & En & _) Hrow Hle Hunit Hzero].
  destruct (decide (m (gj_d st) ≤ gj_row st)%nat) as [Hge|Hlt].
  - exists st. unfold gj_step. rewrite (proj2 (Nat.leb_le _ _)) by done.
    split; [done|]. split; try apply Hinv.
    + intros i c Hi. destruct (Hunit i c Hi). split; [lia|done].
    + intros; lia.
  - destruct (find_pivot (gj_d st) pc (gj_row st)) as [pr|] eqn:Epr.
    + eexists. split; [apply gj_step_pivot; [lia|done|lia]|]. by apply gj_inv_pivot.
    + exists st. unfold gj_step. destruct (m (gj_d st) <=? gj_row st)%nat eqn:E.
      { apply Nat.leb_le in E. lia. }
      rewrite Epr. split; [done|]. split; try apply Hinv.
      * intros i c Hi. destruct (Hunit i c Hi). split; [lia|done].
      * intros r c Hr Hc. destruct (decide (c = pc)) as [->|].
        -- apply find_pivot_None with (gj_row st); [done|lia].
        -- apply Hzero; lia.
Qed.

(** The elimination loop never errs: every pivot it divides by is non-zero. *)
Lemma gj_loop_inv A k :
  (k ≤ n A)%nat →
  ∃ st, foldM gj_step (mkGJ A 0 []) (seq 0 k) = Ok st ∧ gj_inv A st k.
Proof.
  intros Hk.
  assert (∀ j st0 pc0, (pc0 + j ≤ n A)%nat → gj_inv A st0 pc0 →
    ∃ st, foldM gj_step st0 (seq pc0 j) = Ok st ∧ gj_inv A st (pc0 + j)) as Hgen.
  { induction j as [|j IH]; intros st0 pc0 Hj Hinv; cbn.
    - exists st0. by rewrite Nat.add_0_r.
    - destruct (gj_step_inv A st0 pc0 Hinv) as (st1 & -> & Hinv1); [lia|]. cbn.
      destruct (IH st1 (S pc0)) as (st & Hst & Hinv2); [lia|done|].
      exists st. split; [done|]. by replace (pc0 + S j)%nat with (S pc0 + j)%nat by lia. }
  apply (Hgen k _ 0%nat); [lia|apply gj_inv_init].
Qed.

(** ** The extracted solution *)

Lemma extract_solution_spec d cols nv :
  NoDup cols → (∀ i c, cols !! i = Some c → (c < nv)%nat) →
  length (extract_solution d cols nv) = nv ∧
  (∀ i c, cols !! i = Some c → extract_solution d cols nv !!! c = at_ d i nv) ∧
  (∀ c, c ∉ cols → extract_solution d cols nv !!! c = 0).
Proof.
  unfold extract_solution. induction cols as [|c0 cols IH] using rev_ind; intros Hnd Hlt.
  { cbn. rewrite length_replicate. split_and!; [done|done|]. intros c _.
    destruct (decide (c < nv)%nat).
    - by apply lookup_total_replicate_2.
    - rewrite list_lookup_total_alt, lookup_ge_None_2 by (rewrite length_replicate; lia).
      done. }
  rewrite imap_app, foldl_app. cbn.
  apply NoDup_app in Hnd as (Hnd & Hnot & _).
  destruct IH as (Hlen & Hin & Hout); [done| |].
  { intros i c Hi. apply (Hlt i). by apply lookup_app_l_Some. }
  rewrite Nat.add_0_r in *. set (sol := foldl _ _ _) in *.
  assert (Hc0 : (c0 < nv)%nat).
  { apply (Hlt (length cols)). apply lookup_snoc_Some. by right. }
  rewrite length_insert. split_and!; [done| |].
  - intros i c [[Hi Hc]|[Hi ->]]%lookup_snoc_Some.
    + rewrite list_lookup_total_insert_ne; [by apply Hin|].
      intros ->. apply (Hnot c); [|by left]. apply list_elem_of_lookup. eauto.
    + rewrite list_lookup_total_insert_eq by lia. by rewrite Hi.
  - intros c [Hc Hne]%not_elem_of_app. rewrite list_lookup_total_insert_ne.
    + by apply Hout.
    + intros ->. apply Hne. by left.
Qed.

Lemma gj_inv_cols A st :
  gj_inv A st (n A - 1) →
  NoDup (gj_cols st) ∧ (∀ i c, gj_cols st !! i = Some c → (c < n A - 1)%nat).
Proof.
  intros [_ Hrow Hle Hunit _]. split.
  - apply NoDup_alt. intros i j c Hi Hj.
    destruct (Hunit i c Hi) as [_ H1]. destruct (Hunit j c Hj) as [_ H2].
    assert (i < m A)%nat as Him by (apply lookup_lt_Some in Hi; lia).
    specialize (H1 i Him). rewrite H2 in H1 by done.
    repeat case_decide; try done. by destruct one_ne_zero.
  - intros i c Hi. by destruct (Hunit i c Hi).
Qed.

(** The extracted vector solves the reduced system. *)
Lemma reduced_solution A st :
  gj_inv A st (n A - 1) →
  (∀ r, (gj_row st ≤ r < m A)%nat → at_ (gj_d st) r (n A - 1) = 0) →
  ∀ r, (r < m A)%nat →
    rsum (n A - 1) (λ c, at_ (gj_d st) r c *
      extract_solution (gj_d st) (gj_cols st) (n A - 1) !!! c)
    = at_ (gj_d st) r (n A - 1).
Proof.
  intros Hinv Hcons r Hr. destruct (gj_inv_cols A st Hinv) as [Hnd Hlt].
  destruct Hinv as [_ Hrow Hle Hunit Hzero].
  destruct (extract_solution_spec (gj_d st) (gj_cols st) (n A - 1) Hnd Hlt)
    as (_ & Hin & Hout).
  destruct (decide (r < gj_row st)%nat) as [Hlt'|Hge].
  - destruct (lookup_lt_is_Some_2 (gj_cols st) r) as [c Hc]; [lia|].
    rewrite (rsum_single _ c); [|by eapply Hlt|].
    + rewrite (Hin r c Hc). destruct (Hunit r c Hc) as [_ ->]; [|done].
      rewrite decide_True by done. ring.
    + intros c' Hc' Hne. destruct (decide (c' ∈ gj_cols st)) as [Hel|Hel].
      * apply list_elem_of_lookup in Hel as [i Hi].
        destruct (Hunit i c' Hi) as [_ ->]; [|done].
        rewrite decide_False by congruence. ring.
      * rewrite Hout by done. ring.
  - rewrite rsum_0_ext; [by rewrite Hcons by lia|].
    intros c Hc. rewrite Hzero by lia. ring.
Qed.

(** ** Correctness of the solver *)

(** [x] solves the system whose coefficients are the first [n A - 1] columns
    of [A] and whose right-hand side is the last one. *)
Definition solves (A : Matrix F) (x : nat → F) : Prop :=
  ∀ r, (r < m A)%nat → rsum (n A - 1) (λ c, at_ A r c * x c) = at_ A r (n A - 1).

(** [y] certifies that no [x] does: it annihilates the coefficients and not
    the right-hand side. *)
Definition refutes (A : Matrix F) (y : nat → F) : Prop :=
  (∀ c, (c < n A - 1)%nat → rsum (m A) (λ r, y r * at_ A r c) = 0) ∧
  rsum (m A) (λ r, y r * at_ A r (n A - 1)) = 1.

Lemma refutes_not_solves A x y : refutes A y → ¬ solves A x.
Proof.
  intros [Hz Hb] Hx. apply one_ne_zero. rewrite <-Hb.
  rewrite (rsum_ext _ _ (λ r, rsum (n A - 1) (λ c, x c * (y r * at_ A r c)))).
  - rewrite rsum_swap. apply rsum_0_ext. intros c Hc.
    rewrite <-rsum_mul_l, Hz by done. ring.
  - intros r Hr. rewrite <-Hx by done. rewrite rsum_mul_l.
    apply rsum_ext. intros; ring.
Qed.

Lemma solveAugmented_spec A :
  (0 < n A)%nat →
  (∃ sol, solveAugmented A = Ok sol ∧ length sol = (n A - 1)%nat ∧
          solves A (λ c, sol !!! c)) ∨
  (solveAugmented A = Err ErrFailed ∧ ∃ y, refutes A y).
Proof.
  intros Hn. unfold solveAugmented.
  destruct (gj_loop_inv A (n A - 1)) as (st & -> & Hinv); [lia|]. cbn.
  pose proof Hinv as [(Em & En & [L HL] & Hback) Hrow Hle Hunit Hzero].
  destruct (forallb _ _) eqn:Hc.
  - left. eexists. split; [done|]. destruct (gj_inv_cols A st Hinv) as [Hnd Hlt].
    split; [by apply (extract_solution_spec _ _ _ Hnd Hlt)|].
    rewrite forallb_forall in Hc. unfold solves.
    apply (row_combs_solution (m A) (n A) A (gj_d st)); [done|lia|].
    apply reduced_solution; [done|]. intros r Hr. apply is_zero_true, Hc, in_seq. lia.
  - right. split; [done|].
    apply not_true_iff_false in Hc. rewrite forallb_forall in Hc.
    assert (∃ r, (gj_row st ≤ r < m A)%nat ∧ at_ (gj_d st) r (n A - 1) ≠ 0)
      as (r & Hr & Hnz).
    { destruct (list_find (λ r, at_ (gj_d st) r (n A - 1) ≠ 0)
        (seq (gj_row st) (m A - gj_row st))) as [[i r]|] eqn:Ef.
      - apply list_find_Some in Ef as (Hi & Hr & _).
        apply list_elem_of_lookup_2, elem_of_seq in Hi. exists r. split; [lia|done].
      - exfalso. apply Hc. intros r Hr. apply list_find_None in Ef.
        rewrite Forall_forall in Ef. apply is_zero_true.
        destruct (decide (at_ (gj_d st) r (n A - 1) = 0)) as [|Hne]; [done|].
        exfalso. apply (Ef r); [|done]. by apply list_elem_of_In. }
    exists (λ k, inv0 (at_ (gj_d st) r (n A - 1)) * L r k). split.
    + intros c Hc'. rewrite (rsum_ext _ _ (λ k, inv0 (at_ (gj_d st) r (n A - 1))
        * (L r k * at_ A k c))) by (intros; ring).
      rewrite <-rsum_mul_l, <-HL by lia. rewrite (Hzero r c) by lia. ring.
    + rewrite (rsum_ext _ _ (λ k, inv0 (at_ (gj_d st) r (n A - 1))
        * (L r k * at_ A k (n A - 1)))) by (intros; ring).
      rewrite <-rsum_mul_l, <-HL by lia. by apply inv0_l.
Qed.

Lemma NewRowMajor_col k (l : list F) :
  length l = k → (0 < k)%nat →
  (_ ← NewMatrixModule k 1; NewRowMajor k 1 l) = Ok (mkMatrix k 1 l).
Proof.
  intros Hl Hk. unfold NewMatrixModule, NewRowMajor.
  destruct (Nat.eqb_spec k 0); [lia|]. cbn.
  by rewrite Hl, Nat.mul_1_r, Nat.eqb_refl.
Qed.

Lemma at_col k (l : list F) i : at_ (mkMatrix k 1 l) i 0 = l !!! i.
Proof. unfold at_, idx; cbn. f_equal. lia. Qed.

Lemma at_row_vector (row : Matrix F) j : at_ row 0 j = v row !!! j.
Proof. done. Qed.

Lemma SolveLeft_spec (M row : Matrix F) :
  wf M → (0 < m M)%nat → (0 < n M)%nat → m row = 1%nat → n row = n M →
  (∃ x, SolveLeft M row = Ok (mkMatrix (m M) 1 x) ∧ length x = m M ∧
     ∀ j, (j < n M)%nat → rsum (m M) (λ i, x !!! i * at_ M i j) = at_ row 0 j) ∨
  (SolveLeft M row = Err ErrFailed ∧
   ∃ k : nat → F, (∀ i, (i < m M)%nat → rsum (n M) (λ j, at_ M i j * k j) = 0) ∧
     rsum (n M) (λ j, at_ row 0 j * k j) = 1).
Proof.
  intros Hwf Hm Hn Hr1 Hrn. unfold SolveLeft. rewrite Hr1, Hrn, !Nat.eqb_refl. cbn [negb].
  rewrite scalar_structure_ok by done. cbn [mbind result_bind].
  set (aug := mk (n M) (m M + 1) _).
  assert (Hat : ∀ j i, (j < n M)%nat → (i < m M)%nat → at_ aug j i = at_ M i j).
  { intros j i Hj Hi. unfold aug. rewrite at_mk by lia.
    destruct (Nat.ltb_spec i (m M)); [done|lia]. }
  assert (Hrhs : ∀ j, (j < n M)%nat → at_ aug j (m M) = at_ row 0 j).
  { intros j Hj. unfold aug. rewrite at_mk by lia. by rewrite Nat.ltb_irrefl. }
  assert (n aug - 1 = m M)%nat as En by (cbn; lia).
  destruct (solveAugmented_spec aug) as [(sol & -> & Hlen & Hsol)|(-> & y & Hz & Hb)];
    [cbn; lia|left|right].
  - unfold solves in Hsol. rewrite En in *. exists sol.
    split_and!; [by apply (NewRowMajor_col (m M) sol)|done|].
    intros j Hj. rewrite <-Hrhs by done. rewrite <-Hsol by done.
    apply rsum_ext. intros i Hi. rewrite Hat by done. ring.
  - rewrite En in *. split; [done|]. exists y. split.
    + intros i Hi. etransitivity; [|by apply (Hz i)]. apply rsum_ext. intros j Hj.
      rewrite Hat by done. ring.
    + rewrite <-Hb. apply rsum_ext. intros j Hj. rewrite Hrhs by done. ring.
Qed.

Lemma SolveRight_spec (M col : Matrix F) :
  wf M → (0 < m M)%nat → (0 < n M)%nat → n col = 1%nat → m col = m M →
  (∃ x, SolveRight M col = Ok (mkMatrix (n M) 1 x) ∧ length x = n M ∧
     ∀ i, (i < m M)%nat → rsum (n M) (λ j, at_ M i j * x !!! j) = at_ col i 0) ∨
  (SolveRight M col = Err ErrFailed ∧
   ∃ k : nat → F, (∀ j, (j < n M)%nat → rsum (m M) (λ i, k i * at_ M i j) = 0) ∧
     rsum (m M) (λ i, k i * at_ col i 0) = 1).
Proof.
  intros Hwf Hm Hn Hc1 Hcm. unfold SolveRight. rewrite Hc1, Hcm, !Nat.eqb_refl. cbn [negb].
  unfold Augment. rewrite Hcm, Nat.eqb_refl. cbn [negb mbind result_bind].
  rewrite scalar_structure_ok by done. cbn [mbind result_bind]. rewrite Hc1.
  set (aug := mk (m M) (n M + 1) _).
  assert (Hat : ∀ i j, (i < m M)%nat → (j < n M)%nat → at_ aug i j = at_ M i j).
  { intros i j Hi Hj. unfold aug. rewrite at_mk by lia.
    destruct (Nat.ltb_spec j (n M)); [done|lia]. }
  assert (Hrhs : ∀ i, (i < m M)%nat → at_ aug i (n M) = at_ col i 0).
  { intros i Hi. unfold aug. rewrite at_mk by lia. by rewrite Nat.ltb_irrefl, Nat.sub_diag. }
  assert (n aug - 1 = n M)%nat as En by (cbn; lia).
  destruct (solveAugmented_spec aug) as [(sol & -> & Hlen & Hsol)|(-> & y & Hz & Hb)];
    [cbn; lia|left|right].
  - unfold solves in Hsol. rewrite En in *. exists sol.
    split_and!; [by apply (NewRowMajor_col (n M) sol)|done|].
    intros i Hi. rewrite <-Hrhs by done. rewrite <-Hsol by done.
    apply rsum_ext. intros j Hj. by rewrite Hat.
  - rewrite En in *. split; [done|]. exists y. split.
    + intros j Hj. etransitivity; [|by apply (Hz j)]. apply rsum_ext. intros i Hi.
      by rewrite Hat.
    + rewrite <-Hb. apply rsum_ext. intros i Hi. by rewrite Hrhs.
Qed.

(** A row annihilated by everything the matrix annihilates is a combination
    of its rows, and conversely: the two outcomes exclude each other. *)
Lemma combination_not_refuted rows cols (M : nat → nat → F) (x k t : nat → F) :
  (∀ j, (j < cols)%nat → rsum rows (λ i, x i * M i j) = t j) →
  (∀ i, (i < rows)%nat → rsum cols (λ j, M i j * k j) = 0) →
  rsum cols (λ j, t j * k j) = 0.
Proof.
  intros Hx Hk.
  rewrite (rsum_ext _ _ (λ j, rsum rows (λ i, x i * (M i j * k j)))).
  - rewrite rsum_swap. apply rsum_0_ext. intros i Hi.
    rewrite <-rsum_mul_l, Hk by done. ring.
  - intros j Hj. rewrite <-Hx by done. rewrite rsum_mul_r.
    apply rsum_ext. intros; ring.
Qed.
End solver.

(** ** Properties *)

Section properties.
Context `{FieldElement F}.
Local Open Scope alg_scope.

(** C20. [SolveLeft(M, r)] decides whether [r] is in the row space of [M]: it
    rejects wrong dimensions, returns [x] with [x * M = r] exactly when some
    [x] exists, and otherwise fails with a vector [k] that [M] annihilates
    while [r * k = 1] as the reason.  It never panics. *)
Theorem SolveLeft_decides (M row : Matrix F) :
  wf M → (0 < m M)%nat → (0 < n M)%nat →
  ((m row ≠ 1%nat ∨ n row ≠ n M) → SolveLeft M row = Err ErrDimension) ∧
  (m row = 1%nat → n row = n M →
    (∀ X, SolveLeft M row = Ok X →
       wf X ∧ m X = m M ∧ n X = 1%nat ∧
       ∀ j, (j < n M)%nat → rsum (m M) (λ i, at_ X i 0 * at_ M i j) = at_ row 0 j) ∧
    (is_ok (SolveLeft M row) = true ↔
       ∃ x : nat → F, ∀ j, (j < n M)%nat →
         rsum (m M) (λ i, x i * at_ M i j) = at_ row 0 j) ∧
    (is_ok (SolveLeft M row) = false →
       SolveLeft M row = Err ErrFailed ∧
       ∃ k : nat → F,
         (∀ i, (i < m M)%nat → rsum (n M) (λ j, at_ M i j * k j) = 0) ∧
         rsum (n M) (λ j, at_ row 0 j * k j) = 1)).
Proof.
  intros Hwf Hm Hn. split.
  { unfold SolveLeft. intros [Hd|Hd]; rewrite (proj2 (Nat.eqb_neq _ _) Hd); cbn [negb];
      [done|by case_match]. }
  intros Hr Hc.
  destruct (SolveLeft_spec M row) as [(x & E & Hlen & Hx)|(E & k & Hk & Hb)]; try done;
    rewrite E; cbn [is_ok].
  - split_and!; [|split; [|done]|done].
    + intros X [= <-]. split_and!; [unfold wf; cbn; lia|done|done|].
      intros j Hj. rewrite <-Hx by done. apply rsum_ext. intros i Hi. by rewrite at_col.
    + intros _. exists (λ i, x !!! i). done.
  - split_and!; [done| |eauto]. split; [done|]. intros [x Hx].
    destruct one_ne_zero. rewrite <-Hb.
    by apply (combination_not_refuted (m M) (n M) (at_ M) x).
Qed.

(** [SolveRight(M, b)] solves [M * x = b] exactly when the system is
    consistent, free variables included, and fails with [ErrFailed] and a
    combination of the equations that reads [0 = 1] otherwise. *)
Theorem SolveRight_decides (M b : Matrix F) :
  wf M → (0 < m M)%nat → (0 < n M)%nat →
  ((n b ≠ 1%nat ∨ m b ≠ m M) → SolveRight M b = Err ErrDimension) ∧
  (n b = 1%nat → m b = m M →
    (∀ X, SolveRight M b = Ok X →
       wf X ∧ m X = n M ∧ n X = 1%nat ∧
       ∀ i, (i < m M)%nat → rsum (n M) (λ j, at_ M i j * at_ X j 0) = at_ b i 0) ∧
    (is_ok (SolveRight M b) = true ↔
       ∃ x : nat → F, ∀ i, (i < m M)%nat →
         rsum (n M) (λ j, at_ M i j * x j) = at_ b i 0) ∧
    (is_ok (SolveRight M b) = false →
       SolveRight M b = Err ErrFailed ∧
       ∃ k : nat → F,
         (∀ j, (j < n M)%nat → rsum (m M) (λ i, k i * at_ M i j) = 0) ∧
         rsum (m M) (λ i, k i * at_ b i 0) = 1)).
Proof.
  intros Hwf Hm Hn. split.
  { unfold SolveRight. intros [Hd|Hd]; rewrite (proj2 (Nat.eqb_neq _ _) Hd); cbn [negb];
      [done|by case_match]. }
  intros Hc Hr.
  destruct (SolveRight_spec M b) as [(x & E & Hlen & Hx)|(E & k & Hk & Hb)]; try done;
    rewrite E; cbn [is_ok].
  - split_and!; [|split; [|done]|done].
    + intros X [= <-]. split_and!; [unfold wf; cbn; lia|done|done|].
      intros i Hi. rewrite <-Hx by done. apply rsum_ext. intros j Hj. by rewrite at_col.
    + intros _. exists (λ i, x !!! i). done.
  - split_and!; [done| |eauto]. split; [done|]. intros [x Hx].
    destruct one_ne_zero. rewrite <-Hb.
    rewrite (rsum_ext _ _ (λ i, at_ b i 0 * k i)) by (intros; apply rmul_comm).
    apply (combination_not_refuted (n M) (m M) (λ j i, at_ M i j) x).
    + intros i Hi. rewrite <-Hx by done. apply rsum_ext. intros; apply rmul_comm.
    + intros j Hj. rewrite <-(Hk j Hj) at 2. apply rsum_ext. intros; apply rmul_comm.
Qed.
End properties.

Definition ex_M : Matrix fp101 :=
  mkMatrix 2 3 (from_uint64 <$> [1; 2; 3; 1; 3; 5]%Z).

Lemma SolveLeft_decides_witness :
  SolveLeft ex_M (mkMatrix 1 3 (from_uint64 <$> [1; 0; 100]%Z)) =
    Ok (mkMatrix 2 1 (from_uint64 <$> [3; 99]%Z)) ∧
  SolveLeft ex_M (mkMatrix 1 2 (from_uint64 <$> [1; 0]%Z)) = Err ErrDimension.
Proof.
  split; [vm_compute; reflexivity|].
  apply (SolveLeft_decides ex_M); [reflexivity|cbn; lia|cbn; lia|].
  right. cbn. lia.
Defined.

Lemma SolveRight_decides_witness :
  SolveRight ex_M (mkMatrix 2 1 (from_uint64 <$> [6; 9]%Z)) =
    Ok (mkMatrix 3 1 (from_uint64 <$> [0; 3; 0]%Z)) ∧
  SolveRight ex_M (mkMatrix 3 1 (from_uint64 <$> [1; 0; 0]%Z)) = Err ErrDimension.
Proof.
  split; [vm_compute; reflexivity|].
  apply (SolveRight_decides ex_M); [reflexivity|cbn; lia|cbn; lia|].
  right. cbn. lia.
Defined.
