(* ===== verification/Interp.v ===== *)
(** * Interpolation (pkg/base/polynomials/interpolation)

    [Module Lagrange] models lagrange.go: the Lagrange basis at a point and
    interpolation of field elements and "in the exponent" of module elements.
    [Module Vandermonde] models vandermonde.go, which solves the Vandermonde
    system with the linear solver.  Both recover every polynomial of degree
    below the number of distinct nodes. *)

From Stdlib Require Import ZArith Lia Ring Field Zmod.
From S2P Require Import Prelude Algebra AlgebraUtils Poly Matrix Solver.

Module Lagrange.
Section lagrange.
Context `{FieldElement F}.
Implicit Types (xs nodes values : list F) (pt : F).

(** One iteration of the outer loop of [BasisAt]: numerator and denominator
    over every [j] but [i], then [TryDiv]. *)
Definition basis_num_den xs pt (i : nat) : F * F :=
  foldl (λ '(num, den) j,
      if i =? j then (num, den)
      else (rmul num (rsub pt (xs !!! j)), rmul den (rsub (xs !!! i) (xs !!! j))))
    (rone, rone) (seq 0 (length xs)).

Definition BasisAt xs pt : result (list F) :=
  terms ← mapM (λ i, let '(num, den) := basis_num_den xs pt i in try_div num den)
            (seq 0 (length xs));
  Polynomial.New (Some <$> terms).

Definition InterpolateAt nodes values pt : result F :=
  if negb (length nodes =? length values) then Err ErrLengthMismatch
  else
    basis ← BasisAt nodes pt;
    Ok (rsum (length values) (λ i, rmul (basis !!! i) (values !!! i))).

(** The module is [None] when it is nil.  The loop ranges over the basis
    coefficients and indexes [values]. *)
Definition InterpolateInExponentAt `{!ModuleElement F E} (module : option unit) nodes
    (values : list E) pt : result E :=
  if negb (length nodes =? length values) then Err ErrLengthMismatch
  else
    match module with
    | None => Err ErrValidation
    | Some _ =>
        basis ← BasisAt nodes pt;
        if length values <? length basis then Panic
        else Ok (gsum (length basis) (λ i, scalar_op (values !!! i) (basis !!! i)))
    end.
End lagrange.
End Lagrange.

Module Vandermonde.
Section vandermonde.
Context `{FieldElement F}.
Implicit Types (nodes values : list F) (node pt : F).

(** The row of a node: [1, node, node^2, ..] by repeated multiplication. *)
Definition vandermonde_row (c : nat) node : list F :=
  foldl (λ row j, <[j := rmul (row !!! (j - 1)) node]> row)
    (<[0 := rone]> (replicate c rzero)) (seq 1 (c - 1)).

Definition BuildVandermondeMatrix nodes (cols : nat) : result (Matrix F) :=
  if length nodes =? 0 then Err ErrValidation
  else if cols =? 0 then Err ErrValidation
  else
    _ ← NewMatrixModule (length nodes) cols;
    NewRowMajor (length nodes) cols (concat (vandermonde_row cols <$> nodes)).

Definition Interpolate nodes values pt : result (list F) :=
  if negb (length nodes =? length values) then Err ErrLengthMismatch
  else
    _ ← NewMatrixModule (length nodes) 1;
    valuesVector ← NewRowMajor (length nodes) 1 values;
    vandermondeMatrix ← BuildVandermondeMatrix nodes (length nodes);
    coeffsRow ← SolveRight vandermondeMatrix valuesVector;
    Polynomial.New (Some <$> v coeffsRow).
End vandermonde.
End Vandermonde.

(** ** Lagrange polynomials *)

Section lagrange_theory.
Context `{FieldElement F}.
Local Open Scope alg_scope.
Add Ring lagrange_ring : (ring_laws (R:=F)).
Add Field lagrange_field : (field_laws (F:=F)).
Implicit Types (xs nodes values rs p : list F) (pt x a : F) (i j k : nat).
Import Lagrange Polynomial.

(** The monic polynomial with roots [rs]. *)
Fixpoint root_poly rs : list F :=
  match rs with [] => [1] | a :: rs => mul_coeffs [- a; 1] (root_poly rs) end.

Lemma root_poly_length rs : length (root_poly rs) = S (length rs).
Proof.
  induction rs as [|a rs IH]; [done|]. cbn [root_poly].
  rewrite (proj1 (mul_coeffs_spec [- a; 1] (root_poly rs) ltac:(done))), IH. cbn. lia.
Qed.

Lemma root_poly_eval rs x :
  Eval (root_poly rs) x = rprod (length rs) (λ j, x - rs !!! j).
Proof.
  induction rs as [|a rs IH]; [done|]. cbn [root_poly length].
  rewrite Eval_mul_coeffs by done. rewrite IH, (big_head rmul) by (intros; ring).
  change (λ i, x - (a :: rs) !!! S i) with (λ i, x - rs !!! i).
  change ((a :: rs) !!! 0%nat) with a. rewrite !Eval_cons.
  change (Eval [] x) with (0 : F). ring.
Qed.

(** The product over all indices but [i]. *)
Definition prod_but (n i : nat) (f : nat → F) : F :=
  rprod n (λ j, if (i =? j)%nat then 1 else f j).

Lemma basis_num_den_spec xs pt i :
  basis_num_den xs pt i
  = (prod_but (length xs) i (λ j, pt - xs !!! j),
     prod_but (length xs) i (λ j, xs !!! i - xs !!! j)).
Proof.
  unfold basis_num_den. generalize (length xs) as n. intros n.
  induction n as [|n IH]; [done|]. rewrite seq_S, foldl_app, IH. cbn.
  unfold prod_but. cbn [big]. destruct (Nat.eqb_spec i n); [|done].
  by rewrite !rmul_1_r.
Qed.

Lemma prod_but_delete xs i x :
  (i < length xs)%nat →
  prod_but (length xs) i (λ j, x - xs !!! j) = Eval (root_poly (delete i xs)) x.
Proof.
  intros Hi. rewrite root_poly_eval. unfold prod_but.
  rewrite length_delete by (by apply lookup_lt_is_Some_2).
  replace (length xs) with (i + S (length xs - 1 - i))%nat at 1 by lia.
  replace (length xs - 1)%nat with (i + (length xs - 1 - i))%nat at 2 by lia.
  rewrite !(big_split rmul) by (intros; ring). rewrite (big_head rmul) by (intros; ring).
  rewrite Nat.add_0_r, Nat.eqb_refl. f_equal; [|rewrite rmul_1_l].
  - apply rprod_ext. intros j Hj. rewrite (proj2 (Nat.eqb_neq i j)) by lia.
    by rewrite list_lookup_total_delete_lt by lia.
  - apply rprod_ext. intros j Hj. rewrite (proj2 (Nat.eqb_neq i _)) by lia.
    rewrite list_lookup_total_delete_ge by lia. do 2 f_equal. lia.
Qed.

Lemma prod_but_0 xs i j :
  (j < length xs)%nat → i ≠ j → prod_but (length xs) i (λ k, xs !!! j - xs !!! k) = 0.
Proof.
  intros Hj Hij. apply (rprod_0 _ _ j); [done|].
  rewrite (proj2 (Nat.eqb_neq i j)) by done. ring.
Qed.

Lemma lookup_total_inj xs i j :
  NoDup xs → (i < length xs)%nat → (j < length xs)%nat → xs !!! i = xs !!! j → i = j.
Proof.
  intros Hnd Hi Hj E. eapply (NoDup_lookup xs); [done| |].
  - by apply list_lookup_lookup_total_lt.
  - rewrite E. by apply list_lookup_lookup_total_lt.
Qed.

Lemma den_ne_0 xs i :
  NoDup xs → (i < length xs)%nat →
  prod_but (length xs) i (λ j, xs !!! i - xs !!! j) ≠ 0.
Proof.
  intros Hnd Hi. apply rprod_ne_0. intros j Hj.
  destruct (Nat.eqb_spec i j) as [|Hne]; [apply one_ne_zero|].
  intros E%rsub_0. apply Hne. by apply (lookup_total_inj xs).
Qed.

(** The value at [pt] of the [i]-th Lagrange polynomial. *)
Definition lagrange_at xs pt i : F :=
  div0 (prod_but (length xs) i (λ j, pt - xs !!! j))
       (prod_but (length xs) i (λ j, xs !!! i - xs !!! j)).

Definition lagrange_poly xs i : list F :=
  ScalarMul (root_poly (delete i xs)) (inv0 (prod_but (length xs) i (λ j, xs !!! i - xs !!! j))).

Lemma lagrange_poly_eval xs i x :
  (i < length xs)%nat → Eval (lagrange_poly xs i) x = lagrange_at xs x i.
Proof.
  intros Hi. unfold lagrange_poly. rewrite Eval_ScalarMul, <-prod_but_delete by done. done.
Qed.

Lemma lagrange_poly_length xs i :
  (i < length xs)%nat → length (lagrange_poly xs i) = length xs.
Proof.
  intros Hi. unfold lagrange_poly, ScalarMul. rewrite length_fmap, root_poly_length.
  rewrite length_delete by (by apply lookup_lt_is_Some_2). lia.
Qed.

Lemma lagrange_at_node xs i j :
  NoDup xs → (i < length xs)%nat → (j < length xs)%nat →
  lagrange_at xs (xs !!! j) i = if decide (i = j) then 1 else 0.
Proof.
  intros Hnd Hi Hj. unfold lagrange_at, div0. case_decide as Hij.
  - subst j. rewrite rmul_comm. apply inv0_l. by apply den_ne_0.
  - rewrite prod_but_0; [ring|done..].
Qed.

Lemma BasisAt_ok xs pt :
  NoDup xs → xs ≠ [] → BasisAt xs pt = Ok (tabulate (length xs) (lagrange_at xs pt)).
Proof.
  intros Hnd Hne. unfold BasisAt.
  assert (mapM (λ i, let '(num, den) := basis_num_den xs pt i in try_div num den)
    (seq 0 (length xs)) = Ok (tabulate (length xs) (lagrange_at xs pt))) as ->.
  { apply mapM_ok. unfold tabulate. apply Forall2_fmap_r, Forall_Forall2_diag, Forall_seq.
    intros i Hi. rewrite basis_num_den_spec. apply try_div_ok. apply den_ne_0; [done|lia]. }
  cbn [mbind result_bind]. apply New_Some. by destruct xs.
Qed.

Lemma BasisAt_dup xs pt : ¬ NoDup xs → BasisAt xs pt = Err ErrFailed.
Proof.
  intros Hnd. unfold BasisAt.
  destruct (not_NoDup_lookup xs Hnd) as (i & j & Hi & Hj & Hij & E).
  rewrite (mapM_err _ _ ErrFailed i); [done| |by apply elem_of_seq; lia|].
  - intros k _. rewrite basis_num_den_spec.
    destruct (decide (prod_but (length xs) k (λ j, xs !!! k - xs !!! j) = 0)) as [->|Hne].
    + left. apply try_div_zero.
    + right. by rewrite try_div_ok.
  - rewrite basis_num_den_spec, E, prod_but_0 by done. apply try_div_zero.
Qed.

Lemma BasisAt_nil pt : BasisAt [] pt = Ok [0].
Proof. done. Qed.

(** *** Interpolation of polynomials *)

(** The sum of the Lagrange polynomials weighted by values. *)
Fixpoint lagrange_sum xs (f : nat → F) (n : nat) : list F :=
  match n with
  | 0%nat => []
  | S n => Add (lagrange_sum xs f n) (ScalarMul (lagrange_poly xs n) (f n))
  end.

Lemma lagrange_sum_eval xs f n x :
  (n ≤ length xs)%nat →
  Eval (lagrange_sum xs f n) x = rsum n (λ i, lagrange_at xs x i * f i).
Proof.
  induction n as [|n IH]; intros Hn; [done|]. cbn [lagrange_sum big].
  by rewrite Eval_Add, Eval_ScalarMul, lagrange_poly_eval, IH by lia.
Qed.

Lemma lagrange_sum_length xs f n :
  (n ≤ length xs)%nat → (length (lagrange_sum xs f n) ≤ length xs)%nat.
Proof.
  induction n as [|n IH]; intros Hn; [cbn; lia|]. cbn [lagrange_sum].
  unfold Add, zip_ext, ScalarMul. rewrite length_tabulate, length_fmap.
  rewrite lagrange_poly_length by lia. specialize (IH ltac:(lia)). lia.
Qed.

(** The interpolating polynomial exists. *)
Lemma interpolant_exists xs (f : nat → F) :
  NoDup xs → ∃ p, (length p ≤ length xs)%nat ∧
    ∀ i, (i < length xs)%nat → Eval p (xs !!! i) = f i.
Proof.
  intros Hnd. exists (lagrange_sum xs f (length xs)).
  split; [by apply lagrange_sum_length|]. intros i Hi.
  rewrite lagrange_sum_eval by done. rewrite (rsum_single _ i); [|done|].
  - rewrite lagrange_at_node by done. rewrite decide_True by done. ring.
  - intros j Hj Hne. rewrite lagrange_at_node by done. rewrite decide_False by done. ring.
Qed.

(** Lagrange's formula. *)
Lemma lagrange_formula xs p x :
  NoDup xs → (length p ≤ length xs)%nat →
  rsum (length xs) (λ i, lagrange_at xs x i * Eval p (xs !!! i)) = Eval p x.
Proof.
  intros Hnd Hp.
  rewrite <-(lagrange_sum_eval xs (λ i, Eval p (xs !!! i))) by done.
  assert (lagrange_sum xs (λ i, Eval p (xs !!! i)) (length xs) ≐ p) as ->; [|done].
  apply (agree_peq xs); [done| |by apply lagrange_sum_length|done].
  intros y [i [Hi <-]]%list_elem_of_lookup_total_1.
  rewrite lagrange_sum_eval by done. rewrite (rsum_single _ i); [|done|].
  - rewrite lagrange_at_node by done. rewrite decide_True by done. ring.
  - intros j Hj Hne. rewrite lagrange_at_node by done. rewrite decide_False by done. ring.
Qed.

Lemma lagrange_formula_pow xs k x :
  NoDup xs → (k < length xs)%nat →
  rsum (length xs) (λ i, lagrange_at xs x i * rpow (xs !!! i) k) = rpow x k.
Proof.
  intros Hnd Hk.
  assert (∀ y, Eval (mono k 1) y = rpow y k) as Hm.
  { intros y. rewrite Eval_rsum. rewrite (rsum_single _ k).
    - rewrite mono_coef, decide_True by done. ring.
    - unfold mono. rewrite length_app, length_replicate. cbn. lia.
    - intros i _ Hi. rewrite mono_coef, decide_False by done. ring. }
  rewrite <-Hm, <-(lagrange_formula xs (mono k 1)); [|done|].
  - apply rsum_ext. intros i _. by rewrite Hm.
  - unfold mono. rewrite length_app, length_replicate. cbn. lia.
Qed.
End lagrange_theory.

(** ** Vandermonde matrices *)

Section vandermonde_theory.
Context `{FieldElement F}.
Local Open Scope alg_scope.
Add Ring vandermonde_ring : (ring_laws (R:=F)).
Implicit Types (nodes values p : list F) (node pt x : F) (i j k c : nat).
Import Vandermonde.

Lemma vandermonde_row_spec c node :
  length (vandermonde_row c node) = c ∧
  ∀ j, (j < c)%nat → vandermonde_row c node !!! j = rpow node j.
Proof.
  unfold vandermonde_row. set (row0 := <[0%nat := 1]> (replicate c 0)).
  set (f := λ row j, <[j := row !!! (j - 1)%nat * node]> row).
  assert (∀ n, (n < c)%nat →
    length (foldl f row0 (seq 1 n)) = c ∧
    ∀ j, (j ≤ n)%nat → foldl f row0 (seq 1 n) !!! j = rpow node j) as Hgen.
  { induction n as [|n IH]; intros Hn.
    - cbn [seq foldl]. unfold row0. rewrite length_insert, length_replicate.
      split; [done|]. intros j Hj. assert (j = 0)%nat as -> by lia.
      rewrite list_lookup_total_insert_eq; [done|]. by rewrite length_replicate.
    - destruct IH as [IHl IH]; [lia|]. rewrite seq_S, foldl_app. cbn [foldl Nat.add].
      unfold f at 1 3. rewrite length_insert. split; [done|]. intros j Hj.
      destruct (decide (j = S n)) as [->|Hne].
      + rewrite list_lookup_total_insert_eq by (rewrite IHl; lia).
        rewrite Nat.sub_succ, Nat.sub_0_r, IH by lia. done.
      + rewrite list_lookup_total_insert_ne by lia. apply IH. lia. }
  destruct (decide (c = 0%nat)) as [->|Hc]; [split; [done|lia]|].
  destruct (Hgen (c - 1)%nat ltac:(lia)) as [Hl Hp]. split; [done|].
  intros j Hj. apply Hp. lia.
Qed.

Lemma concat_lookup_rows (rows : list (list F)) c i j :
  Forall (λ r, length r = c) rows → (j < c)%nat →
  concat rows !!! (i * c + j)%nat = (rows !!! i : list F) !!! j.
Proof.
  intros Hrows Hj. revert i. induction Hrows as [|r rows Hr Hrows IH]; intros i.
  { by destruct i. }
  cbn [concat]. destruct i as [|i].
  - rewrite lookup_total_app_l by (cbn; lia). done.
  - rewrite lookup_total_app_r by (rewrite Hr; lia). cbn [lookup_total list_lookup_total].
    rewrite <-IH. f_equal. rewrite Hr. cbn. lia.
Qed.

Lemma concat_length_rows (rows : list (list F)) c :
  Forall (λ r, length r = c) rows → length (concat rows) = (length rows * c)%nat.
Proof. induction 1 as [|r rows Hr _ IH]; [done|]. cbn. rewrite length_app, Hr, IH. done. Qed.

Lemma BuildVandermondeMatrix_ok nodes c :
  nodes ≠ [] → c ≠ 0%nat →
  ∃ V, BuildVandermondeMatrix nodes c = Ok V ∧ wf V ∧ m V = length nodes ∧ n V = c ∧
    ∀ i j, (i < length nodes)%nat → (j < c)%nat → at_ V i j = rpow (nodes !!! i) j.
Proof.
  intros Hn Hc. unfold BuildVandermondeMatrix, NewMatrixModule.
  destruct (Nat.eqb_spec (length nodes) 0); [by destruct nodes|].
  destruct (Nat.eqb_spec c 0); [done|]. cbn [orb mbind result_bind].
  assert (Forall (λ r, length r = c) (vandermonde_row c <$> nodes)) as Hrows.
  { apply Forall_fmap, Forall_true. intros node. apply vandermonde_row_spec. }
  unfold NewRowMajor. rewrite (concat_length_rows _ c) by done.
  rewrite length_fmap, Nat.eqb_refl. cbn [negb]. eexists. split; [done|].
  unfold wf. cbn. rewrite (concat_length_rows _ c), length_fmap by done.
  do 3 (split; [done|]). intros i j Hi Hj. unfold at_, idx. cbn.
  rewrite (concat_lookup_rows _ c) by done.
  rewrite (list_lookup_total_fmap _ _ i) by done. by apply vandermonde_row_spec.
Qed.

(** Evaluation at the nodes is multiplication by the Vandermonde matrix. *)
Lemma Eval_long p x n :
  (length p ≤ n)%nat → rsum n (λ i, rpow x i * p !!! i) = Polynomial.Eval p x.
Proof.
  intros Hn. rewrite Eval_rsum, (rsum_long _ (length p) n Hn).
  - apply rsum_ext. intros; ring.
  - intros i Hi. rewrite coef_ge_0 by done. ring.
Qed.

Lemma Interpolate_ok nodes values pt :
  NoDup nodes → nodes ≠ [] → length nodes = length values →
  ∃ p, Interpolate nodes values pt = Ok p ∧ length p = length nodes ∧
    ∀ i, (i < length nodes)%nat → Polynomial.Eval p (nodes !!! i) = values !!! i.
Proof.
  intros Hnd Hne Hlen. unfold Interpolate. rewrite (proj2 (Nat.eqb_eq _ _) Hlen).
  assert (length nodes ≠ 0%nat) as Hn0 by (by destruct nodes).
  cbn [negb]. rewrite NewMatrixModule_ok by done. cbn [mbind result_bind].
  rewrite NewRowMajor_ok by lia. cbn [mbind result_bind].
  destruct (BuildVandermondeMatrix_ok nodes (length nodes) Hne Hn0)
    as (V & -> & Hwf & Hm & Hn & Hat). cbn [mbind result_bind].
  destruct (SolveRight_spec V (mkMatrix (length nodes) 1 values))
    as [(x & -> & Hlx & Hx)|(_ & k & Hk & Hb)]; try (done || lia).
  - cbn [mbind result_bind v]. exists x. split; [apply New_Some; destruct x; [cbn in *; lia|done]|].
    split; [lia|]. intros i Hi. rewrite <-(Eval_long _ _ (n V)) by lia.
    rewrite <-(at_col (length nodes) values i), <-Hx by lia.
    apply rsum_ext. intros j Hj. by rewrite Hat by lia.
  - exfalso. apply one_ne_zero. rewrite <-Hb.
    destruct (interpolant_exists nodes (λ i, values !!! i) Hnd) as (p & Hp & Hv).
    rewrite (rsum_ext _ _ (λ i, rsum (n V) (λ j, p !!! j * (k i * at_ V i j)))).
    + rewrite rsum_swap. apply rsum_0_ext. intros j Hj.
      rewrite <-rsum_mul_l, Hk by done. ring.
    + intros i Hi. rewrite Hm in Hi. rewrite at_col, <-Hv, <-(Eval_long _ _ (n V)) by lia.
      rewrite rsum_mul_l. apply rsum_ext. intros j Hj. rewrite Hat by lia. ring.
Qed.
End vandermonde_theory.

(** ** Properties *)

Section properties.
Context `{FieldElement F}.
Local Open Scope alg_scope.
Add Ring properties_ring : (ring_laws (R:=F)).
Implicit Types (nodes values p : list F) (pt x : F) (i j k : nat).

(** [InterpolateAt] fails on slices of different lengths and on repeated
    nodes; on distinct nodes it returns the value at the point of the unique
    polynomial of degree below the number of nodes that takes the given
    values, which always exists. *)
Theorem InterpolateAt_correct nodes values pt :
  (length nodes ≠ length values → Lagrange.InterpolateAt nodes values pt = Err ErrLengthMismatch) ∧
  (length nodes = length values → ¬ NoDup nodes →
     Lagrange.InterpolateAt nodes values pt = Err ErrFailed) ∧
  (length nodes = length values → NoDup nodes →
     (∃ p, (length p ≤ length nodes)%nat ∧ (Polynomial.Eval p <$> nodes) = values) ∧
     ∀ p, (Polynomial.Degree p < Z.of_nat (length nodes))%Z →
       (Polynomial.Eval p <$> nodes) = values →
       Lagrange.InterpolateAt nodes values pt = Ok (Polynomial.Eval p pt)).
Proof.
  unfold Lagrange.InterpolateAt. split_and!.
  - intros Hl. by rewrite (proj2 (Nat.eqb_neq _ _) Hl).
  - intros Hl Hnd. rewrite (proj2 (Nat.eqb_eq _ _) Hl). cbn [negb]. by rewrite BasisAt_dup.
  - intros Hl Hnd. rewrite (proj2 (Nat.eqb_eq _ _) Hl). cbn [negb]. split.
    + destruct (interpolant_exists nodes (λ i, values !!! i) Hnd) as (p & Hp & Hv).
      exists p. split; [done|]. apply list_eq_total; [by rewrite length_fmap|].
      rewrite length_fmap. intros i Hi. by rewrite (list_lookup_total_fmap (Polynomial.Eval p) nodes i), Hv by done.
    + intros p Hd Hv. rewrite <-Hv, length_fmap. destruct (decide (nodes = [])) as [->|Hne].
      { rewrite BasisAt_nil. cbn. f_equal. symmetry. rewrite <-(take_degree p).
        cbn [length] in Hd. by replace (Z.to_nat (Polynomial.Degree p + 1)) with 0%nat by lia. }
      rewrite BasisAt_ok by done. cbn [mbind result_bind]. f_equal.
      rewrite <-(take_degree p).
      rewrite <-(lagrange_formula nodes _ pt Hnd); [|rewrite length_take; lia].
      apply rsum_ext. intros i Hi. rewrite tabulate_lookup_total by done.
      by rewrite (list_lookup_total_fmap (Polynomial.Eval p) nodes i), (take_degree p) by done.
Qed.

(** Interpolation in the exponent recovers every module-valued
    polynomial of degree below the number of distinct nodes from its values,
    in particular a lifted polynomial; repeated nodes, mismatched lengths and a
    nil module are errors, and no nodes at all is an index panic. *)
Theorem InterpolateInExponentAt_correct `{!ModuleElement F E} module nodes (P : list E) pt :
  let values : list E := poly_val P <$> nodes in
  Lagrange.InterpolateInExponentAt None nodes values pt = Err ErrValidation ∧
  Lagrange.InterpolateInExponentAt (Some tt) [] ([] : list E) pt = Panic ∧
  (∀ values' : list E, length nodes ≠ length values' →
     Lagrange.InterpolateInExponentAt module nodes values' pt
     = Err ErrLengthMismatch) ∧
  (¬ NoDup nodes →
     Lagrange.InterpolateInExponentAt (Some tt) nodes values pt = Err ErrFailed) ∧
  (NoDup nodes → nodes ≠ [] → (length P ≤ length nodes)%nat →
     Lagrange.InterpolateInExponentAt (Some tt) nodes values pt = Ok (poly_val P pt)).
Proof.
  cbv zeta. unfold Lagrange.InterpolateInExponentAt. rewrite length_fmap, Nat.eqb_refl.
  cbn [negb]. split_and!.
  - done.
  - done.
  - intros values' Hl. by rewrite (proj2 (Nat.eqb_neq _ _) Hl).
  - intros Hnd. by rewrite BasisAt_dup.
  - intros Hnd Hne HP. rewrite BasisAt_ok by done. cbn [mbind result_bind].
    rewrite length_tabulate, Nat.ltb_irrefl. f_equal.
    transitivity (gsum (length nodes) (λ i, gsum (length P) (λ k,
      (P !!! k) • (lagrange_at nodes pt i * rpow (nodes !!! i) k)))).
    + apply big_ext. intros i Hi. rewrite tabulate_lookup_total by done.
      rewrite (list_lookup_total_fmap (poly_val P) nodes i) by done. unfold poly_val. rewrite gsum_scalar_l.
      apply big_ext. intros k _. rewrite rmul_comm. symmetry. apply scalar_op_mul.
    + rewrite gsum_swap. unfold poly_val. apply big_ext. intros k Hk.
      rewrite <-gsum_scalar. f_equal. apply lagrange_formula_pow; [done|lia].
Qed.

(** [vandermonde.Interpolate] succeeds on any distinct nodes and returns
    the coefficients of the polynomial with the given values; its value at
    any point is what Lagrange interpolation returns. *)
Theorem Vandermonde_Interpolate_correct nodes values pt :
  NoDup nodes → nodes ≠ [] → length nodes = length values →
  ∃ p, Vandermonde.Interpolate nodes values pt = Ok p ∧ length p = length nodes ∧
    (∀ i, (i < length nodes)%nat → Polynomial.Eval p (nodes !!! i) = values !!! i) ∧
    ∀ x, Lagrange.InterpolateAt nodes values x = Ok (Polynomial.Eval p x).
Proof.
  intros Hnd Hne Hl. destruct (Interpolate_ok nodes values pt Hnd Hne Hl) as (p & Hp & Hlp & Hv).
  exists p. do 3 (split; [done|]). intros x. unfold Lagrange.InterpolateAt.
  rewrite (proj2 (Nat.eqb_eq _ _) Hl). cbn [negb]. rewrite BasisAt_ok by done.
  cbn [mbind result_bind]. f_equal. rewrite <-Hl.
  rewrite <-(lagrange_formula nodes p x Hnd) by lia.
  apply rsum_ext. intros i Hi. by rewrite tabulate_lookup_total, Hv by done.
Qed.
End properties.

Section witnesses.
Let ns := f101 <$> [1; 2; 5]%Z.
Let poly := f101 <$> [42; 7; 3]%Z.

Lemma ns_NoDup : NoDup ns.
Proof. refine (bool_decide_unpack _ _). vm_compute. exact I. Qed.

Lemma InterpolateAt_correct_witness :
  Lagrange.InterpolateAt ns (Polynomial.Eval poly <$> ns) (f101 0) = Ok (f101 42).
Proof.
  destruct (InterpolateAt_correct ns (Polynomial.Eval poly <$> ns) (f101 0)) as (_ & _ & Hok).
  destruct (Hok eq_refl ns_NoDup) as [_ Hp].
  rewrite (Hp poly); [vm_compute; reflexivity|vm_compute; reflexivity|reflexivity].
Defined.

Lemma InterpolateInExponentAt_correct_witness :
  Lagrange.InterpolateInExponentAt (Some tt) ns (poly_val poly <$> ns) (f101 0) = Ok (f101 42).
Proof.
  destruct (InterpolateInExponentAt_correct (Some tt) ns poly (f101 0)) as (_ & _ & _ & _ & Hok).
  rewrite (Hok ns_NoDup); [vm_compute; reflexivity|done|reflexivity].
Defined.

Lemma Vandermonde_Interpolate_correct_witness :
  ∃ p, Vandermonde.Interpolate ns (f101 <$> [52; 68; 51]%Z) (f101 0) = Ok p ∧
    Polynomial.Eval p (f101 2) = f101 68.
Proof.
  destruct (Vandermonde_Interpolate_correct ns (f101 <$> [52; 68; 51]%Z) (f101 0) ns_NoDup)
    as (p & Hp & _ & Hv & _); [done|done|].
  exists p. split; [exact Hp|]. apply (Hv 1). cbn. lia.
Defined.
End witnesses.
