(* ===== verification/MSP.v ===== *)
(** * Monotone span programmes (pkg/mpc/sharing/scheme/kw/msp/msp.go)

    An [MSP] is a matrix over a finite field, a labelling of its rows by
    shareholder IDs and the reverse labelling; its target vector is the first
    standard unit vector.  The theory characterises [ReconstructionVector] and
    [Accepts]: a coalition is accepted exactly when the target is in the span
    of its rows, and a known non-empty coalition is rejected exactly when some
    vector is orthogonal to its rows and not to the target - the two halves of
    correctness and privacy of the schemes built on it. *)

From Stdlib Require Import ZArith NArith Lia Ring Field.
From S2P Require Import Prelude Algebra AlgebraUtils Poly Matrix Solver.

(** [slices.Sort] on row indices. *)
Definition sort_rows (l : list Z) : list Z := merge_sort Z.le l.

Section msp.
Context `{FieldElement F}.

Record MSP := mkMSP {
  matrix : Matrix F;
  rowsToHolders : gmap Z ID;
  holdersToRows : gmap ID (gset Z);
}.

(** ** The code *)

(** One iteration of the loop that inverts [rowsToHolders]. *)
Definition add_row (rowIndex : Z) (id : ID) (acc : gmap ID (gset Z)) : gmap ID (gset Z) :=
  match acc !! id with
  | None => <[id := {[rowIndex]}]> acc
  | Some el => <[id := {[rowIndex]} ∪ el]> acc
  end.

Definition NewMSP (mo : option (Matrix F)) (labels : option (gmap Z ID)) : result MSP :=
  match mo, labels with
  | None, _ => Err ErrIsNil
  | Some _, None => Err ErrIsNil
  | Some M, Some labels =>
      if negb (forallb (λ i, bool_decide (is_Some (labels !! Z.of_nat i))) (seq 0 (m M)))
      then Err ErrValue
      else if negb (forallb (λ '(k, id), in_range k (m M) && negb (id =? 0)%N)
                      (map_to_list labels))
      then Err ErrValue
      else Ok (mkMSP M labels (map_fold add_row ∅ labels))
  end.

Implicit Types (M : MSP) (ids : list ID).

Definition Shareholders M : gset ID := dom (holdersToRows M).

(** [Module().NewStandardUnit(0)]; a panic when the matrix has no columns. *)
Definition TargetVector M : result (Matrix F) :=
  match NewStandardUnit (n (matrix M)) 0 with Ok t => Ok t | _ => Panic end.

Definition Size M : nat := m (matrix M).
Definition D M : nat := n (matrix M).

Definition IsIdeal M : bool :=
  forallb (λ '(_, rows), size rows =? 1) (map_to_list (holdersToRows M)).

(** The loop collecting the rows of the sorted coalition. *)
Definition collect_rows M (sortedIDs : list ID) : result (list Z) :=
  foldM (λ rows id,
      match holdersToRows M !! id with
      | Some rowsID => Ok (rows ++ elements rowsID)
      | None => Err ErrValue
      end) [] sortedIDs.

Definition ReconstructionVector M ids : result (Matrix F) :=
  let sortedIDs := sort_ids (elements (list_to_set ids : gset ID)) in
  rows ← collect_rows M sortedIDs;
  if length rows =? 0 then Err ErrValue
  else
    MIDs ← SubMatrixGivenRows (matrix M) (sort_rows rows);
    target ← TargetVector M;
    SolveLeft MIDs target.

Definition Accepts M ids : bool := is_ok (ReconstructionVector M ids).

(** [Equal] compares the matrix and the two maps on the receiver's keys. *)
Definition Equal M other : bool :=
  Matrix.Equal (matrix M) (matrix other) &&
  forallb (λ '(k, id), bool_decide (rowsToHolders other !! k = Some id))
    (map_to_list (rowsToHolders M)) &&
  forallb (λ '(id, rows), bool_decide (holdersToRows other !! id = Some rows))
    (map_to_list (holdersToRows M)).

(** ** Well-formed programmes *)

(** What [NewMSP] establishes for a well-formed matrix. *)
Record wf_msp M : Prop := {
  wf_matrix : wf (matrix M);
  wf_labels : ∀ r, is_Some (rowsToHolders M !! r) ↔ (0 ≤ r < Z.of_nat (m (matrix M)))%Z;
  wf_ids : ∀ r id, rowsToHolders M !! r = Some id → id ≠ 0%N;
  wf_holders : ∀ id rows, holdersToRows M !! id = Some rows →
    rows ≠ ∅ ∧ ∀ r, r ∈ rows ↔ rowsToHolders M !! r = Some id;
  wf_holders_none : ∀ id, holdersToRows M !! id = None →
    ∀ r, rowsToHolders M !! r ≠ Some id;
}.

Lemma add_rows_spec (labels : gmap Z ID) :
  let h := map_fold add_row ∅ labels in
  (∀ id rows, h !! id = Some rows → rows ≠ ∅ ∧ ∀ r, r ∈ rows ↔ labels !! r = Some id) ∧
  (∀ id, h !! id = None → ∀ r, labels !! r ≠ Some id).
Proof.
  cbv zeta. apply (map_fold_weak_ind (λ h labels,
    (∀ id rows, h !! id = Some rows → rows ≠ ∅ ∧ ∀ r, r ∈ rows ↔ labels !! r = Some id) ∧
    (∀ id, h !! id = None → ∀ r, labels !! r ≠ Some id)) add_row).
  { split; intros id; rewrite ?lookup_empty; [done|]. intros _ r. by rewrite lookup_empty. }
  clear labels. intros k id labels h Hk IH.
  destruct IH as [IHs IHn]. split.
  - intros id' rows Hrows. unfold add_row in Hrows.
    destruct (decide (id' = id)) as [->|Hne].
    + destruct (h !! id) as [el|] eqn:Hh.
      * rewrite lookup_insert_eq in Hrows. injection Hrows as <-.
        split; [set_solver|]. intros r. rewrite elem_of_union, elem_of_singleton.
        destruct (IHs id el Hh) as [_ Hel]. rewrite Hel.
        destruct (decide (r = k)) as [->|Hr]; [rewrite lookup_insert_eq|rewrite lookup_insert_ne by done]; naive_solver.
      * rewrite lookup_insert_eq in Hrows. injection Hrows as <-.
        split; [set_solver|]. intros r. rewrite elem_of_singleton.
        destruct (decide (r = k)) as [->|Hr]; [by rewrite lookup_insert_eq|].
        rewrite lookup_insert_ne by done. split; [done|]. intros Hl. by apply IHn in Hl.
    + assert (h !! id' = Some rows) as Hh.
      { destruct (h !! id); by rewrite lookup_insert_ne in Hrows by done. }
      destruct (IHs id' rows Hh) as [Hne' Hrw]. split; [done|]. intros r. rewrite Hrw.
      destruct (decide (r = k)) as [->|Hr]; [|by rewrite lookup_insert_ne by done].
      rewrite lookup_insert_eq, Hk. split; congruence.
  - intros id' Hn r Hr. unfold add_row in Hn.
    destruct (decide (id' = id)) as [->|Hne].
    { destruct (h !! id); by rewrite lookup_insert_eq in Hn. }
    assert (h !! id' = None) as Hh.
    { destruct (h !! id); by rewrite lookup_insert_ne in Hn by done. }
    destruct (decide (r = k)) as [->|Hrk].
    + rewrite lookup_insert_eq in Hr. congruence.
    + rewrite lookup_insert_ne in Hr by done. by apply (IHn _ Hh r).
Qed.

Lemma NewMSP_ok (A : Matrix F) labels M :
  NewMSP (Some A) (Some labels) = Ok M → wf A →
  wf_msp M ∧ matrix M = A ∧ rowsToHolders M = labels.
Proof.
  intros HM HA. unfold NewMSP in HM. 
  destruct (forallb _ (seq 0 _)) eqn:Hall; [|done]. cbn [negb] in HM.
  destruct (forallb _ (map_to_list labels)) eqn:Hrange; [|done]. cbn [negb] in HM.
  injection HM as <-. split; [|done].
  rewrite forallb_forall in Hall, Hrange.
  assert (∀ k id, labels !! k = Some id → (0 ≤ k < Z.of_nat (m A))%Z ∧ id ≠ 0%N) as Hr.
  { intros k id Hk. specialize (Hrange (k, id)). cbn beta iota in Hrange.
    rewrite <-list_elem_of_In, elem_of_map_to_list in Hrange. specialize (Hrange Hk).
    apply andb_true_iff in Hrange as [Hk1%in_range_true Hid%negb_true_iff%N.eqb_neq]. done. }
  destruct (add_rows_spec labels) as [Hs Hn].
  split; cbn; [done| |by intros r id [_ ?]%Hr|done|done].
  intros r. split; [by intros [id [? _]%Hr]|]. intros Hrange'.
  specialize (Hall (Z.to_nat r)). rewrite in_seq, Z2Nat.id in Hall by lia.
  apply bool_decide_eq_true in Hall; [done|lia].
Qed.

(** [NewMSP] succeeds on a total labelling with non-zero IDs. *)
Lemma NewMSP_total (A : Matrix F) labels :
  (∀ r, is_Some (labels !! r) ↔ (0 ≤ r < Z.of_nat (m A))%Z) →
  (∀ r id, labels !! r = Some id → id ≠ 0%N) →
  is_ok (NewMSP (Some A) (Some labels)) = true.
Proof.
  intros Hl Hid. unfold NewMSP.
  rewrite (proj2 (forallb_forall _ (seq 0 _))).
  - cbn [negb]. rewrite (proj2 (forallb_forall _ (map_to_list labels))); [done|].
    intros [k id] Hk%list_elem_of_In%elem_of_map_to_list.
    rewrite andb_true_iff, in_range_true, negb_true_iff, N.eqb_neq. split; [|by eapply Hid].
    apply Hl. by eexists.
  - intros i Hi%in_seq. apply bool_decide_eq_true, Hl. lia.
Qed.
End msp.
Arguments MSP F : clear implicits.

(** ** Sums over selected rows *)

Section selected.
Context `{FieldElement F}.
Local Open Scope alg_scope.
Add Ring selected_ring : (ring_laws (R:=F)).
Implicit Types (P : nat → bool) (f : nat → F).

Definition selected P (rows : nat) : list nat := filter (λ r, P r = true) (seq 0 rows).

Lemma elem_of_selected P rows r : r ∈ selected P rows ↔ P r = true ∧ (r < rows)%nat.
Proof. unfold selected. rewrite list_elem_of_filter, elem_of_seq. intuition lia. Qed.

Lemma NoDup_selected P rows : NoDup (selected P rows).
Proof. apply NoDup_filter, NoDup_seq. Qed.

Lemma selected_S P rows :
  selected P (S rows) = selected P rows ++ (if P rows then [rows] else []).
Proof.
  unfold selected. rewrite seq_S, filter_app. f_equal. cbn [Nat.add].
  rewrite filter_cons. case_decide as Hr; destruct (P rows); done.
Qed.

(** A sum over the selected rows is the sum over all rows of the selected
    terms. *)
Lemma rsum_selected P rows f :
  rsum (length (selected P rows)) (λ k, f (selected P rows !!! k))
  = rsum rows (λ r, if P r then f r else 0).
Proof.
  induction rows as [|rows IH]; [done|]. rewrite selected_S, length_app.
  cbn [big]. rewrite <-IH. rewrite rsum_split. f_equal.
  - apply rsum_ext. intros i Hi. by rewrite lookup_total_app_l.
  - destruct (P rows); cbn; [|done]. rewrite lookup_total_app_r by lia.
    rewrite Nat.add_0_r, Nat.sub_diag. cbn. ring.
Qed.

Lemma selected_lookup P rows k :
  (k < length (selected P rows))%nat →
  P (selected P rows !!! k) = true ∧ (selected P rows !!! k < rows)%nat.
Proof. intros Hk. apply elem_of_selected, list_elem_of_lookup_total_2. done. Qed.
End selected.

(** The position of a selected row. *)
Lemma selected_index P rows r :
  P r = true → r < rows →
  ∃ k, k < length (selected P rows) ∧ selected P rows !!! k = r.
Proof.
  intros HP Hr. apply list_elem_of_lookup_total_1. by apply elem_of_selected.
Qed.

Lemma selected_sorted P rows : StronglySorted Z.le (Z.of_nat <$> selected P rows).
Proof.
  induction rows as [|rows IH]; [constructor|]. rewrite selected_S, fmap_app.
  apply StronglySorted_app. split_and!; [|done|destruct (P rows); repeat constructor].
  intros x y (r & -> & Hr)%list_elem_of_fmap (r' & -> & Hr')%list_elem_of_fmap.
  apply elem_of_selected in Hr as [_ Hr]. destruct (P rows); [|by apply not_elem_of_nil in Hr'].
  apply list_elem_of_singleton in Hr' as ->. lia.
Qed.

(** Sorting any enumeration of the selected rows yields them in order. *)
Lemma sort_rows_selected (l : list Z) P rows :
  NoDup l → (∀ z, z ∈ l ↔ ∃ r, P r = true ∧ r < rows ∧ z = Z.of_nat r) →
  sort_rows l = Z.of_nat <$> selected P rows.
Proof.
  intros Hl Hlk. apply (StronglySorted_unique Z.le).
  - apply StronglySorted_merge_sort; apply _.
  - apply selected_sorted.
  - etransitivity; [apply merge_sort_Permutation|]. apply NoDup_Permutation; [done| |].
    + apply NoDup_fmap; [apply _|apply NoDup_selected].
    + intros z. rewrite Hlk, list_elem_of_fmap. setoid_rewrite elem_of_selected. naive_solver.
Qed.

(** ** [ReconstructionVector] *)

Section reconstruction.
Context `{FieldElement F}.
Local Open Scope alg_scope.
Add Ring reconstruction_ring : (ring_laws (R:=F)).
Implicit Types (M : MSP F) (ids : list ID) (P : nat → bool).

(** [owned M ids r]: the holder of row [r] is in the coalition. *)
Definition owned M ids (r : nat) : bool :=
  match rowsToHolders M !! Z.of_nat r with
  | Some id => bool_decide (id ∈ ids)
  | None => false
  end.

(** The rows of a coalition, in ascending order. *)
Definition rows_of M ids : list nat := selected (owned M ids) (m (matrix M)).

Definition known M ids : bool := forallb (λ id, bool_decide (is_Some (holdersToRows M !! id))) ids.

Lemma known_spec M ids :
  known M ids = true ↔ ∀ id, id ∈ ids → is_Some (holdersToRows M !! id).
Proof.
  unfold known. rewrite forallb_forall. setoid_rewrite <-list_elem_of_In.
  split; intros Hk id Hid; apply (bool_decide_eq_true (is_Some _)); auto.
Qed.

Lemma collect_rows_ok M (l : list ID) :
  (∀ id, id ∈ l → is_Some (holdersToRows M !! id)) →
  ∀ acc, foldM (λ rows id,
    match holdersToRows M !! id with
    | Some rowsID => Ok (rows ++ elements rowsID)
    | None => Err ErrValue
    end) acc l
  = Ok (acc ++ (id ← l; elements (default ∅ (holdersToRows M !! id)))).
Proof.
  induction l as [|id l IH]; intros Hl acc; [by cbn; rewrite app_nil_r|].
  destruct (Hl id) as [rows Hrows]; [constructor|].
  cbn [foldM mbind list_bind]. rewrite Hrows. cbn [mbind result_bind default].
  rewrite IH by (intros; apply Hl; by constructor). cbn. by rewrite <-app_assoc.
Qed.

Lemma collect_rows_err M (l : list ID) :
  (∃ id, id ∈ l ∧ holdersToRows M !! id = None) → collect_rows M l = Err ErrValue.
Proof.
  unfold collect_rows. generalize (@nil Z) as acc.
  induction l as [|id l IH]; intros acc (id' & Hin & Hn); [by apply not_elem_of_nil in Hin|].
  cbn [foldM]. destruct (holdersToRows M !! id) as [rows|] eqn:Hid; cbn [mbind result_bind]; [|done].
  apply IH. exists id'. split; [|done]. apply elem_of_cons in Hin as [->|]; [congruence|done].
Qed.

Lemma sorted_ids_elem ids id :
  id ∈ sort_ids (elements (list_to_set ids : gset ID)) ↔ id ∈ ids.
Proof.
  unfold sort_ids. rewrite merge_sort_Permutation, elem_of_elements. apply elem_of_list_to_set.
Qed.

Lemma sorted_ids_elem_1 ids id :
  id ∈ sort_ids (elements (list_to_set ids : gset ID)) → id ∈ ids.
Proof. apply sorted_ids_elem. Qed.

Lemma sorted_ids_NoDup ids : NoDup (sort_ids (elements (list_to_set ids : gset ID))).
Proof. unfold sort_ids. rewrite merge_sort_Permutation. apply NoDup_elements. Qed.

Lemma rows_of_ext M ids l : (∀ id, id ∈ l ↔ id ∈ ids) → rows_of M l = rows_of M ids.
Proof.
  intros Hl. unfold rows_of, selected. apply list_filter_iff. intros r. unfold owned.
  destruct (rowsToHolders M !! Z.of_nat r); [|done]. by rewrite !bool_decide_eq_true, Hl.
Qed.

(** The row sets of distinct holders, listed in any order and sorted. *)
Lemma sorted_holder_rows M l :
  wf_msp M → NoDup l → (∀ id, id ∈ l → is_Some (holdersToRows M !! id)) →
  sort_rows (id ← l; elements (default ∅ (holdersToRows M !! id))) = Z.of_nat <$> rows_of M l.
Proof.
  intros Hwf Hnd Hk. apply sort_rows_selected.
  - apply NoDup_bind; [|intros; apply NoDup_elements|done].
    intros id1 id2 r H1 H2 Hr1%elem_of_elements Hr2%elem_of_elements.
    apply Hk in H1 as [rows1 E1]. apply Hk in H2 as [rows2 E2].
    rewrite E1 in Hr1. rewrite E2 in Hr2. cbn in Hr1, Hr2.
    apply (wf_holders M Hwf) in E1 as [_ E1]. apply (wf_holders M Hwf) in E2 as [_ E2].
    apply E1 in Hr1. apply E2 in Hr2. congruence.
  - intros z. rewrite list_elem_of_bind. split.
    + intros (id & Hz%elem_of_elements & Hid).
      destruct (Hk id Hid) as [rs E]. rewrite E in Hz. cbn in Hz.
      apply (wf_holders M Hwf) in E as [_ E]. apply E in Hz.
      assert (0 ≤ z < Z.of_nat (m (matrix M)))%Z as Hr
        by (apply (wf_labels M Hwf); by eexists).
      exists (Z.to_nat z). unfold owned. rewrite Z2Nat.id by lia. rewrite Hz.
      split_and!; [by apply bool_decide_eq_true|lia|done].
    + intros (r & Ho & Hr & ->). unfold owned in Ho.
      destruct (rowsToHolders M !! Z.of_nat r) as [id|] eqn:E; [|done].
      apply bool_decide_eq_true in Ho. exists id. split; [|done].
      destruct (Hk id Ho) as [rs E']. rewrite E'. cbn. apply elem_of_elements.
      by apply (wf_holders M Hwf id rs E').
Qed.

Lemma collect_rows_sorted M ids :
  wf_msp M → known M ids = true →
  ∃ rows, collect_rows M (sort_ids (elements (list_to_set ids : gset ID))) = Ok rows ∧
    sort_rows rows = Z.of_nat <$> rows_of M ids ∧ length rows = length (rows_of M ids).
Proof.
  intros Hwf Hk. rewrite known_spec in Hk.
  assert (∀ id, id ∈ sort_ids (elements (list_to_set ids : gset ID)) → is_Some (holdersToRows M !! id))
    as Hk' by (intros id Hid; by apply Hk, sorted_ids_elem_1).
  eexists. split; [by apply (collect_rows_ok M _)|]. cbn [app]. set (rows := _ ≫= _).
  assert (sort_rows rows = Z.of_nat <$> rows_of M ids) as Hs.
  { rewrite <-(rows_of_ext M ids _ (sorted_ids_elem ids)).
    apply sorted_holder_rows; [done|apply sorted_ids_NoDup|done]. }
  split; [done|]. transitivity (length (sort_rows rows)).
  - unfold sort_rows. by rewrite merge_sort_Permutation.
  - by rewrite Hs, length_fmap.
Qed.

(** The matrix of the coalition's rows. *)
Definition row_matrix M ids : Matrix F :=
  mk (length (rows_of M ids)) (n (matrix M)) (λ k j, at_ (matrix M) (rows_of M ids !!! k) j).

Lemma rows_of_nonempty M ids :
  wf_msp M → known M ids = true → ids ≠ [] → rows_of M ids ≠ [].
Proof.
  intros Hwf Hk Hne. destruct ids as [|id ids]; [done|].
  rewrite known_spec in Hk. destruct (Hk id) as [rs E]; [constructor|].
  apply (wf_holders M Hwf) in E as [Hrs E].
  apply set_choose_L in Hrs as [r Hr]. apply E in Hr.
  assert (0 ≤ r < Z.of_nat (m (matrix M)))%Z as Hb by (apply (wf_labels M Hwf); by eexists).
  intros Hnil. assert (Z.to_nat r ∈ rows_of M (id :: ids)) as Hin.
  { apply elem_of_selected. split; [|lia]. unfold owned. rewrite Z2Nat.id, Hr by lia.
    apply bool_decide_eq_true. constructor. }
  rewrite Hnil in Hin. by apply not_elem_of_nil in Hin.
Qed.

Lemma submatrix_rows M ids :
  rows_of M ids ≠ [] →
  SubMatrixGivenRows (matrix M) (Z.of_nat <$> rows_of M ids) = Ok (row_matrix M ids).
Proof.
  intros Hne. unfold SubMatrixGivenRows. rewrite length_fmap.
  destruct (Nat.eqb_spec (length (rows_of M ids)) 0); [by destruct (rows_of M ids)|].
  rewrite (proj2 (forallb_forall _ _)).
  - f_equal. unfold row_matrix. apply mk_ext. intros k j Hk Hj.
    assert ((Z.of_nat <$> rows_of M ids) !!! k = Z.of_nat (rows_of M ids !!! k)) as ->.
    { apply list_lookup_total_correct. rewrite list_lookup_fmap.
      by rewrite (list_lookup_lookup_total_lt (rows_of M ids) k Hk). }
    by rewrite Nat2Z.id.
  - intros z (r & -> & Hr)%list_elem_of_In%list_elem_of_fmap. apply in_range_nat.
    by apply elem_of_selected in Hr as [_ ?].
Qed.

Lemma TargetVector_ok M :
  (0 < n (matrix M))%nat →
  ∃ t, TargetVector M = Ok t ∧ m t = 1%nat ∧ n t = n (matrix M) ∧
    ∀ j, (j < n (matrix M))%nat → at_ t 0 j = if decide (j = 0%nat) then 1 else 0.
Proof.
  intros Hn. unfold TargetVector, NewStandardUnit.
  rewrite (proj2 (in_range_true 0 (n (matrix M)))) by lia. cbn [negb].
  eexists. split; [done|]. do 2 (split; [done|]). intros j Hj. unfold at_, idx. cbn.
  destruct (decide (j = 0%nat)) as [->|Hne].
  - rewrite list_lookup_total_insert_eq by (by rewrite length_replicate). done.
  - rewrite list_lookup_total_insert_ne by lia. by apply lookup_total_replicate_2.
Qed.

Lemma TargetVector_wf M t : TargetVector M = Ok t → wf t.
Proof.
  unfold TargetVector, NewStandardUnit. destruct (negb _); [done|]. intros [= <-].
  unfold wf. cbn. autorewrite with bron_len. lia.
Qed.

(** [x] combines the coalition's rows to the target. *)
Definition spans M ids (x : nat → F) : Prop :=
  ∀ j, (j < n (matrix M))%nat →
    rsum (m (matrix M)) (λ r, if owned M ids r then x r * at_ (matrix M) r j else 0)
    = if decide (j = 0%nat) then 1 else 0.

(** [k] is orthogonal to the coalition's rows and not to the target. *)
Definition separates M ids (k : nat → F) : Prop :=
  k 0%nat = 1 ∧
  ∀ r, (r < m (matrix M))%nat → owned M ids r = true →
    rsum (n (matrix M)) (λ j, at_ (matrix M) r j * k j) = 0.

Lemma spans_separates M ids x k :
  (0 < n (matrix M))%nat → spans M ids x → separates M ids k → False.
Proof.
  intros Hn Hx [Hk0 Hk]. apply one_ne_zero.
  assert (rsum (n (matrix M)) (λ j, (if decide (j = 0%nat) then 1 else 0) * k j) = 0) as E.
  { apply (combination_not_refuted (m (matrix M)) (n (matrix M))
      (λ r j, if owned M ids r then at_ (matrix M) r j else 0) x).
    - intros j Hj. rewrite <-(Hx j Hj). apply rsum_ext. intros r _.
      destruct (owned M ids r); ring.
    - intros r Hr. destruct (owned M ids r) eqn:Ho; [by apply Hk|].
      apply rsum_0_ext. intros; ring. }
  rewrite <-E, rsum_delta by done. done.
Qed.

(** Coefficients indexed by position in [rows_of] as coefficients of rows. *)
Lemma rsum_rows_of M ids (f : nat → F) :
  rsum (length (rows_of M ids)) (λ k, f (rows_of M ids !!! k))
  = rsum (m (matrix M)) (λ r, if owned M ids r then f r else 0).
Proof. apply rsum_selected. Qed.

Lemma by_position M ids (x : list F) :
  length x = length (rows_of M ids) →
  ∃ y : nat → F, ∀ k, (k < length (rows_of M ids))%nat → y (rows_of M ids !!! k) = x !!! k.
Proof.
  intros Hx.
  exists (λ r, match list_find (λ r', r' = r) (rows_of M ids) with
               | Some (k, _) => x !!! k | None => 0 end).
  intros k Hk. assert (list_find (λ r', r' = rows_of M ids !!! k) (rows_of M ids)
    = Some (k, rows_of M ids !!! k)) as ->; [|done].
  apply list_find_Some. split_and!; [by apply list_lookup_lookup_total_lt|done|].
  intros j y Hy Hj ->. assert (j = k); [|lia].
  apply (NoDup_lookup (rows_of M ids) j k _ (NoDup_selected _ _) Hy).
  by apply list_lookup_lookup_total_lt.
Qed.

Lemma ReconstructionVector_spec M ids :
  wf_msp M → (0 < n (matrix M))%nat → ids ≠ [] → known M ids = true →
  (∃ w, ReconstructionVector M ids = Ok (mkMatrix (length (rows_of M ids)) 1 w) ∧
     length w = length (rows_of M ids) ∧
     ∀ j, (j < n (matrix M))%nat →
       rsum (length (rows_of M ids)) (λ k, w !!! k * at_ (matrix M) (rows_of M ids !!! k) j)
       = if decide (j = 0%nat) then 1 else 0) ∨
  (ReconstructionVector M ids = Err ErrFailed ∧ ∃ k, separates M ids k).
Proof.
  intros Hwf Hn Hne Hk. unfold ReconstructionVector. cbv zeta.
  destruct (collect_rows_sorted M ids Hwf Hk) as (rows & -> & Hs & Hl).
  cbn [mbind result_bind]. pose proof (rows_of_nonempty M ids Hwf Hk Hne) as Hr.
  assert (length (rows_of M ids) ≠ 0%nat) as Hr0 by (by destruct (rows_of M ids)).
  destruct (Nat.eqb_spec (length rows) 0) as [?|_]; [lia|].
  rewrite Hs, submatrix_rows by done. cbn [mbind result_bind].
  destruct (TargetVector_ok M Hn) as (t & -> & Ht1 & Htn & Ht). cbn [mbind result_bind].
  destruct (SolveLeft_spec (row_matrix M ids) t) as [(x & E & Hx & Hsol)|(E & k & Hk0 & Hb)];
    [apply wf_mk|cbn; lia|cbn; lia|done|done|left|right].
  - exists x. split; [exact E|]. split; [exact Hx|]. intros j Hj.
    rewrite <-(Ht j Hj), <-(Hsol j) by done. apply rsum_ext. intros i Hi.
    unfold row_matrix. by rewrite at_mk.
  - split; [exact E|].
    assert (k 0%nat = 1) as Hk1.
    { rewrite <-Hb. cbn [n row_matrix mk]. rewrite (rsum_single _ 0%nat); [|done|].
      - rewrite Ht by done. rewrite decide_True by done. ring.
      - intros j Hj Hj0. rewrite Ht by done. rewrite decide_False by done. ring. }
    exists k. split; [done|]. intros r Hrm Ho.
    destruct (selected_index (owned M ids) (m (matrix M)) r Ho Hrm) as (i & Hi & <-).
    etransitivity; [|apply (Hk0 i Hi)]. apply rsum_ext. intros j Hj.
    unfold row_matrix. by rewrite at_mk.
Qed.

Lemma ReconstructionVector_unknown M ids :
  known M ids = false ∨ ids = [] → ReconstructionVector M ids = Err ErrValue.
Proof.
  intros [Hk| ->].
  - unfold ReconstructionVector. cbv zeta. rewrite collect_rows_err; [done|].
    apply not_true_iff_false in Hk. rewrite known_spec in Hk.
    destruct (list_find (λ id, holdersToRows M !! id = None) ids) as [[i id]|] eqn:Ef.
    + apply list_find_Some in Ef as (Hi & Hid & _). exists id. split; [|done].
      by eapply sorted_ids_elem, list_elem_of_lookup_2.
    + apply list_find_None in Ef. rewrite Forall_forall in Ef. destruct Hk.
      intros id Hid. by apply not_eq_None_Some, Ef.
  - done.
Qed.

Lemma spans_by_position M ids (w : nat → F) :
  (∀ j, (j < n (matrix M))%nat →
     rsum (length (rows_of M ids)) (λ k, w k * at_ (matrix M) (rows_of M ids !!! k) j)
     = if decide (j = 0%nat) then 1 else 0) →
  ∃ x, spans M ids x.
Proof.
  intros Hw. destruct (by_position M ids (tabulate (length (rows_of M ids)) w)) as [y Hy].
  { apply length_tabulate. }
  exists y. intros j Hj. rewrite <-(Hw j Hj), <-rsum_rows_of. apply rsum_ext.
  intros k Hk. by rewrite Hy, tabulate_lookup_total.
Qed.

(** A coalition is accepted iff it is known, non-empty and spans the target. *)
Lemma Accepts_spec M ids :
  wf_msp M → (0 < n (matrix M))%nat →
  Accepts M ids = true ↔ known M ids = true ∧ ids ≠ [] ∧ ∃ x, spans M ids x.
Proof.
  intros Hwf Hn. unfold Accepts. split.
  - destruct (decide (ids = [])) as [->|Hne].
    { by rewrite ReconstructionVector_unknown by auto. }
    destruct (known M ids) eqn:Hk; [|by rewrite ReconstructionVector_unknown by auto].
    destruct (ReconstructionVector_spec M ids Hwf Hn Hne Hk) as [(w & -> & Hl & Hw)|[-> _]];
      [|done].
    intros _. do 2 (split; [done|]). destruct (by_position M ids w Hl) as [y Hy].
    exists y. intros j Hj. rewrite <-(Hw j Hj), <-rsum_rows_of. apply rsum_ext.
    intros k Hk'. by rewrite Hy.
  - intros (Hk & Hne & x & Hx).
    destruct (ReconstructionVector_spec M ids Hwf Hn Hne Hk) as [(w & -> & _)|[_ [k Hsep]]];
      [done|]. by destruct (spans_separates M ids x k).
Qed.

Lemma Accepts_false M ids :
  wf_msp M → (0 < n (matrix M))%nat →
  Accepts M ids = false ↔ known M ids = false ∨ ids = [] ∨ ∃ k, separates M ids k.
Proof.
  intros Hwf Hn. split.
  - intros Ha. destruct (known M ids) eqn:Hk; [|by left]. right.
    destruct (decide (ids = [])) as [|Hne]; [by left|right]. unfold Accepts in Ha.
    destruct (ReconstructionVector_spec M ids Hwf Hn Hne Hk) as [(w & E & _)|[_ ?]]; [|done].
    by rewrite E in Ha.
  - intros Hor. apply not_true_iff_false. rewrite Accepts_spec by done.
    intros (Hk & Hne & x & Hx). destruct Hor as [|[|[k Hsep]]]; [congruence|done|].
    by apply (spans_separates M ids x k).
Qed.
End reconstruction.

(** ** Programmes labelled row by row

    Every [InducedMSP] builds [rowsToHolders] by the loop
    [for i, id := range l { rowsToHolders[i] = id }]. *)

Definition label_rows (l : list ID) : gmap Z ID :=
  foldl (λ labels '(i, id), <[Z.of_nat i := id]> labels) ∅ (imap pair l).

Lemma label_rows_lookup (l : list ID) z :
  label_rows l !! z = if decide (0 ≤ z)%Z then l !! Z.to_nat z else None.
Proof.
  unfold label_rows. induction l as [|id l IH] using rev_ind.
  { cbn. rewrite lookup_empty. by case_decide. }
  rewrite imap_app, foldl_app. cbn [imap foldl]. rewrite Nat.add_0_r.
  destruct (decide (z = Z.of_nat (length l))) as [->|Hne].
  - rewrite lookup_insert_eq, decide_True, Nat2Z.id by lia.
    by rewrite list_lookup_middle.
  - rewrite lookup_insert_ne, IH by done. case_decide as Hz; [|done].
    destruct (decide (Z.to_nat z < length l)%nat).
    + by rewrite lookup_app_l.
    + rewrite !lookup_ge_None_2; [done| |lia]. rewrite length_app. cbn. lia.
Qed.

Section labelled.
Context `{FieldElement F}.
Implicit Types (M : MSP F) (A : Matrix F) (l ids : list ID).

(** What [NewMSP] makes of a matrix and the labels of its rows. *)
Record labelled M A l : Prop := {
  labelled_wf : wf_msp M;
  labelled_matrix : matrix M = A;
  labelled_rows : ∀ r, rowsToHolders M !! Z.of_nat r = l !! r;
}.

Lemma NewMSP_label_rows A l :
  wf A → length l = m A → (∀ id, id ∈ l → id ≠ 0%N) →
  ∃ M, NewMSP (Some A) (Some (label_rows l)) = Ok M ∧ labelled M A l.
Proof.
  intros HA Hl Hid.
  assert (is_ok (NewMSP (Some A) (Some (label_rows l))) = true) as Hok.
  { apply NewMSP_total.
    - intros r. rewrite label_rows_lookup. case_decide as Hr.
      + rewrite lookup_lt_is_Some. lia.
      + split; [by intros [? ?]|lia].
    - intros r id. rewrite label_rows_lookup. case_decide; [|done].
      intros E. by eapply Hid, list_elem_of_lookup_2. }
  apply is_ok_true in Hok as [M HM]. exists M. split; [done|].
  destruct (NewMSP_ok A _ M HM HA) as (Hwf & Hmat & Hlab). split; [done|done|].
  intros r. rewrite Hlab, label_rows_lookup, decide_True by lia. by rewrite Nat2Z.id.
Qed.

Lemma labelled_owned M A l ids r :
  labelled M A l → (r < length l)%nat → owned M ids r = bool_decide (l !!! r ∈ ids).
Proof.
  intros HM Hr. unfold owned. rewrite (labelled_rows _ _ _ HM).
  by rewrite (list_lookup_lookup_total_lt l r Hr).
Qed.

Lemma labelled_known M A l ids :
  labelled M A l → known M ids = true ↔ ∀ id, id ∈ ids → id ∈ l.
Proof.
  intros HM. rewrite known_spec. pose proof (labelled_wf _ _ _ HM) as Hwf.
  split; intros Hk id Hid.
  - destruct (Hk id Hid) as [rows E]. apply (wf_holders M Hwf) in E as [Hne E].
    apply set_choose_L in Hne as [r Hr]. apply E in Hr.
    destruct (proj1 (wf_labels M Hwf r)) as [Hr0 _]; [by eexists|].
    rewrite <-(Z2Nat.id r Hr0), (labelled_rows _ _ _ HM) in Hr.
    by eapply list_elem_of_lookup_2.
  - destruct (holdersToRows M !! id) as [rows|] eqn:E; [by eexists|].
    apply Hk, list_elem_of_lookup in Hid as [r Hr].
    rewrite <-(labelled_rows _ _ _ HM) in Hr.
    by destruct (wf_holders_none M Hwf id E (Z.of_nat r)).
Qed.
(** When no two rows share a holder, a coalition has as many rows as members. *)
Lemma labelled_count M A l ids :
  labelled M A l → length l = m A → NoDup l → (∀ id, id ∈ ids → id ∈ l) →
  length (rows_of M ids) = size (list_to_set ids : gset ID).
Proof.
  intros HM Hl Hnd Hids. rewrite <-(length_fmap (λ r, l !!! r)).
  rewrite <-(size_list_to_set (C:=gset ID)).
  - f_equal. apply set_eq. intros id. rewrite !elem_of_list_to_set, list_elem_of_fmap.
    unfold rows_of. rewrite (labelled_matrix _ _ _ HM), <-Hl. split.
    + intros (r & -> & [Ho Hr]%elem_of_selected).
      rewrite (labelled_owned M A l) in Ho by done. by apply bool_decide_eq_true in Ho.
    + intros Hid. destruct (list_elem_of_lookup_total_1 l id (Hids id Hid)) as (r & Hr & <-).
      exists r. split; [done|]. apply elem_of_selected. split; [|done].
      rewrite (labelled_owned M A l) by done. by apply bool_decide_eq_true.
  - apply NoDup_fmap_2_strong; [|apply NoDup_selected]. intros r1 r2 H1 H2 E.
    unfold rows_of in *. rewrite (labelled_matrix _ _ _ HM), <-Hl in *.
    apply elem_of_selected in H1 as [_ H1], H2 as [_ H2].
    apply (NoDup_lookup l r1 r2 (l !!! r1) Hnd); [by apply list_lookup_lookup_total_lt|].
    rewrite E. by apply list_lookup_lookup_total_lt.
Qed.

Lemma labelled_ideal M A l : labelled M A l → NoDup l → IsIdeal M = true.
Proof.
  intros HM Hnd. pose proof (labelled_wf _ _ _ HM) as Hwf. unfold IsIdeal.
  apply forallb_forall. intros [id rows] Hin%list_elem_of_In%elem_of_map_to_list.
  apply (wf_holders M Hwf) in Hin as [Hne Hr]. apply Nat.eqb_eq.
  apply set_choose_L in Hne as [r Hr0].
  assert (rows = {[r]}) as ->; [|apply size_singleton].
  apply set_eq. intros r'. rewrite elem_of_singleton. split; [|by intros ->].
  intros Hr'. apply Hr in Hr0, Hr'.
  destruct (proj1 (wf_labels M Hwf r)) as [H0 _]; [by eexists|].
  destruct (proj1 (wf_labels M Hwf r')) as [H0' _]; [by eexists|].
  rewrite <-(Z2Nat.id r) in Hr0 by done. rewrite <-(Z2Nat.id r') in Hr' by done.
  rewrite (labelled_rows _ _ _ HM) in Hr0, Hr'.
  pose proof (NoDup_lookup l _ _ _ Hnd Hr0 Hr'). lia.
Qed.
End labelled.

(** ** Properties *)

Section properties.
Context `{FieldElement F}.
Local Open Scope alg_scope.
Implicit Types (A : Matrix F) (M : MSP F) (ids : list ID) (k x : nat → F).

(** [NewMSP] accepts exactly the labellings that give every row, and only
    rows, a non-zero holder; the reverse map it builds sends each holder to
    the non-empty set of its rows and knows no other ID. *)
Theorem NewMSP_correct A (labels : gmap Z ID) :
  wf A →
  ((∀ r, is_Some (labels !! r) ↔ (0 ≤ r < Z.of_nat (m A))%Z) →
   (∀ r id, labels !! r = Some id → id ≠ 0%N) →
   is_ok (NewMSP (Some A) (Some labels)) = true) ∧
  ∀ M, NewMSP (Some A) (Some labels) = Ok M →
    matrix M = A ∧ rowsToHolders M = labels ∧
    (∀ r, is_Some (labels !! r) ↔ (0 ≤ r < Z.of_nat (m A))%Z) ∧
    (∀ id rows, holdersToRows M !! id = Some rows ↔
       rows ≠ ∅ ∧ ∀ r, r ∈ rows ↔ labels !! r = Some id).
Proof.
  intros HA. split; [by apply NewMSP_total|]. intros M HM.
  destruct (NewMSP_ok A labels M HM HA) as (Hwf & Hmat & Hlab). subst A labels.
  do 2 (split; [done|]). split; [apply (wf_labels M Hwf)|]. intros id rows. split.
  - apply (wf_holders M Hwf).
  - intros [Hne Hr]. destruct (holdersToRows M !! id) as [rows'|] eqn:E.
    + f_equal. apply (wf_holders M Hwf) in E as [_ E]. apply set_eq. intros r.
      by rewrite E, Hr.
    + apply set_choose_L in Hne as [r Hr']. apply Hr in Hr'.
      by destruct (wf_holders_none M Hwf id E r).
Qed.

(** C1. [Accepts] decides the span condition: a coalition of holders is
    accepted iff some combination of its rows is the target vector, and a
    known, non-empty coalition is rejected iff some vector orthogonal to all
    its rows has first coordinate one.  [ReconstructionVector] returns on an
    accepted coalition a column with one entry for each of its rows, taken in
    ascending order, and that column combines the rows to the target; on a
    known, non-empty, rejected coalition it returns [ErrFailed], and on an
    unknown ID or an empty coalition [ErrValue].  It never panics. *)
Theorem Accepts_decides M ids :
  wf_msp M → (0 < n (matrix M))%nat →
  (Accepts M ids = true ↔ known M ids = true ∧ ids ≠ [] ∧ ∃ x, spans M ids x) ∧
  (known M ids = true → ids ≠ [] →
     (Accepts M ids = false ↔ ∃ k, separates M ids k)) ∧
  (Accepts M ids = true → ∃ w,
     ReconstructionVector M ids = Ok (mkMatrix (length (rows_of M ids)) 1 w) ∧
     length w = length (rows_of M ids) ∧
     (∀ j, (j < n (matrix M))%nat →
       rsum (length (rows_of M ids)) (λ i, w !!! i * at_ (matrix M) (rows_of M ids !!! i) j)
       = if decide (j = 0%nat) then 1 else 0)) ∧
  (known M ids = true → ids ≠ [] → Accepts M ids = false →
     ReconstructionVector M ids = Err ErrFailed) ∧
  (known M ids = false ∨ ids = [] → ReconstructionVector M ids = Err ErrValue) ∧
  ReconstructionVector M ids ≠ Panic.
Proof.
  intros Hwf Hn. split_and!.
  - by apply Accepts_spec.
  - intros Hk Hne. rewrite Accepts_false by done. split; [|by right; right].
    intros [|[|]]; [congruence|done|done].
  - intros Ha. apply Accepts_spec in Ha as (Hk & Hne & x & Hx); [|done..].
    destruct (ReconstructionVector_spec M ids Hwf Hn Hne Hk) as [Hok|[_ [k Hs]]]; [done|].
    by destruct (spans_separates M ids x k).
  - intros Hk Hne Ha.
    destruct (ReconstructionVector_spec M ids Hwf Hn Hne Hk) as [(w & E & _)|[E _]]; [|done].
    unfold Accepts in Ha. by rewrite E in Ha.
  - apply ReconstructionVector_unknown.
  - destruct (decide (ids = [])) as [->|Hne]; [by rewrite ReconstructionVector_unknown by auto|].
    destruct (known M ids) eqn:Hk; [|by rewrite ReconstructionVector_unknown by auto].
    by destruct (ReconstructionVector_spec M ids Hwf Hn Hne Hk) as [(w & -> & _)|[-> _]].
Qed.
End properties.

(** The 2-of-2 programme with rows (1, 1) and (1, 2) of holders 4 and 7. *)
Definition ex_A : Matrix fp101 := mkMatrix 2 2 (f101 <$> [1; 1; 1; 2]%Z).

Lemma NewMSP_correct_witness : is_ok (NewMSP (Some ex_A) (Some (label_rows [4; 7]%N))) = true.
Proof.
  apply (NewMSP_correct ex_A (label_rows [4; 7]%N)); [reflexivity| |].
  - intros r. rewrite label_rows_lookup. case_decide as Hr.
    + rewrite lookup_lt_is_Some. cbn. lia.
    + split; [by intros [? ?]|cbn; lia].
  - intros r id. rewrite label_rows_lookup. case_decide; [|done].
    intros E%list_elem_of_lookup_2. rewrite list_elem_of_In in E.
    by destruct E as [<-|[<-|[]]].
Defined.

Lemma Accepts_decides_witness :
  ∃ M : MSP fp101, NewMSP (Some ex_A) (Some (label_rows [4; 7]%N)) = Ok M ∧
    Accepts M [7; 4]%N = true ∧ ∃ k, separates M [4]%N k.
Proof.
  destruct (NewMSP_label_rows ex_A [4; 7]%N) as (M & HM & Hlab); [done|done| |].
  { intros id Hid. rewrite list_elem_of_In in Hid. by destruct Hid as [<-|[<-|[]]]. }
  exists M. split; [exact HM|].
  destruct (Accepts_decides M [4]%N) as (_ & Hrej & _).
  { apply (labelled_wf _ _ _ Hlab). }
  { rewrite (labelled_matrix _ _ _ Hlab). cbn. lia. }
  vm_compute in HM. injection HM as <-. split; [vm_compute; reflexivity|].
  apply Hrej; [vm_compute; reflexivity|done|vm_compute; reflexivity].
Defined.
