(* ===== verification/Access.v ===== *)
(** * The monotone access structure interface (accessstructures/access_structure.go)

    [Monotone] is the interface the sharing schemes use: the qualification
    test, the universe of shareholders and the maximal unqualified sets.
    [realises] is the contract between an access structure and the programme
    [InducedMSP] builds for it. *)

From Stdlib Require Import ZArith NArith Lia.
From S2P Require Import Prelude Algebra AlgebraUtils Poly Combinations Matrix MSP.

(** [hashset.NewComparable(ids...)] and its [List], in an order the code does
    not fix. *)
Definition id_set (ids : list ID) : gset ID := list_to_set ids.

Class Monotone (A : Type) := {
  IsQualified : A → list ID → bool;
  Shareholders : A → gset ID;
  MaximalUnqualifiedSets : A → result (list (gset ID));
}.

(** The programme accepts exactly the qualified coalitions. *)
Definition realises `{FieldElement F} `{Monotone A} (M : MSP F) (ac : A) : Prop :=
  wf_msp M ∧ 0 < n (matrix M) ∧ MSP.Shareholders M = Shareholders ac ∧
  ∀ ids, Accepts M ids = IsQualified ac ids.

Lemma id_set_elem ids id : id ∈ id_set ids ↔ id ∈ ids.
Proof. apply elem_of_list_to_set. Qed.

(** The shareholders of a labelled programme are its labels. *)
Lemma labelled_shareholders `{FieldElement F} (M : MSP F) A l :
  labelled M A l → MSP.Shareholders M = list_to_set l.
Proof.
  intros HM. apply set_eq. intros id. unfold MSP.Shareholders.
  rewrite elem_of_dom, elem_of_list_to_set.
  pose proof (labelled_known M A l [id] HM) as Hk. rewrite known_spec in Hk.
  split; intros Hid.
  - apply Hk; [|by constructor]. by intros id' ->%list_elem_of_singleton.
  - apply Hk; [|by constructor]. by intros id' ->%list_elem_of_singleton.
Qed.

(** A maximal unqualified set: any further shareholder qualifies it. *)
Definition maximal_unqualified `{Monotone A} (ac : A) (X : gset ID) : Prop :=
  X ⊆ Shareholders ac ∧ IsQualified ac (elements X) = false ∧
  ∀ id, id ∈ Shareholders ac → id ∉ X → IsQualified ac (id :: elements X) = true.

Lemma id_set_elements (X : gset ID) : id_set (elements X) = X.
Proof. apply set_eq. intros id. by rewrite id_set_elem, elem_of_elements. Qed.

Lemma id_set_cons id (X : gset ID) : id_set (id :: elements X) = {[id]} ∪ X.
Proof.
  apply set_eq. intros id'. by rewrite id_set_elem, elem_of_cons, elem_of_elements,
    elem_of_union, elem_of_singleton.
Qed.

(** The [k]-subsets of a set, as streamed by [Combinations] over its list. *)
Lemma Combinations_subsets (s : gset ID) k X :
  (Z.of_nat (size s) < 2 ^ 63)%Z → (Z.of_nat (size s * binom (size s) k) < 2 ^ 63)%Z →
  X ∈ (id_set <$> Combinations (elements s) k) ↔ X ⊆ s ∧ size X = k.
Proof.
  intros Hs Hb.
  assert (∀ c, c ∈ Combinations (elements s) k ↔ sublist c (elements s) ∧ length c = k) as Hc.
  { intros c. rewrite Combinations_sublists by done. destruct (Nat.ltb_spec (length (elements s)) k).
    - rewrite elem_of_nil. split; [done|]. intros [Hsub%sublist_length <-]. lia.
    - apply sublists_spec. }
  rewrite list_elem_of_fmap. setoid_rewrite Hc. split.
  - intros (c & -> & Hsub & <-). split.
    + intros id Hid%id_set_elem. apply elem_of_elements. by eapply elem_of_sublist.
    + apply (size_list_to_set (C:=gset ID)). eapply sublist_NoDup; [apply (NoDup_elements s)|done].
  - intros [HX <-]. exists (filter (λ id, id ∈ X) (elements s)). split; [|split].
    + apply set_eq. intros id. rewrite id_set_elem, list_elem_of_filter, elem_of_elements.
      set_solver.
    + apply sublist_filter.
    + rewrite <-(size_list_to_set (C:=gset ID)) by (apply NoDup_filter, (NoDup_elements s)).
      f_equal. apply set_eq. intros id.
      rewrite elem_of_list_to_set, list_elem_of_filter, elem_of_elements. set_solver.
Qed.

Lemma size_ge_2 (s : gset ID) :
  2 ≤ size s ↔ ∃ id1 id2, id1 ∈ s ∧ id2 ∈ s ∧ id1 ≠ id2.
Proof.
  change (size s) with (length (elements s)). split.
  - intros Hs. pose proof (NoDup_elements s) as Hnd. setoid_rewrite <-elem_of_elements.
    destruct (elements s) as [|id1 [|id2 l]]; cbn in Hs; [lia..|].
    apply NoDup_cons in Hnd as [Hid _]. exists id1, id2. set_solver.
  - intros (id1 & id2 & H1%elem_of_elements & H2%elem_of_elements & Hne).
    destruct (elements s) as [|x [|y l]]; cbn; [set_solver|set_solver|lia].
Qed.

Lemma size_id_set_NoDup (l : list ID) : size (id_set l) = length l ↔ NoDup l.
Proof.
  split; [|apply (size_list_to_set (C:=gset ID))].
  induction l as [|x l IH]; intros E; [constructor|]. cbn in E.
  assert (size (id_set l) ≤ length l) as Hle.
  { clear. unfold id_set. induction l as [|y l IH]; cbn; [done|].
    pose proof (size_union_alt ({[y]} : gset ID) (list_to_set l)) as Hu.
    rewrite Hu, size_singleton.
    assert (size (list_to_set l ∖ {[y]} : gset ID) ≤ size (list_to_set l : gset ID))
      by (apply subseteq_size; set_solver). lia. }
  assert (x ∉ l) as Hx.
  { intros Hx%(id_set_elem l). unfold id_set in *.
    rewrite (subseteq_union_1_L {[x]}) in E by set_solver. lia. }
  constructor; [done|]. apply IH. unfold id_set in *.
  rewrite size_union in E by (rewrite disjoint_singleton_l, elem_of_list_to_set; done).
  rewrite size_singleton in E. lia.
Qed.
