(* ===== verification/Threshold.v ===== *)
(** * Threshold access structures (accessstructures/threshold/threshold.go)

    [t] out of the shareholders [ps]; the induced programme is the Vandermonde
    matrix of the shareholder IDs.  It realises the structure over every prime
    field whose order exceeds the IDs: any [t] rows span the target by
    Lagrange's formula at zero, and fewer are orthogonal to the normalised
    polynomial that vanishes at their nodes. *)

From Stdlib Require Import ZArith NArith Lia Ring Field.
From S2P Require Import Prelude Algebra AlgebraUtils Poly Combinations Matrix Solver Interp MSP Access.

Module Threshold.
Record Threshold := mkThreshold { t : nat; ps : gset ID }.

Definition NewThresholdAccessStructure (t : nat) (ps : option (gset ID)) : result Threshold :=
  match ps with
  | None => Err ErrIsNil
  | Some ps =>
      if bool_decide (0%N ∈ ps) then Err ErrMembership
      else if t <? 2 then Err ErrValue
      else if size ps <? t then Err ErrValue
      else Ok (mkThreshold t ps)
  end.

Definition is_qualified (a : Threshold) (ids : list ID) : bool :=
  (t a <=? size (id_set ids)) && bool_decide (id_set ids ⊆ ps a).

(** [MaximalUnqualifiedSetsIter]: the subsets of size [t - 1]. *)
Definition maximal_unqualified_sets (a : Threshold) : list (gset ID) :=
  id_set <$> Combinations (elements (ps a)) (t a - 1).

Definition Equal (a other : Threshold) : bool :=
  if negb (t a =? t other) then false
  else if negb (size (ps a) =? size (ps other)) then false
  else bool_decide (ps a = ps other).

#[export] Instance threshold_monotone : Monotone Threshold := {|
  IsQualified := is_qualified;
  Shareholders := ps;
  MaximalUnqualifiedSets := λ a, Ok (maximal_unqualified_sets a);
|}.

Section induced.
Context `{PrimeField F}.

Definition InducedMSP (ac : option Threshold) : result (MSP F) :=
  match ac with
  | None => Err ErrIsNil
  | Some ac =>
      let shareHolders := sort_ids (elements (ps ac)) in
      let nodes := (λ id, from_uint64 (Z.of_N id)) <$> shareHolders in
      matrix ← Vandermonde.BuildVandermondeMatrix nodes (t ac);
      NewMSP (Some matrix) (Some (label_rows shareHolders))
  end.
End induced.
End Threshold.
#[export] Existing Instance Threshold.threshold_monotone.

(** ** The induced programme *)

Section theory.
Context `{PrimeField F}.
Local Open Scope alg_scope.
Add Ring threshold_ring : (ring_laws (R:=F)).
Implicit Types (ac : Threshold.Threshold) (M : MSP F) (ids : list ID).

(** The invariant the constructor establishes. *)
Definition valid ac : Prop :=
  (0%N ∉ Threshold.ps ac) ∧ 2 ≤ Threshold.t ac ≤ size (Threshold.ps ac).

Definition ids_in_field (s : gset ID) : Prop := ∀ id, id ∈ s → (Z.of_N id < order)%Z.

Lemma node_inj (s : gset ID) id1 id2 :
  ids_in_field s → id1 ∈ s → id2 ∈ s →
  from_uint64 (Z.of_N id1) = (from_uint64 (Z.of_N id2) : F) → id1 = id2.
Proof.
  intros Hs H1 H2 E. apply N2Z.inj, (from_uint64_inj_small (F:=F)); [| |done].
  - specialize (Hs _ H1). lia.
  - specialize (Hs _ H2). lia.
Qed.

Lemma node_ne_0 (s : gset ID) id :
  ids_in_field s → id ∈ s → id ≠ 0%N → from_uint64 (Z.of_N id) ≠ (0 : F).
Proof.
  intros Hs Hid Hne E. apply Hne, N2Z.inj, (from_uint64_inj_small (F:=F)).
  - specialize (Hs _ Hid). lia.
  - specialize (Hs _ Hid). lia.
  - by rewrite E, from_uint64_0.
Qed.

(** A programme whose row of label [id] is [1, x, x^2, ..] for the node [x] of
    [id]. *)
Definition vandermonde_msp M (l : list ID) (cols : nat) : Prop :=
  labelled M (matrix M) l ∧ length l = m (matrix M) ∧ n (matrix M) = cols ∧
  ∀ r j, (r < length l)%nat → (j < cols)%nat →
    at_ (matrix M) r j = rpow (from_uint64 (Z.of_N (l !!! r))) j.

Lemma InducedMSP_ok ac :
  valid ac →
  ∃ M, Threshold.InducedMSP (Some ac) = Ok M ∧
    vandermonde_msp M (sort_ids (elements (Threshold.ps ac))) (Threshold.t ac).
Proof.
  intros [H0 Ht]. unfold Threshold.InducedMSP. cbv zeta.
  set (l := sort_ids (elements (Threshold.ps ac))).
  set (nodes := _ <$> l).
  assert (length l = size (Threshold.ps ac)) as Hl by apply sorted_elements_length.
  destruct (BuildVandermondeMatrix_ok nodes (Threshold.t ac)) as (V & -> & Hwf & Hm & Hn & Hat).
  { unfold nodes. destruct l; [cbn in Hl; lia|done]. }
  { lia. }
  cbn [mbind result_bind]. unfold nodes in Hm. rewrite length_fmap in Hm.
  destruct (NewMSP_label_rows V l) as (M & -> & HM); [done|done| |].
  { intros id Hid%sorted_elements_elem ->. done. }
  exists M. split; [done|]. unfold vandermonde_msp. rewrite (labelled_matrix _ _ _ HM).
  do 3 (split; [done|]). intros r j Hr Hj. rewrite Hat by (unfold nodes; rewrite ?length_fmap; done).
  f_equal. unfold nodes.
  by rewrite (list_lookup_total_fmap (λ id, from_uint64 (Z.of_N id)) l r Hr).
Qed.

Section vandermonde.
Context M (l : list ID) (cols : nat) (HV : vandermonde_msp M l cols).
Context (Hnd : NoDup l) (Hfield : ids_in_field (list_to_set l)) (H0 : 0%N ∉ l).
Context ids (Hids : ∀ id, id ∈ ids → id ∈ l).

(** The nodes of the coalition's rows. *)
Let nodes : list F := (λ r, from_uint64 (Z.of_N (l !!! r))) <$> rows_of M ids.

Lemma coalition_rows r : r ∈ rows_of M ids → (r < length l)%nat ∧ l !!! r ∈ ids.
Proof using HV.
  destruct HV as (HM & Hl & _ & _). intros [Ho Hr]%elem_of_selected.
  rewrite <-Hl in Hr. split; [done|].
  rewrite (labelled_owned M (matrix M) l) in Ho by done. by apply bool_decide_eq_true in Ho.
Qed.

Lemma coalition_node k :
  (k < length (rows_of M ids))%nat →
  nodes !!! k = from_uint64 (Z.of_N (l !!! (rows_of M ids !!! k))).
Proof using.
  intros Hk. exact (list_lookup_total_fmap
    (λ r, from_uint64 (Z.of_N (l !!! r)) : F) (rows_of M ids) k Hk).
Qed.

Lemma coalition_nodes_NoDup : NoDup nodes.
Proof using HV Hnd Hfield.
  apply NoDup_fmap_2_strong; [|apply NoDup_selected].
  intros r1 r2 H1%coalition_rows H2%coalition_rows E.
  apply (node_inj (list_to_set l)) in E; [|done| |];
    [|apply elem_of_list_to_set, list_elem_of_lookup_total_2; apply H1
     |apply elem_of_list_to_set, list_elem_of_lookup_total_2; apply H2].
  destruct H1 as [H1 _], H2 as [H2 _].
  apply (NoDup_lookup l r1 r2 (l !!! r1) Hnd); [by apply list_lookup_lookup_total_lt|].
  rewrite E. by apply list_lookup_lookup_total_lt.
Qed.

Lemma coalition_at k j :
  (k < length (rows_of M ids))%nat → (j < cols)%nat →
  at_ (matrix M) (rows_of M ids !!! k) j = rpow (nodes !!! k) j.
Proof using HV.
  intros Hk Hj. rewrite coalition_node by done. destruct HV as (_ & _ & _ & Hat).
  apply Hat; [|done]. apply coalition_rows, list_elem_of_lookup_total_2. done.
Qed.

(** Enough rows: the Lagrange coefficients at zero combine them to the target. *)
Lemma vandermonde_spans :
  (cols ≤ length (rows_of M ids))%nat → ∃ x, spans M ids x.
Proof using HV Hnd Hfield.
  intros Hle. apply (spans_by_position M ids (lagrange_at nodes 0)).
  destruct HV as (_ & _ & Hn & _). rewrite Hn. intros j Hj.
  assert (length nodes = length (rows_of M ids)) as Hlen by (unfold nodes; apply length_fmap).
  transitivity (rpow (0 : F) j).
  - rewrite <-(lagrange_formula_pow nodes j 0 coalition_nodes_NoDup) by lia.
    rewrite Hlen. apply rsum_ext. intros k Hk. by rewrite coalition_at.
  - case_decide as Hj0; [by subst|]. by apply rpow_of_0.
Qed.

(** Too few rows: the polynomial vanishing at their nodes, scaled to one at
    zero, is orthogonal to them. *)
Lemma vandermonde_separates :
  (length (rows_of M ids) < cols)%nat → ∃ k, separates M ids k.
Proof using HV Hnd Hfield H0 Hids.
  intros Hlt. set (p := root_poly nodes). set (c := Polynomial.Eval p 0).
  assert (length nodes = length (rows_of M ids)) as Hlen by (unfold nodes; apply length_fmap).
  assert (c ≠ 0) as Hc.
  { unfold c, p. rewrite root_poly_eval. apply rprod_ne_0. intros k Hk.
    rewrite Hlen in Hk. rewrite coalition_node by done. intros E%rsub_0. symmetry in E.
    revert E. apply (node_ne_0 (list_to_set l)); [done| |].
    - apply elem_of_list_to_set, list_elem_of_lookup_total_2.
      by apply coalition_rows, list_elem_of_lookup_total_2.
    - intros E. apply H0. rewrite <-E. apply Hids.
      by apply coalition_rows, list_elem_of_lookup_total_2. }
  exists (λ j, Polynomial.ScalarMul p (inv0 c) !!! j). split.
  - rewrite ScalarMul_coef. rewrite <-Eval_0. fold c. rewrite rmul_comm. by apply inv0_l.
  - intros r Hr Ho.
    destruct (selected_index (owned M ids) (m (matrix M)) r Ho Hr) as (k & Hk & <-).
    change (selected (owned M ids) (m (matrix M))) with (rows_of M ids) in *.
    destruct HV as (_ & _ & Hn & _).
    transitivity (Polynomial.Eval (Polynomial.ScalarMul p (inv0 c)) (nodes !!! k)).
    + rewrite <-(Eval_long _ _ cols).
      * rewrite Hn. apply rsum_ext. intros j Hj. by rewrite coalition_at.
      * unfold Polynomial.ScalarMul, p. rewrite length_fmap, root_poly_length. lia.
    + rewrite Eval_ScalarMul. unfold p. rewrite root_poly_eval.
      rewrite (rprod_0 _ _ k); [ring|lia|ring].
Qed.
End vandermonde.
End theory.

(** ** Properties *)

Section properties.
Implicit Types (ac : Threshold.Threshold) (ids : list ID) (X : gset ID).

Lemma New_valid t ps ac :
  Threshold.NewThresholdAccessStructure t ps = Ok ac ↔
  ps = Some (Threshold.ps ac) ∧ t = Threshold.t ac ∧ valid ac.
Proof.
  unfold Threshold.NewThresholdAccessStructure, valid. split.
  - destruct ps as [ps|]; [|done]. case_bool_decide as H0; [done|].
    destruct (Nat.ltb_spec t 2); [done|]. destruct (Nat.ltb_spec (size ps) t); [done|].
    intros [= <-]. cbn. auto with lia.
  - destruct ac as [t' ps']. cbn [Threshold.t Threshold.ps]. intros (-> & -> & H0 & Ht).
    rewrite bool_decide_eq_false_2 by done.
    destruct (Nat.ltb_spec t' 2); [lia|]. by destruct (Nat.ltb_spec (size ps') t'); [lia|].
Qed.

(** C19. The programme induced by a constructed threshold structure exists,
    is ideal, has the structure's shareholders and accepts exactly the
    qualified coalitions - whatever IDs a coalition lists, repeated or
    unknown ones included - over every prime field that tells the IDs apart. *)
Theorem Threshold_InducedMSP_realises `{PrimeField F} t ps ac :
  Threshold.NewThresholdAccessStructure t (Some ps) = Ok ac →
  (∀ id, id ∈ ps → (Z.of_N id < order)%Z) →
  ∃ M : MSP F, Threshold.InducedMSP (Some ac) = Ok M ∧ IsIdeal M = true ∧ realises M ac.
Proof.
  intros (Hps & _ & [H0 Ht])%New_valid Hfield. injection Hps as ->.
  destruct (InducedMSP_ok (F:=F) ac) as (M & HM & HV); [done|]. exists M. split; [done|].
  set (l := sort_ids (elements (Threshold.ps ac))) in *.
  assert (NoDup l) as Hnd by apply sorted_elements_NoDup.
  pose proof HV as (Hlab & Hl & Hn & _).
  split; [by apply (labelled_ideal M (matrix M) l)|]. split; [apply (labelled_wf _ _ _ Hlab)|].
  split; [lia|]. split.
  { rewrite (labelled_shareholders M (matrix M) l Hlab). apply sorted_elements_set. }
  assert (ids_in_field (F:=F) (list_to_set l)) as Hf.
  { intros id. unfold l. rewrite sorted_elements_set. apply Hfield. }
  assert (0%N ∉ l) as H0l by (by intros ?%sorted_elements_elem).
  intros ids. cbn. unfold Threshold.is_qualified.
  destruct (known M ids) eqn:Hk.
  - pose proof Hk as Hk'. rewrite (labelled_known M (matrix M) l) in Hk' by done.
    rewrite bool_decide_true, andb_true_r.
    2:{ intros id Hid%id_set_elem. by apply sorted_elements_elem, Hk'. }
    pose proof (labelled_count M (matrix M) l ids Hlab Hl Hnd Hk') as Hc. fold (id_set ids) in Hc.
    rewrite <-Hc. destruct (Nat.leb_spec (Threshold.t ac) (length (rows_of M ids))) as [Hle|Hgt].
    + apply Accepts_spec; [apply (labelled_wf _ _ _ Hlab)|lia|]. split; [done|]. split.
      * intros ->. change (id_set []) with (∅ : gset ID) in Hc. rewrite size_empty in Hc. lia.
      * by apply (vandermonde_spans M l (Threshold.t ac)).
    + apply Accepts_false; [apply (labelled_wf _ _ _ Hlab)|lia|]. right. right.
      by apply (vandermonde_separates M l (Threshold.t ac)).
  - rewrite bool_decide_false, andb_false_r.
    + apply Accepts_false; [apply (labelled_wf _ _ _ Hlab)|lia|]. by left.
    + intros Hsub. apply not_true_iff_false in Hk. apply Hk.
      apply (labelled_known M (matrix M) l); [done|]. intros id Hid.
      by apply sorted_elements_elem, Hsub, id_set_elem.
Qed.

(** [MaximalUnqualifiedSetsIter] streams exactly the maximal unqualified
    sets of a constructed threshold structure. *)
Theorem Threshold_MaximalUnqualifiedSets t ps ac X :
  Threshold.NewThresholdAccessStructure t (Some ps) = Ok ac →
  (Z.of_nat (size ps * binom (size ps) (t - 1)) < 2 ^ 63)%Z → (Z.of_nat (size ps) < 2 ^ 63)%Z →
  X ∈ Threshold.maximal_unqualified_sets ac ↔ maximal_unqualified ac X.
Proof.
  intros (Hps & -> & [H0 Ht])%New_valid Hb Hs. injection Hps as ->.
  unfold Threshold.maximal_unqualified_sets. rewrite Combinations_subsets by done.
  unfold maximal_unqualified. cbn. unfold Threshold.is_qualified.
  rewrite id_set_elements. split.
  - intros [HX Hsz]. split; [done|]. split.
    + rewrite Hsz. by destruct (Nat.leb_spec (Threshold.t ac) (Threshold.t ac - 1)); [lia|].
    + intros id Hid Hn. rewrite id_set_cons, bool_decide_true by set_solver.
      rewrite size_union, size_singleton by set_solver. rewrite andb_true_r.
      apply Nat.leb_le. lia.
  - intros (HX & Hun & Hmax). split; [done|]. rewrite bool_decide_true, andb_true_r in Hun by done.
    apply Nat.leb_gt in Hun.
    destruct (decide (Threshold.ps ac ⊆ X)) as [Hsub|Hsub].
    { assert (X = Threshold.ps ac) as -> by set_solver. lia. }
    assert (∃ id, id ∈ Threshold.ps ac ∧ id ∉ X) as (id & Hid & Hn).
    { destruct (set_choose_or_empty (Threshold.ps ac ∖ X)) as [[id Hid]|He].
      - exists id. by apply elem_of_difference in Hid.
      - exfalso. apply Hsub. intros id Hid. destruct (decide (id ∈ X)); [done|].
        assert (id ∈ Threshold.ps ac ∖ X) by (by apply elem_of_difference). set_solver. }
    specialize (Hmax id Hid Hn). rewrite id_set_cons in Hmax.
    apply andb_true_iff in Hmax as [Hmax%Nat.leb_le _].
    rewrite size_union, size_singleton in Hmax by set_solver. lia.
Qed.
End properties.

Definition ex_ids : gset ID := {[1%N; 2%N; 5%N]}.

Lemma Threshold_InducedMSP_realises_witness :
  ∃ ac (M : MSP fp101), Threshold.NewThresholdAccessStructure 2 (Some ex_ids) = Ok ac ∧
    Threshold.InducedMSP (Some ac) = Ok M ∧ Accepts M [5; 1]%N = true ∧ Accepts M [5; 5]%N = false.
Proof.
  assert (Threshold.NewThresholdAccessStructure 2 (Some ex_ids)
    = Ok (Threshold.mkThreshold 2 ex_ids)) as Hac by (vm_compute; reflexivity).
  destruct (Threshold_InducedMSP_realises (F:=fp101) 2 ex_ids _ Hac) as (M & HM & _ & _ & _ & _ & Hacc).
  { intros id Hid%elem_of_elements. revert id Hid. apply Forall_forall.
    refine (bool_decide_unpack _ _). vm_compute. exact I. }
  eexists _, M. split; [exact Hac|]. split; [exact HM|].
  rewrite !Hacc. split; vm_compute; reflexivity.
Defined.

Lemma Threshold_MaximalUnqualifiedSets_witness :
  maximal_unqualified (Threshold.mkThreshold 2 ex_ids) {[5%N]}.
Proof.
  apply (Threshold_MaximalUnqualifiedSets 2 ex_ids).
  - vm_compute. reflexivity.
  - vm_compute. reflexivity.
  - vm_compute. reflexivity.
  - refine (bool_decide_unpack _ _). vm_compute. exact I.
Defined.
