(* ===== verification/Unanimity.v ===== *)
(** * Unanimity access structures (accessstructures/unanimity/unanimity.go)

    Every shareholder must take part.  The induced programme has the rows
    [e_1, .., e_(n-1)] and [e_0 - e_1 - .. - e_(n-1)]: all of them add up to
    the target, and any missing one leaves a vector orthogonal to the rest.
    No condition on the field is needed, since the IDs are only labels. *)

From Stdlib Require Import ZArith NArith Lia Ring Field.
From S2P Require Import Prelude Algebra AlgebraUtils Poly Combinations Matrix Solver Interp MSP Access Threshold.

Module Unanimity.
Record Unanimity := mkUnanimity { ps : gset ID }.

Definition NewUnanimityAccessStructure (shareholders : option (gset ID)) : result Unanimity :=
  match shareholders with
  | None => Err ErrIsNil
  | Some shareholders =>
      if size shareholders <? 2 then Err ErrValue
      else if bool_decide (0%N ∈ shareholders) then Err ErrMembership
      else Ok (mkUnanimity shareholders)
  end.

Definition is_qualified (u : Unanimity) (ids : list ID) : bool :=
  bool_decide (id_set ids = ps u).

(** [MaximalUnqualifiedSetsIter]: the subsets of size [n - 1]. *)
Definition maximal_unqualified_sets (u : Unanimity) : list (gset ID) :=
  id_set <$> Combinations (elements (ps u)) (size (ps u) - 1).

Definition Equal (u other : Unanimity) : bool :=
  if negb (size (ps u) =? size (ps other)) then false
  else bool_decide (ps u = ps other).

#[export] Instance unanimity_monotone : Monotone Unanimity := {|
  IsQualified := is_qualified;
  Shareholders := ps;
  MaximalUnqualifiedSets := λ u, Ok (maximal_unqualified_sets u);
|}.

Section induced.
Context `{PrimeField F}.

(** The row-major values: ones above the diagonal, then the last row. *)
Definition msp_values (n : nat) : list F :=
  let values := replicate (n * n) rzero in
  let values := foldl (λ values row, <[row * n + row + 1 := rone]> values) values (seq 0 (n - 1)) in
  let values := <[(n - 1) * n := rone]> values in
  foldl (λ values col, <[(n - 1) * n + col := rneg rone]> values) values (seq 1 (n - 1)).

Definition InducedMSP (ac : option Unanimity) : result (MSP F) :=
  match ac with
  | None => Err ErrIsNil
  | Some ac =>
      let shareholders := sort_ids (elements (ps ac)) in
      let n := length shareholders in
      _ ← NewMatrixModule n n;
      matrix ← NewRowMajor n n (msp_values n);
      NewMSP (Some matrix) (Some (label_rows shareholders))
  end.
End induced.
End Unanimity.
#[export] Existing Instance Unanimity.unanimity_monotone.

Section theory.
Context `{PrimeField F}.
Local Open Scope alg_scope.
Add Ring unanimity_ring : (ring_laws (R:=F)).
Implicit Types (r c k : nat).

Definition unanimity_entry (size r c : nat) : F :=
  if (r <? size - 1)%nat then (if decide (c = S r) then 1 else 0)
  else if decide (c = 0%nat) then 1 else - (1).

Lemma msp_values_spec size :
  (0 < size)%nat →
  length (Unanimity.msp_values size : list F) = (size * size)%nat ∧
  ∀ r c, (r < size)%nat → (c < size)%nat →
    Unanimity.msp_values size !!! (r * size + c)%nat = unanimity_entry size r c.
Proof.
  intros Hs. unfold Unanimity.msp_values.
  destruct (foldl_insert_const (λ row, (row * size + row + 1)%nat) (1 : F) (seq 0 (size - 1))
    (replicate (size * size) 0)) as [Hl1 Hv1].
  { intros i Hi%elem_of_seq. rewrite length_replicate. nia. }
  set (v1 := foldl _ (replicate _ _) _) in *. rewrite length_replicate in Hl1.
  destruct (foldl_insert_const (λ col, ((size - 1) * size + col)%nat) (- (1) : F)
    (seq 1 (size - 1)) (<[((size - 1) * size)%nat := 1]> v1)) as [Hl2 Hv2].
  { intros i Hi%elem_of_seq. rewrite length_insert. nia. }
  rewrite length_insert in Hl2. split; [congruence|]. intros r c Hr Hc. rewrite Hv2.
  unfold unanimity_entry. destruct (Nat.ltb_spec r (size - 1)) as [Hlt|Hge].
  - rewrite decide_False.
    2:{ intros (i & E & Hi%elem_of_seq)%list_elem_of_fmap. nia. }
    rewrite list_lookup_total_insert_ne by nia. rewrite Hv1.
    destruct (decide (c = S r)) as [->|Hne].
    + rewrite decide_True; [done|]. apply list_elem_of_fmap. exists r.
      rewrite elem_of_seq. lia.
    + rewrite decide_False; [apply coef_replicate_0|].
      intros (i & E & Hi%elem_of_seq)%list_elem_of_fmap.
      assert (i = r) by nia. subst i. lia.
  - assert (r = size - 1)%nat as -> by lia. destruct (decide (c = 0%nat)) as [->|Hne].
    + rewrite decide_False.
      * rewrite Nat.add_0_r. apply list_lookup_total_insert_eq. nia.
      * intros (i & E & Hi%elem_of_seq)%list_elem_of_fmap. lia.
    + rewrite decide_True; [done|]. apply list_elem_of_fmap. exists c.
      rewrite elem_of_seq. lia.
Qed.

(** All rows add up to the target. *)
Lemma unanimity_rows_sum size c :
  (0 < size)%nat → (c < size)%nat →
  rsum size (λ r, unanimity_entry size r c) = if decide (c = 0%nat) then 1 else 0.
Proof.
  intros Hs Hc. destruct size as [|size]; [lia|]. cbn [big].
  unfold unanimity_entry at 2. rewrite Nat.sub_succ, Nat.sub_0_r, Nat.ltb_irrefl.
  destruct (decide (c = 0%nat)) as [->|Hne].
  - rewrite rsum_0_ext; [ring|]. intros r Hr. unfold unanimity_entry.
    rewrite Nat.sub_succ, Nat.sub_0_r. by destruct (Nat.ltb_spec r size); [|lia].
  - rewrite (rsum_single _ (c - 1)%nat).
    + unfold unanimity_entry. rewrite Nat.sub_succ, Nat.sub_0_r.
      destruct (Nat.ltb_spec (c - 1) size); [|lia]. rewrite decide_True by lia. ring.
    + lia.
    + intros r Hr Hr'. unfold unanimity_entry. rewrite Nat.sub_succ, Nat.sub_0_r.
      destruct (Nat.ltb_spec r size); [|lia]. by rewrite decide_False by lia.
Qed.

(** The vector orthogonal to every row but [r]. *)
Definition unanimity_cut (size r c : nat) : F :=
  if decide (c = 0%nat) then 1
  else if decide (c = S r ∧ (r < size - 1)%nat) then 1 else 0.

Lemma unanimity_cut_spec size r r' :
  (r < size)%nat → (r' < size)%nat → r' ≠ r →
  rsum size (λ c, unanimity_entry size r' c * unanimity_cut size r c) = 0.
Proof.
  intros Hr Hr' Hne. unfold unanimity_entry.
  destruct (Nat.ltb_spec r' (size - 1)) as [Hlt|Hge].
  - apply rsum_0_ext. intros c Hc. case_decide; [|ring]. subst c. unfold unanimity_cut.
    rewrite decide_False, decide_False by lia. ring.
  - destruct size as [|size]; [lia|]. rewrite rsum_head. cbn [decide].
    rewrite decide_True by done. rewrite (rsum_single _ r).
    + rewrite decide_False by done. unfold unanimity_cut.
      rewrite decide_True, decide_False, decide_True by lia. ring.
    + lia.
    + intros c Hc Hcr. unfold unanimity_cut. rewrite decide_False by done.
      rewrite (decide_False (P:=S c = 0%nat)) by done. rewrite decide_False by lia. ring.
Qed.

Lemma Unanimity_InducedMSP_ok ps :
  ps ≠ ∅ → (0%N ∉ ps) →
  ∃ M : MSP F, Unanimity.InducedMSP (Some (Unanimity.mkUnanimity ps)) = Ok M ∧
    labelled M (matrix M) (sort_ids (elements ps)) ∧
    m (matrix M) = size ps ∧ n (matrix M) = size ps ∧
    ∀ r c, (r < size ps)%nat → (c < size ps)%nat →
      at_ (matrix M) r c = unanimity_entry (size ps) r c.
Proof.
  intros Hps H0. unfold Unanimity.InducedMSP. cbv zeta. cbn [Unanimity.ps].
  rewrite sorted_elements_length.
  assert (size ps ≠ 0%nat) as Hs by (intros E; apply Hps; by apply size_empty_inv, leibniz_equiv in E).
  rewrite NewMatrixModule_ok by done. cbn [mbind result_bind].
  destruct (msp_values_spec (size ps)) as [Hl Hv]; [lia|].
  rewrite NewRowMajor_ok by done. cbn [mbind result_bind].
  destruct (NewMSP_label_rows (mkMatrix (size ps) (size ps) (Unanimity.msp_values (size ps)) : Matrix F)
    (sort_ids (elements ps))) as (M & -> & HM).
  - done.
  - by rewrite sorted_elements_length.
  - by intros id Hid%sorted_elements_elem ->.
  - exists M. rewrite (labelled_matrix _ _ _ HM). do 4 (split; [done|]). intros r c Hr Hc.
    by apply Hv.
Qed.
End theory.

(** ** Properties *)

Section properties.
Context `{PrimeField F}.
Local Open Scope alg_scope.
Add Ring unanimity_properties_ring : (ring_laws (R:=F)).

(** The programme induced by a constructed unanimity structure exists,
    is ideal, and accepts a coalition exactly when it is the full shareholder
    set, over any prime field. *)
Theorem Unanimity_InducedMSP_realises ps ac :
  Unanimity.NewUnanimityAccessStructure (Some ps) = Ok ac →
  ∃ M : MSP F, Unanimity.InducedMSP (Some ac) = Ok M ∧ IsIdeal M = true ∧ realises M ac.
Proof.
  unfold Unanimity.NewUnanimityAccessStructure. destruct (Nat.ltb_spec (size ps) 2) as [|Hsz]; [done|].
  case_bool_decide as Hz; [done|]. intros [= <-].
  destruct (Unanimity_InducedMSP_ok (F:=F) ps) as (M & HM & Hlab & Hm & Hn & Hat); [|done|].
  { intros ->. rewrite size_empty in *. lia. }
  exists M. split; [done|]. set (l := sort_ids (elements ps)) in *.
  assert (length l = size ps) as Hl by apply sorted_elements_length.
  split; [by apply (labelled_ideal M (matrix M) l); [|apply sorted_elements_NoDup]|].
  split; [apply (labelled_wf _ _ _ Hlab)|]. split; [lia|]. split.
  { rewrite (labelled_shareholders M (matrix M) l Hlab). apply sorted_elements_set. }
  intros ids. cbn. unfold Unanimity.is_qualified. cbn [Unanimity.ps].
  assert (∀ r, (r < size ps)%nat → owned M ids r = bool_decide (l !!! r ∈ ids)) as Ho.
  { intros r Hr. apply (labelled_owned M (matrix M) l); [done|lia]. }
  case_bool_decide as Hids.
  - apply Accepts_spec; [apply (labelled_wf _ _ _ Hlab)|lia|].
    assert (∀ id, id ∈ ids ↔ id ∈ ps) as Hmem by (intros; by rewrite <-Hids, id_set_elem).
    split; [|split].
    + apply (labelled_known M (matrix M) l); [done|]. intros id Hid.
      by apply sorted_elements_elem, Hmem.
    + intros ->. assert (ps = ∅) as -> by (by rewrite <-Hids). rewrite size_empty in *. lia.
    + exists (λ _, 1). intros c Hc. rewrite <-(unanimity_rows_sum (size ps) c) by lia.
      rewrite Hm. apply rsum_ext. intros r Hr. rewrite Ho by done.
      rewrite bool_decide_true; [rewrite Hat by lia; ring|].
      apply Hmem, sorted_elements_elem, list_elem_of_lookup_total_2. by rewrite sorted_elements_length.
  - apply Accepts_false; [apply (labelled_wf _ _ _ Hlab)|lia|].
    destruct (known M ids) eqn:Hk; [right; right|by left].
    rewrite (labelled_known M (matrix M) l) in Hk by done.
    destruct (list_find (λ id, id ∉ ids) l) as [[r id]|] eqn:Ef.
    + apply list_find_Some in Ef as (Hr & Hid & _).
      exists (unanimity_cut (size ps) r). split; [done|]. intros r' Hr' Ho'.
      assert (r < size ps)%nat as Hrs by (rewrite <-Hl; by eapply lookup_lt_Some).
      rewrite Hn. rewrite (rsum_ext _ _ (λ c, unanimity_entry (size ps) r' c *
        unanimity_cut (size ps) r c)) by (intros c Hc; by rewrite Hat by lia).
      apply unanimity_cut_spec; [done|lia|]. intros ->. rewrite Ho in Ho' by done.
      apply bool_decide_eq_true in Ho'.
      by rewrite (list_lookup_total_correct _ _ _ Hr) in Ho'.
    + destruct Hids. apply list_find_None in Ef. rewrite Forall_forall in Ef.
      apply set_eq. intros id. rewrite id_set_elem. split.
      * intros Hid. by apply sorted_elements_elem, Hk.
      * intros Hid. apply dec_stable, Ef. by apply sorted_elements_elem.
Qed.
End properties.

Lemma Unanimity_InducedMSP_realises_witness :
  ∃ ac (M : MSP fp101), Unanimity.NewUnanimityAccessStructure (Some ex_ids) = Ok ac ∧
    Unanimity.InducedMSP (Some ac) = Ok M ∧
    Accepts M [5; 1; 2]%N = true ∧ Accepts M [5; 1]%N = false.
Proof.
  assert (Unanimity.NewUnanimityAccessStructure (Some ex_ids)
    = Ok (Unanimity.mkUnanimity ex_ids)) as Hac by (vm_compute; reflexivity).
  destruct (Unanimity_InducedMSP_realises (F:=fp101) ex_ids _ Hac)
    as (M & HM & _ & _ & _ & _ & Hacc).
  eexists _, M. split; [exact Hac|]. split; [exact HM|].
  rewrite !Hacc. split; vm_compute; reflexivity.
Defined.
