(* ===== verification/CNF.v ===== *)
(** * CNF access structures (accessstructures/cnf/cnf.go)

    A structure is given by its maximal unqualified sets; a coalition is
    qualified when it is contained in none of them.  [normaliseCNF] removes
    duplicates and non-maximal sets, [ConvertToCNF] is the fallback for any
    [Monotone] structure, and [InducedMSP] gives each clause (the complement
    of an unqualified set) one row per member. *)

From Stdlib Require Import ZArith NArith Lia Ring Field.
From S2P Require Import Prelude Algebra AlgebraUtils Poly Combinations BitSet Matrix Solver Interp MSP Access Threshold Unanimity.

Module CNF.
Record CNF := mkCNF { shareholders : gset ID; maximalUnqualifiedSets : list (gset ID) }.

(** ** Normalisation *)

(** One iteration of the first loop of [normaliseCNF]: [None] is a nil set. *)
Definition norm_step (uniqueSets : list (gset ID)) (s : option (gset ID)) :
    result (list (gset ID)) :=
  match s with
  | None => Err ErrIsNil
  | Some s =>
      if bool_decide (s = ∅) then Err ErrValue
      else if bool_decide (0%N ∈ s) then Err ErrMembership
      else if existsb (λ seen, bool_decide (s = seen)) uniqueSets then Ok uniqueSets
      else Ok (uniqueSets ++ [s])
  end.

Definition is_maximal (uniqueSets : list (gset ID)) (i : nat) : bool :=
  forallb (λ j, (i =? j) || negb (bool_decide (uniqueSets !!! i ⊆ uniqueSets !!! j)))
    (seq 0 (length uniqueSets)).

Definition maximal_sets (uniqueSets : list (gset ID)) : list (gset ID) :=
  (λ i, uniqueSets !!! i) <$>
    filter (λ i, is_maximal uniqueSets i = true) (seq 0 (length uniqueSets)).

Definition normaliseCNF (unqualifiedSets : list (option (gset ID))) : result (list (gset ID)) :=
  if length unqualifiedSets =? 0 then Err ErrValue
  else
    uniqueSets ← foldM norm_step [] unqualifiedSets;
    Ok (maximal_sets uniqueSets).

Definition NewCNFAccessStructure (unqualifiedSets : list (option (gset ID))) : result CNF :=
  maximalUnqualifiedSets ← normaliseCNF unqualifiedSets;
  let shareholders := ⋃ maximalUnqualifiedSets in
  if size shareholders <? 2 then Err ErrMembership
  else Ok (mkCNF shareholders maximalUnqualifiedSets).

Definition ConvertToCNF `{Monotone A} (ac : option A) : result CNF :=
  match ac with
  | None => Err ErrIsNil
  | Some ac =>
      maxUnqualifiedSets ← MaximalUnqualifiedSets ac;
      NewCNFAccessStructure (Some <$> maxUnqualifiedSets)
  end.

Definition is_qualified (c : CNF) (ids : list ID) : bool :=
  bool_decide (id_set ids ⊆ shareholders c) &&
  forallb (λ u, negb (bool_decide (id_set ids ⊆ u))) (maximalUnqualifiedSets c).

Definition Clauses (c : CNF) : list (gset ID) :=
  (λ bi, shareholders c ∖ bi) <$> maximalUnqualifiedSets c.

#[export] Instance cnf_monotone : Monotone CNF := {|
  IsQualified := is_qualified;
  Shareholders := shareholders;
  MaximalUnqualifiedSets := λ c, Ok (maximalUnqualifiedSets c);
|}.

(** ** The induced programme *)

(** [slices.SortFunc] by the bit-set word of each set: the comparison panics
    on an ID above 64 and runs once there are two sets to compare. *)
Definition key_le (x y : N * gset ID) : Prop := (fst x ≤ fst y)%N.
#[export] Instance key_le_dec : RelDecision key_le := λ x y, decide (fst x ≤ fst y)%N.

Definition sort_sets (sets : list (gset ID)) : result (list (gset ID)) :=
  if length sets <? 2 then Ok sets
  else
    keyed ← mapM (λ s, k ← NewImmutableBitSet (elements s); Ok (k, s)) sets;
    Ok (snd <$> merge_sort key_le keyed).

Section induced.
Context `{PrimeField F}.

(** The clause vectors [e_1, .., e_(m-1), e_0 - e_1 - .. - e_(m-1)], built with
    [NewStandardUnit] and [SubAssign]. *)
Definition clause_step (size : nat) (acc : list (Matrix F) * Matrix F) (i : nat) :
    result (list (Matrix F) * Matrix F) :=
  let '(vectors, last) := acc in
  u ← NewStandardUnit size (Z.of_nat i + 1);
  last ← SubAssign last u;
  Ok (vectors ++ [u], last).

Definition clause_vectors (size : nat) : result (list (Matrix F)) :=
  last ← NewStandardUnit size 0;
  '(vectors, last) ← foldM (clause_step size) ([], last) (seq 0 (size - 1));
  Ok (vectors ++ [last]).

Definition InducedMSP (c : option CNF) : result (MSP F) :=
  match c with
  | None => Err ErrIsNil
  | Some c =>
      if length (maximalUnqualifiedSets c) =? 0 then Err ErrValue
      else
        sortedMUS ← sort_sets (maximalUnqualifiedSets c);
        let size := length sortedMUS in
        let clauses := (λ bi, shareholders c ∖ bi) <$> sortedMUS in
        let totalRows := sum_list ((λ cl : gset ID, base.size cl) <$> clauses) in
        _ ← NewMatrixModule totalRows size;
        clauseVectors ← clause_vectors size;
        let members := (λ cl, sort_ids (elements cl)) <$> clauses in
        let rows := i ← seq 0 size; _ ← members !!! i; v (clauseVectors !!! i) in
        let labels := i ← seq 0 size; members !!! i in
        matrix ← NewRowMajor totalRows size rows;
        NewMSP (Some matrix) (Some (label_rows labels))
  end.
End induced.
End CNF.
#[export] Existing Instance CNF.cnf_monotone.

(** ** Normalisation *)

Section normalise.
Implicit Types (sets : list (gset ID)) (s u X : gset ID).
Import CNF.

(** What the first loop accepts. *)
Definition admissible s : Prop := s ≠ ∅ ∧ 0%N ∉ s.

Lemma norm_steps inputs acc uniq :
  foldM norm_step acc inputs = Ok uniq → NoDup acc → (∀ s, s ∈ acc → admissible s) →
  NoDup uniq ∧ (∀ s, s ∈ uniq → admissible s) ∧
  ∀ s, s ∈ uniq ↔ s ∈ acc ∨ Some s ∈ inputs.
Proof.
  revert acc. induction inputs as [|[s|] inputs IH]; intros acc E Hnd Hadm; cbn [foldM] in E.
  - injection E as <-. split; [done|]. split; [done|]. intros s. rewrite elem_of_nil. tauto.
  - apply bind_ok in E as (acc' & E1 & E). cbn [norm_step] in E1.
    case_bool_decide as Hne; [done|]. case_bool_decide as H0; [done|].
    destruct (existsb _ acc) eqn:Hseen; injection E1 as <-.
    + apply existsb_exists in Hseen as (s' & Hs' & ->%bool_decide_eq_true).
      apply list_elem_of_In in Hs'. destruct (IH acc E Hnd Hadm) as (H1 & H2 & H3).
      split; [done|]. split; [done|]. intros s. rewrite H3, elem_of_cons. naive_solver.
    + assert (s ∉ acc) as Hs.
      { intros Hin. apply not_true_iff_false in Hseen. apply Hseen, existsb_exists.
        exists s. split; [by apply list_elem_of_In|by apply bool_decide_eq_true]. }
      destruct (IH (acc ++ [s])) as (H1 & H2 & H3); [done| | |].
      * apply NoDup_app. split; [done|]. split; [|apply NoDup_singleton].
        intros s' Hs' ->%list_elem_of_singleton. done.
      * intros s' [Hs'| ->%list_elem_of_singleton]%elem_of_app; [auto|done].
      * split; [done|]. split; [done|]. intros s'. rewrite H3, elem_of_app, list_elem_of_singleton, elem_of_cons.
        naive_solver.
  - done.
Qed.

Lemma is_maximal_spec sets i :
  is_maximal sets i = true ↔
  ∀ j, j < length sets → i ≠ j → ¬ sets !!! i ⊆ sets !!! j.
Proof.
  unfold is_maximal. rewrite forallb_forall. split.
  - intros Hm j Hj Hij. specialize (Hm j). rewrite in_seq, orb_true_iff, Nat.eqb_eq in Hm.
    destruct Hm as [|Hm]; [lia|done|]. by apply negb_true_iff, bool_decide_eq_false in Hm.
  - intros Hm j Hj%in_seq. rewrite orb_true_iff, Nat.eqb_eq. destruct (decide (i = j)); [by left|].
    right. apply negb_true_iff, bool_decide_eq_false. apply Hm; [lia|done].
Qed.

Lemma elem_of_maximal_sets sets u :
  NoDup sets → u ∈ maximal_sets sets ↔ u ∈ sets ∧ ∀ s, s ∈ sets → u ⊆ s → s = u.
Proof.
  intros Hnd. unfold maximal_sets. rewrite list_elem_of_fmap.
  setoid_rewrite list_elem_of_filter. setoid_rewrite elem_of_seq.
  setoid_rewrite is_maximal_spec. split.
  - intros (i & -> & Hm & Hi). split; [apply list_elem_of_lookup_total_2; lia|].
    intros s [j [Hj <-]]%list_elem_of_lookup_total_1 Hsub.
    destruct (decide (i = j)) as [->|Hij]; [done|]. by destruct (Hm j Hj Hij).
  - intros [[i [Hi <-]]%list_elem_of_lookup_total_1 Hm]. exists i. split; [done|].
    split; [|lia]. intros j Hj Hij Hsub. apply Hij.
    apply (NoDup_lookup sets i j (sets !!! i) Hnd); [by apply list_lookup_lookup_total_lt|].
    rewrite <-(Hm (sets !!! j)); [by apply list_lookup_lookup_total_lt| |done].
    by apply list_elem_of_lookup_total_2.
Qed.

(** Every set is below a maximal one. *)
Lemma maximal_above sets s :
  NoDup sets → s ∈ sets → ∃ u, u ∈ maximal_sets sets ∧ s ⊆ u.
Proof.
  intros Hnd. remember (size (⋃ sets) - size s) as k eqn:Hk.
  revert s Hk. induction k as [k IH] using (well_founded_induction lt_wf). intros s Hk Hs.
  destruct (list_find (λ s', s ⊂ s') sets) as [[i s']|] eqn:Ef.
  - apply list_find_Some in Ef as (Hi & Hsub & _).
    assert (s' ∈ sets) as Hs' by (by eapply list_elem_of_lookup_2).
    assert (size s < size s') by (by apply subset_size).
    assert (size s' ≤ size (⋃ sets)).
    { apply subseteq_size. intros x Hx. apply elem_of_union_list. by exists s'. }
    destruct (IH (size (⋃ sets) - size s') ltac:(lia) s' eq_refl Hs') as (u & Hu & Hsu).
    exists u. split; [done|]. transitivity s'; [apply Hsub|done].
  - exists s. split; [|done]. apply elem_of_maximal_sets; [done|]. split; [done|].
    intros s' Hs' Hsub. apply list_find_None in Ef. rewrite Forall_forall in Ef.
    apply dec_stable. intros Hne. apply (Ef s' Hs'). split; [done|].
    intros Hsup. apply Hne, set_eq. intros x. split; [apply Hsup|apply Hsub].
Qed.

(** The normal form: nonempty zero-free sets, none inside another, covering
    the same coalitions as the input. *)
Record normal_form (inputs : list (option (gset ID))) (mus : list (gset ID)) : Prop := {
  nf_nodup : NoDup mus;
  nf_admissible : ∀ u, u ∈ mus → admissible u;
  nf_antichain : ∀ u u', u ∈ mus → u' ∈ mus → u ⊆ u' → u = u';
  nf_cover : ∀ X, (∃ u, u ∈ mus ∧ X ⊆ u) ↔ (∃ s, Some s ∈ inputs ∧ X ⊆ s);
}.

Lemma normaliseCNF_ok inputs mus :
  normaliseCNF inputs = Ok mus → normal_form inputs mus.
Proof.
  unfold normaliseCNF. destruct (length inputs =? 0); [done|]. intros E.
  apply bind_ok in E as (uniq & E & [= <-]).
  apply norm_steps in E as (Hnd & Hadm & Hel); [|apply NoDup_nil_2|by intros s ?%not_elem_of_nil].
  assert (∀ s, s ∈ uniq ↔ Some s ∈ inputs) as Hin.
  { intros s. rewrite Hel, elem_of_nil. tauto. }
  split.
  - unfold maximal_sets. apply NoDup_fmap_2_strong; [|apply NoDup_filter, NoDup_seq].
    intros i j [_ Hi%elem_of_seq]%list_elem_of_filter [_ Hj%elem_of_seq]%list_elem_of_filter Hij.
    apply (NoDup_lookup uniq i j (uniq !!! i) Hnd); [apply list_lookup_lookup_total_lt; lia|].
    rewrite Hij. apply list_lookup_lookup_total_lt; lia.
  - intros u [Hu _]%elem_of_maximal_sets; [auto|done].
  - intros u u' [Hu Hm]%elem_of_maximal_sets [Hu' _]%elem_of_maximal_sets Hsub; try done.
    symmetry. auto.
  - intros X. split.
    + intros (u & [Hu _]%elem_of_maximal_sets & HX); [|done]. exists u. by rewrite <-Hin.
    + intros (s & Hs & HX). apply Hin in Hs. destruct (maximal_above uniq s Hnd Hs) as (u & Hu & Hsu).
      exists u. split; [done|]. by transitivity s.
Qed.

(** The invariant of a constructed structure. *)
Record valid_cnf (c : CNF) : Prop := {
  cnf_nodup : NoDup (maximalUnqualifiedSets c);
  cnf_admissible : ∀ u, u ∈ maximalUnqualifiedSets c → admissible u;
  cnf_antichain : ∀ u u', u ∈ maximalUnqualifiedSets c → u' ∈ maximalUnqualifiedSets c →
    u ⊆ u' → u = u';
  cnf_shareholders : shareholders c = ⋃ maximalUnqualifiedSets c;
}.

Lemma NewCNF_valid inputs c : NewCNFAccessStructure inputs = Ok c → valid_cnf c.
Proof.
  unfold NewCNFAccessStructure. intros E. apply bind_ok in E as (mus & Hmus & E).
  apply normaliseCNF_ok in Hmus as [H1 H2 H3 _]. cbv zeta in E.
  destruct (_ <? 2); [done|]. injection E as <-. by split.
Qed.
End normalise.

(** ** Block programmes

    Row [r] belongs to a block [fst (L !!! r)] and carries that block's
    unanimity vector. *)

Section blocks.
Context `{PrimeField F}.
Local Open Scope alg_scope.
Add Ring cnf_ring : (ring_laws (R:=F)).
Implicit Types (M : MSP F) (A : Matrix F) (L : list (nat * ID)) (ids : list ID) (b c r size : nat).

(** A coalition is accepted iff it owns a row of every block. *)
Lemma block_accepts M A L size ids :
  labelled M A (snd <$> L) → m A = length L → n A = size → (0 < size)%nat →
  (∀ r, (r < length L)%nat → (fst (L !!! r) < size)%nat) →
  (∀ r c, (r < length L)%nat → (c < size)%nat → at_ A r c = unanimity_entry size (fst (L !!! r)) c) →
  Accepts M ids = true ↔
  (∀ id, id ∈ ids → ∃ b, (b, id) ∈ L) ∧ ∀ b, (b < size)%nat → ∃ id, id ∈ ids ∧ (b, id) ∈ L.
Proof.
  intros Hlab Hm Hn Hs Hb Hat.
  assert (∀ r, (r < length L)%nat → owned M ids r = bool_decide (snd (L !!! r) ∈ ids)) as Ho.
  { intros r Hr. rewrite (labelled_owned M A (snd <$> L)) by (done || by rewrite length_fmap).
    by rewrite (list_lookup_total_fmap snd L r) by done. }
  assert (known M ids = true ↔ ∀ id, id ∈ ids → ∃ b, (b, id) ∈ L) as Hknown.
  { rewrite (labelled_known M A _ ids Hlab). apply forall_proper. intros id. split.
    - intros Hi [[b id'] [-> Hx]]%Hi%list_elem_of_fmap. by exists b.
    - intros Hi [b Hx]%Hi. apply list_elem_of_fmap. by exists (b, id). }
  pose proof (labelled_wf _ _ _ Hlab) as Hwf. pose proof (labelled_matrix _ _ _ Hlab) as HA.
  assert (0 < n (matrix M))%nat as HnM by (rewrite HA; lia). split.
  - intros Ha. assert (Accepts M ids = true) as Ha' by done.
    apply Accepts_spec in Ha as (Hk & _ & x & Hx); [|done..].
    split; [by apply Hknown|]. intros b Hbs.
    destruct (list_find (λ p, fst p = b ∧ snd p ∈ ids) L) as [[r [b' id]]|] eqn:Ef; cbn in Ef.
    { apply list_find_Some in Ef as (Hr & [E Hid] & _). cbn in E. subst b'. exists id. split; [done|].
      by eapply list_elem_of_lookup_2. }
    exfalso. apply list_find_None in Ef. rewrite Forall_forall in Ef.
    apply (spans_separates M ids x (unanimity_cut size b)); [done..|]. split; [done|].
    intros r Hr Hr'. rewrite HA, Hm in Hr. rewrite HA, Hn. rewrite Ho in Hr' by done.
    apply bool_decide_eq_true in Hr'.
    rewrite (rsum_ext _ _ (λ c, unanimity_entry size (fst (L !!! r)) c * unanimity_cut size b c))
      by (intros c Hc; by rewrite Hat).
    apply unanimity_cut_spec; [done|by apply Hb|]. intros E.
    apply (Ef (L !!! r)); [by apply list_elem_of_lookup_total_2|done].
  - intros [Hin Hcov]. apply Accepts_spec; [done..|]. split; [by apply Hknown|].
    split. { intros ->. destruct (Hcov 0%nat Hs) as (id & Hid & _). by apply elem_of_nil in Hid. }
    (* one row per block carries the coefficient one *)
    set (pick b := match list_find (λ p, fst p = b ∧ snd p ∈ ids) L with
                   | Some (r, _) => r | None => 0%nat end).
    assert (∀ b, (b < size)%nat → (pick b < length L)%nat ∧ fst (L !!! pick b) = b ∧
      snd (L !!! pick b) ∈ ids) as Hpick.
    { intros b Hbs. destruct (Hcov b Hbs) as (id & Hid & [r Hr]%list_elem_of_lookup).
      unfold pick. destruct (list_find _ L) as [[r' [b' id']]|] eqn:Ef.
      - apply list_find_Some in Ef as (Hr' & [<- Hid'] & _).
        pose proof (lookup_lt_Some _ _ _ Hr'). by rewrite (list_lookup_total_correct _ _ _ Hr').
      - apply list_find_None in Ef. rewrite Forall_forall in Ef.
        destruct (Ef (b, id)); [by eapply list_elem_of_lookup_2|done]. }
    exists (λ r, if decide (r = pick (fst (L !!! r))) then 1 else 0).
    intros c Hc. rewrite HA in Hc |- *. rewrite Hm. rewrite <-(unanimity_rows_sum size c) by lia.
    rewrite <-(rsum_fibres (length L) size (λ r, fst (L !!! r))) by done.
    apply rsum_ext. intros b Hbs. destruct (Hpick b Hbs) as (Hp1 & Hp2 & Hp3).
    rewrite (rsum_single _ (pick b)); [|done|].
    2:{ intros r Hr Hne. case_decide as E; [|done]. destruct (owned M ids r); [|done].
        rewrite decide_False by congruence. ring. }
    rewrite decide_True by done. rewrite Ho, bool_decide_true by done.
    rewrite decide_True by congruence. rewrite Hat, Hp2 by lia. ring.
Qed.
End blocks.

Section clause_vectors.
Context `{PrimeField F}.
Local Open Scope alg_scope.
Add Ring cnf_vectors_ring : (ring_laws (R:=F)).
Implicit Types (size k i c : nat).

Lemma NewStandardUnit_ok size i :
  (i < size)%nat → ∃ u : Matrix F, NewStandardUnit size (Z.of_nat i) = Ok u ∧ m u = 1%nat ∧
    n u = size ∧ length (v u) = size ∧
    ∀ c, (c < size)%nat → v u !!! c = if decide (c = i) then 1 else 0.
Proof.
  intros Hi. unfold NewStandardUnit. rewrite (proj2 (in_range_nat i size)) by done.
  eexists. split; [done|]. cbn. rewrite length_insert, length_replicate, Nat2Z.id.
  do 3 (split; [done|]). intros c Hc. case_decide as E.
  - subst c. by rewrite list_lookup_total_insert_eq by (by rewrite length_replicate).
  - rewrite list_lookup_total_insert_ne by done. by apply lookup_total_replicate_2.
Qed.

(** After [k] rounds the vectors are [e_1, .., e_k] and the last one is
    [e_0 - e_1 - .. - e_k]. *)
Lemma clause_steps size k (last : Matrix F) :
  (k < size)%nat → m last = 1%nat → n last = size → length (v last) = size →
  (∀ c, (c < size)%nat → v last !!! c = if decide (c = 0%nat) then 1 else 0) →
  ∃ vectors last', foldM (CNF.clause_step size) ([], last) (seq 0 k) = Ok (vectors, last') ∧
    length vectors = k ∧ m last' = 1%nat ∧ n last' = size ∧ length (v last') = size ∧
    (∀ i, (i < k)%nat → length (v (vectors !!! i)) = size ∧
       ∀ c, (c < size)%nat → v (vectors !!! i) !!! c = if decide (c = S i) then 1 else 0) ∧
    ∀ c, (c < size)%nat →
      v last' !!! c = if decide (c = 0%nat) then 1 else if decide (c ≤ k)%nat then - (1) else 0.
Proof.
  intros Hk Hm Hn Hl Hv. induction k as [|k IH].
  { exists [], last. split; [done|]. split; [done|]. do 3 (split; [done|]). split; [lia|].
    intros c Hc. rewrite Hv by done. destruct (decide (c = 0%nat)); [done|].
    by rewrite decide_False by lia. }
  destruct IH as (vectors & last' & E & Hlen & Hm' & Hn' & Hl' & Hvec & Hlast); [lia|].
  rewrite seq_S, foldM_app, E. cbn [mbind result_bind foldM]. unfold CNF.clause_step.
  destruct (NewStandardUnit_ok size (S k) Hk) as (u & Eu & Hum & Hun & Hul & Hu).
  replace (Z.of_nat (0 + k) + 1)%Z with (Z.of_nat (S k)) by lia.
  rewrite Eu. cbn [mbind result_bind]. unfold SubAssign.
  rewrite Hm', Hn', Hum, Hun, !Nat.eqb_refl. cbn [negb andb mbind result_bind].
  eexists _, _. split; [done|]. cbn. rewrite length_app, length_zip_with, Hlen, Hl', Hul.
  split; [cbn; lia|]. do 2 (split; [done|]). split; [lia|]. split.
  - intros i Hi. destruct (decide (i = k)) as [->|].
    + rewrite list_lookup_total_middle by done. split; [done|]. intros c Hc. by apply Hu.
    + rewrite lookup_total_app_l by lia. apply Hvec. lia.
  - intros c Hc. rewrite list_lookup_total_alt, lookup_zip_with.
    rewrite !list_lookup_lookup_total_lt by lia. cbn. rewrite Hlast, Hu by done.
    destruct (decide (c = 0%nat)) as [->|]; [rewrite decide_False by lia; cbn; ring|].
    destruct (decide (c = S k)) as [->|].
    + rewrite decide_False, decide_True by lia. ring.
    + destruct (decide (c ≤ k)%nat); [rewrite decide_True by lia|rewrite decide_False by lia]; ring.
Qed.

Lemma clause_vectors_ok size :
  (0 < size)%nat → ∃ vectors : list (Matrix F), CNF.clause_vectors size = Ok vectors ∧
    length vectors = size ∧
    ∀ i, (i < size)%nat → length (v (vectors !!! i)) = size ∧
      ∀ c, (c < size)%nat → v (vectors !!! i) !!! c = unanimity_entry size i c.
Proof.
  intros Hs. unfold CNF.clause_vectors. change 0%Z with (Z.of_nat 0).
  destruct (NewStandardUnit_ok size 0 Hs) as (u & -> & Hum & Hun & Hul & Hu).
  cbn [mbind result_bind].
  destruct (clause_steps size (size - 1) u) as
    (vectors & last & -> & Hlen & _ & _ & Hl & Hvec & Hlast); [lia|done..|].
  cbn [mbind result_bind]. eexists. split; [done|]. rewrite length_app, Hlen. cbn.
  split; [lia|]. intros i Hi. unfold unanimity_entry.
  destruct (Nat.ltb_spec i (size - 1)) as [Hlt|Hge].
  - rewrite lookup_total_app_l by lia. by apply Hvec.
  - rewrite list_lookup_total_middle by lia. split; [done|]. intros c Hc.
    rewrite Hlast by done. by rewrite (decide_True (P:=(c ≤ size - 1)%nat)) by lia.
Qed.
End clause_vectors.

(** ** The induced programme *)

Section sorting.
Implicit Types (sets : list (gset ID)) (s : gset ID).

Definition small_ids s : Prop := ∀ id, id ∈ s → (id ≤ 64)%N.

Lemma NewImmutableBitSet_small s :
  (0%N ∉ s) → is_ok (NewImmutableBitSet (elements s)) = true ↔ small_ids s.
Proof.
  intros H0. pose proof (AddAll_spec 0 (elements s) word_ok_0) as HA.
  unfold NewImmutableBitSet. destruct (forallb _ _) eqn:E.
  - destruct HA as (b & -> & _). split; [|done]. intros _ id Hid. rewrite forallb_forall in E.
    specialize (E id). rewrite <-list_elem_of_In, elem_of_elements in E.
    apply E in Hid as [_ Hid]%andb_true_iff. by apply N.leb_le.
  - rewrite HA. split; [done|]. intros Hs. apply not_true_iff_false in E. destruct E.
    apply forallb_forall. intros id Hid%list_elem_of_In%elem_of_elements.
    apply andb_true_iff. rewrite !N.leb_le. split; [|by apply Hs].
    assert (id ≠ 0%N) by (by intros ->). lia.
Qed.

(** Sorting by bit-set word permutes the sets, and panics when two or more
    sets hold an ID beyond the word. *)
Lemma sort_sets_ok sets :
  (∀ s, s ∈ sets → 0%N ∉ s ∧ small_ids s) → ∃ k, CNF.sort_sets sets = Ok k ∧ k ≡ₚ sets.
Proof.
  intros Hs. unfold CNF.sort_sets. destruct (_ <? 2); [by exists sets|].
  assert (∃ keyed : list (N * gset ID),
    mapM (λ s, k ← NewImmutableBitSet (elements s); Ok (k, s)) sets = Ok keyed ∧
    snd <$> keyed = sets) as (keyed & -> & Hk).
  { induction sets as [|s sets IH]; [by exists []|].
    destruct IH as (keyed & E & Hk); [intros s' Hs'; apply Hs; by constructor|].
    destruct (Hs s) as [H0 Hsm]; [by constructor|].
    apply NewImmutableBitSet_small, is_ok_true in Hsm as [w Hw]; [|done].
    exists ((w, s) :: keyed). cbn. rewrite Hw. cbn. rewrite E. cbn. by rewrite Hk. }
  cbn [mbind result_bind]. eexists. split; [done|]. rewrite merge_sort_Permutation. by rewrite Hk.
Qed.

Lemma sort_sets_panic sets :
  (∀ s, s ∈ sets → 0%N ∉ s) → 2 ≤ length sets → (∃ s, s ∈ sets ∧ ¬ small_ids s) →
  CNF.sort_sets sets = Panic.
Proof.
  intros H0 Hl (s & Hs & Hbig). unfold CNF.sort_sets. destruct (Nat.ltb_spec (length sets) 2); [lia|].
  assert (mapM (λ s, k ← NewImmutableBitSet (elements s); Ok (k, s)) sets = Panic) as ->; [|done].
  clear Hl H. induction sets as [|s' sets IH]; [by apply not_elem_of_nil in Hs|]. cbn.
  pose proof (AddAll_spec 0 (elements s') word_ok_0) as HA.
  pose proof (NewImmutableBitSet_small s' (H0 s' (list_elem_of_here _ _))) as Hsm.
  unfold NewImmutableBitSet in *. destruct (forallb _ (elements s')); [|by rewrite HA].
  destruct HA as (w & E & _). rewrite E in Hsm |- *. cbn.
  apply elem_of_cons in Hs as [->|Hs]; [by destruct Hbig; apply Hsm|].
  rewrite IH; [done| |done]. intros s'' Hs''. apply H0. by constructor.
Qed.
End sorting.

Section induced_programme.
Context `{PrimeField F}.
Local Open Scope alg_scope.
Implicit Types (M : MSP F) (members : list (list ID)) (size : nat).

(** The rows of the programme, each with its block. *)
Definition block_rows members size : list (nat * ID) :=
  i ← seq 0 size; pair i <$> members !!! i.

Lemma elem_of_block_rows members size b id :
  (b, id) ∈ block_rows members size ↔ (b < size)%nat ∧ id ∈ members !!! b.
Proof.
  unfold block_rows. rewrite list_elem_of_bind. split.
  - intros (i & (id' & [= -> ->] & Hid)%list_elem_of_fmap & Hi%elem_of_seq). by split; [lia|].
  - intros [Hb Hid]. exists b. split; [by apply list_elem_of_fmap; exists id|].
    apply elem_of_seq. lia.
Qed.

Lemma block_rows_labels members size :
  (i ← seq 0 size; members !!! i) = snd <$> block_rows members size.
Proof.
  unfold block_rows. induction (seq 0 size) as [|i l IH]; [done|].
  cbn. rewrite fmap_app, <-list_fmap_compose. by rewrite list_fmap_id, IH.
Qed.

Lemma block_rows_values members size (vectors : list (Matrix F)) :
  (i ← seq 0 size; _ ← members !!! i; v (vectors !!! i))
  = concat ((λ p : nat * ID, v (vectors !!! p.1)) <$> block_rows members size).
Proof.
  unfold block_rows. induction (seq 0 size) as [|i l IH]; [done|].
  cbn. rewrite IH, fmap_app, concat_app, <-list_fmap_compose. f_equal.
  by induction (members !!! i) as [|id ids IH']; cbn; [|rewrite IH'].
Qed.

Lemma block_rows_length members :
  length (block_rows members (length members)) = sum_list (length <$> members).
Proof.
  assert (∀ pre, length (i ← seq (length pre) (length members); pair i <$> (pre ++ members) !!! i)
    = sum_list (length <$> members)) as Hgen.
  { induction members as [|l members IH]; intros pre; [done|]. cbn.
    rewrite length_app, length_fmap, list_lookup_total_middle by done. f_equal.
    rewrite <-(IH (pre ++ [l])), length_app, Nat.add_1_r. by rewrite <-app_assoc. }
  apply (Hgen []).
Qed.

Lemma sorted_clauses_length (clauses : list (gset ID)) :
  sum_list (length <$> ((λ cl, sort_ids (elements cl)) <$> clauses))
  = sum_list ((λ cl : gset ID, base.size cl) <$> clauses).
Proof.
  induction clauses as [|cl clauses IH]; [done|]. cbn in *. by rewrite sorted_elements_length, IH.
Qed.

(** Building a programme from rows that carry the vectors of their blocks. *)
Lemma block_programme_ok (L : list (nat * ID)) size (vectors : list (Matrix F)) :
  (0 < size)%nat → (∀ b id, (b, id) ∈ L → (b < size)%nat ∧ id ≠ 0%N) →
  (∀ i, (i < size)%nat → length (v (vectors !!! i)) = size ∧
     ∀ c, (c < size)%nat → v (vectors !!! i) !!! c = unanimity_entry size i c) →
  ∃ M, (A ← NewRowMajor (length L) size (concat ((λ p : nat * ID, v (vectors !!! p.1)) <$> L));
        NewMSP (Some A) (Some (label_rows (snd <$> L)))) = Ok M ∧
    wf_msp M ∧ (0 < n (matrix M))%nat ∧
    (∀ id, id ∈ MSP.Shareholders M ↔ ∃ b, (b, id) ∈ L) ∧
    ∀ ids, Accepts M ids = true ↔
      (∀ id, id ∈ ids → ∃ b, (b, id) ∈ L) ∧ ∀ b, (b < size)%nat → ∃ id, id ∈ ids ∧ (b, id) ∈ L.
Proof.
  intros Hs HL Hvec. set (rows := (λ p : nat * ID, v (vectors !!! p.1)) <$> L).
  assert (∀ r, (r < length L)%nat → L !!! r ∈ L) as Hin by (intros; by apply list_elem_of_lookup_total_2).
  assert (Forall (λ r, length r = size) rows) as Hrows.
  { apply Forall_forall. intros r ([b id] & -> & [Hb _]%HL)%list_elem_of_fmap. by apply Hvec. }
  assert (length (concat rows) = length L * size)%nat as Hlen.
  { rewrite (concat_length_rows _ _ Hrows). unfold rows. by rewrite length_fmap. }
  rewrite NewRowMajor_ok by done. cbn [mbind result_bind].
  set (A := mkMatrix (length L) size (concat rows)).
  destruct (NewMSP_label_rows A (snd <$> L)) as (M & -> & HM); [done|by rewrite length_fmap| |].
  { by intros id ([b id'] & -> & [_ ?]%HL)%list_elem_of_fmap. }
  exists M. split; [done|]. split; [apply (labelled_wf _ _ _ HM)|].
  split; [by rewrite (labelled_matrix _ _ _ HM)|]. split.
  { intros id. rewrite (labelled_shareholders M A _ HM), elem_of_list_to_set, list_elem_of_fmap.
    split; [intros ([b id'] & -> & ?); by exists b|intros [b ?]; by exists (b, id)]. }
  intros ids. apply (block_accepts M A L size ids HM); [done..| |].
  - intros r Hr%Hin. destruct (L !!! r) as [b id]. by apply HL in Hr as [??].
  - intros r c Hr Hc. pose proof (Hin r Hr) as HrL. unfold at_, idx, A. cbn [v Matrix.n].
    rewrite (concat_lookup_rows _ _ _ _ Hrows Hc). unfold rows.
    rewrite (list_lookup_total_fmap _ L r) by done.
    destruct (L !!! r) as [b id]. apply HL in HrL as [??]. by apply Hvec.
Qed.

Lemma CNF_InducedMSP_ok (c : CNF.CNF) :
  (∀ u, u ∈ CNF.maximalUnqualifiedSets c → 0%N ∉ u ∧ small_ids u) →
  (0%N ∉ CNF.shareholders c) →
  (∃ u, u ∈ CNF.maximalUnqualifiedSets c ∧ CNF.shareholders c ∖ u ≠ ∅) →
  ∃ M, CNF.InducedMSP (Some c) = Ok M ∧ wf_msp M ∧ (0 < n (matrix M))%nat ∧
    (∀ id, id ∈ MSP.Shareholders M ↔
       ∃ u, u ∈ CNF.maximalUnqualifiedSets c ∧ id ∈ CNF.shareholders c ∖ u) ∧
    ∀ ids, Accepts M ids = true ↔
      (∀ id, id ∈ ids → ∃ u, u ∈ CNF.maximalUnqualifiedSets c ∧ id ∈ CNF.shareholders c ∖ u) ∧
      ∀ u, u ∈ CNF.maximalUnqualifiedSets c → ∃ id, id ∈ ids ∧ id ∈ CNF.shareholders c ∖ u.
Proof.
  destruct c as [sh mus]. cbn [CNF.shareholders CNF.maximalUnqualifiedSets].
  intros Hmus H0 (u0 & Hu0 & Hne0). unfold CNF.InducedMSP.
  cbn [CNF.shareholders CNF.maximalUnqualifiedSets].
  destruct (Nat.eqb_spec (length mus) 0) as [E|Hmus0].
  { apply nil_length_inv in E as ->. by apply not_elem_of_nil in Hu0. }
  destruct (sort_sets_ok mus Hmus) as (sorted & -> & Hperm). cbn [mbind result_bind]. cbv zeta.
  assert (length sorted = length mus) as Hlen by (by rewrite Hperm).
  set (clauses := (λ bi, sh ∖ bi) <$> sorted).
  set (members := (λ cl, sort_ids (elements cl)) <$> clauses).
  set (L := block_rows members (length sorted)).
  assert (sum_list ((λ cl : gset ID, base.size cl) <$> clauses) = length L) as ->.
  { unfold L. rewrite <-sorted_clauses_length, <-block_rows_length. unfold members, clauses.
    by rewrite !length_fmap. }
  assert (∀ b id, (b, id) ∈ L ↔ (b < length sorted)%nat ∧ id ∈ sh ∖ (sorted !!! b)) as HL.
  { intros b id. unfold L. rewrite elem_of_block_rows. apply and_iff_compat_l'. intros Hb.
    unfold members. rewrite (list_lookup_total_fmap _ clauses b) by (unfold clauses; by rewrite length_fmap).
    rewrite sorted_elements_elem. unfold clauses. by rewrite (list_lookup_total_fmap _ sorted b). }
  assert (length L ≠ 0)%nat as HL0.
  { intros E%nil_length_inv. apply set_choose_L in Hne0 as [id Hid]. rewrite <-Hperm in Hu0.
    apply list_elem_of_lookup_total_1 in Hu0 as (b & Hb & <-).
    apply (not_elem_of_nil (b, id)). rewrite <-E. by apply HL. }
  rewrite NewMatrixModule_ok by lia. cbn [mbind result_bind].
  destruct (clause_vectors_ok (F:=F) (length sorted)) as (vectors & -> & Hvl & Hvec); [lia|].
  cbn [mbind result_bind]. rewrite block_rows_labels, block_rows_values. fold L.
  destruct (block_programme_ok L (length sorted) vectors) as (M & HM & Hwf & Hn & Hsh & Hacc);
    [lia| |done|].
  { intros b id [? Hid]%HL. split; [done|]. intros ->. set_solver. }
  assert (∀ id, (∃ b, (b, id) ∈ L) ↔ ∃ u, u ∈ mus ∧ id ∈ sh ∖ u) as Hrow.
  { intros id. setoid_rewrite HL. setoid_rewrite <-Hperm. split.
    - intros (b & Hb & Hid). exists (sorted !!! b). split; [|done].
      by apply list_elem_of_lookup_total_2.
    - intros (u & (b & Hb & <-)%list_elem_of_lookup_total_1 & Hid). by exists b. }
  exists M. do 3 (split; [done|]). split; [intros id; by rewrite Hsh|]. intros ids. rewrite Hacc.
  setoid_rewrite Hrow. apply and_iff_compat_l'. intros _.
  setoid_rewrite HL. setoid_rewrite <-Hperm. split; intros H2.
  - intros u (b & Hb & <-)%list_elem_of_lookup_total_1. destruct (H2 b Hb) as (id & ? & _ & ?).
    by exists id.
  - intros b Hb. destruct (H2 (sorted !!! b)) as (id & ? & ?); [by apply list_elem_of_lookup_total_2|].
    by exists id.
Qed.
End induced_programme.

(** ** Properties *)

Section specification.
Implicit Types (inputs : list (option (gset ID))) (c : CNF.CNF) (X u s : gset ID).
Import CNF.

Lemma is_qualified_spec c ids :
  is_qualified c ids = true ↔
  id_set ids ⊆ shareholders c ∧ ∀ u, u ∈ maximalUnqualifiedSets c → ¬ id_set ids ⊆ u.
Proof.
  unfold is_qualified. rewrite andb_true_iff, bool_decide_eq_true, forallb_forall.
  apply and_iff_compat_l'. intros _. setoid_rewrite <-list_elem_of_In.
  by setoid_rewrite negb_true_iff; setoid_rewrite bool_decide_eq_false.
Qed.

Lemma normaliseCNF_total inputs :
  inputs ≠ [] → (∀ o, o ∈ inputs → ∃ s, o = Some s ∧ admissible s) →
  is_ok (normaliseCNF inputs) = true.
Proof.
  intros Hne Hall. unfold normaliseCNF. destruct (Nat.eqb_spec (length inputs) 0) as [E|_].
  { by apply nil_length_inv in E. }
  assert (∀ acc, is_ok (foldM norm_step acc inputs) = true) as Hok; [|].
  { clear Hne. induction inputs as [|o inputs IH]; intros acc; [done|].
    destruct (Hall o) as (s & -> & Hs1 & Hs2); [by constructor|]. cbn [foldM norm_step].
    rewrite !bool_decide_false by done.
    destruct (existsb _ acc); cbn [mbind result_bind]; apply IH; intros o' Ho'; apply Hall;
      by constructor. }
  specialize (Hok []). apply is_ok_true in Hok as [uniq ->]. done.
Qed.

Lemma normaliseCNF_admits inputs mus :
  normaliseCNF inputs = Ok mus → inputs ≠ [] ∧ ∀ o, o ∈ inputs → ∃ s, o = Some s ∧ admissible s.
Proof.
  unfold normaliseCNF. destruct (Nat.eqb_spec (length inputs) 0) as [E|Hne]; [done|].
  intros E. split; [by intros ->|]. apply bind_ok in E as (uniq & E & _).
  clear Hne. revert E. generalize (@nil (gset ID)).
  induction inputs as [|o inputs IH]; intros acc E o' Ho'; [by apply not_elem_of_nil in Ho'|].
  cbn [foldM] in E. apply bind_ok in E as (acc' & E1 & E).
  apply elem_of_cons in Ho' as [->|Ho']; [|by apply (IH acc')].
  destruct o as [s|]; [|done]. exists s. split; [done|]. cbn [norm_step] in E1.
  case_bool_decide; [done|]. by case_bool_decide.
Qed.

Lemma normal_form_union inputs mus :
  normal_form inputs mus → ∀ id, id ∈ ⋃ mus ↔ ∃ s, Some s ∈ inputs ∧ id ∈ s.
Proof.
  intros Hnf id. rewrite elem_of_union_list. pose proof (nf_cover _ _ Hnf {[id]}) as Hc.
  setoid_rewrite singleton_subseteq_l in Hc. naive_solver.
Qed.

(** The stored sets are the maximal unqualified ones. *)
Lemma valid_maximal_unqualified c X :
  valid_cnf c → X ∈ maximalUnqualifiedSets c ↔ maximal_unqualified c X.
Proof.
  intros Hv. unfold maximal_unqualified. cbn [Shareholders IsQualified cnf_monotone].
  assert (∀ ids, is_qualified c ids = false ↔
    ¬ (id_set ids ⊆ shareholders c ∧ ∀ u, u ∈ maximalUnqualifiedSets c → ¬ id_set ids ⊆ u)) as Hq.
  { intros ids. by rewrite <-is_qualified_spec, not_true_iff_false. }
  rewrite Hq. setoid_rewrite is_qualified_spec. setoid_rewrite id_set_cons.
  rewrite id_set_elements. split.
  - intros HX. assert (∀ u, u ∈ maximalUnqualifiedSets c → u ⊆ shareholders c) as Hsub.
    { intros u Hu. rewrite (cnf_shareholders _ Hv). intros x Hx. apply elem_of_union_list. by exists u. }
    split; [by apply Hsub|]. split; [intros [_ Hno]; by apply (Hno X HX)|].
    intros id Hid HidX. split; [specialize (Hsub X HX); set_solver|]. intros u Hu Hxu.
    apply HidX. rewrite (cnf_antichain _ Hv X u HX Hu) by set_solver. set_solver.
  - intros (HXs & Hno & Hext).
    destruct (list_find (λ u, X ⊆ u) (maximalUnqualifiedSets c)) as [[i u]|] eqn:Ef.
    + apply list_find_Some in Ef as (Hu%list_elem_of_lookup_2 & HXu & _).
      assert (X = u) as ->; [|done]. apply set_eq. intros id. split; [apply HXu|].
      intros Hid. apply dec_stable. intros HidX. destruct (Hext id) as [_ Hn]; [|done|].
      * rewrite (cnf_shareholders _ Hv). apply elem_of_union_list. by exists u.
      * apply (Hn u Hu). set_solver.
    + destruct Hno. split; [done|]. apply list_find_None in Ef. by rewrite Forall_forall in Ef.
Qed.

(** C23. The constructor accepts exactly the non-empty lists of non-nil,
    non-empty, zero-free sets that name at least two shareholders.  The
    result's shareholders are the union of the inputs, a coalition is
    qualified exactly when it consists of shareholders and lies in none of the
    input sets, and the stored sets are exactly the maximal unqualified sets
    of that policy, each once. *)
Theorem NewCNF_correct inputs :
  (is_ok (NewCNFAccessStructure inputs) = true ↔
     inputs ≠ [] ∧ (∀ o, o ∈ inputs → ∃ s, o = Some s ∧ s ≠ ∅ ∧ 0%N ∉ s) ∧
     ∃ id1 id2 s1 s2, id1 ≠ id2 ∧ Some s1 ∈ inputs ∧ Some s2 ∈ inputs ∧ id1 ∈ s1 ∧ id2 ∈ s2) ∧
  ∀ c, NewCNFAccessStructure inputs = Ok c →
    (∀ id, id ∈ shareholders c ↔ ∃ s, Some s ∈ inputs ∧ id ∈ s) ∧
    (∀ ids, is_qualified c ids = true ↔
       id_set ids ⊆ shareholders c ∧ ∀ s, Some s ∈ inputs → ¬ id_set ids ⊆ s) ∧
    NoDup (maximalUnqualifiedSets c) ∧
    ∀ X, X ∈ maximalUnqualifiedSets c ↔ maximal_unqualified c X.
Proof.
  split.
  - unfold NewCNFAccessStructure. split.
    + intros Hok. destruct (normaliseCNF inputs) as [mus| |] eqn:Hn; [|done..].
      destruct (normaliseCNF_admits inputs mus Hn) as [Hne Hadm]. do 2 (split; [done|]).
      cbn [mbind result_bind] in Hok. cbv zeta in Hok.
      pose proof (normal_form_union _ _ (normaliseCNF_ok _ _ Hn)) as Hun.
      destruct (Nat.ltb_spec (size (⋃ mus)) 2) as [|Hs]; [done|].
      apply size_ge_2 in Hs as (id1 & id2 & Hid1 & Hid2 & Hne').
      apply Hun in Hid1 as (s1 & ? & ?), Hid2 as (s2 & ? & ?). by exists id1, id2, s1, s2.
    + intros (Hne & Hadm & id1 & id2 & s1 & s2 & Hids & Hs1 & Hs2 & Hid1 & Hid2).
      pose proof (normaliseCNF_total inputs Hne Hadm) as [mus Hn]%is_ok_true.
      pose proof (normal_form_union _ _ (normaliseCNF_ok _ _ Hn)) as Hun.
      rewrite Hn. cbn [mbind result_bind]. cbv zeta.
      destruct (Nat.ltb_spec (size (⋃ mus)) 2) as [Hs|]; [|done].
      assert (2 ≤ size (⋃ mus)); [|lia]. apply size_ge_2. exists id1, id2.
      rewrite !Hun. naive_solver.
  - intros c E. pose proof (NewCNF_valid _ _ E) as Hv. unfold NewCNFAccessStructure in E.
    apply bind_ok in E as (mus & Hn%normaliseCNF_ok & E). cbv zeta in E.
    destruct (_ <? 2); [done|]. injection E as <-.
    split; [by apply normal_form_union|]. split.
    { intros ids. rewrite is_qualified_spec. apply and_iff_compat_l'. intros _.
      pose proof (nf_cover _ _ Hn (id_set ids)). naive_solver. }
    split; [apply (cnf_nodup _ Hv)|]. intros X. by apply valid_maximal_unqualified.
Qed.
End specification.

Section induced_properties.
Context `{PrimeField F}.
Implicit Types (inputs : list (option (gset ID))) (c : CNF.CNF) (u : gset ID) (ids : list ID).
Import CNF.

(** Every shareholder of the coalition misses some maximal unqualified set. *)
Definition own_rows c ids : bool :=
  forallb (λ id, existsb (λ u, negb (bool_decide (id ∈ u))) (maximalUnqualifiedSets c)) ids.

Lemma own_rows_spec c ids :
  own_rows c ids = true ↔
  ∀ id, id ∈ ids → ∃ u, u ∈ maximalUnqualifiedSets c ∧ id ∉ u.
Proof.
  unfold own_rows. rewrite forallb_forall. setoid_rewrite <-list_elem_of_In.
  setoid_rewrite existsb_exists. setoid_rewrite <-list_elem_of_In.
  by setoid_rewrite negb_true_iff; setoid_rewrite bool_decide_eq_false.
Qed.

Lemma valid_no_zero c : valid_cnf c → (0%N ∉ shareholders c).
Proof.
  intros Hv. rewrite (cnf_shareholders _ Hv), elem_of_union_list. intros (u & Hu & H0).
  by apply (cnf_admissible _ Hv u Hu).
Qed.

Lemma valid_clause c :
  valid_cnf c → 2 ≤ length (maximalUnqualifiedSets c) →
  ∃ u, u ∈ maximalUnqualifiedSets c ∧ shareholders c ∖ u ≠ ∅.
Proof.
  intros Hv Hl. pose proof (cnf_nodup _ Hv) as Hnd. pose proof (cnf_antichain _ Hv) as Ha.
  pose proof (cnf_shareholders _ Hv) as Hsh.
  destruct (maximalUnqualifiedSets c) as [|u1 [|u2 l]]; cbn in Hl; [lia..|].
  exists u1. split; [constructor|]. intros E. apply NoDup_cons in Hnd as [Hnd _]. apply Hnd.
  rewrite <-(Ha u2 u1); [constructor|by do 2 constructor|constructor|].
  intros id Hid. apply dec_stable. intros Hn. apply (not_elem_of_empty (C:=gset ID) id).
  rewrite <-E, Hsh. set_solver.
Qed.

(** C18. For a constructed structure: a single maximal unqualified set gives
    a dimension error; two or more with an ID above 64 make the canonical
    ordering panic; otherwise the programme exists and accepts exactly the
    qualified coalitions all of whose members miss some maximal unqualified
    set, so that it realises the structure as soon as no shareholder lies in
    all of them. *)
Theorem CNF_InducedMSP_decides inputs c :
  NewCNFAccessStructure inputs = Ok c →
  (length (maximalUnqualifiedSets c) = 1 → InducedMSP (F:=F) (Some c) = Err ErrDimension) ∧
  (2 ≤ length (maximalUnqualifiedSets c) → (∃ id, id ∈ shareholders c ∧ (64 < id)%N) →
     InducedMSP (F:=F) (Some c) = Panic) ∧
  (2 ≤ length (maximalUnqualifiedSets c) → (∀ id, id ∈ shareholders c → (id ≤ 64)%N) →
     ∃ M : MSP F, InducedMSP (Some c) = Ok M ∧
       (∀ ids, Accepts M ids = is_qualified c ids && own_rows c ids) ∧
       ((∀ id, id ∈ shareholders c → own_rows c [id] = true) → realises M c)).
Proof.
  intros Hv%NewCNF_valid. pose proof (cnf_shareholders _ Hv) as Hsh.
  assert (∀ u, u ∈ maximalUnqualifiedSets c → 0%N ∉ u) as H0.
  { intros u Hu. by apply (cnf_admissible _ Hv). }
  split; [|split].
  - intros Hl. destruct c as [sh mus]; cbn in *. destruct mus as [|u [|]]; [done| |done].
    unfold InducedMSP. cbn [maximalUnqualifiedSets shareholders]. rewrite Hsh. cbn.
    by rewrite union_empty_r_L, difference_diag_L.
  - intros Hl (id & Hid & Hbig). unfold InducedMSP. destruct (Nat.eqb_spec (length (maximalUnqualifiedSets c)) 0) as [|_]; [lia|].
    rewrite sort_sets_panic; [done..|]. rewrite Hsh in Hid.
    apply elem_of_union_list in Hid as (u & Hu & Hid). exists u. split; [done|].
    intros Hsm. specialize (Hsm id Hid). lia.
  - intros Hl Hsm.
    destruct (CNF_InducedMSP_ok (F:=F) c) as (M & HM & Hwf & Hn & HshM & Hacc);
      [|by apply valid_no_zero|by apply valid_clause|].
    { intros u Hu. split; [by apply H0|]. intros id Hid. apply Hsm. rewrite Hsh.
      apply elem_of_union_list. by exists u. }
    assert (∀ ids, Accepts M ids = is_qualified c ids && own_rows c ids) as Hq.
    { intros ids. apply eq_true_iff_eq.
      rewrite Hacc, andb_true_iff, is_qualified_spec, own_rows_spec.
      setoid_rewrite elem_of_difference. split.
      - intros [H1 H2]. split; [split|naive_solver].
        + intros id Hid%id_set_elem. naive_solver.
        + intros u (id & Hid & _ & Hno)%H2 Hsub. apply Hno, Hsub. by apply id_set_elem.
      - intros [[H1 H2] H3]. split.
        + intros id Hid. destruct (H3 id Hid) as (u & Hu & Hno). exists u.
          split_and!; [done| |done]. apply H1. by apply id_set_elem.
        + intros u Hu. destruct (list_find (λ id, id ∉ u) ids) as [[i id]|] eqn:Ef.
          * apply list_find_Some in Ef as (Hid%list_elem_of_lookup_2 & Hno & _).
            exists id. split_and!; [done| |done]. apply H1. by apply id_set_elem.
          * apply list_find_None in Ef. rewrite Forall_forall in Ef. destruct (H2 u Hu).
            intros id Hid%id_set_elem. by apply dec_stable, Ef. }
    exists M. do 2 (split; [done|]). intros Hown. do 2 (split; [done|]). split.
    + apply set_eq. intros id. rewrite HshM. cbn. split; [set_solver|]. intros Hid.
      pose proof (Hown id Hid) as Ho. rewrite own_rows_spec in Ho.
      destruct (Ho id) as (u & Hu & Hno); [constructor|]. exists u. set_solver.
    + intros ids. rewrite Hq. cbn. destruct (is_qualified c ids) eqn:E; [|done].
      apply is_qualified_spec in E as [E _]. apply own_rows_spec. intros id Hid.
      assert (own_rows c [id] = true) as Ho by (apply Hown, E; by apply id_set_elem).
      rewrite own_rows_spec in Ho. apply Ho. constructor.
Qed.
End induced_properties.

Definition ex_mus : list (option (gset ID)) :=
  [Some {[1; 2]}; Some {[2; 3]}; Some {[3]}; Some {[3; 4]}; Some {[2; 1]}]%N.

Lemma NewCNF_correct_witness :
  ∃ c, CNF.NewCNFAccessStructure ex_mus = Ok c ∧
    CNF.is_qualified c [1; 3]%N = true ∧ CNF.is_qualified c [2; 3]%N = false.
Proof.
  assert (∃ c, CNF.NewCNFAccessStructure ex_mus = Ok c ∧
    bool_decide (id_set [1; 3]%N ⊆ CNF.shareholders c) = true) as (c & Hc & Hsub13)
    by (eexists; split; vm_compute; reflexivity).
  exists c. split; [done|]. destruct (NewCNF_correct ex_mus) as [_ Hs].
  specialize (Hs c Hc) as (Hsh & Hq & _). split.
  - apply Hq. split.
    + exact (bool_decide_eq_true_1 _ Hsub13).
    + intros s Hs Hsub. assert (bool_decide (id_set [1; 3]%N ⊆ s) = true) as Hsub'
        by (by apply bool_decide_eq_true_2). clear Hsub. unfold ex_mus in Hs.
      repeat (apply elem_of_cons in Hs as [[= ->]|Hs]; [vm_compute in Hsub'; discriminate|]).
      by apply not_elem_of_nil in Hs.
  - apply not_true_iff_false. rewrite Hq. intros [_ Hno].
    apply (Hno {[2; 3]}%N); [do 1 constructor; constructor|].
    apply (bool_decide_eq_true_1 (_ ⊆ _)). vm_compute. reflexivity.
Defined.

Lemma CNF_InducedMSP_decides_witness :
  ∃ c (M : MSP fp101), CNF.NewCNFAccessStructure ex_mus = Ok c ∧
    CNF.InducedMSP (Some c) = Ok M ∧
    Accepts M [1; 3]%N = true ∧ Accepts M [3; 4]%N = false.
Proof.
  assert (∃ c, CNF.NewCNFAccessStructure ex_mus = Ok c ∧
    length (CNF.maximalUnqualifiedSets c) = 3 ∧ elements (CNF.shareholders c) = [4; 2; 3; 1]%N ∧
    (CNF.is_qualified c [1; 3]%N && own_rows c [1; 3]%N = true) ∧
    (CNF.is_qualified c [3; 4]%N && own_rows c [3; 4]%N = false)) as (c & Hc & Hl & Hsh & H1 & H2)
    by (eexists; split_and!; vm_compute; reflexivity).
  destruct (CNF_InducedMSP_decides (F:=fp101) ex_mus c Hc) as (_ & _ & (M & HM & Hacc & _)).
  - rewrite Hl. lia.
  - intros id Hid. rewrite <-elem_of_elements, Hsh in Hid.
    rewrite !elem_of_cons in Hid. destruct Hid as [->|[->|[->|[->|[]%not_elem_of_nil]]]]; lia.
  - exists c, M. do 2 (split; [done|]). by rewrite !Hacc.
Defined.
