(* ===== verification/Mus.v ===== *)
(** * Brute-force maximal unqualified sets (accessstructures/internal/mus.go)

    The exhaustive search used by the tree and hierarchical structures: the
    subsets of the shareholders in descending cardinality, each kept when it
    is unqualified and lies in no set kept so far.  The set of bit-set words
    is a Go map; its iteration order does not matter to the search, and the
    sets are listed here in the order they were found. *)

From Stdlib Require Import ZArith NArith Lia.
From S2P Require Import Prelude Combinations BitSet MSP Access.

Definition maxShareholderID : N := 64%N.

Definition mus_step (isQualified : list ID → bool) (muss : list N) (s : list ID) :
    result (list N) :=
  if isQualified s then Ok muss
  else
    s2 ← NewBitSet s;
    if existsb (λ mus, IsSubSet s2 mus) muss then Ok muss else Ok (muss ++ [s2]).

(** The double loop: [t] counts down from the number of shareholders to one. *)
Definition mus_search (isQualified : list ID → bool) (sortedShareholders : list ID) :
    result (list N) :=
  foldM (λ muss t, foldM (mus_step isQualified) muss (Combinations sortedShareholders t))
    [] (rev (seq 1 (length sortedShareholders))).

(** The iterator handed out: the members of every word found. *)
Definition mus_sets (muss : list N) : list (gset ID) :=
  (λ mus, id_set (BitSet.List mus)) <$> muss.

(** A nil set and a nil predicate are [None]. *)
Definition BruteForceMaximalUnqualifiedSets (shareholders : option (gset ID))
    (isQualified : option (list ID → bool)) : result (list (gset ID)) :=
  match shareholders, isQualified with
  | Some shareholders, Some isQualified =>
      if size shareholders =? 0 then Err ErrValue
      else
        let sortedShareholders := sort_ids (elements shareholders) in
        if (maxShareholderID <? default 0%N (last sortedShareholders))%N then Err ErrOverflow
        else
          muss ← mus_search isQualified sortedShareholders;
          Ok (mus_sets muss)
  | _, _ => Err ErrIsNil
  end.

Lemma id_set_List b : word_ok b → id_set (BitSet.List b) = denote b.
Proof. intros Hb. unfold BitSet.List. by rewrite Iter_spec. Qed.

(** ** The greedy filter

    [visited] are the sets met so far, in non-increasing size. *)

Section greedy.
Context (q : gset ID → bool).
Implicit Types (X Y s : gset ID) (visited kept : list (gset ID)).

Record greedy visited kept : Prop := {
  greedy_nodup : NoDup kept;
  greedy_kept : ∀ X, X ∈ kept ↔
    X ∈ visited ∧ q X = false ∧ ∀ Y, Y ∈ visited → q Y = false → X ⊆ Y → X = Y;
  greedy_below : ∀ Y, Y ∈ visited → q Y = false → ∃ X, X ∈ kept ∧ Y ⊆ X;
}.

Lemma greedy_step visited kept s :
  greedy visited kept → (∀ X, X ∈ visited → size s ≤ size X) → s ∉ visited →
  greedy (visited ++ [s])
    (if q s then kept else if existsb (λ X, bool_decide (s ⊆ X)) kept then kept else kept ++ [s]).
Proof.
  intros [Hnd Hk Hb] Hsize Hs.
  assert (∀ X, X ∈ visited → X ⊆ s → X = s) as Hno.
  { intros X HX Hsub. apply set_subseteq_size_eq; [done|by apply Hsize]. }
  assert (∀ X, X ∈ visited ++ [s] ↔ X ∈ visited ∨ X = s) as Hel.
  { intros X. by rewrite elem_of_app, list_elem_of_singleton. }
  destruct (q s) eqn:Hq; [|destruct (existsb _ kept) eqn:Hex].
  - split; [done| |]; setoid_rewrite Hel.
    + intros X. rewrite Hk. split.
      2:{ intros ([HX| ->] & HqX & Hmax); [|congruence]. split_and!; [done..|].
          intros Y HY. apply Hmax. by left. }
      intros (HX & HqX & Hmax). split_and!; [by left|done|].
      intros Y [HY| ->] HqY; [by apply Hmax|congruence].
    + intros Y [HY| ->] HqY; [by apply Hb|congruence].
  - apply existsb_exists in Hex as (Z & HZ%list_elem_of_In & HsZ%bool_decide_eq_true_1).
    split; [done| |]; setoid_rewrite Hel.
    + intros X. rewrite Hk. split.
      * intros (HX & HqX & Hmax). split_and!; [by left|done|].
        intros Y [HY| ->] HqY Hsub; [by apply Hmax|by apply Hno].
      * intros ([HX| ->] & HqX & Hmax); [split_and!; [done..|]; intros Y HY; apply Hmax; by left|].
        destruct Hs. apply Hk in HZ as (HZ & HqZ & _). rewrite (Hmax Z); [done|by left|done..].
    + intros Y [HY| ->] HqY; [by apply Hb|]. by exists Z.
  - assert (∀ X, X ∈ kept → ¬ s ⊆ X) as Hnew.
    { intros X HX Hsub. apply not_true_iff_false in Hex. apply Hex, existsb_exists.
      exists X. split; [by apply list_elem_of_In|by apply bool_decide_eq_true_2]. }
    split.
    + apply NoDup_app. split_and!; [done| |apply NoDup_singleton].
      intros X HX ->%list_elem_of_singleton. by apply (Hnew s).
    + intros X. rewrite elem_of_app, list_elem_of_singleton, Hk. setoid_rewrite Hel. split.
      * intros [(HX & HqX & Hmax)| ->].
        -- split_and!; [by left|done|].
           intros Y [HY| ->] HqY Hsub; [by apply Hmax|by apply Hno].
        -- split_and!; [by right|done|]. intros Y [HY| ->] HqY Hsub; [|done].
           destruct (Hb Y HY HqY) as (X & HX & HYX). destruct (Hnew X HX). by transitivity Y.
      * intros ([HX| ->] & HqX & Hmax); [left; split_and!; [done..|]; intros Y HY; apply Hmax; by left|by right].
    + intros Y HY HqY. apply Hel in HY as [HY| ->].
      * destruct (Hb Y HY HqY) as (X & HX & HYX). exists X. split; [apply elem_of_app; by left|done].
      * exists s. split; [apply elem_of_app; right; constructor|done].
Qed.
End greedy.

(** ** The search *)

Section search.
Context (isQualified : list ID → bool) (q : gset ID → bool).
Context (Hq : ∀ ids, isQualified ids = q (id_set ids)).
Implicit Types (cs : list (list ID)) (muss : list N).

Definition in_word (ids : list ID) : Prop := ∀ id, id ∈ ids → (1 ≤ id ≤ 64)%N.

Lemma NewBitSet_in_word ids :
  in_word ids → ∃ w, NewBitSet ids = Ok w ∧ word_ok w ∧ denote w = id_set ids.
Proof using.
  intros Hids. pose proof (AddAll_spec 0 ids word_ok_0) as HA. unfold NewBitSet.
  assert (forallb (λ e, (1 <=? e) && (e <=? 64))%N ids = true) as E.
  { apply forallb_forall. intros id Hid%list_elem_of_In%Hids.
    by rewrite andb_true_iff, !N.leb_le. }
  rewrite E in HA. destruct HA as (w & -> & Hw & Hd). exists w. do 2 (split; [done|]).
  rewrite Hd. assert (denote 0 = ∅) as -> by (vm_compute; reflexivity).
  by rewrite union_empty_r_L.
Qed.

(** The search over a list of coalitions in non-increasing size is the greedy
    filter on the sets they denote. *)
Lemma mus_steps cs visited muss :
  Forall in_word cs → NoDup (visited ++ (id_set <$> cs)) →
  StronglySorted (λ X Y : gset ID, size Y ≤ size X) (visited ++ (id_set <$> cs)) →
  Forall word_ok muss → greedy q visited (denote <$> muss) →
  ∃ muss', foldM (mus_step isQualified) muss cs = Ok muss' ∧ Forall word_ok muss' ∧
    greedy q (visited ++ (id_set <$> cs)) (denote <$> muss').
Proof using Hq.
  revert visited muss. induction cs as [|c cs IH]; intros visited muss Hcs Hnd Hss Hw Hg.
  { exists muss. cbn [foldM fmap list_fmap]. by rewrite app_nil_r. }
  apply Forall_cons in Hcs as [Hc Hcs]. cbn [fmap list_fmap] in *.
  rewrite cons_middle, app_assoc in Hnd, Hss |- *.
  assert (greedy q (visited ++ [id_set c]) (if q (id_set c) then denote <$> muss
    else if existsb (λ X, bool_decide (id_set c ⊆ X)) (denote <$> muss) then denote <$> muss
    else (denote <$> muss) ++ [id_set c])) as Hg'.
  { apply greedy_step; [done| |].
    - intros X HX. apply StronglySorted_app in Hss as (_ & Hss & _).
      apply StronglySorted_app in Hss as (Hss & _ & _). apply Hss; [done|constructor].
    - apply NoDup_app in Hnd as (Hnd & _ & _). apply NoDup_app in Hnd as (_ & Hdis & _).
      intros Hin. apply (Hdis _ Hin). constructor. }
  cbn [foldM]. assert (mus_step isQualified muss c = if q (id_set c) then Ok muss else
    s2 ← NewBitSet c;
    if existsb (λ mus, IsSubSet s2 mus) muss then Ok muss else Ok (muss ++ [s2])) as ->
    by (unfold mus_step; by rewrite Hq).
  destruct (q (id_set c)).
  - cbn [mbind result_bind]. by apply (IH (visited ++ [id_set c])).
  - destruct (NewBitSet_in_word c Hc) as (w & -> & Hww & Hd). cbn [mbind result_bind].
    assert (existsb (λ X : gset ID, bool_decide (id_set c ⊆ X)) (denote <$> muss)
      = existsb (λ mus, IsSubSet w mus) muss) as Hex.
    { clear -Hww Hd. induction muss as [|mus muss IHm]; [done|].
      cbn [fmap list_fmap existsb]. rewrite IHm. f_equal.
      apply eq_true_iff_eq. rewrite bool_decide_eq_true, (IsSubSet_spec w mus Hww), Hd. reflexivity. }
    rewrite Hex in Hg'. destruct (existsb (λ mus, IsSubSet w mus) muss); cbn [mbind result_bind].
    + by apply (IH (visited ++ [id_set c])).
    + apply (IH (visited ++ [id_set c])); [done..| |].
      * apply Forall_app. split; [done|by apply Forall_singleton].
      * rewrite fmap_app. cbn [fmap list_fmap]. by rewrite Hd.
Qed.
End search.

(** ** Property *)

Lemma filter_iff_in {A} (P Q : A → Prop) `{!∀ x, Decision (P x), !∀ x, Decision (Q x)} (l : list A) :
  (∀ x, x ∈ l → P x ↔ Q x) → filter P l = filter Q l.
Proof.
  induction l as [|x l IH]; intros Hl; [done|]. rewrite !filter_cons.
  rewrite IH by (intros y Hy; apply Hl; by constructor).
  pose proof (Hl x (list_elem_of_here _ _)). repeat case_decide; tauto.
Qed.

Lemma sublist_NoDup_filter (l c : list ID) :
  NoDup l → sublist c l → c = filter (λ id, id ∈ c) l.
Proof.
  intros Hnd Hsub. induction Hsub as [|x c l Hsub IH|x c l Hsub IH]; [done| |].
  - apply NoDup_cons in Hnd as [Hx Hnd]. rewrite filter_cons_True by constructor. f_equal.
    rewrite IH at 1 by done. apply filter_iff_in. intros id Hid. rewrite elem_of_cons.
    split; [by right|]. intros [-> |]; done.
  - apply NoDup_cons in Hnd as [Hx Hnd]. rewrite filter_cons_False; [by apply IH|].
    intros Hin. apply Hx. by eapply elem_of_sublist.
Qed.

Lemma StronglySorted_const {A} (f : A → nat) k (l : list A) :
  (∀ x, x ∈ l → f x = k) → StronglySorted (λ x y, f y ≤ f x) l.
Proof.
  intros Hl. induction l as [|x l IH]; constructor.
  - apply IH. intros y Hy. apply Hl. by constructor.
  - apply Forall_forall. intros y Hy. rewrite !Hl; [done|by constructor..].
Qed.

Lemma sort_ids_last (s : gset ID) id :
  id ∈ s → (id ≤ default 0 (last (sort_ids (elements s))))%N.
Proof.
  intros Hid%sorted_elements_elem. assert (StronglySorted N.le (sort_ids (elements s))) as Hs.
  { apply StronglySorted_merge_sort; intros ??; lia. }
  revert id Hid Hs. generalize (sort_ids (elements s)) as l. intros l.
  induction l as [|x l IH]; intros id Hid Hs; [by apply not_elem_of_nil in Hid|].
  apply StronglySorted_inv in Hs as [Hs Hx]. rewrite Forall_forall in Hx.
  destruct l as [|y l]; [by apply list_elem_of_singleton in Hid as ->|].
  rewrite last_cons_cons. apply elem_of_cons in Hid as [->|Hid]; [|by apply IH].
  etransitivity; [apply Hx; constructor|]. apply IH; [constructor|done].
Qed.

Section property.
Context (sh : gset ID).
Implicit Types (X Y : gset ID) (k : nat).

Definition all_coalitions (n : nat) : list (list ID) :=
  t ← rev (seq 1 n); Combinations (sort_ids (elements sh)) t.

Context (Hsmall : (Z.of_nat (size sh) < 2 ^ 63)%Z)
  (Hcount : ∀ k, (Z.of_nat (size sh * binom (size sh) k) < 2 ^ 63)%Z).

Lemma coalition_spec c k :
  c ∈ Combinations (sort_ids (elements sh)) k ↔
  sublist c (sort_ids (elements sh)) ∧ length c = k.
Proof using Hsmall Hcount.
  apply Combinations_complete; [apply sorted_elements_NoDup|by rewrite sorted_elements_length..].
Qed.

Lemma coalition_size c : sublist c (sort_ids (elements sh)) → size (id_set c) = length c.
Proof using.
  intros Hc. apply (size_list_to_set (C:=gset ID)). eapply sublist_NoDup; [|done].
  apply sorted_elements_NoDup.
Qed.

Lemma coalition_inj c c' :
  sublist c (sort_ids (elements sh)) → sublist c' (sort_ids (elements sh)) →
  id_set c = id_set c' → c = c'.
Proof using.
  intros Hc Hc' E. pose proof (sorted_elements_NoDup sh) as Hnd.
  rewrite (sublist_NoDup_filter _ _ Hnd Hc), (sublist_NoDup_filter _ _ Hnd Hc').
  apply list_filter_iff. intros id. by rewrite <-!id_set_elem, E.
Qed.

(** The coalitions in search order: every non-empty subset once, in
    non-increasing size. *)
Lemma all_coalitions_elem n c :
  c ∈ all_coalitions n ↔ sublist c (sort_ids (elements sh)) ∧ 1 ≤ length c ≤ n.
Proof using Hsmall Hcount.
  unfold all_coalitions. rewrite list_elem_of_bind. setoid_rewrite coalition_spec.
  setoid_rewrite list_elem_of_In. setoid_rewrite <-in_rev. setoid_rewrite in_seq. split.
  - intros (k & [? <-] & ?). split; [done|lia].
  - intros [? ?]. exists (length c). split; [done|lia].
Qed.

Lemma all_coalitions_S n :
  all_coalitions (S n) = Combinations (sort_ids (elements sh)) (S n) ++ all_coalitions n.
Proof using. unfold all_coalitions. by rewrite seq_S, rev_unit. Qed.

Lemma all_coalitions_sorted n :
  StronglySorted (λ X Y : gset ID, size Y ≤ size X) (id_set <$> all_coalitions n).
Proof using Hsmall Hcount.
  induction n as [|n IH]; [constructor|]. rewrite all_coalitions_S, fmap_app.
  assert (∀ X, X ∈ id_set <$> Combinations (sort_ids (elements sh)) (S n) → size X = S n) as Hs.
  { intros X (c & -> & [Hc Hl]%coalition_spec)%list_elem_of_fmap. by rewrite coalition_size. }
  apply StronglySorted_app_2; [|by apply (StronglySorted_const size (S n))|done].
  intros X Y ->%Hs (c & -> & [Hc Hl]%all_coalitions_elem)%list_elem_of_fmap.
  rewrite coalition_size by done. lia.
Qed.

Lemma all_coalitions_NoDup n : NoDup (id_set <$> all_coalitions n).
Proof using Hsmall Hcount.
  apply NoDup_fmap_2_strong.
  - intros c c' [Hc _]%all_coalitions_elem [Hc' _]%all_coalitions_elem. by apply coalition_inj.
  - induction n as [|n IH]; [constructor|]. rewrite all_coalitions_S. apply NoDup_app.
    split_and!; [|intros c [_ Hc]%coalition_spec [_ ?]%all_coalitions_elem; lia|done].
    apply Combinations_complete; [apply sorted_elements_NoDup|by rewrite sorted_elements_length..].
Qed.

Lemma mus_search_bind isQualified :
  mus_search isQualified (sort_ids (elements sh))
  = foldM (mus_step isQualified) [] (all_coalitions (size sh)).
Proof using.
  unfold mus_search, all_coalitions. rewrite sorted_elements_length.
  generalize (@nil N). induction (rev (seq 1 (size sh))) as [|t l IH]; intros muss; [done|].
  cbn [mbind list_bind foldM]. rewrite foldM_app.
  destruct (foldM _ muss (Combinations _ t)); [apply IH|done..].
Qed.

Lemma all_coalitions_sets X :
  X ∈ id_set <$> all_coalitions (size sh) ↔ X ≠ ∅ ∧ X ⊆ sh.
Proof using Hsmall Hcount.
  rewrite list_elem_of_fmap. setoid_rewrite all_coalitions_elem. split.
  - intros (c & -> & Hc & Hl). split.
    + intros E. apply (f_equal size) in E. rewrite coalition_size, size_empty in E by done. lia.
    + intros id Hid%id_set_elem. apply sorted_elements_elem. by eapply elem_of_sublist.
  - intros [Hne HX]. exists (filter (λ id, id ∈ X) (sort_ids (elements sh))).
    assert (id_set (filter (λ id, id ∈ X) (sort_ids (elements sh))) = X) as E.
    { apply set_eq. intros id. rewrite id_set_elem, list_elem_of_filter, sorted_elements_elem.
      set_solver. }
    assert (sublist (filter (λ id, id ∈ X) (sort_ids (elements sh))) (sort_ids (elements sh)))
      as Hsub by apply sublist_filter.
    split; [done|]. split; [done|]. rewrite <-coalition_size, E by done.
    split; [|by apply subseteq_size].
    assert (size X ≠ 0); [|lia]. intros E'. apply Hne. by apply size_empty_inv, leibniz_equiv in E'.
Qed.

(** For a policy that depends only on the set of IDs, over shareholders in
    [1, 64] and few enough for the binomial coefficients to fit an [int], the
    search succeeds and lists, each once, exactly the non-empty unqualified
    sets of shareholders that lie in no larger unqualified set.  An ID above
    64 is an overflow error and an empty universe a value error. *)
Theorem BruteForce_complete isQualified (q : gset ID → bool) :
  (∀ ids, isQualified ids = q (id_set ids)) →
  (sh = ∅ → BruteForceMaximalUnqualifiedSets (Some sh) (Some isQualified) = Err ErrValue) ∧
  ((∃ id, id ∈ sh ∧ (64 < id)%N) →
     BruteForceMaximalUnqualifiedSets (Some sh) (Some isQualified) = Err ErrOverflow) ∧
  (sh ≠ ∅ → (∀ id, id ∈ sh → (1 ≤ id ≤ 64)%N) →
   ∃ sets, BruteForceMaximalUnqualifiedSets (Some sh) (Some isQualified) = Ok sets ∧ NoDup sets ∧
     ∀ X, X ∈ sets ↔ X ≠ ∅ ∧ X ⊆ sh ∧ q X = false ∧
       ∀ Y, Y ⊆ sh → q Y = false → X ⊆ Y → X = Y).
Proof using Hsmall Hcount.
  intros Hq. unfold BruteForceMaximalUnqualifiedSets. cbv zeta.
  assert (sh ≠ ∅ → size sh ≠ 0) as Hsize.
  { intros Hne E. apply Hne. by apply size_empty_inv, leibniz_equiv in E. }
  split; [by intros ->|split].
  - intros (id & Hid & Hbig). destruct (Nat.eqb_spec (size sh) 0) as [|_].
    { exfalso. apply (Hsize ltac:(intros ->; by apply not_elem_of_empty in Hid)). done. }
    destruct (N.ltb_spec maxShareholderID (default 0%N (last (sort_ids (elements sh)))))
      as [|Hle]; [done|].
    pose proof (sort_ids_last sh id Hid). unfold maxShareholderID in Hle. lia.
  - intros Hne Hids. destruct (Nat.eqb_spec (size sh) 0) as [|_]; [by destruct (Hsize Hne)|].
    destruct (N.ltb_spec maxShareholderID (default 0%N (last (sort_ids (elements sh)))))
      as [Hlt|_].
    { destruct (last _) as [id|] eqn:E; [|done]. cbn in Hlt.
      apply last_Some_elem_of, sorted_elements_elem, Hids in E. unfold maxShareholderID in Hlt. lia. }
    rewrite mus_search_bind. set (cs := all_coalitions (size sh)).
    destruct (mus_steps isQualified q Hq cs [] []) as (muss & -> & Hw & Hg).
    + apply Forall_forall. intros c [Hc _]%all_coalitions_elem id Hid. apply Hids.
      apply sorted_elements_elem. by eapply elem_of_sublist.
    + apply all_coalitions_NoDup.
    + apply all_coalitions_sorted.
    + constructor.
    + split; [constructor| |]; set_solver.
    + cbn [mbind result_bind app] in *. exists (mus_sets muss). split; [done|].
      assert (mus_sets muss = denote <$> muss) as ->.
      { apply list_fmap_ext. intros i w Hi. apply id_set_List.
        rewrite Forall_forall in Hw. by eapply Hw, list_elem_of_lookup_2. }
      split; [apply (greedy_nodup _ _ _ Hg)|]. intros X.
      assert (∀ Y, Y ∈ id_set <$> cs ↔ Y ≠ ∅ ∧ Y ⊆ sh) as Hcs by apply all_coalitions_sets.
      rewrite (greedy_kept _ _ _ Hg). setoid_rewrite Hcs.
      split; [|by intros (? & ? & ? & Hmax); split_and!; [..|intros Y []; apply Hmax]].
      intros ([HX HXs] & HqX & Hmax). split_and!; [done..|]. intros Y HY HqY Hsub.
      apply Hmax; [|done..]. split; [|done]. intros ->. set_solver.
Qed.
End property.

Lemma BruteForce_complete_witness :
  ∃ sets, BruteForceMaximalUnqualifiedSets (Some {[1; 2; 3]}%N)
      (Some (λ ids, bool_decide (2 ≤ size (id_set ids)))) = Ok sets ∧ {[2%N]} ∈ sets.
Proof.
  destruct (BruteForce_complete {[1; 2; 3]}%N) with (isQualified := λ ids, bool_decide (2 ≤ size (id_set ids)))
    (q := λ X : gset ID, bool_decide (2 ≤ size X)) as (_ & _ & Hok).
  - vm_compute. reflexivity.
  - intros k. assert (size ({[1; 2; 3]}%N : gset ID) = 3) as -> by (vm_compute; reflexivity).
    do 4 (destruct k as [|k]; [vm_compute; reflexivity|]). cbn. lia.
  - done.
  - destruct Hok as (sets & E & _ & Hs); [| |exists sets; split; [exact E|]].
    + intros E0. apply (f_equal size) in E0. by vm_compute in E0.
    + intros id Hid. rewrite !elem_of_union, !elem_of_singleton in Hid. lia.
    + apply Hs. split_and!; [| | |].
      * intros E0. apply (f_equal size) in E0. by vm_compute in E0.
      * apply (bool_decide_eq_true_1 (_ ⊆ _)). vm_compute. reflexivity.
      * vm_compute. reflexivity.
      * intros Y _ HY Hsub. apply bool_decide_eq_false in HY. apply set_subseteq_size_eq; [done|].
        rewrite size_singleton. lia.
Defined.
