(* ===== verification/BoolExpr.v ===== *)
(** * Threshold-gate trees (accessstructures/boolexpr)

    An access structure is a tree of threshold gates over shareholder leaves;
    a coalition is qualified when it satisfies the root.  [convert] is the
    Liu-Cao-Wong construction of the span programme: it keeps a frontier of
    nodes with one matrix row each, and replaces the first gate of the
    frontier by its children until only leaves remain. *)

From Stdlib Require Import ZArith NArith Lia Ring Field.
From S2P Require Import Prelude Algebra AlgebraUtils Poly Combinations Matrix Solver Interp MSP Access Mus.

Module BoolExpr.
(** [GateKind] is a byte: [gate] and [attribute] are its named values. *)
Inductive GateKind := gate | attribute | other.

#[export] Instance GateKind_eq_dec : EqDecision GateKind.
Proof. solve_decision. Defined.

(** [Node]; a nil child pointer is [None]. *)
Inductive Node := mkNode (kind : GateKind) (attr : ID) (threshold : Z) (children : list (option Node)).

Definition kind (n : Node) : GateKind := let '(mkNode k _ _ _) := n in k.
Definition attr (n : Node) : ID := let '(mkNode _ a _ _) := n in a.
Definition threshold (n : Node) : Z := let '(mkNode _ _ t _) := n in t.
Definition children (n : Node) : list (option Node) := let '(mkNode _ _ _ c) := n in c.

Definition NewID (id : ID) : Node := mkNode attribute id 0 [].
Definition Threshold (threshold : Z) (children : list (option Node)) : Node :=
  mkNode gate 0%N threshold children.
Definition And (nodes : list (option Node)) : Node := Threshold (Z.of_nat (length nodes)) nodes.
Definition Or (nodes : list (option Node)) : Node := Threshold 1 nodes.

Definition is_attribute (n : Node) : bool := bool_decide (kind n = attribute).

(** The labels of the attribute children; the filter reads the kind of every
    child, and panics on a nil one. *)
Fixpoint attr_children (children : list (option Node)) : result (list ID) :=
  match children with
  | [] => Ok []
  | None :: _ => Panic
  | Some child :: children =>
      l ← attr_children children;
      Ok (if is_attribute child then attr child :: l else l)
  end.

Fixpoint checkTree (node : Node) : result unit :=
  let '(mkNode kind attr threshold children) := node in
  match kind with
  | attribute => if (attr =? 0)%N then Err ErrValue else Ok tt
  | gate =>
      if (threshold <=? 0)%Z then Err ErrValue
      else if (Z.of_nat (length children) <? threshold)%Z then Err ErrValue
      else
        attrs ← attr_children children;
        if negb (size (id_set attrs) =? length attrs) then Err ErrValue
        else foldM (λ _ child, match child with None => Err ErrIsNil | Some c => checkTree c end)
               tt children
  | other => Err ErrValue
  end.

Definition checkRoot (node : option Node) : result unit :=
  match node with None => Err ErrIsNil | Some node => checkTree node end.

Fixpoint allShareholders (node : Node) (shareholders : gset ID) : gset ID :=
  let '(mkNode kind attr _ children) := node in
  match kind with
  | attribute => {[attr]} ∪ shareholders
  | gate =>
      foldl (λ sh child, match child with None => sh | Some c => allShareholders c sh end)
        shareholders children
  | other => shareholders
  end.

(** [ids] maps every listed ID to true. *)
Fixpoint treeEval (ids : gset ID) (node : Node) : bool :=
  let '(mkNode kind attr threshold children) := node in
  match kind with
  | attribute => bool_decide (attr ∈ ids)
  | gate =>
      let satisfied :=
        map (λ child, match child with None => false | Some c => treeEval ids c end) children in
      (threshold <=? Z.of_nat (length (List.filter id satisfied)))%Z
  | other => false
  end.

Fixpoint treeCountLeaves (node : Node) : nat :=
  let '(mkNode kind _ _ children) := node in
  match kind with
  | attribute => 1
  | gate =>
      foldl (λ c child, c + match child with None => 0 | Some n => treeCountLeaves n end) 0 children
  | other => 0
  end.

Record ThresholdGateAccessStructure := mkTGAS { root : Node; shareholders : gset ID }.

Definition NewThresholdGateAccessStructure (thresholdGateTreeRoot : option Node) :
    result ThresholdGateAccessStructure :=
  _ ← checkRoot thresholdGateTreeRoot;
  match thresholdGateTreeRoot with
  | None => Err ErrIsNil
  | Some root => Ok (mkTGAS root (allShareholders root ∅))
  end.

Definition is_qualified (a : ThresholdGateAccessStructure) (ids : list ID) : bool :=
  treeEval (id_set ids) (root a).

Definition CountLeaves (a : ThresholdGateAccessStructure) : nat := treeCountLeaves (root a).

(** An error of the search panics. *)
Definition maximal_unqualified_sets (a : ThresholdGateAccessStructure) : result (list (gset ID)) :=
  match BruteForceMaximalUnqualifiedSets (Some (shareholders a)) (Some (is_qualified a)) with
  | Ok sets => Ok sets
  | _ => Panic
  end.

#[export] Instance tgas_monotone : Monotone ThresholdGateAccessStructure := {|
  IsQualified := is_qualified;
  Shareholders := shareholders;
  MaximalUnqualifiedSets := maximal_unqualified_sets;
|}.
(** ** [convert] (boolexpr/msp.go)

    Slices are read and written by checked index. *)

Definition get {A} (l : list A) (i : nat) : result A :=
  match l !! i with Some x => Ok x | None => Panic end.
Definition put {A} (l : list A) (i : nat) (x : A) : result (list A) :=
  if i <? length l then Ok (<[i := x]> l) else Panic.
Definition deref (p : option Node) : result Node :=
  match p with Some n => Ok n | None => Panic end.

Section convert.
Context `{PrimeField F}.

(** The variables [bigM], [l], [m], [d] of the loop. *)
Record conv := mkConv { bigM : list F; l : list (option Node); cm : nat; cd : nat }.

(** Steps 4-9: the first gate among [l[0..m)]. *)
Fixpoint find_gate (l : list (option Node)) (js : list nat) : result (option nat) :=
  match js with
  | [] => Ok None
  | i :: js =>
      p ← get l i; n ← deref p;
      if bool_decide (kind n = gate) then Ok (Some i) else find_gate l js
  end.

Section row.
Context (leaves : nat).
Definition idx (r c : nat) : nat := r * leaves + c.

(** [bigM[idx(i, j)] = bigM1[idx(src, j)]] for [j < d1]. *)
Definition copy_cols (bigM1 : list F) (i src d1 : nat) (M : list F) : result (list F) :=
  foldM (λ M j, x ← get bigM1 (idx src j); put M (idx i j) x) M (seq 0 d1).

Definition zero_cols (i d1 : nat) (d2 : Z) (M : list F) : result (list F) :=
  foldM (λ M j, put M (idx i j) rzero) M (seq d1 (Z.to_nat (d2 - 1))).

(** Steps 29-32: the successive powers of [a]. *)
Definition power_cols (i d1 : nat) (d2 : Z) (a : F) (M : list F) : result (list F) :=
  '(M, _) ← foldM (λ '(M, x) j, M ← put M (idx i j) x; Ok (M, rmul x a)) (M, a)
              (seq d1 (Z.to_nat (d2 - 1)));
  Ok M.

(** A row of an expanded frontier that comes from row [src] of the old one. *)
Definition keep_row (l1 : list (option Node)) (bigM1 : list F) (d1 : nat) (d2 : Z) (i src : nat)
    (st : list (option Node) * list F) : result (list (option Node) * list F) :=
  let '(l, M) := st in
  n ← get l1 src; l ← put l i n;
  M ← copy_cols bigM1 i src d1 M; M ← zero_cols i d1 d2 M;
  Ok (l, M).

(** The row of child [i - z] of the gate [fz]. *)
Definition child_row (bigM1 : list F) (fz : Node) (z d1 : nat) (d2 : Z) (i : nat)
    (st : list (option Node) * list F) : result (list (option Node) * list F) :=
  let '(l, M) := st in
  c ← get (children fz) (i - z); l ← put l i c;
  M ← copy_cols bigM1 i z d1 M;
  let a := radd (rsub (from_uint64 (Z.of_nat i)) (from_uint64 (Z.of_nat z))) rone in
  M ← power_cols i d1 d2 a M;
  Ok (l, M).

(** Steps 11-44: expand the gate at [z]. *)
Definition expand (st : conv) (z : nat) : result conv :=
  let '(mkConv bigM1 l1 m1 d1) := st in
  p ← get l1 z; fz ← deref p;
  let m2 := length (children fz) in
  let d2 := threshold fz in
  s ← foldM (λ s i, keep_row l1 bigM1 d1 d2 i i s) (l1, bigM1) (seq 0 z);
  s ← foldM (λ s i, child_row bigM1 fz z d1 d2 i s) s (seq z m2);
  s ← foldM (λ s i, keep_row l1 bigM1 d1 d2 i (i - m2 + 1) s) s
        (seq (z + m2) (m1 + m2 - 1 - (z + m2)));
  let '(l, M) := s in
  Ok (mkConv M l (m1 + m2 - 1) (Z.to_nat (Z.of_nat d1 + d2 - 1))).

(** The loop of step 2; running out of [fuel] is a panic the theorems exclude. *)
Fixpoint convert_loop (fuel : nat) (st : conv) : result conv :=
  match fuel with
  | 0 => Panic
  | S fuel =>
      z ← find_gate (l st) (seq 0 (cm st));
      match z with
      | None => Ok st
      | Some z => st ← expand st z; convert_loop fuel st
      end
  end.
End row.

(** One iteration per gate of the tree, and the last one. *)
Fixpoint count_gates (node : Node) : nat :=
  let '(mkNode kind _ _ children) := node in
  match kind with
  | gate => S (sum_list (map (λ child, match child with None => 0 | Some c => count_gates c end) children))
  | _ => 0
  end.

Definition collect_labels (rho : list ID) (p : nat * option Node) : result (list ID) :=
  let '(i, li) := p in
  n ← deref li;
  if bool_decide (kind n = attribute) then put rho i (attr n) else Err ErrFailed.

Definition convert (as_ : ThresholdGateAccessStructure) : result (Matrix F * list ID) :=
  let leaves := CountLeaves as_ in
  bigM ← put (replicate (leaves * leaves) rzero) 0 rone;
  l ← put (replicate leaves None) 0 (Some (root as_));
  st ← convert_loop leaves (S (count_gates (root as_))) (mkConv bigM l 1 1);
  let '(mkConv bigM l m d) := st in
  _ ← NewMatrixModule leaves leaves;
  resultM ← NewRowMajor leaves leaves bigM;
  resultM ← RowSlice resultM 0 (Z.of_nat m);
  resultM ← ColumnSlice resultM 0 (Z.of_nat d);
  resultRho ← foldM collect_labels (replicate m 0%N) (imap pair l);
  Ok (resultM, resultRho).

Definition InducedMSP (ac : option ThresholdGateAccessStructure) : result (MSP F) :=
  match ac with
  | None => Panic
  | Some ac =>
      '(m, rho) ← convert ac;
      NewMSP (Some m) (Some (label_rows rho))
  end.
End convert.

End BoolExpr.
#[export] Existing Instance BoolExpr.tgas_monotone.

(** ** Well-formed trees *)

Section trees.
Import BoolExpr.
Implicit Types (nd : Node) (ns kids : list Node) (S : gset ID).

#[export] Instance Node_inhabited : Inhabited Node := populate (NewID 0%N).

Lemma Node_ind' (P : Node → Prop) :
  (∀ k a t cs, (∀ c, Some c ∈ cs → P c) → P (mkNode k a t cs)) → ∀ nd, P nd.
Proof.
  intros HP. fix IH 1. intros [k a t cs]. apply HP.
  induction cs as [|[c'|] cs IHcs]; intros c Hc.
  - exact (match not_elem_of_nil _ Hc with end).
  - apply elem_of_cons in Hc as [[= ->]|Hc]; [exact (IH c')|exact (IHcs c Hc)].
  - apply elem_of_cons in Hc as [[=]|Hc]. exact (IHcs c Hc).
Qed.

Definition attrs_of (kids : list Node) : list ID := attr <$> filter (λ c, is_attribute c = true) kids.

(** What [checkTree] accepts. *)
Inductive wf_node : Node → Prop :=
| wf_attribute a t cs : a ≠ 0%N → wf_node (mkNode attribute a t cs)
| wf_gate a t kids :
    (0 < t ≤ Z.of_nat (length kids))%Z → NoDup (attrs_of kids) →
    (∀ c, c ∈ kids → wf_node c) → wf_node (mkNode gate a t (Some <$> kids)).

Lemma attr_children_ok kids : attr_children (Some <$> kids) = Ok (attrs_of kids).
Proof.
  induction kids as [|c kids IH]; [done|]. cbn [fmap list_fmap attr_children].
  rewrite IH. cbn [mbind result_bind]. unfold attrs_of. rewrite filter_cons.
  by destruct (is_attribute c).
Qed.

Lemma attr_children_inv cs l : attr_children cs = Ok l → ∃ kids, cs = Some <$> kids.
Proof.
  revert l. induction cs as [|[c|] cs IH]; intros l E; [by exists []| |done].
  cbn [attr_children] in E. apply bind_ok in E as (l' & E & _).
  destruct (IH l' E) as [kids ->]. by exists (c :: kids).
Qed.

Lemma checkTree_spec nd : checkTree nd = Ok tt ↔ wf_node nd.
Proof.
  induction nd as [k a t cs IH] using Node_ind'. cbn [checkTree]. destruct k.
  - split.
    + intros E. destruct (Z.leb_spec t 0); [done|].
      destruct (Z.ltb_spec (Z.of_nat (length cs)) t); [done|].
      apply bind_ok in E as (attrs & Ha & E). destruct (attr_children_inv _ _ Ha) as [kids ->].
      rewrite attr_children_ok in Ha. injection Ha as <-.
      destruct (Nat.eqb_spec (size (id_set (attrs_of kids))) (length (attrs_of kids))) as [Hs|];
        [|done]. cbn [negb] in E. rewrite length_fmap in *.
      constructor; [lia|by apply size_id_set_NoDup|].
      assert (∀ c, c ∈ kids → checkTree c = Ok tt ↔ wf_node c) as IH'.
      { intros c Hc. apply IH. by apply list_elem_of_fmap_2. }
      clear -E IH'. revert E. induction kids as [|c kids IHk]; intros E c' Hc'.
      { by apply not_elem_of_nil in Hc'. }
      cbn [fmap list_fmap foldM] in E. apply bind_ok in E as ([] & E1 & E).
      apply elem_of_cons in Hc' as [->|Hc']; [apply IH'; [constructor|done]|].
      apply (IHk (λ c H, IH' c (list_elem_of_further _ _ _ H)) E c' Hc').
    + intros Hw. inversion Hw as [|? ? kids Ht Hnd Hkids]; subst. rewrite length_fmap.
      destruct (Z.leb_spec t 0); [lia|].
      destruct (Z.ltb_spec (Z.of_nat (length kids)) t); [lia|].
      rewrite attr_children_ok. cbn [mbind result_bind].
      rewrite (proj2 (size_id_set_NoDup _) Hnd), Nat.eqb_refl. cbn [negb].
      assert (∀ c, c ∈ kids → checkTree c = Ok tt) as Hc.
      { intros c Hc. apply IH; [by apply list_elem_of_fmap_2|by apply Hkids]. }
      clear -Hc. induction kids as [|c kids IHk]; [done|]. cbn [fmap list_fmap foldM].
      rewrite Hc by constructor. cbn [mbind result_bind]. apply IHk.
      intros c' Hc'. apply Hc. by constructor.
  - destruct (N.eqb_spec a 0); split; try done; [by inversion 1|by constructor].
  - split; [done|by inversion 1].
Qed.

(** The labels of the leaves, left to right. *)
Fixpoint leaf_ids (node : Node) : list ID :=
  let '(mkNode kind attr _ children) := node in
  match kind with
  | attribute => [attr]
  | gate => concat (map (λ child, match child with None => [] | Some c => leaf_ids c end) children)
  | other => []
  end.

Lemma elem_of_concat {A} (x : A) (ls : list (list A)) : x ∈ concat ls ↔ ∃ l, l ∈ ls ∧ x ∈ l.
Proof.
  rewrite list_elem_of_In, in_concat. by setoid_rewrite list_elem_of_In.
Qed.

Lemma map_Some {A B} (f : A → B) (b : B) (l : list A) :
  map (λ o, match o with None => b | Some x => f x end) (Some <$> l) = f <$> l.
Proof. induction l as [|x l IH]; [done|]. cbn in *. by rewrite IH. Qed.

Lemma leaf_ids_gate a t kids :
  leaf_ids (mkNode gate a t (Some <$> kids)) = concat (leaf_ids <$> kids).
Proof. cbn [leaf_ids]. f_equal. apply (map_Some leaf_ids []). Qed.

Lemma treeEval_gate S a t kids :
  treeEval S (mkNode gate a t (Some <$> kids))
  = (t <=? Z.of_nat (length (selected (λ k, treeEval S (kids !!! k)) (length kids))))%Z.
Proof.
  cbn [treeEval]. rewrite (map_Some (treeEval S) false). f_equal. f_equal.
  induction kids as [|c kids IH] using rev_ind; [done|].
  rewrite fmap_app, List.filter_app, !length_app. cbn. rewrite Nat.add_1_r, selected_S, length_app, IH.
  f_equal.
  - f_equal. unfold selected. apply filter_iff_in. intros k Hk%elem_of_seq.
    by rewrite lookup_total_app_l by lia.
  - rewrite list_lookup_total_middle by done. by destruct (treeEval S c).
Qed.

Lemma treeCountLeaves_spec nd : treeCountLeaves nd = length (leaf_ids nd).
Proof.
  induction nd as [k a t cs IH] using Node_ind'. destruct k; [|done..].
  cbn [treeCountLeaves leaf_ids].
  enough (∀ s, foldl (λ c child, c + match child with Some n => treeCountLeaves n | None => 0 end) s cs
    = s + length (concat (map (λ child, match child with
        Some c => leaf_ids c | None => [] end) cs))) as E by (rewrite E; lia).
  induction cs as [|[c|] cs IHcs]; intros s; cbn [foldl map concat].
  - cbn [length]. lia.
  - rewrite IHcs by (intros c' Hc'; apply IH; by constructor).
    rewrite IH by constructor. rewrite length_app. lia.
  - rewrite IHcs by (intros c' Hc'; apply IH; by constructor). cbn [app]. lia.
Qed.

Lemma allShareholders_spec nd S : allShareholders nd S = list_to_set (leaf_ids nd) ∪ S.
Proof.
  revert S. induction nd as [k a t cs IH] using Node_ind'. intros S. destruct k.
  - cbn [allShareholders leaf_ids].
    revert S. induction cs as [|[c|] cs IHcs]; intros S; cbn [foldl map concat].
    + set_solver.
    + rewrite IHcs by (intros c' Hc'; apply IH; by constructor).
      rewrite IH by constructor. rewrite list_to_set_app_L. set_solver.
    + rewrite IHcs by (intros c' Hc'; apply IH; by constructor). done.
  - cbn. set_solver.
  - cbn. set_solver.
Qed.

Lemma wf_leaves nd : wf_node nd → 0 < length (leaf_ids nd).
Proof.
  induction nd as [k a t cs IH] using Node_ind'. inversion 1 as [|? ? kids Ht Hnd Hk]; subst.
  { cbn. lia. }
  rewrite leaf_ids_gate. destruct kids as [|c kids]; [cbn in Ht; lia|].
  cbn. rewrite length_app. assert (0 < length (leaf_ids c)); [|lia].
  apply IH; [by constructor|apply Hk; constructor].
Qed.

Lemma wf_leaves_ids nd id : wf_node nd → id ∈ leaf_ids nd → id ≠ 0%N.
Proof.
  induction nd as [k a t cs IH] using Node_ind'. inversion 1 as [|? ? kids Ht Hnd Hk]; subst.
  { cbn. by intros ->%list_elem_of_singleton. }
  rewrite leaf_ids_gate. rewrite elem_of_concat. intros (l & (c & -> & Hc)%list_elem_of_fmap & Hid).
  apply (IH c); [by apply list_elem_of_fmap_2|by apply Hk|done].
Qed.

Lemma concat_length_ge ns :
  (∀ c, c ∈ ns → wf_node c) → length ns ≤ length (concat (leaf_ids <$> ns)).
Proof.
  induction ns as [|c ns IH]; intros Hns; [done|]. cbn. rewrite length_app.
  pose proof (wf_leaves c (Hns c (list_elem_of_here _ _))).
  specialize (IH (λ c H, Hns c (list_elem_of_further _ _ _ H))). cbn in IH. lia.
Qed.
End trees.

(** ** One gate

    The children [k < m2] of a gate sit at the nodes [k + 1].  With at least
    [t] satisfied children the constant term is a combination of their rows;
    with fewer, some vector kills them all. *)

Section gate.
Context `{PrimeField F}.
Local Open Scope alg_scope.
Add Ring gate_ring : (ring_laws (R:=F)).
Implicit Types (b : nat → bool) (k e t : nat).

Definition child_node k : F := from_uint64 (Z.of_nat k + 1).

Lemma child_node_inj m2 k k' :
  (Z.of_nat m2 < order)%Z → (k < m2)%nat → (k' < m2)%nat → child_node k = child_node k' → k = k'.
Proof.
  intros Hm Hk Hk' E. apply (from_uint64_inj_small (F:=F)) in E; lia.
Qed.

Lemma child_node_ne_0 m2 k : (Z.of_nat m2 < order)%Z → (k < m2)%nat → child_node k ≠ 0.
Proof.
  intros Hm Hk E. rewrite <-from_uint64_0 in E. apply (from_uint64_inj_small (F:=F)) in E; lia.
Qed.

Section children.
Context (m2 : nat) (Hm : (Z.of_nat m2 < order)%Z) (b : nat → bool).
Let nodes : list F := child_node <$> selected b m2.

Lemma gate_nodes_length : length nodes = length (selected b m2).
Proof using H. apply length_fmap. Qed.

Lemma gate_nodes_NoDup : NoDup nodes.
Proof using Hm.
  apply NoDup_fmap_2_strong; [|apply NoDup_selected].
  intros k k' [_ Hk]%elem_of_selected [_ Hk']%elem_of_selected. by apply (child_node_inj m2).
Qed.

Lemma gate_node i :
  (i < length (selected b m2))%nat → nodes !!! i = child_node (selected b m2 !!! i).
Proof using H. intros Hi. exact (list_lookup_total_fmap child_node (selected b m2) i Hi). Qed.

(** Coefficients by position as coefficients by child. *)
Lemma selected_coeffs (x : nat → F) :
  ∃ y : nat → F, ∀ i, (i < length (selected b m2))%nat → y (selected b m2 !!! i) = x i.
Proof using H.
  exists (λ k, match list_find (λ k', k' = k) (selected b m2) with Some (i, _) => x i | None => 0 end).
  intros i Hi. assert (list_find (λ k', k' = selected b m2 !!! i) (selected b m2)
    = Some (i, selected b m2 !!! i)) as ->; [|done].
  apply list_find_Some. split_and!; [by apply list_lookup_lookup_total_lt|done|].
  intros j y Hy Hj ->. assert (j = i); [|lia].
  apply (NoDup_lookup (selected b m2) j i _ (NoDup_selected _ _) Hy).
  by apply list_lookup_lookup_total_lt.
Qed.

Lemma gate_combine t :
  (t ≤ length (selected b m2))%nat →
  ∃ y : nat → F, ∀ e, (e < t)%nat →
    rsum m2 (λ k, if b k then y k * rpow (child_node k) e else 0) = if decide (e = 0%nat) then 1 else 0.
Proof using Hm.
  intros Ht. destruct (selected_coeffs (lagrange_at nodes 0)) as [y Hy]. exists y.
  intros e He. rewrite <-(rsum_selected b m2 (λ k, y k * rpow (child_node k) e)).
  transitivity (rpow (0 : F) e).
  - rewrite <-(lagrange_formula_pow nodes e 0 gate_nodes_NoDup); rewrite gate_nodes_length; [|lia].
    apply rsum_ext. intros i Hi. by rewrite Hy, gate_node.
  - case_decide as He0; [by subst|]. by apply rpow_of_0.
Qed.

Lemma gate_cut t c :
  (length (selected b m2) < t)%nat →
  ∃ y : nat → F, ∀ k, (k < m2)%nat → b k = true →
    c + rsum (t - 1) (λ e, rpow (child_node k) (S e) * y e) = 0.
Proof using Hm.
  intros Ht. set (p := root_poly nodes). set (c0 := Polynomial.Eval p 0).
  assert (c0 ≠ 0) as Hc0.
  { unfold c0, p. rewrite root_poly_eval. apply rprod_ne_0. intros i Hi.
    rewrite gate_nodes_length in Hi. rewrite gate_node by done. intros E%rsub_0. symmetry in E.
    revert E. apply (child_node_ne_0 m2); [done|]. by apply selected_lookup. }
  set (p' := Polynomial.ScalarMul p (inv0 c0 * c)).
  exists (λ e, p' !!! S e). intros k Hk Hb.
  destruct (selected_index b m2 k Hb Hk) as (i & Hi & Hik).
  transitivity (Polynomial.Eval p' (child_node k)).
  - rewrite <-(Eval_long p' (child_node k) (S (t - 1))).
    + rewrite rsum_head, rpow_0. f_equal. unfold p'. rewrite ScalarMul_coef, <-Eval_0. fold c0.
      transitivity ((inv0 c0 * c0) * c); [rewrite inv0_l by done; ring|ring].
    + unfold p', Polynomial.ScalarMul, p. rewrite length_fmap, root_poly_length, gate_nodes_length. lia.
  - unfold p'. rewrite Eval_ScalarMul. unfold p. rewrite root_poly_eval.
    rewrite (rprod_0 _ _ i); [ring|by rewrite gate_nodes_length|].
    rewrite gate_node by done. rewrite Hik. ring.
Qed.
End children.
End gate.

(** ** Replacing a row by a gate's children *)

Section expansion.
Context `{PrimeField F}.
Local Open Scope alg_scope.
Add Ring expansion_ring : (ring_laws (R:=F)).

(** The satisfied rows [b] of an [m]-row matrix combine to the target. *)
Definition row_span (b : nat → bool) (m d : nat) (A : nat → nat → F) : Prop :=
  ∃ x : nat → F, ∀ j, (j < d)%nat →
    rsum m (λ i, if b i then x i * A i j else 0) = if decide (j = 0%nat) then 1 else 0.

(** A vector orthogonal to the satisfied rows and not to the target. *)
Definition row_cut (b : nat → bool) (m d : nat) (A : nat → nat → F) : Prop :=
  ∃ k : nat → F, k 0%nat = 1 ∧
    ∀ i, (i < m)%nat → b i = true → rsum d (λ j, A i j * k j) = 0.

(** The row of the old frontier a new row comes from. *)
Definition source_row (z m2 i : nat) : nat :=
  if (i <? z)%nat then i else if (i <? z + m2)%nat then z else (i - m2 + 1)%nat.

Definition expanded_entry (A : nat → nat → F) (z m2 d i j : nat) : F :=
  if (j <? d)%nat then A (source_row z m2 i) j
  else if (z <=? i)%nat && (i <? z + m2)%nat then rpow (child_node (i - z)) (S (j - d)) else 0.

Context (z m2 rest d t : nat) (A A' : nat → nat → F) (b b' : nat → bool).
Context (Hd : (0 < d)%nat) (Ht : (0 < t)%nat) (Hm2 : (Z.of_nat m2 < order)%Z).
Context (HA : ∀ i j, (i < z + m2 + rest)%nat → (j < d + (t - 1))%nat →
  A' i j = expanded_entry A z m2 d i j).
Context (Hb : ∀ i, (i < z + m2 + rest)%nat → (z <= i < z + m2)%nat ∨ b' i = b (source_row z m2 i)).
Context (Hgate : b z = (t <=? length (selected (λ k, b' (z + k)%nat) m2))%nat).

Lemma expanded_before i j : (i < z)%nat → (j < d + (t - 1))%nat →
  b' i = b i ∧ A' i j = if (j <? d)%nat then A i j else 0.
Proof using All.
  intros Hi Hj. rewrite HA by lia. unfold expanded_entry.
  destruct (Hb i) as [?|E]; [lia|lia|]. rewrite E. unfold source_row.
  destruct (Nat.ltb_spec i z); [|lia]. split; [done|]. destruct (j <? d)%nat; [done|].
  by destruct (Nat.leb_spec z i); [lia|].
Qed.

Lemma expanded_child k j : (k < m2)%nat → (j < d + (t - 1))%nat →
  A' (z + k)%nat j = if (j <? d)%nat then A z j else rpow (child_node k) (S (j - d)).
Proof using All.
  intros Hk Hj. rewrite HA by lia. unfold expanded_entry, source_row.
  destruct (Nat.ltb_spec (z + k) z); [lia|]. destruct (Nat.ltb_spec (z + k) (z + m2)); [|lia].
  destruct (Nat.leb_spec z (z + k)); [|lia]. cbn [andb].
  by replace (z + k - z)%nat with k by lia.
Qed.

Lemma expanded_after i j : (i < rest)%nat → (j < d + (t - 1))%nat →
  b' (z + m2 + i)%nat = b (z + 1 + i)%nat ∧
  A' (z + m2 + i)%nat j = if (j <? d)%nat then A (z + 1 + i)%nat j else 0.
Proof using All.
  intros Hi Hj. rewrite HA by lia. unfold expanded_entry.
  destruct (Hb (z + m2 + i)%nat) as [?|E]; [lia|lia|]. rewrite E. unfold source_row.
  destruct (Nat.ltb_spec (z + m2 + i) z); [lia|].
  destruct (Nat.ltb_spec (z + m2 + i) (z + m2)); [lia|].
  replace (z + m2 + i - m2 + 1)%nat with (z + 1 + i)%nat by lia. split; [done|].
  destruct (j <? d)%nat; [done|]. by rewrite andb_false_r.
Qed.

(** Coefficients for the children, from the one of the gate. *)
Lemma expand_coeffs (xz : F) :
  ∃ y : nat → F, ∀ e, (e < t)%nat →
    rsum m2 (λ k, if b' (z + k)%nat then y k * rpow (child_node k) e else 0)
    = if decide (e = 0%nat) then (if b z then xz else 0) else 0.
Proof using All.
  rewrite Hgate. destruct (Nat.leb_spec t (length (selected (λ k, b' (z + k)%nat) m2))) as [Hle|_].
  - destruct (gate_combine m2 Hm2 _ t Hle) as [y Hy]. exists (λ k, xz * y k).
    intros e He. transitivity (xz * (if decide (e = 0%nat) then 1 else 0 : F)).
    + rewrite <-(Hy e He), rsum_mul_l. apply rsum_ext. intros k _.
      destruct (b' (z + k)%nat); ring.
    + case_decide; ring.
  - exists (λ _, 0). intros e _. rewrite rsum_0_ext; [by case_decide|].
    intros k _. destruct (b' (z + k)%nat); ring.
Qed.

Lemma expand_span : row_span b (z + 1 + rest) d A → row_span b' (z + m2 + rest) (d + (t - 1)) A'.
Proof using All.
  intros [x Hx]. destruct (expand_coeffs (x z)) as [y Hy].
  exists (λ i, if (i <? z)%nat then x i else if (i <? z + m2)%nat then y (i - z)%nat
               else x (i - m2 + 1)%nat).
  intros j Hj. rewrite !rsum_split.
  assert (∀ i, (i < z)%nat → (i <? z)%nat = true) as H1 by (intros; by apply Nat.ltb_lt).
  rewrite (rsum_ext z _ (λ i, if b i then x i * (if (j <? d)%nat then A i j else 0) else 0)).
  2:{ intros i Hi. destruct (expanded_before i j Hi Hj) as [-> ->]. by rewrite H1. }
  rewrite (rsum_ext m2 _ (λ k, if b' (z + k)%nat then
    y k * (if (j <? d)%nat then A z j else rpow (child_node k) (S (j - d))) else 0)).
  2:{ intros k Hk. rewrite expanded_child by done. destruct (Nat.ltb_spec (z + k) z); [lia|].
      destruct (Nat.ltb_spec (z + k) (z + m2)); [|lia]. by replace (z + k - z)%nat with k by lia. }
  rewrite (rsum_ext rest _ (λ i, if b (z + 1 + i)%nat then
    x (z + 1 + i)%nat * (if (j <? d)%nat then A (z + 1 + i)%nat j else 0) else 0)).
  2:{ intros i Hi. destruct (expanded_after i j Hi Hj) as [-> ->].
      destruct (Nat.ltb_spec (z + m2 + i) z); [lia|].
      destruct (Nat.ltb_spec (z + m2 + i) (z + m2)); [lia|].
      by replace (z + m2 + i - m2 + 1)%nat with (z + 1 + i)%nat by lia. }
  destruct (Nat.ltb_spec j d) as [Hjd|Hjd].
  - rewrite <-(Hx j Hjd), !rsum_split. cbn [big]. rewrite Nat.add_0_r. f_equal. f_equal.
    transitivity (A z j * rsum m2 (λ k, if b' (z + k)%nat then y k * rpow (child_node k) 0 else 0)).
    + rewrite rsum_mul_l. apply rsum_ext. intros k _. destruct (b' (z + k)%nat); [rewrite rpow_0|]; ring.
    + rewrite Hy, decide_True by done. destruct (b z); ring.
  - rewrite decide_False by lia.
    rewrite (rsum_0_ext z), (rsum_0_ext rest);
      [|intros i _; destruct (b (z + 1 + i)%nat); ring|intros i _; destruct (b i); ring].
    rewrite Hy, decide_False by lia. ring.
Qed.

Lemma expand_cut : row_cut b (z + 1 + rest) d A → row_cut b' (z + m2 + rest) (d + (t - 1)) A'.
Proof using All.
  intros (k & Hk0 & Hk). set (c := rsum d (λ j, A z j * k j)).
  assert (∃ y : nat → F, ∀ i, (i < m2)%nat → b' (z + i)%nat = true →
    c + rsum (t - 1) (λ e, rpow (child_node i) (S e) * y e) = 0) as [y Hy].
  { destruct (b z) eqn:Ebz.
    - exists (λ _, 0). intros i _ _. unfold c. rewrite (Hk z) by (lia || done).
      rewrite rsum_0_ext; [ring|]. intros; ring.
    - apply (gate_cut m2 Hm2 (λ k, b' (z + k)%nat)).
      symmetry in Hgate. by apply Nat.leb_gt in Hgate. }
  exists (λ j, if (j <? d)%nat then k j else y (j - d)%nat). split.
  { by destruct (Nat.ltb_spec 0 d); [|lia]. }
  intros i Hi Hbi. rewrite rsum_split.
  assert (∀ (B B0 : nat → F), (∀ j, (j < d + (t - 1))%nat → A' i j = if (j <? d)%nat then B j else B0 (j - d)%nat) →
    rsum d (λ j, B j * k j) + rsum (t - 1) (λ e, B0 e * y e) = 0 →
    rsum d (λ j, A' i j * (if (j <? d)%nat then k j else y (j - d)%nat)) +
    rsum (t - 1) (λ e, A' i (d + e)%nat * (if (d + e <? d)%nat then k (d + e)%nat else y (d + e - d)%nat)) = 0)
    as Hrow.
  { intros B B0 HB HB0. etransitivity; [|exact HB0]. f_equal; apply rsum_ext; intros j Hj; rewrite HB by lia.
    - by destruct (Nat.ltb_spec j d); [|lia].
    - destruct (Nat.ltb_spec (d + j) d); [lia|]. by replace (d + j - d)%nat with j by lia. }
  destruct (decide (i < z)%nat) as [Hiz|Hiz]; [|destruct (decide (i < z + m2)%nat) as [Him|Him]].
  - apply (Hrow (A i) (λ _, 0)); [intros j Hj; exact (proj2 (expanded_before i j Hiz Hj))|].
    rewrite (rsum_0_ext (t - 1)) by (intros; ring).
    destruct (expanded_before i 0) as [E _]; [done|lia|]. rewrite E in Hbi.
    rewrite Hk by (lia || done). ring.
  - replace i with (z + (i - z))%nat in * by lia. set (q := (i - z)%nat) in *.
    apply (Hrow (A z) (λ e, rpow (child_node q) (S e))); [intros j Hj; exact (expanded_child q j ltac:(lia) Hj)|].
    apply Hy; [lia|done].
  - replace i with (z + m2 + (i - z - m2))%nat in * by lia. set (q := (i - z - m2)%nat) in *.
    apply (Hrow (A (z + 1 + q)%nat) (λ _, 0)); [intros j Hj; exact (proj2 (expanded_after q j ltac:(lia) Hj))|].
    rewrite (rsum_0_ext (t - 1)) by (intros; ring).
    destruct (expanded_after q 0) as [E _]; [lia|lia|]. rewrite E in Hbi.
    rewrite Hk by (lia || done). ring.
Qed.
End expansion.

(** ** The loops of [convert] *)

Section loops.
Context `{PrimeField F}.
Local Open Scope alg_scope.
Import BoolExpr.
Context (leaves : nat).
Implicit Types (M : list F) (ls : list (option Node)) (i j r c a k : nat).

Lemma put_ok {A} (l : list A) i x : (i < length l)%nat → put l i x = Ok (<[i := x]> l).
Proof using. intros Hi. unfold put. by destruct (Nat.ltb_spec i (length l)); [|lia]. Qed.

Lemma get_ok {A} `{!Inhabited A} (l : list A) i : (i < length l)%nat → get l i = Ok (l !!! i).
Proof using. intros Hi. unfold get. by rewrite (list_lookup_lookup_total_lt l i Hi). Qed.

Definition cell M r c : F := M !!! idx leaves r c.

(** [M'] is [M] with the entries [a, a + k) of row [i] replaced by [f]. *)
Definition cols_written M M' i a k (f : nat → F) : Prop :=
  length M' = length M ∧ ∀ r c, (r < leaves)%nat → (c < leaves)%nat →
    cell M' r c = if decide (r = i ∧ a ≤ c < a + k)%nat then f c else cell M r c.

Lemma cell_insert M i j x r c :
  length M = (leaves * leaves)%nat →
  (i < leaves)%nat → (j < leaves)%nat → (r < leaves)%nat → (c < leaves)%nat →
  cell (<[idx leaves i j := x]> M) r c = if decide (r = i ∧ c = j) then x else cell M r c.
Proof using.
  intros HM Hi Hj Hr Hc. unfold cell. case_decide as E.
  - destruct E as [-> ->]. apply list_lookup_total_insert_eq. unfold idx. nia.
  - apply list_lookup_total_insert_ne. unfold idx. intros Hx. apply E.
    assert (r = i) by (destruct (Nat.lt_trichotomy r i) as [|[|]]; [nia|done|nia]). subst. lia.
Qed.

(** A loop over the columns whose [j]-th round writes [f j]; the extra state
    [x] is what the loop of the powers carries. *)
Lemma cols_loop {X} (body : list F * X → nat → result (list F * X)) (g : nat → X) (f : nat → F)
    i a k M :
  length M = (leaves * leaves)%nat → (i < leaves)%nat → (a + k ≤ leaves)%nat →
  (∀ M' j, length M' = (leaves * leaves)%nat → (j < k)%nat →
     (∀ r c, (r < leaves)%nat → (c < leaves)%nat → r ≠ i → cell M' r c = cell M r c) →
     (∀ c, (c < leaves)%nat → (c < a)%nat → cell M' i c = cell M i c) →
     body (M', g j) (a + j)%nat = Ok (<[idx leaves i (a + j) := f (a + j)%nat]> M', g (S j))) →
  ∃ M', foldM body (M, g 0%nat) (seq a k) = Ok (M', g k) ∧ cols_written M M' i a k f.
Proof using.
  intros HM Hi Hk Hbody. induction k as [|k IH].
  { exists M. split; [done|]. split; [done|]. intros r c _ _. by rewrite decide_False by lia. }
  destruct IH as (M' & E & Hl & Hw); [lia|intros; apply Hbody; auto|].
  rewrite seq_S, foldM_app, E. cbn [mbind result_bind foldM].
  rewrite Hbody; [|congruence|lia|..].
  - cbn [mbind result_bind]. eexists. split; [done|].
    split; [by rewrite length_insert|]. intros r c Hr Hc.
    rewrite cell_insert by (congruence || lia). rewrite Hw by done.
    repeat case_decide; try done; try lia. by destruct_and?; subst.
  - intros r c Hr Hc Hne. rewrite Hw by done. by rewrite decide_False by tauto.
  - intros c Hc Ha. rewrite Hw by done. by rewrite decide_False by lia.
Qed.

Lemma cols_written_ext M M' i a k f g :
  (∀ c, (a ≤ c < a + k)%nat → f c = g c) → cols_written M M' i a k f → cols_written M M' i a k g.
Proof using.
  intros Hfg [Hl Hw]. split; [done|]. intros r c Hr Hc. rewrite Hw by done.
  case_decide as E; [|done]. apply Hfg, E.
Qed.

Lemma foldM_unit {A B} (f : A → B → result A) (s s' : A) (l : list B) :
  foldM (λ '(x, _) y, x ← f x y; Ok (x, tt)) (s, tt) l = Ok (s', tt) → foldM f s l = Ok s'.
Proof using.
  revert s. induction l as [|y l IH]; intros s; cbn [foldM]; [by intros [= ->]|].
  destruct (f s y); cbn [mbind result_bind]; [apply IH|done..].
Qed.

Lemma copy_cols_ok bigM1 i src d1 M :
  length bigM1 = (leaves * leaves)%nat → length M = (leaves * leaves)%nat →
  (i < leaves)%nat → (src < leaves)%nat → (d1 ≤ leaves)%nat →
  ∃ M', copy_cols leaves bigM1 i src d1 M = Ok M' ∧ cols_written M M' i 0 d1 (cell bigM1 src).
Proof using.
  intros H1 HM Hi Hsrc Hd.
  destruct (cols_loop (λ '(M, _) j, M ← (x ← get bigM1 (idx leaves src j); put M (idx leaves i j) x);
    Ok (M, tt)) (λ _, tt) (cell bigM1 src) i 0 d1 M) as (M' & E & Hw); [done..| |].
  - intros M' j HM' Hj _ _. rewrite get_ok by (unfold idx; nia). cbn [mbind result_bind].
    rewrite put_ok by (unfold idx; nia). done.
  - exists M'. split; [|done]. apply foldM_unit. exact E.
Qed.

Lemma zero_cols_ok i d1 d2 M :
  length M = (leaves * leaves)%nat → (i < leaves)%nat → (d1 + Z.to_nat (d2 - 1) ≤ leaves)%nat →
  ∃ M', zero_cols leaves i d1 d2 M = Ok M' ∧
    cols_written M M' i d1 (Z.to_nat (d2 - 1)) (λ _, 0).
Proof using.
  intros HM Hi Hd.
  destruct (cols_loop (λ '(M, _) j, M ← put M (idx leaves i j) 0; Ok (M, tt))
    (λ _, tt) (λ _, 0) i d1 (Z.to_nat (d2 - 1)) M) as (M' & E & Hw); [done..| |].
  - intros M' j HM' Hj _ _. by rewrite put_ok by (unfold idx; nia).
  - exists M'. split; [|done]. apply foldM_unit. exact E.
Qed.

Lemma power_cols_ok i d1 d2 x M :
  length M = (leaves * leaves)%nat → (i < leaves)%nat → (d1 + Z.to_nat (d2 - 1) ≤ leaves)%nat →
  ∃ M', power_cols leaves i d1 d2 x M = Ok M' ∧
    cols_written M M' i d1 (Z.to_nat (d2 - 1)) (λ c, rpow x (S (c - d1))).
Proof using.
  intros HM Hi Hd. unfold power_cols.
  destruct (cols_loop (λ '(M, y) j, M ← put M (idx leaves i j) y; Ok (M, y * x))
    (λ e, rpow x (S e)) (λ c, rpow x (S (c - d1))) i d1 (Z.to_nat (d2 - 1)) M)
    as (M' & E & Hw); [done..| |].
  - intros M' j HM' Hj _ _. rewrite put_ok by (unfold idx; nia). cbn [mbind result_bind].
    by replace (d1 + j - d1)%nat with j by lia.
  - exists M'. split; [|done]. replace (rpow x 1) with x in E.
    + by rewrite E.
    + by rewrite rpow_S, rpow_0, rmul_1_l.
Qed.

(** [s'] is [s] with the frontier entries and matrix rows [a, a + k) replaced. *)
Definition rows_written (s s' : list (option Node) * list F) a k D
    (node : nat → option Node) (f : nat → nat → F) : Prop :=
  length s'.1 = leaves ∧ length s'.2 = (leaves * leaves)%nat ∧
  (∀ i, (i < leaves)%nat → s'.1 !!! i = if decide (a ≤ i < a + k)%nat then node i else s.1 !!! i) ∧
  ∀ r c, (r < leaves)%nat → (c < leaves)%nat →
    cell s'.2 r c = if decide ((a ≤ r < a + k)%nat ∧ (c < D)%nat) then f r c else cell s.2 r c.

Lemma rows_loop body a k D node f s :
  length s.1 = leaves → length s.2 = (leaves * leaves)%nat → (a + k ≤ leaves)%nat →
  (∀ s i, length s.1 = leaves → length s.2 = (leaves * leaves)%nat → (a ≤ i < a + k)%nat →
     ∃ s', body s i = Ok s' ∧ rows_written s s' i 1 D node f) →
  ∃ s', foldM body s (seq a k) = Ok s' ∧ rows_written s s' a k D node f.
Proof using.
  intros Hl HM Hk Hbody. induction k as [|k IH].
  { exists s. split; [done|]. split_and!; [done|done| |].
    - intros i Hi. by rewrite decide_False by lia.
    - intros r c Hr Hc. by rewrite decide_False by lia. }
  destruct IH as (s1 & E & H1 & H2 & H3 & H4); [lia|intros; apply Hbody; [done..|lia]|].
  destruct (Hbody s1 (a + k)%nat) as (s2 & E2 & G1 & G2 & G3 & G4); [done|done|lia|].
  rewrite seq_S, foldM_app, E. cbn [mbind result_bind foldM]. rewrite E2. cbn [mbind result_bind].
  exists s2. split; [done|]. split_and!; [done|done| |].
  - intros i Hi. rewrite G3, H3 by done. repeat case_decide; done || lia.
  - intros r c Hr Hc. rewrite G4, H4 by done. repeat case_decide; done || lia.
Qed.

Lemma row_combine (l : list (option Node)) M M1 M2 i n d1 k f g h :
  length l = leaves → length M = (leaves * leaves)%nat → (i < leaves)%nat →
  cols_written M M1 i 0 d1 f → cols_written M1 M2 i d1 k g →
  (∀ c, (c < d1 + k)%nat → h i c = if (c <? d1)%nat then f c else g c) →
  rows_written (l, M) (<[i := n i]> l, M2) i 1 (d1 + k) n h.
Proof using.
  intros Hl HM Hi [L1 W1] [L2 W2] Hh. split_and!; cbn.
  - by rewrite length_insert.
  - congruence.
  - intros i' Hi'. case_decide as E.
    + assert (i' = i) as -> by lia. apply list_lookup_total_insert_eq. lia.
    + apply list_lookup_total_insert_ne. lia.
  - intros r c Hr Hc. rewrite W2, W1 by done. case_decide as E.
    + assert (r = i) as -> by lia. rewrite decide_True by lia. rewrite Hh by lia.
      by destruct (Nat.ltb_spec c d1); [lia|].
    + repeat case_decide; try done; try lia. destruct_and?. subst. rewrite Hh by lia.
      by destruct (Nat.ltb_spec c d1); [|lia].
Qed.

Lemma keep_row_ok l1 bigM1 d1 d2 i src s node h :
  length l1 = leaves → length bigM1 = (leaves * leaves)%nat →
  length s.1 = leaves → length s.2 = (leaves * leaves)%nat →
  (i < leaves)%nat → (src < leaves)%nat → (d1 + Z.to_nat (d2 - 1) ≤ leaves)%nat →
  node i = l1 !!! src →
  (∀ c, (c < d1 + Z.to_nat (d2 - 1))%nat → h i c = if (c <? d1)%nat then cell bigM1 src c else 0) →
  ∃ s', keep_row leaves l1 bigM1 d1 d2 i src s = Ok s' ∧
    rows_written s s' i 1 (d1 + Z.to_nat (d2 - 1)) node h.
Proof using.
  intros Hl1 HM1 Hl HM Hi Hsrc Hd Hnode Hh. destruct s as [l M]. cbn in Hl, HM. unfold keep_row.
  rewrite get_ok by lia. cbn [mbind result_bind]. rewrite put_ok by lia. cbn [mbind result_bind].
  rewrite <-Hnode. destruct (copy_cols_ok bigM1 i src d1 M) as (M2 & -> & W1); [done|done|done|done|lia|].
  cbn [mbind result_bind]. pose proof W1 as [L1 _].
  destruct (zero_cols_ok i d1 d2 M2) as (M3 & -> & W2); [congruence|done|done|].
  cbn [mbind result_bind]. eexists. split; [done|].
  by apply (row_combine l M M2 M3 i node d1 _ (cell bigM1 src) (λ _, 0)).
Qed.

Lemma child_row_ok bigM1 fz z d1 d2 i s h :
  length bigM1 = (leaves * leaves)%nat →
  length s.1 = leaves → length s.2 = (leaves * leaves)%nat →
  (z ≤ i < z + length (children fz))%nat → (i < leaves)%nat →
  (d1 + Z.to_nat (d2 - 1) ≤ leaves)%nat →
  (∀ c, (c < d1 + Z.to_nat (d2 - 1))%nat →
     h i c = if (c <? d1)%nat then cell bigM1 z c else rpow (child_node (i - z)) (S (c - d1))) →
  ∃ s', child_row leaves bigM1 fz z d1 d2 i s = Ok s' ∧
    rows_written s s' i 1 (d1 + Z.to_nat (d2 - 1)) (λ i, children fz !!! (i - z)%nat) h.
Proof using.
  intros HM1 Hl HM Hz Hi Hd Hh. destruct s as [l M]. cbn in Hl, HM. unfold child_row.
  rewrite get_ok by lia. cbn [mbind result_bind]. rewrite put_ok by lia. cbn [mbind result_bind].
  destruct (copy_cols_ok bigM1 i z d1 M) as (M2 & -> & W1); [done|done|done|lia|lia|].
  cbn [mbind result_bind]. pose proof W1 as [L1 _].
  assert (radd (rsub (from_uint64 (Z.of_nat i)) (from_uint64 (Z.of_nat z))) rone
    = (child_node (i - z) : F)) as ->.
  { unfold child_node. rewrite from_uint64_add, from_uint64_1. f_equal.
    rewrite Nat2Z.inj_sub by lia. symmetry. apply from_uint64_sub. }
  cbv zeta.
  destruct (power_cols_ok i d1 d2 (child_node (i - z)) M2) as (M3 & -> & W2); [congruence|done|done|].
  cbn [mbind result_bind]. eexists. split; [done|].
  by apply (row_combine l M M2 M3 i (λ i, children fz !!! (i - z)%nat) d1 _ (cell bigM1 z)
    (λ c, rpow (child_node (i - z)) (S (c - d1)))).
Qed.
End loops.

(** ** The frontier *)

Section frontier.
Context `{PrimeField F}.
Local Open Scope alg_scope.
Import BoolExpr.
Context (leaves : nat).
Implicit Types (st : conv (F:=F)) (ns kids : list Node) (z i j : nat) (S : gset ID).

(** [ns] is the frontier held by the state. *)
Record frontier st ns : Prop := {
  fr_m : cm st = length ns;
  fr_l : length (l st) = leaves;
  fr_M : length (bigM st) = (leaves * leaves)%nat;
  fr_nodes : ∀ i, (i < length ns)%nat → l st !!! i = Some (ns !!! i);
  fr_d : (0 < cd st ≤ cm st)%nat;
  fr_size : (cm st ≤ leaves)%nat;
}.

Definition expand_ns ns z kids : list Node := take z ns ++ kids ++ drop (S z) ns.

Lemma expand_ns_length ns z kids :
  (z < length ns)%nat → length (expand_ns ns z kids) = (length ns + length kids - 1)%nat.
Proof using. intros Hz. unfold expand_ns. rewrite !length_app, length_take, length_drop. lia. Qed.

Lemma expand_ns_lookup ns z kids i :
  (z < length ns)%nat → (i < length ns + length kids - 1)%nat →
  expand_ns ns z kids !!! i =
    if decide (z ≤ i < z + length kids)%nat then kids !!! (i - z)%nat
    else ns !!! (source_row z (length kids) i).
Proof using.
  intros Hz Hi. unfold expand_ns, source_row.
  assert (length (take z ns) = z) as Hl by (rewrite length_take; lia).
  case_decide as E.
  - rewrite lookup_total_app_r by lia. rewrite Hl. apply lookup_total_app_l. lia.
  - destruct (Nat.ltb_spec i z).
    + rewrite lookup_total_app_l by lia. rewrite !list_lookup_total_alt. by rewrite lookup_take_lt by lia.
    + destruct (Nat.ltb_spec i (z + length kids)); [lia|].
      rewrite lookup_total_app_r by lia. rewrite Hl, lookup_total_app_r by lia.
      rewrite !list_lookup_total_alt, lookup_drop. do 2 f_equal. lia.
Qed.

Lemma expand_ok st ns z a t kids :
  frontier st ns → (z < length ns)%nat →
  ns !!! z = mkNode gate a t (Some <$> kids) → (0 < t ≤ Z.of_nat (length kids))%Z →
  (length ns + length kids - 1 ≤ leaves)%nat →
  ∃ st', expand leaves st z = Ok st' ∧ frontier st' (expand_ns ns z kids) ∧
    cd st' = (cd st + (Z.to_nat t - 1))%nat ∧
    ∀ i j, (i < cm st')%nat → (j < cd st')%nat →
      cell leaves (bigM st') i j
      = expanded_entry (cell leaves (bigM st)) z (length kids) (cd st) i j.
Proof using.
  intros [Hm Hl HM Hn Hd Hs] Hz Hnz Ht Hsz. destruct st as [M1 l1 m1 d1]. cbn in *. subst m1.
  unfold expand. rewrite get_ok by lia. cbn [mbind result_bind].
  rewrite Hn by done. cbn [deref mbind result_bind]. rewrite Hnz. cbn [children threshold].
  rewrite length_fmap. cbv zeta. set (m2 := length kids) in *.
  assert (Z.to_nat (t - 1) = Z.to_nat t - 1)%nat as Ht' by lia.
  assert (0 < m2)%nat as Hm2 by lia.
  set (ent := expanded_entry (cell leaves M1) z m2 d1).
  destruct (rows_loop leaves (λ s i, keep_row leaves l1 M1 d1 t i i s) 0 z (d1 + Z.to_nat (t - 1))
    (λ i, l1 !!! i) ent (l1, M1)) as (s1 & -> & L1 & N1 & G1 & C1); [done|done|lia| |].
  { intros s i Hsl HsM Hi. destruct (keep_row_ok leaves l1 M1 d1 t i i s (λ i, l1 !!! i) ent)
      as (s' & ? & ?); [done|done|done|done|lia|lia|lia|done| |by exists s'].
    intros c Hc. unfold ent, expanded_entry, source_row. destruct (Nat.ltb_spec i z); [|lia].
    destruct (c <? d1)%nat; [done|]. by destruct (Nat.leb_spec z i); [lia|]. }
  cbn [mbind result_bind].
  destruct (rows_loop leaves (λ s i, child_row leaves M1 (mkNode gate a t (Some <$> kids)) z d1 t i s)
    z m2 (d1 + Z.to_nat (t - 1)) (λ i, (Some <$> kids) !!! (i - z)%nat) ent s1)
    as (s2 & -> & L2 & N2 & G2 & C2); [done|done|lia| |].
  { intros s i Hsl HsM Hi.
    destruct (child_row_ok leaves M1 (mkNode gate a t (Some <$> kids)) z d1 t i s ent)
      as (s' & ? & ?); [done|done|done|cbn; rewrite length_fmap; lia|lia|lia| |by exists s'].
    intros c Hc. unfold ent, expanded_entry, source_row.
    destruct (Nat.ltb_spec i z); [lia|]. destruct (Nat.ltb_spec i (z + m2)); [|lia].
    by destruct (Nat.leb_spec z i); [|lia]. }
  cbn [mbind result_bind].
  destruct (rows_loop leaves (λ s i, keep_row leaves l1 M1 d1 t i (i - m2 + 1) s) (z + m2)
    (length ns + m2 - 1 - (z + m2)) (d1 + Z.to_nat (t - 1))
    (λ i, l1 !!! (i - m2 + 1)%nat) ent s2) as (s3 & -> & L3 & N3 & G3 & C3); [done|done|lia| |].
  { intros s i Hsl HsM Hi.
    destruct (keep_row_ok leaves l1 M1 d1 t i (i - m2 + 1) s (λ i, l1 !!! (i - m2 + 1)%nat) ent)
      as (s' & ? & ?); [done|done|done|done|lia|lia|lia|done| |by exists s'].
    intros c Hc. unfold ent, expanded_entry, source_row.
    destruct (Nat.ltb_spec i z); [lia|]. destruct (Nat.ltb_spec i (z + m2)); [lia|].
    destruct (c <? d1)%nat; [done|]. by rewrite andb_false_r. }
  cbn [mbind result_bind]. destruct s3 as [l3 M3]. cbn [fst snd] in *.
  eexists. split; [done|]. cbn [cd cm bigM l].
  replace (Z.to_nat (Z.of_nat d1 + t - 1)) with (d1 + (Z.to_nat t - 1))%nat by lia.
  split; [split; cbn [cd cm bigM l]; rewrite ?expand_ns_length by done; try done; try lia|split; [done|]].
  - intros i Hi. rewrite expand_ns_lookup by done. fold m2. rewrite G3, G2, G1 by lia.
    unfold source_row. repeat case_decide; try lia.
    + destruct (Nat.ltb_spec i z); [lia|]. destruct (Nat.ltb_spec i (z + m2)); [lia|]. apply Hn. lia.
    + by rewrite (list_lookup_total_fmap Some kids (i - z)) by lia.
    + destruct (Nat.ltb_spec i z); [|lia]. apply Hn. lia.
  - intros i j Hi Hj. rewrite C3, C2, C1 by lia. repeat case_decide; done || lia.
Qed.

Lemma find_gate_ok st ns js :
  frontier st ns → (∀ i, i ∈ js → (i < length ns)%nat) →
  (∃ z, find_gate (l st) js = Ok (Some z) ∧ z ∈ js ∧ kind (ns !!! z) = gate) ∨
  (find_gate (l st) js = Ok None ∧ ∀ i, i ∈ js → kind (ns !!! i) ≠ gate).
Proof using.
  intros [Hm Hl HM Hn Hd Hs] Hjs. induction js as [|i js IH].
  { right. split; [done|]. by intros i ?%not_elem_of_nil. }
  assert (i < length ns)%nat as Hi by (apply Hjs; constructor).
  cbn [find_gate]. rewrite get_ok by lia. cbn [mbind result_bind]. rewrite Hn by done.
  cbn [deref mbind result_bind]. case_bool_decide as Hk.
  - left. exists i. split; [done|]. split; [constructor|done].
  - destruct IH as [(z & -> & Hz & Hkz)|[-> Hno]]; [intros i' Hi'; apply Hjs; by constructor|left|right].
    + exists z. split; [done|]. split; [by constructor|done].
    + split; [done|]. intros i' [->|Hi']%elem_of_cons; [done|by apply Hno].
Qed.

Lemma ns_split ns z : (z < length ns)%nat → ns = take z ns ++ ns !!! z :: drop (S z) ns.
Proof using. intros Hz. symmetry. apply take_drop_middle. by apply list_lookup_lookup_total_lt. Qed.

Lemma expand_ns_leaves ns z a t kids :
  (z < length ns)%nat → ns !!! z = mkNode gate a t (Some <$> kids) →
  concat (leaf_ids <$> expand_ns ns z kids) = concat (leaf_ids <$> ns).
Proof using.
  intros Hz Hnz. rewrite (ns_split ns z Hz) at 2. unfold expand_ns.
  rewrite !fmap_app, !concat_app, fmap_cons, Hnz. cbn [concat]. by rewrite leaf_ids_gate.
Qed.

Lemma count_gates_gate a t kids :
  count_gates (mkNode gate a t (Some <$> kids)) = Datatypes.S (sum_list (count_gates <$> kids)).
Proof using. cbn [count_gates]. by rewrite (map_Some count_gates 0%nat). Qed.

Definition gates ns : nat := sum_list (count_gates <$> ns).

Lemma expand_ns_gates ns z a t kids :
  (z < length ns)%nat → ns !!! z = mkNode gate a t (Some <$> kids) →
  Datatypes.S (gates (expand_ns ns z kids)) = gates ns.
Proof using.
  intros Hz Hnz. rewrite (ns_split ns z Hz) at 2. unfold expand_ns, gates.
  rewrite !fmap_app, fmap_cons, Hnz, !sum_list_with_app, count_gates_gate. cbn [sum_list_with id]. lia.
Qed.

Definition evals S ns (i : nat) : bool := treeEval S (ns !!! i).

Lemma expand_ns_wf ns z kids :
  (∀ c, c ∈ ns → wf_node c) → (∀ c, c ∈ kids → wf_node c) →
  ∀ c, c ∈ expand_ns ns z kids → wf_node c.
Proof using.
  intros Hns Hk c. unfold expand_ns. rewrite !elem_of_app.
  intros [Hc|[Hc|Hc]]; [apply Hns|by apply Hk|apply Hns].
  - rewrite <-(take_drop z ns), elem_of_app. by left.
  - rewrite <-(take_drop (Datatypes.S z) ns), elem_of_app. by right.
Qed.

(** One round of the loop keeps the coalition's span and separator. *)
Lemma expand_semantics st st' ns z a t kids S :
  frontier st ns → frontier st' (expand_ns ns z kids) → (z < length ns)%nat →
  ns !!! z = mkNode gate a t (Some <$> kids) → (0 < t ≤ Z.of_nat (length kids))%Z →
  (Z.of_nat (length kids) < order)%Z → cd st' = (cd st + (Z.to_nat t - 1))%nat →
  (∀ i j, (i < cm st')%nat → (j < cd st')%nat →
     cell leaves (bigM st') i j = expanded_entry (cell leaves (bigM st)) z (length kids) (cd st) i j) →
  (row_span (evals S ns) (cm st) (cd st) (cell leaves (bigM st)) →
   row_span (evals S (expand_ns ns z kids)) (cm st') (cd st') (cell leaves (bigM st'))) ∧
  (row_cut (evals S ns) (cm st) (cd st) (cell leaves (bigM st)) →
   row_cut (evals S (expand_ns ns z kids)) (cm st') (cd st') (cell leaves (bigM st'))).
Proof using.
  intros Hf Hf' Hz Hnz Ht Ho Hcd Hcell. pose proof (fr_d _ _ Hf) as Hd.
  rewrite (fr_m _ _ Hf), (fr_m _ _ Hf'), Hcd in *. rewrite expand_ns_length in * by done.
  set (rest := (length ns - 1 - z)%nat).
  replace (length ns + length kids - 1)%nat with (z + length kids + rest)%nat in * by lia.
  assert (length ns = (z + 1 + rest)%nat) as Hlen by lia.
  assert (∀ i, (i < z + length kids + rest)%nat → (z <= i < z + length kids)%nat ∨
    evals S (expand_ns ns z kids) i = evals S ns (source_row z (length kids) i)) as Hb.
  { intros i Hi. unfold evals. rewrite expand_ns_lookup by lia. case_decide; [by left|by right]. }
  assert (evals S ns z = (Z.to_nat t <=? length (selected
    (λ k, evals S (expand_ns ns z kids) (z + k)) (length kids)))%nat) as Hgate.
  { unfold evals. rewrite Hnz, treeEval_gate.
    assert (selected (λ k, treeEval S (expand_ns ns z kids !!! (z + k)%nat)) (length kids)
      = selected (λ k, treeEval S (kids !!! k)) (length kids)) as ->.
    { unfold selected. apply filter_iff_in. intros k Hk%elem_of_seq.
      rewrite expand_ns_lookup, decide_True by lia. by replace (z + k - z)%nat with k by lia. }
    apply eq_true_iff_eq. rewrite Z.leb_le, Nat.leb_le. lia. }
  rewrite Hlen. split; [apply expand_span|apply expand_cut]; done || lia.
Qed.

Lemma convert_loop_ok fuel st ns :
  frontier st ns → (∀ c, c ∈ ns → wf_node c) →
  length (concat (leaf_ids <$> ns)) = leaves → (gates ns < fuel)%nat →
  (Z.of_nat leaves < order)%Z →
  ∃ st' ns', convert_loop leaves fuel st = Ok st' ∧ frontier st' ns' ∧
    (∀ c, c ∈ ns' → wf_node c ∧ kind c ≠ gate) ∧
    concat (leaf_ids <$> ns') = concat (leaf_ids <$> ns) ∧
    ∀ S, (row_span (evals S ns) (cm st) (cd st) (cell leaves (bigM st)) →
          row_span (evals S ns') (cm st') (cd st') (cell leaves (bigM st'))) ∧
         (row_cut (evals S ns) (cm st) (cd st) (cell leaves (bigM st)) →
          row_cut (evals S ns') (cm st') (cd st') (cell leaves (bigM st'))).
Proof using.
  revert st ns. induction fuel as [|fuel IH]; intros st ns Hf Hwf Hleaves Hfuel Ho; [lia|].
  cbn [convert_loop].
  destruct (find_gate_ok st ns (seq 0 (cm st)) Hf) as [(z & -> & Hz & Hk)|[-> Hno]].
  { intros i Hi%elem_of_seq. rewrite <-(fr_m _ _ Hf). lia. }
  - cbn [mbind result_bind]. apply elem_of_seq in Hz. rewrite (fr_m _ _ Hf) in Hz.
    assert (wf_node (ns !!! z)) as Hwz by (apply Hwf, list_elem_of_lookup_total_2; lia).
    destruct (ns !!! z) as [k a t cs] eqn:Enz. cbn in Hk. subst k.
    inversion Hwz as [|a' t' kids Ht Hnd Hkids Ea]; clear Hwz; subst.
    assert (length (expand_ns ns z kids) ≤ leaves)%nat as Hlen.
    { rewrite <-Hleaves, <-(expand_ns_leaves ns z a t kids) by (lia || done).
      apply concat_length_ge, expand_ns_wf; done. }
    rewrite expand_ns_length in Hlen by lia.
    destruct (expand_ok st ns z a t kids Hf) as (st1 & -> & Hf1 & Hd1 & Hc1); [lia|done..|].
    cbn [mbind result_bind].
    destruct (IH st1 (expand_ns ns z kids)) as (st' & ns' & -> & Hf' & Hns' & Hl' & Hsem);
      [done|by apply expand_ns_wf| | |done|].
    + rewrite <-Hleaves. f_equal. apply (expand_ns_leaves ns z a t kids); [lia|done].
    + assert (Datatypes.S (gates (expand_ns ns z kids)) = gates ns); [|lia].
      apply (expand_ns_gates ns z a t kids); [lia|done].
    + exists st', ns'. do 3 (split; [done|]). split.
      { rewrite Hl'. apply (expand_ns_leaves ns z a t kids); [lia|done]. }
      intros S. destruct (expand_semantics st st1 ns z a t kids S Hf Hf1) as [H1 H2];
        [lia|done|done|lia|done|done|]. destruct (Hsem S) as [H3 H4]. auto.
  - cbn [mbind result_bind]. exists st, ns. split; [done|]. split; [done|]. split; [|done].
    intros c Hc. split; [by apply Hwf|].
    apply list_elem_of_lookup_total_1 in Hc as (i & Hi & <-). apply Hno.
    apply elem_of_seq. rewrite (fr_m _ _ Hf). lia.
Qed.
End frontier.

(** ** The result of [convert] *)

Section convert_result.
Context `{PrimeField F}.
Local Open Scope alg_scope.
Import BoolExpr.
Implicit Types (ns : list Node) (nd : Node) (S : gset ID).

Lemma collect_labels_ok (pre : list ID) ns :
  (∀ c, c ∈ ns → kind c = attribute) →
  foldM collect_labels (pre ++ replicate (length ns) 0%N)
    (imap (λ i, pair (length pre + i)%nat) (Some <$> ns)) = Ok (pre ++ (attr <$> ns)).
Proof.
  revert pre. induction ns as [|c ns IH]; intros pre Hns; [done|].
  cbn [fmap list_fmap imap foldM]. unfold collect_labels at 2. cbn [deref mbind result_bind].
  rewrite bool_decide_true by (apply Hns; constructor).
  rewrite put_ok by (rewrite length_app, length_replicate; cbn; lia). cbn [mbind result_bind].
  rewrite Nat.add_0_r. cbn [length replicate]. rewrite insert_app_r_alt, Nat.sub_diag by lia.
  cbn [insert list_insert]. rewrite cons_middle, (cons_middle (attr c)), !app_assoc.
  rewrite <-IH by (intros c' Hc'; apply Hns; by constructor). f_equal.
  apply imap_ext. intros i x _. cbn. rewrite length_app. cbn. f_equal. lia.
Qed.

Lemma frontier_nodes leaves (st : conv (F:=F)) ns :
  frontier leaves st ns → length ns = leaves → l st = Some <$> ns.
Proof.
  intros Hf Hl. apply list_eq_total; [by rewrite length_fmap, (fr_l _ _ _ Hf)|].
  rewrite (fr_l _ _ _ Hf), <-Hl. intros i Hi. rewrite (fr_nodes _ _ _ Hf) by done.
  by rewrite (list_lookup_total_fmap Some ns i).
Qed.

Lemma leaf_frontier ns :
  (∀ c, c ∈ ns → wf_node c ∧ kind c ≠ gate) →
  (∀ c, c ∈ ns → kind c = attribute) ∧ concat (leaf_ids <$> ns) = attr <$> ns ∧
  ∀ S i, (i < length ns)%nat → evals S ns i = bool_decide ((attr <$> ns) !!! i ∈ S).
Proof.
  intros Hns.
  assert (∀ c, c ∈ ns → kind c = attribute ∧ leaf_ids c = [attr c] ∧
    ∀ S, treeEval S c = bool_decide (attr c ∈ S)) as Hc.
  { intros c [Hw Hk]%Hns. by destruct Hw. }
  split; [by apply Hc|]. split.
  - clear Hns. induction ns as [|c ns IH]; [done|]. cbn [fmap list_fmap concat].
    rewrite (proj1 (proj2 (Hc c (list_elem_of_here _ _)))). cbn. f_equal. apply IH.
    intros c' Hc'. apply Hc. by constructor.
  - intros S i Hi. unfold evals. rewrite (list_lookup_total_fmap attr ns i) by done.
    apply Hc. by apply list_elem_of_lookup_total_2.
Qed.

(** The loop from the initial state. *)
Lemma convert_start nd leaves :
  wf_node nd → length (leaf_ids nd) = leaves → (Z.of_nat leaves < order)%Z →
  ∃ st ns, convert_loop leaves (Datatypes.S (count_gates nd))
      (mkConv (<[0%nat := 1]> (replicate (leaves * leaves) 0))
              (<[0%nat := Some nd]> (replicate leaves None)) 1 1) = Ok st ∧
    frontier leaves st ns ∧ (∀ c, c ∈ ns → wf_node c ∧ kind c ≠ gate) ∧
    concat (leaf_ids <$> ns) = leaf_ids nd ∧
    ∀ S, (treeEval S nd = true → row_span (evals S ns) (cm st) (cd st) (cell leaves (bigM st))) ∧
         (treeEval S nd = false → row_cut (evals S ns) (cm st) (cd st) (cell leaves (bigM st))).
Proof.
  intros Hw Hl Ho. pose proof (wf_leaves nd Hw) as Hpos. set (st0 := mkConv _ _ 1 1).
  assert (frontier leaves st0 [nd]) as Hf.
  { split; cbn; rewrite ?length_insert, ?length_replicate; try done; try lia.
    intros [|] Hi; [|lia]. apply list_lookup_total_insert_eq. rewrite length_replicate. lia. }
  assert (cell leaves (bigM st0) 0 0 = 1) as H00.
  { apply list_lookup_total_insert_eq. rewrite length_replicate. nia. }
  destruct (convert_loop_ok leaves (Datatypes.S (count_gates nd)) st0 [nd])
    as (st & ns & E & Hf' & Hns & Hc & Hsem); [done| | |unfold gates; cbn; lia|done|].
  { by intros c ->%list_elem_of_singleton. }
  { cbn. by rewrite app_nil_r. }
  exists st, ns. do 3 (split; [done|]). split; [by cbn in Hc; rewrite app_nil_r in Hc|].
  intros S. destruct (Hsem S) as [H1 H2]. split; intros Hev; [apply H1|apply H2].
  - exists (λ _, 1). intros j Hj. cbn [cm cd st0] in *. assert (j = 0%nat) as -> by lia.
    cbn [big]. assert (evals S [nd] 0 = true) as -> by done.
    rewrite H00, decide_True, rmul_1_l by done. apply radd_0_l.
  - exists (λ _, 1). split; [done|]. intros i Hi Hb. cbn [cm cd st0] in *.
    assert (i = 0%nat) as -> by lia. unfold evals in Hb. cbn in Hb. congruence.
Qed.

Lemma RowSlice_all (A : Matrix F) : wf A → (0 < m A)%nat → RowSlice A 0 (Z.of_nat (m A)) = Ok A.
Proof.
  intros HA Hm. unfold RowSlice. rewrite Z.ltb_irrefl, Z.ltb_irrefl. cbn [orb].
  destruct (Z.leb_spec (Z.of_nat (m A)) 0); [lia|]. rewrite Z.sub_0_r, Nat2Z.id.
  unfold wf in HA. rewrite <-HA. destruct A as [mA nA vA]. cbn [Matrix.m Matrix.n v].
  by rewrite drop_0, firstn_all.
Qed.

Lemma ColumnSlice_first (A : Matrix F) d :
  (0 < d ≤ n A)%nat → ColumnSlice A 0 (Z.of_nat d) = Ok (mk (m A) d (at_ A)).
Proof.
  intros Hd. unfold ColumnSlice. rewrite Z.ltb_irrefl. cbn [orb].
  destruct (Z.ltb_spec (Z.of_nat (n A)) (Z.of_nat d)); [lia|].
  destruct (Z.leb_spec (Z.of_nat d) 0); [lia|]. by rewrite Z.sub_0_r, Nat2Z.id.
Qed.

Lemma convert_ok nd sh :
  wf_node nd → (Z.of_nat (length (leaf_ids nd)) < order)%Z →
  ∃ A : Matrix F, convert (mkTGAS nd sh) = Ok (A, leaf_ids nd) ∧ wf A ∧
    m A = length (leaf_ids nd) ∧ (0 < n A)%nat ∧
    ∀ S, (treeEval S nd = true →
            row_span (λ i, bool_decide (leaf_ids nd !!! i ∈ S)) (m A) (n A) (at_ A)) ∧
         (treeEval S nd = false →
            row_cut (λ i, bool_decide (leaf_ids nd !!! i ∈ S)) (m A) (n A) (at_ A)).
Proof.
  intros Hw Ho. unfold convert, CountLeaves. cbn [root]. rewrite treeCountLeaves_spec. cbv zeta.
  set (leaves := length (leaf_ids nd)) in *. pose proof (wf_leaves nd Hw) as Hpos.
  rewrite put_ok by (rewrite length_replicate; nia). cbn [mbind result_bind].
  rewrite put_ok by (rewrite length_replicate; lia). cbn [mbind result_bind].
  destruct (convert_start nd leaves Hw eq_refl Ho) as (st & ns & -> & Hf & Hns & Hc & Hsem).
  cbn [mbind result_bind]. destruct (leaf_frontier ns Hns) as (Hk & Hattr & Hev).
  rewrite Hc in Hattr. assert (length ns = leaves) as Hln.
  { unfold leaves. by rewrite Hattr, length_fmap. }
  pose proof (frontier_nodes _ _ _ Hf Hln) as Hl. destruct Hf as [Hm _ HM _ Hd _].
  destruct st as [M ls ms ds]. cbn [cm cd l bigM] in *. subst ms ls.
  rewrite NewMatrixModule_ok by lia. cbn [mbind result_bind].
  rewrite NewRowMajor_ok by done. cbn [mbind result_bind]. set (B := mkMatrix leaves leaves M).
  rewrite Hln. change (Z.of_nat leaves) with (Z.of_nat (m B)).
  rewrite RowSlice_all by done. cbn [mbind result_bind].
  rewrite ColumnSlice_first by (cbn; lia). cbn [mbind result_bind].
  rewrite <-Hln. pose proof (collect_labels_ok [] ns Hk) as Hlab. cbn [app length Nat.add] in Hlab.
  change (imap pair (Some <$> ns)) with (imap (λ i, pair i) (Some <$> ns)).
  rewrite Hlab. cbn [mbind result_bind]. rewrite <-Hattr.
  eexists. split; [done|]. split; [apply wf_mk|]. split; [done|]. split; [cbn; lia|].
  cbn [Matrix.m Matrix.n mk]. intros S. destruct (Hsem S) as [Hs1 Hs2].
  assert (∀ i j, (i < leaves)%nat → (j < ds)%nat → at_ (mk leaves ds (at_ B)) i j = cell leaves M i j)
    as Hat by (intros i j Hi Hj; by rewrite at_mk).
  assert (∀ i, (i < leaves)%nat → evals S ns i = bool_decide (leaf_ids nd !!! i ∈ S)) as Hev'.
  { intros i Hi. rewrite Hev by lia. by rewrite <-Hattr. }
  rewrite Hln in *. split; intros Hb.
  - destruct (Hs1 Hb) as [x Hx]. exists x. intros j Hj. rewrite <-(Hx j Hj). apply rsum_ext.
    intros i Hi. rewrite Hev' by done. by rewrite Hat.
  - destruct (Hs2 Hb) as (k & Hk0 & Hx). exists k. split; [done|]. intros i Hi Hbi.
    etransitivity; [|apply (Hx i Hi); by rewrite Hev']. apply rsum_ext. intros j Hj. by rewrite Hat.
Qed.
End convert_result.

(** ** Properties *)

Section properties.
Context `{PrimeField F}.
Local Open Scope alg_scope.
Import BoolExpr.
Implicit Types (nd : Node) (ac : ThresholdGateAccessStructure) (ids : list ID).

(** The rows of a labelled programme a coalition owns, as the leaves it
    satisfies. *)
Lemma owned_leaf (M : MSP F) A (ls ids : list ID) i :
  labelled M A ls → (i < length ls)%nat → owned M ids i = bool_decide (ls !!! i ∈ id_set ids).
Proof.
  intros HM Hi. rewrite (labelled_owned M A ls) by done.
  apply bool_decide_ext. by rewrite id_set_elem.
Qed.

(** An empty coalition satisfies no tree. *)
Lemma treeEval_empty nd : wf_node nd → treeEval ∅ nd = false.
Proof.
  induction nd as [k a t cs IH] using Node_ind'. inversion 1 as [|? ? kids Ht Hnd Hk]; subst.
  { cbn. apply bool_decide_eq_false_2. set_solver. }
  rewrite treeEval_gate. apply Z.leb_gt.
  destruct (selected _ (length kids)) as [|k l] eqn:E; [cbn; lia|].
  assert (k ∈ selected (λ k, treeEval ∅ (kids !!! k)) (length kids)) as [Ht' Hk']%elem_of_selected
    by (rewrite E; constructor).
  assert (kids !!! k ∈ kids) as Hin by (by apply list_elem_of_lookup_total_2).
  rewrite IH in Ht'; [done|by apply list_elem_of_fmap_2|by apply Hk].
Qed.

(** [NewThresholdGateAccessStructure] accepts exactly the non-nil trees
    whose gates have a threshold between one and their number of children,
    distinct attribute children and well-formed children, and whose leaves are
    non-zero; the shareholders it records are the labels of the leaves. *)
Theorem NewTGAS_correct (node : option Node) ac :
  NewThresholdGateAccessStructure node = Ok ac ↔
  ∃ nd, node = Some nd ∧ wf_node nd ∧ ac = mkTGAS nd (list_to_set (leaf_ids nd)).
Proof.
  assert (∀ nd, allShareholders nd ∅ = list_to_set (leaf_ids nd)) as Hsh.
  { intros nd. by rewrite allShareholders_spec, union_empty_r_L. }
  unfold NewThresholdGateAccessStructure. destruct node as [nd|]; [|split; [done|by intros (? & ? & _)]].
  cbn [checkRoot]. split.
  - intros E. apply bind_ok in E as ([] & Hc%checkTree_spec & [= <-]). exists nd. by rewrite Hsh.
  - intros (nd' & [= <-] & Hw & ->). apply checkTree_spec in Hw. rewrite Hw. cbn. by rewrite Hsh.
Qed.

(** C17. For a constructed tree with fewer leaves than the field has elements,
    the loop of [convert] ends, the programme exists with one row per leaf,
    and it accepts exactly the coalitions of shareholders that satisfy the
    tree. *)
Theorem BoolExpr_InducedMSP_accepts (node : option Node) ac :
  NewThresholdGateAccessStructure node = Ok ac → (Z.of_nat (CountLeaves ac) < order)%Z →
  ∃ M : MSP F, InducedMSP (Some ac) = Ok M ∧ wf_msp M ∧ Size M = CountLeaves ac ∧
    MSP.Shareholders M = shareholders ac ∧
    ∀ ids, Accepts M ids = is_qualified ac ids && bool_decide (id_set ids ⊆ shareholders ac).
Proof.
  unfold NewThresholdGateAccessStructure. destruct node as [nd|]; [|done]. cbn [checkRoot].
  intros E Ho. apply bind_ok in E as ([] & Hw%checkTree_spec & [= <-]).
  unfold CountLeaves in *. cbn [root shareholders] in *. rewrite treeCountLeaves_spec in *.
  rewrite allShareholders_spec, union_empty_r_L.
  destruct (convert_ok nd (list_to_set (leaf_ids nd)) Hw Ho) as (A & HA & HwA & HmA & HnA & Hsem).
  unfold InducedMSP. rewrite HA. cbn [mbind result_bind].
  destruct (NewMSP_label_rows A (leaf_ids nd)) as (M & -> & HM); [done|by symmetry| |].
  { intros id. by apply wf_leaves_ids. }
  pose proof (labelled_wf _ _ _ HM) as Hwf. pose proof (labelled_matrix _ _ _ HM) as HMA.
  exists M. do 2 (split; [done|]). split; [unfold Size; by rewrite HMA|].
  split; [by apply labelled_shareholders in HM|].
  intros ids. unfold is_qualified. cbn [root].
  assert (known M ids = bool_decide (id_set ids ⊆ list_to_set (leaf_ids nd))) as Hknown.
  { apply eq_true_iff_eq. rewrite (labelled_known M A _ ids HM), bool_decide_eq_true.
    unfold id_set. set_solver. }
  destruct (Hsem (id_set ids)) as [Hspan Hcut]. destruct (treeEval (id_set ids) nd) eqn:Hev.
  - cbn [andb]. rewrite <-Hknown. destruct (known M ids) eqn:Hk.
    + apply Accepts_spec; [done|by rewrite HMA|]. split; [done|]. split.
      { intros ->. change (id_set []) with (∅ : gset ID) in Hev.
        by rewrite (treeEval_empty nd Hw) in Hev. }
      destruct (Hspan eq_refl) as [x Hx]. exists x. intros j Hj. rewrite HMA in Hj |- *.
      rewrite <-(Hx j Hj). apply rsum_ext. intros i Hi. by rewrite (owned_leaf M A (leaf_ids nd)) by (done || lia).
    + apply Accepts_false; [done|by rewrite HMA|by left].
  - cbn [andb]. apply Accepts_false; [done|by rewrite HMA|]. right. right.
    destruct (Hcut eq_refl) as (k & Hk0 & Hx). exists k. split; [done|].
    intros i Hi Hoi. rewrite HMA in Hi |- *.
    rewrite (owned_leaf M A (leaf_ids nd)) in Hoi by (done || lia). by apply Hx.
Qed.
End properties.

Definition ex_tree : BoolExpr.Node :=
  BoolExpr.Threshold 2 [Some (BoolExpr.NewID 1);
    Some (BoolExpr.And [Some (BoolExpr.NewID 2); Some (BoolExpr.NewID 3)]);
    Some (BoolExpr.Threshold 2 [Some (BoolExpr.NewID 1); Some (BoolExpr.NewID 4);
      Some (BoolExpr.NewID 5)])]%N.

Lemma NewTGAS_correct_witness :
  ∃ ac nd, BoolExpr.NewThresholdGateAccessStructure (Some ex_tree) = Ok ac ∧
    Some ex_tree = Some nd ∧ wf_node nd.
Proof.
  assert (∃ ac, BoolExpr.NewThresholdGateAccessStructure (Some ex_tree) = Ok ac) as [ac Hac]
    by (eexists; vm_compute; reflexivity).
  destruct (proj1 (NewTGAS_correct (Some ex_tree) ac) Hac) as (nd & E & Hw & _).
  by exists ac, nd.
Defined.

Lemma BoolExpr_InducedMSP_accepts_witness :
  ∃ ac (M : MSP fp101), BoolExpr.NewThresholdGateAccessStructure (Some ex_tree) = Ok ac ∧
    BoolExpr.InducedMSP (Some ac) = Ok M ∧
    Accepts M [1; 2; 3]%N = true ∧ Accepts M [4; 5; 2]%N = false.
Proof.
  assert (∃ ac, BoolExpr.NewThresholdGateAccessStructure (Some ex_tree) = Ok ac ∧
    (Z.of_nat (BoolExpr.CountLeaves ac) <? order (F:=fp101))%Z = true ∧
    (BoolExpr.is_qualified ac [1; 2; 3]%N &&
       bool_decide (id_set [1; 2; 3]%N ⊆ BoolExpr.shareholders ac)) = true ∧
    (BoolExpr.is_qualified ac [4; 5; 2]%N &&
       bool_decide (id_set [4; 5; 2]%N ⊆ BoolExpr.shareholders ac)) = false)
    as (ac & Hac & Ho & H1 & H2) by (eexists; split_and!; vm_compute; reflexivity).
  apply Z.ltb_lt in Ho.
  destruct (BoolExpr_InducedMSP_accepts (F:=fp101) _ ac Hac Ho) as (M & HM & _ & _ & _ & Hacc).
  exists ac, M. do 2 (split; [done|]). by rewrite !Hacc.
Defined.
