(* ===== verification/Additive.v ===== *)
(** * Additive sharing (scheme/additive/additive.go, internal/additive.go)

    [AdditiveShare] is the share type every linear scheme converts to.  The
    scheme deals all but one share at random and fixes the last one so that
    they add up to the secret; all shareholders are needed to reconstruct.
    The shareholders of the frozen hash set are listed in an order the code
    does not fix, an argument of [Deal]. *)

From Stdlib Require Import ZArith NArith Lia.
From S2P Require Import Prelude Algebra AlgebraUtils Poly MSP Access Threshold Unanimity.

Record AdditiveShare (E : Type) := mkAShare { aid : ID; av : E }.
Arguments mkAShare {E} aid av.
Arguments aid {E} _.
Arguments av {E} _.

#[export] Instance AdditiveShare_eq_dec `{EqDecision E} : EqDecision (AdditiveShare E).
Proof. solve_decision. Defined.

Module Additive.
(** ** Shares; [None] is a nil value *)

Definition NewAdditiveShare {E} (id : ID) (v : option E) : result (AdditiveShare E) :=
  match v with
  | None => Err ErrIsNil
  | Some v => if (id =? 0)%N then Err ErrIsNil else Ok (mkAShare id v)
  end.

(** [additive.NewShare]; a nil access structure is [None]. *)
Definition NewShare {E} (id : ID) (v : option E) (ac : option Unanimity.Unanimity) :
    result (AdditiveShare E) :=
  match ac with
  | Some ac =>
      if bool_decide (id ∉ Unanimity.ps ac) then Err ErrMembership else NewAdditiveShare id v
  | None => NewAdditiveShare id v
  end.

Section scheme.
Context `{GroupElement E}.
Implicit Types (s other : AdditiveShare E) (secret : E) (ac : Unanimity.Unanimity).

Definition Equal s other : bool := (aid s =? aid other)%N && bool_decide (av s = av other).
Definition Add s other : AdditiveShare E := mkAShare (aid s) (gop (av s) (av other)).
Definition Op s other : AdditiveShare E := Add s other.
Definition ScalarOp s (actorBytesBE : list N) : AdditiveShare E :=
  mkAShare (aid s) (scalarMul (av s) actorBytesBE).

(** [SumToSecret]: [l - 1] samples and the difference to the secret. *)
Definition SumToSecret {P} secret (sampler : P → result (E * P)) (prng : P) (l : Z) :
    result (list E * P) :=
  if (l <=? 0)%Z then Err ErrFailed
  else
    '(rs, prng) ← random_coeffs sampler (Z.to_nat l - 1) prng;
    let partial := foldl gop gid rs in
    Ok (rs ++ [gop secret (ginv partial)], prng).

(** [Deal] with the order in which the set lists the shareholders. *)
Definition Deal {P} ac (order : list ID) (secret : option E) (sampler : P → result (E * P))
    (prng : option P) : result (gmap ID (AdditiveShare E) * P) :=
  match prng, secret with
  | None, _ => Err ErrIsNil
  | _, None => Err ErrIsNil
  | Some prng, Some secret =>
      '(sharesList, prng) ← SumToSecret secret sampler prng (Z.of_nat (size (Unanimity.ps ac)));
      shares ← foldM (λ shares '(i, id),
          s ← NewShare id (sharesList !! i) (Some ac);
          Ok (<[id := s]> shares)) ∅ (imap pair order);
      Ok (shares, prng)
  end.

Definition DealRandom {P} ac (order : list ID) (sampler : P → result (E * P)) (prng : option P) :
    result (gmap ID (AdditiveShare E) * E * P) :=
  match prng with
  | None => Err ErrIsNil
  | Some prng =>
      '(value, prng) ← sampler prng;
      '(shares, prng) ← Deal ac order (Some value) sampler (Some prng);
      Ok (shares, value, prng)
  end.

(** A nil share is an error of [CollectIDs]. *)
Definition collect_ids (shares : list (option (AdditiveShare E))) : result (list ID) :=
  mapM (λ o, match o with None => Err ErrIsNil | Some sh => Ok (aid sh) end) shares.

(** [Reconstruct]: the shares have distinct IDs, so the hash set keeps them
    all; the group is commutative, so its order does not matter. *)
Definition Reconstruct ac (shares : list (option (AdditiveShare E))) : result E :=
  ids ← collect_ids shares;
  if negb (size (id_set ids) =? length ids) then Err ErrMembership
  else if negb (Unanimity.is_qualified ac ids) then Err ErrFailed
  else
    match omap id shares with
    | [] => Panic
    | first :: rest => Ok (av (foldl Add first rest))
    end.
End scheme.
End Additive.

(** ** Theory *)

Section theory.
Context `{GroupElement E}.
Local Open Scope alg_scope.
Implicit Types (shares : list (AdditiveShare E)) (secret : E) (ac : Unanimity.Unanimity).

Lemma foldl_Add first shares :
  av (foldl Additive.Add first shares) = av first ⊕ foldl gop gid (av <$> shares).
Proof.
  revert first. induction shares as [|s shares IH]; intros first; cbn [foldl fmap list_fmap].
  { symmetry. apply gop_gid_r. }
  rewrite IH. cbn [av Additive.Add]. rewrite gop_id_l, <-gop_assoc. f_equal.
  generalize (av <$> shares) as l. intros l. clear IH shares.
  assert (∀ a b, foldl gop (a ⊕ b) l = a ⊕ foldl gop b l) as Hf.
  { clear first s. induction l as [|x l IH]; intros a b; cbn; [done|]. by rewrite <-gop_assoc, IH. }
  by rewrite <-Hf, gop_gid_r.
Qed.

Lemma foldl_gop_app (l k : list E) (a : E) : foldl gop a (l ++ k) = foldl gop (foldl gop a l) k.
Proof. apply foldl_app. Qed.

Lemma foldl_gop_acc (l : list E) (a : E) : foldl gop a l = a ⊕ foldl gop gid l.
Proof.
  revert a. induction l as [|x l IH]; intros a; cbn; [symmetry; apply gop_gid_r|].
  rewrite IH, (IH (gid ⊕ x)), gop_id_l. by rewrite gop_assoc.
Qed.

Lemma foldl_gop_perm (l k : list E) : l ≡ₚ k → foldl gop gid l = foldl gop gid k.
Proof.
  induction 1 as [|x l k _ IH|x y l|l k j _ IH1 _ IH2]; [done|..].
  - cbn. by rewrite foldl_gop_acc, IH, <-foldl_gop_acc.
  - cbn. rewrite !gop_id_l. by rewrite (gop_comm x y).
  - congruence.
Qed.

Lemma foldl_gop_cons (x : E) (l : list E) : foldl gop gid (x :: l) = x ⊕ foldl gop gid l.
Proof. cbn. by rewrite gop_id_l, foldl_gop_acc. Qed.

Lemma random_coeffs_total {P} (sampler : P → result (E * P)) n prng :
  (∀ p, is_ok (sampler p) = true) → ∃ cs prng', random_coeffs sampler n prng = Ok (cs, prng').
Proof.
  intros Hok. revert prng. induction n as [|n IH]; intros prng; [by exists [], prng|]. cbn.
  destruct (proj1 (is_ok_true _) (Hok prng)) as [[c p1] ->]. cbn.
  destruct (IH p1) as (cs & p2 & ->). cbn. by eexists _, _.
Qed.

Lemma omap_Some_id {A} (l : list A) : omap id (Some <$> l) = l.
Proof. induction l as [|x l IH]; cbn in *; by rewrite ?IH. Qed.

Lemma SumToSecret_ok {P} secret (sampler : P → result (E * P)) prng l rs prng' :
  Additive.SumToSecret secret sampler prng l = Ok (rs, prng') →
  length rs = Z.to_nat l ∧ foldl gop gid rs = secret.
Proof.
  unfold Additive.SumToSecret. destruct (Z.leb_spec l 0) as [|Hl]; [done|]. intros E1.
  apply bind_ok in E1 as ([cs prng1] & Hr & [= <- <-]). apply random_coeffs_length in Hr.
  split; [rewrite length_app; cbn; lia|]. rewrite foldl_app. cbn.
  by rewrite gop_comm, <-gop_assoc, gop_inv_l, gop_gid_r.
Qed.

Lemma NewShare_ok (id : ID) (x : E) ac :
  id ∈ Unanimity.ps ac → id ≠ 0%N → Additive.NewShare id (Some x) (Some ac) = Ok (mkAShare id x).
Proof.
  intros Hid Hne. unfold Additive.NewShare. rewrite bool_decide_false by tauto.
  unfold Additive.NewAdditiveShare. by destruct (N.eqb_spec id 0).
Qed.

(** Dealing pairs the [i]-th listed shareholder with the [i]-th value. *)
Lemma deal_loop ac (values : list E) (order pre : list ID) (shares : gmap ID (AdditiveShare E)) :
  (∀ id, id ∈ order → id ∈ Unanimity.ps ac ∧ id ≠ 0%N) → length values = (length pre + length order)%nat →
  NoDup order → (∀ id, id ∈ order → shares !! id = None) →
  ∃ shares' : gmap ID (AdditiveShare E), foldM (λ (shares : gmap ID (AdditiveShare E)) '(i, id), s ← Additive.NewShare id (values !! i) (Some ac);
      Ok (<[id := s]> shares)) shares (imap (λ i, pair (length pre + i)%nat) order) = Ok shares' ∧
    (∀ i id, order !! i = Some id → shares' !! id = mkAShare id <$> values !! (length pre + i)%nat) ∧
    (∀ id, id ∉ order → shares' !! id = shares !! id).
Proof.
  revert pre shares. induction order as [|id order IH]; intros pre shares Hids Hl Hnd Hsh.
  { exists shares. by split. }
  apply NoDup_cons in Hnd as [Hid Hnd]. cbn [imap foldM].
  rewrite Nat.add_0_r. destruct (values !! length pre) as [x|] eqn:Ex.
  2:{ apply lookup_ge_None in Ex. cbn in Hl. lia. }
  destruct (Hids id (list_elem_of_here _ _)) as [Hin Hne].
  rewrite (NewShare_ok id x ac) by done. cbn [mbind result_bind].
  destruct (IH (pre ++ [id]) (<[id := mkAShare id x]> shares)) as (shares' & E1 & H1 & H2).
  - intros id' Hid'. apply Hids. by constructor.
  - rewrite length_app. cbn in *. lia.
  - done.
  - intros id' Hid'. rewrite lookup_insert_ne by (by intros ->). apply Hsh. by constructor.
  - exists shares'. rewrite length_app in E1, H1. cbn in E1, H1. split; [|split].
    + rewrite <-E1. f_equal. apply imap_ext. intros i y _. cbn. f_equal. lia.
    + intros [|i] id' Hi; cbn in Hi.
      * injection Hi as <-. rewrite Nat.add_0_r, Ex. rewrite H2 by done. by rewrite lookup_insert_eq.
      * rewrite (H1 i id' Hi). do 2 f_equal. lia.
    + intros id' Hid'. apply not_elem_of_cons in Hid' as [Hne' Hid'].
      rewrite H2 by done. by rewrite lookup_insert_ne.
Qed.
End theory.

(** ** Properties *)

Section properties.
Context `{GroupElement E}.
Local Open Scope alg_scope.
Implicit Types (secret : E) (ac : Unanimity.Unanimity).

Lemma collect_ids_ok (l : list (AdditiveShare E)) : Additive.collect_ids (Some <$> l) = Ok (aid <$> l).
Proof. unfold Additive.collect_ids. apply mapM_ok. induction l; cbn; by constructor. Qed.

Lemma Deal_ok {P} ac order secret (sampler : P → result (E * P)) prng shares prng' :
  order ≡ₚ elements (Unanimity.ps ac) → (0%N ∉ Unanimity.ps ac) →
  Additive.Deal ac order (Some secret) sampler (Some prng) = Ok (shares, prng') →
  ∃ val : ID → E, foldl gop gid (val <$> order) = secret ∧
    ∀ id, shares !! id = if decide (id ∈ Unanimity.ps ac) then Some (mkAShare id (val id)) else None.
Proof.
  intros Hord H0 E1. cbn [Additive.Deal] in E1.
  apply bind_ok in E1 as ([rs prng1] & Hs & E1). apply bind_ok in E1 as (shares' & E1 & [= <- <-]).
  apply SumToSecret_ok in Hs as [Hl Hsum]. rewrite Nat2Z.id in Hl.
  assert (NoDup order) as Hnd by (rewrite Hord; apply NoDup_elements).
  assert (length order = size (Unanimity.ps ac)) as Hlo by (by rewrite Hord).
  assert (∀ id, id ∈ order ↔ id ∈ Unanimity.ps ac) as Hin by (intros; by rewrite Hord, elem_of_elements).
  destruct (deal_loop ac rs order [] ∅) as (shares'' & E2 & H1 & H2); [|cbn; lia|done|done|].
  { intros id Hid%Hin. split; [done|]. by intros ->. }
  cbn [length Nat.add] in E2, H1.
  assert (shares'' = shares') as ->.
  { assert (Ok shares'' = Ok shares') as [= ?]; [|done]. rewrite <-E1, <-E2. done. }
  exists (λ id, match shares' !! id with Some s => av s | None => gid end). split.
  - rewrite <-Hsum. f_equal. apply list_eq. intros i. rewrite list_lookup_fmap.
    destruct (order !! i) as [id|] eqn:Ei; cbn.
    + rewrite (H1 i id Ei). destruct (rs !! i) eqn:Er; [done|]. apply lookup_ge_None in Er.
      apply lookup_lt_Some in Ei. lia.
    + symmetry. apply lookup_ge_None. apply lookup_ge_None in Ei. lia.
  - intros id. case_decide as Hid.
    + apply Hin, list_elem_of_lookup in Hid as [i Ei]. rewrite (H1 i id Ei).
      destruct (rs !! i) eqn:Er; [done|]. apply lookup_ge_None in Er. apply lookup_lt_Some in Ei. lia.
    + rewrite H2 by (by rewrite Hin). done.
Qed.

(** Reconstruction from one share per shareholder is their sum. *)
Lemma Reconstruct_sum ac (l : list (AdditiveShare E)) :
  (aid <$> l) ≡ₚ elements (Unanimity.ps ac) → Unanimity.ps ac ≠ ∅ →
  Additive.Reconstruct ac (Some <$> l) = Ok (foldl gop gid (av <$> l)).
Proof.
  intros Hl Hne. unfold Additive.Reconstruct. rewrite collect_ids_ok. cbn [mbind result_bind].
  assert (id_set (aid <$> l) = Unanimity.ps ac) as Hids.
  { apply set_eq. intros id. by rewrite id_set_elem, Hl, elem_of_elements. }
  rewrite Hids, Hl. change (length (elements (Unanimity.ps ac))) with (size (Unanimity.ps ac)). rewrite Nat.eqb_refl.
  unfold Unanimity.is_qualified. cbn [negb]. rewrite Hids, bool_decide_true by done.
  cbn [negb]. rewrite omap_Some_id. destruct l as [|s l].
  { by destruct Hne. }
  by rewrite foldl_Add, <-foldl_gop_cons, <-fmap_cons.
Qed.

(** For a constructed structure and any listing of its shareholders,
    dealing succeeds when the sampler does, gives one share to each
    shareholder, and reconstruction from all of them, in any order, returns
    the secret; reconstruction never succeeds on fewer, more or repeated
    shareholders. *)
Theorem Additive_Deal_Reconstruct {P} ps ac order secret (sampler : P → result (E * P)) prng :
  Unanimity.NewUnanimityAccessStructure (Some ps) = Ok ac → order ≡ₚ elements ps →
  ((∀ p, is_ok (sampler p) = true) →
     is_ok (Additive.Deal ac order (Some secret) sampler (Some prng)) = true) ∧
  (∀ shares prng', Additive.Deal ac order (Some secret) sampler (Some prng) = Ok (shares, prng') →
     dom shares = ps ∧
     ∀ l, (aid <$> l) ≡ₚ elements ps → (∀ s, s ∈ l → shares !! aid s = Some s) →
       Additive.Reconstruct ac (Some <$> l) = Ok secret) ∧
  (∀ l x, Additive.Reconstruct ac (Some <$> l) = Ok x → (aid <$> l) ≡ₚ elements ps).
Proof.
  unfold Unanimity.NewUnanimityAccessStructure. destruct (Nat.ltb_spec (size ps) 2) as [|Hsz]; [done|].
  case_bool_decide as H0; [done|]. intros [= <-] Hord.
  set (ac := Unanimity.mkUnanimity ps). split; [|split].
  - intros Hok. apply is_ok_true. cbn [Additive.Deal]. unfold Additive.SumToSecret.
    cbn [Unanimity.ps ac]. destruct (Z.leb_spec (Z.of_nat (size ps)) 0); [lia|].
    destruct (random_coeffs_total sampler (Z.to_nat (Z.of_nat (size ps)) - 1) prng Hok)
      as (cs & prng1 & Hr). rewrite Hr. cbn [mbind result_bind].
    apply random_coeffs_length in Hr.
    destruct (deal_loop ac (cs ++ [secret ⊕ ginv (foldl gop gid cs)]) order [] ∅)
      as (shares & E2 & _).
    + intros id Hid. rewrite Hord, elem_of_elements in Hid. split; [done|]. by intros ->.
    + rewrite length_app. cbn. rewrite Hord. change (length (elements ps)) with (size ps). lia.
    + rewrite Hord. apply NoDup_elements.
    + done.
    + cbn [length Nat.add] in E2. eexists. change (imap pair order) with (imap (λ i, pair i) order).
      rewrite E2. done.
  - intros shares prng' Hd.
    destruct (Deal_ok ac order secret sampler prng shares prng' Hord H0 Hd) as (val & Hsum & Hval).
    cbn [Unanimity.ps ac] in Hval. split.
    + apply set_eq. intros id. rewrite elem_of_dom, Hval. case_decide; [|by split; [intros []|]].
      split; [done|by eexists].
    + intros l Hl Hin. rewrite Reconstruct_sum; [|done|]. 2:{ intros E0. cbn in E0. rewrite E0, size_empty in Hsz. lia. }
      f_equal.
      rewrite <-Hsum. transitivity (foldl gop gid (val <$> (aid <$> l))).
      * f_equal. rewrite <-list_fmap_compose. apply list_fmap_ext. intros i s' Hs'.
        apply list_elem_of_lookup_2, Hin in Hs'. rewrite Hval in Hs'.
        destruct (decide (aid s' ∈ ps)); [|done]. by injection Hs' as <-.
      * apply foldl_gop_perm. by rewrite Hl, Hord.
  - intros l x. unfold Additive.Reconstruct. rewrite collect_ids_ok. cbn [mbind result_bind].
    destruct (Nat.eqb_spec (size (id_set (aid <$> l))) (length (aid <$> l))) as [Hs|]; [|done].
    unfold Unanimity.is_qualified. cbn [negb Unanimity.ps ac]. case_bool_decide as Hids; [|done].
    intros _. apply NoDup_Permutation; [by apply size_id_set_NoDup|apply NoDup_elements|].
    intros id. by rewrite <-id_set_elem, Hids, elem_of_elements.
Qed.
End properties.

Lemma Additive_Deal_Reconstruct_witness :
  ∃ ac shares p, Unanimity.NewUnanimityAccessStructure (Some ex_ids) = Ok ac ∧
    Additive.Deal (E:=fp101) ac [5; 1; 2]%N (Some (f101 7))
      (λ p, Ok (f101 p, (p + 3)%Z)) (Some 40%Z) = Ok (shares, p) ∧ dom shares = ex_ids.
Proof.
  assert (∃ ac, Unanimity.NewUnanimityAccessStructure (Some ex_ids) = Ok ac) as [ac Hac]
    by (eexists; vm_compute; reflexivity).
  assert ([5; 1; 2]%N ≡ₚ elements ex_ids) as Hperm by (apply (bool_decide_unpack _); vm_compute; exact I).
  destruct (Additive_Deal_Reconstruct (E:=fp101) ex_ids ac [5; 1; 2]%N (f101 7)
    (λ p, Ok (f101 p, (p + 3)%Z)) 40%Z Hac Hperm) as (Hok & Hd & _).
  destruct (proj1 (is_ok_true _) (Hok (λ _, eq_refl))) as [[shares p] E].
  exists ac, shares, p. split; [done|]. split; [exact E|]. by apply (Hd shares p).
Defined.
