(* ===== verification/Przs.v ===== *)
(** * Pseudorandom zero sharing (pkg/mpc/zero/przs)

    Every party derives an additive share from its streams with the others;
    the share of each pair enters once with either sign, so the shares of a
    quorum whose contexts agree add up to the identity. *)

From Stdlib Require Import ZArith NArith Lia.
From stdpp Require Import strings.
From S2P Require Import Prelude Algebra AlgebraUtils IOUtils Sigma Hagrid Session Poly MSP Access Threshold Unanimity Additive.

Module Przs.
Section przs.
Context `{GroupElement E}.

(** [SampleZeroShare]; [random] is the sampler of the group, and every call
    reads copies of the streams. *)
Definition SampleZeroShare (ctx : option Session.Context)
    (random : option (Session.SHAKE → result (E * Session.SHAKE))) : result (AdditiveShare E) :=
  match ctx, random with
  | Some ctx, Some random =>
      value ← foldM (λ value id,
        match Session.Seeds ctx !! id with
        | None => Panic
        | Some seed =>
            '(v, _) ← random seed;
            let v := if (id <? Session.holderID ctx)%N then ginv v else v in
            Ok (gop value v)
        end) gid (Session.OtherPartiesOrdered ctx);
      as_ ← Unanimity.NewUnanimityAccessStructure (Some (Session.Quorum ctx));
      Additive.NewShare (Session.holderID ctx) (Some value) (Some as_)
  | _, _ => Err ErrInvalidArgument
  end.
End przs.
End Przs.

(** ** Antisymmetric sums *)

Section theory.
Context `{GroupElement E}.
Local Open Scope alg_scope.
Implicit Types (ctx : Session.Context).

Definition lgsum {A} (f : A → E) (l : list A) : E := foldl gop gid (f <$> l).

Lemma lgsum_cons {A} (f : A → E) i l : lgsum f (i :: l) = f i ⊕ lgsum f l.
Proof. apply foldl_gop_cons. Qed.
Lemma lgsum_perm {A} (f : A → E) l k : l ≡ₚ k → lgsum f l = lgsum f k.
Proof. intros Hp. apply foldl_gop_perm. by rewrite Hp. Qed.
Lemma lgsum_fmap {A B} (f : B → E) (g : A → B) l : lgsum f (g <$> l) = lgsum (f ∘ g) l.
Proof. unfold lgsum. by rewrite <-list_fmap_compose. Qed.
Lemma lgsum_ext {A} (f g : A → E) l : (∀ i, i ∈ l → f i = g i) → lgsum f l = lgsum g l.
Proof. intros Hf. unfold lgsum. f_equal. apply list_fmap_ext. intros i x Hx%list_elem_of_lookup_2. by apply Hf. Qed.
Lemma lgsum_add {A} (f g : A → E) l : lgsum (λ i, f i ⊕ g i) l = lgsum f l ⊕ lgsum g l.
Proof.
  induction l as [|i l IH]; [symmetry; apply gop_id_l|]. rewrite !lgsum_cons, IH, <-!gop_assoc. f_equal.
  by rewrite !gop_assoc, (gop_comm (g i)).
Qed.
Lemma lgsum_id {A} (f : A → E) l : (∀ i, i ∈ l → f i = gid) → lgsum f l = gid.
Proof.
  induction l as [|i l IH]; intros Hi; [done|]. rewrite lgsum_cons, Hi, gop_id_l by constructor.
  apply IH. intros j Hj. apply Hi. by constructor.
Qed.
Lemma lgsum_filter {A} (P : A → Prop) `{∀ i, Decision (P i)} (f : A → E) l :
  (∀ i, i ∈ l → ¬ P i → f i = gid) → lgsum f (filter P l) = lgsum f l.
Proof.
  induction l as [|i l IH]; intros Hf; [done|]. rewrite filter_cons, lgsum_cons.
  case_decide as Hi; rewrite ?lgsum_cons, IH; try done; try (intros j Hj; apply Hf; by constructor).
  by rewrite Hf, gop_id_l by (done || constructor).
Qed.

(** Each pair enters the double sum with both signs. *)
Lemma lgsum_antisymmetric {A} (w : A → A → E) l :
  (∀ i, i ∈ l → w i i = gid) → (∀ i j, i ∈ l → j ∈ l → w i j ⊕ w j i = gid) →
  lgsum (λ i, lgsum (w i) l) l = gid.
Proof.
  induction l as [|x l IH]; intros Hd Hw; [done|]. rewrite !lgsum_cons, Hd, gop_id_l by constructor.
  rewrite (lgsum_ext (λ i, lgsum (w i) (x :: l)) (λ i, w i x ⊕ lgsum (w i) l)) by (intros; apply lgsum_cons).
  rewrite lgsum_add, IH, gop_gid_r, <-lgsum_add.
  - apply lgsum_id. intros i Hi. apply Hw; by constructor.
  - intros i Hi. apply Hd. by constructor.
  - intros i j Hi Hj. apply Hw; by constructor.
Qed.

(** The contribution of the stream with [j] to the share of a context. *)
Definition contribution (random : Session.SHAKE → result (E * Session.SHAKE)) ctx (j : ID) : E :=
  match Session.Seeds ctx !! j with
  | Some seed =>
      match random seed with
      | Ok (v, _) => if (j <? Session.holderID ctx)%N then ginv v else v
      | _ => gid
      end
  | None => gid
  end.

(** The contributions of a pair cancel. *)
Lemma contributions_cancel random ctx ctx' :
  (Session.holderID ctx ≠ Session.holderID ctx' → agree ctx ctx') →
  (if decide (Session.holderID ctx = Session.holderID ctx') then gid
   else contribution random ctx (Session.holderID ctx')) ⊕
  (if decide (Session.holderID ctx' = Session.holderID ctx) then gid
   else contribution random ctx' (Session.holderID ctx)) = gid.
Proof.
  intros Hag. case_decide as Hne; [rewrite decide_True by done; apply gop_id_l|].
  rewrite decide_False by congruence. destruct (Hag Hne) as (_ & _ & _ & _ & s & Hs & Hs').
  unfold contribution, Session.Seeds. rewrite Hs, Hs'.
  destruct (random s) as [[v p]| |]; [|apply gop_id_l..].
  destruct (N.ltb_spec (Session.holderID ctx') (Session.holderID ctx)),
    (N.ltb_spec (Session.holderID ctx) (Session.holderID ctx')); try lia.
  - apply gop_inv_l.
  - rewrite gop_comm. apply gop_inv_l.
Qed.

Lemma SampleZeroShare_ok random ctx as_ :
  (∀ s, is_ok (random s) = true) →
  (∀ j, j ∈ Session.OtherPartiesOrdered ctx → is_Some (Session.Seeds ctx !! j)) →
  Unanimity.NewUnanimityAccessStructure (Some (Session.Quorum ctx)) = Ok as_ →
  Session.holderID ctx ∈ Session.Quorum ctx →
  Przs.SampleZeroShare (Some ctx) (Some random) = Ok (mkAShare (Session.holderID ctx)
    (lgsum (contribution random ctx) (Session.OtherPartiesOrdered ctx))).
Proof.
  intros Hr Hs Has Hin. cbn [Przs.SampleZeroShare].
  assert (∀ l (a : E), (∀ j, j ∈ l → is_Some (Session.Seeds ctx !! j)) →
    foldM (λ value id,
      match Session.Seeds ctx !! id with
      | None => Panic
      | Some seed => '(v, _) ← random seed;
          let v := if (id <? Session.holderID ctx)%N then ginv v else v in Ok (gop value v)
      end) a l = Ok (a ⊕ lgsum (contribution random ctx) l)) as Hloop.
  { clear Hs. intros l. induction l as [|j l IH]; intros a Hs; cbn [foldM].
    { f_equal. symmetry. apply gop_gid_r. }
    rewrite lgsum_cons. unfold contribution at 1. destruct (Hs j) as [seed ->]; [by constructor|].
    destruct (proj1 (is_ok_true _) (Hr seed)) as [[v p] ->]. cbn [mbind result_bind].
    rewrite IH by (intros k Hk; apply Hs; by constructor). by rewrite gop_assoc. }
  rewrite Hloop by done. cbn [mbind result_bind]. rewrite Has, gop_id_l. cbn [mbind result_bind].
  revert Has. unfold Unanimity.NewUnanimityAccessStructure. rewrite !if_err_ok, bool_decide_eq_false.
  intros (_ & H0 & [= <-]). apply NewShare_ok; [done|]. intros E0. by rewrite E0 in Hin.
Qed.
End theory.

(** ** Property *)

Section properties.
Context `{GroupElement E}.
Implicit Types (ctxs : list Session.Context) (Q : gset ID).

(** C36. The contexts of a quorum that agree pairwise sample shares of zero:
    with a sampler that does not fail every party obtains its share, the
    shares are accepted by additive reconstruction over the unanimity structure
    of the quorum, and the reconstructed value is the identity. *)
Theorem Przs_shares_of_identity (random : Session.SHAKE → result (E * Session.SHAKE)) ctxs Q as_ :
  (∀ s, is_ok (random s) = true) →
  Session.holderID <$> ctxs ≡ₚ elements Q →
  (∀ ctx, ctx ∈ ctxs → Session.sortedQuorum ctx = sort_ids (elements Q)) →
  (∀ ctx ctx', ctx ∈ ctxs → ctx' ∈ ctxs → Session.holderID ctx ≠ Session.holderID ctx' → agree ctx ctx') →
  Unanimity.NewUnanimityAccessStructure (Some Q) = Ok as_ →
  ∃ shares, mapM (λ ctx, Przs.SampleZeroShare (Some ctx) (Some random)) ctxs = Ok shares ∧
    Additive.Reconstruct as_ (Some <$> shares) = Ok gid.
Proof.
  intros Hr Hp HQ Hag Has.
  set (w ctx ctx' := if decide (Session.holderID ctx = Session.holderID ctx') then gid
    else contribution random ctx (Session.holderID ctx')).
  assert (∀ ctx, ctx ∈ ctxs → Przs.SampleZeroShare (Some ctx) (Some random) =
    Ok (mkAShare (Session.holderID ctx) (lgsum (w ctx) ctxs))) as Hs.
  { intros ctx Hctx. rewrite SampleZeroShare_ok with (as_ := as_); [|done|..].
    - do 2 f_equal. unfold Session.OtherPartiesOrdered. rewrite HQ by done.
      rewrite (lgsum_ext _ (λ j, if decide (Session.holderID ctx = j) then gid else contribution random ctx j)).
      2:{ intros j [Hj _]%list_elem_of_filter. by rewrite decide_False. }
      rewrite lgsum_filter by (intros j _ Hj; apply decide_True; symmetry; by apply dec_stable).
      rewrite (lgsum_perm _ _ (Session.holderID <$> ctxs)), lgsum_fmap; [done|].
      unfold sort_ids. by rewrite Hp, merge_sort_Permutation.
    - unfold Session.OtherPartiesOrdered. rewrite HQ by done.
      intros j [Hj Hin%sorted_elements_elem%elem_of_elements]%list_elem_of_filter.
      rewrite <-Hp in Hin. apply list_elem_of_fmap in Hin as (ctx' & -> & Hctx').
      destruct (Hag ctx ctx') as (_ & _ & _ & _ & s & Hs & _); [done..|by eexists].
    - unfold Session.Quorum. by rewrite HQ, sorted_elements_set.
    - unfold Session.Quorum. rewrite HQ, sorted_elements_set by done. apply elem_of_elements.
      rewrite <-Hp. by apply list_elem_of_fmap_2. }
  exists ((λ ctx, mkAShare (Session.holderID ctx) (lgsum (w ctx) ctxs)) <$> ctxs). split.
  - apply mapM_ok, Forall2_fmap_r, Forall_Forall2_diag, Forall_forall. by apply Hs.
  - revert Has. unfold Unanimity.NewUnanimityAccessStructure. rewrite !if_err_ok, bool_decide_eq_false, Nat.ltb_ge.
    intros (Hsz & _ & [= <-]). rewrite Reconstruct_sum; cbn [Unanimity.ps].
    + f_equal. rewrite <-list_fmap_compose. apply (lgsum_antisymmetric w).
      * intros ctx _. unfold w. by rewrite decide_True.
      * intros ctx ctx' Hctx Hctx'. unfold w. apply contributions_cancel; auto.
    + rewrite <-list_fmap_compose. exact Hp.
    + intros ->. rewrite size_empty in Hsz. lia.
Qed.
End properties.

(** ** Two parties *)

Definition ex_random (s : Session.SHAKE) : result (fp101 * Session.SHAKE) :=
  let '(b, s) := Session.shake_read ex_xof0 2 s in Ok (f101 (Z.of_N (foldl N.add 0%N b)), s).
Abbreviation ex_contexts := [ex_context 2%N 1%N; ex_context 1%N 2%N].

Lemma Przs_shares_of_identity_witness :
  ∃ shares, mapM (λ ctx, Przs.SampleZeroShare (E:=fp101) (Some ctx) (Some ex_random)) ex_contexts = Ok shares ∧
    Additive.Reconstruct (Unanimity.mkUnanimity ex_pair) (Some <$> shares) = Ok gid.
Proof.
  apply (Przs_shares_of_identity (E:=fp101) ex_random ex_contexts ex_pair).
  - intros s. unfold ex_random, Session.shake_read. reflexivity.
  - apply (bool_decide_unpack _). vm_compute. exact I.
  - intros ctx Hctx. rewrite !elem_of_cons in Hctx. destruct Hctx as [-> | [-> | []%not_elem_of_nil]]; vm_compute; reflexivity.
  - assert (agree (ex_context 2 1) (ex_context 1 2)) as Hag.
    { unfold agree. split_and!; try (vm_compute; reflexivity); [done|]. eexists. split; vm_compute; reflexivity. }
    intros ctx ctx' Hc Hc'. rewrite !elem_of_cons in Hc, Hc'.
    destruct Hc as [-> | [-> | []%not_elem_of_nil]], Hc' as [-> | [-> | []%not_elem_of_nil]];
      try (intros Hne; by destruct Hne); intros _; [done|by apply agree_sym].
  - vm_compute; reflexivity.
Defined.
