(* ===== verification/KW.v ===== *)
(** * Karchmer-Wigderson secret sharing (scheme/kw)

    A secret is the first entry of a random column [r]; the share vector is
    [lambda = M * r], and each shareholder gets the entries of the rows it
    owns, in ascending order.  A qualified coalition combines its entries with
    the programme's reconstruction vector.  The hash maps and sets of the code
    are iterated in an order it does not fix; their results here are maps, or
    lists that are sorted before use, so no order has to be chosen. *)

From Stdlib Require Import ZArith NArith Lia Ring Field.
From S2P Require Import Prelude Algebra AlgebraUtils Poly Combinations Matrix Solver Interp.
From S2P Require Import MSP Access Threshold Unanimity Additive.

Module KW.
(** ** Shares (share.go) *)

Record Share (F : Type) := mkShare { sid : ID; sv : list F }.
Arguments mkShare {F} sid sv.
Arguments sid {F} _.
Arguments sv {F} _.

#[export] Instance Share_eq_dec `{EqDecision F} : EqDecision (Share F).
Proof. solve_decision. Defined.

Section kw.
Context `{PrimeField F}.
Implicit Types (s other : Share F) (M : MSP F) (ids : list ID).

(** [None] is a nil value. *)
Definition NewShare (id : ID) (v : list (option F)) : result (Share F) :=
  if (id =? 0)%N || (length v =? 0) || existsb (λ x, bool_decide (x = None)) v then Err ErrArgument
  else Ok (mkShare id (omap (λ x, x) v)).

Definition Equal s other : bool :=
  if negb (sid s =? sid other)%N then false
  else if negb (length (sv s) =? length (sv other)) then false
  else forallb (λ i, bool_decide (sv s !!! i = sv other !!! i)) (seq 0 (length (sv s))).

Definition Add s other : result (Share F) :=
  if negb (sid s =? sid other)%N then Panic
  else if negb (length (sv s) =? length (sv other)) then Panic
  else Ok (mkShare (sid s) (zip_with radd (sv s) (sv other))).
Definition Op s other : result (Share F) := Add s other.

(** The scalar is given by its big-endian bytes. *)
Definition ScalarMul s (scalarBytesBE : list N) : Share F :=
  mkShare (sid s) ((λ x, scalarMul x scalarBytesBE) <$> sv s).
Definition ScalarOp s (scalarBytesBE : list N) : Share F := ScalarMul s scalarBytesBE.

(** ** The dealer function (dealerfunc.go) *)

Record DealerFunc := mkDealerFunc {
  randomColumn : Matrix F; dmsp : MSP F; lambdaColumn : Matrix F }.

Definition NewDealerFunc (randomColumn : option (Matrix F)) (mspMatrix : option (MSP F)) :
    result DealerFunc :=
  match mspMatrix, randomColumn with
  | None, _ => Err ErrIsNil
  | _, None => Err ErrIsNil
  | Some mspMatrix, Some randomColumn =>
      if negb (IsColumnVector randomColumn) then Err ErrValue
      else if m randomColumn <? 2 then Err ErrValue
      else
        lambda ← TryMul (matrix mspMatrix) randomColumn;
        Ok (mkDealerFunc randomColumn mspMatrix lambda)
  end.

(** An error of the product panics. *)
Definition Secret (d : DealerFunc) : result F :=
  target ← TargetVector (dmsp d);
  match TryMul target (randomColumn d) with
  | Ok secretMat => match Get secretMat 0 0 with Ok v => Ok v | _ => Panic end
  | _ => Panic
  end.

Definition ShareOf (d : DealerFunc) (id : ID) : result (Share F) :=
  match holdersToRows (dmsp d) !! id with
  | None => Err ErrMembership
  | Some rowsi =>
      lambdaI ← SubMatrixGivenRows (lambdaColumn d) (sort_rows (elements rowsi));
      Ok (mkShare id (v lambdaI))
  end.

(** ** Dealing (scheme.go)

    [sampler] is the field's [Random]; a nil secret or generator is [None]. *)

(** [columnFactory.Random]. *)
Definition random_column {P} (sampler : P → result (F * P)) (rows : nat) (prng : P) :
    result (Matrix F * P) :=
  '(values, prng) ← random_coeffs sampler (rows * 1) prng;
  out ← NewRowMajor rows 1 values;
  Ok (out, prng).

Definition put_share (d : DealerFunc) (shares : gmap ID (Share F)) (id : ID) :
    result (gmap ID (Share F)) :=
  share ← ShareOf d id; Ok (<[id := share]> shares).

Definition DealAndRevealDealerFunc {P} M (sampler : P → result (F * P)) (secret : option F)
    (prng : option P) : result (gmap ID (Share F) * DealerFunc * P) :=
  match secret, prng with
  | None, _ => Err ErrIsNil
  | _, None => Err ErrIsNil
  | Some secret, Some prng =>
      '(rows, _) ← NewMatrixModule (D M) 1;
      '(randomColumn, prng) ← random_column sampler rows prng;
      randomColumn ← SetAssign randomColumn 0 0 secret;
      df ← NewDealerFunc (Some randomColumn) (Some M);
      shares ← foldM (put_share df) ∅ (elements (MSP.Shareholders M));
      Ok (shares, df, prng)
  end.

Definition Deal {P} M (sampler : P → result (F * P)) (secret : option F) (prng : option P) :
    result (gmap ID (Share F) * P) :=
  '(out, _, prng) ← DealAndRevealDealerFunc M sampler secret prng;
  Ok (out, prng).

Definition DealRandomAndRevealDealerFunc {P} M (sampler : P → result (F * P)) (prng : option P) :
    result (gmap ID (Share F) * F * DealerFunc * P) :=
  match prng with
  | None => Err ErrIsNil
  | Some prng =>
      '(value, prng) ← sampler prng;
      '(shares, dealerFunc, prng) ← DealAndRevealDealerFunc M sampler (Some value) (Some prng);
      Ok (shares, value, dealerFunc, prng)
  end.

Definition DealRandom {P} M (sampler : P → result (F * P)) (prng : option P) :
    result (gmap ID (Share F) * F * P) :=
  '(shares, secret, _, prng) ← DealRandomAndRevealDealerFunc M sampler prng;
  Ok (shares, secret, prng).

(** ** Reconstruction *)

(** The first loop of [shareColumn]. *)
Definition count_rows M (nRows : nat) (sh : Share F) : result nat :=
  match holdersToRows M !! sid sh with
  | None => Err ErrMembership
  | Some rowsi =>
      if negb (size rowsi =? length (sv sh)) then Err ErrVerification
      else Ok (nRows + size rowsi)
  end.

(** The second loop: row [r] gets the value at its position among the
    holder's rows. *)
Definition place_rows M (lambdaByRow : gmap Z F) (sh : Share F) : result (gmap Z F) :=
  match holdersToRows M !! sid sh with
  | None => Err ErrMembership
  | Some rowsi =>
      foldM (λ lambda '(i, r),
          match sv sh !! i with
          | Some x => Ok (<[r := x]> lambda)
          | None => Panic
          end) lambdaByRow (imap pair (sort_rows (elements rowsi)))
  end.

Definition shareColumn M (shares : list (Share F)) : result (Matrix F) :=
  nRows ← foldM (count_rows M) 0 shares;
  '(rows, cols) ← NewMatrixModule nRows 1;
  lambdaByRow ← foldM (place_rows M) ∅ shares;
  let shareCol := OpIdentity rows cols in
  foldM (λ shareCol '(i, r), SetAssign shareCol (Z.of_nat i) 0 (lambdaByRow !!! r))
    shareCol (imap pair (sort_rows (elements (dom lambdaByRow)))).

(** A nil share panics when it is hashed into the set; the IDs are those of
    the distinct shares. *)
Definition share_ptrs (shares : list (option (Share F))) : result (list (Share F)) :=
  mapM (λ p, match p with Some sh => Ok sh | None => Panic end) shares.

Definition Reconstruct M (shares : list (option (Share F))) : result F :=
  if length shares =? 0 then Err ErrValue
  else
    shares ← share_ptrs shares;
    let ids := sid <$> remove_dups shares in
    reconVec ← ReconstructionVector M ids;
    shareCol ← shareColumn M shares;
    DotProduct reconVec shareCol.

Definition CanReconstruct M ids : bool := Accepts M ids.

(** [slices.BinarySearch] of the standard library on a sorted slice: the
    position of the first element not below [x], and whether it is [x]. *)
Definition BinarySearch (l : list Z) (x : Z) : nat * bool :=
  let pos := length (filter (λ y, (y < x)%Z) l) in
  (pos, bool_decide (l !! pos = Some x)).

Definition ConvertShareToAdditive M (share : option (Share F)) (quorum : option Unanimity.Unanimity) :
    result (AdditiveShare F) :=
  match share, quorum with
  | None, _ => Err ErrIsNil
  | _, None => Err ErrIsNil
  | Some share, Some quorum =>
      if bool_decide (sid share ∉ Unanimity.ps quorum) then Err ErrMembership
      else
        let quorumIDs := elements (Unanimity.ps quorum) in
        reconVec ← ReconstructionVector M quorumIDs;
        shareCol ← shareColumn M [share];
        allQuorumRows ← foldM (λ rows id,
            match holdersToRows M !! id with
            | Some rowsID => Ok (rows ++ elements rowsID)
            | None => Err ErrMembership
            end) [] quorumIDs;
        let allQuorumRows := sort_rows allQuorumRows in
        match holdersToRows M !! sid share with
        | None => Err ErrMembership
        | Some shareholderAbsRowsSet =>
            let shareholderAbsRows := sort_rows (elements shareholderAbsRowsSet) in
            reconPositions ← mapM (λ absRow,
                let '(pos, found) := BinarySearch allQuorumRows absRow in
                if found then Ok (Z.of_nat pos) else Err ErrFailed) shareholderAbsRows;
            reconSubVec ← SubMatrixGivenRows reconVec reconPositions;
            additiveShareValue ← DotProduct reconSubVec shareCol;
            Additive.NewShare (sid share) (Some additiveShareValue) (Some quorum)
        end
  end.
End kw.
End KW.
#[export] Existing Instance KW.Share_eq_dec.

(** ** Theory *)

Section theory.
Context `{PrimeField F}.
Local Open Scope alg_scope.
Add Ring kw_ring : (ring_laws (R:=F)).
Implicit Types (M : MSP F) (ids : list ID) (r : list F).

(** Entry [i] of the product of the programme with the column [r]. *)
Definition lambda M r (i : nat) : F :=
  rsum (n (matrix M)) (λ j, at_ (matrix M) i j * (r !!! j)).

Lemma fmap_lookup_total {A B} `{!Inhabited A, !Inhabited B} (f : A → B) (l : list A) k :
  (k < length l)%nat → (f <$> l) !!! k = f (l !!! k).
Proof.
  intros Hk. apply list_lookup_total_correct.
  by rewrite list_lookup_fmap, (list_lookup_lookup_total_lt l k Hk).
Qed.

(** The share that the column [r] gives to [id]. *)
Definition share_of M r (id : ID) : KW.Share F :=
  KW.mkShare id (lambda M r <$> rows_of M [id]).

Lemma holder_rows M id (rows : gset Z) :
  wf_msp M → holdersToRows M !! id = Some rows →
  sort_rows (elements rows) = Z.of_nat <$> rows_of M [id] ∧ size rows = length (rows_of M [id]).
Proof.
  intros Hwf E. apply (wf_holders M Hwf) in E as [_ E].
  assert (sort_rows (elements rows) = Z.of_nat <$> rows_of M [id]) as Hs.
  { apply sort_rows_selected; [apply NoDup_elements|]. intros z. rewrite elem_of_elements, E.
    unfold owned. split.
    - intros Hz. assert (0 ≤ z < Z.of_nat (m (matrix M)))%Z as Hb
        by (apply (wf_labels M Hwf); by eexists).
      exists (Z.to_nat z). rewrite Z2Nat.id, Hz by lia. split_and!; [|lia|done].
      apply bool_decide_eq_true_2, list_elem_of_here.
    - intros (i & Hi & _ & ->). destruct (rowsToHolders M !! Z.of_nat i); [|done].
      apply bool_decide_eq_true_1, list_elem_of_singleton in Hi. by subst. }
  split; [done|]. transitivity (length (sort_rows (elements rows))).
  - unfold sort_rows. by rewrite merge_sort_Permutation.
  - by rewrite Hs, length_fmap.
Qed.

Lemma elem_rows_of M ids i :
  i ∈ rows_of M ids ↔ ∃ id, id ∈ ids ∧ i ∈ rows_of M [id].
Proof.
  unfold rows_of. setoid_rewrite elem_of_selected. unfold owned.
  destruct (rowsToHolders M !! Z.of_nat i) as [id|]; [|naive_solver]. split.
  - intros [Hid%bool_decide_eq_true_1 Hi]. exists id. split; [done|].
    split; [apply bool_decide_eq_true_2, list_elem_of_here|done].
  - intros (id' & Hid & Hi1%bool_decide_eq_true_1 & Hi). apply list_elem_of_singleton in Hi1 as ->.
    split; [by apply bool_decide_eq_true_2|done].
Qed.

Lemma rows_of_disjoint M id id' i : i ∈ rows_of M [id] → i ∈ rows_of M [id'] → id = id'.
Proof.
  unfold rows_of. rewrite !elem_of_selected. unfold owned.
  destruct (rowsToHolders M !! Z.of_nat i); [|by intros [? _]].
  intros [H1%bool_decide_eq_true_1 _] [H2%bool_decide_eq_true_1 _].
  apply list_elem_of_singleton in H1, H2. congruence.
Qed.

(** The rows of a coalition are those of its distinct members. *)
Lemma rows_of_bind M ids : NoDup ids → rows_of M ids ≡ₚ (id ← ids; rows_of M [id]).
Proof.
  intros Hnd. apply NoDup_Permutation; [apply NoDup_selected| |].
  - apply NoDup_bind; [|intros; apply NoDup_selected|done].
    intros id1 id2 i _ _. apply rows_of_disjoint.
  - intros i. rewrite elem_rows_of, list_elem_of_bind. naive_solver.
Qed.

(** A combination to the target recovers the first entry of the column. *)
Lemma combine_lambda M ids (w : nat → F) r :
  (0 < n (matrix M))%nat →
  (∀ j, (j < n (matrix M))%nat →
     rsum (length (rows_of M ids)) (λ k, w k * at_ (matrix M) (rows_of M ids !!! k) j)
     = if decide (j = 0%nat) then 1 else 0) →
  rsum (length (rows_of M ids)) (λ k, w k * lambda M r (rows_of M ids !!! k)) = r !!! 0%nat.
Proof.
  intros Hn Hw. rewrite <-(rsum_delta (n (matrix M)) 0 (λ j, r !!! j)) by done.
  transitivity (rsum (n (matrix M)) (λ j,
    rsum (length (rows_of M ids)) (λ k, w k * at_ (matrix M) (rows_of M ids !!! k) j) * (r !!! j))).
  - transitivity (rsum (length (rows_of M ids)) (λ k, rsum (n (matrix M)) (λ j,
      w k * at_ (matrix M) (rows_of M ids !!! k) j * (r !!! j)))).
    + apply rsum_ext. intros k _. unfold lambda. rewrite rsum_mul_l. apply rsum_ext.
      intros j _. ring.
    + rewrite rsum_swap. apply rsum_ext. intros j _. by rewrite rsum_mul_r.
  - apply rsum_ext. intros j Hj. by rewrite Hw.
Qed.

(** *** Dealing *)

Lemma NewDealerFunc_ok M r :
  wf_msp M → (0 < m (matrix M))%nat → (2 ≤ length r)%nat → length r = n (matrix M) →
  KW.NewDealerFunc (Some (mkMatrix (length r) 1 r)) (Some M)
  = Ok (KW.mkDealerFunc (mkMatrix (length r) 1 r) M (mk (m (matrix M)) 1 (λ i _, lambda M r i))).
Proof.
  intros Hwf Hm H2 Hl. unfold KW.NewDealerFunc. cbn [IsColumnVector n Nat.eqb negb m].
  destruct (Nat.ltb_spec (length r) 2); [lia|]. unfold TryMul. cbn [m n].
  rewrite <-Hl, Nat.eqb_refl. cbn [negb].
  rewrite scalar_structure_ok by (apply wf_matrix, Hwf || lia). cbn [mbind result_bind].
  do 2 f_equal. apply mk_ext. intros i j Hi Hj. assert (j = 0%nat) as -> by lia.
  unfold lambda. rewrite <-Hl. apply rsum_ext. intros k Hk. f_equal.
  unfold at_, idx. cbn. f_equal. lia.
Qed.

Lemma holder_nonempty M id : wf_msp M → id ∈ MSP.Shareholders M → rows_of M [id] ≠ [].
Proof.
  unfold MSP.Shareholders. intros Hwf Hid%elem_of_dom. apply rows_of_nonempty; [done| |done].
  apply known_spec. by intros id' ->%list_elem_of_singleton.
Qed.

(** The rows of a holder cut out of a column over any group. *)
Lemma submatrix_holder {E} `{GroupElement E} M id (h : nat → E) :
  rows_of M [id] ≠ [] →
  SubMatrixGivenRows (mk (m (matrix M)) 1 (λ i _, h i)) (Z.of_nat <$> rows_of M [id])
  = Ok (mkMatrix (length (rows_of M [id])) 1 (h <$> rows_of M [id])).
Proof.
  intros Hne. unfold SubMatrixGivenRows. rewrite length_fmap.
  destruct (Nat.eqb_spec (length (rows_of M [id])) 0) as [|_]; [by destruct (rows_of M [id])|].
  rewrite (proj2 (forallb_forall _ _)).
  - f_equal. unfold mk at 1. cbn [n mk]. f_equal. rewrite Nat.mul_1_r.
    apply list_eq_total; autorewrite with bron_len; [done|].
    intros k Hk. rewrite tabulate_lookup_total by lia.
    rewrite Nat.div_1_r, Nat.mod_1_r.
    rewrite !fmap_lookup_total by done. rewrite Nat2Z.id.
    rewrite (at_mk _ _ (λ i _, h i) _ 0); [done| |lia].
    by apply selected_lookup in Hk as [_ ?].
  - intros z (i & -> & Hi)%list_elem_of_In%list_elem_of_fmap. apply in_range_nat.
    by apply elem_of_selected in Hi as [_ ?].
Qed.

Lemma ShareOf_ok M r c id :
  wf_msp M → (0 < n (matrix M))%nat → id ∈ MSP.Shareholders M →
  KW.ShareOf (KW.mkDealerFunc c M (mk (m (matrix M)) 1 (λ i _, lambda M r i))) id
  = Ok (share_of M r id).
Proof.
  intros Hwf Hn Hid. pose proof (holder_nonempty M id Hwf Hid) as Hne.
  unfold MSP.Shareholders in Hid. apply elem_of_dom in Hid as [rows Hrows].
  unfold KW.ShareOf. cbn [KW.dmsp KW.lambdaColumn].
  rewrite Hrows. destruct (holder_rows M id rows Hwf Hrows) as [-> _].
  by rewrite submatrix_holder.
Qed.
End theory.

Section assembling.
Context `{PrimeField F}.
Local Open Scope alg_scope.
Add Ring kwa_ring : (ring_laws (R:=F)).
Implicit Types (M : MSP F) (ids : list ID) (r : list F).

(** *** Assembling share columns *)

(** The shares whose values are [f] on the rows of their holders. *)
Definition shares_at M (f : nat → F) ids : list (KW.Share F) :=
  (λ id, KW.mkShare id (f <$> rows_of M [id])) <$> ids.

Lemma count_rows_ok M f ids acc :
  wf_msp M → known M ids = true →
  foldM (KW.count_rows M) acc (shares_at M f ids)
  = Ok (acc + length (id ← ids; rows_of M [id]))%nat.
Proof.
  intros Hwf. rewrite known_spec. revert acc.
  induction ids as [|id ids IH]; intros acc Hk; [cbn; by rewrite Nat.add_0_r|].
  destruct (Hk id) as [rows Hrows]; [constructor|].
  destruct (holder_rows M id rows Hwf Hrows) as [_ Hsz].
  cbn [shares_at fmap list_fmap foldM].
  assert (KW.count_rows M acc (KW.mkShare id (f <$> rows_of M [id]))
    = Ok (acc + length (rows_of M [id]))%nat) as ->.
  { unfold KW.count_rows. cbn [KW.sid KW.sv]. by rewrite Hrows, length_fmap, Hsz, Nat.eqb_refl. }
  cbn [mbind result_bind]. fold (shares_at M f ids). rewrite IH by (intros; apply Hk; by constructor).
  rewrite bind_cons, length_app. f_equal. lia.
Qed.

(** Writing the values of one share. *)
Lemma place_share (f : nat → F) (l rows : list nat) (k : nat) (acc : gmap Z F) :
  drop k rows = l →
  foldM (λ lambda '(i, z),
      match (f <$> rows) !! i with Some x => Ok (<[z := x]> lambda) | None => Panic end)
    acc (imap (λ i, pair (k + i)%nat) (Z.of_nat <$> l))
  = Ok (foldl (λ acc i, <[Z.of_nat i := f i]> acc) acc l).
Proof.
  revert k acc. induction l as [|i l IH]; intros k acc Hd; [done|].
  assert (rows !! k = Some i) as Hi.
  { rewrite <-(Nat.add_0_r k), <-lookup_drop, Hd. done. }
  cbn [fmap list_fmap imap foldM]. rewrite Nat.add_0_r, list_lookup_fmap, Hi.
  cbn [fmap option_fmap option_map mbind result_bind foldl].
  rewrite <-(IH (S k)).
  - f_equal. apply imap_ext. intros j z _. cbn. f_equal. lia.
  - by rewrite <-Nat.add_1_r, <-drop_drop, Hd.
Qed.

Lemma place_rows_ok M f ids acc :
  wf_msp M → known M ids = true →
  foldM (KW.place_rows M) acc (shares_at M f ids)
  = Ok (foldl (λ acc i, <[Z.of_nat i := f i]> acc) acc (id ← ids; rows_of M [id])).
Proof.
  intros Hwf. rewrite known_spec. revert acc.
  induction ids as [|id ids IH]; intros acc Hk; [done|].
  destruct (Hk id) as [rows Hrows]; [constructor|].
  destruct (holder_rows M id rows Hwf Hrows) as [Hs _].
  cbn [shares_at fmap list_fmap foldM].
  assert (KW.place_rows M acc (KW.mkShare id (f <$> rows_of M [id]))
    = Ok (foldl (λ acc i, <[Z.of_nat i := f i]> acc) acc (rows_of M [id]))) as ->.
  { unfold KW.place_rows. cbn [KW.sid KW.sv]. rewrite Hrows, Hs.
    apply (place_share f _ _ 0 acc (drop_0 _)). }
  fold (shares_at M f ids). cbn [mbind result_bind].
  rewrite IH by (intros; apply Hk; by constructor). by rewrite bind_cons, foldl_app.
Qed.

Lemma placed_lookup {A} (f : nat → A) (l : list nat) (z : Z) (acc : gmap Z A) :
  foldl (λ acc i, <[Z.of_nat i := f i]> acc) acc l !! z
  = if decide (z ∈ Z.of_nat <$> l) then Some (f (Z.to_nat z)) else acc !! z.
Proof.
  induction l as [|i l IH] using rev_ind; [done|].
  rewrite foldl_app. cbn [foldl]. destruct (decide (z = Z.of_nat i)) as [->|Hne].
  - rewrite lookup_insert_eq, Nat2Z.id, decide_True; [done|].
    rewrite fmap_app. apply elem_of_app. right. by apply list_elem_of_singleton.
  - rewrite lookup_insert_ne, IH by done. apply decide_ext.
    rewrite fmap_app, elem_of_app. cbn [fmap list_fmap]. rewrite list_elem_of_singleton. naive_solver.
Qed.

(** The map filled from the rows of distinct holders has exactly the rows of
    the coalition as keys. *)
Lemma placed_rows {A} M (f : nat → A) ids :
  NoDup ids →
  let lam : gmap Z A := foldl (λ acc i, <[Z.of_nat i := f i]> acc) ∅ (id ← ids; rows_of M [id]) in
  sort_rows (elements (dom lam : gset Z)) = Z.of_nat <$> rows_of M ids ∧
  ∀ i, i ∈ rows_of M ids → lam !! Z.of_nat i = Some (f i).
Proof.
  intros Hnd. cbv zeta. split.
  - apply sort_rows_selected; [apply NoDup_elements|]. intros z.
    rewrite elem_of_elements, elem_of_dom, placed_lookup, lookup_empty.
    case_decide as Hz; rewrite <-rows_of_bind in Hz by done.
    + split; [|done]. intros _. apply list_elem_of_fmap in Hz as (i & -> & Hi%elem_of_selected).
      exists i. naive_solver.
    + split; [by intros []|]. intros (i & Hi & Hm & ->). destruct Hz.
      apply list_elem_of_fmap. exists i. split; [done|]. by apply elem_of_selected.
  - intros i Hi. rewrite placed_lookup, decide_True, Nat2Z.id; [done|].
    rewrite <-rows_of_bind by done. apply list_elem_of_fmap. by exists i.
Qed.

Lemma SetAssign_column (pre rest : list F) (x y : F) (rows : nat) :
  (length pre < rows)%nat →
  SetAssign (mkMatrix rows 1 (pre ++ x :: rest)) (Z.of_nat (length pre)) 0 y
  = Ok (mkMatrix rows 1 (pre ++ y :: rest)).
Proof.
  intros Hp. unfold SetAssign. cbn [m n v].
  rewrite (proj2 (in_range_nat _ _)) by done. rewrite (proj2 (in_range_true _ _)) by lia.
  cbn [negb]. do 2 f_equal. unfold idx. cbn [n].
  replace (Z.to_nat (Z.of_nat (length pre)) * 1 + Z.to_nat 0)%nat with (length pre + 0)%nat by lia.
  by rewrite insert_app_r.
Qed.

(** Filling a zero column entry by entry. *)
Lemma fill_column (g : Z → F) (zs : list Z) (pre : list F) (rows : nat) :
  rows = (length pre + length zs)%nat →
  foldM (λ C '(i, z), SetAssign C (Z.of_nat i) 0 (g z))
    (mkMatrix rows 1 (pre ++ replicate (length zs) 0)) (imap (λ i, pair (length pre + i)%nat) zs)
  = Ok (mkMatrix rows 1 (pre ++ (g <$> zs))).
Proof.
  revert pre. induction zs as [|z zs IH]; intros pre Hp; cbn [length replicate imap foldM]; [done|].
  cbn [length] in Hp. rewrite Nat.add_0_r, SetAssign_column by lia. cbn [mbind result_bind].
  specialize (IH (pre ++ [g z])). rewrite <-!app_assoc in IH. cbn [app] in IH.
  rewrite length_app in IH. cbn [length] in IH. etransitivity; [|apply IH; lia].
  f_equal. apply imap_ext. intros j z' _. cbn. f_equal. lia.
Qed.

Lemma shareColumn_ok M f ids :
  wf_msp M → known M ids = true → ids ≠ [] → NoDup ids →
  KW.shareColumn M (shares_at M f ids)
  = Ok (mkMatrix (length (rows_of M ids)) 1 (f <$> rows_of M ids)).
Proof.
  intros Hwf Hk Hne Hnd. unfold KW.shareColumn.
  pose proof (rows_of_nonempty M ids Hwf Hk Hne) as Hr.
  rewrite count_rows_ok by done. rewrite <-rows_of_bind by done.
  assert (length (rows_of M ids) ≠ 0%nat) as Hr0 by (by destruct (rows_of M ids)).
  cbn [mbind result_bind]. rewrite NewMatrixModule_ok by (done || lia). cbn [mbind result_bind].
  rewrite place_rows_ok by done. cbn [mbind result_bind].
  destruct (placed_rows M f ids Hnd) as [-> Hlam]. set (lam := foldl _ _ _) in *.
  assert ((λ z, lam !!! z) <$> (Z.of_nat <$> rows_of M ids) = f <$> rows_of M ids) as Hvals.
  { rewrite <-list_fmap_compose. apply list_fmap_ext. intros k i Hi. cbn.
    apply lookup_total_correct, Hlam. by eapply list_elem_of_lookup_2. }
  pose proof (fill_column (λ z, lam !!! z) (Z.of_nat <$> rows_of M ids) []
    (length (rows_of M ids))) as E.
  rewrite Hvals, length_fmap in E. cbn [length Nat.add app] in E. rewrite <-E by done. f_equal.
  unfold OpIdentity, mk. f_equal. unfold tabulate.
  rewrite Nat.mul_1_r. apply list_eq_same_length with (length (rows_of M ids)); autorewrite with bron_len; [done..|].
  intros k x y Hk'. rewrite list_lookup_fmap, lookup_seq_lt, lookup_replicate_2 by done. cbn. congruence.
Qed.
(** *** Dealing and reconstruction *)

Lemma put_shares_ok M r (l : list ID) (acc : gmap ID (KW.Share F)) :
  wf_msp M → (0 < n (matrix M))%nat → (∀ id, id ∈ l → id ∈ MSP.Shareholders M) →
  ∀ c, ∃ shares : gmap ID (KW.Share F),
    foldM (KW.put_share (KW.mkDealerFunc c M (mk (m (matrix M)) 1 (λ i _, lambda M r i)))) acc l
    = Ok shares ∧
    ∀ id, shares !! id = if decide (id ∈ l) then Some (share_of M r id) else acc !! id.
Proof.
  intros Hwf Hn Hl c. revert acc. induction l as [|id l IH]; intros acc; [by exists acc|].
  destruct (IH (λ id' H', Hl id' (list_elem_of_further _ _ _ H')) (<[id := share_of M r id]> acc))
    as (shares & E & Hs).
  exists shares. split.
  - cbn [foldM]. rewrite <-E. unfold KW.put_share at 2.
    rewrite ShareOf_ok by (done || apply Hl; constructor). done.
  - intros id'. rewrite Hs. destruct (decide (id' ∈ l)) as [Hin|Hin].
    + by rewrite decide_True by (by constructor).
    + destruct (decide (id' = id)) as [->|Hne].
      * rewrite lookup_insert_eq, decide_True; [done|constructor].
      * rewrite lookup_insert_ne, decide_False; [done| |done].
        by intros [|]%elem_of_cons.
Qed.

(** What a dealing is: the entries of [M * r] for the sampled column with the
    secret in front. *)
Lemma Deal_shares {P} M (sampler : P → result (F * P)) secret prng :
  wf_msp M → (2 ≤ MSP.D M)%nat → (0 < m (matrix M))%nat →
  (∀ cs prng', random_coeffs sampler (MSP.D M) prng = Ok (cs, prng') →
    ∃ shares : gmap ID (KW.Share F),
      KW.DealAndRevealDealerFunc M sampler (Some secret) (Some prng)
      = Ok (shares, KW.mkDealerFunc (mkMatrix (MSP.D M) 1 (secret :: tail cs)) M
          (mk (m (matrix M)) 1 (λ i _, lambda M (secret :: tail cs) i)), prng') ∧
      ∀ id, shares !! id = if decide (id ∈ MSP.Shareholders M)
        then Some (share_of M (secret :: tail cs) id) else None) ∧
  (∀ out, KW.DealAndRevealDealerFunc M sampler (Some secret) (Some prng) = Ok out →
    is_ok (random_coeffs sampler (MSP.D M) prng) = true).
Proof.
  intros Hwf HD Hm. unfold MSP.D in *. split.
  - intros cs prng' Hcs. unfold KW.DealAndRevealDealerFunc. unfold MSP.D.
    rewrite NewMatrixModule_ok by lia. cbn [mbind result_bind]. unfold KW.random_column at 1.
    rewrite Nat.mul_1_r, Hcs. cbn [mbind result_bind].
    pose proof (random_coeffs_length _ _ _ _ _ Hcs) as Hl.
    rewrite NewRowMajor_ok by lia. cbn [mbind result_bind].
    destruct cs as [|c cs]; [cbn in Hl; lia|]. cbn [tail].
    pose proof (SetAssign_column [] cs c secret (n (matrix M)) ltac:(cbn; lia)) as Es.
    cbn [length app] in Es. change (Z.of_nat 0) with 0%Z in Es. rewrite Es. cbn [mbind result_bind].
    assert (length (secret :: cs) = n (matrix M)) as Hls by done.
    rewrite <-Hls, NewDealerFunc_ok by (done || cbn in *; lia). cbn [mbind result_bind].
    destruct (put_shares_ok M (secret :: cs) (elements (MSP.Shareholders M)) ∅ Hwf)
      with (c := mkMatrix (length (secret :: cs)) 1 (secret :: cs)) as (shares & E & Hs).
    + lia.
    + intros id. apply elem_of_elements.
    + exists shares. rewrite E. split; [done|]. intros id. rewrite Hs, lookup_empty.
      apply decide_ext, elem_of_elements.
  - intros out. unfold KW.DealAndRevealDealerFunc, MSP.D.
    rewrite NewMatrixModule_ok by lia. cbn [mbind result_bind]. unfold KW.random_column at 1.
    rewrite Nat.mul_1_r. by destruct (random_coeffs sampler (n (matrix M)) prng).
Qed.

Lemma share_ptrs_ok (l : list (KW.Share F)) : KW.share_ptrs (Some <$> l) = Ok l.
Proof. unfold KW.share_ptrs. apply mapM_ok. induction l; cbn; by constructor. Qed.

Lemma remove_dups_NoDup {A} `{EqDecision A} (l : list A) : NoDup l → remove_dups l = l.
Proof.
  induction 1 as [|x l Hx _ IH]; [done|]. cbn. case_decide as Hin; [|by rewrite IH].
  by destruct Hx.
Qed.

Lemma shares_at_ids M f ids : KW.sid <$> shares_at M f ids = ids.
Proof. unfold shares_at. rewrite <-list_fmap_compose. apply list_fmap_id. Qed.

Lemma shares_at_NoDup M f ids : NoDup ids → NoDup (shares_at M f ids).
Proof. intros Hnd. apply (NoDup_fmap_1 KW.sid). by rewrite shares_at_ids. Qed.

Lemma DotProduct_columns (a b : list F) (k : nat) :
  length a = k → k ≠ 0%nat →
  DotProduct (mkMatrix k 1 a) (mkMatrix k 1 b) = Ok (rsum k (λ i, a !!! i * b !!! i)).
Proof.
  intros Ha Hk.
  unfold DotProduct. rewrite scalar_structure_ok by (unfold wf; cbn; lia). cbn [mbind result_bind].
  assert (∀ l, vectorLength (mkMatrix k 1 l : Matrix F) = Z.of_nat k) as Hv.
  { intros l. unfold vectorLength, IsRowVector, IsColumnVector. cbn [m n].
    by destruct (Nat.eqb_spec k 1) as [->|]. }
  rewrite !Hv. destruct (Z.ltb_spec (Z.of_nat k) 0); [lia|].
  rewrite Z.eqb_refl. cbn [orb negb v]. by rewrite Nat2Z.id.
Qed.

Lemma Reconstruct_ok M r ids :
  wf_msp M → (0 < n (matrix M))%nat → NoDup ids → Accepts M ids = true →
  KW.Reconstruct M (Some <$> shares_at M (lambda M r) ids) = Ok (r !!! 0%nat).
Proof.
  intros Hwf Hn Hnd Ha. apply Accepts_spec in Ha as Hs; [|done..].
  destruct Hs as (Hk & Hne & x & Hx). unfold KW.Reconstruct.
  rewrite length_fmap. unfold shares_at at 1. rewrite length_fmap.
  destruct (Nat.eqb_spec (length ids) 0) as [?|_]; [by destruct ids|].
  rewrite share_ptrs_ok. cbn [mbind result_bind].
  rewrite remove_dups_NoDup, shares_at_ids by (by apply shares_at_NoDup).
  destruct (ReconstructionVector_spec M ids Hwf Hn Hne Hk) as [(w & -> & Hlw & Hw)|[_ [k Hsep]]].
  2:{ by destruct (spans_separates M ids x k). }
  cbn [mbind result_bind]. rewrite shareColumn_ok by done. cbn [mbind result_bind].
  pose proof (rows_of_nonempty M ids Hwf Hk Hne) as Hr.
  assert (length (rows_of M ids) ≠ 0%nat) as Hr0 by (by destruct (rows_of M ids)).
  rewrite DotProduct_columns by done. f_equal.
  rewrite <-(combine_lambda M ids (λ k, w !!! k) r Hn Hw). apply rsum_ext. intros k Hk'.
  f_equal. by apply fmap_lookup_total.
Qed.

(** Shares whose values are those of some column reconstruct its head. *)
Lemma Reconstruct_combined M (h : nat → F) (f : nat → F) ids :
  wf_msp M → (0 < n (matrix M))%nat → NoDup ids → Accepts M ids = true →
  (∀ i, f i = rsum (n (matrix M)) (λ j, at_ (matrix M) i j * h j)) →
  KW.Reconstruct M (Some <$> shares_at M f ids) = Ok (h 0%nat).
Proof.
  intros Hwf Hn Hnd Ha Hf.
  pose proof (Reconstruct_ok M (tabulate (n (matrix M)) h) ids Hwf Hn Hnd Ha) as E.
  rewrite tabulate_lookup_total in E by done. rewrite <-E. do 2 f_equal.
  apply list_fmap_ext. intros _ id _. f_equal. apply list_fmap_ext. intros _ i _.
  rewrite Hf. apply rsum_ext. intros j Hj. by rewrite tabulate_lookup_total.
Qed.

Lemma foldM_preserves {A B} (P : A → Prop) (f : A → B → result A) a l b :
  (∀ a x a', P a → f a x = Ok a' → P a') → P a → foldM f a l = Ok b → P b.
Proof.
  intros Hf. revert a. induction l as [|x l IH]; intros a Ha; cbn [foldM]; [by intros [= <-]|].
  intros (a' & E & E')%bind_ok. eapply IH; [|exact E']. by eapply Hf.
Qed.

Lemma shareColumn_rows M (l : list (KW.Share F)) k C :
  foldM (KW.count_rows M) 0%nat l = Ok k → KW.shareColumn M l = Ok C → m C = k ∧ n C = 1%nat.
Proof.
  intros Hk HC. unfold KW.shareColumn in HC. rewrite Hk in HC. cbn [mbind result_bind] in HC.
  apply bind_ok in HC as ([rows cols] & Hm & HC). apply bind_ok in HC as (lam & _ & HC).
  unfold NewMatrixModule in Hm. destruct (_ || _); [done|]. injection Hm as <- <-.
  apply (foldM_preserves (λ C : Matrix F, m C = k ∧ n C = 1%nat)) in HC; [done| |done].
  intros A [i z] A' [HA1 HA2]. unfold SetAssign.
  destruct (negb _); [done|]. destruct (negb _); [done|]. by intros [= <-].
Qed.

Lemma remove_dups_shorter {A B} `{EqDecision A} (g : A → list B) (l : list A) :
  (∀ x, x ∈ l → g x ≠ []) → ¬ NoDup l →
  (length (remove_dups l ≫= g) < length (l ≫= g))%nat.
Proof.
  intros Hg. assert (∀ l, (∀ x, x ∈ l → g x ≠ []) →
    (length (remove_dups l ≫= g) ≤ length (l ≫= g))%nat) as Hle.
  { clear. induction l as [|x l IH]; intros Hg; [done|]. rewrite bind_cons, length_app.
    cbn [remove_dups]. specialize (IH (λ y Hy, Hg y (list_elem_of_further _ _ _ Hy))).
    case_decide; [lia|]. rewrite bind_cons, length_app. lia. }
  induction l as [|x l IH]; intros Hnd; [by destruct Hnd; constructor|].
  assert (∀ y, y ∈ l → g y ≠ []) as Hl by (intros y Hy; apply Hg; by constructor).
  rewrite bind_cons, length_app. cbn [remove_dups]. case_decide as Hx.
  - specialize (Hle l Hl). specialize (Hg x (list_elem_of_here _ _)).
    destruct (g x) as [|y k]; [done|]. cbn. lia.
  - rewrite bind_cons, length_app. apply Nat.add_lt_mono_l, IH; [done|].
    intros Hnd'. apply Hnd. by constructor.
Qed.

(** Repeating a share never yields a secret: the column gets longer than the
    reconstruction vector. *)
Lemma Reconstruct_repeated M f ids x :
  wf_msp M → (0 < n (matrix M))%nat →
  KW.Reconstruct M (Some <$> shares_at M f ids) = Ok x → NoDup ids.
Proof.
  intros Hwf Hn E. destruct (decide (NoDup ids)) as [|Hnd]; [done|exfalso].
  unfold KW.Reconstruct in E. destruct (_ =? 0)%nat; [done|].
  rewrite share_ptrs_ok in E. cbn [mbind result_bind] in E.
  set (ids' := KW.sid <$> remove_dups (shares_at M f ids)) in E.
  assert (∀ id, id ∈ ids' ↔ id ∈ ids) as Hids.
  { intros id. unfold ids'. rewrite list_elem_of_fmap. setoid_rewrite elem_of_remove_dups.
    rewrite <-(shares_at_ids M f ids) at 1. rewrite list_elem_of_fmap. naive_solver. }
  apply bind_ok in E as (w & Hw & E). apply bind_ok in E as (C & HC & E).
  destruct (known M ids') eqn:Hk; [|by rewrite ReconstructionVector_unknown in Hw by auto].
  destruct (decide (ids' = [])) as [Hnil|Hne]; [by rewrite ReconstructionVector_unknown in Hw by auto|].
  destruct (ReconstructionVector_spec M ids' Hwf Hn Hne Hk) as [(w' & E' & _)|[E' _]]; [|congruence].
  rewrite E' in Hw. injection Hw as <-.
  assert (known M ids = true) as Hk'.
  { apply known_spec. intros id Hid. rewrite known_spec in Hk. by apply Hk, Hids. }
  destruct (shareColumn_rows M _ _ C (count_rows_ok M f ids 0 Hwf Hk') HC) as [Hm Hcols].
  cbn [Nat.add] in Hm. unfold DotProduct in E. apply bind_ok in E as (? & _ & E).
  destruct (_ || _); [done|]. destruct (Z.eqb_spec (vectorLength (mkMatrix (length (rows_of M ids')) 1 w'))
    (vectorLength C)) as [Hlen|]; [|done].
  assert (∀ A : Matrix F, n A = 1%nat → vectorLength A = Z.of_nat (m A)) as Hv.
  { intros A HA. unfold vectorLength, IsRowVector, IsColumnVector. rewrite HA.
    by destruct (Nat.eqb_spec (m A) 1) as [->|]. }
  rewrite !Hv in Hlen by done. cbn [m] in Hlen. rewrite Hm in Hlen. apply Nat2Z.inj in Hlen.
  rewrite (rows_of_ext M (remove_dups ids) ids') in Hlen
    by (intros id; by rewrite elem_of_remove_dups).
  rewrite rows_of_bind in Hlen by apply NoDup_remove_dups.
  assert (length (remove_dups ids ≫= λ id, rows_of M [id]) < length (ids ≫= λ id, rows_of M [id]))%nat;
    [|lia].
  apply remove_dups_shorter; [|done]. intros id Hid. apply rows_of_nonempty; [done| |done].
  rewrite known_spec in Hk' |- *. intros id' ->%list_elem_of_singleton. by apply Hk'.
Qed.

Lemma Reconstruct_rejected M (shares : list (KW.Share F)) :
  wf_msp M → (0 < n (matrix M))%nat → Accepts M (KW.sid <$> remove_dups shares) = false →
  KW.Reconstruct M (Some <$> shares) = Err ErrValue ∨ KW.Reconstruct M (Some <$> shares) = Err ErrFailed.
Proof.
  intros Hwf Hn Ha. unfold KW.Reconstruct. destruct (_ =? 0)%nat; [by left|].
  rewrite share_ptrs_ok. cbn [mbind result_bind]. set (ids := KW.sid <$> _) in *.
  destruct (decide (known M ids = true ∧ ids ≠ [])) as [[Hk Hne]|Hu].
  - destruct (ReconstructionVector_spec M ids Hwf Hn Hne Hk) as [(w & E & _)|[-> _]]; [|by right].
    unfold Accepts in Ha. by rewrite E in Ha.
  - left. rewrite ReconstructionVector_unknown; [done|].
    destruct (known M ids); [|by left]. right. destruct (decide (ids = [])); [done|naive_solver].
Qed.
End assembling.

(** ** Conversion to additive shares *)

(** [BinarySearch] finds the position of an element of a strictly sorted
    slice. *)
Lemma filter_lt_sorted (l : list Z) k x :
  StronglySorted Z.le l → NoDup l → l !! k = Some x → length (filter (λ y, (y < x)%Z) l) = k.
Proof.
  intros Hs. revert k. induction Hs as [|y l Hs IH Hy]; intros k Hnd Hk; [done|].
  apply NoDup_cons in Hnd as [Hn Hnd]. rewrite filter_cons. rewrite Forall_forall in Hy.
  destruct k as [|k]; cbn in Hk.
  - injection Hk as <-. rewrite decide_False by lia.
    assert (filter (λ z, (z < y)%Z) l = []) as ->; [|done].
    apply elem_of_nil_inv. intros z. rewrite list_elem_of_filter. intros [Hz Hin].
    specialize (Hy z Hin). lia.
  - pose proof (list_elem_of_lookup_2 _ _ _ Hk) as Hin. specialize (Hy x Hin).
    rewrite decide_True.
    + cbn. f_equal. by apply IH.
    + assert (y ≠ x) by (intros ->; done). lia.
Qed.

Lemma BinarySearch_found (l : list Z) k x :
  StronglySorted Z.le l → NoDup l → l !! k = Some x → KW.BinarySearch l x = (k, true).
Proof.
  intros Hs Hnd Hk. unfold KW.BinarySearch. rewrite (filter_lt_sorted l k x) by done.
  f_equal. by apply bool_decide_eq_true_2.
Qed.

Section conversion.
Context `{PrimeField F}.
Local Open Scope alg_scope.
Add Ring kwc_ring : (ring_laws (R:=F)).
Implicit Types (M : MSP F) (ids : list ID) (q : Unanimity.Unanimity).

Lemma quorum_rows M ids acc :
  (∀ id, id ∈ ids → is_Some (holdersToRows M !! id)) →
  foldM (λ rows id,
    match holdersToRows M !! id with
    | Some rowsID => Ok (rows ++ elements rowsID)
    | None => Err ErrMembership
    end) acc ids
  = Ok (acc ++ (id ← ids; elements (default ∅ (holdersToRows M !! id)))).
Proof.
  revert acc. induction ids as [|id ids IH]; intros acc Hl; [by cbn; rewrite app_nil_r|].
  destruct (Hl id) as [rows Hrows]; [constructor|].
  cbn [foldM]. rewrite bind_cons, Hrows. cbn [mbind result_bind default].
  rewrite IH by (intros; apply Hl; by constructor). by rewrite <-app_assoc.
Qed.

(** Sums over slices of row indices. *)
Lemma lsum_big (h : nat → F) (l : list nat) :
  lbig radd 0 h l = rsum (length l) (λ i, h (l !!! i)).
Proof. apply lbig_big; intros; ring. Qed.

Lemma lsum_perm (h : nat → F) (l k : list nat) : l ≡ₚ k → lbig radd 0 h l = lbig radd 0 h k.
Proof. apply lbig_perm; intros; ring. Qed.

Lemma lbig_bind {A B} (h : B → F) (g : A → list B) (l : list A) :
  lbig radd 0 h (x ← l; g x) = lbig radd 0 (λ x, lbig radd 0 h (g x)) l.
Proof.
  induction l as [|x l IH]; [done|]. rewrite bind_cons, (lbig_cons radd 0) by (intros; ring).
  rewrite <-IH. unfold lbig. rewrite foldl_app. fold (lbig radd 0 h (g x)).
  generalize (lbig radd 0 h (g x)) as a, (l ≫= λ x, g x) as k. intros a k. clear IH.
  assert (∀ b, foldl (λ acc x, acc + h x) (a + b) k = a + foldl (λ acc x, acc + h x) b k) as Hf.
  { induction k as [|y k IH]; intros b; cbn; [done|]. by rewrite <-radd_assoc, IH. }
  etransitivity; [|apply (Hf 0)]. f_equal. ring.
Qed.

(** The additive share a holder gets for the coefficients [y] of its rows. *)
Definition additive_value M (y f : nat → F) (id : ID) : F :=
  lbig radd 0 (λ i, y i * f i) (rows_of M [id]).

(** Picking the coefficients of the rows [l] out of those of [rows]. *)
Lemma pick_coefficients (rows l : list nat) (w : list F) (y : nat → F) :
  StronglySorted Z.le (Z.of_nat <$> rows) → NoDup rows → length w = length rows → l ≠ [] →
  (∀ k, (k < length rows)%nat → y (rows !!! k) = w !!! k) → (∀ i, i ∈ l → i ∈ rows) →
  ∃ ps, mapM (λ absRow, let '(pos, found) := KW.BinarySearch (Z.of_nat <$> rows) absRow in
          if found then Ok (Z.of_nat pos) else Err ErrFailed) (Z.of_nat <$> l) = Ok ps ∧
    ∃ u, SubMatrixGivenRows (mkMatrix (length rows) 1 w) ps = Ok (mkMatrix (length l) 1 u) ∧
      length u = length l ∧ ∀ j, (j < length l)%nat → u !!! j = y (l !!! j).
Proof.
  intros Hs Hnd Hw Hne Hy Hl.
  set (pos := λ i, fst (KW.BinarySearch (Z.of_nat <$> rows) (Z.of_nat i))).
  assert (∀ i, i ∈ l → KW.BinarySearch (Z.of_nat <$> rows) (Z.of_nat i) = (pos i, true) ∧
    rows !! pos i = Some i) as Hpos.
  { intros i [k Hk]%Hl%list_elem_of_lookup.
    assert (KW.BinarySearch (Z.of_nat <$> rows) (Z.of_nat i) = (k, true)) as E.
    { apply BinarySearch_found; [done|by apply NoDup_fmap; [apply _|]|].
      by rewrite list_lookup_fmap, Hk. }
    unfold pos. by rewrite E. }
  exists ((λ i, Z.of_nat (pos i)) <$> l). split.
  { apply mapM_ok. apply Forall2_fmap, Forall_Forall2_diag, Forall_forall. intros i Hi.
    by destruct (Hpos i Hi) as [-> _]. }
  unfold SubMatrixGivenRows. rewrite length_fmap.
  destruct (Nat.eqb_spec (length l) 0) as [?|_]; [by destruct l|].
  rewrite (proj2 (forallb_forall _ _)).
  - eexists. split; [done|]. cbn [v mk m n]. rewrite Nat.mul_1_r. split; [by rewrite length_tabulate|].
    intros j Hj. rewrite tabulate_lookup_total by done. rewrite Nat.div_1_r.
    rewrite (fmap_lookup_total (λ i, Z.of_nat (pos i))) by done. rewrite Nat2Z.id.
    destruct (Hpos (l !!! j)) as [_ Hp]; [by apply list_elem_of_lookup_total_2|].
    pose proof (lookup_lt_Some _ _ _ Hp) as Hlt. rewrite <-(list_lookup_total_correct _ _ _ Hp) at 2.
    rewrite Hy by done. unfold at_, idx. cbn. f_equal. lia.
  - intros z (i & -> & Hi)%list_elem_of_In%list_elem_of_fmap. apply in_range_nat. cbn.
    destruct (Hpos i Hi) as [_ Hp]. by eapply lookup_lt_Some.
Qed.

Lemma Convert_ok M q f id :
  wf_msp M → (0 < n (matrix M))%nat → 0%N ∉ Unanimity.ps q → id ∈ Unanimity.ps q →
  Accepts M (elements (Unanimity.ps q)) = true →
  ∀ w, length w = length (rows_of M (elements (Unanimity.ps q))) →
  ReconstructionVector M (elements (Unanimity.ps q))
    = Ok (mkMatrix (length (rows_of M (elements (Unanimity.ps q)))) 1 w) →
  ∀ y, (∀ k, (k < length (rows_of M (elements (Unanimity.ps q))))%nat →
          y (rows_of M (elements (Unanimity.ps q)) !!! k) = w !!! k) →
  KW.ConvertShareToAdditive M (Some (KW.mkShare id (f <$> rows_of M [id]))) (Some q)
  = Ok (mkAShare id (additive_value M y f id)).
Proof.
  set (ids := elements (Unanimity.ps q)). intros Hwf Hn H0 Hid Ha w Hw Hrec y Hy.
  apply Accepts_spec in Ha as (Hk & Hne & _); [|done..].
  assert (id ∈ ids) as Hin by (by apply elem_of_elements).
  destruct (proj1 (known_spec M ids) Hk id Hin) as [rows Hrows].
  assert (known M [id] = true) as Hk1.
  { apply known_spec. intros id' ->%list_elem_of_singleton. by eexists. }
  unfold KW.ConvertShareToAdditive. cbn [KW.sid].
  rewrite bool_decide_false by tauto. cbv zeta. fold ids. rewrite Hrec. cbn [mbind result_bind].
  pose proof (shareColumn_ok M f [id] Hwf Hk1 ltac:(done) (NoDup_singleton _)) as Hcol.
  cbn [shares_at fmap list_fmap] in Hcol. rewrite Hcol. cbn [mbind result_bind].
  rewrite quorum_rows by (apply known_spec, Hk). cbn [app mbind result_bind].
  rewrite sorted_holder_rows; [|done|apply NoDup_elements|by apply known_spec].
  rewrite Hrows. destruct (holder_rows M id rows Hwf Hrows) as [-> _].
  pose proof (rows_of_nonempty M [id] Hwf Hk1 ltac:(done)) as Hne1.
  destruct (pick_coefficients (rows_of M ids) (rows_of M [id]) w y) as (ps & -> & u & E & Hu & Huy);
    [apply selected_sorted|apply NoDup_selected|done|done|done| |].
  { intros i Hi. apply elem_rows_of. by exists id. }
  cbn [mbind result_bind]. rewrite E. cbn [mbind result_bind].
  rewrite DotProduct_columns by (done || by destruct (rows_of M [id])). cbn [mbind result_bind].
  assert (rsum (length (rows_of M [id])) (λ i, u !!! i * (f <$> rows_of M [id]) !!! i)
    = additive_value M y f id) as ->.
  { unfold additive_value. rewrite lsum_big. apply rsum_ext.
    intros i Hi. rewrite Huy by done. f_equal. by apply fmap_lookup_total. }
  apply NewShare_ok; [done|]. by intros ->.
Qed.

Lemma additive_values_sum M (y f : nat → F) ids :
  NoDup ids →
  foldl radd 0 (additive_value M y f <$> ids)
  = rsum (length (rows_of M ids)) (λ k, y (rows_of M ids !!! k) * f (rows_of M ids !!! k)).
Proof.
  intros Hnd. rewrite <-(lsum_big (λ i, y i * f i)).
  rewrite (lsum_perm _ _ _ (rows_of_bind M ids Hnd)), lbig_bind.
  clear Hnd. fold (additive_value M y f). generalize (additive_value M y f) as h.
  intros h. unfold lbig. generalize 0 as a.
  induction ids as [|id ids IH]; intros a; [done|]. cbn. apply IH.
Qed.
End conversion.

Section privacy.
Context `{PrimeField F}.
Local Open Scope alg_scope.
Add Ring kwp_ring : (ring_laws (R:=F)).
Implicit Types (M : MSP F) (ids : list ID) (r : list F).

(** What the dealer hands to [id] for the random column [r]. *)
Definition dealt M r (id : ID) : result (KW.Share F) :=
  df ← KW.NewDealerFunc (Some (mkMatrix (length r) 1 r)) (Some M); KW.ShareOf df id.

Lemma dealt_ok M r id :
  wf_msp M → (0 < m (matrix M))%nat → (2 ≤ MSP.D M)%nat → length r = MSP.D M →
  id ∈ MSP.Shareholders M → dealt M r id = Ok (share_of M r id).
Proof.
  unfold MSP.D. intros Hwf Hm HD Hl Hid. unfold dealt.
  rewrite NewDealerFunc_ok by (done || lia). cbn [mbind result_bind].
  apply ShareOf_ok; [done|lia|done].
Qed.

(** Moving a column along [k] by [d]. *)
Definition shift (k : nat → F) (d : F) r : list F :=
  tabulate (length r) (λ j, r !!! j + d * k j).

Lemma shift_back k d d' r : d + d' = 0 → shift k d' (shift k d r) = r.
Proof.
  intros Hd. unfold shift. rewrite length_tabulate.
  transitivity (tabulate (length r) (λ j, r !!! j)); [|apply tabulate_total].
  apply tabulate_ext. intros j Hj. rewrite tabulate_lookup_total by done.
  replace (r !!! j + d * k j + d' * k j) with (r !!! j + (d + d') * k j) by ring.
  rewrite Hd. ring.
Qed.

Lemma shift_shares M ids k d r id :
  separates M ids k → length r = n (matrix M) → id ∈ ids → share_of M (shift k d r) id = share_of M r id.
Proof.
  intros [_ Hk] Hl Hid. unfold share_of. f_equal. apply list_fmap_ext. intros p i Hi.
  apply list_elem_of_lookup_2 in Hi.
  assert (i ∈ rows_of M ids) as Hi' by (apply elem_rows_of; by exists id).
  apply elem_of_selected in Hi' as [Ho Hi'].
  transitivity (lambda M r i + d * rsum (n (matrix M)) (λ j, at_ (matrix M) i j * k j)).
  - unfold lambda. rewrite rsum_mul_l, <-rsum_add. apply rsum_ext. intros j Hj.
    unfold shift. rewrite tabulate_lookup_total by lia. ring.
  - rewrite (Hk i Hi' Ho). ring.
Qed.

Lemma rejected_separates M ids :
  wf_msp M → (0 < n (matrix M))%nat → known M ids = true → Accepts M ids = false →
  ∃ k, separates M ids k.
Proof.
  intros Hwf Hn Hk Ha. apply Accepts_false in Ha as [?| [->|?]]; [congruence| |done..].
  exists (λ j, if decide (j = 0%nat) then 1 else 0). split; [done|].
  intros i _. unfold owned. by destruct (rowsToHolders M !! Z.of_nat i).
Qed.
End privacy.

(** ** Properties *)

Section properties.
Context `{PrimeField F}.
Local Open Scope alg_scope.
Add Ring kwq_ring : (ring_laws (R:=F)).
Implicit Types (M : MSP F) (ids : list ID) (r : list F) (s : F).

(** Dealing over a programme with at least two columns succeeds whenever
    the sampler does.  It gives every shareholder, and nobody else, the
    entries of [M * r] at its rows, where [r] is the sampled column with the
    secret in front, and the dealer function reveals that secret.  Over a
    programme with a single column dealing always fails with [ErrValue]. *)
Theorem KW_Deal_correct {P} M (sampler : P → result (F * P)) s prng cs prng' :
  wf_msp M → (0 < m (matrix M))%nat → random_coeffs sampler (MSP.D M) prng = Ok (cs, prng') →
  ((2 ≤ MSP.D M)%nat →
     ∃ shares df, KW.DealAndRevealDealerFunc M sampler (Some s) (Some prng) = Ok (shares, df, prng') ∧
       dom shares = MSP.Shareholders M ∧
       (∀ id sh, shares !! id = Some sh → sh = share_of M (s :: tail cs) id) ∧
       KW.Secret df = Ok s) ∧
  (MSP.D M = 1%nat → KW.Deal M sampler (Some s) (Some prng) = Err ErrValue) ∧
  KW.Deal M sampler None (Some prng) = Err ErrIsNil ∧ KW.Deal M sampler (Some s) None = Err ErrIsNil.
Proof.
  intros Hwf Hm Hcs. pose proof (random_coeffs_length _ _ _ _ _ Hcs) as Hl.
  split_and!; [| |done|done].
  - intros HD. destruct (Deal_shares M sampler s prng Hwf HD Hm) as [Hok _].
    destruct (Hok cs prng' Hcs) as (shares & E & Hs). eexists _, _. split; [exact E|]. split_and!.
    + apply set_eq. intros id. rewrite elem_of_dom, Hs. case_decide; [|by split; [intros []|]].
      split; [done|by eexists].
    + intros id sh. rewrite Hs. by case_decide; [intros [= <-]|].
    + unfold KW.Secret. cbn [KW.dmsp KW.randomColumn]. unfold MSP.D in *.
      destruct (TargetVector_ok M) as (t & Et & Ht1 & Htn & Ht); [lia|]. rewrite Et. cbn [mbind result_bind].
      unfold TryMul. cbn [m n]. rewrite Htn, Nat.eqb_refl. cbn [negb].
      rewrite scalar_structure_ok; [| |lia|lia].
      2:{ by apply (TargetVector_wf M). }
      cbn [mbind result_bind]. unfold Get. cbn [m n mk]. rewrite Ht1.
      assert (in_range 0 1 = true) as -> by done. cbn [andb negb].
      rewrite at_mk by lia. f_equal.
      change s with ((s :: tail cs) !!! 0%nat) at 2. change (Z.to_nat 0) with 0%nat.
      rewrite <-(rsum_delta (n (matrix M)) 0 (λ j, (s :: tail cs) !!! j)) by lia.
      apply rsum_ext. intros j Hj. rewrite Ht by done. f_equal. unfold at_, idx. cbn [v n].
      f_equal. lia.
  - intros HD. unfold KW.Deal, KW.DealAndRevealDealerFunc. rewrite HD in *.
    rewrite NewMatrixModule_ok by done. cbn [mbind result_bind]. unfold KW.random_column at 1.
    rewrite Nat.mul_1_r, Hcs. cbn [mbind result_bind]. rewrite NewRowMajor_ok by lia.
    cbn [mbind result_bind]. by destruct cs as [|c [|]].
Qed.

(** C3. Reconstruction: for any dealing, the shares of distinct holders
    give back the secret exactly when the programme accepts the holders, in
    any order; a rejected collection of shares, however it was made, is an
    error and never a wrong secret. *)
Theorem KW_Reconstruct_correct {P} M (sampler : P → result (F * P)) s prng shares prng' ids :
  wf_msp M → (0 < m (matrix M))%nat → (2 ≤ MSP.D M)%nat →
  KW.Deal M sampler (Some s) (Some prng) = Ok (shares, prng') → NoDup ids →
  (KW.CanReconstruct M ids = true →
     ∃ l, Forall2 (λ id sh, shares !! id = Some sh) ids l ∧ KW.Reconstruct M (Some <$> l) = Ok s) ∧
  (∀ l, KW.CanReconstruct M (KW.sid <$> remove_dups l) = false →
     KW.Reconstruct M (Some <$> l) = Err ErrValue ∨ KW.Reconstruct M (Some <$> l) = Err ErrFailed).
Proof.
  intros Hwf Hm HD Hd Hnd. split.
  2:{ intros l. apply Reconstruct_rejected; [done|]. unfold MSP.D in HD. lia. }
  intros Ha. unfold KW.Deal in Hd. apply bind_ok in Hd as ([[shares1 df] p1] & Hd & [= -> <-]).
  destruct (Deal_shares M sampler s prng Hwf HD Hm) as [Hok Hcs].
  destruct (proj1 (is_ok_true _) (Hcs _ Hd)) as [[cs p2] Hr].
  destruct (Hok cs p2 Hr) as (shares' & E & Hs). rewrite E in Hd.
  assert (shares' = shares) as -> by congruence.
  unfold MSP.D in HD. exists (shares_at M (lambda M (s :: tail cs)) ids). split.
  - apply Forall2_fmap_r, Forall_Forall2_diag, Forall_forall. intros id Hid. cbn.
    rewrite Hs, decide_True; [done|]. unfold KW.CanReconstruct in Ha.
    apply Accepts_spec in Ha as (Hk & _); [|done|lia]. rewrite known_spec in Hk.
    apply elem_of_dom, (Hk id Hid).
  - by rewrite Reconstruct_ok by (done || lia).
Qed.

(** C2. Perfect privacy: for a coalition of shareholders the programme
    rejects and any two secrets, there is a bijection between the random
    columns dealing the one and those dealing the other under which every
    member of the coalition gets the same share. *)
Theorem KW_privacy M ids s s' :
  wf_msp M → (0 < m (matrix M))%nat → (2 ≤ MSP.D M)%nat →
  known M ids = true → KW.CanReconstruct M ids = false →
  ∃ g g' : list F → list F,
    (∀ r, length r = MSP.D M → r !!! 0%nat = s →
       length (g r) = MSP.D M ∧ g r !!! 0%nat = s' ∧ g' (g r) = r ∧
       ∀ id, id ∈ ids → dealt M (g r) id = dealt M r id ∧ is_ok (dealt M r id) = true) ∧
    (∀ r, length r = MSP.D M → r !!! 0%nat = s' →
       length (g' r) = MSP.D M ∧ g' r !!! 0%nat = s ∧ g (g' r) = r).
Proof.
  intros Hwf Hm HD Hk Ha. unfold MSP.D in HD.
  destruct (rejected_separates M ids Hwf ltac:(lia) Hk Ha) as [k Hsep].
  assert (∀ d r, length r = n (matrix M) → length (shift k d r) = n (matrix M) ∧
    shift k d r !!! 0%nat = r !!! 0%nat + d) as Hg.
  { intros d r Hl. unfold shift. rewrite length_tabulate. split; [done|].
    rewrite tabulate_lookup_total by lia. destruct Hsep as [-> _]. ring. }
  exists (shift k (s' - s)), (shift k (s - s')). unfold MSP.D. split; intros r Hl Hr.
  - destruct (Hg (s' - s) r Hl) as [Hl' Hr']. split_and!; [done|rewrite Hr', Hr; ring| |].
    { apply shift_back. ring. }
    intros id Hid.
    assert (id ∈ MSP.Shareholders M) as Hsh.
    { rewrite known_spec in Hk. apply elem_of_dom, (Hk id Hid). }
    rewrite !dealt_ok by (done || unfold MSP.D; lia). split; [|done].
    by rewrite (shift_shares M ids).
  - destruct (Hg (s - s') r Hl) as [Hl' Hr']. split_and!; [done|rewrite Hr', Hr; ring|].
    apply shift_back. ring.
Qed.

(** The scheme is linear: adding two shares of the same holder, or
    scaling one by the big-endian bytes of an integer, gives the share of the
    sum, or multiple, of the random columns; so reconstruction from
    accepted holders returns the sum, or multiple, of the secrets. *)
Theorem KW_linear M r r' (b : list N) ids :
  wf_msp M → (0 < n (matrix M))%nat → length r = n (matrix M) → length r' = n (matrix M) →
  bytes_ok b → NoDup ids → Accepts M ids = true →
  let f := λ i, lambda M r i + lambda M r' i in
  let c := from_uint64 (Z.of_N (bytesBE_val b)) in
  let g := λ i, lambda M r i * c in
  mapM (λ id, KW.Add (share_of M r id) (share_of M r' id)) ids = Ok (shares_at M f ids) ∧
  KW.Reconstruct M (Some <$> shares_at M f ids) = Ok (r !!! 0%nat + r' !!! 0%nat) ∧
  (λ id, KW.ScalarMul (share_of M r id) b) <$> ids = shares_at M g ids ∧
  KW.Reconstruct M (Some <$> shares_at M g ids) = Ok (r !!! 0%nat * c).
Proof.
  intros Hwf Hn Hl Hl' Hb Hnd Ha f c g. split_and!.
  - apply mapM_ok. apply Forall2_fmap_r, Forall_Forall2_diag, Forall_forall. intros id _.
    unfold KW.Add, share_of. cbn [KW.sid KW.sv]. rewrite N.eqb_refl, !length_fmap, Nat.eqb_refl.
    cbn [negb]. do 2 f_equal. rewrite zip_with_fmap_l, zip_with_fmap_r. by rewrite zip_with_diag.
  - rewrite (Reconstruct_combined M (λ j, r !!! j + r' !!! j)) by
      (try done; intros i; unfold f, lambda; rewrite <-rsum_add; apply rsum_ext; intros j _; ring).
    done.
  - unfold shares_at. apply list_fmap_ext. intros _ id _. unfold KW.ScalarMul, share_of.
    cbn [KW.sid KW.sv]. f_equal. rewrite <-list_fmap_compose. apply list_fmap_ext. intros _ i _.
    cbn. by rewrite scalarMul_gmul, gmul_from_uint64, N_nat_Z.
  - rewrite (Reconstruct_combined M (λ j, r !!! j * c)) by
      (try done; intros i; unfold g, lambda; rewrite rsum_mul_r; apply rsum_ext; intros j _; ring).
    done.
Qed.
(** C4. Conversion: over a unanimity structure whose holders the programme
    accepts, every member's share converts to an additive share of that
    member, and additive reconstruction of the converted shares, in any order,
    returns the secret of the random column; a share of a non-member is
    rejected. *)
Theorem KW_Convert_correct M r (qs : gset ID) q :
  wf_msp M → (0 < n (matrix M))%nat → Unanimity.NewUnanimityAccessStructure (Some qs) = Ok q →
  Accepts M (elements qs) = true →
  (∃ a : ID → F,
     (∀ id, id ∈ qs →
        KW.ConvertShareToAdditive M (Some (share_of M r id)) (Some q) = Ok (mkAShare id (a id))) ∧
     ∀ l : list (AdditiveShare F), (aid <$> l) ≡ₚ elements qs → (∀ x, x ∈ l → av x = a (aid x)) →
       Additive.Reconstruct q (Some <$> l) = Ok (r !!! 0%nat)) ∧
  (∀ sh, KW.sid sh ∉ qs → KW.ConvertShareToAdditive M (Some sh) (Some q) = Err ErrMembership).
Proof.
  intros Hwf Hn Hq Ha. unfold Unanimity.NewUnanimityAccessStructure in Hq.
  destruct (Nat.ltb_spec (size qs) 2) as [|Hsz]; [done|].
  case_bool_decide as H0; [done|]. injection Hq as <-. split.
  2:{ intros sh Hsh. unfold KW.ConvertShareToAdditive. by rewrite bool_decide_true. }
  apply Accepts_spec in Ha as Hs; [|done..]. destruct Hs as (Hk & Hne & x & Hx).
  destruct (ReconstructionVector_spec M (elements qs) Hwf Hn Hne Hk)
    as [(w & Hrec & Hlw & Hw)|[_ [k Hsep]]]; [|by destruct (spans_separates M (elements qs) x k)].
  destruct (by_position M (elements qs) w Hlw) as [y Hy].
  exists (additive_value M y (lambda M r)). split.
  - intros id Hid. by apply (Convert_ok M (Unanimity.mkUnanimity qs) _ id Hwf Hn H0 Hid Ha w).
  - intros l Hl Hav. rewrite Reconstruct_sum; [|done|].
    2:{ intros E. cbn in E. by rewrite E in Hne. }
    f_equal. transitivity (foldl radd 0 (additive_value M y (lambda M r) <$> elements qs)).
    + transitivity (foldl gop gid (additive_value M y (lambda M r) <$> (aid <$> l))).
      * f_equal. rewrite <-list_fmap_compose. apply list_fmap_ext. intros i s' Hs'. cbn.
        by apply Hav, (list_elem_of_lookup_2 _ i).
      * change (foldl radd 0) with (foldl (gop (E:=F)) gid). apply (foldl_gop_perm (E:=F)). by rewrite Hl.
    + rewrite additive_values_sum by apply NoDup_elements.
      rewrite <-(combine_lambda M (elements qs) (λ k, w !!! k) r Hn Hw).
      apply rsum_ext. intros i Hi. by rewrite Hy.
Qed.
End properties.

(** ** Examples *)

(** A 2-of-3 programme with rows (1, 1), (1, 2), (1, 3) of holders 4, 7, 9. *)
Definition ex_kw_A : Matrix fp101 := mkMatrix 3 2 (f101 <$> [1; 1; 1; 2; 1; 3]%Z).

Definition ex_sampler (p : Z) : result (fp101 * Z) := Ok (f101 p, (p + 3)%Z).

Lemma ex_kw_msp :
  ∃ M : MSP fp101, NewMSP (Some ex_kw_A) (Some (label_rows [4; 7; 9]%N)) = Ok M ∧ wf_msp M ∧
    m (matrix M) = 3 ∧ n (matrix M) = 2 ∧
    Accepts M [9; 4]%N = true ∧ Accepts M (elements ({[4; 9]}%N : gset ID)) = true ∧
    known M [9]%N = true ∧ Accepts M [9]%N = false ∧
    (∃ shares, KW.Deal M ex_sampler (Some (f101 7)) (Some 40%Z) = Ok (shares, 46%Z)) ∧
    MSP.Shareholders M = {[4; 7; 9]}%N.
Proof.
  destruct (NewMSP_label_rows ex_kw_A [4; 7; 9]%N) as (M & HM & Hlab); [done|done| |].
  { intros id Hid. rewrite list_elem_of_In in Hid. by destruct Hid as [<-|[<-|[<-|[]]]]. }
  exists M. split; [exact HM|]. split; [apply (labelled_wf _ _ _ Hlab)|].
  clear Hlab. vm_compute in HM. injection HM as <-. split_and!; [vm_compute; reflexivity..| |].
  - eexists. vm_compute. reflexivity.
  - vm_compute. reflexivity.
Qed.

Lemma KW_Deal_correct_witness :
  ∃ (M : MSP fp101) shares df p, KW.DealAndRevealDealerFunc M ex_sampler (Some (f101 7)) (Some 40%Z)
    = Ok (shares, df, p) ∧ KW.Secret df = Ok (f101 7).
Proof.
  destruct ex_kw_msp as (M & _ & Hwf & Hm & Hn & _). exists M.
  destruct (KW_Deal_correct (P:=Z) M ex_sampler (f101 7) 40%Z [f101 40; f101 43] 46%Z Hwf)
    as (Hok & _); [lia|by unfold MSP.D; rewrite Hn|].
  destruct Hok as (shares & df & E & _ & _ & Hs); [unfold MSP.D; lia|]. by exists shares, df, 46%Z.
Defined.

Lemma KW_Reconstruct_correct_witness :
  ∃ (M : MSP fp101) shares p l, KW.Deal M ex_sampler (Some (f101 7)) (Some 40%Z) = Ok (shares, p) ∧
    KW.Reconstruct M (Some <$> l) = Ok (f101 7).
Proof.
  destruct ex_kw_msp as (M & _ & Hwf & Hm & Hn & Ha & _ & _ & _ & [shares E] & _). exists M.
  destruct (KW_Reconstruct_correct _ ex_sampler (f101 7) 40%Z shares 46%Z [9; 4]%N Hwf) as (Hok & _);
    [lia|unfold MSP.D; lia|exact E|by apply (bool_decide_unpack _)|].
  destruct (Hok Ha) as (l & _ & Hl). by exists shares, 46%Z, l.
Defined.

Lemma KW_privacy_witness :
  ∃ (M : MSP fp101) (g g' : list fp101 → list fp101),
    g (g' (f101 <$> [8; 5]%Z)) = f101 <$> [8; 5]%Z ∧
    dealt M (g (f101 <$> [7; 5]%Z)) 9%N = dealt M (f101 <$> [7; 5]%Z) 9%N.
Proof.
  destruct ex_kw_msp as (M & _ & Hwf & Hm & Hn & _ & _ & Hk & Ha & _). exists M.
  destruct (KW_privacy M [9]%N (f101 7) (f101 8) Hwf) as (g & g' & Hg & Hg');
    [lia|unfold MSP.D; lia|done|done|].
  exists g, g'. unfold MSP.D in *. rewrite Hn in *. split; [by apply Hg'|].
  apply Hg; [done|done|]. apply list_elem_of_here.
Defined.

Lemma KW_linear_witness :
  ∃ (M : MSP fp101), KW.Reconstruct M (Some <$> shares_at M
      (λ i, radd (lambda M (f101 <$> [7; 5]%Z) i) (lambda M (f101 <$> [8; 6]%Z) i)) [9; 4]%N)
    = Ok (f101 15).
Proof.
  destruct ex_kw_msp as (M & _ & Hwf & Hm & Hn & Ha & _). exists M.
  assert (bytes_ok [3%N]) as Hb by (by repeat constructor).
  assert (NoDup [9; 4]%N) as Hnd by (by apply (bool_decide_unpack _)).
  destruct (KW_linear M (f101 <$> [7; 5]%Z) (f101 <$> [8; 6]%Z) [3%N] [9; 4]%N Hwf)
    as (_ & E & _); [lia|by rewrite Hn|by rewrite Hn|done|done|done|].
  etransitivity; [exact E|vm_compute; reflexivity].
Defined.

Lemma KW_Convert_correct_witness :
  ∃ (M : MSP fp101) q a, Unanimity.NewUnanimityAccessStructure (Some {[4; 9]}%N) = Ok q ∧
    KW.ConvertShareToAdditive M (Some (share_of M (f101 <$> [7; 5]%Z) 4%N)) (Some q) = Ok (mkAShare 4%N a).
Proof.
  destruct ex_kw_msp as (M & _ & Hwf & Hm & Hn & _ & Ha & _). exists M.
  assert (∃ q, Unanimity.NewUnanimityAccessStructure (Some {[4; 9]}%N) = Ok q) as [q Hq]
    by (eexists; vm_compute; reflexivity).
  destruct (KW_Convert_correct M (f101 <$> [7; 5]%Z) {[4; 9]}%N q Hwf) as ((a & Hok & _) & _);
    [lia|done|done|].
  exists q, (a 4%N). split; [done|]. apply Hok. by apply (bool_decide_unpack _).
Defined.
