(* ===== verification/Feldman.v ===== *)
(** * Feldman verifiable secret sharing (vss/feldman)

    The dealer publishes the random column of the Karchmer-Wigderson scheme
    lifted to the exponent; a shareholder recomputes its lifted share from
    that vector through the programme and compares it with its share lifted by
    hand.  The theory shows that a verification vector of the right length
    binds the dealer to one column, that a share verifies exactly when it is
    the share of that column, and that reconstruction and conversion commute
    with lifting. *)

From Stdlib Require Import ZArith NArith Lia Ring Field.
From S2P Require Import Prelude Algebra AlgebraUtils Poly Combinations Matrix Solver Interp.
From S2P Require Import MSP Access Threshold Unanimity Additive KW.

Module Feldman.
Section feldman.
Context `{PrimeGroup F E}.

(** ** Verification vectors (verification_vector.go) *)

Record VerificationVector := mkVV { value : Matrix E }.

Definition NewVerificationVector (value : option (Matrix E)) (mspMatrix : option (MSP F)) :
    result VerificationVector :=
  match value with
  | None => Err ErrIsNil
  | Some value =>
      if negb (IsColumnVector value) then Err ErrValue
      else match mspMatrix with
           | Some M => if negb (m value =? MSP.D M) then Err ErrValue else Ok (mkVV value)
           | None => Ok (mkVV value)
           end
  end.

Definition VVOp (v other : option VerificationVector) : result VerificationVector :=
  match v, other with
  | Some v, Some other =>
      if negb (n (value other) =? n (value v)) then Err ErrValue
      else if negb (m (value other) =? m (value v)) then Err ErrValue
      else s ← OpAssign (value v) (value other); Ok (mkVV s)
  | _, _ => Err ErrIsNil
  end.

Definition VVEqual (v other : VerificationVector) : bool := Matrix.Equal (value v) (value other).

(** ** Lifted shares (share.go) *)

Record LiftedShare := mkLShare { lid : ID; lv : list E }.

Definition NewLiftedShare (id : ID) (v : list (option E)) : result LiftedShare :=
  if length v =? 0 then Err ErrIsNil
  else if (id =? 0)%N then Err ErrIsZero
  else if existsb (λ x, bool_decide (x = None)) v then Err ErrIsNil
  else Ok (mkLShare id (omap (λ x, x) v)).

Definition LiftShare (s : option (KW.Share F)) (basePoint : option E) : result LiftedShare :=
  match s, basePoint with
  | None, _ => Err ErrIsNil
  | _, None => Err ErrIsNil
  | Some s, Some basePoint =>
      NewLiftedShare (KW.sid s) ((λ v, Some (scalar_op basePoint v)) <$> KW.sv s)
  end.

Definition LSEqual (s other : LiftedShare) : bool :=
  if negb (lid s =? lid other)%N then false
  else if negb (length (lv s) =? length (lv other)) then false
  else forallb (λ i, bool_decide (lv s !!! i = lv other !!! i)) (seq 0 (length (lv s))).

(** ** The lifted dealer function (dealerfunc.go) *)

Record LiftedDealerFunc := mkLDF {
  verificationVector : VerificationVector; mspMatrix : MSP F; liftedLambda : Matrix E }.

Definition LiftDealerFunc (df : option (KW.DealerFunc (F:=F))) (basePoint : option E) :
    result LiftedDealerFunc :=
  match df, basePoint with
  | None, _ => Err ErrIsNil
  | _, None => Err ErrIsNil
  | Some df, Some basePoint =>
      liftedRandomColumn ← Lift (KW.randomColumn df) basePoint;
      liftedLambda ← Lift (KW.lambdaColumn df) basePoint;
      Ok (mkLDF (mkVV liftedRandomColumn) (KW.dmsp df) liftedLambda)
  end.

Definition NewLiftedDealerFunc (vv : option VerificationVector) (mspMatrix : option (MSP F)) :
    result LiftedDealerFunc :=
  match vv, mspMatrix with
  | None, _ => Err ErrIsNil
  | _, None => Err ErrIsNil
  | Some vv, Some M =>
      if negb (IsColumnVector (value vv)) then Err ErrValue
      else liftedLambda ← LeftAction (matrix M) (value vv); Ok (mkLDF vv M liftedLambda)
  end.

(** An error of the action panics. *)
Definition LiftedSecret (d : LiftedDealerFunc) : result E :=
  target ← TargetVector (mspMatrix d);
  match LeftAction target (value (verificationVector d)) with
  | Ok secretMat => match Get secretMat 0 0 with Ok v => Ok v | _ => Panic end
  | _ => Panic
  end.

Definition ShareOf (d : LiftedDealerFunc) (id : ID) : result LiftedShare :=
  match holdersToRows (mspMatrix d) !! id with
  | None => Err ErrMembership
  | Some rowsi =>
      lambdaI ← SubMatrixGivenRows (liftedLambda d) (sort_rows (elements rowsi));
      Ok (mkLShare id (v lambdaI))
  end.

(** ** The scheme (scheme.go) *)

(** Both dealing methods lift the random column of the KW dealing. *)
Definition publish {P} (M : MSP F) (out : gmap ID (KW.Share F) * KW.DealerFunc (F:=F) * P) :
    result (gmap ID (KW.Share F) * VerificationVector * KW.DealerFunc (F:=F) * P) :=
  let '(shares, df, prng) := out in
  verificationMatrix ← Lift (KW.randomColumn df) generator;
  vv ← NewVerificationVector (Some verificationMatrix) (Some M);
  Ok (shares, vv, df, prng).

Definition DealAndRevealDealerFunc {P} (M : MSP F) (sampler : P → result (F * P)) (secret : option F)
    (prng : option P) : result (gmap ID (KW.Share F) * VerificationVector * KW.DealerFunc (F:=F) * P) :=
  out ← KW.DealAndRevealDealerFunc M sampler secret prng; publish M out.

Definition Deal {P} (M : MSP F) (sampler : P → result (F * P)) (secret : option F) (prng : option P) :
    result (gmap ID (KW.Share F) * VerificationVector * P) :=
  '(shares, vv, _, prng) ← DealAndRevealDealerFunc M sampler secret prng; Ok (shares, vv, prng).

Definition DealRandomAndRevealDealerFunc {P} (M : MSP F) (sampler : P → result (F * P))
    (prng : option P) :
    result (gmap ID (KW.Share F) * VerificationVector * F * KW.DealerFunc (F:=F) * P) :=
  '(shares, secret, df, prng) ← KW.DealRandomAndRevealDealerFunc M sampler prng;
  '(shares, vv, df, prng) ← publish M (shares, df, prng);
  Ok (shares, vv, secret, df, prng).

Definition DealRandom {P} (M : MSP F) (sampler : P → result (F * P)) (prng : option P) :
    result (gmap ID (KW.Share F) * VerificationVector * F * P) :=
  '(shares, vv, secret, _, prng) ← DealRandomAndRevealDealerFunc M sampler prng;
  Ok (shares, vv, secret, prng).

Definition Reconstruct (M : MSP F) (shares : list (option (KW.Share F))) : result F :=
  KW.Reconstruct M shares.

Definition Verify (M : MSP F) (share : option (KW.Share F)) (reference : option VerificationVector) :
    result unit :=
  match share with
  | None => Err ErrIsNil
  | Some share =>
      liftedDealerFunc ← NewLiftedDealerFunc reference (Some M);
      liftedShare ← ShareOf liftedDealerFunc (KW.sid share);
      manuallyLiftedShare ← LiftShare (Some share) (Some generator);
      if negb (LSEqual liftedShare manuallyLiftedShare) then Err ErrVerification else Ok tt
  end.

Definition ReconstructAndVerify (M : MSP F) (reference : option VerificationVector)
    (shares : list (option (KW.Share F))) : result F :=
  _ ← mapM (λ share, Verify M share reference) shares;
  Reconstruct M shares.

Definition ConvertShareToAdditive (M : MSP F) share quorum : result (AdditiveShare F) :=
  KW.ConvertShareToAdditive M share quorum.

(** The loop that collects the rows of the quorum. *)
Definition quorum_rows (M : MSP F) (quorumIDs : list ID) : result (list Z) :=
  foldM (λ rows id,
    match holdersToRows M !! id with
    | Some rowsID => Ok (rows ++ elements rowsID)
    | None => Err ErrMembership
    end) [] quorumIDs.

(** Row [absRow] with the value [x] adds its coefficient times [x]. *)
Definition add_lifted (allQuorumRows : list Z) (reconVec : Matrix F) (acc : E) (row : Z * E) : result E :=
  let '(absRow, x) := row in
  let '(pos, found) := KW.BinarySearch allQuorumRows absRow in
  if negb found then Err ErrFailed
  else
    coeff ← Get reconVec (Z.of_nat pos) 0;
    Ok (gop acc (scalar_op x coeff)).

Definition ConvertLiftedShareToAdditive (M : MSP F) (share : option LiftedShare)
    (quorum : option Unanimity.Unanimity) : result (AdditiveShare E) :=
  match share, quorum with
  | None, _ => Err ErrIsNil
  | _, None => Err ErrIsNil
  | Some share, Some quorum =>
      if bool_decide (lid share ∉ Unanimity.ps quorum) then Err ErrMembership
      else
        let quorumIDs := elements (Unanimity.ps quorum) in
        reconVec ← ReconstructionVector M quorumIDs;
        allQuorumRows ← quorum_rows M quorumIDs;
        match holdersToRows M !! lid share with
        | None => Err ErrMembership
        | Some rowsSet =>
            let sortedRows := sort_rows (elements rowsSet) in
            if negb (length (lv share) =? length sortedRows) then Err ErrValue
            else if length (lv share) =? 0 then Panic
            else
              result ← foldM (add_lifted (sort_rows allQuorumRows) reconVec) gid
                         (zip sortedRows (lv share));
              Additive.NewShare (lid share) (Some result) (Some quorum)
        end
  end.

(** The map from row indices to group elements. *)
Definition place_lifted (M : MSP F) (liftedByRow : gmap Z E) (sh : LiftedShare) : result (gmap Z E) :=
  match holdersToRows M !! lid sh with
  | None => Err ErrMembership
  | Some rowSet =>
      let sortedRows := sort_rows (elements rowSet) in
      if negb (length (lv sh) =? length sortedRows) then Err ErrValue
      else Ok (foldl (λ acc '(r, x), <[r := x]> acc) liftedByRow (zip sortedRows (lv sh)))
  end.

Definition lifted_ptrs (shares : list (option LiftedShare)) : result (list LiftedShare) :=
  mapM (λ p, match p with Some sh => Ok sh | None => Err ErrIsNil end) shares.

Definition ReconstructInTheExponent (M : MSP F) (shares : list (option LiftedShare)) : result E :=
  if length shares =? 0 then Err ErrValue
  else
    shares ← lifted_ptrs shares;
    reconVec ← ReconstructionVector M (lid <$> shares);
    liftedByRow ← foldM (place_lifted M) ∅ shares;
    foldM (λ acc '(i, r),
        coeff ← Get reconVec (Z.of_nat i) 0;
        Ok (gop acc (scalar_op (liftedByRow !!! r) coeff)))
      gid (imap pair (sort_rows (elements (dom liftedByRow)))).
End feldman.
Arguments VerificationVector E : clear implicits.
Arguments LiftedShare E : clear implicits.
Arguments LiftedDealerFunc F E : clear implicits.
End Feldman.

(** ** Theory *)

Section theory.
Context `{PrimeGroup F E}.
Local Open Scope alg_scope.
Add Ring feldman_ring : (ring_laws (R:=F)).
Implicit Types (M : MSP F) (r : list F) (V : Feldman.VerificationVector E).

(** The lifted column [r], and the lifted share it gives to [id]. *)
Definition vv_of r : Feldman.VerificationVector E :=
  Feldman.mkVV (mkMatrix (length r) 1 ((λ c, generator • c) <$> r)).
Definition lifted_share_of M r (id : ID) : Feldman.LiftedShare E :=
  Feldman.mkLShare id ((λ i, generator • lambda M r i) <$> rows_of M [id]).

(** Every column of group elements is the lift of one scalar column. *)
Lemma vv_complete V :
  wf (Feldman.value V) → n (Feldman.value V) = 1%nat → ∃ r, V = vv_of r.
Proof.
  destruct V as [[rows cols vs]]. unfold wf. cbn. intros Hwf ->. rewrite Nat.mul_1_r in Hwf.
  subst rows. assert (∃ r, vs = (λ c, generator • c) <$> r) as [r ->].
  { induction vs as [|x vs [r ->]]; [by exists []|].
    destruct (generator_cyclic (F:=F) x) as [a ->]. by exists (a :: r). }
  exists r. unfold vv_of. by rewrite length_fmap.
Qed.

Lemma at_vv r k : (k < length r)%nat → at_ (Feldman.value (vv_of r)) k 0 = generator • (r !!! k).
Proof.
  intros Hk. unfold at_, idx. cbn. rewrite Nat.mul_1_r, Nat.add_0_r.
  by rewrite (fmap_lookup_total (λ c, generator • c)).
Qed.

Lemma gsum_ext k (f g : nat → E) : (∀ i, (i < k)%nat → f i = g i) → gsum k f = gsum k g.
Proof. apply big_ext. Qed.

(** The action of a scalar row on the lifted column. *)
Lemma lifted_row k (a : nat → F) r :
  k = length r →
  gsum k (λ j, at_ (Feldman.value (vv_of r)) j 0 • a j) = generator • rsum k (λ j, a j * (r !!! j)).
Proof.
  intros ->. rewrite gsum_scalar. apply gsum_ext. intros j Hj.
  rewrite at_vv by done. rewrite <-scalar_op_mul. f_equal. ring.
Qed.

Lemma LeftAction_vv (A : Matrix F) r :
  (0 < m A)%nat → (0 < length r)%nat → n A = length r →
  LeftAction A (Feldman.value (vv_of r))
  = Ok (mk (m A) 1 (λ i _, generator • rsum (n A) (λ j, at_ A i j * (r !!! j)))).
Proof.
  intros Hm Hr Hn. unfold LeftAction. cbn [vv_of Feldman.value m n].
  rewrite Hn, Nat.eqb_refl. cbn [negb].
  rewrite scalar_structure_ok; [|unfold wf; cbn; rewrite length_fmap; lia|cbn; lia..].
  cbn [mbind result_bind]. rewrite NewMatrixModule_ok by lia. cbn [mbind result_bind].
  f_equal. apply mk_ext. intros i j Hi Hj. assert (j = 0%nat) as -> by lia.
  by apply lifted_row.
Qed.

Lemma Lift_column r :
  (0 < length r)%nat → Lift (mkMatrix (length r) 1 r) generator = Ok (Feldman.value (vv_of r)).
Proof.
  intros Hr. unfold Lift. cbn [m n v]. rewrite NewMatrixModule_ok by lia. cbn [mbind result_bind].
  rewrite NewRowMajor_ok; [done|]. rewrite length_fmap. lia.
Qed.

Lemma NewLiftedDealerFunc_ok M r :
  (0 < m (matrix M))%nat → (0 < n (matrix M))%nat → length r = n (matrix M) →
  Feldman.NewLiftedDealerFunc (Some (vv_of r)) (Some M)
  = Ok (Feldman.mkLDF (vv_of r) M (mk (m (matrix M)) 1 (λ i _, generator • lambda M r i))).
Proof.
  intros Hm Hn Hr. unfold Feldman.NewLiftedDealerFunc.
  replace (IsColumnVector (Feldman.value (vv_of r))) with true by done. cbn [negb].
  by rewrite LeftAction_vv by lia.
Qed.

Lemma LiftedSecret_ok M r h :
  wf_msp M → (0 < n (matrix M))%nat → length r = n (matrix M) →
  Feldman.LiftedSecret (Feldman.mkLDF (vv_of r) M h) = Ok (generator • (r !!! 0%nat)).
Proof.
  intros Hwf Hn Hr. unfold Feldman.LiftedSecret. cbn [Feldman.mspMatrix Feldman.verificationVector].
  destruct (TargetVector_ok M Hn) as (t & -> & Ht1 & Htn & Ht). cbn [mbind result_bind].
  rewrite LeftAction_vv by lia. rewrite Ht1. unfold Get. cbn [m n mk].
  assert (in_range 0 1 = true) as -> by done. cbn [andb negb].
  change (Z.to_nat 0) with 0%nat. rewrite at_mk by lia. f_equal. f_equal.
  rewrite Htn. rewrite <-(rsum_delta (n (matrix M)) 0 (λ j, r !!! j)) by done.
  apply rsum_ext. intros j Hj. by rewrite Ht.
Qed.

Lemma ShareOf_lifted M r vv id :
  wf_msp M → Feldman.ShareOf (Feldman.mkLDF vv M (mk (m (matrix M)) 1 (λ i _, generator • lambda M r i))) id
  = if decide (id ∈ MSP.Shareholders M) then Ok (lifted_share_of M r id) else Err ErrMembership.
Proof.
  intros Hwf. unfold Feldman.ShareOf. cbn [Feldman.mspMatrix Feldman.liftedLambda].
  case_decide as Hid.
  - pose proof (holder_nonempty M id Hwf Hid) as Hne. unfold MSP.Shareholders in Hid.
    apply elem_of_dom in Hid as [rows Hrows]. rewrite Hrows.
    destruct (holder_rows M id rows Hwf Hrows) as [-> _].
    by rewrite (submatrix_holder M id (λ i, generator • lambda M r i)).
  - unfold MSP.Shareholders in Hid. apply not_elem_of_dom in Hid. by rewrite Hid.
Qed.

Lemma omap_Some_fmap {A B} (f : A → B) (l : list A) :
  omap (λ x, x) ((λ a, Some (f a)) <$> l) = f <$> l.
Proof. induction l as [|x l IH]; cbn in *; by rewrite ?IH. Qed.

Lemma existsb_None_fmap {A B} `{EqDecision B} (f : A → B) (l : list A) :
  existsb (λ x, bool_decide (x = None)) ((λ a, Some (f a)) <$> l) = false.
Proof. induction l as [|x l IH]; cbn; [done|]. by rewrite IH. Qed.

Lemma LiftShare_ok (s : KW.Share F) :
  Feldman.LiftShare (Some s) (Some (generator : E))
  = if decide (KW.sv s = []) then Err ErrIsNil
    else if (KW.sid s =? 0)%N then Err ErrIsZero
    else Ok (Feldman.mkLShare (KW.sid s) ((λ c, generator • c) <$> KW.sv s)).
Proof.
  unfold Feldman.LiftShare, Feldman.NewLiftedShare. rewrite length_fmap.
  case_decide as Hs; [by rewrite Hs|].
  destruct (Nat.eqb_spec (length (KW.sv s)) 0); [by destruct (KW.sv s)|].
  rewrite existsb_None_fmap, omap_Some_fmap. done.
Qed.

Lemma LSEqual_spec (s t : Feldman.LiftedShare E) : Feldman.LSEqual s t = true ↔ s = t.
Proof.
  unfold Feldman.LSEqual. destruct s as [i l], t as [j k]. cbn [Feldman.lid Feldman.lv].
  destruct (N.eqb_spec i j) as [->|]; cbn [negb]; [|split; [done|congruence]].
  destruct (Nat.eqb_spec (length l) (length k)) as [Hl|]; cbn [negb]; [|split; [done|congruence]].
  rewrite forallb_forall. split.
  - intros Hf. f_equal. apply list_eq_total; [done|]. intros p Hp.
    specialize (Hf p). rewrite bool_decide_eq_true in Hf. apply Hf, in_seq. lia.
  - intros [= ->] p _. by apply bool_decide_eq_true.
Qed.

Lemma holder_nonzero M id : wf_msp M → id ∈ MSP.Shareholders M → id ≠ 0%N.
Proof.
  unfold MSP.Shareholders. intros Hwf [rows Hrows]%elem_of_dom.
  apply (wf_holders M Hwf) in Hrows as [Hne Hr]. apply set_choose_L in Hne as [z Hz].
  apply Hr in Hz. by apply (wf_ids M Hwf) in Hz.
Qed.

(** [Verify] accepts exactly the share of the committed column. *)
Lemma Verify_spec M r (s : KW.Share F) :
  wf_msp M → (0 < m (matrix M))%nat → (0 < n (matrix M))%nat → length r = n (matrix M) →
  Feldman.Verify M (Some s) (Some (vv_of r)) = Ok tt
  ↔ KW.sid s ∈ MSP.Shareholders M ∧ s = share_of M r (KW.sid s).
Proof.
  intros Hwf Hm Hn Hr. unfold Feldman.Verify. rewrite NewLiftedDealerFunc_ok by done.
  cbn [mbind result_bind]. rewrite ShareOf_lifted by done.
  case_decide as Hid; [|split; [done|by intros [? _]]]. cbn [mbind result_bind].
  rewrite LiftShare_ok. pose proof (holder_nonempty M _ Hwf Hid) as Hne.
  case_decide as Hs.
  { split; [done|]. intros [_ E1]. rewrite E1 in Hs. cbn in Hs.
    apply fmap_nil_inv in Hs. done. }
  destruct (N.eqb_spec (KW.sid s) 0) as [E0|_].
  { by destruct (holder_nonzero M _ Hwf Hid). }
  cbn [mbind result_bind]. destruct (Feldman.LSEqual _ _) eqn:El; cbn [negb].
  - split; [|done]. intros _. split; [done|]. apply LSEqual_spec in El. injection El as El.
    destruct s as [id vs]. unfold share_of. cbn [KW.sid KW.sv] in *. f_equal.
    assert (Inj (=) (=) (λ c : F, (generator : E) • c)) as Hi by (intros ? ?; apply generator_inj).
    apply (list_fmap_eq_inj _ Hi). rewrite <-El, <-list_fmap_compose. done.
  - split; [done|]. intros [_ E1]. apply not_true_iff_false in El. destruct El.
    apply LSEqual_spec. rewrite E1. unfold lifted_share_of, share_of. cbn [KW.sid KW.sv].
    by rewrite <-list_fmap_compose.
Qed.

Lemma verified_shares M r (l : list (KW.Share F)) :
  wf_msp M → (0 < m (matrix M))%nat → (0 < n (matrix M))%nat → length r = n (matrix M) →
  (∀ sh, sh ∈ l → Feldman.Verify M (Some sh) (Some (vv_of r)) = Ok tt) →
  l = shares_at M (lambda M r) (KW.sid <$> l).
Proof.
  intros Hwf Hm Hn Hr. induction l as [|sh l IH]; intros Hv; [done|]. cbn. f_equal.
  - by apply Verify_spec, Hv; [..|constructor].
  - apply IH. intros s Hs. apply Hv. by constructor.
Qed.

(** Verified shares reconstruct to the committed secret or not at all. *)
Lemma verified_reconstruct M r (l : list (KW.Share F)) :
  wf_msp M → (0 < m (matrix M))%nat → (0 < n (matrix M))%nat → length r = n (matrix M) →
  (∀ sh, sh ∈ l → Feldman.Verify M (Some sh) (Some (vv_of r)) = Ok tt) →
  (NoDup (KW.sid <$> l) → Accepts M (KW.sid <$> l) = true →
     Feldman.Reconstruct M (Some <$> l) = Ok (r !!! 0%nat)) ∧
  ∀ x, Feldman.Reconstruct M (Some <$> l) = Ok x →
    x = r !!! 0%nat ∧ Accepts M (KW.sid <$> l) = true.
Proof.
  intros Hwf Hm Hn Hr Hv. unfold Feldman.Reconstruct.
  apply verified_shares in Hv as Es; [|done..]. split.
  - intros Hnd Ha. rewrite Es. by apply Reconstruct_ok.
  - intros x Hx. rewrite Es in Hx. pose proof (Reconstruct_repeated M _ _ x Hwf Hn Hx) as Hnd.
    destruct (Accepts M (KW.sid <$> l)) eqn:Ha.
    + rewrite Reconstruct_ok in Hx by done. by injection Hx as <-.
    + destruct (Reconstruct_rejected M (shares_at M (lambda M r) (KW.sid <$> l)) Hwf Hn) as [E1|E1];
        [|congruence..].
      rewrite remove_dups_NoDup, shares_at_ids by (by apply shares_at_NoDup). done.
Qed.

Lemma Verify_not_panic M r (s : KW.Share F) :
  wf_msp M → (0 < m (matrix M))%nat → (0 < n (matrix M))%nat → length r = n (matrix M) →
  Feldman.Verify M (Some s) (Some (vv_of r)) ≠ Panic.
Proof.
  intros Hwf Hm Hn Hr. unfold Feldman.Verify. rewrite NewLiftedDealerFunc_ok by done.
  cbn [mbind result_bind]. rewrite ShareOf_lifted by done.
  case_decide; [|done]. cbn [mbind result_bind]. rewrite LiftShare_ok. case_decide; [done|].
  destruct (_ =? 0)%N; [done|]. cbn [mbind result_bind]. by destruct (negb _).
Qed.

(** *** Reconstruction and conversion in the exponent *)

Lemma zip_fmap_insert {A} (h : nat → A) (l : list nat) (acc : gmap Z A) :
  foldl (λ acc '(z, x), <[z := x]> acc) acc (zip (Z.of_nat <$> l) (h <$> l))
  = foldl (λ acc i, <[Z.of_nat i := h i]> acc) acc l.
Proof. revert acc. induction l as [|i l IH]; intros acc; [done|]. apply IH. Qed.

Lemma place_lifted_ok M r ids acc :
  wf_msp M → known M ids = true →
  foldM (Feldman.place_lifted M) acc (lifted_share_of M r <$> ids)
  = Ok (foldl (λ acc i, <[Z.of_nat i := generator • lambda M r i]> acc) acc (id ← ids; rows_of M [id])).
Proof.
  intros Hwf. rewrite known_spec. revert acc.
  induction ids as [|id ids IH]; intros acc Hk; [done|].
  destruct (Hk id) as [rows Hrows]; [constructor|].
  destruct (holder_rows M id rows Hwf Hrows) as [Hs _]. cbn [fmap list_fmap foldM].
  assert (Feldman.place_lifted M acc (lifted_share_of M r id)
    = Ok (foldl (λ acc i, <[Z.of_nat i := generator • lambda M r i]> acc) acc (rows_of M [id]))) as ->.
  { unfold Feldman.place_lifted. cbn [Feldman.lid Feldman.lv lifted_share_of].
    rewrite Hrows, Hs, !length_fmap, Nat.eqb_refl. cbn [negb]. by rewrite zip_fmap_insert. }
  cbn [mbind result_bind]. rewrite bind_cons, foldl_app.
  apply IH. intros id' Hid'. apply Hk. by constructor.
Qed.

Lemma Get_column (w : list F) (rows k : nat) :
  (k < rows)%nat → Get (mkMatrix rows 1 w) (Z.of_nat k) 0 = Ok (w !!! k).
Proof.
  intros Hk. unfold Get. cbn [m n]. rewrite (proj2 (in_range_nat _ _)) by done.
  rewrite (proj2 (in_range_true 0 1)) by lia. cbn [andb negb]. f_equal.
  unfold at_, idx. cbn [v n]. f_equal. lia.
Qed.

(** The accumulation of coefficient times value over a column. *)
Lemma fold_coefficients (h : Z → E) (w : list F) (rows : nat) (zs : list Z) :
  (length zs ≤ rows)%nat →
  foldM (λ acc '(i, z), coeff ← Get (mkMatrix rows 1 w) (Z.of_nat i) 0; Ok (acc ⊕ h z • coeff))
    gid (imap pair zs)
  = Ok (gsum (length zs) (λ j, h (zs !!! j) • (w !!! j))).
Proof.
  induction zs as [|z zs IH] using rev_ind; intros Hl; [done|].
  rewrite length_app in Hl. cbn [length] in Hl. rewrite imap_app, foldM_app.
  rewrite IH by lia. cbn [mbind result_bind imap foldM]. rewrite Nat.add_0_r.
  rewrite Get_column by lia. cbn [mbind result_bind].
  rewrite length_app. cbn [length]. rewrite Nat.add_1_r. cbn [big]. f_equal. f_equal.
  - apply gsum_ext. intros j Hj. by rewrite lookup_total_app_l.
  - by rewrite list_lookup_total_middle.
Qed.

Lemma lifted_combination (k : nat) (w : nat → F) (h : nat → F) :
  gsum k (λ j, (generator • h j) • w j) = generator • rsum k (λ j, w j * h j).
Proof.
  rewrite gsum_scalar. apply gsum_ext. intros j _. rewrite <-scalar_op_mul. f_equal. ring.
Qed.

Lemma lifted_ptrs_ok (l : list (Feldman.LiftedShare E)) : Feldman.lifted_ptrs (Some <$> l) = Ok l.
Proof. unfold Feldman.lifted_ptrs. apply mapM_ok. induction l; cbn; by constructor. Qed.

Lemma ReconstructInTheExponent_ok M r ids :
  wf_msp M → (0 < n (matrix M))%nat → NoDup ids → Accepts M ids = true →
  Feldman.ReconstructInTheExponent M (Some <$> (lifted_share_of M r <$> ids))
  = Ok (generator • (r !!! 0%nat)).
Proof.
  intros Hwf Hn Hnd Ha. apply Accepts_spec in Ha as (Hk & Hne & x & Hx); [|done..].
  unfold Feldman.ReconstructInTheExponent. rewrite !length_fmap.
  destruct (Nat.eqb_spec (length ids) 0) as [?|_]; [by destruct ids|].
  rewrite lifted_ptrs_ok. cbn [mbind result_bind].
  assert (Feldman.lid <$> (lifted_share_of M r <$> ids) = ids) as ->.
  { rewrite <-list_fmap_compose. apply list_fmap_id. }
  destruct (ReconstructionVector_spec M ids Hwf Hn Hne Hk) as [(w & -> & Hlw & Hw)|[_ [k Hsep]]].
  2:{ by destruct (spans_separates M ids x k). }
  cbn [mbind result_bind]. rewrite place_lifted_ok by done. cbn [mbind result_bind].
  destruct (placed_rows M (λ i, generator • lambda M r i) ids Hnd) as [-> Hlam].
  set (lam := foldl _ _ _) in *.
  rewrite (fold_coefficients (λ z, lam !!! z)) by (by rewrite length_fmap).
  rewrite length_fmap. f_equal.
  rewrite <-(combine_lambda M ids (λ k, w !!! k) r Hn Hw), <-lifted_combination.
  apply gsum_ext. intros j Hj. f_equal. rewrite fmap_lookup_total by done.
  by apply lookup_total_correct, Hlam, list_elem_of_lookup_total_2.
Qed.

Lemma add_lifted_rows (rows l : list nat) (w : list F) (y : nat → F) (h : nat → E) acc :
  StronglySorted Z.le (Z.of_nat <$> rows) → NoDup rows → length w = length rows →
  (∀ k, (k < length rows)%nat → y (rows !!! k) = w !!! k) → (∀ i, i ∈ l → i ∈ rows) →
  foldM (Feldman.add_lifted (Z.of_nat <$> rows) (mkMatrix (length rows) 1 w)) acc
    (zip (Z.of_nat <$> l) (h <$> l))
  = Ok (foldl (λ acc i, acc ⊕ h i • y i) acc l).
Proof.
  intros Hs Hnd Hw Hy. revert acc. induction l as [|i l IH]; intros acc Hl; [done|].
  cbn [fmap list_fmap zip zip_with foldM foldl].
  destruct (list_elem_of_lookup_1 rows i) as [k Hk]; [apply Hl; constructor|].
  assert (Feldman.add_lifted (Z.of_nat <$> rows) (mkMatrix (length rows) 1 w) acc (Z.of_nat i, h i)
    = Ok (acc ⊕ h i • y i)) as ->.
  { unfold Feldman.add_lifted. rewrite (BinarySearch_found _ k (Z.of_nat i)); [|done| |].
    - cbn [negb]. rewrite Get_column by (by eapply lookup_lt_Some). cbn [mbind result_bind].
      assert (y i = w !!! k) as ->; [|done].
      rewrite <-Hy by (by eapply lookup_lt_Some). by rewrite (list_lookup_total_correct _ _ _ Hk).
    - by apply NoDup_fmap; [apply _|].
    - by rewrite list_lookup_fmap, Hk. }
  cbn [mbind result_bind]. apply IH. intros j Hj. apply Hl. by constructor.
Qed.

Lemma gsum_big (h : nat → E) (l : list nat) :
  lbig gop gid h l = gsum (length l) (λ i, h (l !!! i)).
Proof. apply lbig_big; auto using gop_id_l, gop_id_r, gop_assoc. Qed.
End theory.


(** ** Properties *)

Section properties.
Context `{PrimeGroup F E}.
Local Open Scope alg_scope.
Add Ring feldman_prop_ring : (ring_laws (R:=F)).
Implicit Types (M : MSP F) (r : list F) (V : Feldman.VerificationVector E) (s : F).

(** A reconstruction that verifies its shares against a vector fails
    with the error of the first share that does not verify; it never returns
    anything but the secret the vector commits to, and then every share it was
    given verifies and the holders are accepted; and it does return it on the
    shares of an accepted set of distinct holders. *)
Theorem Feldman_ReconstructAndVerify_correct M r ids :
  wf_msp M → (0 < m (matrix M))%nat → (0 < MSP.D M)%nat → length r = MSP.D M →
  let V := vv_of r in
  (∀ l sh l' e, (∀ sh', sh' ∈ l → Feldman.Verify M (Some sh') (Some V) = Ok tt) →
     Feldman.Verify M (Some sh) (Some V) = Err e →
     Feldman.ReconstructAndVerify M (Some V) (Some <$> (l ++ sh :: l')) = Err e) ∧
  (∀ l x, Feldman.ReconstructAndVerify M (Some V) (Some <$> l) = Ok x →
     (∀ sh, sh ∈ l → Feldman.Verify M (Some sh) (Some V) = Ok tt) ∧
     x = r !!! 0%nat ∧ KW.CanReconstruct M (KW.sid <$> l) = true ∧
     ∃ d, Feldman.NewLiftedDealerFunc (Some V) (Some M) = Ok d ∧
       Feldman.LiftedSecret d = Ok (generator • x)) ∧
  (NoDup ids → KW.CanReconstruct M ids = true →
     Feldman.ReconstructAndVerify M (Some V) (Some <$> (share_of M r <$> ids)) = Ok (r !!! 0%nat)).
Proof.
  unfold MSP.D. intros Hwf Hm Hn Hr. set (V := vv_of r).
  unfold Feldman.ReconstructAndVerify. split_and!.
  - intros l sh l' e Hl He. rewrite fmap_app, fmap_cons, (mapM_first_err _ _ _ _ e); [done| |done].
    intros s (s' & -> & Hs)%list_elem_of_fmap. exists tt. by apply Hl.
  - intros l x (us & Hus & Hx)%bind_ok.
    assert (∀ sh, sh ∈ l → Feldman.Verify M (Some sh) (Some V) = Ok tt) as Hv.
    { intros sh Hsh. destruct (mapM_ok_elem _ _ _ (Some sh) Hus) as [[] Ev]; [|done].
      by apply list_elem_of_fmap_2. }
    destruct (verified_reconstruct M r l) as [_ Hrec]; [done..|].
    apply Hrec in Hx as [-> Ha]. split_and!; [done..|].
    eexists. split; [by apply NewLiftedDealerFunc_ok|]. by apply LiftedSecret_ok.
  - intros Hnd Ha. unfold KW.CanReconstruct in Ha.
    rewrite (mapM_all_ok _ _ tt).
    + cbn [mbind result_bind]. by apply Reconstruct_ok.
    + apply Accepts_spec in Ha as (Hk & _); [|done..]. rewrite known_spec in Hk.
      intros s (s' & -> & (id & -> & Hid)%list_elem_of_fmap)%list_elem_of_fmap.
      apply Verify_spec; [done..|]. cbn. split; [|done]. by apply elem_of_dom, Hk.
Qed.

(** C5. Binding: a verification vector whose length is not the number of
    columns of the programme rejects every share with a dimension error; one
    of the right length commits the dealer to a single scalar column, entry by
    entry, and a share verifies iff it is the share of that column for a
    shareholder, so two accepted shares of one holder are equal.  Accepted
    shares reconstruct to the head of that column when their holders are
    distinct and accepted by the programme, and never to anything else, so
    any two coalitions reconstruct the same secret.  Verified reconstruction
    moreover fails with the error of the first share that does not verify, and
    succeeds on the committed shares of accepted distinct holders.
    Verification never panics. *)
Theorem Feldman_Verify_binding M V :
  wf_msp M → (0 < m (matrix M))%nat → (0 < MSP.D M)%nat →
  wf (Feldman.value V) → n (Feldman.value V) = 1%nat →
  (m (Feldman.value V) ≠ MSP.D M →
     ∀ sh, Feldman.Verify M (Some sh) (Some V) = Err ErrDimension) ∧
  (m (Feldman.value V) = MSP.D M → ∃ r, length r = MSP.D M ∧
     (∀ k, (k < MSP.D M)%nat → at_ (Feldman.value V) k 0 = generator • (r !!! k)) ∧
     (∀ sh, (Feldman.Verify M (Some sh) (Some V) = Ok tt ↔
              KW.sid sh ∈ MSP.Shareholders M ∧ sh = share_of M r (KW.sid sh)) ∧
           Feldman.Verify M (Some sh) (Some V) ≠ Panic) ∧
     (∀ sh sh', Feldman.Verify M (Some sh) (Some V) = Ok tt →
        Feldman.Verify M (Some sh') (Some V) = Ok tt → KW.sid sh = KW.sid sh' → sh = sh') ∧
     (∀ l, (∀ sh, sh ∈ l → Feldman.Verify M (Some sh) (Some V) = Ok tt) →
       (NoDup (KW.sid <$> l) → KW.CanReconstruct M (KW.sid <$> l) = true →
          Feldman.Reconstruct M (Some <$> l) = Ok (r !!! 0%nat)) ∧
       ∀ x, Feldman.Reconstruct M (Some <$> l) = Ok x → x = r !!! 0%nat) ∧
     (∀ l sh l' e, (∀ sh', sh' ∈ l → Feldman.Verify M (Some sh') (Some V) = Ok tt) →
        Feldman.Verify M (Some sh) (Some V) = Err e →
        Feldman.ReconstructAndVerify M (Some V) (Some <$> (l ++ sh :: l')) = Err e) ∧
     (∀ l x, Feldman.ReconstructAndVerify M (Some V) (Some <$> l) = Ok x →
        (∀ sh, sh ∈ l → Feldman.Verify M (Some sh) (Some V) = Ok tt) ∧
        x = r !!! 0%nat ∧ KW.CanReconstruct M (KW.sid <$> l) = true) ∧
     ∀ ids, NoDup ids → KW.CanReconstruct M ids = true →
       Feldman.ReconstructAndVerify M (Some V) (Some <$> (share_of M r <$> ids)) = Ok (r !!! 0%nat)).
Proof.
  unfold MSP.D, KW.CanReconstruct. intros Hwf Hm Hn HV Hcol. split.
  - intros Hd sh. unfold Feldman.Verify, Feldman.NewLiftedDealerFunc, IsColumnVector, LeftAction.
    rewrite Hcol. cbn [Nat.eqb negb]. destruct (Nat.eqb_spec (n (matrix M)) (m (Feldman.value V))); [lia|].
    done.
  - intros Hd. destruct (vv_complete V HV Hcol) as [r ->]. cbn in Hd. exists r.
    pose proof (λ ids, Feldman_ReconstructAndVerify_correct M r ids Hwf Hm Hn Hd) as HRV.
    split_and!; [done|intros k Hk; apply at_vv; lia| | | |apply (HRV [])| |apply HRV].
    + intros sh. split; [by apply Verify_spec|by apply Verify_not_panic].
    + intros sh sh' [_ E1]%Verify_spec [_ E2]%Verify_spec Hid; [|done..]. by rewrite E1, E2, Hid.
    + intros l Hl. destruct (verified_reconstruct M r l) as [Hok Hx]; [done..|].
      split; [exact Hok|]. intros x Ex. by apply Hx in Ex as [-> _].
    + intros l x Ex. by apply (HRV []) in Ex as (? & ? & ? & _).
Qed.

(** Dealing the secret [s] draws a column with head [s]: the vector is its
    lift and the shares are its shares. *)
Lemma Feldman_Deal_columns {P} M (sampler : P → result (F * P)) s prng shares df V prng' :
  wf_msp M → (0 < m (matrix M))%nat → (2 ≤ n (matrix M))%nat →
  Feldman.DealAndRevealDealerFunc M sampler (Some s) (Some prng) = Ok (shares, V, df, prng') →
  ∃ r, length r = n (matrix M) ∧ r !!! 0%nat = s ∧ V = vv_of r ∧
    df = KW.mkDealerFunc (mkMatrix (length r) 1 r) M (mk (m (matrix M)) 1 (λ i _, lambda M r i)) ∧
    ∀ id, shares !! id = if decide (id ∈ MSP.Shareholders M) then Some (share_of M r id) else None.
Proof.
  intros Hwf Hm HD Hd. unfold Feldman.DealAndRevealDealerFunc in Hd.
  apply bind_ok in Hd as ([[shares2 df2] p2] & Hkw & Hp).
  destruct (Deal_shares M sampler s prng Hwf HD Hm) as [Hok Hcs].
  destruct (proj1 (is_ok_true _) (Hcs _ Hkw)) as [[cs p3] Hr].
  destruct (Hok cs p3 Hr) as (shares' & E1 & Hs). rewrite E1 in Hkw.
  injection Hkw as -> <- ->. clear Hok Hcs E1. unfold MSP.D in *.
  pose proof (random_coeffs_length _ _ _ _ _ Hr) as Hl.
  assert (length (s :: tail cs) = n (matrix M)) as Hlen by (destruct cs; cbn in *; lia).
  exists (s :: tail cs). split; [done|]. split; [done|].
  unfold Feldman.publish in Hp. cbn [KW.randomColumn] in Hp. rewrite <-Hlen in Hp.
  rewrite Lift_column in Hp by lia. cbn [mbind result_bind] in Hp. unfold Feldman.NewVerificationVector in Hp.
  replace (IsColumnVector (Feldman.value (vv_of (s :: tail cs)))) with true in Hp by done.
  unfold MSP.D in Hp. cbn [negb] in Hp. rewrite <-Hlen in Hp.
  replace (m (Feldman.value (vv_of (s :: tail cs))) =? length (s :: tail cs))%nat with true in Hp
    by (symmetry; apply Nat.eqb_refl).
  cbn [negb mbind result_bind] in Hp.
  change (Feldman.mkVV (Feldman.value (vv_of (s :: tail cs)))) with (vv_of (s :: tail cs) : Feldman.VerificationVector E) in Hp.
  injection Hp as <- <- <- _. split_and!; [done|reflexivity|exact Hs].
Qed.

(** Dealing publishes a vector against which every dealt share verifies
    and whose lifted secret is the secret dealt. *)
Theorem Feldman_Deal_verifies {P} M (sampler : P → result (F * P)) s prng shares V prng' :
  wf_msp M → (0 < m (matrix M))%nat → (2 ≤ MSP.D M)%nat →
  Feldman.Deal M sampler (Some s) (Some prng) = Ok (shares, V, prng') →
  dom shares = MSP.Shareholders M ∧
  (∀ id sh, shares !! id = Some sh → Feldman.Verify M (Some sh) (Some V) = Ok tt) ∧
  ∃ d, Feldman.NewLiftedDealerFunc (Some V) (Some M) = Ok d ∧
    Feldman.LiftedSecret d = Ok (generator • s).
Proof.
  unfold MSP.D. intros Hwf Hm HD Hd. apply bind_ok in Hd as ([[[shares1 V1] df] p1] & Hd & [= -> -> <-]).
  apply Feldman_Deal_columns in Hd as (r & Hr & <- & -> & _ & Hs); [|done..]. split_and!.
  - apply set_eq. intros id. rewrite elem_of_dom, Hs. case_decide; [|by split; [intros []|]].
    split; [done|by eexists].
  - intros id sh. rewrite Hs. case_decide as Hid; [|done]. intros [= <-].
    apply Verify_spec; [done|done|lia|done|done].
  - eexists. split; [apply NewLiftedDealerFunc_ok; [done|lia|done]|]. by apply LiftedSecret_ok; [|lia|].
Qed.
(** Working in the exponent agrees with working on the shares: the
    lifted shares of an accepted set of distinct holders reconstruct to the
    lifted secret, and the lifted share of a member of an accepted quorum
    converts to the lift of the additive share its plain share converts to. *)
Theorem Feldman_exponent_agrees M r ids (qs : gset ID) q :
  wf_msp M → (0 < n (matrix M))%nat →
  (NoDup ids → Accepts M ids = true →
     Feldman.ReconstructInTheExponent M (Some <$> (lifted_share_of M r <$> ids))
     = Ok (generator • (r !!! 0%nat))) ∧
  (Unanimity.NewUnanimityAccessStructure (Some qs) = Ok q → Accepts M (elements qs) = true →
     ∀ id, id ∈ qs → ∃ a,
       Feldman.ConvertShareToAdditive M (Some (share_of M r id)) (Some q) = Ok (mkAShare id a) ∧
       Feldman.ConvertLiftedShareToAdditive M (Some (lifted_share_of M r id)) (Some q)
       = Ok (mkAShare id (generator • a))).
Proof.
  intros Hwf Hn. split; [by apply ReconstructInTheExponent_ok|].
  unfold Unanimity.NewUnanimityAccessStructure. destruct (_ <? _)%nat; [done|].
  case_bool_decide as H0'; [done|]. intros [= <-] Ha id Hid.
  apply Accepts_spec in Ha as Hs; [|done..]. destruct Hs as (Hk & Hne & x & Hx).
  destruct (ReconstructionVector_spec M (elements qs) Hwf Hn Hne Hk)
    as [(w & Hrec & Hlw & Hw)|[_ [k Hsep]]]; [|by destruct (spans_separates M (elements qs) x k)].
  destruct (by_position M (elements qs) w Hlw) as [y Hy].
  exists (additive_value M y (lambda M r) id). split.
  { by apply (Convert_ok M (Unanimity.mkUnanimity qs) _ id Hwf Hn H0' Hid Ha w). }
  destruct (proj1 (known_spec M _) Hk id) as [rows Hrows]; [by apply elem_of_elements|].
  destruct (holder_rows M id rows Hwf Hrows) as [Hsort _].
  assert (id ∈ MSP.Shareholders M) as Hsh by (apply elem_of_dom; by eexists).
  pose proof (holder_nonempty M id Hwf Hsh) as Hne1.
  unfold Feldman.ConvertLiftedShareToAdditive. cbn [Feldman.lid Feldman.lv lifted_share_of Unanimity.ps].
  rewrite bool_decide_false by tauto. cbv zeta. rewrite Hrec. cbn [mbind result_bind].
  unfold Feldman.quorum_rows. rewrite quorum_rows by (apply known_spec, Hk). cbn [app mbind result_bind].
  rewrite Hrows, Hsort, !length_fmap, Nat.eqb_refl. cbn [negb].
  destruct (Nat.eqb_spec (length (rows_of M [id])) 0) as [|_]; [by destruct (rows_of M [id])|].
  rewrite sorted_holder_rows; [|done|apply NoDup_elements|by apply known_spec].
  rewrite (add_lifted_rows _ _ w y); [|apply selected_sorted|apply NoDup_selected|done|done|].
  2:{ intros i Hi. apply elem_rows_of. exists id. split; [by apply elem_of_elements|done]. }
  cbn [mbind result_bind]. rewrite NewShare_ok; [|done|by intros ->]. do 2 f_equal.
  fold (lbig gop gid (λ i, (generator • lambda M r i) • y i) (rows_of M [id])).
  unfold additive_value. rewrite lsum_big, gsum_big. apply lifted_combination.
Qed.
End properties.

Lemma Feldman_Verify_binding_witness :
  ∃ (M : MSP fp101) (r : list fp101), length r = 2 ∧
    ∀ sh, Feldman.Verify M (Some sh) (Some (vv_of (E:=fp101) (f101 <$> [7; 5]%Z))) = Ok tt
      ↔ KW.sid sh ∈ MSP.Shareholders M ∧ sh = share_of M r (KW.sid sh).
Proof.
  destruct ex_kw_msp as (M & _ & Hwf & Hm & Hn & _). exists M.
  destruct (Feldman_Verify_binding M (vv_of (E:=fp101) (f101 <$> [7; 5]%Z)) Hwf) as [_ Hok];
    [lia|unfold MSP.D; lia|done|done|].
  destruct Hok as (r & Hl & _ & Hv); [unfold MSP.D; by rewrite Hn|].
  exists r. unfold MSP.D in Hl. rewrite Hn in Hl. split; [done|]. apply Hv.
Defined.

Lemma Feldman_ReconstructAndVerify_correct_witness :
  ∃ M : MSP fp101, Feldman.ReconstructAndVerify M (Some (vv_of (E:=fp101) (f101 <$> [7; 5]%Z)))
    (Some <$> (share_of M (f101 <$> [7; 5]%Z) <$> [9; 4]%N)) = Ok (f101 7).
Proof.
  destruct ex_kw_msp as (M & _ & Hwf & Hm & Hn & Ha & _). exists M.
  destruct (Feldman_ReconstructAndVerify_correct (E:=fp101) M (f101 <$> [7; 5]%Z) [9; 4]%N Hwf)
    as [_ Hok]; [lia|unfold MSP.D; lia|unfold MSP.D; by rewrite Hn|].
  apply Hok; [by apply (bool_decide_unpack _)|done].
Defined.

Lemma ex_feldman_deal :
  ∃ (M : MSP fp101) shares (V : Feldman.VerificationVector fp101) p, wf_msp M ∧
    m (matrix M) = 3 ∧ n (matrix M) = 2 ∧
    Feldman.Deal M ex_sampler (Some (f101 7)) (Some 40%Z) = Ok (shares, V, p).
Proof.
  destruct ex_kw_msp as (M & HM & Hwf & Hm & Hn & _). exists M.
  clear Hm Hn. vm_compute in HM. injection HM as <-.
  eexists _, _, _. split; [done|]. split_and!; [vm_compute; reflexivity..].
Qed.

Lemma Feldman_Deal_verifies_witness :
  ∃ (M : MSP fp101) shares (V : Feldman.VerificationVector fp101) p,
    Feldman.Deal M ex_sampler (Some (f101 7)) (Some 40%Z) = Ok (shares, V, p) ∧
    dom shares = MSP.Shareholders M.
Proof.
  destruct ex_feldman_deal as (M & shares & V & p & Hwf & Hm & Hn & E). exists M, shares, V, p.
  split; [done|]. apply (Feldman_Deal_verifies M ex_sampler (f101 7) 40%Z shares V p Hwf);
    [lia|unfold MSP.D; lia|done].
Defined.

Lemma Feldman_exponent_agrees_witness :
  ∃ M : MSP fp101, Feldman.ReconstructInTheExponent M
    (Some <$> (lifted_share_of (E:=fp101) M (f101 <$> [7; 5]%Z) <$> [9; 4]%N)) = Ok (f101 7).
Proof.
  destruct ex_kw_msp as (M & _ & Hwf & Hm & Hn & Ha & _). exists M.
  destruct (Feldman_exponent_agrees (E:=fp101) M (f101 <$> [7; 5]%Z) [9; 4]%N ∅ (Unanimity.mkUnanimity ∅) Hwf)
    as [Hok _]; [lia|].
  rewrite Hok; [vm_compute; reflexivity|by apply (bool_decide_unpack _)|done].
Defined.
