(* ===== verification/Shard.v ===== *)
(** * Key shards (pkg/mpc/base.go)

    What a distributed key generation gives a party: the programme, the
    verification vector, the public key and the public key shares derived from
    it, and the party's share, checked against them.  The theory of sums of
    dealt columns, which the key-generation and refresh protocols share, is
    here too. *)

From Stdlib Require Import ZArith NArith Lia Ring Field.
From S2P Require Import Prelude Algebra AlgebraUtils IOUtils Poly Combinations Matrix Solver Interp.
From S2P Require Import MSP Access Threshold Unanimity Additive KW Feldman.

Module Shard.
Section shard.
Context `{PrimeGroup F E}.

Record BasePublicMaterial := mkPM {
  msp : MSP F; fv : Feldman.VerificationVector E;
  pkValue : E; pkShares : gmap ID (Feldman.LiftedShare E) }.

Definition put_pk_share (df : Feldman.LiftedDealerFunc F E) (pkShares : gmap ID (Feldman.LiftedShare E))
    (shareholder : ID) : result (gmap ID (Feldman.LiftedShare E)) :=
  share ← Feldman.ShareOf df shareholder; Ok (<[shareholder := share]> pkShares).

Definition NewBasePublicMaterial (mspMatrix : option (MSP F))
    (fv : option (Feldman.VerificationVector E)) : result BasePublicMaterial :=
  match mspMatrix, fv with
  | Some M, Some fv =>
      if negb (n (Feldman.value fv) =? 1) then Err ErrInvalidArgument
      else if negb (m (Feldman.value fv) =? MSP.D M) then Err ErrInvalidArgument
      else
        df ← Feldman.NewLiftedDealerFunc (Some fv) (Some M);
        pkShares ← foldM (put_pk_share df) ∅ (elements (MSP.Shareholders M));
        pkValue ← Feldman.LiftedSecret df;
        Ok (mkPM M fv pkValue pkShares)
  | _, _ => Err ErrInvalidArgument
  end.

Definition PMEqual (spm other : BasePublicMaterial) : bool :=
  if negb (MSP.Equal (msp spm) (msp other)) then false
  else if negb (Feldman.VVEqual (fv spm) (fv other)) then false
  else true.

Record BaseShard := mkShard { pm : BasePublicMaterial; share : KW.Share F }.

Definition NewBaseShard (share : option (KW.Share F)) (fv : option (Feldman.VerificationVector E))
    (mspMatrix : option (MSP F)) : result BaseShard :=
  basePublicMaterial ← NewBasePublicMaterial mspMatrix fv;
  match share with
  | None => Err ErrInvalidArgument
  | Some share =>
      match pkShares basePublicMaterial !! KW.sid share with
      | None => Err ErrInvalidArgument
      | Some pks =>
          manuallyLiftedShare ← Feldman.LiftShare (Some share) (Some generator);
          if negb (Feldman.LSEqual manuallyLiftedShare pks) then Err ErrInvalidArgument
          else Ok (mkShard basePublicMaterial share)
      end
  end.

Definition Equal (sh other : BaseShard) : bool :=
  KW.Equal (share sh) (share other) && PMEqual (pm sh) (pm other).

(** The DTOs hold the programme, the vector and the share; everything else is
    derived again, and checked, when a shard is read. *)
Context (codecPM : Codec (MSP F * Feldman.VerificationVector E)).
Context (codecShard : Codec (KW.Share F * list N)).

Definition MarshalPM (spm : BasePublicMaterial) : result (list N) := MarshalCBOR codecPM (msp spm, fv spm).
Definition UnmarshalPM (data : list N) : result BasePublicMaterial :=
  '(M, fv) ← UnmarshalCBOR codecPM data;
  NewBasePublicMaterial (Some M) (Some fv).

(** The public material is a field of the DTO, with its own encoding. *)
Definition Marshal (sh : BaseShard) : result (list N) :=
  PM ← MarshalPM (pm sh); MarshalCBOR codecShard (share sh, PM).
Definition Unmarshal (data : list N) : result BaseShard :=
  '(share, PM) ← UnmarshalCBOR codecShard data;
  dto ← UnmarshalPM PM;
  NewBaseShard (Some share) (Some (fv dto)) (Some (msp dto)).
End shard.
End Shard.

(** ** Sums of columns *)

Section columns.
Context `{PrimeGroup F E}.
Local Open Scope alg_scope.
Add Ring shard_ring : (ring_laws (R:=F)).
Implicit Types (M : MSP F) (r s : list F) (cs : list (list F)).

Definition vadd r s : list F := zip_with radd r s.
Definition vsum (d : nat) cs : list F := foldr vadd (replicate d 0) cs.

Lemma length_vadd r s d : length r = d → length s = d → length (vadd r s) = d.
Proof. intros Hr Hs. unfold vadd. rewrite length_zip_with. lia. Qed.
Lemma vadd_comm r s : vadd r s = vadd s r.
Proof. revert s. induction r as [|x r IH]; intros [|y s]; cbn; try done. f_equal; [ring|apply IH]. Qed.
Lemma vadd_assoc r s t : vadd r (vadd s t) = vadd (vadd r s) t.
Proof. revert s t. induction r as [|x r IH]; intros [|y s] [|z t]; cbn; try done. f_equal; [ring|apply IH]. Qed.
Lemma vadd_0_r r : vadd r (replicate (length r) 0) = r.
Proof. induction r as [|x r IH]; cbn; [done|]. f_equal; [ring|done]. Qed.

Lemma vsum_cons d r cs : vsum d (r :: cs) = vadd r (vsum d cs).
Proof. done. Qed.
Lemma length_vsum d cs : Forall (λ r, length r = d) cs → length (vsum d cs) = d.
Proof.
  induction 1 as [|r cs Hr _ IH]; [apply length_replicate|]. rewrite vsum_cons. by apply length_vadd.
Qed.
Lemma vsum_perm d cs cs' : cs ≡ₚ cs' → vsum d cs = vsum d cs'.
Proof.
  induction 1 as [|r cs cs' _ IH|r s cs|cs cs' cs'' _ IH1 _ IH2]; [done|..].
  - by rewrite !vsum_cons, IH.
  - rewrite !vsum_cons, !vadd_assoc. by rewrite (vadd_comm r s).
  - congruence.
Qed.
Lemma foldl_vadd d r cs :
  length r = d → Forall (λ s, length s = d) cs → foldl vadd r cs = vsum d (r :: cs).
Proof.
  intros Hr Hcs. revert r Hr. induction Hcs as [|s cs Hs Hcs IH]; intros r Hr; cbn [foldl].
  - cbn. rewrite <-Hr. symmetry. apply vadd_0_r.
  - rewrite IH by (by apply length_vadd). rewrite !vsum_cons. symmetry. apply vadd_assoc.
Qed.

Lemma vadd_lookup_total r s j d : length r = d → length s = d → (j < d)%nat →
  vadd r s !!! j = (r !!! j) + (s !!! j).
Proof.
  intros Hr Hs Hj. apply list_lookup_total_correct, lookup_zip_with_Some.
  eexists _, _. split; [done|]. split; apply list_lookup_lookup_total_lt; lia.
Qed.

Lemma lambda_vadd M r s i :
  length r = n (matrix M) → length s = n (matrix M) →
  lambda M (vadd r s) i = lambda M r i + lambda M s i.
Proof.
  intros Hr Hs. unfold lambda. rewrite <-rsum_add. apply rsum_ext. intros j Hj.
  rewrite (vadd_lookup_total _ _ _ (n (matrix M))) by done. ring.
Qed.

Lemma share_add M r s id :
  length r = n (matrix M) → length s = n (matrix M) →
  KW.Add (share_of M r id) (share_of M s id) = Ok (share_of M (vadd r s) id).
Proof.
  intros Hr Hs. unfold KW.Add, share_of. cbn [KW.sid KW.sv].
  rewrite N.eqb_refl, !length_fmap, Nat.eqb_refl. cbn [negb]. do 2 f_equal.
  rewrite zip_with_fmap_l, zip_with_fmap_r, zip_with_diag. apply list_fmap_ext. intros _ i _.
  by rewrite lambda_vadd.
Qed.

Lemma VVOp_columns r s :
  length r = length s →
  Feldman.VVOp (Some (vv_of r : Feldman.VerificationVector E)) (Some (vv_of s)) = Ok (vv_of (vadd r s)).
Proof.
  intros Hl. unfold Feldman.VVOp. cbn [vv_of Feldman.value n m]. rewrite Hl, !Nat.eqb_refl. cbn [negb].
  unfold OpAssign. cbn [m n v]. rewrite !Nat.eqb_refl. cbn [andb negb mbind result_bind].
  unfold vv_of. rewrite (length_vadd r s (length s)) by done. do 3 f_equal. unfold vadd.
  revert s Hl. induction r as [|x r IH]; intros [|y s] Hl; try done. cbn in *.
  f_equal; [symmetry; apply scalar_op_add_r|]. apply IH. lia.
Qed.

Lemma vv_of_inj r s : (vv_of r : Feldman.VerificationVector E) = vv_of s → r = s.
Proof.
  unfold vv_of. intros [= _ El]. assert (Inj (=) (=) (λ c : F, (generator : E) • c)) as Hi by
    (intros ? ?; apply generator_inj). by apply (list_fmap_eq_inj _ Hi).
Qed.
End columns.

(** ** What a shard is *)

Section theory.
Context `{PrimeGroup F E}.
Local Open Scope alg_scope.
Implicit Types (M : MSP F) (r : list F) (V : Feldman.VerificationVector E) (sh : Shard.BaseShard (F:=F) (E:=E)).

(** A programme that dealing can use. *)
Record usable M : Prop := {
  us_wf : wf_msp M; us_rows : (0 < m (matrix M))%nat; us_cols : (0 < n (matrix M))%nat }.

(** The public material of the column [r]. *)
Definition public_of M r : Shard.BasePublicMaterial (F:=F) (E:=E) :=
  Shard.mkPM M (vv_of r) (generator • (r !!! 0%nat))
    (set_to_map (λ id, (id, lifted_share_of M r id)) (MSP.Shareholders M)).

Lemma pk_shares_lookup M r id :
  Shard.pkShares (public_of M r) !! id =
    if decide (id ∈ MSP.Shareholders M) then Some (lifted_share_of M r id) else None.
Proof.
  apply option_eq. intros s. cbn. rewrite lookup_set_to_map by done.
  case_decide; split; [intros (? & _ & [= -> <-]); congruence|intros [= <-]; by exists id| |done].
  by intros (? & ? & [= -> _]).
Qed.

Lemma NewBasePublicMaterial_ok M r :
  usable M → length r = n (matrix M) →
  Shard.NewBasePublicMaterial (Some M) (Some (vv_of r)) = Ok (public_of M r).
Proof.
  intros [Hwf Hm Hn] Hr. unfold Shard.NewBasePublicMaterial. cbn [vv_of Feldman.value n m].
  unfold MSP.D. rewrite Hr, !Nat.eqb_refl. cbn [Nat.eqb negb].
  replace (Feldman.mkVV _) with (vv_of r : Feldman.VerificationVector E) by (unfold vv_of; by rewrite Hr).
  rewrite NewLiftedDealerFunc_ok by done. cbn [mbind result_bind].
  destruct (foldM_insert_total (Feldman.ShareOf (Feldman.mkLDF (vv_of r) M
    (mk (m (matrix M)) 1 (λ i _, generator • lambda M r i)))) (λ id, id)
    (elements (MSP.Shareholders M)) ∅) as [shares Es].
  { intros id Hid%elem_of_elements. by rewrite ShareOf_lifted, decide_True by done. }
  unfold Shard.put_pk_share. rewrite Es. cbn [mbind result_bind].
  rewrite LiftedSecret_ok by done. cbn [mbind result_bind]. f_equal. unfold public_of. f_equal.
  apply map_eq. intros id. pose proof (pk_shares_lookup M r id) as E1. cbn in E1. rewrite E1.
  apply (foldM_insert_ok _ (λ i, i)) in Es as [H1 H2]; [|apply (NoDup_elements (MSP.Shareholders M))].
  case_decide as Hid.
  - destruct (H1 id) as (v & Hv & ->); [by apply elem_of_elements|].
    rewrite ShareOf_lifted, decide_True in Hv by done. congruence.
  - rewrite H2; [done|]. by rewrite list_fmap_id, elem_of_elements.
Qed.

Lemma NewBaseShard_columns M r s sh :
  usable M → length r = n (matrix M) →
  Shard.NewBaseShard (Some s) (Some (vv_of r)) (Some M) = Ok sh ↔
  KW.sid s ∈ MSP.Shareholders M ∧ s = share_of M r (KW.sid s) ∧ sh = Shard.mkShard (public_of M r) s.
Proof.
  intros HM Hr. unfold Shard.NewBaseShard. rewrite NewBasePublicMaterial_ok by done. cbn [mbind result_bind].
  rewrite pk_shares_lookup. case_decide as Hid; [|naive_solver].
  destruct HM as [Hwf Hm Hn]. pose proof (Verify_spec (E:=E) M r s Hwf Hm Hn Hr) as Hv.
  unfold Feldman.Verify in Hv. rewrite NewLiftedDealerFunc_ok in Hv by done. cbn [mbind result_bind] in Hv.
  rewrite ShareOf_lifted, decide_True in Hv by done. cbn [mbind result_bind] in Hv.
  destruct (Feldman.LiftShare (Some s) (Some (generator : E))) as [lifted| |]; cbn [mbind result_bind] in Hv |- *;
    [|naive_solver..].
  assert (Feldman.LSEqual lifted (lifted_share_of M r (KW.sid s)) = Feldman.LSEqual (lifted_share_of M r (KW.sid s)) lifted)
    as ->. { apply eq_true_iff_eq. rewrite !LSEqual_spec. by split. }
  destruct (Feldman.LSEqual _ _); cbn [negb] in *; [|naive_solver].
  split; [intros [= <-]; naive_solver|]. by intros (_ & _ & ->).
Qed.

(** A vector that a shard is built on has a column. *)
Lemma NewBasePublicMaterial_column M V pm :
  wf (Feldman.value V) → Shard.NewBasePublicMaterial (Some M) (Some V) = Ok pm →
  ∃ r, V = vv_of r ∧ length r = n (matrix M).
Proof.
  intros HV. unfold Shard.NewBasePublicMaterial.
  destruct (Nat.eqb_spec (n (Feldman.value V)) 1) as [Hc|]; [|done]. cbn [negb].
  destruct (Nat.eqb_spec (m (Feldman.value V)) (MSP.D M)) as [Hd|]; [|done]. intros _.
  destruct (vv_complete V HV Hc) as [r ->]. exists r. by split.
Qed.
Lemma NewBaseShard_spec M V s sh :
  usable M → wf (Feldman.value V) →
  Shard.NewBaseShard (Some s) (Some V) (Some M) = Ok sh ↔
  ∃ r, V = vv_of r ∧ length r = n (matrix M) ∧ KW.sid s ∈ MSP.Shareholders M ∧
    s = share_of M r (KW.sid s) ∧ sh = Shard.mkShard (public_of M r) s.
Proof.
  intros HM HV. split.
  - intros Hsh. pose proof Hsh as Hs. unfold Shard.NewBaseShard in Hs. apply bind_ok in Hs as (pm & Hpm & _).
    destruct (NewBasePublicMaterial_column M V pm HV Hpm) as (r & -> & Hr). exists r.
    by apply NewBaseShard_columns in Hsh.
  - intros (r & -> & Hr & Hs). by apply NewBaseShard_columns.
Qed.
End theory.

(** ** Property *)

Section properties.
Context `{PrimeGroup F E}.
Local Open Scope alg_scope.
Implicit Types (M : MSP F) (V : Feldman.VerificationVector E).

(** C39. Shards.  Over a well-formed programme a shard is built exactly when
    Feldman verification accepts the share; it is then the share of the one
    column [r] that the vector commits to, the public key is the generator to
    the power of the secret [r_0], and the public key share of every
    shareholder is the lift of the share of [r] it must hold.  Every such
    shard survives serialisation, and whatever bytes are read, only such shards
    come out. *)
Theorem Shard_invariant (codecPM : Codec (MSP F * Feldman.VerificationVector E))
    (codecShard : Codec (KW.Share F * list N)) `{!RoundTrip codecPM, !RoundTrip codecShard} M V s :
  usable M → wf (Feldman.value V) →
  (m (Feldman.value V) = MSP.D M → n (Feldman.value V) = 1%nat →
     is_ok (Shard.NewBaseShard (Some s) (Some V) (Some M)) = true ↔
     Feldman.Verify M (Some s) (Some V) = Ok tt) ∧
  (∀ sh, Shard.NewBaseShard (Some s) (Some V) (Some M) = Ok sh →
     (∃ r, V = vv_of r ∧ length r = MSP.D M ∧ Shard.share sh = share_of M r (KW.sid s) ∧
        Shard.pkValue (Shard.pm sh) = generator • (r !!! 0%nat) ∧
        ∀ id, Shard.pkShares (Shard.pm sh) !! id =
          if decide (id ∈ MSP.Shareholders M)
          then Some (Feldman.mkLShare id ((λ x, generator • x) <$> KW.sv (share_of M r id))) else None) ∧
     ∀ data, Shard.Marshal codecPM codecShard sh = Ok data →
       Shard.Unmarshal codecPM codecShard data = Ok sh) ∧
  (∀ data sh, Shard.Unmarshal codecPM codecShard data = Ok sh →
     ∃ s' V' M', Shard.NewBaseShard (Some s') (Some V') (Some M') = Ok sh).
Proof.
  intros HM HV. pose proof HM as [Hwf Hm Hn]. split_and!.
  - intros Hd Hc. destruct (vv_complete V HV Hc) as [r ->]. cbn in Hd. unfold MSP.D in Hd.
    rewrite Verify_spec, is_ok_true by done. split.
    + intros [sh (? & ? & _)%NewBaseShard_columns]; done.
    + intros [? ?]. eexists. apply NewBaseShard_columns; [done..|]. split_and!; [done|done|reflexivity].
  - intros sh (r & -> & Hr & Hid & Hs & ->)%NewBaseShard_spec; [|done..]. split.
    + exists r. split_and!; [done..|]. intros id. cbn [Shard.pm]. rewrite pk_shares_lookup.
      case_decide; [|done]. unfold lifted_share_of, share_of. cbn [KW.sv]. by rewrite <-list_fmap_compose.
    + intros data (b & Hb & Hd)%bind_ok. unfold Shard.MarshalPM in Hb.
      apply (round_trip (c:=codecPM)) in Hb as [Hb _]. apply (round_trip (c:=codecShard)) in Hd as [Hd _].
      unfold Shard.Unmarshal. rewrite Hd. cbn [mbind result_bind]. unfold Shard.UnmarshalPM. rewrite Hb.
      cbn [mbind result_bind Shard.pm Shard.share public_of Shard.msp Shard.fv].
      rewrite NewBasePublicMaterial_ok by done. cbn [mbind result_bind public_of Shard.msp Shard.fv].
      by apply NewBaseShard_columns.
  - intros data sh ([s' PM] & _ & (dto & _ & E1)%bind_ok)%bind_ok. eauto.
Qed.
End properties.

(** ** A shard over three shareholders *)

#[export] Instance matrix_eq_dec {X} `{EqDecision X} : EqDecision (Matrix X).
Proof. solve_decision. Defined.
#[export] Instance vv_eq_dec {X} `{EqDecision X} : EqDecision (Feldman.VerificationVector X).
Proof. solve_decision. Defined.
#[export] Instance msp_eq_dec {X} `{EqDecision X} : EqDecision (MSP X).
Proof. solve_decision. Defined.

(** An encoding of a single value. *)
Definition single_codec {D} `{EqDecision D} (d0 : D) : Codec D := {|
  MarshalCBOR d := if decide (d = d0) then Ok [1%N] else Err ErrFailed;
  UnmarshalCBOR b := if decide (b = [1%N]) then Ok d0 else Err ErrFailed;
|}.
#[export] Instance single_codec_round_trip {D} `{EqDecision D} (d0 : D) : RoundTrip (single_codec d0).
Proof. intros d b. cbn. case_decide as Hd; [|done]. intros [= <-]. by rewrite decide_True, Hd. Qed.

Lemma ex_usable : ∃ M : MSP fp101, usable M ∧ n (matrix M) = 2 ∧ 4%N ∈ MSP.Shareholders M.
Proof.
  destruct ex_kw_msp as (M & HM & Hwf & Hm & Hn & _). exists M. split; [by split; rewrite ?Hm, ?Hn; auto with arith|].
  split; [done|]. clear Hwf Hm Hn. vm_compute in HM. injection HM as <-. vm_compute. done.
Qed.

Lemma Shard_invariant_witness :
  let r := f101 <$> [7; 5]%Z in
  ∃ (M : MSP fp101) sh,
    let codecPM := single_codec (M, vv_of (E:=fp101) r) in
    let codecShard := single_codec (share_of M r 4%N, [1%N]) in
    Shard.NewBaseShard (Some (share_of M r 4%N)) (Some (vv_of (E:=fp101) r)) (Some M) = Ok sh ∧
    Shard.Unmarshal codecPM codecShard [1%N] = Ok sh.
Proof.
  intros r. destruct ex_usable as (M & HM & Hn & Hin). exists M.
  assert (length r = n (matrix M)) as Hr by (by rewrite Hn).
  eexists. intros codecPM codecShard.
  assert (Shard.NewBaseShard (Some (share_of M r 4%N)) (Some (vv_of (E:=fp101) r)) (Some M)
    = Ok (Shard.mkShard (public_of M r) (share_of M r 4%N))) as E1 by (by apply NewBaseShard_columns).
  split; [exact E1|].
  destruct (Shard_invariant codecPM codecShard M (vv_of (E:=fp101) r) (share_of M r 4%N) HM)
    as (_ & Hok & _); [done|].
  apply (Hok _ E1). unfold Shard.Marshal, Shard.MarshalPM, codecPM, codecShard.
  cbn [single_codec MarshalCBOR Shard.pm Shard.share public_of Shard.msp Shard.fv].
  rewrite decide_True by done. cbn [mbind result_bind]. by rewrite decide_True.
Defined.
