(* ===== verification/Hjky.v ===== *)
(** * Zero sharing for refresh (pkg/mpc/zero/hjky)

    Every party deals a Feldman sharing of zero, checks the share it gets from
    every other party and that the other dealings are of zero, and adds them
    up.  Messages and their fields are pointers that may be nil ([None]);
    [sampler] is the scalar field's [Random], [bytesE] and [IsTorsionFree] are
    methods of the curve. *)

From Stdlib Require Import ZArith NArith Lia Ring Field Zmod.
From stdpp Require Import strings.
From S2P Require Import Prelude Algebra AlgebraUtils IOUtils Network Echo Sigma Hagrid Session.
From S2P Require Import Poly Combinations Matrix Solver Interp MSP Access Threshold Unanimity Additive KW Feldman Shard.

(** [hex.EncodeToString] of the standard library. *)
Definition hex_digit (d : N) : Ascii.ascii := Ascii.ascii_of_N (if d <? 10 then 48 + d else 87 + d)%N.
Fixpoint hex_string (b : list N) : string :=
  match b with
  | [] => ""
  | x :: b => String.String (hex_digit (x / 16)%N) (String.String (hex_digit (x mod 16)%N) (hex_string b))
  end.

(** The context with another transcript. *)
Definition with_tape (f : Hagrid.transcript → Hagrid.transcript) (ctx : Session.Context) : Session.Context :=
  Session.mkContext (Session.sid ctx) (Session.holderID ctx) (Session.sortedQuorum ctx)
    (f (Session.ctape ctx)) (Session.seeds ctx).

(** The checks on a verification vector that the messages of several protocols
    share: its dimensions and that its entries are free of torsion.  The groups
    of the theorems have prime order, where every element is. *)
Definition vector_valid `{PrimeGroup F E} (IsTorsionFree : E → bool) (M : MSP F)
    (V : Feldman.VerificationVector E) : bool :=
  (m (Feldman.value V) =? MSP.D M) && (n (Feldman.value V) =? 1) && forallb IsTorsionFree (v (Feldman.value V)).

Module Hjky.
Definition transcriptLabel : string := "BRON_CRYPTO_HJKY-".
Definition coefficientLabel : string := "BRON_CRYPTO_HJKY_COEFFICIENT-".

Section hjky.
Context `{PrimeGroup F E} {P : Type} (sampler : P → result (F * P)).
Context (bytesE : E → list N) (IsTorsionFree : E → bool).
Abbreviation VV := (Feldman.VerificationVector E).

(** ** Participant (participant.go) *)

Record Participant := mkParticipant {
  ctx : Session.Context; scheme : MSP F; round : nat; prng : P;
  verificationVectors : gmap ID VV; share : option (KW.Share F) }.

(** [induced] is [accessstructures.InducedMSP]. *)
Definition NewParticipant {A} `{Monotone A} (induced : A → result (MSP F))
    (ctx : option Session.Context) (as_ : option A) (prng : option P) : result Participant :=
  match ctx, prng, as_ with
  | Some ctx, Some prng, Some as_ =>
      if negb (bool_decide (Session.Quorum ctx = Shareholders as_)) then Err ErrInvalidArgument
      else
        vssScheme ← induced as_;
        let ctx := with_tape (Hagrid.AppendDomainSeparator (transcriptLabel +:+ hex_string (Session.sid ctx))) ctx in
        Ok (mkParticipant ctx vssScheme 1 prng ∅ None)
  | _, _, _ => Err ErrInvalidArgument
  end.

Definition set_ctx (c : Session.Context) (p : Participant) : Participant :=
  mkParticipant c (scheme p) (round p) (prng p) (verificationVectors p) (share p).
Definition set_prng (g : P) (p : Participant) : Participant :=
  mkParticipant (ctx p) (scheme p) (round p) g (verificationVectors p) (share p).
Definition set_vectors (f : gmap ID VV → gmap ID VV) (p : Participant) : Participant :=
  mkParticipant (ctx p) (scheme p) (round p) (prng p) (f (verificationVectors p)) (share p).
Definition set_share (s : option (KW.Share F)) (p : Participant) : Participant :=
  mkParticipant (ctx p) (scheme p) (round p) (prng p) (verificationVectors p) s.
Definition next_round (p : Participant) : Participant :=
  mkParticipant (ctx p) (scheme p) (S (round p)) (prng p) (verificationVectors p) (share p).

Definition SharingID (p : Participant) : ID := Session.holderID (ctx p).
Definition others (p : Participant) : list ID := Session.OtherPartiesOrdered (ctx p).

(** ** Messages (messages.go) *)

Record Round1Broadcast := mkR1B { VerificationVector : option VV }.
Record Round1P2P := mkR1U { ZeroShare : option (KW.Share F) }.

Definition ValidateBroadcast (participant : Participant) (msg : option Round1Broadcast) (_ : ID) : result unit :=
  match msg with
  | Some (mkR1B (Some V)) =>
      if vector_valid IsTorsionFree (scheme participant) V then Ok tt else Err ErrValidationFailed
  | _ => Err ErrValidationFailed
  end.
Definition ValidateP2P (participant : Participant) (msg : option Round1P2P) (_ : ID) : result unit :=
  match msg with
  | Some (mkR1U (Some s)) =>
      if negb (KW.sid s =? SharingID participant)%N then Err ErrValidationFailed else Ok tt
  | _ => Err ErrValidationFailed
  end.

(** ** Rounds (rounds.go) *)

Definition zero_share_for (shares : gmap ID (KW.Share F)) (r1u : gmap ID (option Round1P2P)) (id : ID) :
    result (gmap ID (option Round1P2P)) :=
  share ← or_err (shares !! id) ErrFailed;
  Ok (<[id := Some (mkR1U (Some share))]> r1u).

Definition Round1 : stateM Participant (Round1Broadcast * gmap ID (option Round1P2P)) :=
  r ← gets round;
  _ ← ensure (r =? 1) ErrRound;
  M ← gets scheme;
  '(shares, vv) ← zoom prng set_prng (λ g, '(s, V, g) ← Feldman.Deal M sampler (Some rzero) (Some g); Ok (s, V, g));
  self ← gets SharingID;
  _ ← modify (set_vectors (λ _, {[self := vv]}));
  _ ← modify (set_share (shares !! self));
  _ ← ensure (bool_decide (is_Some (shares !! self))) ErrFailed;
  ids ← gets others;
  r1u ← lift (foldM (zero_share_for shares) ∅ ids);
  _ ← modify next_round;
  mret (mkR1B (Some vv), r1u).

(** The errors of the checks of one party are identifiable aborts. *)
Definition abort {A} (r : result A) : result A :=
  match r with Err _ => Err ErrAbort | r => r end.

Definition add_dealing (r1b : gmap ID (option Round1Broadcast)) (r1u : gmap ID (option Round1P2P))
    (acc : option (KW.Share F) * option VV) (id : ID) :
    stateM Participant (option (KW.Share F) * option VV) :=
  let '(share, verificationVector) := acc in
  b ← lift (or_err (r1b !! id) ErrFailed);
  u ← lift (or_err (r1u !! id) ErrFailed);
  match b, u with
  | Some b, Some u =>
      M ← gets scheme;
      _ ← lift (abort (Feldman.Verify M (ZeroShare u) (VerificationVector b)));
      match VerificationVector b, share, ZeroShare u with
      | Some V, Some s, Some z =>
          pk ← lift (match Get (Feldman.value V) 0 0 with Ok pk => Ok pk | _ => Panic end);
          _ ← ensure (bool_decide (pk = gid)) ErrAbort;
          share ← lift (KW.Add s z);
          verificationVector ← lift (abort (Feldman.VVOp verificationVector (Some V)));
          _ ← modify (set_vectors (<[id := V]>));
          mret (Some share, Some verificationVector)
      | _, _, _ => lift Panic
      end
  | _, _ => lift Panic
  end.

Definition append_vector (vectors : gmap ID VV) (t : Hagrid.transcript) (id : ID) : result Hagrid.transcript :=
  match vectors !! id with
  | None => Panic
  | Some V => Ok (foldl (λ t c, Hagrid.AppendBytes coefficientLabel [bytesE c] t) t (v (Feldman.value V)))
  end.
Definition writeVerificationVectorToTranscript : stateM Participant unit :=
  vectors ← gets verificationVectors;
  c ← gets ctx;
  t ← lift (foldM (append_vector vectors) (Session.ctape c) (Session.sortedQuorum c));
  modify (set_ctx (with_tape (λ _, t) c)).

Definition Round2 (r1b : gmap ID (option Round1Broadcast)) (r1u : gmap ID (option Round1P2P)) :
    stateM Participant (option (KW.Share F) * option VV) :=
  r ← gets round;
  _ ← ensure (r =? 2) ErrRound;
  p ← gets (λ p, p);
  ids ← gets others;
  _ ← lift (Network.ValidateIncomingMessages (ValidateBroadcast p) ids r1b);
  _ ← lift (Network.ValidateIncomingMessages (ValidateP2P p) ids r1u);
  share ← gets share;
  vv ← gets (λ p, verificationVectors p !! SharingID p);
  out ← foldS (add_dealing r1b r1u) (share, vv) ids;
  _ ← writeVerificationVectorToTranscript;
  _ ← modify next_round;
  mret out.
End hjky.
End Hjky.

(** ** What the rounds do *)

Section theory.
Import Hjky.
Context `{PrimeGroup F E} {P : Type} (sampler : P → result (F * P)).
Context (bytesE : E → list N) (IsTorsionFree : E → bool).
Local Open Scope alg_scope.
Implicit Types (p : Participant (F:=F) (E:=E) (P:=P)) (M : MSP F) (r : list F).

Lemma other_parties_elem ctx id : id ∈ Session.OtherPartiesOrdered ctx ↔ id ∈ Session.sortedQuorum ctx ∧ id ≠ Session.holderID ctx.
Proof. unfold Session.OtherPartiesOrdered. rewrite list_elem_of_filter. tauto. Qed.
Lemma self_others_perm ctx :
  NoDup (Session.sortedQuorum ctx) → Session.holderID ctx ∈ Session.sortedQuorum ctx →
  Session.holderID ctx :: Session.OtherPartiesOrdered ctx ≡ₚ Session.sortedQuorum ctx.
Proof.
  intros Hnd Hin. apply NoDup_Permutation; [|done|].
  - constructor; [rewrite other_parties_elem; tauto|]. by apply NoDup_filter.
  - intros id. rewrite elem_of_cons, other_parties_elem. destruct (decide (id = Session.holderID ctx)) as [->|]; tauto.
Qed.

Lemma zero_shares_sent (shares : gmap ID (KW.Share F)) ids u :
  NoDup ids → foldM (zero_share_for shares) ∅ ids = Ok u →
  ∀ id, id ∈ ids → ∃ s, shares !! id = Some s ∧ u !! id = Some (Some (mkR1U (Some s))).
Proof.
  intros Hnd E1 id Hid.
  assert (foldM (λ (r : gmap ID (option (Round1P2P (F:=F)))) x,
    v ← (s ← or_err (shares !! x) ErrFailed; Ok (Some (mkR1U (Some s)))); Ok (<[x := v]> r)) ∅ ids = Ok u) as E2.
  { rewrite <-E1. apply foldM_ext. intros r x. unfold zero_share_for. by destruct (or_err _ _). }
  clear E1. apply (foldM_insert_ok _ (λ i, i)) in E2 as [E1 _]; [|done].
  destruct (E1 id Hid) as (o & Ho & ->). destruct (shares !! id) as [s|]; [|done].
  injection Ho as <-. by exists s.
Qed.

Lemma Round1_columns p p' b u :
  NoDup (Session.sortedQuorum (ctx p)) → usable (scheme p) → (2 ≤ n (matrix (scheme p)))%nat →
  Round1 sampler p = (p', Ok (b, u)) →
  ∃ r g, length r = n (matrix (scheme p)) ∧ r !!! 0%nat = 0 ∧ round p = 1%nat ∧
    SharingID p ∈ MSP.Shareholders (scheme p) ∧
    b = mkR1B (Some (vv_of r)) ∧
    (∀ id, id ∈ others p → id ∈ MSP.Shareholders (scheme p) ∧
       u !! id = Some (Some (mkR1U (Some (share_of (scheme p) r id))))) ∧
    p' = mkParticipant (ctx p) (scheme p) 2 g {[SharingID p := vv_of r]}
           (Some (share_of (scheme p) r (SharingID p))).
Proof.
  intros Hnd [Hwf Hm Hn] H2. unfold Round1. intros E1. step_states E1.
  apply bind_ok in E2 as ([[sh V'] g'] & Hd & [= -> -> ->]).
  apply bind_ok in Hd as ([[[sh2 V2] df'] g2] & Hd & [= -> -> ->]).
  apply Feldman_Deal_columns in Hd as (r & Hr & H0' & -> & _ & Hs); [|done..].
  cbn [SharingID ctx set_prng set_vectors set_share others] in E3, E4.
  fold (SharingID p) in E3.
  apply Nat.eqb_eq in E0. apply bool_decide_eq_true in E3 as [x Hself].
  rewrite Hs in Hself. case_decide as Hin; [|done]. injection Hself as <-.
  exists r, s. split_and!; try done.
  - intros id Hid. destruct (zero_shares_sent _ _ _ (NoDup_filter _ _ Hnd) E4 id Hid) as (z & Hz & ->).
    rewrite Hs in Hz. case_decide as Hin'; [|done]. by injection Hz as <-.
  - unfold next_round, set_share, set_vectors, set_prng, SharingID. cbn. rewrite E0.
    fold (SharingID p). by rewrite Hs, decide_True.
Qed.

(** Matrices that arrive are well formed: decoding checks it. *)
Definition decoded (r1b : gmap ID (option (Round1Broadcast (E:=E)))) : Prop :=
  ∀ id V, r1b !! id = Some (Some (mkR1B (Some V))) → wf (Feldman.value V).

(** What a party has accepted from [id]: a dealing of zero with column [r]. *)
Definition accepted M (self : ID) (r1b : gmap ID (option (Round1Broadcast (E:=E))))
    (r1u : gmap ID (option (Round1P2P (F:=F)))) (id : ID) r : Prop :=
  r1b !! id = Some (Some (mkR1B (Some (vv_of r)))) ∧
  r1u !! id = Some (Some (mkR1U (Some (share_of M r self)))) ∧
  length r = n (matrix M) ∧ r !!! 0%nat = 0.

Lemma incoming_ok {Msg} (val : Msg → ID → result unit) ids (msgs : gmap ID Msg) :
  Network.ValidateIncomingMessages val ids msgs = Ok tt →
  ∀ id, id ∈ ids → ∃ msg, msgs !! id = Some msg ∧ val msg id = Ok tt.
Proof.
  unfold Network.ValidateIncomingMessages. rewrite foldM_unit_ok. intros Hall id Hid.
  specialize (Hall id Hid). destruct (msgs !! id) as [msg|]; [by exists msg|done].
Qed.

Lemma vector_column M V :
  wf (Feldman.value V) → vector_valid IsTorsionFree M V = true →
  ∃ r, V = vv_of r ∧ length r = n (matrix M) ∧ forallb IsTorsionFree (v (Feldman.value V)) = true.
Proof.
  intros HV. unfold vector_valid, MSP.D. rewrite !andb_true_iff, !Nat.eqb_eq. intros [[Hd Hc] Ht].
  destruct (vv_complete V HV Hc) as [r ->]. by exists r.
Qed.

Lemma Get_head r : (0 < length r)%nat →
  Get (Feldman.value (vv_of r : Feldman.VerificationVector E)) 0 0 = Ok (generator • (r !!! 0%nat)).
Proof.
  intros Hr. unfold Get. cbn [vv_of Feldman.value m n].
  destruct (length r) as [|k] eqn:Ek; [lia|]. replace (in_range 0 (S k)) with true by done.
  cbn [andb negb]. f_equal. apply at_vv. lia.
Qed.

Lemma add_dealing_ok M p0 r1b r1u s V id p p' acc' :
  usable M → scheme p = M → decoded r1b →
  (∃ msg, r1b !! id = Some msg ∧ ValidateBroadcast IsTorsionFree p0 msg id = Ok tt) →
  (∃ msg, r1u !! id = Some msg ∧ ValidateP2P p0 msg id = Ok tt) → scheme p0 = M →
  length s = n (matrix M) → V = Some (vv_of s) →
  add_dealing r1b r1u (Some (share_of M s (SharingID p0)), V) id p = (p', Ok acc') →
  ∃ r, accepted M (SharingID p0) r1b r1u id r ∧ p' = set_vectors (<[id := vv_of r]>) p ∧
    acc' = (Some (share_of M (vadd s r) (SharingID p0)), Some (vv_of (vadd s r))).
Proof.
  intros HM <- Hdec (b & Hb & Vb) (u & Hu & Vu) Hp0 Hs -> E1.
  destruct b as [[[W|]]|]; [|done..]. destruct u as [[[z|]]|]; [|done..].
  cbn [ValidateBroadcast ValidateP2P] in Vb, Vu. rewrite Hp0 in Vb.
  destruct (vector_valid IsTorsionFree (scheme p) W) eqn:EV; [|done].
  destruct (vector_column (scheme p) W (Hdec _ _ Hb) EV) as (r & -> & Hr & _).
  destruct (N.eqb_spec (KW.sid z) (SharingID p0)) as [Hz|]; [|done].
  unfold add_dealing in E1. rewrite Hb, Hu in E1. step_states E1. injection E0 as <-. injection E2 as <-.
  step_states E1. cbn [VerificationVector ZeroShare] in E1.
  unfold abort in E0. destruct (Feldman.Verify _ _ _) as [[]| |] eqn:Ev; [|done..]. clear E0.
  destruct HM as [Hwf Hm Hn].
  apply Verify_spec in Ev as [_ Ez]; [|done..]. rewrite Hz in Ez. subst z.
  rewrite Get_head in E1 by (rewrite Hr; exact Hn). step_states E1. apply bool_decide_eq_true, generator_free in E2.
  rewrite share_add in E3 by done. injection E3 as <-.
  rewrite VVOp_columns in E4 by congruence. injection E4 as <-. exists r. done.
Qed.

(** Accepted dealings are added without error. *)
Lemma add_dealing_total M self r1b r1u s id p r :
  usable M → scheme p = M → length s = n (matrix M) → self ∈ MSP.Shareholders M →
  accepted M self r1b r1u id r →
  add_dealing r1b r1u (Some (share_of M s self), Some (vv_of s)) id p =
    (set_vectors (<[id := vv_of r]>) p,
     Ok (Some (share_of M (vadd s r) self), Some (vv_of (vadd s r)))).
Proof.
  intros [Hwf Hm Hn] Hp Hs Hself (Hb & Hu & Hr & H0'). unfold add_dealing. rewrite Hb, Hu.
  cbn [or_err]. unfold mbind, state_bind, lift, gets, modify, ensure, mret, state_ret.
  cbn [ZeroShare VerificationVector]. rewrite Hp.
  assert (Feldman.Verify M (Some (share_of M r self)) (Some (vv_of r : Feldman.VerificationVector E)) = Ok tt) as ->
    by (by apply Verify_spec).
  cbn [abort]. rewrite Get_head by lia. rewrite H0', scalar_op_0, bool_decide_true by done.
  rewrite share_add by done. rewrite VVOp_columns by congruence. done.
Qed.

Lemma dealings_total M self r1b r1u s ids p :
  usable M → scheme p = M → length s = n (matrix M) → self ∈ MSP.Shareholders M →
  (∀ id, id ∈ ids → ∃ r, accepted M self r1b r1u id r) →
  ∃ acc vectors,
    foldS (add_dealing r1b r1u) (Some (share_of M s self), Some (vv_of s)) ids p
      = (set_vectors (λ _, vectors) p, Ok acc) ∧
    ∀ id, is_Some (verificationVectors p !! id) ∨ id ∈ ids → is_Some (vectors !! id).
Proof.
  intros HM. revert s p. induction ids as [|id ids IH]; intros s p Hp Hs Hself Hacc; cbn [foldS].
  { eexists _, (verificationVectors p). split; [by destruct p|]. intros id [?|?%not_elem_of_nil]; done. }
  destruct (Hacc id) as [r Hr]; [by constructor|].
  unfold mbind, state_bind. rewrite (add_dealing_total M self r1b r1u s id p r) by done.
  destruct (IH (vadd s r) (set_vectors (<[id := vv_of r]>) p)) as (acc & vectors & E1 & Hv); [done| |done| |].
  { apply length_vadd; [done|]. by destruct Hr as (_ & _ & ? & _). }
  { intros id' Hid'. apply Hacc. by constructor. }
  exists acc, vectors. split; [exact E1|]. intros id' Hid'. apply Hv. cbn [set_vectors verificationVectors].
  rewrite elem_of_cons in Hid'. destruct (decide (id' = id)) as [->|Hne].
  - left. rewrite lookup_insert_eq. by eexists.
  - rewrite lookup_insert_ne by done. tauto.
Qed.

(** The second round: the accepted columns, in the order of the quorum, are
    added to the own one. *)
Lemma dealings_added M r0 r1b r1u p0 p' acc (own : gmap ID (Feldman.VerificationVector E)) ids :
  usable M → scheme p0 = M → decoded r1b → length r0 = n (matrix M) → NoDup ids →
  (∀ id, id ∈ ids → ∃ msg, r1b !! id = Some msg ∧ ValidateBroadcast IsTorsionFree p0 msg id = Ok tt) →
  (∀ id, id ∈ ids → ∃ msg, r1u !! id = Some msg ∧ ValidateP2P p0 msg id = Ok tt) →
  verificationVectors p0 = own →
  foldS (add_dealing r1b r1u) (Some (share_of M r0 (SharingID p0)), Some (vv_of r0)) ids p0 = (p', Ok acc) →
  ∃ cols vectors, Forall2 (accepted M (SharingID p0) r1b r1u) ids cols ∧
    acc = (Some (share_of M (foldl vadd r0 cols) (SharingID p0)), Some (vv_of (foldl vadd r0 cols))) ∧
    p' = set_vectors (λ _, vectors) p0 ∧ (∀ id, id ∉ ids → vectors !! id = own !! id) ∧
    Forall2 (λ id r, vectors !! id = Some (vv_of r)) ids cols.
Proof.
  intros HM Hsch Hdec Hr0 Hnd Hb Hu Hown E1.
  apply foldS_inv with (I := λ pre acc p, ∃ cols vectors,
    Forall2 (accepted M (SharingID p0) r1b r1u) pre cols ∧
    acc = (Some (share_of M (foldl vadd r0 cols) (SharingID p0)), Some (vv_of (foldl vadd r0 cols))) ∧
    p = set_vectors (λ _, vectors) p0 ∧ (∀ id, id ∉ pre → vectors !! id = own !! id) ∧
    Forall2 (λ id r, vectors !! id = Some (vv_of r)) pre cols) in E1; [done|..].
  - exists [], own. split_and!; try done. unfold set_vectors. destruct p0. cbn in *. by subst.
  - intros pre id post [sh V] p acc2 p2 El (cols & vectors & Hc & [= -> ->] & -> & Hv & Hvc) E2.
    apply add_dealing_ok with (M := M) (p0 := p0) in E2 as (r & Hr & -> & ->); try done.
    + exists (cols ++ [r]), (<[id := vv_of r]> vectors). rewrite foldl_app. split_and!; try done.
      * by apply Forall2_app; [|constructor].
      * intros id' [Hn1 Hn2%not_elem_of_cons]%not_elem_of_app. rewrite lookup_insert_ne by naive_solver. by apply Hv.
      * apply Forall2_app; [|constructor; [apply lookup_insert_eq|done]].
        eapply Forall2_impl_in; [exact Hvc|]. cbn. intros id' r' Hid' Hl.
        rewrite lookup_insert_ne; [done|]. intros <-. subst ids.
        apply NoDup_app in Hnd as (_ & Hdis & _). apply (Hdis id Hid'). by left.
    + apply Hb. subst ids. set_solver.
    + apply Hu. subst ids. set_solver.
    + clear -Hr0 Hc. revert r0 Hr0. induction Hc as [|? ? ? ? (_ & _ & Hl & _) _ IH]; intros r0 Hr0; [done|].
      apply IH. by apply length_vadd.
Qed.

Lemma Round2_columns M r0 r1b r1u p p' acc :
  NoDup (Session.sortedQuorum (ctx p)) → usable M → scheme p = M → decoded r1b → length r0 = n (matrix M) →
  share p = Some (share_of M r0 (SharingID p)) → verificationVectors p = {[SharingID p := vv_of r0]} →
  Round2 bytesE IsTorsionFree r1b r1u p = (p', Ok acc) →
  ∃ cols vectors, Forall2 (accepted M (SharingID p) r1b r1u) (others p) cols ∧
    acc = (Some (share_of M (foldl vadd r0 cols) (SharingID p)), Some (vv_of (foldl vadd r0 cols))) ∧
    Forall2 (λ id r, vectors !! id = Some (vv_of r)) (SharingID p :: others p) (r0 :: cols) ∧
    ∃ t, foldM (append_vector bytesE vectors) (Session.ctape (ctx p)) (Session.sortedQuorum (ctx p)) = Ok t ∧
      ctx p' = with_tape (λ _, t) (ctx p).
Proof.
  intros Hnd HM Hsch Hdec Hr0 Hsh Hvv E1. unfold Round2 in E1. step_states E1.
  rewrite Hsh, Hvv, lookup_singleton_eq in E4. destruct a0, a1.
  apply dealings_added with (own := verificationVectors p) in E4 as (cols & vectors & Hc & -> & -> & Hv & Hvc); try done.
  2:{ by apply NoDup_filter. }
  2:{ by apply incoming_ok. }
  2:{ by apply incoming_ok. }
  exists cols, vectors. split_and!; [done..| |].
  - constructor; [|done]. rewrite Hv, Hvv; [by rewrite lookup_singleton_eq|].
    unfold others. rewrite other_parties_elem. unfold SharingID. tauto.
  - unfold writeVerificationVectorToTranscript in E5. step_states E5. by eexists.
Qed.
End theory.

(** ** Executions *)

Section executions.
Import Hjky.
Context `{PrimeGroup F E} {P : Type} (sampler : P → result (F * P)).
Context (bytesE : E → list N) (IsTorsionFree : E → bool).
Local Open Scope alg_scope.
Add Ring hjky_ring : (ring_laws (R:=F)).
Implicit Types (M : MSP F) (r : list F) (Q : gset ID).

(** A party that finishes: its state before, what it receives, sends and
    returns, and its state after. *)
Record execution := mkExecution {
  x_p : Participant (F:=F) (E:=E) (P:=P);
  x_r1b : gmap ID (option (Round1Broadcast (E:=E))); x_r1u : gmap ID (option (Round1P2P (F:=F)));
  x_b : Round1Broadcast (E:=E); x_u : gmap ID (option (Round1P2P (F:=F)));
  x_share : option (KW.Share F); x_vv : option (Feldman.VerificationVector E);
  x_end : Participant (F:=F) (E:=E) (P:=P) }.
Implicit Types (x y : execution).
Definition x_id x : ID := SharingID (x_p x).

Record executes M Q x : Prop := {
  eh_scheme : scheme (x_p x) = M;
  eh_quorum : Session.sortedQuorum (ctx (x_p x)) = sort_ids (elements Q);
  eh_member : x_id x ∈ Q;
  eh_decoded : decoded (x_r1b x);
  eh_runs : ∃ p1, Round1 sampler (x_p x) = (p1, Ok (x_b x, x_u x)) ∧
    Round2 bytesE IsTorsionFree (x_r1b x) (x_r1u x) p1 = (x_end x, Ok (x_share x, x_vv x));
}.

(** The broadcasts as a party sees them, its own included. *)
Definition view x (k : ID) : option (option (Round1Broadcast (E:=E))) :=
  if decide (k = x_id x) then Some (Some (x_b x)) else x_r1b x !! k.
Definition view_column M x (k : ID) r : Prop :=
  view x k = Some (Some (mkR1B (Some (vv_of r)))) ∧ length r = n (matrix M) ∧ r !!! 0%nat = 0.

Lemma executes_columns M Q x :
  usable M → (2 ≤ n (matrix M))%nat → executes M Q x →
  ∃ r cols vectors, Forall2 (view_column M x) (x_id x :: others (x_p x)) (r :: cols) ∧
    x_share x = Some (share_of M (vsum (n (matrix M)) (r :: cols)) (x_id x)) ∧
    x_vv x = Some (vv_of (vsum (n (matrix M)) (r :: cols))) ∧
    Forall2 (λ id r, vectors !! id = Some (vv_of r)) (x_id x :: others (x_p x)) (r :: cols) ∧
    foldM (append_vector bytesE vectors) (Session.ctape (ctx (x_p x))) (sort_ids (elements Q))
      = Ok (Session.ctape (ctx (x_end x))).
Proof.
  intros HM H2 [Hsch HQ Hin Hdec (p1 & E1 & E2)].
  assert (NoDup (Session.sortedQuorum (ctx (x_p x)))) as Hnd by (rewrite HQ; apply sorted_elements_NoDup).
  apply Round1_columns in E1 as (r & g & Hr & H0' & _ & _ & Hb & _ & Hp1); [|done|by rewrite Hsch..].
  rewrite Hsch in Hr, Hp1. rewrite Hp1 in E2.
  apply Round2_columns with (M := M) (r0 := r) in E2 as (cols & vectors & Hc & Hacc & Hv & t & Ht & Hend); try done.
  injection Hacc as Hshare Hvv.
  change (others (mkParticipant (ctx (x_p x)) M 2 g {[SharingID (x_p x) := vv_of r]} (Some (share_of M r (SharingID (x_p x))))))
    with (others (x_p x)) in Hc, Hv.
  change (SharingID (mkParticipant (ctx (x_p x)) M 2 g {[SharingID (x_p x) := vv_of r]} (Some (share_of M r (SharingID (x_p x))))))
    with (x_id x) in Hc, Hv, Hshare. cbn [ctx] in Ht, Hend.
  assert (Forall (λ s, length s = n (matrix M)) cols) as Hl.
  { clear -Hc. induction Hc as [|? ? ? ? (_ & _ & ? & _)]; by constructor. }
  rewrite (foldl_vadd (n (matrix M))) in Hshare, Hvv by done. rewrite HQ in Ht.
  exists r, cols, vectors. split_and!; try done.
  - constructor; [split_and!; [|done..]; unfold view; by rewrite decide_True, Hb|].
    eapply Forall2_impl_in; [exact Hc|]. intros k s Hk (Hb' & _ & Hs). split; [|exact Hs].
    unfold view. rewrite decide_False; [done|]. intros ->.
    unfold others in Hk. apply other_parties_elem in Hk. by destruct Hk.
  - rewrite Ht, Hend. done.
Qed.

(** Equal views give equal columns, vectors and transcripts. *)
Lemma view_column_inj M x y k r s :
  view x k = view y k → view_column M x k r → view_column M y k s → r = s.
Proof. intros Hv (Hx & _) (Hy & _). apply (vv_of_inj (E:=E)). congruence. Qed.

Lemma quorum_perm M Q x : executes M Q x → x_id x :: others (x_p x) ≡ₚ elements Q.
Proof.
  intros [_ HQ Hin _ _]. unfold others, x_id, SharingID. rewrite self_others_perm, HQ.
  - apply merge_sort_Permutation.
  - rewrite HQ. apply sorted_elements_NoDup.
  - rewrite HQ. by apply sorted_elements_elem.
Qed.

Lemma columns_agree M Q x y cx cy :
  executes M Q x → executes M Q y → (∀ k, k ∈ Q → view x k = view y k) →
  Forall2 (view_column M x) (x_id x :: others (x_p x)) cx →
  Forall2 (view_column M y) (x_id y :: others (x_p y)) cy → cx ≡ₚ cy.
Proof.
  intros Hx Hy Hv Hcx Hcy. pose proof (quorum_perm M Q) as Hp.
  eapply (Forall2_functional_perm (λ k r, k ∈ Q ∧ view_column M y k r)).
  - intros k r s [_ Hr] [_ Hs]. by eapply view_column_inj.
  - eapply Forall2_impl_in; [exact Hcx|]. intros k r Hk Hr. rewrite (Hp x Hx), elem_of_elements in Hk.
    split; [done|]. unfold view_column. by rewrite <-Hv.
  - eapply Forall2_impl_in; [exact Hcy|]. intros k r Hk Hr. by rewrite (Hp y Hy), elem_of_elements in Hk.
  - by rewrite (Hp x Hx), (Hp y Hy).
Qed.

Lemma append_vectors_agree (vx vy : gmap ID (Feldman.VerificationVector E)) t ids :
  (∀ k, k ∈ ids → vx !! k = vy !! k) →
  foldM (append_vector bytesE vx) t ids = foldM (append_vector bytesE vy) t ids.
Proof.
  revert t. induction ids as [|k ids IH]; intros t Hv; [done|]. cbn [foldM].
  assert (append_vector bytesE vx t k = append_vector bytesE vy t k) as ->
    by (unfold append_vector; by rewrite Hv by constructor).
  destruct (append_vector bytesE vy t k); [|done..]. apply IH. intros k' Hk'. apply Hv. by constructor.
Qed.

Lemma transcripts_agree M Q x y :
  usable M → (2 ≤ n (matrix M))%nat → executes M Q x → executes M Q y →
  Session.ctape (ctx (x_p x)) = Session.ctape (ctx (x_p y)) → (∀ k, k ∈ Q → view x k = view y k) →
  Session.ctape (ctx (x_end x)) = Session.ctape (ctx (x_end y)).
Proof.
  intros HM H2 Hx Hy Ht Hv.
  destruct (executes_columns M Q x HM H2 Hx) as (r & c & vec & Hc & _ & _ & Hvec & Htx).
  destruct (executes_columns M Q y HM H2 Hy) as (r' & c' & vec' & Hc' & _ & _ & Hvec' & Hty).
  assert (Ok (Session.ctape (ctx (x_end x))) = Ok (Session.ctape (ctx (x_end y)))) as [= ?]; [|done].
  rewrite <-Htx, <-Hty, Ht. apply append_vectors_agree. intros k Hk%sorted_elements_elem.
  assert (k ∈ x_id x :: others (x_p x)) as Hkx by (by rewrite (quorum_perm M Q x Hx), elem_of_elements).
  assert (k ∈ x_id y :: others (x_p y)) as Hky by (by rewrite (quorum_perm M Q y Hy), elem_of_elements).
  destruct (Forall2_both _ _ _ _ _ Hc Hvec Hkx) as (s & Hs & ->).
  destruct (Forall2_both _ _ _ _ _ Hc' Hvec' Hky) as (s' & Hs' & ->).
  by rewrite (view_column_inj M x y k s s' (Hv k Hk) Hs Hs').
Qed.
End executions.

(** ** Properties *)

Section properties.
Import Hjky.
Context `{PrimeGroup F E} {P : Type} (sampler : P → result (F * P)).
Context (bytesE : E → list N) (IsTorsionFree : E → bool).
Local Open Scope alg_scope.
Add Ring hjky_prop_ring : (ring_laws (R:=F)).
Implicit Types (M : MSP F) (r old : list F) (Q : gset ID).

Lemma vsum_zero d cs :
  (0 < d)%nat → Forall (λ r : list F, length r = d ∧ r !!! 0%nat = 0) cs → vsum d cs !!! 0%nat = 0.
Proof.
  intros Hd. induction 1 as [|r cs [Hr H0'] Hcs IH].
  - by apply lookup_total_replicate_2.
  - rewrite vsum_cons, (vadd_lookup_total _ _ _ d), H0', IH; [ring|done|..|done].
    apply length_vsum. by eapply Forall_impl; [exact Hcs|]; intros ? [].
Qed.

(** C40. Refresh.  Whatever the other parties of the quorum send, the parties
    that finish over the same broadcasts output the same verification vector -
    of a sharing of zero - and the same transcript, and their shares belong to
    it; added to any earlier Feldman sharing, they give every party a share
    that verifies against the sum of the vectors, and accepted parties
    reconstruct the same secret as before. *)
Theorem Hjky_refresh M Q (xs : list (execution (F:=F) (E:=E) (P:=P))) :
  usable M → (2 ≤ n (matrix M))%nat → xs ≠ [] →
  (∀ x, x ∈ xs → executes sampler bytesE IsTorsionFree M Q x) →
  (∀ x y, x ∈ xs → y ∈ xs → Session.ctape (ctx (x_p x)) = Session.ctape (ctx (x_p y)) ∧
     ∀ k, k ∈ Q → view x k = view y k) →
  ∃ r, length r = n (matrix M) ∧ r !!! 0%nat = 0 ∧
    (∀ x, x ∈ xs → x_share x = Some (share_of M r (x_id x)) ∧ x_vv x = Some (vv_of r)) ∧
    (∀ x y, x ∈ xs → y ∈ xs → Session.ctape (ctx (x_end x)) = Session.ctape (ctx (x_end y))) ∧
    ∀ old, length old = n (matrix M) →
      ∃ V new, Feldman.VVOp (Some (vv_of old)) (Some (vv_of r)) = Ok V ∧
        mapM (λ x, KW.Add (share_of M old (x_id x)) (default (share_of M old (x_id x)) (x_share x))) xs = Ok new ∧
        ((∀ x, x ∈ xs → x_id x ∈ MSP.Shareholders M) →
          ∀ s, s ∈ new → Feldman.Verify M (Some s) (Some (V : Feldman.VerificationVector E)) = Ok tt) ∧
        (NoDup (x_id <$> xs) → Accepts M (x_id <$> xs) = true →
          KW.Reconstruct M (Some <$> new) = Ok (old !!! 0%nat)).
Proof.
  intros HM H2 Hne Hx Hv. pose proof HM as [Hwf Hm Hn].
  destruct xs as [|x0 xs']; [done|]. set (xs := x0 :: xs') in *.
  assert (x0 ∈ xs) as Hx0 by (by left).
  destruct (executes_columns sampler bytesE IsTorsionFree M Q x0 HM H2 (Hx x0 Hx0))
    as (r0 & cols0 & vec0 & Hc0 & _ & _ & Hvec0 & Ht0).
  set (cs0 := r0 :: cols0) in *. set (d := n (matrix M)) in *.
  assert (Forall (λ s, length s = d ∧ s !!! 0%nat = 0) cs0) as Hcs.
  { clear -Hc0. induction Hc0 as [|? ? ? ? (_ & Hl) _ IH]; by constructor. }
  assert (Forall (λ s, length s = d) cs0) as Hls by (eapply Forall_impl; [exact Hcs|]; by intros ? []).
  exists (vsum d cs0).
  assert (∀ x, x ∈ xs → x_share x = Some (share_of M (vsum d cs0) (x_id x)) ∧ x_vv x = Some (vv_of (vsum d cs0))) as Hout.
  { intros x Hin. destruct (executes_columns sampler bytesE IsTorsionFree M Q x HM H2 (Hx x Hin))
      as (r & cols & vec & Hc & Hs & Hvv & _). rewrite Hs, Hvv.
    rewrite (vsum_perm _ (r :: cols) cs0); [done|].
    apply (columns_agree sampler bytesE IsTorsionFree M Q x x0); auto. by apply Hv. }
  split_and!; [by apply length_vsum|by apply vsum_zero|exact Hout| |].
  { intros x y Hxin Hyin. destruct (Hv x y Hxin Hyin).
    by eapply (transcripts_agree sampler bytesE IsTorsionFree M Q x y); auto. }
  intros old Hold. set (r := vsum d cs0) in *.
  assert (length r = d) as Hr by (by apply length_vsum).
  exists (vv_of (vadd old r)), ((λ x, share_of M (vadd old r) (x_id x)) <$> xs).
  assert (length (vadd old r) = d) as Hsum by (by apply length_vadd).
  split_and!; [apply VVOp_columns; congruence| | |].
  - apply mapM_ok, Forall2_fmap_r, Forall_Forall2_diag, Forall_forall. intros x Hin.
    destruct (Hout x Hin) as [-> _]. cbn [default from_option]. by apply share_add.
  - intros Hids s (x & -> & Hin)%list_elem_of_fmap. apply Verify_spec; try done. split; [by apply Hids|done].
  - intros Hnd Hacc. rewrite <-(list_fmap_compose x_id (share_of M (vadd old r)) xs) || idtac.
    assert (((λ x, share_of M (vadd old r) (x_id x)) <$> xs) = shares_at M (lambda M (vadd old r)) (x_id <$> xs)) as Es
      by (unfold shares_at; by rewrite <-list_fmap_compose).
    rewrite Es, Reconstruct_ok by done.
    rewrite (vadd_lookup_total _ _ _ d) by (done || lia). unfold r. rewrite vsum_zero by done. f_equal. ring.
Qed.

Lemma incoming_total {Msg} (val : Msg → ID → result unit) ids (msgs : gmap ID Msg) :
  (∀ id, id ∈ ids → ∃ msg, msgs !! id = Some msg ∧ val msg id = Ok tt) →
  Network.ValidateIncomingMessages val ids msgs = Ok tt.
Proof.
  unfold Network.ValidateIncomingMessages. rewrite foldM_unit_ok. intros Hall id Hid.
  by destruct (Hall id Hid) as (msg & -> & ->).
Qed.

(** The refresh finishes: when every party of the quorum completes its
    first round and all messages arrive, the second round succeeds for all. *)
Theorem Hjky_completes M Q (p p1 : ID → Participant (F:=F) (E:=E) (P:=P)) b u :
  usable M → (2 ≤ n (matrix M))%nat → (∀ e, IsTorsionFree e = true) →
  (∀ i, i ∈ Q → scheme (p i) = M ∧ Session.sortedQuorum (ctx (p i)) = sort_ids (elements Q) ∧
     SharingID (p i) = i ∧ Round1 sampler (p i) = (p1 i, Ok (b i, u i))) →
  ∀ i, i ∈ Q → ∃ fin out,
    Round2 bytesE IsTorsionFree (inbox Q i (λ j, Some (b j))) (inbox Q i (λ j, default None (u j !! i))) (p1 i)
    = (fin, Ok out).
Proof.
  intros HM H2 Htf Hall i Hi. pose proof HM as [Hwf Hm Hn].
  assert (∀ j, j ∈ Q → ∃ r g, length r = n (matrix M) ∧ r !!! 0%nat = 0 ∧ j ∈ MSP.Shareholders M ∧
    b j = mkR1B (Some (vv_of r)) ∧
    (∀ k, k ∈ Q → k ≠ j → u j !! k = Some (Some (mkR1U (Some (share_of M r k))))) ∧
    p1 j = mkParticipant (ctx (p j)) M 2 g {[j := vv_of r]} (Some (share_of M r j))) as Hr.
  { intros j Hj. destruct (Hall j Hj) as (Hs & HQ & Hid & E1).
    apply Round1_columns in E1 as (r & g & Hr & H0' & _ & Hin & Hb & Hu & Hp1).
    - rewrite Hs, Hid in *. exists r, g. split_and!; try done. intros k Hk Hne.
      apply Hu. unfold others. rewrite other_parties_elem, HQ, sorted_elements_elem.
      split; [done|]. unfold SharingID in Hid. by rewrite Hid.
    - rewrite HQ. apply sorted_elements_NoDup.
    - by rewrite Hs.
    - by rewrite Hs. }
  destruct (Hr i Hi) as (ri & g & Hri & H0' & Hsi & _ & _ & ->).
  destruct (Hall i Hi) as (_ & HQ & Hid & _). unfold SharingID in Hid.
  set (q := mkParticipant _ _ _ _ _ _).
  assert (∀ k, k ∈ others q ↔ k ∈ Q ∧ k ≠ i) as Hoth.
  { intros k. unfold others. cbn [q ctx]. by rewrite other_parties_elem, HQ, sorted_elements_elem, Hid. }
  assert (SharingID q = i) as Hq by done.
  assert (∀ k, k ∈ others q → ∃ r, accepted M i (inbox Q i (λ j, Some (b j))) (inbox Q i (λ j, default None (u j !! i))) k r ∧
    b k = mkR1B (Some (vv_of r))) as Hacc.
  { intros k [Hk Hne]%Hoth. destruct (Hr k Hk) as (r & g' & Hl & H0'' & _ & Hb & Hu & _). exists r. split; [|done].
    unfold accepted. rewrite !lookup_inbox, !decide_True by done. rewrite Hb, Hu by done. done. }
  unfold Round2. unfold mbind, state_bind, gets, ensure, lift. cbn [q round Nat.eqb mret state_ret].
  fold q. rewrite incoming_total, incoming_total.
  - cbn [share q verificationVectors]. fold q. rewrite Hq, lookup_singleton_eq.
    destruct (dealings_total M i (inbox Q i (λ j, Some (b j))) (inbox Q i (λ j, default None (u j !! i))) ri (others q) q)
      as (acc & vectors & E1 & Hv); [done..| |].
    { intros k Hk. destruct (Hacc k Hk) as (r & ? & _). by exists r. }
    unfold mbind, state_bind in E1. rewrite E1.
    unfold writeVerificationVectorToTranscript, mbind, state_bind, gets, lift, modify.
    cbn [set_vectors verificationVectors ctx q].
    assert (∀ ids t, (∀ k, k ∈ ids → is_Some (vectors !! k)) → is_ok (foldM (append_vector bytesE vectors) t ids) = true) as Hok.
    { intros ids. induction ids as [|k ids IH]; intros t Hk; [done|]. cbn [foldM]. unfold append_vector at 2.
      destruct (Hk k) as [V ->]; [by constructor|]. cbn [mbind result_bind]. apply IH.
      intros k' Hk'. apply Hk. by constructor. }
    destruct (proj1 (is_ok_true _) (Hok (Session.sortedQuorum (ctx (p i))) (Session.ctape (ctx (p i))) ltac:(
      intros k Hk; apply Hv; rewrite HQ in Hk; apply sorted_elements_elem in Hk;
      destruct (decide (k = i)) as [->|]; [left; cbn; rewrite lookup_singleton_eq; by eexists|right; by apply Hoth]))) as [t ->].
    by eexists _, _.
  - intros k Hk. destruct (Hacc k Hk) as (r & (Hb & Hu & _) & _). eexists. split; [exact Hu|].
    cbn [ValidateP2P]. rewrite Hq. cbn [share_of KW.sid]. by rewrite N.eqb_refl.
  - intros k Hk. destruct (Hacc k Hk) as (r & (Hb & Hu & Hl & _) & _). eexists. split; [exact Hb|].
    cbn [ValidateBroadcast q scheme]. unfold vector_valid, MSP.D. cbn [vv_of Feldman.value m n v].
    rewrite Hl, !Nat.eqb_refl. cbn [andb].
    assert (forallb IsTorsionFree ((λ c, (generator : E) • c) <$> r) = true) as ->; [|done].
    apply forallb_forall. auto.
Qed.
End properties.

(** ** Three parties *)

Definition ok_or {A} (d : A) (r : result A) : A := match r with Ok a => a | _ => d end.
Definition ex_M : MSP fp101 :=
  ok_or (mkMSP (mkMatrix 0 0 []) ∅ ∅) (NewMSP (Some ex_kw_A) (Some (label_rows [4; 7; 9]%N))).
Definition ex_479 : gset ID := {[4; 7; 9]}%N.
Lemma ex_M_usable : usable ex_M ∧ n (matrix ex_M) = 2 ∧ Accepts ex_M [4; 9]%N = true.
Proof.
  destruct ex_kw_msp as (M & HM & Hwf & Hm & Hn & _). unfold ex_M. rewrite HM. cbn [ok_or].
  split; [by split; rewrite ?Hm, ?Hn; auto with arith|]. split; [done|].
  clear Hwf Hm Hn. vm_compute in HM. injection HM as <-. by vm_compute.
Qed.

Definition ex_bytes (x : fp101) : list N := [Z.to_N (Zmod.unsigned x)].
Definition ex_free (_ : fp101) : bool := true.
Definition ex_ctx (i : ID) : Session.Context :=
  Session.mkContext (replicate 32 7%N) i [4; 7; 9]%N (Hagrid.NewTranscript "test") ∅.
Definition ex_hjky (i : ID) : Hjky.Participant (F:=fp101) (E:=fp101) (P:=Z) :=
  Hjky.mkParticipant (ex_ctx i) ex_M 1 (Z.of_N i) ∅ None.
Definition ex_h1 i := Hjky.Round1 ex_sampler (ex_hjky i).
Definition ex_hb i := (ok_or (Hjky.mkR1B None, ∅) (ex_h1 i).2).1.
Definition ex_hu i := (ok_or (Hjky.mkR1B None, ∅) (ex_h1 i).2).2.
Definition ex_h2 i := Hjky.Round2 ex_bytes ex_free (inbox ex_479 i (λ j, Some (ex_hb j)))
  (inbox ex_479 i (λ j, default None (ex_hu j !! i))) (ex_h1 i).1.
Definition ex_hx (i : ID) : execution (F:=fp101) (E:=fp101) (P:=Z) :=
  mkExecution (ex_hjky i) (inbox ex_479 i (λ j, Some (ex_hb j)))
    (inbox ex_479 i (λ j, default None (ex_hu j !! i))) (ex_hb i) (ex_hu i)
    (ok_or (None, None) (ex_h2 i).2).1 (ok_or (None, None) (ex_h2 i).2).2 (ex_h2 i).1.

Lemma ex_479_cases (R : ID → Prop) : R 4%N → R 7%N → R 9%N → ∀ i, i ∈ ex_479 → R i.
Proof. intros H4 H7 H9 i Hi. unfold ex_479 in Hi. rewrite !elem_of_union, !elem_of_singleton in Hi. naive_solver. Qed.

Lemma Hjky_completes_witness : ∃ fin out,
  Hjky.Round2 ex_bytes ex_free (inbox ex_479 7%N (λ j, Some (ex_hb j)))
    (inbox ex_479 7%N (λ j, default None (ex_hu j !! 7%N))) (ex_h1 7%N).1 = (fin, Ok out).
Proof.
  destruct ex_M_usable as (HM & Hn & _).
  apply (Hjky_completes ex_sampler ex_bytes ex_free ex_M ex_479 ex_hjky (λ i, (ex_h1 i).1) ex_hb ex_hu HM).
  - by rewrite Hn.
  - done.
  - apply ex_479_cases; (split; [reflexivity|split; [reflexivity|split; [reflexivity|vm_compute; reflexivity]]]).
  - unfold ex_479. set_solver.
Defined.

Lemma Hjky_refresh_witness : ∃ r : list fp101,
  (∀ x, x ∈ [ex_hx 4; ex_hx 9]%N → x_share x = Some (share_of ex_M r (x_id x))) ∧ r !!! 0 = rzero.
Proof.
  destruct ex_M_usable as (HM & Hn & _).
  destruct (Hjky_refresh ex_sampler ex_bytes ex_free ex_M ex_479 [ex_hx 4; ex_hx 9]%N HM)
    as (r & _ & H0 & Hs & _).
  - by rewrite Hn.
  - done.
  - assert (∀ i, i ∈ ex_479 → executes ex_sampler ex_bytes ex_free ex_M ex_479 (ex_hx i)) as Hx.
    { assert (∀ j, j ∈ ex_479 → ∃ V, ex_hb j = Hjky.mkR1B (Some V) ∧ wf (Feldman.value V)) as Hwf
        by (apply ex_479_cases; eexists; split; vm_compute; reflexivity).
      assert (∀ i, decoded (inbox ex_479 i (λ j, Some (ex_hb j)))) as Hd.
      { intros i j V. rewrite lookup_inbox. case_decide as Hj; [|done]. intros [= E].
        destruct (Hwf j (proj1 Hj)) as (V' & E' & HV). congruence. }
      apply ex_479_cases; (split; [reflexivity|vm_compute; reflexivity|unfold ex_479; set_solver|apply Hd|]);
        eexists; (split; vm_compute; reflexivity). }
    intros x Hin. rewrite !elem_of_cons in Hin.
    destruct Hin as [-> | [-> | []%not_elem_of_nil]]; apply Hx; unfold ex_479; set_solver.
  - assert (∀ i j, i ∈ ex_479 → j ∈ ex_479 → ∀ k, k ∈ ex_479 → view (ex_hx i) k = view (ex_hx j) k) as Hv.
    { intros i j Hi Hj k Hk. unfold view. cbn [ex_hx x_r1b x_b]. rewrite !lookup_inbox.
      change (x_id (ex_hx i)) with i. change (x_id (ex_hx j)) with j. repeat case_decide; naive_solver. }
    intros x y Hxin Hyin. rewrite !elem_of_cons in Hxin, Hyin.
    destruct Hxin as [-> | [-> | []%not_elem_of_nil]], Hyin as [-> | [-> | []%not_elem_of_nil]];
      (split; [reflexivity|apply Hv; unfold ex_479; set_solver]).
  - exists r. split; [|exact H0]. intros x Hin. by apply Hs.
Defined.
