(* ===== verification/PedCom.v ===== *)
(** * Pedersen commitments (commitments/pedersen)

    A commitment to [m] with witness [r] is [m G + r H] in a group of prime
    order.  The key operations, the homomorphic operations on messages,
    witnesses and commitments, and the trapdoor key that equivocates are the
    code's; the theory shows that opening is exact, that the operations commute
    with committing, that commitments hide perfectly and that two different
    openings reveal the discrete logarithm of [H]. *)

From Stdlib Require Import ZArith NArith Lia Ring Field.
From S2P Require Import Prelude Algebra AlgebraUtils.

Module PedCom.
Section pedersen.
Context `{PrimeGroup F E}.

(** ** Values (pedersen.go) *)

Record Message := mkMessage { mm : F }.
Record Witness := mkWitness { wr : F }.
Record Commitment := mkCommitment { cv : E }.

Definition NewMessage (v : option F) : result Message :=
  match v with None => Err ErrIsNil | Some v => Ok (mkMessage v) end.
Definition NewWitness (v : option F) : result Witness :=
  match v with None => Err ErrIsNil | Some v => Ok (mkWitness v) end.
Definition NewCommitment (v : option E) : result Commitment :=
  match v with None => Err ErrIsNil | Some v => Ok (mkCommitment v) end.

Definition MessageEqual (a b : Message) : bool := bool_decide (mm a = mm b).
Definition WitnessEqual (a b : Witness) : bool := bool_decide (wr a = wr b).
Definition CommitmentEqual (a b : Commitment) : bool := bool_decide (cv a = cv b).
Definition MessageAdd (a : Message) (b : option Message) : result Message :=
  match b with None => Panic | Some b => Ok (mkMessage (radd (mm a) (mm b))) end.
Definition MessageMul (a : Message) (b : option Message) : result Message :=
  match b with None => Panic | Some b => Ok (mkMessage (rmul (mm a) (mm b))) end.
Definition WitnessAdd (a : Witness) (b : option Witness) : result Witness :=
  match b with None => Panic | Some b => Ok (mkWitness (radd (wr a) (wr b))) end.
Definition WitnessMul (a : Witness) (b : option Witness) : result Witness :=
  match b with None => Panic | Some b => Ok (mkWitness (rmul (wr a) (wr b))) end.

(** ** Keys (key.go) *)

Record CommitmentKey := mkKey { g : E; h : E }.
Implicit Types (k : CommitmentKey).

Definition NewCommitmentKeyUnchecked (g h : option E) : result CommitmentKey :=
  match g, h with
  | Some g, Some h =>
      if bool_decide (g = h) then Err ErrInvalidArgument
      else if bool_decide (g = gid) || bool_decide (h = gid) then Err ErrIsIdentity
      else Ok (mkKey g h)
  | _, _ => Err ErrIsNil
  end.

(** Rejection sampling of the second generator; [None] is fuel running out. *)
Definition SampleCommitmentKey {P} (fuel : nat) (sampler : P → result (E * P)) (prng : option P) :
    option (result CommitmentKey) :=
  match prng with
  | None => Some (Err ErrIsNil)
  | Some prng =>
      match Random fuel sampler
              [λ e, negb (bool_decide (e = gid)) && negb (bool_decide (e = generator))] prng with
      | None => None
      | Some r => Some ('(h, _) ← r; NewCommitmentKeyUnchecked (Some generator) (Some h))
      end
  end.

Definition SampleWitness {P} (sampler : P → result (F * P)) (prng : option P) : result (Witness * P) :=
  match prng with
  | None => Err ErrIsNil
  | Some prng => '(r, prng) ← sampler prng; Ok (mkWitness r, prng)
  end.

Definition CommitWithWitness k (message : option Message) (witness : option Witness) : result Commitment :=
  match message, witness with
  | Some message, Some witness =>
      NewCommitment (Some (gop (scalar_op (g k) (mm message)) (scalar_op (h k) (wr witness))))
  | _, _ => Err ErrIsNil
  end.

(** [internal.GenericOpen]. *)
Definition Open k (commitment : option Commitment) (message : option Message) (witness : option Witness) :
    result unit :=
  match commitment, message, witness with
  | Some commitment, Some message, Some witness =>
      recomputed ← CommitWithWitness k (Some message) (Some witness);
      if negb (CommitmentEqual recomputed commitment) then Err ErrVerificationFailed else Ok tt
  | _, _, _ => Err ErrIsNil
  end.

(** [algebrautils.Op]; every value of the element type is in the group. *)
Definition Op {T V} `{GroupElement V} (value : T → V) (newFunc : option V → result T)
    (first second : option T) (rest : list (option T)) : result T :=
  match first, second with
  | Some first, Some second =>
      restValues ← mapM (λ w, match w with None => Err ErrIsNil | Some w => Ok (value w) end) rest;
      newFunc (Some (Fold (gop (value first) (value second)) restValues))
  | _, _ => Err ErrIsNil
  end.

Definition WitnessOp (first second : option Witness) (rest : list (option Witness)) : result Witness :=
  Op wr NewWitness first second rest.
Definition WitnessOpInv (w : option Witness) : result Witness :=
  match w with None => Err ErrIsNil | Some w => NewWitness (Some (rneg (wr w))) end.
Definition WitnessScalarOp (w : option Witness) (scalar : option F) : result Witness :=
  match w, scalar with
  | Some w, Some scalar => NewWitness (Some (rmul (wr w) scalar)) | _, _ => Err ErrIsNil end.
Definition MessageOp (first second : option Message) (rest : list (option Message)) : result Message :=
  Op mm NewMessage first second rest.
Definition MessageOpInv (w : option Message) : result Message :=
  match w with None => Err ErrIsNil | Some w => NewMessage (Some (rneg (mm w))) end.
Definition MessageScalarOp (w : option Message) (scalar : option F) : result Message :=
  match w, scalar with
  | Some w, Some scalar => NewMessage (Some (rmul (mm w) scalar)) | _, _ => Err ErrIsNil end.
Definition CommitmentOp (first second : option Commitment) (rest : list (option Commitment)) :
    result Commitment := Op (V:=E) cv NewCommitment first second rest.
Definition CommitmentOpInv (c : option Commitment) : result Commitment :=
  match c with None => Err ErrIsNil | Some c => NewCommitment (Some (ginv (cv c))) end.
Definition CommitmentScalarOp (c : option Commitment) (scalar : option F) : result Commitment :=
  match c, scalar with
  | Some c, Some scalar => NewCommitment (Some (scalar_op (cv c) scalar)) | _, _ => Err ErrIsNil end.

Definition ReRandomise k (c : option Commitment) (witnessShift : option Witness) : result Commitment :=
  match c, witnessShift with
  | Some c, Some w => NewCommitment (Some (gop (cv c) (scalar_op (h k) (wr w))))
  | _, _ => Err ErrIsNil
  end.
Definition Shift k (c : option Commitment) (message : option Message) : result Commitment :=
  match c, message with
  | Some c, Some m => NewCommitment (Some (gop (cv c) (scalar_op (g k) (mm m))))
  | _, _ => Err ErrIsNil
  end.

Definition KeyEqual k (other : CommitmentKey) : bool :=
  bool_decide (g k = g other) && bool_decide (h k = h other).

(** ** Generic operations (commitments/utils.go) *)

Definition Commit {P} k (sampler : P → result (F * P)) (message : option Message) (prng : option P) :
    result (Commitment * Witness * P) :=
  match message, prng with
  | Some message, Some prng =>
      '(witness, prng) ← SampleWitness sampler (Some prng);
      commitment ← CommitWithWitness k (Some message) (Some witness);
      Ok (commitment, witness, prng)
  | _, _ => Err ErrIsNil
  end.

Definition ReRandomiseFresh {P} k (sampler : P → result (F * P)) (commitment : option Commitment)
    (prng : option P) : result (Commitment * Witness * P) :=
  match commitment, prng with
  | Some commitment, Some prng =>
      '(witness, prng) ← SampleWitness sampler (Some prng);
      newCommitment ← ReRandomise k (Some commitment) (Some witness);
      Ok (newCommitment, witness, prng)
  | _, _ => Err ErrIsNil
  end.

(** ** Trapdoor keys (trapdoor.go) *)

Record TrapdoorKey := mkTrapdoor { td_key : CommitmentKey; lambda : F }.

Definition NewTrapdoorKey (g : option E) (lambda : option F) : result TrapdoorKey :=
  match g, lambda with
  | Some g, Some lambda =>
      if bool_decide (g = gid) then Err ErrInvalidArgument
      else if is_zero lambda then Err ErrInvalidArgument
      else if is_one lambda then Err ErrInvalidArgument
      else Ok (mkTrapdoor (mkKey g (scalar_op g lambda)) lambda)
  | _, _ => Err ErrInvalidArgument
  end.

Definition SampleTrapdoorKey {P} (fuel : nat) (sampler : P → result (F * P)) (prng : option P) :
    option (result TrapdoorKey) :=
  match prng with
  | None => Some (Err ErrIsNil)
  | Some prng =>
      match Random fuel sampler [λ l, negb (is_zero l); λ l, negb (is_one l)] prng with
      | None => None
      | Some r => Some ('(lambda, _) ← r; NewTrapdoorKey (Some generator) (Some lambda))
      end
  end.

Definition TrapdoorCommitWithWitness (t : TrapdoorKey) (message : option Message)
    (witness : option Witness) : result Commitment :=
  match message, witness with
  | Some message, Some witness =>
      NewCommitment (Some (scalar_op (g (td_key t)) (radd (mm message) (rmul (lambda t) (wr witness)))))
  | _, _ => Err ErrIsNil
  end.

Definition Equivocate (t : TrapdoorKey) (message : option Message) (witness : option Witness)
    (newMessage : option Message) : result Witness :=
  match message, witness, newMessage with
  | Some message, Some witness, Some newMessage =>
      lambdaInv ← try_inv (lambda t);
      NewWitness (Some (radd (wr witness) (rmul lambdaInv (rsub (mm message) (mm newMessage)))))
  | _, _, _ => Err ErrIsNil
  end.

Definition TrapdoorEqual (t other : TrapdoorKey) : bool :=
  bool_decide (g (td_key t) = g (td_key other)) && bool_decide (lambda t = lambda other).
End pedersen.
Arguments Message F : clear implicits.
Arguments Witness F : clear implicits.
Arguments Commitment E : clear implicits.
Arguments CommitmentKey E : clear implicits.
Arguments TrapdoorKey F E : clear implicits.
End PedCom.

#[export] Instance Commitment_eq_dec `{EqDecision E} : EqDecision (PedCom.Commitment E).
Proof. solve_decision. Defined.

(** ** Theory *)

Section theory.
Context `{PrimeGroup F E}.
Local Open Scope alg_scope.
Add Ring pedcom_ring : (ring_laws (R:=F)).
Add Field pedcom_field : (field_laws (F:=F)).
Implicit Types (k : PedCom.CommitmentKey E) (m : PedCom.Message F) (w : PedCom.Witness F).

(** The commitment to [m] with witness [w]. *)
Definition com k m w : PedCom.Commitment E :=
  PedCom.mkCommitment (PedCom.g k • PedCom.mm m ⊕ PedCom.h k • PedCom.wr w).

Lemma CommitWithWitness_com k m w : PedCom.CommitWithWitness k (Some m) (Some w) = Ok (com k m w).
Proof. done. Qed.

Lemma gop_interchange (a b c d : E) : (a ⊕ b) ⊕ (c ⊕ d) = (a ⊕ c) ⊕ (b ⊕ d).
Proof. rewrite <-!gop_assoc. f_equal. rewrite !gop_assoc. f_equal. apply gop_comm. Qed.

Lemma com_add k m m' w w' :
  PedCom.cv (com k m w) ⊕ PedCom.cv (com k m' w')
  = PedCom.cv (com k (PedCom.mkMessage (PedCom.mm m + PedCom.mm m'))
      (PedCom.mkWitness (PedCom.wr w + PedCom.wr w'))).
Proof. cbn. by rewrite gop_interchange, <-!scalar_op_add_r. Qed.

Lemma gop_cancel_r (x y z : E) : x ⊕ z = y ⊕ z → x = y.
Proof. rewrite !(gop_comm _ z). apply gop_cancel_l. Qed.

Lemma scalar_op_neg (x : E) (a : F) : x • (- a) = ginv (x • a).
Proof.
  apply (gop_cancel_r _ _ (x • a)). rewrite gop_inv_l, <-scalar_op_add_r.
  replace (- a + a) with (0 : F) by ring. apply scalar_op_0.
Qed.

Lemma ginv_op (x y : E) : ginv (x ⊕ y) = ginv x ⊕ ginv y.
Proof.
  apply (gop_cancel_r _ _ (x ⊕ y)). rewrite gop_inv_l, gop_interchange, !gop_inv_l.
  symmetry. apply gop_id_l.
Qed.

Lemma restValues_ok {T V} (value : T → V) (l : list T) :
  mapM (λ o, match o with None => Err ErrIsNil | Some x => Ok (value x) end) (Some <$> l)
  = Ok (value <$> l).
Proof. apply mapM_ok. induction l; cbn; by constructor. Qed.

(** Folding commitments folds messages and witnesses. *)
Lemma com_fold k (l : list (PedCom.Message F * PedCom.Witness F)) m w :
  foldl gop (PedCom.cv (com k m w)) (PedCom.cv <$> ((λ p, com k p.1 p.2) <$> l))
  = PedCom.cv (com k (PedCom.mkMessage (foldl radd (PedCom.mm m) (PedCom.mm <$> l.*1)))
      (PedCom.mkWitness (foldl radd (PedCom.wr w) (PedCom.wr <$> l.*2)))).
Proof.
  revert m w. induction l as [|[m' w'] l IH]; intros m w; [done|].
  cbn [fmap list_fmap foldl]. rewrite com_add, IH. done.
Qed.

(** An element other than the identity generates the group. *)
Lemma nonidentity_exponent (x : E) : x ≠ gid → ∃ b : F, b ≠ 0 ∧ x = generator • b.
Proof.
  intros Hx. destruct (generator_cyclic (F:=F) x) as [b Hb]. exists b. split; [|done].
  intros ->. apply Hx. by rewrite Hb, scalar_op_0.
Qed.

Lemma nonidentity_free (x : E) (a : F) : x ≠ gid → x • a = gid → a = 0.
Proof.
  intros (b & Hb & ->)%nonidentity_exponent. rewrite <-scalar_op_mul.
  intros [Hz|Hz]%generator_free%rmul_eq_0; done.
Qed.

Lemma nonidentity_inj (x : E) (a b : F) : x ≠ gid → x • a = x • b → a = b.
Proof.
  intros Hx E1. apply rsub_0, (nonidentity_free x); [done|].
  replace (a - b) with (a + - b) by ring. rewrite scalar_op_add_r, E1, <-scalar_op_add_r.
  replace (b + - b) with (0 : F) by ring. apply scalar_op_0.
Qed.

(** Committing in exponents of the generator. *)
Lemma com_exponent (a b : F) m w :
  com (PedCom.mkKey (generator • a) (generator • b)) m w
  = PedCom.mkCommitment (generator • (a * PedCom.mm m + b * PedCom.wr w)).
Proof. unfold com. cbn [PedCom.g PedCom.h]. by rewrite scalar_op_add_r, !scalar_op_mul. Qed.

Lemma com_exponent_eq (a b : F) m w m' w' :
  com (PedCom.mkKey (generator • a) (generator • b)) m' w'
  = com (PedCom.mkKey (generator • a) (generator • b)) m w
  ↔ a * PedCom.mm m' + b * PedCom.wr w' = a * PedCom.mm m + b * PedCom.wr w.
Proof.
  rewrite !com_exponent. split; [intros [= E1]; by apply generator_inj in E1|by intros ->].
Qed.

(** Two openings of one commitment. *)
Lemma com_binding (g h : E) m w m' w' :
  g ≠ gid → h ≠ gid → com (PedCom.mkKey g h) m' w' = com (PedCom.mkKey g h) m w →
  (m = m' ∧ w = w') ∨
  (m ≠ m' ∧ ∃ i, try_inv (PedCom.wr w' - PedCom.wr w) = Ok i ∧
     h = g • ((PedCom.mm m - PedCom.mm m') * i)).
Proof.
  intros (a & Ha & ->)%(nonidentity_exponent) (b & Hb & ->)%(nonidentity_exponent) E1%com_exponent_eq.
  destruct m as [m], m' as [m'], w as [w], w' as [w']. cbn [PedCom.mm PedCom.wr] in *.
  destruct (decide (w' - w = 0)) as [Hw|Hw].
  - left. apply rsub_0 in Hw as ->. split; [|done]. f_equal.
    replace m with (inv0 a * (a * m + b * w - b * w)) by (field; done).
    rewrite <-E1. field. done.
  - right. split.
    + intros [= ->]. apply Hw, rsub_0_eq.
      replace w with (inv0 b * (a * m' + b * w - a * m')) by (field; done).
      rewrite <-E1. field. done.
    + exists (inv0 (w' - w)). split; [by apply try_inv_inv0|].
      rewrite <-scalar_op_mul. f_equal.
      replace (a * ((m - m') * inv0 (w' - w)))
        with ((a * m + b * w - a * m' - b * w) * inv0 (w' - w)) by (field; done).
      rewrite <-E1. field. done.
Qed.

Lemma NewKey_ok g h k :
  PedCom.NewCommitmentKeyUnchecked (Some g) (Some h) = Ok k →
  k = PedCom.mkKey g h ∧ g ≠ h ∧ g ≠ gid ∧ h ≠ gid.
Proof.
  unfold PedCom.NewCommitmentKeyUnchecked. case_bool_decide; [done|].
  case_bool_decide; [done|]. case_bool_decide; [done|]. cbn [orb]. by intros [= <-].
Qed.
End theory.

(** ** Properties *)

Section properties.
Context `{PrimeGroup F E}.
Local Open Scope alg_scope.
Add Ring pedcom_prop_ring : (ring_laws (R:=F)).
Add Field pedcom_prop_field : (field_laws (F:=F)).
Implicit Types (k : PedCom.CommitmentKey E) (m : PedCom.Message F) (w : PedCom.Witness F).

(** Opening accepts exactly the commitment to the opened message with
    the opened witness, and every operation on commitments commits to the
    result of the corresponding operations on messages and witnesses:
    combining any number of them, inverting, scaling, shifting by a message
    and re-randomising. *)
Theorem Pedersen_homomorphic k m w (s : F) :
  (∀ c, PedCom.Open k (Some c) (Some m) (Some w) =
     if decide (c = com k m w) then Ok tt else Err ErrVerificationFailed) ∧
  (∀ m' w' l, ∃ M W,
     PedCom.MessageOp (Some m) (Some m') (Some <$> l.*1) = Ok M ∧
     PedCom.WitnessOp (Some w) (Some w') (Some <$> l.*2) = Ok W ∧
     PedCom.CommitmentOp (Some (com k m w)) (Some (com k m' w')) ((λ p, Some (com k p.1 p.2)) <$> l)
     = Ok (com k M W)) ∧
  (∃ M W, PedCom.MessageOpInv (Some m) = Ok M ∧ PedCom.WitnessOpInv (Some w) = Ok W ∧
     PedCom.CommitmentOpInv (Some (com k m w)) = Ok (com k M W)) ∧
  (∃ M W, PedCom.MessageScalarOp (Some m) (Some s) = Ok M ∧ PedCom.WitnessScalarOp (Some w) (Some s) = Ok W ∧
     PedCom.CommitmentScalarOp (Some (com k m w)) (Some s) = Ok (com k M W)) ∧
  (∀ w', ∃ W, PedCom.WitnessOp (Some w) (Some w') [] = Ok W ∧
     PedCom.ReRandomise k (Some (com k m w)) (Some w') = Ok (com k m W)) ∧
  (∀ m', ∃ M, PedCom.MessageOp (Some m) (Some m') [] = Ok M ∧
     PedCom.Shift k (Some (com k m w)) (Some m') = Ok (com k M w)).
Proof.
  split_and!.
  - intros [c]. unfold PedCom.Open. rewrite CommitWithWitness_com. cbn [mbind result_bind].
    unfold PedCom.CommitmentEqual. cbn [PedCom.cv]. case_bool_decide as Hc; cbn [negb].
    + by rewrite decide_True by (unfold com in *; cbn in *; congruence).
    + by rewrite decide_False by (unfold com in *; cbn in *; congruence).
  - intros m' w' l. unfold PedCom.MessageOp, PedCom.WitnessOp, PedCom.CommitmentOp, PedCom.Op, Fold.
    rewrite !restValues_ok. cbn [mbind result_bind].
    assert ((λ p, Some (com k p.1 p.2)) <$> l
      = Some <$> ((λ p : PedCom.Message F * PedCom.Witness F, com k p.1 p.2) <$> l)) as ->
      by (by rewrite <-list_fmap_compose).
    rewrite restValues_ok. cbn [mbind result_bind].
    eexists _, _. do 2 (split; [done|]). cbn [PedCom.NewCommitment]. f_equal.
    rewrite com_add. exact (f_equal PedCom.mkCommitment (com_fold k l _ _)).
  - eexists _, _. do 2 (split; [done|]). unfold PedCom.CommitmentOpInv, com. cbn [PedCom.NewCommitment PedCom.cv PedCom.mm PedCom.wr].
    by rewrite ginv_op, !scalar_op_neg.
  - eexists _, _. do 2 (split; [done|]). unfold PedCom.CommitmentScalarOp, com. cbn [PedCom.NewCommitment PedCom.cv PedCom.mm PedCom.wr].
    by rewrite scalar_op_add_l, !scalar_op_mul.
  - intros w'. eexists. split; [done|]. unfold PedCom.ReRandomise, com. cbn [PedCom.NewCommitment PedCom.cv PedCom.mm PedCom.wr Fold foldl fmap list_fmap].
    by rewrite <-gop_assoc, <-scalar_op_add_r.
  - intros m'. eexists. split; [done|]. unfold PedCom.Shift, com. cbn [PedCom.NewCommitment PedCom.cv PedCom.mm PedCom.wr Fold foldl fmap list_fmap].
    do 2 f_equal. change (PedCom.mm m ⊕ PedCom.mm m') with (PedCom.mm m + PedCom.mm m').
    rewrite scalar_op_add_r, <-!gop_assoc.
    f_equal. apply gop_comm.
Qed.

(** C8. A constructed key hides perfectly and binds: for every commitment
    and every other message exactly one witness opens it to that message, and
    two openings of one commitment to different messages determine the
    discrete logarithm of [H] to the base [G]. *)
Theorem Pedersen_hiding_binding g h k m w m' :
  PedCom.NewCommitmentKeyUnchecked (Some g) (Some h) = Ok k →
  (∃ w', ∀ u, PedCom.CommitWithWitness k (Some m') (Some u) = PedCom.CommitWithWitness k (Some m) (Some w)
     ↔ u = w') ∧
  (∀ w', PedCom.CommitWithWitness k (Some m') (Some w') = PedCom.CommitWithWitness k (Some m) (Some w) →
     (m = m' ∧ w = w') ∨
     (m ≠ m' ∧ ∃ i, try_inv (PedCom.wr w' - PedCom.wr w) = Ok i ∧
        h = g • ((PedCom.mm m - PedCom.mm m') * i))).
Proof.
  intros (-> & _ & Hg & Hh)%NewKey_ok. rewrite CommitWithWitness_com.
  assert (∀ m w c, PedCom.CommitWithWitness (PedCom.mkKey g h) (Some m) (Some w) = Ok c
    ↔ com (PedCom.mkKey g h) m w = c) as Hcom.
  { intros m1 w1 c1. rewrite CommitWithWitness_com. split; [by intros [= <-]|by intros ->]. }
  split.
  2:{ intros w' E1%Hcom. by apply com_binding. }
  destruct (nonidentity_exponent (F:=F) g Hg) as (a & Ha & ->).
  destruct (nonidentity_exponent (F:=F) h Hh) as (b & Hb & ->).
  exists (PedCom.mkWitness (PedCom.wr w + div0 a b * (PedCom.mm m - PedCom.mm m'))).
  intros [u]. rewrite Hcom, com_exponent_eq. cbn [PedCom.wr]. split.
  - intros E1. f_equal.
    replace u with ((a * PedCom.mm m' + b * u - a * PedCom.mm m') * inv0 b) by (field; done).
    rewrite E1. field. done.
  - intros [= ->]. field. done.
Qed.

(** A trapdoor key commits to the same values as the key it exports,
    and equivocates: for any opening and any other message it computes the
    witness that opens the same commitment to that message. *)
Theorem Pedersen_trapdoor g l t m w m' :
  PedCom.NewTrapdoorKey (Some g) (Some l) = Ok t →
  PedCom.TrapdoorCommitWithWitness t (Some m) (Some w)
  = PedCom.CommitWithWitness (PedCom.td_key t) (Some m) (Some w) ∧
  PedCom.NewCommitmentKeyUnchecked (Some g) (Some (g • l)) = Ok (PedCom.td_key t) ∧
  ∃ w', PedCom.Equivocate t (Some m) (Some w) (Some m') = Ok w' ∧
    PedCom.CommitWithWitness (PedCom.td_key t) (Some m') (Some w')
    = PedCom.CommitWithWitness (PedCom.td_key t) (Some m) (Some w).
Proof.
  unfold PedCom.NewTrapdoorKey. case_bool_decide as Hg; [done|].
  destruct (is_zero l) eqn:Hz; [done|]. destruct (is_one l) eqn:Ho; [done|]. intros [= <-].
  apply is_zero_false in Hz. unfold is_one in Ho. apply bool_decide_eq_false in Ho.
  assert (∀ m w, PedCom.CommitWithWitness (PedCom.mkKey g (g • l)) (Some m) (Some w)
    = Ok (PedCom.mkCommitment (g • (PedCom.mm m + l * PedCom.wr w)))) as Hcom.
  { intros m1 w1. rewrite CommitWithWitness_com. unfold com. cbn.
    by rewrite scalar_op_add_r, (scalar_op_mul g l). }
  cbn [PedCom.td_key]. split_and!.
  - by rewrite Hcom.
  - unfold PedCom.NewCommitmentKeyUnchecked. 
    rewrite (bool_decide_false (g = g • l)), (bool_decide_false (g = gid)), (bool_decide_false (g • l = gid));
      [done| |done|].
    + intros E1. apply Hz. by apply (nonidentity_free g).
    + intros E1. apply Ho, (nonidentity_inj g); [done|]. by rewrite scalar_op_1.
  - unfold PedCom.Equivocate. cbn [PedCom.lambda]. rewrite try_inv_inv0 by done.
    cbn [mbind result_bind]. eexists. split; [done|]. rewrite !Hcom. cbn [PedCom.wr].
    do 3 f_equal. field. done.
Qed.
End properties.

Lemma Pedersen_hiding_binding_witness :
  ∃ k w', PedCom.NewCommitmentKeyUnchecked (Some (f101 1)) (Some (f101 5)) = Ok k ∧
    PedCom.CommitWithWitness k (Some (PedCom.mkMessage (f101 9))) (Some w')
    = PedCom.CommitWithWitness k (Some (PedCom.mkMessage (f101 2))) (Some (PedCom.mkWitness (f101 3))).
Proof.
  assert (∃ k, PedCom.NewCommitmentKeyUnchecked (Some (f101 1)) (Some (f101 5)) = Ok k) as [k Hk]
    by (eexists; vm_compute; reflexivity).
  destruct (Pedersen_hiding_binding (f101 1) (f101 5) k (PedCom.mkMessage (f101 2))
    (PedCom.mkWitness (f101 3)) (PedCom.mkMessage (f101 9)) Hk) as ((w' & Hw) & _).
  exists k, w'. split; [done|]. by apply Hw.
Defined.

Lemma Pedersen_trapdoor_witness :
  ∃ (t : PedCom.TrapdoorKey fp101 fp101) w',
    PedCom.NewTrapdoorKey (Some (f101 1)) (Some (f101 5)) = Ok t ∧
    PedCom.Equivocate t (Some (PedCom.mkMessage (f101 2))) (Some (PedCom.mkWitness (f101 3)))
      (Some (PedCom.mkMessage (f101 7))) = Ok w'.
Proof.
  assert (∃ t : PedCom.TrapdoorKey fp101 fp101, PedCom.NewTrapdoorKey (Some (f101 1)) (Some (f101 5)) = Ok t)
    as [t Ht] by (eexists; vm_compute; reflexivity).
  destruct (Pedersen_trapdoor (f101 1) (f101 5) t (PedCom.mkMessage (f101 2))
    (PedCom.mkWitness (f101 3)) (PedCom.mkMessage (f101 7)) Ht) as (_ & _ & w' & Hw & _).
  exists t, w'. split; [done|]. exact Hw.
Defined.
