(* ===== verification/PedersenVSS.v ===== *)
(** * Pedersen verifiable secret sharing (vss/pedersen)

    Two Karchmer-Wigderson dealings, one of the secret and one of a random
    blinding value, are published as one column of Pedersen commitments; a
    share is a pair of opening vectors. *)

From Stdlib Require Import ZArith NArith Lia Ring Field.
From S2P Require Import Prelude Algebra AlgebraUtils Poly Combinations Matrix Solver Interp.
From S2P Require Import MSP Access Threshold Unanimity Additive KW Feldman PedCom.

Module PedersenVSS.
Section vss.
Context `{PrimeGroup F E}.
Implicit Types (key : PedCom.CommitmentKey E) (M : MSP F).

(** ** Shares (share.go) *)

Record Share := mkPShare {
  pid : ID; secret : list (PedCom.Message F); blinding : list (PedCom.Witness F) }.

Definition NewShare (id : ID) (secret blinding : option (KW.Share F)) : result Share :=
  if (id =? 0)%N then Err ErrIsZero
  else match secret, blinding with
       | None, _ => Err ErrIsNil
       | _, None => Err ErrIsNil
       | Some secret, Some blinding =>
           if negb (length (KW.sv secret) =? length (KW.sv blinding)) then Err ErrFailed
           else
             messages ← mapM (λ v, PedCom.NewMessage (Some v)) (KW.sv secret);
             witnesses ← mapM (λ v, PedCom.NewWitness (Some v)) (KW.sv blinding);
             Ok (mkPShare id messages witnesses)
       end.

Definition Value (s : Share) : list F := PedCom.mm <$> secret s.

(** [si.Add(other[i])] for every index; the constructor gives a share as many
    witnesses as messages. *)
Definition add_all {A} (add : A → option A → result A) (xs ys : list A) : result (list A) :=
  mapM (λ '(x, y), add x (Some y)) (zip xs ys).

Definition Op (s other : Share) : result Share :=
  if negb (pid s =? pid other)%N then Panic
  else if negb (length (secret s) =? length (secret other))
          || negb (length (blinding s) =? length (blinding other)) then Panic
  else
    secretsOut ← add_all PedCom.MessageAdd (secret s) (secret other);
    blindingsOut ← add_all PedCom.WitnessAdd (blinding s) (blinding other);
    Ok (mkPShare (pid s) secretsOut blindingsOut).
Definition Add (s other : Share) : result Share := Op s other.

(** The scalar is read by the field's [FromBytesBE]; an error panics, and so
    does a share without values. *)
Definition ScalarOp (fromBytesBE : list N → result F) (s : Share) (sc : list N) : result Share :=
  if length (secret s) =? 0 then Panic
  else
    match fromBytesBE sc with
    | Ok scalar =>
        secretsOut ← mapM (λ m, PedCom.MessageMul m (Some (PedCom.mkMessage scalar))) (secret s);
        blindingsOut ← mapM (λ w, PedCom.WitnessMul w (Some (PedCom.mkWitness scalar))) (blinding s);
        Ok (mkPShare (pid s) secretsOut blindingsOut)
    | _ => Panic
    end.

(** The loop runs over the messages and stops at the first difference; an
    index beyond the witnesses panics. *)
Definition Equal (s other : Share) : result bool :=
  if negb (pid s =? pid other)%N then Ok false
  else if negb (length (secret s) =? length (secret other))
          || negb (length (blinding s) =? length (blinding other)) then Ok false
  else foldM (λ (acc : bool) i,
         if negb acc then Ok false
         else match secret s !! i, secret other !! i, blinding s !! i, blinding other !! i with
              | Some m, Some m', Some w, Some w' =>
                  Ok (PedCom.MessageEqual m m' && PedCom.WitnessEqual w w')
              | Some m, Some m', _, _ => if PedCom.MessageEqual m m' then Panic else Ok false
              | _, _, _, _ => Panic
              end) true (seq 0 (length (secret s))).

Record LiftedShare := mkPLShare { plid : ID; plv : list (PedCom.Commitment E) }.

Definition NewLiftedShare (id : ID) (v : list (option (PedCom.Commitment E))) : result LiftedShare :=
  if length v =? 0 then Err ErrIsNil
  else if (id =? 0)%N then Err ErrIsNil
  else if existsb (λ x, bool_decide (x = None)) v then Err ErrIsNil
  else Ok (mkPLShare id (omap (λ x, x) v)).

(** [blinding[i]] panics on a share with fewer witnesses than messages. *)
Definition LiftShare (share : option Share) (key : option (PedCom.CommitmentKey E)) :
    result LiftedShare :=
  match share, key with
  | None, _ => Err ErrIsNil
  | _, None => Err ErrIsNil
  | Some share, Some key =>
      v ← mapM (λ '(i, m), match blinding share !! i with
                           | Some w => PedCom.CommitWithWitness key (Some m) (Some w)
                           | None => Panic
                           end) (imap pair (secret share));
      NewLiftedShare (pid share) (Some <$> v)
  end.

Definition LSEqual (s other : LiftedShare) : bool :=
  if negb (plid s =? plid other)%N then false
  else if negb (length (plv s) =? length (plv other)) then false
  else forallb (λ '(x, y), PedCom.CommitmentEqual x y) (zip (plv s) (plv other)).

(** ** Dealer functions (dealerfunc.go) *)

Record DealerFunc := mkPDF { df_g : KW.DealerFunc (F:=F); df_h : KW.DealerFunc (F:=F) }.

Definition NewDealerFunc (g h : option (KW.DealerFunc (F:=F))) : result DealerFunc :=
  match g, h with
  | None, _ => Err ErrIsNil
  | _, None => Err ErrIsNil
  | Some g, Some h => Ok (mkPDF g h)
  end.

Definition ShareOf (df : DealerFunc) (id : ID) : result Share :=
  secretShare ← KW.ShareOf (df_g df) id;
  blindingShare ← KW.ShareOf (df_h df) id;
  NewShare id (Some secretShare) (Some blindingShare).

Definition Secret (df : DealerFunc) : result F := KW.Secret (df_g df).

Abbreviation VerificationVector := (Feldman.VerificationVector E).
Record LiftedDealerFunc := mkPLDF { gh : Feldman.LiftedDealerFunc F E }.

Definition LiftDealerFunc (df : option DealerFunc) (key : option (PedCom.CommitmentKey E)) :
    result LiftedDealerFunc :=
  match df, key with
  | None, _ => Err ErrIsNil
  | _, None => Err ErrIsNil
  | Some df, Some key =>
      g ← Feldman.LiftDealerFunc (Some (df_g df)) (Some (PedCom.g key));
      h ← Feldman.LiftDealerFunc (Some (df_h df)) (Some (PedCom.h key));
      sumVV ← Feldman.VVOp (Some (Feldman.verificationVector g)) (Some (Feldman.verificationVector h));
      out ← Feldman.NewLiftedDealerFunc (Some sumVV) (Some (Feldman.mspMatrix g));
      Ok (mkPLDF out)
  end.

Definition NewLiftedDealerFunc (vv : option VerificationVector) (mspMatrix : option (MSP F)) :
    result LiftedDealerFunc :=
  out ← Feldman.NewLiftedDealerFunc vv mspMatrix; Ok (mkPLDF out).

Definition LiftedShareOf (df : LiftedDealerFunc) (id : ID) : result LiftedShare :=
  kwShare ← Feldman.ShareOf (gh df) id;
  v ← mapM (λ e, PedCom.NewCommitment (Some e)) (Feldman.lv kwShare);
  Ok (mkPLShare id v).

(** ** The scheme (scheme.go) *)

(** One iteration of the loop that pairs the two dealings. *)
Definition pair_share (blindingShares : gmap ID (KW.Share F)) (shares : gmap ID Share)
    (entry : ID * KW.Share F) : result (gmap ID Share) :=
  let '(id, secretShare) := entry in
  match blindingShares !! id with
  | None => Err ErrFailed
  | Some blindingShare =>
      share ← NewShare id (Some secretShare) (Some blindingShare);
      Ok (<[id := share]> shares)
  end.

Definition DealAndRevealDealerFunc {P} key M (sampler : P → result (F * P)) (secret : option F)
    (prng : option P) : result (gmap ID Share * VerificationVector * DealerFunc * P) :=
  match secret, prng with
  | None, _ => Err ErrIsNil
  | _, None => Err ErrIsNil
  | Some secret, Some prng =>
      '(secretShares, secretsDealerFunc, prng) ←
        KW.DealAndRevealDealerFunc M sampler (Some secret) (Some prng);
      '(blindingShares, _, blindingDealerFunc, prng) ←
        KW.DealRandomAndRevealDealerFunc M sampler (Some prng);
      dealerFunc ← NewDealerFunc (Some secretsDealerFunc) (Some blindingDealerFunc);
      liftedDealerFunc ← LiftDealerFunc (Some dealerFunc) (Some key);
      shares ← foldM (pair_share blindingShares) ∅ (map_to_list secretShares);
      Ok (shares, Feldman.verificationVector (gh liftedDealerFunc), dealerFunc, prng)
  end.

Definition Deal {P} key M (sampler : P → result (F * P)) (secret : option F) (prng : option P) :
    result (gmap ID Share * VerificationVector * P) :=
  '(shares, vv, _, prng) ← DealAndRevealDealerFunc key M sampler secret prng;
  Ok (shares, vv, prng).

Definition DealRandomAndRevealDealerFunc {P} key M (sampler : P → result (F * P)) (prng : option P) :
    result (gmap ID Share * VerificationVector * F * DealerFunc * P) :=
  match prng with
  | None => Err ErrIsNil
  | Some prng =>
      '(secret, prng) ← sampler prng;
      '(shares, vv, df, prng) ← DealAndRevealDealerFunc key M sampler (Some secret) (Some prng);
      Ok (shares, vv, secret, df, prng)
  end.

Definition DealRandom {P} key M (sampler : P → result (F * P)) (prng : option P) :
    result (gmap ID Share * VerificationVector * F * P) :=
  '(shares, vv, secret, _, prng) ← DealRandomAndRevealDealerFunc key M sampler prng;
  Ok (shares, vv, secret, prng).

(** The secret half as a share of the underlying scheme; [share.ID()] panics
    on a nil share. *)
Definition secret_share (share : option Share) : result (option (KW.Share F)) :=
  match share with
  | None => Panic
  | Some share => s ← KW.NewShare (pid share) (Some <$> Value share); Ok (Some s)
  end.

Definition Reconstruct M (shares : list (option Share)) : result F :=
  secretShares ← mapM secret_share shares;
  KW.Reconstruct M secretShares.

Definition Verify key M (share : option Share) (vector : option VerificationVector) : result unit :=
  match share, vector with
  | None, _ => Err ErrIsNil
  | _, None => Err ErrIsNil
  | Some share, Some vector =>
      liftedDealerFunc ← NewLiftedDealerFunc (Some vector) (Some M);
      liftedShare ← LiftedShareOf liftedDealerFunc (pid share);
      manuallyLiftedShare ← LiftShare (Some share) (Some key);
      if negb (LSEqual liftedShare manuallyLiftedShare) then Err ErrVerification else Ok tt
  end.

Definition ReconstructAndVerify key M (reference : option VerificationVector)
    (shares : list (option Share)) : result F :=
  _ ← mapM (λ share, Verify key M share reference) shares;
  Reconstruct M shares.

Definition ConvertShareToAdditive M (share : option Share) (quorum : option Unanimity.Unanimity) :
    result (AdditiveShare F) :=
  kwShare ← secret_share share;
  KW.ConvertShareToAdditive M kwShare quorum.
End vss.
Arguments Share F : clear implicits.
Arguments LiftedShare E : clear implicits.
Arguments DealerFunc F : clear implicits.
End PedersenVSS.

(** ** Theory *)

Section theory.
Context `{PrimeGroup F E}.
Local Open Scope alg_scope.
Add Ring pvss_ring : (ring_laws (R:=F)).
Implicit Types (M : MSP F) (r c : list F) (key : PedCom.CommitmentKey E) (s : PedersenVSS.Share F).

(** The Pedersen share two columns give to [id]. *)
Definition pshare_of M (rg rh : list F) (id : ID) : PedersenVSS.Share F :=
  PedersenVSS.mkPShare id (PedCom.mkMessage <$> (lambda M rg <$> rows_of M [id]))
    (PedCom.mkWitness <$> (lambda M rh <$> rows_of M [id])).

(** The column committed to by two columns under a key of exponents [a], [b]. *)
Definition combine (a b : F) (rg rh : list F) : list F :=
  tabulate (length rg) (λ j, a * (rg !!! j) + b * (rh !!! j)).

Lemma lambda_combine M a b (rg rh : list F) i :
  length rg = n (matrix M) →
  lambda M (combine a b rg rh) i = a * lambda M rg i + b * lambda M rh i.
Proof.
  intros Hl. unfold lambda. rewrite !rsum_mul_l, <-rsum_add. apply rsum_ext. intros j Hj.
  unfold combine. rewrite tabulate_lookup_total by lia. ring.
Qed.

(** [open_all key s]: the commitments the share opens. *)
Definition open_all key s : list (PedCom.Commitment E) :=
  zip_with (com key) (PedersenVSS.secret s) (PedersenVSS.blinding s).

Lemma mapM_NewMessage (l : list F) :
  mapM (λ v, PedCom.NewMessage (Some v)) l = Ok (PedCom.mkMessage <$> l).
Proof. apply (mapM_ok_map PedCom.mkMessage). Qed.
Lemma mapM_NewWitness (l : list F) :
  mapM (λ v, PedCom.NewWitness (Some v)) l = Ok (PedCom.mkWitness <$> l).
Proof. apply (mapM_ok_map PedCom.mkWitness). Qed.

Lemma mapM_NewCommitment (l : list E) :
  mapM (λ e, PedCom.NewCommitment (Some e)) l = Ok (PedCom.mkCommitment <$> l).
Proof. apply (mapM_ok_map PedCom.mkCommitment). Qed.

Lemma NewShare_ok' id (xs ys : list F) :
  id ≠ 0%N → length xs = length ys →
  PedersenVSS.NewShare id (Some (KW.mkShare id xs)) (Some (KW.mkShare id ys))
  = Ok (PedersenVSS.mkPShare id (PedCom.mkMessage <$> xs) (PedCom.mkWitness <$> ys)).
Proof.
  intros Hid Hl. unfold PedersenVSS.NewShare. destruct (N.eqb_spec id 0); [done|].
  cbn [KW.sv]. rewrite Hl, Nat.eqb_refl. cbn [negb].
  by rewrite mapM_NewMessage; cbn [mbind result_bind]; rewrite mapM_NewWitness.
Qed.

Lemma LiftShare_open key s :
  PedersenVSS.secret s ≠ [] → PedersenVSS.pid s ≠ 0%N → length (PedersenVSS.blinding s) = length (PedersenVSS.secret s) →
  PedersenVSS.LiftShare (Some s) (Some key)
  = Ok (PedersenVSS.mkPLShare (PedersenVSS.pid s) (open_all key s)).
Proof.
  intros Hne Hid Hl. unfold PedersenVSS.LiftShare.
  assert (mapM (λ '(i, m), match PedersenVSS.blinding s !! i with
      | Some w => PedCom.CommitWithWitness key (Some m) (Some w)
      | None => Panic
      end) (imap pair (PedersenVSS.secret s)) = Ok (open_all key s)) as ->.
  { apply mapM_ok. apply Forall2_same_length_lookup_2.
    { unfold open_all. rewrite length_imap, length_zip_with. lia. }
    intros i [j m] c Hi Hc. rewrite list_lookup_imap in Hi.
    apply fmap_Some in Hi as (m' & Hm & [= <- <-]).
    unfold open_all in Hc. apply lookup_zip_with_Some in Hc as (m' & w & -> & Hm' & Hw).
    rewrite Hw. rewrite CommitWithWitness_com. congruence. }
  cbn [mbind result_bind]. unfold PedersenVSS.NewLiftedShare. rewrite length_fmap.
  unfold open_all. rewrite length_zip_with, Hl, Nat.min_id.
  destruct (Nat.eqb_spec (length (PedersenVSS.secret s)) 0); [by destruct (PedersenVSS.secret s)|].
  destruct (N.eqb_spec (PedersenVSS.pid s) 0); [done|].
  rewrite (existsb_None_fmap (λ x, x)), (omap_Some_fmap (λ x, x)), list_fmap_id. done.
Qed.

Lemma LSEqual_pspec (s t : PedersenVSS.LiftedShare E) : PedersenVSS.LSEqual s t = true ↔ s = t.
Proof.
  unfold PedersenVSS.LSEqual. destruct s as [i l], t as [j k].
  cbn [PedersenVSS.plid PedersenVSS.plv].
  destruct (N.eqb_spec i j) as [->|]; cbn [negb]; [|split; [done|congruence]].
  destruct (Nat.eqb_spec (length l) (length k)) as [Hl|]; cbn [negb]; [|split; [done|congruence]].
  assert (forallb (λ '(x, y), PedCom.CommitmentEqual x y) (zip l k) = true ↔ l = k) as ->.
  { revert k Hl. induction l as [|[x] l IH]; intros [|[y] k] Hl; try done.
    injection Hl as Hl. cbn. rewrite andb_true_iff, IH by done. unfold PedCom.CommitmentEqual.
    rewrite bool_decide_eq_true. cbn. split; [by intros [-> ->]|by intros [= -> ->]]. }
  split; [by intros ->|by intros [= ->]].
Qed.

Lemma LiftedShareOf_ok M c id :
  wf_msp M → (0 < m (matrix M))%nat → (0 < n (matrix M))%nat → length c = n (matrix M) →
  (l ← PedersenVSS.NewLiftedDealerFunc (Some (vv_of c)) (Some M); PedersenVSS.LiftedShareOf l id)
  = if decide (id ∈ MSP.Shareholders M)
    then Ok (PedersenVSS.mkPLShare id ((λ i, PedCom.mkCommitment (generator • lambda M c i)) <$> rows_of M [id]))
    else Err ErrMembership.
Proof.
  intros Hwf Hm Hn Hc. unfold PedersenVSS.NewLiftedDealerFunc. rewrite NewLiftedDealerFunc_ok by done.
  cbn [mbind result_bind]. unfold PedersenVSS.LiftedShareOf. cbn [PedersenVSS.gh].
  rewrite ShareOf_lifted by done. case_decide; [|done]. cbn [mbind result_bind].
  rewrite mapM_NewCommitment.
  cbn [mbind result_bind Feldman.lv lifted_share_of].
  by rewrite <-list_fmap_compose.
Qed.

(** [Verify] compares the commitments a share opens with those of the
    committed column. *)
Lemma Verify_pspec key M c s :
  wf_msp M → (0 < m (matrix M))%nat → (0 < n (matrix M))%nat → length c = n (matrix M) →
  length (PedersenVSS.blinding s) = length (PedersenVSS.secret s) →
  PedersenVSS.Verify key M (Some s) (Some (vv_of c)) = Ok tt
  ↔ PedersenVSS.pid s ∈ MSP.Shareholders M ∧
    open_all key s = (λ i, PedCom.mkCommitment (generator • lambda M c i)) <$> rows_of M [PedersenVSS.pid s].
Proof.
  intros Hwf Hm Hn Hc Hl. unfold PedersenVSS.Verify.
  pose proof (LiftedShareOf_ok M c (PedersenVSS.pid s) Hwf Hm Hn Hc) as E1.
  unfold PedersenVSS.NewLiftedDealerFunc in *. rewrite NewLiftedDealerFunc_ok in E1 |- * by done.
  cbn [mbind result_bind] in *. rewrite E1. clear E1.
  case_decide as Hid; [|split; [done|by intros [? _]]]. cbn [mbind result_bind].
  pose proof (holder_nonempty M _ Hwf Hid) as Hne.
  pose proof (holder_nonzero M _ Hwf Hid) as H0'.
  destruct (decide (PedersenVSS.secret s = [])) as [Hs|Hs].
  { unfold PedersenVSS.LiftShare, open_all. rewrite Hs. cbn. split; [done|].
    intros [_ E1]. symmetry in E1. by apply fmap_nil_inv in E1. }
  rewrite LiftShare_open by done. cbn [mbind result_bind].
  destruct (PedersenVSS.LSEqual _ _) eqn:El; cbn [negb].
  - split; [|done]. intros _. split; [done|]. apply LSEqual_pspec in El. by injection El as <-.
  - split; [done|]. intros [_ E1]. apply not_true_iff_false in El. destruct El.
    apply LSEqual_pspec. by rewrite E1.
Qed.

Lemma open_all_pshare a b M (rg rh : list F) id :
  length rg = n (matrix M) →
  open_all (PedCom.mkKey (generator • a) (generator • b)) (pshare_of M rg rh id)
  = (λ i, PedCom.mkCommitment (generator • lambda M (combine a b rg rh) i)) <$> rows_of M [id].
Proof.
  intros Hl. unfold open_all, pshare_of. cbn [PedersenVSS.secret PedersenVSS.blinding].
  rewrite !zip_with_fmap_l, !zip_with_fmap_r, zip_with_diag. apply list_fmap_ext. intros _ i _.
  rewrite com_exponent. cbn. by rewrite lambda_combine.
Qed.

(** *** Dealing *)

Lemma Lift_by r (a : F) :
  (0 < length r)%nat →
  Lift (mkMatrix (length r) 1 r) ((generator : E) • a)
  = Ok (mkMatrix (length r) 1 ((λ x, (generator : E) • (a * x)) <$> r)).
Proof.
  intros Hr. unfold Lift. cbn [m n v]. rewrite NewMatrixModule_ok by lia. cbn [mbind result_bind].
  rewrite NewRowMajor_ok by (rewrite length_fmap; lia). do 2 f_equal. apply list_fmap_ext.
  intros _ x _. symmetry. apply scalar_op_mul.
Qed.

Lemma Lift_total (A : Matrix F) (x : E) :
  wf A → (0 < m A)%nat → (0 < n A)%nat → is_ok (Lift A x) = true.
Proof.
  intros HA Hm Hn. unfold Lift. rewrite NewMatrixModule_ok by lia. cbn [mbind result_bind].
  by rewrite NewRowMajor_ok by (by rewrite length_fmap).
Qed.

Lemma vv_combine (a b : F) (rg rh : list F) :
  length rg = length rh →
  Feldman.VVOp (Some (Feldman.mkVV (mkMatrix (length rg) 1 ((λ x, generator • (a * x)) <$> rg))))
    (Some (Feldman.mkVV (mkMatrix (length rh) 1 ((λ x, generator • (b * x)) <$> rh))))
  = Ok (vv_of (combine a b rg rh) : Feldman.VerificationVector E).
Proof.
  intros Hl. unfold Feldman.VVOp. cbn [Feldman.value n m]. rewrite Hl, !Nat.eqb_refl. cbn [negb].
  unfold OpAssign. cbn [m n v]. rewrite !Nat.eqb_refl. cbn [andb negb mbind result_bind].
  unfold vv_of, combine. rewrite length_tabulate. do 3 f_equal; [done|].
  apply list_eq_total.
  { rewrite length_zip_with, !length_fmap, length_tabulate. lia. }
  intros i Hi. rewrite length_zip_with, !length_fmap in Hi.
  rewrite fmap_lookup_total, tabulate_lookup_total by (rewrite ?length_tabulate; lia).
  apply list_lookup_total_correct, lookup_zip_with_Some.
  eexists _, _. split; [|split; rewrite list_lookup_fmap, list_lookup_lookup_total_lt by lia; done].
  apply scalar_op_add_r.
Qed.

Lemma LiftDealerFunc_ok (a b : F) M (rg rh : list F) :
  wf_msp M → (0 < m (matrix M))%nat → (0 < n (matrix M))%nat →
  length rg = n (matrix M) → length rh = n (matrix M) →
  let df r := KW.mkDealerFunc (mkMatrix (length r) 1 r) M (mk (m (matrix M)) 1 (λ i _, lambda M r i)) in
  PedersenVSS.LiftDealerFunc (Some (PedersenVSS.mkPDF (df rg) (df rh)))
    (Some (PedCom.mkKey ((generator : E) • a) (generator • b)))
  = Ok (PedersenVSS.mkPLDF (Feldman.mkLDF (vv_of (combine a b rg rh)) M
      (mk (m (matrix M)) 1 (λ i _, generator • lambda M (combine a b rg rh) i)))).
Proof.
  intros Hwf Hm Hn Hg Hh df. unfold PedersenVSS.LiftDealerFunc. cbn [PedersenVSS.df_g PedersenVSS.df_h PedCom.g PedCom.h].
  assert (∀ (x : F) r, length r = n (matrix M) → ∃ L,
    Feldman.LiftDealerFunc (Some (df r)) (Some ((generator : E) • x))
    = Ok (Feldman.mkLDF (Feldman.mkVV (mkMatrix (length r) 1 ((λ y, generator • (x * y)) <$> r))) M L)) as HL.
  { intros x r Hr. unfold Feldman.LiftDealerFunc. cbn [df KW.randomColumn KW.lambdaColumn KW.dmsp].
    rewrite Lift_by by lia. cbn [mbind result_bind].
    destruct (proj1 (is_ok_true _) (Lift_total (mk (m (matrix M)) 1 (λ i _, lambda M r i)) ((generator : E) • x)
      (wf_mk _ _ _) Hm ltac:(cbn; lia))) as [L ->]. by exists L. }
  destruct (HL a rg Hg) as [Lg ->], (HL b rh Hh) as [Lh ->]. cbn [mbind result_bind Feldman.verificationVector Feldman.mspMatrix].
  rewrite vv_combine by congruence. cbn [mbind result_bind].
  rewrite NewLiftedDealerFunc_ok; [done|done|done|]. unfold combine. by rewrite length_tabulate.
Qed.

Lemma pair_shares_ok M (rg rh : list F) (blind : gmap ID (KW.Share F)) (l : list (ID * KW.Share F)) acc :
  wf_msp M → NoDup l.*1 → (∀ id sh, (id, sh) ∈ l → id ∈ MSP.Shareholders M ∧ sh = share_of M rg id) →
  (∀ id, id ∈ MSP.Shareholders M → blind !! id = Some (share_of M rh id)) →
  ∃ shares : gmap ID (PedersenVSS.Share F), foldM (PedersenVSS.pair_share blind) acc l = Ok shares ∧
    ∀ id, shares !! id = if decide (id ∈ l.*1) then Some (pshare_of M rg rh id) else acc !! id.
Proof.
  intros Hwf Hnd Hl Hb. revert acc Hnd Hl. induction l as [|[id sh] l IH]; intros acc Hnd Hl; [by exists acc|].
  cbn in Hnd. apply NoDup_cons in Hnd as [Hid Hnd].
  destruct (Hl id sh (list_elem_of_here _ _)) as [Hsh ->]. cbn [foldM].
  assert (PedersenVSS.pair_share blind acc (id, share_of M rg id)
    = Ok (<[id := pshare_of M rg rh id]> acc)) as ->.
  { unfold PedersenVSS.pair_share. rewrite Hb by done. unfold share_of.
    rewrite NewShare_ok'; [done| |by rewrite !length_fmap]. by apply (holder_nonzero M). }
  cbn [mbind result_bind].
  destruct (IH (<[id := pshare_of M rg rh id]> acc) Hnd) as (shares & E1 & Hs).
  { intros id' sh' Hin. apply Hl. by constructor. }
  exists shares. split; [done|]. intros id'. rewrite Hs. cbn. destruct (decide (id' ∈ l.*1)) as [Hin|Hin].
  - by rewrite decide_True by (by constructor).
  - destruct (decide (id' = id)) as [->|Hne].
    + rewrite lookup_insert_eq, decide_True; [done|constructor].
    + rewrite lookup_insert_ne, decide_False; [done| |done]. by intros [|]%elem_of_cons.
Qed.

(** What a Pedersen dealing is. *)
Lemma PDeal_shares {P} (a b : F) M (sampler : P → result (F * P)) secret prng out :
  wf_msp M → (2 ≤ MSP.D M)%nat → (0 < m (matrix M))%nat →
  PedersenVSS.DealAndRevealDealerFunc (PedCom.mkKey ((generator : E) • a) (generator • b)) M sampler
    (Some secret) (Some prng) = Ok out →
  ∃ rg rh df prng' (shares : gmap ID (PedersenVSS.Share F)),
    out = (shares, vv_of (combine a b rg rh), df, prng') ∧
    length rg = n (matrix M) ∧ length rh = n (matrix M) ∧ rg !!! 0%nat = secret ∧
    ∀ id, shares !! id = if decide (id ∈ MSP.Shareholders M) then Some (pshare_of M rg rh id) else None.
Proof.
  intros Hwf HD Hm Hd. unfold PedersenVSS.DealAndRevealDealerFunc in Hd.
  apply bind_ok in Hd as ([[gshares gdf] p1] & Hg & Hd).
  apply bind_ok in Hd as ([[[hshares hsec] hdf] p2] & Hh & Hd).
  unfold KW.DealRandomAndRevealDealerFunc in Hh. apply bind_ok in Hh as ([x p3] & _ & Hh).
  apply bind_ok in Hh as ([[hshares' hdf'] p4] & Hh & [= -> -> -> ->]).
  assert (∀ (x : F) p o, KW.DealAndRevealDealerFunc M sampler (Some x) (Some p) = Ok o →
    ∃ cs p' (shares : gmap ID (KW.Share F)), length (x :: tail cs) = n (matrix M) ∧
      o = (shares, KW.mkDealerFunc (mkMatrix (length (x :: tail cs)) 1 (x :: tail cs)) M
          (mk (m (matrix M)) 1 (λ i _, lambda M (x :: tail cs) i)), p') ∧
      ∀ id, shares !! id = if decide (id ∈ MSP.Shareholders M)
        then Some (share_of M (x :: tail cs) id) else None) as Hkw.
  { intros x' p o Ho. destruct (Deal_shares M sampler x' p Hwf HD Hm) as [Hok Hcs].
    destruct (proj1 (is_ok_true _) (Hcs _ Ho)) as [[cs p'] Hr].
    destruct (Hok cs p' Hr) as (shares & E1 & Hs). rewrite E1 in Ho. injection Ho as <-.
    pose proof (random_coeffs_length _ _ _ _ _ Hr) as Hl. unfold MSP.D in *.
    assert (length (x' :: tail cs) = n (matrix M)) as Hlen by (destruct cs; cbn in *; lia).
    exists cs, p', shares. by rewrite Hlen. }
  destruct (Hkw _ _ _ Hg) as (csg & pg & shg & Hlg & [= -> -> ->] & Hsg).
  destruct (Hkw _ _ _ Hh) as (csh & ph & shh & Hlh & [= -> -> ->] & Hsh). clear Hkw Hg Hh.
  cbn [PedersenVSS.NewDealerFunc mbind result_bind] in Hd. unfold MSP.D in HD.
  change (S (length (tail csg))) with (length (secret :: tail csg)) in Hd.
  change (S (length (tail csh))) with (length (hsec :: tail csh)) in Hd.
  rewrite LiftDealerFunc_ok in Hd by (done || lia). cbn [mbind result_bind] in Hd.
  destruct (pair_shares_ok M (secret :: tail csg) (hsec :: tail csh) shh (map_to_list shg) ∅ Hwf)
    as (shares & E1 & Hs).
  - apply NoDup_fst_map_to_list.
  - intros id sh Hin%elem_of_map_to_list. rewrite Hsg in Hin. case_decide; [|done].
    by injection Hin as <-.
  - intros id Hid. by rewrite Hsh, decide_True.
  - rewrite E1 in Hd. cbn [mbind result_bind] in Hd. injection Hd as <-.
    eexists _, _, _, _, shares. split; [done|]. split_and!; [done|done|done|].
    intros id. rewrite Hs, lookup_empty. apply decide_ext. rewrite list_elem_of_fmap. split.
    + intros ([id' sh] & -> & Hin%elem_of_map_to_list). rewrite Hsg in Hin. by case_decide.
    + intros Hid. exists (id, share_of M (secret :: tail csg) id). split; [done|].
      apply elem_of_map_to_list. by rewrite Hsg, decide_True.
Qed.

Lemma secret_share_ok M (rg rh : list F) id :
  wf_msp M → id ∈ MSP.Shareholders M →
  PedersenVSS.secret_share (Some (pshare_of M rg rh id)) = Ok (Some (share_of M rg id)).
Proof.
  intros Hwf Hid. unfold PedersenVSS.secret_share, KW.NewShare. cbn [PedersenVSS.pid pshare_of].
  destruct (N.eqb_spec id 0); [by destruct (holder_nonzero M id Hwf Hid)|].
  unfold PedersenVSS.Value. cbn [PedersenVSS.secret pshare_of]. rewrite !length_fmap.
  pose proof (holder_nonempty M id Hwf Hid) as Hne.
  destruct (Nat.eqb_spec (length (rows_of M [id])) 0); [by destruct (rows_of M [id])|].
  rewrite (existsb_None_fmap (λ x, x)), (omap_Some_fmap (λ x, x)), !list_fmap_id.
  cbn [orb mbind result_bind]. unfold share_of. do 3 f_equal.
  rewrite <-list_fmap_compose. apply list_fmap_id.
Qed.

Lemma PReconstruct_ok M (rg rh : list F) ids :
  wf_msp M → (0 < n (matrix M))%nat → NoDup ids → Accepts M ids = true →
  PedersenVSS.Reconstruct M (Some <$> (pshare_of M rg rh <$> ids)) = Ok (rg !!! 0%nat).
Proof.
  intros Hwf Hn Hnd Ha. unfold PedersenVSS.Reconstruct.
  assert (mapM PedersenVSS.secret_share (Some <$> (pshare_of M rg rh <$> ids))
    = Ok (Some <$> shares_at M (lambda M rg) ids)) as ->.
  { apply mapM_ok. unfold shares_at. rewrite <-!list_fmap_compose.
    apply Forall2_fmap, Forall_Forall2_diag, Forall_forall. intros id Hid.
    apply secret_share_ok; [done|]. apply Accepts_spec in Ha as (Hk & _); [|done..].
    rewrite known_spec in Hk. apply elem_of_dom, (Hk id Hid). }
  by apply Reconstruct_ok.
Qed.
End theory.

(** What a dealing with the random columns [rg], [rh] publishes and hands to
    the holders [ids]. *)
Definition dealt_view `{PrimeGroup F E} (key : PedCom.CommitmentKey E) (M : MSP F) (rg rh : list F)
    (ids : list ID) : result (Feldman.VerificationVector E * list (PedersenVSS.Share F)) :=
  dfg ← KW.NewDealerFunc (Some (mkMatrix (length rg) 1 rg)) (Some M);
  dfh ← KW.NewDealerFunc (Some (mkMatrix (length rh) 1 rh)) (Some M);
  df ← PedersenVSS.NewDealerFunc (Some dfg) (Some dfh);
  lifted ← PedersenVSS.LiftDealerFunc (Some df) (Some key);
  shares ← mapM (PedersenVSS.ShareOf df) ids;
  Ok (Feldman.verificationVector (PedersenVSS.gh lifted), shares).

Section privacy.
Context `{PrimeGroup F E}.
Local Open Scope alg_scope.
Add Ring pvssp_ring : (ring_laws (R:=F)).

Lemma dealt_view_ok (a b : F) M (rg rh : list F) ids :
  wf_msp M → (0 < m (matrix M))%nat → (2 ≤ n (matrix M))%nat →
  length rg = n (matrix M) → length rh = n (matrix M) → known M ids = true →
  dealt_view (PedCom.mkKey ((generator : E) • a) (generator • b)) M rg rh ids
  = Ok (vv_of (combine a b rg rh), pshare_of M rg rh <$> ids).
Proof.
  intros Hwf Hm Hn Hg Hh Hk. unfold dealt_view.
  rewrite !NewDealerFunc_ok by (done || lia). cbn [mbind result_bind PedersenVSS.NewDealerFunc].
  rewrite LiftDealerFunc_ok by (done || lia). cbn [mbind result_bind].
  assert (∀ ca cb, mapM (PedersenVSS.ShareOf (PedersenVSS.mkPDF
      (KW.mkDealerFunc ca M (mk (m (matrix M)) 1 (λ i _, lambda M rg i)))
      (KW.mkDealerFunc cb M (mk (m (matrix M)) 1 (λ i _, lambda M rh i))))) ids
    = Ok (pshare_of M rg rh <$> ids)) as Hshares; [|by rewrite Hshares].
  intros ca cb. apply mapM_ok. apply Forall2_fmap_r, Forall_Forall2_diag, Forall_forall.
  intros id Hid. rewrite known_spec in Hk.
  assert (id ∈ MSP.Shareholders M) as Hsh by (apply elem_of_dom, (Hk id Hid)).
  unfold PedersenVSS.ShareOf. cbn [PedersenVSS.df_g PedersenVSS.df_h].
  rewrite !ShareOf_ok by (done || lia). cbn [mbind result_bind]. unfold share_of.
  apply NewShare_ok'; [by apply (holder_nonzero M)|by rewrite !length_fmap].
Qed.

Lemma combine_shift (a b : F) k d d' (rg rh : list F) :
  length rg = length rh → a * d + b * d' = 0 →
  combine a b (shift k d rg) (shift k d' rh) = combine a b rg rh.
Proof.
  intros Hl Hd. unfold combine. unfold shift at 1. rewrite length_tabulate. apply tabulate_ext.
  intros j Hj. unfold shift. rewrite !tabulate_lookup_total by lia.
  replace (a * (rg !!! j + d * k j) + b * (rh !!! j + d' * k j))
    with (a * (rg !!! j) + b * (rh !!! j) + (a * d + b * d') * k j) by ring.
  rewrite Hd. ring.
Qed.

Lemma pshare_shift M ids k d d' (rg rh : list F) id :
  separates M ids k → length rg = n (matrix M) → length rh = n (matrix M) → id ∈ ids →
  pshare_of M (shift k d rg) (shift k d' rh) id = pshare_of M rg rh id.
Proof.
  intros Hsep Hg Hh Hid. pose proof (shift_shares M ids k d rg id Hsep Hg Hid) as E1.
  pose proof (shift_shares M ids k d' rh id Hsep Hh Hid) as E2.
  unfold share_of in E1, E2. injection E1 as E1. injection E2 as E2.
  unfold pshare_of. by rewrite E1, E2.
Qed.
End privacy.

(** ** Properties *)

Section properties.
Context `{PrimeGroup F E}.
Local Open Scope alg_scope.
Add Ring pvss_prop_ring : (ring_laws (R:=F)).
Add Field pvss_prop_field : (field_laws (F:=F)).
Implicit Types (M : MSP F) (ids : list ID) (V : Feldman.VerificationVector E).

(** Verification: a vector of the wrong length rejects every share
    with a dimension error.  One of the right length fixes a commitment per
    row of the programme, and a share verifies iff its holder is a shareholder
    and its messages and witnesses open the commitments of the holder's rows
    one by one; so two verifying shares of one holder are equal or reveal the
    discrete logarithm of the key. *)
Theorem Pedersen_Verify_opens g h key M V :
  PedCom.NewCommitmentKeyUnchecked (Some g) (Some h) = Ok key →
  wf_msp M → (0 < m (matrix M))%nat → (0 < MSP.D M)%nat →
  wf (Feldman.value V) → n (Feldman.value V) = 1%nat →
  (m (Feldman.value V) ≠ MSP.D M →
     ∀ s, PedersenVSS.Verify key M (Some s) (Some V) = Err ErrDimension) ∧
  (m (Feldman.value V) = MSP.D M →
     ∃ row : nat → E, ∀ s, length (PedersenVSS.blinding s) = length (PedersenVSS.secret s) →
       (PedersenVSS.Verify key M (Some s) (Some V) = Ok tt ↔
          PedersenVSS.pid s ∈ MSP.Shareholders M ∧
          zip_with (com key) (PedersenVSS.secret s) (PedersenVSS.blinding s)
          = (λ i, PedCom.mkCommitment (row i)) <$> rows_of M [PedersenVSS.pid s]) ∧
       (PedersenVSS.Verify key M (Some s) (Some V) = Ok tt →
          ∀ s', length (PedersenVSS.blinding s') = length (PedersenVSS.secret s') →
            PedersenVSS.Verify key M (Some s') (Some V) = Ok tt →
            PedersenVSS.pid s' = PedersenVSS.pid s →
            ∀ k x w x' w',
              PedersenVSS.secret s !! k = Some x → PedersenVSS.blinding s !! k = Some w →
              PedersenVSS.secret s' !! k = Some x' → PedersenVSS.blinding s' !! k = Some w' →
              (x = x' ∧ w = w') ∨
              (x ≠ x' ∧ ∃ i, try_inv (PedCom.wr w' - PedCom.wr w) = Ok i ∧
                 h = g • ((PedCom.mm x - PedCom.mm x') * i)))).
Proof.
  unfold MSP.D. intros (-> & _ & Hg & Hh)%NewKey_ok Hwf Hm Hn HV Hcol. split.
  { intros Hd s. unfold PedersenVSS.Verify, PedersenVSS.NewLiftedDealerFunc, Feldman.NewLiftedDealerFunc,
      IsColumnVector, LeftAction.
    rewrite Hcol. cbn [Nat.eqb negb]. by destruct (Nat.eqb_spec (n (matrix M)) (m (Feldman.value V))); [lia|]. }
  intros Hd. destruct (vv_complete V HV Hcol) as [c ->]. cbn in Hd.
  exists (λ i, generator • lambda M c i). intros s Hl. split; [by apply Verify_pspec|].
  intros [Hid Ho]%Verify_pspec s' Hl' [Hid' Ho']%Verify_pspec Hpid k x w x' w' Hx Hw Hx' Hw'; [|done..].
  apply (com_binding g h); [done|done|].
  assert (open_all (PedCom.mkKey g h) s' !! k = open_all (PedCom.mkKey g h) s !! k) as E1.
  { by rewrite Ho, Ho', Hpid. }
  unfold open_all in E1. rewrite !lookup_zip_with, Hx, Hw, Hx', Hw' in E1. cbn in E1. congruence.
Qed.

(** C7. Dealing: whatever key was constructed, a successful dealing gives
    one share to each shareholder, every share verifies against the published
    vector, and reconstructing with verification from the shares of any
    accepted set of distinct holders, in any order, returns the secret. *)
Theorem PedersenVSS_Deal_correct {P} g h key M (sampler : P → result (F * P)) secret prng shares V prng' :
  PedCom.NewCommitmentKeyUnchecked (Some g) (Some h) = Ok key →
  wf_msp M → (0 < m (matrix M))%nat → (2 ≤ MSP.D M)%nat →
  PedersenVSS.Deal key M sampler (Some secret) (Some prng) = Ok (shares, V, prng') →
  dom shares = MSP.Shareholders M ∧
  (∀ id s, shares !! id = Some s → PedersenVSS.Verify key M (Some s) (Some V) = Ok tt) ∧
  ∀ ids, NoDup ids → Accepts M ids = true →
    ∃ l, Forall2 (λ id s, shares !! id = Some s) ids l ∧
      PedersenVSS.ReconstructAndVerify key M (Some V) (Some <$> l) = Ok secret.
Proof.
  intros (-> & _ & Hg & Hh)%NewKey_ok Hwf Hm HD Hd.
  destruct (nonidentity_exponent (F:=F) g Hg) as (a & Ha & ->).
  destruct (nonidentity_exponent (F:=F) h Hh) as (b & Hb & ->).
  unfold PedersenVSS.Deal in Hd. apply bind_ok in Hd as (out & Hd & E1).
  apply PDeal_shares in Hd as (rg & rh & df & p' & shares' & -> & Hlg & Hlh & Hsec & Hs); [|done..].
  injection E1 as -> <- <-. unfold MSP.D in HD.
  assert (∀ id s, shares !! id = Some s →
    PedersenVSS.Verify (PedCom.mkKey (generator • a) (generator • b)) M (Some s) (Some (vv_of (combine a b rg rh))) = Ok tt)
    as Hver.
  { intros id s. rewrite Hs. case_decide as Hid; [|done]. intros [= <-].
    apply Verify_pspec; [done|done|lia|by unfold combine; rewrite length_tabulate| |].
    - cbn. by rewrite !length_fmap.
    - split; [done|]. by apply open_all_pshare. }
  split; [|split; [done|]].
  - apply set_eq. intros id. rewrite elem_of_dom, Hs. case_decide; [|by split; [intros []|]].
    split; [done|by eexists].
  - intros ids Hnd Hacc. exists (pshare_of M rg rh <$> ids).
    assert (∀ id, id ∈ ids → id ∈ MSP.Shareholders M) as Hin.
    { intros id Hid. apply Accepts_spec in Hacc as (Hk & _); [|done|lia]. rewrite known_spec in Hk.
      apply elem_of_dom, (Hk id Hid). }
    split.
    { apply Forall2_fmap_r, Forall_Forall2_diag, Forall_forall. intros id Hid.
      by rewrite Hs, decide_True by auto. }
    unfold PedersenVSS.ReconstructAndVerify.
    assert (mapM (λ share, PedersenVSS.Verify (PedCom.mkKey (generator • a) (generator • b)) M share
        (Some (vv_of (combine a b rg rh)))) (Some <$> (pshare_of M rg rh <$> ids))
      = Ok (replicate (length ids) tt)) as ->.
    { apply mapM_ok. rewrite <-list_fmap_compose. clear Hnd Hacc.
      induction ids as [|id ids IH]; cbn; constructor.
      - apply (Hver id). rewrite Hs, decide_True; [done|]. apply Hin. constructor.
      - apply IH. intros id' Hid'. apply Hin. by constructor. }
    cbn [mbind result_bind]. rewrite <-Hsec. apply PReconstruct_ok; [done|lia|done|done].
Qed.

(** C6. Perfect privacy of the whole view: for a coalition the programme
    rejects and any two secrets, there is a bijection between the pairs of
    random columns dealing the one and those dealing the other under which
    the published vector and the shares of the coalition are the same. *)
Theorem PedersenVSS_privacy g h key M ids s s' :
  PedCom.NewCommitmentKeyUnchecked (Some g) (Some h) = Ok key →
  wf_msp M → (0 < m (matrix M))%nat → (2 ≤ MSP.D M)%nat →
  known M ids = true → Accepts M ids = false →
  ∃ f f' : list F * list F → list F * list F,
    (∀ rg rh, length rg = MSP.D M → length rh = MSP.D M → rg !!! 0%nat = s →
       (f (rg, rh)).1 !!! 0%nat = s' ∧ f' (f (rg, rh)) = (rg, rh) ∧
       dealt_view key M (f (rg, rh)).1 (f (rg, rh)).2 ids = dealt_view key M rg rh ids ∧
       is_ok (dealt_view key M rg rh ids) = true) ∧
    (∀ rg rh, length rg = MSP.D M → length rh = MSP.D M → rg !!! 0%nat = s' →
       (f' (rg, rh)).1 !!! 0%nat = s ∧ f (f' (rg, rh)) = (rg, rh)).
Proof.
  unfold MSP.D. intros (-> & _ & Hg & Hh)%NewKey_ok Hwf Hm HD Hk Ha.
  destruct (nonidentity_exponent (F:=F) g Hg) as (a & Ha' & ->).
  destruct (nonidentity_exponent (F:=F) h Hh) as (b & Hb & ->).
  destruct (rejected_separates M ids Hwf ltac:(lia) Hk Ha) as [k Hsep].
  assert (∀ d r, length r = n (matrix M) → shift k d r !!! 0%nat = r !!! 0%nat + d) as Hhead.
  { intros d r Hl. unfold shift. rewrite tabulate_lookup_total by lia. destruct Hsep as [-> _]. ring. }
  assert (∀ d (r : list F), length (shift k d r) = length r) as Hlen by (intros; apply length_tabulate).
  set (d := s' - s). set (e := - (div0 a b * d)).
  exists (λ p, (shift k d p.1, shift k e p.2)), (λ p, (shift k (- d) p.1, shift k (- e) p.2)).
  split; intros rg rh Hlg Hlh Hr; cbn [fst snd].
  - split_and!.
    + rewrite Hhead, Hr by done. unfold d. ring.
    + f_equal; apply shift_back; ring.
    + rewrite !dealt_view_ok by (rewrite ?Hlen; done || lia). do 2 f_equal.
      * f_equal. apply combine_shift; [congruence|]. unfold e. field. done.
      * apply list_fmap_ext. intros i id Hid. apply list_elem_of_lookup_2 in Hid.
        by apply (pshare_shift M ids).
    + by rewrite dealt_view_ok by (done || lia).
  - split; [rewrite Hhead, Hr by done; unfold d; ring|]. f_equal; apply shift_back; ring.
Qed.
End properties.

Lemma ex_key : ∃ key : PedCom.CommitmentKey fp101, PedCom.NewCommitmentKeyUnchecked (Some (f101 1)) (Some (f101 5)) = Ok key.
Proof. eexists. vm_compute. reflexivity. Qed.

Lemma Pedersen_Verify_opens_witness :
  ∃ key (M : MSP fp101) (V : Feldman.VerificationVector fp101), ∀ s,
    PedersenVSS.Verify key M (Some s) (Some V) = Err ErrDimension.
Proof.
  destruct ex_kw_msp as (M & _ & Hwf & Hm & Hn & _). destruct ex_key as [key Hkey].
  exists key, M, (vv_of (f101 <$> [7; 5; 3]%Z)).
  destruct (Pedersen_Verify_opens (f101 1) (f101 5) key M (vv_of (f101 <$> [7; 5; 3]%Z)) Hkey Hwf)
    as [Hd _]; [lia|unfold MSP.D; lia|done|done|].
  apply Hd. unfold MSP.D. rewrite Hn. done.
Defined.

Lemma ex_pedersen_deal :
  ∃ (key : PedCom.CommitmentKey fp101) (M : MSP fp101) shares (V : Feldman.VerificationVector fp101) p,
    PedCom.NewCommitmentKeyUnchecked (Some (f101 1)) (Some (f101 5)) = Ok key ∧ wf_msp M ∧
    m (matrix M) = 3 ∧ n (matrix M) = 2 ∧ Accepts M [9; 4]%N = true ∧
    PedersenVSS.Deal key M ex_sampler (Some (f101 7)) (Some 40%Z) = Ok (shares, V, p).
Proof.
  destruct ex_kw_msp as (M & HM & Hwf & Hm & Hn & Ha & _). clear Hm Hn Ha.
  vm_compute in HM. injection HM as <-.
  eexists _, _, _, _, _. split; [vm_compute; reflexivity|]. split; [exact Hwf|].
  split_and!; [vm_compute; reflexivity..].
Qed.

Lemma PedersenVSS_Deal_correct_witness :
  ∃ (key : PedCom.CommitmentKey fp101) (M : MSP fp101) shares (V : Feldman.VerificationVector fp101) p l,
    PedersenVSS.Deal key M ex_sampler (Some (f101 7)) (Some 40%Z) = Ok (shares, V, p) ∧
    PedersenVSS.ReconstructAndVerify key M (Some V) (Some <$> l) = Ok (f101 7).
Proof.
  destruct ex_pedersen_deal as (key & M & shares & V & p & Hkey & Hwf & Hm & Hn & Ha & E1).
  destruct (PedersenVSS_Deal_correct (f101 1) (f101 5) key M ex_sampler (f101 7) 40%Z shares V p Hkey Hwf)
    as (_ & _ & Hrec); [lia|unfold MSP.D; lia|done|].
  destruct (Hrec [9; 4]%N) as (l & _ & Hl); [by apply (bool_decide_unpack _)|done|].
  by exists key, M, shares, V, p, l.
Defined.

Lemma PedersenVSS_privacy_witness :
  ∃ (key : PedCom.CommitmentKey fp101) (M : MSP fp101) (f f' : list fp101 * list fp101 → list fp101 * list fp101),
    f (f' (f101 <$> [8; 5]%Z, f101 <$> [1; 2]%Z)) = (f101 <$> [8; 5]%Z, f101 <$> [1; 2]%Z).
Proof.
  destruct ex_kw_msp as (M & _ & Hwf & Hm & Hn & _ & _ & Hk & Ha & _). destruct ex_key as [key Hkey].
  destruct (PedersenVSS_privacy (f101 1) (f101 5) key M [9]%N (f101 7) (f101 8) Hkey Hwf)
    as (f & f' & _ & Hf'); [lia|unfold MSP.D; lia|done|done|].
  exists key, M, f, f'. apply Hf'; [by unfold MSP.D; rewrite Hn|by unfold MSP.D; rewrite Hn|done].
Defined.
