(* ===== verification/Fiat.v ===== *)
(** * Word-by-word field arithmetic (base/curves/*/impl/fiat_*.gen.go)

    The field arithmetic of the curves is straight-line code over 64-bit words
    in Montgomery form.  This file models the words and the [math/bits]
    operations the code uses, and holds the lemmas with which each field proves
    that its code is multiplication, addition, ... modulo its prime: the
    specification of one operation, the automation that runs straight-line
    code, and the invariant of Montgomery's reduction.  The class [FiatField]
    is what a generated field promises to its wrapper (file [FieldImpl]). *)

From Stdlib Require Import ZArith Lia.
From S2P Require Import Prelude.
Local Open Scope Z_scope.

Declare Scope word_scope.
Delimit Scope word_scope with word.

(** ** Words of 64 bits ([uint64], [math/bits]) *)

Definition W : Z := 0x10000000000000000.
Definition word (x : Z) : Prop := 0 <= x < W.

Definition Add64 (x y carry : Z) : Z * Z := ((x + y + carry) mod W, (x + y + carry) / W).
Definition Sub64 (x y borrow : Z) : Z * Z := ((x - y - borrow) mod W, - ((x - y - borrow) / W)).
Definition Mul64 (x y : Z) : Z * Z := (x * y / W, (x * y) mod W).

(** [+], [*], [^], [<<] and [>>] on [uint64], and the conversion to [uint8]. *)
Definition add64 (x y : Z) : Z := (x + y) mod W.
Definition mul64 (x y : Z) : Z := (x * y) mod W.
Definition not64 (x : Z) : Z := W - 1 - x.
Definition shl64 (x n : Z) : Z := Z.shiftl x n mod W.
Definition shr64 (x n : Z) : Z := Z.shiftr x n.
Definition uint8 (x : Z) : Z := x mod 256.

(** An array of limbs, least significant first: [eval z = z[0] + z[1] << 64 + ...]. *)
Definition limbs := list Z.
Notation "a .[ i ]" := (nth i%nat a 0) (at level 2, left associativity, format "a .[ i ]") : word_scope.
Definition eval (l : limbs) : Z := foldr (λ x acc, x + W * acc) 0 l.
Definition bytes_eval (l : list Z) : Z := foldr (λ x acc, x + 256 * acc) 0 l.
Definition byte (x : Z) : Prop := 0 <= x < 256.

(** The limbs of a reduced element of a field of [n] limbs and modulus [m]. *)
Definition words (n : nat) (l : limbs) : Prop := length l = n ∧ Forall word l.
Definition valid (n : nat) (m : Z) (l : limbs) : Prop := words n l ∧ eval l < m.

(** ** The operations on words in range *)

Lemma W_pos : 0 < W. Proof. done. Qed.
Lemma W_ne : W ≠ 0. Proof. done. Qed.
#[global] Opaque W.
Lemma W_val : W = 0x10000000000000000. Proof. Transparent W. done. Qed.
#[global] Opaque W.

Ltac word_lia := unfold word, byte in *; pose proof W_val; lia.

Lemma mod_W x : 0 <= x mod W < W.
Proof. apply Z.mod_pos_bound, W_pos. Qed.

(** Each operation is an equation between the words it takes and yields. *)
Lemma Mul64_spec x y : word x → word y →
  ∃ h l, Mul64 x y = (h, l) ∧ l = x * y - W * h ∧ 0 <= h <= W - 2 ∧ h <= y ∧ word h ∧ word l.
Proof.
  unfold word, Mul64. intros Hx Hy. eexists _, _. split; [reflexivity|].
  pose proof (mod_W (x * y)). pose proof (Z.div_mod (x * y) W W_ne).
  assert (0 <= x * y / W) by (apply Z.div_pos; [nia|apply W_pos]).
  assert (x * y / W < W - 1) by (apply Z.div_lt_upper_bound; [apply W_pos|]; rewrite !W_val in *; nia).
  assert (x * y / W < y + 1) by (apply Z.div_lt_upper_bound; [apply W_pos|]; rewrite !W_val in *; nia).
  lia.
Qed.
Lemma Add64_spec x y c : word x → word y → 0 <= c <= 1 →
  ∃ s d, Add64 x y c = (s, d) ∧ s = x + y + c - W * d ∧ 0 <= d <= 1 ∧ word d ∧ word s.
Proof.
  unfold word, Add64. intros Hx Hy Hc. eexists _, _. split; [reflexivity|].
  pose proof (mod_W (x + y + c)). pose proof (Z.div_mod (x + y + c) W W_ne).
  assert (0 <= (x + y + c) / W) by (apply Z.div_pos; [lia|apply W_pos]).
  assert ((x + y + c) / W < 2) by (apply Z.div_lt_upper_bound; word_lia).
  word_lia.
Qed.
Lemma Sub64_spec x y c : word x → word y → 0 <= c <= 1 →
  ∃ s d, Sub64 x y c = (s, d) ∧ s = x - y - c + W * d ∧ 0 <= d <= 1 ∧ word d ∧ word s.
Proof.
  unfold word, Sub64. intros Hx Hy Hc. eexists _, _. split; [reflexivity|].
  pose proof (mod_W (x - y - c)). pose proof (Z.div_mod (x - y - c) W W_ne).
  assert (-2 < (x - y - c) / W) by (apply Z.lt_le_trans with (-1); [lia|]; apply Z.div_le_lower_bound; word_lia).
  assert ((x - y - c) / W < 1) by (apply Z.div_lt_upper_bound; word_lia).
  word_lia.
Qed.
Lemma add64_ok x y : 0 <= x + y < W → add64 x y = x + y.
Proof. apply Z.mod_small. Qed.
Lemma mul64_ok x y : 0 <= x * y < W → mul64 x y = x * y.
Proof. apply Z.mod_small. Qed.

(** The single-word conditional move every field repeats. *)
Lemma cmov_ok c x y : 0 <= c <= 1 → word x → word y →
  Z.lor (Z.land (mul64 c 0xffffffffffffffff) y) (Z.land (not64 (mul64 c 0xffffffffffffffff)) x)
  = if c =? 0 then x else y.
Proof.
  intros Hc Hx Hy. assert (∀ z, word z → Z.land 0xffffffffffffffff z = z) as Hl.
  { intros z Hz. change 0xffffffffffffffff with (Z.ones 64). rewrite Z.land_comm, Z.land_ones by done.
    apply Z.mod_small. unfold word in Hz. rewrite W_val in Hz. exact Hz. }
  assert (c = 0 ∨ c = 1) as [-> | ->] by lia; unfold mul64, not64; rewrite W_val; cbn.
  - rewrite Hl by done. done.
  - rewrite Z.lor_0_r. by apply Hl.
Qed.

(** ** Running straight-line code *)

(** Side conditions: bounds only, the equations of the results play no part. *)
Ltac syntactic_assumption := match goal with H : ?P |- ?Q => constr_eq P Q; exact H end.
Ltac word_side := first [syntactic_assumption |
  repeat match goal with E : _ = _ - W * _ |- _ => clear E | E : _ = _ + W * _ |- _ => clear E end;
  unfold word in *; rewrite ?W_val in *; lia].
Ltac stepped t := lazymatch t with context [add64 _ _] => fail | _ => idtac end.
(** One operation of the code whose operands are known to be in range is
    replaced by its results, which satisfy its equation. *)
Ltac word_step :=
  match goal with
  | |- context [Mul64 ?x ?y] =>
      stepped x; stepped y;
      let h := fresh "h" in let l := fresh "l" in let E := fresh in let Eq := fresh "Eq" in
      destruct (Mul64_spec x y) as (h & l & E & Eq & ? & ? & ? & ?); [word_side|word_side|];
      rewrite E; clear E; cbv iota
  | |- context [Add64 ?x ?y ?c] =>
      stepped x; stepped y;
      let s := fresh "s" in let d := fresh "d" in let E := fresh in let Eq := fresh "Eq" in
      destruct (Add64_spec x y c) as (s & d & E & Eq & ? & ? & ?); [word_side|word_side|word_side|];
      rewrite E; clear E; cbv iota
  | |- context [Sub64 ?x ?y ?c] =>
      stepped x; stepped y;
      let s := fresh "s" in let d := fresh "d" in let E := fresh in let Eq := fresh "Eq" in
      destruct (Sub64_spec x y c) as (s & d & E & Eq & ? & ? & ?); [word_side|word_side|word_side|];
      rewrite E; clear E; cbv iota
  | |- context [add64 ?x ?y] =>
      stepped x; stepped y;
      let z := fresh "z" in let E := fresh in let Eq := fresh "Eq" in
      assert (E : add64 x y = x + y) by (apply add64_ok; word_side);
      rewrite E; clear E; remember (x + y) as z eqn:Eq; assert (word z) by word_side
  end.

(** ** Montgomery reduction *)

(** The low limb of a row vanishes when [m0 * m' = -1] modulo the word. *)
Lemma low_limb x m0 m' h l h2 l2 s d :
  l = x * m' - W * h → l2 = l * m0 - W * h2 → s = x + l2 + 0 - W * d → word s →
  (m0 * m' + 1) mod W = 0 → s = 0.
Proof.
  intros -> -> E Hs Hm. apply Z.mod_divide in Hm as [k Hk]; [|apply W_ne].
  set (n := x * k - h * m0 - h2 - d).
  assert (s = W * n) as E2.
  { rewrite E. unfold n. transitivity (x * (m0 * m' + 1) - W * (h * m0 + h2 + d)); [ring|]. rewrite Hk. ring. }
  clearbody n. word_lia.
Qed.

(** After [k] rows the accumulator [T] holds [(A * B + Q * m) / W^k]. *)
Definition redc (m : Z) (k : nat) (T A B : Z) : Prop :=
  ∃ Q, 0 <= Q < W ^ Z.of_nat k ∧ W ^ Z.of_nat k * T = A * B + Q * m.

Lemma redc_0 m B : redc m 0 0 0 B.
Proof. exists 0. cbn. lia. Qed.
Lemma pow_W_succ k : W ^ Z.of_nat (S k) = W * W ^ Z.of_nat k.
Proof. rewrite Nat2Z.inj_succ, Z.pow_succ_r by lia. done. Qed.
Lemma pow_W_pos k : 0 < W ^ Z.of_nat k.
Proof. apply Z.pow_pos_nonneg; [apply W_pos|lia]. Qed.

Lemma redc_step m k T A B a q T' :
  redc m k T A B → 0 <= q < W → W * T' = T + a * B + q * m →
  redc m (S k) T' (A + W ^ Z.of_nat k * a) B.
Proof.
  intros (Q & HQ & E) Hq E'. exists (Q + W ^ Z.of_nat k * q).
  pose proof (pow_W_pos k). rewrite pow_W_succ. split; [nia|].
  transitivity (W ^ Z.of_nat k * (W * T')); [ring|]. rewrite E'.
  transitivity (W ^ Z.of_nat k * T + W ^ Z.of_nat k * (a * B + q * m)); [ring|]. rewrite E. ring.
Qed.
Lemma redc_bound m k T A B :
  redc m k T A B → 0 < m → 0 <= A < W ^ Z.of_nat k → 0 <= B <= m → 0 <= T < 2 * m.
Proof.
  intros (Q & HQ & E) Hm HA HB. pose proof (pow_W_pos k) as HW.
  set (R := W ^ Z.of_nat k) in *. clearbody R.
  assert (A * B <= R * m) by nia. assert (Q * m < R * m) by nia. nia.
Qed.
Lemma redc_mod m k T A B : redc m k T A B → (T * W ^ Z.of_nat k) mod m = (A * B) mod m.
Proof. intros (Q & _ & E). rewrite (Z.mul_comm T), E. by rewrite Z_mod_plus_full. Qed.

(** The equation of one row: eliminate every sum but the quotient and the
    vanishing low limb, then compare as polynomials. *)
Ltac row_equation :=
  match goal with
  | E1 : ?l = ?x * ?m' - W * _, E2 : ?l2 = ?l * ?m0 - W * _,
    E3 : ?s = ?x + ?l2 + 0 - W * _, Hs : word ?s |- _ =>
      assert (s = 0) as Hlow
        by (apply (low_limb _ _ _ _ _ _ _ _ _ E1 E2 E3 Hs); rewrite W_val; vm_compute; reflexivity);
      exists l; clear E1; split; [assumption|];
      match goal with |- ?A = ?B => transitivity (B - s); [clear Hlow|rewrite Hlow; ring] end
  | E2 : ?l2 = ?x * ?m0 - W * ?h2, E3 : ?s = ?x + ?l2 + 0 - W * ?d, Hs : word ?s |- _ =>
      assert (s = 0) as Hlow
        by (apply (low_limb x m0 1 0 x h2 l2 s d); [ring|exact E2|exact E3|exact Hs|rewrite W_val; vm_compute; reflexivity]);
      exists x; split; [assumption|];
      match goal with |- ?A = ?B => transitivity (B - s); [clear Hlow|rewrite Hlow; ring] end
  end;
  repeat match goal with H : word _ |- _ => clear H | H : _ <= _ |- _ => clear H | H : _ <= _ <= _ |- _ => clear H end;
  subst; rewrite W_val; ring.

(** ** Limbs *)

Lemma eval_bound n l : words n l → 0 <= eval l < W ^ Z.of_nat n.
Proof.
  intros [<- Hl]. induction Hl as [|x l Hx Hl IH]; [cbn; lia|].
  change (eval (x :: l)) with (x + W * eval l).
  change (length (x :: l)) with (S (length l)). rewrite pow_W_succ. unfold word in Hx. nia.
Qed.
Lemma eval_inj n l k : words n l → words n k → eval l = eval k → l = k.
Proof.
  intros [Hn Hl] [Hn' Hk]. rewrite <-Hn in Hn'. clear Hn n. revert k Hn' Hk.
  induction Hl as [|x l Hx Hl IH]; intros [|y k] Hn Hk E; try done.
  apply Forall_cons in Hk as [Hy Hk].
  change (x + W * eval l = y + W * eval k) in E. unfold word in *.
  assert (eval l = eval k) by nia. f_equal; [nia|]. apply IH; [cbn in Hn; congruence|done..].
Qed.

(** One conditional subtraction reduces a number below twice the modulus. *)
Lemma reduce_once n m T u top s stop d :
  0 < m < W ^ Z.of_nat n → words n u → words n s → word top → word stop → 0 <= d <= 1 →
  T = eval u + W ^ Z.of_nat n * top → 0 <= T < 2 * m →
  eval s + W ^ Z.of_nat n * stop = T - m + W ^ Z.of_nat (S n) * d →
  valid n m (if d =? 0 then s else u) ∧ eval (if d =? 0 then s else u) = T mod m.
Proof.
  intros Hm Hu Hs Htop Hstop Hd ET HT E. rewrite pow_W_succ in E.
  pose proof (eval_bound n u Hu). pose proof (eval_bound n s Hs). pose proof (pow_W_pos n).
  set (R := W ^ Z.of_nat n) in *. clearbody R. pose proof W_val. unfold word in *.
  assert (d = 0 ∨ d = 1) as [-> | ->] by lia; cbn [Z.eqb].
  - assert (stop = 0) by nia. assert (eval s = T - m) as Es by nia.
    assert (T mod m = T - m) as -> by (symmetry; apply Z.mod_unique with 1; lia).
    split; [split; [done|lia]|done].
  - assert (T < m) by nia. assert (top = 0) by nia. assert (eval u = T) as Eu by nia.
    rewrite Z.mod_small by lia. split; [split; [done|lia]|done].
Qed.

(** Adding the modulus back after a borrow. *)
Lemma add_back n m A B x d out c :
  0 < m < W ^ Z.of_nat n → 0 <= A < m → 0 <= B < m → words n x → words n out →
  0 <= d <= 1 → 0 <= c <= 1 → eval x = A - B + W ^ Z.of_nat n * d →
  eval out + W ^ Z.of_nat n * c = eval x + d * m →
  valid n m out ∧ eval out = (A - B) mod m.
Proof.
  intros Hm HA HB Hx Ho Hd Hc Ex Eo. pose proof (eval_bound n x Hx). pose proof (eval_bound n out Ho).
  set (R := W ^ Z.of_nat n) in *. clearbody R.
  assert (d = 0 ∨ d = 1) as [-> | ->] by lia; assert (c = 0 ∨ c = 1) as [-> | ->] by lia; try nia.
  - assert (eval out = A - B) as -> by lia. rewrite Z.mod_small by lia. split; [split; [done|lia]|done].
  - assert (eval out = A - B + m) as Eo' by lia.
    assert ((A - B) mod m = A - B + m) as -> by (symmetry; apply Z.mod_unique with (-1); lia).
    split; [split; [done|lia]|done].
Qed.

(** ** What a generated field provides *)

(** The result of a Montgomery product of values [A] and [B]. *)
Definition mont_product (n : nat) (m A B : Z) (out : limbs) : Prop :=
  valid n m out ∧ (eval out * W ^ Z.of_nat n) mod m = (A * B) mod m.

Lemma mont_product_intro n m k T A B out :
  k = n → redc m k T A B → valid n m out ∧ eval out = T mod m → mont_product n m A B out.
Proof.
  intros -> HR [Hv E]. split; [done|]. rewrite E, Zmult_mod_idemp_l. by apply redc_mod.
Qed.

(** ** Bytes *)

Lemma byte_split x : word x → x = Z.land (uint8 x) 255 + 256 * shr64 x 8.
Proof.
  intros Hx. unfold uint8, shr64. change 255 with (Z.ones 8).
  rewrite Z.land_ones, Z.mod_mod, Z.shiftr_div_pow2 by done. change (2 ^ 8) with 256.
  pose proof (Z.div_mod x 256). lia.
Qed.
Lemma byte_land x : byte (Z.land (uint8 x) 255).
Proof.
  unfold byte, uint8. change 255 with (Z.ones 8). rewrite Z.land_ones by done.
  apply Z.mod_pos_bound. done.
Qed.
Lemma shr_bound x b : 0 <= x < 256 * b → 0 <= shr64 x 8 < b.
Proof.
  intros Hx. unfold shr64. rewrite Z.shiftr_div_pow2 by done. change (2 ^ 8) with 256.
  split; [apply Z.div_pos; lia|apply Z.div_lt_upper_bound; lia].
Qed.

(** The eight bytes of a word, as every [ToBytes] computes them. *)
Definition word_bytes (x : Z) : list Z :=
  let low x := Z.land (uint8 x) 0xff in
  let x1 := shr64 x 8 in let x2 := shr64 x1 8 in let x3 := shr64 x2 8 in let x4 := shr64 x3 8 in
  let x5 := shr64 x4 8 in let x6 := shr64 x5 8 in
  [low x; low x1; low x2; low x3; low x4; low x5; low x6; uint8 (shr64 x6 8)].
(** The word of eight bytes, as every [FromBytes] computes it. *)
Definition bytes_word (b : list Z) : Z :=
  match b with
  | [b0; b1; b2; b3; b4; b5; b6; b7] =>
      add64 (shl64 b7 56) (add64 (shl64 b6 48) (add64 (shl64 b5 40) (add64 (shl64 b4 32)
        (add64 (shl64 b3 24) (add64 (shl64 b2 16) (add64 (shl64 b1 8) b0))))))
  | _ => 0
  end.

Lemma word_bytes_ok x : word x → Forall byte (word_bytes x) ∧ bytes_eval (word_bytes x) = x.
Proof.
  intros Hx. assert (0 <= x < 256 * (256 * (256 * (256 * (256 * (256 * (256 * 256))))))) as H0
    by (unfold word in Hx; rewrite W_val in Hx; lia).
  unfold word_bytes. cbv zeta.
  pose proof (byte_split x Hx) as E0. apply shr_bound in H0 as H1. set (x1 := shr64 x 8) in *.
  assert (∀ y b, 0 <= y < b → b <= 256 * 256 * 256 * 256 * 256 * 256 * 256 → word y) as Hw
    by (intros; unfold word; rewrite W_val; lia).
  pose proof (byte_split x1 (Hw _ _ H1 ltac:(lia))) as E1. apply shr_bound in H1 as H2. set (x2 := shr64 x1 8) in *.
  pose proof (byte_split x2 (Hw _ _ H2 ltac:(lia))) as E2. apply shr_bound in H2 as H3. set (x3 := shr64 x2 8) in *.
  pose proof (byte_split x3 (Hw _ _ H3 ltac:(lia))) as E3. apply shr_bound in H3 as H4. set (x4 := shr64 x3 8) in *.
  pose proof (byte_split x4 (Hw _ _ H4 ltac:(lia))) as E4. apply shr_bound in H4 as H5. set (x5 := shr64 x4 8) in *.
  pose proof (byte_split x5 (Hw _ _ H5 ltac:(lia))) as E5. apply shr_bound in H5 as H6. set (x6 := shr64 x5 8) in *.
  pose proof (byte_split x6 (Hw _ _ H6 ltac:(lia))) as E6. apply shr_bound in H6 as H7. set (x7 := shr64 x6 8) in *.
  assert (uint8 x7 = x7) as -> by (apply Z.mod_small; done).
  split; [|cbn [bytes_eval foldr]; lia].
  repeat constructor; try apply byte_land; destruct H7; done.
Qed.
Lemma bytes_word_ok b : length b = 8%nat → Forall byte b → word (bytes_word b) ∧ bytes_word b = bytes_eval b.
Proof.
  intros Hl Hb. do 9 (destruct b as [|? b]; try done).
  rewrite !Forall_cons in Hb. destruct Hb as (? & ? & ? & ? & ? & ? & ? & ? & _).
  unfold byte, bytes_word, bytes_eval, shl64 in *. cbn [foldr].
  rewrite !Z.shiftl_mul_pow2 by done. cbn [Z.pow Z.pow_pos Pos.iter Z.mul Pos.mul].
  rewrite !(Z.mod_small (_ * _)) by (rewrite W_val; lia).
  repeat match goal with |- context [add64 ?x ?y] =>
    lazymatch y with context [add64] => fail | _ => rewrite (add64_ok x y) by (rewrite W_val; lia) end end.
  unfold word. rewrite W_val. lia.
Qed.

(** ** Proving a field's code *)

Lemma words_inv4 l : words 4 l → ∃ a b c d, l = [a; b; c; d] ∧ word a ∧ word b ∧ word c ∧ word d.
Proof.
  intros [Hl H]. do 5 (destruct l as [|? l]; try done). rewrite !Forall_cons in H. naive_solver.
Qed.
Lemma words_inv6 l : words 6 l → ∃ a b c d e f, l = [a; b; c; d; e; f] ∧
  word a ∧ word b ∧ word c ∧ word d ∧ word e ∧ word f.
Proof.
  intros [Hl H]. do 7 (destruct l as [|? l]; try done). rewrite !Forall_cons in H. naive_solver.
Qed.
Lemma words_inv5 l : words 5 l → ∃ a b c d e, l = [a; b; c; d; e] ∧ word a ∧ word b ∧ word c ∧ word d ∧ word e.
Proof.
  intros [Hl H]. do 6 (destruct l as [|? l]; try done). rewrite !Forall_cons in H. naive_solver.
Qed.
Lemma words_inv7 l : words 7 l → ∃ a b c d e f g, l = [a; b; c; d; e; f; g] ∧
  word a ∧ word b ∧ word c ∧ word d ∧ word e ∧ word f ∧ word g.
Proof.
  intros [Hl H]. do 8 (destruct l as [|? l]; try done). rewrite !Forall_cons in H. naive_solver.
Qed.
Lemma eval_rows4 a b c d :
  0 + W ^ Z.of_nat 0 * a + W ^ Z.of_nat 1 * b + W ^ Z.of_nat 2 * c + W ^ Z.of_nat 3 * d = eval [a; b; c; d].
Proof. rewrite !pow_W_succ. cbn [eval foldr Z.of_nat]. rewrite Z.pow_0_r. ring. Qed.
Lemma eval_rows6 a b c d e f :
  0 + W ^ Z.of_nat 0 * a + W ^ Z.of_nat 1 * b + W ^ Z.of_nat 2 * c + W ^ Z.of_nat 3 * d
    + W ^ Z.of_nat 4 * e + W ^ Z.of_nat 5 * f = eval [a; b; c; d; e; f].
Proof. rewrite !pow_W_succ. cbn [eval foldr Z.of_nat]. rewrite Z.pow_0_r. ring. Qed.
Lemma words_nil : words 0 [].
Proof. done. Qed.
Lemma words_cons n x l : word x → words n l → words (S n) (x :: l).
Proof. intros Hx [<- Hl]. split; [done|]. by constructor. Qed.

Ltac words_list := repeat (apply words_cons; [word_side|]); exact words_nil.
Ltac limb_equation :=
  rewrite ?pow_W_succ; cbn [eval foldr Z.of_nat]; rewrite ?Z.pow_0_r;
  repeat match goal with H : word _ |- _ => clear H | H : _ <= _ |- _ => clear H
    | H : _ <= _ <= _ |- _ => clear H | H : _ <= _ < _ |- _ => clear H end;
  subst; rewrite ?W_val; ring.

(** A row of Montgomery's product. *)
Ltac row_ok row modulus :=
  intros; unfold row; cbn [nth]; cbv zeta; repeat word_step;
  repeat (split; [word_side|]); cbn [eval foldr]; unfold modulus; row_equation.

Tactic Notation "run_row" constr(L) "into" ident(H) :=
  pose proof L as H; repeat specialize (H ltac:(assumption)).

Ltac ite_left l := lazymatch l with
  | nil => constr:(@nil Z)
  | cons (if _ then ?x else _) ?t => let r := ite_left t in constr:(@cons Z x r) end.
Ltac ite_right l := lazymatch l with
  | nil => constr:(@nil Z)
  | cons (if _ then _ else ?x) ?t => let r := ite_right t in constr:(@cons Z x r) end.
Ltac last_of l := lazymatch l with cons ?x nil => x | cons _ ?t => last_of t end.

(** The final conditional subtraction of a result [eval l < 2 * m]. *)
Ltac reduce_final cmov_ok modulus :=
  repeat match goal with H : redc _ _ _ _ _ |- _ => clear H | H : W * _ = _ |- _ => clear H end;
  repeat word_step; rewrite !cmov_ok by word_side;
  match goal with
  | HT : 0 <= eval ?lT < 2 * _, E : ?stop = _ - 0 - _ + W * ?d |- valid ?n ?m ?out ∧ _ =>
      let s := ite_left out in let u := ite_right out in let top := last_of lT in
      replace out with (if d =? 0 then s else u) by (destruct (d =? 0); reflexivity);
      apply (reduce_once n m (eval lT) u top s stop d);
      [rewrite W_val; split; vm_compute; reflexivity|words_list|words_list|word_side|word_side|assumption| |exact HT|];
      unfold modulus; clear HT; limb_equation
  end.

(** An addition followed by the conditional subtraction. *)
Ltac add_final cmov_ok modulus :=
  repeat word_step; rewrite !cmov_ok by word_side;
  match goal with
  | E : ?stop = ?top - 0 - _ + W * ?d |- valid ?n ?m ?out ∧ eval _ = ?X mod _ =>
      let s := ite_left out in let u := ite_right out in
      replace out with (if d =? 0 then s else u) by (destruct (d =? 0); reflexivity);
      apply (reduce_once n m X u top s stop d);
      [rewrite W_val; split; vm_compute; reflexivity|words_list|words_list|word_side|word_side|assumption
      |limb_equation|assumption|unfold modulus; limb_equation]
  end.

(** A subtraction, the mask of its borrow and the addition of the modulus. *)
Ltac eval_land := repeat match goal with |- context [Z.land ?a ?b] =>
  let r := eval vm_compute in (Z.land a b) in change (Z.land a b) with r end.
Ltac sub_final cmov_ok modulus x d :=
  match goal with
  | |- valid ?n ?m _ ∧ eval _ = (?A - ?B) mod _ =>
      assert (eval x = A - B + W ^ Z.of_nat n * d) as Hx by limb_equation;
      assert (words n x) as Hwx by words_list;
      rewrite !cmov_ok by word_side;
      assert (d = 0 ∨ d = 1) as Hd by lia;
      assert (∀ l c, words n l → 0 <= c <= 1 → eval l + W ^ Z.of_nat n * c = eval x + d * m →
        valid n m l ∧ eval l = (A - B) mod m) as Hfin
        by (intros out0 c0 Ho Hc; apply (add_back n m A B x d out0 c0); try assumption;
            rewrite W_val; split; vm_compute; reflexivity);
      destruct Hd; subst d; cbn [Z.eqb]; eval_land; repeat word_step;
      match goal with |- valid _ _ ?out ∧ _ =>
        let z := last_of out in
        match goal with E : z = _ - W * ?c |- _ => apply (Hfin out c) end end;
      [words_list|assumption|clear Hfin Hx; unfold modulus; limb_equation
      |words_list|assumption|clear Hfin Hx; unfold modulus; limb_equation]
  end.

Lemma word_ones x : word x → Z.land x (Z.ones 64) = x.
Proof. intros Hx. rewrite Z.land_ones by done. apply Z.mod_small. unfold word in Hx. rewrite W_val in Hx. done. Qed.
Lemma word_lor x y : word x → word y → word (Z.lor x y).
Proof.
  intros Hx Hy. rewrite <-(word_ones x Hx), <-(word_ones y Hy), <-Z.land_lor_distr_l, Z.land_ones by done.
  unfold word. rewrite W_val. apply Z.mod_pos_bound. done.
Qed.
Lemma eval_zero l : Forall word l → eval l = 0 ↔ Forall (λ x, x = 0) l.
Proof.
  intros H. induction H as [|x l Hx Hl IH]; [done|].
  rewrite Forall_cons, <-IH. change (eval (x :: l)) with (x + W * eval l).
  pose proof (eval_bound _ l (conj eq_refl Hl)). unfold word in Hx. nia.
Qed.

(** [ToBytes] and [FromBytes] of all fields. *)
Fixpoint le_words (n : nat) (b : list Z) : limbs :=
  match n with O => [] | S n => bytes_word (take 8 b) :: le_words n (drop 8 b) end.

Lemma bytes_eval_app l k : bytes_eval (l ++ k) = bytes_eval l + 256 ^ Z.of_nat (length l) * bytes_eval k.
Proof.
  induction l as [|x l IH]; [cbn [app length Z.of_nat]; rewrite Z.pow_0_r; cbn [bytes_eval foldr]; lia|].
  change (bytes_eval ((x :: l) ++ k)) with (x + 256 * bytes_eval (l ++ k)).
  change (bytes_eval (x :: l)) with (x + 256 * bytes_eval l).
  cbn [length]. rewrite IH, Nat2Z.inj_succ, Z.pow_succ_r by lia. ring.
Qed.
Lemma to_bytes_ok l : Forall word l →
  Forall byte (l ≫= word_bytes) ∧ length (l ≫= word_bytes) = (8 * length l)%nat ∧
  bytes_eval (l ≫= word_bytes) = eval l.
Proof.
  induction 1 as [|x l Hx Hl (IH1 & IH2 & IH3)]; [done|].
  change ((x :: l) ≫= word_bytes) with (word_bytes x ++ (l ≫= word_bytes)).
  destruct (word_bytes_ok x Hx) as [Hb He]. split_and!.
  - by apply Forall_app.
  - rewrite length_app, IH2. change (length (word_bytes x)) with 8%nat. cbn [length]. lia.
  - rewrite bytes_eval_app, He, IH3. change (256 ^ Z.of_nat (length (word_bytes x))) with 0x10000000000000000.
    by rewrite <-W_val.
Qed.
Lemma from_bytes_ok n b : length b = (8 * n)%nat → Forall byte b →
  words n (le_words n b) ∧ eval (le_words n b) = bytes_eval b.
Proof.
  revert b. induction n as [|n IH]; intros b Hl Hb.
  - destruct b; [done|cbn in Hl; lia].
  - assert (length (take 8 b) = 8%nat) as H8 by (rewrite length_take; lia).
    destruct (bytes_word_ok (take 8 b)) as [Hw He]; [done|by apply Forall_take|].
    destruct (IH (drop 8 b)) as [Hws Hes]; [rewrite length_drop; lia|by apply Forall_drop|].
    cbn [le_words]. split; [by apply words_cons|].
    change (eval (?x :: ?l)) with (x + W * eval l). rewrite He, Hes.
    transitivity (bytes_eval (take 8 b ++ drop 8 b)); [|by rewrite take_drop].
    rewrite bytes_eval_app, H8. change (256 ^ Z.of_nat 8) with 0x10000000000000000. by rewrite W_val.
Qed.

(** ** Two's complement and the halving step of the inversion *)

Definition twos (n : nat) (l : limbs) : Z :=
  if 2 * eval l <? W ^ Z.of_nat n then eval l else eval l - W ^ Z.of_nat n.
Definition signed64 (x : Z) : Z := if x <? 2 ^ 63 then x else x - W.

Definition sar_word (x y : Z) : Z := Z.lor (shr64 x 1) (Z.land (shl64 y 63) 0xffffffffffffffff).
Definition sar_top (x : Z) : Z := Z.lor (Z.land x 0x8000000000000000) (shr64 x 1).
(** The arithmetic right shift by one bit. *)
Fixpoint sar (l : limbs) : limbs :=
  match l with
  | [] => []
  | x :: l' => match l' with [] => [sar_top x] | y :: _ => sar_word x y :: sar l' end
  end.

Lemma land_disjoint x b : 0 <= x < 2 ^ 63 → Z.land x (b * 2 ^ 63) = 0.
Proof.
  intros Hx. assert (Z.land x (Z.ones 63) = x) as <- by (rewrite Z.land_ones by done; by apply Z.mod_small).
  rewrite <-Z.land_assoc, (Z.land_comm (Z.ones 63)), Z.land_ones, Z.mod_mul by done. apply Z.land_0_r.
Qed.
Lemma lor_disjoint x b : 0 <= x < 2 ^ 63 → Z.lor x (b * 2 ^ 63) = x + b * 2 ^ 63.
Proof. intros Hx. rewrite <-Z.add_lor_land, land_disjoint by done. lia. Qed.
Lemma sar_word_ok x y : word x → word y →
  sar_word x y = x / 2 + (y mod 2) * 2 ^ 63.
Proof.
  unfold word. intros Hx Hy. unfold sar_word, shr64, shl64.
  rewrite Z.shiftr_div_pow2, Z.shiftl_mul_pow2 by done. change (2 ^ 1) with 2.
  assert ((y * 2 ^ 63) mod W = (y mod 2) * 2 ^ 63) as ->.
  { rewrite W_val. change 0x10000000000000000 with (2 * 2 ^ 63). by rewrite Zmult_mod_distr_r. }
  pose proof (Z.mod_pos_bound y 2 eq_refl). change 0xffffffffffffffff with (Z.ones 64).
  rewrite word_ones by word_lia. rewrite lor_disjoint; [done|].
  rewrite W_val in Hx. split; [apply Z.div_pos; lia|apply Z.div_lt_upper_bound; lia].
Qed.
Lemma sar_top_ok x : word x → sar_top x = x / 2 + (x / 2 ^ 63) * 2 ^ 63.
Proof.
  unfold word. intros Hx. rewrite W_val in Hx. unfold sar_top, shr64. rewrite Z.lor_comm, Z.shiftr_div_pow2 by done.
  change (2 ^ 1) with 2.
  assert (Z.land x 0x8000000000000000 = (x / 2 ^ 63) * 2 ^ 63) as ->.
  { change 0x8000000000000000 with (1 * 2 ^ 63). destruct (decide (x < 2 ^ 63)).
    - by rewrite land_disjoint, Z.div_small by lia.
    - replace x with ((x - 2 ^ 63) + 1 * 2 ^ 63) at 1 by lia.
      rewrite <-lor_disjoint, Z.land_lor_distr_l, land_disjoint, Z.land_diag by lia.
      assert (x / 2 ^ 63 = 1) as -> by (symmetry; apply Z.div_unique with (x - 2 ^ 63); lia). done. }
  rewrite lor_disjoint; [done|]. split; [apply Z.div_pos; lia|apply Z.div_lt_upper_bound; lia].
Qed.

Lemma half_W k : (W * k) / 2 = 2 ^ 63 * k.
Proof. rewrite W_val. replace (0x10000000000000000 * k) with (2 ^ 63 * k * 2) by (change (2 ^ 63) with 0x8000000000000000; lia). by rewrite Z.div_mul. Qed.
Lemma eval_sar l top : Forall word l → word top →
  words (S (length l)) (sar (l ++ [top])) ∧
  eval (sar (l ++ [top])) = eval (l ++ [top]) / 2 + (top / 2 ^ 63) * (2 ^ 63 * W ^ Z.of_nat (length l)).
Proof.
  intros Hl Ht. assert (∀ y, word y → 0 <= y / 2 < 2 ^ 63 ∧ 0 <= y mod 2 <= 1 ∧ 0 <= y / 2 ^ 63 <= 1) as Hb.
  { unfold word. rewrite W_val. intros y Hy. pose proof (Z.mod_pos_bound y 2 eq_refl).
    split_and!; try lia; try (apply Z.div_pos; lia); try (apply Z.div_lt_upper_bound; lia).
    apply Z.lt_succ_r, Z.div_lt_upper_bound; lia. }
  assert (W = 2 * 2 ^ 63) as HW by apply W_val.
  induction Hl as [|x l Hx Hl IH].
  - change (sar ([] ++ [top])) with [sar_top top]. rewrite sar_top_ok by done.
    change (eval ([] ++ [top])) with (top + W * 0). change (eval [?y]) with (y + W * 0).
    rewrite !Z.mul_0_r, !Z.add_0_r. cbn [length Z.of_nat]. rewrite Z.pow_0_r, Z.mul_1_r.
    split; [|done]. apply words_cons; [|done]. pose proof (Hb top Ht). unfold word. nia.
  - destruct IH as [IHw IHe].
    assert (∃ y l', l ++ [top] = y :: l' ∧ word y) as (y & l' & El & Hy).
    { destruct Hl; cbn; eauto. }
    change ((x :: l) ++ [top]) with (x :: (l ++ [top])).
    assert (sar (x :: l ++ [top]) = sar_word x y :: sar (l ++ [top])) as -> by (rewrite El; done).
    rewrite sar_word_ok by done. pose proof (Hb x Hx). pose proof (Hb y Hy). split.
    { apply words_cons; [unfold word; nia|done]. }
    change (eval (?a :: ?k)) with (a + W * eval k). rewrite IHe.
    assert (eval (l ++ [top]) mod 2 = y mod 2) as Ep.
    { rewrite El. change (eval (y :: l')) with (y + W * eval l').
      rewrite HW. replace (y + 2 * 2 ^ 63 * eval l') with (y + (2 ^ 63 * eval l') * 2) by ring. apply Z_mod_plus_full. }
    pose proof (Z.div_mod (eval (l ++ [top])) 2 ltac:(done)) as Ed. rewrite Ep in Ed.
    cbn [length]. rewrite pow_W_succ.
    set (E := eval (l ++ [top])) in *. set (R := W ^ Z.of_nat (length l)) in *. clearbody E R.
    assert ((x + W * E) / 2 = x / 2 + 2 ^ 63 * E) as ->.
    { rewrite HW. replace (x + 2 * 2 ^ 63 * E) with (x + (2 ^ 63 * E) * 2) by ring. by rewrite Z.div_add. }
    rewrite HW. nia.
Qed.

Lemma twos_sar l top : Forall word l → word top →
  words (S (length l)) (sar (l ++ [top])) ∧
  twos (S (length l)) (sar (l ++ [top])) = twos (S (length l)) (l ++ [top]) / 2.
Proof.
  intros Hl Ht. destruct (eval_sar l top Hl Ht) as [Hw E]. split; [done|].
  pose proof (eval_bound _ l (conj eq_refl Hl)) as Hb.
  assert (eval (l ++ [top]) = eval l + W ^ Z.of_nat (length l) * top) as El.
  { clear. induction l as [|x l IH].
    - change (eval ([] ++ [top])) with (top + W * 0). change (eval []) with 0.
      cbn [length Z.of_nat]. rewrite Z.pow_0_r. lia.
    - change (eval ((x :: l) ++ [top])) with (x + W * eval (l ++ [top])).
      change (eval (x :: l)) with (x + W * eval l). rewrite IH. cbn [length]. rewrite pow_W_succ. ring. }
  unfold twos. rewrite E, pow_W_succ. pose proof (pow_W_pos (length l)).
  set (e := eval (l ++ [top])) in *. set (R := W ^ Z.of_nat (length l)) in *.
  assert (W = 2 * 2 ^ 63) as HW by apply W_val. rewrite HW in *.
  pose proof (Z.div_mod e 2 ltac:(done)). pose proof (Z.mod_pos_bound e 2 eq_refl).
  unfold word in Ht. rewrite HW in Ht. clearbody e R.
  destruct (decide (top < 2 ^ 63)).
  - assert (top / 2 ^ 63 = 0) as -> by (apply Z.div_small; lia).
    assert (e < 2 ^ 63 * R) by nia. rewrite Z.mul_0_l, Z.add_0_r.
    rewrite !(proj2 (Z.ltb_lt _ _)) by nia. done.
  - assert (top / 2 ^ 63 = 1) as -> by (symmetry; apply Z.div_unique with (top - 2 ^ 63); lia).
    assert (2 ^ 63 * R <= e) by nia. rewrite Z.mul_1_l.
    rewrite !(proj2 (Z.ltb_ge _ _)) by nia.
    replace (e - 2 * 2 ^ 63 * R) with (e + (- (2 ^ 63 * R)) * 2) by ring. rewrite Z.div_add by done. ring.
Qed.

Lemma twos_range n l : words n l → - W ^ Z.of_nat n <= 2 * twos n l < W ^ Z.of_nat n.
Proof.
  intros Hl. pose proof (eval_bound n l Hl). unfold twos.
  destruct (Z.ltb_spec (2 * eval l) (W ^ Z.of_nat n)); lia.
Qed.
Lemma twos_eval n l : ∃ k, eval l = twos n l + k * W ^ Z.of_nat n.
Proof. unfold twos. case_match; [exists 0|exists 1]; lia. Qed.
Lemma twos_unique n l z k : words n l → eval l = z + k * W ^ Z.of_nat n →
  - W ^ Z.of_nat n <= 2 * z < W ^ Z.of_nat n → twos n l = z.
Proof.
  intros Hl E Hz. pose proof (eval_bound n l Hl). unfold twos.
  set (R := W ^ Z.of_nat n) in *. clearbody R.
  destruct (Z.ltb_spec (2 * eval l) R).
  - assert (k = 0) by nia. lia.
  - assert (k = 1) by nia. lia.
Qed.

(** One step of the constant-time inversion on numbers (Bernstein-Yang). *)
Definition divstep (m : Z) (st : Z * Z * Z * Z * Z) : Z * Z * Z * Z * Z :=
  let '(d, f, g, v, r) := st in
  if (0 <? d) && Z.odd g
  then (1 - d, g, (g - f) / 2, (2 * r) mod m, (r - v) mod m)
  else (1 + d, f, (g + (g mod 2) * f) / 2, (2 * v) mod m, (r + (g mod 2) * v) mod m).

(** What the five arguments of [Divstep] represent. *)
Definition divstate : Type := Z * limbs * limbs * limbs * limbs.
Definition represents (n : nat) (m : Z) (ws : divstate) (st : Z * Z * Z * Z * Z) : Prop :=
  let '(dw, F, G, V, R) := ws in let '(d, f, g, v, r) := st in
  word dw ∧ signed64 dw = d ∧ (words (S n) F ∧ twos (S n) F = f) ∧ (words (S n) G ∧ twos (S n) G = g) ∧
  (valid n m V ∧ eval V = v) ∧ (valid n m R ∧ eval R = r).
(** The range in which a step does not overflow. *)
Definition step_range (m : Z) (st : Z * Z * Z * Z * Z) : Prop :=
  let '(d, f, g, v, r) := st in
  - 2 ^ 62 < d < 2 ^ 62 ∧ Z.odd f = true ∧ - m <= f <= m ∧ - m <= g <= m.

(** The bit that selects the exchange of [f] and [g]. *)
Lemma swap_bit dw x c g0 : word dw → - 2 ^ 62 < signed64 dw < 2 ^ 62 →
  x = not64 dw + 1 + 0 - W * c → 0 <= c <= 1 → word x →
  Z.land (shr64 x 63) (Z.land g0 1) = Z.b2z ((0 <? signed64 dw) && Z.odd g0) ∧
  signed64 x = - signed64 dw.
Proof.
  intros Hd Hr Ex Hc Hx. unfold not64, word, signed64, shr64 in *.
  assert (W = 2 * 2 ^ 63) as HW by apply W_val.
  rewrite Z.shiftr_div_pow2 by done. change 1 with (Z.ones 1) at 1. rewrite (Z.land_ones g0 1) by done.
  change (2 ^ 1) with 2. rewrite Zmod_odd.
  destruct (Z.ltb_spec dw (2 ^ 63)).
  - destruct (decide (dw = 0)) as [->|].
    + assert (x = 0) as -> by lia. cbn. by destruct (Z.odd g0).
    + assert (c = 0) by lia. subst c. assert (x / 2 ^ 63 = 1) as -> by (symmetry; apply Z.div_unique with (x - 2 ^ 63); lia).
      rewrite (proj2 (Z.ltb_lt 0 dw)), (proj2 (Z.ltb_ge x _)) by lia. split; [by destruct (Z.odd g0)|lia].
  - assert (c = 0) by lia. subst c. assert (x / 2 ^ 63 = 0) as -> by (apply Z.div_small; lia).
    rewrite (proj2 (Z.ltb_ge 0 _)), (proj2 (Z.ltb_lt x _)) by lia. split; [done|lia].
Qed.
Lemma signed64_succ x y c : word x → word y → - 2 ^ 62 <= signed64 x <= 2 ^ 62 → 0 <= c <= 1 →
  y = x + 1 + 0 - W * c → signed64 y = 1 + signed64 x.
Proof.
  unfold signed64, word. intros Hx Hy Hr Hc Ey. assert (W = 2 * 2 ^ 63) as HW by apply W_val.
  destruct (Z.ltb_spec x (2 ^ 63)), (Z.ltb_spec y (2 ^ 63)); lia.
Qed.
Lemma eval_odd x l : Z.odd (eval (x :: l)) = Z.odd x.
Proof.
  change (eval (x :: l)) with (x + W * eval l). rewrite W_val.
  rewrite Z.odd_add, Z.odd_mul. cbn. by destruct (Z.odd x).
Qed.
Lemma twos_odd n x l : (0 < n)%nat → Z.odd (twos n (x :: l)) = Z.odd x.
Proof.
  intros Hn. unfold twos. destruct n as [|n]; [lia|]. rewrite pow_W_succ.
  case_match; [apply eval_odd|]. rewrite Z.odd_sub, eval_odd, Z.odd_mul, W_val. cbn. by destruct (Z.odd x).
Qed.

(** ** Proving the inversion step *)

Lemma land_1 x : Z.land x 1 = Z.b2z (Z.odd x).
Proof. change 1 with (Z.ones 1). rewrite Z.land_ones by done. change (2 ^ 1) with 2. rewrite Zmod_odd. by destruct (Z.odd x). Qed.
Lemma mod_odd x : x mod 2 = Z.b2z (Z.odd x).
Proof. rewrite Zmod_odd. by destruct (Z.odd x). Qed.
Lemma odd_shift n a b k : (0 < n)%nat → a = b + k * W ^ Z.of_nat n → Z.odd a = Z.odd b.
Proof.
  intros Hn ->. destruct n as [|n]; [lia|]. rewrite pow_W_succ, W_val, Z.odd_add, !Z.odd_mul. cbn.
  rewrite andb_false_r. by destruct (Z.odd b).
Qed.
(** The shifted sum represents half of the number [z]. *)
Lemma sar_half n l top z k : n = S (length l) → words n (l ++ [top]) →
  eval (l ++ [top]) = z + k * W ^ Z.of_nat n → - W ^ Z.of_nat n <= 2 * z < W ^ Z.of_nat n →
  words n (sar (l ++ [top])) ∧ twos n (sar (l ++ [top])) = z / 2.
Proof.
  intros -> Hw E Hz. pose proof (proj2 Hw) as Hf. apply Forall_app in Hf as [Hl [Ht _]%Forall_cons].
  destruct (twos_sar l top Hl Ht) as [Hs ->]. split; [done|]. f_equal. by eapply twos_unique.
Qed.

(** The outputs of the code represent the next state. *)
Lemma divstep_finish n m dw f g v r F G V R (b : bool) x6 o1 c F' Gx x l top cg Vx V' R' neg :
  represents n m (dw, F, G, V, R) (signed64 dw, f, g, v, r) → step_range m (signed64 dw, f, g, v, r) →
  0 < m → 4 * m < W ^ Z.of_nat (S n) → b = (0 <? signed64 dw) && Z.odd g →
  word x6 ∧ signed64 x6 = (if b then - signed64 dw else signed64 dw) → word o1 → 0 <= c <= 1 → o1 = x6 + 1 + 0 - W * c →
  F' = (if b then G else F) →
  (∃ k, eval Gx = (if b then - eval F else eval G) + k * W ^ Z.of_nat (S n)) → Z.odd x = Z.odd (eval Gx) →
  S n = S (length l) → words (S n) (l ++ [top]) →
  eval (l ++ [top]) + W ^ Z.of_nat (S n) * cg = eval Gx + (if Z.odd x then eval F' else 0) →
  Vx = (if b then R else V) → valid n m V' ∧ eval V' = (2 * eval Vx) mod m →
  eval neg = (- v) mod m →
  valid n m R' ∧ eval R' = ((if b then eval neg else eval R) + (if Z.odd x then eval Vx else 0)) mod m →
  represents n m (o1, F', sar (l ++ [top]), V', R') (divstep m (signed64 dw, f, g, v, r)).
Proof.
  intros (Hdw & _ & [HF Ef] & [HG Eg] & [HV Ev] & [HR Er]) (Hd & Hof & Hf & Hg) Hm HW Eb [Hx6 Ex6] Ho1 Hc Eo1 EF'
    [k Ek] Hx Hl Hlw El EVx HV' Eneg HR'.
  subst Vx. destruct (twos_eval (S n) F) as [kF EF]. destruct (twos_eval (S n) G) as [kG EG].
  rewrite Ef in EF. rewrite Eg in EG.
  assert (Z.odd (eval F) = true) as HoF by (rewrite (odd_shift (S n) _ _ _ ltac:(lia) EF); done).
  assert (Z.odd (eval G) = Z.odd g) as HoG by (by apply (odd_shift (S n) _ _ kG); [lia|]).
  rewrite (odd_shift (S n) _ _ k ltac:(lia) Ek) in Hx.
  assert (signed64 o1 = 1 + signed64 x6) as So1.
  { apply (signed64_succ x6 o1 c); try done. rewrite Ex6. destruct b; lia. }
  unfold divstep. rewrite <-Eb. destruct b.
  - rewrite Z.odd_opp, HoF in Hx. rewrite Hx in *. subst F'.
    destruct (sar_half (S n) l top (g - f) (k - kF + kG - cg) Hl Hlw) as [Hs Es]; [nia|lia|].
    rewrite Er in HV'. rewrite Eneg, Zplus_mod_idemp_l in HR'.
    replace (- v + eval R) with (r - v) in HR' by lia.
    split_and!; try done. rewrite So1, Ex6. lia. by destruct HV'. by destruct HV'. by destruct HR'. by destruct HR'.
  - rewrite HoG in Hx. rewrite mod_odd, <-Hx in *. subst F'.
    destruct (sar_half (S n) l top (g + Z.b2z (Z.odd x) * f) (k + kG + Z.b2z (Z.odd x) * kF - cg) Hl Hlw) as [Hs Es].
    { destruct (Z.odd x); cbn [Z.b2z]; nia. }
    { destruct (Z.odd x); cbn [Z.b2z]; lia. }
    assert (Z.b2z (Z.odd x) * v = if Z.odd x then v else 0) as Ev0 by (destruct (Z.odd x); cbn [Z.b2z]; lia).
    rewrite Ev in HV', HR'. rewrite <-Ev0 in HR'. rewrite Er in HR'.
    split_and!; try done. rewrite So1, Ex6. lia. by destruct HV'. by destruct HV'. by destruct HR'. by destruct HR'.
Qed.
Ltac use_words := repeat match goal with H : Forall word (_ :: _) |- _ => apply Forall_cons in H; destruct H end.
Ltac close_reduced modulus :=
  match goal with E : ?stop = ?top - 0 - _ + W * ?d |- valid ?n ?m (if ?d =? 0 then ?s else ?u) ∧ eval _ = ?X mod _ =>
    apply (reduce_once n m X u top s stop d);
      [rewrite W_val; split; vm_compute; reflexivity|words_list|words_list|word_side|word_side|assumption
      |limb_equation|assumption|unfold modulus; limb_equation] end.
Ltac negated_equation :=
  match goal with |- ∃ k, eval ?l = _ => let z := last_of l in
    match goal with E : z = _ - W * ?c |- _ => exists (1 - c); limb_equation end end.
Ltac divstep_select_ok f cmov_ok modulus :=
  intros Hdw HF HG HV HR Hd b;
  unfold f; cbn [nth]; cbv zeta;
  pose proof HF as HFw; pose proof HG as HGw; pose proof (proj1 HV) as HVw; pose proof (proj1 HR) as HRw;
  match type of HF with words ?n1 ?F => match type of HV with valid ?n ?m ?V => match type of HR with valid _ _ ?R =>
  match type of Hdw with word ?dw => match goal with |- context [Z.land (shr64 _ _) (Z.land ?g0 1)] =>
    assert (0 <= eval V + eval V < 2 * modulus) as HV2 by (pose proof (eval_bound _ _ HVw); destruct HV; lia);
    assert (0 <= eval R + eval R < 2 * modulus) as HR2 by (pose proof (eval_bound _ _ HRw); destruct HR; lia);
    apply proj2 in HFw, HGw, HVw, HRw; use_words;
    let x := fresh "neg" in let c := fresh "c" in let E := fresh in let Eq := fresh in
    destruct (Add64_spec (not64 dw) 1 0) as (x & c & E & Eq & ? & ? & ?); [unfold not64; word_side|word_side|done|];
    rewrite E; clear E; cbv iota;
    let Hn := fresh in
    destruct (swap_bit dw x c g0 Hdw Hd Eq ltac:(assumption) ltac:(assumption)) as [-> Hn]; fold b; clear Eq;
    unfold not64; clearbody b; destruct b; cbn [Z.b2z]; rewrite !cmov_ok by word_side; cbn [Z.eqb];
    repeat word_step; rewrite !cmov_ok by word_side; cbn [Z.eqb];
    (split; [reflexivity|]); (split; [split; [assumption|first [assumption|reflexivity]]|]);
    (split; [reflexivity|]); (split; [words_list|]);
    (split; [first [exists 0; rewrite Z.mul_0_l, Z.add_0_r; reflexivity|negated_equation]|]);
    (split; [reflexivity|]); (split; [words_list|]); (split; [words_list|]); (split; [assumption|]);
    rewrite <-Z.add_diag; close_reduced modulus
  end end end end end.
Ltac cmov_list f c xs ys := lazymatch xs with
  | nil => constr:(@nil Z)
  | cons ?x ?xs => lazymatch ys with cons ?y ?ys =>
      let r := cmov_list f c xs ys in constr:(@cons Z (f c x y) r) end end.
Ltac zeros_like l := lazymatch l with
  | nil => constr:(@nil Z) | cons _ ?t => let r := zeros_like t in constr:(@cons Z 0 r) end.
Ltac sar_arg l := lazymatch l with
  | cons (Z.lor (Z.land _ _) _) nil => constr:(@nil Z)
  | cons (Z.lor (shr64 ?x _) _) ?t => let r := sar_arg t in constr:(@cons Z x r) end.
Ltac sar_last l := lazymatch l with
  | cons (Z.lor (Z.land ?x _) _) nil => x
  | cons _ ?t => sar_last t end.
Ltac selected cmov_ok :=
  rewrite ?land_1;
  match goal with |- context [Z.b2z ?b] => destruct b end; cbn [Z.b2z];
  rewrite !cmov_ok by word_side; cbn [Z.eqb];
  (split; [words_list|first [reflexivity|cbn [eval foldr]; ring]]).

Ltac divstep_ok f cmov_ok modulus n dw g0 F G V dbl sub Rl neg :=
  remember ((0 <? signed64 dw) && Z.odd g0) as b eqn:Eb;
  cbn [nth];
  let x := lazymatch G with cons ?x _ => x end in
  let zl := let zs := zeros_like F in cmov_list f (Z.land x 1) zs F in
  let zv := let zs := zeros_like V in cmov_list f (Z.land x 1) zs V in
  let yl := cmov_list f (Z.b2z b) Rl neg in
  assert (words (S n) F) as HFw by (match goal with H : F = _ |- _ => rewrite H end; destruct b; assumption);
  assert (words n V) as HVw by (match goal with H : V = _ |- _ => rewrite H end; destruct b; match goal with H : valid _ _ ?l |- words _ ?l => exact (proj1 H) end);
  let split_words l := match goal with H : words _ l |- _ =>
    let H' := fresh in pose proof (proj2 H) as H'; use_words | _ => idtac end in
  split_words F; split_words V; split_words G; split_words dbl; split_words sub; split_words Rl; split_words neg;
  assert (words (S n) zl ∧ eval zl = if Z.odd x then eval F else 0) as HZ by selected cmov_ok;
  assert (words n zv ∧ eval zv = if Z.odd x then eval V else 0) as HZV by selected cmov_ok;
  assert (words n yl ∧ eval yl = if b then eval neg else eval Rl) as HY by selected cmov_ok;
  revert HZ HZV HY;
  repeat match goal with
    | |- context [f (Z.land ?x 1) ?p ?q] => generalize (f (Z.land x 1) p q); intros ?
    | |- context [f (Z.b2z ?b) ?p ?q] => generalize (f (Z.b2z b) p q); intros ? end;
  intros [HZw EZ] [HZVw EZV] [HYw EY];
  match type of HZw with words _ ?l => split_words l end;
  match type of HZVw with words _ ?l => split_words l end;
  match type of HYw with words _ ?l => split_words l end.
Lemma valid_bound n m l : valid n m l → 0 <= eval l < m.
Proof. intros [Hw Hl]. pose proof (eval_bound n l Hw). lia. Qed.
Lemma selected_bound m (b t : bool) x y z : 0 <= x < m → 0 <= y < m → 0 <= z < m →
  0 <= (if b then x else y) + (if t then z else 0) < 2 * m.
Proof. destruct b, t; lia. Qed.
Ltac divstep_final cmov_ok modulus dw g Hrep Hrange F V G neg HV HR Hneg Eneg Eb Eg :=
  repeat word_step; rewrite !cmov_ok by word_side;
  match type of Hrep with represents ?n _ (_, ?F0, ?G0, ?V0, ?R0) (_, ?f, ?g', ?v, ?r) =>
  match goal with |- represents _ _ (?o1, ?F', ?G', ?V', ?R') _ =>
    let l := sar_arg G' in let top := sar_last G' in
    let vs := ite_left V' in let vu := ite_right V' in let rs := ite_left R' in let ru := ite_right R' in
    let x := lazymatch G with cons ?x _ => x end in
    lazymatch goal with
    | Et : top = _ - W * ?cg, Eo : o1 = ?x6 + 1 + 0 - W * ?c, E : ?stop = ?top' - 0 - _ + W * ?dd,
      HVd : valid _ _ (if ?x48 =? 0 then vs else vu),
      EY : eval ?yl = if ?b then eval neg else eval _, EZV : eval ?zv = if _ then eval V else 0,
      EZ : eval ?zl = if _ then eval F else 0 |- _ =>
        change G' with (sar (l ++ [top]));
        replace V' with (if x48 =? 0 then vs else vu) by (destruct (x48 =? 0); reflexivity);
        replace R' with (if dd =? 0 then rs else ru) by (destruct (dd =? 0); reflexivity);
        assert (0 <= eval yl + eval zv < 2 * modulus) as HX by
          (rewrite EY, EZV; apply selected_bound; [exact (valid_bound _ _ _ Hneg)|exact (valid_bound _ _ _ HR)|];
           match goal with H : V = _ |- _ => rewrite H end; destruct b;
           [exact (valid_bound _ _ _ HR)|exact (valid_bound _ _ _ HV)]);
        apply (divstep_finish n modulus dw f g' v r F0 G0 V0 R0 b x6 o1 c F' G x l top cg V _ _ neg Hrep Hrange);
        [done|rewrite W_val; vm_compute; reflexivity|rewrite Eb, <-Eg, twos_odd by lia; reflexivity|split; assumption|assumption|assumption
        |exact Eo|assumption|eexists; eassumption|symmetry; apply eval_odd|reflexivity|cbn [app]; words_list
        |rewrite <-EZ; cbn [app]; limb_equation
        |assumption|split; assumption
        |exact Eneg
        |rewrite <-EY, <-EZV; close_reduced modulus]
    end end end.

(** ** The interface of a generated field *)

(** The functions of a [fiat_*.gen.go] file that the wrapper calls, with the
    constants of the wrapper ([FpLimbs], [FpBits]). *)
Record Fiat := mkFiat {
  FpLimbs : nat; FpBits : Z; fiatModulus : Z;
  fiatMul : limbs → limbs → limbs; fiatSquare : limbs → limbs;
  fiatAdd : limbs → limbs → limbs; fiatSub : limbs → limbs → limbs; fiatOpp : limbs → limbs;
  fiatFromMontgomery : limbs → limbs; fiatToMontgomery : limbs → limbs;
  fiatNonzero : limbs → Z; fiatSelectznz : Z → limbs → limbs → limbs;
  fiatToBytes : limbs → list Z; fiatFromBytes : list Z → limbs;
  fiatSetOne : limbs; fiatMsat : limbs; fiatDivstepPrecomp : limbs;
  fiatDivstep : Z → limbs → limbs → limbs → limbs → divstate }.

Definition FpDivSteps (F : Fiat) : Z := (49 * FpBits F + 57) / 17.

(** What they promise: each computes on the numbers its limbs represent and
    returns a reduced result. *)
Class FiatField (F : Fiat) : Prop := {
  fiat_limbs : (Z.of_nat (FpLimbs F) = (FpBits F - 1) / 64 + 1)%Z;
  fiat_bits : 0 < FpBits F < 2 ^ 32;
  fiat_modulus : 2 < fiatModulus F < W ^ Z.of_nat (FpLimbs F);
  fiat_odd : Z.odd (fiatModulus F) = true;
  fiat_mul a b : valid (FpLimbs F) (fiatModulus F) a → valid (FpLimbs F) (fiatModulus F) b →
    mont_product (FpLimbs F) (fiatModulus F) (eval a) (eval b) (fiatMul F a b);
  fiat_square a : valid (FpLimbs F) (fiatModulus F) a →
    mont_product (FpLimbs F) (fiatModulus F) (eval a) (eval a) (fiatSquare F a);
  fiat_add a b : valid (FpLimbs F) (fiatModulus F) a → valid (FpLimbs F) (fiatModulus F) b →
    valid (FpLimbs F) (fiatModulus F) (fiatAdd F a b) ∧
    eval (fiatAdd F a b) = (eval a + eval b) mod fiatModulus F;
  fiat_sub a b : valid (FpLimbs F) (fiatModulus F) a → valid (FpLimbs F) (fiatModulus F) b →
    valid (FpLimbs F) (fiatModulus F) (fiatSub F a b) ∧
    eval (fiatSub F a b) = (eval a - eval b) mod fiatModulus F;
  fiat_opp a : valid (FpLimbs F) (fiatModulus F) a →
    valid (FpLimbs F) (fiatModulus F) (fiatOpp F a) ∧ eval (fiatOpp F a) = (- eval a) mod fiatModulus F;
  fiat_from a : words (FpLimbs F) a →
    mont_product (FpLimbs F) (fiatModulus F) (eval a) 1 (fiatFromMontgomery F a);
  fiat_to a : words (FpLimbs F) a →
    mont_product (FpLimbs F) (fiatModulus F) (eval a)
      ((W ^ Z.of_nat (FpLimbs F)) ^ 2 mod fiatModulus F) (fiatToMontgomery F a);
  fiat_nonzero a : words (FpLimbs F) a →
    word (fiatNonzero F a) ∧ (fiatNonzero F a = 0 ↔ eval a = 0);
  fiat_selectznz c a b : 0 <= c <= 1 → words (FpLimbs F) a → words (FpLimbs F) b →
    fiatSelectznz F c a b = if c =? 0 then a else b;
  fiat_to_bytes a : words (FpLimbs F) a → fiatToBytes F a = a ≫= word_bytes;
  fiat_from_bytes b : length b = (8 * FpLimbs F)%nat → fiatFromBytes F b = le_words (FpLimbs F) b;
  fiat_one : valid (FpLimbs F) (fiatModulus F) (fiatSetOne F) ∧
    eval (fiatSetOne F) = W ^ Z.of_nat (FpLimbs F) mod fiatModulus F;
  fiat_msat : words (S (FpLimbs F)) (fiatMsat F) ∧ eval (fiatMsat F) = fiatModulus F;
  fiat_precomp : valid (FpLimbs F) (fiatModulus F) (fiatDivstepPrecomp F) ∧
    (eval (fiatDivstepPrecomp F) * 2 ^ FpDivSteps F) mod fiatModulus F
    = W ^ Z.of_nat (FpLimbs F) mod fiatModulus F;
  fiat_divstep dw f g v r st :
    represents (FpLimbs F) (fiatModulus F) (dw, f, g, v, r) st → step_range (fiatModulus F) st →
    represents (FpLimbs F) (fiatModulus F) (fiatDivstep F dw f g v r) (divstep (fiatModulus F) st) }.

(** A field's instance from the lemmas on its functions. *)
Ltac fiat_field fiat :=
  unfold fiat; constructor; unfold FpDivSteps;
  cbn [FpLimbs FpBits fiatModulus fiatMul fiatSquare fiatAdd fiatSub fiatOpp fiatFromMontgomery
    fiatToMontgomery fiatNonzero fiatSelectznz fiatToBytes fiatFromBytes fiatSetOne fiatMsat
    fiatDivstepPrecomp fiatDivstep].
Ltac fiat_precomp precomp :=
  split; [split; [words_list|]|]; cbn [eval foldr precomp]; rewrite ?W_val; vm_compute; reflexivity.
