(* ===== verification/K256Fq.v ===== *)
(** * The scalar field of secp256k1 (base/curves/k256/impl/fiat_fq.gen.go)

    The word-by-word Montgomery arithmetic of the field, translated statement
    by statement, and the proof that each operation computes on the numbers it
    represents.  The long functions are cut into their rows, which the
    function runs in order. *)

From Stdlib Require Import ZArith Lia.
From S2P Require Import Prelude Fiat.
Local Open Scope Z_scope.
Local Open Scope word_scope.

Module K256Fq.
Definition modulus : Z := 0xfffffffffffffffffffffffffffffffebaaedce6af48a03bbfd25e8cd0364141.

Definition fiatFqCmovznzU64 (arg1 arg2 arg3 : Z) : Z :=
  let x1 := mul64 arg1 0xffffffffffffffff in
  let x2 := Z.lor (Z.land x1 arg3) (Z.land (not64 x1) arg2) in
  x2.

(** The square of the Montgomery radix modulo the prime. *)
Definition R2 : Z := 0x9d671cd581c69bc5e697f5e45bcd07c6741496c20e7cf878896cf21467d7d140.

Definition fiatFqMul_row0 (arg2 : limbs) (x4 : Z) :=
  let '(x6, x5) := Mul64 x4 arg2.[3] in
  let '(x8, x7) := Mul64 x4 arg2.[2] in
  let '(x10, x9) := Mul64 x4 arg2.[1] in
  let '(x12, x11) := Mul64 x4 arg2.[0] in
  let '(x13, x14) := Add64 x12 x9 0 in
  let '(x15, x16) := Add64 x10 x7 x14 in
  let '(x17, x18) := Add64 x8 x5 x16 in
  let x19 := add64 x18 x6 in
  let '(_, x20) := Mul64 x11 0x4b0dff665588b13f in
  let '(x23, x22) := Mul64 x20 0xffffffffffffffff in
  let '(x25, x24) := Mul64 x20 0xfffffffffffffffe in
  let '(x27, x26) := Mul64 x20 0xbaaedce6af48a03b in
  let '(x29, x28) := Mul64 x20 0xbfd25e8cd0364141 in
  let '(x30, x31) := Add64 x29 x26 0 in
  let '(x32, x33) := Add64 x27 x24 x31 in
  let '(x34, x35) := Add64 x25 x22 x33 in
  let x36 := add64 x35 x23 in
  let '(_, x38) := Add64 x11 x28 0 in
  let '(x39, x40) := Add64 x13 x30 x38 in
  let '(x41, x42) := Add64 x15 x32 x40 in
  let '(x43, x44) := Add64 x17 x34 x42 in
  let '(x45, x46) := Add64 x19 x36 x44 in
  (x39, x41, x43, x45, x46).
Definition fiatFqMul_row1 (arg2 : limbs) (x1 x39 x41 x43 x45 x46 : Z) :=
  let '(x48, x47) := Mul64 x1 arg2.[3] in
  let '(x50, x49) := Mul64 x1 arg2.[2] in
  let '(x52, x51) := Mul64 x1 arg2.[1] in
  let '(x54, x53) := Mul64 x1 arg2.[0] in
  let '(x55, x56) := Add64 x54 x51 0 in
  let '(x57, x58) := Add64 x52 x49 x56 in
  let '(x59, x60) := Add64 x50 x47 x58 in
  let x61 := add64 x60 x48 in
  let '(x62, x63) := Add64 x39 x53 0 in
  let '(x64, x65) := Add64 x41 x55 x63 in
  let '(x66, x67) := Add64 x43 x57 x65 in
  let '(x68, x69) := Add64 x45 x59 x67 in
  let '(x70, x71) := Add64 x46 x61 x69 in
  let '(_, x72) := Mul64 x62 0x4b0dff665588b13f in
  let '(x75, x74) := Mul64 x72 0xffffffffffffffff in
  let '(x77, x76) := Mul64 x72 0xfffffffffffffffe in
  let '(x79, x78) := Mul64 x72 0xbaaedce6af48a03b in
  let '(x81, x80) := Mul64 x72 0xbfd25e8cd0364141 in
  let '(x82, x83) := Add64 x81 x78 0 in
  let '(x84, x85) := Add64 x79 x76 x83 in
  let '(x86, x87) := Add64 x77 x74 x85 in
  let x88 := add64 x87 x75 in
  let '(_, x90) := Add64 x62 x80 0 in
  let '(x91, x92) := Add64 x64 x82 x90 in
  let '(x93, x94) := Add64 x66 x84 x92 in
  let '(x95, x96) := Add64 x68 x86 x94 in
  let '(x97, x98) := Add64 x70 x88 x96 in
  let x99 := add64 x98 x71 in
  (x91, x93, x95, x97, x99).
Definition fiatFqMul_row2 (arg2 : limbs) (x2 x91 x93 x95 x97 x99 : Z) :=
  let '(x101, x100) := Mul64 x2 arg2.[3] in
  let '(x103, x102) := Mul64 x2 arg2.[2] in
  let '(x105, x104) := Mul64 x2 arg2.[1] in
  let '(x107, x106) := Mul64 x2 arg2.[0] in
  let '(x108, x109) := Add64 x107 x104 0 in
  let '(x110, x111) := Add64 x105 x102 x109 in
  let '(x112, x113) := Add64 x103 x100 x111 in
  let x114 := add64 x113 x101 in
  let '(x115, x116) := Add64 x91 x106 0 in
  let '(x117, x118) := Add64 x93 x108 x116 in
  let '(x119, x120) := Add64 x95 x110 x118 in
  let '(x121, x122) := Add64 x97 x112 x120 in
  let '(x123, x124) := Add64 x99 x114 x122 in
  let '(_, x125) := Mul64 x115 0x4b0dff665588b13f in
  let '(x128, x127) := Mul64 x125 0xffffffffffffffff in
  let '(x130, x129) := Mul64 x125 0xfffffffffffffffe in
  let '(x132, x131) := Mul64 x125 0xbaaedce6af48a03b in
  let '(x134, x133) := Mul64 x125 0xbfd25e8cd0364141 in
  let '(x135, x136) := Add64 x134 x131 0 in
  let '(x137, x138) := Add64 x132 x129 x136 in
  let '(x139, x140) := Add64 x130 x127 x138 in
  let x141 := add64 x140 x128 in
  let '(_, x143) := Add64 x115 x133 0 in
  let '(x144, x145) := Add64 x117 x135 x143 in
  let '(x146, x147) := Add64 x119 x137 x145 in
  let '(x148, x149) := Add64 x121 x139 x147 in
  let '(x150, x151) := Add64 x123 x141 x149 in
  let x152 := add64 x151 x124 in
  (x144, x146, x148, x150, x152).
Definition fiatFqMul_row3 (arg2 : limbs) (x3 x144 x146 x148 x150 x152 : Z) :=
  let '(x154, x153) := Mul64 x3 arg2.[3] in
  let '(x156, x155) := Mul64 x3 arg2.[2] in
  let '(x158, x157) := Mul64 x3 arg2.[1] in
  let '(x160, x159) := Mul64 x3 arg2.[0] in
  let '(x161, x162) := Add64 x160 x157 0 in
  let '(x163, x164) := Add64 x158 x155 x162 in
  let '(x165, x166) := Add64 x156 x153 x164 in
  let x167 := add64 x166 x154 in
  let '(x168, x169) := Add64 x144 x159 0 in
  let '(x170, x171) := Add64 x146 x161 x169 in
  let '(x172, x173) := Add64 x148 x163 x171 in
  let '(x174, x175) := Add64 x150 x165 x173 in
  let '(x176, x177) := Add64 x152 x167 x175 in
  let '(_, x178) := Mul64 x168 0x4b0dff665588b13f in
  let '(x181, x180) := Mul64 x178 0xffffffffffffffff in
  let '(x183, x182) := Mul64 x178 0xfffffffffffffffe in
  let '(x185, x184) := Mul64 x178 0xbaaedce6af48a03b in
  let '(x187, x186) := Mul64 x178 0xbfd25e8cd0364141 in
  let '(x188, x189) := Add64 x187 x184 0 in
  let '(x190, x191) := Add64 x185 x182 x189 in
  let '(x192, x193) := Add64 x183 x180 x191 in
  let x194 := add64 x193 x181 in
  let '(_, x196) := Add64 x168 x186 0 in
  let '(x197, x198) := Add64 x170 x188 x196 in
  let '(x199, x200) := Add64 x172 x190 x198 in
  let '(x201, x202) := Add64 x174 x192 x200 in
  let '(x203, x204) := Add64 x176 x194 x202 in
  let x205 := add64 x204 x177 in
  (x197, x199, x201, x203, x205).
Definition fiatFqMul (arg1 arg2 : limbs) : limbs :=
  let x1 := arg1.[1] in
  let x2 := arg1.[2] in
  let x3 := arg1.[3] in
  let x4 := arg1.[0] in
  let '(x39, x41, x43, x45, x46) := fiatFqMul_row0 arg2 x4 in
  let '(x91, x93, x95, x97, x99) := fiatFqMul_row1 arg2 x1 x39 x41 x43 x45 x46 in
  let '(x144, x146, x148, x150, x152) := fiatFqMul_row2 arg2 x2 x91 x93 x95 x97 x99 in
  let '(x197, x199, x201, x203, x205) := fiatFqMul_row3 arg2 x3 x144 x146 x148 x150 x152 in
  let '(x206, x207) := Sub64 x197 0xbfd25e8cd0364141 0 in
  let '(x208, x209) := Sub64 x199 0xbaaedce6af48a03b x207 in
  let '(x210, x211) := Sub64 x201 0xfffffffffffffffe x209 in
  let '(x212, x213) := Sub64 x203 0xffffffffffffffff x211 in
  let '(_, x215) := Sub64 x205 0 x213 in
  let x216 := fiatFqCmovznzU64 x215 x206 x197 in
  let x217 := fiatFqCmovznzU64 x215 x208 x199 in
  let x218 := fiatFqCmovznzU64 x215 x210 x201 in
  let x219 := fiatFqCmovznzU64 x215 x212 x203 in
  [x216; x217; x218; x219].

Definition fiatFqSquare_row0 (arg1 : limbs) (x4 : Z) :=
  let '(x6, x5) := Mul64 x4 arg1.[3] in
  let '(x8, x7) := Mul64 x4 arg1.[2] in
  let '(x10, x9) := Mul64 x4 arg1.[1] in
  let '(x12, x11) := Mul64 x4 arg1.[0] in
  let '(x13, x14) := Add64 x12 x9 0 in
  let '(x15, x16) := Add64 x10 x7 x14 in
  let '(x17, x18) := Add64 x8 x5 x16 in
  let x19 := add64 x18 x6 in
  let '(_, x20) := Mul64 x11 0x4b0dff665588b13f in
  let '(x23, x22) := Mul64 x20 0xffffffffffffffff in
  let '(x25, x24) := Mul64 x20 0xfffffffffffffffe in
  let '(x27, x26) := Mul64 x20 0xbaaedce6af48a03b in
  let '(x29, x28) := Mul64 x20 0xbfd25e8cd0364141 in
  let '(x30, x31) := Add64 x29 x26 0 in
  let '(x32, x33) := Add64 x27 x24 x31 in
  let '(x34, x35) := Add64 x25 x22 x33 in
  let x36 := add64 x35 x23 in
  let '(_, x38) := Add64 x11 x28 0 in
  let '(x39, x40) := Add64 x13 x30 x38 in
  let '(x41, x42) := Add64 x15 x32 x40 in
  let '(x43, x44) := Add64 x17 x34 x42 in
  let '(x45, x46) := Add64 x19 x36 x44 in
  (x39, x41, x43, x45, x46).
Definition fiatFqSquare_row1 (arg1 : limbs) (x1 x39 x41 x43 x45 x46 : Z) :=
  let '(x48, x47) := Mul64 x1 arg1.[3] in
  let '(x50, x49) := Mul64 x1 arg1.[2] in
  let '(x52, x51) := Mul64 x1 arg1.[1] in
  let '(x54, x53) := Mul64 x1 arg1.[0] in
  let '(x55, x56) := Add64 x54 x51 0 in
  let '(x57, x58) := Add64 x52 x49 x56 in
  let '(x59, x60) := Add64 x50 x47 x58 in
  let x61 := add64 x60 x48 in
  let '(x62, x63) := Add64 x39 x53 0 in
  let '(x64, x65) := Add64 x41 x55 x63 in
  let '(x66, x67) := Add64 x43 x57 x65 in
  let '(x68, x69) := Add64 x45 x59 x67 in
  let '(x70, x71) := Add64 x46 x61 x69 in
  let '(_, x72) := Mul64 x62 0x4b0dff665588b13f in
  let '(x75, x74) := Mul64 x72 0xffffffffffffffff in
  let '(x77, x76) := Mul64 x72 0xfffffffffffffffe in
  let '(x79, x78) := Mul64 x72 0xbaaedce6af48a03b in
  let '(x81, x80) := Mul64 x72 0xbfd25e8cd0364141 in
  let '(x82, x83) := Add64 x81 x78 0 in
  let '(x84, x85) := Add64 x79 x76 x83 in
  let '(x86, x87) := Add64 x77 x74 x85 in
  let x88 := add64 x87 x75 in
  let '(_, x90) := Add64 x62 x80 0 in
  let '(x91, x92) := Add64 x64 x82 x90 in
  let '(x93, x94) := Add64 x66 x84 x92 in
  let '(x95, x96) := Add64 x68 x86 x94 in
  let '(x97, x98) := Add64 x70 x88 x96 in
  let x99 := add64 x98 x71 in
  (x91, x93, x95, x97, x99).
Definition fiatFqSquare_row2 (arg1 : limbs) (x2 x91 x93 x95 x97 x99 : Z) :=
  let '(x101, x100) := Mul64 x2 arg1.[3] in
  let '(x103, x102) := Mul64 x2 arg1.[2] in
  let '(x105, x104) := Mul64 x2 arg1.[1] in
  let '(x107, x106) := Mul64 x2 arg1.[0] in
  let '(x108, x109) := Add64 x107 x104 0 in
  let '(x110, x111) := Add64 x105 x102 x109 in
  let '(x112, x113) := Add64 x103 x100 x111 in
  let x114 := add64 x113 x101 in
  let '(x115, x116) := Add64 x91 x106 0 in
  let '(x117, x118) := Add64 x93 x108 x116 in
  let '(x119, x120) := Add64 x95 x110 x118 in
  let '(x121, x122) := Add64 x97 x112 x120 in
  let '(x123, x124) := Add64 x99 x114 x122 in
  let '(_, x125) := Mul64 x115 0x4b0dff665588b13f in
  let '(x128, x127) := Mul64 x125 0xffffffffffffffff in
  let '(x130, x129) := Mul64 x125 0xfffffffffffffffe in
  let '(x132, x131) := Mul64 x125 0xbaaedce6af48a03b in
  let '(x134, x133) := Mul64 x125 0xbfd25e8cd0364141 in
  let '(x135, x136) := Add64 x134 x131 0 in
  let '(x137, x138) := Add64 x132 x129 x136 in
  let '(x139, x140) := Add64 x130 x127 x138 in
  let x141 := add64 x140 x128 in
  let '(_, x143) := Add64 x115 x133 0 in
  let '(x144, x145) := Add64 x117 x135 x143 in
  let '(x146, x147) := Add64 x119 x137 x145 in
  let '(x148, x149) := Add64 x121 x139 x147 in
  let '(x150, x151) := Add64 x123 x141 x149 in
  let x152 := add64 x151 x124 in
  (x144, x146, x148, x150, x152).
Definition fiatFqSquare_row3 (arg1 : limbs) (x3 x144 x146 x148 x150 x152 : Z) :=
  let '(x154, x153) := Mul64 x3 arg1.[3] in
  let '(x156, x155) := Mul64 x3 arg1.[2] in
  let '(x158, x157) := Mul64 x3 arg1.[1] in
  let '(x160, x159) := Mul64 x3 arg1.[0] in
  let '(x161, x162) := Add64 x160 x157 0 in
  let '(x163, x164) := Add64 x158 x155 x162 in
  let '(x165, x166) := Add64 x156 x153 x164 in
  let x167 := add64 x166 x154 in
  let '(x168, x169) := Add64 x144 x159 0 in
  let '(x170, x171) := Add64 x146 x161 x169 in
  let '(x172, x173) := Add64 x148 x163 x171 in
  let '(x174, x175) := Add64 x150 x165 x173 in
  let '(x176, x177) := Add64 x152 x167 x175 in
  let '(_, x178) := Mul64 x168 0x4b0dff665588b13f in
  let '(x181, x180) := Mul64 x178 0xffffffffffffffff in
  let '(x183, x182) := Mul64 x178 0xfffffffffffffffe in
  let '(x185, x184) := Mul64 x178 0xbaaedce6af48a03b in
  let '(x187, x186) := Mul64 x178 0xbfd25e8cd0364141 in
  let '(x188, x189) := Add64 x187 x184 0 in
  let '(x190, x191) := Add64 x185 x182 x189 in
  let '(x192, x193) := Add64 x183 x180 x191 in
  let x194 := add64 x193 x181 in
  let '(_, x196) := Add64 x168 x186 0 in
  let '(x197, x198) := Add64 x170 x188 x196 in
  let '(x199, x200) := Add64 x172 x190 x198 in
  let '(x201, x202) := Add64 x174 x192 x200 in
  let '(x203, x204) := Add64 x176 x194 x202 in
  let x205 := add64 x204 x177 in
  (x197, x199, x201, x203, x205).
Definition fiatFqSquare (arg1 : limbs) : limbs :=
  let x1 := arg1.[1] in
  let x2 := arg1.[2] in
  let x3 := arg1.[3] in
  let x4 := arg1.[0] in
  let '(x39, x41, x43, x45, x46) := fiatFqSquare_row0 arg1 x4 in
  let '(x91, x93, x95, x97, x99) := fiatFqSquare_row1 arg1 x1 x39 x41 x43 x45 x46 in
  let '(x144, x146, x148, x150, x152) := fiatFqSquare_row2 arg1 x2 x91 x93 x95 x97 x99 in
  let '(x197, x199, x201, x203, x205) := fiatFqSquare_row3 arg1 x3 x144 x146 x148 x150 x152 in
  let '(x206, x207) := Sub64 x197 0xbfd25e8cd0364141 0 in
  let '(x208, x209) := Sub64 x199 0xbaaedce6af48a03b x207 in
  let '(x210, x211) := Sub64 x201 0xfffffffffffffffe x209 in
  let '(x212, x213) := Sub64 x203 0xffffffffffffffff x211 in
  let '(_, x215) := Sub64 x205 0 x213 in
  let x216 := fiatFqCmovznzU64 x215 x206 x197 in
  let x217 := fiatFqCmovznzU64 x215 x208 x199 in
  let x218 := fiatFqCmovznzU64 x215 x210 x201 in
  let x219 := fiatFqCmovznzU64 x215 x212 x203 in
  [x216; x217; x218; x219].

Definition fiatFqFromMontgomery_row0 (x1 : Z) :=
  let '(_, x2) := Mul64 x1 0x4b0dff665588b13f in
  let '(x5, x4) := Mul64 x2 0xffffffffffffffff in
  let '(x7, x6) := Mul64 x2 0xfffffffffffffffe in
  let '(x9, x8) := Mul64 x2 0xbaaedce6af48a03b in
  let '(x11, x10) := Mul64 x2 0xbfd25e8cd0364141 in
  let '(x12, x13) := Add64 x11 x8 0 in
  let '(x14, x15) := Add64 x9 x6 x13 in
  let '(x16, x17) := Add64 x7 x4 x15 in
  let '(_, x19) := Add64 x1 x10 0 in
  let '(x20, x21) := Add64 0 x12 x19 in
  let '(x22, x23) := Add64 0 x14 x21 in
  let '(x24, x25) := Add64 0 x16 x23 in
  let '(x26, x27) := Add64 0 (add64 x17 x5) x25 in
  (x20, x22, x24, x26, x27).
Definition fiatFqFromMontgomery_row1 (arg1 : limbs) (x20 x22 x24 x26 x27 : Z) :=
  let '(x28, x29) := Add64 x20 arg1.[1] 0 in
  let '(x30, x31) := Add64 x22 0 x29 in
  let '(x32, x33) := Add64 x24 0 x31 in
  let '(x34, x35) := Add64 x26 0 x33 in
  let '(_, x36) := Mul64 x28 0x4b0dff665588b13f in
  let '(x39, x38) := Mul64 x36 0xffffffffffffffff in
  let '(x41, x40) := Mul64 x36 0xfffffffffffffffe in
  let '(x43, x42) := Mul64 x36 0xbaaedce6af48a03b in
  let '(x45, x44) := Mul64 x36 0xbfd25e8cd0364141 in
  let '(x46, x47) := Add64 x45 x42 0 in
  let '(x48, x49) := Add64 x43 x40 x47 in
  let '(x50, x51) := Add64 x41 x38 x49 in
  let '(_, x53) := Add64 x28 x44 0 in
  let '(x54, x55) := Add64 x30 x46 x53 in
  let '(x56, x57) := Add64 x32 x48 x55 in
  let '(x58, x59) := Add64 x34 x50 x57 in
  let '(x60, x61) := Add64 (add64 x35 x27) (add64 x51 x39) x59 in
  (x54, x56, x58, x60, x61).
Definition fiatFqFromMontgomery_row2 (arg1 : limbs) (x54 x56 x58 x60 x61 : Z) :=
  let '(x62, x63) := Add64 x54 arg1.[2] 0 in
  let '(x64, x65) := Add64 x56 0 x63 in
  let '(x66, x67) := Add64 x58 0 x65 in
  let '(x68, x69) := Add64 x60 0 x67 in
  let '(_, x70) := Mul64 x62 0x4b0dff665588b13f in
  let '(x73, x72) := Mul64 x70 0xffffffffffffffff in
  let '(x75, x74) := Mul64 x70 0xfffffffffffffffe in
  let '(x77, x76) := Mul64 x70 0xbaaedce6af48a03b in
  let '(x79, x78) := Mul64 x70 0xbfd25e8cd0364141 in
  let '(x80, x81) := Add64 x79 x76 0 in
  let '(x82, x83) := Add64 x77 x74 x81 in
  let '(x84, x85) := Add64 x75 x72 x83 in
  let '(_, x87) := Add64 x62 x78 0 in
  let '(x88, x89) := Add64 x64 x80 x87 in
  let '(x90, x91) := Add64 x66 x82 x89 in
  let '(x92, x93) := Add64 x68 x84 x91 in
  let '(x94, x95) := Add64 (add64 x69 x61) (add64 x85 x73) x93 in
  (x88, x90, x92, x94, x95).
Definition fiatFqFromMontgomery_row3 (arg1 : limbs) (x88 x90 x92 x94 x95 : Z) :=
  let '(x96, x97) := Add64 x88 arg1.[3] 0 in
  let '(x98, x99) := Add64 x90 0 x97 in
  let '(x100, x101) := Add64 x92 0 x99 in
  let '(x102, x103) := Add64 x94 0 x101 in
  let '(_, x104) := Mul64 x96 0x4b0dff665588b13f in
  let '(x107, x106) := Mul64 x104 0xffffffffffffffff in
  let '(x109, x108) := Mul64 x104 0xfffffffffffffffe in
  let '(x111, x110) := Mul64 x104 0xbaaedce6af48a03b in
  let '(x113, x112) := Mul64 x104 0xbfd25e8cd0364141 in
  let '(x114, x115) := Add64 x113 x110 0 in
  let '(x116, x117) := Add64 x111 x108 x115 in
  let '(x118, x119) := Add64 x109 x106 x117 in
  let '(_, x121) := Add64 x96 x112 0 in
  let '(x122, x123) := Add64 x98 x114 x121 in
  let '(x124, x125) := Add64 x100 x116 x123 in
  let '(x126, x127) := Add64 x102 x118 x125 in
  let '(x128, x129) := Add64 (add64 x103 x95) (add64 x119 x107) x127 in
  (x122, x124, x126, x128, x129).
Definition fiatFqFromMontgomery (arg1 : limbs) : limbs :=
  let x1 := arg1.[0] in
  let '(x20, x22, x24, x26, x27) := fiatFqFromMontgomery_row0 x1 in
  let '(x54, x56, x58, x60, x61) := fiatFqFromMontgomery_row1 arg1 x20 x22 x24 x26 x27 in
  let '(x88, x90, x92, x94, x95) := fiatFqFromMontgomery_row2 arg1 x54 x56 x58 x60 x61 in
  let '(x122, x124, x126, x128, x129) := fiatFqFromMontgomery_row3 arg1 x88 x90 x92 x94 x95 in
  let '(x130, x131) := Sub64 x122 0xbfd25e8cd0364141 0 in
  let '(x132, x133) := Sub64 x124 0xbaaedce6af48a03b x131 in
  let '(x134, x135) := Sub64 x126 0xfffffffffffffffe x133 in
  let '(x136, x137) := Sub64 x128 0xffffffffffffffff x135 in
  let '(_, x139) := Sub64 x129 0 x137 in
  let x140 := fiatFqCmovznzU64 x139 x130 x122 in
  let x141 := fiatFqCmovznzU64 x139 x132 x124 in
  let x142 := fiatFqCmovznzU64 x139 x134 x126 in
  let x143 := fiatFqCmovznzU64 x139 x136 x128 in
  [x140; x141; x142; x143].

Definition fiatFqToMontgomery_row0 (x4 : Z) :=
  let '(x6, x5) := Mul64 x4 0x9d671cd581c69bc5 in
  let '(x8, x7) := Mul64 x4 0xe697f5e45bcd07c6 in
  let '(x10, x9) := Mul64 x4 0x741496c20e7cf878 in
  let '(x12, x11) := Mul64 x4 0x896cf21467d7d140 in
  let '(x13, x14) := Add64 x12 x9 0 in
  let '(x15, x16) := Add64 x10 x7 x14 in
  let '(x17, x18) := Add64 x8 x5 x16 in
  let '(_, x19) := Mul64 x11 0x4b0dff665588b13f in
  let '(x22, x21) := Mul64 x19 0xffffffffffffffff in
  let '(x24, x23) := Mul64 x19 0xfffffffffffffffe in
  let '(x26, x25) := Mul64 x19 0xbaaedce6af48a03b in
  let '(x28, x27) := Mul64 x19 0xbfd25e8cd0364141 in
  let '(x29, x30) := Add64 x28 x25 0 in
  let '(x31, x32) := Add64 x26 x23 x30 in
  let '(x33, x34) := Add64 x24 x21 x32 in
  let '(_, x36) := Add64 x11 x27 0 in
  let '(x37, x38) := Add64 x13 x29 x36 in
  let '(x39, x40) := Add64 x15 x31 x38 in
  let '(x41, x42) := Add64 x17 x33 x40 in
  let '(x43, x44) := Add64 (add64 x18 x6) (add64 x34 x22) x42 in
  (x37, x39, x41, x43, x44).
Definition fiatFqToMontgomery_row1 (x1 x37 x39 x41 x43 x44 : Z) :=
  let '(x46, x45) := Mul64 x1 0x9d671cd581c69bc5 in
  let '(x48, x47) := Mul64 x1 0xe697f5e45bcd07c6 in
  let '(x50, x49) := Mul64 x1 0x741496c20e7cf878 in
  let '(x52, x51) := Mul64 x1 0x896cf21467d7d140 in
  let '(x53, x54) := Add64 x52 x49 0 in
  let '(x55, x56) := Add64 x50 x47 x54 in
  let '(x57, x58) := Add64 x48 x45 x56 in
  let '(x59, x60) := Add64 x37 x51 0 in
  let '(x61, x62) := Add64 x39 x53 x60 in
  let '(x63, x64) := Add64 x41 x55 x62 in
  let '(x65, x66) := Add64 x43 x57 x64 in
  let '(_, x67) := Mul64 x59 0x4b0dff665588b13f in
  let '(x70, x69) := Mul64 x67 0xffffffffffffffff in
  let '(x72, x71) := Mul64 x67 0xfffffffffffffffe in
  let '(x74, x73) := Mul64 x67 0xbaaedce6af48a03b in
  let '(x76, x75) := Mul64 x67 0xbfd25e8cd0364141 in
  let '(x77, x78) := Add64 x76 x73 0 in
  let '(x79, x80) := Add64 x74 x71 x78 in
  let '(x81, x82) := Add64 x72 x69 x80 in
  let '(_, x84) := Add64 x59 x75 0 in
  let '(x85, x86) := Add64 x61 x77 x84 in
  let '(x87, x88) := Add64 x63 x79 x86 in
  let '(x89, x90) := Add64 x65 x81 x88 in
  let '(x91, x92) := Add64 (add64 (add64 x66 x44) (add64 x58 x46)) (add64 x82 x70) x90 in
  (x85, x87, x89, x91, x92).
Definition fiatFqToMontgomery_row2 (x2 x85 x87 x89 x91 x92 : Z) :=
  let '(x94, x93) := Mul64 x2 0x9d671cd581c69bc5 in
  let '(x96, x95) := Mul64 x2 0xe697f5e45bcd07c6 in
  let '(x98, x97) := Mul64 x2 0x741496c20e7cf878 in
  let '(x100, x99) := Mul64 x2 0x896cf21467d7d140 in
  let '(x101, x102) := Add64 x100 x97 0 in
  let '(x103, x104) := Add64 x98 x95 x102 in
  let '(x105, x106) := Add64 x96 x93 x104 in
  let '(x107, x108) := Add64 x85 x99 0 in
  let '(x109, x110) := Add64 x87 x101 x108 in
  let '(x111, x112) := Add64 x89 x103 x110 in
  let '(x113, x114) := Add64 x91 x105 x112 in
  let '(_, x115) := Mul64 x107 0x4b0dff665588b13f in
  let '(x118, x117) := Mul64 x115 0xffffffffffffffff in
  let '(x120, x119) := Mul64 x115 0xfffffffffffffffe in
  let '(x122, x121) := Mul64 x115 0xbaaedce6af48a03b in
  let '(x124, x123) := Mul64 x115 0xbfd25e8cd0364141 in
  let '(x125, x126) := Add64 x124 x121 0 in
  let '(x127, x128) := Add64 x122 x119 x126 in
  let '(x129, x130) := Add64 x120 x117 x128 in
  let '(_, x132) := Add64 x107 x123 0 in
  let '(x133, x134) := Add64 x109 x125 x132 in
  let '(x135, x136) := Add64 x111 x127 x134 in
  let '(x137, x138) := Add64 x113 x129 x136 in
  let '(x139, x140) := Add64 (add64 (add64 x114 x92) (add64 x106 x94)) (add64 x130 x118) x138 in
  (x133, x135, x137, x139, x140).
Definition fiatFqToMontgomery_row3 (x3 x133 x135 x137 x139 x140 : Z) :=
  let '(x142, x141) := Mul64 x3 0x9d671cd581c69bc5 in
  let '(x144, x143) := Mul64 x3 0xe697f5e45bcd07c6 in
  let '(x146, x145) := Mul64 x3 0x741496c20e7cf878 in
  let '(x148, x147) := Mul64 x3 0x896cf21467d7d140 in
  let '(x149, x150) := Add64 x148 x145 0 in
  let '(x151, x152) := Add64 x146 x143 x150 in
  let '(x153, x154) := Add64 x144 x141 x152 in
  let '(x155, x156) := Add64 x133 x147 0 in
  let '(x157, x158) := Add64 x135 x149 x156 in
  let '(x159, x160) := Add64 x137 x151 x158 in
  let '(x161, x162) := Add64 x139 x153 x160 in
  let '(_, x163) := Mul64 x155 0x4b0dff665588b13f in
  let '(x166, x165) := Mul64 x163 0xffffffffffffffff in
  let '(x168, x167) := Mul64 x163 0xfffffffffffffffe in
  let '(x170, x169) := Mul64 x163 0xbaaedce6af48a03b in
  let '(x172, x171) := Mul64 x163 0xbfd25e8cd0364141 in
  let '(x173, x174) := Add64 x172 x169 0 in
  let '(x175, x176) := Add64 x170 x167 x174 in
  let '(x177, x178) := Add64 x168 x165 x176 in
  let '(_, x180) := Add64 x155 x171 0 in
  let '(x181, x182) := Add64 x157 x173 x180 in
  let '(x183, x184) := Add64 x159 x175 x182 in
  let '(x185, x186) := Add64 x161 x177 x184 in
  let '(x187, x188) := Add64 (add64 (add64 x162 x140) (add64 x154 x142)) (add64 x178 x166) x186 in
  (x181, x183, x185, x187, x188).
Definition fiatFqToMontgomery (arg1 : limbs) : limbs :=
  let x1 := arg1.[1] in
  let x2 := arg1.[2] in
  let x3 := arg1.[3] in
  let x4 := arg1.[0] in
  let '(x37, x39, x41, x43, x44) := fiatFqToMontgomery_row0 x4 in
  let '(x85, x87, x89, x91, x92) := fiatFqToMontgomery_row1 x1 x37 x39 x41 x43 x44 in
  let '(x133, x135, x137, x139, x140) := fiatFqToMontgomery_row2 x2 x85 x87 x89 x91 x92 in
  let '(x181, x183, x185, x187, x188) := fiatFqToMontgomery_row3 x3 x133 x135 x137 x139 x140 in
  let '(x189, x190) := Sub64 x181 0xbfd25e8cd0364141 0 in
  let '(x191, x192) := Sub64 x183 0xbaaedce6af48a03b x190 in
  let '(x193, x194) := Sub64 x185 0xfffffffffffffffe x192 in
  let '(x195, x196) := Sub64 x187 0xffffffffffffffff x194 in
  let '(_, x198) := Sub64 x188 0 x196 in
  let x199 := fiatFqCmovznzU64 x198 x189 x181 in
  let x200 := fiatFqCmovznzU64 x198 x191 x183 in
  let x201 := fiatFqCmovznzU64 x198 x193 x185 in
  let x202 := fiatFqCmovznzU64 x198 x195 x187 in
  [x199; x200; x201; x202].

Definition fiatFqAdd (arg1 arg2 : limbs) : limbs :=
  let '(x1, x2) := Add64 arg1.[0] arg2.[0] 0 in
  let '(x3, x4) := Add64 arg1.[1] arg2.[1] x2 in
  let '(x5, x6) := Add64 arg1.[2] arg2.[2] x4 in
  let '(x7, x8) := Add64 arg1.[3] arg2.[3] x6 in
  let '(x9, x10) := Sub64 x1 0xbfd25e8cd0364141 0 in
  let '(x11, x12) := Sub64 x3 0xbaaedce6af48a03b x10 in
  let '(x13, x14) := Sub64 x5 0xfffffffffffffffe x12 in
  let '(x15, x16) := Sub64 x7 0xffffffffffffffff x14 in
  let '(_, x18) := Sub64 x8 0 x16 in
  let x19 := fiatFqCmovznzU64 x18 x9 x1 in
  let x20 := fiatFqCmovznzU64 x18 x11 x3 in
  let x21 := fiatFqCmovznzU64 x18 x13 x5 in
  let x22 := fiatFqCmovznzU64 x18 x15 x7 in
  [x19; x20; x21; x22].

Definition fiatFqSub (arg1 arg2 : limbs) : limbs :=
  let '(x1, x2) := Sub64 arg1.[0] arg2.[0] 0 in
  let '(x3, x4) := Sub64 arg1.[1] arg2.[1] x2 in
  let '(x5, x6) := Sub64 arg1.[2] arg2.[2] x4 in
  let '(x7, x8) := Sub64 arg1.[3] arg2.[3] x6 in
  let x9 := fiatFqCmovznzU64 x8 0 0xffffffffffffffff in
  let '(x10, x11) := Add64 x1 (Z.land x9 0xbfd25e8cd0364141) 0 in
  let '(x12, x13) := Add64 x3 (Z.land x9 0xbaaedce6af48a03b) x11 in
  let '(x14, x15) := Add64 x5 (Z.land x9 0xfffffffffffffffe) x13 in
  let '(x16, _) := Add64 x7 x9 x15 in
  [x10; x12; x14; x16].

Definition fiatFqOpp (arg1 : limbs) : limbs :=
  let '(x1, x2) := Sub64 0 arg1.[0] 0 in
  let '(x3, x4) := Sub64 0 arg1.[1] x2 in
  let '(x5, x6) := Sub64 0 arg1.[2] x4 in
  let '(x7, x8) := Sub64 0 arg1.[3] x6 in
  let x9 := fiatFqCmovznzU64 x8 0 0xffffffffffffffff in
  let '(x10, x11) := Add64 x1 (Z.land x9 0xbfd25e8cd0364141) 0 in
  let '(x12, x13) := Add64 x3 (Z.land x9 0xbaaedce6af48a03b) x11 in
  let '(x14, x15) := Add64 x5 (Z.land x9 0xfffffffffffffffe) x13 in
  let '(x16, _) := Add64 x7 x9 x15 in
  [x10; x12; x14; x16].

Definition fiatFqNonzero (arg1 : limbs) : Z :=
  let x1 := Z.lor arg1.[0] (Z.lor arg1.[1] (Z.lor arg1.[2] arg1.[3])) in
  x1.

Definition fiatFqSelectznz (arg1 : Z) (arg2 arg3 : limbs) : limbs :=
  let x1 := fiatFqCmovznzU64 arg1 arg2.[0] arg3.[0] in
  let x2 := fiatFqCmovznzU64 arg1 arg2.[1] arg3.[1] in
  let x3 := fiatFqCmovznzU64 arg1 arg2.[2] arg3.[2] in
  let x4 := fiatFqCmovznzU64 arg1 arg2.[3] arg3.[3] in
  [x1; x2; x3; x4].

Definition fiatFqToBytes (arg1 : limbs) : list Z :=
  let x1 := arg1.[3] in
  let x2 := arg1.[2] in
  let x3 := arg1.[1] in
  let x4 := arg1.[0] in
  let x5 := Z.land (uint8 x4) 0xff in
  let x6 := shr64 x4 8 in
  let x7 := Z.land (uint8 x6) 0xff in
  let x8 := shr64 x6 8 in
  let x9 := Z.land (uint8 x8) 0xff in
  let x10 := shr64 x8 8 in
  let x11 := Z.land (uint8 x10) 0xff in
  let x12 := shr64 x10 8 in
  let x13 := Z.land (uint8 x12) 0xff in
  let x14 := shr64 x12 8 in
  let x15 := Z.land (uint8 x14) 0xff in
  let x16 := shr64 x14 8 in
  let x17 := Z.land (uint8 x16) 0xff in
  let x18 := uint8 (shr64 x16 8) in
  let x19 := Z.land (uint8 x3) 0xff in
  let x20 := shr64 x3 8 in
  let x21 := Z.land (uint8 x20) 0xff in
  let x22 := shr64 x20 8 in
  let x23 := Z.land (uint8 x22) 0xff in
  let x24 := shr64 x22 8 in
  let x25 := Z.land (uint8 x24) 0xff in
  let x26 := shr64 x24 8 in
  let x27 := Z.land (uint8 x26) 0xff in
  let x28 := shr64 x26 8 in
  let x29 := Z.land (uint8 x28) 0xff in
  let x30 := shr64 x28 8 in
  let x31 := Z.land (uint8 x30) 0xff in
  let x32 := uint8 (shr64 x30 8) in
  let x33 := Z.land (uint8 x2) 0xff in
  let x34 := shr64 x2 8 in
  let x35 := Z.land (uint8 x34) 0xff in
  let x36 := shr64 x34 8 in
  let x37 := Z.land (uint8 x36) 0xff in
  let x38 := shr64 x36 8 in
  let x39 := Z.land (uint8 x38) 0xff in
  let x40 := shr64 x38 8 in
  let x41 := Z.land (uint8 x40) 0xff in
  let x42 := shr64 x40 8 in
  let x43 := Z.land (uint8 x42) 0xff in
  let x44 := shr64 x42 8 in
  let x45 := Z.land (uint8 x44) 0xff in
  let x46 := uint8 (shr64 x44 8) in
  let x47 := Z.land (uint8 x1) 0xff in
  let x48 := shr64 x1 8 in
  let x49 := Z.land (uint8 x48) 0xff in
  let x50 := shr64 x48 8 in
  let x51 := Z.land (uint8 x50) 0xff in
  let x52 := shr64 x50 8 in
  let x53 := Z.land (uint8 x52) 0xff in
  let x54 := shr64 x52 8 in
  let x55 := Z.land (uint8 x54) 0xff in
  let x56 := shr64 x54 8 in
  let x57 := Z.land (uint8 x56) 0xff in
  let x58 := shr64 x56 8 in
  let x59 := Z.land (uint8 x58) 0xff in
  let x60 := uint8 (shr64 x58 8) in
  [x5; x7; x9; x11; x13; x15; x17; x18; x19; x21; x23; x25; x27; x29; x31; x32; x33; x35; x37; x39; x41; x43; x45; x46; x47; x49; x51; x53; x55; x57; x59; x60].

Definition fiatFqFromBytes (arg1 : list Z) : limbs :=
  let x1 := shl64 arg1.[31] 0x38 in
  let x2 := shl64 arg1.[30] 0x30 in
  let x3 := shl64 arg1.[29] 0x28 in
  let x4 := shl64 arg1.[28] 0x20 in
  let x5 := shl64 arg1.[27] 0x18 in
  let x6 := shl64 arg1.[26] 0x10 in
  let x7 := shl64 arg1.[25] 8 in
  let x8 := arg1.[24] in
  let x9 := shl64 arg1.[23] 0x38 in
  let x10 := shl64 arg1.[22] 0x30 in
  let x11 := shl64 arg1.[21] 0x28 in
  let x12 := shl64 arg1.[20] 0x20 in
  let x13 := shl64 arg1.[19] 0x18 in
  let x14 := shl64 arg1.[18] 0x10 in
  let x15 := shl64 arg1.[17] 8 in
  let x16 := arg1.[16] in
  let x17 := shl64 arg1.[15] 0x38 in
  let x18 := shl64 arg1.[14] 0x30 in
  let x19 := shl64 arg1.[13] 0x28 in
  let x20 := shl64 arg1.[12] 0x20 in
  let x21 := shl64 arg1.[11] 0x18 in
  let x22 := shl64 arg1.[10] 0x10 in
  let x23 := shl64 arg1.[9] 8 in
  let x24 := arg1.[8] in
  let x25 := shl64 arg1.[7] 0x38 in
  let x26 := shl64 arg1.[6] 0x30 in
  let x27 := shl64 arg1.[5] 0x28 in
  let x28 := shl64 arg1.[4] 0x20 in
  let x29 := shl64 arg1.[3] 0x18 in
  let x30 := shl64 arg1.[2] 0x10 in
  let x31 := shl64 arg1.[1] 8 in
  let x32 := arg1.[0] in
  let x33 := add64 x31 x32 in
  let x34 := add64 x30 x33 in
  let x35 := add64 x29 x34 in
  let x36 := add64 x28 x35 in
  let x37 := add64 x27 x36 in
  let x38 := add64 x26 x37 in
  let x39 := add64 x25 x38 in
  let x40 := add64 x23 x24 in
  let x41 := add64 x22 x40 in
  let x42 := add64 x21 x41 in
  let x43 := add64 x20 x42 in
  let x44 := add64 x19 x43 in
  let x45 := add64 x18 x44 in
  let x46 := add64 x17 x45 in
  let x47 := add64 x15 x16 in
  let x48 := add64 x14 x47 in
  let x49 := add64 x13 x48 in
  let x50 := add64 x12 x49 in
  let x51 := add64 x11 x50 in
  let x52 := add64 x10 x51 in
  let x53 := add64 x9 x52 in
  let x54 := add64 x7 x8 in
  let x55 := add64 x6 x54 in
  let x56 := add64 x5 x55 in
  let x57 := add64 x4 x56 in
  let x58 := add64 x3 x57 in
  let x59 := add64 x2 x58 in
  let x60 := add64 x1 x59 in
  [x39; x46; x53; x60].

Definition fiatFqSetOne  : limbs :=
  [0x402da1732fc9bebf; 0x4551231950b75fc4; 1; 0].

Definition fiatFqMsat  : limbs :=
  [0xbfd25e8cd0364141; 0xbaaedce6af48a03b; 0xfffffffffffffffe; 0xffffffffffffffff; 0].

Definition fiatFqDivstepPrecomp  : limbs :=
  [0xd7431a4d2b9cb4e9; 0xab67d35a32d9c503; 0xadf6c7e5859ce35f; 0x615441451df6c379].

Definition fiatFqDivstep_select (arg1 : Z) (arg2 arg3 arg4 arg5 : limbs) :=
  let '(x1, _) := Add64 (not64 arg1) 1 0 in
  let x3 := Z.land (shr64 x1 0x3f) (Z.land arg3.[0] 1) in
  let '(x4, _) := Add64 (not64 arg1) 1 0 in
  let x6 := fiatFqCmovznzU64 x3 arg1 x4 in
  let x7 := fiatFqCmovznzU64 x3 arg2.[0] arg3.[0] in
  let x8 := fiatFqCmovznzU64 x3 arg2.[1] arg3.[1] in
  let x9 := fiatFqCmovznzU64 x3 arg2.[2] arg3.[2] in
  let x10 := fiatFqCmovznzU64 x3 arg2.[3] arg3.[3] in
  let x11 := fiatFqCmovznzU64 x3 arg2.[4] arg3.[4] in
  let '(x12, x13) := Add64 1 (not64 arg2.[0]) 0 in
  let '(x14, x15) := Add64 0 (not64 arg2.[1]) x13 in
  let '(x16, x17) := Add64 0 (not64 arg2.[2]) x15 in
  let '(x18, x19) := Add64 0 (not64 arg2.[3]) x17 in
  let '(x20, _) := Add64 0 (not64 arg2.[4]) x19 in
  let x22 := fiatFqCmovznzU64 x3 arg3.[0] x12 in
  let x23 := fiatFqCmovznzU64 x3 arg3.[1] x14 in
  let x24 := fiatFqCmovznzU64 x3 arg3.[2] x16 in
  let x25 := fiatFqCmovznzU64 x3 arg3.[3] x18 in
  let x26 := fiatFqCmovznzU64 x3 arg3.[4] x20 in
  let x27 := fiatFqCmovznzU64 x3 arg4.[0] arg5.[0] in
  let x28 := fiatFqCmovznzU64 x3 arg4.[1] arg5.[1] in
  let x29 := fiatFqCmovznzU64 x3 arg4.[2] arg5.[2] in
  let x30 := fiatFqCmovznzU64 x3 arg4.[3] arg5.[3] in
  let '(x31, x32) := Add64 x27 x27 0 in
  let '(x33, x34) := Add64 x28 x28 x32 in
  let '(x35, x36) := Add64 x29 x29 x34 in
  let '(x37, x38) := Add64 x30 x30 x36 in
  let '(x39, x40) := Sub64 x31 0xbfd25e8cd0364141 0 in
  let '(x41, x42) := Sub64 x33 0xbaaedce6af48a03b x40 in
  let '(x43, x44) := Sub64 x35 0xfffffffffffffffe x42 in
  let '(x45, x46) := Sub64 x37 0xffffffffffffffff x44 in
  let '(_, x48) := Sub64 x38 0 x46 in
  (x3, x6, x7, x8, x9, x10, x11, x22, x23, x24, x25, x26, x27, x28, x29, x30, x31, x33, x35, x37, x39, x41, x43, x45, x48).
Definition fiatFqDivstep_negate (arg4 : limbs) : limbs :=
  let x49 := arg4.[3] in
  let x50 := arg4.[2] in
  let x51 := arg4.[1] in
  let x52 := arg4.[0] in
  let '(x53, x54) := Sub64 0 x52 0 in
  let '(x55, x56) := Sub64 0 x51 x54 in
  let '(x57, x58) := Sub64 0 x50 x56 in
  let '(x59, x60) := Sub64 0 x49 x58 in
  let x61 := fiatFqCmovznzU64 x60 0 0xffffffffffffffff in
  let '(x62, x63) := Add64 x53 (Z.land x61 0xbfd25e8cd0364141) 0 in
  let '(x64, x65) := Add64 x55 (Z.land x61 0xbaaedce6af48a03b) x63 in
  let '(x66, x67) := Add64 x57 (Z.land x61 0xfffffffffffffffe) x65 in
  let '(x68, _) := Add64 x59 x61 x67 in
  [x62; x64; x66; x68].
Definition fiatFqDivstep (arg1 : Z) (arg2 arg3 arg4 arg5 : limbs) : divstate :=
  let '(x3, x6, x7, x8, x9, x10, x11, x22, x23, x24, x25, x26, x27, x28, x29, x30, x31, x33, x35, x37, x39, x41, x43, x45, x48) := fiatFqDivstep_select arg1 arg2 arg3 arg4 arg5 in
  let negated := fiatFqDivstep_negate arg4 in
  let x62 := negated.[0] in
  let x64 := negated.[1] in
  let x66 := negated.[2] in
  let x68 := negated.[3] in
  let x70 := fiatFqCmovznzU64 x3 arg5.[0] x62 in
  let x71 := fiatFqCmovznzU64 x3 arg5.[1] x64 in
  let x72 := fiatFqCmovznzU64 x3 arg5.[2] x66 in
  let x73 := fiatFqCmovznzU64 x3 arg5.[3] x68 in
  let x74 := Z.land x22 1 in
  let x75 := fiatFqCmovznzU64 x74 0 x7 in
  let x76 := fiatFqCmovznzU64 x74 0 x8 in
  let x77 := fiatFqCmovznzU64 x74 0 x9 in
  let x78 := fiatFqCmovznzU64 x74 0 x10 in
  let x79 := fiatFqCmovznzU64 x74 0 x11 in
  let '(x80, x81) := Add64 x22 x75 0 in
  let '(x82, x83) := Add64 x23 x76 x81 in
  let '(x84, x85) := Add64 x24 x77 x83 in
  let '(x86, x87) := Add64 x25 x78 x85 in
  let '(x88, _) := Add64 x26 x79 x87 in
  let x90 := fiatFqCmovznzU64 x74 0 x27 in
  let x91 := fiatFqCmovznzU64 x74 0 x28 in
  let x92 := fiatFqCmovznzU64 x74 0 x29 in
  let x93 := fiatFqCmovznzU64 x74 0 x30 in
  let '(x94, x95) := Add64 x70 x90 0 in
  let '(x96, x97) := Add64 x71 x91 x95 in
  let '(x98, x99) := Add64 x72 x92 x97 in
  let '(x100, x101) := Add64 x73 x93 x99 in
  let '(x102, x103) := Sub64 x94 0xbfd25e8cd0364141 0 in
  let '(x104, x105) := Sub64 x96 0xbaaedce6af48a03b x103 in
  let '(x106, x107) := Sub64 x98 0xfffffffffffffffe x105 in
  let '(x108, x109) := Sub64 x100 0xffffffffffffffff x107 in
  let '(_, x111) := Sub64 x101 0 x109 in
  let '(x112, _) := Add64 x6 1 0 in
  let x114 := Z.lor (shr64 x80 1) (Z.land (shl64 x82 0x3f) 0xffffffffffffffff) in
  let x115 := Z.lor (shr64 x82 1) (Z.land (shl64 x84 0x3f) 0xffffffffffffffff) in
  let x116 := Z.lor (shr64 x84 1) (Z.land (shl64 x86 0x3f) 0xffffffffffffffff) in
  let x117 := Z.lor (shr64 x86 1) (Z.land (shl64 x88 0x3f) 0xffffffffffffffff) in
  let x118 := Z.lor (Z.land x88 0x8000000000000000) (shr64 x88 1) in
  let x119 := fiatFqCmovznzU64 x48 x39 x31 in
  let x120 := fiatFqCmovznzU64 x48 x41 x33 in
  let x121 := fiatFqCmovznzU64 x48 x43 x35 in
  let x122 := fiatFqCmovznzU64 x48 x45 x37 in
  let x123 := fiatFqCmovznzU64 x111 x102 x94 in
  let x124 := fiatFqCmovznzU64 x111 x104 x96 in
  let x125 := fiatFqCmovznzU64 x111 x106 x98 in
  let x126 := fiatFqCmovznzU64 x111 x108 x100 in
  (x112, [x7; x8; x9; x10; x11], [x114; x115; x116; x117; x118], [x119; x120; x121; x122], [x123; x124; x125; x126]).

(** The functions the wrapper calls. *)
Definition fiat : Fiat := mkFiat 4 256 modulus fiatFqMul fiatFqSquare fiatFqAdd fiatFqSub fiatFqOpp fiatFqFromMontgomery fiatFqToMontgomery fiatFqNonzero fiatFqSelectznz fiatFqToBytes fiatFqFromBytes fiatFqSetOne fiatFqMsat fiatFqDivstepPrecomp fiatFqDivstep.

(** ** Correctness of the operations *)

Lemma K256Fq_cmov_ok c x y : 0 <= c <= 1 → word x → word y → fiatFqCmovznzU64 c x y = if c =? 0 then x else y.
Proof. apply cmov_ok. Qed.
Lemma K256Fq_Mul_row0 b0 b1 b2 b3 x4 :
  word b0 → word b1 → word b2 → word b3 → word x4 →
  let '(x39, x41, x43, x45, x46) := fiatFqMul_row0 [b0; b1; b2; b3] x4 in
  word x39 ∧ word x41 ∧ word x43 ∧ word x45 ∧ 0 <= x46 <= 1 ∧
  ∃ q, word q ∧ W * eval [x39; x41; x43; x45; x46] = 0 + x4 * eval [b0; b1; b2; b3] + q * modulus.
Proof. row_ok fiatFqMul_row0 modulus. Qed.
Lemma K256Fq_Mul_row1 b0 b1 b2 b3 x1 x39 x41 x43 x45 x46 :
  word b0 → word b1 → word b2 → word b3 → word x1 → word x39 → word x41 → word x43 → word x45 → 0 <= x46 <= 1 →
  let '(x91, x93, x95, x97, x99) := fiatFqMul_row1 [b0; b1; b2; b3] x1 x39 x41 x43 x45 x46 in
  word x91 ∧ word x93 ∧ word x95 ∧ word x97 ∧ 0 <= x99 <= 2 ∧
  ∃ q, word q ∧ W * eval [x91; x93; x95; x97; x99] = eval [x39; x41; x43; x45; x46] + x1 * eval [b0; b1; b2; b3] + q * modulus.
Proof. row_ok fiatFqMul_row1 modulus. Qed.
Lemma K256Fq_Mul_row2 b0 b1 b2 b3 x2 x91 x93 x95 x97 x99 :
  word b0 → word b1 → word b2 → word b3 → word x2 → word x91 → word x93 → word x95 → word x97 → 0 <= x99 <= 2 →
  let '(x144, x146, x148, x150, x152) := fiatFqMul_row2 [b0; b1; b2; b3] x2 x91 x93 x95 x97 x99 in
  word x144 ∧ word x146 ∧ word x148 ∧ word x150 ∧ 0 <= x152 <= 2 ∧
  ∃ q, word q ∧ W * eval [x144; x146; x148; x150; x152] = eval [x91; x93; x95; x97; x99] + x2 * eval [b0; b1; b2; b3] + q * modulus.
Proof. row_ok fiatFqMul_row2 modulus. Qed.
Lemma K256Fq_Mul_row3 b0 b1 b2 b3 x3 x144 x146 x148 x150 x152 :
  word b0 → word b1 → word b2 → word b3 → word x3 → word x144 → word x146 → word x148 → word x150 → 0 <= x152 <= 2 →
  let '(x197, x199, x201, x203, x205) := fiatFqMul_row3 [b0; b1; b2; b3] x3 x144 x146 x148 x150 x152 in
  word x197 ∧ word x199 ∧ word x201 ∧ word x203 ∧ 0 <= x205 <= 2 ∧
  ∃ q, word q ∧ W * eval [x197; x199; x201; x203; x205] = eval [x144; x146; x148; x150; x152] + x3 * eval [b0; b1; b2; b3] + q * modulus.
Proof. exact (K256Fq_Mul_row2 b0 b1 b2 b3 x3 x144 x146 x148 x150 x152). Qed.
Lemma K256Fq_Mul_ok a b : words 4 a → valid 4 modulus b →
  mont_product 4 modulus (eval a) (eval b) (fiatFqMul a b).
Proof.
  intros Ha [Hb Hlt].
  destruct (words_inv4 a Ha) as (a0 & a1 & a2 & a3 & -> & Ha0 & Ha1 & Ha2 & Ha3).
  destruct (words_inv4 b Hb) as (b0 & b1 & b2 & b3 & -> & Hb0 & Hb1 & Hb2 & Hb3).
  unfold fiatFqMul. cbn [nth]. cbv zeta.
  run_row (K256Fq_Mul_row0 b0 b1 b2 b3 a0) into HRow0.
  destruct (fiatFqMul_row0 [b0; b1; b2; b3] a0) as [[[[x39 x41] x43] x45] x46].
  destruct HRow0 as (? & ? & ? & ? & ? & q0 & Hq0 & E0).
  pose proof (redc_step _ _ _ _ _ _ _ _ (redc_0 modulus (eval [b0; b1; b2; b3])) Hq0 E0) as HR0.
  run_row (K256Fq_Mul_row1 b0 b1 b2 b3 a1 x39 x41 x43 x45 x46) into HRow1.
  destruct (fiatFqMul_row1 [b0; b1; b2; b3] a1 x39 x41 x43 x45 x46) as [[[[x91 x93] x95] x97] x99].
  destruct HRow1 as (? & ? & ? & ? & ? & q1 & Hq1 & E1).
  pose proof (redc_step _ _ _ _ _ _ _ _ HR0 Hq1 E1) as HR1.
  run_row (K256Fq_Mul_row2 b0 b1 b2 b3 a2 x91 x93 x95 x97 x99) into HRow2.
  destruct (fiatFqMul_row2 [b0; b1; b2; b3] a2 x91 x93 x95 x97 x99) as [[[[x144 x146] x148] x150] x152].
  destruct HRow2 as (? & ? & ? & ? & ? & q2 & Hq2 & E2).
  pose proof (redc_step _ _ _ _ _ _ _ _ HR1 Hq2 E2) as HR2.
  run_row (K256Fq_Mul_row3 b0 b1 b2 b3 a3 x144 x146 x148 x150 x152) into HRow3.
  destruct (fiatFqMul_row3 [b0; b1; b2; b3] a3 x144 x146 x148 x150 x152) as [[[[x197 x199] x201] x203] x205].
  destruct HRow3 as (? & ? & ? & ? & ? & q3 & Hq3 & E3).
  pose proof (redc_step _ _ _ _ _ _ _ _ HR2 Hq3 E3) as HR3.
  rewrite eval_rows4 in HR3.
  assert (0 <= eval [x197; x199; x201; x203; x205] < 2 * modulus) as HT.
  { apply (redc_bound _ _ _ _ _ HR3); [done|by apply eval_bound|split; [apply (eval_bound _ _ Hb)|lia]]. }
  apply (mont_product_intro _ _ 4 (eval [x197; x199; x201; x203; x205]) _ _); [done|exact HR3|].
  reduce_final K256Fq_cmov_ok modulus.
Qed.
Lemma K256Fq_Square_row0 b0 b1 b2 b3 x4 :
  word b0 → word b1 → word b2 → word b3 → word x4 →
  let '(x39, x41, x43, x45, x46) := fiatFqSquare_row0 [b0; b1; b2; b3] x4 in
  word x39 ∧ word x41 ∧ word x43 ∧ word x45 ∧ 0 <= x46 <= 1 ∧
  ∃ q, word q ∧ W * eval [x39; x41; x43; x45; x46] = 0 + x4 * eval [b0; b1; b2; b3] + q * modulus.
Proof. exact (K256Fq_Mul_row0 b0 b1 b2 b3 x4). Qed.
Lemma K256Fq_Square_row1 b0 b1 b2 b3 x1 x39 x41 x43 x45 x46 :
  word b0 → word b1 → word b2 → word b3 → word x1 → word x39 → word x41 → word x43 → word x45 → 0 <= x46 <= 1 →
  let '(x91, x93, x95, x97, x99) := fiatFqSquare_row1 [b0; b1; b2; b3] x1 x39 x41 x43 x45 x46 in
  word x91 ∧ word x93 ∧ word x95 ∧ word x97 ∧ 0 <= x99 <= 2 ∧
  ∃ q, word q ∧ W * eval [x91; x93; x95; x97; x99] = eval [x39; x41; x43; x45; x46] + x1 * eval [b0; b1; b2; b3] + q * modulus.
Proof. exact (K256Fq_Mul_row1 b0 b1 b2 b3 x1 x39 x41 x43 x45 x46). Qed.
Lemma K256Fq_Square_row2 b0 b1 b2 b3 x2 x91 x93 x95 x97 x99 :
  word b0 → word b1 → word b2 → word b3 → word x2 → word x91 → word x93 → word x95 → word x97 → 0 <= x99 <= 2 →
  let '(x144, x146, x148, x150, x152) := fiatFqSquare_row2 [b0; b1; b2; b3] x2 x91 x93 x95 x97 x99 in
  word x144 ∧ word x146 ∧ word x148 ∧ word x150 ∧ 0 <= x152 <= 2 ∧
  ∃ q, word q ∧ W * eval [x144; x146; x148; x150; x152] = eval [x91; x93; x95; x97; x99] + x2 * eval [b0; b1; b2; b3] + q * modulus.
Proof. exact (K256Fq_Mul_row2 b0 b1 b2 b3 x2 x91 x93 x95 x97 x99). Qed.
Lemma K256Fq_Square_row3 b0 b1 b2 b3 x3 x144 x146 x148 x150 x152 :
  word b0 → word b1 → word b2 → word b3 → word x3 → word x144 → word x146 → word x148 → word x150 → 0 <= x152 <= 2 →
  let '(x197, x199, x201, x203, x205) := fiatFqSquare_row3 [b0; b1; b2; b3] x3 x144 x146 x148 x150 x152 in
  word x197 ∧ word x199 ∧ word x201 ∧ word x203 ∧ 0 <= x205 <= 2 ∧
  ∃ q, word q ∧ W * eval [x197; x199; x201; x203; x205] = eval [x144; x146; x148; x150; x152] + x3 * eval [b0; b1; b2; b3] + q * modulus.
Proof. exact (K256Fq_Mul_row2 b0 b1 b2 b3 x3 x144 x146 x148 x150 x152). Qed.
Lemma K256Fq_Square_ok a : valid 4 modulus a →
  mont_product 4 modulus (eval a) (eval a) (fiatFqSquare a).
Proof.
  intros [Ha Hlt]. pose proof Ha as Hb.
  destruct (words_inv4 a Ha) as (a0 & a1 & a2 & a3 & -> & Ha0 & Ha1 & Ha2 & Ha3).
  unfold fiatFqSquare. cbn [nth]. cbv zeta.
  run_row (K256Fq_Square_row0 a0 a1 a2 a3 a0) into HRow0.
  destruct (fiatFqSquare_row0 [a0; a1; a2; a3] a0) as [[[[x39 x41] x43] x45] x46].
  destruct HRow0 as (? & ? & ? & ? & ? & q0 & Hq0 & E0).
  pose proof (redc_step _ _ _ _ _ _ _ _ (redc_0 modulus (eval [a0; a1; a2; a3])) Hq0 E0) as HR0.
  run_row (K256Fq_Square_row1 a0 a1 a2 a3 a1 x39 x41 x43 x45 x46) into HRow1.
  destruct (fiatFqSquare_row1 [a0; a1; a2; a3] a1 x39 x41 x43 x45 x46) as [[[[x91 x93] x95] x97] x99].
  destruct HRow1 as (? & ? & ? & ? & ? & q1 & Hq1 & E1).
  pose proof (redc_step _ _ _ _ _ _ _ _ HR0 Hq1 E1) as HR1.
  run_row (K256Fq_Square_row2 a0 a1 a2 a3 a2 x91 x93 x95 x97 x99) into HRow2.
  destruct (fiatFqSquare_row2 [a0; a1; a2; a3] a2 x91 x93 x95 x97 x99) as [[[[x144 x146] x148] x150] x152].
  destruct HRow2 as (? & ? & ? & ? & ? & q2 & Hq2 & E2).
  pose proof (redc_step _ _ _ _ _ _ _ _ HR1 Hq2 E2) as HR2.
  run_row (K256Fq_Square_row3 a0 a1 a2 a3 a3 x144 x146 x148 x150 x152) into HRow3.
  destruct (fiatFqSquare_row3 [a0; a1; a2; a3] a3 x144 x146 x148 x150 x152) as [[[[x197 x199] x201] x203] x205].
  destruct HRow3 as (? & ? & ? & ? & ? & q3 & Hq3 & E3).
  pose proof (redc_step _ _ _ _ _ _ _ _ HR2 Hq3 E3) as HR3.
  rewrite eval_rows4 in HR3.
  assert (0 <= eval [x197; x199; x201; x203; x205] < 2 * modulus) as HT.
  { apply (redc_bound _ _ _ _ _ HR3); [done|by apply eval_bound|split; [apply (eval_bound _ _ Hb)|lia]]. }
  apply (mont_product_intro _ _ 4 (eval [x197; x199; x201; x203; x205]) _ _); [done|exact HR3|].
  reduce_final K256Fq_cmov_ok modulus.
Qed.
Lemma K256Fq_FromMontgomery_row0 x1 :
  word x1 →
  let '(x20, x22, x24, x26, x27) := fiatFqFromMontgomery_row0  x1 in
  word x20 ∧ word x22 ∧ word x24 ∧ word x26 ∧ 0 <= x27 <= 1 ∧
  ∃ q, word q ∧ W * eval [x20; x22; x24; x26; x27] = 0 + x1 * 1 + q * modulus.
Proof. row_ok fiatFqFromMontgomery_row0 modulus. Qed.
Lemma K256Fq_FromMontgomery_row1 a0 a1 a2 a3 x20 x22 x24 x26 x27 :
  word a0 → word a1 → word a2 → word a3 → word x20 → word x22 → word x24 → word x26 → 0 <= x27 <= 1 →
  let '(x54, x56, x58, x60, x61) := fiatFqFromMontgomery_row1 [a0; a1; a2; a3] x20 x22 x24 x26 x27 in
  word x54 ∧ word x56 ∧ word x58 ∧ word x60 ∧ 0 <= x61 <= 1 ∧
  ∃ q, word q ∧ W * eval [x54; x56; x58; x60; x61] = eval [x20; x22; x24; x26; x27] + a1 * 1 + q * modulus.
Proof. row_ok fiatFqFromMontgomery_row1 modulus. Qed.
Lemma K256Fq_FromMontgomery_row2 a0 a1 a2 a3 x54 x56 x58 x60 x61 :
  word a0 → word a1 → word a2 → word a3 → word x54 → word x56 → word x58 → word x60 → 0 <= x61 <= 1 →
  let '(x88, x90, x92, x94, x95) := fiatFqFromMontgomery_row2 [a0; a1; a2; a3] x54 x56 x58 x60 x61 in
  word x88 ∧ word x90 ∧ word x92 ∧ word x94 ∧ 0 <= x95 <= 1 ∧
  ∃ q, word q ∧ W * eval [x88; x90; x92; x94; x95] = eval [x54; x56; x58; x60; x61] + a2 * 1 + q * modulus.
Proof. row_ok fiatFqFromMontgomery_row2 modulus. Qed.
Lemma K256Fq_FromMontgomery_row3 a0 a1 a2 a3 x88 x90 x92 x94 x95 :
  word a0 → word a1 → word a2 → word a3 → word x88 → word x90 → word x92 → word x94 → 0 <= x95 <= 1 →
  let '(x122, x124, x126, x128, x129) := fiatFqFromMontgomery_row3 [a0; a1; a2; a3] x88 x90 x92 x94 x95 in
  word x122 ∧ word x124 ∧ word x126 ∧ word x128 ∧ 0 <= x129 <= 1 ∧
  ∃ q, word q ∧ W * eval [x122; x124; x126; x128; x129] = eval [x88; x90; x92; x94; x95] + a3 * 1 + q * modulus.
Proof. row_ok fiatFqFromMontgomery_row3 modulus. Qed.
Lemma K256Fq_FromMontgomery_ok a : words 4 a →
  mont_product 4 modulus (eval a) 1 (fiatFqFromMontgomery a).
Proof.
  intros Ha.
  destruct (words_inv4 a Ha) as (a0 & a1 & a2 & a3 & -> & Ha0 & Ha1 & Ha2 & Ha3).
  unfold fiatFqFromMontgomery. cbn [nth]. cbv zeta.
  run_row (K256Fq_FromMontgomery_row0 a0) into HRow0.
  destruct (fiatFqFromMontgomery_row0 a0) as [[[[x20 x22] x24] x26] x27].
  destruct HRow0 as (? & ? & ? & ? & ? & q0 & Hq0 & E0).
  pose proof (redc_step _ _ _ _ _ _ _ _ (redc_0 modulus (1)) Hq0 E0) as HR0.
  run_row (K256Fq_FromMontgomery_row1 a0 a1 a2 a3 x20 x22 x24 x26 x27) into HRow1.
  destruct (fiatFqFromMontgomery_row1 [a0; a1; a2; a3] x20 x22 x24 x26 x27) as [[[[x54 x56] x58] x60] x61].
  destruct HRow1 as (? & ? & ? & ? & ? & q1 & Hq1 & E1).
  pose proof (redc_step _ _ _ _ _ _ _ _ HR0 Hq1 E1) as HR1.
  run_row (K256Fq_FromMontgomery_row2 a0 a1 a2 a3 x54 x56 x58 x60 x61) into HRow2.
  destruct (fiatFqFromMontgomery_row2 [a0; a1; a2; a3] x54 x56 x58 x60 x61) as [[[[x88 x90] x92] x94] x95].
  destruct HRow2 as (? & ? & ? & ? & ? & q2 & Hq2 & E2).
  pose proof (redc_step _ _ _ _ _ _ _ _ HR1 Hq2 E2) as HR2.
  run_row (K256Fq_FromMontgomery_row3 a0 a1 a2 a3 x88 x90 x92 x94 x95) into HRow3.
  destruct (fiatFqFromMontgomery_row3 [a0; a1; a2; a3] x88 x90 x92 x94 x95) as [[[[x122 x124] x126] x128] x129].
  destruct HRow3 as (? & ? & ? & ? & ? & q3 & Hq3 & E3).
  pose proof (redc_step _ _ _ _ _ _ _ _ HR2 Hq3 E3) as HR3.
  rewrite eval_rows4 in HR3.
  assert (0 <= eval [x122; x124; x126; x128; x129] < 2 * modulus) as HT.
  { apply (redc_bound _ _ _ _ _ HR3); [done|by apply eval_bound|done]. }
  apply (mont_product_intro _ _ 4 (eval [x122; x124; x126; x128; x129]) _ _); [done|exact HR3|].
  reduce_final K256Fq_cmov_ok modulus.
Qed.
Lemma K256Fq_ToMontgomery_row0 x4 :
  word x4 →
  let '(x37, x39, x41, x43, x44) := fiatFqToMontgomery_row0  x4 in
  word x37 ∧ word x39 ∧ word x41 ∧ word x43 ∧ 0 <= x44 <= 1 ∧
  ∃ q, word q ∧ W * eval [x37; x39; x41; x43; x44] = 0 + x4 * R2 + q * modulus.
Proof. unfold R2. row_ok fiatFqToMontgomery_row0 modulus. Qed.
Lemma K256Fq_ToMontgomery_row1 x1 x37 x39 x41 x43 x44 :
  word x1 → word x37 → word x39 → word x41 → word x43 → 0 <= x44 <= 1 →
  let '(x85, x87, x89, x91, x92) := fiatFqToMontgomery_row1  x1 x37 x39 x41 x43 x44 in
  word x85 ∧ word x87 ∧ word x89 ∧ word x91 ∧ 0 <= x92 <= 1 ∧
  ∃ q, word q ∧ W * eval [x85; x87; x89; x91; x92] = eval [x37; x39; x41; x43; x44] + x1 * R2 + q * modulus.
Proof. unfold R2. row_ok fiatFqToMontgomery_row1 modulus. Qed.
Lemma K256Fq_ToMontgomery_row2 x2 x85 x87 x89 x91 x92 :
  word x2 → word x85 → word x87 → word x89 → word x91 → 0 <= x92 <= 1 →
  let '(x133, x135, x137, x139, x140) := fiatFqToMontgomery_row2  x2 x85 x87 x89 x91 x92 in
  word x133 ∧ word x135 ∧ word x137 ∧ word x139 ∧ 0 <= x140 <= 1 ∧
  ∃ q, word q ∧ W * eval [x133; x135; x137; x139; x140] = eval [x85; x87; x89; x91; x92] + x2 * R2 + q * modulus.
Proof. exact (K256Fq_ToMontgomery_row1 x2 x85 x87 x89 x91 x92). Qed.
Lemma K256Fq_ToMontgomery_row3 x3 x133 x135 x137 x139 x140 :
  word x3 → word x133 → word x135 → word x137 → word x139 → 0 <= x140 <= 1 →
  let '(x181, x183, x185, x187, x188) := fiatFqToMontgomery_row3  x3 x133 x135 x137 x139 x140 in
  word x181 ∧ word x183 ∧ word x185 ∧ word x187 ∧ 0 <= x188 <= 1 ∧
  ∃ q, word q ∧ W * eval [x181; x183; x185; x187; x188] = eval [x133; x135; x137; x139; x140] + x3 * R2 + q * modulus.
Proof. exact (K256Fq_ToMontgomery_row1 x3 x133 x135 x137 x139 x140). Qed.
Lemma K256Fq_ToMontgomery_ok a : words 4 a →
  mont_product 4 modulus (eval a) R2 (fiatFqToMontgomery a).
Proof.
  intros Ha.
  destruct (words_inv4 a Ha) as (a0 & a1 & a2 & a3 & -> & Ha0 & Ha1 & Ha2 & Ha3).
  unfold fiatFqToMontgomery. cbn [nth]. cbv zeta.
  run_row (K256Fq_ToMontgomery_row0 a0) into HRow0.
  destruct (fiatFqToMontgomery_row0 a0) as [[[[x37 x39] x41] x43] x44].
  destruct HRow0 as (? & ? & ? & ? & ? & q0 & Hq0 & E0).
  pose proof (redc_step _ _ _ _ _ _ _ _ (redc_0 modulus (R2)) Hq0 E0) as HR0.
  run_row (K256Fq_ToMontgomery_row1 a1 x37 x39 x41 x43 x44) into HRow1.
  destruct (fiatFqToMontgomery_row1 a1 x37 x39 x41 x43 x44) as [[[[x85 x87] x89] x91] x92].
  destruct HRow1 as (? & ? & ? & ? & ? & q1 & Hq1 & E1).
  pose proof (redc_step _ _ _ _ _ _ _ _ HR0 Hq1 E1) as HR1.
  run_row (K256Fq_ToMontgomery_row2 a2 x85 x87 x89 x91 x92) into HRow2.
  destruct (fiatFqToMontgomery_row2 a2 x85 x87 x89 x91 x92) as [[[[x133 x135] x137] x139] x140].
  destruct HRow2 as (? & ? & ? & ? & ? & q2 & Hq2 & E2).
  pose proof (redc_step _ _ _ _ _ _ _ _ HR1 Hq2 E2) as HR2.
  run_row (K256Fq_ToMontgomery_row3 a3 x133 x135 x137 x139 x140) into HRow3.
  destruct (fiatFqToMontgomery_row3 a3 x133 x135 x137 x139 x140) as [[[[x181 x183] x185] x187] x188].
  destruct HRow3 as (? & ? & ? & ? & ? & q3 & Hq3 & E3).
  pose proof (redc_step _ _ _ _ _ _ _ _ HR2 Hq3 E3) as HR3.
  rewrite eval_rows4 in HR3.
  assert (0 <= eval [x181; x183; x185; x187; x188] < 2 * modulus) as HT.
  { apply (redc_bound _ _ _ _ _ HR3); [done|by apply eval_bound|done]. }
  apply (mont_product_intro _ _ 4 (eval [x181; x183; x185; x187; x188]) _ _); [done|exact HR3|].
  reduce_final K256Fq_cmov_ok modulus.
Qed.

Lemma K256Fq_Add_ok a b : valid 4 modulus a → valid 4 modulus b →
  valid 4 modulus (fiatFqAdd a b) ∧ eval (fiatFqAdd a b) = (eval a + eval b) mod modulus.
Proof.
  intros [Ha Hal] [Hb Hbl].
  assert (0 <= eval a + eval b < 2 * modulus) as HT.
  { pose proof (eval_bound _ _ Ha). pose proof (eval_bound _ _ Hb). lia. }
  destruct (words_inv4 a Ha) as (a0 & a1 & a2 & a3 & -> & Ha0 & Ha1 & Ha2 & Ha3).
  destruct (words_inv4 b Hb) as (b0 & b1 & b2 & b3 & -> & Hb0 & Hb1 & Hb2 & Hb3).
  unfold fiatFqAdd. cbn [nth]. cbv zeta. clear Hal Hbl.
  add_final K256Fq_cmov_ok modulus.
Qed.
Lemma K256Fq_Sub_ok a b : valid 4 modulus a → valid 4 modulus b →
  valid 4 modulus (fiatFqSub a b) ∧ eval (fiatFqSub a b) = (eval a - eval b) mod modulus.
Proof.
  intros [Ha Hal] [Hb Hbl]. pose proof (conj (proj1 (eval_bound _ _ Ha)) Hal) as HA. pose proof (conj (proj1 (eval_bound _ _ Hb)) Hbl) as HB.
  destruct (words_inv4 a Ha) as (a0 & a1 & a2 & a3 & -> & Ha0 & Ha1 & Ha2 & Ha3).
  destruct (words_inv4 b Hb) as (b0 & b1 & b2 & b3 & -> & Hb0 & Hb1 & Hb2 & Hb3).
  unfold fiatFqSub. cbn [nth]. cbv zeta. clear Hal Hbl. do 4 word_step.
  sub_final K256Fq_cmov_ok modulus [s; s0; s1; s2] d2.
Qed.
Lemma K256Fq_Opp_ok a : valid 4 modulus a →
  valid 4 modulus (fiatFqOpp a) ∧ eval (fiatFqOpp a) = (- eval a) mod modulus.
Proof.
  intros [Ha Hal]. pose proof (conj (proj1 (eval_bound _ _ Ha)) Hal) as HB. assert (0 <= 0 < modulus) as HA by done.
  destruct (words_inv4 a Ha) as (a0 & a1 & a2 & a3 & -> & Ha0 & Ha1 & Ha2 & Ha3).
  rewrite <-(Z.sub_0_l (eval _)). unfold fiatFqOpp. cbn [nth]. cbv zeta. clear Hal. do 4 word_step.
  sub_final K256Fq_cmov_ok modulus [s; s0; s1; s2] d2.
Qed.
Lemma K256Fq_Nonzero_ok a : words 4 a → word (fiatFqNonzero a) ∧ (fiatFqNonzero a = 0 ↔ eval a = 0).
Proof.
  intros Ha. pose proof (eval_zero a (proj2 Ha)) as Hz.
  destruct (words_inv4 a Ha) as (a0 & a1 & a2 & a3 & -> & Ha0 & Ha1 & Ha2 & Ha3).
  rewrite Hz. unfold fiatFqNonzero. cbn [nth]. cbv zeta. split; [repeat (apply word_lor; [assumption|]); assumption|].
  rewrite !Forall_cons, !Z.lor_eq_0_iff. naive_solver.
Qed.
Lemma K256Fq_Selectznz_ok c a b : 0 <= c <= 1 → words 4 a → words 4 b →
  fiatFqSelectznz c a b = if c =? 0 then a else b.
Proof.
  intros Hc Ha Hb.
  destruct (words_inv4 a Ha) as (a0 & a1 & a2 & a3 & -> & Ha0 & Ha1 & Ha2 & Ha3).
  destruct (words_inv4 b Hb) as (b0 & b1 & b2 & b3 & -> & Hb0 & Hb1 & Hb2 & Hb3).
  unfold fiatFqSelectznz. cbn [nth]. cbv zeta. rewrite !K256Fq_cmov_ok by assumption. by destruct (c =? 0).
Qed.
Lemma K256Fq_ToBytes_ok a : words 4 a → fiatFqToBytes a = a ≫= word_bytes.
Proof. intros Ha.  destruct (words_inv4 a Ha) as (a0 & a1 & a2 & a3 & -> & Ha0 & Ha1 & Ha2 & Ha3). reflexivity. Qed.
Lemma K256Fq_FromBytes_ok b : length b = 32%nat → fiatFqFromBytes b = le_words 4 b.
Proof. intros Hb. do 32 (destruct b as [|? b]; [discriminate|]). destruct b; [reflexivity|discriminate]. Qed.
Lemma K256Fq_SetOne_ok : valid 4 modulus fiatFqSetOne ∧ eval fiatFqSetOne = W ^ 4 mod modulus.
Proof. unfold valid. cbn [fiatFqSetOne]. split; [split; [words_list|]|]; cbn [eval foldr fiatFqSetOne]; rewrite W_val; vm_compute; reflexivity. Qed.
Lemma K256Fq_Msat_ok : words 5 fiatFqMsat ∧ eval fiatFqMsat = modulus.
Proof. split; [words_list|cbn [eval foldr fiatFqMsat]; rewrite W_val; vm_compute; reflexivity]. Qed.

Lemma K256Fq_Divstep_select dw f0 f1 f2 f3 f4 g0 g1 g2 g3 g4 v0 v1 v2 v3 r0 r1 r2 r3 :
  word dw → words 5 [f0; f1; f2; f3; f4] → words 5 [g0; g1; g2; g3; g4] → valid 4 modulus [v0; v1; v2; v3] → valid 4 modulus [r0; r1; r2; r3] →
  - 2 ^ 62 < signed64 dw < 2 ^ 62 →
  let b := (0 <? signed64 dw) && Z.odd g0 in
  let '(x3, x6, x7, x8, x9, x10, x11, x22, x23, x24, x25, x26, x27, x28, x29, x30, x31, x33, x35, x37, x39, x41, x43, x45, x48) := fiatFqDivstep_select dw [f0; f1; f2; f3; f4] [g0; g1; g2; g3; g4] [v0; v1; v2; v3] [r0; r1; r2; r3] in
  x3 = Z.b2z b ∧ (word x6 ∧ signed64 x6 = if b then - signed64 dw else signed64 dw) ∧
  [x7; x8; x9; x10; x11] = (if b then [g0; g1; g2; g3; g4] else [f0; f1; f2; f3; f4]) ∧ words 5 [x22; x23; x24; x25; x26] ∧
  (∃ k, eval [x22; x23; x24; x25; x26] = (if b then - eval [f0; f1; f2; f3; f4] else eval [g0; g1; g2; g3; g4]) + k * W ^ Z.of_nat 5) ∧
  [x27; x28; x29; x30] = (if b then [r0; r1; r2; r3] else [v0; v1; v2; v3]) ∧ words 4 [x31; x33; x35; x37] ∧ words 4 [x39; x41; x43; x45] ∧ 0 <= x48 <= 1 ∧
  valid 4 modulus (if x48 =? 0 then [x39; x41; x43; x45] else [x31; x33; x35; x37]) ∧
  eval (if x48 =? 0 then [x39; x41; x43; x45] else [x31; x33; x35; x37]) = (2 * eval [x27; x28; x29; x30]) mod modulus.
Proof. divstep_select_ok fiatFqDivstep_select K256Fq_cmov_ok modulus. Qed.
Lemma K256Fq_Divstep_negate_ok v : fiatFqDivstep_negate v = fiatFqOpp v.
Proof. reflexivity. Qed.
Lemma K256Fq_Divstep_ok dw F G V R st : represents 4 modulus (dw, F, G, V, R) st → step_range modulus st →
  represents 4 modulus (fiatFqDivstep dw F G V R) (divstep modulus st).
Proof.
  destruct st as [[[[d f] g] v] r]. intros Hrep Hrange. pose proof Hrep as (Hdw & Hd & [HF Ef] & [HG Eg] & [HV Ev] & [HR Er]). pose proof (proj1 Hrange) as Hdr.
  destruct (K256Fq_Opp_ok V HV) as [Hneg En]. pose proof (proj1 Hneg) as Hn. rewrite Ev in En. subst d. unfold fiatFqDivstep. rewrite K256Fq_Divstep_negate_ok. set (neg := fiatFqOpp V) in *. clearbody neg.
  destruct (words_inv5 F HF) as (f0 & f1 & f2 & f3 & f4 & -> & Hf0 & Hf1 & Hf2 & Hf3 & Hf4).
  destruct (words_inv5 G HG) as (g0 & g1 & g2 & g3 & g4 & -> & Hg0 & Hg1 & Hg2 & Hg3 & Hg4).
  destruct (words_inv4 V (proj1 HV)) as (v0 & v1 & v2 & v3 & -> & Hv0 & Hv1 & Hv2 & Hv3).
  destruct (words_inv4 R (proj1 HR)) as (r0 & r1 & r2 & r3 & -> & Hr0 & Hr1 & Hr2 & Hr3).
  destruct (words_inv4 neg Hn) as (n0 & n1 & n2 & n3 & -> & Hn0 & Hn1 & Hn2 & Hn3).
  pose proof (K256Fq_Divstep_select dw f0 f1 f2 f3 f4 g0 g1 g2 g3 g4 v0 v1 v2 v3 r0 r1 r2 r3 Hdw HF HG HV HR Hdr) as Hsel.
  cbv zeta in Hsel |- *. destruct (fiatFqDivstep_select _ _ _ _ _) as [[[[[[[[[[[[[[[[[[[[[[[[x3 x6] x7] x8] x9] x10] x11] x22] x23] x24] x25] x26] x27] x28] x29] x30] x31] x33] x35] x37] x39] x41] x43] x45] x48].
  destruct Hsel as (-> & [Hx6 Ex6] & HFF & HGG & [kG EG] & HVV & Hdbl & Hsub & Hc & HVd & EVd).
  divstep_ok fiatFqCmovznzU64 K256Fq_cmov_ok modulus 4%nat dw g0 [x7; x8; x9; x10; x11] [x22; x23; x24; x25; x26] [x27; x28; x29; x30] [x31; x33; x35; x37] [x39; x41; x43; x45] [r0; r1; r2; r3] [n0; n1; n2; n3].
  divstep_final K256Fq_cmov_ok modulus dw g Hrep Hrange [x7; x8; x9; x10; x11] [x27; x28; x29; x30] [x22; x23; x24; x25; x26] [n0; n1; n2; n3] HV HR Hneg En Eb Eg.
Qed.
#[export] Instance K256Fq_field : FiatField fiat.
Proof.
  fiat_field fiat.
  - reflexivity.
  - done.
  - rewrite W_val. split; vm_compute; reflexivity.
  - reflexivity.
  - intros a b [Ha _]. by apply K256Fq_Mul_ok.
  - exact K256Fq_Square_ok.
  - exact K256Fq_Add_ok.
  - exact K256Fq_Sub_ok.
  - exact K256Fq_Opp_ok.
  - exact K256Fq_FromMontgomery_ok.
  - intros a Ha. assert ((W ^ Z.of_nat 4) ^ 2 mod modulus = R2) as -> by (rewrite W_val; vm_compute; reflexivity).
    by apply K256Fq_ToMontgomery_ok.
  - exact K256Fq_Nonzero_ok.
  - exact K256Fq_Selectznz_ok.
  - exact K256Fq_ToBytes_ok.
  - exact K256Fq_FromBytes_ok.
  - exact K256Fq_SetOne_ok.
  - exact K256Fq_Msat_ok.
  - fiat_precomp fiatFqDivstepPrecomp.
  - exact K256Fq_Divstep_ok.
Qed.
End K256Fq.
