(* ===== verification/P256Fp.v ===== *)
(** * The base field of P-256 (base/curves/p256/impl/fiat_fp.gen.go)

    The word-by-word Montgomery arithmetic of the field, translated statement
    by statement, and the proof that each operation computes on the numbers it
    represents.  The long functions are cut into their rows, which the
    function runs in order. *)

From Stdlib Require Import ZArith Lia.
From S2P Require Import Prelude Fiat.
Local Open Scope Z_scope.
Local Open Scope word_scope.

Module P256Fp.
Definition modulus : Z := 0xffffffff00000001000000000000000000000000ffffffffffffffffffffffff.

Definition fiatFpCmovznzU64 (arg1 arg2 arg3 : Z) : Z :=
  let x1 := mul64 arg1 0xffffffffffffffff in
  let x2 := Z.lor (Z.land x1 arg3) (Z.land (not64 x1) arg2) in
  x2.

(** The square of the Montgomery radix modulo the prime. *)
Definition R2 : Z := 0x4fffffffdfffffffffffffffefffffffbffffffff0000000000000003.

Definition fiatFpMul_row0 (arg2 : limbs) (x4 : Z) :=
  let '(x6, x5) := Mul64 x4 arg2.[3] in
  let '(x8, x7) := Mul64 x4 arg2.[2] in
  let '(x10, x9) := Mul64 x4 arg2.[1] in
  let '(x12, x11) := Mul64 x4 arg2.[0] in
  let '(x13, x14) := Add64 x12 x9 0 in
  let '(x15, x16) := Add64 x10 x7 x14 in
  let '(x17, x18) := Add64 x8 x5 x16 in
  let x19 := add64 x18 x6 in
  let '(x21, x20) := Mul64 x11 0xffffffff00000001 in
  let '(x23, x22) := Mul64 x11 0xffffffff in
  let '(x25, x24) := Mul64 x11 0xffffffffffffffff in
  let '(x26, x27) := Add64 x25 x22 0 in
  let x28 := add64 x27 x23 in
  let '(_, x30) := Add64 x11 x24 0 in
  let '(x31, x32) := Add64 x13 x26 x30 in
  let '(x33, x34) := Add64 x15 x28 x32 in
  let '(x35, x36) := Add64 x17 x20 x34 in
  let '(x37, x38) := Add64 x19 x21 x36 in
  (x31, x33, x35, x37, x38).
Definition fiatFpMul_row1 (arg2 : limbs) (x1 x31 x33 x35 x37 x38 : Z) :=
  let '(x40, x39) := Mul64 x1 arg2.[3] in
  let '(x42, x41) := Mul64 x1 arg2.[2] in
  let '(x44, x43) := Mul64 x1 arg2.[1] in
  let '(x46, x45) := Mul64 x1 arg2.[0] in
  let '(x47, x48) := Add64 x46 x43 0 in
  let '(x49, x50) := Add64 x44 x41 x48 in
  let '(x51, x52) := Add64 x42 x39 x50 in
  let x53 := add64 x52 x40 in
  let '(x54, x55) := Add64 x31 x45 0 in
  let '(x56, x57) := Add64 x33 x47 x55 in
  let '(x58, x59) := Add64 x35 x49 x57 in
  let '(x60, x61) := Add64 x37 x51 x59 in
  let '(x62, x63) := Add64 x38 x53 x61 in
  let '(x65, x64) := Mul64 x54 0xffffffff00000001 in
  let '(x67, x66) := Mul64 x54 0xffffffff in
  let '(x69, x68) := Mul64 x54 0xffffffffffffffff in
  let '(x70, x71) := Add64 x69 x66 0 in
  let x72 := add64 x71 x67 in
  let '(_, x74) := Add64 x54 x68 0 in
  let '(x75, x76) := Add64 x56 x70 x74 in
  let '(x77, x78) := Add64 x58 x72 x76 in
  let '(x79, x80) := Add64 x60 x64 x78 in
  let '(x81, x82) := Add64 x62 x65 x80 in
  let x83 := add64 x82 x63 in
  (x75, x77, x79, x81, x83).
Definition fiatFpMul_row2 (arg2 : limbs) (x2 x75 x77 x79 x81 x83 : Z) :=
  let '(x85, x84) := Mul64 x2 arg2.[3] in
  let '(x87, x86) := Mul64 x2 arg2.[2] in
  let '(x89, x88) := Mul64 x2 arg2.[1] in
  let '(x91, x90) := Mul64 x2 arg2.[0] in
  let '(x92, x93) := Add64 x91 x88 0 in
  let '(x94, x95) := Add64 x89 x86 x93 in
  let '(x96, x97) := Add64 x87 x84 x95 in
  let x98 := add64 x97 x85 in
  let '(x99, x100) := Add64 x75 x90 0 in
  let '(x101, x102) := Add64 x77 x92 x100 in
  let '(x103, x104) := Add64 x79 x94 x102 in
  let '(x105, x106) := Add64 x81 x96 x104 in
  let '(x107, x108) := Add64 x83 x98 x106 in
  let '(x110, x109) := Mul64 x99 0xffffffff00000001 in
  let '(x112, x111) := Mul64 x99 0xffffffff in
  let '(x114, x113) := Mul64 x99 0xffffffffffffffff in
  let '(x115, x116) := Add64 x114 x111 0 in
  let x117 := add64 x116 x112 in
  let '(_, x119) := Add64 x99 x113 0 in
  let '(x120, x121) := Add64 x101 x115 x119 in
  let '(x122, x123) := Add64 x103 x117 x121 in
  let '(x124, x125) := Add64 x105 x109 x123 in
  let '(x126, x127) := Add64 x107 x110 x125 in
  let x128 := add64 x127 x108 in
  (x120, x122, x124, x126, x128).
Definition fiatFpMul_row3 (arg2 : limbs) (x3 x120 x122 x124 x126 x128 : Z) :=
  let '(x130, x129) := Mul64 x3 arg2.[3] in
  let '(x132, x131) := Mul64 x3 arg2.[2] in
  let '(x134, x133) := Mul64 x3 arg2.[1] in
  let '(x136, x135) := Mul64 x3 arg2.[0] in
  let '(x137, x138) := Add64 x136 x133 0 in
  let '(x139, x140) := Add64 x134 x131 x138 in
  let '(x141, x142) := Add64 x132 x129 x140 in
  let x143 := add64 x142 x130 in
  let '(x144, x145) := Add64 x120 x135 0 in
  let '(x146, x147) := Add64 x122 x137 x145 in
  let '(x148, x149) := Add64 x124 x139 x147 in
  let '(x150, x151) := Add64 x126 x141 x149 in
  let '(x152, x153) := Add64 x128 x143 x151 in
  let '(x155, x154) := Mul64 x144 0xffffffff00000001 in
  let '(x157, x156) := Mul64 x144 0xffffffff in
  let '(x159, x158) := Mul64 x144 0xffffffffffffffff in
  let '(x160, x161) := Add64 x159 x156 0 in
  let x162 := add64 x161 x157 in
  let '(_, x164) := Add64 x144 x158 0 in
  let '(x165, x166) := Add64 x146 x160 x164 in
  let '(x167, x168) := Add64 x148 x162 x166 in
  let '(x169, x170) := Add64 x150 x154 x168 in
  let '(x171, x172) := Add64 x152 x155 x170 in
  let x173 := add64 x172 x153 in
  (x165, x167, x169, x171, x173).
Definition fiatFpMul (arg1 arg2 : limbs) : limbs :=
  let x1 := arg1.[1] in
  let x2 := arg1.[2] in
  let x3 := arg1.[3] in
  let x4 := arg1.[0] in
  let '(x31, x33, x35, x37, x38) := fiatFpMul_row0 arg2 x4 in
  let '(x75, x77, x79, x81, x83) := fiatFpMul_row1 arg2 x1 x31 x33 x35 x37 x38 in
  let '(x120, x122, x124, x126, x128) := fiatFpMul_row2 arg2 x2 x75 x77 x79 x81 x83 in
  let '(x165, x167, x169, x171, x173) := fiatFpMul_row3 arg2 x3 x120 x122 x124 x126 x128 in
  let '(x174, x175) := Sub64 x165 0xffffffffffffffff 0 in
  let '(x176, x177) := Sub64 x167 0xffffffff x175 in
  let '(x178, x179) := Sub64 x169 0 x177 in
  let '(x180, x181) := Sub64 x171 0xffffffff00000001 x179 in
  let '(_, x183) := Sub64 x173 0 x181 in
  let x184 := fiatFpCmovznzU64 x183 x174 x165 in
  let x185 := fiatFpCmovznzU64 x183 x176 x167 in
  let x186 := fiatFpCmovznzU64 x183 x178 x169 in
  let x187 := fiatFpCmovznzU64 x183 x180 x171 in
  [x184; x185; x186; x187].

Definition fiatFpSquare_row0 (arg1 : limbs) (x4 : Z) :=
  let '(x6, x5) := Mul64 x4 arg1.[3] in
  let '(x8, x7) := Mul64 x4 arg1.[2] in
  let '(x10, x9) := Mul64 x4 arg1.[1] in
  let '(x12, x11) := Mul64 x4 arg1.[0] in
  let '(x13, x14) := Add64 x12 x9 0 in
  let '(x15, x16) := Add64 x10 x7 x14 in
  let '(x17, x18) := Add64 x8 x5 x16 in
  let x19 := add64 x18 x6 in
  let '(x21, x20) := Mul64 x11 0xffffffff00000001 in
  let '(x23, x22) := Mul64 x11 0xffffffff in
  let '(x25, x24) := Mul64 x11 0xffffffffffffffff in
  let '(x26, x27) := Add64 x25 x22 0 in
  let x28 := add64 x27 x23 in
  let '(_, x30) := Add64 x11 x24 0 in
  let '(x31, x32) := Add64 x13 x26 x30 in
  let '(x33, x34) := Add64 x15 x28 x32 in
  let '(x35, x36) := Add64 x17 x20 x34 in
  let '(x37, x38) := Add64 x19 x21 x36 in
  (x31, x33, x35, x37, x38).
Definition fiatFpSquare_row1 (arg1 : limbs) (x1 x31 x33 x35 x37 x38 : Z) :=
  let '(x40, x39) := Mul64 x1 arg1.[3] in
  let '(x42, x41) := Mul64 x1 arg1.[2] in
  let '(x44, x43) := Mul64 x1 arg1.[1] in
  let '(x46, x45) := Mul64 x1 arg1.[0] in
  let '(x47, x48) := Add64 x46 x43 0 in
  let '(x49, x50) := Add64 x44 x41 x48 in
  let '(x51, x52) := Add64 x42 x39 x50 in
  let x53 := add64 x52 x40 in
  let '(x54, x55) := Add64 x31 x45 0 in
  let '(x56, x57) := Add64 x33 x47 x55 in
  let '(x58, x59) := Add64 x35 x49 x57 in
  let '(x60, x61) := Add64 x37 x51 x59 in
  let '(x62, x63) := Add64 x38 x53 x61 in
  let '(x65, x64) := Mul64 x54 0xffffffff00000001 in
  let '(x67, x66) := Mul64 x54 0xffffffff in
  let '(x69, x68) := Mul64 x54 0xffffffffffffffff in
  let '(x70, x71) := Add64 x69 x66 0 in
  let x72 := add64 x71 x67 in
  let '(_, x74) := Add64 x54 x68 0 in
  let '(x75, x76) := Add64 x56 x70 x74 in
  let '(x77, x78) := Add64 x58 x72 x76 in
  let '(x79, x80) := Add64 x60 x64 x78 in
  let '(x81, x82) := Add64 x62 x65 x80 in
  let x83 := add64 x82 x63 in
  (x75, x77, x79, x81, x83).
Definition fiatFpSquare_row2 (arg1 : limbs) (x2 x75 x77 x79 x81 x83 : Z) :=
  let '(x85, x84) := Mul64 x2 arg1.[3] in
  let '(x87, x86) := Mul64 x2 arg1.[2] in
  let '(x89, x88) := Mul64 x2 arg1.[1] in
  let '(x91, x90) := Mul64 x2 arg1.[0] in
  let '(x92, x93) := Add64 x91 x88 0 in
  let '(x94, x95) := Add64 x89 x86 x93 in
  let '(x96, x97) := Add64 x87 x84 x95 in
  let x98 := add64 x97 x85 in
  let '(x99, x100) := Add64 x75 x90 0 in
  let '(x101, x102) := Add64 x77 x92 x100 in
  let '(x103, x104) := Add64 x79 x94 x102 in
  let '(x105, x106) := Add64 x81 x96 x104 in
  let '(x107, x108) := Add64 x83 x98 x106 in
  let '(x110, x109) := Mul64 x99 0xffffffff00000001 in
  let '(x112, x111) := Mul64 x99 0xffffffff in
  let '(x114, x113) := Mul64 x99 0xffffffffffffffff in
  let '(x115, x116) := Add64 x114 x111 0 in
  let x117 := add64 x116 x112 in
  let '(_, x119) := Add64 x99 x113 0 in
  let '(x120, x121) := Add64 x101 x115 x119 in
  let '(x122, x123) := Add64 x103 x117 x121 in
  let '(x124, x125) := Add64 x105 x109 x123 in
  let '(x126, x127) := Add64 x107 x110 x125 in
  let x128 := add64 x127 x108 in
  (x120, x122, x124, x126, x128).
Definition fiatFpSquare_row3 (arg1 : limbs) (x3 x120 x122 x124 x126 x128 : Z) :=
  let '(x130, x129) := Mul64 x3 arg1.[3] in
  let '(x132, x131) := Mul64 x3 arg1.[2] in
  let '(x134, x133) := Mul64 x3 arg1.[1] in
  let '(x136, x135) := Mul64 x3 arg1.[0] in
  let '(x137, x138) := Add64 x136 x133 0 in
  let '(x139, x140) := Add64 x134 x131 x138 in
  let '(x141, x142) := Add64 x132 x129 x140 in
  let x143 := add64 x142 x130 in
  let '(x144, x145) := Add64 x120 x135 0 in
  let '(x146, x147) := Add64 x122 x137 x145 in
  let '(x148, x149) := Add64 x124 x139 x147 in
  let '(x150, x151) := Add64 x126 x141 x149 in
  let '(x152, x153) := Add64 x128 x143 x151 in
  let '(x155, x154) := Mul64 x144 0xffffffff00000001 in
  let '(x157, x156) := Mul64 x144 0xffffffff in
  let '(x159, x158) := Mul64 x144 0xffffffffffffffff in
  let '(x160, x161) := Add64 x159 x156 0 in
  let x162 := add64 x161 x157 in
  let '(_, x164) := Add64 x144 x158 0 in
  let '(x165, x166) := Add64 x146 x160 x164 in
  let '(x167, x168) := Add64 x148 x162 x166 in
  let '(x169, x170) := Add64 x150 x154 x168 in
  let '(x171, x172) := Add64 x152 x155 x170 in
  let x173 := add64 x172 x153 in
  (x165, x167, x169, x171, x173).
Definition fiatFpSquare (arg1 : limbs) : limbs :=
  let x1 := arg1.[1] in
  let x2 := arg1.[2] in
  let x3 := arg1.[3] in
  let x4 := arg1.[0] in
  let '(x31, x33, x35, x37, x38) := fiatFpSquare_row0 arg1 x4 in
  let '(x75, x77, x79, x81, x83) := fiatFpSquare_row1 arg1 x1 x31 x33 x35 x37 x38 in
  let '(x120, x122, x124, x126, x128) := fiatFpSquare_row2 arg1 x2 x75 x77 x79 x81 x83 in
  let '(x165, x167, x169, x171, x173) := fiatFpSquare_row3 arg1 x3 x120 x122 x124 x126 x128 in
  let '(x174, x175) := Sub64 x165 0xffffffffffffffff 0 in
  let '(x176, x177) := Sub64 x167 0xffffffff x175 in
  let '(x178, x179) := Sub64 x169 0 x177 in
  let '(x180, x181) := Sub64 x171 0xffffffff00000001 x179 in
  let '(_, x183) := Sub64 x173 0 x181 in
  let x184 := fiatFpCmovznzU64 x183 x174 x165 in
  let x185 := fiatFpCmovznzU64 x183 x176 x167 in
  let x186 := fiatFpCmovznzU64 x183 x178 x169 in
  let x187 := fiatFpCmovznzU64 x183 x180 x171 in
  [x184; x185; x186; x187].

Definition fiatFpFromMontgomery_row0 (x1 : Z) :=
  let '(x3, x2) := Mul64 x1 0xffffffff00000001 in
  let '(x5, x4) := Mul64 x1 0xffffffff in
  let '(x7, x6) := Mul64 x1 0xffffffffffffffff in
  let '(x8, x9) := Add64 x7 x4 0 in
  let '(_, x11) := Add64 x1 x6 0 in
  let '(x12, x13) := Add64 0 x8 x11 in
  (x2, x3, x5, x9, x12, x13).
Definition fiatFpFromMontgomery_row1 (arg1 : limbs) (x2 x3 x5 x9 x12 x13 : Z) :=
  let '(x14, x15) := Add64 x12 arg1.[1] 0 in
  let '(x17, x16) := Mul64 x14 0xffffffff00000001 in
  let '(x19, x18) := Mul64 x14 0xffffffff in
  let '(x21, x20) := Mul64 x14 0xffffffffffffffff in
  let '(x22, x23) := Add64 x21 x18 0 in
  let '(_, x25) := Add64 x14 x20 0 in
  let '(x26, x27) := Add64 (add64 x15 (add64 x13 (add64 x9 x5))) x22 x25 in
  let '(x28, x29) := Add64 x2 (add64 x23 x19) x27 in
  let '(x30, x31) := Add64 x3 x16 x29 in
  (x17, x26, x28, x30, x31).
Definition fiatFpFromMontgomery_row2 (arg1 : limbs) (x17 x26 x28 x30 x31 : Z) :=
  let '(x32, x33) := Add64 x26 arg1.[2] 0 in
  let '(x34, x35) := Add64 x28 0 x33 in
  let '(x36, x37) := Add64 x30 0 x35 in
  let '(x39, x38) := Mul64 x32 0xffffffff00000001 in
  let '(x41, x40) := Mul64 x32 0xffffffff in
  let '(x43, x42) := Mul64 x32 0xffffffffffffffff in
  let '(x44, x45) := Add64 x43 x40 0 in
  let '(_, x47) := Add64 x32 x42 0 in
  let '(x48, x49) := Add64 x34 x44 x47 in
  let '(x50, x51) := Add64 x36 (add64 x45 x41) x49 in
  let '(x52, x53) := Add64 (add64 x37 (add64 x31 x17)) x38 x51 in
  (x39, x48, x50, x52, x53).
Definition fiatFpFromMontgomery_row3 (arg1 : limbs) (x39 x48 x50 x52 x53 : Z) :=
  let '(x54, x55) := Add64 x48 arg1.[3] 0 in
  let '(x56, x57) := Add64 x50 0 x55 in
  let '(x58, x59) := Add64 x52 0 x57 in
  let '(x61, x60) := Mul64 x54 0xffffffff00000001 in
  let '(x63, x62) := Mul64 x54 0xffffffff in
  let '(x65, x64) := Mul64 x54 0xffffffffffffffff in
  let '(x66, x67) := Add64 x65 x62 0 in
  let '(_, x69) := Add64 x54 x64 0 in
  let '(x70, x71) := Add64 x56 x66 x69 in
  let '(x72, x73) := Add64 x58 (add64 x67 x63) x71 in
  let '(x74, x75) := Add64 (add64 x59 (add64 x53 x39)) x60 x73 in
  let x76 := add64 x75 x61 in
  (x70, x72, x74, x76).
Definition fiatFpFromMontgomery (arg1 : limbs) : limbs :=
  let x1 := arg1.[0] in
  let '(x2, x3, x5, x9, x12, x13) := fiatFpFromMontgomery_row0 x1 in
  let '(x17, x26, x28, x30, x31) := fiatFpFromMontgomery_row1 arg1 x2 x3 x5 x9 x12 x13 in
  let '(x39, x48, x50, x52, x53) := fiatFpFromMontgomery_row2 arg1 x17 x26 x28 x30 x31 in
  let '(x70, x72, x74, x76) := fiatFpFromMontgomery_row3 arg1 x39 x48 x50 x52 x53 in
  let '(x77, x78) := Sub64 x70 0xffffffffffffffff 0 in
  let '(x79, x80) := Sub64 x72 0xffffffff x78 in
  let '(x81, x82) := Sub64 x74 0 x80 in
  let '(x83, x84) := Sub64 x76 0xffffffff00000001 x82 in
  let '(_, x86) := Sub64 0 0 x84 in
  let x87 := fiatFpCmovznzU64 x86 x77 x70 in
  let x88 := fiatFpCmovznzU64 x86 x79 x72 in
  let x89 := fiatFpCmovznzU64 x86 x81 x74 in
  let x90 := fiatFpCmovznzU64 x86 x83 x76 in
  [x87; x88; x89; x90].

Definition fiatFpToMontgomery_row0 (x4 : Z) :=
  let '(x6, x5) := Mul64 x4 0x4fffffffd in
  let '(x8, x7) := Mul64 x4 0xfffffffffffffffe in
  let '(x10, x9) := Mul64 x4 0xfffffffbffffffff in
  let '(x12, x11) := Mul64 x4 3 in
  let '(x13, x14) := Add64 x12 x9 0 in
  let '(x15, x16) := Add64 x10 x7 x14 in
  let '(x17, x18) := Add64 x8 x5 x16 in
  let '(x20, x19) := Mul64 x11 0xffffffff00000001 in
  let '(x22, x21) := Mul64 x11 0xffffffff in
  let '(x24, x23) := Mul64 x11 0xffffffffffffffff in
  let '(x25, x26) := Add64 x24 x21 0 in
  let '(_, x28) := Add64 x11 x23 0 in
  let '(x29, x30) := Add64 x13 x25 x28 in
  let '(x31, x32) := Add64 x15 (add64 x26 x22) x30 in
  let '(x33, x34) := Add64 x17 x19 x32 in
  let '(x35, x36) := Add64 (add64 x18 x6) x20 x34 in
  (x29, x31, x33, x35, x36).
Definition fiatFpToMontgomery_row1 (x1 x29 x31 x33 x35 x36 : Z) :=
  let '(x38, x37) := Mul64 x1 0x4fffffffd in
  let '(x40, x39) := Mul64 x1 0xfffffffffffffffe in
  let '(x42, x41) := Mul64 x1 0xfffffffbffffffff in
  let '(x44, x43) := Mul64 x1 3 in
  let '(x45, x46) := Add64 x44 x41 0 in
  let '(x47, x48) := Add64 x42 x39 x46 in
  let '(x49, x50) := Add64 x40 x37 x48 in
  let '(x51, x52) := Add64 x29 x43 0 in
  let '(x53, x54) := Add64 x31 x45 x52 in
  let '(x55, x56) := Add64 x33 x47 x54 in
  let '(x57, x58) := Add64 x35 x49 x56 in
  let '(x60, x59) := Mul64 x51 0xffffffff00000001 in
  let '(x62, x61) := Mul64 x51 0xffffffff in
  let '(x64, x63) := Mul64 x51 0xffffffffffffffff in
  let '(x65, x66) := Add64 x64 x61 0 in
  let '(_, x68) := Add64 x51 x63 0 in
  let '(x69, x70) := Add64 x53 x65 x68 in
  let '(x71, x72) := Add64 x55 (add64 x66 x62) x70 in
  let '(x73, x74) := Add64 x57 x59 x72 in
  let '(x75, x76) := Add64 (add64 (add64 x58 x36) (add64 x50 x38)) x60 x74 in
  (x69, x71, x73, x75, x76).
Definition fiatFpToMontgomery_row2 (x2 x69 x71 x73 x75 x76 : Z) :=
  let '(x78, x77) := Mul64 x2 0x4fffffffd in
  let '(x80, x79) := Mul64 x2 0xfffffffffffffffe in
  let '(x82, x81) := Mul64 x2 0xfffffffbffffffff in
  let '(x84, x83) := Mul64 x2 3 in
  let '(x85, x86) := Add64 x84 x81 0 in
  let '(x87, x88) := Add64 x82 x79 x86 in
  let '(x89, x90) := Add64 x80 x77 x88 in
  let '(x91, x92) := Add64 x69 x83 0 in
  let '(x93, x94) := Add64 x71 x85 x92 in
  let '(x95, x96) := Add64 x73 x87 x94 in
  let '(x97, x98) := Add64 x75 x89 x96 in
  let '(x100, x99) := Mul64 x91 0xffffffff00000001 in
  let '(x102, x101) := Mul64 x91 0xffffffff in
  let '(x104, x103) := Mul64 x91 0xffffffffffffffff in
  let '(x105, x106) := Add64 x104 x101 0 in
  let '(_, x108) := Add64 x91 x103 0 in
  let '(x109, x110) := Add64 x93 x105 x108 in
  let '(x111, x112) := Add64 x95 (add64 x106 x102) x110 in
  let '(x113, x114) := Add64 x97 x99 x112 in
  let '(x115, x116) := Add64 (add64 (add64 x98 x76) (add64 x90 x78)) x100 x114 in
  (x109, x111, x113, x115, x116).
Definition fiatFpToMontgomery_row3 (x3 x109 x111 x113 x115 x116 : Z) :=
  let '(x118, x117) := Mul64 x3 0x4fffffffd in
  let '(x120, x119) := Mul64 x3 0xfffffffffffffffe in
  let '(x122, x121) := Mul64 x3 0xfffffffbffffffff in
  let '(x124, x123) := Mul64 x3 3 in
  let '(x125, x126) := Add64 x124 x121 0 in
  let '(x127, x128) := Add64 x122 x119 x126 in
  let '(x129, x130) := Add64 x120 x117 x128 in
  let '(x131, x132) := Add64 x109 x123 0 in
  let '(x133, x134) := Add64 x111 x125 x132 in
  let '(x135, x136) := Add64 x113 x127 x134 in
  let '(x137, x138) := Add64 x115 x129 x136 in
  let '(x140, x139) := Mul64 x131 0xffffffff00000001 in
  let '(x142, x141) := Mul64 x131 0xffffffff in
  let '(x144, x143) := Mul64 x131 0xffffffffffffffff in
  let '(x145, x146) := Add64 x144 x141 0 in
  let '(_, x148) := Add64 x131 x143 0 in
  let '(x149, x150) := Add64 x133 x145 x148 in
  let '(x151, x152) := Add64 x135 (add64 x146 x142) x150 in
  let '(x153, x154) := Add64 x137 x139 x152 in
  let '(x155, x156) := Add64 (add64 (add64 x138 x116) (add64 x130 x118)) x140 x154 in
  (x149, x151, x153, x155, x156).
Definition fiatFpToMontgomery (arg1 : limbs) : limbs :=
  let x1 := arg1.[1] in
  let x2 := arg1.[2] in
  let x3 := arg1.[3] in
  let x4 := arg1.[0] in
  let '(x29, x31, x33, x35, x36) := fiatFpToMontgomery_row0 x4 in
  let '(x69, x71, x73, x75, x76) := fiatFpToMontgomery_row1 x1 x29 x31 x33 x35 x36 in
  let '(x109, x111, x113, x115, x116) := fiatFpToMontgomery_row2 x2 x69 x71 x73 x75 x76 in
  let '(x149, x151, x153, x155, x156) := fiatFpToMontgomery_row3 x3 x109 x111 x113 x115 x116 in
  let '(x157, x158) := Sub64 x149 0xffffffffffffffff 0 in
  let '(x159, x160) := Sub64 x151 0xffffffff x158 in
  let '(x161, x162) := Sub64 x153 0 x160 in
  let '(x163, x164) := Sub64 x155 0xffffffff00000001 x162 in
  let '(_, x166) := Sub64 x156 0 x164 in
  let x167 := fiatFpCmovznzU64 x166 x157 x149 in
  let x168 := fiatFpCmovznzU64 x166 x159 x151 in
  let x169 := fiatFpCmovznzU64 x166 x161 x153 in
  let x170 := fiatFpCmovznzU64 x166 x163 x155 in
  [x167; x168; x169; x170].

Definition fiatFpAdd (arg1 arg2 : limbs) : limbs :=
  let '(x1, x2) := Add64 arg1.[0] arg2.[0] 0 in
  let '(x3, x4) := Add64 arg1.[1] arg2.[1] x2 in
  let '(x5, x6) := Add64 arg1.[2] arg2.[2] x4 in
  let '(x7, x8) := Add64 arg1.[3] arg2.[3] x6 in
  let '(x9, x10) := Sub64 x1 0xffffffffffffffff 0 in
  let '(x11, x12) := Sub64 x3 0xffffffff x10 in
  let '(x13, x14) := Sub64 x5 0 x12 in
  let '(x15, x16) := Sub64 x7 0xffffffff00000001 x14 in
  let '(_, x18) := Sub64 x8 0 x16 in
  let x19 := fiatFpCmovznzU64 x18 x9 x1 in
  let x20 := fiatFpCmovznzU64 x18 x11 x3 in
  let x21 := fiatFpCmovznzU64 x18 x13 x5 in
  let x22 := fiatFpCmovznzU64 x18 x15 x7 in
  [x19; x20; x21; x22].

Definition fiatFpSub (arg1 arg2 : limbs) : limbs :=
  let '(x1, x2) := Sub64 arg1.[0] arg2.[0] 0 in
  let '(x3, x4) := Sub64 arg1.[1] arg2.[1] x2 in
  let '(x5, x6) := Sub64 arg1.[2] arg2.[2] x4 in
  let '(x7, x8) := Sub64 arg1.[3] arg2.[3] x6 in
  let x9 := fiatFpCmovznzU64 x8 0 0xffffffffffffffff in
  let '(x10, x11) := Add64 x1 x9 0 in
  let '(x12, x13) := Add64 x3 (Z.land x9 0xffffffff) x11 in
  let '(x14, x15) := Add64 x5 0 x13 in
  let '(x16, _) := Add64 x7 (Z.land x9 0xffffffff00000001) x15 in
  [x10; x12; x14; x16].

Definition fiatFpOpp (arg1 : limbs) : limbs :=
  let '(x1, x2) := Sub64 0 arg1.[0] 0 in
  let '(x3, x4) := Sub64 0 arg1.[1] x2 in
  let '(x5, x6) := Sub64 0 arg1.[2] x4 in
  let '(x7, x8) := Sub64 0 arg1.[3] x6 in
  let x9 := fiatFpCmovznzU64 x8 0 0xffffffffffffffff in
  let '(x10, x11) := Add64 x1 x9 0 in
  let '(x12, x13) := Add64 x3 (Z.land x9 0xffffffff) x11 in
  let '(x14, x15) := Add64 x5 0 x13 in
  let '(x16, _) := Add64 x7 (Z.land x9 0xffffffff00000001) x15 in
  [x10; x12; x14; x16].

Definition fiatFpNonzero (arg1 : limbs) : Z :=
  let x1 := Z.lor arg1.[0] (Z.lor arg1.[1] (Z.lor arg1.[2] arg1.[3])) in
  x1.

Definition fiatFpSelectznz (arg1 : Z) (arg2 arg3 : limbs) : limbs :=
  let x1 := fiatFpCmovznzU64 arg1 arg2.[0] arg3.[0] in
  let x2 := fiatFpCmovznzU64 arg1 arg2.[1] arg3.[1] in
  let x3 := fiatFpCmovznzU64 arg1 arg2.[2] arg3.[2] in
  let x4 := fiatFpCmovznzU64 arg1 arg2.[3] arg3.[3] in
  [x1; x2; x3; x4].

Definition fiatFpToBytes (arg1 : limbs) : list Z :=
  let x1 := arg1.[3] in
  let x2 := arg1.[2] in
  let x3 := arg1.[1] in
  let x4 := arg1.[0] in
  let x5 := Z.land (uint8 x4) 0xff in
  let x6 := shr64 x4 8 in
  let x7 := Z.land (uint8 x6) 0xff in
  let x8 := shr64 x6 8 in
  let x9 := Z.land (uint8 x8) 0xff in
  let x10 := shr64 x8 8 in
  let x11 := Z.land (uint8 x10) 0xff in
  let x12 := shr64 x10 8 in
  let x13 := Z.land (uint8 x12) 0xff in
  let x14 := shr64 x12 8 in
  let x15 := Z.land (uint8 x14) 0xff in
  let x16 := shr64 x14 8 in
  let x17 := Z.land (uint8 x16) 0xff in
  let x18 := uint8 (shr64 x16 8) in
  let x19 := Z.land (uint8 x3) 0xff in
  let x20 := shr64 x3 8 in
  let x21 := Z.land (uint8 x20) 0xff in
  let x22 := shr64 x20 8 in
  let x23 := Z.land (uint8 x22) 0xff in
  let x24 := shr64 x22 8 in
  let x25 := Z.land (uint8 x24) 0xff in
  let x26 := shr64 x24 8 in
  let x27 := Z.land (uint8 x26) 0xff in
  let x28 := shr64 x26 8 in
  let x29 := Z.land (uint8 x28) 0xff in
  let x30 := shr64 x28 8 in
  let x31 := Z.land (uint8 x30) 0xff in
  let x32 := uint8 (shr64 x30 8) in
  let x33 := Z.land (uint8 x2) 0xff in
  let x34 := shr64 x2 8 in
  let x35 := Z.land (uint8 x34) 0xff in
  let x36 := shr64 x34 8 in
  let x37 := Z.land (uint8 x36) 0xff in
  let x38 := shr64 x36 8 in
  let x39 := Z.land (uint8 x38) 0xff in
  let x40 := shr64 x38 8 in
  let x41 := Z.land (uint8 x40) 0xff in
  let x42 := shr64 x40 8 in
  let x43 := Z.land (uint8 x42) 0xff in
  let x44 := shr64 x42 8 in
  let x45 := Z.land (uint8 x44) 0xff in
  let x46 := uint8 (shr64 x44 8) in
  let x47 := Z.land (uint8 x1) 0xff in
  let x48 := shr64 x1 8 in
  let x49 := Z.land (uint8 x48) 0xff in
  let x50 := shr64 x48 8 in
  let x51 := Z.land (uint8 x50) 0xff in
  let x52 := shr64 x50 8 in
  let x53 := Z.land (uint8 x52) 0xff in
  let x54 := shr64 x52 8 in
  let x55 := Z.land (uint8 x54) 0xff in
  let x56 := shr64 x54 8 in
  let x57 := Z.land (uint8 x56) 0xff in
  let x58 := shr64 x56 8 in
  let x59 := Z.land (uint8 x58) 0xff in
  let x60 := uint8 (shr64 x58 8) in
  [x5; x7; x9; x11; x13; x15; x17; x18; x19; x21; x23; x25; x27; x29; x31; x32; x33; x35; x37; x39; x41; x43; x45; x46; x47; x49; x51; x53; x55; x57; x59; x60].

Definition fiatFpFromBytes (arg1 : list Z) : limbs :=
  let x1 := shl64 arg1.[31] 0x38 in
  let x2 := shl64 arg1.[30] 0x30 in
  let x3 := shl64 arg1.[29] 0x28 in
  let x4 := shl64 arg1.[28] 0x20 in
  let x5 := shl64 arg1.[27] 0x18 in
  let x6 := shl64 arg1.[26] 0x10 in
  let x7 := shl64 arg1.[25] 8 in
  let x8 := arg1.[24] in
  let x9 := shl64 arg1.[23] 0x38 in
  let x10 := shl64 arg1.[22] 0x30 in
  let x11 := shl64 arg1.[21] 0x28 in
  let x12 := shl64 arg1.[20] 0x20 in
  let x13 := shl64 arg1.[19] 0x18 in
  let x14 := shl64 arg1.[18] 0x10 in
  let x15 := shl64 arg1.[17] 8 in
  let x16 := arg1.[16] in
  let x17 := shl64 arg1.[15] 0x38 in
  let x18 := shl64 arg1.[14] 0x30 in
  let x19 := shl64 arg1.[13] 0x28 in
  let x20 := shl64 arg1.[12] 0x20 in
  let x21 := shl64 arg1.[11] 0x18 in
  let x22 := shl64 arg1.[10] 0x10 in
  let x23 := shl64 arg1.[9] 8 in
  let x24 := arg1.[8] in
  let x25 := shl64 arg1.[7] 0x38 in
  let x26 := shl64 arg1.[6] 0x30 in
  let x27 := shl64 arg1.[5] 0x28 in
  let x28 := shl64 arg1.[4] 0x20 in
  let x29 := shl64 arg1.[3] 0x18 in
  let x30 := shl64 arg1.[2] 0x10 in
  let x31 := shl64 arg1.[1] 8 in
  let x32 := arg1.[0] in
  let x33 := add64 x31 x32 in
  let x34 := add64 x30 x33 in
  let x35 := add64 x29 x34 in
  let x36 := add64 x28 x35 in
  let x37 := add64 x27 x36 in
  let x38 := add64 x26 x37 in
  let x39 := add64 x25 x38 in
  let x40 := add64 x23 x24 in
  let x41 := add64 x22 x40 in
  let x42 := add64 x21 x41 in
  let x43 := add64 x20 x42 in
  let x44 := add64 x19 x43 in
  let x45 := add64 x18 x44 in
  let x46 := add64 x17 x45 in
  let x47 := add64 x15 x16 in
  let x48 := add64 x14 x47 in
  let x49 := add64 x13 x48 in
  let x50 := add64 x12 x49 in
  let x51 := add64 x11 x50 in
  let x52 := add64 x10 x51 in
  let x53 := add64 x9 x52 in
  let x54 := add64 x7 x8 in
  let x55 := add64 x6 x54 in
  let x56 := add64 x5 x55 in
  let x57 := add64 x4 x56 in
  let x58 := add64 x3 x57 in
  let x59 := add64 x2 x58 in
  let x60 := add64 x1 x59 in
  [x39; x46; x53; x60].

Definition fiatFpSetOne  : limbs :=
  [1; 0xffffffff00000000; 0xffffffffffffffff; 0xfffffffe].

Definition fiatFpMsat  : limbs :=
  [0xffffffffffffffff; 0xffffffff; 0; 0xffffffff00000001; 0].

Definition fiatFpDivstepPrecomp  : limbs :=
  [0x67ffffffb8000000; 0xc000000038000000; 0xd80000007fffffff; 0x2fffffffffffffff].

Definition fiatFpDivstep_select (arg1 : Z) (arg2 arg3 arg4 arg5 : limbs) :=
  let '(x1, _) := Add64 (not64 arg1) 1 0 in
  let x3 := Z.land (shr64 x1 0x3f) (Z.land arg3.[0] 1) in
  let '(x4, _) := Add64 (not64 arg1) 1 0 in
  let x6 := fiatFpCmovznzU64 x3 arg1 x4 in
  let x7 := fiatFpCmovznzU64 x3 arg2.[0] arg3.[0] in
  let x8 := fiatFpCmovznzU64 x3 arg2.[1] arg3.[1] in
  let x9 := fiatFpCmovznzU64 x3 arg2.[2] arg3.[2] in
  let x10 := fiatFpCmovznzU64 x3 arg2.[3] arg3.[3] in
  let x11 := fiatFpCmovznzU64 x3 arg2.[4] arg3.[4] in
  let '(x12, x13) := Add64 1 (not64 arg2.[0]) 0 in
  let '(x14, x15) := Add64 0 (not64 arg2.[1]) x13 in
  let '(x16, x17) := Add64 0 (not64 arg2.[2]) x15 in
  let '(x18, x19) := Add64 0 (not64 arg2.[3]) x17 in
  let '(x20, _) := Add64 0 (not64 arg2.[4]) x19 in
  let x22 := fiatFpCmovznzU64 x3 arg3.[0] x12 in
  let x23 := fiatFpCmovznzU64 x3 arg3.[1] x14 in
  let x24 := fiatFpCmovznzU64 x3 arg3.[2] x16 in
  let x25 := fiatFpCmovznzU64 x3 arg3.[3] x18 in
  let x26 := fiatFpCmovznzU64 x3 arg3.[4] x20 in
  let x27 := fiatFpCmovznzU64 x3 arg4.[0] arg5.[0] in
  let x28 := fiatFpCmovznzU64 x3 arg4.[1] arg5.[1] in
  let x29 := fiatFpCmovznzU64 x3 arg4.[2] arg5.[2] in
  let x30 := fiatFpCmovznzU64 x3 arg4.[3] arg5.[3] in
  let '(x31, x32) := Add64 x27 x27 0 in
  let '(x33, x34) := Add64 x28 x28 x32 in
  let '(x35, x36) := Add64 x29 x29 x34 in
  let '(x37, x38) := Add64 x30 x30 x36 in
  let '(x39, x40) := Sub64 x31 0xffffffffffffffff 0 in
  let '(x41, x42) := Sub64 x33 0xffffffff x40 in
  let '(x43, x44) := Sub64 x35 0 x42 in
  let '(x45, x46) := Sub64 x37 0xffffffff00000001 x44 in
  let '(_, x48) := Sub64 x38 0 x46 in
  (x3, x6, x7, x8, x9, x10, x11, x22, x23, x24, x25, x26, x27, x28, x29, x30, x31, x33, x35, x37, x39, x41, x43, x45, x48).
Definition fiatFpDivstep_negate (arg4 : limbs) : limbs :=
  let x49 := arg4.[3] in
  let x50 := arg4.[2] in
  let x51 := arg4.[1] in
  let x52 := arg4.[0] in
  let '(x53, x54) := Sub64 0 x52 0 in
  let '(x55, x56) := Sub64 0 x51 x54 in
  let '(x57, x58) := Sub64 0 x50 x56 in
  let '(x59, x60) := Sub64 0 x49 x58 in
  let x61 := fiatFpCmovznzU64 x60 0 0xffffffffffffffff in
  let '(x62, x63) := Add64 x53 x61 0 in
  let '(x64, x65) := Add64 x55 (Z.land x61 0xffffffff) x63 in
  let '(x66, x67) := Add64 x57 0 x65 in
  let '(x68, _) := Add64 x59 (Z.land x61 0xffffffff00000001) x67 in
  [x62; x64; x66; x68].
Definition fiatFpDivstep (arg1 : Z) (arg2 arg3 arg4 arg5 : limbs) : divstate :=
  let '(x3, x6, x7, x8, x9, x10, x11, x22, x23, x24, x25, x26, x27, x28, x29, x30, x31, x33, x35, x37, x39, x41, x43, x45, x48) := fiatFpDivstep_select arg1 arg2 arg3 arg4 arg5 in
  let negated := fiatFpDivstep_negate arg4 in
  let x62 := negated.[0] in
  let x64 := negated.[1] in
  let x66 := negated.[2] in
  let x68 := negated.[3] in
  let x70 := fiatFpCmovznzU64 x3 arg5.[0] x62 in
  let x71 := fiatFpCmovznzU64 x3 arg5.[1] x64 in
  let x72 := fiatFpCmovznzU64 x3 arg5.[2] x66 in
  let x73 := fiatFpCmovznzU64 x3 arg5.[3] x68 in
  let x74 := Z.land x22 1 in
  let x75 := fiatFpCmovznzU64 x74 0 x7 in
  let x76 := fiatFpCmovznzU64 x74 0 x8 in
  let x77 := fiatFpCmovznzU64 x74 0 x9 in
  let x78 := fiatFpCmovznzU64 x74 0 x10 in
  let x79 := fiatFpCmovznzU64 x74 0 x11 in
  let '(x80, x81) := Add64 x22 x75 0 in
  let '(x82, x83) := Add64 x23 x76 x81 in
  let '(x84, x85) := Add64 x24 x77 x83 in
  let '(x86, x87) := Add64 x25 x78 x85 in
  let '(x88, _) := Add64 x26 x79 x87 in
  let x90 := fiatFpCmovznzU64 x74 0 x27 in
  let x91 := fiatFpCmovznzU64 x74 0 x28 in
  let x92 := fiatFpCmovznzU64 x74 0 x29 in
  let x93 := fiatFpCmovznzU64 x74 0 x30 in
  let '(x94, x95) := Add64 x70 x90 0 in
  let '(x96, x97) := Add64 x71 x91 x95 in
  let '(x98, x99) := Add64 x72 x92 x97 in
  let '(x100, x101) := Add64 x73 x93 x99 in
  let '(x102, x103) := Sub64 x94 0xffffffffffffffff 0 in
  let '(x104, x105) := Sub64 x96 0xffffffff x103 in
  let '(x106, x107) := Sub64 x98 0 x105 in
  let '(x108, x109) := Sub64 x100 0xffffffff00000001 x107 in
  let '(_, x111) := Sub64 x101 0 x109 in
  let '(x112, _) := Add64 x6 1 0 in
  let x114 := Z.lor (shr64 x80 1) (Z.land (shl64 x82 0x3f) 0xffffffffffffffff) in
  let x115 := Z.lor (shr64 x82 1) (Z.land (shl64 x84 0x3f) 0xffffffffffffffff) in
  let x116 := Z.lor (shr64 x84 1) (Z.land (shl64 x86 0x3f) 0xffffffffffffffff) in
  let x117 := Z.lor (shr64 x86 1) (Z.land (shl64 x88 0x3f) 0xffffffffffffffff) in
  let x118 := Z.lor (Z.land x88 0x8000000000000000) (shr64 x88 1) in
  let x119 := fiatFpCmovznzU64 x48 x39 x31 in
  let x120 := fiatFpCmovznzU64 x48 x41 x33 in
  let x121 := fiatFpCmovznzU64 x48 x43 x35 in
  let x122 := fiatFpCmovznzU64 x48 x45 x37 in
  let x123 := fiatFpCmovznzU64 x111 x102 x94 in
  let x124 := fiatFpCmovznzU64 x111 x104 x96 in
  let x125 := fiatFpCmovznzU64 x111 x106 x98 in
  let x126 := fiatFpCmovznzU64 x111 x108 x100 in
  (x112, [x7; x8; x9; x10; x11], [x114; x115; x116; x117; x118], [x119; x120; x121; x122], [x123; x124; x125; x126]).

(** The functions the wrapper calls. *)
Definition fiat : Fiat := mkFiat 4 256 modulus fiatFpMul fiatFpSquare fiatFpAdd fiatFpSub fiatFpOpp fiatFpFromMontgomery fiatFpToMontgomery fiatFpNonzero fiatFpSelectznz fiatFpToBytes fiatFpFromBytes fiatFpSetOne fiatFpMsat fiatFpDivstepPrecomp fiatFpDivstep.

(** ** Correctness of the operations *)

Lemma P256Fp_cmov_ok c x y : 0 <= c <= 1 → word x → word y → fiatFpCmovznzU64 c x y = if c =? 0 then x else y.
Proof. apply cmov_ok. Qed.
Lemma P256Fp_Mul_row0 b0 b1 b2 b3 x4 :
  word b0 → word b1 → word b2 → word b3 → word x4 →
  let '(x31, x33, x35, x37, x38) := fiatFpMul_row0 [b0; b1; b2; b3] x4 in
  word x31 ∧ word x33 ∧ word x35 ∧ word x37 ∧ 0 <= x38 <= 1 ∧
  ∃ q, word q ∧ W * eval [x31; x33; x35; x37; x38] = 0 + x4 * eval [b0; b1; b2; b3] + q * modulus.
Proof. row_ok fiatFpMul_row0 modulus. Qed.
Lemma P256Fp_Mul_row1 b0 b1 b2 b3 x1 x31 x33 x35 x37 x38 :
  word b0 → word b1 → word b2 → word b3 → word x1 → word x31 → word x33 → word x35 → word x37 → 0 <= x38 <= 1 →
  let '(x75, x77, x79, x81, x83) := fiatFpMul_row1 [b0; b1; b2; b3] x1 x31 x33 x35 x37 x38 in
  word x75 ∧ word x77 ∧ word x79 ∧ word x81 ∧ 0 <= x83 <= 2 ∧
  ∃ q, word q ∧ W * eval [x75; x77; x79; x81; x83] = eval [x31; x33; x35; x37; x38] + x1 * eval [b0; b1; b2; b3] + q * modulus.
Proof. row_ok fiatFpMul_row1 modulus. Qed.
Lemma P256Fp_Mul_row2 b0 b1 b2 b3 x2 x75 x77 x79 x81 x83 :
  word b0 → word b1 → word b2 → word b3 → word x2 → word x75 → word x77 → word x79 → word x81 → 0 <= x83 <= 2 →
  let '(x120, x122, x124, x126, x128) := fiatFpMul_row2 [b0; b1; b2; b3] x2 x75 x77 x79 x81 x83 in
  word x120 ∧ word x122 ∧ word x124 ∧ word x126 ∧ 0 <= x128 <= 2 ∧
  ∃ q, word q ∧ W * eval [x120; x122; x124; x126; x128] = eval [x75; x77; x79; x81; x83] + x2 * eval [b0; b1; b2; b3] + q * modulus.
Proof. row_ok fiatFpMul_row2 modulus. Qed.
Lemma P256Fp_Mul_row3 b0 b1 b2 b3 x3 x120 x122 x124 x126 x128 :
  word b0 → word b1 → word b2 → word b3 → word x3 → word x120 → word x122 → word x124 → word x126 → 0 <= x128 <= 2 →
  let '(x165, x167, x169, x171, x173) := fiatFpMul_row3 [b0; b1; b2; b3] x3 x120 x122 x124 x126 x128 in
  word x165 ∧ word x167 ∧ word x169 ∧ word x171 ∧ 0 <= x173 <= 2 ∧
  ∃ q, word q ∧ W * eval [x165; x167; x169; x171; x173] = eval [x120; x122; x124; x126; x128] + x3 * eval [b0; b1; b2; b3] + q * modulus.
Proof. exact (P256Fp_Mul_row2 b0 b1 b2 b3 x3 x120 x122 x124 x126 x128). Qed.
Lemma P256Fp_Mul_ok a b : words 4 a → valid 4 modulus b →
  mont_product 4 modulus (eval a) (eval b) (fiatFpMul a b).
Proof.
  intros Ha [Hb Hlt].
  destruct (words_inv4 a Ha) as (a0 & a1 & a2 & a3 & -> & Ha0 & Ha1 & Ha2 & Ha3).
  destruct (words_inv4 b Hb) as (b0 & b1 & b2 & b3 & -> & Hb0 & Hb1 & Hb2 & Hb3).
  unfold fiatFpMul. cbn [nth]. cbv zeta.
  run_row (P256Fp_Mul_row0 b0 b1 b2 b3 a0) into HRow0.
  destruct (fiatFpMul_row0 [b0; b1; b2; b3] a0) as [[[[x31 x33] x35] x37] x38].
  destruct HRow0 as (? & ? & ? & ? & ? & q0 & Hq0 & E0).
  pose proof (redc_step _ _ _ _ _ _ _ _ (redc_0 modulus (eval [b0; b1; b2; b3])) Hq0 E0) as HR0.
  run_row (P256Fp_Mul_row1 b0 b1 b2 b3 a1 x31 x33 x35 x37 x38) into HRow1.
  destruct (fiatFpMul_row1 [b0; b1; b2; b3] a1 x31 x33 x35 x37 x38) as [[[[x75 x77] x79] x81] x83].
  destruct HRow1 as (? & ? & ? & ? & ? & q1 & Hq1 & E1).
  pose proof (redc_step _ _ _ _ _ _ _ _ HR0 Hq1 E1) as HR1.
  run_row (P256Fp_Mul_row2 b0 b1 b2 b3 a2 x75 x77 x79 x81 x83) into HRow2.
  destruct (fiatFpMul_row2 [b0; b1; b2; b3] a2 x75 x77 x79 x81 x83) as [[[[x120 x122] x124] x126] x128].
  destruct HRow2 as (? & ? & ? & ? & ? & q2 & Hq2 & E2).
  pose proof (redc_step _ _ _ _ _ _ _ _ HR1 Hq2 E2) as HR2.
  run_row (P256Fp_Mul_row3 b0 b1 b2 b3 a3 x120 x122 x124 x126 x128) into HRow3.
  destruct (fiatFpMul_row3 [b0; b1; b2; b3] a3 x120 x122 x124 x126 x128) as [[[[x165 x167] x169] x171] x173].
  destruct HRow3 as (? & ? & ? & ? & ? & q3 & Hq3 & E3).
  pose proof (redc_step _ _ _ _ _ _ _ _ HR2 Hq3 E3) as HR3.
  rewrite eval_rows4 in HR3.
  assert (0 <= eval [x165; x167; x169; x171; x173] < 2 * modulus) as HT.
  { apply (redc_bound _ _ _ _ _ HR3); [done|by apply eval_bound|split; [apply (eval_bound _ _ Hb)|lia]]. }
  apply (mont_product_intro _ _ 4 (eval [x165; x167; x169; x171; x173]) _ _); [done|exact HR3|].
  reduce_final P256Fp_cmov_ok modulus.
Qed.
Lemma P256Fp_Square_row0 b0 b1 b2 b3 x4 :
  word b0 → word b1 → word b2 → word b3 → word x4 →
  let '(x31, x33, x35, x37, x38) := fiatFpSquare_row0 [b0; b1; b2; b3] x4 in
  word x31 ∧ word x33 ∧ word x35 ∧ word x37 ∧ 0 <= x38 <= 1 ∧
  ∃ q, word q ∧ W * eval [x31; x33; x35; x37; x38] = 0 + x4 * eval [b0; b1; b2; b3] + q * modulus.
Proof. exact (P256Fp_Mul_row0 b0 b1 b2 b3 x4). Qed.
Lemma P256Fp_Square_row1 b0 b1 b2 b3 x1 x31 x33 x35 x37 x38 :
  word b0 → word b1 → word b2 → word b3 → word x1 → word x31 → word x33 → word x35 → word x37 → 0 <= x38 <= 1 →
  let '(x75, x77, x79, x81, x83) := fiatFpSquare_row1 [b0; b1; b2; b3] x1 x31 x33 x35 x37 x38 in
  word x75 ∧ word x77 ∧ word x79 ∧ word x81 ∧ 0 <= x83 <= 2 ∧
  ∃ q, word q ∧ W * eval [x75; x77; x79; x81; x83] = eval [x31; x33; x35; x37; x38] + x1 * eval [b0; b1; b2; b3] + q * modulus.
Proof. exact (P256Fp_Mul_row1 b0 b1 b2 b3 x1 x31 x33 x35 x37 x38). Qed.
Lemma P256Fp_Square_row2 b0 b1 b2 b3 x2 x75 x77 x79 x81 x83 :
  word b0 → word b1 → word b2 → word b3 → word x2 → word x75 → word x77 → word x79 → word x81 → 0 <= x83 <= 2 →
  let '(x120, x122, x124, x126, x128) := fiatFpSquare_row2 [b0; b1; b2; b3] x2 x75 x77 x79 x81 x83 in
  word x120 ∧ word x122 ∧ word x124 ∧ word x126 ∧ 0 <= x128 <= 2 ∧
  ∃ q, word q ∧ W * eval [x120; x122; x124; x126; x128] = eval [x75; x77; x79; x81; x83] + x2 * eval [b0; b1; b2; b3] + q * modulus.
Proof. exact (P256Fp_Mul_row2 b0 b1 b2 b3 x2 x75 x77 x79 x81 x83). Qed.
Lemma P256Fp_Square_row3 b0 b1 b2 b3 x3 x120 x122 x124 x126 x128 :
  word b0 → word b1 → word b2 → word b3 → word x3 → word x120 → word x122 → word x124 → word x126 → 0 <= x128 <= 2 →
  let '(x165, x167, x169, x171, x173) := fiatFpSquare_row3 [b0; b1; b2; b3] x3 x120 x122 x124 x126 x128 in
  word x165 ∧ word x167 ∧ word x169 ∧ word x171 ∧ 0 <= x173 <= 2 ∧
  ∃ q, word q ∧ W * eval [x165; x167; x169; x171; x173] = eval [x120; x122; x124; x126; x128] + x3 * eval [b0; b1; b2; b3] + q * modulus.
Proof. exact (P256Fp_Mul_row2 b0 b1 b2 b3 x3 x120 x122 x124 x126 x128). Qed.
Lemma P256Fp_Square_ok a : valid 4 modulus a →
  mont_product 4 modulus (eval a) (eval a) (fiatFpSquare a).
Proof.
  intros [Ha Hlt]. pose proof Ha as Hb.
  destruct (words_inv4 a Ha) as (a0 & a1 & a2 & a3 & -> & Ha0 & Ha1 & Ha2 & Ha3).
  unfold fiatFpSquare. cbn [nth]. cbv zeta.
  run_row (P256Fp_Square_row0 a0 a1 a2 a3 a0) into HRow0.
  destruct (fiatFpSquare_row0 [a0; a1; a2; a3] a0) as [[[[x31 x33] x35] x37] x38].
  destruct HRow0 as (? & ? & ? & ? & ? & q0 & Hq0 & E0).
  pose proof (redc_step _ _ _ _ _ _ _ _ (redc_0 modulus (eval [a0; a1; a2; a3])) Hq0 E0) as HR0.
  run_row (P256Fp_Square_row1 a0 a1 a2 a3 a1 x31 x33 x35 x37 x38) into HRow1.
  destruct (fiatFpSquare_row1 [a0; a1; a2; a3] a1 x31 x33 x35 x37 x38) as [[[[x75 x77] x79] x81] x83].
  destruct HRow1 as (? & ? & ? & ? & ? & q1 & Hq1 & E1).
  pose proof (redc_step _ _ _ _ _ _ _ _ HR0 Hq1 E1) as HR1.
  run_row (P256Fp_Square_row2 a0 a1 a2 a3 a2 x75 x77 x79 x81 x83) into HRow2.
  destruct (fiatFpSquare_row2 [a0; a1; a2; a3] a2 x75 x77 x79 x81 x83) as [[[[x120 x122] x124] x126] x128].
  destruct HRow2 as (? & ? & ? & ? & ? & q2 & Hq2 & E2).
  pose proof (redc_step _ _ _ _ _ _ _ _ HR1 Hq2 E2) as HR2.
  run_row (P256Fp_Square_row3 a0 a1 a2 a3 a3 x120 x122 x124 x126 x128) into HRow3.
  destruct (fiatFpSquare_row3 [a0; a1; a2; a3] a3 x120 x122 x124 x126 x128) as [[[[x165 x167] x169] x171] x173].
  destruct HRow3 as (? & ? & ? & ? & ? & q3 & Hq3 & E3).
  pose proof (redc_step _ _ _ _ _ _ _ _ HR2 Hq3 E3) as HR3.
  rewrite eval_rows4 in HR3.
  assert (0 <= eval [x165; x167; x169; x171; x173] < 2 * modulus) as HT.
  { apply (redc_bound _ _ _ _ _ HR3); [done|by apply eval_bound|split; [apply (eval_bound _ _ Hb)|lia]]. }
  apply (mont_product_intro _ _ 4 (eval [x165; x167; x169; x171; x173]) _ _); [done|exact HR3|].
  reduce_final P256Fp_cmov_ok modulus.
Qed.
Lemma P256Fp_FromMontgomery_row0 x1 :
  word x1 →
  let '(x2, x3, x5, x9, x12, x13) := fiatFpFromMontgomery_row0  x1 in
  word x2 ∧ 0 <= x3 <= 18446744069414584321 ∧ 0 <= x5 <= 4294967295 ∧ 0 <= x9 <= 1 ∧ word x12 ∧ 0 <= x13 <= 1 ∧
  ∃ q, word q ∧ W * eval [x12; x5 + x9 + x13; x2; x3; 0] = 0 + x1 * 1 + q * modulus.
Proof. row_ok fiatFpFromMontgomery_row0 modulus. Qed.
Lemma P256Fp_FromMontgomery_row1 a0 a1 a2 a3 x2 x3 x5 x9 x12 x13 :
  word a0 → word a1 → word a2 → word a3 → word x2 → 0 <= x3 <= 18446744069414584321 → 0 <= x5 <= 4294967295 → 0 <= x9 <= 1 → word x12 → 0 <= x13 <= 1 →
  let '(x17, x26, x28, x30, x31) := fiatFpFromMontgomery_row1 [a0; a1; a2; a3] x2 x3 x5 x9 x12 x13 in
  0 <= x17 <= 18446744069414584321 ∧ word x26 ∧ word x28 ∧ word x30 ∧ 0 <= x31 <= 1 ∧
  ∃ q, word q ∧ W * eval [x26; x28; x30; x17 + x31; 0] = eval [x12; x5 + x9 + x13; x2; x3; 0] + a1 * 1 + q * modulus.
Proof. row_ok fiatFpFromMontgomery_row1 modulus. Qed.
Lemma P256Fp_FromMontgomery_row2 a0 a1 a2 a3 x17 x26 x28 x30 x31 :
  word a0 → word a1 → word a2 → word a3 → 0 <= x17 <= 18446744069414584321 → word x26 → word x28 → word x30 → 0 <= x31 <= 1 →
  let '(x39, x48, x50, x52, x53) := fiatFpFromMontgomery_row2 [a0; a1; a2; a3] x17 x26 x28 x30 x31 in
  0 <= x39 <= 18446744069414584321 ∧ word x48 ∧ word x50 ∧ word x52 ∧ 0 <= x53 <= 1 ∧
  ∃ q, word q ∧ W * eval [x48; x50; x52; x39 + x53; 0] = eval [x26; x28; x30; x17 + x31; 0] + a2 * 1 + q * modulus.
Proof. row_ok fiatFpFromMontgomery_row2 modulus. Qed.
Lemma P256Fp_FromMontgomery_row3 a0 a1 a2 a3 x39 x48 x50 x52 x53 :
  word a0 → word a1 → word a2 → word a3 → 0 <= x39 <= 18446744069414584321 → word x48 → word x50 → word x52 → 0 <= x53 <= 1 →
  let '(x70, x72, x74, x76) := fiatFpFromMontgomery_row3 [a0; a1; a2; a3] x39 x48 x50 x52 x53 in
  word x70 ∧ word x72 ∧ word x74 ∧ 0 <= x76 <= 18446744069414584322 ∧
  ∃ q, word q ∧ W * eval [x70; x72; x74; x76; 0] = eval [x48; x50; x52; x39 + x53; 0] + a3 * 1 + q * modulus.
Proof. row_ok fiatFpFromMontgomery_row3 modulus. Qed.
Lemma P256Fp_FromMontgomery_ok a : words 4 a →
  mont_product 4 modulus (eval a) 1 (fiatFpFromMontgomery a).
Proof.
  intros Ha.
  destruct (words_inv4 a Ha) as (a0 & a1 & a2 & a3 & -> & Ha0 & Ha1 & Ha2 & Ha3).
  unfold fiatFpFromMontgomery. cbn [nth]. cbv zeta.
  run_row (P256Fp_FromMontgomery_row0 a0) into HRow0.
  destruct (fiatFpFromMontgomery_row0 a0) as [[[[[x2 x3] x5] x9] x12] x13].
  destruct HRow0 as (? & ? & ? & ? & ? & ? & q0 & Hq0 & E0).
  pose proof (redc_step _ _ _ _ _ _ _ _ (redc_0 modulus (1)) Hq0 E0) as HR0.
  run_row (P256Fp_FromMontgomery_row1 a0 a1 a2 a3 x2 x3 x5 x9 x12 x13) into HRow1.
  destruct (fiatFpFromMontgomery_row1 [a0; a1; a2; a3] x2 x3 x5 x9 x12 x13) as [[[[x17 x26] x28] x30] x31].
  destruct HRow1 as (? & ? & ? & ? & ? & q1 & Hq1 & E1).
  pose proof (redc_step _ _ _ _ _ _ _ _ HR0 Hq1 E1) as HR1.
  run_row (P256Fp_FromMontgomery_row2 a0 a1 a2 a3 x17 x26 x28 x30 x31) into HRow2.
  destruct (fiatFpFromMontgomery_row2 [a0; a1; a2; a3] x17 x26 x28 x30 x31) as [[[[x39 x48] x50] x52] x53].
  destruct HRow2 as (? & ? & ? & ? & ? & q2 & Hq2 & E2).
  pose proof (redc_step _ _ _ _ _ _ _ _ HR1 Hq2 E2) as HR2.
  run_row (P256Fp_FromMontgomery_row3 a0 a1 a2 a3 x39 x48 x50 x52 x53) into HRow3.
  destruct (fiatFpFromMontgomery_row3 [a0; a1; a2; a3] x39 x48 x50 x52 x53) as [[[x70 x72] x74] x76].
  destruct HRow3 as (? & ? & ? & ? & q3 & Hq3 & E3).
  pose proof (redc_step _ _ _ _ _ _ _ _ HR2 Hq3 E3) as HR3.
  rewrite eval_rows4 in HR3.
  assert (0 <= eval [x70; x72; x74; x76; 0] < 2 * modulus) as HT.
  { apply (redc_bound _ _ _ _ _ HR3); [done|by apply eval_bound|done]. }
  apply (mont_product_intro _ _ 4 (eval [x70; x72; x74; x76; 0]) _ _); [done|exact HR3|].
  reduce_final P256Fp_cmov_ok modulus.
Qed.
Lemma P256Fp_ToMontgomery_row0 x4 :
  word x4 →
  let '(x29, x31, x33, x35, x36) := fiatFpToMontgomery_row0  x4 in
  word x29 ∧ word x31 ∧ word x33 ∧ word x35 ∧ 0 <= x36 <= 1 ∧
  ∃ q, word q ∧ W * eval [x29; x31; x33; x35; x36] = 0 + x4 * R2 + q * modulus.
Proof. unfold R2. row_ok fiatFpToMontgomery_row0 modulus. Qed.
Lemma P256Fp_ToMontgomery_row1 x1 x29 x31 x33 x35 x36 :
  word x1 → word x29 → word x31 → word x33 → word x35 → 0 <= x36 <= 1 →
  let '(x69, x71, x73, x75, x76) := fiatFpToMontgomery_row1  x1 x29 x31 x33 x35 x36 in
  word x69 ∧ word x71 ∧ word x73 ∧ word x75 ∧ 0 <= x76 <= 1 ∧
  ∃ q, word q ∧ W * eval [x69; x71; x73; x75; x76] = eval [x29; x31; x33; x35; x36] + x1 * R2 + q * modulus.
Proof. unfold R2. row_ok fiatFpToMontgomery_row1 modulus. Qed.
Lemma P256Fp_ToMontgomery_row2 x2 x69 x71 x73 x75 x76 :
  word x2 → word x69 → word x71 → word x73 → word x75 → 0 <= x76 <= 1 →
  let '(x109, x111, x113, x115, x116) := fiatFpToMontgomery_row2  x2 x69 x71 x73 x75 x76 in
  word x109 ∧ word x111 ∧ word x113 ∧ word x115 ∧ 0 <= x116 <= 1 ∧
  ∃ q, word q ∧ W * eval [x109; x111; x113; x115; x116] = eval [x69; x71; x73; x75; x76] + x2 * R2 + q * modulus.
Proof. exact (P256Fp_ToMontgomery_row1 x2 x69 x71 x73 x75 x76). Qed.
Lemma P256Fp_ToMontgomery_row3 x3 x109 x111 x113 x115 x116 :
  word x3 → word x109 → word x111 → word x113 → word x115 → 0 <= x116 <= 1 →
  let '(x149, x151, x153, x155, x156) := fiatFpToMontgomery_row3  x3 x109 x111 x113 x115 x116 in
  word x149 ∧ word x151 ∧ word x153 ∧ word x155 ∧ 0 <= x156 <= 1 ∧
  ∃ q, word q ∧ W * eval [x149; x151; x153; x155; x156] = eval [x109; x111; x113; x115; x116] + x3 * R2 + q * modulus.
Proof. exact (P256Fp_ToMontgomery_row1 x3 x109 x111 x113 x115 x116). Qed.
Lemma P256Fp_ToMontgomery_ok a : words 4 a →
  mont_product 4 modulus (eval a) R2 (fiatFpToMontgomery a).
Proof.
  intros Ha.
  destruct (words_inv4 a Ha) as (a0 & a1 & a2 & a3 & -> & Ha0 & Ha1 & Ha2 & Ha3).
  unfold fiatFpToMontgomery. cbn [nth]. cbv zeta.
  run_row (P256Fp_ToMontgomery_row0 a0) into HRow0.
  destruct (fiatFpToMontgomery_row0 a0) as [[[[x29 x31] x33] x35] x36].
  destruct HRow0 as (? & ? & ? & ? & ? & q0 & Hq0 & E0).
  pose proof (redc_step _ _ _ _ _ _ _ _ (redc_0 modulus (R2)) Hq0 E0) as HR0.
  run_row (P256Fp_ToMontgomery_row1 a1 x29 x31 x33 x35 x36) into HRow1.
  destruct (fiatFpToMontgomery_row1 a1 x29 x31 x33 x35 x36) as [[[[x69 x71] x73] x75] x76].
  destruct HRow1 as (? & ? & ? & ? & ? & q1 & Hq1 & E1).
  pose proof (redc_step _ _ _ _ _ _ _ _ HR0 Hq1 E1) as HR1.
  run_row (P256Fp_ToMontgomery_row2 a2 x69 x71 x73 x75 x76) into HRow2.
  destruct (fiatFpToMontgomery_row2 a2 x69 x71 x73 x75 x76) as [[[[x109 x111] x113] x115] x116].
  destruct HRow2 as (? & ? & ? & ? & ? & q2 & Hq2 & E2).
  pose proof (redc_step _ _ _ _ _ _ _ _ HR1 Hq2 E2) as HR2.
  run_row (P256Fp_ToMontgomery_row3 a3 x109 x111 x113 x115 x116) into HRow3.
  destruct (fiatFpToMontgomery_row3 a3 x109 x111 x113 x115 x116) as [[[[x149 x151] x153] x155] x156].
  destruct HRow3 as (? & ? & ? & ? & ? & q3 & Hq3 & E3).
  pose proof (redc_step _ _ _ _ _ _ _ _ HR2 Hq3 E3) as HR3.
  rewrite eval_rows4 in HR3.
  assert (0 <= eval [x149; x151; x153; x155; x156] < 2 * modulus) as HT.
  { apply (redc_bound _ _ _ _ _ HR3); [done|by apply eval_bound|done]. }
  apply (mont_product_intro _ _ 4 (eval [x149; x151; x153; x155; x156]) _ _); [done|exact HR3|].
  reduce_final P256Fp_cmov_ok modulus.
Qed.

Lemma P256Fp_Add_ok a b : valid 4 modulus a → valid 4 modulus b →
  valid 4 modulus (fiatFpAdd a b) ∧ eval (fiatFpAdd a b) = (eval a + eval b) mod modulus.
Proof.
  intros [Ha Hal] [Hb Hbl].
  assert (0 <= eval a + eval b < 2 * modulus) as HT.
  { pose proof (eval_bound _ _ Ha). pose proof (eval_bound _ _ Hb). lia. }
  destruct (words_inv4 a Ha) as (a0 & a1 & a2 & a3 & -> & Ha0 & Ha1 & Ha2 & Ha3).
  destruct (words_inv4 b Hb) as (b0 & b1 & b2 & b3 & -> & Hb0 & Hb1 & Hb2 & Hb3).
  unfold fiatFpAdd. cbn [nth]. cbv zeta. clear Hal Hbl.
  add_final P256Fp_cmov_ok modulus.
Qed.
Lemma P256Fp_Sub_ok a b : valid 4 modulus a → valid 4 modulus b →
  valid 4 modulus (fiatFpSub a b) ∧ eval (fiatFpSub a b) = (eval a - eval b) mod modulus.
Proof.
  intros [Ha Hal] [Hb Hbl]. pose proof (conj (proj1 (eval_bound _ _ Ha)) Hal) as HA. pose proof (conj (proj1 (eval_bound _ _ Hb)) Hbl) as HB.
  destruct (words_inv4 a Ha) as (a0 & a1 & a2 & a3 & -> & Ha0 & Ha1 & Ha2 & Ha3).
  destruct (words_inv4 b Hb) as (b0 & b1 & b2 & b3 & -> & Hb0 & Hb1 & Hb2 & Hb3).
  unfold fiatFpSub. cbn [nth]. cbv zeta. clear Hal Hbl. do 4 word_step.
  sub_final P256Fp_cmov_ok modulus [s; s0; s1; s2] d2.
Qed.
Lemma P256Fp_Opp_ok a : valid 4 modulus a →
  valid 4 modulus (fiatFpOpp a) ∧ eval (fiatFpOpp a) = (- eval a) mod modulus.
Proof.
  intros [Ha Hal]. pose proof (conj (proj1 (eval_bound _ _ Ha)) Hal) as HB. assert (0 <= 0 < modulus) as HA by done.
  destruct (words_inv4 a Ha) as (a0 & a1 & a2 & a3 & -> & Ha0 & Ha1 & Ha2 & Ha3).
  rewrite <-(Z.sub_0_l (eval _)). unfold fiatFpOpp. cbn [nth]. cbv zeta. clear Hal. do 4 word_step.
  sub_final P256Fp_cmov_ok modulus [s; s0; s1; s2] d2.
Qed.
Lemma P256Fp_Nonzero_ok a : words 4 a → word (fiatFpNonzero a) ∧ (fiatFpNonzero a = 0 ↔ eval a = 0).
Proof.
  intros Ha. pose proof (eval_zero a (proj2 Ha)) as Hz.
  destruct (words_inv4 a Ha) as (a0 & a1 & a2 & a3 & -> & Ha0 & Ha1 & Ha2 & Ha3).
  rewrite Hz. unfold fiatFpNonzero. cbn [nth]. cbv zeta. split; [repeat (apply word_lor; [assumption|]); assumption|].
  rewrite !Forall_cons, !Z.lor_eq_0_iff. naive_solver.
Qed.
Lemma P256Fp_Selectznz_ok c a b : 0 <= c <= 1 → words 4 a → words 4 b →
  fiatFpSelectznz c a b = if c =? 0 then a else b.
Proof.
  intros Hc Ha Hb.
  destruct (words_inv4 a Ha) as (a0 & a1 & a2 & a3 & -> & Ha0 & Ha1 & Ha2 & Ha3).
  destruct (words_inv4 b Hb) as (b0 & b1 & b2 & b3 & -> & Hb0 & Hb1 & Hb2 & Hb3).
  unfold fiatFpSelectznz. cbn [nth]. cbv zeta. rewrite !P256Fp_cmov_ok by assumption. by destruct (c =? 0).
Qed.
Lemma P256Fp_ToBytes_ok a : words 4 a → fiatFpToBytes a = a ≫= word_bytes.
Proof. intros Ha.  destruct (words_inv4 a Ha) as (a0 & a1 & a2 & a3 & -> & Ha0 & Ha1 & Ha2 & Ha3). reflexivity. Qed.
Lemma P256Fp_FromBytes_ok b : length b = 32%nat → fiatFpFromBytes b = le_words 4 b.
Proof. intros Hb. do 32 (destruct b as [|? b]; [discriminate|]). destruct b; [reflexivity|discriminate]. Qed.
Lemma P256Fp_SetOne_ok : valid 4 modulus fiatFpSetOne ∧ eval fiatFpSetOne = W ^ 4 mod modulus.
Proof. unfold valid. cbn [fiatFpSetOne]. split; [split; [words_list|]|]; cbn [eval foldr fiatFpSetOne]; rewrite W_val; vm_compute; reflexivity. Qed.
Lemma P256Fp_Msat_ok : words 5 fiatFpMsat ∧ eval fiatFpMsat = modulus.
Proof. split; [words_list|cbn [eval foldr fiatFpMsat]; rewrite W_val; vm_compute; reflexivity]. Qed.

Lemma P256Fp_Divstep_select dw f0 f1 f2 f3 f4 g0 g1 g2 g3 g4 v0 v1 v2 v3 r0 r1 r2 r3 :
  word dw → words 5 [f0; f1; f2; f3; f4] → words 5 [g0; g1; g2; g3; g4] → valid 4 modulus [v0; v1; v2; v3] → valid 4 modulus [r0; r1; r2; r3] →
  - 2 ^ 62 < signed64 dw < 2 ^ 62 →
  let b := (0 <? signed64 dw) && Z.odd g0 in
  let '(x3, x6, x7, x8, x9, x10, x11, x22, x23, x24, x25, x26, x27, x28, x29, x30, x31, x33, x35, x37, x39, x41, x43, x45, x48) := fiatFpDivstep_select dw [f0; f1; f2; f3; f4] [g0; g1; g2; g3; g4] [v0; v1; v2; v3] [r0; r1; r2; r3] in
  x3 = Z.b2z b ∧ (word x6 ∧ signed64 x6 = if b then - signed64 dw else signed64 dw) ∧
  [x7; x8; x9; x10; x11] = (if b then [g0; g1; g2; g3; g4] else [f0; f1; f2; f3; f4]) ∧ words 5 [x22; x23; x24; x25; x26] ∧
  (∃ k, eval [x22; x23; x24; x25; x26] = (if b then - eval [f0; f1; f2; f3; f4] else eval [g0; g1; g2; g3; g4]) + k * W ^ Z.of_nat 5) ∧
  [x27; x28; x29; x30] = (if b then [r0; r1; r2; r3] else [v0; v1; v2; v3]) ∧ words 4 [x31; x33; x35; x37] ∧ words 4 [x39; x41; x43; x45] ∧ 0 <= x48 <= 1 ∧
  valid 4 modulus (if x48 =? 0 then [x39; x41; x43; x45] else [x31; x33; x35; x37]) ∧
  eval (if x48 =? 0 then [x39; x41; x43; x45] else [x31; x33; x35; x37]) = (2 * eval [x27; x28; x29; x30]) mod modulus.
Proof. divstep_select_ok fiatFpDivstep_select P256Fp_cmov_ok modulus. Qed.
Lemma P256Fp_Divstep_negate_ok v : fiatFpDivstep_negate v = fiatFpOpp v.
Proof. reflexivity. Qed.
Lemma P256Fp_Divstep_ok dw F G V R st : represents 4 modulus (dw, F, G, V, R) st → step_range modulus st →
  represents 4 modulus (fiatFpDivstep dw F G V R) (divstep modulus st).
Proof.
  destruct st as [[[[d f] g] v] r]. intros Hrep Hrange. pose proof Hrep as (Hdw & Hd & [HF Ef] & [HG Eg] & [HV Ev] & [HR Er]). pose proof (proj1 Hrange) as Hdr.
  destruct (P256Fp_Opp_ok V HV) as [Hneg En]. pose proof (proj1 Hneg) as Hn. rewrite Ev in En. subst d. unfold fiatFpDivstep. rewrite P256Fp_Divstep_negate_ok. set (neg := fiatFpOpp V) in *. clearbody neg.
  destruct (words_inv5 F HF) as (f0 & f1 & f2 & f3 & f4 & -> & Hf0 & Hf1 & Hf2 & Hf3 & Hf4).
  destruct (words_inv5 G HG) as (g0 & g1 & g2 & g3 & g4 & -> & Hg0 & Hg1 & Hg2 & Hg3 & Hg4).
  destruct (words_inv4 V (proj1 HV)) as (v0 & v1 & v2 & v3 & -> & Hv0 & Hv1 & Hv2 & Hv3).
  destruct (words_inv4 R (proj1 HR)) as (r0 & r1 & r2 & r3 & -> & Hr0 & Hr1 & Hr2 & Hr3).
  destruct (words_inv4 neg Hn) as (n0 & n1 & n2 & n3 & -> & Hn0 & Hn1 & Hn2 & Hn3).
  pose proof (P256Fp_Divstep_select dw f0 f1 f2 f3 f4 g0 g1 g2 g3 g4 v0 v1 v2 v3 r0 r1 r2 r3 Hdw HF HG HV HR Hdr) as Hsel.
  cbv zeta in Hsel |- *. destruct (fiatFpDivstep_select _ _ _ _ _) as [[[[[[[[[[[[[[[[[[[[[[[[x3 x6] x7] x8] x9] x10] x11] x22] x23] x24] x25] x26] x27] x28] x29] x30] x31] x33] x35] x37] x39] x41] x43] x45] x48].
  destruct Hsel as (-> & [Hx6 Ex6] & HFF & HGG & [kG EG] & HVV & Hdbl & Hsub & Hc & HVd & EVd).
  divstep_ok fiatFpCmovznzU64 P256Fp_cmov_ok modulus 4%nat dw g0 [x7; x8; x9; x10; x11] [x22; x23; x24; x25; x26] [x27; x28; x29; x30] [x31; x33; x35; x37] [x39; x41; x43; x45] [r0; r1; r2; r3] [n0; n1; n2; n3].
  divstep_final P256Fp_cmov_ok modulus dw g Hrep Hrange [x7; x8; x9; x10; x11] [x27; x28; x29; x30] [x22; x23; x24; x25; x26] [n0; n1; n2; n3] HV HR Hneg En Eb Eg.
Qed.
#[export] Instance P256Fp_field : FiatField fiat.
Proof.
  fiat_field fiat.
  - reflexivity.
  - done.
  - rewrite W_val. split; vm_compute; reflexivity.
  - reflexivity.
  - intros a b [Ha _]. by apply P256Fp_Mul_ok.
  - exact P256Fp_Square_ok.
  - exact P256Fp_Add_ok.
  - exact P256Fp_Sub_ok.
  - exact P256Fp_Opp_ok.
  - exact P256Fp_FromMontgomery_ok.
  - intros a Ha. assert ((W ^ Z.of_nat 4) ^ 2 mod modulus = R2) as -> by (rewrite W_val; vm_compute; reflexivity).
    by apply P256Fp_ToMontgomery_ok.
  - exact P256Fp_Nonzero_ok.
  - exact P256Fp_Selectznz_ok.
  - exact P256Fp_ToBytes_ok.
  - exact P256Fp_FromBytes_ok.
  - exact P256Fp_SetOne_ok.
  - exact P256Fp_Msat_ok.
  - fiat_precomp fiatFpDivstepPrecomp.
  - exact P256Fp_Divstep_ok.
Qed.
End P256Fp.
