(* ===== verification/Bls12381Fq.v ===== *)
(** * The scalar field of BLS12-381 (base/curves/pairable/bls12381/impl/fiat_fq.gen.go)

    The word-by-word Montgomery arithmetic of the field, translated statement
    by statement, and the proof that each operation computes on the numbers it
    represents.  The long functions are cut into their rows, which the
    function runs in order. *)

From Stdlib Require Import ZArith Lia.
From S2P Require Import Prelude Fiat.
Local Open Scope Z_scope.
Local Open Scope word_scope.

Module Bls12381Fq.
Definition modulus : Z := 0x73eda753299d7d483339d80809a1d80553bda402fffe5bfeffffffff00000001.

Definition fiatFqCmovznzU64 (arg1 arg2 arg3 : Z) : Z :=
  let x1 := mul64 arg1 0xffffffffffffffff in
  let x2 := Z.lor (Z.land x1 arg3) (Z.land (not64 x1) arg2) in
  x2.

(** The square of the Montgomery radix modulo the prime. *)
Definition R2 : Z := 0x748d9d99f59ff1105d314967254398f2b6cedcb87925c23c999e990f3f29c6d.

Definition fiatFqMul_row0 (arg2 : limbs) (x4 : Z) :=
  let '(x6, x5) := Mul64 x4 arg2.[3] in
  let '(x8, x7) := Mul64 x4 arg2.[2] in
  let '(x10, x9) := Mul64 x4 arg2.[1] in
  let '(x12, x11) := Mul64 x4 arg2.[0] in
  let '(x13, x14) := Add64 x12 x9 0 in
  let '(x15, x16) := Add64 x10 x7 x14 in
  let '(x17, x18) := Add64 x8 x5 x16 in
  let x19 := add64 x18 x6 in
  let '(_, x20) := Mul64 x11 0xfffffffeffffffff in
  let '(x23, x22) := Mul64 x20 0x73eda753299d7d48 in
  let '(x25, x24) := Mul64 x20 0x3339d80809a1d805 in
  let '(x27, x26) := Mul64 x20 0x53bda402fffe5bfe in
  let '(x29, x28) := Mul64 x20 0xffffffff00000001 in
  let '(x30, x31) := Add64 x29 x26 0 in
  let '(x32, x33) := Add64 x27 x24 x31 in
  let '(x34, x35) := Add64 x25 x22 x33 in
  let x36 := add64 x35 x23 in
  let '(_, x38) := Add64 x11 x28 0 in
  let '(x39, x40) := Add64 x13 x30 x38 in
  let '(x41, x42) := Add64 x15 x32 x40 in
  let '(x43, x44) := Add64 x17 x34 x42 in
  let '(x45, x46) := Add64 x19 x36 x44 in
  (x39, x41, x43, x45, x46).
Definition fiatFqMul_row1 (arg2 : limbs) (x1 x39 x41 x43 x45 x46 : Z) :=
  let '(x48, x47) := Mul64 x1 arg2.[3] in
  let '(x50, x49) := Mul64 x1 arg2.[2] in
  let '(x52, x51) := Mul64 x1 arg2.[1] in
  let '(x54, x53) := Mul64 x1 arg2.[0] in
  let '(x55, x56) := Add64 x54 x51 0 in
  let '(x57, x58) := Add64 x52 x49 x56 in
  let '(x59, x60) := Add64 x50 x47 x58 in
  let x61 := add64 x60 x48 in
  let '(x62, x63) := Add64 x39 x53 0 in
  let '(x64, x65) := Add64 x41 x55 x63 in
  let '(x66, x67) := Add64 x43 x57 x65 in
  let '(x68, x69) := Add64 x45 x59 x67 in
  let '(x70, x71) := Add64 x46 x61 x69 in
  let '(_, x72) := Mul64 x62 0xfffffffeffffffff in
  let '(x75, x74) := Mul64 x72 0x73eda753299d7d48 in
  let '(x77, x76) := Mul64 x72 0x3339d80809a1d805 in
  let '(x79, x78) := Mul64 x72 0x53bda402fffe5bfe in
  let '(x81, x80) := Mul64 x72 0xffffffff00000001 in
  let '(x82, x83) := Add64 x81 x78 0 in
  let '(x84, x85) := Add64 x79 x76 x83 in
  let '(x86, x87) := Add64 x77 x74 x85 in
  let x88 := add64 x87 x75 in
  let '(_, x90) := Add64 x62 x80 0 in
  let '(x91, x92) := Add64 x64 x82 x90 in
  let '(x93, x94) := Add64 x66 x84 x92 in
  let '(x95, x96) := Add64 x68 x86 x94 in
  let '(x97, x98) := Add64 x70 x88 x96 in
  let x99 := add64 x98 x71 in
  (x91, x93, x95, x97, x99).
Definition fiatFqMul_row2 (arg2 : limbs) (x2 x91 x93 x95 x97 x99 : Z) :=
  let '(x101, x100) := Mul64 x2 arg2.[3] in
  let '(x103, x102) := Mul64 x2 arg2.[2] in
  let '(x105, x104) := Mul64 x2 arg2.[1] in
  let '(x107, x106) := Mul64 x2 arg2.[0] in
  let '(x108, x109) := Add64 x107 x104 0 in
  let '(x110, x111) := Add64 x105 x102 x109 in
  let '(x112, x113) := Add64 x103 x100 x111 in
  let x114 := add64 x113 x101 in
  let '(x115, x116) := Add64 x91 x106 0 in
  let '(x117, x118) := Add64 x93 x108 x116 in
  let '(x119, x120) := Add64 x95 x110 x118 in
  let '(x121, x122) := Add64 x97 x112 x120 in
  let '(x123, x124) := Add64 x99 x114 x122 in
  let '(_, x125) := Mul64 x115 0xfffffffeffffffff in
  let '(x128, x127) := Mul64 x125 0x73eda753299d7d48 in
  let '(x130, x129) := Mul64 x125 0x3339d80809a1d805 in
  let '(x132, x131) := Mul64 x125 0x53bda402fffe5bfe in
  let '(x134, x133) := Mul64 x125 0xffffffff00000001 in
  let '(x135, x136) := Add64 x134 x131 0 in
  let '(x137, x138) := Add64 x132 x129 x136 in
  let '(x139, x140) := Add64 x130 x127 x138 in
  let x141 := add64 x140 x128 in
  let '(_, x143) := Add64 x115 x133 0 in
  let '(x144, x145) := Add64 x117 x135 x143 in
  let '(x146, x147) := Add64 x119 x137 x145 in
  let '(x148, x149) := Add64 x121 x139 x147 in
  let '(x150, x151) := Add64 x123 x141 x149 in
  let x152 := add64 x151 x124 in
  (x144, x146, x148, x150, x152).
Definition fiatFqMul_row3 (arg2 : limbs) (x3 x144 x146 x148 x150 x152 : Z) :=
  let '(x154, x153) := Mul64 x3 arg2.[3] in
  let '(x156, x155) := Mul64 x3 arg2.[2] in
  let '(x158, x157) := Mul64 x3 arg2.[1] in
  let '(x160, x159) := Mul64 x3 arg2.[0] in
  let '(x161, x162) := Add64 x160 x157 0 in
  let '(x163, x164) := Add64 x158 x155 x162 in
  let '(x165, x166) := Add64 x156 x153 x164 in
  let x167 := add64 x166 x154 in
  let '(x168, x169) := Add64 x144 x159 0 in
  let '(x170, x171) := Add64 x146 x161 x169 in
  let '(x172, x173) := Add64 x148 x163 x171 in
  let '(x174, x175) := Add64 x150 x165 x173 in
  let '(x176, x177) := Add64 x152 x167 x175 in
  let '(_, x178) := Mul64 x168 0xfffffffeffffffff in
  let '(x181, x180) := Mul64 x178 0x73eda753299d7d48 in
  let '(x183, x182) := Mul64 x178 0x3339d80809a1d805 in
  let '(x185, x184) := Mul64 x178 0x53bda402fffe5bfe in
  let '(x187, x186) := Mul64 x178 0xffffffff00000001 in
  let '(x188, x189) := Add64 x187 x184 0 in
  let '(x190, x191) := Add64 x185 x182 x189 in
  let '(x192, x193) := Add64 x183 x180 x191 in
  let x194 := add64 x193 x181 in
  let '(_, x196) := Add64 x168 x186 0 in
  let '(x197, x198) := Add64 x170 x188 x196 in
  let '(x199, x200) := Add64 x172 x190 x198 in
  let '(x201, x202) := Add64 x174 x192 x200 in
  let '(x203, x204) := Add64 x176 x194 x202 in
  let x205 := add64 x204 x177 in
  (x197, x199, x201, x203, x205).
Definition fiatFqMul (arg1 arg2 : limbs) : limbs :=
  let x1 := arg1.[1] in
  let x2 := arg1.[2] in
  let x3 := arg1.[3] in
  let x4 := arg1.[0] in
  let '(x39, x41, x43, x45, x46) := fiatFqMul_row0 arg2 x4 in
  let '(x91, x93, x95, x97, x99) := fiatFqMul_row1 arg2 x1 x39 x41 x43 x45 x46 in
  let '(x144, x146, x148, x150, x152) := fiatFqMul_row2 arg2 x2 x91 x93 x95 x97 x99 in
  let '(x197, x199, x201, x203, x205) := fiatFqMul_row3 arg2 x3 x144 x146 x148 x150 x152 in
  let '(x206, x207) := Sub64 x197 0xffffffff00000001 0 in
  let '(x208, x209) := Sub64 x199 0x53bda402fffe5bfe x207 in
  let '(x210, x211) := Sub64 x201 0x3339d80809a1d805 x209 in
  let '(x212, x213) := Sub64 x203 0x73eda753299d7d48 x211 in
  let '(_, x215) := Sub64 x205 0 x213 in
  let x216 := fiatFqCmovznzU64 x215 x206 x197 in
  let x217 := fiatFqCmovznzU64 x215 x208 x199 in
  let x218 := fiatFqCmovznzU64 x215 x210 x201 in
  let x219 := fiatFqCmovznzU64 x215 x212 x203 in
  [x216; x217; x218; x219].

Definition fiatFqSquare_row0 (arg1 : limbs) (x4 : Z) :=
  let '(x6, x5) := Mul64 x4 arg1.[3] in
  let '(x8, x7) := Mul64 x4 arg1.[2] in
  let '(x10, x9) := Mul64 x4 arg1.[1] in
  let '(x12, x11) := Mul64 x4 arg1.[0] in
  let '(x13, x14) := Add64 x12 x9 0 in
  let '(x15, x16) := Add64 x10 x7 x14 in
  let '(x17, x18) := Add64 x8 x5 x16 in
  let x19 := add64 x18 x6 in
  let '(_, x20) := Mul64 x11 0xfffffffeffffffff in
  let '(x23, x22) := Mul64 x20 0x73eda753299d7d48 in
  let '(x25, x24) := Mul64 x20 0x3339d80809a1d805 in
  let '(x27, x26) := Mul64 x20 0x53bda402fffe5bfe in
  let '(x29, x28) := Mul64 x20 0xffffffff00000001 in
  let '(x30, x31) := Add64 x29 x26 0 in
  let '(x32, x33) := Add64 x27 x24 x31 in
  let '(x34, x35) := Add64 x25 x22 x33 in
  let x36 := add64 x35 x23 in
  let '(_, x38) := Add64 x11 x28 0 in
  let '(x39, x40) := Add64 x13 x30 x38 in
  let '(x41, x42) := Add64 x15 x32 x40 in
  let '(x43, x44) := Add64 x17 x34 x42 in
  let '(x45, x46) := Add64 x19 x36 x44 in
  (x39, x41, x43, x45, x46).
Definition fiatFqSquare_row1 (arg1 : limbs) (x1 x39 x41 x43 x45 x46 : Z) :=
  let '(x48, x47) := Mul64 x1 arg1.[3] in
  let '(x50, x49) := Mul64 x1 arg1.[2] in
  let '(x52, x51) := Mul64 x1 arg1.[1] in
  let '(x54, x53) := Mul64 x1 arg1.[0] in
  let '(x55, x56) := Add64 x54 x51 0 in
  let '(x57, x58) := Add64 x52 x49 x56 in
  let '(x59, x60) := Add64 x50 x47 x58 in
  let x61 := add64 x60 x48 in
  let '(x62, x63) := Add64 x39 x53 0 in
  let '(x64, x65) := Add64 x41 x55 x63 in
  let '(x66, x67) := Add64 x43 x57 x65 in
  let '(x68, x69) := Add64 x45 x59 x67 in
  let '(x70, x71) := Add64 x46 x61 x69 in
  let '(_, x72) := Mul64 x62 0xfffffffeffffffff in
  let '(x75, x74) := Mul64 x72 0x73eda753299d7d48 in
  let '(x77, x76) := Mul64 x72 0x3339d80809a1d805 in
  let '(x79, x78) := Mul64 x72 0x53bda402fffe5bfe in
  let '(x81, x80) := Mul64 x72 0xffffffff00000001 in
  let '(x82, x83) := Add64 x81 x78 0 in
  let '(x84, x85) := Add64 x79 x76 x83 in
  let '(x86, x87) := Add64 x77 x74 x85 in
  let x88 := add64 x87 x75 in
  let '(_, x90) := Add64 x62 x80 0 in
  let '(x91, x92) := Add64 x64 x82 x90 in
  let '(x93, x94) := Add64 x66 x84 x92 in
  let '(x95, x96) := Add64 x68 x86 x94 in
  let '(x97, x98) := Add64 x70 x88 x96 in
  let x99 := add64 x98 x71 in
  (x91, x93, x95, x97, x99).
Definition fiatFqSquare_row2 (arg1 : limbs) (x2 x91 x93 x95 x97 x99 : Z) :=
  let '(x101, x100) := Mul64 x2 arg1.[3] in
  let '(x103, x102) := Mul64 x2 arg1.[2] in
  let '(x105, x104) := Mul64 x2 arg1.[1] in
  let '(x107, x106) := Mul64 x2 arg1.[0] in
  let '(x108, x109) := Add64 x107 x104 0 in
  let '(x110, x111) := Add64 x105 x102 x109 in
  let '(x112, x113) := Add64 x103 x100 x111 in
  let x114 := add64 x113 x101 in
  let '(x115, x116) := Add64 x91 x106 0 in
  let '(x117, x118) := Add64 x93 x108 x116 in
  let '(x119, x120) := Add64 x95 x110 x118 in
  let '(x121, x122) := Add64 x97 x112 x120 in
  let '(x123, x124) := Add64 x99 x114 x122 in
  let '(_, x125) := Mul64 x115 0xfffffffeffffffff in
  let '(x128, x127) := Mul64 x125 0x73eda753299d7d48 in
  let '(x130, x129) := Mul64 x125 0x3339d80809a1d805 in
  let '(x132, x131) := Mul64 x125 0x53bda402fffe5bfe in
  let '(x134, x133) := Mul64 x125 0xffffffff00000001 in
  let '(x135, x136) := Add64 x134 x131 0 in
  let '(x137, x138) := Add64 x132 x129 x136 in
  let '(x139, x140) := Add64 x130 x127 x138 in
  let x141 := add64 x140 x128 in
  let '(_, x143) := Add64 x115 x133 0 in
  let '(x144, x145) := Add64 x117 x135 x143 in
  let '(x146, x147) := Add64 x119 x137 x145 in
  let '(x148, x149) := Add64 x121 x139 x147 in
  let '(x150, x151) := Add64 x123 x141 x149 in
  let x152 := add64 x151 x124 in
  (x144, x146, x148, x150, x152).
Definition fiatFqSquare_row3 (arg1 : limbs) (x3 x144 x146 x148 x150 x152 : Z) :=
  let '(x154, x153) := Mul64 x3 arg1.[3] in
  let '(x156, x155) := Mul64 x3 arg1.[2] in
  let '(x158, x157) := Mul64 x3 arg1.[1] in
  let '(x160, x159) := Mul64 x3 arg1.[0] in
  let '(x161, x162) := Add64 x160 x157 0 in
  let '(x163, x164) := Add64 x158 x155 x162 in
  let '(x165, x166) := Add64 x156 x153 x164 in
  let x167 := add64 x166 x154 in
  let '(x168, x169) := Add64 x144 x159 0 in
  let '(x170, x171) := Add64 x146 x161 x169 in
  let '(x172, x173) := Add64 x148 x163 x171 in
  let '(x174, x175) := Add64 x150 x165 x173 in
  let '(x176, x177) := Add64 x152 x167 x175 in
  let '(_, x178) := Mul64 x168 0xfffffffeffffffff in
  let '(x181, x180) := Mul64 x178 0x73eda753299d7d48 in
  let '(x183, x182) := Mul64 x178 0x3339d80809a1d805 in
  let '(x185, x184) := Mul64 x178 0x53bda402fffe5bfe in
  let '(x187, x186) := Mul64 x178 0xffffffff00000001 in
  let '(x188, x189) := Add64 x187 x184 0 in
  let '(x190, x191) := Add64 x185 x182 x189 in
  let '(x192, x193) := Add64 x183 x180 x191 in
  let x194 := add64 x193 x181 in
  let '(_, x196) := Add64 x168 x186 0 in
  let '(x197, x198) := Add64 x170 x188 x196 in
  let '(x199, x200) := Add64 x172 x190 x198 in
  let '(x201, x202) := Add64 x174 x192 x200 in
  let '(x203, x204) := Add64 x176 x194 x202 in
  let x205 := add64 x204 x177 in
  (x197, x199, x201, x203, x205).
Definition fiatFqSquare (arg1 : limbs) : limbs :=
  let x1 := arg1.[1] in
  let x2 := arg1.[2] in
  let x3 := arg1.[3] in
  let x4 := arg1.[0] in
  let '(x39, x41, x43, x45, x46) := fiatFqSquare_row0 arg1 x4 in
  let '(x91, x93, x95, x97, x99) := fiatFqSquare_row1 arg1 x1 x39 x41 x43 x45 x46 in
  let '(x144, x146, x148, x150, x152) := fiatFqSquare_row2 arg1 x2 x91 x93 x95 x97 x99 in
  let '(x197, x199, x201, x203, x205) := fiatFqSquare_row3 arg1 x3 x144 x146 x148 x150 x152 in
  let '(x206, x207) := Sub64 x197 0xffffffff00000001 0 in
  let '(x208, x209) := Sub64 x199 0x53bda402fffe5bfe x207 in
  let '(x210, x211) := Sub64 x201 0x3339d80809a1d805 x209 in
  let '(x212, x213) := Sub64 x203 0x73eda753299d7d48 x211 in
  let '(_, x215) := Sub64 x205 0 x213 in
  let x216 := fiatFqCmovznzU64 x215 x206 x197 in
  let x217 := fiatFqCmovznzU64 x215 x208 x199 in
  let x218 := fiatFqCmovznzU64 x215 x210 x201 in
  let x219 := fiatFqCmovznzU64 x215 x212 x203 in
  [x216; x217; x218; x219].

Definition fiatFqFromMontgomery_row0 (x1 : Z) :=
  let '(_, x2) := Mul64 x1 0xfffffffeffffffff in
  let '(x5, x4) := Mul64 x2 0x73eda753299d7d48 in
  let '(x7, x6) := Mul64 x2 0x3339d80809a1d805 in
  let '(x9, x8) := Mul64 x2 0x53bda402fffe5bfe in
  let '(x11, x10) := Mul64 x2 0xffffffff00000001 in
  let '(x12, x13) := Add64 x11 x8 0 in
  let '(x14, x15) := Add64 x9 x6 x13 in
  let '(x16, x17) := Add64 x7 x4 x15 in
  let '(_, x19) := Add64 x1 x10 0 in
  let '(x20, x21) := Add64 0 x12 x19 in
  let '(x22, x23) := Add64 0 x14 x21 in
  let '(x24, x25) := Add64 0 x16 x23 in
  (x5, x17, x20, x22, x24, x25).
Definition fiatFqFromMontgomery_row1 (arg1 : limbs) (x5 x17 x20 x22 x24 x25 : Z) :=
  let '(x26, x27) := Add64 x20 arg1.[1] 0 in
  let '(x28, x29) := Add64 x22 0 x27 in
  let '(x30, x31) := Add64 x24 0 x29 in
  let '(_, x32) := Mul64 x26 0xfffffffeffffffff in
  let '(x35, x34) := Mul64 x32 0x73eda753299d7d48 in
  let '(x37, x36) := Mul64 x32 0x3339d80809a1d805 in
  let '(x39, x38) := Mul64 x32 0x53bda402fffe5bfe in
  let '(x41, x40) := Mul64 x32 0xffffffff00000001 in
  let '(x42, x43) := Add64 x41 x38 0 in
  let '(x44, x45) := Add64 x39 x36 x43 in
  let '(x46, x47) := Add64 x37 x34 x45 in
  let '(_, x49) := Add64 x26 x40 0 in
  let '(x50, x51) := Add64 x28 x42 x49 in
  let '(x52, x53) := Add64 x30 x44 x51 in
  let '(x54, x55) := Add64 (add64 x31 (add64 x25 (add64 x17 x5))) x46 x53 in
  (x35, x47, x50, x52, x54, x55).
Definition fiatFqFromMontgomery_row2 (arg1 : limbs) (x35 x47 x50 x52 x54 x55 : Z) :=
  let '(x56, x57) := Add64 x50 arg1.[2] 0 in
  let '(x58, x59) := Add64 x52 0 x57 in
  let '(x60, x61) := Add64 x54 0 x59 in
  let '(_, x62) := Mul64 x56 0xfffffffeffffffff in
  let '(x65, x64) := Mul64 x62 0x73eda753299d7d48 in
  let '(x67, x66) := Mul64 x62 0x3339d80809a1d805 in
  let '(x69, x68) := Mul64 x62 0x53bda402fffe5bfe in
  let '(x71, x70) := Mul64 x62 0xffffffff00000001 in
  let '(x72, x73) := Add64 x71 x68 0 in
  let '(x74, x75) := Add64 x69 x66 x73 in
  let '(x76, x77) := Add64 x67 x64 x75 in
  let '(_, x79) := Add64 x56 x70 0 in
  let '(x80, x81) := Add64 x58 x72 x79 in
  let '(x82, x83) := Add64 x60 x74 x81 in
  let '(x84, x85) := Add64 (add64 x61 (add64 x55 (add64 x47 x35))) x76 x83 in
  (x65, x77, x80, x82, x84, x85).
Definition fiatFqFromMontgomery_row3 (arg1 : limbs) (x65 x77 x80 x82 x84 x85 : Z) :=
  let '(x86, x87) := Add64 x80 arg1.[3] 0 in
  let '(x88, x89) := Add64 x82 0 x87 in
  let '(x90, x91) := Add64 x84 0 x89 in
  let '(_, x92) := Mul64 x86 0xfffffffeffffffff in
  let '(x95, x94) := Mul64 x92 0x73eda753299d7d48 in
  let '(x97, x96) := Mul64 x92 0x3339d80809a1d805 in
  let '(x99, x98) := Mul64 x92 0x53bda402fffe5bfe in
  let '(x101, x100) := Mul64 x92 0xffffffff00000001 in
  let '(x102, x103) := Add64 x101 x98 0 in
  let '(x104, x105) := Add64 x99 x96 x103 in
  let '(x106, x107) := Add64 x97 x94 x105 in
  let '(_, x109) := Add64 x86 x100 0 in
  let '(x110, x111) := Add64 x88 x102 x109 in
  let '(x112, x113) := Add64 x90 x104 x111 in
  let '(x114, x115) := Add64 (add64 x91 (add64 x85 (add64 x77 x65))) x106 x113 in
  let x116 := add64 x115 (add64 x107 x95) in
  (x110, x112, x114, x116).
Definition fiatFqFromMontgomery (arg1 : limbs) : limbs :=
  let x1 := arg1.[0] in
  let '(x5, x17, x20, x22, x24, x25) := fiatFqFromMontgomery_row0 x1 in
  let '(x35, x47, x50, x52, x54, x55) := fiatFqFromMontgomery_row1 arg1 x5 x17 x20 x22 x24 x25 in
  let '(x65, x77, x80, x82, x84, x85) := fiatFqFromMontgomery_row2 arg1 x35 x47 x50 x52 x54 x55 in
  let '(x110, x112, x114, x116) := fiatFqFromMontgomery_row3 arg1 x65 x77 x80 x82 x84 x85 in
  let '(x117, x118) := Sub64 x110 0xffffffff00000001 0 in
  let '(x119, x120) := Sub64 x112 0x53bda402fffe5bfe x118 in
  let '(x121, x122) := Sub64 x114 0x3339d80809a1d805 x120 in
  let '(x123, x124) := Sub64 x116 0x73eda753299d7d48 x122 in
  let '(_, x126) := Sub64 0 0 x124 in
  let x127 := fiatFqCmovznzU64 x126 x117 x110 in
  let x128 := fiatFqCmovznzU64 x126 x119 x112 in
  let x129 := fiatFqCmovznzU64 x126 x121 x114 in
  let x130 := fiatFqCmovznzU64 x126 x123 x116 in
  [x127; x128; x129; x130].

Definition fiatFqToMontgomery_row0 (x4 : Z) :=
  let '(x6, x5) := Mul64 x4 0x748d9d99f59ff11 in
  let '(x8, x7) := Mul64 x4 0x5d314967254398f in
  let '(x10, x9) := Mul64 x4 0x2b6cedcb87925c23 in
  let '(x12, x11) := Mul64 x4 0xc999e990f3f29c6d in
  let '(x13, x14) := Add64 x12 x9 0 in
  let '(x15, x16) := Add64 x10 x7 x14 in
  let '(x17, x18) := Add64 x8 x5 x16 in
  let '(_, x19) := Mul64 x11 0xfffffffeffffffff in
  let '(x22, x21) := Mul64 x19 0x73eda753299d7d48 in
  let '(x24, x23) := Mul64 x19 0x3339d80809a1d805 in
  let '(x26, x25) := Mul64 x19 0x53bda402fffe5bfe in
  let '(x28, x27) := Mul64 x19 0xffffffff00000001 in
  let '(x29, x30) := Add64 x28 x25 0 in
  let '(x31, x32) := Add64 x26 x23 x30 in
  let '(x33, x34) := Add64 x24 x21 x32 in
  let '(_, x36) := Add64 x11 x27 0 in
  let '(x37, x38) := Add64 x13 x29 x36 in
  let '(x39, x40) := Add64 x15 x31 x38 in
  let '(x41, x42) := Add64 x17 x33 x40 in
  (x6, x18, x22, x34, x37, x39, x41, x42).
Definition fiatFqToMontgomery_row1 (x1 x6 x18 x22 x34 x37 x39 x41 x42 : Z) :=
  let '(x44, x43) := Mul64 x1 0x748d9d99f59ff11 in
  let '(x46, x45) := Mul64 x1 0x5d314967254398f in
  let '(x48, x47) := Mul64 x1 0x2b6cedcb87925c23 in
  let '(x50, x49) := Mul64 x1 0xc999e990f3f29c6d in
  let '(x51, x52) := Add64 x50 x47 0 in
  let '(x53, x54) := Add64 x48 x45 x52 in
  let '(x55, x56) := Add64 x46 x43 x54 in
  let '(x57, x58) := Add64 x37 x49 0 in
  let '(x59, x60) := Add64 x39 x51 x58 in
  let '(x61, x62) := Add64 x41 x53 x60 in
  let '(x63, x64) := Add64 (add64 (add64 x42 (add64 x18 x6)) (add64 x34 x22)) x55 x62 in
  let '(_, x65) := Mul64 x57 0xfffffffeffffffff in
  let '(x68, x67) := Mul64 x65 0x73eda753299d7d48 in
  let '(x70, x69) := Mul64 x65 0x3339d80809a1d805 in
  let '(x72, x71) := Mul64 x65 0x53bda402fffe5bfe in
  let '(x74, x73) := Mul64 x65 0xffffffff00000001 in
  let '(x75, x76) := Add64 x74 x71 0 in
  let '(x77, x78) := Add64 x72 x69 x76 in
  let '(x79, x80) := Add64 x70 x67 x78 in
  let '(_, x82) := Add64 x57 x73 0 in
  let '(x83, x84) := Add64 x59 x75 x82 in
  let '(x85, x86) := Add64 x61 x77 x84 in
  let '(x87, x88) := Add64 x63 x79 x86 in
  (x44, x56, x64, x68, x80, x83, x85, x87, x88).
Definition fiatFqToMontgomery_row2 (x2 x44 x56 x64 x68 x80 x83 x85 x87 x88 : Z) :=
  let '(x90, x89) := Mul64 x2 0x748d9d99f59ff11 in
  let '(x92, x91) := Mul64 x2 0x5d314967254398f in
  let '(x94, x93) := Mul64 x2 0x2b6cedcb87925c23 in
  let '(x96, x95) := Mul64 x2 0xc999e990f3f29c6d in
  let '(x97, x98) := Add64 x96 x93 0 in
  let '(x99, x100) := Add64 x94 x91 x98 in
  let '(x101, x102) := Add64 x92 x89 x100 in
  let '(x103, x104) := Add64 x83 x95 0 in
  let '(x105, x106) := Add64 x85 x97 x104 in
  let '(x107, x108) := Add64 x87 x99 x106 in
  let '(x109, x110) := Add64 (add64 (add64 x88 (add64 x64 (add64 x56 x44))) (add64 x80 x68)) x101 x108 in
  let '(_, x111) := Mul64 x103 0xfffffffeffffffff in
  let '(x114, x113) := Mul64 x111 0x73eda753299d7d48 in
  let '(x116, x115) := Mul64 x111 0x3339d80809a1d805 in
  let '(x118, x117) := Mul64 x111 0x53bda402fffe5bfe in
  let '(x120, x119) := Mul64 x111 0xffffffff00000001 in
  let '(x121, x122) := Add64 x120 x117 0 in
  let '(x123, x124) := Add64 x118 x115 x122 in
  let '(x125, x126) := Add64 x116 x113 x124 in
  let '(_, x128) := Add64 x103 x119 0 in
  let '(x129, x130) := Add64 x105 x121 x128 in
  let '(x131, x132) := Add64 x107 x123 x130 in
  let '(x133, x134) := Add64 x109 x125 x132 in
  (x90, x102, x110, x114, x126, x129, x131, x133, x134).
Definition fiatFqToMontgomery_row3 (x3 x90 x102 x110 x114 x126 x129 x131 x133 x134 : Z) :=
  let '(x136, x135) := Mul64 x3 0x748d9d99f59ff11 in
  let '(x138, x137) := Mul64 x3 0x5d314967254398f in
  let '(x140, x139) := Mul64 x3 0x2b6cedcb87925c23 in
  let '(x142, x141) := Mul64 x3 0xc999e990f3f29c6d in
  let '(x143, x144) := Add64 x142 x139 0 in
  let '(x145, x146) := Add64 x140 x137 x144 in
  let '(x147, x148) := Add64 x138 x135 x146 in
  let '(x149, x150) := Add64 x129 x141 0 in
  let '(x151, x152) := Add64 x131 x143 x150 in
  let '(x153, x154) := Add64 x133 x145 x152 in
  let '(x155, x156) := Add64 (add64 (add64 x134 (add64 x110 (add64 x102 x90))) (add64 x126 x114)) x147 x154 in
  let '(_, x157) := Mul64 x149 0xfffffffeffffffff in
  let '(x160, x159) := Mul64 x157 0x73eda753299d7d48 in
  let '(x162, x161) := Mul64 x157 0x3339d80809a1d805 in
  let '(x164, x163) := Mul64 x157 0x53bda402fffe5bfe in
  let '(x166, x165) := Mul64 x157 0xffffffff00000001 in
  let '(x167, x168) := Add64 x166 x163 0 in
  let '(x169, x170) := Add64 x164 x161 x168 in
  let '(x171, x172) := Add64 x162 x159 x170 in
  let '(_, x174) := Add64 x149 x165 0 in
  let '(x175, x176) := Add64 x151 x167 x174 in
  let '(x177, x178) := Add64 x153 x169 x176 in
  let '(x179, x180) := Add64 x155 x171 x178 in
  let x181 := add64 (add64 x180 (add64 x156 (add64 x148 x136))) (add64 x172 x160) in
  (x175, x177, x179, x181).
Definition fiatFqToMontgomery (arg1 : limbs) : limbs :=
  let x1 := arg1.[1] in
  let x2 := arg1.[2] in
  let x3 := arg1.[3] in
  let x4 := arg1.[0] in
  let '(x6, x18, x22, x34, x37, x39, x41, x42) := fiatFqToMontgomery_row0 x4 in
  let '(x44, x56, x64, x68, x80, x83, x85, x87, x88) := fiatFqToMontgomery_row1 x1 x6 x18 x22 x34 x37 x39 x41 x42 in
  let '(x90, x102, x110, x114, x126, x129, x131, x133, x134) := fiatFqToMontgomery_row2 x2 x44 x56 x64 x68 x80 x83 x85 x87 x88 in
  let '(x175, x177, x179, x181) := fiatFqToMontgomery_row3 x3 x90 x102 x110 x114 x126 x129 x131 x133 x134 in
  let '(x182, x183) := Sub64 x175 0xffffffff00000001 0 in
  let '(x184, x185) := Sub64 x177 0x53bda402fffe5bfe x183 in
  let '(x186, x187) := Sub64 x179 0x3339d80809a1d805 x185 in
  let '(x188, x189) := Sub64 x181 0x73eda753299d7d48 x187 in
  let '(_, x191) := Sub64 0 0 x189 in
  let x192 := fiatFqCmovznzU64 x191 x182 x175 in
  let x193 := fiatFqCmovznzU64 x191 x184 x177 in
  let x194 := fiatFqCmovznzU64 x191 x186 x179 in
  let x195 := fiatFqCmovznzU64 x191 x188 x181 in
  [x192; x193; x194; x195].

Definition fiatFqAdd (arg1 arg2 : limbs) : limbs :=
  let '(x1, x2) := Add64 arg1.[0] arg2.[0] 0 in
  let '(x3, x4) := Add64 arg1.[1] arg2.[1] x2 in
  let '(x5, x6) := Add64 arg1.[2] arg2.[2] x4 in
  let '(x7, x8) := Add64 arg1.[3] arg2.[3] x6 in
  let '(x9, x10) := Sub64 x1 0xffffffff00000001 0 in
  let '(x11, x12) := Sub64 x3 0x53bda402fffe5bfe x10 in
  let '(x13, x14) := Sub64 x5 0x3339d80809a1d805 x12 in
  let '(x15, x16) := Sub64 x7 0x73eda753299d7d48 x14 in
  let '(_, x18) := Sub64 x8 0 x16 in
  let x19 := fiatFqCmovznzU64 x18 x9 x1 in
  let x20 := fiatFqCmovznzU64 x18 x11 x3 in
  let x21 := fiatFqCmovznzU64 x18 x13 x5 in
  let x22 := fiatFqCmovznzU64 x18 x15 x7 in
  [x19; x20; x21; x22].

Definition fiatFqSub (arg1 arg2 : limbs) : limbs :=
  let '(x1, x2) := Sub64 arg1.[0] arg2.[0] 0 in
  let '(x3, x4) := Sub64 arg1.[1] arg2.[1] x2 in
  let '(x5, x6) := Sub64 arg1.[2] arg2.[2] x4 in
  let '(x7, x8) := Sub64 arg1.[3] arg2.[3] x6 in
  let x9 := fiatFqCmovznzU64 x8 0 0xffffffffffffffff in
  let '(x10, x11) := Add64 x1 (Z.land x9 0xffffffff00000001) 0 in
  let '(x12, x13) := Add64 x3 (Z.land x9 0x53bda402fffe5bfe) x11 in
  let '(x14, x15) := Add64 x5 (Z.land x9 0x3339d80809a1d805) x13 in
  let '(x16, _) := Add64 x7 (Z.land x9 0x73eda753299d7d48) x15 in
  [x10; x12; x14; x16].

Definition fiatFqOpp (arg1 : limbs) : limbs :=
  let '(x1, x2) := Sub64 0 arg1.[0] 0 in
  let '(x3, x4) := Sub64 0 arg1.[1] x2 in
  let '(x5, x6) := Sub64 0 arg1.[2] x4 in
  let '(x7, x8) := Sub64 0 arg1.[3] x6 in
  let x9 := fiatFqCmovznzU64 x8 0 0xffffffffffffffff in
  let '(x10, x11) := Add64 x1 (Z.land x9 0xffffffff00000001) 0 in
  let '(x12, x13) := Add64 x3 (Z.land x9 0x53bda402fffe5bfe) x11 in
  let '(x14, x15) := Add64 x5 (Z.land x9 0x3339d80809a1d805) x13 in
  let '(x16, _) := Add64 x7 (Z.land x9 0x73eda753299d7d48) x15 in
  [x10; x12; x14; x16].

Definition fiatFqNonzero (arg1 : limbs) : Z :=
  let x1 := Z.lor arg1.[0] (Z.lor arg1.[1] (Z.lor arg1.[2] arg1.[3])) in
  x1.

Definition fiatFqSelectznz (arg1 : Z) (arg2 arg3 : limbs) : limbs :=
  let x1 := fiatFqCmovznzU64 arg1 arg2.[0] arg3.[0] in
  let x2 := fiatFqCmovznzU64 arg1 arg2.[1] arg3.[1] in
  let x3 := fiatFqCmovznzU64 arg1 arg2.[2] arg3.[2] in
  let x4 := fiatFqCmovznzU64 arg1 arg2.[3] arg3.[3] in
  [x1; x2; x3; x4].

Definition fiatFqToBytes (arg1 : limbs) : list Z :=
  let x1 := arg1.[3] in
  let x2 := arg1.[2] in
  let x3 := arg1.[1] in
  let x4 := arg1.[0] in
  let x5 := Z.land (uint8 x4) 0xff in
  let x6 := shr64 x4 8 in
  let x7 := Z.land (uint8 x6) 0xff in
  let x8 := shr64 x6 8 in
  let x9 := Z.land (uint8 x8) 0xff in
  let x10 := shr64 x8 8 in
  let x11 := Z.land (uint8 x10) 0xff in
  let x12 := shr64 x10 8 in
  let x13 := Z.land (uint8 x12) 0xff in
  let x14 := shr64 x12 8 in
  let x15 := Z.land (uint8 x14) 0xff in
  let x16 := shr64 x14 8 in
  let x17 := Z.land (uint8 x16) 0xff in
  let x18 := uint8 (shr64 x16 8) in
  let x19 := Z.land (uint8 x3) 0xff in
  let x20 := shr64 x3 8 in
  let x21 := Z.land (uint8 x20) 0xff in
  let x22 := shr64 x20 8 in
  let x23 := Z.land (uint8 x22) 0xff in
  let x24 := shr64 x22 8 in
  let x25 := Z.land (uint8 x24) 0xff in
  let x26 := shr64 x24 8 in
  let x27 := Z.land (uint8 x26) 0xff in
  let x28 := shr64 x26 8 in
  let x29 := Z.land (uint8 x28) 0xff in
  let x30 := shr64 x28 8 in
  let x31 := Z.land (uint8 x30) 0xff in
  let x32 := uint8 (shr64 x30 8) in
  let x33 := Z.land (uint8 x2) 0xff in
  let x34 := shr64 x2 8 in
  let x35 := Z.land (uint8 x34) 0xff in
  let x36 := shr64 x34 8 in
  let x37 := Z.land (uint8 x36) 0xff in
  let x38 := shr64 x36 8 in
  let x39 := Z.land (uint8 x38) 0xff in
  let x40 := shr64 x38 8 in
  let x41 := Z.land (uint8 x40) 0xff in
  let x42 := shr64 x40 8 in
  let x43 := Z.land (uint8 x42) 0xff in
  let x44 := shr64 x42 8 in
  let x45 := Z.land (uint8 x44) 0xff in
  let x46 := uint8 (shr64 x44 8) in
  let x47 := Z.land (uint8 x1) 0xff in
  let x48 := shr64 x1 8 in
  let x49 := Z.land (uint8 x48) 0xff in
  let x50 := shr64 x48 8 in
  let x51 := Z.land (uint8 x50) 0xff in
  let x52 := shr64 x50 8 in
  let x53 := Z.land (uint8 x52) 0xff in
  let x54 := shr64 x52 8 in
  let x55 := Z.land (uint8 x54) 0xff in
  let x56 := shr64 x54 8 in
  let x57 := Z.land (uint8 x56) 0xff in
  let x58 := shr64 x56 8 in
  let x59 := Z.land (uint8 x58) 0xff in
  let x60 := uint8 (shr64 x58 8) in
  [x5; x7; x9; x11; x13; x15; x17; x18; x19; x21; x23; x25; x27; x29; x31; x32; x33; x35; x37; x39; x41; x43; x45; x46; x47; x49; x51; x53; x55; x57; x59; x60].

Definition fiatFqFromBytes (arg1 : list Z) : limbs :=
  let x1 := shl64 arg1.[31] 0x38 in
  let x2 := shl64 arg1.[30] 0x30 in
  let x3 := shl64 arg1.[29] 0x28 in
  let x4 := shl64 arg1.[28] 0x20 in
  let x5 := shl64 arg1.[27] 0x18 in
  let x6 := shl64 arg1.[26] 0x10 in
  let x7 := shl64 arg1.[25] 8 in
  let x8 := arg1.[24] in
  let x9 := shl64 arg1.[23] 0x38 in
  let x10 := shl64 arg1.[22] 0x30 in
  let x11 := shl64 arg1.[21] 0x28 in
  let x12 := shl64 arg1.[20] 0x20 in
  let x13 := shl64 arg1.[19] 0x18 in
  let x14 := shl64 arg1.[18] 0x10 in
  let x15 := shl64 arg1.[17] 8 in
  let x16 := arg1.[16] in
  let x17 := shl64 arg1.[15] 0x38 in
  let x18 := shl64 arg1.[14] 0x30 in
  let x19 := shl64 arg1.[13] 0x28 in
  let x20 := shl64 arg1.[12] 0x20 in
  let x21 := shl64 arg1.[11] 0x18 in
  let x22 := shl64 arg1.[10] 0x10 in
  let x23 := shl64 arg1.[9] 8 in
  let x24 := arg1.[8] in
  let x25 := shl64 arg1.[7] 0x38 in
  let x26 := shl64 arg1.[6] 0x30 in
  let x27 := shl64 arg1.[5] 0x28 in
  let x28 := shl64 arg1.[4] 0x20 in
  let x29 := shl64 arg1.[3] 0x18 in
  let x30 := shl64 arg1.[2] 0x10 in
  let x31 := shl64 arg1.[1] 8 in
  let x32 := arg1.[0] in
  let x33 := add64 x31 x32 in
  let x34 := add64 x30 x33 in
  let x35 := add64 x29 x34 in
  let x36 := add64 x28 x35 in
  let x37 := add64 x27 x36 in
  let x38 := add64 x26 x37 in
  let x39 := add64 x25 x38 in
  let x40 := add64 x23 x24 in
  let x41 := add64 x22 x40 in
  let x42 := add64 x21 x41 in
  let x43 := add64 x20 x42 in
  let x44 := add64 x19 x43 in
  let x45 := add64 x18 x44 in
  let x46 := add64 x17 x45 in
  let x47 := add64 x15 x16 in
  let x48 := add64 x14 x47 in
  let x49 := add64 x13 x48 in
  let x50 := add64 x12 x49 in
  let x51 := add64 x11 x50 in
  let x52 := add64 x10 x51 in
  let x53 := add64 x9 x52 in
  let x54 := add64 x7 x8 in
  let x55 := add64 x6 x54 in
  let x56 := add64 x5 x55 in
  let x57 := add64 x4 x56 in
  let x58 := add64 x3 x57 in
  let x59 := add64 x2 x58 in
  let x60 := add64 x1 x59 in
  [x39; x46; x53; x60].

Definition fiatFqSetOne  : limbs :=
  [0x1fffffffe; 0x5884b7fa00034802; 0x998c4fefecbc4ff5; 0x1824b159acc5056f].

Definition fiatFqMsat  : limbs :=
  [0xffffffff00000001; 0x53bda402fffe5bfe; 0x3339d80809a1d805; 0x73eda753299d7d48; 0].

Definition fiatFqDivstepPrecomp  : limbs :=
  [0xcf0a288ddcbf896b; 0x95eb83c82e9ceed6; 0x41308645589e8e16; 0x94d43542bc1b13c].

Definition fiatFqDivstep_select (arg1 : Z) (arg2 arg3 arg4 arg5 : limbs) :=
  let '(x1, _) := Add64 (not64 arg1) 1 0 in
  let x3 := Z.land (shr64 x1 0x3f) (Z.land arg3.[0] 1) in
  let '(x4, _) := Add64 (not64 arg1) 1 0 in
  let x6 := fiatFqCmovznzU64 x3 arg1 x4 in
  let x7 := fiatFqCmovznzU64 x3 arg2.[0] arg3.[0] in
  let x8 := fiatFqCmovznzU64 x3 arg2.[1] arg3.[1] in
  let x9 := fiatFqCmovznzU64 x3 arg2.[2] arg3.[2] in
  let x10 := fiatFqCmovznzU64 x3 arg2.[3] arg3.[3] in
  let x11 := fiatFqCmovznzU64 x3 arg2.[4] arg3.[4] in
  let '(x12, x13) := Add64 1 (not64 arg2.[0]) 0 in
  let '(x14, x15) := Add64 0 (not64 arg2.[1]) x13 in
  let '(x16, x17) := Add64 0 (not64 arg2.[2]) x15 in
  let '(x18, x19) := Add64 0 (not64 arg2.[3]) x17 in
  let '(x20, _) := Add64 0 (not64 arg2.[4]) x19 in
  let x22 := fiatFqCmovznzU64 x3 arg3.[0] x12 in
  let x23 := fiatFqCmovznzU64 x3 arg3.[1] x14 in
  let x24 := fiatFqCmovznzU64 x3 arg3.[2] x16 in
  let x25 := fiatFqCmovznzU64 x3 arg3.[3] x18 in
  let x26 := fiatFqCmovznzU64 x3 arg3.[4] x20 in
  let x27 := fiatFqCmovznzU64 x3 arg4.[0] arg5.[0] in
  let x28 := fiatFqCmovznzU64 x3 arg4.[1] arg5.[1] in
  let x29 := fiatFqCmovznzU64 x3 arg4.[2] arg5.[2] in
  let x30 := fiatFqCmovznzU64 x3 arg4.[3] arg5.[3] in
  let '(x31, x32) := Add64 x27 x27 0 in
  let '(x33, x34) := Add64 x28 x28 x32 in
  let '(x35, x36) := Add64 x29 x29 x34 in
  let '(x37, x38) := Add64 x30 x30 x36 in
  let '(x39, x40) := Sub64 x31 0xffffffff00000001 0 in
  let '(x41, x42) := Sub64 x33 0x53bda402fffe5bfe x40 in
  let '(x43, x44) := Sub64 x35 0x3339d80809a1d805 x42 in
  let '(x45, x46) := Sub64 x37 0x73eda753299d7d48 x44 in
  let '(_, x48) := Sub64 x38 0 x46 in
  (x3, x6, x7, x8, x9, x10, x11, x22, x23, x24, x25, x26, x27, x28, x29, x30, x31, x33, x35, x37, x39, x41, x43, x45, x48).
Definition fiatFqDivstep_negate (arg4 : limbs) : limbs :=
  let x49 := arg4.[3] in
  let x50 := arg4.[2] in
  let x51 := arg4.[1] in
  let x52 := arg4.[0] in
  let '(x53, x54) := Sub64 0 x52 0 in
  let '(x55, x56) := Sub64 0 x51 x54 in
  let '(x57, x58) := Sub64 0 x50 x56 in
  let '(x59, x60) := Sub64 0 x49 x58 in
  let x61 := fiatFqCmovznzU64 x60 0 0xffffffffffffffff in
  let '(x62, x63) := Add64 x53 (Z.land x61 0xffffffff00000001) 0 in
  let '(x64, x65) := Add64 x55 (Z.land x61 0x53bda402fffe5bfe) x63 in
  let '(x66, x67) := Add64 x57 (Z.land x61 0x3339d80809a1d805) x65 in
  let '(x68, _) := Add64 x59 (Z.land x61 0x73eda753299d7d48) x67 in
  [x62; x64; x66; x68].
Definition fiatFqDivstep (arg1 : Z) (arg2 arg3 arg4 arg5 : limbs) : divstate :=
  let '(x3, x6, x7, x8, x9, x10, x11, x22, x23, x24, x25, x26, x27, x28, x29, x30, x31, x33, x35, x37, x39, x41, x43, x45, x48) := fiatFqDivstep_select arg1 arg2 arg3 arg4 arg5 in
  let negated := fiatFqDivstep_negate arg4 in
  let x62 := negated.[0] in
  let x64 := negated.[1] in
  let x66 := negated.[2] in
  let x68 := negated.[3] in
  let x70 := fiatFqCmovznzU64 x3 arg5.[0] x62 in
  let x71 := fiatFqCmovznzU64 x3 arg5.[1] x64 in
  let x72 := fiatFqCmovznzU64 x3 arg5.[2] x66 in
  let x73 := fiatFqCmovznzU64 x3 arg5.[3] x68 in
  let x74 := Z.land x22 1 in
  let x75 := fiatFqCmovznzU64 x74 0 x7 in
  let x76 := fiatFqCmovznzU64 x74 0 x8 in
  let x77 := fiatFqCmovznzU64 x74 0 x9 in
  let x78 := fiatFqCmovznzU64 x74 0 x10 in
  let x79 := fiatFqCmovznzU64 x74 0 x11 in
  let '(x80, x81) := Add64 x22 x75 0 in
  let '(x82, x83) := Add64 x23 x76 x81 in
  let '(x84, x85) := Add64 x24 x77 x83 in
  let '(x86, x87) := Add64 x25 x78 x85 in
  let '(x88, _) := Add64 x26 x79 x87 in
  let x90 := fiatFqCmovznzU64 x74 0 x27 in
  let x91 := fiatFqCmovznzU64 x74 0 x28 in
  let x92 := fiatFqCmovznzU64 x74 0 x29 in
  let x93 := fiatFqCmovznzU64 x74 0 x30 in
  let '(x94, x95) := Add64 x70 x90 0 in
  let '(x96, x97) := Add64 x71 x91 x95 in
  let '(x98, x99) := Add64 x72 x92 x97 in
  let '(x100, x101) := Add64 x73 x93 x99 in
  let '(x102, x103) := Sub64 x94 0xffffffff00000001 0 in
  let '(x104, x105) := Sub64 x96 0x53bda402fffe5bfe x103 in
  let '(x106, x107) := Sub64 x98 0x3339d80809a1d805 x105 in
  let '(x108, x109) := Sub64 x100 0x73eda753299d7d48 x107 in
  let '(_, x111) := Sub64 x101 0 x109 in
  let '(x112, _) := Add64 x6 1 0 in
  let x114 := Z.lor (shr64 x80 1) (Z.land (shl64 x82 0x3f) 0xffffffffffffffff) in
  let x115 := Z.lor (shr64 x82 1) (Z.land (shl64 x84 0x3f) 0xffffffffffffffff) in
  let x116 := Z.lor (shr64 x84 1) (Z.land (shl64 x86 0x3f) 0xffffffffffffffff) in
  let x117 := Z.lor (shr64 x86 1) (Z.land (shl64 x88 0x3f) 0xffffffffffffffff) in
  let x118 := Z.lor (Z.land x88 0x8000000000000000) (shr64 x88 1) in
  let x119 := fiatFqCmovznzU64 x48 x39 x31 in
  let x120 := fiatFqCmovznzU64 x48 x41 x33 in
  let x121 := fiatFqCmovznzU64 x48 x43 x35 in
  let x122 := fiatFqCmovznzU64 x48 x45 x37 in
  let x123 := fiatFqCmovznzU64 x111 x102 x94 in
  let x124 := fiatFqCmovznzU64 x111 x104 x96 in
  let x125 := fiatFqCmovznzU64 x111 x106 x98 in
  let x126 := fiatFqCmovznzU64 x111 x108 x100 in
  (x112, [x7; x8; x9; x10; x11], [x114; x115; x116; x117; x118], [x119; x120; x121; x122], [x123; x124; x125; x126]).

(** The functions the wrapper calls. *)
Definition fiat : Fiat := mkFiat 4 255 modulus fiatFqMul fiatFqSquare fiatFqAdd fiatFqSub fiatFqOpp fiatFqFromMontgomery fiatFqToMontgomery fiatFqNonzero fiatFqSelectznz fiatFqToBytes fiatFqFromBytes fiatFqSetOne fiatFqMsat fiatFqDivstepPrecomp fiatFqDivstep.

(** ** Correctness of the operations *)

Lemma Bls12381Fq_cmov_ok c x y : 0 <= c <= 1 → word x → word y → fiatFqCmovznzU64 c x y = if c =? 0 then x else y.
Proof. apply cmov_ok. Qed.
Lemma Bls12381Fq_Mul_row0 b0 b1 b2 b3 x4 :
  word b0 → word b1 → word b2 → word b3 → word x4 →
  let '(x39, x41, x43, x45, x46) := fiatFqMul_row0 [b0; b1; b2; b3] x4 in
  word x39 ∧ word x41 ∧ word x43 ∧ word x45 ∧ 0 <= x46 <= 1 ∧
  ∃ q, word q ∧ W * eval [x39; x41; x43; x45; x46] = 0 + x4 * eval [b0; b1; b2; b3] + q * modulus.
Proof. row_ok fiatFqMul_row0 modulus. Qed.
Lemma Bls12381Fq_Mul_row1 b0 b1 b2 b3 x1 x39 x41 x43 x45 x46 :
  word b0 → word b1 → word b2 → word b3 → word x1 → word x39 → word x41 → word x43 → word x45 → 0 <= x46 <= 1 →
  let '(x91, x93, x95, x97, x99) := fiatFqMul_row1 [b0; b1; b2; b3] x1 x39 x41 x43 x45 x46 in
  word x91 ∧ word x93 ∧ word x95 ∧ word x97 ∧ 0 <= x99 <= 2 ∧
  ∃ q, word q ∧ W * eval [x91; x93; x95; x97; x99] = eval [x39; x41; x43; x45; x46] + x1 * eval [b0; b1; b2; b3] + q * modulus.
Proof. row_ok fiatFqMul_row1 modulus. Qed.
Lemma Bls12381Fq_Mul_row2 b0 b1 b2 b3 x2 x91 x93 x95 x97 x99 :
  word b0 → word b1 → word b2 → word b3 → word x2 → word x91 → word x93 → word x95 → word x97 → 0 <= x99 <= 2 →
  let '(x144, x146, x148, x150, x152) := fiatFqMul_row2 [b0; b1; b2; b3] x2 x91 x93 x95 x97 x99 in
  word x144 ∧ word x146 ∧ word x148 ∧ word x150 ∧ 0 <= x152 <= 2 ∧
  ∃ q, word q ∧ W * eval [x144; x146; x148; x150; x152] = eval [x91; x93; x95; x97; x99] + x2 * eval [b0; b1; b2; b3] + q * modulus.
Proof. row_ok fiatFqMul_row2 modulus. Qed.
Lemma Bls12381Fq_Mul_row3 b0 b1 b2 b3 x3 x144 x146 x148 x150 x152 :
  word b0 → word b1 → word b2 → word b3 → word x3 → word x144 → word x146 → word x148 → word x150 → 0 <= x152 <= 2 →
  let '(x197, x199, x201, x203, x205) := fiatFqMul_row3 [b0; b1; b2; b3] x3 x144 x146 x148 x150 x152 in
  word x197 ∧ word x199 ∧ word x201 ∧ word x203 ∧ 0 <= x205 <= 2 ∧
  ∃ q, word q ∧ W * eval [x197; x199; x201; x203; x205] = eval [x144; x146; x148; x150; x152] + x3 * eval [b0; b1; b2; b3] + q * modulus.
Proof. exact (Bls12381Fq_Mul_row2 b0 b1 b2 b3 x3 x144 x146 x148 x150 x152). Qed.
Lemma Bls12381Fq_Mul_ok a b : words 4 a → valid 4 modulus b →
  mont_product 4 modulus (eval a) (eval b) (fiatFqMul a b).
Proof.
  intros Ha [Hb Hlt].
  destruct (words_inv4 a Ha) as (a0 & a1 & a2 & a3 & -> & Ha0 & Ha1 & Ha2 & Ha3).
  destruct (words_inv4 b Hb) as (b0 & b1 & b2 & b3 & -> & Hb0 & Hb1 & Hb2 & Hb3).
  unfold fiatFqMul. cbn [nth]. cbv zeta.
  run_row (Bls12381Fq_Mul_row0 b0 b1 b2 b3 a0) into HRow0.
  destruct (fiatFqMul_row0 [b0; b1; b2; b3] a0) as [[[[x39 x41] x43] x45] x46].
  destruct HRow0 as (? & ? & ? & ? & ? & q0 & Hq0 & E0).
  pose proof (redc_step _ _ _ _ _ _ _ _ (redc_0 modulus (eval [b0; b1; b2; b3])) Hq0 E0) as HR0.
  run_row (Bls12381Fq_Mul_row1 b0 b1 b2 b3 a1 x39 x41 x43 x45 x46) into HRow1.
  destruct (fiatFqMul_row1 [b0; b1; b2; b3] a1 x39 x41 x43 x45 x46) as [[[[x91 x93] x95] x97] x99].
  destruct HRow1 as (? & ? & ? & ? & ? & q1 & Hq1 & E1).
  pose proof (redc_step _ _ _ _ _ _ _ _ HR0 Hq1 E1) as HR1.
  run_row (Bls12381Fq_Mul_row2 b0 b1 b2 b3 a2 x91 x93 x95 x97 x99) into HRow2.
  destruct (fiatFqMul_row2 [b0; b1; b2; b3] a2 x91 x93 x95 x97 x99) as [[[[x144 x146] x148] x150] x152].
  destruct HRow2 as (? & ? & ? & ? & ? & q2 & Hq2 & E2).
  pose proof (redc_step _ _ _ _ _ _ _ _ HR1 Hq2 E2) as HR2.
  run_row (Bls12381Fq_Mul_row3 b0 b1 b2 b3 a3 x144 x146 x148 x150 x152) into HRow3.
  destruct (fiatFqMul_row3 [b0; b1; b2; b3] a3 x144 x146 x148 x150 x152) as [[[[x197 x199] x201] x203] x205].
  destruct HRow3 as (? & ? & ? & ? & ? & q3 & Hq3 & E3).
  pose proof (redc_step _ _ _ _ _ _ _ _ HR2 Hq3 E3) as HR3.
  rewrite eval_rows4 in HR3.
  assert (0 <= eval [x197; x199; x201; x203; x205] < 2 * modulus) as HT.
  { apply (redc_bound _ _ _ _ _ HR3); [done|by apply eval_bound|split; [apply (eval_bound _ _ Hb)|lia]]. }
  apply (mont_product_intro _ _ 4 (eval [x197; x199; x201; x203; x205]) _ _); [done|exact HR3|].
  reduce_final Bls12381Fq_cmov_ok modulus.
Qed.
Lemma Bls12381Fq_Square_row0 b0 b1 b2 b3 x4 :
  word b0 → word b1 → word b2 → word b3 → word x4 →
  let '(x39, x41, x43, x45, x46) := fiatFqSquare_row0 [b0; b1; b2; b3] x4 in
  word x39 ∧ word x41 ∧ word x43 ∧ word x45 ∧ 0 <= x46 <= 1 ∧
  ∃ q, word q ∧ W * eval [x39; x41; x43; x45; x46] = 0 + x4 * eval [b0; b1; b2; b3] + q * modulus.
Proof. exact (Bls12381Fq_Mul_row0 b0 b1 b2 b3 x4). Qed.
Lemma Bls12381Fq_Square_row1 b0 b1 b2 b3 x1 x39 x41 x43 x45 x46 :
  word b0 → word b1 → word b2 → word b3 → word x1 → word x39 → word x41 → word x43 → word x45 → 0 <= x46 <= 1 →
  let '(x91, x93, x95, x97, x99) := fiatFqSquare_row1 [b0; b1; b2; b3] x1 x39 x41 x43 x45 x46 in
  word x91 ∧ word x93 ∧ word x95 ∧ word x97 ∧ 0 <= x99 <= 2 ∧
  ∃ q, word q ∧ W * eval [x91; x93; x95; x97; x99] = eval [x39; x41; x43; x45; x46] + x1 * eval [b0; b1; b2; b3] + q * modulus.
Proof. exact (Bls12381Fq_Mul_row1 b0 b1 b2 b3 x1 x39 x41 x43 x45 x46). Qed.
Lemma Bls12381Fq_Square_row2 b0 b1 b2 b3 x2 x91 x93 x95 x97 x99 :
  word b0 → word b1 → word b2 → word b3 → word x2 → word x91 → word x93 → word x95 → word x97 → 0 <= x99 <= 2 →
  let '(x144, x146, x148, x150, x152) := fiatFqSquare_row2 [b0; b1; b2; b3] x2 x91 x93 x95 x97 x99 in
  word x144 ∧ word x146 ∧ word x148 ∧ word x150 ∧ 0 <= x152 <= 2 ∧
  ∃ q, word q ∧ W * eval [x144; x146; x148; x150; x152] = eval [x91; x93; x95; x97; x99] + x2 * eval [b0; b1; b2; b3] + q * modulus.
Proof. exact (Bls12381Fq_Mul_row2 b0 b1 b2 b3 x2 x91 x93 x95 x97 x99). Qed.
Lemma Bls12381Fq_Square_row3 b0 b1 b2 b3 x3 x144 x146 x148 x150 x152 :
  word b0 → word b1 → word b2 → word b3 → word x3 → word x144 → word x146 → word x148 → word x150 → 0 <= x152 <= 2 →
  let '(x197, x199, x201, x203, x205) := fiatFqSquare_row3 [b0; b1; b2; b3] x3 x144 x146 x148 x150 x152 in
  word x197 ∧ word x199 ∧ word x201 ∧ word x203 ∧ 0 <= x205 <= 2 ∧
  ∃ q, word q ∧ W * eval [x197; x199; x201; x203; x205] = eval [x144; x146; x148; x150; x152] + x3 * eval [b0; b1; b2; b3] + q * modulus.
Proof. exact (Bls12381Fq_Mul_row2 b0 b1 b2 b3 x3 x144 x146 x148 x150 x152). Qed.
Lemma Bls12381Fq_Square_ok a : valid 4 modulus a →
  mont_product 4 modulus (eval a) (eval a) (fiatFqSquare a).
Proof.
  intros [Ha Hlt]. pose proof Ha as Hb.
  destruct (words_inv4 a Ha) as (a0 & a1 & a2 & a3 & -> & Ha0 & Ha1 & Ha2 & Ha3).
  unfold fiatFqSquare. cbn [nth]. cbv zeta.
  run_row (Bls12381Fq_Square_row0 a0 a1 a2 a3 a0) into HRow0.
  destruct (fiatFqSquare_row0 [a0; a1; a2; a3] a0) as [[[[x39 x41] x43] x45] x46].
  destruct HRow0 as (? & ? & ? & ? & ? & q0 & Hq0 & E0).
  pose proof (redc_step _ _ _ _ _ _ _ _ (redc_0 modulus (eval [a0; a1; a2; a3])) Hq0 E0) as HR0.
  run_row (Bls12381Fq_Square_row1 a0 a1 a2 a3 a1 x39 x41 x43 x45 x46) into HRow1.
  destruct (fiatFqSquare_row1 [a0; a1; a2; a3] a1 x39 x41 x43 x45 x46) as [[[[x91 x93] x95] x97] x99].
  destruct HRow1 as (? & ? & ? & ? & ? & q1 & Hq1 & E1).
  pose proof (redc_step _ _ _ _ _ _ _ _ HR0 Hq1 E1) as HR1.
  run_row (Bls12381Fq_Square_row2 a0 a1 a2 a3 a2 x91 x93 x95 x97 x99) into HRow2.
  destruct (fiatFqSquare_row2 [a0; a1; a2; a3] a2 x91 x93 x95 x97 x99) as [[[[x144 x146] x148] x150] x152].
  destruct HRow2 as (? & ? & ? & ? & ? & q2 & Hq2 & E2).
  pose proof (redc_step _ _ _ _ _ _ _ _ HR1 Hq2 E2) as HR2.
  run_row (Bls12381Fq_Square_row3 a0 a1 a2 a3 a3 x144 x146 x148 x150 x152) into HRow3.
  destruct (fiatFqSquare_row3 [a0; a1; a2; a3] a3 x144 x146 x148 x150 x152) as [[[[x197 x199] x201] x203] x205].
  destruct HRow3 as (? & ? & ? & ? & ? & q3 & Hq3 & E3).
  pose proof (redc_step _ _ _ _ _ _ _ _ HR2 Hq3 E3) as HR3.
  rewrite eval_rows4 in HR3.
  assert (0 <= eval [x197; x199; x201; x203; x205] < 2 * modulus) as HT.
  { apply (redc_bound _ _ _ _ _ HR3); [done|by apply eval_bound|split; [apply (eval_bound _ _ Hb)|lia]]. }
  apply (mont_product_intro _ _ 4 (eval [x197; x199; x201; x203; x205]) _ _); [done|exact HR3|].
  reduce_final Bls12381Fq_cmov_ok modulus.
Qed.
Lemma Bls12381Fq_FromMontgomery_row0 x1 :
  word x1 →
  let '(x5, x17, x20, x22, x24, x25) := fiatFqFromMontgomery_row0  x1 in
  0 <= x5 <= 8353516859464449352 ∧ 0 <= x17 <= 1 ∧ word x20 ∧ word x22 ∧ word x24 ∧ 0 <= x25 <= 1 ∧
  ∃ q, word q ∧ W * eval [x20; x22; x24; x5 + x17 + x25; 0] = 0 + x1 * 1 + q * modulus.
Proof. row_ok fiatFqFromMontgomery_row0 modulus. Qed.
Lemma Bls12381Fq_FromMontgomery_row1 a0 a1 a2 a3 x5 x17 x20 x22 x24 x25 :
  word a0 → word a1 → word a2 → word a3 → 0 <= x5 <= 8353516859464449352 → 0 <= x17 <= 1 → word x20 → word x22 → word x24 → 0 <= x25 <= 1 →
  let '(x35, x47, x50, x52, x54, x55) := fiatFqFromMontgomery_row1 [a0; a1; a2; a3] x5 x17 x20 x22 x24 x25 in
  0 <= x35 <= 8353516859464449352 ∧ 0 <= x47 <= 1 ∧ word x50 ∧ word x52 ∧ word x54 ∧ 0 <= x55 <= 1 ∧
  ∃ q, word q ∧ W * eval [x50; x52; x54; x35 + x47 + x55; 0] = eval [x20; x22; x24; x5 + x17 + x25; 0] + a1 * 1 + q * modulus.
Proof. row_ok fiatFqFromMontgomery_row1 modulus. Qed.
Lemma Bls12381Fq_FromMontgomery_row2 a0 a1 a2 a3 x35 x47 x50 x52 x54 x55 :
  word a0 → word a1 → word a2 → word a3 → 0 <= x35 <= 8353516859464449352 → 0 <= x47 <= 1 → word x50 → word x52 → word x54 → 0 <= x55 <= 1 →
  let '(x65, x77, x80, x82, x84, x85) := fiatFqFromMontgomery_row2 [a0; a1; a2; a3] x35 x47 x50 x52 x54 x55 in
  0 <= x65 <= 8353516859464449352 ∧ 0 <= x77 <= 1 ∧ word x80 ∧ word x82 ∧ word x84 ∧ 0 <= x85 <= 1 ∧
  ∃ q, word q ∧ W * eval [x80; x82; x84; x65 + x77 + x85; 0] = eval [x50; x52; x54; x35 + x47 + x55; 0] + a2 * 1 + q * modulus.
Proof. row_ok fiatFqFromMontgomery_row2 modulus. Qed.
Lemma Bls12381Fq_FromMontgomery_row3 a0 a1 a2 a3 x65 x77 x80 x82 x84 x85 :
  word a0 → word a1 → word a2 → word a3 → 0 <= x65 <= 8353516859464449352 → 0 <= x77 <= 1 → word x80 → word x82 → word x84 → 0 <= x85 <= 1 →
  let '(x110, x112, x114, x116) := fiatFqFromMontgomery_row3 [a0; a1; a2; a3] x65 x77 x80 x82 x84 x85 in
  word x110 ∧ word x112 ∧ word x114 ∧ 0 <= x116 <= 8353516859464449354 ∧
  ∃ q, word q ∧ W * eval [x110; x112; x114; x116; 0] = eval [x80; x82; x84; x65 + x77 + x85; 0] + a3 * 1 + q * modulus.
Proof. row_ok fiatFqFromMontgomery_row3 modulus. Qed.
Lemma Bls12381Fq_FromMontgomery_ok a : words 4 a →
  mont_product 4 modulus (eval a) 1 (fiatFqFromMontgomery a).
Proof.
  intros Ha.
  destruct (words_inv4 a Ha) as (a0 & a1 & a2 & a3 & -> & Ha0 & Ha1 & Ha2 & Ha3).
  unfold fiatFqFromMontgomery. cbn [nth]. cbv zeta.
  run_row (Bls12381Fq_FromMontgomery_row0 a0) into HRow0.
  destruct (fiatFqFromMontgomery_row0 a0) as [[[[[x5 x17] x20] x22] x24] x25].
  destruct HRow0 as (? & ? & ? & ? & ? & ? & q0 & Hq0 & E0).
  pose proof (redc_step _ _ _ _ _ _ _ _ (redc_0 modulus (1)) Hq0 E0) as HR0.
  run_row (Bls12381Fq_FromMontgomery_row1 a0 a1 a2 a3 x5 x17 x20 x22 x24 x25) into HRow1.
  destruct (fiatFqFromMontgomery_row1 [a0; a1; a2; a3] x5 x17 x20 x22 x24 x25) as [[[[[x35 x47] x50] x52] x54] x55].
  destruct HRow1 as (? & ? & ? & ? & ? & ? & q1 & Hq1 & E1).
  pose proof (redc_step _ _ _ _ _ _ _ _ HR0 Hq1 E1) as HR1.
  run_row (Bls12381Fq_FromMontgomery_row2 a0 a1 a2 a3 x35 x47 x50 x52 x54 x55) into HRow2.
  destruct (fiatFqFromMontgomery_row2 [a0; a1; a2; a3] x35 x47 x50 x52 x54 x55) as [[[[[x65 x77] x80] x82] x84] x85].
  destruct HRow2 as (? & ? & ? & ? & ? & ? & q2 & Hq2 & E2).
  pose proof (redc_step _ _ _ _ _ _ _ _ HR1 Hq2 E2) as HR2.
  run_row (Bls12381Fq_FromMontgomery_row3 a0 a1 a2 a3 x65 x77 x80 x82 x84 x85) into HRow3.
  destruct (fiatFqFromMontgomery_row3 [a0; a1; a2; a3] x65 x77 x80 x82 x84 x85) as [[[x110 x112] x114] x116].
  destruct HRow3 as (? & ? & ? & ? & q3 & Hq3 & E3).
  pose proof (redc_step _ _ _ _ _ _ _ _ HR2 Hq3 E3) as HR3.
  rewrite eval_rows4 in HR3.
  assert (0 <= eval [x110; x112; x114; x116; 0] < 2 * modulus) as HT.
  { apply (redc_bound _ _ _ _ _ HR3); [done|by apply eval_bound|done]. }
  apply (mont_product_intro _ _ 4 (eval [x110; x112; x114; x116; 0]) _ _); [done|exact HR3|].
  reduce_final Bls12381Fq_cmov_ok modulus.
Qed.
Lemma Bls12381Fq_ToMontgomery_row0 x4 :
  word x4 →
  let '(x6, x18, x22, x34, x37, x39, x41, x42) := fiatFqToMontgomery_row0  x4 in
  0 <= x6 <= 524908885293268753 ∧ 0 <= x18 <= 1 ∧ 0 <= x22 <= 8353516859464449352 ∧ 0 <= x34 <= 1 ∧ word x37 ∧ word x39 ∧ word x41 ∧ 0 <= x42 <= 1 ∧
  ∃ q, word q ∧ W * eval [x37; x39; x41; x6 + x18 + x22 + x34 + x42; 0] = 0 + x4 * R2 + q * modulus.
Proof. unfold R2. row_ok fiatFqToMontgomery_row0 modulus. Qed.
Lemma Bls12381Fq_ToMontgomery_row1 x1 x6 x18 x22 x34 x37 x39 x41 x42 :
  word x1 → 0 <= x6 <= 524908885293268753 → 0 <= x18 <= 1 → 0 <= x22 <= 8353516859464449352 → 0 <= x34 <= 1 → word x37 → word x39 → word x41 → 0 <= x42 <= 1 →
  let '(x44, x56, x64, x68, x80, x83, x85, x87, x88) := fiatFqToMontgomery_row1  x1 x6 x18 x22 x34 x37 x39 x41 x42 in
  0 <= x44 <= 524908885293268753 ∧ 0 <= x56 <= 1 ∧ 0 <= x64 <= 1 ∧ 0 <= x68 <= 8353516859464449352 ∧ 0 <= x80 <= 1 ∧ word x83 ∧ word x85 ∧ word x87 ∧ 0 <= x88 <= 1 ∧
  ∃ q, word q ∧ W * eval [x83; x85; x87; x44 + x56 + x64 + x68 + x80 + x88; 0] = eval [x37; x39; x41; x6 + x18 + x22 + x34 + x42; 0] + x1 * R2 + q * modulus.
Proof. unfold R2. row_ok fiatFqToMontgomery_row1 modulus. Qed.
Lemma Bls12381Fq_ToMontgomery_row2 x2 x44 x56 x64 x68 x80 x83 x85 x87 x88 :
  word x2 → 0 <= x44 <= 524908885293268753 → 0 <= x56 <= 1 → 0 <= x64 <= 1 → 0 <= x68 <= 8353516859464449352 → 0 <= x80 <= 1 → word x83 → word x85 → word x87 → 0 <= x88 <= 1 →
  let '(x90, x102, x110, x114, x126, x129, x131, x133, x134) := fiatFqToMontgomery_row2  x2 x44 x56 x64 x68 x80 x83 x85 x87 x88 in
  0 <= x90 <= 524908885293268753 ∧ 0 <= x102 <= 1 ∧ 0 <= x110 <= 1 ∧ 0 <= x114 <= 8353516859464449352 ∧ 0 <= x126 <= 1 ∧ word x129 ∧ word x131 ∧ word x133 ∧ 0 <= x134 <= 1 ∧
  ∃ q, word q ∧ W * eval [x129; x131; x133; x90 + x102 + x110 + x114 + x126 + x134; 0] = eval [x83; x85; x87; x44 + x56 + x64 + x68 + x80 + x88; 0] + x2 * R2 + q * modulus.
Proof. unfold R2. row_ok fiatFqToMontgomery_row2 modulus. Qed.
Lemma Bls12381Fq_ToMontgomery_row3 x3 x90 x102 x110 x114 x126 x129 x131 x133 x134 :
  word x3 → 0 <= x90 <= 524908885293268753 → 0 <= x102 <= 1 → 0 <= x110 <= 1 → 0 <= x114 <= 8353516859464449352 → 0 <= x126 <= 1 → word x129 → word x131 → word x133 → 0 <= x134 <= 1 →
  let '(x175, x177, x179, x181) := fiatFqToMontgomery_row3  x3 x90 x102 x110 x114 x126 x129 x131 x133 x134 in
  word x175 ∧ word x177 ∧ word x179 ∧ 0 <= x181 <= 8878425744757718109 ∧
  ∃ q, word q ∧ W * eval [x175; x177; x179; x181; 0] = eval [x129; x131; x133; x90 + x102 + x110 + x114 + x126 + x134; 0] + x3 * R2 + q * modulus.
Proof. unfold R2. row_ok fiatFqToMontgomery_row3 modulus. Qed.
Lemma Bls12381Fq_ToMontgomery_ok a : words 4 a →
  mont_product 4 modulus (eval a) R2 (fiatFqToMontgomery a).
Proof.
  intros Ha.
  destruct (words_inv4 a Ha) as (a0 & a1 & a2 & a3 & -> & Ha0 & Ha1 & Ha2 & Ha3).
  unfold fiatFqToMontgomery. cbn [nth]. cbv zeta.
  run_row (Bls12381Fq_ToMontgomery_row0 a0) into HRow0.
  destruct (fiatFqToMontgomery_row0 a0) as [[[[[[[x6 x18] x22] x34] x37] x39] x41] x42].
  destruct HRow0 as (? & ? & ? & ? & ? & ? & ? & ? & q0 & Hq0 & E0).
  pose proof (redc_step _ _ _ _ _ _ _ _ (redc_0 modulus (R2)) Hq0 E0) as HR0.
  run_row (Bls12381Fq_ToMontgomery_row1 a1 x6 x18 x22 x34 x37 x39 x41 x42) into HRow1.
  destruct (fiatFqToMontgomery_row1 a1 x6 x18 x22 x34 x37 x39 x41 x42) as [[[[[[[[x44 x56] x64] x68] x80] x83] x85] x87] x88].
  destruct HRow1 as (? & ? & ? & ? & ? & ? & ? & ? & ? & q1 & Hq1 & E1).
  pose proof (redc_step _ _ _ _ _ _ _ _ HR0 Hq1 E1) as HR1.
  run_row (Bls12381Fq_ToMontgomery_row2 a2 x44 x56 x64 x68 x80 x83 x85 x87 x88) into HRow2.
  destruct (fiatFqToMontgomery_row2 a2 x44 x56 x64 x68 x80 x83 x85 x87 x88) as [[[[[[[[x90 x102] x110] x114] x126] x129] x131] x133] x134].
  destruct HRow2 as (? & ? & ? & ? & ? & ? & ? & ? & ? & q2 & Hq2 & E2).
  pose proof (redc_step _ _ _ _ _ _ _ _ HR1 Hq2 E2) as HR2.
  run_row (Bls12381Fq_ToMontgomery_row3 a3 x90 x102 x110 x114 x126 x129 x131 x133 x134) into HRow3.
  destruct (fiatFqToMontgomery_row3 a3 x90 x102 x110 x114 x126 x129 x131 x133 x134) as [[[x175 x177] x179] x181].
  destruct HRow3 as (? & ? & ? & ? & q3 & Hq3 & E3).
  pose proof (redc_step _ _ _ _ _ _ _ _ HR2 Hq3 E3) as HR3.
  rewrite eval_rows4 in HR3.
  assert (0 <= eval [x175; x177; x179; x181; 0] < 2 * modulus) as HT.
  { apply (redc_bound _ _ _ _ _ HR3); [done|by apply eval_bound|done]. }
  apply (mont_product_intro _ _ 4 (eval [x175; x177; x179; x181; 0]) _ _); [done|exact HR3|].
  reduce_final Bls12381Fq_cmov_ok modulus.
Qed.

Lemma Bls12381Fq_Add_ok a b : valid 4 modulus a → valid 4 modulus b →
  valid 4 modulus (fiatFqAdd a b) ∧ eval (fiatFqAdd a b) = (eval a + eval b) mod modulus.
Proof.
  intros [Ha Hal] [Hb Hbl].
  assert (0 <= eval a + eval b < 2 * modulus) as HT.
  { pose proof (eval_bound _ _ Ha). pose proof (eval_bound _ _ Hb). lia. }
  destruct (words_inv4 a Ha) as (a0 & a1 & a2 & a3 & -> & Ha0 & Ha1 & Ha2 & Ha3).
  destruct (words_inv4 b Hb) as (b0 & b1 & b2 & b3 & -> & Hb0 & Hb1 & Hb2 & Hb3).
  unfold fiatFqAdd. cbn [nth]. cbv zeta. clear Hal Hbl.
  add_final Bls12381Fq_cmov_ok modulus.
Qed.
Lemma Bls12381Fq_Sub_ok a b : valid 4 modulus a → valid 4 modulus b →
  valid 4 modulus (fiatFqSub a b) ∧ eval (fiatFqSub a b) = (eval a - eval b) mod modulus.
Proof.
  intros [Ha Hal] [Hb Hbl]. pose proof (conj (proj1 (eval_bound _ _ Ha)) Hal) as HA. pose proof (conj (proj1 (eval_bound _ _ Hb)) Hbl) as HB.
  destruct (words_inv4 a Ha) as (a0 & a1 & a2 & a3 & -> & Ha0 & Ha1 & Ha2 & Ha3).
  destruct (words_inv4 b Hb) as (b0 & b1 & b2 & b3 & -> & Hb0 & Hb1 & Hb2 & Hb3).
  unfold fiatFqSub. cbn [nth]. cbv zeta. clear Hal Hbl. do 4 word_step.
  sub_final Bls12381Fq_cmov_ok modulus [s; s0; s1; s2] d2.
Qed.
Lemma Bls12381Fq_Opp_ok a : valid 4 modulus a →
  valid 4 modulus (fiatFqOpp a) ∧ eval (fiatFqOpp a) = (- eval a) mod modulus.
Proof.
  intros [Ha Hal]. pose proof (conj (proj1 (eval_bound _ _ Ha)) Hal) as HB. assert (0 <= 0 < modulus) as HA by done.
  destruct (words_inv4 a Ha) as (a0 & a1 & a2 & a3 & -> & Ha0 & Ha1 & Ha2 & Ha3).
  rewrite <-(Z.sub_0_l (eval _)). unfold fiatFqOpp. cbn [nth]. cbv zeta. clear Hal. do 4 word_step.
  sub_final Bls12381Fq_cmov_ok modulus [s; s0; s1; s2] d2.
Qed.
Lemma Bls12381Fq_Nonzero_ok a : words 4 a → word (fiatFqNonzero a) ∧ (fiatFqNonzero a = 0 ↔ eval a = 0).
Proof.
  intros Ha. pose proof (eval_zero a (proj2 Ha)) as Hz.
  destruct (words_inv4 a Ha) as (a0 & a1 & a2 & a3 & -> & Ha0 & Ha1 & Ha2 & Ha3).
  rewrite Hz. unfold fiatFqNonzero. cbn [nth]. cbv zeta. split; [repeat (apply word_lor; [assumption|]); assumption|].
  rewrite !Forall_cons, !Z.lor_eq_0_iff. naive_solver.
Qed.
Lemma Bls12381Fq_Selectznz_ok c a b : 0 <= c <= 1 → words 4 a → words 4 b →
  fiatFqSelectznz c a b = if c =? 0 then a else b.
Proof.
  intros Hc Ha Hb.
  destruct (words_inv4 a Ha) as (a0 & a1 & a2 & a3 & -> & Ha0 & Ha1 & Ha2 & Ha3).
  destruct (words_inv4 b Hb) as (b0 & b1 & b2 & b3 & -> & Hb0 & Hb1 & Hb2 & Hb3).
  unfold fiatFqSelectznz. cbn [nth]. cbv zeta. rewrite !Bls12381Fq_cmov_ok by assumption. by destruct (c =? 0).
Qed.
Lemma Bls12381Fq_ToBytes_ok a : words 4 a → fiatFqToBytes a = a ≫= word_bytes.
Proof. intros Ha.  destruct (words_inv4 a Ha) as (a0 & a1 & a2 & a3 & -> & Ha0 & Ha1 & Ha2 & Ha3). reflexivity. Qed.
Lemma Bls12381Fq_FromBytes_ok b : length b = 32%nat → fiatFqFromBytes b = le_words 4 b.
Proof. intros Hb. do 32 (destruct b as [|? b]; [discriminate|]). destruct b; [reflexivity|discriminate]. Qed.
Lemma Bls12381Fq_SetOne_ok : valid 4 modulus fiatFqSetOne ∧ eval fiatFqSetOne = W ^ 4 mod modulus.
Proof. unfold valid. cbn [fiatFqSetOne]. split; [split; [words_list|]|]; cbn [eval foldr fiatFqSetOne]; rewrite W_val; vm_compute; reflexivity. Qed.
Lemma Bls12381Fq_Msat_ok : words 5 fiatFqMsat ∧ eval fiatFqMsat = modulus.
Proof. split; [words_list|cbn [eval foldr fiatFqMsat]; rewrite W_val; vm_compute; reflexivity]. Qed.

Lemma Bls12381Fq_Divstep_select dw f0 f1 f2 f3 f4 g0 g1 g2 g3 g4 v0 v1 v2 v3 r0 r1 r2 r3 :
  word dw → words 5 [f0; f1; f2; f3; f4] → words 5 [g0; g1; g2; g3; g4] → valid 4 modulus [v0; v1; v2; v3] → valid 4 modulus [r0; r1; r2; r3] →
  - 2 ^ 62 < signed64 dw < 2 ^ 62 →
  let b := (0 <? signed64 dw) && Z.odd g0 in
  let '(x3, x6, x7, x8, x9, x10, x11, x22, x23, x24, x25, x26, x27, x28, x29, x30, x31, x33, x35, x37, x39, x41, x43, x45, x48) := fiatFqDivstep_select dw [f0; f1; f2; f3; f4] [g0; g1; g2; g3; g4] [v0; v1; v2; v3] [r0; r1; r2; r3] in
  x3 = Z.b2z b ∧ (word x6 ∧ signed64 x6 = if b then - signed64 dw else signed64 dw) ∧
  [x7; x8; x9; x10; x11] = (if b then [g0; g1; g2; g3; g4] else [f0; f1; f2; f3; f4]) ∧ words 5 [x22; x23; x24; x25; x26] ∧
  (∃ k, eval [x22; x23; x24; x25; x26] = (if b then - eval [f0; f1; f2; f3; f4] else eval [g0; g1; g2; g3; g4]) + k * W ^ Z.of_nat 5) ∧
  [x27; x28; x29; x30] = (if b then [r0; r1; r2; r3] else [v0; v1; v2; v3]) ∧ words 4 [x31; x33; x35; x37] ∧ words 4 [x39; x41; x43; x45] ∧ 0 <= x48 <= 1 ∧
  valid 4 modulus (if x48 =? 0 then [x39; x41; x43; x45] else [x31; x33; x35; x37]) ∧
  eval (if x48 =? 0 then [x39; x41; x43; x45] else [x31; x33; x35; x37]) = (2 * eval [x27; x28; x29; x30]) mod modulus.
Proof. divstep_select_ok fiatFqDivstep_select Bls12381Fq_cmov_ok modulus. Qed.
Lemma Bls12381Fq_Divstep_negate_ok v : fiatFqDivstep_negate v = fiatFqOpp v.
Proof. reflexivity. Qed.
Lemma Bls12381Fq_Divstep_ok dw F G V R st : represents 4 modulus (dw, F, G, V, R) st → step_range modulus st →
  represents 4 modulus (fiatFqDivstep dw F G V R) (divstep modulus st).
Proof.
  destruct st as [[[[d f] g] v] r]. intros Hrep Hrange. pose proof Hrep as (Hdw & Hd & [HF Ef] & [HG Eg] & [HV Ev] & [HR Er]). pose proof (proj1 Hrange) as Hdr.
  destruct (Bls12381Fq_Opp_ok V HV) as [Hneg En]. pose proof (proj1 Hneg) as Hn. rewrite Ev in En. subst d. unfold fiatFqDivstep. rewrite Bls12381Fq_Divstep_negate_ok. set (neg := fiatFqOpp V) in *. clearbody neg.
  destruct (words_inv5 F HF) as (f0 & f1 & f2 & f3 & f4 & -> & Hf0 & Hf1 & Hf2 & Hf3 & Hf4).
  destruct (words_inv5 G HG) as (g0 & g1 & g2 & g3 & g4 & -> & Hg0 & Hg1 & Hg2 & Hg3 & Hg4).
  destruct (words_inv4 V (proj1 HV)) as (v0 & v1 & v2 & v3 & -> & Hv0 & Hv1 & Hv2 & Hv3).
  destruct (words_inv4 R (proj1 HR)) as (r0 & r1 & r2 & r3 & -> & Hr0 & Hr1 & Hr2 & Hr3).
  destruct (words_inv4 neg Hn) as (n0 & n1 & n2 & n3 & -> & Hn0 & Hn1 & Hn2 & Hn3).
  pose proof (Bls12381Fq_Divstep_select dw f0 f1 f2 f3 f4 g0 g1 g2 g3 g4 v0 v1 v2 v3 r0 r1 r2 r3 Hdw HF HG HV HR Hdr) as Hsel.
  cbv zeta in Hsel |- *. destruct (fiatFqDivstep_select _ _ _ _ _) as [[[[[[[[[[[[[[[[[[[[[[[[x3 x6] x7] x8] x9] x10] x11] x22] x23] x24] x25] x26] x27] x28] x29] x30] x31] x33] x35] x37] x39] x41] x43] x45] x48].
  destruct Hsel as (-> & [Hx6 Ex6] & HFF & HGG & [kG EG] & HVV & Hdbl & Hsub & Hc & HVd & EVd).
  divstep_ok fiatFqCmovznzU64 Bls12381Fq_cmov_ok modulus 4%nat dw g0 [x7; x8; x9; x10; x11] [x22; x23; x24; x25; x26] [x27; x28; x29; x30] [x31; x33; x35; x37] [x39; x41; x43; x45] [r0; r1; r2; r3] [n0; n1; n2; n3].
  divstep_final Bls12381Fq_cmov_ok modulus dw g Hrep Hrange [x7; x8; x9; x10; x11] [x27; x28; x29; x30] [x22; x23; x24; x25; x26] [n0; n1; n2; n3] HV HR Hneg En Eb Eg.
Qed.
#[export] Instance Bls12381Fq_field : FiatField fiat.
Proof.
  fiat_field fiat.
  - reflexivity.
  - done.
  - rewrite W_val. split; vm_compute; reflexivity.
  - reflexivity.
  - intros a b [Ha _]. by apply Bls12381Fq_Mul_ok.
  - exact Bls12381Fq_Square_ok.
  - exact Bls12381Fq_Add_ok.
  - exact Bls12381Fq_Sub_ok.
  - exact Bls12381Fq_Opp_ok.
  - exact Bls12381Fq_FromMontgomery_ok.
  - intros a Ha. assert ((W ^ Z.of_nat 4) ^ 2 mod modulus = R2) as -> by (rewrite W_val; vm_compute; reflexivity).
    by apply Bls12381Fq_ToMontgomery_ok.
  - exact Bls12381Fq_Nonzero_ok.
  - exact Bls12381Fq_Selectznz_ok.
  - exact Bls12381Fq_ToBytes_ok.
  - exact Bls12381Fq_FromBytes_ok.
  - exact Bls12381Fq_SetOne_ok.
  - exact Bls12381Fq_Msat_ok.
  - fiat_precomp fiatFqDivstepPrecomp.
  - exact Bls12381Fq_Divstep_ok.
Qed.
End Bls12381Fq.
