(* ===== verification/Bls12381Fp.v ===== *)
(** * The base field of BLS12-381 (base/curves/pairable/bls12381/impl/fiat_fp.gen.go)

    The word-by-word Montgomery arithmetic of the field, translated statement
    by statement, and the proof that each operation computes on the numbers it
    represents.  The long functions are cut into their rows, which the
    function runs in order. *)

From Stdlib Require Import ZArith Lia.
From S2P Require Import Prelude Fiat.
Local Open Scope Z_scope.
Local Open Scope word_scope.

Module Bls12381Fp.
Definition modulus : Z := 0x1a0111ea397fe69a4b1ba7b6434bacd764774b84f38512bf6730d2a0f6b0f6241eabfffeb153ffffb9feffffffffaaab.

Definition fiatFpCmovznzU64 (arg1 arg2 arg3 : Z) : Z :=
  let x1 := mul64 arg1 0xffffffffffffffff in
  let x2 := Z.lor (Z.land x1 arg3) (Z.land (not64 x1) arg2) in
  x2.

(** The square of the Montgomery radix modulo the prime. *)
Definition R2 : Z := 0x11988fe592cae3aa9a793e85b519952d67eb88a9939d83c08de5476c4c95b6d50a76e6a609d104f1f4df1f341c341746.

Definition fiatFpMul_row0 (arg2 : limbs) (x6 : Z) :=
  let '(x8, x7) := Mul64 x6 arg2.[5] in
  let '(x10, x9) := Mul64 x6 arg2.[4] in
  let '(x12, x11) := Mul64 x6 arg2.[3] in
  let '(x14, x13) := Mul64 x6 arg2.[2] in
  let '(x16, x15) := Mul64 x6 arg2.[1] in
  let '(x18, x17) := Mul64 x6 arg2.[0] in
  let '(x19, x20) := Add64 x18 x15 0 in
  let '(x21, x22) := Add64 x16 x13 x20 in
  let '(x23, x24) := Add64 x14 x11 x22 in
  let '(x25, x26) := Add64 x12 x9 x24 in
  let '(x27, x28) := Add64 x10 x7 x26 in
  let x29 := add64 x28 x8 in
  let '(_, x30) := Mul64 x17 0x89f3fffcfffcfffd in
  let '(x33, x32) := Mul64 x30 0x1a0111ea397fe69a in
  let '(x35, x34) := Mul64 x30 0x4b1ba7b6434bacd7 in
  let '(x37, x36) := Mul64 x30 0x64774b84f38512bf in
  let '(x39, x38) := Mul64 x30 0x6730d2a0f6b0f624 in
  let '(x41, x40) := Mul64 x30 0x1eabfffeb153ffff in
  let '(x43, x42) := Mul64 x30 0xb9feffffffffaaab in
  let '(x44, x45) := Add64 x43 x40 0 in
  let '(x46, x47) := Add64 x41 x38 x45 in
  let '(x48, x49) := Add64 x39 x36 x47 in
  let '(x50, x51) := Add64 x37 x34 x49 in
  let '(x52, x53) := Add64 x35 x32 x51 in
  let x54 := add64 x53 x33 in
  let '(_, x56) := Add64 x17 x42 0 in
  let '(x57, x58) := Add64 x19 x44 x56 in
  let '(x59, x60) := Add64 x21 x46 x58 in
  let '(x61, x62) := Add64 x23 x48 x60 in
  let '(x63, x64) := Add64 x25 x50 x62 in
  let '(x65, x66) := Add64 x27 x52 x64 in
  let '(x67, x68) := Add64 x29 x54 x66 in
  (x57, x59, x61, x63, x65, x67, x68).
Definition fiatFpMul_row1 (arg2 : limbs) (x1 x57 x59 x61 x63 x65 x67 x68 : Z) :=
  let '(x70, x69) := Mul64 x1 arg2.[5] in
  let '(x72, x71) := Mul64 x1 arg2.[4] in
  let '(x74, x73) := Mul64 x1 arg2.[3] in
  let '(x76, x75) := Mul64 x1 arg2.[2] in
  let '(x78, x77) := Mul64 x1 arg2.[1] in
  let '(x80, x79) := Mul64 x1 arg2.[0] in
  let '(x81, x82) := Add64 x80 x77 0 in
  let '(x83, x84) := Add64 x78 x75 x82 in
  let '(x85, x86) := Add64 x76 x73 x84 in
  let '(x87, x88) := Add64 x74 x71 x86 in
  let '(x89, x90) := Add64 x72 x69 x88 in
  let x91 := add64 x90 x70 in
  let '(x92, x93) := Add64 x57 x79 0 in
  let '(x94, x95) := Add64 x59 x81 x93 in
  let '(x96, x97) := Add64 x61 x83 x95 in
  let '(x98, x99) := Add64 x63 x85 x97 in
  let '(x100, x101) := Add64 x65 x87 x99 in
  let '(x102, x103) := Add64 x67 x89 x101 in
  let '(x104, x105) := Add64 x68 x91 x103 in
  let '(_, x106) := Mul64 x92 0x89f3fffcfffcfffd in
  let '(x109, x108) := Mul64 x106 0x1a0111ea397fe69a in
  let '(x111, x110) := Mul64 x106 0x4b1ba7b6434bacd7 in
  let '(x113, x112) := Mul64 x106 0x64774b84f38512bf in
  let '(x115, x114) := Mul64 x106 0x6730d2a0f6b0f624 in
  let '(x117, x116) := Mul64 x106 0x1eabfffeb153ffff in
  let '(x119, x118) := Mul64 x106 0xb9feffffffffaaab in
  let '(x120, x121) := Add64 x119 x116 0 in
  let '(x122, x123) := Add64 x117 x114 x121 in
  let '(x124, x125) := Add64 x115 x112 x123 in
  let '(x126, x127) := Add64 x113 x110 x125 in
  let '(x128, x129) := Add64 x111 x108 x127 in
  let x130 := add64 x129 x109 in
  let '(_, x132) := Add64 x92 x118 0 in
  let '(x133, x134) := Add64 x94 x120 x132 in
  let '(x135, x136) := Add64 x96 x122 x134 in
  let '(x137, x138) := Add64 x98 x124 x136 in
  let '(x139, x140) := Add64 x100 x126 x138 in
  let '(x141, x142) := Add64 x102 x128 x140 in
  let '(x143, x144) := Add64 x104 x130 x142 in
  let x145 := add64 x144 x105 in
  (x133, x135, x137, x139, x141, x143, x145).
Definition fiatFpMul_row2 (arg2 : limbs) (x2 x133 x135 x137 x139 x141 x143 x145 : Z) :=
  let '(x147, x146) := Mul64 x2 arg2.[5] in
  let '(x149, x148) := Mul64 x2 arg2.[4] in
  let '(x151, x150) := Mul64 x2 arg2.[3] in
  let '(x153, x152) := Mul64 x2 arg2.[2] in
  let '(x155, x154) := Mul64 x2 arg2.[1] in
  let '(x157, x156) := Mul64 x2 arg2.[0] in
  let '(x158, x159) := Add64 x157 x154 0 in
  let '(x160, x161) := Add64 x155 x152 x159 in
  let '(x162, x163) := Add64 x153 x150 x161 in
  let '(x164, x165) := Add64 x151 x148 x163 in
  let '(x166, x167) := Add64 x149 x146 x165 in
  let x168 := add64 x167 x147 in
  let '(x169, x170) := Add64 x133 x156 0 in
  let '(x171, x172) := Add64 x135 x158 x170 in
  let '(x173, x174) := Add64 x137 x160 x172 in
  let '(x175, x176) := Add64 x139 x162 x174 in
  let '(x177, x178) := Add64 x141 x164 x176 in
  let '(x179, x180) := Add64 x143 x166 x178 in
  let '(x181, x182) := Add64 x145 x168 x180 in
  let '(_, x183) := Mul64 x169 0x89f3fffcfffcfffd in
  let '(x186, x185) := Mul64 x183 0x1a0111ea397fe69a in
  let '(x188, x187) := Mul64 x183 0x4b1ba7b6434bacd7 in
  let '(x190, x189) := Mul64 x183 0x64774b84f38512bf in
  let '(x192, x191) := Mul64 x183 0x6730d2a0f6b0f624 in
  let '(x194, x193) := Mul64 x183 0x1eabfffeb153ffff in
  let '(x196, x195) := Mul64 x183 0xb9feffffffffaaab in
  let '(x197, x198) := Add64 x196 x193 0 in
  let '(x199, x200) := Add64 x194 x191 x198 in
  let '(x201, x202) := Add64 x192 x189 x200 in
  let '(x203, x204) := Add64 x190 x187 x202 in
  let '(x205, x206) := Add64 x188 x185 x204 in
  let x207 := add64 x206 x186 in
  let '(_, x209) := Add64 x169 x195 0 in
  let '(x210, x211) := Add64 x171 x197 x209 in
  let '(x212, x213) := Add64 x173 x199 x211 in
  let '(x214, x215) := Add64 x175 x201 x213 in
  let '(x216, x217) := Add64 x177 x203 x215 in
  let '(x218, x219) := Add64 x179 x205 x217 in
  let '(x220, x221) := Add64 x181 x207 x219 in
  let x222 := add64 x221 x182 in
  (x210, x212, x214, x216, x218, x220, x222).
Definition fiatFpMul_row3 (arg2 : limbs) (x3 x210 x212 x214 x216 x218 x220 x222 : Z) :=
  let '(x224, x223) := Mul64 x3 arg2.[5] in
  let '(x226, x225) := Mul64 x3 arg2.[4] in
  let '(x228, x227) := Mul64 x3 arg2.[3] in
  let '(x230, x229) := Mul64 x3 arg2.[2] in
  let '(x232, x231) := Mul64 x3 arg2.[1] in
  let '(x234, x233) := Mul64 x3 arg2.[0] in
  let '(x235, x236) := Add64 x234 x231 0 in
  let '(x237, x238) := Add64 x232 x229 x236 in
  let '(x239, x240) := Add64 x230 x227 x238 in
  let '(x241, x242) := Add64 x228 x225 x240 in
  let '(x243, x244) := Add64 x226 x223 x242 in
  let x245 := add64 x244 x224 in
  let '(x246, x247) := Add64 x210 x233 0 in
  let '(x248, x249) := Add64 x212 x235 x247 in
  let '(x250, x251) := Add64 x214 x237 x249 in
  let '(x252, x253) := Add64 x216 x239 x251 in
  let '(x254, x255) := Add64 x218 x241 x253 in
  let '(x256, x257) := Add64 x220 x243 x255 in
  let '(x258, x259) := Add64 x222 x245 x257 in
  let '(_, x260) := Mul64 x246 0x89f3fffcfffcfffd in
  let '(x263, x262) := Mul64 x260 0x1a0111ea397fe69a in
  let '(x265, x264) := Mul64 x260 0x4b1ba7b6434bacd7 in
  let '(x267, x266) := Mul64 x260 0x64774b84f38512bf in
  let '(x269, x268) := Mul64 x260 0x6730d2a0f6b0f624 in
  let '(x271, x270) := Mul64 x260 0x1eabfffeb153ffff in
  let '(x273, x272) := Mul64 x260 0xb9feffffffffaaab in
  let '(x274, x275) := Add64 x273 x270 0 in
  let '(x276, x277) := Add64 x271 x268 x275 in
  let '(x278, x279) := Add64 x269 x266 x277 in
  let '(x280, x281) := Add64 x267 x264 x279 in
  let '(x282, x283) := Add64 x265 x262 x281 in
  let x284 := add64 x283 x263 in
  let '(_, x286) := Add64 x246 x272 0 in
  let '(x287, x288) := Add64 x248 x274 x286 in
  let '(x289, x290) := Add64 x250 x276 x288 in
  let '(x291, x292) := Add64 x252 x278 x290 in
  let '(x293, x294) := Add64 x254 x280 x292 in
  let '(x295, x296) := Add64 x256 x282 x294 in
  let '(x297, x298) := Add64 x258 x284 x296 in
  let x299 := add64 x298 x259 in
  (x287, x289, x291, x293, x295, x297, x299).
Definition fiatFpMul_row4 (arg2 : limbs) (x4 x287 x289 x291 x293 x295 x297 x299 : Z) :=
  let '(x301, x300) := Mul64 x4 arg2.[5] in
  let '(x303, x302) := Mul64 x4 arg2.[4] in
  let '(x305, x304) := Mul64 x4 arg2.[3] in
  let '(x307, x306) := Mul64 x4 arg2.[2] in
  let '(x309, x308) := Mul64 x4 arg2.[1] in
  let '(x311, x310) := Mul64 x4 arg2.[0] in
  let '(x312, x313) := Add64 x311 x308 0 in
  let '(x314, x315) := Add64 x309 x306 x313 in
  let '(x316, x317) := Add64 x307 x304 x315 in
  let '(x318, x319) := Add64 x305 x302 x317 in
  let '(x320, x321) := Add64 x303 x300 x319 in
  let x322 := add64 x321 x301 in
  let '(x323, x324) := Add64 x287 x310 0 in
  let '(x325, x326) := Add64 x289 x312 x324 in
  let '(x327, x328) := Add64 x291 x314 x326 in
  let '(x329, x330) := Add64 x293 x316 x328 in
  let '(x331, x332) := Add64 x295 x318 x330 in
  let '(x333, x334) := Add64 x297 x320 x332 in
  let '(x335, x336) := Add64 x299 x322 x334 in
  let '(_, x337) := Mul64 x323 0x89f3fffcfffcfffd in
  let '(x340, x339) := Mul64 x337 0x1a0111ea397fe69a in
  let '(x342, x341) := Mul64 x337 0x4b1ba7b6434bacd7 in
  let '(x344, x343) := Mul64 x337 0x64774b84f38512bf in
  let '(x346, x345) := Mul64 x337 0x6730d2a0f6b0f624 in
  let '(x348, x347) := Mul64 x337 0x1eabfffeb153ffff in
  let '(x350, x349) := Mul64 x337 0xb9feffffffffaaab in
  let '(x351, x352) := Add64 x350 x347 0 in
  let '(x353, x354) := Add64 x348 x345 x352 in
  let '(x355, x356) := Add64 x346 x343 x354 in
  let '(x357, x358) := Add64 x344 x341 x356 in
  let '(x359, x360) := Add64 x342 x339 x358 in
  let x361 := add64 x360 x340 in
  let '(_, x363) := Add64 x323 x349 0 in
  let '(x364, x365) := Add64 x325 x351 x363 in
  let '(x366, x367) := Add64 x327 x353 x365 in
  let '(x368, x369) := Add64 x329 x355 x367 in
  let '(x370, x371) := Add64 x331 x357 x369 in
  let '(x372, x373) := Add64 x333 x359 x371 in
  let '(x374, x375) := Add64 x335 x361 x373 in
  let x376 := add64 x375 x336 in
  (x364, x366, x368, x370, x372, x374, x376).
Definition fiatFpMul_row5 (arg2 : limbs) (x5 x364 x366 x368 x370 x372 x374 x376 : Z) :=
  let '(x378, x377) := Mul64 x5 arg2.[5] in
  let '(x380, x379) := Mul64 x5 arg2.[4] in
  let '(x382, x381) := Mul64 x5 arg2.[3] in
  let '(x384, x383) := Mul64 x5 arg2.[2] in
  let '(x386, x385) := Mul64 x5 arg2.[1] in
  let '(x388, x387) := Mul64 x5 arg2.[0] in
  let '(x389, x390) := Add64 x388 x385 0 in
  let '(x391, x392) := Add64 x386 x383 x390 in
  let '(x393, x394) := Add64 x384 x381 x392 in
  let '(x395, x396) := Add64 x382 x379 x394 in
  let '(x397, x398) := Add64 x380 x377 x396 in
  let x399 := add64 x398 x378 in
  let '(x400, x401) := Add64 x364 x387 0 in
  let '(x402, x403) := Add64 x366 x389 x401 in
  let '(x404, x405) := Add64 x368 x391 x403 in
  let '(x406, x407) := Add64 x370 x393 x405 in
  let '(x408, x409) := Add64 x372 x395 x407 in
  let '(x410, x411) := Add64 x374 x397 x409 in
  let '(x412, x413) := Add64 x376 x399 x411 in
  let '(_, x414) := Mul64 x400 0x89f3fffcfffcfffd in
  let '(x417, x416) := Mul64 x414 0x1a0111ea397fe69a in
  let '(x419, x418) := Mul64 x414 0x4b1ba7b6434bacd7 in
  let '(x421, x420) := Mul64 x414 0x64774b84f38512bf in
  let '(x423, x422) := Mul64 x414 0x6730d2a0f6b0f624 in
  let '(x425, x424) := Mul64 x414 0x1eabfffeb153ffff in
  let '(x427, x426) := Mul64 x414 0xb9feffffffffaaab in
  let '(x428, x429) := Add64 x427 x424 0 in
  let '(x430, x431) := Add64 x425 x422 x429 in
  let '(x432, x433) := Add64 x423 x420 x431 in
  let '(x434, x435) := Add64 x421 x418 x433 in
  let '(x436, x437) := Add64 x419 x416 x435 in
  let x438 := add64 x437 x417 in
  let '(_, x440) := Add64 x400 x426 0 in
  let '(x441, x442) := Add64 x402 x428 x440 in
  let '(x443, x444) := Add64 x404 x430 x442 in
  let '(x445, x446) := Add64 x406 x432 x444 in
  let '(x447, x448) := Add64 x408 x434 x446 in
  let '(x449, x450) := Add64 x410 x436 x448 in
  let '(x451, x452) := Add64 x412 x438 x450 in
  let x453 := add64 x452 x413 in
  (x441, x443, x445, x447, x449, x451, x453).
Definition fiatFpMul (arg1 arg2 : limbs) : limbs :=
  let x1 := arg1.[1] in
  let x2 := arg1.[2] in
  let x3 := arg1.[3] in
  let x4 := arg1.[4] in
  let x5 := arg1.[5] in
  let x6 := arg1.[0] in
  let '(x57, x59, x61, x63, x65, x67, x68) := fiatFpMul_row0 arg2 x6 in
  let '(x133, x135, x137, x139, x141, x143, x145) := fiatFpMul_row1 arg2 x1 x57 x59 x61 x63 x65 x67 x68 in
  let '(x210, x212, x214, x216, x218, x220, x222) := fiatFpMul_row2 arg2 x2 x133 x135 x137 x139 x141 x143 x145 in
  let '(x287, x289, x291, x293, x295, x297, x299) := fiatFpMul_row3 arg2 x3 x210 x212 x214 x216 x218 x220 x222 in
  let '(x364, x366, x368, x370, x372, x374, x376) := fiatFpMul_row4 arg2 x4 x287 x289 x291 x293 x295 x297 x299 in
  let '(x441, x443, x445, x447, x449, x451, x453) := fiatFpMul_row5 arg2 x5 x364 x366 x368 x370 x372 x374 x376 in
  let '(x454, x455) := Sub64 x441 0xb9feffffffffaaab 0 in
  let '(x456, x457) := Sub64 x443 0x1eabfffeb153ffff x455 in
  let '(x458, x459) := Sub64 x445 0x6730d2a0f6b0f624 x457 in
  let '(x460, x461) := Sub64 x447 0x64774b84f38512bf x459 in
  let '(x462, x463) := Sub64 x449 0x4b1ba7b6434bacd7 x461 in
  let '(x464, x465) := Sub64 x451 0x1a0111ea397fe69a x463 in
  let '(_, x467) := Sub64 x453 0 x465 in
  let x468 := fiatFpCmovznzU64 x467 x454 x441 in
  let x469 := fiatFpCmovznzU64 x467 x456 x443 in
  let x470 := fiatFpCmovznzU64 x467 x458 x445 in
  let x471 := fiatFpCmovznzU64 x467 x460 x447 in
  let x472 := fiatFpCmovznzU64 x467 x462 x449 in
  let x473 := fiatFpCmovznzU64 x467 x464 x451 in
  [x468; x469; x470; x471; x472; x473].

Definition fiatFpSquare_row0 (arg1 : limbs) (x6 : Z) :=
  let '(x8, x7) := Mul64 x6 arg1.[5] in
  let '(x10, x9) := Mul64 x6 arg1.[4] in
  let '(x12, x11) := Mul64 x6 arg1.[3] in
  let '(x14, x13) := Mul64 x6 arg1.[2] in
  let '(x16, x15) := Mul64 x6 arg1.[1] in
  let '(x18, x17) := Mul64 x6 arg1.[0] in
  let '(x19, x20) := Add64 x18 x15 0 in
  let '(x21, x22) := Add64 x16 x13 x20 in
  let '(x23, x24) := Add64 x14 x11 x22 in
  let '(x25, x26) := Add64 x12 x9 x24 in
  let '(x27, x28) := Add64 x10 x7 x26 in
  let x29 := add64 x28 x8 in
  let '(_, x30) := Mul64 x17 0x89f3fffcfffcfffd in
  let '(x33, x32) := Mul64 x30 0x1a0111ea397fe69a in
  let '(x35, x34) := Mul64 x30 0x4b1ba7b6434bacd7 in
  let '(x37, x36) := Mul64 x30 0x64774b84f38512bf in
  let '(x39, x38) := Mul64 x30 0x6730d2a0f6b0f624 in
  let '(x41, x40) := Mul64 x30 0x1eabfffeb153ffff in
  let '(x43, x42) := Mul64 x30 0xb9feffffffffaaab in
  let '(x44, x45) := Add64 x43 x40 0 in
  let '(x46, x47) := Add64 x41 x38 x45 in
  let '(x48, x49) := Add64 x39 x36 x47 in
  let '(x50, x51) := Add64 x37 x34 x49 in
  let '(x52, x53) := Add64 x35 x32 x51 in
  let x54 := add64 x53 x33 in
  let '(_, x56) := Add64 x17 x42 0 in
  let '(x57, x58) := Add64 x19 x44 x56 in
  let '(x59, x60) := Add64 x21 x46 x58 in
  let '(x61, x62) := Add64 x23 x48 x60 in
  let '(x63, x64) := Add64 x25 x50 x62 in
  let '(x65, x66) := Add64 x27 x52 x64 in
  let '(x67, x68) := Add64 x29 x54 x66 in
  (x57, x59, x61, x63, x65, x67, x68).
Definition fiatFpSquare_row1 (arg1 : limbs) (x1 x57 x59 x61 x63 x65 x67 x68 : Z) :=
  let '(x70, x69) := Mul64 x1 arg1.[5] in
  let '(x72, x71) := Mul64 x1 arg1.[4] in
  let '(x74, x73) := Mul64 x1 arg1.[3] in
  let '(x76, x75) := Mul64 x1 arg1.[2] in
  let '(x78, x77) := Mul64 x1 arg1.[1] in
  let '(x80, x79) := Mul64 x1 arg1.[0] in
  let '(x81, x82) := Add64 x80 x77 0 in
  let '(x83, x84) := Add64 x78 x75 x82 in
  let '(x85, x86) := Add64 x76 x73 x84 in
  let '(x87, x88) := Add64 x74 x71 x86 in
  let '(x89, x90) := Add64 x72 x69 x88 in
  let x91 := add64 x90 x70 in
  let '(x92, x93) := Add64 x57 x79 0 in
  let '(x94, x95) := Add64 x59 x81 x93 in
  let '(x96, x97) := Add64 x61 x83 x95 in
  let '(x98, x99) := Add64 x63 x85 x97 in
  let '(x100, x101) := Add64 x65 x87 x99 in
  let '(x102, x103) := Add64 x67 x89 x101 in
  let '(x104, x105) := Add64 x68 x91 x103 in
  let '(_, x106) := Mul64 x92 0x89f3fffcfffcfffd in
  let '(x109, x108) := Mul64 x106 0x1a0111ea397fe69a in
  let '(x111, x110) := Mul64 x106 0x4b1ba7b6434bacd7 in
  let '(x113, x112) := Mul64 x106 0x64774b84f38512bf in
  let '(x115, x114) := Mul64 x106 0x6730d2a0f6b0f624 in
  let '(x117, x116) := Mul64 x106 0x1eabfffeb153ffff in
  let '(x119, x118) := Mul64 x106 0xb9feffffffffaaab in
  let '(x120, x121) := Add64 x119 x116 0 in
  let '(x122, x123) := Add64 x117 x114 x121 in
  let '(x124, x125) := Add64 x115 x112 x123 in
  let '(x126, x127) := Add64 x113 x110 x125 in
  let '(x128, x129) := Add64 x111 x108 x127 in
  let x130 := add64 x129 x109 in
  let '(_, x132) := Add64 x92 x118 0 in
  let '(x133, x134) := Add64 x94 x120 x132 in
  let '(x135, x136) := Add64 x96 x122 x134 in
  let '(x137, x138) := Add64 x98 x124 x136 in
  let '(x139, x140) := Add64 x100 x126 x138 in
  let '(x141, x142) := Add64 x102 x128 x140 in
  let '(x143, x144) := Add64 x104 x130 x142 in
  let x145 := add64 x144 x105 in
  (x133, x135, x137, x139, x141, x143, x145).
Definition fiatFpSquare_row2 (arg1 : limbs) (x2 x133 x135 x137 x139 x141 x143 x145 : Z) :=
  let '(x147, x146) := Mul64 x2 arg1.[5] in
  let '(x149, x148) := Mul64 x2 arg1.[4] in
  let '(x151, x150) := Mul64 x2 arg1.[3] in
  let '(x153, x152) := Mul64 x2 arg1.[2] in
  let '(x155, x154) := Mul64 x2 arg1.[1] in
  let '(x157, x156) := Mul64 x2 arg1.[0] in
  let '(x158, x159) := Add64 x157 x154 0 in
  let '(x160, x161) := Add64 x155 x152 x159 in
  let '(x162, x163) := Add64 x153 x150 x161 in
  let '(x164, x165) := Add64 x151 x148 x163 in
  let '(x166, x167) := Add64 x149 x146 x165 in
  let x168 := add64 x167 x147 in
  let '(x169, x170) := Add64 x133 x156 0 in
  let '(x171, x172) := Add64 x135 x158 x170 in
  let '(x173, x174) := Add64 x137 x160 x172 in
  let '(x175, x176) := Add64 x139 x162 x174 in
  let '(x177, x178) := Add64 x141 x164 x176 in
  let '(x179, x180) := Add64 x143 x166 x178 in
  let '(x181, x182) := Add64 x145 x168 x180 in
  let '(_, x183) := Mul64 x169 0x89f3fffcfffcfffd in
  let '(x186, x185) := Mul64 x183 0x1a0111ea397fe69a in
  let '(x188, x187) := Mul64 x183 0x4b1ba7b6434bacd7 in
  let '(x190, x189) := Mul64 x183 0x64774b84f38512bf in
  let '(x192, x191) := Mul64 x183 0x6730d2a0f6b0f624 in
  let '(x194, x193) := Mul64 x183 0x1eabfffeb153ffff in
  let '(x196, x195) := Mul64 x183 0xb9feffffffffaaab in
  let '(x197, x198) := Add64 x196 x193 0 in
  let '(x199, x200) := Add64 x194 x191 x198 in
  let '(x201, x202) := Add64 x192 x189 x200 in
  let '(x203, x204) := Add64 x190 x187 x202 in
  let '(x205, x206) := Add64 x188 x185 x204 in
  let x207 := add64 x206 x186 in
  let '(_, x209) := Add64 x169 x195 0 in
  let '(x210, x211) := Add64 x171 x197 x209 in
  let '(x212, x213) := Add64 x173 x199 x211 in
  let '(x214, x215) := Add64 x175 x201 x213 in
  let '(x216, x217) := Add64 x177 x203 x215 in
  let '(x218, x219) := Add64 x179 x205 x217 in
  let '(x220, x221) := Add64 x181 x207 x219 in
  let x222 := add64 x221 x182 in
  (x210, x212, x214, x216, x218, x220, x222).
Definition fiatFpSquare_row3 (arg1 : limbs) (x3 x210 x212 x214 x216 x218 x220 x222 : Z) :=
  let '(x224, x223) := Mul64 x3 arg1.[5] in
  let '(x226, x225) := Mul64 x3 arg1.[4] in
  let '(x228, x227) := Mul64 x3 arg1.[3] in
  let '(x230, x229) := Mul64 x3 arg1.[2] in
  let '(x232, x231) := Mul64 x3 arg1.[1] in
  let '(x234, x233) := Mul64 x3 arg1.[0] in
  let '(x235, x236) := Add64 x234 x231 0 in
  let '(x237, x238) := Add64 x232 x229 x236 in
  let '(x239, x240) := Add64 x230 x227 x238 in
  let '(x241, x242) := Add64 x228 x225 x240 in
  let '(x243, x244) := Add64 x226 x223 x242 in
  let x245 := add64 x244 x224 in
  let '(x246, x247) := Add64 x210 x233 0 in
  let '(x248, x249) := Add64 x212 x235 x247 in
  let '(x250, x251) := Add64 x214 x237 x249 in
  let '(x252, x253) := Add64 x216 x239 x251 in
  let '(x254, x255) := Add64 x218 x241 x253 in
  let '(x256, x257) := Add64 x220 x243 x255 in
  let '(x258, x259) := Add64 x222 x245 x257 in
  let '(_, x260) := Mul64 x246 0x89f3fffcfffcfffd in
  let '(x263, x262) := Mul64 x260 0x1a0111ea397fe69a in
  let '(x265, x264) := Mul64 x260 0x4b1ba7b6434bacd7 in
  let '(x267, x266) := Mul64 x260 0x64774b84f38512bf in
  let '(x269, x268) := Mul64 x260 0x6730d2a0f6b0f624 in
  let '(x271, x270) := Mul64 x260 0x1eabfffeb153ffff in
  let '(x273, x272) := Mul64 x260 0xb9feffffffffaaab in
  let '(x274, x275) := Add64 x273 x270 0 in
  let '(x276, x277) := Add64 x271 x268 x275 in
  let '(x278, x279) := Add64 x269 x266 x277 in
  let '(x280, x281) := Add64 x267 x264 x279 in
  let '(x282, x283) := Add64 x265 x262 x281 in
  let x284 := add64 x283 x263 in
  let '(_, x286) := Add64 x246 x272 0 in
  let '(x287, x288) := Add64 x248 x274 x286 in
  let '(x289, x290) := Add64 x250 x276 x288 in
  let '(x291, x292) := Add64 x252 x278 x290 in
  let '(x293, x294) := Add64 x254 x280 x292 in
  let '(x295, x296) := Add64 x256 x282 x294 in
  let '(x297, x298) := Add64 x258 x284 x296 in
  let x299 := add64 x298 x259 in
  (x287, x289, x291, x293, x295, x297, x299).
Definition fiatFpSquare_row4 (arg1 : limbs) (x4 x287 x289 x291 x293 x295 x297 x299 : Z) :=
  let '(x301, x300) := Mul64 x4 arg1.[5] in
  let '(x303, x302) := Mul64 x4 arg1.[4] in
  let '(x305, x304) := Mul64 x4 arg1.[3] in
  let '(x307, x306) := Mul64 x4 arg1.[2] in
  let '(x309, x308) := Mul64 x4 arg1.[1] in
  let '(x311, x310) := Mul64 x4 arg1.[0] in
  let '(x312, x313) := Add64 x311 x308 0 in
  let '(x314, x315) := Add64 x309 x306 x313 in
  let '(x316, x317) := Add64 x307 x304 x315 in
  let '(x318, x319) := Add64 x305 x302 x317 in
  let '(x320, x321) := Add64 x303 x300 x319 in
  let x322 := add64 x321 x301 in
  let '(x323, x324) := Add64 x287 x310 0 in
  let '(x325, x326) := Add64 x289 x312 x324 in
  let '(x327, x328) := Add64 x291 x314 x326 in
  let '(x329, x330) := Add64 x293 x316 x328 in
  let '(x331, x332) := Add64 x295 x318 x330 in
  let '(x333, x334) := Add64 x297 x320 x332 in
  let '(x335, x336) := Add64 x299 x322 x334 in
  let '(_, x337) := Mul64 x323 0x89f3fffcfffcfffd in
  let '(x340, x339) := Mul64 x337 0x1a0111ea397fe69a in
  let '(x342, x341) := Mul64 x337 0x4b1ba7b6434bacd7 in
  let '(x344, x343) := Mul64 x337 0x64774b84f38512bf in
  let '(x346, x345) := Mul64 x337 0x6730d2a0f6b0f624 in
  let '(x348, x347) := Mul64 x337 0x1eabfffeb153ffff in
  let '(x350, x349) := Mul64 x337 0xb9feffffffffaaab in
  let '(x351, x352) := Add64 x350 x347 0 in
  let '(x353, x354) := Add64 x348 x345 x352 in
  let '(x355, x356) := Add64 x346 x343 x354 in
  let '(x357, x358) := Add64 x344 x341 x356 in
  let '(x359, x360) := Add64 x342 x339 x358 in
  let x361 := add64 x360 x340 in
  let '(_, x363) := Add64 x323 x349 0 in
  let '(x364, x365) := Add64 x325 x351 x363 in
  let '(x366, x367) := Add64 x327 x353 x365 in
  let '(x368, x369) := Add64 x329 x355 x367 in
  let '(x370, x371) := Add64 x331 x357 x369 in
  let '(x372, x373) := Add64 x333 x359 x371 in
  let '(x374, x375) := Add64 x335 x361 x373 in
  let x376 := add64 x375 x336 in
  (x364, x366, x368, x370, x372, x374, x376).
Definition fiatFpSquare_row5 (arg1 : limbs) (x5 x364 x366 x368 x370 x372 x374 x376 : Z) :=
  let '(x378, x377) := Mul64 x5 arg1.[5] in
  let '(x380, x379) := Mul64 x5 arg1.[4] in
  let '(x382, x381) := Mul64 x5 arg1.[3] in
  let '(x384, x383) := Mul64 x5 arg1.[2] in
  let '(x386, x385) := Mul64 x5 arg1.[1] in
  let '(x388, x387) := Mul64 x5 arg1.[0] in
  let '(x389, x390) := Add64 x388 x385 0 in
  let '(x391, x392) := Add64 x386 x383 x390 in
  let '(x393, x394) := Add64 x384 x381 x392 in
  let '(x395, x396) := Add64 x382 x379 x394 in
  let '(x397, x398) := Add64 x380 x377 x396 in
  let x399 := add64 x398 x378 in
  let '(x400, x401) := Add64 x364 x387 0 in
  let '(x402, x403) := Add64 x366 x389 x401 in
  let '(x404, x405) := Add64 x368 x391 x403 in
  let '(x406, x407) := Add64 x370 x393 x405 in
  let '(x408, x409) := Add64 x372 x395 x407 in
  let '(x410, x411) := Add64 x374 x397 x409 in
  let '(x412, x413) := Add64 x376 x399 x411 in
  let '(_, x414) := Mul64 x400 0x89f3fffcfffcfffd in
  let '(x417, x416) := Mul64 x414 0x1a0111ea397fe69a in
  let '(x419, x418) := Mul64 x414 0x4b1ba7b6434bacd7 in
  let '(x421, x420) := Mul64 x414 0x64774b84f38512bf in
  let '(x423, x422) := Mul64 x414 0x6730d2a0f6b0f624 in
  let '(x425, x424) := Mul64 x414 0x1eabfffeb153ffff in
  let '(x427, x426) := Mul64 x414 0xb9feffffffffaaab in
  let '(x428, x429) := Add64 x427 x424 0 in
  let '(x430, x431) := Add64 x425 x422 x429 in
  let '(x432, x433) := Add64 x423 x420 x431 in
  let '(x434, x435) := Add64 x421 x418 x433 in
  let '(x436, x437) := Add64 x419 x416 x435 in
  let x438 := add64 x437 x417 in
  let '(_, x440) := Add64 x400 x426 0 in
  let '(x441, x442) := Add64 x402 x428 x440 in
  let '(x443, x444) := Add64 x404 x430 x442 in
  let '(x445, x446) := Add64 x406 x432 x444 in
  let '(x447, x448) := Add64 x408 x434 x446 in
  let '(x449, x450) := Add64 x410 x436 x448 in
  let '(x451, x452) := Add64 x412 x438 x450 in
  let x453 := add64 x452 x413 in
  (x441, x443, x445, x447, x449, x451, x453).
Definition fiatFpSquare (arg1 : limbs) : limbs :=
  let x1 := arg1.[1] in
  let x2 := arg1.[2] in
  let x3 := arg1.[3] in
  let x4 := arg1.[4] in
  let x5 := arg1.[5] in
  let x6 := arg1.[0] in
  let '(x57, x59, x61, x63, x65, x67, x68) := fiatFpSquare_row0 arg1 x6 in
  let '(x133, x135, x137, x139, x141, x143, x145) := fiatFpSquare_row1 arg1 x1 x57 x59 x61 x63 x65 x67 x68 in
  let '(x210, x212, x214, x216, x218, x220, x222) := fiatFpSquare_row2 arg1 x2 x133 x135 x137 x139 x141 x143 x145 in
  let '(x287, x289, x291, x293, x295, x297, x299) := fiatFpSquare_row3 arg1 x3 x210 x212 x214 x216 x218 x220 x222 in
  let '(x364, x366, x368, x370, x372, x374, x376) := fiatFpSquare_row4 arg1 x4 x287 x289 x291 x293 x295 x297 x299 in
  let '(x441, x443, x445, x447, x449, x451, x453) := fiatFpSquare_row5 arg1 x5 x364 x366 x368 x370 x372 x374 x376 in
  let '(x454, x455) := Sub64 x441 0xb9feffffffffaaab 0 in
  let '(x456, x457) := Sub64 x443 0x1eabfffeb153ffff x455 in
  let '(x458, x459) := Sub64 x445 0x6730d2a0f6b0f624 x457 in
  let '(x460, x461) := Sub64 x447 0x64774b84f38512bf x459 in
  let '(x462, x463) := Sub64 x449 0x4b1ba7b6434bacd7 x461 in
  let '(x464, x465) := Sub64 x451 0x1a0111ea397fe69a x463 in
  let '(_, x467) := Sub64 x453 0 x465 in
  let x468 := fiatFpCmovznzU64 x467 x454 x441 in
  let x469 := fiatFpCmovznzU64 x467 x456 x443 in
  let x470 := fiatFpCmovznzU64 x467 x458 x445 in
  let x471 := fiatFpCmovznzU64 x467 x460 x447 in
  let x472 := fiatFpCmovznzU64 x467 x462 x449 in
  let x473 := fiatFpCmovznzU64 x467 x464 x451 in
  [x468; x469; x470; x471; x472; x473].

Definition fiatFpFromMontgomery_row0 (x1 : Z) :=
  let '(_, x2) := Mul64 x1 0x89f3fffcfffcfffd in
  let '(x5, x4) := Mul64 x2 0x1a0111ea397fe69a in
  let '(x7, x6) := Mul64 x2 0x4b1ba7b6434bacd7 in
  let '(x9, x8) := Mul64 x2 0x64774b84f38512bf in
  let '(x11, x10) := Mul64 x2 0x6730d2a0f6b0f624 in
  let '(x13, x12) := Mul64 x2 0x1eabfffeb153ffff in
  let '(x15, x14) := Mul64 x2 0xb9feffffffffaaab in
  let '(x16, x17) := Add64 x15 x12 0 in
  let '(x18, x19) := Add64 x13 x10 x17 in
  let '(x20, x21) := Add64 x11 x8 x19 in
  let '(x22, x23) := Add64 x9 x6 x21 in
  let '(x24, x25) := Add64 x7 x4 x23 in
  let '(_, x27) := Add64 x1 x14 0 in
  let '(x28, x29) := Add64 0 x16 x27 in
  let '(x30, x31) := Add64 0 x18 x29 in
  let '(x32, x33) := Add64 0 x20 x31 in
  let '(x34, x35) := Add64 0 x22 x33 in
  let '(x36, x37) := Add64 0 x24 x35 in
  (x5, x25, x28, x30, x32, x34, x36, x37).
Definition fiatFpFromMontgomery_row1 (arg1 : limbs) (x5 x25 x28 x30 x32 x34 x36 x37 : Z) :=
  let '(x38, x39) := Add64 x28 arg1.[1] 0 in
  let '(x40, x41) := Add64 x30 0 x39 in
  let '(x42, x43) := Add64 x32 0 x41 in
  let '(x44, x45) := Add64 x34 0 x43 in
  let '(x46, x47) := Add64 x36 0 x45 in
  let '(_, x48) := Mul64 x38 0x89f3fffcfffcfffd in
  let '(x51, x50) := Mul64 x48 0x1a0111ea397fe69a in
  let '(x53, x52) := Mul64 x48 0x4b1ba7b6434bacd7 in
  let '(x55, x54) := Mul64 x48 0x64774b84f38512bf in
  let '(x57, x56) := Mul64 x48 0x6730d2a0f6b0f624 in
  let '(x59, x58) := Mul64 x48 0x1eabfffeb153ffff in
  let '(x61, x60) := Mul64 x48 0xb9feffffffffaaab in
  let '(x62, x63) := Add64 x61 x58 0 in
  let '(x64, x65) := Add64 x59 x56 x63 in
  let '(x66, x67) := Add64 x57 x54 x65 in
  let '(x68, x69) := Add64 x55 x52 x67 in
  let '(x70, x71) := Add64 x53 x50 x69 in
  let '(_, x73) := Add64 x38 x60 0 in
  let '(x74, x75) := Add64 x40 x62 x73 in
  let '(x76, x77) := Add64 x42 x64 x75 in
  let '(x78, x79) := Add64 x44 x66 x77 in
  let '(x80, x81) := Add64 x46 x68 x79 in
  let '(x82, x83) := Add64 (add64 x47 (add64 x37 (add64 x25 x5))) x70 x81 in
  (x51, x71, x74, x76, x78, x80, x82, x83).
Definition fiatFpFromMontgomery_row2 (arg1 : limbs) (x51 x71 x74 x76 x78 x80 x82 x83 : Z) :=
  let '(x84, x85) := Add64 x74 arg1.[2] 0 in
  let '(x86, x87) := Add64 x76 0 x85 in
  let '(x88, x89) := Add64 x78 0 x87 in
  let '(x90, x91) := Add64 x80 0 x89 in
  let '(x92, x93) := Add64 x82 0 x91 in
  let '(_, x94) := Mul64 x84 0x89f3fffcfffcfffd in
  let '(x97, x96) := Mul64 x94 0x1a0111ea397fe69a in
  let '(x99, x98) := Mul64 x94 0x4b1ba7b6434bacd7 in
  let '(x101, x100) := Mul64 x94 0x64774b84f38512bf in
  let '(x103, x102) := Mul64 x94 0x6730d2a0f6b0f624 in
  let '(x105, x104) := Mul64 x94 0x1eabfffeb153ffff in
  let '(x107, x106) := Mul64 x94 0xb9feffffffffaaab in
  let '(x108, x109) := Add64 x107 x104 0 in
  let '(x110, x111) := Add64 x105 x102 x109 in
  let '(x112, x113) := Add64 x103 x100 x111 in
  let '(x114, x115) := Add64 x101 x98 x113 in
  let '(x116, x117) := Add64 x99 x96 x115 in
  let '(_, x119) := Add64 x84 x106 0 in
  let '(x120, x121) := Add64 x86 x108 x119 in
  let '(x122, x123) := Add64 x88 x110 x121 in
  let '(x124, x125) := Add64 x90 x112 x123 in
  let '(x126, x127) := Add64 x92 x114 x125 in
  let '(x128, x129) := Add64 (add64 x93 (add64 x83 (add64 x71 x51))) x116 x127 in
  (x97, x117, x120, x122, x124, x126, x128, x129).
Definition fiatFpFromMontgomery_row3 (arg1 : limbs) (x97 x117 x120 x122 x124 x126 x128 x129 : Z) :=
  let '(x130, x131) := Add64 x120 arg1.[3] 0 in
  let '(x132, x133) := Add64 x122 0 x131 in
  let '(x134, x135) := Add64 x124 0 x133 in
  let '(x136, x137) := Add64 x126 0 x135 in
  let '(x138, x139) := Add64 x128 0 x137 in
  let '(_, x140) := Mul64 x130 0x89f3fffcfffcfffd in
  let '(x143, x142) := Mul64 x140 0x1a0111ea397fe69a in
  let '(x145, x144) := Mul64 x140 0x4b1ba7b6434bacd7 in
  let '(x147, x146) := Mul64 x140 0x64774b84f38512bf in
  let '(x149, x148) := Mul64 x140 0x6730d2a0f6b0f624 in
  let '(x151, x150) := Mul64 x140 0x1eabfffeb153ffff in
  let '(x153, x152) := Mul64 x140 0xb9feffffffffaaab in
  let '(x154, x155) := Add64 x153 x150 0 in
  let '(x156, x157) := Add64 x151 x148 x155 in
  let '(x158, x159) := Add64 x149 x146 x157 in
  let '(x160, x161) := Add64 x147 x144 x159 in
  let '(x162, x163) := Add64 x145 x142 x161 in
  let '(_, x165) := Add64 x130 x152 0 in
  let '(x166, x167) := Add64 x132 x154 x165 in
  let '(x168, x169) := Add64 x134 x156 x167 in
  let '(x170, x171) := Add64 x136 x158 x169 in
  let '(x172, x173) := Add64 x138 x160 x171 in
  let '(x174, x175) := Add64 (add64 x139 (add64 x129 (add64 x117 x97))) x162 x173 in
  (x143, x163, x166, x168, x170, x172, x174, x175).
Definition fiatFpFromMontgomery_row4 (arg1 : limbs) (x143 x163 x166 x168 x170 x172 x174 x175 : Z) :=
  let '(x176, x177) := Add64 x166 arg1.[4] 0 in
  let '(x178, x179) := Add64 x168 0 x177 in
  let '(x180, x181) := Add64 x170 0 x179 in
  let '(x182, x183) := Add64 x172 0 x181 in
  let '(x184, x185) := Add64 x174 0 x183 in
  let '(_, x186) := Mul64 x176 0x89f3fffcfffcfffd in
  let '(x189, x188) := Mul64 x186 0x1a0111ea397fe69a in
  let '(x191, x190) := Mul64 x186 0x4b1ba7b6434bacd7 in
  let '(x193, x192) := Mul64 x186 0x64774b84f38512bf in
  let '(x195, x194) := Mul64 x186 0x6730d2a0f6b0f624 in
  let '(x197, x196) := Mul64 x186 0x1eabfffeb153ffff in
  let '(x199, x198) := Mul64 x186 0xb9feffffffffaaab in
  let '(x200, x201) := Add64 x199 x196 0 in
  let '(x202, x203) := Add64 x197 x194 x201 in
  let '(x204, x205) := Add64 x195 x192 x203 in
  let '(x206, x207) := Add64 x193 x190 x205 in
  let '(x208, x209) := Add64 x191 x188 x207 in
  let '(_, x211) := Add64 x176 x198 0 in
  let '(x212, x213) := Add64 x178 x200 x211 in
  let '(x214, x215) := Add64 x180 x202 x213 in
  let '(x216, x217) := Add64 x182 x204 x215 in
  let '(x218, x219) := Add64 x184 x206 x217 in
  let '(x220, x221) := Add64 (add64 x185 (add64 x175 (add64 x163 x143))) x208 x219 in
  (x189, x209, x212, x214, x216, x218, x220, x221).
Definition fiatFpFromMontgomery_row5 (arg1 : limbs) (x189 x209 x212 x214 x216 x218 x220 x221 : Z) :=
  let '(x222, x223) := Add64 x212 arg1.[5] 0 in
  let '(x224, x225) := Add64 x214 0 x223 in
  let '(x226, x227) := Add64 x216 0 x225 in
  let '(x228, x229) := Add64 x218 0 x227 in
  let '(x230, x231) := Add64 x220 0 x229 in
  let '(_, x232) := Mul64 x222 0x89f3fffcfffcfffd in
  let '(x235, x234) := Mul64 x232 0x1a0111ea397fe69a in
  let '(x237, x236) := Mul64 x232 0x4b1ba7b6434bacd7 in
  let '(x239, x238) := Mul64 x232 0x64774b84f38512bf in
  let '(x241, x240) := Mul64 x232 0x6730d2a0f6b0f624 in
  let '(x243, x242) := Mul64 x232 0x1eabfffeb153ffff in
  let '(x245, x244) := Mul64 x232 0xb9feffffffffaaab in
  let '(x246, x247) := Add64 x245 x242 0 in
  let '(x248, x249) := Add64 x243 x240 x247 in
  let '(x250, x251) := Add64 x241 x238 x249 in
  let '(x252, x253) := Add64 x239 x236 x251 in
  let '(x254, x255) := Add64 x237 x234 x253 in
  let '(_, x257) := Add64 x222 x244 0 in
  let '(x258, x259) := Add64 x224 x246 x257 in
  let '(x260, x261) := Add64 x226 x248 x259 in
  let '(x262, x263) := Add64 x228 x250 x261 in
  let '(x264, x265) := Add64 x230 x252 x263 in
  let '(x266, x267) := Add64 (add64 x231 (add64 x221 (add64 x209 x189))) x254 x265 in
  let x268 := add64 x267 (add64 x255 x235) in
  (x258, x260, x262, x264, x266, x268).
Definition fiatFpFromMontgomery (arg1 : limbs) : limbs :=
  let x1 := arg1.[0] in
  let '(x5, x25, x28, x30, x32, x34, x36, x37) := fiatFpFromMontgomery_row0 x1 in
  let '(x51, x71, x74, x76, x78, x80, x82, x83) := fiatFpFromMontgomery_row1 arg1 x5 x25 x28 x30 x32 x34 x36 x37 in
  let '(x97, x117, x120, x122, x124, x126, x128, x129) := fiatFpFromMontgomery_row2 arg1 x51 x71 x74 x76 x78 x80 x82 x83 in
  let '(x143, x163, x166, x168, x170, x172, x174, x175) := fiatFpFromMontgomery_row3 arg1 x97 x117 x120 x122 x124 x126 x128 x129 in
  let '(x189, x209, x212, x214, x216, x218, x220, x221) := fiatFpFromMontgomery_row4 arg1 x143 x163 x166 x168 x170 x172 x174 x175 in
  let '(x258, x260, x262, x264, x266, x268) := fiatFpFromMontgomery_row5 arg1 x189 x209 x212 x214 x216 x218 x220 x221 in
  let '(x269, x270) := Sub64 x258 0xb9feffffffffaaab 0 in
  let '(x271, x272) := Sub64 x260 0x1eabfffeb153ffff x270 in
  let '(x273, x274) := Sub64 x262 0x6730d2a0f6b0f624 x272 in
  let '(x275, x276) := Sub64 x264 0x64774b84f38512bf x274 in
  let '(x277, x278) := Sub64 x266 0x4b1ba7b6434bacd7 x276 in
  let '(x279, x280) := Sub64 x268 0x1a0111ea397fe69a x278 in
  let '(_, x282) := Sub64 0 0 x280 in
  let x283 := fiatFpCmovznzU64 x282 x269 x258 in
  let x284 := fiatFpCmovznzU64 x282 x271 x260 in
  let x285 := fiatFpCmovznzU64 x282 x273 x262 in
  let x286 := fiatFpCmovznzU64 x282 x275 x264 in
  let x287 := fiatFpCmovznzU64 x282 x277 x266 in
  let x288 := fiatFpCmovznzU64 x282 x279 x268 in
  [x283; x284; x285; x286; x287; x288].

Definition fiatFpToMontgomery_row0 (x6 : Z) :=
  let '(x8, x7) := Mul64 x6 0x11988fe592cae3aa in
  let '(x10, x9) := Mul64 x6 0x9a793e85b519952d in
  let '(x12, x11) := Mul64 x6 0x67eb88a9939d83c0 in
  let '(x14, x13) := Mul64 x6 0x8de5476c4c95b6d5 in
  let '(x16, x15) := Mul64 x6 0xa76e6a609d104f1 in
  let '(x18, x17) := Mul64 x6 0xf4df1f341c341746 in
  let '(x19, x20) := Add64 x18 x15 0 in
  let '(x21, x22) := Add64 x16 x13 x20 in
  let '(x23, x24) := Add64 x14 x11 x22 in
  let '(x25, x26) := Add64 x12 x9 x24 in
  let '(x27, x28) := Add64 x10 x7 x26 in
  let '(_, x29) := Mul64 x17 0x89f3fffcfffcfffd in
  let '(x32, x31) := Mul64 x29 0x1a0111ea397fe69a in
  let '(x34, x33) := Mul64 x29 0x4b1ba7b6434bacd7 in
  let '(x36, x35) := Mul64 x29 0x64774b84f38512bf in
  let '(x38, x37) := Mul64 x29 0x6730d2a0f6b0f624 in
  let '(x40, x39) := Mul64 x29 0x1eabfffeb153ffff in
  let '(x42, x41) := Mul64 x29 0xb9feffffffffaaab in
  let '(x43, x44) := Add64 x42 x39 0 in
  let '(x45, x46) := Add64 x40 x37 x44 in
  let '(x47, x48) := Add64 x38 x35 x46 in
  let '(x49, x50) := Add64 x36 x33 x48 in
  let '(x51, x52) := Add64 x34 x31 x50 in
  let '(_, x54) := Add64 x17 x41 0 in
  let '(x55, x56) := Add64 x19 x43 x54 in
  let '(x57, x58) := Add64 x21 x45 x56 in
  let '(x59, x60) := Add64 x23 x47 x58 in
  let '(x61, x62) := Add64 x25 x49 x60 in
  let '(x63, x64) := Add64 x27 x51 x62 in
  (x8, x28, x32, x52, x55, x57, x59, x61, x63, x64).
Definition fiatFpToMontgomery_row1 (x1 x8 x28 x32 x52 x55 x57 x59 x61 x63 x64 : Z) :=
  let '(x66, x65) := Mul64 x1 0x11988fe592cae3aa in
  let '(x68, x67) := Mul64 x1 0x9a793e85b519952d in
  let '(x70, x69) := Mul64 x1 0x67eb88a9939d83c0 in
  let '(x72, x71) := Mul64 x1 0x8de5476c4c95b6d5 in
  let '(x74, x73) := Mul64 x1 0xa76e6a609d104f1 in
  let '(x76, x75) := Mul64 x1 0xf4df1f341c341746 in
  let '(x77, x78) := Add64 x76 x73 0 in
  let '(x79, x80) := Add64 x74 x71 x78 in
  let '(x81, x82) := Add64 x72 x69 x80 in
  let '(x83, x84) := Add64 x70 x67 x82 in
  let '(x85, x86) := Add64 x68 x65 x84 in
  let '(x87, x88) := Add64 x55 x75 0 in
  let '(x89, x90) := Add64 x57 x77 x88 in
  let '(x91, x92) := Add64 x59 x79 x90 in
  let '(x93, x94) := Add64 x61 x81 x92 in
  let '(x95, x96) := Add64 x63 x83 x94 in
  let '(x97, x98) := Add64 (add64 (add64 x64 (add64 x28 x8)) (add64 x52 x32)) x85 x96 in
  let '(_, x99) := Mul64 x87 0x89f3fffcfffcfffd in
  let '(x102, x101) := Mul64 x99 0x1a0111ea397fe69a in
  let '(x104, x103) := Mul64 x99 0x4b1ba7b6434bacd7 in
  let '(x106, x105) := Mul64 x99 0x64774b84f38512bf in
  let '(x108, x107) := Mul64 x99 0x6730d2a0f6b0f624 in
  let '(x110, x109) := Mul64 x99 0x1eabfffeb153ffff in
  let '(x112, x111) := Mul64 x99 0xb9feffffffffaaab in
  let '(x113, x114) := Add64 x112 x109 0 in
  let '(x115, x116) := Add64 x110 x107 x114 in
  let '(x117, x118) := Add64 x108 x105 x116 in
  let '(x119, x120) := Add64 x106 x103 x118 in
  let '(x121, x122) := Add64 x104 x101 x120 in
  let '(_, x124) := Add64 x87 x111 0 in
  let '(x125, x126) := Add64 x89 x113 x124 in
  let '(x127, x128) := Add64 x91 x115 x126 in
  let '(x129, x130) := Add64 x93 x117 x128 in
  let '(x131, x132) := Add64 x95 x119 x130 in
  let '(x133, x134) := Add64 x97 x121 x132 in
  (x66, x86, x98, x102, x122, x125, x127, x129, x131, x133, x134).
Definition fiatFpToMontgomery_row2 (x2 x66 x86 x98 x102 x122 x125 x127 x129 x131 x133 x134 : Z) :=
  let '(x136, x135) := Mul64 x2 0x11988fe592cae3aa in
  let '(x138, x137) := Mul64 x2 0x9a793e85b519952d in
  let '(x140, x139) := Mul64 x2 0x67eb88a9939d83c0 in
  let '(x142, x141) := Mul64 x2 0x8de5476c4c95b6d5 in
  let '(x144, x143) := Mul64 x2 0xa76e6a609d104f1 in
  let '(x146, x145) := Mul64 x2 0xf4df1f341c341746 in
  let '(x147, x148) := Add64 x146 x143 0 in
  let '(x149, x150) := Add64 x144 x141 x148 in
  let '(x151, x152) := Add64 x142 x139 x150 in
  let '(x153, x154) := Add64 x140 x137 x152 in
  let '(x155, x156) := Add64 x138 x135 x154 in
  let '(x157, x158) := Add64 x125 x145 0 in
  let '(x159, x160) := Add64 x127 x147 x158 in
  let '(x161, x162) := Add64 x129 x149 x160 in
  let '(x163, x164) := Add64 x131 x151 x162 in
  let '(x165, x166) := Add64 x133 x153 x164 in
  let '(x167, x168) := Add64 (add64 (add64 x134 (add64 x98 (add64 x86 x66))) (add64 x122 x102)) x155 x166 in
  let '(_, x169) := Mul64 x157 0x89f3fffcfffcfffd in
  let '(x172, x171) := Mul64 x169 0x1a0111ea397fe69a in
  let '(x174, x173) := Mul64 x169 0x4b1ba7b6434bacd7 in
  let '(x176, x175) := Mul64 x169 0x64774b84f38512bf in
  let '(x178, x177) := Mul64 x169 0x6730d2a0f6b0f624 in
  let '(x180, x179) := Mul64 x169 0x1eabfffeb153ffff in
  let '(x182, x181) := Mul64 x169 0xb9feffffffffaaab in
  let '(x183, x184) := Add64 x182 x179 0 in
  let '(x185, x186) := Add64 x180 x177 x184 in
  let '(x187, x188) := Add64 x178 x175 x186 in
  let '(x189, x190) := Add64 x176 x173 x188 in
  let '(x191, x192) := Add64 x174 x171 x190 in
  let '(_, x194) := Add64 x157 x181 0 in
  let '(x195, x196) := Add64 x159 x183 x194 in
  let '(x197, x198) := Add64 x161 x185 x196 in
  let '(x199, x200) := Add64 x163 x187 x198 in
  let '(x201, x202) := Add64 x165 x189 x200 in
  let '(x203, x204) := Add64 x167 x191 x202 in
  (x136, x156, x168, x172, x192, x195, x197, x199, x201, x203, x204).
Definition fiatFpToMontgomery_row3 (x3 x136 x156 x168 x172 x192 x195 x197 x199 x201 x203 x204 : Z) :=
  let '(x206, x205) := Mul64 x3 0x11988fe592cae3aa in
  let '(x208, x207) := Mul64 x3 0x9a793e85b519952d in
  let '(x210, x209) := Mul64 x3 0x67eb88a9939d83c0 in
  let '(x212, x211) := Mul64 x3 0x8de5476c4c95b6d5 in
  let '(x214, x213) := Mul64 x3 0xa76e6a609d104f1 in
  let '(x216, x215) := Mul64 x3 0xf4df1f341c341746 in
  let '(x217, x218) := Add64 x216 x213 0 in
  let '(x219, x220) := Add64 x214 x211 x218 in
  let '(x221, x222) := Add64 x212 x209 x220 in
  let '(x223, x224) := Add64 x210 x207 x222 in
  let '(x225, x226) := Add64 x208 x205 x224 in
  let '(x227, x228) := Add64 x195 x215 0 in
  let '(x229, x230) := Add64 x197 x217 x228 in
  let '(x231, x232) := Add64 x199 x219 x230 in
  let '(x233, x234) := Add64 x201 x221 x232 in
  let '(x235, x236) := Add64 x203 x223 x234 in
  let '(x237, x238) := Add64 (add64 (add64 x204 (add64 x168 (add64 x156 x136))) (add64 x192 x172)) x225 x236 in
  let '(_, x239) := Mul64 x227 0x89f3fffcfffcfffd in
  let '(x242, x241) := Mul64 x239 0x1a0111ea397fe69a in
  let '(x244, x243) := Mul64 x239 0x4b1ba7b6434bacd7 in
  let '(x246, x245) := Mul64 x239 0x64774b84f38512bf in
  let '(x248, x247) := Mul64 x239 0x6730d2a0f6b0f624 in
  let '(x250, x249) := Mul64 x239 0x1eabfffeb153ffff in
  let '(x252, x251) := Mul64 x239 0xb9feffffffffaaab in
  let '(x253, x254) := Add64 x252 x249 0 in
  let '(x255, x256) := Add64 x250 x247 x254 in
  let '(x257, x258) := Add64 x248 x245 x256 in
  let '(x259, x260) := Add64 x246 x243 x258 in
  let '(x261, x262) := Add64 x244 x241 x260 in
  let '(_, x264) := Add64 x227 x251 0 in
  let '(x265, x266) := Add64 x229 x253 x264 in
  let '(x267, x268) := Add64 x231 x255 x266 in
  let '(x269, x270) := Add64 x233 x257 x268 in
  let '(x271, x272) := Add64 x235 x259 x270 in
  let '(x273, x274) := Add64 x237 x261 x272 in
  (x206, x226, x238, x242, x262, x265, x267, x269, x271, x273, x274).
Definition fiatFpToMontgomery_row4 (x4 x206 x226 x238 x242 x262 x265 x267 x269 x271 x273 x274 : Z) :=
  let '(x276, x275) := Mul64 x4 0x11988fe592cae3aa in
  let '(x278, x277) := Mul64 x4 0x9a793e85b519952d in
  let '(x280, x279) := Mul64 x4 0x67eb88a9939d83c0 in
  let '(x282, x281) := Mul64 x4 0x8de5476c4c95b6d5 in
  let '(x284, x283) := Mul64 x4 0xa76e6a609d104f1 in
  let '(x286, x285) := Mul64 x4 0xf4df1f341c341746 in
  let '(x287, x288) := Add64 x286 x283 0 in
  let '(x289, x290) := Add64 x284 x281 x288 in
  let '(x291, x292) := Add64 x282 x279 x290 in
  let '(x293, x294) := Add64 x280 x277 x292 in
  let '(x295, x296) := Add64 x278 x275 x294 in
  let '(x297, x298) := Add64 x265 x285 0 in
  let '(x299, x300) := Add64 x267 x287 x298 in
  let '(x301, x302) := Add64 x269 x289 x300 in
  let '(x303, x304) := Add64 x271 x291 x302 in
  let '(x305, x306) := Add64 x273 x293 x304 in
  let '(x307, x308) := Add64 (add64 (add64 x274 (add64 x238 (add64 x226 x206))) (add64 x262 x242)) x295 x306 in
  let '(_, x309) := Mul64 x297 0x89f3fffcfffcfffd in
  let '(x312, x311) := Mul64 x309 0x1a0111ea397fe69a in
  let '(x314, x313) := Mul64 x309 0x4b1ba7b6434bacd7 in
  let '(x316, x315) := Mul64 x309 0x64774b84f38512bf in
  let '(x318, x317) := Mul64 x309 0x6730d2a0f6b0f624 in
  let '(x320, x319) := Mul64 x309 0x1eabfffeb153ffff in
  let '(x322, x321) := Mul64 x309 0xb9feffffffffaaab in
  let '(x323, x324) := Add64 x322 x319 0 in
  let '(x325, x326) := Add64 x320 x317 x324 in
  let '(x327, x328) := Add64 x318 x315 x326 in
  let '(x329, x330) := Add64 x316 x313 x328 in
  let '(x331, x332) := Add64 x314 x311 x330 in
  let '(_, x334) := Add64 x297 x321 0 in
  let '(x335, x336) := Add64 x299 x323 x334 in
  let '(x337, x338) := Add64 x301 x325 x336 in
  let '(x339, x340) := Add64 x303 x327 x338 in
  let '(x341, x342) := Add64 x305 x329 x340 in
  let '(x343, x344) := Add64 x307 x331 x342 in
  (x276, x296, x308, x312, x332, x335, x337, x339, x341, x343, x344).
Definition fiatFpToMontgomery_row5 (x5 x276 x296 x308 x312 x332 x335 x337 x339 x341 x343 x344 : Z) :=
  let '(x346, x345) := Mul64 x5 0x11988fe592cae3aa in
  let '(x348, x347) := Mul64 x5 0x9a793e85b519952d in
  let '(x350, x349) := Mul64 x5 0x67eb88a9939d83c0 in
  let '(x352, x351) := Mul64 x5 0x8de5476c4c95b6d5 in
  let '(x354, x353) := Mul64 x5 0xa76e6a609d104f1 in
  let '(x356, x355) := Mul64 x5 0xf4df1f341c341746 in
  let '(x357, x358) := Add64 x356 x353 0 in
  let '(x359, x360) := Add64 x354 x351 x358 in
  let '(x361, x362) := Add64 x352 x349 x360 in
  let '(x363, x364) := Add64 x350 x347 x362 in
  let '(x365, x366) := Add64 x348 x345 x364 in
  let '(x367, x368) := Add64 x335 x355 0 in
  let '(x369, x370) := Add64 x337 x357 x368 in
  let '(x371, x372) := Add64 x339 x359 x370 in
  let '(x373, x374) := Add64 x341 x361 x372 in
  let '(x375, x376) := Add64 x343 x363 x374 in
  let '(x377, x378) := Add64 (add64 (add64 x344 (add64 x308 (add64 x296 x276))) (add64 x332 x312)) x365 x376 in
  let '(_, x379) := Mul64 x367 0x89f3fffcfffcfffd in
  let '(x382, x381) := Mul64 x379 0x1a0111ea397fe69a in
  let '(x384, x383) := Mul64 x379 0x4b1ba7b6434bacd7 in
  let '(x386, x385) := Mul64 x379 0x64774b84f38512bf in
  let '(x388, x387) := Mul64 x379 0x6730d2a0f6b0f624 in
  let '(x390, x389) := Mul64 x379 0x1eabfffeb153ffff in
  let '(x392, x391) := Mul64 x379 0xb9feffffffffaaab in
  let '(x393, x394) := Add64 x392 x389 0 in
  let '(x395, x396) := Add64 x390 x387 x394 in
  let '(x397, x398) := Add64 x388 x385 x396 in
  let '(x399, x400) := Add64 x386 x383 x398 in
  let '(x401, x402) := Add64 x384 x381 x400 in
  let '(_, x404) := Add64 x367 x391 0 in
  let '(x405, x406) := Add64 x369 x393 x404 in
  let '(x407, x408) := Add64 x371 x395 x406 in
  let '(x409, x410) := Add64 x373 x397 x408 in
  let '(x411, x412) := Add64 x375 x399 x410 in
  let '(x413, x414) := Add64 x377 x401 x412 in
  let x415 := add64 (add64 x414 (add64 x378 (add64 x366 x346))) (add64 x402 x382) in
  (x405, x407, x409, x411, x413, x415).
Definition fiatFpToMontgomery (arg1 : limbs) : limbs :=
  let x1 := arg1.[1] in
  let x2 := arg1.[2] in
  let x3 := arg1.[3] in
  let x4 := arg1.[4] in
  let x5 := arg1.[5] in
  let x6 := arg1.[0] in
  let '(x8, x28, x32, x52, x55, x57, x59, x61, x63, x64) := fiatFpToMontgomery_row0 x6 in
  let '(x66, x86, x98, x102, x122, x125, x127, x129, x131, x133, x134) := fiatFpToMontgomery_row1 x1 x8 x28 x32 x52 x55 x57 x59 x61 x63 x64 in
  let '(x136, x156, x168, x172, x192, x195, x197, x199, x201, x203, x204) := fiatFpToMontgomery_row2 x2 x66 x86 x98 x102 x122 x125 x127 x129 x131 x133 x134 in
  let '(x206, x226, x238, x242, x262, x265, x267, x269, x271, x273, x274) := fiatFpToMontgomery_row3 x3 x136 x156 x168 x172 x192 x195 x197 x199 x201 x203 x204 in
  let '(x276, x296, x308, x312, x332, x335, x337, x339, x341, x343, x344) := fiatFpToMontgomery_row4 x4 x206 x226 x238 x242 x262 x265 x267 x269 x271 x273 x274 in
  let '(x405, x407, x409, x411, x413, x415) := fiatFpToMontgomery_row5 x5 x276 x296 x308 x312 x332 x335 x337 x339 x341 x343 x344 in
  let '(x416, x417) := Sub64 x405 0xb9feffffffffaaab 0 in
  let '(x418, x419) := Sub64 x407 0x1eabfffeb153ffff x417 in
  let '(x420, x421) := Sub64 x409 0x6730d2a0f6b0f624 x419 in
  let '(x422, x423) := Sub64 x411 0x64774b84f38512bf x421 in
  let '(x424, x425) := Sub64 x413 0x4b1ba7b6434bacd7 x423 in
  let '(x426, x427) := Sub64 x415 0x1a0111ea397fe69a x425 in
  let '(_, x429) := Sub64 0 0 x427 in
  let x430 := fiatFpCmovznzU64 x429 x416 x405 in
  let x431 := fiatFpCmovznzU64 x429 x418 x407 in
  let x432 := fiatFpCmovznzU64 x429 x420 x409 in
  let x433 := fiatFpCmovznzU64 x429 x422 x411 in
  let x434 := fiatFpCmovznzU64 x429 x424 x413 in
  let x435 := fiatFpCmovznzU64 x429 x426 x415 in
  [x430; x431; x432; x433; x434; x435].

Definition fiatFpAdd (arg1 arg2 : limbs) : limbs :=
  let '(x1, x2) := Add64 arg1.[0] arg2.[0] 0 in
  let '(x3, x4) := Add64 arg1.[1] arg2.[1] x2 in
  let '(x5, x6) := Add64 arg1.[2] arg2.[2] x4 in
  let '(x7, x8) := Add64 arg1.[3] arg2.[3] x6 in
  let '(x9, x10) := Add64 arg1.[4] arg2.[4] x8 in
  let '(x11, x12) := Add64 arg1.[5] arg2.[5] x10 in
  let '(x13, x14) := Sub64 x1 0xb9feffffffffaaab 0 in
  let '(x15, x16) := Sub64 x3 0x1eabfffeb153ffff x14 in
  let '(x17, x18) := Sub64 x5 0x6730d2a0f6b0f624 x16 in
  let '(x19, x20) := Sub64 x7 0x64774b84f38512bf x18 in
  let '(x21, x22) := Sub64 x9 0x4b1ba7b6434bacd7 x20 in
  let '(x23, x24) := Sub64 x11 0x1a0111ea397fe69a x22 in
  let '(_, x26) := Sub64 x12 0 x24 in
  let x27 := fiatFpCmovznzU64 x26 x13 x1 in
  let x28 := fiatFpCmovznzU64 x26 x15 x3 in
  let x29 := fiatFpCmovznzU64 x26 x17 x5 in
  let x30 := fiatFpCmovznzU64 x26 x19 x7 in
  let x31 := fiatFpCmovznzU64 x26 x21 x9 in
  let x32 := fiatFpCmovznzU64 x26 x23 x11 in
  [x27; x28; x29; x30; x31; x32].

Definition fiatFpSub (arg1 arg2 : limbs) : limbs :=
  let '(x1, x2) := Sub64 arg1.[0] arg2.[0] 0 in
  let '(x3, x4) := Sub64 arg1.[1] arg2.[1] x2 in
  let '(x5, x6) := Sub64 arg1.[2] arg2.[2] x4 in
  let '(x7, x8) := Sub64 arg1.[3] arg2.[3] x6 in
  let '(x9, x10) := Sub64 arg1.[4] arg2.[4] x8 in
  let '(x11, x12) := Sub64 arg1.[5] arg2.[5] x10 in
  let x13 := fiatFpCmovznzU64 x12 0 0xffffffffffffffff in
  let '(x14, x15) := Add64 x1 (Z.land x13 0xb9feffffffffaaab) 0 in
  let '(x16, x17) := Add64 x3 (Z.land x13 0x1eabfffeb153ffff) x15 in
  let '(x18, x19) := Add64 x5 (Z.land x13 0x6730d2a0f6b0f624) x17 in
  let '(x20, x21) := Add64 x7 (Z.land x13 0x64774b84f38512bf) x19 in
  let '(x22, x23) := Add64 x9 (Z.land x13 0x4b1ba7b6434bacd7) x21 in
  let '(x24, _) := Add64 x11 (Z.land x13 0x1a0111ea397fe69a) x23 in
  [x14; x16; x18; x20; x22; x24].

Definition fiatFpOpp (arg1 : limbs) : limbs :=
  let '(x1, x2) := Sub64 0 arg1.[0] 0 in
  let '(x3, x4) := Sub64 0 arg1.[1] x2 in
  let '(x5, x6) := Sub64 0 arg1.[2] x4 in
  let '(x7, x8) := Sub64 0 arg1.[3] x6 in
  let '(x9, x10) := Sub64 0 arg1.[4] x8 in
  let '(x11, x12) := Sub64 0 arg1.[5] x10 in
  let x13 := fiatFpCmovznzU64 x12 0 0xffffffffffffffff in
  let '(x14, x15) := Add64 x1 (Z.land x13 0xb9feffffffffaaab) 0 in
  let '(x16, x17) := Add64 x3 (Z.land x13 0x1eabfffeb153ffff) x15 in
  let '(x18, x19) := Add64 x5 (Z.land x13 0x6730d2a0f6b0f624) x17 in
  let '(x20, x21) := Add64 x7 (Z.land x13 0x64774b84f38512bf) x19 in
  let '(x22, x23) := Add64 x9 (Z.land x13 0x4b1ba7b6434bacd7) x21 in
  let '(x24, _) := Add64 x11 (Z.land x13 0x1a0111ea397fe69a) x23 in
  [x14; x16; x18; x20; x22; x24].

Definition fiatFpNonzero (arg1 : limbs) : Z :=
  let x1 := Z.lor arg1.[0] (Z.lor arg1.[1] (Z.lor arg1.[2] (Z.lor arg1.[3] (Z.lor arg1.[4] arg1.[5])))) in
  x1.

Definition fiatFpSelectznz (arg1 : Z) (arg2 arg3 : limbs) : limbs :=
  let x1 := fiatFpCmovznzU64 arg1 arg2.[0] arg3.[0] in
  let x2 := fiatFpCmovznzU64 arg1 arg2.[1] arg3.[1] in
  let x3 := fiatFpCmovznzU64 arg1 arg2.[2] arg3.[2] in
  let x4 := fiatFpCmovznzU64 arg1 arg2.[3] arg3.[3] in
  let x5 := fiatFpCmovznzU64 arg1 arg2.[4] arg3.[4] in
  let x6 := fiatFpCmovznzU64 arg1 arg2.[5] arg3.[5] in
  [x1; x2; x3; x4; x5; x6].

Definition fiatFpToBytes (arg1 : limbs) : list Z :=
  let x1 := arg1.[5] in
  let x2 := arg1.[4] in
  let x3 := arg1.[3] in
  let x4 := arg1.[2] in
  let x5 := arg1.[1] in
  let x6 := arg1.[0] in
  let x7 := Z.land (uint8 x6) 0xff in
  let x8 := shr64 x6 8 in
  let x9 := Z.land (uint8 x8) 0xff in
  let x10 := shr64 x8 8 in
  let x11 := Z.land (uint8 x10) 0xff in
  let x12 := shr64 x10 8 in
  let x13 := Z.land (uint8 x12) 0xff in
  let x14 := shr64 x12 8 in
  let x15 := Z.land (uint8 x14) 0xff in
  let x16 := shr64 x14 8 in
  let x17 := Z.land (uint8 x16) 0xff in
  let x18 := shr64 x16 8 in
  let x19 := Z.land (uint8 x18) 0xff in
  let x20 := uint8 (shr64 x18 8) in
  let x21 := Z.land (uint8 x5) 0xff in
  let x22 := shr64 x5 8 in
  let x23 := Z.land (uint8 x22) 0xff in
  let x24 := shr64 x22 8 in
  let x25 := Z.land (uint8 x24) 0xff in
  let x26 := shr64 x24 8 in
  let x27 := Z.land (uint8 x26) 0xff in
  let x28 := shr64 x26 8 in
  let x29 := Z.land (uint8 x28) 0xff in
  let x30 := shr64 x28 8 in
  let x31 := Z.land (uint8 x30) 0xff in
  let x32 := shr64 x30 8 in
  let x33 := Z.land (uint8 x32) 0xff in
  let x34 := uint8 (shr64 x32 8) in
  let x35 := Z.land (uint8 x4) 0xff in
  let x36 := shr64 x4 8 in
  let x37 := Z.land (uint8 x36) 0xff in
  let x38 := shr64 x36 8 in
  let x39 := Z.land (uint8 x38) 0xff in
  let x40 := shr64 x38 8 in
  let x41 := Z.land (uint8 x40) 0xff in
  let x42 := shr64 x40 8 in
  let x43 := Z.land (uint8 x42) 0xff in
  let x44 := shr64 x42 8 in
  let x45 := Z.land (uint8 x44) 0xff in
  let x46 := shr64 x44 8 in
  let x47 := Z.land (uint8 x46) 0xff in
  let x48 := uint8 (shr64 x46 8) in
  let x49 := Z.land (uint8 x3) 0xff in
  let x50 := shr64 x3 8 in
  let x51 := Z.land (uint8 x50) 0xff in
  let x52 := shr64 x50 8 in
  let x53 := Z.land (uint8 x52) 0xff in
  let x54 := shr64 x52 8 in
  let x55 := Z.land (uint8 x54) 0xff in
  let x56 := shr64 x54 8 in
  let x57 := Z.land (uint8 x56) 0xff in
  let x58 := shr64 x56 8 in
  let x59 := Z.land (uint8 x58) 0xff in
  let x60 := shr64 x58 8 in
  let x61 := Z.land (uint8 x60) 0xff in
  let x62 := uint8 (shr64 x60 8) in
  let x63 := Z.land (uint8 x2) 0xff in
  let x64 := shr64 x2 8 in
  let x65 := Z.land (uint8 x64) 0xff in
  let x66 := shr64 x64 8 in
  let x67 := Z.land (uint8 x66) 0xff in
  let x68 := shr64 x66 8 in
  let x69 := Z.land (uint8 x68) 0xff in
  let x70 := shr64 x68 8 in
  let x71 := Z.land (uint8 x70) 0xff in
  let x72 := shr64 x70 8 in
  let x73 := Z.land (uint8 x72) 0xff in
  let x74 := shr64 x72 8 in
  let x75 := Z.land (uint8 x74) 0xff in
  let x76 := uint8 (shr64 x74 8) in
  let x77 := Z.land (uint8 x1) 0xff in
  let x78 := shr64 x1 8 in
  let x79 := Z.land (uint8 x78) 0xff in
  let x80 := shr64 x78 8 in
  let x81 := Z.land (uint8 x80) 0xff in
  let x82 := shr64 x80 8 in
  let x83 := Z.land (uint8 x82) 0xff in
  let x84 := shr64 x82 8 in
  let x85 := Z.land (uint8 x84) 0xff in
  let x86 := shr64 x84 8 in
  let x87 := Z.land (uint8 x86) 0xff in
  let x88 := shr64 x86 8 in
  let x89 := Z.land (uint8 x88) 0xff in
  let x90 := uint8 (shr64 x88 8) in
  [x7; x9; x11; x13; x15; x17; x19; x20; x21; x23; x25; x27; x29; x31; x33; x34; x35; x37; x39; x41; x43; x45; x47; x48; x49; x51; x53; x55; x57; x59; x61; x62; x63; x65; x67; x69; x71; x73; x75; x76; x77; x79; x81; x83; x85; x87; x89; x90].

Definition fiatFpFromBytes (arg1 : list Z) : limbs :=
  let x1 := shl64 arg1.[47] 0x38 in
  let x2 := shl64 arg1.[46] 0x30 in
  let x3 := shl64 arg1.[45] 0x28 in
  let x4 := shl64 arg1.[44] 0x20 in
  let x5 := shl64 arg1.[43] 0x18 in
  let x6 := shl64 arg1.[42] 0x10 in
  let x7 := shl64 arg1.[41] 8 in
  let x8 := arg1.[40] in
  let x9 := shl64 arg1.[39] 0x38 in
  let x10 := shl64 arg1.[38] 0x30 in
  let x11 := shl64 arg1.[37] 0x28 in
  let x12 := shl64 arg1.[36] 0x20 in
  let x13 := shl64 arg1.[35] 0x18 in
  let x14 := shl64 arg1.[34] 0x10 in
  let x15 := shl64 arg1.[33] 8 in
  let x16 := arg1.[32] in
  let x17 := shl64 arg1.[31] 0x38 in
  let x18 := shl64 arg1.[30] 0x30 in
  let x19 := shl64 arg1.[29] 0x28 in
  let x20 := shl64 arg1.[28] 0x20 in
  let x21 := shl64 arg1.[27] 0x18 in
  let x22 := shl64 arg1.[26] 0x10 in
  let x23 := shl64 arg1.[25] 8 in
  let x24 := arg1.[24] in
  let x25 := shl64 arg1.[23] 0x38 in
  let x26 := shl64 arg1.[22] 0x30 in
  let x27 := shl64 arg1.[21] 0x28 in
  let x28 := shl64 arg1.[20] 0x20 in
  let x29 := shl64 arg1.[19] 0x18 in
  let x30 := shl64 arg1.[18] 0x10 in
  let x31 := shl64 arg1.[17] 8 in
  let x32 := arg1.[16] in
  let x33 := shl64 arg1.[15] 0x38 in
  let x34 := shl64 arg1.[14] 0x30 in
  let x35 := shl64 arg1.[13] 0x28 in
  let x36 := shl64 arg1.[12] 0x20 in
  let x37 := shl64 arg1.[11] 0x18 in
  let x38 := shl64 arg1.[10] 0x10 in
  let x39 := shl64 arg1.[9] 8 in
  let x40 := arg1.[8] in
  let x41 := shl64 arg1.[7] 0x38 in
  let x42 := shl64 arg1.[6] 0x30 in
  let x43 := shl64 arg1.[5] 0x28 in
  let x44 := shl64 arg1.[4] 0x20 in
  let x45 := shl64 arg1.[3] 0x18 in
  let x46 := shl64 arg1.[2] 0x10 in
  let x47 := shl64 arg1.[1] 8 in
  let x48 := arg1.[0] in
  let x49 := add64 x47 x48 in
  let x50 := add64 x46 x49 in
  let x51 := add64 x45 x50 in
  let x52 := add64 x44 x51 in
  let x53 := add64 x43 x52 in
  let x54 := add64 x42 x53 in
  let x55 := add64 x41 x54 in
  let x56 := add64 x39 x40 in
  let x57 := add64 x38 x56 in
  let x58 := add64 x37 x57 in
  let x59 := add64 x36 x58 in
  let x60 := add64 x35 x59 in
  let x61 := add64 x34 x60 in
  let x62 := add64 x33 x61 in
  let x63 := add64 x31 x32 in
  let x64 := add64 x30 x63 in
  let x65 := add64 x29 x64 in
  let x66 := add64 x28 x65 in
  let x67 := add64 x27 x66 in
  let x68 := add64 x26 x67 in
  let x69 := add64 x25 x68 in
  let x70 := add64 x23 x24 in
  let x71 := add64 x22 x70 in
  let x72 := add64 x21 x71 in
  let x73 := add64 x20 x72 in
  let x74 := add64 x19 x73 in
  let x75 := add64 x18 x74 in
  let x76 := add64 x17 x75 in
  let x77 := add64 x15 x16 in
  let x78 := add64 x14 x77 in
  let x79 := add64 x13 x78 in
  let x80 := add64 x12 x79 in
  let x81 := add64 x11 x80 in
  let x82 := add64 x10 x81 in
  let x83 := add64 x9 x82 in
  let x84 := add64 x7 x8 in
  let x85 := add64 x6 x84 in
  let x86 := add64 x5 x85 in
  let x87 := add64 x4 x86 in
  let x88 := add64 x3 x87 in
  let x89 := add64 x2 x88 in
  let x90 := add64 x1 x89 in
  [x55; x62; x69; x76; x83; x90].

Definition fiatFpSetOne  : limbs :=
  [0x760900000002fffd; 0xebf4000bc40c0002; 0x5f48985753c758ba; 0x77ce585370525745; 0x5c071a97a256ec6d; 0x15f65ec3fa80e493].

Definition fiatFpMsat  : limbs :=
  [0xb9feffffffffaaab; 0x1eabfffeb153ffff; 0x6730d2a0f6b0f624; 0x64774b84f38512bf; 0x4b1ba7b6434bacd7; 0x1a0111ea397fe69a; 0].

Definition fiatFpDivstepPrecomp  : limbs :=
  [0x58b20fbd4742924f; 0x60dc92e7f4c2f437; 0x3f4fac6a70c73c60; 0xed47d0696c7bf023; 0x2a13c3e0fd09a8cb; 0x1397424c770094ff].

Definition fiatFpDivstep_select (arg1 : Z) (arg2 arg3 arg4 arg5 : limbs) :=
  let '(x1, _) := Add64 (not64 arg1) 1 0 in
  let x3 := Z.land (shr64 x1 0x3f) (Z.land arg3.[0] 1) in
  let '(x4, _) := Add64 (not64 arg1) 1 0 in
  let x6 := fiatFpCmovznzU64 x3 arg1 x4 in
  let x7 := fiatFpCmovznzU64 x3 arg2.[0] arg3.[0] in
  let x8 := fiatFpCmovznzU64 x3 arg2.[1] arg3.[1] in
  let x9 := fiatFpCmovznzU64 x3 arg2.[2] arg3.[2] in
  let x10 := fiatFpCmovznzU64 x3 arg2.[3] arg3.[3] in
  let x11 := fiatFpCmovznzU64 x3 arg2.[4] arg3.[4] in
  let x12 := fiatFpCmovznzU64 x3 arg2.[5] arg3.[5] in
  let x13 := fiatFpCmovznzU64 x3 arg2.[6] arg3.[6] in
  let '(x14, x15) := Add64 1 (not64 arg2.[0]) 0 in
  let '(x16, x17) := Add64 0 (not64 arg2.[1]) x15 in
  let '(x18, x19) := Add64 0 (not64 arg2.[2]) x17 in
  let '(x20, x21) := Add64 0 (not64 arg2.[3]) x19 in
  let '(x22, x23) := Add64 0 (not64 arg2.[4]) x21 in
  let '(x24, x25) := Add64 0 (not64 arg2.[5]) x23 in
  let '(x26, _) := Add64 0 (not64 arg2.[6]) x25 in
  let x28 := fiatFpCmovznzU64 x3 arg3.[0] x14 in
  let x29 := fiatFpCmovznzU64 x3 arg3.[1] x16 in
  let x30 := fiatFpCmovznzU64 x3 arg3.[2] x18 in
  let x31 := fiatFpCmovznzU64 x3 arg3.[3] x20 in
  let x32 := fiatFpCmovznzU64 x3 arg3.[4] x22 in
  let x33 := fiatFpCmovznzU64 x3 arg3.[5] x24 in
  let x34 := fiatFpCmovznzU64 x3 arg3.[6] x26 in
  let x35 := fiatFpCmovznzU64 x3 arg4.[0] arg5.[0] in
  let x36 := fiatFpCmovznzU64 x3 arg4.[1] arg5.[1] in
  let x37 := fiatFpCmovznzU64 x3 arg4.[2] arg5.[2] in
  let x38 := fiatFpCmovznzU64 x3 arg4.[3] arg5.[3] in
  let x39 := fiatFpCmovznzU64 x3 arg4.[4] arg5.[4] in
  let x40 := fiatFpCmovznzU64 x3 arg4.[5] arg5.[5] in
  let '(x41, x42) := Add64 x35 x35 0 in
  let '(x43, x44) := Add64 x36 x36 x42 in
  let '(x45, x46) := Add64 x37 x37 x44 in
  let '(x47, x48) := Add64 x38 x38 x46 in
  let '(x49, x50) := Add64 x39 x39 x48 in
  let '(x51, x52) := Add64 x40 x40 x50 in
  let '(x53, x54) := Sub64 x41 0xb9feffffffffaaab 0 in
  let '(x55, x56) := Sub64 x43 0x1eabfffeb153ffff x54 in
  let '(x57, x58) := Sub64 x45 0x6730d2a0f6b0f624 x56 in
  let '(x59, x60) := Sub64 x47 0x64774b84f38512bf x58 in
  let '(x61, x62) := Sub64 x49 0x4b1ba7b6434bacd7 x60 in
  let '(x63, x64) := Sub64 x51 0x1a0111ea397fe69a x62 in
  let '(_, x66) := Sub64 x52 0 x64 in
  (x3, x6, x7, x8, x9, x10, x11, x12, x13, x28, x29, x30, x31, x32, x33, x34, x35, x36, x37, x38, x39, x40, x41, x43, x45, x47, x49, x51, x53, x55, x57, x59, x61, x63, x66).
Definition fiatFpDivstep_negate (arg4 : limbs) : limbs :=
  let x67 := arg4.[5] in
  let x68 := arg4.[4] in
  let x69 := arg4.[3] in
  let x70 := arg4.[2] in
  let x71 := arg4.[1] in
  let x72 := arg4.[0] in
  let '(x73, x74) := Sub64 0 x72 0 in
  let '(x75, x76) := Sub64 0 x71 x74 in
  let '(x77, x78) := Sub64 0 x70 x76 in
  let '(x79, x80) := Sub64 0 x69 x78 in
  let '(x81, x82) := Sub64 0 x68 x80 in
  let '(x83, x84) := Sub64 0 x67 x82 in
  let x85 := fiatFpCmovznzU64 x84 0 0xffffffffffffffff in
  let '(x86, x87) := Add64 x73 (Z.land x85 0xb9feffffffffaaab) 0 in
  let '(x88, x89) := Add64 x75 (Z.land x85 0x1eabfffeb153ffff) x87 in
  let '(x90, x91) := Add64 x77 (Z.land x85 0x6730d2a0f6b0f624) x89 in
  let '(x92, x93) := Add64 x79 (Z.land x85 0x64774b84f38512bf) x91 in
  let '(x94, x95) := Add64 x81 (Z.land x85 0x4b1ba7b6434bacd7) x93 in
  let '(x96, _) := Add64 x83 (Z.land x85 0x1a0111ea397fe69a) x95 in
  [x86; x88; x90; x92; x94; x96].
Definition fiatFpDivstep (arg1 : Z) (arg2 arg3 arg4 arg5 : limbs) : divstate :=
  let '(x3, x6, x7, x8, x9, x10, x11, x12, x13, x28, x29, x30, x31, x32, x33, x34, x35, x36, x37, x38, x39, x40, x41, x43, x45, x47, x49, x51, x53, x55, x57, x59, x61, x63, x66) := fiatFpDivstep_select arg1 arg2 arg3 arg4 arg5 in
  let negated := fiatFpDivstep_negate arg4 in
  let x86 := negated.[0] in
  let x88 := negated.[1] in
  let x90 := negated.[2] in
  let x92 := negated.[3] in
  let x94 := negated.[4] in
  let x96 := negated.[5] in
  let x98 := fiatFpCmovznzU64 x3 arg5.[0] x86 in
  let x99 := fiatFpCmovznzU64 x3 arg5.[1] x88 in
  let x100 := fiatFpCmovznzU64 x3 arg5.[2] x90 in
  let x101 := fiatFpCmovznzU64 x3 arg5.[3] x92 in
  let x102 := fiatFpCmovznzU64 x3 arg5.[4] x94 in
  let x103 := fiatFpCmovznzU64 x3 arg5.[5] x96 in
  let x104 := Z.land x28 1 in
  let x105 := fiatFpCmovznzU64 x104 0 x7 in
  let x106 := fiatFpCmovznzU64 x104 0 x8 in
  let x107 := fiatFpCmovznzU64 x104 0 x9 in
  let x108 := fiatFpCmovznzU64 x104 0 x10 in
  let x109 := fiatFpCmovznzU64 x104 0 x11 in
  let x110 := fiatFpCmovznzU64 x104 0 x12 in
  let x111 := fiatFpCmovznzU64 x104 0 x13 in
  let '(x112, x113) := Add64 x28 x105 0 in
  let '(x114, x115) := Add64 x29 x106 x113 in
  let '(x116, x117) := Add64 x30 x107 x115 in
  let '(x118, x119) := Add64 x31 x108 x117 in
  let '(x120, x121) := Add64 x32 x109 x119 in
  let '(x122, x123) := Add64 x33 x110 x121 in
  let '(x124, _) := Add64 x34 x111 x123 in
  let x126 := fiatFpCmovznzU64 x104 0 x35 in
  let x127 := fiatFpCmovznzU64 x104 0 x36 in
  let x128 := fiatFpCmovznzU64 x104 0 x37 in
  let x129 := fiatFpCmovznzU64 x104 0 x38 in
  let x130 := fiatFpCmovznzU64 x104 0 x39 in
  let x131 := fiatFpCmovznzU64 x104 0 x40 in
  let '(x132, x133) := Add64 x98 x126 0 in
  let '(x134, x135) := Add64 x99 x127 x133 in
  let '(x136, x137) := Add64 x100 x128 x135 in
  let '(x138, x139) := Add64 x101 x129 x137 in
  let '(x140, x141) := Add64 x102 x130 x139 in
  let '(x142, x143) := Add64 x103 x131 x141 in
  let '(x144, x145) := Sub64 x132 0xb9feffffffffaaab 0 in
  let '(x146, x147) := Sub64 x134 0x1eabfffeb153ffff x145 in
  let '(x148, x149) := Sub64 x136 0x6730d2a0f6b0f624 x147 in
  let '(x150, x151) := Sub64 x138 0x64774b84f38512bf x149 in
  let '(x152, x153) := Sub64 x140 0x4b1ba7b6434bacd7 x151 in
  let '(x154, x155) := Sub64 x142 0x1a0111ea397fe69a x153 in
  let '(_, x157) := Sub64 x143 0 x155 in
  let '(x158, _) := Add64 x6 1 0 in
  let x160 := Z.lor (shr64 x112 1) (Z.land (shl64 x114 0x3f) 0xffffffffffffffff) in
  let x161 := Z.lor (shr64 x114 1) (Z.land (shl64 x116 0x3f) 0xffffffffffffffff) in
  let x162 := Z.lor (shr64 x116 1) (Z.land (shl64 x118 0x3f) 0xffffffffffffffff) in
  let x163 := Z.lor (shr64 x118 1) (Z.land (shl64 x120 0x3f) 0xffffffffffffffff) in
  let x164 := Z.lor (shr64 x120 1) (Z.land (shl64 x122 0x3f) 0xffffffffffffffff) in
  let x165 := Z.lor (shr64 x122 1) (Z.land (shl64 x124 0x3f) 0xffffffffffffffff) in
  let x166 := Z.lor (Z.land x124 0x8000000000000000) (shr64 x124 1) in
  let x167 := fiatFpCmovznzU64 x66 x53 x41 in
  let x168 := fiatFpCmovznzU64 x66 x55 x43 in
  let x169 := fiatFpCmovznzU64 x66 x57 x45 in
  let x170 := fiatFpCmovznzU64 x66 x59 x47 in
  let x171 := fiatFpCmovznzU64 x66 x61 x49 in
  let x172 := fiatFpCmovznzU64 x66 x63 x51 in
  let x173 := fiatFpCmovznzU64 x157 x144 x132 in
  let x174 := fiatFpCmovznzU64 x157 x146 x134 in
  let x175 := fiatFpCmovznzU64 x157 x148 x136 in
  let x176 := fiatFpCmovznzU64 x157 x150 x138 in
  let x177 := fiatFpCmovznzU64 x157 x152 x140 in
  let x178 := fiatFpCmovznzU64 x157 x154 x142 in
  (x158, [x7; x8; x9; x10; x11; x12; x13], [x160; x161; x162; x163; x164; x165; x166], [x167; x168; x169; x170; x171; x172], [x173; x174; x175; x176; x177; x178]).

(** The functions the wrapper calls. *)
Definition fiat : Fiat := mkFiat 6 381 modulus fiatFpMul fiatFpSquare fiatFpAdd fiatFpSub fiatFpOpp fiatFpFromMontgomery fiatFpToMontgomery fiatFpNonzero fiatFpSelectznz fiatFpToBytes fiatFpFromBytes fiatFpSetOne fiatFpMsat fiatFpDivstepPrecomp fiatFpDivstep.

(** ** Correctness of the operations *)

Lemma Bls12381Fp_cmov_ok c x y : 0 <= c <= 1 → word x → word y → fiatFpCmovznzU64 c x y = if c =? 0 then x else y.
Proof. apply cmov_ok. Qed.
Lemma Bls12381Fp_Mul_row0 b0 b1 b2 b3 b4 b5 x6 :
  word b0 → word b1 → word b2 → word b3 → word b4 → word b5 → word x6 →
  let '(x57, x59, x61, x63, x65, x67, x68) := fiatFpMul_row0 [b0; b1; b2; b3; b4; b5] x6 in
  word x57 ∧ word x59 ∧ word x61 ∧ word x63 ∧ word x65 ∧ word x67 ∧ 0 <= x68 <= 1 ∧
  ∃ q, word q ∧ W * eval [x57; x59; x61; x63; x65; x67; x68] = 0 + x6 * eval [b0; b1; b2; b3; b4; b5] + q * modulus.
Proof. row_ok fiatFpMul_row0 modulus. Qed.
Lemma Bls12381Fp_Mul_row1 b0 b1 b2 b3 b4 b5 x1 x57 x59 x61 x63 x65 x67 x68 :
  word b0 → word b1 → word b2 → word b3 → word b4 → word b5 → word x1 → word x57 → word x59 → word x61 → word x63 → word x65 → word x67 → 0 <= x68 <= 1 →
  let '(x133, x135, x137, x139, x141, x143, x145) := fiatFpMul_row1 [b0; b1; b2; b3; b4; b5] x1 x57 x59 x61 x63 x65 x67 x68 in
  word x133 ∧ word x135 ∧ word x137 ∧ word x139 ∧ word x141 ∧ word x143 ∧ 0 <= x145 <= 2 ∧
  ∃ q, word q ∧ W * eval [x133; x135; x137; x139; x141; x143; x145] = eval [x57; x59; x61; x63; x65; x67; x68] + x1 * eval [b0; b1; b2; b3; b4; b5] + q * modulus.
Proof. row_ok fiatFpMul_row1 modulus. Qed.
Lemma Bls12381Fp_Mul_row2 b0 b1 b2 b3 b4 b5 x2 x133 x135 x137 x139 x141 x143 x145 :
  word b0 → word b1 → word b2 → word b3 → word b4 → word b5 → word x2 → word x133 → word x135 → word x137 → word x139 → word x141 → word x143 → 0 <= x145 <= 2 →
  let '(x210, x212, x214, x216, x218, x220, x222) := fiatFpMul_row2 [b0; b1; b2; b3; b4; b5] x2 x133 x135 x137 x139 x141 x143 x145 in
  word x210 ∧ word x212 ∧ word x214 ∧ word x216 ∧ word x218 ∧ word x220 ∧ 0 <= x222 <= 2 ∧
  ∃ q, word q ∧ W * eval [x210; x212; x214; x216; x218; x220; x222] = eval [x133; x135; x137; x139; x141; x143; x145] + x2 * eval [b0; b1; b2; b3; b4; b5] + q * modulus.
Proof. row_ok fiatFpMul_row2 modulus. Qed.
Lemma Bls12381Fp_Mul_row3 b0 b1 b2 b3 b4 b5 x3 x210 x212 x214 x216 x218 x220 x222 :
  word b0 → word b1 → word b2 → word b3 → word b4 → word b5 → word x3 → word x210 → word x212 → word x214 → word x216 → word x218 → word x220 → 0 <= x222 <= 2 →
  let '(x287, x289, x291, x293, x295, x297, x299) := fiatFpMul_row3 [b0; b1; b2; b3; b4; b5] x3 x210 x212 x214 x216 x218 x220 x222 in
  word x287 ∧ word x289 ∧ word x291 ∧ word x293 ∧ word x295 ∧ word x297 ∧ 0 <= x299 <= 2 ∧
  ∃ q, word q ∧ W * eval [x287; x289; x291; x293; x295; x297; x299] = eval [x210; x212; x214; x216; x218; x220; x222] + x3 * eval [b0; b1; b2; b3; b4; b5] + q * modulus.
Proof. exact (Bls12381Fp_Mul_row2 b0 b1 b2 b3 b4 b5 x3 x210 x212 x214 x216 x218 x220 x222). Qed.
Lemma Bls12381Fp_Mul_row4 b0 b1 b2 b3 b4 b5 x4 x287 x289 x291 x293 x295 x297 x299 :
  word b0 → word b1 → word b2 → word b3 → word b4 → word b5 → word x4 → word x287 → word x289 → word x291 → word x293 → word x295 → word x297 → 0 <= x299 <= 2 →
  let '(x364, x366, x368, x370, x372, x374, x376) := fiatFpMul_row4 [b0; b1; b2; b3; b4; b5] x4 x287 x289 x291 x293 x295 x297 x299 in
  word x364 ∧ word x366 ∧ word x368 ∧ word x370 ∧ word x372 ∧ word x374 ∧ 0 <= x376 <= 2 ∧
  ∃ q, word q ∧ W * eval [x364; x366; x368; x370; x372; x374; x376] = eval [x287; x289; x291; x293; x295; x297; x299] + x4 * eval [b0; b1; b2; b3; b4; b5] + q * modulus.
Proof. exact (Bls12381Fp_Mul_row2 b0 b1 b2 b3 b4 b5 x4 x287 x289 x291 x293 x295 x297 x299). Qed.
Lemma Bls12381Fp_Mul_row5 b0 b1 b2 b3 b4 b5 x5 x364 x366 x368 x370 x372 x374 x376 :
  word b0 → word b1 → word b2 → word b3 → word b4 → word b5 → word x5 → word x364 → word x366 → word x368 → word x370 → word x372 → word x374 → 0 <= x376 <= 2 →
  let '(x441, x443, x445, x447, x449, x451, x453) := fiatFpMul_row5 [b0; b1; b2; b3; b4; b5] x5 x364 x366 x368 x370 x372 x374 x376 in
  word x441 ∧ word x443 ∧ word x445 ∧ word x447 ∧ word x449 ∧ word x451 ∧ 0 <= x453 <= 2 ∧
  ∃ q, word q ∧ W * eval [x441; x443; x445; x447; x449; x451; x453] = eval [x364; x366; x368; x370; x372; x374; x376] + x5 * eval [b0; b1; b2; b3; b4; b5] + q * modulus.
Proof. exact (Bls12381Fp_Mul_row2 b0 b1 b2 b3 b4 b5 x5 x364 x366 x368 x370 x372 x374 x376). Qed.
Lemma Bls12381Fp_Mul_ok a b : words 6 a → valid 6 modulus b →
  mont_product 6 modulus (eval a) (eval b) (fiatFpMul a b).
Proof.
  intros Ha [Hb Hlt].
  destruct (words_inv6 a Ha) as (a0 & a1 & a2 & a3 & a4 & a5 & -> & Ha0 & Ha1 & Ha2 & Ha3 & Ha4 & Ha5).
  destruct (words_inv6 b Hb) as (b0 & b1 & b2 & b3 & b4 & b5 & -> & Hb0 & Hb1 & Hb2 & Hb3 & Hb4 & Hb5).
  unfold fiatFpMul. cbn [nth]. cbv zeta.
  run_row (Bls12381Fp_Mul_row0 b0 b1 b2 b3 b4 b5 a0) into HRow0.
  destruct (fiatFpMul_row0 [b0; b1; b2; b3; b4; b5] a0) as [[[[[[x57 x59] x61] x63] x65] x67] x68].
  destruct HRow0 as (? & ? & ? & ? & ? & ? & ? & q0 & Hq0 & E0).
  pose proof (redc_step _ _ _ _ _ _ _ _ (redc_0 modulus (eval [b0; b1; b2; b3; b4; b5])) Hq0 E0) as HR0.
  run_row (Bls12381Fp_Mul_row1 b0 b1 b2 b3 b4 b5 a1 x57 x59 x61 x63 x65 x67 x68) into HRow1.
  destruct (fiatFpMul_row1 [b0; b1; b2; b3; b4; b5] a1 x57 x59 x61 x63 x65 x67 x68) as [[[[[[x133 x135] x137] x139] x141] x143] x145].
  destruct HRow1 as (? & ? & ? & ? & ? & ? & ? & q1 & Hq1 & E1).
  pose proof (redc_step _ _ _ _ _ _ _ _ HR0 Hq1 E1) as HR1.
  run_row (Bls12381Fp_Mul_row2 b0 b1 b2 b3 b4 b5 a2 x133 x135 x137 x139 x141 x143 x145) into HRow2.
  destruct (fiatFpMul_row2 [b0; b1; b2; b3; b4; b5] a2 x133 x135 x137 x139 x141 x143 x145) as [[[[[[x210 x212] x214] x216] x218] x220] x222].
  destruct HRow2 as (? & ? & ? & ? & ? & ? & ? & q2 & Hq2 & E2).
  pose proof (redc_step _ _ _ _ _ _ _ _ HR1 Hq2 E2) as HR2.
  run_row (Bls12381Fp_Mul_row3 b0 b1 b2 b3 b4 b5 a3 x210 x212 x214 x216 x218 x220 x222) into HRow3.
  destruct (fiatFpMul_row3 [b0; b1; b2; b3; b4; b5] a3 x210 x212 x214 x216 x218 x220 x222) as [[[[[[x287 x289] x291] x293] x295] x297] x299].
  destruct HRow3 as (? & ? & ? & ? & ? & ? & ? & q3 & Hq3 & E3).
  pose proof (redc_step _ _ _ _ _ _ _ _ HR2 Hq3 E3) as HR3.
  run_row (Bls12381Fp_Mul_row4 b0 b1 b2 b3 b4 b5 a4 x287 x289 x291 x293 x295 x297 x299) into HRow4.
  destruct (fiatFpMul_row4 [b0; b1; b2; b3; b4; b5] a4 x287 x289 x291 x293 x295 x297 x299) as [[[[[[x364 x366] x368] x370] x372] x374] x376].
  destruct HRow4 as (? & ? & ? & ? & ? & ? & ? & q4 & Hq4 & E4).
  pose proof (redc_step _ _ _ _ _ _ _ _ HR3 Hq4 E4) as HR4.
  run_row (Bls12381Fp_Mul_row5 b0 b1 b2 b3 b4 b5 a5 x364 x366 x368 x370 x372 x374 x376) into HRow5.
  destruct (fiatFpMul_row5 [b0; b1; b2; b3; b4; b5] a5 x364 x366 x368 x370 x372 x374 x376) as [[[[[[x441 x443] x445] x447] x449] x451] x453].
  destruct HRow5 as (? & ? & ? & ? & ? & ? & ? & q5 & Hq5 & E5).
  pose proof (redc_step _ _ _ _ _ _ _ _ HR4 Hq5 E5) as HR5.
  rewrite eval_rows6 in HR5.
  assert (0 <= eval [x441; x443; x445; x447; x449; x451; x453] < 2 * modulus) as HT.
  { apply (redc_bound _ _ _ _ _ HR5); [done|by apply eval_bound|split; [apply (eval_bound _ _ Hb)|lia]]. }
  apply (mont_product_intro _ _ 6 (eval [x441; x443; x445; x447; x449; x451; x453]) _ _); [done|exact HR5|].
  reduce_final Bls12381Fp_cmov_ok modulus.
Qed.
Lemma Bls12381Fp_Square_row0 b0 b1 b2 b3 b4 b5 x6 :
  word b0 → word b1 → word b2 → word b3 → word b4 → word b5 → word x6 →
  let '(x57, x59, x61, x63, x65, x67, x68) := fiatFpSquare_row0 [b0; b1; b2; b3; b4; b5] x6 in
  word x57 ∧ word x59 ∧ word x61 ∧ word x63 ∧ word x65 ∧ word x67 ∧ 0 <= x68 <= 1 ∧
  ∃ q, word q ∧ W * eval [x57; x59; x61; x63; x65; x67; x68] = 0 + x6 * eval [b0; b1; b2; b3; b4; b5] + q * modulus.
Proof. exact (Bls12381Fp_Mul_row0 b0 b1 b2 b3 b4 b5 x6). Qed.
Lemma Bls12381Fp_Square_row1 b0 b1 b2 b3 b4 b5 x1 x57 x59 x61 x63 x65 x67 x68 :
  word b0 → word b1 → word b2 → word b3 → word b4 → word b5 → word x1 → word x57 → word x59 → word x61 → word x63 → word x65 → word x67 → 0 <= x68 <= 1 →
  let '(x133, x135, x137, x139, x141, x143, x145) := fiatFpSquare_row1 [b0; b1; b2; b3; b4; b5] x1 x57 x59 x61 x63 x65 x67 x68 in
  word x133 ∧ word x135 ∧ word x137 ∧ word x139 ∧ word x141 ∧ word x143 ∧ 0 <= x145 <= 2 ∧
  ∃ q, word q ∧ W * eval [x133; x135; x137; x139; x141; x143; x145] = eval [x57; x59; x61; x63; x65; x67; x68] + x1 * eval [b0; b1; b2; b3; b4; b5] + q * modulus.
Proof. exact (Bls12381Fp_Mul_row1 b0 b1 b2 b3 b4 b5 x1 x57 x59 x61 x63 x65 x67 x68). Qed.
Lemma Bls12381Fp_Square_row2 b0 b1 b2 b3 b4 b5 x2 x133 x135 x137 x139 x141 x143 x145 :
  word b0 → word b1 → word b2 → word b3 → word b4 → word b5 → word x2 → word x133 → word x135 → word x137 → word x139 → word x141 → word x143 → 0 <= x145 <= 2 →
  let '(x210, x212, x214, x216, x218, x220, x222) := fiatFpSquare_row2 [b0; b1; b2; b3; b4; b5] x2 x133 x135 x137 x139 x141 x143 x145 in
  word x210 ∧ word x212 ∧ word x214 ∧ word x216 ∧ word x218 ∧ word x220 ∧ 0 <= x222 <= 2 ∧
  ∃ q, word q ∧ W * eval [x210; x212; x214; x216; x218; x220; x222] = eval [x133; x135; x137; x139; x141; x143; x145] + x2 * eval [b0; b1; b2; b3; b4; b5] + q * modulus.
Proof. exact (Bls12381Fp_Mul_row2 b0 b1 b2 b3 b4 b5 x2 x133 x135 x137 x139 x141 x143 x145). Qed.
Lemma Bls12381Fp_Square_row3 b0 b1 b2 b3 b4 b5 x3 x210 x212 x214 x216 x218 x220 x222 :
  word b0 → word b1 → word b2 → word b3 → word b4 → word b5 → word x3 → word x210 → word x212 → word x214 → word x216 → word x218 → word x220 → 0 <= x222 <= 2 →
  let '(x287, x289, x291, x293, x295, x297, x299) := fiatFpSquare_row3 [b0; b1; b2; b3; b4; b5] x3 x210 x212 x214 x216 x218 x220 x222 in
  word x287 ∧ word x289 ∧ word x291 ∧ word x293 ∧ word x295 ∧ word x297 ∧ 0 <= x299 <= 2 ∧
  ∃ q, word q ∧ W * eval [x287; x289; x291; x293; x295; x297; x299] = eval [x210; x212; x214; x216; x218; x220; x222] + x3 * eval [b0; b1; b2; b3; b4; b5] + q * modulus.
Proof. exact (Bls12381Fp_Mul_row2 b0 b1 b2 b3 b4 b5 x3 x210 x212 x214 x216 x218 x220 x222). Qed.
Lemma Bls12381Fp_Square_row4 b0 b1 b2 b3 b4 b5 x4 x287 x289 x291 x293 x295 x297 x299 :
  word b0 → word b1 → word b2 → word b3 → word b4 → word b5 → word x4 → word x287 → word x289 → word x291 → word x293 → word x295 → word x297 → 0 <= x299 <= 2 →
  let '(x364, x366, x368, x370, x372, x374, x376) := fiatFpSquare_row4 [b0; b1; b2; b3; b4; b5] x4 x287 x289 x291 x293 x295 x297 x299 in
  word x364 ∧ word x366 ∧ word x368 ∧ word x370 ∧ word x372 ∧ word x374 ∧ 0 <= x376 <= 2 ∧
  ∃ q, word q ∧ W * eval [x364; x366; x368; x370; x372; x374; x376] = eval [x287; x289; x291; x293; x295; x297; x299] + x4 * eval [b0; b1; b2; b3; b4; b5] + q * modulus.
Proof. exact (Bls12381Fp_Mul_row2 b0 b1 b2 b3 b4 b5 x4 x287 x289 x291 x293 x295 x297 x299). Qed.
Lemma Bls12381Fp_Square_row5 b0 b1 b2 b3 b4 b5 x5 x364 x366 x368 x370 x372 x374 x376 :
  word b0 → word b1 → word b2 → word b3 → word b4 → word b5 → word x5 → word x364 → word x366 → word x368 → word x370 → word x372 → word x374 → 0 <= x376 <= 2 →
  let '(x441, x443, x445, x447, x449, x451, x453) := fiatFpSquare_row5 [b0; b1; b2; b3; b4; b5] x5 x364 x366 x368 x370 x372 x374 x376 in
  word x441 ∧ word x443 ∧ word x445 ∧ word x447 ∧ word x449 ∧ word x451 ∧ 0 <= x453 <= 2 ∧
  ∃ q, word q ∧ W * eval [x441; x443; x445; x447; x449; x451; x453] = eval [x364; x366; x368; x370; x372; x374; x376] + x5 * eval [b0; b1; b2; b3; b4; b5] + q * modulus.
Proof. exact (Bls12381Fp_Mul_row2 b0 b1 b2 b3 b4 b5 x5 x364 x366 x368 x370 x372 x374 x376). Qed.
Lemma Bls12381Fp_Square_ok a : valid 6 modulus a →
  mont_product 6 modulus (eval a) (eval a) (fiatFpSquare a).
Proof.
  intros [Ha Hlt]. pose proof Ha as Hb.
  destruct (words_inv6 a Ha) as (a0 & a1 & a2 & a3 & a4 & a5 & -> & Ha0 & Ha1 & Ha2 & Ha3 & Ha4 & Ha5).
  unfold fiatFpSquare. cbn [nth]. cbv zeta.
  run_row (Bls12381Fp_Square_row0 a0 a1 a2 a3 a4 a5 a0) into HRow0.
  destruct (fiatFpSquare_row0 [a0; a1; a2; a3; a4; a5] a0) as [[[[[[x57 x59] x61] x63] x65] x67] x68].
  destruct HRow0 as (? & ? & ? & ? & ? & ? & ? & q0 & Hq0 & E0).
  pose proof (redc_step _ _ _ _ _ _ _ _ (redc_0 modulus (eval [a0; a1; a2; a3; a4; a5])) Hq0 E0) as HR0.
  run_row (Bls12381Fp_Square_row1 a0 a1 a2 a3 a4 a5 a1 x57 x59 x61 x63 x65 x67 x68) into HRow1.
  destruct (fiatFpSquare_row1 [a0; a1; a2; a3; a4; a5] a1 x57 x59 x61 x63 x65 x67 x68) as [[[[[[x133 x135] x137] x139] x141] x143] x145].
  destruct HRow1 as (? & ? & ? & ? & ? & ? & ? & q1 & Hq1 & E1).
  pose proof (redc_step _ _ _ _ _ _ _ _ HR0 Hq1 E1) as HR1.
  run_row (Bls12381Fp_Square_row2 a0 a1 a2 a3 a4 a5 a2 x133 x135 x137 x139 x141 x143 x145) into HRow2.
  destruct (fiatFpSquare_row2 [a0; a1; a2; a3; a4; a5] a2 x133 x135 x137 x139 x141 x143 x145) as [[[[[[x210 x212] x214] x216] x218] x220] x222].
  destruct HRow2 as (? & ? & ? & ? & ? & ? & ? & q2 & Hq2 & E2).
  pose proof (redc_step _ _ _ _ _ _ _ _ HR1 Hq2 E2) as HR2.
  run_row (Bls12381Fp_Square_row3 a0 a1 a2 a3 a4 a5 a3 x210 x212 x214 x216 x218 x220 x222) into HRow3.
  destruct (fiatFpSquare_row3 [a0; a1; a2; a3; a4; a5] a3 x210 x212 x214 x216 x218 x220 x222) as [[[[[[x287 x289] x291] x293] x295] x297] x299].
  destruct HRow3 as (? & ? & ? & ? & ? & ? & ? & q3 & Hq3 & E3).
  pose proof (redc_step _ _ _ _ _ _ _ _ HR2 Hq3 E3) as HR3.
  run_row (Bls12381Fp_Square_row4 a0 a1 a2 a3 a4 a5 a4 x287 x289 x291 x293 x295 x297 x299) into HRow4.
  destruct (fiatFpSquare_row4 [a0; a1; a2; a3; a4; a5] a4 x287 x289 x291 x293 x295 x297 x299) as [[[[[[x364 x366] x368] x370] x372] x374] x376].
  destruct HRow4 as (? & ? & ? & ? & ? & ? & ? & q4 & Hq4 & E4).
  pose proof (redc_step _ _ _ _ _ _ _ _ HR3 Hq4 E4) as HR4.
  run_row (Bls12381Fp_Square_row5 a0 a1 a2 a3 a4 a5 a5 x364 x366 x368 x370 x372 x374 x376) into HRow5.
  destruct (fiatFpSquare_row5 [a0; a1; a2; a3; a4; a5] a5 x364 x366 x368 x370 x372 x374 x376) as [[[[[[x441 x443] x445] x447] x449] x451] x453].
  destruct HRow5 as (? & ? & ? & ? & ? & ? & ? & q5 & Hq5 & E5).
  pose proof (redc_step _ _ _ _ _ _ _ _ HR4 Hq5 E5) as HR5.
  rewrite eval_rows6 in HR5.
  assert (0 <= eval [x441; x443; x445; x447; x449; x451; x453] < 2 * modulus) as HT.
  { apply (redc_bound _ _ _ _ _ HR5); [done|by apply eval_bound|split; [apply (eval_bound _ _ Hb)|lia]]. }
  apply (mont_product_intro _ _ 6 (eval [x441; x443; x445; x447; x449; x451; x453]) _ _); [done|exact HR5|].
  reduce_final Bls12381Fp_cmov_ok modulus.
Qed.
Lemma Bls12381Fp_FromMontgomery_row0 x1 :
  word x1 →
  let '(x5, x25, x28, x30, x32, x34, x36, x37) := fiatFpFromMontgomery_row0  x1 in
  0 <= x5 <= 1873798617647539866 ∧ 0 <= x25 <= 1 ∧ word x28 ∧ word x30 ∧ word x32 ∧ word x34 ∧ word x36 ∧ 0 <= x37 <= 1 ∧
  ∃ q, word q ∧ W * eval [x28; x30; x32; x34; x36; x5 + x25 + x37; 0] = 0 + x1 * 1 + q * modulus.
Proof. row_ok fiatFpFromMontgomery_row0 modulus. Qed.
Lemma Bls12381Fp_FromMontgomery_row1 a0 a1 a2 a3 a4 a5 x5 x25 x28 x30 x32 x34 x36 x37 :
  word a0 → word a1 → word a2 → word a3 → word a4 → word a5 → 0 <= x5 <= 1873798617647539866 → 0 <= x25 <= 1 → word x28 → word x30 → word x32 → word x34 → word x36 → 0 <= x37 <= 1 →
  let '(x51, x71, x74, x76, x78, x80, x82, x83) := fiatFpFromMontgomery_row1 [a0; a1; a2; a3; a4; a5] x5 x25 x28 x30 x32 x34 x36 x37 in
  0 <= x51 <= 1873798617647539866 ∧ 0 <= x71 <= 1 ∧ word x74 ∧ word x76 ∧ word x78 ∧ word x80 ∧ word x82 ∧ 0 <= x83 <= 1 ∧
  ∃ q, word q ∧ W * eval [x74; x76; x78; x80; x82; x51 + x71 + x83; 0] = eval [x28; x30; x32; x34; x36; x5 + x25 + x37; 0] + a1 * 1 + q * modulus.
Proof. row_ok fiatFpFromMontgomery_row1 modulus. Qed.
Lemma Bls12381Fp_FromMontgomery_row2 a0 a1 a2 a3 a4 a5 x51 x71 x74 x76 x78 x80 x82 x83 :
  word a0 → word a1 → word a2 → word a3 → word a4 → word a5 → 0 <= x51 <= 1873798617647539866 → 0 <= x71 <= 1 → word x74 → word x76 → word x78 → word x80 → word x82 → 0 <= x83 <= 1 →
  let '(x97, x117, x120, x122, x124, x126, x128, x129) := fiatFpFromMontgomery_row2 [a0; a1; a2; a3; a4; a5] x51 x71 x74 x76 x78 x80 x82 x83 in
  0 <= x97 <= 1873798617647539866 ∧ 0 <= x117 <= 1 ∧ word x120 ∧ word x122 ∧ word x124 ∧ word x126 ∧ word x128 ∧ 0 <= x129 <= 1 ∧
  ∃ q, word q ∧ W * eval [x120; x122; x124; x126; x128; x97 + x117 + x129; 0] = eval [x74; x76; x78; x80; x82; x51 + x71 + x83; 0] + a2 * 1 + q * modulus.
Proof. row_ok fiatFpFromMontgomery_row2 modulus. Qed.
Lemma Bls12381Fp_FromMontgomery_row3 a0 a1 a2 a3 a4 a5 x97 x117 x120 x122 x124 x126 x128 x129 :
  word a0 → word a1 → word a2 → word a3 → word a4 → word a5 → 0 <= x97 <= 1873798617647539866 → 0 <= x117 <= 1 → word x120 → word x122 → word x124 → word x126 → word x128 → 0 <= x129 <= 1 →
  let '(x143, x163, x166, x168, x170, x172, x174, x175) := fiatFpFromMontgomery_row3 [a0; a1; a2; a3; a4; a5] x97 x117 x120 x122 x124 x126 x128 x129 in
  0 <= x143 <= 1873798617647539866 ∧ 0 <= x163 <= 1 ∧ word x166 ∧ word x168 ∧ word x170 ∧ word x172 ∧ word x174 ∧ 0 <= x175 <= 1 ∧
  ∃ q, word q ∧ W * eval [x166; x168; x170; x172; x174; x143 + x163 + x175; 0] = eval [x120; x122; x124; x126; x128; x97 + x117 + x129; 0] + a3 * 1 + q * modulus.
Proof. row_ok fiatFpFromMontgomery_row3 modulus. Qed.
Lemma Bls12381Fp_FromMontgomery_row4 a0 a1 a2 a3 a4 a5 x143 x163 x166 x168 x170 x172 x174 x175 :
  word a0 → word a1 → word a2 → word a3 → word a4 → word a5 → 0 <= x143 <= 1873798617647539866 → 0 <= x163 <= 1 → word x166 → word x168 → word x170 → word x172 → word x174 → 0 <= x175 <= 1 →
  let '(x189, x209, x212, x214, x216, x218, x220, x221) := fiatFpFromMontgomery_row4 [a0; a1; a2; a3; a4; a5] x143 x163 x166 x168 x170 x172 x174 x175 in
  0 <= x189 <= 1873798617647539866 ∧ 0 <= x209 <= 1 ∧ word x212 ∧ word x214 ∧ word x216 ∧ word x218 ∧ word x220 ∧ 0 <= x221 <= 1 ∧
  ∃ q, word q ∧ W * eval [x212; x214; x216; x218; x220; x189 + x209 + x221; 0] = eval [x166; x168; x170; x172; x174; x143 + x163 + x175; 0] + a4 * 1 + q * modulus.
Proof. row_ok fiatFpFromMontgomery_row4 modulus. Qed.
Lemma Bls12381Fp_FromMontgomery_row5 a0 a1 a2 a3 a4 a5 x189 x209 x212 x214 x216 x218 x220 x221 :
  word a0 → word a1 → word a2 → word a3 → word a4 → word a5 → 0 <= x189 <= 1873798617647539866 → 0 <= x209 <= 1 → word x212 → word x214 → word x216 → word x218 → word x220 → 0 <= x221 <= 1 →
  let '(x258, x260, x262, x264, x266, x268) := fiatFpFromMontgomery_row5 [a0; a1; a2; a3; a4; a5] x189 x209 x212 x214 x216 x218 x220 x221 in
  word x258 ∧ word x260 ∧ word x262 ∧ word x264 ∧ word x266 ∧ 0 <= x268 <= 1873798617647539868 ∧
  ∃ q, word q ∧ W * eval [x258; x260; x262; x264; x266; x268; 0] = eval [x212; x214; x216; x218; x220; x189 + x209 + x221; 0] + a5 * 1 + q * modulus.
Proof. row_ok fiatFpFromMontgomery_row5 modulus. Qed.
Lemma Bls12381Fp_FromMontgomery_ok a : words 6 a →
  mont_product 6 modulus (eval a) 1 (fiatFpFromMontgomery a).
Proof.
  intros Ha.
  destruct (words_inv6 a Ha) as (a0 & a1 & a2 & a3 & a4 & a5 & -> & Ha0 & Ha1 & Ha2 & Ha3 & Ha4 & Ha5).
  unfold fiatFpFromMontgomery. cbn [nth]. cbv zeta.
  run_row (Bls12381Fp_FromMontgomery_row0 a0) into HRow0.
  destruct (fiatFpFromMontgomery_row0 a0) as [[[[[[[x5 x25] x28] x30] x32] x34] x36] x37].
  destruct HRow0 as (? & ? & ? & ? & ? & ? & ? & ? & q0 & Hq0 & E0).
  pose proof (redc_step _ _ _ _ _ _ _ _ (redc_0 modulus (1)) Hq0 E0) as HR0.
  run_row (Bls12381Fp_FromMontgomery_row1 a0 a1 a2 a3 a4 a5 x5 x25 x28 x30 x32 x34 x36 x37) into HRow1.
  destruct (fiatFpFromMontgomery_row1 [a0; a1; a2; a3; a4; a5] x5 x25 x28 x30 x32 x34 x36 x37) as [[[[[[[x51 x71] x74] x76] x78] x80] x82] x83].
  destruct HRow1 as (? & ? & ? & ? & ? & ? & ? & ? & q1 & Hq1 & E1).
  pose proof (redc_step _ _ _ _ _ _ _ _ HR0 Hq1 E1) as HR1.
  run_row (Bls12381Fp_FromMontgomery_row2 a0 a1 a2 a3 a4 a5 x51 x71 x74 x76 x78 x80 x82 x83) into HRow2.
  destruct (fiatFpFromMontgomery_row2 [a0; a1; a2; a3; a4; a5] x51 x71 x74 x76 x78 x80 x82 x83) as [[[[[[[x97 x117] x120] x122] x124] x126] x128] x129].
  destruct HRow2 as (? & ? & ? & ? & ? & ? & ? & ? & q2 & Hq2 & E2).
  pose proof (redc_step _ _ _ _ _ _ _ _ HR1 Hq2 E2) as HR2.
  run_row (Bls12381Fp_FromMontgomery_row3 a0 a1 a2 a3 a4 a5 x97 x117 x120 x122 x124 x126 x128 x129) into HRow3.
  destruct (fiatFpFromMontgomery_row3 [a0; a1; a2; a3; a4; a5] x97 x117 x120 x122 x124 x126 x128 x129) as [[[[[[[x143 x163] x166] x168] x170] x172] x174] x175].
  destruct HRow3 as (? & ? & ? & ? & ? & ? & ? & ? & q3 & Hq3 & E3).
  pose proof (redc_step _ _ _ _ _ _ _ _ HR2 Hq3 E3) as HR3.
  run_row (Bls12381Fp_FromMontgomery_row4 a0 a1 a2 a3 a4 a5 x143 x163 x166 x168 x170 x172 x174 x175) into HRow4.
  destruct (fiatFpFromMontgomery_row4 [a0; a1; a2; a3; a4; a5] x143 x163 x166 x168 x170 x172 x174 x175) as [[[[[[[x189 x209] x212] x214] x216] x218] x220] x221].
  destruct HRow4 as (? & ? & ? & ? & ? & ? & ? & ? & q4 & Hq4 & E4).
  pose proof (redc_step _ _ _ _ _ _ _ _ HR3 Hq4 E4) as HR4.
  run_row (Bls12381Fp_FromMontgomery_row5 a0 a1 a2 a3 a4 a5 x189 x209 x212 x214 x216 x218 x220 x221) into HRow5.
  destruct (fiatFpFromMontgomery_row5 [a0; a1; a2; a3; a4; a5] x189 x209 x212 x214 x216 x218 x220 x221) as [[[[[x258 x260] x262] x264] x266] x268].
  destruct HRow5 as (? & ? & ? & ? & ? & ? & q5 & Hq5 & E5).
  pose proof (redc_step _ _ _ _ _ _ _ _ HR4 Hq5 E5) as HR5.
  rewrite eval_rows6 in HR5.
  assert (0 <= eval [x258; x260; x262; x264; x266; x268; 0] < 2 * modulus) as HT.
  { apply (redc_bound _ _ _ _ _ HR5); [done|by apply eval_bound|done]. }
  apply (mont_product_intro _ _ 6 (eval [x258; x260; x262; x264; x266; x268; 0]) _ _); [done|exact HR5|].
  reduce_final Bls12381Fp_cmov_ok modulus.
Qed.
Lemma Bls12381Fp_ToMontgomery_row0 x6 :
  word x6 →
  let '(x8, x28, x32, x52, x55, x57, x59, x61, x63, x64) := fiatFpToMontgomery_row0  x6 in
  0 <= x8 <= 1267921511277847466 ∧ 0 <= x28 <= 1 ∧ 0 <= x32 <= 1873798617647539866 ∧ 0 <= x52 <= 1 ∧ word x55 ∧ word x57 ∧ word x59 ∧ word x61 ∧ word x63 ∧ 0 <= x64 <= 1 ∧
  ∃ q, word q ∧ W * eval [x55; x57; x59; x61; x63; x8 + x28 + x32 + x52 + x64; 0] = 0 + x6 * R2 + q * modulus.
Proof. unfold R2. row_ok fiatFpToMontgomery_row0 modulus. Qed.
Lemma Bls12381Fp_ToMontgomery_row1 x1 x8 x28 x32 x52 x55 x57 x59 x61 x63 x64 :
  word x1 → 0 <= x8 <= 1267921511277847466 → 0 <= x28 <= 1 → 0 <= x32 <= 1873798617647539866 → 0 <= x52 <= 1 → word x55 → word x57 → word x59 → word x61 → word x63 → 0 <= x64 <= 1 →
  let '(x66, x86, x98, x102, x122, x125, x127, x129, x131, x133, x134) := fiatFpToMontgomery_row1  x1 x8 x28 x32 x52 x55 x57 x59 x61 x63 x64 in
  0 <= x66 <= 1267921511277847466 ∧ 0 <= x86 <= 1 ∧ 0 <= x98 <= 1 ∧ 0 <= x102 <= 1873798617647539866 ∧ 0 <= x122 <= 1 ∧ word x125 ∧ word x127 ∧ word x129 ∧ word x131 ∧ word x133 ∧ 0 <= x134 <= 1 ∧
  ∃ q, word q ∧ W * eval [x125; x127; x129; x131; x133; x66 + x86 + x98 + x102 + x122 + x134; 0] = eval [x55; x57; x59; x61; x63; x8 + x28 + x32 + x52 + x64; 0] + x1 * R2 + q * modulus.
Proof. unfold R2. row_ok fiatFpToMontgomery_row1 modulus. Qed.
Lemma Bls12381Fp_ToMontgomery_row2 x2 x66 x86 x98 x102 x122 x125 x127 x129 x131 x133 x134 :
  word x2 → 0 <= x66 <= 1267921511277847466 → 0 <= x86 <= 1 → 0 <= x98 <= 1 → 0 <= x102 <= 1873798617647539866 → 0 <= x122 <= 1 → word x125 → word x127 → word x129 → word x131 → word x133 → 0 <= x134 <= 1 →
  let '(x136, x156, x168, x172, x192, x195, x197, x199, x201, x203, x204) := fiatFpToMontgomery_row2  x2 x66 x86 x98 x102 x122 x125 x127 x129 x131 x133 x134 in
  0 <= x136 <= 1267921511277847466 ∧ 0 <= x156 <= 1 ∧ 0 <= x168 <= 1 ∧ 0 <= x172 <= 1873798617647539866 ∧ 0 <= x192 <= 1 ∧ word x195 ∧ word x197 ∧ word x199 ∧ word x201 ∧ word x203 ∧ 0 <= x204 <= 1 ∧
  ∃ q, word q ∧ W * eval [x195; x197; x199; x201; x203; x136 + x156 + x168 + x172 + x192 + x204; 0] = eval [x125; x127; x129; x131; x133; x66 + x86 + x98 + x102 + x122 + x134; 0] + x2 * R2 + q * modulus.
Proof. unfold R2. row_ok fiatFpToMontgomery_row2 modulus. Qed.
Lemma Bls12381Fp_ToMontgomery_row3 x3 x136 x156 x168 x172 x192 x195 x197 x199 x201 x203 x204 :
  word x3 → 0 <= x136 <= 1267921511277847466 → 0 <= x156 <= 1 → 0 <= x168 <= 1 → 0 <= x172 <= 1873798617647539866 → 0 <= x192 <= 1 → word x195 → word x197 → word x199 → word x201 → word x203 → 0 <= x204 <= 1 →
  let '(x206, x226, x238, x242, x262, x265, x267, x269, x271, x273, x274) := fiatFpToMontgomery_row3  x3 x136 x156 x168 x172 x192 x195 x197 x199 x201 x203 x204 in
  0 <= x206 <= 1267921511277847466 ∧ 0 <= x226 <= 1 ∧ 0 <= x238 <= 1 ∧ 0 <= x242 <= 1873798617647539866 ∧ 0 <= x262 <= 1 ∧ word x265 ∧ word x267 ∧ word x269 ∧ word x271 ∧ word x273 ∧ 0 <= x274 <= 1 ∧
  ∃ q, word q ∧ W * eval [x265; x267; x269; x271; x273; x206 + x226 + x238 + x242 + x262 + x274; 0] = eval [x195; x197; x199; x201; x203; x136 + x156 + x168 + x172 + x192 + x204; 0] + x3 * R2 + q * modulus.
Proof. exact (Bls12381Fp_ToMontgomery_row2 x3 x136 x156 x168 x172 x192 x195 x197 x199 x201 x203 x204). Qed.
Lemma Bls12381Fp_ToMontgomery_row4 x4 x206 x226 x238 x242 x262 x265 x267 x269 x271 x273 x274 :
  word x4 → 0 <= x206 <= 1267921511277847466 → 0 <= x226 <= 1 → 0 <= x238 <= 1 → 0 <= x242 <= 1873798617647539866 → 0 <= x262 <= 1 → word x265 → word x267 → word x269 → word x271 → word x273 → 0 <= x274 <= 1 →
  let '(x276, x296, x308, x312, x332, x335, x337, x339, x341, x343, x344) := fiatFpToMontgomery_row4  x4 x206 x226 x238 x242 x262 x265 x267 x269 x271 x273 x274 in
  0 <= x276 <= 1267921511277847466 ∧ 0 <= x296 <= 1 ∧ 0 <= x308 <= 1 ∧ 0 <= x312 <= 1873798617647539866 ∧ 0 <= x332 <= 1 ∧ word x335 ∧ word x337 ∧ word x339 ∧ word x341 ∧ word x343 ∧ 0 <= x344 <= 1 ∧
  ∃ q, word q ∧ W * eval [x335; x337; x339; x341; x343; x276 + x296 + x308 + x312 + x332 + x344; 0] = eval [x265; x267; x269; x271; x273; x206 + x226 + x238 + x242 + x262 + x274; 0] + x4 * R2 + q * modulus.
Proof. exact (Bls12381Fp_ToMontgomery_row2 x4 x206 x226 x238 x242 x262 x265 x267 x269 x271 x273 x274). Qed.
Lemma Bls12381Fp_ToMontgomery_row5 x5 x276 x296 x308 x312 x332 x335 x337 x339 x341 x343 x344 :
  word x5 → 0 <= x276 <= 1267921511277847466 → 0 <= x296 <= 1 → 0 <= x308 <= 1 → 0 <= x312 <= 1873798617647539866 → 0 <= x332 <= 1 → word x335 → word x337 → word x339 → word x341 → word x343 → 0 <= x344 <= 1 →
  let '(x405, x407, x409, x411, x413, x415) := fiatFpToMontgomery_row5  x5 x276 x296 x308 x312 x332 x335 x337 x339 x341 x343 x344 in
  word x405 ∧ word x407 ∧ word x409 ∧ word x411 ∧ word x413 ∧ 0 <= x415 <= 3141720128925387336 ∧
  ∃ q, word q ∧ W * eval [x405; x407; x409; x411; x413; x415; 0] = eval [x335; x337; x339; x341; x343; x276 + x296 + x308 + x312 + x332 + x344; 0] + x5 * R2 + q * modulus.
Proof. unfold R2. row_ok fiatFpToMontgomery_row5 modulus. Qed.
Lemma Bls12381Fp_ToMontgomery_ok a : words 6 a →
  mont_product 6 modulus (eval a) R2 (fiatFpToMontgomery a).
Proof.
  intros Ha.
  destruct (words_inv6 a Ha) as (a0 & a1 & a2 & a3 & a4 & a5 & -> & Ha0 & Ha1 & Ha2 & Ha3 & Ha4 & Ha5).
  unfold fiatFpToMontgomery. cbn [nth]. cbv zeta.
  run_row (Bls12381Fp_ToMontgomery_row0 a0) into HRow0.
  destruct (fiatFpToMontgomery_row0 a0) as [[[[[[[[[x8 x28] x32] x52] x55] x57] x59] x61] x63] x64].
  destruct HRow0 as (? & ? & ? & ? & ? & ? & ? & ? & ? & ? & q0 & Hq0 & E0).
  pose proof (redc_step _ _ _ _ _ _ _ _ (redc_0 modulus (R2)) Hq0 E0) as HR0.
  run_row (Bls12381Fp_ToMontgomery_row1 a1 x8 x28 x32 x52 x55 x57 x59 x61 x63 x64) into HRow1.
  destruct (fiatFpToMontgomery_row1 a1 x8 x28 x32 x52 x55 x57 x59 x61 x63 x64) as [[[[[[[[[[x66 x86] x98] x102] x122] x125] x127] x129] x131] x133] x134].
  destruct HRow1 as (? & ? & ? & ? & ? & ? & ? & ? & ? & ? & ? & q1 & Hq1 & E1).
  pose proof (redc_step _ _ _ _ _ _ _ _ HR0 Hq1 E1) as HR1.
  run_row (Bls12381Fp_ToMontgomery_row2 a2 x66 x86 x98 x102 x122 x125 x127 x129 x131 x133 x134) into HRow2.
  destruct (fiatFpToMontgomery_row2 a2 x66 x86 x98 x102 x122 x125 x127 x129 x131 x133 x134) as [[[[[[[[[[x136 x156] x168] x172] x192] x195] x197] x199] x201] x203] x204].
  destruct HRow2 as (? & ? & ? & ? & ? & ? & ? & ? & ? & ? & ? & q2 & Hq2 & E2).
  pose proof (redc_step _ _ _ _ _ _ _ _ HR1 Hq2 E2) as HR2.
  run_row (Bls12381Fp_ToMontgomery_row3 a3 x136 x156 x168 x172 x192 x195 x197 x199 x201 x203 x204) into HRow3.
  destruct (fiatFpToMontgomery_row3 a3 x136 x156 x168 x172 x192 x195 x197 x199 x201 x203 x204) as [[[[[[[[[[x206 x226] x238] x242] x262] x265] x267] x269] x271] x273] x274].
  destruct HRow3 as (? & ? & ? & ? & ? & ? & ? & ? & ? & ? & ? & q3 & Hq3 & E3).
  pose proof (redc_step _ _ _ _ _ _ _ _ HR2 Hq3 E3) as HR3.
  run_row (Bls12381Fp_ToMontgomery_row4 a4 x206 x226 x238 x242 x262 x265 x267 x269 x271 x273 x274) into HRow4.
  destruct (fiatFpToMontgomery_row4 a4 x206 x226 x238 x242 x262 x265 x267 x269 x271 x273 x274) as [[[[[[[[[[x276 x296] x308] x312] x332] x335] x337] x339] x341] x343] x344].
  destruct HRow4 as (? & ? & ? & ? & ? & ? & ? & ? & ? & ? & ? & q4 & Hq4 & E4).
  pose proof (redc_step _ _ _ _ _ _ _ _ HR3 Hq4 E4) as HR4.
  run_row (Bls12381Fp_ToMontgomery_row5 a5 x276 x296 x308 x312 x332 x335 x337 x339 x341 x343 x344) into HRow5.
  destruct (fiatFpToMontgomery_row5 a5 x276 x296 x308 x312 x332 x335 x337 x339 x341 x343 x344) as [[[[[x405 x407] x409] x411] x413] x415].
  destruct HRow5 as (? & ? & ? & ? & ? & ? & q5 & Hq5 & E5).
  pose proof (redc_step _ _ _ _ _ _ _ _ HR4 Hq5 E5) as HR5.
  rewrite eval_rows6 in HR5.
  assert (0 <= eval [x405; x407; x409; x411; x413; x415; 0] < 2 * modulus) as HT.
  { apply (redc_bound _ _ _ _ _ HR5); [done|by apply eval_bound|done]. }
  apply (mont_product_intro _ _ 6 (eval [x405; x407; x409; x411; x413; x415; 0]) _ _); [done|exact HR5|].
  reduce_final Bls12381Fp_cmov_ok modulus.
Qed.

Lemma Bls12381Fp_Add_ok a b : valid 6 modulus a → valid 6 modulus b →
  valid 6 modulus (fiatFpAdd a b) ∧ eval (fiatFpAdd a b) = (eval a + eval b) mod modulus.
Proof.
  intros [Ha Hal] [Hb Hbl].
  assert (0 <= eval a + eval b < 2 * modulus) as HT.
  { pose proof (eval_bound _ _ Ha). pose proof (eval_bound _ _ Hb). lia. }
  destruct (words_inv6 a Ha) as (a0 & a1 & a2 & a3 & a4 & a5 & -> & Ha0 & Ha1 & Ha2 & Ha3 & Ha4 & Ha5).
  destruct (words_inv6 b Hb) as (b0 & b1 & b2 & b3 & b4 & b5 & -> & Hb0 & Hb1 & Hb2 & Hb3 & Hb4 & Hb5).
  unfold fiatFpAdd. cbn [nth]. cbv zeta. clear Hal Hbl.
  add_final Bls12381Fp_cmov_ok modulus.
Qed.
Lemma Bls12381Fp_Sub_ok a b : valid 6 modulus a → valid 6 modulus b →
  valid 6 modulus (fiatFpSub a b) ∧ eval (fiatFpSub a b) = (eval a - eval b) mod modulus.
Proof.
  intros [Ha Hal] [Hb Hbl]. pose proof (conj (proj1 (eval_bound _ _ Ha)) Hal) as HA. pose proof (conj (proj1 (eval_bound _ _ Hb)) Hbl) as HB.
  destruct (words_inv6 a Ha) as (a0 & a1 & a2 & a3 & a4 & a5 & -> & Ha0 & Ha1 & Ha2 & Ha3 & Ha4 & Ha5).
  destruct (words_inv6 b Hb) as (b0 & b1 & b2 & b3 & b4 & b5 & -> & Hb0 & Hb1 & Hb2 & Hb3 & Hb4 & Hb5).
  unfold fiatFpSub. cbn [nth]. cbv zeta. clear Hal Hbl. do 6 word_step.
  sub_final Bls12381Fp_cmov_ok modulus [s; s0; s1; s2; s3; s4] d4.
Qed.
Lemma Bls12381Fp_Opp_ok a : valid 6 modulus a →
  valid 6 modulus (fiatFpOpp a) ∧ eval (fiatFpOpp a) = (- eval a) mod modulus.
Proof.
  intros [Ha Hal]. pose proof (conj (proj1 (eval_bound _ _ Ha)) Hal) as HB. assert (0 <= 0 < modulus) as HA by done.
  destruct (words_inv6 a Ha) as (a0 & a1 & a2 & a3 & a4 & a5 & -> & Ha0 & Ha1 & Ha2 & Ha3 & Ha4 & Ha5).
  rewrite <-(Z.sub_0_l (eval _)). unfold fiatFpOpp. cbn [nth]. cbv zeta. clear Hal. do 6 word_step.
  sub_final Bls12381Fp_cmov_ok modulus [s; s0; s1; s2; s3; s4] d4.
Qed.
Lemma Bls12381Fp_Nonzero_ok a : words 6 a → word (fiatFpNonzero a) ∧ (fiatFpNonzero a = 0 ↔ eval a = 0).
Proof.
  intros Ha. pose proof (eval_zero a (proj2 Ha)) as Hz.
  destruct (words_inv6 a Ha) as (a0 & a1 & a2 & a3 & a4 & a5 & -> & Ha0 & Ha1 & Ha2 & Ha3 & Ha4 & Ha5).
  rewrite Hz. unfold fiatFpNonzero. cbn [nth]. cbv zeta. split; [repeat (apply word_lor; [assumption|]); assumption|].
  rewrite !Forall_cons, !Z.lor_eq_0_iff. naive_solver.
Qed.
Lemma Bls12381Fp_Selectznz_ok c a b : 0 <= c <= 1 → words 6 a → words 6 b →
  fiatFpSelectznz c a b = if c =? 0 then a else b.
Proof.
  intros Hc Ha Hb.
  destruct (words_inv6 a Ha) as (a0 & a1 & a2 & a3 & a4 & a5 & -> & Ha0 & Ha1 & Ha2 & Ha3 & Ha4 & Ha5).
  destruct (words_inv6 b Hb) as (b0 & b1 & b2 & b3 & b4 & b5 & -> & Hb0 & Hb1 & Hb2 & Hb3 & Hb4 & Hb5).
  unfold fiatFpSelectznz. cbn [nth]. cbv zeta. rewrite !Bls12381Fp_cmov_ok by assumption. by destruct (c =? 0).
Qed.
Lemma Bls12381Fp_ToBytes_ok a : words 6 a → fiatFpToBytes a = a ≫= word_bytes.
Proof. intros Ha.  destruct (words_inv6 a Ha) as (a0 & a1 & a2 & a3 & a4 & a5 & -> & Ha0 & Ha1 & Ha2 & Ha3 & Ha4 & Ha5). reflexivity. Qed.
Lemma Bls12381Fp_FromBytes_ok b : length b = 48%nat → fiatFpFromBytes b = le_words 6 b.
Proof. intros Hb. do 48 (destruct b as [|? b]; [discriminate|]). destruct b; [reflexivity|discriminate]. Qed.
Lemma Bls12381Fp_SetOne_ok : valid 6 modulus fiatFpSetOne ∧ eval fiatFpSetOne = W ^ 6 mod modulus.
Proof. unfold valid. cbn [fiatFpSetOne]. split; [split; [words_list|]|]; cbn [eval foldr fiatFpSetOne]; rewrite W_val; vm_compute; reflexivity. Qed.
Lemma Bls12381Fp_Msat_ok : words 7 fiatFpMsat ∧ eval fiatFpMsat = modulus.
Proof. split; [words_list|cbn [eval foldr fiatFpMsat]; rewrite W_val; vm_compute; reflexivity]. Qed.

Lemma Bls12381Fp_Divstep_select dw f0 f1 f2 f3 f4 f5 f6 g0 g1 g2 g3 g4 g5 g6 v0 v1 v2 v3 v4 v5 r0 r1 r2 r3 r4 r5 :
  word dw → words 7 [f0; f1; f2; f3; f4; f5; f6] → words 7 [g0; g1; g2; g3; g4; g5; g6] → valid 6 modulus [v0; v1; v2; v3; v4; v5] → valid 6 modulus [r0; r1; r2; r3; r4; r5] →
  - 2 ^ 62 < signed64 dw < 2 ^ 62 →
  let b := (0 <? signed64 dw) && Z.odd g0 in
  let '(x3, x6, x7, x8, x9, x10, x11, x12, x13, x28, x29, x30, x31, x32, x33, x34, x35, x36, x37, x38, x39, x40, x41, x43, x45, x47, x49, x51, x53, x55, x57, x59, x61, x63, x66) := fiatFpDivstep_select dw [f0; f1; f2; f3; f4; f5; f6] [g0; g1; g2; g3; g4; g5; g6] [v0; v1; v2; v3; v4; v5] [r0; r1; r2; r3; r4; r5] in
  x3 = Z.b2z b ∧ (word x6 ∧ signed64 x6 = if b then - signed64 dw else signed64 dw) ∧
  [x7; x8; x9; x10; x11; x12; x13] = (if b then [g0; g1; g2; g3; g4; g5; g6] else [f0; f1; f2; f3; f4; f5; f6]) ∧ words 7 [x28; x29; x30; x31; x32; x33; x34] ∧
  (∃ k, eval [x28; x29; x30; x31; x32; x33; x34] = (if b then - eval [f0; f1; f2; f3; f4; f5; f6] else eval [g0; g1; g2; g3; g4; g5; g6]) + k * W ^ Z.of_nat 7) ∧
  [x35; x36; x37; x38; x39; x40] = (if b then [r0; r1; r2; r3; r4; r5] else [v0; v1; v2; v3; v4; v5]) ∧ words 6 [x41; x43; x45; x47; x49; x51] ∧ words 6 [x53; x55; x57; x59; x61; x63] ∧ 0 <= x66 <= 1 ∧
  valid 6 modulus (if x66 =? 0 then [x53; x55; x57; x59; x61; x63] else [x41; x43; x45; x47; x49; x51]) ∧
  eval (if x66 =? 0 then [x53; x55; x57; x59; x61; x63] else [x41; x43; x45; x47; x49; x51]) = (2 * eval [x35; x36; x37; x38; x39; x40]) mod modulus.
Proof. divstep_select_ok fiatFpDivstep_select Bls12381Fp_cmov_ok modulus. Qed.
Lemma Bls12381Fp_Divstep_negate_ok v : fiatFpDivstep_negate v = fiatFpOpp v.
Proof. reflexivity. Qed.
Lemma Bls12381Fp_Divstep_ok dw F G V R st : represents 6 modulus (dw, F, G, V, R) st → step_range modulus st →
  represents 6 modulus (fiatFpDivstep dw F G V R) (divstep modulus st).
Proof.
  destruct st as [[[[d f] g] v] r]. intros Hrep Hrange. pose proof Hrep as (Hdw & Hd & [HF Ef] & [HG Eg] & [HV Ev] & [HR Er]). pose proof (proj1 Hrange) as Hdr.
  destruct (Bls12381Fp_Opp_ok V HV) as [Hneg En]. pose proof (proj1 Hneg) as Hn. rewrite Ev in En. subst d. unfold fiatFpDivstep. rewrite Bls12381Fp_Divstep_negate_ok. set (neg := fiatFpOpp V) in *. clearbody neg.
  destruct (words_inv7 F HF) as (f0 & f1 & f2 & f3 & f4 & f5 & f6 & -> & Hf0 & Hf1 & Hf2 & Hf3 & Hf4 & Hf5 & Hf6).
  destruct (words_inv7 G HG) as (g0 & g1 & g2 & g3 & g4 & g5 & g6 & -> & Hg0 & Hg1 & Hg2 & Hg3 & Hg4 & Hg5 & Hg6).
  destruct (words_inv6 V (proj1 HV)) as (v0 & v1 & v2 & v3 & v4 & v5 & -> & Hv0 & Hv1 & Hv2 & Hv3 & Hv4 & Hv5).
  destruct (words_inv6 R (proj1 HR)) as (r0 & r1 & r2 & r3 & r4 & r5 & -> & Hr0 & Hr1 & Hr2 & Hr3 & Hr4 & Hr5).
  destruct (words_inv6 neg Hn) as (n0 & n1 & n2 & n3 & n4 & n5 & -> & Hn0 & Hn1 & Hn2 & Hn3 & Hn4 & Hn5).
  pose proof (Bls12381Fp_Divstep_select dw f0 f1 f2 f3 f4 f5 f6 g0 g1 g2 g3 g4 g5 g6 v0 v1 v2 v3 v4 v5 r0 r1 r2 r3 r4 r5 Hdw HF HG HV HR Hdr) as Hsel.
  cbv zeta in Hsel |- *. destruct (fiatFpDivstep_select _ _ _ _ _) as [[[[[[[[[[[[[[[[[[[[[[[[[[[[[[[[[[x3 x6] x7] x8] x9] x10] x11] x12] x13] x28] x29] x30] x31] x32] x33] x34] x35] x36] x37] x38] x39] x40] x41] x43] x45] x47] x49] x51] x53] x55] x57] x59] x61] x63] x66].
  destruct Hsel as (-> & [Hx6 Ex6] & HFF & HGG & [kG EG] & HVV & Hdbl & Hsub & Hc & HVd & EVd).
  divstep_ok fiatFpCmovznzU64 Bls12381Fp_cmov_ok modulus 6%nat dw g0 [x7; x8; x9; x10; x11; x12; x13] [x28; x29; x30; x31; x32; x33; x34] [x35; x36; x37; x38; x39; x40] [x41; x43; x45; x47; x49; x51] [x53; x55; x57; x59; x61; x63] [r0; r1; r2; r3; r4; r5] [n0; n1; n2; n3; n4; n5].
  divstep_final Bls12381Fp_cmov_ok modulus dw g Hrep Hrange [x7; x8; x9; x10; x11; x12; x13] [x35; x36; x37; x38; x39; x40] [x28; x29; x30; x31; x32; x33; x34] [n0; n1; n2; n3; n4; n5] HV HR Hneg En Eb Eg.
Qed.
#[export] Instance Bls12381Fp_field : FiatField fiat.
Proof.
  fiat_field fiat.
  - reflexivity.
  - done.
  - rewrite W_val. split; vm_compute; reflexivity.
  - reflexivity.
  - intros a b [Ha _]. by apply Bls12381Fp_Mul_ok.
  - exact Bls12381Fp_Square_ok.
  - exact Bls12381Fp_Add_ok.
  - exact Bls12381Fp_Sub_ok.
  - exact Bls12381Fp_Opp_ok.
  - exact Bls12381Fp_FromMontgomery_ok.
  - intros a Ha. assert ((W ^ Z.of_nat 6) ^ 2 mod modulus = R2) as -> by (rewrite W_val; vm_compute; reflexivity).
    by apply Bls12381Fp_ToMontgomery_ok.
  - exact Bls12381Fp_Nonzero_ok.
  - exact Bls12381Fp_Selectznz_ok.
  - exact Bls12381Fp_ToBytes_ok.
  - exact Bls12381Fp_FromBytes_ok.
  - exact Bls12381Fp_SetOne_ok.
  - exact Bls12381Fp_Msat_ok.
  - fiat_precomp fiatFpDivstepPrecomp.
  - exact Bls12381Fp_Divstep_ok.
Qed.
End Bls12381Fp.
