(* ===== verification/FieldImpl.v ===== *)
(** * Prime field elements (base/curves/*/impl/f[pq].gen.go)

    The wrapper around a generated field, which is the same text for every
    field of the curves: an element is the limbs of its Montgomery form, and
    the methods call the generated functions of the file [Fiat].  The class
    [FiatField] is all the theorems use of those.  Every method is shown to
    act on the number an element represents. *)

From Stdlib Require Import ZArith Lia Znumtheory Zpow_facts.
From S2P Require Import Prelude Fiat.
Local Open Scope Z_scope.

Module FieldImpl.
Section element.
Context (F : Fiat).

Definition FpSatLimbs : nat := S (FpLimbs F).
Definition FpBytes : nat := Z.to_nat (8 * ((FpBits F - 1) / 64 + 1)).
Definition FpWideBytes : nat := 2 * FpBytes.

(** [ct.Bool] is 0 or 1. *)
Definition SetZero : limbs := replicate (FpLimbs F) 0.
Definition SetOne : limbs := fiatSetOne F.

(** The methods that may fail return the receiver and [ok]; a conversion of a
    slice to an array pointer panics on a slice that is too short. *)
Definition SetLimbs (data : list Z) : result (limbs * Z) :=
  if (length data <? FpLimbs F)%nat then Panic
  else Ok (fiatToMontgomery F (take (FpLimbs F) data), 1).
Definition SetUint64 (v : Z) : result (limbs * Z) :=
  SetLimbs (v :: replicate (FpLimbs F - 1) 0).

Definition SetBytes (f : limbs) (data : list Z) : limbs * Z :=
  if negb (length data =? FpBytes)%nat then (f, 0)
  else
    let nonMonty := fiatFromBytes F data in
    (fiatToMontgomery F nonMonty, 1).

Definition SetBytesWide (f : limbs) (data : list Z) : limbs * Z :=
  if (FpWideBytes <? length data)%nat then (f, 0)
  else
    let wideData := data ++ replicate (FpWideBytes - length data) 0 in
    let d0 := fiatFromBytes F (take FpBytes wideData) in
    let d1 := fiatFromBytes F (drop FpBytes wideData) in
    let d0 := fiatToMontgomery F d0 in
    let d1 := fiatToMontgomery F d1 in
    let d1 := fiatToMontgomery F d1 in
    (fiatAdd F d0 d1, 1).

Definition SetUniformBytes (f : limbs) (componentsData : list (list Z)) : limbs * Z :=
  match componentsData with [data] => SetBytesWide f data | _ => (f, 0) end.

(** [SetRandom]; a source that fails yields no bytes. *)
Definition SetRandom {P} (readFull : nat → P → option (list Z) * P) (f : limbs) (prng : P) :
    (limbs * Z) * P :=
  let '(uniformBytes, prng) := readFull (Z.to_nat ((FpBits F + 128 + 7) / 8)) prng in
  (match uniformBytes with None => (f, 0) | Some uniformBytes => SetUniformBytes f [uniformBytes] end, prng).

Definition Select (choice : Z) (z nz : limbs) : limbs := fiatSelectznz F choice z nz.
Definition Add (lhs rhs : limbs) : limbs := fiatAdd F lhs rhs.
Definition Double (x : limbs) : limbs := fiatAdd F x x.
Definition Sub (lhs rhs : limbs) : limbs := fiatSub F lhs rhs.
Definition Neg (v : limbs) : limbs := fiatOpp F v.
Definition Mul (lhs rhs : limbs) : limbs := fiatMul F lhs rhs.
Definition Square (v : limbs) : limbs := fiatSquare F v.

(** [(x | -x) >> 63] on [uint64]. *)
Definition nonzero_bit (x : Z) : Z := shr64 (Z.lor x (- x mod W)) 63.

(** The state of the inversion: [d], [ff], [g], [v] and [r]. *)
Definition Inv_step (st : divstate) : divstate :=
  let '(d, ff, g, v, r) := st in fiatDivstep F d ff g v r.
(** The loop takes two steps at a time, from one set of variables to the other
    and back. *)
Definition Inv_loop (st : divstate) : divstate :=
  Nat.iter (Z.to_nat (FpDivSteps F / 2)) (λ st, Inv_step (Inv_step st)) st.

Definition Inv (a : limbs) : limbs * Z :=
  let precomp := fiatDivstepPrecomp F in
  let g := fiatFromMontgomery F a ++ [0] in
  let ff := fiatMsat F in
  let r := fiatSetOne F in
  let v := replicate (FpLimbs F) 0 in
  let '(d, ff, g, v, r) := Inv_loop (1, ff, g, v, r) in
  let '(v, ff) :=
    if negb (FpDivSteps F mod 2 =? 0) then
      let '(out1, out2, out3, out4, out5) := Inv_step (d, ff, g, v, r) in (out4, out2)
    else (v, ff) in
  let h := fiatOpp F v in
  let v := fiatSelectznz F (shr64 (nth (FpLimbs F) ff 0) 63) v h in
  let f := fiatMul F v precomp in
  (f, nonzero_bit (fiatNonzero F f)).

Definition Div (lhs rhs : limbs) : limbs * Z :=
  let '(rhsInv, ok) := Inv rhs in (Mul lhs rhsInv, ok).

Definition IsNonZero (f : limbs) : Z :=
  let nonMonty := fiatFromMontgomery F f in
  nonzero_bit (fiatNonzero F nonMonty).
Definition IsZero (f : limbs) : Z := Z.lxor (IsNonZero f) 1.
Definition Equal (f v : limbs) : Z :=
  let diff := Sub f v in IsZero diff.
Definition IsOne (f : limbs) : Z := Equal f SetOne.

Definition Bytes (f : limbs) : list Z :=
  let nonMonty := fiatFromMontgomery F f in fiatToBytes F nonMonty.
Definition ComponentsBytes (f : limbs) : list (list Z) := [Bytes f].
Definition Limbs (f : limbs) : list Z := fiatFromMontgomery F f.
End element.
End FieldImpl.

Import FieldImpl.

(** ** Elements and the numbers they represent *)

Section theory.
Context (F : Fiat) `{!FiatField F}.
Local Notation n := (FpLimbs F).
Local Notation m := (fiatModulus F).
Local Notation R := (W ^ Z.of_nat (FpLimbs F)).

(** [a] is the Montgomery form of [x]. *)
Definition repr (a : limbs) (x : Z) : Prop :=
  valid n m a ∧ 0 <= x < m ∧ eval a = (x * R) mod m.

Lemma m_pos : 2 < m. Proof. apply fiat_modulus. Qed.
Lemma m_lt : m < R. Proof. apply fiat_modulus. Qed.

Lemma mod_eq x y : (x mod m = y mod m) ↔ (m | x - y).
Proof.
  pose proof m_pos. rewrite <-Z.mod_divide by lia. rewrite Zminus_mod. split; intros E.
  - by rewrite E, Z.sub_diag, Z.mod_0_l by lia.
  - pose proof (Z.mod_pos_bound x m). pose proof (Z.mod_pos_bound y m).
    apply Z.mod_divide in E as [k Hk]; [|lia]. assert (k = 0) by nia. lia.
Qed.

Lemma odd_coprime k : rel_prime m (2 ^ Z.of_nat k).
Proof.
  apply rel_prime_Zpower_r; [lia|]. apply rel_prime_sym, prime_rel_prime; [apply prime_2|].
  intros [q E]. pose proof fiat_odd as Ho. rewrite E, Z.odd_mul in Ho. by rewrite andb_false_r in Ho.
Qed.

Lemma R_pow2 : R = 2 ^ Z.of_nat (64 * n).
Proof.
  rewrite W_val. change 0x10000000000000000 with (2 ^ 64). rewrite <-Z.pow_mul_r by lia.
  f_equal. lia.
Qed.

(** Powers of two can be cancelled modulo the modulus. *)
Lemma cancel_pow2 k x y : (x * 2 ^ Z.of_nat k) mod m = (y * 2 ^ Z.of_nat k) mod m → x mod m = y mod m.
Proof.
  rewrite !mod_eq, <-Z.mul_sub_distr_r, Z.mul_comm. intros Hd.
  by apply (Gauss _ _ _ Hd), odd_coprime.
Qed.
Lemma cancel_R x y : (x * R) mod m = (y * R) mod m → x mod m = y mod m.
Proof. rewrite R_pow2. apply cancel_pow2. Qed.

Lemma valid_mod a : valid n m a → eval a mod m = eval a.
Proof. intros Ha. apply Z.mod_small, (valid_bound _ _ _ Ha). Qed.

Lemma repr_unique a x y : repr a x → repr a y → x = y.
Proof.
  intros (_ & Hx & Ex) (_ & Hy & Ey). rewrite Ex in Ey. apply cancel_R in Ey.
  by rewrite !Z.mod_small in Ey.
Qed.
Lemma repr_inj a b x : repr a x → repr b x → a = b.
Proof.
  intros ([Ha _] & _ & Ea) ([Hb _] & _ & Eb). apply (eval_inj n); [done..|]. congruence.
Qed.

Lemma repr_intro a x : valid n m a → eval a mod m = (x * R) mod m → repr a (x mod m).
Proof.
  intros Ha E. pose proof m_pos. split; [done|]. split; [apply Z.mod_pos_bound; lia|].
  by rewrite Zmult_mod_idemp_l, <-E, valid_mod.
Qed.

Lemma From_ok a x : repr a x →
  valid n m (fiatFromMontgomery F a) ∧ eval (fiatFromMontgomery F a) = x.
Proof.
  intros ([Ha Hl] & Hx & E). destruct (fiat_from a Ha) as [Hv Hm]. split; [done|].
  rewrite Z.mul_1_r, E, Zmod_mod in Hm. apply cancel_R in Hm.
  by rewrite valid_mod, Z.mod_small in Hm.
Qed.
Lemma To_ok a : words n a → repr (fiatToMontgomery F a) (eval a mod m).
Proof.
  intros Ha. destruct (fiat_to a Ha) as [Hv Hm]. apply repr_intro; [done|].
  apply cancel_R. rewrite Hm, Zmult_mod_idemp_r. f_equal. ring.
Qed.
Lemma repr_exists a : valid n m a → ∃ x, repr a x.
Proof.
  intros [Ha Hl]. destruct (fiat_from a Ha) as [Hv Hm]. exists (eval (fiatFromMontgomery F a)).
  split; [done|]. split; [apply (valid_bound _ _ _ Hv)|].
  rewrite Hm, Z.mul_1_r. by rewrite valid_mod.
Qed.

Lemma mont_repr a b x y out : repr a x → repr b y →
  mont_product n m (eval a) (eval b) out → repr out ((x * y) mod m).
Proof.
  intros (_ & _ & Ea) (_ & _ & Eb) [Hv Hm]. apply repr_intro; [done|].
  apply cancel_R. rewrite Hm, Ea, Eb, <-Zmult_mod. f_equal. ring.
Qed.

(** *** Ring operations *)

Lemma zero_words k : words k (replicate k 0) ∧ eval (replicate k 0) = 0.
Proof.
  split.
  - split; [apply length_replicate|]. apply Forall_replicate. unfold word. by rewrite W_val.
  - induction k as [|k IH]; [done|]. cbn [replicate]. change (0 + W * eval (replicate k 0) = 0).
    rewrite IH. lia.
Qed.
Lemma Zero_repr : repr (SetZero F) 0.
Proof.
  destruct (zero_words n) as [Hw He]. pose proof m_pos. unfold SetZero. split; [split; [done|lia]|].
  split; [lia|]. by rewrite He.
Qed.
Lemma One_repr : repr (SetOne F) 1.
Proof.
  destruct fiat_one as [Hv He]. pose proof m_pos. split; [done|]. split; [lia|].
  by rewrite Z.mul_1_l.
Qed.
Lemma Add_repr a b x y : repr a x → repr b y → repr (fiatAdd F a b) ((x + y) mod m).
Proof.
  intros (Ha & _ & Ea) (Hb & _ & Eb). destruct (fiat_add a b Ha Hb) as [Hv E].
  apply repr_intro; [done|]. by rewrite E, Zmod_mod, Ea, Eb, <-Zplus_mod, Z.mul_add_distr_r.
Qed.
Lemma Sub_repr a b x y : repr a x → repr b y → repr (fiatSub F a b) ((x - y) mod m).
Proof.
  intros (Ha & _ & Ea) (Hb & _ & Eb). destruct (fiat_sub a b Ha Hb) as [Hv E].
  apply repr_intro; [done|]. by rewrite E, Zmod_mod, Ea, Eb, <-Zminus_mod, Z.mul_sub_distr_r.
Qed.
Lemma Opp_repr a x : repr a x → repr (fiatOpp F a) ((- x) mod m).
Proof.
  intros (Ha & _ & Ea). destruct (fiat_opp a Ha) as [Hv E].
  apply repr_intro; [done|]. rewrite E, Zmod_mod, Ea. rewrite <-!Z.sub_0_l, Zminus_mod_idemp_r.
  f_equal. ring.
Qed.
Lemma Mul_repr a b x y : repr a x → repr b y → repr (fiatMul F a b) ((x * y) mod m).
Proof.
  intros Ha Hb. apply (mont_repr a b); [done..|]. apply fiat_mul; [apply Ha|apply Hb].
Qed.
Lemma Square_repr a x : repr a x → repr (fiatSquare F a) ((x * x) mod m).
Proof. intros Ha. apply (mont_repr a a); [done..|]. apply fiat_square, Ha. Qed.

(** *** Comparisons *)

Lemma shr_word_63 x : word x → shr64 x 63 = if x <? 2 ^ 63 then 0 else 1.
Proof.
  unfold word, shr64. rewrite W_val. intros Hx. rewrite Z.shiftr_div_pow2 by done.
  destruct (Z.ltb_spec x (2 ^ 63)); [apply Z.div_small; lia|].
  symmetry. apply (Z.div_unique _ _ _ (x - 2 ^ 63)); lia.
Qed.
Lemma nonzero_bit_ok x : word x → nonzero_bit x = if x =? 0 then 0 else 1.
Proof.
  intros Hx. unfold nonzero_bit, shr64. rewrite Z.shiftr_lor.
  change (Z.shiftr ?a 63) with (shr64 a 63).
  rewrite !shr_word_63; [|exact (mod_W (- x))|done].
  destruct (Z.eqb_spec x 0) as [->|Hne]; [done|].
  rewrite <-(Z.mod_unique_pos (- x) W (-1) (W - x)) by (unfold word in Hx; lia).
  unfold word in Hx. rewrite W_val in *. 
  destruct (Z.ltb_spec x (2 ^ 63)), (Z.ltb_spec (0x10000000000000000 - x) (2 ^ 63)); done || lia.
Qed.

Lemma IsNonZero_repr a x : repr a x → IsNonZero F a = if x =? 0 then 0 else 1.
Proof.
  intros Ha. apply From_ok in Ha as [[Hw _] He]. unfold IsNonZero.
  destruct (fiat_nonzero _ Hw) as [Hnz E]. rewrite nonzero_bit_ok by done. rewrite He in E.
  destruct (Z.eqb_spec (fiatNonzero F (fiatFromMontgomery F a)) 0), (Z.eqb_spec x 0); tauto.
Qed.
Lemma IsZero_repr a x : repr a x → IsZero F a = if x =? 0 then 1 else 0.
Proof. intros Ha. unfold IsZero. rewrite (IsNonZero_repr a x) by done. by destruct (x =? 0). Qed.
Lemma Equal_repr a b x y : repr a x → repr b y → Equal F a b = if x =? y then 1 else 0.
Proof.
  intros Ha Hb. unfold Equal, Sub. rewrite (IsZero_repr _ _ (Sub_repr a b x y Ha Hb)).
  destruct Ha as (_ & Hx & _), Hb as (_ & Hy & _). pose proof m_pos.
  destruct (Z.eqb_spec x y) as [->|Hne]; [by rewrite Z.sub_diag, Z.mod_0_l by lia|].
  destruct (Z.eqb_spec ((x - y) mod m) 0) as [E|]; [|done].
  apply Z.mod_divide in E as [k Hk]; [|lia]. assert (k = 0) by nia. lia.
Qed.

(** *** Bytes *)

Lemma FpBytes_eq : FpBytes F = (8 * n)%nat.
Proof. unfold FpBytes. rewrite <-fiat_limbs. lia. Qed.

Lemma Bytes_repr a x : repr a x →
  Forall byte (Bytes F a) ∧ length (Bytes F a) = FpBytes F ∧ bytes_eval (Bytes F a) = x.
Proof.
  intros Ha. apply From_ok in Ha as [[Hw _] He]. unfold Bytes. rewrite fiat_to_bytes by done.
  destruct (to_bytes_ok _ (proj2 Hw)) as (Hb & Hl & E). rewrite FpBytes_eq, Hl, (proj1 Hw), E.
  done.
Qed.
Lemma FromBytes_ok data : length data = FpBytes F → Forall byte data →
  words n (fiatFromBytes F data) ∧ eval (fiatFromBytes F data) = bytes_eval data.
Proof.
  rewrite FpBytes_eq. intros Hl Hb. rewrite fiat_from_bytes by done. by apply from_bytes_ok.
Qed.
Lemma SetBytes_repr f data : Forall byte data → length data = FpBytes F →
  repr (SetBytes F f data).1 (bytes_eval data mod m) ∧ (SetBytes F f data).2 = 1.
Proof.
  intros Hb Hl. unfold SetBytes. rewrite Hl, Nat.eqb_refl. cbn [negb fst snd]. split; [|done].
  destruct (FromBytes_ok data Hl Hb) as [Hw <-]. by apply To_ok.
Qed.

Lemma bytes_zeros k : bytes_eval (replicate k 0) = 0.
Proof.
  induction k as [|k IH]; [done|]. cbn [replicate]. change (0 + 256 * bytes_eval (replicate k 0) = 0).
  rewrite IH. lia.
Qed.
Lemma R_bytes : R = 256 ^ Z.of_nat (FpBytes F).
Proof.
  rewrite R_pow2, FpBytes_eq. change 256 with (2 ^ 8). rewrite <-Z.pow_mul_r by lia. f_equal. lia.
Qed.
(** [d0 * r2 + d1 * r3]. *)
Lemma SetBytesWide_repr f data : Forall byte data → (length data ≤ FpWideBytes F)%nat →
  repr (SetBytesWide F f data).1 (bytes_eval data mod m) ∧ (SetBytesWide F f data).2 = 1.
Proof.
  intros Hb Hl. unfold SetBytesWide. rewrite (proj2 (Nat.ltb_ge _ _) Hl). cbv zeta. cbn [fst snd].
  split; [|done]. set (wide := data ++ _). unfold FpWideBytes in *.
  assert (Forall byte wide) as Hw.
  { apply Forall_app. split; [done|]. apply Forall_replicate. unfold byte. lia. }
  assert (length wide = (2 * FpBytes F)%nat) as Hlw.
  { unfold wide. rewrite length_app, length_replicate. lia. }
  assert (bytes_eval data = bytes_eval (take (FpBytes F) wide) + R * bytes_eval (drop (FpBytes F) wide)) as ->.
  { transitivity (bytes_eval wide); [unfold wide; rewrite bytes_eval_app, bytes_zeros; lia|].
    rewrite <-(take_drop (FpBytes F) wide) at 1. rewrite bytes_eval_app, length_take, R_bytes.
    by rewrite Nat.min_l by lia. }
  destruct (FromBytes_ok (take (FpBytes F) wide)) as [W0 E0];
    [rewrite length_take; lia|by apply Forall_take|].
  destruct (FromBytes_ok (drop (FpBytes F) wide)) as [W1 E1];
    [rewrite length_drop; lia|by apply Forall_drop|].
  rewrite <-E0, <-E1. pose proof (To_ok _ W1) as (Hv & _ & E2).
  pose proof (Add_repr _ _ _ _ (To_ok _ W0) (To_ok _ (proj1 Hv))) as Ha.
  rewrite E2, Zmod_mod, Zmult_mod_idemp_l, <-Zplus_mod in Ha.
  by rewrite (Z.mul_comm R).
Qed.

(** *** Inversion *)

(** The numbers after [k] steps from the state of [Inv]. *)
Definition divsteps (k : nat) (x : Z) : Z * Z * Z * Z * Z :=
  Nat.iter k (divstep m) (1, m, x, 0, R mod m).
Definition steps : nat := Z.to_nat (FpDivSteps F).

(** What [k] steps keep: the ranges, the equations [v * x = 2^k * f * R] and
    [r * x = 2^k * g * R], and the common divisors of [f] and [g]. *)
Definition step_inv (k : nat) (x : Z) (st : Z * Z * Z * Z * Z) : Prop :=
  let '(d, f, g, v, r) := st in
  - Z.of_nat k <= d <= 1 + Z.of_nat k ∧ Z.odd f = true ∧ - m <= f <= m ∧ - m <= g <= m ∧
  (v * x) mod m = (f * R * 2 ^ Z.of_nat k) mod m ∧
  (r * x) mod m = (g * R * 2 ^ Z.of_nat k) mod m ∧
  ∀ c, (c | f) → (c | g) → (c | m) ∧ (c | x).

Lemma step_inv_0 x : 0 <= x < m → step_inv 0 x (divsteps 0 x).
Proof.
  intros Hx. pose proof m_pos. unfold step_inv, divsteps. change (Nat.iter 0 ?f ?y) with y.
  cbn iota beta. rewrite fiat_odd. change (Z.of_nat 0) with 0. rewrite Z.pow_0_r. split_and!; try (lia || done).
  - rewrite Z.mul_0_l, Z.mod_0_l by lia. symmetry. apply Z.mod_divide; [lia|].
    apply Z.divide_mul_l, Z.divide_factor_l.
  - rewrite Zmult_mod_idemp_l. f_equal. ring.
Qed.

Lemma half_odd a b : Z.odd a = true → Z.odd b = true → 2 * ((a - b) / 2) = a - b.
Proof.
  intros Ha Hb. symmetry. apply Z_div_exact_full_2; [done|].
  rewrite Zmod_odd, Z.odd_sub, Ha, Hb. done.
Qed.
Lemma half_even f g : Z.odd f = true → 2 * ((g + (g mod 2) * f) / 2) = g + (g mod 2) * f.
Proof.
  intros Hf. symmetry. apply Z_div_exact_full_2; [done|].
  rewrite Zmod_odd, Z.odd_add, Z.odd_mul, Hf, Zmod_odd. by destruct (Z.odd g).
Qed.
(** One of the two equations after the step, from those before it. *)
Lemma step_equation k x a b s t f g :
  (s * x) mod m = (f * R * 2 ^ Z.of_nat k) mod m →
  (t * x) mod m = (g * R * 2 ^ Z.of_nat k) mod m →
  ((a * s + b * t) mod m * x) mod m = ((a * f + b * g) * R * 2 ^ Z.of_nat k) mod m.
Proof.
  intros Es Et. rewrite Zmult_mod_idemp_l.
  replace ((a * s + b * t) * x) with (a * (s * x) + b * (t * x)) by ring.
  rewrite Zplus_mod, (Zmult_mod a), (Zmult_mod b), Es, Et, <-!Zmult_mod, <-Zplus_mod.
  f_equal. ring.
Qed.

Lemma step_inv_succ k x st : step_inv k x st → step_inv (S k) x (divstep m st).
Proof.
  destruct st as [[[[d f] g] v] r]. intros (Hd & Hf & Hfr & Hgr & Ev & Er & Hc).
  pose proof m_pos. unfold divstep, step_inv.
  rewrite Nat2Z.inj_succ, <-Z.add_1_r, Z.pow_add_r, Z.pow_1_r by lia.
  destruct (Z.ltb_spec 0 d), (Z.odd g) eqn:Hg; cbn [andb].
  1: { pose proof (half_odd g f Hg Hf) as Eh. split_and!; try lia; try done.
    - rewrite <-(Z.add_0_l (2 * r)), <-(Z.mul_0_l v), (step_equation k x 0 2 v r f g) by done.
      f_equal. ring.
    - replace (r - v) with ((-1) * v + 1 * r) by ring. rewrite (step_equation k x (-1) 1 v r f g) by done.
      f_equal. replace (-1 * f + 1 * g) with (2 * ((g - f) / 2)) by lia. ring.
    - intros c Hcg Hch. apply Hc; [|done]. replace f with (g - 2 * ((g - f) / 2)) by lia.
      apply Z.divide_sub_r; [done|]. by apply Z.divide_mul_r. }
  all: pose proof (half_even f g Hf) as Eh; pose proof (Z.mod_pos_bound g 2 ltac:(done)) as Hb;
    assert (- 2 * m <= g + g mod 2 * f <= 2 * m) by nia; split_and!; try lia; try done.
  all: try (rewrite <-(Z.add_0_r (2 * v)), <-(Z.mul_0_l r), (step_equation k x 2 0 v r f g) by done;
    f_equal; ring).
  all: try (replace (r + g mod 2 * v) with ((g mod 2) * v + 1 * r) by ring;
    rewrite (step_equation k x (g mod 2) 1 v r f g) by done; f_equal;
    replace (g mod 2 * f + 1 * g) with (2 * ((g + g mod 2 * f) / 2)) by lia; ring).
  all: intros c Hcf Hcg; apply Hc; [done|];
    replace g with (2 * ((g + g mod 2 * f) / 2) - g mod 2 * f) by lia;
    apply Z.divide_sub_r; by apply Z.divide_mul_r.
Qed.
Lemma step_inv_all k x : 0 <= x < m → step_inv k x (divsteps k x).
Proof.
  intros Hx. induction k as [|k IH]; [by apply step_inv_0|]. by apply step_inv_succ.
Qed.

Lemma step_range_inv k x st : (k ≤ steps)%nat → step_inv k x st → step_range m st.
Proof.
  destruct st as [[[[d f] g] v] r]. intros Hk (Hd & Hf & Hfr & Hgr & _).
  assert (Z.of_nat steps < 2 ^ 61).
  { unfold steps, FpDivSteps. destruct fiat_bits as [H0 H1].
    rewrite Z2Nat.id by (apply Z.div_pos; lia). apply Z.div_lt_upper_bound; lia. }
  unfold step_range. split_and!; lia || done.
Qed.

Definition Inv_start (a : limbs) : divstate :=
  (1, fiatMsat F, fiatFromMontgomery F a ++ [0], replicate n 0, fiatSetOne F).

Lemma words_snoc_0 k l : words k l → words (S k) (l ++ [0]) ∧ eval (l ++ [0]) = eval l.
Proof.
  intros [Hl Hw]. split.
  - split; [rewrite length_app; cbn; lia|]. apply Forall_app. split; [done|].
    repeat constructor; rewrite ?W_val; done.
  - clear Hl. induction Hw as [|x l Hx Hl IH]; [done|].
    change (x + W * eval (l ++ [0]) = x + W * eval l). by rewrite IH.
Qed.
Lemma twos_small k l : words (S k) l → eval l < W ^ Z.of_nat k → twos (S k) l = eval l.
Proof.
  intros _ Hl. unfold twos. rewrite Nat2Z.inj_succ, Z.pow_succ_r by lia.
  pose proof (pow_W_pos k). rewrite (proj2 (Z.ltb_lt _ _)); [done|]. rewrite W_val in *. nia.
Qed.

Lemma Inv_represents a x k : repr a x → (k ≤ steps)%nat →
  represents n m (Nat.iter k (Inv_step F) (Inv_start a)) (divsteps k x).
Proof.
  intros Ha. pose proof Ha as (_ & Hx & _). pose proof m_lt. pose proof m_pos.
  induction k as [|k IH]; intros Hk.
  - destruct (From_ok a x Ha) as [[Hw _] He], (words_snoc_0 n _ Hw) as [Hw' He'].
    destruct fiat_msat as [Hm Em], fiat_one as [Ho Eo], (zero_words n) as [Hz Ez].
    unfold divsteps, Inv_start. change (Nat.iter 0 ?f ?y) with y. unfold represents.
    assert (word 1) as H1 by (unfold word; by rewrite W_val).
    assert (twos (S n) (fiatMsat F) = m) as Et by (rewrite twos_small; [done..|by rewrite Em]).
    assert (twos (S n) (fiatFromMontgomery F a ++ [0]) = x) as Eg.
    { rewrite twos_small; [congruence|done|]. rewrite He', He. lia. }
    refine (conj H1 (conj eq_refl (conj (conj Hm Et) (conj (conj Hw' Eg) (conj (conj (conj Hz _) Ez) (conj Ho Eo)))))).
    by rewrite Ez; lia.
  - specialize (IH ltac:(lia)). change (Nat.iter (S k) ?f ?y) with (f (Nat.iter k f y)).
    change (divsteps (S k) x) with (divstep m (divsteps k x)).
    pose proof (step_range_inv k x _ ltac:(lia) (step_inv_all k x Hx)) as Hr.
    destruct (Nat.iter k (Inv_step F) (Inv_start a)) as [[[[dw fw] gw] vw] rw].
    by apply fiat_divstep.
Qed.

Lemma iter_twice {A} (f : A → A) k y : Nat.iter k (λ z, f (f z)) y = Nat.iter (2 * k) f y.
Proof.
  induction k as [|k IH]; [done|]. replace (2 * S k)%nat with (S (S (2 * k))) by lia.
  change (f (f (Nat.iter k (λ z, f (f z)) y)) = f (f (Nat.iter (2 * k) f y))). by rewrite IH.
Qed.

(** The two-step loop and the odd last step are [steps] single steps. *)
Lemma Inv_eq a :
  Inv F a =
  let '(_, ff, _, v, _) := Nat.iter steps (Inv_step F) (Inv_start a) in
  let f := fiatMul F (fiatSelectznz F (shr64 (nth n ff 0) 63) v (fiatOpp F v)) (fiatDivstepPrecomp F) in
  (f, nonzero_bit (fiatNonzero F f)).
Proof.
  unfold Inv, Inv_loop. cbv zeta. fold (Inv_start a). rewrite iter_twice.
  assert (0 <= FpDivSteps F) as HN by (apply Z.div_pos; [pose proof fiat_bits; lia|done]).
  pose proof (Z.div_mod (FpDivSteps F) 2 ltac:(done)) as Hdm.
  pose proof (Z.mod_pos_bound (FpDivSteps F) 2 ltac:(done)) as Hb.
  destruct (Z.eqb_spec (FpDivSteps F mod 2) 0) as [E|E]; cbn [negb].
  - replace steps with (2 * Z.to_nat (FpDivSteps F / 2))%nat by (unfold steps; lia).
    by destruct (Nat.iter _ _ _) as [[[[? ?] ?] ?] ?].
  - replace steps with (S (2 * Z.to_nat (FpDivSteps F / 2)))%nat by (unfold steps; lia).
    change (Nat.iter (S ?j) ?f ?y) with (f (Nat.iter j f y)).
    destruct (Nat.iter _ _ _) as [[[[? ?] ?] ?] ?].
    by destruct (Inv_step F _) as [[[[? ?] ?] ?] ?].
Qed.

(** The top bit is the sign. *)
Lemma sign_bit k l : words (S k) l → shr64 (nth k l 0) 63 = if twos (S k) l <? 0 then 1 else 0.
Proof.
  intros [Hl Hw]. assert (∃ lo top, l = lo ++ [top] ∧ length lo = k) as (lo & top & -> & Hk).
  { exists (take k l), (nth k l 0). split; [|rewrite length_take; lia].
    rewrite <-(take_drop k l) at 1. f_equal.
    assert (length (drop k l) = 1%nat) as Hd by (rewrite length_drop; lia).
    rewrite <-(take_drop k l) at 2. rewrite app_nth2; rewrite length_take; [|lia].
    replace (k - min k (length l))%nat with 0%nat by lia.
    destruct (drop k l) as [|y [|]]; done. }
  apply Forall_app in Hw as [Hlo Ht]. apply Forall_cons in Ht as [Ht _].
  rewrite app_nth2, Hk, Nat.sub_diag by lia. cbn [nth]. rewrite shr_word_63 by done.
  pose proof (eval_bound k lo (conj Hk Hlo)) as Hb.
  assert (eval (lo ++ [top]) = eval lo + W ^ Z.of_nat k * top) as E.
  { clear Hb Hl. subst k. induction lo as [|y lo IH].
    - cbn [app length eval foldr Z.of_nat]. rewrite Z.pow_0_r. lia.
    - apply Forall_cons in Hlo as [_ Hlo]. cbn [length]. rewrite Nat2Z.inj_succ, Z.pow_succ_r by lia.
      change (y + W * eval (lo ++ [top]) = y + W * eval lo + W * W ^ Z.of_nat (length lo) * top).
      rewrite IH by done. ring. }
  unfold twos. rewrite E, Nat2Z.inj_succ, Z.pow_succ_r by lia. unfold word in Ht.
  pose proof (pow_W_pos k). rewrite W_val in *.
  destruct (Z.ltb_spec top (2 ^ 63)), (Z.ltb_spec (2 * (eval lo + 0x10000000000000000 ^ Z.of_nat k * top))
    (0x10000000000000000 * 0x10000000000000000 ^ Z.of_nat k)); try nia.
  - by rewrite (proj2 (Z.ltb_ge _ _)) by nia.
  - by rewrite (proj2 (Z.ltb_lt _ _)) by nia.
Qed.

(** The number [g] after the last step. *)
Definition final_g (x : Z) : Z := let '(_, _, g, _, _) := divsteps steps x in g.

Lemma valid_word_zero a : valid n m a → nonzero_bit (fiatNonzero F a) = if eval a =? 0 then 0 else 1.
Proof.
  intros [Hw _]. destruct (fiat_nonzero a Hw) as [Hz E]. rewrite nonzero_bit_ok by done.
  destruct (Z.eqb_spec (fiatNonzero F a) 0), (Z.eqb_spec (eval a) 0); tauto.
Qed.

(** What [Inv] returns, from the state after the last step. *)
Lemma Inv_result a x : repr a x →
  let '(d, f, g, v, r) := divsteps steps x in
  ∃ s, valid n m s ∧ eval s = (if f <? 0 then - v else v) mod m ∧
    Inv F a = (fiatMul F s (fiatDivstepPrecomp F),
               nonzero_bit (fiatNonzero F (fiatMul F s (fiatDivstepPrecomp F)))).
Proof.
  intros Ha. rewrite Inv_eq. pose proof (Inv_represents a x steps Ha ltac:(lia)) as Hr.
  destruct (Nat.iter _ _ _) as [[[[dw fw] gw] vw] rw], (divsteps steps x) as [[[[d f] g] v] r].
  destruct Hr as (_ & _ & [Hf Ef] & _ & [Hv Ev] & _). rewrite (sign_bit n fw Hf), Ef.
  destruct (fiat_opp vw Hv) as [Hn En].
  exists (if f <? 0 then fiatOpp F vw else vw).
  rewrite (fiat_selectznz _ vw (fiatOpp F vw)); [|by destruct (f <? 0)|apply Hv|apply Hn].
  destruct (f <? 0); cbn [Z.eqb]; split_and!; try done.
  - by rewrite En, Ev.
  - by rewrite <-Ev, valid_mod.
Qed.

Lemma divsteps_zero k : (let '(_, _, g, v, _) := divsteps k 0 in g = 0 ∧ v = 0).
Proof.
  pose proof m_pos. induction k as [|k IH]; [done|].
  change (divsteps (S k) 0) with (divstep m (divsteps k 0)).
  destruct (divsteps k 0) as [[[[d f] g] v] r]. destruct IH as [-> ->].
  unfold divstep. rewrite andb_false_r. split; [done|]. by rewrite Z.mod_0_l by lia.
Qed.

(** [Inv] of zero is zero, and says so. *)
Lemma Inv_zero a : repr a 0 → Inv F a = (SetZero F, 0).
Proof.
  intros Ha. pose proof (Inv_result a 0 Ha) as Hr. pose proof (divsteps_zero steps) as Hz.
  destruct (divsteps steps 0) as [[[[d f] g] v] r]. destruct Hz as [_ ->], Hr as (s & Hs & Es & ->).
  assert (eval s = 0) as Es0 by (rewrite Es; destruct (f <? 0); apply Z.mod_0_l; pose proof m_pos; lia).
  destruct fiat_precomp as [Hp _]. destruct (fiat_mul s _ Hs Hp) as [Ho Hm].
  rewrite Es0, Z.mul_0_l, <-(Z.mul_0_l R) in Hm. apply cancel_R in Hm.
  rewrite valid_mod, Z.mod_0_l in Hm by (pose proof m_pos; done || lia).
  rewrite valid_word_zero, Hm by done. f_equal.
  destruct (zero_words n) as [Hw He]. apply (eval_inj n); [apply Ho|done|]. unfold SetZero. congruence.
Qed.

(** [Inv] of a unit is its inverse, provided the steps have brought [g] to
    zero. *)
Lemma Inv_unit a x : repr a x → rel_prime m x → final_g x = 0 →
  ∃ y, repr (Inv F a).1 y ∧ (x * y) mod m = 1 ∧ (Inv F a).2 = 1.
Proof.
  intros Ha Hc Hg. pose proof Ha as (_ & Hx & _). pose proof m_pos.
  pose proof (step_inv_all steps x Hx) as Hi. pose proof (Inv_result a x Ha) as Hr.
  unfold final_g in Hg. destruct (divsteps steps x) as [[[[d f] g] v] r]. subst g.
  destruct Hi as (_ & _ & _ & _ & Ev & _ & Hdiv), Hr as (s & Hs & Es & ->). cbn [fst snd].
  destruct (Hdiv f (Z.divide_refl f) (Z.divide_0_r f)) as [Hfm Hfx].
  assert (f = 1 ∨ f = -1) as Hf.
  { destruct Hc as [_ _ H1]. apply Z.divide_1_r, H1; done. }
  destruct fiat_precomp as [Hp Ep]. destruct (fiat_mul s _ Hs Hp) as [Ho Hm].
  set (out := fiatMul F s (fiatDivstepPrecomp F)) in *.
  assert ((eval s * x) mod m = (R * 2 ^ Z.of_nat steps) mod m) as Esx.
  { rewrite Es, Zmult_mod_idemp_l. destruct Hf as [-> | ->]; cbn [Z.ltb Z.compare].
    - rewrite Ev. f_equal. ring.
    - rewrite Z.mul_opp_l, <-Z.sub_0_l, Zminus_mod, Ev, <-Zminus_mod. f_equal. ring. }
  assert ((eval out * x) mod m = R mod m) as Eox.
  { apply cancel_R. replace (eval out * x * R) with (eval out * R * x) by ring.
    rewrite Zmult_mod, Hm, <-Zmult_mod.
    replace (eval s * eval (fiatDivstepPrecomp F) * x) with (eval s * x * eval (fiatDivstepPrecomp F)) by ring.
    rewrite Zmult_mod, Esx, <-Zmult_mod.
    replace (R * 2 ^ Z.of_nat steps * eval (fiatDivstepPrecomp F))
      with (R * (eval (fiatDivstepPrecomp F) * 2 ^ Z.of_nat steps)) by ring.
    unfold steps. rewrite Z2Nat.id by (apply Z.div_pos; [pose proof fiat_bits; lia|done]).
    by rewrite Zmult_mod, Ep, <-Zmult_mod. }
  destruct (repr_exists out Ho) as [y Hy]. exists y. split; [done|].
  assert ((x * y) mod m = 1) as Exy.
  { rewrite <-(Z.mod_small 1 m) by lia. apply cancel_R. destruct Hy as (_ & _ & Ey).
    rewrite Ey, Zmult_mod_idemp_l in Eox. rewrite Z.mul_1_l, <-Eox. f_equal. ring. }
  split; [done|]. rewrite valid_word_zero by done.
  destruct (Z.eqb_spec (eval out) 0) as [E0|]; [|done]. rewrite E0, Z.mul_0_l in Eox.
  rewrite <-(Z.mul_1_l R), <-(Z.mul_0_l R) in Eox. apply cancel_R in Eox.
  rewrite !Z.mod_small in Eox by lia. done.
Qed.
End theory.
