(* ===== verification/Fields.v ===== *)
(** * The prime fields of the curves

    The wrapper of the file [FieldImpl] over each of the nine generated
    fields, and what every one of them computes. *)

From Stdlib Require Import ZArith Lia Znumtheory.
From S2P Require Import Prelude Fiat FieldImpl K256Fp K256Fq P256Fp P256Fq PastaFp PastaFq Ed25519Fq Bls12381Fq Bls12381Fp.
Import FieldImpl.
Local Open Scope Z_scope.

#[export] Existing Instances K256Fp.K256Fp_field K256Fq.K256Fq_field P256Fp.P256Fp_field P256Fq.P256Fq_field
  PastaFp.PastaFp_field PastaFq.PastaFq_field Ed25519Fq.Ed25519Fq_field Bls12381Fq.Bls12381Fq_field
  Bls12381Fp.Bls12381Fp_field.

(** Minus the parameter of BLS12-381. *)
Definition bls_x : Z := 0xd201000000010000.

(** The fields and the primes of their standards. *)
Definition fields : list (Fiat * Z) :=
  [(K256Fp.fiat, 2 ^ 256 - 2 ^ 32 - 977);
   (K256Fq.fiat, 2 ^ 256 - 0x14551231950b75fc4402da1732fc9bebf);
   (P256Fp.fiat, 2 ^ 256 - 2 ^ 224 + 2 ^ 192 + 2 ^ 96 - 1);
   (P256Fq.fiat, 2 ^ 256 - 2 ^ 224 + 2 ^ 192 - 0x4319055258e8617b0c46353d039cdaaf);
   (PastaFp.fiat, 2 ^ 254 + 0x224698fc094cf91b992d30ed00000001);
   (PastaFq.fiat, 2 ^ 254 + 0x224698fc0994a8dd8c46eb2100000001);
   (Ed25519Fq.fiat, 2 ^ 252 + 27742317777372353535851937790883648493);
   (Bls12381Fq.fiat, bls_x ^ 4 - bls_x ^ 2 + 1);
   (Bls12381Fp.fiat, (bls_x + 1) ^ 2 * (bls_x ^ 4 - bls_x ^ 2 + 1) / 3 - bls_x)].

Lemma fields_all (P : Fiat → Z → Prop) :
  (∀ F, FiatField F → P F (fiatModulus F)) → Forall (λ '(F, p), P F p) fields.
Proof.
  intros HP. unfold fields. repeat apply Forall_cons_2; [..|apply Forall_nil_2];
    match goal with |- _ ?F ?p => replace p with (fiatModulus F) by (vm_compute; reflexivity) end;
    apply HP, _.
Qed.

(** C21. Each of the nine fields computes in the integers modulo the prime of
    its standard.  Every reduced list of limbs represents exactly one number
    below the prime, its Montgomery form, and no two represent the same; on
    representations, the constants, [Add], [Sub], [Neg], [Double], [Mul] and
    [Square] yield the representation of the sum, difference, ... modulo the
    prime, [Equal], [IsZero], [IsOne] and [IsNonZero] decide on the numbers,
    and [Select] selects.  [Bytes] is the little-endian encoding; [SetBytes]
    and [SetBytesWide] reduce any number of their length modulo the prime, other
    lengths leave the receiver and fail, and [SetBytes] inverts [Bytes].
    [Inv] of zero is zero and fails; [Inv] of a unit is its inverse and
    succeeds once the steps of the inversion have reached zero. *)
Theorem Fields_implement_arithmetic :
  Forall (λ '(F, p),
    (∀ a, valid (FpLimbs F) p a → ∃ x, repr F a x) ∧
    ∀ a b x y, repr F a x → repr F b y →
      0 <= x < p ∧ (a = b ↔ x = y) ∧
      repr F (SetZero F) 0 ∧ repr F (SetOne F) 1 ∧
      repr F (Add F a b) ((x + y) mod p) ∧ repr F (Sub F a b) ((x - y) mod p) ∧
      repr F (Neg F a) ((- x) mod p) ∧ repr F (Double F a) ((2 * x) mod p) ∧
      repr F (Mul F a b) ((x * y) mod p) ∧ repr F (Square F a) ((x * x) mod p) ∧
      Select F 0 a b = a ∧ Select F 1 a b = b ∧
      Equal F a b = (if x =? y then 1 else 0) ∧ IsZero F a = (if x =? 0 then 1 else 0) ∧
      IsOne F a = (if x =? 1 then 1 else 0) ∧ IsNonZero F a = (if x =? 0 then 0 else 1) ∧
      Forall byte (Bytes F a) ∧ length (Bytes F a) = FpBytes F ∧ bytes_eval (Bytes F a) = x ∧
      SetBytes F b (Bytes F a) = (a, 1) ∧
      (∀ data, Forall byte data →
        (length data = FpBytes F →
          repr F (SetBytes F b data).1 (bytes_eval data mod p) ∧ (SetBytes F b data).2 = 1) ∧
        (length data ≠ FpBytes F → SetBytes F b data = (b, 0)) ∧
        ((length data ≤ FpWideBytes F)%nat →
          repr F (SetBytesWide F b data).1 (bytes_eval data mod p) ∧ (SetBytesWide F b data).2 = 1) ∧
        ((FpWideBytes F < length data)%nat → SetBytesWide F b data = (b, 0))) ∧
      (x = 0 → Inv F a = (SetZero F, 0)) ∧
      (rel_prime p x → final_g F x = 0 →
        ∃ z, repr F (Inv F a).1 z ∧ (x * z) mod p = 1 ∧ (Inv F a).2 = 1)) fields.
Proof.
  apply fields_all. intros F HF. split; [by apply repr_exists|]. intros a b x y Ha Hb.
  pose proof (Bytes_repr F a x Ha) as (Hby & Hbl & Hbe).
  split; [apply Ha|]. split.
  { split; [intros ->; by eapply repr_unique|intros ->; by eapply repr_inj]. }
  split; [by apply Zero_repr|]. split; [by apply One_repr|].
  split; [by apply Add_repr|]. split; [by apply Sub_repr|]. split; [by apply Opp_repr|].
  split; [replace (2 * x) with (x + x) by ring; by apply Add_repr|].
  split; [by apply Mul_repr|]. split; [by apply Square_repr|].
  split; [apply (fiat_selectznz 0); [done|apply Ha|apply Hb]|].
  split; [apply (fiat_selectznz 1); [done|apply Ha|apply Hb]|].
  split; [exact (Equal_repr F a b x y Ha Hb)|]. split; [exact (IsZero_repr F a x Ha)|].
  split; [exact (Equal_repr F a (SetOne F) x 1 Ha (One_repr F))|].
  split; [exact (IsNonZero_repr F a x Ha)|].
  split; [done|]. split; [done|]. split; [done|]. split.
  { destruct (SetBytes_repr F b (Bytes F a) Hby Hbl) as [Hr Ho]. rewrite Hbe in Hr.
    rewrite Z.mod_small in Hr by apply Ha. rewrite (surjective_pairing (SetBytes F b _)), Ho.
    f_equal. by eapply repr_inj. }
  split; [|split; [intros ->; by apply Inv_zero|by apply Inv_unit]].
  intros data Hd. unfold SetBytes at 3, SetBytesWide at 3. split_and!.
  - intros Hl. by apply SetBytes_repr.
  - intros Hl. by rewrite (proj2 (Nat.eqb_neq _ _) Hl).
  - intros Hl. by apply SetBytesWide_repr.
  - intros Hl. by rewrite (proj2 (Nat.ltb_lt _ _) Hl).
Qed.

#[local] Transparent W.

(** The steps of the inversion do reach zero, here on a small number and on the
    end of the range; that they do on every number is a bound of Bernstein and
    Yang, which is not proved here. *)
Lemma inversion_reaches_zero :
  final_g K256Fp.fiat 3 = 0 ∧ final_g Ed25519Fq.fiat (fiatModulus Ed25519Fq.fiat - 1) = 0.
Proof. vm_compute. split; reflexivity. Qed.

(** The inverse of 3 in the base field of secp256k1, computed on limbs. *)
Lemma inverse_of_three :
  let three := Add K256Fp.fiat (Double K256Fp.fiat (SetOne K256Fp.fiat)) (SetOne K256Fp.fiat) in
  let '(inv, ok) := Inv K256Fp.fiat three in
  ok = 1 ∧ Mul K256Fp.fiat three inv = SetOne K256Fp.fiat.
Proof. vm_compute. split; reflexivity. Qed.
